(* ===== verification/_CoqProject ===== *)
-Q . S2P
Prelude.v
Text.v
Utf8.v
F64.v
Json.v
Seeder.v
Alloy.v
Agents.v
Db.v
DbStore.v
GenTypes.v
GenUtil.v
Templater.v
TestFile.v
CoreError.v
Generator.v
Campaign.v
TxActor.v
Scenario.v
Deploy.v
Spam.v
SpamRun.v
Sql.v
SqliteDb.v
SqliteRefine.v
Bn254.v
Flashblocks.v
Metrics.v
FileSystem.v
Histogram.v
Charts.v
Heatmap.v
BlockTrace.v
Report.v
CampaignReport.v
Orchestrator.v
Engine.v
EngineTransport.v
AuthClient.v
CliError.v
DataDir.v
RpcRuns.v
ReportFiles.v
CliUtil.v
CliArgs.v
Replay.v
SpamCommand.v
RunsKept.v
Setup.v
Admin.v
CustomContract.v
Builtins.v
CampaignRun.v
Main.v
BuildText.v
OpenRpc.v
ServerTypes.v
Builder.v
Sessions.v
LogStream.v
SessionRuns.v
