(* ===== verification/Prelude.v ===== *)
(** * contender: a verification development

    contender spams Ethereum nodes: from a scenario file it deploys contracts,
    sets them up, sends batches of transactions at a rate, collects receipts
    into a database, and reports on what it saw.  This library models the code
    that decides what is signed, sent, recorded and reported, and proves what
    that code promises.  Paths are relative to [src/crates].

    ** How the program's parts interact, and which file models which

    A scenario file ([testfile]) gives the steps of a plan.  The generator turns
    steps into transaction requests, drawing fuzzed values from a seed and
    senders from pools of agents, and fills placeholders from the database.  The
    test scenario completes, signs and sends them; an actor per endpoint caches
    what was sent and records what a block confirms.  The orchestrator wires a
    scenario to a spammer and a database; the server runs many of them as
    sessions; a campaign runs several scenarios stage after stage.  Reports read
    the database and the node.

    - [Prelude]: outcomes of fallible code, state passing, machine integers,
      bytes, list and map lemmas.  [Text]: ASCII text, numbers in decimal.
      [F64] ([core/src/buckets.rs]): doubles, latency buckets and quantiles.
      [Alloy]: the class of what is used of the alloy library.
    - [Seeder] ([core/src/generator/seeder]), [Agents]
      ([core/src/agent_controller.rs], [agent_pools.rs]): seeds, pools of
      signers and their funding.
    - [Db], [DbStore], [Sql], [SqliteDb], [SqliteRefine] ([core/src/db],
      [sqlite_db/src]): the interface of the database with its mock, an abstract
      store, tables behind a pool of connections, the SQLite implementation, and
      the refinement between the two.
    - [GenTypes], [GenUtil], [Templater], [CoreError], [Generator]
      ([core/src/generator], [core/src/error.rs]): steps, requests, placeholders,
      fuzzing and the loading of the transactions of a plan.  [Bn254]
      ([bn254_points.rs]): the points and the text of a proof.
    - [TestFile], [Campaign] ([testfile/src]): scenario files and the files of
      campaigns.
    - [TxActor] ([core/src/spammer/tx_actor.rs]): the actor and its flush task, as
      a step relation over the messages it gets.  [Utf8], [Json] and
      [Flashblocks] ([core/src/flashblocks.rs]): text in UTF-8, JSON values, and
      the client that turns a stream of flashblocks into marks for the actor.
    - [Metrics] ([core/src/provider.rs], [core/src/util.rs], the latencies that
      [core/src/test_scenario.rs] observes itself): the layer that times requests,
      the sends that go past it, what is collected of both, and the progress
      reports of a run.
    - [Scenario], [Spam], [SpamRun] ([core/src/test_scenario.rs],
      [core/src/spammer]): preparing, sending and accounting for batches, and
      the loop of a run.
    - [Orchestrator] ([core/src/orchestrator.rs] and the construction of a
      scenario): options, context, initialization with a simulated setup, runs.
      [Builder]: the setters of the builder, and both steps in one call.
    - [ServerTypes], [Sessions], [SessionRuns] ([cli/src/server]): parameters and
      errors of the RPC methods, the sessions with one step for each acquisition
      of their lock, and what holds of all interleavings of requests and tasks.
    - [Histogram], [Charts], [Heatmap], [BlockTrace], [Report], [CampaignReport]
      ([report/src]): blocks and traces asked for, charts, metrics, the report of
      runs and of campaigns.
    - [CliError], [CliUtil], [CliArgs], [SpamCommand] ([cli/src/util/utils.rs],
      [cli/src/commands/common.rs], [spam.rs], the error types): the arguments of
      the commands, the funding of accounts with its tasks and channel, and the
      spam command from its checks to the end of the run (without the report it
      ends with when asked to).  [RunsKept]: no step of the command removes or
      changes a run of the database, and it adds one of its own.
    - [ReportFiles] ([report/src/gen_html.rs], [cache.rs]): the files of reports
      and campaigns, on the model of the file system.
    - [LogStream] ([cli/src/server/log_layer.rs], [sse.rs], [subscribeLogs]): the
      server of [Sessions] with the broadcast channels of its sessions and their
      subscribers.
    - [FileSystem], [DataDir] ([std::fs], [cli/src/util/utils.rs],
      [cli/src/commands/db.rs], the opening of the database in
      [cli/src/main.rs]): files, directories and what the system may refuse; the
      data directory with its migration, the seed file, the database file with
      its backup, export and import.
    - [Deploy], [Setup] ([cli/src/commands/setup.rs]): what deployments leave in
      the database, and the setup of a scenario file.
    - [Engine], [EngineTransport], [AuthClient] ([engine_provider/src],
      [cli/src/util/provider.rs]): the requests of the engine API, advancing the
      chain, replaying blocks, the transport that renews its token, the advice on
      errors.  [Replay] ([cli/src/commands/replay.rs]): the command and what it
      records.
    - [Admin], [RpcRuns], [CampaignRun] ([cli/src/commands/admin.rs], [rpc.rs],
      [campaign.rs]): accounts and the reclaiming of funds, runs of raw requests,
      the campaign command.  A run of a stage is one step on the database, and
      the runs of a stage end in any order; the tasks of raw requests are joined
      in any order, through the layer of [Metrics] and into [SqliteDb].
    - [CustomContract], [Builtins] ([cli/src/default_scenarios]): the calls of a
      contract compiled for the user, and the scenarios that come with the
      program.
    - [Main] ([cli/src/main.rs], [cli/src/commands/mod.rs],
      [contender_subcommand.rs]): the dispatch of the commands.
    - [BuildText], [OpenRpc] ([cli/build.rs]): the text functions of the build
      script, the schemas it makes of Rust types, the search for the types a
      document needs, and the OpenRPC document.
    ** How code becomes definitions

    A [Result] that may panic is an [outcome]: [Ok], [Err] or [Panic]; a method on
    [&mut self] is a computation of [stm], in which an error keeps the effects
    before it.  What a step of the database changes is its returned state; the
    effects of a database call that fails are not kept in an [outcome].  Integers
    are [Z]; arithmetic that can overflow goes through [arith], which panics or
    wraps by the build [Profile]; [U256] is a [Z] modulo [2^256] whose operators
    wrap.  Text is ASCII.  A [HashMap] is a [gmap]: theorems do not depend on its
    order, or the order is an argument; a [BTreeMap] is a [gmap] listed in the
    order of its keys.  What a node, a clock or another process answers is an
    argument: records of responses such as [RpcNode], [TaskRpc], [SendNode],
    [FlushEnv], [ReportNode], [NewNode], [SimEnv], [InitEnv] and [RunEnv], lists
    of events, and the order in which concurrent tasks' results arrive; the pool
    of database connections picks by an oracle.  Third-party functions (alloy's
    ABI and signers, arkworks' proofs, chrono's and regex' text, base64 and TOML)
    are class members or section variables.

    ** What the theorems show

    - Invariants over all histories: the actor's cache ([TxActor.reachable_inv]),
      one owner for each contender whatever the interleaving
      ([SessionRuns.contender_single_owner]), ids and foreign keys of the tables
      ([SqliteDb.database_consistent]) and the types of their cells
      ([SqliteRefine.cells_typed]).
    - Refinement: the SQLite database and the abstract store answer sequences of
      calls alike, each call served by one connection that enforces foreign keys
      and with values the columns hold ([SqliteRefine.sqlite_refines_store]).
    - What is signed and sent: each request as its payload, in order, with
      consecutive nonces ([Scenario.prepare_spam_nonces],
      [Generator.load_txs_nonces]), every payload in one task
      ([Spam.execute_spam_tasks]), and over a whole run the transactions of each
      period's chunk and nothing else ([Spam.run_nonces]).
    - What is recorded and reported: receipts written once
      ([TxActor.flush_block_exact]), the transactions of a run all or not at all
      ([SqliteDb.run_txs_stored]), totals and histograms against reference
      definitions ([CampaignReport.campaign_totals], [Heatmap.heatmap_counts],
      [Charts.time_to_inclusion_histogram]).
    - Life cycle: funding is checked before anything is sent
      ([Orchestrator.initialize_funded_or_refused]), runs leave the scenario
      ready ([Orchestrator.spam_leaves_ready]), [stop] reaches the run
      ([SessionRuns.stop_reaches_run]) unless two calls of [spam] race
      ([SessionRuns.racing_spam_unstoppable]), a removed session is gone
      ([Sessions.removed_for_good]).
    - Termination: the flush task and the waits end ([TxActor.flush_gives_up],
      [SpamRun.flush_wait_ends], [Orchestrator.anvil_wait_ends]).
    - The command line: what has been checked when a run starts
      ([SpamCommand.init_scenario_ok]), what is recorded when it ends
      ([SpamCommand.spam_ok]), what funding sends and when it does not return
      ([CliUtil.fund_accounts_spec], [CliUtil.fund_accounts_capacity]).
    - Commands: a scenario file of a campaign finds in its stages what its setup
      deployed ([CampaignRun.campaign_contracts_found]) and the database ends with
      a run for each entry that got a rate ([CampaignRun.campaign_recorded]); a setup
      ([Setup.setup_ready]), a replay ([Replay.replay_recorded]), raw requests
      ([RpcRuns.rpc_run_recorded]) and the reclaiming of funds
      ([Admin.reclaim_covers_agents]) end with what they say; a command runs on a
      database of its version ([Main.run_compatible]).
    - The engine API: an advanced chain extends the head with version 3, and is
      refused with version 4 ([Engine.advance_chain_extends]), a replay sends each block once and in
      order ([Engine.replay_chain_ok]).
    - Files: choosing the data directory loses nothing
      ([DataDir.data_dir_keeps_files]), an import keeps the database it replaces
      ([DataDir.import_keeps_old]), the links of a campaign's page lead to the
      pages of its runs ([ReportFiles.campaign_links_resolve]); each with any
      operation refused by the system.
    - The logs of sessions: a subscriber gets lines of its session only, in order,
      and knows what it missed ([LogStream.stream_delivers]), gets all when it and
      its client go on ([LogStream.stream_drains]), and nothing when the session
      was added while the sinks were locked ([LogStream.unrouted_session_silent]).
    - Latencies: the buckets count the answered requests of the process's clients
      and all its sends past them ([Metrics.latencies_counted]) and no quantile of them panics
      ([Metrics.collected_quantiles]); two first layers at once lose them all
      ([Metrics.race_loses_latencies]).
    - The build script: the search for types ends with exactly the reachable ones
      ([OpenRpc.collect_exact]), the recursion over the text of a type ends
      ([OpenRpc.schema_equation]), escaped text reads back
      ([BuildText.json_escape_read]).
    ** Bounds and fuel

    Loops over lists are structural.  The loops of a run and of the flush task
    take the list of triggers or blocks they see, and theorems about them speak of
    lists long enough; waits return [None] when the list of polls ends before the
    wait does, and their theorems give a length after which it cannot.  Fuel, where
    there is any: the wait for pending transactions in [SpamRun], where
    [flush_wait_ends] gives the number of ticks that suffices; the schema of a
    type in [OpenRpc], with the length of its text ([schema_equation] holds
    without fuel); the search for types there, with the number of seeds and
    references ([collect_exact]: it is enough).

    ** Third-party code as classes with laws

    tokio's broadcast channel ([LogStream.Broadcast]), prometheus' registry
    ([Metrics.Prometheus]), arkworks' curve ([Bn254.Curve]), the rendering of
    pages and serde on the cache file ([ReportFiles.Render]), SQLite's reading of
    literals ([Sql.SqlText]) and the promises of the engine API, with its forks and
    versions ([Engine.EngineLaws]), are classes or hypotheses that state their
    documented behaviour; each has an instance among the witnesses.  [RunsKept.RunLaws] is the part of the database's
    interface that spamming relies on; the abstract store has it.

    ** Not modelled

    HTTP and WebSocket servers and clients, command-line parsing, the setup of
    log subscribers, the rendering of pages, the parsing of TOML and of Rust
    files, arkworks' multiplication of points, the methods of the engine API
    that nothing calls, and tests: they are calls into libraries, or not part of the program.  Channels other than those of
    [LogStream] and [CliUtil] are modelled by what arrives, not by their buffers.
    Text outside ASCII, except in [Utf8], and failures of disk and locks inside
    SQLite are left out; so are path components hidden in a file name that is
    made of an id. *)

From Stdlib Require Export ZArith Lia Bool.
From Stdlib Require Import Strings.Byte.
From Stdlib Require Import Strings.String.
From stdpp Require Export base numbers list strings gmap option sorting.

#[global] Set Default Goal Selector "!".
#[global] Open Scope Z_scope.

(** ** Outcomes of fallible code

    A Rust function that returns [Result<A, E>] and may also panic yields an
    [outcome E A]: [Ok], [Err], or [Panic] (an [unwrap], [expect], [assert!],
    slice or arithmetic failure that unwinds). *)

Inductive outcome (E A : Type) : Type :=
| Ok (a : A)
| Err (e : E)
| Panic.

Arguments Ok {E A} a.
Arguments Err {E A} e.
Arguments Panic {E A}.

#[export] Instance outcome_ret {E} : MRet (outcome E) := fun A a => Ok a.

#[export] Instance outcome_bind {E} : MBind (outcome E) :=
  fun A B f m => match m with Ok a => f a | Err e => Err e | Panic => Panic end.

#[export] Instance outcome_fmap {E} : FMap (outcome E) :=
  fun A B f m => match m with Ok a => Ok (f a) | Err e => Err e | Panic => Panic end.

(** [result.map_err(f)]. *)
Definition map_err {E F A} (f : E -> F) (m : outcome E A) : outcome F A :=
  match m with Ok a => Ok a | Err e => Err (f e) | Panic => Panic end.

(** [option.ok_or(e)]. *)
Definition ok_or {E A} (e : E) (o : option A) : outcome E A :=
  match o with Some a => Ok a | None => Err e end.

(** [option.unwrap()] and [option.expect(..)]. *)
Definition unwrap {E A} (o : option A) : outcome E A :=
  match o with Some a => Ok a | None => Panic end.

(** [result.ok()], where the panic of the argument is kept apart by the
    caller: only used on computations that cannot panic. *)
Definition ok {E A} (m : outcome E A) : option A :=
  match m with Ok a => Some a | _ => None end.

Definition is_ok {E A} (m : outcome E A) : bool :=
  match m with Ok _ => true | _ => false end.

(** [assert!(b)]. *)
Definition assert_ {E} (b : bool) : outcome E unit := if b then Ok tt else Panic.

(** [if !b { return Err(e) }]. *)
Definition ensure {E} (b : bool) (e : E) : outcome E unit := if b then Ok tt else Err e.

Section outcome_lemmas.
Context {E : Type}.

Lemma bind_ok {A B} (m : outcome E A) (f : A -> outcome E B) b :
  (m ≫= f) = Ok b <-> exists a, m = Ok a /\ f a = Ok b.
Proof. destruct m; cbn; naive_solver. Qed.

Lemma fmap_ok {A B} (f : A -> B) (m : outcome E A) b :
  (f <$> m) = Ok b <-> exists a, m = Ok a /\ b = f a.
Proof. destruct m; cbn; naive_solver. Qed.

Lemma map_err_ok {F A} (f : E -> F) (m : outcome E A) a :
  map_err f m = Ok a <-> m = Ok a.
Proof. destruct m; cbn; naive_solver. Qed.

Lemma ok_or_ok {A} (e : E) (o : option A) a : ok_or e o = Ok a <-> o = Some a.
Proof. destruct o; cbn; naive_solver. Qed.

Lemma unwrap_ok {A} (o : option A) a : unwrap (E := E) o = Ok a <-> o = Some a.
Proof. destruct o; cbn; naive_solver. Qed.

Lemma ensure_ok b (e : E) u : ensure b e = Ok u <-> b = true.
Proof. destruct b, u; cbn; naive_solver. Qed.

Lemma assert_ok b u : assert_ (E := E) b = Ok u <-> b = true.
Proof. destruct b, u; cbn; naive_solver. Qed.

Lemma is_ok_ex {A} (m : outcome E A) : is_ok m = true -> exists a, m = Ok a.
Proof. destruct m; cbn; naive_solver. Qed.

Lemma mapM_ok {A B} (f : A -> outcome E B) (l : list A) (k : list B) :
  mapM f l = Ok k <-> Forall2 (fun x y => f x = Ok y) l k.
Proof.
  revert k. induction l as [|x l IH]; intros k; cbn.
  - split; [intros [= <-]; constructor | by inversion 1].
  - rewrite bind_ok. setoid_rewrite bind_ok. split.
    + intros (y & Hy & k' & Hk & [= <-]). constructor; [done|]. by apply IH.
    + inversion 1 as [|? y ? k']; subst. exists y. split; [done|].
      exists k'. split; [by apply IH|done].
Qed.

Lemma mapM_total {A B} (f : A -> outcome E B) (g : A -> B) (l : list A) :
  (forall x, x ∈ l -> f x = Ok (g x)) -> mapM f l = Ok (g <$> l).
Proof.
  intros Hf. apply mapM_ok. induction l as [|x l IH]; csimpl; constructor.
  - apply Hf. left.
  - apply IH. intros y Hy. apply Hf. by right.
Qed.

Lemma mapM_length {A B} (f : A -> outcome E B) l k :
  mapM f l = Ok k -> length k = length l.
Proof. intros H%mapM_ok. by apply Forall2_length in H. Qed.

Lemma mapM_lookup {A B} (f : A -> outcome E B) l k i x :
  mapM f l = Ok k -> l !! i = Some x -> exists y, k !! i = Some y /\ f x = Ok y.
Proof. intros H%mapM_ok Hi. by eapply Forall2_lookup_l in H. Qed.
End outcome_lemmas.

(** [inv_outcome]: turn every hypothesis [m = Ok a] about a composed
    computation into the facts of its steps. *)
Ltac inv_outcome :=
  repeat match goal with
  | H : (_ ≫= _) = Ok _ |- _ => apply bind_ok in H as (? & ? & ?)
  | H : (_ <$> _) = Ok _ |- _ => apply fmap_ok in H as (? & ? & ?)
  | H : map_err _ _ = Ok _ |- _ => apply map_err_ok in H
  | H : ok_or _ _ = Ok _ |- _ => apply ok_or_ok in H
  | H : unwrap _ = Ok _ |- _ => apply unwrap_ok in H
  | H : ensure _ _ = Ok _ |- _ => apply ensure_ok in H
  | H : assert_ _ = Ok _ |- _ => apply assert_ok in H
  | H : mret _ = Ok _ |- _ => injection H as H
  | H : Ok _ = Ok _ |- _ => injection H as H
  | H : Err _ = Ok _ |- _ => discriminate H
  | H : Panic = Ok _ |- _ => discriminate H
  end; simplify_eq.

(** [run_ok m x H]: [m] is a closed computation that succeeds; name its result [x]
    and the equation [H : m = Ok x]. *)
Ltac run_ok m x H :=
  let H0 := fresh "Hrun" in
  assert (is_ok m = true) as H0 by (vm_compute; reflexivity);
  destruct (is_ok_ex m H0) as [x H]; clear H0.

(** [case_bool]: split on the condition of an [if] in a hypothesis or goal. *)
Ltac case_bool :=
  match goal with
  | |- context [if ?b then _ else _] => let H := fresh "Hb" in destruct b eqn:H
  | H0 : context [if ?b then _ else _] |- _ => let H := fresh "Hb" in destruct b eqn:H
  end.

(** ** Stateful code that may fail

    A method on [&mut self] that returns a [Result] yields the state it leaves
    behind together with its outcome: an error keeps the effects before it. *)

Definition stm (S E A : Type) : Type := S -> S * outcome E A.

#[export] Instance stm_ret {S E} : MRet (stm S E) := fun A a s => (s, Ok a).
#[export] Instance stm_bind {S E} : MBind (stm S E) := fun A B f m s =>
  match m s with
  | (s, Ok a) => f a s
  | (s, Err e) => (s, Err e)
  | (s, Panic) => (s, Panic)
  end.

(** A computation without effect; reading and replacing the state. *)
Definition lift {S E A} (m : outcome E A) : stm S E A := fun s => (s, m).
Definition gets {S E A} (f : S -> A) : stm S E A := fun s => (s, Ok (f s)).
Definition modify {S E} (f : S -> S) : stm S E unit := fun s => (f s, Ok tt).

Section stm_lemmas.
Context {S E : Type}.

Lemma stm_bind_ok {A B} (m : stm S E A) (f : A -> stm S E B) s s' b :
  (m ≫= f) s = (s', Ok b) <-> exists s1 a, m s = (s1, Ok a) /\ f a s1 = (s', Ok b).
Proof.
  unfold mbind, stm_bind. destruct (m s) as [s1 [a|e|]]; naive_solver.
Qed.

Lemma stm_bind_run {A B} (m : stm S E A) (f : A -> stm S E B) s s1 a :
  m s = (s1, Ok a) -> (m ≫= f) s = f a s1.
Proof. unfold mbind, stm_bind. by intros ->. Qed.

Lemma stm_lift_ok {A} (m : outcome E A) (s s' : S) a :
  lift m s = (s', Ok a) <-> s' = s /\ m = Ok a.
Proof. unfold lift. naive_solver. Qed.

Lemma stm_ret_ok {A} (x : A) (s s' : S) a :
  (mret x : stm S E A) s = (s', Ok a) <-> s' = s /\ a = x.
Proof. unfold mret, stm_ret. naive_solver. Qed.

Lemma stm_gets_ok {A} (f : S -> A) (s s' : S) a :
  (gets f : stm S E A) s = (s', Ok a) <-> s' = s /\ a = f s.
Proof. unfold gets. naive_solver. Qed.

Lemma stm_modify_ok (f : S -> S) s s' u :
  (modify f : stm S E unit) s = (s', Ok u) <-> s' = f s.
Proof. unfold modify. destruct u. naive_solver. Qed.
End stm_lemmas.

(** A loop of stateful steps that collects their results. *)
Fixpoint stm_mapM {S E A B} (f : A -> stm S E B) (l : list A) : stm S E (list B) :=
  match l with
  | [] => mret []
  | x :: l => y ← f x; ys ← stm_mapM f l; mret (y :: ys)
  end.

(** [inv_stm]: the steps of a stateful computation that succeeded. *)
Ltac inv_stm :=
  repeat match goal with
  | H : (_ ≫= _) _ = (_, Ok _) |- _ => apply stm_bind_ok in H as (? & ? & ? & ?)
  | H : lift _ _ = (_, Ok _) |- _ => apply stm_lift_ok in H as [? ?]
  | H : mret _ _ = (_, Ok _) |- _ => apply stm_ret_ok in H as [? ?]
  | H : gets _ _ = (_, Ok _) |- _ => apply stm_gets_ok in H as [? ?]
  | H : modify _ _ = (_, Ok _) |- _ => apply stm_modify_ok in H
  end; subst; inv_outcome.

(** ** Machine integers

    A [w]-bit unsigned integer is a [Z] between 0 and [MAX w].  Plain [+], [-]
    and [*] on them panic on overflow in a build with overflow checks and wrap
    around in one without: [Profile] says which of the two the build is. *)

Definition MAX (w : Z) : Z := 2 ^ w - 1.
Definition U64_MAX : Z := MAX 64.
Definition U128_MAX : Z := MAX 128.
Definition U256_MAX : Z := MAX 256.
Definition in_range (w x : Z) : bool := (0 <=? x) && (x <=? MAX w).
Definition wrap (w x : Z) : Z := x mod 2 ^ w.
Definition saturating_add (w a b : Z) : Z := Z.min (MAX w) (a + b).
Definition saturating_sub (a b : Z) : Z := Z.max 0 (a - b).
Definition checked (w x : Z) : option Z := if in_range w x then Some x else None.

Class Profile := overflow_checks : bool.

(** The value [x] of a plain arithmetic expression stored at width [w]. *)
Definition arith {P : Profile} {E} (w x : Z) : outcome E Z :=
  if in_range w x then Ok x
  else if overflow_checks then Panic else Ok (wrap w x).

(** Division and remainder: a zero divisor panics in every build. *)
Definition div_ {E} (a b : Z) : outcome E Z := if b =? 0 then Panic else Ok (a / b).
Definition rem_ {E} (a b : Z) : outcome E Z := if b =? 0 then Panic else Ok (a mod b).

Lemma in_range_spec w x : in_range w x = true <-> 0 <= x < 2 ^ w.
Proof. unfold in_range, MAX. rewrite andb_true_iff, !Z.leb_le. lia. Qed.

Lemma wrap_range w x : 0 <= w -> 0 <= wrap w x < 2 ^ w.
Proof. intros Hw. apply Z.mod_pos_bound. by apply Z.pow_pos_nonneg. Qed.

Lemma wrap_small w x : 0 <= x < 2 ^ w -> wrap w x = x.
Proof. apply Z.mod_small. Qed.

Lemma saturating_add_le w a b : saturating_add w a b <= MAX w.
Proof. unfold saturating_add. lia. Qed.

Lemma saturating_add_exact w a b : a + b < MAX w -> saturating_add w a b = a + b.
Proof. unfold saturating_add. lia. Qed.

Lemma saturating_sub_spec a b : saturating_sub a b = if b <=? a then a - b else 0.
Proof. unfold saturating_sub. destruct (Z.leb_spec b a); lia. Qed.

Section arith_lemmas.
Context {P : Profile} {E : Type}.

Lemma arith_in w x : 0 <= x < 2 ^ w -> arith (E := E) w x = Ok x.
Proof. intros H. unfold arith. by rewrite (proj2 (in_range_spec w x) H). Qed.

Lemma arith_ok_range w x y : 0 <= w -> arith (E := E) w x = Ok y -> 0 <= y < 2 ^ w.
Proof.
  intros Hw. unfold arith. destruct (in_range w x) eqn:Hr.
  - intros [= <-]. by apply in_range_spec.
  - destruct overflow_checks; [done|]. intros [= <-]. by apply wrap_range.
Qed.

Lemma arith_checked w x y :
  overflow_checks = true -> arith (E := E) w x = Ok y -> y = x /\ 0 <= x < 2 ^ w.
Proof.
  unfold arith. intros ->. destruct (in_range w x) eqn:Hr; [|done].
  intros [= <-]. split; [done|]. by apply in_range_spec.
Qed.

Lemma arith_wrap w x y : 0 <= w -> arith (E := E) w x = Ok y -> y = wrap w x.
Proof.
  intros Hw. unfold arith. destruct (in_range w x) eqn:Hr.
  - intros [= <-]. symmetry. by apply wrap_small, in_range_spec.
  - destruct overflow_checks; [done|]. by intros [= <-].
Qed.
End arith_lemmas.

(** ** Bytes *)

Definition byte_to_Z (b : byte) : Z := Z.of_N (Byte.to_N b).
Definition byte_of_Z (z : Z) : byte :=
  match Byte.of_N (Z.to_N (z mod 256)) with Some b => b | None => x00 end.

(** [from_be_bytes] / [from_be_slice]. *)
Definition from_be (bs : list byte) : Z :=
  fold_left (fun acc b => acc * 256 + byte_to_Z b) bs 0.

(** The low [n] bytes of [z], most significant first ([to_be_bytes]). *)
Fixpoint to_be (n : nat) (z : Z) : list byte :=
  match n with
  | O => []
  | S k => byte_of_Z (z / 256 ^ Z.of_nat k) :: to_be k z
  end.

Definition to_le (n : nat) (z : Z) : list byte := rev (to_be n z).

Lemma byte_to_Z_range b : 0 <= byte_to_Z b < 256.
Proof.
  unfold byte_to_Z. pose proof (Byte.to_N_bounded b). lia.
Qed.

Lemma byte_of_Z_to_Z z : byte_to_Z (byte_of_Z z) = z mod 256.
Proof.
  unfold byte_of_Z, byte_to_Z.
  pose proof (Z.mod_pos_bound z 256 ltac:(lia)) as Hb.
  destruct (Byte.of_N (Z.to_N (z mod 256))) as [b|] eqn:Hof.
  - apply Byte.to_of_N in Hof. rewrite Hof. lia.
  - apply Byte.of_N_None_iff in Hof. lia.
Qed.

Lemma to_be_length n z : length (to_be n z) = n.
Proof. induction n; cbn; auto. Qed.

Lemma from_be_app l1 l2 :
  from_be (l1 ++ l2) = from_be l1 * 256 ^ Z.of_nat (length l2) + from_be l2.
Proof.
  unfold from_be. rewrite fold_left_app.
  generalize (fold_left (fun acc b => acc * 256 + byte_to_Z b) l1 0).
  induction l2 as [|b l2 IH] using rev_ind; intros a; cbn [fold_left length].
  - cbn. lia.
  - rewrite !fold_left_app, length_app, IH. cbn [fold_left length].
    replace (Z.of_nat (length l2 + 1)) with (Z.of_nat (length l2) + 1) by lia.
    rewrite Z.pow_add_r by lia. lia.
Qed.

Lemma from_be_cons b l :
  from_be (b :: l) = byte_to_Z b * 256 ^ Z.of_nat (length l) + from_be l.
Proof. apply (from_be_app [b] l). Qed.

Lemma from_be_range l : 0 <= from_be l < 256 ^ Z.of_nat (length l).
Proof.
  induction l as [|b l IH]; [by cbn|].
  rewrite from_be_cons. cbn [length]. rewrite Nat2Z.inj_succ, Z.pow_succ_r by lia.
  pose proof (byte_to_Z_range b). nia.
Qed.

Lemma from_be_to_be n z : from_be (to_be n z) = z mod 256 ^ Z.of_nat n.
Proof.
  induction n as [|n IH]; cbn [to_be].
  - cbn. by rewrite Z.mod_1_r.
  - rewrite from_be_cons, to_be_length, byte_of_Z_to_Z, IH.
    rewrite Nat2Z.inj_succ, Z.pow_succ_r by lia.
    rewrite (Z.mul_comm 256), Z.rem_mul_r by lia. lia.
Qed.

Lemma from_be_skip l n :
  (n <= length l)%nat ->
  from_be (drop n l) = from_be l mod 256 ^ Z.of_nat (length l - n).
Proof.
  intros Hn. rewrite <- (take_drop n l) at 2. rewrite from_be_app, length_drop.
  rewrite Z.add_comm, Z.mod_add by lia. symmetry. apply Z.mod_small.
  rewrite <- length_drop. apply from_be_range.
Qed.

#[global] Arguments String.append : simpl nomatch.
#[global] Arguments to_be : simpl never.
#[global] Arguments from_be : simpl never.

(** ** Strings

    A [&str] is the [string] of its UTF-8 bytes; indices are byte indices. *)

Definition str_take (n : nat) (s : string) : string := substring 0 n s.
Definition str_drop (n : nat) (s : string) : string := substring n (String.length s - n) s.
Definition str_find (pat s : string) : option nat := String.index 0 pat s.
Definition str_contains (pat s : string) : bool :=
  match str_find pat s with Some _ => true | None => false end.
Definition starts_with (pat s : string) : bool := String.prefix pat s.
Definition strip_prefix (pat s : string) : option string :=
  if starts_with pat s then Some (str_drop (String.length pat) s) else None.
Definition str_bytes (s : string) : list byte := list_byte_of_string s.

(** [s.replace(from, to)] for a non-empty [from]: every match, left to right,
    without overlap.  A match consumes a byte at least, so [length s] rounds
    are enough. *)
Fixpoint replace_fuel (fuel : nat) (from to s : string) : string :=
  match fuel with
  | O => s
  | S k =>
      match str_find from s with
      | None => s
      | Some i =>
          (str_take i s +:+ to +:+
             replace_fuel k from to (str_drop (i + String.length from) s))%string
      end
  end.
Definition str_replace (from to s : string) : string :=
  replace_fuel (String.length s) from to s.

Lemma str_contains_false pat s : str_contains pat s = false <-> str_find pat s = None.
Proof. unfold str_contains. destruct (str_find pat s); naive_solver. Qed.

Lemma str_replace_absent from to s : str_contains from s = false -> str_replace from to s = s.
Proof.
  intros H%str_contains_false. unfold str_replace.
  destruct (String.length s); cbn; [done|]. by rewrite H.
Qed.

(** ** Lists *)

Fixpoint sumZ (l : list Z) : Z :=
  match l with [] => 0 | x :: l => x + sumZ l end.

Lemma sumZ_app l k : sumZ (l ++ k) = sumZ l + sumZ k.
Proof. induction l; cbn; lia. Qed.

Lemma sumZ_perm l k : l ≡ₚ k -> sumZ l = sumZ k.
Proof. induction 1; cbn; lia. Qed.

Lemma sumZ_nonneg l : Forall (Z.le 0) l -> 0 <= sumZ l.
Proof. induction 1; cbn; lia. Qed.

#[export] Instance sumZ_Proper : Proper ((≡ₚ) ==> eq) sumZ.
Proof. intros l k. apply sumZ_perm. Qed.

(** The list [0, 1, .., n - 1] as integers ([0..n]). *)
Definition rangeZ (n : nat) : list Z := Z.of_nat <$> seq 0 n.

Lemma rangeZ_length n : length (rangeZ n) = n.
Proof. unfold rangeZ. by rewrite length_fmap, length_seq. Qed.

(** [slice::sort] on integers. *)
Definition sortZ (l : list Z) : list Z := merge_sort Z.le l.

Lemma sortZ_perm l : sortZ l ≡ₚ l.
Proof. apply merge_sort_Permutation. Qed.

Lemma sortZ_sorted l : Sorted Z.le (sortZ l).
Proof. apply (Sorted_merge_sort Z.le). Qed.

Lemma sortZ_unique l k : l ≡ₚ k -> sortZ l = sortZ k.
Proof.
  intros H. apply (Sorted_unique Z.le).
  - apply sortZ_sorted.
  - apply sortZ_sorted.
  - by rewrite !sortZ_perm.
Qed.

(** [slice::sort_by_key] with an integer key: stable. *)
Section sort_by.
Context {A : Type} (key : A -> Z).

Fixpoint insert_by (x : A) (l : list A) : list A :=
  match l with
  | [] => [x]
  | y :: l' => if key x <=? key y then x :: l else y :: insert_by x l'
  end.

Fixpoint sort_by (l : list A) : list A :=
  match l with [] => [] | x :: l => insert_by x (sort_by l) end.

Lemma insert_by_perm x l : insert_by x l ≡ₚ x :: l.
Proof.
  induction l as [|y l IH]; cbn; [done|]. destruct (key x <=? key y); [done|].
  rewrite IH. apply Permutation_swap.
Qed.

Lemma sort_by_perm l : sort_by l ≡ₚ l.
Proof. induction l as [|x l IH]; cbn; [done|]. by rewrite insert_by_perm, IH. Qed.

Lemma insert_by_sorted x l :
  StronglySorted Z.le (key <$> l) -> StronglySorted Z.le (key <$> insert_by x l).
Proof.
  induction l as [|y l IH]; cbn; [repeat constructor|]. intros Hs.
  apply StronglySorted_inv in Hs as [Hs Hy].
  destruct (Z.leb_spec (key x) (key y)); cbn.
  - constructor; [by constructor|]. constructor; [done|].
    eapply Forall_impl; [exact Hy|]. cbn. lia.
  - constructor; [by apply IH|]. rewrite insert_by_perm. cbn. constructor; [lia|done].
Qed.

Lemma sort_by_sorted l : StronglySorted Z.le (key <$> sort_by l).
Proof. induction l; cbn; [constructor|by apply insert_by_sorted]. Qed.

Lemma insert_by_stable x l k :
  filter (fun a => key a = k) (insert_by x l) = filter (fun a => key a = k) (x :: l).
Proof.
  induction l as [|y l IH]; [done|]. cbn [insert_by].
  destruct (Z.leb_spec (key x) (key y)); [done|].
  rewrite filter_cons, IH, !filter_cons. repeat case_decide; (done || lia).
Qed.

Lemma sort_by_stable l k :
  filter (fun a => key a = k) (sort_by l) = filter (fun a => key a = k) l.
Proof.
  induction l as [|x l IH]; [done|]. cbn [sort_by]. rewrite insert_by_stable, !filter_cons.
  by rewrite IH.
Qed.
End sort_by.

(** A loop whose body may fail, and its value on a list cut in two. *)
Fixpoint fold_steps {E X Y} (f : Y -> X -> outcome E Y) (st : Y) (l : list X) : outcome E Y :=
  match l with
  | [] => Ok st
  | x :: l => st ← f st x; fold_steps f st l
  end.

Lemma fold_steps_app {E X Y} (f : Y -> X -> outcome E Y) st l k :
  fold_steps f st (l ++ k) = (st ← fold_steps f st l; fold_steps f st k).
Proof. revert st. induction l as [|x l IH]; intros st; cbn; [done|]. by destruct (f st x); cbn. Qed.

(** An invariant of the body is an invariant of the loop. *)
Lemma fold_steps_inv {E X Y} (I : Y -> Prop) (f : Y -> X -> outcome E Y) st l st' :
  (forall y x y', I y -> f y x = Ok y' -> I y') ->
  I st -> fold_steps f st l = Ok st' -> I st'.
Proof.
  intros Hf. revert st. induction l as [|x l IH]; intros st HI H; cbn in H; inv_outcome; [done|].
  eapply IH; [|done]. by eapply Hf.
Qed.

Lemma filter_nil_forall {A} (P : A -> Prop) `{forall x, Decision (P x)} (l : list A) :
  (forall x, x ∈ l -> ~ P x) -> filter P l = [].
Proof.
  induction l as [|x l IH]; intros Hl; [done|]. rewrite filter_cons, decide_False.
  - apply IH. intros y Hy. apply Hl. by right.
  - apply Hl. left.
Qed.

Lemma filter_ext_in {A} (P Q : A -> Prop) `{forall x, Decision (P x), forall x, Decision (Q x)}
    (l : list A) :
  (forall x, x ∈ l -> P x <-> Q x) -> filter P l = filter Q l.
Proof.
  induction l as [|x l IH]; intros Hl; [done|]. rewrite !filter_cons, IH.
  - specialize (Hl x ltac:(left)). repeat case_decide; tauto.
  - intros y Hy. apply Hl. by right.
Qed.

Lemma filter_true {A} (l : list A) : filter (fun _ => true = true) l = l.
Proof. induction l as [|x l IH]; [done|]. by rewrite filter_cons, decide_True, IH. Qed.

Lemma filter_all_true {A} (P : A -> Prop) `{forall x, Decision (P x)} (l : list A) :
  (forall x, x ∈ l -> P x) -> filter P l = l.
Proof.
  induction l as [|x l IH]; intros Hp; [done|]. rewrite filter_cons, decide_True by (apply Hp; left).
  f_equal. apply IH. intros y Hy. apply Hp. by right.
Qed.

(** [slice::chunks]: panics on size zero. *)
Fixpoint chunks_fuel {X} (fuel n : nat) (l : list X) : list (list X) :=
  match fuel, l with
  | S fuel, _ :: _ => take n l :: chunks_fuel fuel n (drop n l)
  | _, _ => []
  end.
Definition chunks {E X} (n : nat) (l : list X) : outcome E (list (list X)) :=
  if (n =? 0)%nat then Panic else Ok (chunks_fuel (length l) n l).

Lemma chunks_fuel_spec {X} fuel n (l : list X) :
  (0 < n)%nat -> (length l <= fuel)%nat ->
  concat (chunks_fuel fuel n l) = l /\
  Forall (fun c => 0 < length c <= n)%nat (chunks_fuel fuel n l) /\
  forall i, ((i + 1) * n <= length l)%nat ->
    exists c, chunks_fuel fuel n l !! i = Some c /\ length c = n.
Proof.
  intros Hn. revert l. induction fuel as [|fuel IH]; intros l Hl.
  { destruct l; cbn in Hl; [|lia]. cbn. split_and!; [done|done|]. intros i Hi. lia. }
  destruct l as [|x l]; cbn [chunks_fuel].
  { split_and!; [done|done|]. intros i Hi. cbn in Hi. lia. }
  destruct (IH (drop n (x :: l))) as (Hc & Hf & Hi).
  { rewrite length_drop. cbn in Hl |- *. lia. }
  split_and!.
  - cbn. by rewrite Hc, take_drop.
  - constructor; [|done]. rewrite length_take. cbn. lia.
  - intros [|i] Hlt.
    + eexists. split; [done|]. rewrite length_take. lia.
    + apply Hi. rewrite length_drop. lia.
Qed.

Lemma omap_length_le {X Y} (f : X -> option Y) (l : list X) : (length (omap f l) <= length l)%nat.
Proof. induction l as [|x l IH]; cbn; [lia|]. destruct (f x); cbn; lia. Qed.

(** The sums of the groups of a partition add up to the sum of the whole. *)
Lemma sumZ_groups {A K} `{EqDecision K} (key : A -> K) (f : A -> Z) (ks : list K) (l : list A) :
  NoDup ks -> (forall x, x ∈ l -> key x ∈ ks) ->
  sumZ ((fun k => sumZ (f <$> filter (fun x => key x = k) l)) <$> ks) = sumZ (f <$> l).
Proof.
  intros Hks. induction l as [|x l IH]; intros Hin.
  - clear. induction ks; csimpl; [done|]. cbn in *. lia.
  - csimpl. rewrite <- IH by (intros y Hy; apply Hin; by right).
    assert (key x ∈ ks) as Hx by (apply Hin; left). clear IH Hin.
    induction Hks as [|k ks Hk Hks IH]; [by apply not_elem_of_nil in Hx|]. csimpl.
    rewrite filter_cons. destruct (decide (key x = k)) as [<-|Hne].
    + csimpl. cut (sumZ ((fun k => sumZ (f <$> filter (fun y => key y = k) (x :: l))) <$> ks)
        = sumZ ((fun k => sumZ (f <$> filter (fun y => key y = k) l)) <$> ks)); [cbn; lia|].
      f_equal. apply list_fmap_ext. intros i k' Hk'. rewrite filter_cons_False; [done|].
      intros <-. apply Hk. by eapply list_elem_of_lookup_2.
    + apply elem_of_cons in Hx as [Hx|Hx]; [done|]. specialize (IH Hx).
      cbn in *. lia.
Qed.
