(* ===== verification/Text.v ===== *)
(** * Text functions of Rust's standard library

    Trimming, prefixes and suffixes, decimal and hexadecimal forms, lower case.
    Text is ASCII: white space, digits and letters outside ASCII are not
    recognised here as Rust recognises them. *)

From Stdlib Require Import Strings.Ascii Strings.String.
From Stdlib Require Import DecimalString DecimalN DecimalFacts.
From S2P Require Import Prelude.

Definition is_space (c : ascii) : bool :=
  let n := nat_of_ascii c in (n =? 32)%nat || ((9 <=? n)%nat && (n <=? 13)%nat).
Definition is_digit (c : ascii) : bool :=
  let n := nat_of_ascii c in (48 <=? n)%nat && (n <=? 57)%nat.

Fixpoint str_all (p : ascii -> bool) (s : string) : bool :=
  match s with EmptyString => true | String c s => p c && str_all p s end.

Fixpoint str_rev_app (s acc : string) : string :=
  match s with EmptyString => acc | String c s => str_rev_app s (String c acc) end.
Definition str_rev (s : string) : string := str_rev_app s "".
#[global] Arguments str_rev : simpl never.

(** [trim_start], [trim_end], [trim]. *)
Fixpoint trim_start (s : string) : string :=
  match s with
  | String c s' => if is_space c then trim_start s' else s
  | EmptyString => EmptyString
  end.
Definition trim_end (s : string) : string := str_rev (trim_start (str_rev s)).
Definition trim (s : string) : string := trim_end (trim_start s).

(** [s.strip_suffix(pat)] and [s.ends_with(pat)]. *)
Definition ends_with (pat s : string) : bool := String.prefix (str_rev pat) (str_rev s).
Definition strip_suffix (pat s : string) : option string :=
  if ends_with pat s then Some (str_take (String.length s - String.length pat) s) else None.

(** [find(|c| p c)]: the position of the first such character. *)
Fixpoint find_char (p : ascii -> bool) (s : string) : option nat :=
  match s with
  | EmptyString => None
  | String c s => if p c then Some 0%nat else S <$> find_char p s
  end.

(** The number of characters [c] ([chars().filter(|&x| x == c).count()]). *)
Fixpoint count_char (c : ascii) (s : string) : nat :=
  match s with
  | EmptyString => 0
  | String d s => (if Ascii.eqb c d then 1 else 0) + count_char c s
  end.

Definition lower (c : ascii) : ascii :=
  let n := nat_of_ascii c in
  if (65 <=? n)%nat && (n <=? 90)%nat then ascii_of_nat (n + 32) else c.
Fixpoint to_lowercase (s : string) : string :=
  match s with EmptyString => EmptyString | String c s => String (lower c) (to_lowercase s) end.

(** [split(c)]: the pieces between the characters [c] (one more than there are). *)
Fixpoint split_char (c : ascii) (s : string) : list string :=
  match s with
  | EmptyString => [EmptyString]
  | String d s =>
      if Ascii.eqb c d then EmptyString :: split_char c s
      else match split_char c s with
           | x :: l => String d x :: l
           | [] => [String d EmptyString]
           end
  end.

(** [split_ascii_whitespace]: the maximal runs of other characters. *)
Definition split_ws (s : string) : list string :=
  (fix go (s : string) (cur : string) : list string :=
     match s with
     | EmptyString => if String.eqb cur "" then [] else [str_rev cur]
     | String c s =>
         if is_space c then (if String.eqb cur "" then go s "" else str_rev cur :: go s "")
         else go s (String c cur)
     end) s EmptyString.

(** [v.to_string()] of an unsigned integer. *)
Definition dec (v : Z) : string := NilZero.string_of_uint (N.to_uint (Z.to_N v)).

(** [format!("{:0width$}", v)]. *)
Fixpoint zeros (n : nat) : string := match n with O => "" | S n => String "0" (zeros n) end.
Definition dec_padded (width : nat) (v : Z) : string :=
  (zeros (width - String.length (dec v)) +:+ dec v)%string.

(** [s.parse::<uN>()]: decimal digits, at least one, an optional [+] before
    them, and a value that fits. *)
Definition parse_uint (w : Z) (s : string) : option Z :=
  let s := match s with String "+" r => r | _ => s end in
  match NilZero.uint_of_string s with
  | Some d => checked w (Z.of_N (N.of_uint d))
  | None => None
  end.

Definition hex_digit (n : Z) : ascii :=
  ascii_of_N (Z.to_N (if n <? 10 then 48 + n else 87 + n)).

(** The [n] low hexadecimal digits of [v], most significant first. *)
Fixpoint hex_digits (n : nat) (v : Z) : string :=
  match n with
  | O => ""
  | S k => String (hex_digit (v / 16 ^ Z.of_nat k mod 16)) (hex_digits k v)
  end.

(** The number of hexadecimal digits of [v] (1 for 0). *)
Definition hex_len (v : Z) : nat := Z.to_nat (Z.log2 v / 4) + 1.

(** [format!("{:0width$x}")]: at least [width] digits, never cut. *)
Definition hex_padded (width : nat) (v : Z) : string :=
  hex_digits (Nat.max width (hex_len v)) v.

(** ** Lemmas *)

Lemma str_app_assoc (s t u : string) : ((s +:+ t) +:+ u = s +:+ (t +:+ u))%string.
Proof. induction s as [|c s IH]; cbn; congruence. Qed.

Lemma str_rev_app_spec s acc : str_rev_app s acc = (str_rev s +:+ acc)%string.
Proof.
  unfold str_rev. revert acc. induction s as [|c s IH]; intros acc; cbn; [done|].
  rewrite IH, (IH (String c "")). by rewrite str_app_assoc.
Qed.

Lemma str_rev_cons c s : str_rev (String c s) = (str_rev s +:+ String c "")%string.
Proof. unfold str_rev. cbn. by rewrite str_rev_app_spec. Qed.

Lemma str_app_nil_r s : (s +:+ "")%string = s.
Proof. induction s; cbn; congruence. Qed.

Lemma str_rev_app_distr s t : str_rev (s +:+ t)%string = (str_rev t +:+ str_rev s)%string.
Proof.
  induction s as [|c s IH]; cbn.
  - by rewrite str_app_nil_r.
  - rewrite !str_rev_cons, IH. by rewrite str_app_assoc.
Qed.

Lemma str_rev_involutive s : str_rev (str_rev s) = s.
Proof.
  induction s as [|c s IH]; [done|]. rewrite str_rev_cons, str_rev_app_distr, IH. done.
Qed.

Lemma prefix_app s t : String.prefix s (s +:+ t)%string = true.
Proof. induction s as [|c s IH]; cbn; [by destruct t|]. by destruct (ascii_dec c c). Qed.

Lemma str_length_app s t :
  String.length (s +:+ t)%string = (String.length s + String.length t)%nat.
Proof. induction s; cbn; congruence. Qed.

Lemma str_take_app s t : str_take (String.length s) (s +:+ t)%string = s.
Proof. unfold str_take. induction s; cbn; [by destruct t|congruence]. Qed.

Lemma strip_suffix_app s pat : strip_suffix pat (s +:+ pat)%string = Some s.
Proof.
  unfold strip_suffix, ends_with. rewrite str_rev_app_distr, prefix_app, str_length_app.
  rewrite Nat.add_sub. by rewrite str_take_app.
Qed.

(** Text that starts and ends with a character that is not white space. *)
Definition first_solid (s : string) : bool :=
  match s with EmptyString => true | String c _ => negb (is_space c) end.

Lemma trim_start_solid s : first_solid s = true -> trim_start s = s.
Proof. destruct s as [|c s]; cbn; [done|]. by destruct (is_space c). Qed.

Lemma trim_solid s : first_solid s = true -> first_solid (str_rev s) = true -> trim s = s.
Proof.
  intros H1 H2. unfold trim, trim_end. rewrite (trim_start_solid s) by done.
  rewrite trim_start_solid by done. apply str_rev_involutive.
Qed.

Lemma digit_not_space c : is_digit c = true -> is_space c = false.
Proof.
  unfold is_digit, is_space. intros [H1 H2]%andb_true_iff.
  apply Nat.leb_le in H1, H2. apply orb_false_iff. split.
  - apply Nat.eqb_neq. lia.
  - apply andb_false_iff. right. apply Nat.leb_gt. lia.
Qed.

Lemma first_solid_digits s t :
  s <> ""%string -> str_all is_digit s = true -> first_solid (s +:+ t)%string = true.
Proof.
  destruct s as [|c s]; [done|]. cbn. intros _ [H _]%andb_true_iff.
  by rewrite digit_not_space.
Qed.

Lemma str_all_app p s t : str_all p (s +:+ t)%string = str_all p s && str_all p t.
Proof. induction s as [|c s IH]; cbn; [done|]. by rewrite IH, andb_assoc. Qed.

Lemma str_all_rev p s : str_all p (str_rev s) = str_all p s.
Proof.
  induction s as [|c s IH]; [done|]. rewrite str_rev_cons, str_all_app, IH. cbn.
  rewrite andb_true_r. apply andb_comm.
Qed.

Lemma trim_digits s : str_all is_digit s = true -> trim s = s.
Proof.
  intros H. destruct (decide (s = ""%string)) as [->|Hs]; [done|]. apply trim_solid.
  - rewrite <- (str_app_nil_r s). by apply first_solid_digits.
  - rewrite <- (str_app_nil_r (str_rev s)). apply first_solid_digits.
    + intros Hr. apply Hs. by rewrite <- (str_rev_involutive s), Hr.
    + by rewrite str_all_rev.
Qed.

Lemma string_of_uint_digits d : str_all is_digit (NilEmpty.string_of_uint d) = true.
Proof. induction d; cbn; auto. Qed.

Lemma dec_digits v : str_all is_digit (dec v) = true.
Proof.
  unfold dec, NilZero.string_of_uint.
  destruct (N.to_uint (Z.to_N v)) eqn:Hd; try apply string_of_uint_digits. done.
Qed.

Lemma dec_nonempty v : dec v <> ""%string.
Proof.
  unfold dec, NilZero.string_of_uint. by destruct (N.to_uint (Z.to_N v)).
Qed.

Lemma to_uint_nonnil n : N.to_uint n <> Decimal.Nil.
Proof.
  intros H. pose proof (DecimalN.Unsigned.of_to n) as Hn. rewrite H in Hn. cbn in Hn.
  subst n. discriminate.
Qed.

Lemma uint_of_dec v : NilZero.uint_of_string (dec v) = Some (N.to_uint (Z.to_N v)).
Proof. unfold dec. apply NilZero.usu, to_uint_nonnil. Qed.

Lemma parse_dec w v : 0 <= v < 2 ^ w -> parse_uint w (dec v) = Some v.
Proof.
  intros Hv. unfold parse_uint.
  assert (Hp : match dec v with String "+" r => r | _ => dec v end = dec v).
  { pose proof (dec_digits v) as Hd. destruct (dec v) as [|c s]; [done|].
    cbn in Hd. apply andb_true_iff in Hd as [Hd _]. unfold is_digit in Hd.
    destruct c as [[] [] [] [] [] [] [] []]; done. }
  rewrite Hp, uint_of_dec, DecimalN.Unsigned.of_to, Z2N.id by lia.
  unfold checked. by rewrite (proj2 (in_range_spec w v)).
Qed.

Lemma dec_inj v u : 0 <= v -> 0 <= u -> dec v = dec u -> v = u.
Proof.
  intros Hv Hu H. pose proof (uint_of_dec v) as E. rewrite H, uint_of_dec in E.
  injection E as E. apply (f_equal N.of_uint) in E.
  rewrite !DecimalN.Unsigned.of_to in E. lia.
Qed.

(** What holds of the sixteen digits, checked one by one. *)
Lemma hex_digit_all (p : Z -> bool) n : forallb p (rangeZ 16) = true -> 0 <= n < 16 -> p n = true.
Proof.
  rewrite List.forallb_forall. intros Hp Hn. apply Hp. unfold rangeZ.
  apply List.in_map_iff. exists (Z.to_nat n). rewrite List.in_seq. lia.
Qed.

Lemma hex_digits_length n v : String.length (hex_digits n v) = n.
Proof. induction n; cbn; auto. Qed.

Lemma hex_len_le width v :
  0 <= v < 16 ^ Z.of_nat width -> (0 < width)%nat -> (hex_len v <= width)%nat.
Proof.
  intros [Hv H] Hw. unfold hex_len. destruct (decide (v = 0)) as [->|Hz]; [change (1 <= width)%nat; lia|].
  change 16 with (2 ^ 4) in H. rewrite <- Z.pow_mul_r in H by lia.
  apply Z.log2_lt_pow2 in H; [|lia].
  assert (Z.log2 v / 4 < Z.of_nat width) by (apply Z.div_lt_upper_bound; lia).
  pose proof (Z.div_pos (Z.log2 v) 4 (Z.log2_nonneg v)). lia.
Qed.

Lemma hex_padded_fits width v :
  0 <= v < 16 ^ Z.of_nat width -> (0 < width)%nat ->
  String.length (hex_padded width v) = width.
Proof.
  intros H Hw. unfold hex_padded. rewrite hex_digits_length.
  pose proof (hex_len_le _ _ H Hw). lia.
Qed.

Lemma hex_padded_long width v :
  16 ^ Z.of_nat width <= v -> (width < String.length (hex_padded width v))%nat.
Proof.
  intros H. unfold hex_padded. rewrite hex_digits_length.
  enough (Z.of_nat width <= Z.log2 v / 4) by (unfold hex_len; lia).
  apply Z.div_le_lower_bound; [lia|]. change 16 with (2 ^ 4) in H.
  rewrite <- Z.pow_mul_r in H by lia. apply Z.log2_le_pow2 in H; [done|].
  pose proof (Z.pow_pos_nonneg 2 (4 * Z.of_nat width)). lia.
Qed.

(** ** Searching and cutting *)

Lemma find_char_app p t c r :
  str_all (fun x => negb (p x)) t = true -> p c = true ->
  find_char p (t +:+ String c r)%string = Some (String.length t).
Proof.
  intros Ht Hc. induction t as [|d t IH]; cbn in *; [by rewrite Hc|].
  apply andb_true_iff in Ht as [Hd Ht]. rewrite IH by done. by destruct (p d).
Qed.

Lemma find_char_none p t :
  str_all (fun x => negb (p x)) t = true -> find_char p t = None.
Proof.
  induction t as [|d t IH]; cbn; [done|]. intros [Hd Ht]%andb_true_iff.
  rewrite IH by done. by destruct (p d).
Qed.

Lemma substring_full n s : (String.length s <= n)%nat -> substring 0 n s = s.
Proof.
  revert n. induction s as [|c s IH]; intros n Hn; [by destruct n|].
  destruct n; cbn in *; [lia|]. rewrite IH by lia. done.
Qed.

Lemma substring_skip t r n : substring (String.length t) n (t +:+ r)%string = substring 0 n r.
Proof. induction t as [|c t IH]; cbn; [by destruct n|exact IH]. Qed.

Lemma str_drop_app t r : str_drop (String.length t) (t +:+ r)%string = r.
Proof.
  unfold str_drop. rewrite substring_skip, str_length_app. apply substring_full. lia.
Qed.

Lemma substring_middle t k r :
  substring (String.length t) (String.length k) (t +:+ k +:+ r)%string = k.
Proof. rewrite substring_skip. apply str_take_app. Qed.

Lemma count_char_app c s t : count_char c (s +:+ t)%string = (count_char c s + count_char c t)%nat.
Proof. induction s as [|d s IH]; cbn; [done|]. rewrite IH. lia. Qed.

Lemma count_char_none c s :
  str_all (fun x => negb (Ascii.eqb c x)) s = true -> count_char c s = 0%nat.
Proof.
  induction s as [|d s IH]; cbn; [done|]. intros [Hd Hs]%andb_true_iff.
  rewrite IH by done. by destruct (Ascii.eqb c d).
Qed.

Lemma str_all_impl (p q : ascii -> bool) s :
  (forall c, p c = true -> q c = true) -> str_all p s = true -> str_all q s = true.
Proof.
  intros Hpq. induction s as [|c s IH]; cbn; [done|]. intros [Hc Hs]%andb_true_iff.
  by rewrite Hpq, IH.
Qed.
