(* ===== verification/Utf8.v ===== *)
(** * UTF-8 ([String::from_utf8], character boundaries)

    Text is a sequence of bytes; Rust's strings are the sequences that encode
    Unicode scalar values.  [utf8_valid] is the check of the standard library,
    [utf8_valid_spec] says that it accepts exactly the encodings. *)

From Stdlib Require Import Strings.Byte Strings.String.
From S2P Require Import Prelude Text.

Definition byte_value (b : byte) : Z := Z.of_N (Byte.to_N b).

Definition between (lo hi b : Z) : bool := (lo <=? b) && (b <=? hi).
(** A continuation byte. *)
Definition cont (b : Z) : bool := between 128 191 b.

(** The second byte after [a], in sequences of three and of four bytes: it
    rules out overlong forms, surrogates and values beyond the last scalar. *)
Definition second3 (a b : Z) : bool :=
  if a =? 224 then between 160 191 b else if a =? 237 then between 128 159 b else cont b.
Definition second4 (a b : Z) : bool :=
  if a =? 240 then between 144 191 b else if a =? 244 then between 128 143 b else cont b.

Fixpoint utf8_valid (l : list Z) : bool :=
  match l with
  | [] => true
  | a :: l =>
      if between 0 127 a then utf8_valid l
      else
        match l with
        | [] => false
        | b :: l =>
            if between 194 223 a then cont b && utf8_valid l
            else
              match l with
              | [] => false
              | c :: l =>
                  if between 224 239 a then second3 a b && cont c && utf8_valid l
                  else
                    match l with
                    | [] => false
                    | d :: l =>
                        between 240 244 a && second4 a b && cont c && cont d && utf8_valid l
                    end
              end
        end
  end.

(** [String::from_utf8]. *)
Definition from_utf8 (bytes : list byte) : option string :=
  if utf8_valid (byte_value <$> bytes) then Some (string_of_list_byte bytes) else None.

(** [s.is_char_boundary(i)], which slices of a string check. *)
Definition is_char_boundary (s : string) (i : nat) : bool :=
  match list_byte_of_string s !! i with
  | Some b => negb (cont (byte_value b))
  | None => (i =? String.length s)%nat
  end.

(** [&s[..n]]. *)
Definition str_prefix {E} (n : nat) (s : string) : outcome E string :=
  if is_char_boundary s n then Ok (str_take n s) else Panic.

(** ** The encoding of a scalar value *)

Definition scalar (c : Z) : Prop := 0 <= c <= 1114111 /\ ~ 55296 <= c <= 57343.

Definition utf8_encode (c : Z) : list Z :=
  if c <? 128 then [c]
  else if c <? 2048 then [192 + c / 64; 128 + c mod 64]
  else if c <? 65536 then [224 + c / 4096; 128 + c / 64 mod 64; 128 + c mod 64]
  else [240 + c / 262144; 128 + c / 4096 mod 64; 128 + c / 64 mod 64; 128 + c mod 64].

Lemma between_iff lo hi b : between lo hi b = true <-> lo <= b <= hi.
Proof. unfold between. lia. Qed.
Lemma cont_iff b : cont b = true <-> 128 <= b <= 191.
Proof. apply between_iff. Qed.
Lemma second3_iff a b :
  second3 a b = true <-> 128 <= b <= 191 /\ (a = 224 -> 160 <= b) /\ (a = 237 -> b <= 159).
Proof.
  unfold second3, cont, between. destruct (Z.eqb_spec a 224), (Z.eqb_spec a 237); lia.
Qed.
Lemma second4_iff a b :
  second4 a b = true <-> 128 <= b <= 191 /\ (a = 240 -> 144 <= b) /\ (a = 244 -> b <= 143).
Proof.
  unfold second4, cont, between. destruct (Z.eqb_spec a 240), (Z.eqb_spec a 244); lia.
Qed.

(** Division by a power of two, and equal lists element by element. *)
Ltac divlia := Z.to_euclidean_division_equations; lia.
Ltac apply_lists := repeat match goal with |- _ :: _ = _ :: _ => f_equal end.

(** Sequences of one to four bytes, and the scalar value they encode. *)
Lemma encode1 a : 0 <= a <= 127 -> scalar a /\ utf8_encode a = [a].
Proof. intros H. unfold scalar, utf8_encode. destruct (Z.ltb_spec a 128); [split; [lia|done]|lia]. Qed.

Lemma encode2 a b : 194 <= a <= 223 -> 128 <= b <= 191 ->
  let c := 64 * (a - 192) + (b - 128) in scalar c /\ utf8_encode c = [a; b].
Proof.
  intros Ha Hb c. unfold scalar, utf8_encode. subst c.
  destruct (Z.ltb_spec (64 * (a - 192) + (b - 128)) 128); [lia|].
  destruct (Z.ltb_spec (64 * (a - 192) + (b - 128)) 2048); [|lia].
  split; [lia|]. apply_lists; divlia.
Qed.

Lemma encode3 a b c : 224 <= a <= 239 -> second3 a b = true -> 128 <= c <= 191 ->
  let x := 4096 * (a - 224) + 64 * (b - 128) + (c - 128) in
  scalar x /\ utf8_encode x = [a; b; c].
Proof.
  intros Ha Hb Hc x. apply second3_iff in Hb as (Hb & H0 & H1). unfold scalar, utf8_encode. subst x.
  destruct (Z.ltb_spec (4096 * (a - 224) + 64 * (b - 128) + (c - 128)) 128); [lia|].
  destruct (Z.ltb_spec (4096 * (a - 224) + 64 * (b - 128) + (c - 128)) 2048); [lia|].
  destruct (Z.ltb_spec (4096 * (a - 224) + 64 * (b - 128) + (c - 128)) 65536); [|lia].
  split; [lia|]. apply_lists; divlia.
Qed.

Lemma encode4 a b c d : 240 <= a <= 244 -> second4 a b = true ->
  128 <= c <= 191 -> 128 <= d <= 191 ->
  let x := 262144 * (a - 240) + 4096 * (b - 128) + 64 * (c - 128) + (d - 128) in
  scalar x /\ utf8_encode x = [a; b; c; d].
Proof.
  intros Ha Hb Hc Hd x. apply second4_iff in Hb as (Hb & H0 & H1). unfold scalar, utf8_encode.
  subst x.
  set (x := 262144 * (a - 240) + 4096 * (b - 128) + 64 * (c - 128) + (d - 128)).
  destruct (Z.ltb_spec x 128); [lia|]. destruct (Z.ltb_spec x 2048); [lia|].
  destruct (Z.ltb_spec x 65536); [lia|].
  split; [lia|]. apply_lists; divlia.
Qed.

(** A valid text starts with a scalar value. *)
Lemma utf8_valid_cons l : utf8_valid l = true -> l <> [] ->
  exists c l', scalar c /\ l = utf8_encode c ++ l' /\ utf8_valid l' = true.
Proof.
  assert (step : forall c pre l', scalar c /\ utf8_encode c = pre -> utf8_valid l' = true ->
            exists c l'', scalar c /\ pre ++ l' = utf8_encode c ++ l'' /\ utf8_valid l'' = true).
  { intros c pre l' [Hs He] Hl. exists c, l'. rewrite He. done. }
  intros H Hne. destruct l as [|a l]; [done|]. cbn [utf8_valid] in H.
  destruct (between 0 127 a) eqn:Ea; [apply between_iff in Ea; by apply (step a [a] l (encode1 a Ea))|].
  destruct l as [|b l]; [done|]. destruct (between 194 223 a) eqn:Ea2.
  { apply between_iff in Ea2. apply andb_prop in H as [Hb%cont_iff Hl].
    exact (step _ [a; b] l (encode2 a b Ea2 Hb) Hl). }
  destruct l as [|c l]; [done|]. destruct (between 224 239 a) eqn:Ea3.
  { apply between_iff in Ea3. apply andb_prop in H as [[Hb Hc%cont_iff]%andb_prop Hl].
    exact (step _ [a; b; c] l (encode3 a b c Ea3 Hb Hc) Hl). }
  destruct l as [|d l]; [done|].
  apply andb_prop in H as [[[[Ha%between_iff Hb]%andb_prop Hc%cont_iff]%andb_prop Hd%cont_iff]%andb_prop Hl].
  exact (step _ [a; b; c; d] l (encode4 a b c d Ha Hb Hc Hd) Hl).
Qed.

Lemma utf8_encode_nonempty c : utf8_encode c <> [].
Proof. unfold utf8_encode. by repeat case_match. Qed.

(** An encoded scalar value is accepted and skipped. *)
Lemma utf8_valid_encode c l : scalar c -> utf8_valid (utf8_encode c ++ l) = utf8_valid l.
Proof.
  intros [Hc Hs]. unfold utf8_encode.
  destruct (Z.ltb_spec c 128).
  { cbn. by rewrite (proj2 (between_iff 0 127 c) ltac:(divlia)). }
  assert (no : forall lo hi b, ~ lo <= b <= hi -> between lo hi b = false).
  { intros lo hi b Hb. apply not_true_is_false. by rewrite between_iff. }
  destruct (Z.ltb_spec c 2048).
  { cbn. rewrite (no 0 127), (proj2 (between_iff 194 223 _)) by divlia.
    by rewrite (proj2 (cont_iff (128 + c mod 64))) by divlia. }
  destruct (Z.ltb_spec c 65536).
  { cbn. rewrite (no 0 127), (no 194 223), (proj2 (between_iff 224 239 _)) by divlia.
    rewrite (proj2 (second3_iff _ _)) by divlia.
    by rewrite (proj2 (cont_iff (128 + c mod 64))) by divlia. }
  cbn. rewrite (no 0 127), (no 194 223), (no 224 239), (proj2 (between_iff 240 244 _)) by divlia.
  rewrite (proj2 (second4_iff _ _)) by divlia.
  by rewrite (proj2 (cont_iff (128 + c / 64 mod 64))), (proj2 (cont_iff (128 + c mod 64))) by divlia.
Qed.

(** The check accepts exactly the encodings of scalar values. *)
Lemma utf8_valid_spec l :
  utf8_valid l = true <-> exists cs, Forall scalar cs /\ l = cs ≫= utf8_encode.
Proof.
  split.
  - revert l. apply (induction_ltof1 _ length (fun l => utf8_valid l = true -> _)).
    intros l IH H. unfold ltof in IH.
    destruct (decide (l = [])) as [->|Hne]; [by exists []|].
    destruct (utf8_valid_cons l H Hne) as (c & l' & Hc & -> & Hl).
    destruct (IH l') as (cs & Hcs & ->); [|done|].
    { rewrite length_app. destruct (utf8_encode c) eqn:E; [by apply utf8_encode_nonempty in E|].
      cbn. lia. }
    exists (c :: cs). split; [by constructor|done].
  - intros (cs & Hcs & ->). induction Hcs as [|c cs Hc _ IH]; [done|].
    change ((c :: cs) ≫= utf8_encode) with (utf8_encode c ++ (cs ≫= utf8_encode)).
    by rewrite utf8_valid_encode.
Qed.

Lemma from_utf8_spec bytes s :
  from_utf8 bytes = Some s <->
  s = string_of_list_byte bytes /\
  exists cs, Forall scalar cs /\ byte_value <$> bytes = cs ≫= utf8_encode.
Proof.
  unfold from_utf8. destruct (utf8_valid (byte_value <$> bytes)) eqn:E.
  - apply utf8_valid_spec in E. naive_solver.
  - split; [done|]. intros [_ Hs]. by rewrite (proj2 (utf8_valid_spec _) Hs) in E.
Qed.

(** Cutting at a boundary does not panic; a cut inside a character does. *)
Lemma str_prefix_ok {E} n s :
  is_char_boundary s n = true <-> str_prefix (E := E) n s = Ok (str_take n s).
Proof. unfold str_prefix. by destruct (is_char_boundary s n). Qed.
