(* ===== verification/F64.v ===== *)
(** * Double precision numbers, and latency buckets ([core/src/buckets.rs])

    An [f64] is a [spec_float] with 53 bits of precision, its operations the
    correctly rounded ones of the Standard Library's specification.  On it,
    the quantile estimate over latency buckets. *)

From Stdlib Require Export Floats.SpecFloat.
From Stdlib Require Import Strings.String.
From S2P Require Import Prelude Text.

Abbreviation f64 := spec_float.

Definition f64_of_Z (z : Z) : f64 := binary_normalize 53 1024 z 0 false.
Definition f64_add : f64 -> f64 -> f64 := SFadd 53 1024.
Definition f64_sub : f64 -> f64 -> f64 := SFsub 53 1024.
Definition f64_mul : f64 -> f64 -> f64 := SFmul 53 1024.
Definition f64_div : f64 -> f64 -> f64 := SFdiv 53 1024.
Definition f64_lt (x y : f64) : bool := SFltb x y.
Definition f64_le (x y : f64) : bool := SFleb x y.

(** The literal [m / d], for [d] a power of ten: the nearest double. *)
Definition f64_lit (m d : Z) : f64 := f64_div (f64_of_Z m) (f64_of_Z d).

(** The integer part towards zero of a finite positive number [m * 2 ^ e]. *)
Definition pos_trunc (m : positive) (e : Z) : Z :=
  if 0 <=? e then Z.pos m * 2 ^ e else Z.pos m / 2 ^ (- e).

(** [x as uN]: saturating, and 0 for NaN. *)
Definition f64_to_uint (w : Z) (x : f64) : Z :=
  match x with
  | S754_nan => 0
  | S754_zero _ => 0
  | S754_infinity s => if s then 0 else MAX w
  | S754_finite true _ _ => 0
  | S754_finite false m e => Z.min (MAX w) (pos_trunc m e)
  end.

(** [x.round()]: to the nearest integer, half away from zero. *)
Definition f64_round (x : f64) : f64 :=
  match x with
  | S754_finite s m e =>
      if 0 <=? e then x
      else let n := (Z.pos m + 2 ^ (- e - 1)) / 2 ^ (- e) in
           binary_normalize 53 1024 (if s then - n else n) 0 s
  | _ => x
  end.

(** [x.ceil()]. *)
Definition f64_ceil (x : f64) : f64 :=
  match x with
  | S754_finite s m e =>
      if 0 <=? e then x
      else if s then binary_normalize 53 1024 (- (Z.pos m / 2 ^ (- e))) 0 true
      else binary_normalize 53 1024 (- (- Z.pos m / 2 ^ (- e))) 0 false
  | _ => x
  end.

Lemma f64_to_uint_range w x : 0 <= w -> 0 <= f64_to_uint w x < 2 ^ w.
Proof.
  intros Hw. pose proof (Z.pow_pos_nonneg 2 w ltac:(lia) Hw).
  unfold f64_to_uint, MAX. destruct x as [| [] | |[] m e]; try lia.
  unfold pos_trunc. destruct (Z.leb_spec 0 e).
  - pose proof (Z.pow_nonneg 2 e). nia.
  - pose proof (Z.pow_pos_nonneg 2 (- e)). pose proof (Z.div_pos (Z.pos m) (2 ^ (- e))). lia.
Qed.

(** [n / d] rounded to the nearest integer, half to even. *)
Definition round_half_even (n d : Z) : Z :=
  let q := n / d in
  let r := n mod d in
  if 2 * r <? d then q
  else if d <? 2 * r then q + 1
  else if Z.even q then q else q + 1.

(** [format!("{:.digits$}", x)]. *)
Definition fmt_fixed (digits : nat) (x : f64) : string :=
  let shown (s : bool) (n : Z) :=
    let base := 10 ^ Z.of_nat digits in
    ((if s then "-" else "") +:+ dec (n / base) +:+
     (if (digits =? 0)%nat then "" else "." +:+ dec_padded digits (n mod base)))%string in
  match x with
  | S754_nan => "NaN"%string
  | S754_infinity s => if s then "-inf"%string else "inf"%string
  | S754_zero s => shown s 0
  | S754_finite s m e =>
      let scaled := Z.pos m * 10 ^ Z.of_nat digits in
      shown s (if 0 <=? e then scaled * 2 ^ e else round_half_even scaled (2 ^ (- e)))
  end.

(** [x.round_ties_even()]. *)
Definition f64_round_ties_even (x : f64) : f64 :=
  match x with
  | S754_finite s m e =>
      if 0 <=? e then x
      else let n := round_half_even (Z.pos m) (2 ^ (- e)) in
           binary_normalize 53 1024 (if s then - n else n) 0 s
  | _ => x
  end.

(** [x.sqrt()]. *)
Definition f64_sqrt : f64 -> f64 := SFsqrt 53 1024.

(** Rust's [Display] of a double (the shortest decimal that reads back as it). *)
Class F64Display := f64_display : f64 -> string.

(** ** Buckets *)

Record Bucket := { upper_bound : f64; cumulative_count : Z }.

(** [From<(f64, u64)>]. *)
Definition Bucket_of (p : f64 * Z) : Bucket :=
  {| upper_bound := p.1; cumulative_count := p.2 |}.

(** What the program reads of a prometheus registry: metric families of
    metrics, each with its labels and histogram buckets. *)
Record Metric := {
  m_labels : list (string * string);
  m_buckets : list (f64 * option Z);
}.
Record MetricFamily := { mf_name : string; mf_metrics : list Metric }.

Definition RPC_REQUEST_LATENCY_ID : string := "rpc_request_latency_seconds".

Definition metric_buckets (m : Metric) : list Bucket :=
  omap (fun '(ub, c) => c ← c; Some (Bucket_of (ub, c))) (m_buckets m).

Definition collect_metric (acc : gmap string (list Bucket)) (m : Metric)
  : gmap string (list Bucket) :=
  match m_labels m with
  | [] => acc
  | (name, value) :: _ =>
      if String.eqb name "rpc_method" then <[value := metric_buckets m]> acc else acc
  end.

Definition collect_latency_from_registry (registry : list MetricFamily)
  : gmap string (list Bucket) :=
  fold_left (fun acc mf =>
    if String.eqb (mf_name mf) RPC_REQUEST_LATENCY_ID
    then fold_left collect_metric (mf_metrics mf) acc else acc) registry ∅.

Section quantile.
Context {P : Profile} {E : Type}.

(** The value read off bucket [b], whose predecessor has bound [lb] and count [lc]. *)
Definition interpolate (lb : f64) (lc : Z) (b : Bucket) (target : Z) : outcome E f64 :=
  d ← arith 64 (cumulative_count b - lc);
  let range := Z.max d 1 in
  t ← arith 64 (target - lc);
  let position := f64_div (f64_of_Z t) (f64_of_Z range) in
  mret (f64_add lb (f64_mul (f64_sub (upper_bound b) lb) position)).

(** The loop, from a bucket whose predecessor has bound [lb] and count [lc]. *)
Fixpoint quantile_loop (lb : f64) (lc : Z) (l : list Bucket) (target : Z)
  : outcome E (option f64) :=
  match l with
  | [] => mret None
  | b :: l =>
      if target <=? cumulative_count b
      then x ← interpolate lb lc b target; mret (Some x)
      else quantile_loop (upper_bound b) (cumulative_count b) l target
  end.

Definition estimate_quantile (l : list Bucket) (quantile : f64) : outcome E f64 :=
  match last l with
  | None => mret (f64_of_Z 0)
  | Some lst =>
      let total := cumulative_count lst in
      let target := f64_to_uint 64 (f64_ceil (f64_mul quantile (f64_of_Z total))) in
      r ← quantile_loop (f64_of_Z 0) 0 l target;
      mret (default (upper_bound lst) r)
  end.

(** Cumulative counts: within the width, and never decreasing. *)
Definition cumulative (l : list Bucket) : Prop :=
  Forall (fun b => 0 <= cumulative_count b < 2 ^ 64) l /\
  Sorted Z.le (cumulative_count <$> l).

Lemma quantile_loop_total lb lc l target :
  0 <= lc -> lc <= target < 2 ^ 64 -> (lc = 0 \/ lc < target) -> cumulative l ->
  HdRel Z.le lc (cumulative_count <$> l) ->
  exists r, quantile_loop lb lc l target = Ok r.
Proof.
  revert lb lc. induction l as [|b l IH]; intros lb lc H0 Ht H1 [Hf Hs] Hh; cbn; [by eexists|].
  apply Forall_cons in Hf as [Hb Hf]. inversion Hs; subst. inversion Hh; subst.
  destruct (Z.leb_spec target (cumulative_count b)).
  - unfold interpolate. rewrite arith_in by lia. cbn. rewrite arith_in by lia. cbn. by eexists.
  - apply IH; [lia|lia|lia| |done]. by split.
Qed.

(** On buckets with non-decreasing counts the quantile estimate never
    panics in any build; it is 0 without buckets, and when some bucket reaches
    the target count it is read off the first one that does. *)
Theorem estimate_quantile_total (l : list Bucket) (q : f64) (Hc : cumulative l) :
  exists x, estimate_quantile l q = Ok x /\
    (l = [] -> x = f64_of_Z 0) /\
    forall pre b post lst,
      l = pre ++ b :: post -> last l = Some lst ->
      let target := f64_to_uint 64 (f64_ceil (f64_mul q (f64_of_Z (cumulative_count lst)))) in
      Forall (fun b' => cumulative_count b' < target) pre -> target <= cumulative_count b ->
      let prev := last pre in
      interpolate (default (f64_of_Z 0) (upper_bound <$> prev))
        (default 0 (cumulative_count <$> prev)) b target = Ok x.
Proof.
  destruct (last l) as [lst|] eqn:Hl.
  2: { apply last_None in Hl as ->. exists (f64_of_Z 0). split_and!; [done|done|].
       intros pre b post lst H. by destruct pre. }
  unfold estimate_quantile. rewrite Hl.
  set (target := f64_to_uint 64 _).
  assert (Ht : 0 <= target < 2 ^ 64) by (apply f64_to_uint_range; lia).
  destruct (quantile_loop_total (f64_of_Z 0) 0 l target) as [r Hr]; [lia|done|lia|done| |].
  { destruct Hc as [Hf _]. destruct l as [|b l]; constructor. apply Forall_cons in Hf. lia. }
  rewrite Hr. cbn. eexists. split_and!; [done|by intros ->|].
  intros pre b post lst' Heq [= <-] Hpre Hb. fold target in Hpre, Hb |- *. clearbody target.
  clear Hl Hc Ht. subst l. revert Hr.
  enough (forall lb lc, quantile_loop lb lc (pre ++ b :: post) target = Ok r ->
    interpolate (default lb (upper_bound <$> last pre))
      (default lc (cumulative_count <$> last pre)) b target = Ok (default (upper_bound lst) r))
    as H by (intros Hr; apply H, Hr).
  induction Hpre as [|a pre Ha _ IH]; intros lb lc; cbn.
  - rewrite (proj2 (Z.leb_le _ _) Hb). intros H. inv_outcome. done.
  - rewrite (proj2 (Z.leb_gt _ _) Ha). intros H. specialize (IH _ _ H).
    destruct pre as [|a' pre]; [done|]. cbn in IH |- *.
    destruct (last (a' :: pre)) eqn:Hla; [by cbn in *|]. by apply last_None in Hla.
Qed.
End quantile.

Lemma estimate_quantile_total_witness :
  exists x, @estimate_quantile true unit
    (Bucket_of <$> [(f64_of_Z 1, 4); (f64_of_Z 2, 10)]) (f64_lit 5 10) = Ok x.
Proof.
  destruct (@estimate_quantile_total true unit
    (Bucket_of <$> [(f64_of_Z 1, 4); (f64_of_Z 2, 10)]) (f64_lit 5 10)) as (x & H & _).
  - split.
    + repeat constructor; cbn; lia.
    + repeat constructor; cbn; lia.
  - exists x. exact H.
Defined.
