(* ===== verification/Json.v ===== *)
(** * JSON values ([serde_json::Value])

    The values the program builds and takes apart.  A number is an integer or a
    double; an object is the list of its fields. *)

From Stdlib Require Import Strings.String.
From S2P Require Import Prelude Text F64.

Inductive Json :=
| JNull
| JNumber (z : Z)
| JFloat (f : f64)
| JBool (b : bool)
| JString (s : string)
| JArray (l : list Json)
| JObject (fields : list (string * Json)).

(** The value of a field. *)
Fixpoint assoc_field (key : string) (l : list (string * Json)) : option Json :=
  match l with
  | [] => None
  | (k, v) :: l => if String.eqb k key then Some v else assoc_field key l
  end.

(** [value.get(key)]. *)
Definition json_field (key : string) (j : Json) : option Json :=
  match j with JObject l => assoc_field key l | _ => None end.

(** [as_u64], [as_object], [as_array], [as_str]. *)
Definition as_u64 (j : Json) : option Z :=
  match j with JNumber z => checked 64 z | _ => None end.
Definition as_object (j : Json) : option (list (string * Json)) :=
  match j with JObject l => Some l | _ => None end.
Definition as_array (j : Json) : option (list Json) :=
  match j with JArray l => Some l | _ => None end.
Definition as_str (j : Json) : option string :=
  match j with JString s => Some s | _ => None end.

Lemma assoc_field_app key l l' :
  assoc_field key (l ++ l') =
  match assoc_field key l with Some v => Some v | None => assoc_field key l' end.
Proof. induction l as [|[k v] l IH]; cbn; [done|]. by destruct (String.eqb k key). Qed.

Lemma assoc_field_in key l v : assoc_field key l = Some v -> (key, v) ∈ l.
Proof.
  induction l as [|[k w] l IH]; cbn; [done|].
  destruct (String.eqb_spec k key) as [->|]; intros H; [simplify_eq; by left|right; by apply IH].
Qed.

Lemma assoc_field_none key l : assoc_field key l = None <-> key ∉ l.*1.
Proof.
  induction l as [|[k w] l IH]; cbn; [split; [intros _ H; by apply elem_of_nil in H|done]|].
  rewrite elem_of_cons. destruct (String.eqb_spec k key) as [->|]; naive_solver.
Qed.
