(* ===== verification/Seeder.v ===== *)
(** * Seeds ([core/src/generator/seeder])

    [RandSeed] is a 32-byte string read as a big-endian number;
    [RandSeed.seed_values] derives a pseudo-random sequence of seeds from it.
    The two traits [SeedValue] and [Seeder] are the classes [SeedValue] and
    [Seeder]; the laws a client relies on are [SeedGenerator], which
    [RandSeed] discharges.  [keccak256] is the hash of alloy (32 bytes out) and
    [from_str_radix] the number parser of alloy's [U256]: both are arguments. *)

From Stdlib Require Import Strings.Byte.
From S2P Require Import Prelude.

(** [trait SeedValue]. *)
Class SeedValue (S : Type) := {
  as_bytes : S -> list byte;
  as_u64 : S -> Z;
  as_u128 : S -> Z;
  as_u256 : S -> Z;
}.

(** [trait Seeder]; the iterator of [seed_values] is the list it yields. *)
Class Seeder (S : Type) := {
  seed_values {E} : S -> nat -> option Z -> option Z -> outcome E (list S);
  seed_from_u256 : Z -> S;
  seed_from_bytes : list byte -> S;
  seed_from_str {E} : string -> outcome E S;
}.

(** What generic code relies on of a seed type ([trait SeedGenerator]). *)
Class SeedGenerator (S : Type) `{SeedValue S, Seeder S} := {
  as_bytes_length : forall s, length (as_bytes s) = 32%nat;
  as_u256_range : forall s, 0 <= as_u256 s < 2 ^ 256;
  as_u256_of_u256 : forall v, 0 <= v < 2 ^ 256 -> as_u256 (seed_from_u256 v) = v;
  seed_values_amount : forall E s n lo hi l,
    seed_values (E := E) s n lo hi = Ok l -> length l = n;
  seed_values_full : forall E s n,
    exists l, seed_values (E := E) s n None None = Ok l;
  seed_values_prefix : forall E s n k lo hi l,
    seed_values (E := E) s (n + k) lo hi = Ok l ->
    seed_values (E := E) s n lo hi = Ok (take n l);
}.

Module RandSeed.

Record t := mk { seed : list byte }.

(** The array is overwritten as a whole: the bytes of [seed], then [0x01]. *)
Definition fill_bytes (seed : list byte) : list byte :=
  if (length seed <? 32)%nat
  then seed ++ replicate (32 - length seed) x01
  else take 32 seed.

(** [rng_fill] is what the thread's random generator put in the array. *)
Definition new (rng_fill : list byte) : t := mk rng_fill.

Definition seed_from_bytes (seed_bytes : list byte) : t := mk (fill_bytes seed_bytes).

Definition seed_from_u256 (v : Z) : t := mk (to_be 32 v).

Definition as_bytes (s : t) : list byte := seed s.
Definition as_u64 (s : t) : Z := from_be (take 8 (drop 24 (seed s))).
Definition as_u128 (s : t) : Z := from_be (take 16 (drop 16 (seed s))).
Definition as_u256 (s : t) : Z := from_be (seed s).

(** A [RandSeed] value: an array of 32 bytes. *)
Definition wf (s : t) : Prop := length (seed s) = 32%nat.

Section external.
Variable keccak256 : list byte -> list byte.
Variable from_str_radix : string -> Z -> option Z.

Definition seed_from_str {E} (seed : string) : outcome E t :=
  let '(radix, seed) :=
    if starts_with "0x" seed then (16, str_drop 2 seed) else (10, seed) in
  n ← unwrap (from_str_radix seed radix);
  mret (seed_from_u256 n).

(** The [i]-th value; [+] on [U256] wraps around. *)
Definition seed_value (s : t) (min max : Z) (i : Z) : t :=
  let seed_num := wrap 256 (as_u256 s + i) in
  let val := from_be (keccak256 (to_le 32 seed_num)) in
  let val := wrap 256 (val mod (max - min) + min) in
  seed_from_u256 val.

Definition seed_values {E} (s : t) (amount : nat) (min max : option Z)
  : outcome E (list t) :=
  let min := default 0 min in
  let max := default U256_MAX max in
  assert_ (min <? max);;
  mret (seed_value s min max <$> rangeZ amount).
End external.

(** ** Properties *)

Lemma fill_bytes_length l : length (fill_bytes l) = 32%nat.
Proof.
  unfold fill_bytes. destruct (Nat.ltb_spec (length l) 32).
  - rewrite length_app, length_replicate. lia.
  - rewrite length_take. lia.
Qed.

Lemma seed_from_u256_wf v : wf (seed_from_u256 v).
Proof. apply to_be_length. Qed.

Lemma as_u256_seed_from_u256 v : as_u256 (seed_from_u256 v) = v mod 2 ^ 256.
Proof. unfold as_u256, seed_from_u256; cbn [seed]. by rewrite from_be_to_be. Qed.

Lemma as_u256_bounds s : wf s -> 0 <= as_u256 s < 2 ^ 256.
Proof.
  intros Hw. pose proof (from_be_range (seed s)) as H. rewrite Hw in H. exact H.
Qed.

(** A seed given as bytes is exactly 32 bytes: short input is kept as the
    most significant bytes and padded with [0x01], long input is cut; and the
    64-bit and 128-bit readings of any seed are the low words of its 256-bit
    reading. *)
Theorem seed_readings_agree (l : list byte) (s : t) :
  wf s ->
  wf (seed_from_bytes l) /\
  (forall i, (i < 32)%nat ->
     seed (seed_from_bytes l) !! i = Some (default x01 (l !! i))) /\
  as_u64 s = as_u256 s mod 2 ^ 64 /\
  as_u128 s = as_u256 s mod 2 ^ 128.
Proof.
  intros Hw. split_and!.
  - apply fill_bytes_length.
  - intros i Hi. cbn. unfold fill_bytes. destruct (Nat.ltb_spec (length l) 32).
    + destruct (decide (i < length l)%nat) as [Hl|Hl].
      * rewrite lookup_app_l by done.
        by destruct (lookup_lt_is_Some_2 l i Hl) as [b ->].
      * rewrite lookup_app_r, (lookup_ge_None_2 l i) by lia.
        apply lookup_replicate. split; [done|lia].
    + rewrite lookup_take_lt by lia.
      by destruct (lookup_lt_is_Some_2 l i ltac:(lia)) as [b ->].
  - unfold as_u64, as_u256. rewrite take_ge by (rewrite length_drop, Hw; lia).
    rewrite from_be_skip, Hw by (rewrite Hw; lia). done.
  - unfold as_u128, as_u256. rewrite take_ge by (rewrite length_drop, Hw; lia).
    rewrite from_be_skip, Hw by (rewrite Hw; lia). done.
Qed.

Lemma seed_readings_agree_witness :
  as_u64 (seed_from_bytes (str_bytes "abc")) = 72340172838076673.
Proof.
  destruct (seed_readings_agree [] (seed_from_bytes (str_bytes "abc")) eq_refl)
    as (_ & _ & -> & _).
  vm_compute. reflexivity.
Defined.

Section values.
Variable keccak256 : list byte -> list byte.

Lemma seed_value_range s lo hi i :
  0 <= lo < hi -> hi < 2 ^ 256 ->
  lo <= as_u256 (seed_value keccak256 s lo hi i) < hi.
Proof.
  intros Hlo Hhi. unfold seed_value. rewrite as_u256_seed_from_u256.
  set (v := from_be _). pose proof (Z.mod_pos_bound v (hi - lo) ltac:(lia)).
  rewrite wrap_small by lia. rewrite Z.mod_small by lia. lia.
Qed.

(** For bounds [lo < hi] of 256 bits, [seed_values] yields exactly
    [amount] seeds, each a well-formed 32-byte seed whose number lies in
    [[lo, hi)], a longer request extends a shorter one with the same seeds,
    and inverted or equal bounds panic. *)
Theorem seed_values_bounds (s : t) (n k : nat) (min max : option Z) :
  let lo := default 0 min in
  let hi := default U256_MAX max in
  0 <= lo -> hi < 2 ^ 256 ->
  (hi <= lo -> seed_values keccak256 (E := unit) s n min max = Panic) /\
  (lo < hi -> exists l,
     seed_values keccak256 (E := unit) s (n + k) min max = Ok l /\
     length l = (n + k)%nat /\
     Forall (fun v => wf v /\ lo <= as_u256 v < hi) l /\
     seed_values keccak256 (E := unit) s n min max = Ok (take n l)).
Proof.
  intros lo hi Hlo Hhi. unfold seed_values. fold lo hi. split.
  - intros H. by rewrite (proj2 (Z.ltb_ge lo hi) H).
  - intros H. rewrite (proj2 (Z.ltb_lt lo hi) H). cbn.
    eexists. split_and!; [done| | |].
    + by rewrite length_fmap, rangeZ_length.
    + apply Forall_fmap, Forall_true. intros i. unfold compose.
      split; [apply seed_from_u256_wf|]. apply seed_value_range; [by split|done].
    + f_equal. unfold rangeZ. rewrite seq_app, fmap_app, fmap_app.
      rewrite take_app_length'; [done|].
      by rewrite !length_fmap, length_seq.
Qed.
End values.

Lemma seed_values_bounds_witness :
  exists l, seed_values (fun x => x) (E := unit) (seed_from_u256 7) 3 (Some 10) (Some 20) = Ok l
       /\ length l = 3%nat.
Proof.
  destruct (seed_values_bounds (fun x => x) (seed_from_u256 7) 3 0 (Some 10) (Some 20)
              ltac:(cbn; lia) ltac:(cbn; lia)) as [_ H].
  destruct (H ltac:(cbn; lia)) as (l & Hl & Hn & _). exists l. exact (conj Hl Hn).
Defined.
End RandSeed.

(** ** The trait instances of [RandSeed]

    The carrier is the 32-byte arrays, [RandSeed.t] with its length. *)
Record rand_seed := mk_rand_seed {
  rs : RandSeed.t;
  rs_wf : bool_decide (length (RandSeed.seed rs) = 32%nat) = true;
}.

Lemma rs_length (s : rand_seed) : RandSeed.wf (rs s).
Proof. exact (bool_decide_eq_true_1 _ (rs_wf s)). Qed.

Lemma rand_seed_eq (a b : rand_seed) : rs a = rs b -> a = b.
Proof.
  destruct a as [a Ha], b as [b Hb]. cbn. intros ->. f_equal. apply (proof_irrel Ha Hb).
Qed.

Lemma wf_bool (s : RandSeed.t) :
  RandSeed.wf s -> bool_decide (length (RandSeed.seed s) = 32%nat) = true.
Proof. apply bool_decide_eq_true_2. Qed.

Definition pack_u256 (v : Z) : rand_seed :=
  mk_rand_seed (RandSeed.seed_from_u256 v) (wf_bool _ (RandSeed.seed_from_u256_wf v)).

Definition pack_value {E} (m : outcome E RandSeed.t) : outcome E rand_seed :=
  fmap (M := outcome E) (fun v => pack_u256 (RandSeed.as_u256 v)) m.
Definition pack_values {E} (m : outcome E (list RandSeed.t)) : outcome E (list rand_seed) :=
  fmap (M := outcome E) (map (fun v => pack_u256 (RandSeed.as_u256 v))) m.

Section instances.
Variable keccak256 : list byte -> list byte.
Variable from_str_radix : string -> Z -> option Z.

#[local] Instance rand_seed_value : SeedValue rand_seed := {|
  as_bytes s := RandSeed.as_bytes (rs s);
  as_u64 s := RandSeed.as_u64 (rs s);
  as_u128 s := RandSeed.as_u128 (rs s);
  as_u256 s := RandSeed.as_u256 (rs s);
|}.

#[local] Instance rand_seeder : Seeder rand_seed := {|
  seed_values E s n lo hi :=
    pack_values (RandSeed.seed_values keccak256 (rs s) n lo hi);
  seed_from_u256 := pack_u256;
  seed_from_bytes l :=
    mk_rand_seed (RandSeed.seed_from_bytes l) (wf_bool (RandSeed.seed_from_bytes l) (RandSeed.fill_bytes_length l));
  seed_from_str E s :=
    pack_value (RandSeed.seed_from_str from_str_radix s);
|}.

Lemma rand_seed_generator : SeedGenerator rand_seed.
Proof.
  constructor.
  - apply rs_length.
  - intros s. apply RandSeed.as_u256_bounds, rs_length.
  - intros v Hv. cbn. rewrite RandSeed.as_u256_seed_from_u256. by apply Z.mod_small.
  - intros E s n lo hi l H. cbn in H. unfold pack_values in H. inv_outcome.
    rewrite length_map. unfold RandSeed.seed_values in *. inv_outcome. by rewrite length_fmap, rangeZ_length.
  - intros E s n. cbn. by eexists.
  - intros E s n k lo hi l H. cbn in *. unfold RandSeed.seed_values in *.
    unfold pack_values in *. inv_outcome. rewrite H. cbn. f_equal.
    rewrite firstn_map, <- fmap_take. do 2 f_equal. unfold rangeZ.
    rewrite seq_app, !fmap_app, take_app_length'; [done|].
    by rewrite !length_fmap, length_seq.
Qed.
End instances.
