(* ===== verification/Alloy.v ===== *)
(** * The Ethereum library the program calls

    The program is built on the [alloy] crates, which are not part of the
    repository.  [Alloy] is the class of the functions and opaque types of it
    that the modelled code uses; every definition that uses one takes the class
    as an argument.  A [u128]/[U256] value is a [Z], an [Address] the [Z] of its
    20 bytes, a hash the [Z] of its 32 bytes.  [toy_alloy] is an instance, for
    the witnesses. *)

From Stdlib Require Import Strings.Byte Strings.Ascii.
From S2P Require Import Prelude Text.

Abbreviation Address := Z (only parsing).
Abbreviation TxHash := Z (only parsing).

(** A parameter of a parsed Solidity function signature: its selector type and
    its display form ("uint256 amount"). *)
Record AbiParam := { selector_type : string; display : string }.

Class Alloy := {
  Signer : Type;
  Sidecar : Type;
  SignedAuthorization : Type;
  AbiFunction : Type;
  DynSolType : Type;
  DynSolValue : Type;

  keccak256 : list byte -> list byte;
  from_str_radix : string -> Z -> option Z;
  parse_u256 : string -> option Z;
  parse_address : string -> option Address;
  parse_units : string -> string -> outcome string Z;
  address_to_string : Address -> string;
  bytes_from_hex : string -> option (list byte);

  signer_from_bytes : list byte -> option Signer;
  signer_address : Signer -> Address;
  (** [signer.sign_hash_sync] on an [Authorization] (chain id, address, nonce) *)
  sign_authorization : Signer -> Z * Address * Z -> outcome string SignedAuthorization;

  sidecar_build : list byte -> option Sidecar;

  abi_parse : string -> outcome string AbiFunction;
  abi_inputs : AbiFunction -> list AbiParam;
  sol_type_parse : string -> outcome string DynSolType;
  coerce_str : DynSolType -> string -> outcome string DynSolValue;
  abi_encode_input : AbiFunction -> list DynSolValue -> outcome string (list byte);
}.

(** ** Data of [alloy] the program reads and writes *)

Inductive TxKind := Create | Call (to : Address).

Inductive TxType := Legacy | Eip2930 | Eip1559 | Eip4844 | Eip7702.

#[export] Instance TxKind_eq_dec : EqDecision TxKind.
Proof. solve_decision. Defined.
#[export] Instance TxType_eq_dec : EqDecision TxType.
Proof. solve_decision. Defined.

Section transaction_request.
Context `{Alloy}.

(** The fields of [TransactionRequest] the program sets or reads. *)
Record TransactionRequest := {
  tx_from : option Address;
  tx_to : option TxKind;
  tx_value : option Z;
  tx_input : list byte;
  tx_nonce : option Z;
  tx_gas : option Z;
  tx_gas_price : option Z;
  tx_max_fee_per_gas : option Z;
  tx_max_priority_fee_per_gas : option Z;
  tx_max_fee_per_blob_gas : option Z;
  tx_chain_id : option Z;
  tx_transaction_type : option Z;
  tx_sidecar : option Sidecar;
  tx_authorization_list : option (list SignedAuthorization);
}.

(** [TransactionRequest::default()]. *)
Definition default_tx : TransactionRequest := {|
  tx_from := None; tx_to := None; tx_value := None; tx_input := [];
  tx_nonce := None; tx_gas := None; tx_gas_price := None;
  tx_max_fee_per_gas := None; tx_max_priority_fee_per_gas := None;
  tx_max_fee_per_blob_gas := None; tx_chain_id := None;
  tx_transaction_type := None; tx_sidecar := None; tx_authorization_list := None |}.

Definition set_from v (t : TransactionRequest) : TransactionRequest :=
  {| tx_from := v; tx_to := tx_to t; tx_value := tx_value t; tx_input := tx_input t;
     tx_nonce := tx_nonce t; tx_gas := tx_gas t; tx_gas_price := tx_gas_price t;
     tx_max_fee_per_gas := tx_max_fee_per_gas t;
     tx_max_priority_fee_per_gas := tx_max_priority_fee_per_gas t;
     tx_max_fee_per_blob_gas := tx_max_fee_per_blob_gas t; tx_chain_id := tx_chain_id t;
     tx_transaction_type := tx_transaction_type t; tx_sidecar := tx_sidecar t;
     tx_authorization_list := tx_authorization_list t |}.

Definition set_nonce v (t : TransactionRequest) : TransactionRequest :=
  {| tx_from := tx_from t; tx_to := tx_to t; tx_value := tx_value t; tx_input := tx_input t;
     tx_nonce := v; tx_gas := tx_gas t; tx_gas_price := tx_gas_price t;
     tx_max_fee_per_gas := tx_max_fee_per_gas t;
     tx_max_priority_fee_per_gas := tx_max_priority_fee_per_gas t;
     tx_max_fee_per_blob_gas := tx_max_fee_per_blob_gas t; tx_chain_id := tx_chain_id t;
     tx_transaction_type := tx_transaction_type t; tx_sidecar := tx_sidecar t;
     tx_authorization_list := tx_authorization_list t |}.

Definition set_gas v (t : TransactionRequest) : TransactionRequest :=
  {| tx_from := tx_from t; tx_to := tx_to t; tx_value := tx_value t; tx_input := tx_input t;
     tx_nonce := tx_nonce t; tx_gas := v; tx_gas_price := tx_gas_price t;
     tx_max_fee_per_gas := tx_max_fee_per_gas t;
     tx_max_priority_fee_per_gas := tx_max_priority_fee_per_gas t;
     tx_max_fee_per_blob_gas := tx_max_fee_per_blob_gas t; tx_chain_id := tx_chain_id t;
     tx_transaction_type := tx_transaction_type t; tx_sidecar := tx_sidecar t;
     tx_authorization_list := tx_authorization_list t |}.

Definition set_gas_price v (t : TransactionRequest) : TransactionRequest :=
  {| tx_from := tx_from t; tx_to := tx_to t; tx_value := tx_value t; tx_input := tx_input t;
     tx_nonce := tx_nonce t; tx_gas := tx_gas t; tx_gas_price := v;
     tx_max_fee_per_gas := tx_max_fee_per_gas t;
     tx_max_priority_fee_per_gas := tx_max_priority_fee_per_gas t;
     tx_max_fee_per_blob_gas := tx_max_fee_per_blob_gas t; tx_chain_id := tx_chain_id t;
     tx_transaction_type := tx_transaction_type t; tx_sidecar := tx_sidecar t;
     tx_authorization_list := tx_authorization_list t |}.

Definition set_1559_fees max_fee priority chain (t : TransactionRequest)
  : TransactionRequest :=
  {| tx_from := tx_from t; tx_to := tx_to t; tx_value := tx_value t; tx_input := tx_input t;
     tx_nonce := tx_nonce t; tx_gas := tx_gas t; tx_gas_price := tx_gas_price t;
     tx_max_fee_per_gas := max_fee; tx_max_priority_fee_per_gas := priority;
     tx_max_fee_per_blob_gas := tx_max_fee_per_blob_gas t; tx_chain_id := chain;
     tx_transaction_type := tx_transaction_type t; tx_sidecar := tx_sidecar t;
     tx_authorization_list := tx_authorization_list t |}.

Definition set_blob_fee v (t : TransactionRequest) : TransactionRequest :=
  {| tx_from := tx_from t; tx_to := tx_to t; tx_value := tx_value t; tx_input := tx_input t;
     tx_nonce := tx_nonce t; tx_gas := tx_gas t; tx_gas_price := tx_gas_price t;
     tx_max_fee_per_gas := tx_max_fee_per_gas t;
     tx_max_priority_fee_per_gas := tx_max_priority_fee_per_gas t;
     tx_max_fee_per_blob_gas := v; tx_chain_id := tx_chain_id t;
     tx_transaction_type := tx_transaction_type t; tx_sidecar := tx_sidecar t;
     tx_authorization_list := tx_authorization_list t |}.

Definition set_to v (t : TransactionRequest) : TransactionRequest :=
  {| tx_from := tx_from t; tx_to := v; tx_value := tx_value t; tx_input := tx_input t;
     tx_nonce := tx_nonce t; tx_gas := tx_gas t; tx_gas_price := tx_gas_price t;
     tx_max_fee_per_gas := tx_max_fee_per_gas t;
     tx_max_priority_fee_per_gas := tx_max_priority_fee_per_gas t;
     tx_max_fee_per_blob_gas := tx_max_fee_per_blob_gas t; tx_chain_id := tx_chain_id t;
     tx_transaction_type := tx_transaction_type t; tx_sidecar := tx_sidecar t;
     tx_authorization_list := tx_authorization_list t |}.

Definition set_value v (t : TransactionRequest) : TransactionRequest :=
  {| tx_from := tx_from t; tx_to := tx_to t; tx_value := v; tx_input := tx_input t;
     tx_nonce := tx_nonce t; tx_gas := tx_gas t; tx_gas_price := tx_gas_price t;
     tx_max_fee_per_gas := tx_max_fee_per_gas t;
     tx_max_priority_fee_per_gas := tx_max_priority_fee_per_gas t;
     tx_max_fee_per_blob_gas := tx_max_fee_per_blob_gas t; tx_chain_id := tx_chain_id t;
     tx_transaction_type := tx_transaction_type t; tx_sidecar := tx_sidecar t;
     tx_authorization_list := tx_authorization_list t |}.
End transaction_request.

(** ** Text forms *)

(** [address.encode_hex()]: 40 digits, no prefix. *)
Definition address_encode_hex (a : Address) : string := hex_digits 40 a.

(** [bytes.encode_hex()]. *)
Definition encode_hex (bs : list byte) : string :=
  foldr (fun b s => (hex_digits 2 (byte_to_Z b) ++ s)%string) "" bs.

(** ** A concrete instance

    Every type is a small concrete one; addresses and numbers are read from
    nothing but a few fixed strings. *)
Definition toy_alloy : Alloy := {|
  Signer := list byte;
  Sidecar := list byte;
  SignedAuthorization := Z * Z * Z;
  AbiFunction := list AbiParam;
  DynSolType := string;
  DynSolValue := string;
  keccak256 l := to_be 32 (from_be l * 31 + 7);
  from_str_radix s r := if String.eqb s "01" then Some 1 else None;
  parse_u256 s := if String.eqb s "100" then Some 100 else None;
  parse_address s := if starts_with "0x" s then Some (Z.of_nat (String.length s)) else None;
  parse_units s u := if String.eqb u "gwei" then Ok 1000000000 else Err "unit"%string;
  address_to_string a := ("0x" ++ hex_digits 40 a)%string;
  bytes_from_hex s := Some (take 32 (str_bytes s));
  signer_from_bytes l := Some l;
  signer_address l := from_be l mod 2 ^ 160;
  sign_authorization s a := Ok a;
  sidecar_build l := Some l;
  abi_parse s :=
    if String.eqb s "f(uint256 n)"
    then Ok [{| selector_type := "uint256"; display := "uint256 n" |}]
    else Ok [];
  abi_inputs l := l;
  sol_type_parse s := Ok s;
  coerce_str t s := Ok s;
  abi_encode_input f l := Ok (concat (str_bytes <$> l));
|}.
