(* ===== verification/Agents.v ===== *)
(** * Agents ([core/src/agent_controller.rs], [core/src/generator/agent_pools.rs])

    An agent is a named pool of signers.  [AgentStore] maps names to
    [SignerStore]s; [build_agent_store] derives the store a scenario needs from
    the pool names its plan declares; [fund_signers] prepares and sends one
    funding transaction per signer.  Iteration over the store's [HashMap] is
    [map_to_list]: nothing proved here depends on its order. *)

From Stdlib Require Import Strings.Byte.
From S2P Require Import Prelude Seeder Alloy.

(** The seed type of the program, with alloy's hash and number parser. *)
#[export] Instance rand_seed_SV : SeedValue rand_seed := rand_seed_value.
#[export] Instance rand_seed_SD `{Alloy} : Seeder rand_seed :=
  rand_seeder keccak256 from_str_radix.
#[export] Instance rand_seed_SG `{Alloy} : SeedGenerator rand_seed :=
  rand_seed_generator keccak256 from_str_radix.

Inductive AgentClass := Deployer | SetupSender | Spammer.

#[export] Instance AgentClass_eq_dec : EqDecision AgentClass.
Proof. solve_decision. Defined.

Section agents.
Context `{A : Alloy}.

Record SignerStore := { signers : list Signer; agent_class : AgentClass }.

(** ** One pool *)

(** [SignerRegistry::get_signer], [get_address]. *)
Definition get_signer (s : SignerStore) (idx : nat) : option Signer := signers s !! idx.
Definition get_address (s : SignerStore) (idx : nat) : option Address :=
  signer_address <$> signers s !! idx.

(** [U256::from_be_slice]: a slice of more than 32 bytes does not fit and panics. *)
Definition u256_from_be_slice {E} (l : list byte) : outcome E Z :=
  if (length l <=? 32)%nat then Ok (from_be l) else Panic.

(** [FixedBytes::from_slice]. *)
Definition fixed_bytes32 {E} (l : list byte) : outcome E (list byte) :=
  if (length l =? 32)%nat then Ok l else Panic.

Section generated.
Context {E S : Type} `{SV : SeedValue S, SD : Seeder S, SG : !SeedGenerator S}.

Definition SignerStore_new (num_signers : nat) (rand_seeder : S) (acct_seed : string)
    (class : AgentClass) : outcome E SignerStore :=
  acct ← u256_from_be_slice (str_bytes acct_seed);
  let new_seed := wrap 256 (as_u256 rand_seeder + acct) in
  let rand_seeder := seed_from_u256 (S := S) new_seed in
  values ← seed_values rand_seeder num_signers None None;
  let prv_keys := map as_bytes values in
  bs ← mapM (M := outcome E) fixed_bytes32 prv_keys;
  sigs ← mapM (M := outcome E) (fun b => unwrap (signer_from_bytes b)) bs;
  mret {| signers := sigs; agent_class := class |}.
End generated.

Definition add_signer (s : SignerStore) (signer : Signer) : SignerStore :=
  {| signers := signers s ++ [signer]; agent_class := agent_class s |}.

(** [Vec::remove] panics out of range. *)
Definition remove_signer {E} (s : SignerStore) (idx : nat) : outcome E SignerStore :=
  if (idx <? length (signers s))%nat
  then Ok {| signers := delete idx (signers s); agent_class := agent_class s |}
  else Panic.

Definition all_addresses (s : SignerStore) : list Address := signer_address <$> signers s.

(** ** The store *)

Record AgentStore := { agents : gmap string SignerStore }.

Definition AgentStore_new : AgentStore := {| agents := ∅ |}.

Definition has_agent (st : AgentStore) (name : string) : bool :=
  bool_decide (is_Some (agents st !! name)).

Definition add_agent (st : AgentStore) (name : string) (s : SignerStore) : AgentStore :=
  {| agents := <[name := s]> (agents st) |}.

Definition get_agent (st : AgentStore) (name : string) : option SignerStore :=
  agents st !! name.

Definition all_agents (st : AgentStore) : list (string * SignerStore) :=
  map_to_list (agents st).

Definition remove_agent (st : AgentStore) (name : string) : AgentStore :=
  {| agents := delete name (agents st) |}.

Definition all_signers (st : AgentStore) : list Signer :=
  (all_agents st).*2 ≫= signers.

Definition all_signer_addresses (st : AgentStore) : list Address :=
  sortZ (signer_address <$> all_signers st).

Definition get_class (st : AgentStore) (class : AgentClass) : option SignerStore :=
  snd <$> list_find (fun s => agent_class s = class) (all_agents st).*2.

Definition spammers (st : AgentStore) : option SignerStore := get_class st Spammer.
Definition deployers (st : AgentStore) : option SignerStore := get_class st Deployer.
Definition setup_senders (st : AgentStore) : option SignerStore := get_class st SetupSender.

Section store_generated.
Context {E S : Type} `{SV : SeedValue S, SD : Seeder S, SG : !SeedGenerator S}.

Definition add_new_agent (st : AgentStore) (name : string) (num_signers : nat)
    (rand_seeder : S) (class : AgentClass) : outcome E AgentStore :=
  s ← SignerStore_new num_signers rand_seeder name class;
  mret (add_agent st name s).

Definition init_step (signers_per_agent : nat) (seed : S) (class : AgentClass)
    (st : AgentStore) (name : string) : outcome E AgentStore :=
  if has_agent st name then mret st
  else add_new_agent st name signers_per_agent seed class.

(** [AgentStore::init]: the loop over the names. *)
Fixpoint init (st : AgentStore) (names : list string) (signers_per_agent : nat)
    (seed : S) (class : AgentClass) : outcome E AgentStore :=
  match names with
  | [] => mret st
  | name :: names =>
      st ← init_step signers_per_agent seed class st name;
      init st names signers_per_agent seed class
  end.
End store_generated.

(** ** The agents of a scenario *)

Record AgentSpec := {
  create_accounts : nat;
  setup_accounts : nat;
  spam_accounts : nat;
}.

Definition default_agent_spec : AgentSpec :=
  {| create_accounts := 1; setup_accounts := 1; spam_accounts := 10 |}.

Definition with_create_accounts (s : AgentSpec) (count : nat) : AgentSpec :=
  {| create_accounts := count; setup_accounts := setup_accounts s;
     spam_accounts := spam_accounts s |}.
Definition with_setup_accounts (s : AgentSpec) (count : nat) : AgentSpec :=
  {| create_accounts := create_accounts s; setup_accounts := count;
     spam_accounts := spam_accounts s |}.
Definition with_spam_accounts (s : AgentSpec) (count : nat) : AgentSpec :=
  {| create_accounts := create_accounts s; setup_accounts := setup_accounts s;
     spam_accounts := count |}.

(** [entry(pool).and_modify(max).or_insert((count, class))]. *)
Definition note_pool (count : nat) (class : AgentClass)
    (m : gmap string (nat * AgentClass)) (pool : string) : gmap string (nat * AgentClass) :=
  match m !! pool with
  | Some (c, k) => <[pool := (Nat.max c count, k)]> m
  | None => <[pool := (count, class)]> m
  end.

(** The map of pool name to signer count and class, over the three categories. *)
Definition pool_max_signers (pools_with_counts : list (list string * nat * AgentClass))
  : gmap string (nat * AgentClass) :=
  fold_left (fun m '(pools, count, class) => fold_left (note_pool count class) pools m)
    pools_with_counts ∅.

Section build.
Context {E S : Type} `{SV : SeedValue S, SD : Seeder S, SG : !SeedGenerator S}.

Fixpoint add_pools (st : AgentStore) (seed : S) (l : list (string * (nat * AgentClass)))
  : outcome E AgentStore :=
  match l with
  | [] => mret st
  | (name, (max_signers, class)) :: l =>
      st ← (if (0 <? max_signers)%nat
            then add_new_agent st name max_signers seed class else mret st);
      add_pools st seed l
  end.

(** [build_agent_store] on the pools a plan declares
    ([get_create_pools], [get_setup_pools], [get_spam_pools]). *)
Definition build_agent_store (create_pools setup_pools spam_pools : list string)
    (seed : S) (spec : AgentSpec) : outcome E AgentStore :=
  let m := pool_max_signers
    [(create_pools, create_accounts spec, Deployer);
     (setup_pools, setup_accounts spec, SetupSender);
     (spam_pools, spam_accounts spec, Spammer)] in
  add_pools AgentStore_new seed (map_to_list m).
End build.
End agents.

(** ** Funding the signers of a pool *)

Section funding.
Context `{A : Alloy} {P : Profile} {E : Type}.

(** What [fund_signers] asks of the provider and of the funder's wallet. *)
Record FundProvider (Envelope : Type) := {
  fp_gas_price : outcome E Z;
  fp_nonce : Address -> outcome E Z;
  fp_chain_id : outcome E Z;
  fp_build : Signer -> TransactionRequest -> outcome E Envelope;
  fp_send : Envelope -> outcome E TxHash;
  fp_watch : TxHash -> outcome E unit;
}.
Context {Envelope : Type} (prov : FundProvider Envelope).

Definition fund_request (funder : Address) (amount gas_price chain_id nonce : Z)
    (address : Address) : TransactionRequest :=
  set_1559_fees (Some gas_price) (Some (gas_price / 10)) (Some chain_id)
    (set_gas (Some 21000) (set_nonce (Some nonce) (set_from (Some funder)
      (set_value (Some amount) (set_to (Some (Call address)) default_tx))))).

(** One request per address; the counter is bumped after each. *)
Fixpoint fund_requests (funder : Address) (amount gas_price chain_id nonce : Z)
    (l : list Address) : outcome E (list TransactionRequest) :=
  match l with
  | [] => mret []
  | address :: l =>
      nonce' ← arith 64 (nonce + 1);
      txs ← fund_requests funder amount gas_price chain_id nonce' l;
      mret (fund_request funder amount gas_price chain_id nonce address :: txs)
  end.

(** Every request is built before the first is sent, every one is sent before
    the first confirmation is awaited. *)
Definition fund_signers (store : SignerStore) (funder : Signer) (amount : Z)
  : outcome E unit :=
  gas_price ← fp_gas_price _ prov;
  gas_price ← arith 128 (gas_price * 11);
  let gas_price := gas_price / 10 in
  nonce ← fp_nonce _ prov (signer_address funder);
  let addrs := all_addresses store in
  chain_id ← fp_chain_id _ prov;
  txs ← fund_requests (signer_address funder) amount gas_price chain_id nonce addrs;
  signed ← mapM (fp_build _ prov funder) txs;
  sent ← mapM (fp_send _ prov) signed;
  mapM (fp_watch _ prov) sent;;
  mret tt.
End funding.

(** ** Properties *)

Section agents_props.
Context `{A : Alloy} {P : Profile}.

Lemma fixed_bytes32_ok {E} l x : fixed_bytes32 (E := E) l = Ok x -> x = l /\ length l = 32%nat.
Proof. unfold fixed_bytes32. case_bool; intros; inv_outcome. split; [done|]. by apply Nat.eqb_eq. Qed.

Section generated_props.
Context {E S : Type} `{SV : SeedValue S, SD : Seeder S, SG : !SeedGenerator S}.

Lemma SignerStore_new_ok n (seed : S) name class s :
  SignerStore_new (E := E) n seed name class = Ok s ->
  length (signers s) = n /\ agent_class s = class /\ (length (str_bytes name) <= 32)%nat.
Proof.
  unfold SignerStore_new, u256_from_be_slice. intros H. inv_outcome. cbn [signers agent_class].
  repeat match goal with
  | H : mapM _ _ = Ok _ |- _ => apply mapM_length in H
  | H : seed_values _ _ _ _ = Ok _ |- _ => apply seed_values_amount in H
  end.
  rewrite length_map in *. split_and!; [congruence|done|].
  repeat case_bool; [by apply Nat.leb_le|done].
Qed.

Lemma mapM_take {X Y} (f : X -> outcome E Y) l k n :
  mapM f l = Ok k -> mapM f (take n l) = Ok (take n k).
Proof.
  revert l k. induction n as [|n IH]; intros [|x l] k H; cbn in *; inv_outcome; try done.
  rewrite H. cbn. by rewrite (IH _ _ H0).
Qed.

(** The class of a pool has no part in its accounts. *)
Lemma SignerStore_new_class n (seed : S) name class class' s s' :
  SignerStore_new (E := E) n seed name class = Ok s ->
  SignerStore_new (E := E) n seed name class' = Ok s' -> signers s = signers s'.
Proof. unfold SignerStore_new. intros H H'. inv_outcome. cbn. congruence. Qed.

(** The signers of a pool are the first ones of a larger pool of that name, made
    from a seed of the same number; the class makes no difference. *)
Lemma SignerStore_new_prefix n k (seed seed' : S) name class class' s :
  as_u256 seed' = as_u256 seed -> SignerStore_new (E := E) (n + k) seed name class = Ok s ->
  SignerStore_new (E := E) n seed' name class' = Ok {| signers := take n (signers s); agent_class := class' |}.
Proof.
  unfold SignerStore_new. intros -> H. inv_outcome. cbn [signers].
  rewrite H. cbn [mbind outcome_bind].
  rename select (seed_values _ _ _ _ = Ok _) into Hv. apply seed_values_prefix in Hv.
  rewrite Hv. cbn [mbind outcome_bind]. rewrite <- firstn_map.
  rename select (mapM fixed_bytes32 _ = Ok _) into Hb. apply (mapM_take _ _ _ n) in Hb.
  rewrite Hb. cbn [mbind outcome_bind].
  rename select (mapM (fun b => _) _ = Ok _) into Hs. apply (mapM_take _ _ _ n) in Hs.
  by rewrite Hs.
Qed.

(** Creating a pool yields exactly the requested number of signers and
    the given class whenever it succeeds; it never returns an error, and it
    panics when the pool name has more than 32 bytes. *)
Theorem signer_store_size (n : nat) (seed : S) (name : string) (class : AgentClass) :
  (forall e, SignerStore_new (E := E) n seed name class <> Err e) /\
  ((32 < length (str_bytes name))%nat ->
     SignerStore_new (E := E) n seed name class = Panic) /\
  (forall s, SignerStore_new (E := E) n seed name class = Ok s ->
     length (signers s) = n /\ agent_class s = class).
Proof.
  split_and!.
  - intros e. unfold SignerStore_new, u256_from_be_slice.
    destruct (length (str_bytes name) <=? 32)%nat; cbn; [|done].
    destruct (seed_values_full E (seed_from_u256 (S := S)
      (wrap 256 (as_u256 seed + from_be (str_bytes name)))) n) as [l ->]. cbn.
    enough (forall A' B' (f : A' -> outcome E B') l e,
      (forall x e, f x <> Err e) -> mapM f l <> Err e) as Hm.
    + pose proof (Hm _ _ fixed_bytes32 (map as_bytes l)) as H1.
      destruct (mapM fixed_bytes32 _) eqn:Hq; cbn; [|edestruct H1|done].
      * pose proof (Hm _ _ (fun b => unwrap (signer_from_bytes b)) a) as H2.
        destruct (mapM _ a); cbn; [done| |done]. intros _. eapply H2; [|done].
        intros x e'. by destruct (signer_from_bytes x).
      * intros x e'. unfold fixed_bytes32. by case_bool.
      * done.
    + clear. intros A' B' f l e Hf. induction l as [|x l IH]; cbn; [done|].
      destruct (f x) eqn:Hx; cbn; [|by edestruct Hf|done].
      destruct (mapM f l); cbn; [done| |done]. congruence.
  - intros Hn. unfold SignerStore_new, u256_from_be_slice.
    by rewrite (proj2 (Nat.leb_gt _ _) Hn).
  - intros s H. apply SignerStore_new_ok in H. naive_solver.
Qed.

Lemma init_step_ok n (seed : S) class st name st' :
  init_step (E := E) n seed class st name = Ok st' ->
  (forall k s, agents st !! k = Some s -> agents st' !! k = Some s) /\
  (forall k, agents st !! k = None -> k <> name -> agents st' !! k = None) /\
  exists s, agents st' !! name = Some s /\
    (agents st !! name = None -> length (signers s) = n /\ agent_class s = class).
Proof.
  unfold init_step, has_agent, add_new_agent, add_agent. case_bool.
  - intros H. inv_outcome. apply bool_decide_eq_true_1 in Hb as [s Hs].
    split_and!; [done|done|]. exists s. split; [done|congruence].
  - intros H. inv_outcome. apply bool_decide_eq_false_1, eq_None_not_Some in Hb.
    apply SignerStore_new_ok in H as (? & ? & _). cbn [agents]. split_and!.
    + intros k s Hk. rewrite lookup_insert_ne; [done|congruence].
    + intros k Hk Hne. by rewrite lookup_insert_ne.
    + eexists. rewrite lookup_insert_eq. done.
Qed.

(** [AgentStore::init] keeps every existing agent unchanged, adds each
    missing name with the requested number of signers and class, adds no
    other name, and running it again changes nothing. *)
Theorem init_agents (st st' : AgentStore) (names : list string) (n : nat) (seed : S)
    (class : AgentClass) (H : init (E := E) st names n seed class = Ok st') :
  (forall k s, agents st !! k = Some s -> agents st' !! k = Some s) /\
  (forall k, agents st !! k = None ->
     if bool_decide (k ∈ names)
     then exists s, agents st' !! k = Some s /\ length (signers s) = n /\
            agent_class s = class
     else agents st' !! k = None) /\
  init (E := E) st' names n seed class = Ok st'.
Proof.
  revert st H. induction names as [|name names IH]; intros st H; cbn in H; inv_outcome.
  - split_and!; [done| |done]. intros k Hk. by rewrite bool_decide_eq_false_2 by set_solver.
  - rename x into st1. destruct (IH _ H0) as (IH1 & IH2 & IH3).
    apply init_step_ok in H as (H1 & H2 & s & Hs & Hnew). split_and!.
    + auto.
    + intros k Hk. destruct (decide (k = name)) as [->|Hne].
      * rewrite bool_decide_eq_true_2 by set_solver. exists s. split; auto.
      * specialize (IH2 k (H2 k Hk Hne)).
        rewrite (bool_decide_ext (k ∈ name :: names) (k ∈ names)) by set_solver. done.
    + cbn. unfold init_step, has_agent. rewrite (IH1 _ _ Hs).
      rewrite bool_decide_eq_true_2 by done. done.
Qed.
End generated_props.

(** What the three categories ask of the pool [p], in their order. *)
Definition demand (l : list (list string * nat * AgentClass)) (p : string)
  : list (nat * AgentClass) :=
  l ≫= fun '(pools, count, class) =>
    if bool_decide (p ∈ pools) then [(count, class)] else [].

(** The largest request, with the class of the first. *)
Definition settle (o : option (nat * AgentClass)) (d : list (nat * AgentClass))
  : option (nat * AgentClass) :=
  fold_left (fun o '(c, k) => match o with
    | Some (c0, k0) => Some (Nat.max c0 c, k0)
    | None => Some (c, k) end) d o.

Lemma note_pools_lookup count class pools m p :
  fold_left (note_pool count class) pools m !! p =
  if bool_decide (p ∈ pools) then settle (m !! p) [(count, class)] else m !! p.
Proof.
  revert m. induction pools as [|q pools IH]; intros m; cbn [fold_left].
  - by rewrite bool_decide_eq_false_2 by set_solver.
  - rewrite IH. unfold note_pool.
    assert (Hq : match m !! q with
      | Some (c, k) => <[q:=(Nat.max c count, k)]> m
      | None => <[q:=(count, class)]> m end !! p =
      if decide (p = q) then settle (m !! q) [(count, class)] else m !! p).
    { destruct (decide (p = q)) as [->|Hne]; destruct (m !! q) as [[c k]|].
      - by rewrite lookup_insert_eq.
      - by rewrite lookup_insert_eq.
      - by rewrite lookup_insert_ne.
      - by rewrite lookup_insert_ne. }
    rewrite Hq. destruct (decide (p = q)) as [->|Hne].
    + rewrite (bool_decide_eq_true_2 (q ∈ q :: pools)) by set_solver.
      case_bool_decide; [|done]. cbn. destruct (m !! q) as [[c k]|]; cbn; do 2 f_equal; lia.
    + rewrite (bool_decide_ext (p ∈ q :: pools) (p ∈ pools)) by set_solver. done.
Qed.

Lemma pool_max_signers_lookup l p : pool_max_signers l !! p = settle None (demand l p).
Proof.
  unfold pool_max_signers. rewrite <- (lookup_empty p).
  generalize (∅ : gmap string (nat * AgentClass)) as m.
  induction l as [|[[pools count] class] l IH]; intros m; [done|].
  cbn [fold_left demand]. rewrite IH, note_pools_lookup.
  change (demand ((pools, count, class) :: l) p) with
    ((if bool_decide (p ∈ pools) then [(count, class)] else []) ++ demand l p).
  unfold settle. rewrite fold_left_app. by case_bool_decide.
Qed.

Section build_props.
Context {E S : Type} `{SV : SeedValue S, SD : Seeder S, SG : !SeedGenerator S}.

Lemma add_pools_other st (seed : S) l st' name :
  add_pools (E := E) st seed l = Ok st' -> name ∉ l.*1 ->
  agents st' !! name = agents st !! name.
Proof.
  revert st. induction l as [|[q [c k]] l IH]; intros st H Hn; cbn in H; inv_outcome; [done|].
  apply not_elem_of_cons in Hn as [Hne Hn].
  erewrite IH by done. unfold add_new_agent in *. case_bool; inv_outcome; [|done].
  cbn. by rewrite lookup_insert_ne.
Qed.

Lemma add_pools_made st (seed : S) l st' name c k :
  add_pools (E := E) st seed l = Ok st' -> NoDup l.*1 -> (name, (c, k)) ∈ l ->
  (0 < c)%nat ->
  exists s, agents st' !! name = Some s /\ SignerStore_new (E := E) c seed name k = Ok s.
Proof.
  revert st. induction l as [|[q [c' k']] l IH]; intros st H Hd Hin Hc.
  - by apply not_elem_of_nil in Hin.
  - cbn in H. inv_outcome. apply NoDup_cons in Hd as [Hq Hd].
    apply elem_of_cons in Hin as [Heq|Hin]; [|by eapply IH].
    injection Heq as -> -> ->. destruct c' as [|c']; [lia|]. cbn in H.
    unfold add_new_agent in H. inv_outcome.
    eexists. erewrite add_pools_other by done. cbn. by rewrite lookup_insert_eq.
Qed.

Lemma add_pools_lookup st (seed : S) l st' name c k :
  add_pools (E := E) st seed l = Ok st' -> NoDup l.*1 -> (name, (c, k)) ∈ l ->
  (0 < c)%nat ->
  exists s, agents st' !! name = Some s /\ length (signers s) = c /\ agent_class s = k.
Proof.
  intros H Hd Hin Hc. destruct (add_pools_made _ _ _ _ _ _ _ H Hd Hin Hc) as (s & Hs & Hn).
  apply SignerStore_new_ok in Hn as (? & ? & _). by exists s.
Qed.

Lemma add_pools_zero st (seed : S) l st' name k :
  add_pools (E := E) st seed l = Ok st' -> NoDup l.*1 -> (name, (0%nat, k)) ∈ l ->
  agents st' !! name = agents st !! name.
Proof.
  revert st. induction l as [|[q [c' k']] l IH]; intros st H Hd Hin.
  - by apply not_elem_of_nil in Hin.
  - cbn in H. inv_outcome. apply NoDup_cons in Hd as [Hq Hd].
    apply elem_of_cons in Hin as [Heq|Hin].
    + injection Heq as -> <- ->. cbn in H. inv_outcome. by eapply add_pools_other.
    + erewrite IH by done. unfold add_new_agent in H. case_bool; inv_outcome; [|done].
      cbn. rewrite lookup_insert_ne; [done|]. intros ->. apply Hq.
      by apply (list_elem_of_fmap_2 fst _ (name, (0%nat, k))).
Qed.

Lemma add_pools_agents st (seed : S) l st' name s :
  add_pools (E := E) st seed l = Ok st' -> agents st' !! name = Some s ->
  agents st !! name = Some s \/
  exists c k, (0 < c)%nat /\ (name, (c, k)) ∈ l /\ SignerStore_new (E := E) c seed name k = Ok s.
Proof.
  revert st. induction l as [|[q [c' k']] l IH]; intros st H Hs; cbn in H; inv_outcome; [by left|].
  destruct (IH _ H0 Hs) as [Ha|(c & k & Hc & Hin & Hn)];
    [|right; exists c, k; split_and!; [done|by right|done]].
  unfold add_new_agent in H. case_bool; inv_outcome; [|by left].
  cbn in Ha. destruct (decide (q = name)) as [->|Hne].
  - rewrite lookup_insert_eq in Ha. injection Ha as <-. right. exists c', k'.
    split_and!; [by apply Nat.ltb_lt|by left|done].
  - rewrite lookup_insert_ne in Ha by done. by left.
Qed.

(** The largest request is one of them. *)
Lemma settle_among (Q : nat -> Prop) d o c k :
  settle o d = Some (c, k) -> (forall c0 k0, o = Some (c0, k0) -> Q c0) ->
  Forall (fun x => Q x.1) d -> Q c.
Proof.
  revert o. induction d as [|[c1 k1] d IH]; intros o H Ho Hd; cbn in H; [by eapply Ho|].
  apply Forall_cons in Hd as [Hc Hd]. cbn in Hc. eapply IH; [exact H| |exact Hd].
  destruct o as [[c0 k0]|]; intros c2 k2 [= <- <-]; [|done]. specialize (Ho _ _ eq_refl).
  by destruct (Nat.max_spec c0 c1) as [[_ ->]|[_ ->]].
Qed.

(** Every pool of the store is made from the seed, with at most as many signers
    as the largest count, and is one that the plan declares. *)
Lemma build_agent_store_made create setup spam (seed : S) spec st name s n :
  build_agent_store (E := E) create setup spam seed spec = Ok st -> agents st !! name = Some s ->
  (create_accounts spec <= n)%nat -> (setup_accounts spec <= n)%nat -> (spam_accounts spec <= n)%nat ->
  exists c k, SignerStore_new (E := E) c seed name k = Ok s /\ (c <= n)%nat /\
    (name ∈ create \/ name ∈ setup \/ name ∈ spam).
Proof.
  unfold build_agent_store. intros H Hs H1 H2 H3.
  apply (add_pools_agents _ _ _ _ _ _ H) in Hs as [Hs|(c & k & _ & Hin & Hn)].
  { cbn in Hs. by rewrite lookup_empty in Hs. }
  exists c, k. split; [exact Hn|]. apply elem_of_map_to_list in Hin.
  rewrite pool_max_signers_lookup in Hin. cbn in Hin. rewrite !app_nil_r in Hin. split.
  - eapply (settle_among (fun c => (c <= n)%nat)); [exact Hin|done|].
    repeat case_bool_decide; repeat constructor; done.
  - repeat case_bool_decide; cbn in Hin; naive_solver.
Qed.

(** When a category asks for [n] accounts or for none, a pool has [n]. *)
Lemma build_agent_store_equal create setup spam (seed : S) spec st name s n :
  build_agent_store (E := E) create setup spam seed spec = Ok st -> agents st !! name = Some s ->
  Forall (fun c => c = 0 \/ c = n)%nat [create_accounts spec; setup_accounts spec; spam_accounts spec] ->
  exists k, SignerStore_new (E := E) n seed name k = Ok s.
Proof.
  unfold build_agent_store. intros H Hs Hn.
  apply (add_pools_agents _ _ _ _ _ _ H) in Hs as [Hs|(c & k & Hc & Hin & Hs)].
  { cbn in Hs. by rewrite lookup_empty in Hs. }
  exists k. apply elem_of_map_to_list in Hin.
  rewrite pool_max_signers_lookup in Hin.
  assert (c = 0 \/ c = n)%nat as [->| ->]; [|lia|done].
  eapply (settle_among (fun c => c = 0 \/ c = n)%nat); [exact Hin|done|]. cbn. rewrite app_nil_r.
  decompose_Forall_hyps. repeat case_bool_decide; cbn [app];
    repeat apply Forall_cons_2; first [apply Forall_nil_2|done].
Qed.

(** In the store built for a scenario, a pool exists exactly when some
    category with a positive account count declares it; it then has as many
    signers as the largest count of the categories that declare it, and the
    class of the first of them (create, then setup, then spam). *)
Theorem build_agent_store_pools (create setup spam : list string) (seed : S)
    (spec : AgentSpec) (st : AgentStore) (name : string)
    (H : build_agent_store (E := E) create setup spam seed spec = Ok st) :
  let d := demand [(create, create_accounts spec, Deployer);
                   (setup, setup_accounts spec, SetupSender);
                   (spam, spam_accounts spec, Spammer)] name in
  match d with
  | [] => agents st !! name = None
  | (_, class) :: _ =>
      let n := max_list d.*1 in
      if (n =? 0)%nat then agents st !! name = None
      else exists s, agents st !! name = Some s /\ length (signers s) = n /\
             agent_class s = class
  end.
Proof.
  intros d. unfold build_agent_store in H.
  match type of H with add_pools _ _ (map_to_list (pool_max_signers ?l)) = _ =>
    pose proof (pool_max_signers_lookup l name) as Hl; fold d in Hl end.
  pose proof (NoDup_fst_map_to_list (pool_max_signers
    [(create, create_accounts spec, Deployer); (setup, setup_accounts spec, SetupSender);
     (spam, spam_accounts spec, Spammer)])) as Hnd.
  assert (Hs : forall o d, settle o d = match o, d with
    | Some (c, k), _ => Some (Nat.max c (max_list d.*1), k)
    | None, [] => None
    | None, (_, k) :: _ => Some (max_list d.*1, k) end).
  { clear. intros o d. revert o. induction d as [|[c k] d IH]; intros [[c0 k0]|].
    - cbn. by rewrite Nat.max_0_r.
    - done.
    - change (settle (Some (Nat.max c0 c, k0)) d = Some (Nat.max c0 (Nat.max c (max_list d.*1)), k0)).
      rewrite IH. by rewrite Nat.max_assoc.
    - change (settle (Some (c, k)) d = Some (Nat.max c (max_list d.*1), k)). by rewrite IH. }
  rewrite Hs in Hl. clearbody d. destruct d as [|[c k] d].
  - rewrite (add_pools_other _ _ _ _ _ H); [done|]. intros Hin.
    apply list_elem_of_fmap in Hin as ([q v] & -> & Hin).
    apply elem_of_map_to_list in Hin. cbn [fst] in Hl. by rewrite Hl in Hin.
  - cbv zeta. apply elem_of_map_to_list in Hl. case_bool.
    + apply Nat.eqb_eq in Hb. rewrite Hb in Hl. by rewrite (add_pools_zero _ _ _ _ _ _ H Hnd Hl).
    + apply Nat.eqb_neq in Hb. eapply add_pools_lookup; [done..|]. lia.
Qed.
End build_props.

(** The addresses of all signers come in ascending order, each as often as
    it occurs, and the list is the same whatever order the map is iterated in. *)
Theorem all_signer_addresses_sorted (st : AgentStore) (order : list (string * SignerStore)) :
  order ≡ₚ map_to_list (agents st) ->
  Sorted Z.le (all_signer_addresses st) /\
  all_signer_addresses st = sortZ (signer_address <$> (order.*2 ≫= signers)).
Proof.
  intros Ho. split; [apply sortZ_sorted|]. apply sortZ_unique.
  unfold all_signers, all_agents. by rewrite Ho.
Qed.

Lemma fund_requests_lookup {E} funder amount gp cid nonce l txs :
  fund_requests (E := E) funder amount gp cid nonce l = Ok txs ->
  (forall i a, l !! i = Some a -> nonce + Z.of_nat i < 2 ^ 64) ->
  0 <= nonce ->
  length txs = length l /\
  forall i a, l !! i = Some a ->
    txs !! i = Some (fund_request funder amount gp cid (nonce + Z.of_nat i) a).
Proof.
  revert nonce txs. induction l as [|b l IH]; intros nonce txs H Hb Hn; cbn in H; inv_outcome.
  - split; [done|]. intros i a. by rewrite lookup_nil.
  - destruct l as [|b' l].
    + cbn in H0. inv_outcome. split; [done|]. intros [|i] a Ha; cbn in *; [|done].
      injection Ha as ->. by rewrite Z.add_0_r.
    + rewrite arith_in in H by (specialize (Hb 1%nat b' eq_refl); lia). inv_outcome.
      apply IH in H0 as [Hl Hi]; [| |lia].
      2: { intros i a Ha. specialize (Hb (S i) a Ha). lia. }
      split; [cbn; by rewrite Hl|]. intros [|i] a Ha; cbn in Ha |- *.
      * injection Ha as ->. by rewrite Z.add_0_r.
      * etrans; [exact (Hi i a Ha)|]. do 2 f_equal. lia.
Qed.
End agents_props.

(** When funding a pool succeeds, the transactions handed to the wallet are
    one per signer of the pool in the pool's order, each a transfer of [amount]
    from the funder with the gas limit of a transfer, a fee cap 10% above the
    provider's gas price and the provider's nonce plus its position. *)
Theorem fund_signers_nonces `{A : Alloy} {P : Profile} {E Envelope : Type}
    (prov : FundProvider (E := E) Envelope) (store : SignerStore) (funder : Signer)
    (amount gas_price chain_id nonce : Z)
    (Hok : fund_signers prov store funder amount = Ok tt)
    (Hg : fp_gas_price _ prov = Ok gas_price) (Hg' : 0 <= gas_price * 11 < 2 ^ 128)
    (Hn : fp_nonce _ prov (signer_address funder) = Ok nonce)
    (Hc : fp_chain_id _ prov = Ok chain_id)
    (Hr : 0 <= nonce /\ nonce + Z.of_nat (length (signers store)) < 2 ^ 64) :
  exists txs envelopes,
    mapM (fp_build _ prov funder) txs = Ok envelopes /\
    is_ok (mapM (fp_send _ prov) envelopes) = true /\
    length txs = length (signers store) /\
    forall i s, signers store !! i = Some s ->
      txs !! i = Some (fund_request (signer_address funder) amount (gas_price * 11 / 10)
                         chain_id (nonce + Z.of_nat i) (signer_address s)).
Proof.
  unfold fund_signers in Hok. rewrite Hg in Hok. cbn [mbind outcome_bind] in Hok.
  rewrite arith_in in Hok by done. cbn [mbind outcome_bind] in Hok.
  rewrite Hn, Hc in Hok. cbn [mbind outcome_bind] in Hok.
  apply bind_ok in Hok as (txs & Ht & Hok). apply bind_ok in Hok as (envs & He & Hok).
  apply bind_ok in Hok as (sent & Hs & _).
  apply fund_requests_lookup in Ht as [Hl Hi]; [| |lia].
  - exists txs, envs. split_and!; [done|by rewrite Hs| |].
    + rewrite Hl. unfold all_addresses. by rewrite length_fmap.
    + intros i s Hs'. apply Hi. unfold all_addresses. by rewrite list_lookup_fmap, Hs'.
  - intros i a Ha. apply lookup_lt_Some in Ha. unfold all_addresses in Ha.
    rewrite length_fmap in Ha. lia.
Qed.

(** ** Witnesses *)

Module AgentsWitness.
#[local] Existing Instance toy_alloy.
#[local] Instance toy_profile : Profile := true.

Definition seed : rand_seed := seed_from_u256 (S := rand_seed) 5.
Lemma signer_store_size_witness :
  exists s, SignerStore_new (E := unit) 2 seed "abc" Deployer = Ok s /\ length (signers s) = 2%nat.
Proof.
  run_ok (SignerStore_new (E := unit) 2 seed "abc" Deployer) s H.
  exists s. split; [exact H|].
  apply (proj2 (proj2 (signer_store_size (E := unit) 2 seed "abc" Deployer)) s H).
Defined.

Lemma init_agents_witness :
  exists st, init (E := unit) st ["a"; "b"] 2 seed Spammer = Ok st /\ get_agent st "c" = None.
Proof.
  run_ok (init (E := unit) AgentStore_new ["a"; "b"] 2 seed Spammer) st H.
  destruct (init_agents (E := unit) _ _ _ _ _ _ H) as (_ & Hn & Hi).
  exists st. split; [exact Hi|]. exact (Hn "c"%string eq_refl).
Defined.

Lemma build_agent_store_pools_witness :
  exists st s, build_agent_store (E := unit) ["admin"] [] ["admin"; "spam"] seed
      default_agent_spec = Ok st /\
    agents st !! "admin" = Some s /\ length (signers s) = 10%nat /\ agent_class s = Deployer.
Proof.
  run_ok (build_agent_store (E := unit) ["admin"] [] ["admin"; "spam"] seed
    default_agent_spec) st H.
  exists st. destruct (build_agent_store_pools _ _ _ _ _ _ "admin" H) as [s Hs].
  exists s. exact (conj H Hs).
Defined.

Definition pool : SignerStore := {| signers := [[x01]; [x02]]; agent_class := Spammer |}.
Definition store : AgentStore := {| agents := {[ "a" := pool ]} |}.

Lemma all_signer_addresses_sorted_witness : Sorted Z.le (all_signer_addresses store).
Proof.
  apply (all_signer_addresses_sorted store (map_to_list (agents store))). reflexivity.
Defined.

Definition prov : FundProvider (E := unit) Z := {|
  fp_gas_price := Ok 100; fp_nonce _ := Ok 7; fp_chain_id := Ok 1;
  fp_build _ t := Ok (default 0 (tx_nonce t)); fp_send e := Ok e; fp_watch _ := Ok tt |}.
Definition funder : Signer := [x09].

Lemma fund_signers_nonces_witness :
  exists txs, tx_nonce <$> txs = [Some 7; Some 8].
Proof.
  destruct (fund_signers_nonces prov pool funder 1 100 1 7
    ltac:(vm_compute; reflexivity) eq_refl ltac:(split; vm_compute; congruence)
    eq_refl eq_refl ltac:(split; vm_compute; congruence)) as (txs & _ & _ & _ & Hlen & Hi).
  assert (length (signers pool) = 2%nat) as Hp by (vm_compute; reflexivity).
  rewrite Hp in Hlen. destruct txs as [|t1 [|t2 [|]]]; try discriminate.
  exists [t1; t2].
  destruct (lookup_lt_is_Some_2 (signers pool) 0 ltac:(rewrite Hp; lia)) as [s1 H1].
  destruct (lookup_lt_is_Some_2 (signers pool) 1 ltac:(rewrite Hp; lia)) as [s2 H2].
  pose proof (Hi _ _ H1) as E1. pose proof (Hi _ _ H2) as E2. cbn in E1, E2.
  injection E1 as ->. injection E2 as ->. reflexivity.
Defined.
End AgentsWitness.
