(* ===== verification/Db.v ===== *)
(** * The database interface ([core/src/db])

    The rows a run leaves behind, the [DbOps] trait as a class of operations on
    a database state, and the mock implementation.  Operations that write
    return the new state.  The SQLite implementation is in [SqliteDb]. *)

From Stdlib Require Import Strings.Ascii Strings.String.
From S2P Require Import Prelude Text Alloy F64.

Inductive DbError := Internal (msg : string) | NotFound (msg : string).

Record NamedTx := {
  nt_name : string;
  nt_tx_hash : TxHash;
  nt_address : option Address;
}.

Definition NamedTx_new (name : string) (tx_hash : TxHash) (address : option Address) : NamedTx :=
  {| nt_name := name; nt_tx_hash := tx_hash; nt_address := address |}.

Record RunTx := {
  rt_tx_hash : TxHash;
  rt_start_timestamp_ms : Z;
  rt_end_timestamp_ms : option Z;
  rt_block_number : option Z;
  rt_gas_used : option Z;
  rt_kind : option string;
  rt_error : option string;
  rt_flashblock_latency_ms : option Z;
  rt_flashblock_index : option Z;
}.

#[export] Instance RunTx_eq_dec : EqDecision RunTx.
Proof. solve_decision. Defined.
#[export] Instance NamedTx_eq_dec : EqDecision NamedTx.
Proof. solve_decision. Defined.

(** ** Durations of a run *)

Inductive SpamDuration := Seconds (v : Z) | Blocks (v : Z).

Definition duration_value (d : SpamDuration) : Z :=
  match d with Seconds v => v | Blocks v => v end.
Definition duration_unit (d : SpamDuration) : string :=
  match d with Seconds _ => "seconds" | Blocks _ => "blocks" end.
Definition is_seconds (d : SpamDuration) : bool :=
  match d with Seconds _ => true | Blocks _ => false end.
Definition is_blocks (d : SpamDuration) : bool :=
  match d with Blocks _ => true | Seconds _ => false end.

(** [Display]. *)
Definition duration_to_string (d : SpamDuration) : string :=
  match d with
  | Seconds v => (dec v +:+ " seconds")%string
  | Blocks v => (dec v +:+ " blocks")%string
  end.

(** [From<String>]: panics on any other text. *)
Definition duration_of_string {E} (value : string) : outcome E SpamDuration :=
  let value := trim value in
  match strip_suffix " seconds" value with
  | Some stripped =>
      match parse_uint 64 (trim stripped) with Some s => Ok (Seconds s) | None => Panic end
  | None =>
      match strip_suffix " blocks" value with
      | Some stripped =>
          match parse_uint 64 (trim stripped) with Some b => Ok (Blocks b) | None => Panic end
      | None => Panic
      end
  end.

(** ** Runs *)

Record SpamRun := {
  sr_id : Z;
  sr_timestamp : Z;
  sr_tx_count : Z;
  sr_scenario_name : string;
  sr_campaign_id : option string;
  sr_campaign_name : option string;
  sr_stage_name : option string;
  sr_rpc_url : string;
  sr_txs_per_duration : Z;
  sr_duration : SpamDuration;
  sr_timeout : Z;
}.

(** [pending_timeout] in whole seconds, the only part the program reads. *)
Record SpamRunRequest := {
  rr_timestamp : Z;
  rr_tx_count : Z;
  rr_scenario_name : string;
  rr_campaign_id : option string;
  rr_campaign_name : option string;
  rr_stage_name : option string;
  rr_rpc_url : string;
  rr_txs_per_duration : Z;
  rr_duration : SpamDuration;
  rr_pending_timeout_secs : Z;
}.

(** A run as it is read back, under its id. *)
Definition run_of_request (id : Z) (r : SpamRunRequest) : SpamRun :=
  {| sr_id := id; sr_timestamp := rr_timestamp r; sr_tx_count := rr_tx_count r;
     sr_scenario_name := rr_scenario_name r; sr_campaign_id := rr_campaign_id r;
     sr_campaign_name := rr_campaign_name r; sr_stage_name := rr_stage_name r;
     sr_rpc_url := rr_rpc_url r; sr_txs_per_duration := rr_txs_per_duration r;
     sr_duration := rr_duration r; sr_timeout := rr_pending_timeout_secs r |}.

Record ReplayReportRequest := {
  rq_rpc_url_id : Z;
  rq_gas_per_second : Z;
  rq_gas_used : Z;
}.
Definition ReplayReportRequest_new : ReplayReportRequest :=
  {| rq_rpc_url_id := 0; rq_gas_per_second := 0; rq_gas_used := 0 |}.

Record ReplayReport := { rp_id : Z; rp_req : ReplayReportRequest }.
Definition ReplayReport_new (id : Z) (req : ReplayReportRequest) : ReplayReport :=
  {| rp_id := id; rp_req := req |}.
Definition replay_gas_used (r : ReplayReport) : Z := rq_gas_used (rp_req r).
Definition replay_gas_per_second (r : ReplayReport) : Z := rq_gas_per_second (rp_req r).
Definition replay_rpc_url_id (r : ReplayReport) : Z := rq_rpc_url_id (rp_req r).

(** ** The interface *)

(** [trait DbOps] on databases of type [D]; the error is already a [DbError]. *)
Class DbOps (D : Type) := {
  create_tables : D -> outcome DbError D;
  get_latency_metrics : D -> Z -> string -> outcome DbError (list Bucket);
  get_named_tx : D -> string -> string -> TxHash -> outcome DbError (option NamedTx);
  get_named_tx_by_address : D -> Address -> outcome DbError (option NamedTx);
  get_run : D -> Z -> outcome DbError (option SpamRun);
  get_runs_by_campaign : D -> string -> outcome DbError (list SpamRun);
  get_run_txs : D -> Z -> outcome DbError (list RunTx);
  latest_campaign_id : D -> outcome DbError (option string);
  insert_named_txs : D -> list NamedTx -> string -> TxHash -> outcome DbError D;
  insert_run : D -> SpamRunRequest -> outcome DbError (Z * D);
  insert_run_txs : D -> Z -> list RunTx -> outcome DbError D;
  insert_latency_metrics : D -> Z -> list (string * list Bucket) -> outcome DbError D;
  num_runs : D -> outcome DbError Z;
  get_rpc_url_for_scenario : D -> string -> outcome DbError (option string);
  version : D -> Z;
  num_replay_reports : D -> outcome DbError Z;
  insert_replay_report : D -> ReplayReportRequest -> outcome DbError (ReplayReport * D);
  get_replay_report : D -> Z -> outcome DbError ReplayReport;
  get_rpc_url_id : D -> string -> TxHash -> outcome DbError (Z * D);
}.

(** ** The mock *)

Inductive MockDb := mock_db.

#[export] Instance mock_ops : DbOps MockDb := {|
  create_tables d := Ok d;
  get_latency_metrics d _ _ := Ok [Bucket_of (f64_of_Z 0, 1)];
  get_named_tx d _ _ _ := Ok (Some (NamedTx_new "" 0 None));
  get_named_tx_by_address d address := Ok (Some (NamedTx_new "" 0 (Some address)));
  get_run d _ := Ok None;
  get_runs_by_campaign d _ := Ok [];
  get_run_txs d _ := Ok [];
  latest_campaign_id d := Ok None;
  insert_named_txs d _ _ _ := Ok d;
  insert_run d _ := Ok (0, d);
  insert_run_txs d _ _ := Ok d;
  insert_latency_metrics d _ _ := Ok d;
  num_runs d := Ok 0;
  get_rpc_url_for_scenario d _ := Ok (Some "http://localhost:8545"%string);
  version d := U64_MAX;
  num_replay_reports d := Ok 0;
  insert_replay_report d req := Ok (ReplayReport_new 0 req, d);
  get_replay_report d id := Ok (ReplayReport_new id ReplayReportRequest_new);
  get_rpc_url_id d _ _ := Ok (0, d);
|}.

(** ** Properties *)

Lemma solid_dec_suffix v suf :
  first_solid (str_rev suf) = true -> str_rev suf <> ""%string ->
  trim (dec v +:+ suf)%string = (dec v +:+ suf)%string.
Proof.
  intros Hs Hn. apply trim_solid.
  - apply first_solid_digits; [apply dec_nonempty|apply dec_digits].
  - rewrite str_rev_app_distr. destruct (str_rev suf); done.
Qed.

Lemma blocks_not_seconds s : strip_suffix " seconds" (s +:+ " blocks")%string = None.
Proof.
  unfold strip_suffix, ends_with. rewrite str_rev_app_distr.
  change (str_rev " blocks") with "skcolb "%string.
  change (str_rev " seconds") with "sdnoces "%string. reflexivity.
Qed.

(** Reading back the displayed form of a duration gives the duration, for every
    64-bit count. *)
Lemma duration_roundtrip {E} (d : SpamDuration) (H : 0 <= duration_value d < 2 ^ 64) :
  duration_of_string (E := E) (duration_to_string d) = Ok d.
Proof.
  destruct d as [v|v]; unfold duration_of_string, duration_to_string; cbn in H;
    rewrite solid_dec_suffix by done.
  - rewrite strip_suffix_app, trim_digits by apply dec_digits. by rewrite parse_dec.
  - rewrite blocks_not_seconds, strip_suffix_app, trim_digits by apply dec_digits.
    by rewrite parse_dec.
Qed.
