(* ===== verification/DbStore.v ===== *)
(** * What a database promises ([core/src/db/trait.rs])

    An abstract database: lists of the values that were stored, in the order they
    were.  It has the methods of [DbOps]; [SqliteRefine] shows that the SQLite
    database cannot be told from it by calls of the interface.  Ids count from 1;
    the text of an error is left open. *)

From Stdlib Require Import Strings.String.
From S2P Require Import Prelude Text Alloy F64 Db.

Record Store := {
  st_runs : list SpamRunRequest;
  st_txs : list (Z * RunTx);
  st_latency : list (Z * (string * Bucket));
  st_nodes : list (string * TxHash);
  st_named : list (Z * NamedTx);
  st_reports : list ReplayReportRequest;
}.
Definition empty_store : Store :=
  {| st_runs := []; st_txs := []; st_latency := []; st_nodes := []; st_named := []; st_reports := [] |}.

Definition add_run (r : SpamRunRequest) (d : Store) : Store :=
  {| st_runs := st_runs d ++ [r]; st_txs := st_txs d; st_latency := st_latency d;
     st_nodes := st_nodes d; st_named := st_named d; st_reports := st_reports d |}.
Definition add_txs (id : Z) (txs : list RunTx) (d : Store) : Store :=
  {| st_runs := st_runs d; st_txs := st_txs d ++ (pair id <$> txs); st_latency := st_latency d;
     st_nodes := st_nodes d; st_named := st_named d; st_reports := st_reports d |}.
Definition add_latency (id : Z) (l : list (string * Bucket)) (d : Store) : Store :=
  {| st_runs := st_runs d; st_txs := st_txs d; st_latency := st_latency d ++ (pair id <$> l);
     st_nodes := st_nodes d; st_named := st_named d; st_reports := st_reports d |}.
Definition add_node (n : string * TxHash) (d : Store) : Store :=
  {| st_runs := st_runs d; st_txs := st_txs d; st_latency := st_latency d;
     st_nodes := st_nodes d ++ [n]; st_named := st_named d; st_reports := st_reports d |}.
Definition add_named (id : Z) (txs : list NamedTx) (d : Store) : Store :=
  {| st_runs := st_runs d; st_txs := st_txs d; st_latency := st_latency d;
     st_nodes := st_nodes d; st_named := st_named d ++ (pair id <$> txs); st_reports := st_reports d |}.
Definition add_report (r : ReplayReportRequest) (d : Store) : Store :=
  {| st_runs := st_runs d; st_txs := st_txs d; st_latency := st_latency d;
     st_nodes := st_nodes d; st_named := st_named d; st_reports := st_reports d ++ [r] |}.

(** The elements of a list with their ids. *)
Definition numbered {A} (l : list A) : list (Z * A) := imap (fun i x => (Z.of_nat i + 1, x)) l.
Definition with_id {A} (id : Z) (l : list A) : option A :=
  if 1 <=? id then l !! Z.to_nat (id - 1) else None.
Definition count_of {A} (l : list A) : Z := Z.of_nat (length l).

(** The id of a node, by its first entry. *)
Definition node_id (n : string * TxHash) (d : Store) : option Z :=
  (fun x => Z.of_nat x.1 + 1) <$> list_find (fun m => m = n) (st_nodes d).
Definition know_node (n : string * TxHash) (d : Store) : Z * Store :=
  match node_id n d with
  | Some id => (id, d)
  | None => (count_of (st_nodes d) + 1, add_node n d)
  end.

(** A named transaction is found as it was given, and must have an address. *)
Definition found_named (o : option NamedTx) : outcome DbError (option NamedTx) :=
  match o with
  | Some t => match nt_address t with Some _ => Ok (Some t) | None => Panic end
  | None => Ok None
  end.

(** Rows of a run need the run. *)
Definition for_run {A} (id : Z) (l : list A) (d d' : Store) : outcome DbError Store :=
  match l with
  | [] => Ok d
  | _ => match with_id id (st_runs d) with Some _ => Ok d' | None => Err (Internal "no such run") end
  end.

#[export] Instance store_ops : DbOps Store := {|
  create_tables d := Ok d;
  get_latency_metrics d id method :=
    Ok (omap (fun x : Z * (string * Bucket) =>
          if (x.1 =? id) && String.eqb x.2.1 method then Some x.2.2 else None) (st_latency d));
  get_named_tx d name url hash :=
    match node_id (url, hash) d with
    | Some id => found_named (last (omap (fun x : Z * NamedTx =>
        if (x.1 =? id) && String.eqb (nt_name x.2) name then Some x.2 else None) (st_named d)))
    | None => Ok None
    end;
  get_named_tx_by_address d address :=
    Ok (last (omap (fun x : Z * NamedTx =>
      if bool_decide (nt_address x.2 = Some address) then Some x.2 else None) (st_named d)));
  get_run d id := Ok (run_of_request id <$> with_id id (st_runs d));
  get_runs_by_campaign d c :=
    Ok (omap (fun x : Z * SpamRunRequest =>
      if bool_decide (rr_campaign_id x.2 = Some c) then Some (run_of_request x.1 x.2) else None)
      (numbered (st_runs d)));
  get_run_txs d id :=
    Ok (omap (fun x : Z * RunTx => if x.1 =? id then Some x.2 else None) (st_txs d));
  latest_campaign_id d := Ok (last (omap rr_campaign_id (st_runs d)));
  insert_named_txs d txs url hash :=
    let '(id, d) := know_node (url, hash) d in Ok (add_named id txs d);
  insert_run d r := Ok (count_of (st_runs d) + 1, add_run r d);
  insert_run_txs d id txs := for_run id txs d (add_txs id txs d);
  insert_latency_metrics d id metrics :=
    let l := metrics ≫= fun mb => pair mb.1 <$> mb.2 in for_run id l d (add_latency id l d);
  num_runs d := Ok (count_of (st_runs d));
  get_rpc_url_for_scenario d name :=
    Ok (last (omap (fun r : SpamRunRequest =>
      if String.eqb name (rr_scenario_name r) then Some (rr_rpc_url r) else None) (st_runs d)));
  version d := 7;
  num_replay_reports d := Ok (count_of (st_reports d));
  insert_replay_report d r := Ok (ReplayReport_new (count_of (st_reports d) + 1) r, add_report r d);
  get_replay_report d id :=
    match with_id id (st_reports d) with
    | Some r => Ok (ReplayReport_new id r)
    | None => Err (NotFound "no such report")
    end;
  get_rpc_url_id d url hash := Ok (know_node (url, hash) d);
|}.

(** ** Calls of the interface *)

Inductive DbCall :=
| InsertRun (run : SpamRunRequest)
| InsertRunTxs (run_id : Z) (txs : list RunTx)
| InsertLatency (run_id : Z) (metrics : list (string * list Bucket))
| InsertNamed (txs : list NamedTx) (url : string) (genesis_hash : TxHash)
| InsertReplay (report : ReplayReportRequest)
| RpcUrlId (url : string) (genesis_hash : TxHash)
| GetRun (run_id : Z)
| GetRunTxs (run_id : Z)
| GetRunsByCampaign (campaign_id : string)
| LatestCampaign
| GetLatency (run_id : Z) (method : string)
| GetNamed (name url : string) (genesis_hash : TxHash)
| GetNamedByAddress (address : Address)
| UrlForScenario (scenario_name : string)
| NumRuns
| NumReports
| GetReport (id : Z)
| GetVersion.

Inductive Answer :=
| Done
| Num (z : Z)
| TheRun (run : option SpamRun)
| Runs (runs : list SpamRun)
| Txs (txs : list RunTx)
| Latencies (buckets : list Bucket)
| Named (tx : option NamedTx)
| SomeText (s : option string)
| Report (r : ReplayReport).

Section calls.
Context {D : Type} {O : DbOps D}.

Definition answering {A} (f : A -> Answer) (d : D) (m : outcome DbError A)
  : outcome DbError (Answer * D) := x ← m; mret (f x, d).
Definition updating {A} (f : A -> Answer) (m : outcome DbError (A * D))
  : outcome DbError (Answer * D) := x ← m; mret (f x.1, x.2).

Definition call (c : DbCall) (d : D) : outcome DbError (Answer * D) :=
  match c with
  | InsertRun run => updating Num (insert_run d run)
  | InsertRunTxs id txs => updating (fun _ : unit => Done) (pair tt <$> insert_run_txs d id txs)
  | InsertLatency id l => updating (fun _ : unit => Done) (pair tt <$> insert_latency_metrics d id l)
  | InsertNamed txs url h => updating (fun _ : unit => Done) (pair tt <$> insert_named_txs d txs url h)
  | InsertReplay r => updating Report (insert_replay_report d r)
  | RpcUrlId url h => updating Num (get_rpc_url_id d url h)
  | GetRun id => answering TheRun d (get_run d id)
  | GetRunTxs id => answering Txs d (get_run_txs d id)
  | GetRunsByCampaign c => answering Runs d (get_runs_by_campaign d c)
  | LatestCampaign => answering SomeText d (latest_campaign_id d)
  | GetLatency id m => answering Latencies d (get_latency_metrics d id m)
  | GetNamed name url h => answering Named d (get_named_tx d name url h)
  | GetNamedByAddress a => answering Named d (get_named_tx_by_address d a)
  | UrlForScenario s => answering SomeText d (get_rpc_url_for_scenario d s)
  | NumRuns => answering Num d (num_runs d)
  | NumReports => answering Num d (num_replay_reports d)
  | GetReport id => answering Report d (get_replay_report d id)
  | GetVersion => answering Num d (Ok (version d))
  end.

(** A failing call leaves the database as it is. *)
Fixpoint answers (l : list DbCall) (d : D) : list (outcome DbError Answer) :=
  match l with
  | [] => []
  | c :: l =>
      match call c d with
      | Ok (x, d) => Ok x :: answers l d
      | Err e => Err e :: answers l d
      | Panic => Panic :: answers l d
      end
  end.

Fixpoint after (l : list DbCall) (d : D) : D :=
  match l with
  | [] => d
  | c :: l => match call c d with Ok (_, d) => after l d | _ => after l d end
  end.
End calls.

(** The same outcome, but for the text of an error. *)
Definition agree {A B} (R : A -> B -> Prop) (x : outcome DbError A) (y : outcome DbError B) : Prop :=
  match x, y with
  | Ok a, Ok b => R a b
  | Err _, Err _ => True
  | Panic, Panic => True
  | _, _ => False
  end.

(** ** Lemmas *)

Lemma numbered_snoc {A} (l : list A) x : numbered (l ++ [x]) = numbered l ++ [(count_of l + 1, x)].
Proof. unfold numbered, count_of. rewrite imap_app. cbn. by rewrite Nat.add_0_r. Qed.

Lemma numbered_ids {A} (l : list A) : (numbered l).*1 = (fun i => Z.of_nat i + 1) <$> seq 0 (length l).
Proof.
  induction l as [|x l IH] using rev_ind; [done|].
  rewrite numbered_snoc, fmap_app, IH, length_app, Nat.add_1_r, seq_S, fmap_app. done.
Qed.

Lemma numbered_length {A} (l : list A) : length (numbered l) = length l.
Proof. apply length_imap. Qed.

Lemma numbered_snd {A} (l : list A) : (numbered l).*2 = l.
Proof.
  induction l as [|x l IH] using rev_ind; [done|]. by rewrite numbered_snoc, fmap_app, IH.
Qed.

Lemma elem_of_numbered {A} (l : list A) ix : ix ∈ numbered l <-> with_id ix.1 l = Some ix.2.
Proof.
  unfold numbered, with_id. rewrite elem_of_lookup_imap. split.
  - intros (i & y & -> & Hi). cbn [fst snd]. destruct (Z.leb_spec 1 (Z.of_nat i + 1)); [|lia].
    by replace (Z.to_nat (Z.of_nat i + 1 - 1)) with i by lia.
  - destruct (Z.leb_spec 1 ix.1) as [H|]; [|done]. intros Hl.
    exists (Z.to_nat (ix.1 - 1)), ix.2. split; [|done]. destruct ix as [z y]. cbn in *. f_equal. lia.
Qed.

(** The one element with a given id. *)
Lemma filter_numbered {A} (l : list A) id :
  filter (fun ix => ix.1 = id) (numbered l) = match with_id id l with Some x => [(id, x)] | None => [] end.
Proof.
  induction l as [|x l IH] using rev_ind.
  { unfold with_id. by destruct (1 <=? id). }
  rewrite numbered_snoc, filter_app, IH, filter_cons, filter_nil. cbn [fst].
  unfold with_id, count_of. destruct (Z.leb_spec 1 id); [|by rewrite decide_False by lia].
  destruct (decide (Z.of_nat (length l) + 1 = id)) as [<-|Hne].
  - replace (Z.to_nat (Z.of_nat (length l) + 1 - 1)) with (length l) by lia.
    rewrite list_lookup_middle by done. by rewrite lookup_ge_None_2 by lia.
  - rewrite app_nil_r. destruct (decide (Z.to_nat (id - 1) < length l)%nat).
    + by rewrite lookup_app_l.
    + rewrite !lookup_ge_None_2; rewrite ?length_app; cbn [length]; [done|lia..].
Qed.
