(* ===== verification/GenTypes.v ===== *)
(** * Data of the scenario generator ([core/src/generator])

    The user-facing definitions of contract deployments and calls
    ([create_def.rs], [function_def.rs]), their strict forms, named transaction
    requests ([named_txs.rs]), the reserved keys ([constants.rs]) and the
    errors ([error.rs], [templater.rs], [util.rs]). *)

From Stdlib Require Import Strings.Byte Strings.String.
From S2P Require Import Prelude Text Alloy Db.

(** ** Errors *)

Inductive UtilError :=
| UtilParseAddressFailed (s : string)
| ParseFunctionSigFailed (e : string)
| ParseValueFailed (e : string)
| InvalidValueNumeric (s : string)
| FunctionSignatureNumArgsInvalid (sig : string) (required given : nat)
| EncodeFunctionArgsFailed (e : string)
| SignerFailed (e : string).

(** The reason text of a failed fee is left out. *)
Inductive TemplaterError :=
| KeyNotFound (key : string)
| ContractNotFoundInDB (key : string)
| TemplaterDb (e : DbError)
| ParseAddressFailed (s : string)
| ParsePriorityFeeFailed (input : string)
| TemplaterUtil (e : UtilError).

Inductive GeneratorError :=
| AbiParserFailed (e : string)
| AddressNotFound (addr : string)
| BlobDataParseFailed (data : string)
| FromAddressParseFailed (from : string)
| FromPoolNotFound (from_pool : string)
| FuzzMissingParams
| FuzzValueNeedsParam
| FuzzConflictingParams
| FuzzInvalid
| ForAllAccountsRequiresFromPool
| InvalidSender
| NonceNotFound (addr : Address)
| SidecarBuildFailed
| SignerNotFound (from_pool : string) (idx : nat)
| Templater (e : TemplaterError)
| SignatureArgsMismatch (sig_inputs args_len : nat)
| ValueFuzzerNotInitialized
| Util (e : UtilError).

(** ** Reserved keys *)

Definition VALUE_KEY : string := "__tx_value_contender__".
Definition MAX_PRIORITY_FEE_KEY : string := "__tx_max_priority_fee_contender__".
Definition SENDER_KEY : string := "_sender".
Definition SETCODE_KEY : string := "_setCodeSender".

Definition placeholder (name : string) : string := ("{" +:+ name +:+ "}")%string.
Definition sender_placeholder : string := placeholder SENDER_KEY.
Definition setcode_placeholder : string := placeholder SETCODE_KEY.

(** ** Function calls *)

Record FuzzParam := {
  fz_param : option string;
  fz_value : option bool;
  fz_max_priority_fee_per_gas : option bool;
  fz_min : option Z;
  fz_max : option Z;
}.

Record FunctionCallDefinition := {
  fc_to : string;
  fc_from : option string;
  fc_from_pool : option string;
  fc_signature : option string;
  fc_args : option (list string);
  fc_value : option string;
  fc_fuzz : option (list FuzzParam);
  fc_kind : option string;
  fc_gas_limit : option Z;
  fc_blob_data : option string;
  fc_authorization_address : option string;
  fc_for_all_accounts : bool;
  fc_max_priority_fee_per_gas : option string;
}.

Record BundleCallDefinition := { bc_txs : list FunctionCallDefinition }.

Definition FunctionCallDefinition_new (to : string) : FunctionCallDefinition := {|
  fc_to := to; fc_from := None; fc_from_pool := None; fc_signature := None; fc_args := None;
  fc_value := None; fc_fuzz := None; fc_kind := None; fc_gas_limit := None;
  fc_blob_data := None; fc_authorization_address := None; fc_for_all_accounts := false;
  fc_max_priority_fee_per_gas := None |}.

(** The setters of one field each ([with_*]). *)
Definition with_signature (sig : string) (f : FunctionCallDefinition) := {|
  fc_to := fc_to f; fc_from := fc_from f; fc_from_pool := fc_from_pool f;
  fc_signature := Some sig; fc_args := fc_args f; fc_value := fc_value f;
  fc_fuzz := fc_fuzz f; fc_kind := fc_kind f; fc_gas_limit := fc_gas_limit f;
  fc_blob_data := fc_blob_data f; fc_authorization_address := fc_authorization_address f;
  fc_for_all_accounts := fc_for_all_accounts f;
  fc_max_priority_fee_per_gas := fc_max_priority_fee_per_gas f |}.
Definition set_sender (from from_pool : option string) (f : FunctionCallDefinition) := {|
  fc_to := fc_to f; fc_from := from; fc_from_pool := from_pool;
  fc_signature := fc_signature f; fc_args := fc_args f; fc_value := fc_value f;
  fc_fuzz := fc_fuzz f; fc_kind := fc_kind f; fc_gas_limit := fc_gas_limit f;
  fc_blob_data := fc_blob_data f; fc_authorization_address := fc_authorization_address f;
  fc_for_all_accounts := fc_for_all_accounts f;
  fc_max_priority_fee_per_gas := fc_max_priority_fee_per_gas f |}.
Definition with_from (from : string) (f : FunctionCallDefinition) :=
  set_sender (Some from) (fc_from_pool f) f.
Definition with_from_pool (pool : string) (f : FunctionCallDefinition) :=
  set_sender (fc_from f) (Some pool) f.
Definition with_args (args : list string) (f : FunctionCallDefinition) := {|
  fc_to := fc_to f; fc_from := fc_from f; fc_from_pool := fc_from_pool f;
  fc_signature := fc_signature f; fc_args := Some args; fc_value := fc_value f;
  fc_fuzz := fc_fuzz f; fc_kind := fc_kind f; fc_gas_limit := fc_gas_limit f;
  fc_blob_data := fc_blob_data f; fc_authorization_address := fc_authorization_address f;
  fc_for_all_accounts := fc_for_all_accounts f;
  fc_max_priority_fee_per_gas := fc_max_priority_fee_per_gas f |}.
Definition set_value_field (value : option string) (f : FunctionCallDefinition) := {|
  fc_to := fc_to f; fc_from := fc_from f; fc_from_pool := fc_from_pool f;
  fc_signature := fc_signature f; fc_args := fc_args f; fc_value := value;
  fc_fuzz := fc_fuzz f; fc_kind := fc_kind f; fc_gas_limit := fc_gas_limit f;
  fc_blob_data := fc_blob_data f; fc_authorization_address := fc_authorization_address f;
  fc_for_all_accounts := fc_for_all_accounts f;
  fc_max_priority_fee_per_gas := fc_max_priority_fee_per_gas f |}.
Definition with_value (value : Z) (f : FunctionCallDefinition) :=
  set_value_field (Some (dec value)) f.
Definition with_fuzz (fuzz : list FuzzParam) (f : FunctionCallDefinition) := {|
  fc_to := fc_to f; fc_from := fc_from f; fc_from_pool := fc_from_pool f;
  fc_signature := fc_signature f; fc_args := fc_args f; fc_value := fc_value f;
  fc_fuzz := Some fuzz; fc_kind := fc_kind f; fc_gas_limit := fc_gas_limit f;
  fc_blob_data := fc_blob_data f; fc_authorization_address := fc_authorization_address f;
  fc_for_all_accounts := fc_for_all_accounts f;
  fc_max_priority_fee_per_gas := fc_max_priority_fee_per_gas f |}.
Definition with_kind (kind : string) (f : FunctionCallDefinition) := {|
  fc_to := fc_to f; fc_from := fc_from f; fc_from_pool := fc_from_pool f;
  fc_signature := fc_signature f; fc_args := fc_args f; fc_value := fc_value f;
  fc_fuzz := fc_fuzz f; fc_kind := Some kind; fc_gas_limit := fc_gas_limit f;
  fc_blob_data := fc_blob_data f; fc_authorization_address := fc_authorization_address f;
  fc_for_all_accounts := fc_for_all_accounts f;
  fc_max_priority_fee_per_gas := fc_max_priority_fee_per_gas f |}.
Definition with_gas_limit (gas_limit : Z) (f : FunctionCallDefinition) := {|
  fc_to := fc_to f; fc_from := fc_from f; fc_from_pool := fc_from_pool f;
  fc_signature := fc_signature f; fc_args := fc_args f; fc_value := fc_value f;
  fc_fuzz := fc_fuzz f; fc_kind := fc_kind f; fc_gas_limit := Some gas_limit;
  fc_blob_data := fc_blob_data f; fc_authorization_address := fc_authorization_address f;
  fc_for_all_accounts := fc_for_all_accounts f;
  fc_max_priority_fee_per_gas := fc_max_priority_fee_per_gas f |}.
Definition with_blob_data (blob : string) (f : FunctionCallDefinition) := {|
  fc_to := fc_to f; fc_from := fc_from f; fc_from_pool := fc_from_pool f;
  fc_signature := fc_signature f; fc_args := fc_args f; fc_value := fc_value f;
  fc_fuzz := fc_fuzz f; fc_kind := fc_kind f; fc_gas_limit := fc_gas_limit f;
  fc_blob_data := Some blob; fc_authorization_address := fc_authorization_address f;
  fc_for_all_accounts := fc_for_all_accounts f;
  fc_max_priority_fee_per_gas := fc_max_priority_fee_per_gas f |}.
Definition with_authorization (auth : string) (f : FunctionCallDefinition) := {|
  fc_to := fc_to f; fc_from := fc_from f; fc_from_pool := fc_from_pool f;
  fc_signature := fc_signature f; fc_args := fc_args f; fc_value := fc_value f;
  fc_fuzz := fc_fuzz f; fc_kind := fc_kind f; fc_gas_limit := fc_gas_limit f;
  fc_blob_data := fc_blob_data f; fc_authorization_address := Some auth;
  fc_for_all_accounts := fc_for_all_accounts f;
  fc_max_priority_fee_per_gas := fc_max_priority_fee_per_gas f |}.
Definition with_for_all_accounts (b : bool) (f : FunctionCallDefinition) := {|
  fc_to := fc_to f; fc_from := fc_from f; fc_from_pool := fc_from_pool f;
  fc_signature := fc_signature f; fc_args := fc_args f; fc_value := fc_value f;
  fc_fuzz := fc_fuzz f; fc_kind := fc_kind f; fc_gas_limit := fc_gas_limit f;
  fc_blob_data := fc_blob_data f; fc_authorization_address := fc_authorization_address f;
  fc_for_all_accounts := b;
  fc_max_priority_fee_per_gas := fc_max_priority_fee_per_gas f |}.
Definition with_max_priority_fee_per_gas (fee : string) (f : FunctionCallDefinition) := {|
  fc_to := fc_to f; fc_from := fc_from f; fc_from_pool := fc_from_pool f;
  fc_signature := fc_signature f; fc_args := fc_args f; fc_value := fc_value f;
  fc_fuzz := fc_fuzz f; fc_kind := fc_kind f; fc_gas_limit := fc_gas_limit f;
  fc_blob_data := fc_blob_data f; fc_authorization_address := fc_authorization_address f;
  fc_for_all_accounts := fc_for_all_accounts f;
  fc_max_priority_fee_per_gas := Some fee |}.

(** ** Contract deployments *)

Record CompiledContract := { cc_bytecode : string; cc_name : string }.
Definition CompiledContract_new (bytecode name : string) : CompiledContract :=
  {| cc_bytecode := bytecode; cc_name := name |}.
Definition template_name (c : CompiledContract) : string :=
  ("{" +:+ cc_name c +:+ "}")%string.

Record CreateDefinition := {
  cd_contract : CompiledContract;
  cd_signature : option string;
  cd_args : option (list string);
  cd_from : option string;
  cd_from_pool : option string;
}.
Definition CreateDefinition_new (contract : CompiledContract) : CreateDefinition := {|
  cd_contract := contract; cd_signature := None; cd_args := None; cd_from := None;
  cd_from_pool := None |}.
Definition create_set_sender (from from_pool : option string) (c : CreateDefinition) := {|
  cd_contract := cd_contract c; cd_signature := cd_signature c; cd_args := cd_args c;
  cd_from := from; cd_from_pool := from_pool |}.
Definition create_with_from_pool (pool : string) (c : CreateDefinition) :=
  create_set_sender (cd_from c) (Some pool) c.
Definition create_with_from (from : string) (c : CreateDefinition) :=
  create_set_sender (Some from) (cd_from_pool c) c.

Record CreateDefinitionStrict := {
  cs_bytecode : string;
  cs_name : string;
  cs_from : Address;
  cs_signature : option string;
  cs_args : list string;
}.

(** ** Spam requests *)

Inductive SpamRequest := Tx (call : FunctionCallDefinition) | Bundle (b : BundleCallDefinition).

Definition is_bundle (s : SpamRequest) : bool :=
  match s with Bundle _ => true | Tx _ => false end.
Definition new_tx (f : FunctionCallDefinition) : SpamRequest := Tx f.

(** The calls of a step, in order. *)
Definition step_calls (s : SpamRequest) : list FunctionCallDefinition :=
  match s with Tx f => [f] | Bundle b => bc_txs b end.

(** A number as a configuration file gives it. *)
Inductive NumOrStr := Num (n : Z) | Str (s : string).

Section requests.
Context `{A : Alloy}.

(** [FunctionCallDefinition::sidecar_data]: hex when prefixed, else text. *)
Definition sidecar_data (f : FunctionCallDefinition)
  : outcome GeneratorError (option Sidecar) :=
  match fc_blob_data f with
  | Some data =>
      parsed_data ← ok_or (BlobDataParseFailed data)
        (bytes_from_hex (if starts_with "0x" data then data else encode_hex (str_bytes data)));
      sidecar ← ok_or SidecarBuildFailed (sidecar_build parsed_data);
      mret (Some sidecar)
  | None => mret None
  end.

Record FunctionCallDefinitionStrict := {
  fs_to : string;
  fs_from : Address;
  fs_signature : string;
  fs_args : list string;
  fs_value : option string;
  fs_fuzz : list FuzzParam;
  fs_kind : option string;
  fs_gas_limit : option Z;
  fs_max_priority_fee_per_gas : option string;
  fs_sidecar : option Sidecar;
  fs_authorization : option (list SignedAuthorization);
}.

Record NamedTxRequest := {
  nr_name : option string;
  nr_kind : option string;
  nr_tx : TransactionRequest;
}.
Definition NamedTxRequest_new (tx : TransactionRequest) (name kind : option string)
  : NamedTxRequest := {| nr_name := name; nr_kind := kind; nr_tx := tx |}.
Definition NamedTxRequest_from (tx : TransactionRequest) : NamedTxRequest :=
  {| nr_name := None; nr_kind := None; nr_tx := tx |}.

(** [NamedTxRequestBuilder]. *)
Record NamedTxRequestBuilder := {
  nb_name : option string;
  nb_kind : option string;
  nb_tx : TransactionRequest;
}.
Definition builder_new (tx : TransactionRequest) : NamedTxRequestBuilder :=
  {| nb_name := None; nb_kind := None; nb_tx := tx |}.
Definition builder_with_name (name : string) (b : NamedTxRequestBuilder)
  : NamedTxRequestBuilder :=
  {| nb_name := Some name; nb_kind := nb_kind b; nb_tx := nb_tx b |}.
Definition builder_with_kind (kind : string) (b : NamedTxRequestBuilder)
  : NamedTxRequestBuilder :=
  {| nb_name := nb_name b; nb_kind := Some kind; nb_tx := nb_tx b |}.
Definition builder_build (b : NamedTxRequestBuilder) : NamedTxRequest :=
  NamedTxRequest_new (nb_tx b) (nb_name b) (nb_kind b).

Inductive ExecutionRequest :=
| ExecTx (tx : NamedTxRequest)
| ExecBundle (txs : list NamedTxRequest).

Definition exec_from_tx (tx : NamedTxRequest) : ExecutionRequest := ExecTx tx.
Definition exec_from_txs (txs : list NamedTxRequest) : ExecutionRequest := ExecBundle txs.

Record Plan := {
  pl_env : gmap string string;
  pl_create_steps : list NamedTxRequest;
  pl_setup_steps : list NamedTxRequest;
  pl_spam_steps : list ExecutionRequest;
}.

(** The nonce a request was given, changed. *)
Definition with_nonce (n : Z) (t : NamedTxRequest) : NamedTxRequest :=
  {| nr_name := nr_name t; nr_kind := nr_kind t; nr_tx := set_nonce (Some n) (nr_tx t) |}.
End requests.
