(* ===== verification/GenUtil.v ===== *)
(** * Generator utilities ([core/src/generator/util.rs])

    Encoding calldata, completing a transaction request with the gas fields of
    its type, the set-code signer, and reading amounts of ether. *)

From Stdlib Require Import Strings.Byte Strings.Ascii Strings.String.
From S2P Require Import Prelude Text Seeder Alloy Agents Db GenTypes.

Section util.
Context `{A : Alloy}.

Definition encode_arg (param : AbiParam) (arg : string) : outcome UtilError DynSolValue :=
  ty ← map_err EncodeFunctionArgsFailed (sol_type_parse (selector_type param));
  map_err EncodeFunctionArgsFailed (coerce_str ty arg).

Definition encode_calldata (args : list string) (sig : string)
  : outcome UtilError (list byte) :=
  if String.eqb sig "" then mret []
  else
    func ← map_err ParseFunctionSigFailed (abi_parse sig);
    if negb (length (abi_inputs func) =? length args)%nat
    then Err (FunctionSignatureNumArgsInvalid sig (length (abi_inputs func)) (length args))
    else
      values ← mapM (fun '(param, arg) => encode_arg param arg)
                 (zip (abi_inputs func) args);
      map_err EncodeFunctionArgsFailed (abi_encode_input func values).

(** The recursive calls of the source are one level deep: EIP-4844, EIP-7702
    and unknown types complete the request as EIP-1559 or legacy ones first. *)
Definition complete_legacy (gas_price gas_limit : Z) (tx_req : TransactionRequest)
  : TransactionRequest :=
  set_gas (Some gas_limit) (set_gas_price (Some gas_price) tx_req).

Definition complete_1559 (gas_price priority_fee gas_limit chain_id : Z)
    (tx_req : TransactionRequest) : TransactionRequest :=
  let max_fee := Z.max gas_price priority_fee in
  set_gas (Some gas_limit)
    (set_1559_fees (Some max_fee) (Some priority_fee) (Some chain_id) tx_req).

Definition complete_tx_request (tx_req : TransactionRequest) (tx_type : TxType)
    (gas_price priority_fee gas_limit chain_id blob_gas_price : Z) : TransactionRequest :=
  let tx_req :=
    match tx_type with
    | Legacy => set_gas_price (Some gas_price) tx_req
    | Eip1559 =>
        let max_fee := Z.max gas_price priority_fee in
        set_1559_fees (Some max_fee) (Some priority_fee) (Some chain_id) tx_req
    | Eip4844 =>
        complete_1559 gas_price priority_fee gas_limit chain_id
          (set_blob_fee (Some blob_gas_price) tx_req)
    | Eip7702 => complete_1559 gas_price priority_fee gas_limit chain_id tx_req
    | Eip2930 => complete_legacy gas_price gas_limit tx_req
    end in
  set_gas (Some gas_limit) tx_req.

Section setcode.
Context {E S : Type} `{SV : SeedValue S, SD : Seeder S}.

Definition generate_setcode_signer (seed : S) : outcome E (Signer * list byte) :=
  values ← seed_values seed (Z.to_nat 9001) None None;
  raw_seed ← unwrap (last values);
  let seed_bytes := as_bytes raw_seed in
  signer ← unwrap (signer_from_bytes seed_bytes);
  bytes ← fixed_bytes32 seed_bytes;
  mret (signer, bytes).
End setcode.

(** The first character that is neither a digit nor a dot. *)
Definition unit_start (s : string) : option nat :=
  find_char (fun c => negb (is_digit c) && negb (Ascii.eqb c "."%char)) s.

Definition parse_value (input : string) : outcome UtilError Z :=
  let input := to_lowercase (trim input) in
  match parse_u256 input with
  | Some value => mret value
  | None =>
      at_ ← ok_or (InvalidValueNumeric input) (unit_start input);
      let num_str := str_take at_ (trim input) in
      let unit := trim (str_drop at_ (trim input)) in
      map_err ParseValueFailed (parse_units num_str unit)
  end.

(** The two deserializers, on the number or text of the file; the message of a
    failure is left out. *)
Definition deserialize_value (v : NumOrStr) : outcome unit Z :=
  match v with
  | Num n => mret n
  | Str s => map_err (fun _ => tt) (parse_value s)
  end.

Definition deserialize_value_opt (v : option NumOrStr) : outcome unit (option Z) :=
  match v with
  | None => mret None
  | Some (Num n) => mret (Some n)
  | Some (Str s) => map_err (fun _ => tt) (fmap (M := outcome UtilError) Some (parse_value s))
  end.
End util.

Definition scenario_db_key (template_key : string) (scenario_label : option string) : string :=
  match scenario_label with
  | Some label => (template_key +:+ "_" +:+ label)%string
  | None => template_key
  end.

(** [CompiledContract::with_constructor_args]: the arguments are encoded as a
    call and the selector dropped. *)
Definition constructor_sig (sig : string) : string :=
  if starts_with "(" sig then ("constructor" +:+ sig)%string else sig.

Definition strip_selector (calldata : list byte) : list byte :=
  if (4 <=? length calldata)%nat then drop 4 calldata else [].

Definition with_constructor_args `{A : Alloy} (c : CompiledContract) (sig : string)
    (args : list string) : outcome GeneratorError CompiledContract :=
  calldata ← map_err Util (encode_calldata args (constructor_sig sig));
  mret {| cc_bytecode := (cc_bytecode c +:+ encode_hex (strip_selector calldata))%string;
          cc_name := cc_name c |}.

(** ** Properties *)

(** What every completed request satisfies: it has the given gas limit; a
    legacy one (and an unknown type) a gas price and untouched fee fields; any
    other a fee cap that is at least both the gas price and the priority fee,
    the priority fee and the chain id; only a blob transaction gets a blob fee;
    sender, target, value, nonce, input and authorizations are not touched. *)
Definition completed `{A : Alloy} (before after : TransactionRequest) (tx_type : TxType)
    (gas_price priority_fee gas_limit chain_id blob_gas_price : Z) : Prop :=
  tx_gas after = Some gas_limit /\
  match tx_type with
  | Legacy | Eip2930 =>
      tx_gas_price after = Some gas_price /\
      tx_max_fee_per_gas after = tx_max_fee_per_gas before /\
      tx_max_priority_fee_per_gas after = tx_max_priority_fee_per_gas before /\
      tx_chain_id after = tx_chain_id before
  | _ =>
      tx_gas_price after = tx_gas_price before /\
      (exists cap, tx_max_fee_per_gas after = Some cap /\ gas_price <= cap /\
         priority_fee <= cap /\ (cap = gas_price \/ cap = priority_fee)) /\
      tx_max_priority_fee_per_gas after = Some priority_fee /\
      tx_chain_id after = Some chain_id
  end /\
  tx_max_fee_per_blob_gas after =
    (match tx_type with Eip4844 => Some blob_gas_price | _ => tx_max_fee_per_blob_gas before end) /\
  tx_from after = tx_from before /\ tx_to after = tx_to before /\
  tx_value after = tx_value before /\ tx_nonce after = tx_nonce before /\
  tx_input after = tx_input before /\
  tx_sidecar after = tx_sidecar before /\
  tx_authorization_list after = tx_authorization_list before.

(** Completing a transaction request sets exactly the fields of its type:
    in particular a fee-market transaction always has a fee cap no smaller than
    its priority fee. *)
Theorem complete_tx_request_fields `{A : Alloy} (tx : TransactionRequest) (ty : TxType)
    (gas_price priority_fee gas_limit chain_id blob_gas_price : Z) :
  completed tx (complete_tx_request tx ty gas_price priority_fee gas_limit chain_id blob_gas_price)
    ty gas_price priority_fee gas_limit chain_id blob_gas_price.
Proof.
  destruct ty; cbn; split_and!; try done;
    exists (Z.max gas_price priority_fee); split_and!; try done; lia.
Qed.

(** Every argument is encoded against its own parameter; a wrong count is
    reported with both counts. *)
Lemma encode_calldata_ok `{A : Alloy} args sig data :
  encode_calldata args sig = Ok data ->
  (sig = ""%string /\ data = []) \/
  exists func values,
    abi_parse sig = Ok func /\ length (abi_inputs func) = length args /\
    Forall2 (fun '(p, a) v => encode_arg p a = Ok v) (zip (abi_inputs func) args) values /\
    abi_encode_input func values = Ok data.
Proof.
  unfold encode_calldata. destruct (String.eqb_spec sig "") as [->|Hs].
  - intros H. inv_outcome. by left.
  - intros H. apply bind_ok in H as (func & Hp & H). apply map_err_ok in Hp.
    destruct (Nat.eqb_spec (length (abi_inputs func)) (length args)); cbn in H; [|done].
    apply bind_ok in H as (values & Hv & H). apply map_err_ok in H. right.
    exists func, values. split_and!; [done|done| |done]. apply mapM_ok in Hv.
    eapply Forall2_impl; [exact Hv|]. by intros [p a] v.
Qed.
