(* ===== verification/Templater.v ===== *)
(** * Templates ([core/src/generator/templater.rs])

    The trait [Templater] as a class over the syntax of placeholders, and its
    provided methods: looking up the placeholders of a definition in the
    database, and turning strict definitions into transaction requests. *)

From Stdlib Require Import Strings.Byte Strings.Ascii Strings.String.
From S2P Require Import Prelude Text Alloy Agents Db GenTypes GenUtil.

(** The required methods; an index out of range panics. *)
Class TemplateSyntax (T : Type) := {
  replace_placeholders : T -> string -> gmap string string -> string;
  terminator_start : T -> string -> option nat;
  terminator_end : T -> string -> option nat;
  copy_end : forall {E}, T -> string -> nat -> outcome E string;
  num_placeholders : T -> string -> nat;
  find_key : forall {E}, T -> string -> outcome E (option (string * nat));
}.

Section templater.
Context `{A : Alloy} {T : Type} `{TemplateSyntax T} {D : Type} `{DbOps D}.
Variable self : T.

(** The environment of a lookup: database, RPC url, genesis hash, label. *)
Record LookupEnv := {
  le_db : D;
  le_rpc_url : string;
  le_genesis_hash : TxHash;
  le_scenario_label : option string;
}.
Variable env : LookupEnv.

(** One placeholder key: reserved and known keys are skipped, others are the
    address of the named transaction, in hexadecimal. *)
Definition resolve_key (key : string) (placeholder_map : gmap string string)
  : outcome TemplaterError (gmap string string) :=
  if String.eqb key SENDER_KEY || String.eqb key SETCODE_KEY then mret placeholder_map
  else if bool_decide (is_Some (placeholder_map !! key)) then mret placeholder_map
  else
    let db_key := scenario_db_key key (le_scenario_label env) in
    template_value ← map_err TemplaterDb
      (get_named_tx (le_db env) db_key (le_rpc_url env) (le_genesis_hash env));
    match template_value with
    | Some template_value =>
        mret (<[key := default "" (address_encode_hex <$> nt_address template_value)]>
                placeholder_map)
    | None => Err (ContractNotFoundInDB key)
    end.

(** The loop of [find_placeholder_values]; [arg] is the whole input, [n] the
    number of rounds left. *)
Fixpoint placeholder_loop (arg : string) (n : nat) (template_input : string) (last_end : nat)
    (placeholder_map : gmap string string) : outcome TemplaterError (gmap string string) :=
  match n with
  | O => mret placeholder_map
  | S n =>
      template_input ← copy_end self template_input last_end;
      found ← find_key self template_input;
      '(template_key, template_end) ← ok_or (KeyNotFound arg) found;
      placeholder_map ← resolve_key template_key placeholder_map;
      placeholder_loop arg n template_input (template_end + 1) placeholder_map
  end.

Definition find_placeholder_values (arg : string) (placeholder_map : gmap string string)
  : outcome TemplaterError (gmap string string) :=
  placeholder_loop arg (num_placeholders self arg) arg 0 placeholder_map.

Fixpoint find_all (args : list string) (placeholder_map : gmap string string)
  : outcome TemplaterError (gmap string string) :=
  match args with
  | [] => mret placeholder_map
  | arg :: args =>
      placeholder_map ← find_placeholder_values arg placeholder_map;
      find_all args placeholder_map
  end.

Definition find_opt (arg : option string) (placeholder_map : gmap string string)
  : outcome TemplaterError (gmap string string) :=
  match arg with
  | Some arg => find_placeholder_values arg placeholder_map
  | None => mret placeholder_map
  end.

Definition find_fncall_placeholders (fncall : FunctionCallDefinition)
    (placeholder_map : gmap string string) : outcome TemplaterError (gmap string string) :=
  m ← find_all (default [] (fc_args fncall)) placeholder_map;
  m ← find_opt (fc_from fncall) m;
  m ← find_placeholder_values (fc_to fncall) m;
  find_opt (fc_authorization_address fncall) m.

Definition find_create_placeholders (createdef : CreateDefinition)
    (placeholder_map : gmap string string) : outcome TemplaterError (gmap string string) :=
  m ← find_all (default [] (cd_args createdef)) placeholder_map;
  m ← find_opt (cd_from createdef) m;
  find_placeholder_values (cc_bytecode (cd_contract createdef)) m.

(** The priority fee: a placeholder or an amount, that must fit in 128 bits. *)
Definition template_priority_fee (raw : string) (placeholder_map : gmap string string)
  : outcome TemplaterError Z :=
  let resolved := replace_placeholders self raw placeholder_map in
  parsed ← map_err (fun _ => ParsePriorityFeeFailed resolved) (parse_value resolved);
  ok_or (ParsePriorityFeeFailed resolved) (checked 128 parsed).

Definition template_function_call (funcdef : FunctionCallDefinitionStrict)
    (placeholder_map : gmap string string) : outcome TemplaterError TransactionRequest :=
  let args := map (fun arg => replace_placeholders self arg placeholder_map)
                (fs_args funcdef) in
  input ← map_err TemplaterUtil (encode_calldata args (fs_signature funcdef));
  let to := replace_placeholders self (fs_to funcdef) placeholder_map in
  to ← ok_or (ParseAddressFailed to) (parse_address to);
  let value := s ← fs_value funcdef;
               parse_u256 (replace_placeholders self s placeholder_map) in
  max_priority_fee_per_gas ←
    match fs_max_priority_fee_per_gas funcdef with
    | Some raw => fmap (M := outcome TemplaterError) Some (template_priority_fee raw placeholder_map)
    | None => mret None
    end;
  mret {|
    tx_from := Some (fs_from funcdef); tx_to := Some (Call to); tx_value := value;
    tx_input := input; tx_nonce := None; tx_gas := fs_gas_limit funcdef;
    tx_gas_price := None; tx_max_fee_per_gas := None;
    tx_max_priority_fee_per_gas := max_priority_fee_per_gas;
    tx_max_fee_per_blob_gas := None; tx_chain_id := None; tx_transaction_type := None;
    tx_sidecar := fs_sidecar funcdef; tx_authorization_list := fs_authorization funcdef |}.

(** A constructor argument: [{_sender}] alone is the sender's address. *)
Definition template_arg (from : Address) (placeholder_map : gmap string string)
    (arg : string) : string :=
  if String.eqb arg "{_sender}" then address_to_string from
  else replace_placeholders self arg placeholder_map.

Definition template_contract_deploy (createdef : CreateDefinitionStrict)
    (placeholder_map : gmap string string) : outcome TemplaterError TransactionRequest :=
  let full_bytecode := replace_placeholders self (cs_bytecode createdef) placeholder_map in
  full_bytecode ←
    match cs_signature createdef with
    | Some sig =>
        let args := map (template_arg (cs_from createdef) placeholder_map)
                      (cs_args createdef) in
        calldata ← map_err TemplaterUtil (encode_calldata args (constructor_sig sig));
        mret (full_bytecode +:+ encode_hex (strip_selector calldata))%string
    | None => mret full_bytecode
    end;
  code ← unwrap (bytes_from_hex full_bytecode);
  mret {|
    tx_from := Some (cs_from createdef); tx_to := Some Create; tx_value := None;
    tx_input := code; tx_nonce := None; tx_gas := None; tx_gas_price := None;
    tx_max_fee_per_gas := None; tx_max_priority_fee_per_gas := None;
    tx_max_fee_per_blob_gas := None; tx_chain_id := None; tx_transaction_type := None;
    tx_sidecar := None; tx_authorization_list := None |}.

(** ** Properties *)

Lemma resolve_key_ok key m m' :
  resolve_key key m = Ok m' ->
  m ⊆ m' /\
  (key = SENDER_KEY \/ key = SETCODE_KEY \/ is_Some (m' !! key)) /\
  forall k, k <> key -> m' !! k = m !! k.
Proof.
  unfold resolve_key.
  destruct (String.eqb_spec key SENDER_KEY); cbn [orb]; [intros; inv_outcome; naive_solver|].
  destruct (String.eqb_spec key SETCODE_KEY); [intros; inv_outcome; naive_solver|].
  case_bool_decide as Hk; [intros; inv_outcome; naive_solver|].
  intros Hr. apply bind_ok in Hr as ([tv|] & Hg & Hr); inv_outcome. split_and!.
  - apply insert_subseteq, eq_None_not_Some, Hk.
  - right. right. rewrite lookup_insert_eq. by eexists.
  - intros k Hne. by rewrite lookup_insert_ne.
Qed.

(** A lookup only adds entries. *)
Lemma placeholder_loop_grows arg n s e m m' :
  placeholder_loop arg n s e m = Ok m' -> m ⊆ m'.
Proof.
  revert s e m. induction n as [|n IH]; intros s e m Hl; cbn in Hl; inv_outcome; [done|].
  destruct_and?. repeat match goal with x : (_ * _)%type |- _ => destruct x end. inv_outcome.
  etrans; [|by eapply IH]. by eapply resolve_key_ok.
Qed.

Lemma find_placeholder_values_grows arg m m' :
  find_placeholder_values arg m = Ok m' -> m ⊆ m'.
Proof. apply placeholder_loop_grows. Qed.

Lemma find_all_grows args m m' : find_all args m = Ok m' -> m ⊆ m'.
Proof.
  revert m. induction args as [|a args IH]; intros m Hl; cbn in Hl; inv_outcome; [done|].
  etrans; [by eapply find_placeholder_values_grows|]. by apply IH.
Qed.

Lemma find_opt_grows o m m' : find_opt o m = Ok m' -> m ⊆ m'.
Proof. destruct o; cbn; intros; inv_outcome; [by eapply find_placeholder_values_grows|done]. Qed.

Lemma find_fncall_grows f m m' : find_fncall_placeholders f m = Ok m' -> m ⊆ m'.
Proof.
  unfold find_fncall_placeholders. intros Hf.
  apply bind_ok in Hf as (m1 & H1 & Hf). apply bind_ok in Hf as (m2 & H2 & Hf).
  apply bind_ok in Hf as (m3 & H3 & Hf).
  etrans; [by eapply find_all_grows|]. etrans; [by eapply find_opt_grows|].
  etrans; [by eapply find_placeholder_values_grows|]. by eapply find_opt_grows.
Qed.
End templater.
