(* ===== verification/TestFile.v ===== *)
(** * Scenario files ([testfile/src/test_config.rs], [core/src/generator/trait.rs])

    [TestConfig] is the content of a scenario file.  It is the program's one
    implementation of the two traits the generator works with: [PlanConfig]
    (steps with their default sender pools, and the pools they declare) and
    [Templater] (placeholders are [{name}]).  The class [PlanConfig] holds the
    required methods; the pool lists are the provided ones. *)

From Stdlib Require Import Strings.Ascii Strings.String.
From S2P Require Import Prelude Text Alloy Agents Db GenTypes GenUtil Templater.

(** ** [trait PlanConfig] *)

Class PlanConfig (C : Type) := {
  get_env : C -> outcome GeneratorError (gmap string string);
  get_create_steps : C -> outcome GeneratorError (list CreateDefinition);
  get_setup_steps : C -> outcome GeneratorError (list FunctionCallDefinition);
  get_spam_steps : C -> outcome GeneratorError (list SpamRequest);
}.

(** [Vec::sort] on strings, and [Vec::dedup] (adjacent equal elements). *)
Definition sort_strings (l : list string) : list string := merge_sort String.le l.
Fixpoint dedup (l : list string) : list string :=
  match l with
  | x :: l' =>
      match l' with
      | y :: _ => if String.eqb x y then dedup l' else x :: dedup l'
      | [] => [x]
      end
  | [] => []
  end.

Section pools.
Context {C : Type} `{PlanConfig C}.

(** [unwrap_or_default]: an error of the plan counts as no steps. *)
Definition get_create_pools (c : C) : list string :=
  let steps := match get_create_steps c with Ok l => l | _ => [] end in
  dedup (sort_strings (omap cd_from_pool steps)).

Definition get_setup_pools (c : C) : list string :=
  let steps := match get_setup_steps c with Ok l => l | _ => [] end in
  dedup (sort_strings (omap fc_from_pool steps)).

(** Panics when the plan has no spam steps to give. *)
Definition get_spam_pools {E} (c : C) : outcome E (list string) :=
  match get_spam_steps c with
  | Ok spam => mret (dedup (sort_strings (omap fc_from_pool (spam ≫= step_calls))))
  | _ => Panic
  end.
End pools.

(** ** [TestConfig] *)

Record TestConfig := {
  tc_env : option (gmap string string);
  tc_create : option (list CreateDefinition);
  tc_setup : option (list FunctionCallDefinition);
  tc_spam : option (list SpamRequest);
}.

Definition TestConfig_new : TestConfig :=
  {| tc_env := None; tc_create := None; tc_setup := None; tc_spam := None |}.
Definition with_env env (c : TestConfig) : TestConfig :=
  {| tc_env := Some env; tc_create := tc_create c; tc_setup := tc_setup c; tc_spam := tc_spam c |}.
Definition with_create create (c : TestConfig) : TestConfig :=
  {| tc_env := tc_env c; tc_create := Some create; tc_setup := tc_setup c; tc_spam := tc_spam c |}.
Definition with_setup setup (c : TestConfig) : TestConfig :=
  {| tc_env := tc_env c; tc_create := tc_create c; tc_setup := Some setup; tc_spam := tc_spam c |}.
Definition with_spam spam (c : TestConfig) : TestConfig :=
  {| tc_env := tc_env c; tc_create := tc_create c; tc_setup := tc_setup c; tc_spam := Some spam |}.

(** Every call of a step, changed. *)
Definition map_step (f : FunctionCallDefinition -> FunctionCallDefinition) (s : SpamRequest)
  : SpamRequest :=
  match s with
  | Bundle b => Bundle {| bc_txs := map f (bc_txs b) |}
  | Tx tx => Tx (f tx)
  end.

Section override.
Context `{A : Alloy}.

Definition override_senders (from_address : Address) (c : TestConfig) : TestConfig :=
  let from := Some (address_to_string from_address) in {|
    tc_env := tc_env c;
    tc_create := map (create_set_sender from None) <$> tc_create c;
    tc_setup := map (set_sender from None) <$> tc_setup c;
    tc_spam := map (map_step (set_sender from None)) <$> tc_spam c |}.
End override.

(** [set_default_from_pool!], for calls and for deployments. *)
Definition default_call_pool (pool : string) (f : FunctionCallDefinition)
  : FunctionCallDefinition :=
  match fc_from f, fc_from_pool f with
  | None, None => with_from_pool pool f
  | _, _ => f
  end.
Definition default_create_pool (pool : string) (c : CreateDefinition) : CreateDefinition :=
  match cd_from c, cd_from_pool c with
  | None, None => create_with_from_pool pool c
  | _, _ => c
  end.

#[export] Instance TestConfig_plan : PlanConfig TestConfig := {|
  get_env c := Ok (default ∅ (tc_env c));
  get_create_steps c := Ok (map (default_create_pool "admin") (default [] (tc_create c)));
  get_setup_steps c := Ok (map (default_call_pool "admin") (default [] (tc_setup c)));
  get_spam_steps c :=
    Ok (map (map_step (default_call_pool "spammers")) (default [] (tc_spam c)));
|}.

(** ** Placeholders *)

Definition lbrace : ascii := "{"%char.
Definition rbrace : ascii := "}"%char.

(** [replace_placeholders], the map iterated in the given order. *)
Definition replace_in_order (input : string) (order : list (string * string)) : string :=
  fold_left (fun output '(key, value) => str_replace (placeholder key) value output)
    order input.

Definition tc_find_key {E} (input : string) : outcome E (option (string * nat)) :=
  match find_char (Ascii.eqb lbrace) input, find_char (Ascii.eqb rbrace) input with
  | Some template_start, Some template_end =>
      (* the slice [start + 1 .. end] of the input *)
      if (template_start + 1 <=? template_end)%nat
      then Ok (Some (substring (template_start + 1) (template_end - (template_start + 1)) input,
                     template_end))
      else Panic
  | _, _ => Ok None
  end.

Definition tc_copy_end {E} (input : string) (last_end : nat) : outcome E string :=
  if (last_end <=? String.length input)%nat then Ok (str_drop last_end input) else Panic.

#[export] Instance TestConfig_syntax : TemplateSyntax TestConfig := {|
  replace_placeholders _ input m := replace_in_order input (map_to_list m);
  terminator_start _ input := find_char (Ascii.eqb lbrace) input;
  terminator_end _ input := find_char (Ascii.eqb rbrace) input;
  copy_end E _ input last_end := tc_copy_end input last_end;
  num_placeholders _ input := count_char lbrace input;
  find_key E _ input := tc_find_key input;
|}.

(** ** Properties of the steps *)

(** A definition has a sender: an address or a pool. *)
Definition has_sender (f : FunctionCallDefinition) : bool :=
  match fc_from f, fc_from_pool f with None, None => false | _, _ => true end.
Definition create_has_sender (c : CreateDefinition) : bool :=
  match cd_from c, cd_from_pool c with None, None => false | _, _ => true end.

Lemma default_call_pool_sender pool f :
  has_sender (default_call_pool pool f) = true /\
  (has_sender f = true -> default_call_pool pool f = f).
Proof. by destruct f as [? [?|] [?|]]. Qed.

Lemma default_create_pool_sender pool c :
  create_has_sender (default_create_pool pool c) = true.
Proof. by destruct c as [? ? ? [?|] [?|]]. Qed.

Lemma map_step_calls f s : step_calls (map_step f s) = map f (step_calls s).
Proof. by destruct s. Qed.

Lemma map_steps_calls f l : (map (map_step f) l ≫= step_calls) = map f (l ≫= step_calls).
Proof.
  induction l as [|s l IH]; [done|]. cbn.
  rewrite map_app. f_equal; [apply map_step_calls|exact IH].
Qed.

Lemma dedup_elem l x : x ∈ dedup l <-> x ∈ l.
Proof.
  induction l as [|y [|z l] IH]; [done..|].
  change (dedup (y :: z :: l)) with (if String.eqb y z then dedup (z :: l) else y :: dedup (z :: l)).
  destruct (String.eqb_spec y z) as [->|]; set_solver.
Qed.

Lemma dedup_head y l : exists l', dedup (y :: l) = y :: l'.
Proof.
  revert y. induction l as [|z l IH]; intros y; [by exists []|].
  change (dedup (y :: z :: l)) with (if String.eqb y z then dedup (z :: l) else y :: dedup (z :: l)).
  destruct (String.eqb_spec y z) as [->|]; [apply IH|by eexists].
Qed.

Lemma dedup_sorted l :
  StronglySorted String.le l -> StronglySorted String.le (dedup l) /\ NoDup (dedup l).
Proof.
  induction l as [|y [|z l] IH]; intros Hs.
  - split; constructor.
  - split; [done|]. apply NoDup_singleton.
  - apply StronglySorted_inv in Hs as [Hs Hy]. destruct (IH Hs) as [H1 H2].
    change (dedup (y :: z :: l)) with (if String.eqb y z then dedup (z :: l) else y :: dedup (z :: l)).
    destruct (String.eqb_spec y z) as [->|Hne]; [done|]. split.
    + constructor; [done|]. apply Forall_forall. intros x Hx. rewrite dedup_elem in Hx.
      by apply (proj1 (Forall_forall _ _) Hy).
    + constructor; [|done]. intros Hin. rewrite dedup_elem in Hin.
      assert (Hz : String.le z y).
      { apply StronglySorted_inv in Hs as [_ Hz]. apply elem_of_cons in Hin as [->|Hin]; [done|].
        by apply (proj1 (Forall_forall _ _) Hz). }
      apply Forall_inv in Hy. apply Hne. by apply (anti_symm String.le).
Qed.

Definition sorted_unique (l : list string) : Prop := StronglySorted String.le l /\ NoDup l.

Lemma sort_dedup_spec l : sorted_unique (dedup (sort_strings l)) /\
  forall x, x ∈ dedup (sort_strings l) <-> x ∈ l.
Proof.
  split.
  - apply dedup_sorted, (StronglySorted_merge_sort String.le).
  - intros x. rewrite dedup_elem. unfold sort_strings. by rewrite merge_sort_Permutation.
Qed.

(** Every step a scenario file yields has a sender: steps that name none get
    the pool "admin" (deployments and setup) or "spammers" (spam), the others
    are unchanged; and the pools the plan declares are, for each section, sorted
    and without duplicates, exactly the pools of its steps, those of bundled
    calls included. *)
Theorem test_config_pools (c : TestConfig) :
  exists creates setups spams spam_pools,
    get_create_steps c = Ok creates /\ get_setup_steps c = Ok setups /\
    get_spam_steps c = Ok spams /\
    get_spam_pools (E := unit) c = Ok spam_pools /\
    Forall (fun s => create_has_sender s = true) creates /\
    Forall (fun s => has_sender s = true) setups /\
    Forall (fun s => has_sender s = true) (spams ≫= step_calls) /\
    sorted_unique (get_create_pools c) /\ sorted_unique (get_setup_pools c) /\
    sorted_unique spam_pools /\
    (forall p, p ∈ get_create_pools c <-> exists s, s ∈ creates /\ cd_from_pool s = Some p) /\
    (forall p, p ∈ get_setup_pools c <-> exists s, s ∈ setups /\ fc_from_pool s = Some p) /\
    (forall p, p ∈ spam_pools <-> exists s, s ∈ (spams ≫= step_calls) /\ fc_from_pool s = Some p).
Proof.
  do 4 eexists. split_and!; try reflexivity.
  - apply Forall_forall. intros s (x & -> & _)%list_elem_of_fmap.
    apply default_create_pool_sender.
  - apply Forall_forall. intros s (x & -> & _)%list_elem_of_fmap.
    apply default_call_pool_sender.
  - rewrite map_steps_calls. apply Forall_forall. intros s (x & -> & _)%list_elem_of_fmap.
    apply default_call_pool_sender.
  - apply sort_dedup_spec.
  - apply sort_dedup_spec.
  - apply sort_dedup_spec.
  - intros p. unfold get_create_pools. rewrite (proj2 (sort_dedup_spec _)), list_elem_of_omap. done.
  - intros p. unfold get_setup_pools. rewrite (proj2 (sort_dedup_spec _)), list_elem_of_omap. done.
  - intros p. rewrite (proj2 (sort_dedup_spec _)), list_elem_of_omap. done.
Qed.

(** Overriding the senders leaves no pool anywhere in the file: every
    deployment, setup call, spam call and bundled call is sent from the given
    address; nothing else of it changes. *)
Theorem override_senders_spec `{A : Alloy} (a : Address) (c : TestConfig) :
  let c' := override_senders a c in
  let from := Some (address_to_string a) in
  tc_env c' = tc_env c /\
  (forall s', s' ∈ default [] (tc_create c') <->
     exists s, s ∈ default [] (tc_create c) /\ s' = create_set_sender from None s) /\
  (forall s', s' ∈ default [] (tc_setup c') <->
     exists s, s ∈ default [] (tc_setup c) /\ s' = set_sender from None s) /\
  (default [] (tc_spam c') ≫= step_calls) =
    (set_sender from None <$> (default [] (tc_spam c) ≫= step_calls)) /\
  map is_bundle (default [] (tc_spam c')) = map is_bundle (default [] (tc_spam c)) /\
  get_create_pools c' = [] /\ get_setup_pools c' = [] /\
  get_spam_pools (E := unit) c' = Ok [].
Proof.
  assert (Hc : forall l, omap cd_from_pool (map (default_create_pool "admin")
    (map (create_set_sender (Some (address_to_string a)) None) l)) = []).
  { induction l as [|x l IH]; cbn; [done|]. exact IH. }
  assert (Hf : forall p l, omap fc_from_pool (map (default_call_pool p)
    (map (set_sender (Some (address_to_string a)) None) l)) = []).
  { intros p. induction l as [|x l IH]; cbn; [done|]. exact IH. }
  intros c' from. split_and!.
  - done.
  - intros s'. cbn. destruct (tc_create c); cbn; [|set_solver].
    rewrite list_elem_of_fmap. naive_solver.
  - intros s'. cbn. destruct (tc_setup c); cbn; [|set_solver].
    rewrite list_elem_of_fmap. naive_solver.
  - cbn. destruct (tc_spam c); cbn; [|done]. apply map_steps_calls.
  - cbn. destruct (tc_spam c) as [l|]; cbn; [|done]. rewrite map_map. apply map_ext.
    by intros [].
  - unfold get_create_pools. cbn. destruct (tc_create c); cbn; [|done]. by rewrite Hc.
  - unfold get_setup_pools. cbn. destruct (tc_setup c); cbn; [|done]. by rewrite Hf.
  - unfold get_spam_pools. cbn. destruct (tc_spam c); cbn; [|done].
    by rewrite !map_steps_calls, Hf.
Qed.

(** ** Properties of placeholder lookup *)

(** Text without braces, and text in which such pieces alternate with
    placeholders. *)
Definition plain (s : string) : bool :=
  str_all (fun c => negb (Ascii.eqb lbrace c) && negb (Ascii.eqb rbrace c)) s.

Fixpoint render (l : list (string * string)) : string :=
  match l with
  | [] => ""
  | (key, text) :: l => (placeholder key +:+ text +:+ render l)%string
  end.

Definition plain_parts (text : string) (l : list (string * string)) : Prop :=
  plain text = true /\ Forall (fun '(k, t) => plain k = true /\ plain t = true) l.

Lemma plain_no_lbrace s : plain s = true -> str_all (fun x => negb (Ascii.eqb lbrace x)) s = true.
Proof. apply str_all_impl. intros c H. by apply andb_true_iff in H as [? _]. Qed.

Lemma plain_no_rbrace s : plain s = true -> str_all (fun x => negb (Ascii.eqb rbrace x)) s = true.
Proof. apply str_all_impl. intros c H. by apply andb_true_iff in H as [_ ?]. Qed.

Lemma render_count text l :
  plain_parts text l -> count_char lbrace (text +:+ render l)%string = length l.
Proof.
  intros [Ht Hl]. rewrite count_char_app, (count_char_none lbrace text) by by apply plain_no_lbrace.
  cbn. clear Ht text. induction Hl as [|[k t] l [Hk Ht] Hl IH]; [done|].
  cbn [render]. unfold placeholder. rewrite !count_char_app, IH.
  rewrite (count_char_none lbrace k), (count_char_none lbrace t)
    by by apply plain_no_lbrace.
  cbn. lia.
Qed.

(** The next placeholder of a rendered text: its key, and the position of its
    closing brace. *)
Lemma find_key_render {E} text key rest :
  plain text = true -> plain key = true ->
  let s := (text +:+ placeholder key +:+ rest)%string in
  let stop := (String.length text + 1 + String.length key)%nat in
  tc_find_key (E := E) s = Ok (Some (key, stop)) /\
  tc_copy_end (E := E) s (stop + 1) = Ok rest.
Proof.
  intros Ht Hk s stop.
  assert (Hs : s = (text +:+ String lbrace (key +:+ String rbrace rest))%string).
  { unfold s, placeholder. cbn. by rewrite str_app_assoc. }
  assert (Hs' : s = ((text +:+ String lbrace key) +:+ String rbrace rest)%string).
  { rewrite Hs, str_app_assoc. done. }
  assert (Hlen : String.length (text +:+ String lbrace key)%string = stop).
  { rewrite str_length_app. cbn. unfold stop. lia. }
  split.
  - unfold tc_find_key. rewrite Hs at 1.
    rewrite find_char_app by (done || by apply plain_no_lbrace).
    rewrite Hs' at 1. rewrite find_char_app; [|
      rewrite str_all_app; cbn; rewrite !plain_no_rbrace by done; done|done].
    rewrite Hlen. rewrite (proj2 (Nat.leb_le _ _)) by lia. do 3 f_equal.
    replace (stop - (String.length text + 1))%nat with (String.length key) by lia.
    rewrite Hs. change (String lbrace (key +:+ String rbrace rest)) with
      ("{" +:+ (key +:+ String rbrace rest))%string.
    rewrite <- str_app_assoc.
    replace (String.length text + 1)%nat with (String.length (text +:+ "{")%string)
      by (rewrite str_length_app; done).
    apply substring_middle.
  - unfold tc_copy_end.
    assert (H : s = (((text +:+ String lbrace key) +:+ "}") +:+ rest)%string).
    { rewrite Hs', !str_app_assoc. done. }
    assert (Hl : String.length ((text +:+ String lbrace key) +:+ "}")%string = (stop + 1)%nat).
    { rewrite str_length_app, Hlen. done. }
    rewrite H at 1. rewrite str_length_app, Hl. rewrite (proj2 (Nat.leb_le _ _)) by lia.
    f_equal. rewrite H, <- Hl. apply str_drop_app.
Qed.

Section lookup.
Context {D : Type} `{DbOps D}.
Variable env : LookupEnv (D := D).

(** The reference: resolve the keys from left to right. *)
Fixpoint resolve_keys (keys : list string) (m : gmap string string)
  : outcome TemplaterError (gmap string string) :=
  match keys with
  | [] => Ok m
  | k :: keys => m ← resolve_key env k m; resolve_keys keys m
  end.

(** Looking up the placeholders of a text in which brace-free pieces
    alternate with placeholders resolves exactly its keys, once each, from left
    to right: reserved and known keys are skipped, the first key missing from
    the database is the error, and the lookup always ends without a panic of
    its own. *)
Theorem find_placeholder_values_spec (c : TestConfig) (text : string)
    (l : list (string * string)) (m : gmap string string) (Hp : plain_parts text l) :
  find_placeholder_values c env (text +:+ render l)%string m = resolve_keys l.*1 m.
Proof.
  unfold find_placeholder_values. change (num_placeholders c ?x) with (count_char lbrace x).
  rewrite render_count by done.
  enough (forall arg s e, tc_copy_end (E := TemplaterError) s e = Ok (text +:+ render l)%string ->
    placeholder_loop c env arg (length l) s e m = resolve_keys l.*1 m) as Hl.
  { apply Hl. unfold tc_copy_end. rewrite (proj2 (Nat.leb_le _ _)) by lia. f_equal.
    exact (str_drop_app "" _). }
  destruct Hp as [Ht Hp]. intros arg. revert text Ht m.
  induction Hp as [|[k t] l [Hk Ht'] Hp IH]; intros text Ht m s e He; [done|].
  cbn [length placeholder_loop fmap list_fmap resolve_keys fst].
  change (copy_end c s e) with (tc_copy_end (E := TemplaterError) s e). rewrite He.
  cbn [mbind outcome_bind].
  change (find_key c ?x) with (tc_find_key (E := TemplaterError) x).
  cbn [render].
  destruct (find_key_render (E := TemplaterError) text k (t +:+ render l)%string Ht Hk) as [Hf Hc].
  rewrite Hf. cbn [mbind outcome_bind ok_or].
  destruct (resolve_key env k m) as [m'|err|]; cbn [mbind outcome_bind]; [|done..].
  apply (IH t Ht' m'). exact Hc.
Qed.
End lookup.

Lemma find_placeholder_values_spec_witness :
  find_placeholder_values TestConfig_new
    {| le_db := mock_db; le_rpc_url := ""; le_genesis_hash := 0; le_scenario_label := None |}
    "f({_sender},{tok})" ∅ = Ok {[ "tok" := "" ]}.
Proof.
  assert (plain_parts "f(" [("_sender", ","); ("tok", ")")]) as Hp
    by (split; [reflexivity|repeat constructor]).
  exact (find_placeholder_values_spec
    {| le_db := mock_db; le_rpc_url := ""; le_genesis_hash := 0; le_scenario_label := None |}
    TestConfig_new "f(" [("_sender", ","); ("tok", ")")] ∅ Hp).
Defined.

(** A closing brace before the first opening one is not reported as a missing
    key: the slice of the key panics. *)
Lemma find_key_reversed_braces : tc_find_key (E := TemplaterError) "}{a" = Panic.
Proof. reflexivity. Qed.
