(* ===== verification/CoreError.v ===== *)
(** * Errors of the core crate ([core/src/error.rs])

    Errors of libraries are their text.  The conversions are the [From]
    implementations [?] goes through. *)

From Stdlib Require Import Strings.String.
From S2P Require Import Prelude Text Alloy Db GenTypes.

Inductive RuntimeParamErrorKind :=
| BuilderUrlRequired
| BuilderUrlInvalid
| BundleTypeInvalid
| InvalidArgs (s : string)
| MissingArgs (s : string).

Inductive RpcErrorKind :=
| TxAlreadyKnown
| InsufficientFunds (a : Address)
| ReplacementTransactionUnderpriced
| GenericSendTxError.

Inductive RuntimeErrorKind :=
| AnvilMissing
| AnvilTimeout (secs : Z)
| AnvilUnchecked (s : string)
| ChainIdMismatch (primary builder : Z)
| GasLimitMissingFromMap
| GenesisBlockMissing
| InitializationCancelled
| NamedTxMissingFromAddress
| NonceMissing (a : Address)
| PrivateKeyMissing (a : Address)
| SignerMissingFromMap (a : Address)
| ContractCodeNotVisible (a : Address) (secs : Z)
| SetupTxReverted (label tx_hash : string)
| SpamTxsEmpty
| TxMissingFromAddress
| InvalidParams (e : RuntimeParamErrorKind)
| ScenarioNotFound.

Inductive BundleProviderError := InvalidUrl | SendBundleError (e : string).

Inductive Error :=
| AuthProvider (e : string)
| Callback (e : string)
| ErrDb (e : DbError)
| ErrGenerator (e : GeneratorError)
| Rpc (e : string)
| RpcInternal (e : RpcErrorKind)
| PendingTxErr (e : string)
| Runtime (e : RuntimeErrorKind)
| TransactionBuilderEth (e : string)
| ErrTemplater (e : TemplaterError)
| Flashblocks (e : string).

(** [From<NodeError>], on the text of the error. *)
Definition error_of_node (e : string) : Error :=
  if str_contains "no such file" (to_lowercase e) then Runtime AnvilMissing
  else Runtime (AnvilUnchecked e).

(** [From<FlashblocksError>], on the text of the error. *)
Definition error_of_flashblocks (e : string) : Error := Flashblocks e.

(** [From<BundleProviderError>]. *)
Definition error_of_bundle (err : BundleProviderError) : Error :=
  match err with
  | InvalidUrl => Runtime (InvalidParams BuilderUrlInvalid)
  | SendBundleError e =>
      if str_contains "bundle must contain exactly one transaction" e
      then Runtime (InvalidParams BundleTypeInvalid) else Rpc e
  end.

(** [Display] of [RpcErrorKind], the address in its text form. *)
Definition rpc_error_text `{Alloy} (e : RpcErrorKind) : string :=
  match e with
  | TxAlreadyKnown =>
      "Transaction already known. You may be using the same seed (or private key) as another spammer."
  | InsufficientFunds address =>
      ("Insufficient funds for transaction (from " +:+ address_to_string address +:+ ").")%string
  | ReplacementTransactionUnderpriced =>
      "Replacement transaction underpriced. You may have to wait, or replace the currently-pending transactions manually."
  | GenericSendTxError =>
      "Failed to send transaction. This may be due to a network issue or the transaction being invalid."
  end.

(** [Display] of [TemplaterError]; the fee's parse error is left out. *)
Definition templater_error_text (e : TemplaterError) : string :=
  match e with
  | KeyNotFound k => ("failed to find placeholder key '" +:+ k +:+ "'")%string
  | ContractNotFoundInDB k =>
      ("contract address for '" +:+ k +:+
         "' not found in DB. You may need to run setup steps first.")%string
  | TemplaterDb _ => "DB error"
  | ParseAddressFailed s => ("failed to parse address '" +:+ s +:+ "'")%string
  | ParsePriorityFeeFailed s =>
      ("failed to parse max_priority_fee_per_gas '" +:+ s +:+ "'")%string
  | TemplaterUtil _ => "templater util error"
  end.
