(* ===== verification/Generator.v ===== *)
(** * The generator ([core/src/generator/trait.rs])

    From the steps of a plan to transaction requests: fuzzed values, strict
    definitions with a definite sender, and [load_txs] for the three kinds of
    plan.  The getters of the [Generator] trait are the record [GenCtx].  A
    callback acts on the database state and may leave a task behind; awaiting a
    task yields its outcome.  The proof points of the [bn254_points] module
    (computed with arkworks) are the argument [groth16_proof]. *)

From Stdlib Require Import Strings.Byte Strings.Ascii Strings.String.
From S2P Require Import Prelude Text Seeder Alloy Agents Db GenTypes GenUtil Templater TestFile CoreError.

(** ** Fuzzing *)

Definition parse_map_key (fuzz : FuzzParam) : outcome GeneratorError string :=
  let set_count := length (filter (fun b => b = true)
    [bool_decide (is_Some (fz_param fuzz)); bool_decide (is_Some (fz_value fuzz));
     bool_decide (is_Some (fz_max_priority_fee_per_gas fuzz))]) in
  if (set_count =? 0)%nat then Err FuzzMissingParams
  else if (1 <? set_count)%nat then Err FuzzConflictingParams
  else
    match fz_param fuzz with
    | Some param => Ok param
    | None =>
        match fz_value fuzz, fz_max_priority_fee_per_gas fuzz with
        | Some true, _ => Ok VALUE_KEY
        | Some false, _ => Err FuzzValueNeedsParam
        | _, Some true => Ok MAX_PRIORITY_FEE_KEY
        | _, Some false => Err FuzzValueNeedsParam
        | _, _ => Err FuzzInvalid
        end
    end.

Abbreviation FuzzMap := (gmap string (list Z)).

Section fuzz.
Context `{A : Alloy}.

(** The seed of one parameter: the hash of the base seed and its key. *)
Definition param_seed (base_seed_u256 : Z) (key : string) : RandSeed.t :=
  RandSeed.seed_from_bytes (keccak256 (to_be 32 base_seed_u256 ++ str_bytes key)).

Definition fuzz_step (num_values : nat) (base_seed_u256 : Z) (map_ : FuzzMap)
    (fuzz : FuzzParam) : outcome GeneratorError FuzzMap :=
  key ← parse_map_key fuzz;
  values ← RandSeed.seed_values keccak256 (param_seed base_seed_u256 key) num_values
             (fz_min fuzz) (fz_max fuzz);
  mret (<[key := map RandSeed.as_u256 values]> map_).

Fixpoint fuzz_loop (num_values : nat) (base_seed_u256 : Z) (fuzz_args : list FuzzParam)
    (map_ : FuzzMap) : outcome GeneratorError FuzzMap :=
  match fuzz_args with
  | [] => mret map_
  | fuzz :: fuzz_args =>
      map_ ← fuzz_step num_values base_seed_u256 map_ fuzz;
      fuzz_loop num_values base_seed_u256 fuzz_args map_
  end.

Section seeded.
Context {S : Type} `{SV : SeedValue S, SD : Seeder S}.

Definition create_fuzz_map (base_seed : S) (num_values : nat) (fuzz_args : list FuzzParam)
  : outcome GeneratorError FuzzMap :=
  first ← seed_values base_seed 1 None None;
  v ← unwrap (head first);
  fuzz_loop num_values (as_u256 v) fuzz_args ∅.
End seeded.

(** The fuzzed form of one argument, when its parameter is named and fuzzed. *)
Definition fuzz_arg (fuzz_map : FuzzMap) (fuzz_idx : nat) (param : AbiParam)
  : outcome GeneratorError (option string) :=
  match split_ws (display param) with
  | param_type :: arg_name :: _ =>
      match fuzz_map !! arg_name with
      | Some values =>
          fuzzed_value ← unwrap (values !! fuzz_idx);
          mret (Some (if String.eqb param_type "address"
                      then ("0x" +:+ hex_padded 40 fuzzed_value)%string
                      else dec fuzzed_value))
      | None => mret None
      end
  | _ => mret None
  end.

Definition get_fuzzed_args (tx : FunctionCallDefinition) (fuzz_map : FuzzMap) (fuzz_idx : nat)
  : outcome GeneratorError (list string) :=
  match fc_signature tx with
  | Some tx_signature =>
      func ← map_err AbiParserFailed (abi_parse tx_signature);
      let tx_args := default [] (fc_args tx) in
      if (length (abi_inputs func) <? length tx_args)%nat
      then Err (SignatureArgsMismatch (length (abi_inputs func)) (length tx_args))
      else
        mapM (fun '(param, arg) =>
                fmap (M := outcome GeneratorError) (default arg)
                  (fuzz_arg fuzz_map fuzz_idx param))
          (zip (abi_inputs func) tx_args)
  | None => mret []
  end.

(** [values[fuzz_idx].to_string()] of the map entry [key]. *)
Definition fuzzed_entry (key : string) (fuzz_map : FuzzMap) (fuzz_idx : nat)
  : outcome GeneratorError (option string) :=
  values ← ok_or ValueFuzzerNotInitialized (fuzz_map !! key);
  v ← unwrap (values !! fuzz_idx);
  mret (Some (dec v)).

Definition get_fuzzed_tx_value (tx : FunctionCallDefinition) (fuzz_map : FuzzMap)
    (fuzz_idx : nat) : outcome GeneratorError (option string) :=
  if existsb (fun f => bool_decide (fz_value f = Some true)) (default [] (fc_fuzz tx))
  then fuzzed_entry VALUE_KEY fuzz_map fuzz_idx else mret None.

Definition get_fuzzed_max_priority_fee_per_gas (tx : FunctionCallDefinition)
    (fuzz_map : FuzzMap) (fuzz_idx : nat) : outcome GeneratorError (option string) :=
  if existsb (fun f => bool_decide (fz_max_priority_fee_per_gas f = Some true))
       (default [] (fc_fuzz tx))
  then fuzzed_entry MAX_PRIORITY_FEE_KEY fuzz_map fuzz_idx else mret None.

Definition sign_auth (signer : Signer) (auth : Z * Address * Z)
  : outcome GeneratorError SignedAuthorization :=
  map_err (fun e => Util (SignerFailed e)) (sign_authorization signer auth).
End fuzz.

(** ** Strict definitions *)

Section generator.
Context `{A : Alloy} {P : Profile}.
Context {C : Type} `{PC : PlanConfig C, TS : TemplateSyntax C}.
Context {D : Type} `{DO : DbOps D}.
Context {Sd : Type} `{SV : SeedValue Sd, SD : Seeder Sd}.

Record GenCtx := {
  gc_conf : C;
  gc_fuzz_seeder : Sd;
  gc_agent_store : AgentStore;
  gc_rpc_url : string;
  gc_chain_id : Z;
  gc_transaction_count : Address -> outcome Error Z;
  gc_nonce_map : gmap Address Z;
  gc_setcode_signer : Signer;
  gc_genesis_hash : TxHash;
  gc_scenario_label : option string;
  gc_groth16_proof : nat -> string;
}.
Variable self : GenCtx.

Definition lookup_env (db : D) : LookupEnv := {|
  le_db := db; le_rpc_url := gc_rpc_url self; le_genesis_hash := gc_genesis_hash self;
  le_scenario_label := gc_scenario_label self |}.

(** The sender: the [idx]-th signer of the pool (modulo its size, which panics
    on an empty pool), or the given address with the file's variables injected. *)
Definition sender_address (from_pool from : option string) (idx : nat)
  : outcome GeneratorError Address :=
  match from_pool with
  | Some from_pool =>
      agent ← ok_or (FromPoolNotFound from_pool) (get_agent (gc_agent_store self) from_pool);
      if (length (signers agent) =? 0)%nat then Panic
      else ok_or (SignerNotFound from_pool idx)
             (get_address agent (idx mod length (signers agent)))
  | None =>
      match from with
      | Some from =>
          placeholder_map ← get_env (gc_conf self);
          ok_or (FromAddressParseFailed from)
            (parse_address (replace_placeholders (gc_conf self) from placeholder_map))
      | None => Err InvalidSender
      end
  end.

Fixpoint zeros (n : nat) : string :=
  match n with O => "" | S n => String "0" (zeros n) end.

Definition make_strict_create (create_def : CreateDefinition) (idx : nat)
  : outcome GeneratorError CreateDefinitionStrict :=
  from_address ← sender_address (cd_from_pool create_def) (cd_from create_def) idx;
  let bytecode := str_replace "{_sender}" (zeros 24 +:+ address_encode_hex from_address)
                    (cc_bytecode (cd_contract create_def)) in
  mret {| cs_name := cc_name (cd_contract create_def); cs_bytecode := bytecode;
          cs_from := from_address; cs_signature := cd_signature create_def;
          cs_args := default [] (cd_args create_def) |}.

Definition special_replace (from_address : Address) (arg : string) : string :=
  if str_contains sender_placeholder arg
  then str_replace sender_placeholder (address_to_string from_address) arg
  else if str_contains setcode_placeholder arg
  then str_replace setcode_placeholder
         (address_to_string (signer_address (gc_setcode_signer self))) arg
  else arg.

(** The authorization of a set-code call, signed for the [idx]-th nonce. *)
Definition strict_auth (db : D) (funcdef : FunctionCallDefinition) (idx : nat)
    (auth_address : string) : outcome GeneratorError SignedAuthorization :=
  placeholder_map ← map_err Templater
    (find_fncall_placeholders (gc_conf self) (lookup_env db) funcdef ∅);
  actual_auth_address ← ok_or (AddressNotFound auth_address)
    (parse_address (replace_placeholders (gc_conf self) auth_address placeholder_map));
  let setcode_signer := gc_setcode_signer self in
  nonce ← ok_or (NonceNotFound (signer_address setcode_signer))
    (gc_nonce_map self !! signer_address setcode_signer);
  setcode_nonce ← arith 64 (nonce + Z.of_nat idx);
  sign_auth setcode_signer (gc_chain_id self, actual_auth_address, setcode_nonce).

Definition strict_value (input : string) : outcome GeneratorError string :=
  match parse_value input with
  | Ok u256 => mret (dec u256)
  | Err e =>
      match terminator_start (gc_conf self) input with
      | None => if str_all is_digit input then mret input else Err (Util e)
      | Some _ => mret input
      end
  | Panic => Panic
  end.

Definition opt_map {E X Y} (f : X -> outcome E Y) (o : option X) : outcome E (option Y) :=
  match o with
  | Some x => fmap (M := outcome E) Some (f x)
  | None => mret None
  end.

Definition make_strict_call (db : D) (funcdef : FunctionCallDefinition) (idx : nat)
  : outcome GeneratorError FunctionCallDefinitionStrict :=
  from_address ← sender_address (fc_from_pool funcdef) (fc_from funcdef) idx;
  let args := map (special_replace from_address) (default [] (fc_args funcdef)) in
  let to_address := special_replace from_address (fc_to funcdef) in
  signed_auth ← opt_map (strict_auth db funcdef idx) (fc_authorization_address funcdef);
  value ← opt_map strict_value (fc_value funcdef);
  sidecar ← sidecar_data funcdef;
  mret {|
    fs_to := to_address; fs_from := from_address;
    fs_signature := default "" (fc_signature funcdef); fs_args := args; fs_value := value;
    fs_fuzz := default [] (fc_fuzz funcdef); fs_kind := fc_kind funcdef;
    fs_gas_limit := fc_gas_limit funcdef;
    fs_max_priority_fee_per_gas := fc_max_priority_fee_per_gas funcdef;
    fs_sidecar := sidecar; fs_authorization := (fun a => [a]) <$> signed_auth |}.

(** ** Loading the transactions of a plan *)

(** The outcome of awaiting a task, a join error included. *)
Abbreviation Task := (outcome Error unit).

(** A callback: on the database and a transaction, the database after it and
    maybe a task. *)
Abbreviation StepCallback := (D -> NamedTxRequest -> outcome Error (D * option Task)).

(** Awaiting an optional task on the spot. *)
Definition await_now (handle : option Task) : outcome Error unit :=
  match handle with Some t => t | None => mret tt end.

(** The sender's tracked nonce, fetched once, assigned and advanced. *)
Definition assign_nonce (next_nonce : gmap Address Z) (tx : NamedTxRequest)
  : outcome Error (gmap Address Z * NamedTxRequest) :=
  from ← unwrap (tx_from (nr_tx tx));
  nonce ← match next_nonce !! from with
          | Some n => mret n
          | None => gc_transaction_count self from
          end;
  nonce' ← arith 64 (nonce + 1);
  mret (<[from := nonce']> next_nonce, with_nonce nonce tx).

(** What the loop over the steps carries. *)
Record LoadState := {
  ls_db : D;
  ls_placeholders : gmap string string;
  ls_next_nonce : gmap Address Z;
  ls_pending : gmap Address Task;
  ls_txs : list ExecutionRequest;
}.

Definition create_step (on_create_step : StepCallback) (st : LoadState)
    (step : CreateDefinition) : outcome Error LoadState :=
  m ← map_err ErrTemplater (find_create_placeholders (gc_conf self)
        (lookup_env (ls_db st)) step (ls_placeholders st));
  step ← map_err ErrGenerator (make_strict_create step 0);
  req ← map_err ErrTemplater (template_contract_deploy (gc_conf self) step m);
  let tx := builder_build (builder_with_name (cs_name step) (builder_new req)) in
  '(nn, tx) ← assign_nonce (ls_next_nonce st) tx;
  '(db, handle) ← on_create_step (ls_db st) tx;
  await_now handle;;
  mret {| ls_db := db; ls_placeholders := m; ls_next_nonce := nn;
          ls_pending := ls_pending st; ls_txs := ls_txs st ++ [exec_from_tx tx] |}.

(** The accounts a setup step runs for. *)
Definition account_indices (step : FunctionCallDefinition) : outcome Error (list nat) :=
  if fc_for_all_accounts step then
    match fc_from_pool step with
    | Some from_pool =>
        match get_agent (gc_agent_store self) from_pool with
        | Some agent => mret (seq 0 (length (signers agent)))
        | None => Err (ErrGenerator (FromPoolNotFound from_pool))
        end
    | None => Err (ErrGenerator ForAllAccountsRequiresFromPool)
    end
  else mret [0%nat].

(** The task of a sender runs after the sender's previous one, whose outcome is
    dropped. *)
Definition chain_task (prev_handle : option Task) (handle : Task) : Task :=
  match prev_handle with Some _prev => handle | None => handle end.

Definition setup_tx (on_setup_step : StepCallback) (step : FunctionCallDefinition)
    (st : LoadState) (account_idx : nat) : outcome Error LoadState :=
  call ← map_err ErrGenerator (make_strict_call (ls_db st) step account_idx);
  req ← map_err ErrTemplater (template_function_call (gc_conf self) call (ls_placeholders st));
  let tx := NamedTxRequest_new req None (fc_kind step) in
  from ← unwrap (tx_from (nr_tx tx));
  '(nn, tx) ← assign_nonce (ls_next_nonce st) tx;
  '(db, handle) ← on_setup_step (ls_db st) tx;
  let pending := match handle with
    | Some handle => <[from := chain_task (ls_pending st !! from) handle]> (ls_pending st)
    | None => ls_pending st
    end in
  mret {| ls_db := db; ls_placeholders := ls_placeholders st; ls_next_nonce := nn;
          ls_pending := pending; ls_txs := ls_txs st ++ [exec_from_tx tx] |}.

Definition setup_step (on_setup_step : StepCallback) (st : LoadState)
    (step : FunctionCallDefinition) : outcome Error LoadState :=
  m ← map_err ErrTemplater (find_fncall_placeholders (gc_conf self)
        (lookup_env (ls_db st)) step (ls_placeholders st));
  indices ← account_indices step;
  fold_steps (setup_tx on_setup_step step)
    {| ls_db := ls_db st; ls_placeholders := m; ls_next_nonce := ls_next_nonce st;
       ls_pending := ls_pending st; ls_txs := ls_txs st |} indices.

(** The remaining tasks, awaited in the order of the senders' addresses. *)
Definition await_pending (pending : gmap Address Task) : outcome Error unit :=
  fold_steps (fun _ '(_, task) => task) tt
    (sort_by fst (map_to_list pending)).

(** [num_txs] rounded up to a multiple of the number of steps; without steps
    the remainder panics. *)
Definition round_up (num_txs num_steps : Z) : outcome Error Z :=
  remainder ← rem_ num_txs num_steps;
  if remainder =? 0 then mret num_txs else arith 64 (num_txs + (num_steps - remainder)).

Definition lookup_tx_placeholders (db : D) (num_txs : Z)
    (maps : gmap string string * FuzzMap) (tx : FunctionCallDefinition)
  : outcome Error (gmap string string * FuzzMap) :=
  m ← map_err (fun e => ErrDb (NotFound ("failed to find placeholder value in DB: " +:+
                                 templater_error_text e)%string))
        (find_fncall_placeholders (gc_conf self) (lookup_env db) tx maps.1);
  fuzz_map ← map_err ErrGenerator
    (create_fuzz_map (gc_fuzz_seeder self) (Z.to_nat num_txs) (default [] (fc_fuzz tx)));
  mret (m, fuzz_map ∪ maps.2).

(** The value or fee of a call, overridden when a fuzzed one is given. *)
Definition override_fuzzed (args : list string) (value fee : option string)
    (req : FunctionCallDefinition) : FunctionCallDefinition :=
  let req := with_args args req in
  let req := match value with Some _ => set_value_field value req | None => req end in
  match fee with Some f => with_max_priority_fee_per_gas f req | None => req end.

(** The sixth argument of a proof verification call; [args[5]] panics when
    there is none. *)
Definition inject_proof (req : FunctionCallDefinition) (i : nat) (args : list string)
  : outcome Error (list string) :=
  if bool_decide (fc_kind req = Some "groth16-verifyProof"%string) then
    if (5 <? length args)%nat then mret (<[5%nat := gc_groth16_proof self i]> args) else Panic
  else mret args.

Definition prepare_tx (on_spam_setup : StepCallback) (maps : gmap string string * FuzzMap)
    (i : nat) (db : D) (req : FunctionCallDefinition) : outcome Error (D * NamedTxRequest) :=
  args ← map_err ErrGenerator (get_fuzzed_args req maps.2 i);
  fuzz_tx_value ← map_err ErrGenerator (get_fuzzed_tx_value req maps.2 i);
  fuzz_priority_fee ← map_err ErrGenerator (get_fuzzed_max_priority_fee_per_gas req maps.2 i);
  args ← inject_proof req i args;
  let req := override_fuzzed args fuzz_tx_value fuzz_priority_fee req in
  call ← map_err ErrGenerator (make_strict_call db req i);
  treq ← map_err ErrTemplater (template_function_call (gc_conf self) call maps.1);
  let tx := NamedTxRequest_new treq None (fc_kind req) in
  '(db, handle) ← on_spam_setup db tx;
  await_now handle;;
  mret (db, tx).

Fixpoint prepare_bundle (on_spam_setup : StepCallback) (maps : gmap string string * FuzzMap)
    (i : nat) (db : D) (reqs : list FunctionCallDefinition)
  : outcome Error (D * list NamedTxRequest) :=
  match reqs with
  | [] => mret (db, [])
  | req :: reqs =>
      '(db, tx) ← prepare_tx on_spam_setup maps i db req;
      '(db, txs) ← prepare_bundle on_spam_setup maps i db reqs;
      mret (db, tx :: txs)
  end.

Definition spam_tx (on_spam_setup : StepCallback) (maps : gmap string string * FuzzMap)
    (step : SpamRequest) (acc : D * list ExecutionRequest) (i : nat)
  : outcome Error (D * list ExecutionRequest) :=
  match step with
  | Tx req =>
      '(db, tx) ← prepare_tx on_spam_setup maps i acc.1 req;
      mret (db, acc.2 ++ [exec_from_tx tx])
  | Bundle b =>
      '(db, txs) ← prepare_bundle on_spam_setup maps i acc.1 (bc_txs b);
      mret (db, acc.2 ++ [exec_from_txs txs])
  end.

Inductive PlanType :=
| PlanCreate (f : StepCallback)
| PlanSetup (f : StepCallback)
| PlanSpam (num_txs : Z) (f : StepCallback).

Definition load_spam (db : D) (env : gmap string string) (num_txs : Z)
    (on_spam_setup : StepCallback) : outcome Error (D * list ExecutionRequest) :=
  spam_steps ← map_err ErrGenerator (get_spam_steps (gc_conf self));
  let num_steps := Z.of_nat (length spam_steps) in
  num_txs ← round_up num_txs num_steps;
  maps ← fold_steps (lookup_tx_placeholders db num_txs) (env, ∅) (spam_steps ≫= step_calls);
  fold_steps (fun acc step =>
      fold_steps (spam_tx on_spam_setup maps step) acc
        (seq 0 (Z.to_nat (num_txs / num_steps))))
    (db, []) spam_steps.

Definition load_start (db : D) (env : gmap string string) : LoadState := {|
  ls_db := db; ls_placeholders := env; ls_next_nonce := gc_nonce_map self;
  ls_pending := ∅; ls_txs := [] |}.

Definition load_txs (db : D) (plan_type : PlanType)
  : outcome Error (D * (list ExecutionRequest * gmap Address Z)) :=
  let env := match get_env (gc_conf self) with Ok m => m | _ => ∅ end in
  match plan_type with
  | PlanCreate on_create_step =>
      create_steps ← map_err ErrGenerator (get_create_steps (gc_conf self));
      st ← fold_steps (create_step on_create_step) (load_start db env) create_steps;
      mret (ls_db st, (ls_txs st, ls_next_nonce st))
  | PlanSetup on_setup_step =>
      setup_steps ← map_err ErrGenerator (get_setup_steps (gc_conf self));
      st ← fold_steps (setup_step on_setup_step) (load_start db env) setup_steps;
      await_pending (ls_pending st);;
      mret (ls_db st, (ls_txs st, ls_next_nonce st))
  | PlanSpam num_txs on_spam_setup =>
      '(db, txs) ← load_spam db env num_txs on_spam_setup;
      mret (db, (txs, gc_nonce_map self))
  end.
End generator.

(** ** Properties of fuzzing *)

(** A fuzz directive is accepted exactly when it sets one of [param],
    [value] and [max_priority_fee_per_gas], and the flags are [true]: the key is
    the parameter's name or the reserved key of the field; every other directive
    has its error, and [FuzzInvalid] never arises. *)
Theorem parse_map_key_spec (f : FuzzParam) :
  parse_map_key f =
  match fz_param f, fz_value f, fz_max_priority_fee_per_gas f with
  | Some p, None, None => Ok p
  | None, Some b, None => if b then Ok VALUE_KEY else Err FuzzValueNeedsParam
  | None, None, Some b => if b then Ok MAX_PRIORITY_FEE_KEY else Err FuzzValueNeedsParam
  | None, None, None => Err FuzzMissingParams
  | _, _, _ => Err FuzzConflictingParams
  end.
Proof. by destruct f as [[p|] [[]|] [[]|] lo hi]. Qed.

Section fuzz_props.
Context `{A : Alloy}.

(** The values of a fuzz directive: as many as asked for, in its range. *)
Definition fuzz_values_ok (n : nat) (f : FuzzParam) (vals : list Z) : Prop :=
  length vals = n /\
  Forall (fun v => default 0 (fz_min f) <= v < default U256_MAX (fz_max f)) vals.

Definition fuzz_bounds (f : FuzzParam) : Prop :=
  0 <= default 0 (fz_min f) /\ default U256_MAX (fz_max f) < 2 ^ 256.

Lemma fuzz_step_ok n base m f m' :
  fuzz_bounds f -> fuzz_step n base m f = Ok m' ->
  exists key vals, parse_map_key f = Ok key /\ m' = <[key := vals]> m /\ fuzz_values_ok n f vals.
Proof.
  intros [Hlo Hhi] H. unfold fuzz_step, RandSeed.seed_values in H. inv_outcome.
  apply Z.ltb_lt in H0. do 2 eexists. split_and!; [done|done|]. split.
  - by rewrite length_map, length_fmap, rangeZ_length.
  - apply List.Forall_map, Forall_fmap, Forall_true. intros i. cbv beta delta [compose].
    by apply RandSeed.seed_value_range.
Qed.

Lemma fuzz_loop_ok n base l m m' :
  Forall fuzz_bounds l -> fuzz_loop n base l m = Ok m' ->
  (forall k vals, m' !! k = Some vals ->
     m !! k = Some vals \/ exists f, f ∈ l /\ parse_map_key f = Ok k /\ fuzz_values_ok n f vals) /\
  (forall k, is_Some (m !! k) -> is_Some (m' !! k)) /\
  (forall f, f ∈ l -> exists k, parse_map_key f = Ok k /\ is_Some (m' !! k)).
Proof.
  intros Hb. revert m. induction Hb as [|f l Hf Hl IH]; intros m H; cbn in H; inv_outcome.
  - split_and!; [by left|done|]. intros f Hf. by apply not_elem_of_nil in Hf.
  - apply fuzz_step_ok in H as (key & vals & Hk & -> & Hv); [|done].
    destruct (IH _ H0) as (H1 & H2 & H3). split_and!.
    + intros k vs Hm. destruct (H1 _ _ Hm) as [Hi|(g & Hg & ?)].
      * destruct (decide (k = key)) as [->|Hne].
        -- rewrite lookup_insert_eq in Hi. injection Hi as <-. right. exists f. set_solver.
        -- rewrite lookup_insert_ne in Hi by done. by left.
      * right. exists g. set_solver.
    + intros k Hk'. apply H2. destruct (decide (k = key)) as [->|Hne].
      * rewrite lookup_insert_eq. by eexists.
      * by rewrite lookup_insert_ne.
    + intros g [->|Hg]%elem_of_cons; [|by apply H3]. exists key. split; [done|].
      apply H2. rewrite lookup_insert_eq. by eexists.
Qed.

(** A fuzz map has an entry for every directive's key and no other; each
    entry has exactly the requested number of values, all in the range of a
    directive with that key. *)
Theorem create_fuzz_map_spec {S : Type} `{SV : SeedValue S, SD : Seeder S} (base : S) (n : nat)
    (l : list FuzzParam) (m : FuzzMap)
    (Hb : Forall fuzz_bounds l) (Hok : create_fuzz_map base n l = Ok m) :
  (forall k vals, m !! k = Some vals ->
     exists f, f ∈ l /\ parse_map_key f = Ok k /\ fuzz_values_ok n f vals) /\
  (forall f, f ∈ l -> exists k, parse_map_key f = Ok k /\ is_Some (m !! k)).
Proof.
  unfold create_fuzz_map in Hok. inv_outcome.
  match goal with H : fuzz_loop _ _ _ _ = Ok _ |- _ =>
    destruct (fuzz_loop_ok _ _ _ _ _ Hb H) as (H1' & _ & H3') end.
  split; [|done]. intros k vals Hk. destruct (H1' _ _ Hk) as [Hn|]; [|done].
  by rewrite lookup_empty in Hn.
Qed.

(** Fuzzing keeps the number of arguments, and leaves those of unnamed or
    unfuzzed parameters as they are. *)
Lemma get_fuzzed_args_spec tx fm i args :
  get_fuzzed_args tx fm i = Ok args -> fc_signature tx <> None ->
  length args = length (default [] (fc_args tx)).
Proof.
  unfold get_fuzzed_args. destruct (fc_signature tx) as [sig|]; [|done]. intros H _.
  apply bind_ok in H as (func & _ & H). cbv zeta in H. case_bool; [done|].
  apply mapM_length in H. rewrite H, length_zip_with. apply Nat.ltb_ge in Hb. lia.
Qed.

(** A fuzzed address is not cut to 20 bytes: a value of more than 160 bits
    prints with more than 40 digits. *)
Lemma fuzz_arg_address_long (fm : FuzzMap) (i : nat) (values : list Z) (v : Z) :
  fm !! "who"%string = Some values -> values !! i = Some v -> 2 ^ 160 <= v ->
  exists s, fuzz_arg fm i {| selector_type := "address"; display := "address who" |} = Ok (Some s)
         /\ (42 < String.length s)%nat.
Proof.
  intros Hm Hv Hlong. unfold fuzz_arg. change (split_ws _) with ["address"; "who"]%string.
  cbv iota beta. rewrite Hm, Hv. cbn [unwrap mbind outcome_bind]. eexists. split; [reflexivity|].
  change (String.eqb "address" "address") with true. cbv iota.
  pose proof (hex_padded_long 40 v Hlong). rewrite str_length_app. cbn. lia.
Qed.
End fuzz_props.

(** ** Properties of [load_txs] *)

Section load_props.
Context `{A : Alloy} {P : Profile}.
Context {C : Type} `{PC : PlanConfig C, TS : TemplateSyntax C}.
Context {D : Type} `{DO : DbOps D}.
Context {Sd : Type} `{SV : SeedValue Sd, SD : Seeder Sd}.
Variable self : GenCtx (C := C) (Sd := Sd).

(** The nonces given to the transactions of one sender, in order. *)
Definition sent_by (a : Address) (l : list ExecutionRequest) : list Z :=
  omap (fun e => match e with
    | ExecTx t => if bool_decide (tx_from (nr_tx t) = Some a) then tx_nonce (nr_tx t) else None
    | ExecBundle _ => None end) l.

(** The first nonce of a sender: the tracked one, else the provider's. *)
Definition start_nonce (a : Address) : outcome Error Z :=
  match gc_nonce_map self !! a with
  | Some n => Ok n
  | None => gc_transaction_count self a
  end.

(** Consecutive nonces from [start], of 64 bits. *)
Definition nonces_from (start : Z) (n : nat) : list Z :=
  (fun i => wrap 64 (start + i)) <$> rangeZ n.

Definition nonces_ok (a : Address) (nn : gmap Address Z) (l : list ExecutionRequest) : Prop :=
  (sent_by a l = [] /\ nn !! a = gc_nonce_map self !! a) \/
  exists start, start_nonce a = Ok start /\
    sent_by a l = nonces_from start (length (sent_by a l)) /\
    nn !! a = Some (wrap 64 (start + Z.of_nat (length (sent_by a l)))).

Definition starts_in_range : Prop := forall a n, start_nonce a = Ok n -> 0 <= n < 2 ^ 64.

Lemma nonces_from_snoc start n :
  nonces_from start (S n) = nonces_from start n ++ [wrap 64 (start + Z.of_nat n)].
Proof.
  unfold nonces_from, rangeZ. rewrite <- Nat.add_1_r, seq_app, !fmap_app. done.
Qed.

Lemma sent_by_app a l k : sent_by a (l ++ k) = sent_by a l ++ sent_by a k.
Proof. apply omap_app. Qed.

Lemma assign_nonce_ok nn tx nn' tx' :
  assign_nonce self nn tx = Ok (nn', tx') ->
  exists from n, tx_from (nr_tx tx) = Some from /\
    (nn !! from = Some n \/ nn !! from = None /\ gc_transaction_count self from = Ok n) /\
    nn' = <[from := wrap 64 (n + 1)]> nn /\ tx' = with_nonce n tx.
Proof.
  unfold assign_nonce. intros H. inv_outcome.
  match goal with H : arith 64 _ = Ok _ |- _ => apply arith_wrap in H; [|lia] end. subst.
  eexists _, _. split_and!; [done| |done|done].
  repeat case_match; simplify_eq; inv_outcome; auto.
Qed.

Lemma sent_with_nonce a n tx from :
  tx_from (nr_tx tx) = Some from ->
  sent_by a [exec_from_tx (with_nonce n tx)] = if decide (from = a) then [n] else [].
Proof.
  intros Hf. unfold sent_by. cbn. rewrite Hf. case_decide; subst.
  - by rewrite bool_decide_eq_true_2.
  - rewrite bool_decide_eq_false_2 by congruence. done.
Qed.

Lemma wrap_succ x : wrap 64 (wrap 64 x + 1) = wrap 64 (x + 1).
Proof. unfold wrap. by rewrite Zplus_mod_idemp_l. Qed.

(** Assigning a nonce to the next transaction keeps the nonces consecutive. *)
Lemma assign_nonce_inv nn tx nn' tx' l :
  starts_in_range -> assign_nonce self nn tx = Ok (nn', tx') ->
  (forall a, nonces_ok a nn l) -> forall a, nonces_ok a nn' (l ++ [exec_from_tx tx']).
Proof.
  intros Hr H Hi a. apply assign_nonce_ok in H as (from & n & Hf & Hn & -> & ->).
  unfold nonces_ok. rewrite sent_by_app, (sent_with_nonce a n tx from Hf).
  destruct (decide (from = a)) as [->|Hne].
  - right. rewrite lookup_insert_eq. destruct (Hi a) as [[Hs Hm]|(start & Hst & Hs & Hm)].
    + exists n. rewrite Hs. cbn [app length].
      assert (Hst : start_nonce a = Ok n).
      { unfold start_nonce. rewrite <- Hm. destruct Hn as [->|[-> Hc]]; done. }
      split_and!; [done| |done].
      unfold nonces_from, rangeZ. cbn. by rewrite Z.add_0_r, wrap_small by by apply Hr in Hst.
    + exists start. rewrite Hm in Hn. destruct Hn as [[= <-]|[[=] _]].
      split_and!; [done| |].
      * rewrite Hs at 1. rewrite length_app. cbn [length]. rewrite Nat.add_1_r.
        by rewrite nonces_from_snoc.
      * rewrite wrap_succ, length_app. cbn [length]. do 2 f_equal. lia.
  - rewrite app_nil_r, lookup_insert_ne by congruence. apply Hi.
Qed.

Definition load_inv (st : LoadState (D := D)) : Prop :=
  forall a, nonces_ok a (ls_next_nonce st) (ls_txs st).

Lemma create_step_inv f st step st' :
  starts_in_range -> create_step self f st step = Ok st' -> load_inv st -> load_inv st'.
Proof.
  intros Hr H Hi. unfold create_step in H. inv_outcome.
  repeat match goal with x : (_ * _)%type |- _ => destruct x end. inv_outcome.
  repeat match goal with x : (_ * _)%type |- _ => destruct x end. inv_outcome.
  intros a. cbn. by eapply assign_nonce_inv.
Qed.

Lemma setup_tx_inv f step st i st' :
  starts_in_range -> setup_tx self f step st i = Ok st' -> load_inv st -> load_inv st'.
Proof.
  intros Hr H Hi. unfold setup_tx in H. inv_outcome.
  repeat match goal with x : (_ * _)%type |- _ => destruct x end. inv_outcome.
  repeat match goal with x : (_ * _)%type |- _ => destruct x end. inv_outcome.
  intros a. cbn. by eapply assign_nonce_inv.
Qed.

Lemma setup_step_inv f st step st' :
  starts_in_range -> setup_step self f st step = Ok st' -> load_inv st -> load_inv st'.
Proof.
  intros Hr H Hi. unfold setup_step in H. inv_outcome.
  refine (fold_steps_inv load_inv _ _ _ _ _ _ H1); [|exact Hi].
  intros y i z Hy Hz. by eapply setup_tx_inv.
Qed.

Lemma load_start_inv (db : D) env : load_inv (load_start self db env).
Proof. intros a. by left. Qed.

(** C9: whatever mix of senders the deployment or setup steps use, the
    transactions of each sender carry consecutive nonces from its tracked nonce
    (or, for a new sender, the provider's), in the order they were loaded, and
    the returned nonce map holds the next one for each sender that was used and
    the tracked one for every other. *)
Theorem load_txs_nonces (db db' : D) (plan : PlanType) (txs : list ExecutionRequest)
    (nn : gmap Address Z) (Hr : starts_in_range)
    (Hok : load_txs self db plan = Ok (db', (txs, nn))) :
  match plan with
  | PlanSpam _ _ => nn = gc_nonce_map self
  | _ => forall a, nonces_ok a nn txs
  end.
Proof.
  destruct plan as [f|f|n f]; cbn [load_txs] in Hok; inv_outcome.
  - eapply (fold_steps_inv load_inv); [|apply load_start_inv|done].
    intros y s z Hy Hz. by eapply create_step_inv.
  - eapply (fold_steps_inv load_inv); [|apply load_start_inv|done].
    intros y s z Hy Hz. by eapply setup_step_inv.
  - by destruct_and?; repeat match goal with x : (_ * _)%type |- _ => destruct x end; inv_outcome.
Qed.

(** ** Spam *)

(** What kind of request a step yields, and a request is: the size of a bundle,
    or a single transaction. *)
Definition step_shape (s : SpamRequest) : option nat :=
  match s with Tx _ => None | Bundle b => Some (length (bc_txs b)) end.
Definition exec_shape (e : ExecutionRequest) : option nat :=
  match e with ExecTx _ => None | ExecBundle l => Some (length l) end.

Lemma prepare_bundle_length f maps i (db : D) reqs db' txs :
  prepare_bundle self f maps i db reqs = Ok (db', txs) -> length txs = length reqs.
Proof.
  revert db txs. induction reqs as [|r reqs IH]; intros db txs H; cbn in H; inv_outcome; [done|].
  repeat match goal with x : (_ * _)%type |- _ => destruct x end. inv_outcome.
  repeat match goal with x : (_ * _)%type |- _ => destruct x end. inv_outcome.
  cbn. f_equal. by eapply IH.
Qed.

Lemma spam_tx_shape f maps step (acc acc' : D * list ExecutionRequest) i :
  spam_tx self f maps step acc i = Ok acc' ->
  exec_shape <$> acc'.2 = (exec_shape <$> acc.2) ++ [step_shape step].
Proof.
  destruct step as [r|b]; cbn; intros H; inv_outcome;
    repeat match goal with x : (_ * _)%type |- _ => destruct x end; inv_outcome;
    cbn [snd]; rewrite fmap_app; cbn; [done|].
  do 3 f_equal. by eapply prepare_bundle_length.
Qed.

Lemma spam_step_shape f maps step l (acc acc' : D * list ExecutionRequest) :
  fold_steps (spam_tx self f maps step) acc l = Ok acc' ->
  exec_shape <$> acc'.2 = (exec_shape <$> acc.2) ++ replicate (length l) (step_shape step).
Proof.
  revert acc. induction l as [|i l IH]; intros acc H; cbn in H; inv_outcome.
  - by rewrite app_nil_r.
  - rewrite (IH _ H0), (spam_tx_shape _ _ _ _ _ _ H), <- app_assoc. done.
Qed.

Lemma round_up_spec n k m :
  0 < k -> 0 <= n -> n + k <= 2 ^ 64 -> round_up n k = Ok m ->
  exists q, m = k * q /\ n <= m < n + k /\ 0 <= q /\ m / k = q.
Proof.
  intros Hk Hn Hb. unfold round_up, rem_. rewrite (proj2 (Z.eqb_neq k 0)) by lia.
  cbn [mbind outcome_bind]. pose proof (Z.mod_pos_bound n k Hk). pose proof (Z.div_mod n k).
  destruct (Z.eqb_spec (n mod k) 0) as [Hz|Hz].
  - intros H1. inv_outcome. exists (m / k). split_and!; [lia|lia|lia| |done].
    apply Z.div_pos; lia.
  - rewrite arith_in by lia. intros H1. inv_outcome. exists (n / k + 1).
    assert (n + (k - n mod k) = k * (n / k + 1)) as -> by lia.
    split_and!; [lia|lia|lia| |].
    + pose proof (Z.div_pos n k). lia.
    + rewrite Z.mul_comm. apply Z.div_mul. lia.
Qed.

Lemma load_spam_shapes (db db' : D) (env : gmap string string) (num_txs : Z)
    (f : D -> NamedTxRequest -> outcome Error (D * option (outcome Error unit)))
    (txs : list ExecutionRequest) (steps : list SpamRequest) :
  get_spam_steps (gc_conf self) = Ok steps ->
  0 <= num_txs /\ num_txs + Z.of_nat (length steps) <= 2 ^ 64 ->
  load_spam self db env num_txs f = Ok (db', txs) ->
  exists reps : nat,
    exec_shape <$> txs = (steps ≫= fun s => replicate reps (step_shape s)) /\
    length txs = (length steps * reps)%nat /\
    num_txs <= Z.of_nat (length txs) < num_txs + Z.of_nat (length steps).
Proof.
  intros Hs Hn. unfold load_spam. rewrite Hs. cbn [map_err mbind outcome_bind].
  destruct (decide (steps = [])) as [->|Hne]; [done|].
  assert (0 < Z.of_nat (length steps)) as Hk by (destruct steps; cbn; [done|lia]).
  intros H. apply bind_ok in H as (m & Hm & H). apply bind_ok in H as (maps & _ & H).
  apply round_up_spec in Hm as (q & -> & Hq & Hq0 & Hd); [|lia..]. rewrite Hd in H.
  clear Hd. set (reps := Z.to_nat q) in *. exists reps.
  enough (forall acc acc' : D * list ExecutionRequest,
    fold_steps (fun acc step => fold_steps (spam_tx self f maps step) acc (seq 0 reps)) acc steps
      = Ok acc' ->
    exec_shape <$> acc'.2 = (exec_shape <$> acc.2) ++
      (steps ≫= fun s => replicate reps (step_shape s))) as He.
  { specialize (He _ _ H). cbn in He.
    assert (Hl : length txs = (length steps * reps)%nat).
    { rewrite <- (length_fmap exec_shape), He. clear.
      induction steps as [|s l IH]; cbn; [done|]. rewrite length_app, length_replicate.
      f_equal. exact IH. }
    split_and!; [done|done| |]; rewrite Hl, Nat2Z.inj_mul; unfold reps; rewrite Z2Nat.id; lia. }
  clear. induction steps as [|s l IH]; intros acc acc' H; cbn in H; inv_outcome.
  - by rewrite app_nil_r.
  - rewrite (IH _ _ H0), (spam_step_shape _ _ _ _ _ _ H), length_seq, <- app_assoc. done.
Qed.

(** A spam plan yields every step the same number of times, one step's
    requests after the other's, each a transaction or a bundle of the step's
    size; the total is the least multiple of the number of steps that is not
    below the requested count; and a plan without spam steps panics. *)
Theorem load_spam_rounds (db db' : D) (env : gmap string string) (num_txs : Z)
    (f : D -> NamedTxRequest -> outcome Error (D * option (outcome Error unit)))
    (txs : list ExecutionRequest) (steps : list SpamRequest)
    (Hs : get_spam_steps (gc_conf self) = Ok steps)
    (Hn : 0 <= num_txs /\ num_txs + Z.of_nat (length steps) <= 2 ^ 64) :
  (steps = [] -> load_spam self db env num_txs f = Panic) /\
  (load_spam self db env num_txs f = Ok (db', txs) ->
   exists reps : nat,
     exec_shape <$> txs = (steps ≫= fun s => replicate reps (step_shape s)) /\
     length txs = (length steps * reps)%nat /\
     num_txs <= Z.of_nat (length txs) < num_txs + Z.of_nat (length steps)).
Proof.
  split; [|by apply load_spam_shapes].
  intros ->. unfold load_spam. by rewrite Hs.
Qed.
End load_props.

(** ** Witnesses *)

Module GeneratorWitness.
#[local] Existing Instance toy_alloy.
#[local] Instance toy_profile : Profile := true.

Definition pool (n : nat) : SignerStore :=
  {| signers := (fun i => to_be 20 (Z.of_nat i + 100)) <$> seq 0 n; agent_class := Spammer |}.

Definition call : FunctionCallDefinition := FunctionCallDefinition_new "0xabcd".

Definition conf : TestConfig := {|
  tc_env := None;
  tc_create := Some [CreateDefinition_new (CompiledContract_new "00" "c")];
  tc_setup := Some [call; with_for_all_accounts true (with_from_pool "spammers" call); call];
  tc_spam := Some [Tx call; Bundle {| bc_txs := [call; call] |}; Tx call] |}.

Definition ctx : GenCtx (C := TestConfig) (Sd := rand_seed) := {|
  gc_conf := conf; gc_fuzz_seeder := pack_u256 5;
  gc_agent_store := {| agents := {[ "admin" := pool 1; "spammers" := pool 2 ]} |};
  gc_rpc_url := "http"; gc_chain_id := 1; gc_transaction_count := fun _ => Ok 7;
  gc_nonce_map := ∅; gc_setcode_signer := to_be 20 9; gc_genesis_hash := 0;
  gc_scenario_label := None; gc_groth16_proof := fun _ => "[]" |}.

(** A callback that starts no task. *)
Definition no_task (db : MockDb) (t : NamedTxRequest)
  : outcome Error (MockDb * option (outcome Error unit)) := Ok (db, None).

(** A callback whose task fails for the first transaction (nonce 7) of the
    sender 100, which sends three. *)
Definition fail_first (db : MockDb) (t : NamedTxRequest)
  : outcome Error (MockDb * option (outcome Error unit)) :=
  Ok (db, Some (if bool_decide (tx_nonce (nr_tx t) = Some 7 /\ tx_from (nr_tx t) = Some 100)
                then Err (Runtime (SetupTxReverted "s" "0x")) else Ok tt)).

Lemma starts : starts_in_range ctx.
Proof.
  intros a n H. unfold start_nonce in H. cbn [ctx gc_nonce_map gc_transaction_count] in H.
  rewrite lookup_empty in H. injection H as <-. lia.
Qed.

Definition fuzz7 : FuzzParam := {| fz_param := Some "n"%string; fz_value := None;
  fz_max_priority_fee_per_gas := None; fz_min := Some 5; fz_max := Some 9 |}.

Lemma create_fuzz_map_spec_witness :
  exists m vals, create_fuzz_map (pack_u256 5) 3 [fuzz7] = Ok m /\ m !! "n"%string = Some vals /\
    length vals = 3%nat /\ Forall (fun v => 5 <= v < 9) vals.
Proof.
  run_ok (create_fuzz_map (pack_u256 5) 3 [fuzz7]) m H.
  assert (Forall fuzz_bounds [fuzz7]) as Hb
    by (repeat constructor; vm_compute; congruence).
  destruct (create_fuzz_map_spec (pack_u256 5) 3 [fuzz7] m Hb H) as [H1 H2].
  destruct (H2 fuzz7 ltac:(left)) as (k & Hk & vals & Hv). injection Hk as <-.
  destruct (H1 _ _ Hv) as (f & Hf & _ & Hl & Hr).
  apply elem_of_cons in Hf as [->|Hf]; [|by apply not_elem_of_nil in Hf].
  exists m, vals. exact (conj H (conj Hv (conj Hl Hr))).
Defined.

Lemma load_txs_nonces_witness :
  exists db txs nn, load_txs ctx mock_db (PlanSetup no_task) = Ok (db, (txs, nn)) /\
    length txs = 4%nat /\ forall a, nonces_ok ctx a nn txs.
Proof.
  assert (match load_txs ctx mock_db (PlanSetup no_task) with
          | Ok (_, (txs, _)) => (length txs =? 4)%nat | _ => false end = true) as Hl
    by (vm_compute; reflexivity).
  destruct (load_txs ctx mock_db (PlanSetup no_task)) as [[db [txs nn]]| |] eqn:H;
    [|discriminate..].
  exists db, txs, nn. split; [reflexivity|]. split; [by apply Nat.eqb_eq|].
  exact (load_txs_nonces ctx mock_db db (PlanSetup no_task) txs nn starts H).
Defined.

(** The failure of a sender's earlier setup transaction is lost: only the task
    of its last one is awaited for its outcome. *)
Lemma setup_failure_dropped :
  is_ok (load_txs ctx mock_db (PlanSetup fail_first)) = true.
Proof. vm_compute. reflexivity. Qed.

Lemma load_spam_rounds_witness :
  exists db txs, load_spam ctx mock_db ∅ 4 no_task = Ok (db, txs) /\ length txs = 6%nat.
Proof.
  run_ok (load_spam ctx mock_db ∅ 4 no_task) r H. destruct r as [db txs].
  exists db, txs. split; [exact H|].
  destruct (get_spam_steps (gc_conf ctx)) as [steps| |] eqn:Hs; [|discriminate..].
  assert (length steps = 3%nat) as H3 by (injection Hs as <-; reflexivity).
  assert (0 <= 4 /\ 4 + Z.of_nat (length steps) <= 2 ^ 64) as Hn by (rewrite H3; lia).
  destruct (load_spam_rounds ctx mock_db db ∅ 4 no_task txs steps Hs Hn) as [_ Hr].
  destruct (Hr H) as (reps & _ & Hl & Hb). rewrite H3 in Hl, Hb. lia.
Defined.
End GeneratorWitness.

(** Whatever tasks a sender's chain already holds, awaiting it gives the outcome
    of the last one. *)
Lemma await_pending_last (pending : gmap Address (outcome Error unit)) from prev handle :
  await_pending (<[from := chain_task prev handle]> pending) =
  await_pending (<[from := handle]> pending).
Proof. by destruct prev. Qed.
