(* ===== verification/Campaign.v ===== *)
(** * Campaigns ([testfile/src/campaign.rs])

    A campaign is a sequence of stages, each a mix of scenarios with shares of
    the stage's rate.  [resolve] turns the file into integer rates per scenario.
    Shares are doubles ([F64]); the command that runs a campaign is in
    [CampaignRun]. *)

From Stdlib Require Import Strings.Byte Strings.Ascii Strings.String.
From S2P Require Import Prelude Text F64 Alloy CoreError.

Inductive CampaignMode := Tps | Tpb.

Record CampaignMixEntry := { me_scenario : string; me_share_pct : f64 }.

Record CampaignStage := {
  st_name : string;
  st_duration : option Z;
  st_rate : option Z;
  st_mix : list CampaignMixEntry;
}.

Record CampaignSpam := {
  sp_mode : CampaignMode;
  sp_rate : option Z;
  sp_duration : option Z;
  sp_seed : option Z;
  sp_stage_timeout : option Z;
  sp_stage : list CampaignStage;
  sp_mix : option (list CampaignMixEntry);
}.

Record CampaignConfig := {
  cf_name : string;
  cf_description : option string;
  cf_spam : CampaignSpam;
}.

Inductive CampaignError :=
| NameEmpty
| SpamRateMissing
| SpamDurationMissing (index : nat) (name : string)
| MixSharesSumInvalid (name : string)
| StageMixEmpty (index : nat) (name : string)
| SpamMixEmpty
| SpamStageOrMixUndefined
| ShorthandRequiresSpamDuration
| ConflictingMixAndStage
| RateDistributionExceedsLimit (name : string) (assigned_rate total_rate : Z).

Record ResolvedMixEntry := { rm_scenario : string; rm_share_pct : f64; rm_rate : Z }.

Record ResolvedStage := {
  rs_name : string;
  rs_rate : Z;
  rs_duration : Z;
  rs_stage_timeout : option Z;
  rs_mix : list ResolvedMixEntry;
}.

(** ** Reading the file *)

(** [Vec::dedup]. *)
Fixpoint dedup_adjacent (l : list string) : list string :=
  match l with
  | x :: l' =>
      match l' with
      | y :: _ => if String.eqb x y then dedup_adjacent l' else x :: dedup_adjacent l'
      | [] => [x]
      end
  | [] => []
  end.

Definition setup_scenarios (c : CampaignConfig) : list string :=
  let mixes := map me_scenario (default [] (sp_mix (cf_spam c))) in
  let stages := sp_stage (cf_spam c) ≫= fun stage => map me_scenario (st_mix stage) in
  dedup_adjacent (mixes ++ stages).

Definition normalized_stages (s : CampaignSpam) : outcome CampaignError (list CampaignStage) :=
  match sp_stage s with
  | _ :: _ =>
      match sp_mix s with
      | Some _ => Err ConflictingMixAndStage
      | None => mret (sp_stage s)
      end
  | [] =>
      match sp_mix s with
      | Some mix =>
          match mix with
          | [] => Err SpamMixEmpty
          | _ =>
              duration ← ok_or ShorthandRequiresSpamDuration (sp_duration s);
              mret [{| st_name := "steady"; st_duration := Some duration;
                       st_rate := sp_rate s; st_mix := mix |}]
          end
      | None => Err SpamStageOrMixUndefined
      end
  end.

(** The checks of one stage, by its index. *)
Definition validate_stage (spam : CampaignSpam) (idx : nat) (stage : CampaignStage)
  : outcome CampaignError unit :=
  match st_mix stage with
  | [] => Err (StageMixEmpty idx (st_name stage))
  | _ =>
      match st_duration stage, sp_duration spam with
      | None, None => Err (SpamDurationMissing idx (st_name stage))
      | _, _ => mret tt
      end
  end.

Fixpoint validate_stages (spam : CampaignSpam) (idx : nat) (l : list CampaignStage)
  : outcome CampaignError unit :=
  match l with
  | [] => mret tt
  | stage :: l => validate_stage spam idx stage;; validate_stages spam (idx + 1) l
  end.

Definition validate (c : CampaignConfig) : outcome CampaignError unit :=
  if String.eqb (trim (cf_name c)) "" then Err NameEmpty
  else
    stages ← normalized_stages (cf_spam c);
    validate_stages (cf_spam c) 0 stages.

(** ** Integer rates *)

Definition EPSILON : f64 := binary_normalize 53 1024 1 (-52) false.

(** [iter().sum()] on doubles starts from negative zero. *)
Definition mix_sum (mix : list CampaignMixEntry) : f64 :=
  fold_left (fun acc m => f64_add acc (me_share_pct m)) mix (S754_zero true).

(** First pass: the rounded share of one entry. *)
Definition rounded_rate (rate : Z) (sum : f64) (m : CampaignMixEntry) : Z :=
  let normalized_share := f64_div (me_share_pct m) sum in
  f64_to_uint 64 (f64_round (f64_mul (f64_of_Z rate) normalized_share)).

(** The position and value of the last of the greatest elements
    ([enumerate().max_by_key(..)]). *)
Fixpoint max_by (l : list Z) (i : nat) (best : option (nat * Z)) : option (nat * Z) :=
  match l with
  | [] => best
  | x :: l =>
      let best := match best with
        | Some (j, b) => if b <=? x then Some (i, x) else Some (j, b)
        | None => Some (i, x) end in
      max_by l (i + 1) best
  end.

(** Second pass, for one entry left without rate: one is taken from the largest
    of the entries before the last, when that one can spare it. *)
Definition give_one (rates : list Z) (zero_idx : nat) : list Z :=
  match max_by (take (length rates - 1) rates) 0 None with
  | Some (max_idx, _) =>
      let m := default 0 (rates !! max_idx) in
      if 1 <? m then <[zero_idx := 1]> (<[max_idx := m - 1]> rates) else rates
  | None => rates
  end.

Definition positive_share (m : CampaignMixEntry) : bool := f64_lt (f64_of_Z 0) (me_share_pct m).

(** The entries with a share and no rate. *)
Definition needs_one (mix : list CampaignMixEntry) (rates : list Z) (i : nat) : bool :=
  match mix !! i, rates !! i with
  | Some m, Some r => positive_share m && (r =? 0)
  | _, _ => false
  end.
Definition zero_indices (mix : list CampaignMixEntry) (rates : list Z) : list nat :=
  filter (fun i => needs_one mix rates i = true) (seq 0 (length mix)).

Definition second_pass (rate : Z) (mix : list CampaignMixEntry) (rates : list Z) : list Z :=
  let non_zero_mixes := Z.of_nat (length (filter (fun m => positive_share m = true) mix)) in
  if (0 <? non_zero_mixes) && (non_zero_mixes <=? rate)
  then fold_left give_one (zero_indices mix rates) rates
  else rates.

(** Third pass: the last entry gets what is left of the rate.  (The drift
    warning it may print is left out.) *)
Fixpoint third_pass (name : string) (rate assigned : Z) (l : list (CampaignMixEntry * Z))
  : outcome CampaignError (list ResolvedMixEntry) :=
  match l with
  | [] => mret []
  | [(mix, _)] =>
      if rate <? assigned then Err (RateDistributionExceedsLimit name assigned rate)
      else mret [{| rm_scenario := me_scenario mix; rm_share_pct := me_share_pct mix;
                    rm_rate := saturating_sub rate assigned |}]
  | (mix, scenario_rate) :: l =>
      rest ← third_pass name rate (saturating_add 64 assigned scenario_rate) l;
      mret ({| rm_scenario := me_scenario mix; rm_share_pct := me_share_pct mix;
               rm_rate := scenario_rate |} :: rest)
  end.

Definition resolve_stage (spam : CampaignSpam) (idx : nat) (stage : CampaignStage)
  : outcome CampaignError ResolvedStage :=
  (* the default is evaluated, and required, even when the stage has its own *)
  spam_duration ← ok_or (SpamDurationMissing idx (st_name stage)) (sp_duration spam);
  let duration := default spam_duration (st_duration stage) in
  let sum := mix_sum (st_mix stage) in
  if f64_le sum EPSILON then Err (MixSharesSumInvalid (st_name stage))
  else
    spam_rate ← ok_or SpamRateMissing (sp_rate spam);
    let rate := default spam_rate (st_rate stage) in
    let rates := map (rounded_rate rate sum) (st_mix stage) in
    let rates := second_pass rate (st_mix stage) rates in
    resolved_mix ← third_pass (st_name stage) rate 0 (zip (st_mix stage) rates);
    mret {| rs_name := st_name stage; rs_rate := rate; rs_duration := duration;
            rs_stage_timeout := sp_stage_timeout spam; rs_mix := resolved_mix |}.

Fixpoint resolve_stages (spam : CampaignSpam) (idx : nat) (l : list CampaignStage)
  : outcome CampaignError (list ResolvedStage) :=
  match l with
  | [] => mret []
  | stage :: l =>
      s ← resolve_stage spam idx stage;
      rest ← resolve_stages spam (idx + 1) l;
      mret (s :: rest)
  end.

Definition resolve (c : CampaignConfig) : outcome CampaignError (list ResolvedStage) :=
  stages ← normalized_stages (cf_spam c);
  resolve_stages (cf_spam c) 0 stages.

(** ** Properties of [resolve] *)

Lemma third_pass_over name rate a l r :
  rate < a -> rate < U64_MAX -> Forall (fun '(_, x) => 0 <= x) l -> l <> [] ->
  third_pass name rate a l <> Ok r.
Proof.
  intros Ha Hr Hl. revert a r Ha. induction Hl as [|[m x] l Hx Hl IH]; intros a r Ha Hne; [done|].
  destruct l as [|[m' x'] l]; cbn [third_pass].
  - by rewrite (proj2 (Z.ltb_lt _ _) Ha).
  - intros H. apply bind_ok in H as (rest & Hrest & _).
    eapply IH; [|done|exact Hrest]. unfold saturating_add. unfold U64_MAX in Hr. lia.
Qed.

Lemma third_pass_sum name rate assigned l r :
  0 <= assigned -> rate < U64_MAX -> Forall (fun '(_, x) => 0 <= x) l -> l <> [] ->
  third_pass name rate assigned l = Ok r ->
  assigned + sumZ (rm_rate <$> r) = rate /\ Forall (fun m => 0 <= rm_rate m) r /\
  rm_scenario <$> r = me_scenario <$> l.*1 /\
  rm_share_pct <$> r = me_share_pct <$> l.*1.
Proof.
  intros Ha Hr Hl. revert assigned r Ha.
  induction Hl as [|[m x] l Hx Hl IH]; intros assigned r Ha Hne H; [done|].
  destruct l as [|[m' x'] l]; cbn [third_pass] in H.
  - destruct (Z.ltb_spec rate assigned); inv_outcome. cbn.
    rewrite saturating_sub_spec. destruct (Z.leb_spec assigned rate); [|lia].
    split_and!; [lia|repeat constructor; cbn; lia|done|done].
  - apply bind_ok in H as (rest & Hrest & H). inv_outcome.
    assert (Hsat : assigned + x < MAX 64).
    { destruct (Z.ltb_spec (assigned + x) (MAX 64)); [done|exfalso].
      eapply third_pass_over; [| |exact Hl|done|exact Hrest]; [|done].
      unfold saturating_add, U64_MAX in *. lia. }
    rewrite saturating_add_exact in Hrest by done.
    destruct (IH (assigned + x) rest ltac:(lia) ltac:(done) Hrest) as (Hs & Hf & Hn & Hp).
    split_and!.
    + cbn. lia.
    + by constructor.
    + cbn. f_equal. exact Hn.
    + cbn. f_equal. exact Hp.
Qed.

Lemma give_one_nonneg rates i : Forall (Z.le 0) rates -> Forall (Z.le 0) (give_one rates i).
Proof.
  intros H. unfold give_one. destruct (max_by _ _ _) as [[j b]|]; [|done].
  destruct (Z.ltb_spec 1 (default 0 (rates !! j))); [|done].
  apply Forall_insert; [|lia]. apply Forall_insert; [done|lia].
Qed.

Lemma give_one_length rates i : length (give_one rates i) = length rates.
Proof.
  unfold give_one. destruct (max_by _ _ _) as [[j b]|]; [|done].
  case_bool; [|done]. by rewrite !length_insert.
Qed.

Lemma second_pass_ok rate mix rates :
  Forall (Z.le 0) rates ->
  Forall (Z.le 0) (second_pass rate mix rates) /\
  length (second_pass rate mix rates) = length rates.
Proof.
  intros H. unfold second_pass. case_bool; [|done]. clear Hb.
  generalize (zero_indices mix rates) as zs. intros zs. revert rates H.
  induction zs as [|z zs IH]; intros rates H; [done|]. cbn.
  destruct (IH (give_one rates z) (give_one_nonneg _ _ H)) as [H1 H2].
  split; [done|]. by rewrite H2, give_one_length.
Qed.

Lemma rounded_rate_nonneg rate sum m : 0 <= rounded_rate rate sum m.
Proof. apply f64_to_uint_range. lia. Qed.

(** What a resolved stage is to its source: same name and scenarios in the same
    order with their shares, the stage's own rate and duration where it has
    them, and rates that are not negative and add up to the stage's rate. *)
Definition stage_resolved (spam : CampaignSpam) (src : CampaignStage) (s : ResolvedStage) : Prop :=
  rs_name s = st_name src /\
  Some (rs_rate s) = (match st_rate src with Some r => Some r | None => sp_rate spam end) /\
  Some (rs_duration s) =
    (match st_duration src with Some d => Some d | None => sp_duration spam end) /\
  rs_stage_timeout s = sp_stage_timeout spam /\
  rm_scenario <$> rs_mix s = me_scenario <$> st_mix src /\
  rm_share_pct <$> rs_mix s = me_share_pct <$> st_mix src /\
  (rs_rate s < U64_MAX ->
     sumZ (rm_rate <$> rs_mix s) = rs_rate s /\ Forall (fun m => 0 <= rm_rate m) (rs_mix s)).

Lemma third_pass_labels name rate assigned l r :
  third_pass name rate assigned l = Ok r ->
  rm_scenario <$> r = me_scenario <$> l.*1 /\
  rm_share_pct <$> r = me_share_pct <$> l.*1.
Proof.
  revert assigned r. induction l as [|[m x] [|[m' x'] l] IH]; intros assigned r H;
    cbn [third_pass] in H.
  - by inv_outcome.
  - case_bool; by inv_outcome.
  - apply bind_ok in H as (rest & Hrest & H). inv_outcome.
    destruct (IH _ _ Hrest) as [H1 H2]. cbn. split; f_equal; [exact H1|exact H2].
Qed.

Lemma mix_sum_nil : f64_le (mix_sum []) EPSILON = true.
Proof. reflexivity. Qed.

Lemma resolve_stage_ok spam idx src s :
  resolve_stage spam idx src = Ok s -> stage_resolved spam src s.
Proof.
  unfold resolve_stage. intros H. apply bind_ok in H as (sd & Hd & H).
  destruct (f64_le (mix_sum (st_mix src)) EPSILON) eqn:He; [done|].
  apply bind_ok in H as (sr & Hr & H). apply bind_ok in H as (r & Ht & H).
  apply ok_or_ok in Hd, Hr. inv_outcome.
  assert (Hne : st_mix src <> []) by (intros Hn; rewrite Hn, mix_sum_nil in He; done).
  assert (H0 : Forall (Z.le 0) (map (rounded_rate (default sr (st_rate src)) (mix_sum (st_mix src))) (st_mix src))).
  { apply List.Forall_map, Forall_true. intros m. apply rounded_rate_nonneg. }
  destruct (second_pass_ok (default sr (st_rate src)) (st_mix src) _ H0) as [Hp Hl].
  rewrite length_map in Hl. set (rates := second_pass _ _ _) in *. clearbody rates.
  assert (Hz : (zip (st_mix src) rates).*1 = st_mix src).
  { apply fst_zip. lia. }
  destruct (third_pass_labels _ _ _ _ _ Ht) as [H1 H2].
  rewrite Hz in H1, H2.
  split_and!; cbn; try done.
  - by destruct (st_rate src).
  - by destruct (st_duration src).
  - intros Hlt. eapply third_pass_sum in Ht as (Hs & Hf & _); [done|lia|done| |].
    + apply Forall_forall. intros [m x] Hin. apply list_elem_of_lookup in Hin as [i Hi].
      apply lookup_zip_with_Some in Hi as (m0 & x0 & [= -> ->] & _ & Hx).
      by eapply Forall_lookup_1 in Hp.
    + intros Hn. apply Hne. by rewrite <- Hz, Hn.
Qed.

(** When a campaign resolves, its stages are those of the file in order,
    and in each the integer rates of the scenarios add up to exactly the rate of
    the stage (for any rate below the largest 64-bit number). *)
Theorem resolve_rates (c : CampaignConfig) (l : list ResolvedStage) (H : resolve c = Ok l) :
  exists stages, normalized_stages (cf_spam c) = Ok stages /\
    Forall2 (stage_resolved (cf_spam c)) stages l.
Proof.
  unfold resolve in H. apply bind_ok in H as (stages & Hn & H). exists stages.
  split; [done|]. clear Hn. revert H. generalize 0%nat as idx. intros idx H. revert idx l H.
  induction stages as [|s stages IH]; intros idx l H; cbn in H.
  - inv_outcome. constructor.
  - apply bind_ok in H as (r & Hr & H). apply bind_ok in H as (rest & Hrest & H). inv_outcome.
    constructor; [by eapply resolve_stage_ok|by eapply IH].
Qed.

(** A campaign file with one pass of shares and no stages is the campaign with
    the single stage "steady". *)
Definition explicit_steady (s : CampaignSpam) : CampaignSpam := {|
  sp_mode := sp_mode s; sp_rate := sp_rate s; sp_duration := sp_duration s;
  sp_seed := sp_seed s; sp_stage_timeout := sp_stage_timeout s;
  sp_stage := [{| st_name := "steady"; st_duration := sp_duration s;
                  st_rate := sp_rate s; st_mix := default [] (sp_mix s) |}];
  sp_mix := None |}.

(** Stages and a shared mix exclude each other; the shorthand of a mix with
    a duration resolves exactly as the single explicit stage it stands for; and
    every other file has its own error. *)
Theorem normalized_stages_spec (c : CampaignConfig) :
  let s := cf_spam c in
  match sp_stage s, sp_mix s, sp_duration s with
  | _ :: _, Some _, _ => resolve c = Err ConflictingMixAndStage
  | _ :: _, None, _ => normalized_stages s = Ok (sp_stage s)
  | [], None, _ => resolve c = Err SpamStageOrMixUndefined
  | [], Some [], _ => resolve c = Err SpamMixEmpty
  | [], Some (_ :: _), None => resolve c = Err ShorthandRequiresSpamDuration
  | [], Some (_ :: _), Some _ =>
      resolve c = resolve {| cf_name := cf_name c; cf_description := cf_description c;
                             cf_spam := explicit_steady s |}
  end.
Proof.
  destruct c as [name desc [mode rate [d|] seed timeout [|st sts] [[|m ms]|]]]; reflexivity.
Qed.

(** A valid campaign has a name, and every stage it resolves to has a mix
    and a duration, its own or the default. *)
Theorem validate_spec (c : CampaignConfig) (Hok : validate c = Ok tt) :
  trim (cf_name c) <> ""%string /\
  exists stages, normalized_stages (cf_spam c) = Ok stages /\
    Forall (fun s => st_mix s <> [] /\
      (st_duration s <> None \/ sp_duration (cf_spam c) <> None)) stages.
Proof.
  unfold validate in Hok. destruct (String.eqb_spec (trim (cf_name c)) ""); [done|].
  split; [done|]. apply bind_ok in Hok as (stages & Hs & Hok). exists stages. split; [done|].
  clear Hs. revert Hok. generalize 0%nat as idx. induction stages as [|s stages IH]; intros idx Hok.
  - constructor.
  - cbn in Hok. apply bind_ok in Hok as ([] & Hv & Hok). constructor; [|by eapply IH].
    unfold validate_stage in Hv. destruct (st_mix s); [done|]. split; [done|].
    destruct (st_duration s); [by left|]. destruct (sp_duration (cf_spam c)); [by right|done].
Qed.

(** ** Witnesses, and what the rounding does not give *)

Definition entry (name : string) (share : f64) : CampaignMixEntry :=
  {| me_scenario := name; me_share_pct := share |}.

Definition sample (duration rate : option Z) (stages : list CampaignStage) : CampaignConfig := {|
  cf_name := "c"; cf_description := None;
  cf_spam := {| sp_mode := Tps; sp_rate := rate; sp_duration := duration; sp_seed := None;
                sp_stage_timeout := None; sp_stage := stages; sp_mix := None |} |}.

Definition stage_of (rate : Z) (shares : list f64) : CampaignStage := {|
  st_name := "s"; st_duration := Some 10; st_rate := Some rate;
  st_mix := map (entry "x") shares |}.

Definition rates_of (c : CampaignConfig) : outcome CampaignError (list (list Z)) :=
  fmap (M := outcome CampaignError) (map (fun s => map rm_rate (rs_mix s))) (resolve c).

Lemma resolve_rates_witness :
  exists l, resolve (sample (Some 5) (Some 7) [stage_of 20 [f64_lit 2 10; f64_lit 998 10]]) = Ok l
         /\ map rs_rate l = [20].
Proof.
  run_ok (resolve (sample (Some 5) (Some 7) [stage_of 20 [f64_lit 2 10; f64_lit 998 10]])) l H.
  exists l. split; [exact H|].
  destruct (resolve_rates _ l H) as (stages & Hs & Hf). injection Hs as <-.
  inversion Hf as [|? s ? l' Hr Hf' Hq Hq']; subst. inversion Hf'; subst.
  destruct Hr as (_ & Hr & _). injection Hr as Hr. cbn. by rewrite Hr.
Defined.

Lemma validate_spec_witness :
  exists stages, normalized_stages (cf_spam (sample None None [stage_of 20 [f64_of_Z 1]])) = Ok stages
    /\ Forall (fun s => st_mix s <> [] /\ (st_duration s <> None \/ None <> (None : option Z))) stages.
Proof.
  destruct (validate_spec (sample None None [stage_of 20 [f64_of_Z 1]]) eq_refl)
    as (_ & stages & Hs & Hf).
  exists stages. exact (conj Hs Hf).
Defined.

(** A stage with its own duration and rate does not resolve without defaults,
    although the file is valid. *)
Lemma resolve_needs_defaults :
  let c := sample None None [stage_of 20 [f64_of_Z 1]] in
  validate c = Ok tt /\ resolve c = Err (SpamDurationMissing 0 "s") /\
  resolve (sample (Some 5) None [stage_of 20 [f64_of_Z 1]]) = Err SpamRateMissing.
Proof. split_and!; reflexivity. Qed.

(** An entry with a positive share may be left without any rate, although the
    stage's rate is not below the number of entries. *)
Lemma small_share_gets_zero :
  rates_of (sample (Some 5) (Some 7) [stage_of 20 [f64_lit 2 10; f64_lit 998 10]])
    = Ok [[0; 20]] /\
  rates_of (sample (Some 5) (Some 7) [stage_of 6 (replicate 4 (f64_of_Z 25))])
    = Ok [[2; 2; 2; 0]].
Proof. split; vm_compute; reflexivity. Qed.

(** Six equal shares of a rate of 9 are refused: rounding gives the first five
    ten in all. *)
Lemma equal_shares_refused :
  rates_of (sample (Some 5) (Some 7) [stage_of 9 (replicate 6 (f64_of_Z 1))])
    = Err (RateDistributionExceedsLimit "s" 10 9).
Proof. vm_compute. reflexivity. Qed.
