(* ===== verification/TxActor.v ===== *)
(** * The transaction actor ([core/src/spammer/tx_actor.rs])

    One task owns the cache of sent transactions.  It serves messages of the
    spammer, requests of the flush task (which records receipts block by block)
    and marks of the flashblock listener, in whatever order they arrive:
    [actor_step] is the handler of one event, [run_actor] the loop over the
    events.  A handler returns the new state together with its outcome, since
    an error leaves effects behind; an error ends the loop.  A reply is sent to
    a caller that may be gone: the flag [alive] of a message says whether the
    caller still waits.  [flush_iter] is one round of the flush task against
    an environment [FlushEnv]. *)

From Stdlib Require Import Strings.String.
From S2P Require Import Prelude Alloy Db.

Definition MAX_PENDING_FLASHBLOCK_MARKS : nat := 1024.

Record PendingRunTx := {
  pt_tx_hash : TxHash;
  pt_start_timestamp_ms : Z;
  pt_end_timestamp_ms : option Z;
  pt_kind : option string;
  pt_error : option string;
  pt_flashblock_timestamp_ms : option Z;
  pt_flashblock_index : option Z;
}.

Definition PendingRunTx_new (tx_hash : TxHash) (start_timestamp_ms : Z)
    (kind error : option string) : PendingRunTx := {|
  pt_tx_hash := tx_hash; pt_start_timestamp_ms := start_timestamp_ms;
  pt_end_timestamp_ms := None; pt_kind := kind; pt_error := error;
  pt_flashblock_timestamp_ms := None; pt_flashblock_index := None |}.

(** [u128::try_into::<u64>().unwrap()]. *)
Definition narrow64 {E} (x : Z) : outcome E Z := unwrap (checked 64 x).

Definition opt_narrow64 {E} (x : option Z) : outcome E (option Z) :=
  match x with
  | Some x => fmap (M := outcome E) Some (narrow64 x)
  | None => Ok None
  end.

Definition flashblock_latency_ms {E} (p : PendingRunTx) : outcome E (option Z) :=
  opt_narrow64 ((fun ts => saturating_sub ts (pt_start_timestamp_ms p)) <$>
                  pt_flashblock_timestamp_ms p).

Record ActorContext := { ac_run_id : Z; ac_target_block : Z; ac_pending_tx_timeout : Z }.

(** The timeout is in seconds. *)
Definition ActorContext_new (target_block run_id : Z) : ActorContext :=
  {| ac_run_id := run_id; ac_target_block := target_block; ac_pending_tx_timeout := 30 |}.
Definition with_pending_tx_timeout (timeout : Z) (c : ActorContext) : ActorContext :=
  {| ac_run_id := ac_run_id c; ac_target_block := ac_target_block c;
     ac_pending_tx_timeout := timeout |}.

Inductive ActorStatus := ShuttingDown | Running.

Record FlashblockMark := { fm_tx_hash : TxHash; fm_timestamp_ms : Z; fm_index : Z }.

Inductive ActorError :=
| CacheRemoveTx (tx_hash : TxHash)
| OneshotSend (what : string)
| DumpCacheSend
| ActorDb (e : DbError).

Inductive TxActorMessage :=
| InitCtx (ctx : ActorContext)
| GetCacheLen (alive : bool)
| SentRunTx (tx_hash : TxHash) (start_timestamp_ms : Z) (end_timestamp_ms : option Z)
    (kind error : option string) (alive : bool)
| RemovedRunTx (tx_hash : TxHash) (alive : bool)
| DumpCache (run_id : Z) (alive : bool)
| Stop (alive : bool)
| ReplaceFlushReceiver (new_receiver : nat)
| ClearCache (alive : bool).

(** What is sent back, when the caller still waits. *)
Inductive Reply := NoReply | Done | CacheLen (n : nat) | Dumped (txs : list RunTx).

(** [now_ms] is the clock when the request is handled. *)
Inductive FlushRequest :=
| GetSnapshot
| RemoveConfirmed (confirmed_tx_hashes : list TxHash) (new_target_block now_ms : Z).

Inductive Event :=
| EStop
| EMessage (m : TxActorMessage)
| EFlush (r : FlushRequest)
| EMark (m : FlashblockMark).

Section actor.
Context {D : Type} `{DO : DbOps D}.

(** The receivers are the channel the flush task writes to, and whether the
    channels are closed. *)
Record TxActor := {
  ta_flush_receiver : nat;
  ta_closed : bool;
  ta_db : D;
  ta_cache : gmap TxHash PendingRunTx;
  ta_ctx : option ActorContext;
  ta_status : ActorStatus;
  ta_pending_flashblock_marks : gmap TxHash (Z * Z);
}.

Definition TxActor_new (flush_receiver : nat) (db : D) : TxActor := {|
  ta_flush_receiver := flush_receiver; ta_closed := false; ta_db := db; ta_cache := ∅;
  ta_ctx := None; ta_status := Running; ta_pending_flashblock_marks := ∅ |}.

Definition set_cache (c : gmap TxHash PendingRunTx) (s : TxActor) : TxActor := {|
  ta_flush_receiver := ta_flush_receiver s; ta_closed := ta_closed s; ta_db := ta_db s;
  ta_cache := c; ta_ctx := ta_ctx s; ta_status := ta_status s;
  ta_pending_flashblock_marks := ta_pending_flashblock_marks s |}.
Definition set_marks (m : gmap TxHash (Z * Z)) (s : TxActor) : TxActor := {|
  ta_flush_receiver := ta_flush_receiver s; ta_closed := ta_closed s; ta_db := ta_db s;
  ta_cache := ta_cache s; ta_ctx := ta_ctx s; ta_status := ta_status s;
  ta_pending_flashblock_marks := m |}.
Definition set_ctx (c : option ActorContext) (s : TxActor) : TxActor := {|
  ta_flush_receiver := ta_flush_receiver s; ta_closed := ta_closed s; ta_db := ta_db s;
  ta_cache := ta_cache s; ta_ctx := c; ta_status := ta_status s;
  ta_pending_flashblock_marks := ta_pending_flashblock_marks s |}.
Definition set_db (db : D) (s : TxActor) : TxActor := {|
  ta_flush_receiver := ta_flush_receiver s; ta_closed := ta_closed s; ta_db := db;
  ta_cache := ta_cache s; ta_ctx := ta_ctx s; ta_status := ta_status s;
  ta_pending_flashblock_marks := ta_pending_flashblock_marks s |}.
Definition shut_down (s : TxActor) : TxActor := {|
  ta_flush_receiver := ta_flush_receiver s; ta_closed := true; ta_db := ta_db s;
  ta_cache := ta_cache s; ta_ctx := ta_ctx s; ta_status := ShuttingDown;
  ta_pending_flashblock_marks := ta_pending_flashblock_marks s |}.
Definition replace_flush_receiver (n : nat) (s : TxActor) : TxActor := {|
  ta_flush_receiver := n; ta_closed := ta_closed s; ta_db := ta_db s;
  ta_cache := ta_cache s; ta_ctx := ta_ctx s; ta_status := ta_status s;
  ta_pending_flashblock_marks := ta_pending_flashblock_marks s |}.

Definition cache_values (s : TxActor) : list PendingRunTx := (map_to_list (ta_cache s)).*2.

(** The row of a transaction that is still pending. *)
Definition dumped_row (p : PendingRunTx) : outcome ActorError RunTx :=
  start ← narrow64 (pt_start_timestamp_ms p);
  end_ ← opt_narrow64 (pt_end_timestamp_ms p);
  latency ← flashblock_latency_ms p;
  mret {| rt_tx_hash := pt_tx_hash p; rt_start_timestamp_ms := start;
          rt_end_timestamp_ms := end_; rt_block_number := None; rt_gas_used := None;
          rt_kind := pt_kind p; rt_error := pt_error p;
          rt_flashblock_latency_ms := latency; rt_flashblock_index := pt_flashblock_index p |}.

Definition dump_cache (s : TxActor) (run_id : Z) : TxActor * outcome ActorError (list RunTx) :=
  match mapM dumped_row (cache_values s) with
  | Ok run_txs =>
      match insert_run_txs (ta_db s) run_id run_txs with
      | Ok db => (set_cache ∅ (set_db db s), Ok run_txs)
      | Err e => (s, Err (ActorDb e))
      | Panic => (s, Panic)
      end
  | Err e => (s, Err e)
  | Panic => (s, Panic)
  end.

Definition remove_cached_tx (s : TxActor) (old_tx_hash : TxHash)
  : TxActor * outcome ActorError unit :=
  match ta_cache s !! old_tx_hash with
  | Some _ => (set_cache (delete old_tx_hash (ta_cache s)) s, Ok tt)
  | None => (s, Err (CacheRemoveTx old_tx_hash))
  end.

(** [sender.send(reply).map_err(..)?]. *)
Definition send_reply (alive : bool) (err : ActorError) (r : Reply) : outcome ActorError Reply :=
  if alive then Ok r else Err err.

Definition handle_message (s : TxActor) (message : TxActorMessage)
  : TxActor * outcome ActorError Reply :=
  match message with
  | GetCacheLen alive =>
      (s, send_reply alive (OneshotSend "GetCacheLen") (CacheLen (size (ta_cache s))))
  | InitCtx ctx => (set_ctx (Some ctx) s, Ok NoReply)
  | Stop alive => (shut_down s, send_reply alive (OneshotSend "Stop") Done)
  | SentRunTx tx_hash start_timestamp_ms end_timestamp_ms kind error alive =>
      let mark := ta_pending_flashblock_marks s !! tx_hash in
      let run_tx := {|
        pt_tx_hash := tx_hash; pt_start_timestamp_ms := start_timestamp_ms;
        pt_end_timestamp_ms := end_timestamp_ms; pt_kind := kind; pt_error := error;
        pt_flashblock_timestamp_ms := fst <$> mark; pt_flashblock_index := snd <$> mark |} in
      let s := set_marks (delete tx_hash (ta_pending_flashblock_marks s)) s in
      (set_cache (<[tx_hash := run_tx]> (ta_cache s)) s,
       send_reply alive (OneshotSend "SentRunTx") Done)
  | RemovedRunTx tx_hash alive =>
      match remove_cached_tx s tx_hash with
      | (s, Ok _) => (s, send_reply alive (OneshotSend "RemovedRunTx") Done)
      | (s, Err e) => (s, Err e)
      | (s, Panic) => (s, Panic)
      end
  | DumpCache run_id alive =>
      match dump_cache s run_id with
      | (s, Ok res) => (s, send_reply alive DumpCacheSend (Dumped res))
      | (s, Err e) => (s, Err e)
      | (s, Panic) => (s, Panic)
      end
  | ReplaceFlushReceiver new_receiver => (replace_flush_receiver new_receiver s, Ok NoReply)
  | ClearCache alive =>
      (set_cache ∅ s, send_reply alive (OneshotSend "ClearCache") Done)
  end.

(** The reply of a snapshot request. *)
Definition snapshot (s : TxActor) : list PendingRunTx * option ActorContext :=
  (cache_values s, ta_ctx s).

Definition bump_target (new_target_block : Z) (ctx : ActorContext) : ActorContext :=
  if ac_target_block ctx <? new_target_block
  then {| ac_run_id := ac_run_id ctx; ac_target_block := new_target_block;
          ac_pending_tx_timeout := ac_pending_tx_timeout ctx |}
  else ctx.

Definition fresh_mark (now_ms : Z) (p : TxHash * (Z * Z)) : bool :=
  saturating_sub now_ms p.2.1 <? 20000.

Definition handle_flush_request (s : TxActor) (request : FlushRequest) : TxActor :=
  match request with
  | GetSnapshot => s
  | RemoveConfirmed confirmed_tx_hashes new_target_block now_ms =>
      let cache := fold_left (fun m h => delete h m) confirmed_tx_hashes (ta_cache s) in
      let marks := fold_left (fun m h => delete h m) confirmed_tx_hashes
                     (ta_pending_flashblock_marks s) in
      let marks := filter (fun p => fresh_mark now_ms p = true) marks in
      set_ctx (bump_target new_target_block <$> ta_ctx s) (set_marks marks (set_cache cache s))
  end.

(** The first mark of a cached transaction is kept. *)
Definition mark_tx (mark : FlashblockMark) (p : PendingRunTx) : PendingRunTx :=
  match pt_flashblock_timestamp_ms p with
  | Some _ => p
  | None => {|
      pt_tx_hash := pt_tx_hash p; pt_start_timestamp_ms := pt_start_timestamp_ms p;
      pt_end_timestamp_ms := pt_end_timestamp_ms p; pt_kind := pt_kind p;
      pt_error := pt_error p; pt_flashblock_timestamp_ms := Some (fm_timestamp_ms mark);
      pt_flashblock_index := Some (fm_index mark) |}
  end.

Definition handle_flashblock_mark (s : TxActor) (mark : FlashblockMark) : TxActor :=
  match ta_cache s !! fm_tx_hash mark with
  | Some pending_tx =>
      set_cache (<[fm_tx_hash mark := mark_tx mark pending_tx]> (ta_cache s)) s
  | None =>
      let marks := ta_pending_flashblock_marks s in
      if (MAX_PENDING_FLASHBLOCK_MARKS <=? size marks)%nat then s
      else
        match marks !! fm_tx_hash mark with
        | Some _ => s
        | None =>
            set_marks (<[fm_tx_hash mark := (fm_timestamp_ms mark, fm_index mark)]> marks) s
        end
  end.

(** The handler of one event of the loop. *)
Definition actor_step (s : TxActor) (e : Event) : TxActor * outcome ActorError Reply :=
  match e with
  | EStop => handle_message s (Stop true)
  | EMessage m => handle_message s m
  | EFlush r => (handle_flush_request s r, Ok NoReply)
  | EMark m => (handle_flashblock_mark s m, Ok NoReply)
  end.

(** The loop, on the events in the order they are taken: it ends when the actor
    is shutting down, or with the first error. *)
Fixpoint run_actor (s : TxActor) (l : list Event) : TxActor * outcome ActorError unit :=
  match ta_status s with
  | ShuttingDown => (s, Ok tt)
  | Running =>
      match l with
      | [] => (s, Ok tt)
      | e :: l =>
          match actor_step s e with
          | (s, Ok _) => run_actor s l
          | (s, Err e) => (s, Err e)
          | (s, Panic) => (s, Panic)
          end
      end
  end.

(** States the loop goes through. *)
Inductive reachable (db : D) : TxActor -> Prop :=
| reach_new n : reachable db (TxActor_new n db)
| reach_step s e s' r :
    reachable db s -> ta_status s = Running -> actor_step s e = (s', r) -> reachable db s'.
End actor.

(** ** Receipts of a block *)

Record Receipt := {
  rc_transaction_hash : TxHash;
  rc_status : bool;
  rc_gas_used : Z;
}.

Record Block := { bl_number : Z; bl_timestamp : Z; bl_hashes : list TxHash }.

Definition get_tx_error (receipt : Receipt) (pending_tx : PendingRunTx) : option string :=
  if rc_status receipt then pt_error pending_tx else Some "execution reverted"%string.

(** Waiting for the block: the first response that has it; [None] when the
    given responses end before it appears. *)
Fixpoint wait_for_block (responses : list (outcome unit (option Block))) : option Block :=
  match responses with
  | [] => None
  | Ok (Some block) :: _ => Some block
  | _ :: responses => wait_for_block responses
  end.

(** All receipts of the block at once, else each transaction's own, those that
    fail left out. *)
Definition block_receipts (all : outcome unit (option (list Receipt)))
    (one : TxHash -> outcome unit (option Receipt)) (block : Block) : list Receipt :=
  match all with
  | Ok (Some r) => r
  | _ => omap (fun h => match one h with Ok r => r | _ => None end) (bl_hashes block)
  end.

Definition find_receipt (receipts : list Receipt) (p : PendingRunTx) : option Receipt :=
  snd <$> list_find (fun r => rc_transaction_hash r = pt_tx_hash p) receipts.

Definition confirmed_txs (cache_snapshot : list PendingRunTx) (receipts : list Receipt)
  : list (PendingRunTx * Receipt) :=
  omap (fun p => r ← find_receipt receipts p; Some (p, r)) cache_snapshot.

Section receipts.
Context {D : Type} `{DO : DbOps D} {P : Profile}.

Definition confirmed_row (block : Block) (pr : PendingRunTx * Receipt)
  : outcome ActorError RunTx :=
  let '(pending_tx, receipt) := pr in
  start ← narrow64 (pt_start_timestamp_ms pending_tx);
  end_ ← opt_narrow64 (pt_end_timestamp_ms pending_tx);
  (* the default is computed even when it is not used *)
  block_end ← arith 64 (bl_timestamp block * 1000);
  latency ← flashblock_latency_ms pending_tx;
  mret {| rt_tx_hash := pt_tx_hash pending_tx; rt_start_timestamp_ms := start;
          rt_end_timestamp_ms := Some (default block_end end_); rt_block_number := Some (bl_number block);
          rt_gas_used := Some (rc_gas_used receipt); rt_kind := pt_kind pending_tx;
          rt_error := get_tx_error receipt pending_tx; rt_flashblock_latency_ms := latency;
          rt_flashblock_index := pt_flashblock_index pending_tx |}.

(** On a block that has appeared and its receipts. *)
Definition record_receipts (cache_snapshot : list PendingRunTx) (db : D) (run_id : Z)
    (block : Block) (receipts : list Receipt) : D * outcome ActorError (list TxHash) :=
  let confirmed := confirmed_txs cache_snapshot receipts in
  match mapM (confirmed_row block) confirmed with
  | Ok run_txs =>
      let hashes := (fun p => pt_tx_hash p.1) <$> confirmed in
      match run_txs with
      | [] => (db, Ok hashes)
      | _ =>
          match insert_run_txs db run_id run_txs with
          | Ok db => (db, Ok hashes)
          | Err e => (db, Err (ActorDb e))
          | Panic => (db, Panic)
          end
      end
  | Err e => (db, Err e)
  | Panic => (db, Panic)
  end.

(** The responses to the requests for the block, for all its receipts and for
    one receipt; [None] while the block has not appeared. *)
Definition process_block_receipts (cache_snapshot : list PendingRunTx) (db : D) (run_id : Z)
    (responses : list (outcome unit (option Block))) (all : outcome unit (option (list Receipt)))
    (one : TxHash -> outcome unit (option Receipt))
  : option (D * outcome ActorError (list TxHash)) :=
  match cache_snapshot with
  | [] => Some (db, Ok [])
  | _ =>
      block ← wait_for_block responses;
      Some (record_receipts cache_snapshot db run_id block (block_receipts all one block))
  end.
End receipts.

(** ** The flush task *)

(** The answer to a snapshot request: the request could not be sent, the reply
    was dropped, or a snapshot. *)
Inductive SnapshotReply :=
| SendFailed
| ReplyDropped
| GotSnapshot (cache : list PendingRunTx) (ctx : option ActorContext).

(** What the task exchanges with the actor and the node, on worlds [W]. *)
Record FlushEnv (W : Type) := {
  fe_block_number : W -> W * outcome unit Z;
  fe_cancelled : W -> bool;
  fe_snapshot : W -> W * SnapshotReply;
  fe_remove_confirmed : W -> list TxHash -> Z -> W;
  fe_process_block : W -> list PendingRunTx -> Z -> Z -> W * outcome unit (list TxHash);
}.

Definition STALE_BLOCK_LIMIT : Z := 6.

(** [last_pending_count] is [None] for its initial value [usize::MAX]. *)
Record FlushState := {
  fl_target_block : Z;
  fl_stale_blocks : Z;
  fl_last_pending_count : option nat;
}.

(** The outcome of a round: the task ends (or dies of an overflow), or goes on. *)
Inductive FlushOut := FlushStop | FlushContinue (st : FlushState) | FlushPanic.

Section flush.
Context {P : Profile} {W : Type} (env : FlushEnv W).

(** Phase 1, for the given number of ticks: the target block of the context,
    once there is one; [None] when the actor is gone or the ticks run out. *)
Fixpoint wait_for_ctx (ticks : nat) (w : W) : W * option Z :=
  match ticks with
  | O => (w, None)
  | S ticks =>
      match fe_snapshot _ env w with
      | (w, GotSnapshot _ (Some ctx)) => (w, Some (ac_target_block ctx))
      | (w, GotSnapshot _ None) => wait_for_ctx ticks w
      | (w, _) => (w, None)
      end
  end.

(** The blocks of one round: the target block and snapshot after them, or
    [None] when the task returns. *)
Fixpoint process_blocks (run_id : Z) (blocks : list Z) (w : W) (target_block : Z)
    (cache_snapshot : list PendingRunTx) : W * option (Z * list PendingRunTx) :=
  match blocks with
  | [] => (w, Some (target_block, cache_snapshot))
  | bn :: blocks =>
      match fe_process_block _ env w cache_snapshot run_id bn with
      | (w, Ok confirmed) =>
          let w := fe_remove_confirmed _ env w confirmed (bn + 1) in
          match fe_snapshot _ env w with
          | (w, SendFailed) => (w, None)
          | (w, ReplyDropped) => (w, Some (target_block, cache_snapshot))
          | (w, GotSnapshot _ None) => (w, Some (target_block, cache_snapshot))
          | (w, GotSnapshot new_snapshot (Some ctx)) =>
              match new_snapshot with
              | [] => if fe_cancelled _ env w then (w, None)
                      else (w, Some (ac_target_block ctx, []))
              | _ => process_blocks run_id blocks w (ac_target_block ctx) new_snapshot
              end
          end
      | (w, _) => process_blocks run_id blocks w target_block cache_snapshot
      end
  end.

(** The count of blocks without progress, once sending is over. *)
Definition stale_update (cancelled : bool) (pending : nat) (new_block blocks_start : Z)
    (st : FlushState) : FlushOut :=
  if cancelled && (0 <? pending)%nat then
    if bool_decide (fl_last_pending_count st = Some pending) then
      match arith (E := unit) 64
              (fl_stale_blocks st + Z.max (saturating_sub new_block blocks_start) 1) with
      | Ok stale =>
          if STALE_BLOCK_LIMIT <=? stale then FlushStop
          else FlushContinue {| fl_target_block := fl_target_block st; fl_stale_blocks := stale;
                                fl_last_pending_count := fl_last_pending_count st |}
      | _ => FlushPanic
      end
    else FlushContinue {| fl_target_block := fl_target_block st; fl_stale_blocks := 0;
                          fl_last_pending_count := Some pending |}
  else FlushContinue st.

Definition with_target (t : Z) (st : FlushState) : FlushState :=
  {| fl_target_block := t; fl_stale_blocks := fl_stale_blocks st;
     fl_last_pending_count := fl_last_pending_count st |}.

(** One round of phase 2. *)
Definition flush_iter (w : W) (st : FlushState) : W * FlushOut :=
  match fe_block_number _ env w with
  | (w, Ok new_block) =>
      if new_block <=? fl_target_block st then
        if fe_cancelled _ env w then
          match fe_snapshot _ env w with
          | (w, SendFailed) => (w, FlushStop)
          | (w, GotSnapshot [] _) => (w, FlushStop)
          | (w, _) => (w, FlushContinue st)
          end
        else (w, FlushContinue st)
      else
        match fe_snapshot _ env w with
        | (w, SendFailed) => (w, FlushStop)
        | (w, ReplyDropped) => (w, FlushStop)
        | (w, GotSnapshot _ None) => (w, FlushContinue st)
        | (w, GotSnapshot cache_snapshot (Some ctx)) =>
            let target_block := ac_target_block ctx in
            if new_block <=? target_block then (w, FlushContinue (with_target target_block st))
            else if fe_cancelled _ env w && (length cache_snapshot =? 0)%nat
            then (w, FlushStop)
            else
              let blocks_start := target_block in
              let blocks := seqZ blocks_start (new_block - blocks_start) in
              match process_blocks (ac_run_id ctx) blocks w target_block cache_snapshot with
              | (w, None) => (w, FlushStop)
              | (w, Some (target_block, cache_snapshot)) =>
                  let target_block := Z.max target_block new_block in
                  (w, stale_update (fe_cancelled _ env w) (length cache_snapshot)
                        new_block blocks_start (with_target target_block st))
              end
        end
  | (w, _) => (w, FlushContinue st)
  end.

(** Phase 2 for at most [rounds] rounds: whether the task has ended. *)
Fixpoint flush_rounds (rounds : nat) (w : W) (st : FlushState) : W * FlushOut :=
  match rounds with
  | O => (w, FlushContinue st)
  | S rounds =>
      match flush_iter w st with
      | (w, FlushContinue st) => flush_rounds rounds w st
      | r => r
      end
  end.

Definition flush_loop (ticks rounds : nat) (w : W) : W * FlushOut :=
  match wait_for_ctx ticks w with
  | (w, Some target_block) =>
      flush_rounds rounds w {| fl_target_block := target_block; fl_stale_blocks := 0;
                               fl_last_pending_count := None |}
  | (w, None) => (w, FlushStop)
  end.
End flush.

(** ** The handle *)

(** What the methods of the handle send to the actor. *)
Record CacheTx := {
  ct_tx_hash : TxHash;
  ct_start_timestamp_ms : Z;
  ct_end_timestamp_ms : option Z;
  ct_kind : option string;
  ct_error : option string;
}.
Definition cache_run_tx (params : CacheTx) (alive : bool) : TxActorMessage :=
  SentRunTx (ct_tx_hash params) (ct_start_timestamp_ms params) (ct_end_timestamp_ms params)
    (ct_kind params) (ct_error params) alive.
Definition handle_dump_cache (run_id : Z) (alive : bool) : TxActorMessage := DumpCache run_id alive.
Definition done_flushing (alive : bool) : TxActorMessage := GetCacheLen alive.
Definition handle_remove_cached_tx (tx_hash : TxHash) (alive : bool) : TxActorMessage :=
  RemovedRunTx tx_hash alive.
Definition clear_cache (alive : bool) : TxActorMessage := ClearCache alive.
Definition handle_stop : Event := EStop.
Definition init_ctx (ctx : ActorContext) : TxActorMessage := InitCtx ctx.
Definition restart_flush (new_receiver : nat) : TxActorMessage := ReplaceFlushReceiver new_receiver.

(** ** Properties of the actor *)

Section actor_props.
Context {D : Type} `{DO : DbOps D}.
Implicit Types s : TxActor (D := D).

(** The keys of the cache are the hashes of its transactions, whose two
    flashblock fields are set together; the buffer of marks is bounded, and
    holds no mark of a cached transaction; a closed actor is shutting down. *)
Record actor_inv s : Prop := {
  inv_keys : forall h p, ta_cache s !! h = Some p -> pt_tx_hash p = h;
  inv_mark_fields : forall h p, ta_cache s !! h = Some p ->
    (pt_flashblock_timestamp_ms p = None <-> pt_flashblock_index p = None);
  inv_marks_bound : (size (ta_pending_flashblock_marks s) <= MAX_PENDING_FLASHBLOCK_MARKS)%nat;
  inv_disjoint : forall h, is_Some (ta_cache s !! h) -> ta_pending_flashblock_marks s !! h = None;
  inv_closed : ta_closed s = true <-> ta_status s = ShuttingDown;
}.

Lemma delete_all_lookup {V} (l : list TxHash) (m : gmap TxHash V) h :
  fold_left (fun m h => delete h m) l m !! h = if bool_decide (h ∈ l) then None else m !! h.
Proof.
  revert m. induction l as [|x l IH]; intros m; cbn.
  - by rewrite bool_decide_eq_false_2 by set_solver.
  - rewrite IH. destruct (decide (h = x)) as [->|Hne].
    + rewrite (bool_decide_eq_true_2 (x ∈ x :: l)) by set_solver.
      case_bool_decide; [done|]. apply lookup_delete_eq.
    + rewrite (bool_decide_ext (h ∈ x :: l) (h ∈ l)) by set_solver.
      by rewrite lookup_delete_ne.
Qed.

Lemma delete_all_subseteq {V} (l : list TxHash) (m : gmap TxHash V) :
  fold_left (fun m h => delete h m) l m ⊆ m.
Proof.
  apply map_subseteq_spec. intros h v. rewrite delete_all_lookup. by case_bool_decide.
Qed.

Lemma size_subseteq {V} (m m' : gmap TxHash V) : m ⊆ m' -> (size m <= size m')%nat.
Proof.
  intros H. rewrite <- !size_dom. apply subseteq_size. by apply subseteq_dom.
Qed.

Lemma actor_inv_new n (db : D) : actor_inv (TxActor_new n db).
Proof.
  split; cbn.
  - intros h p. by rewrite lookup_empty.
  - intros h p. by rewrite lookup_empty.
  - rewrite map_size_empty. lia.
  - intros h. by rewrite lookup_empty.
  - done.
Qed.

(** Fewer transactions and marks keep the invariant. *)
Lemma actor_inv_shrink s cache marks :
  actor_inv s -> cache ⊆ ta_cache s -> marks ⊆ ta_pending_flashblock_marks s ->
  actor_inv (set_marks marks (set_cache cache s)).
Proof.
  intros [Hk Hf Hb Hd Hc] Hsub Hm. rewrite map_subseteq_spec in Hsub. split; cbn.
  - intros h p Hp. by eapply Hk, Hsub.
  - intros h p Hp. by eapply Hf, Hsub.
  - pose proof (size_subseteq _ _ Hm). lia.
  - intros h [p Hp]. destruct (marks !! h) as [v|] eqn:Hv; [|done].
    rewrite map_subseteq_spec in Hm. rewrite <- (Hm _ _ Hv). apply Hd. eexists. by apply Hsub.
  - done.
Qed.

Lemma set_marks_self s : set_marks (ta_pending_flashblock_marks s) s = s.
Proof. by destruct s. Qed.

Lemma actor_inv_shrink_cache s cache :
  actor_inv s -> cache ⊆ ta_cache s -> actor_inv (set_cache cache s).
Proof.
  intros Hi Hs. pose proof (actor_inv_shrink s cache (ta_pending_flashblock_marks s) Hi Hs) as H.
  by apply H.
Qed.

Lemma actor_inv_frame s s' :
  actor_inv s -> ta_cache s' = ta_cache s ->
  ta_pending_flashblock_marks s' = ta_pending_flashblock_marks s ->
  (ta_closed s' = true <-> ta_status s' = ShuttingDown) -> actor_inv s'.
Proof.
  intros [Hk Hf Hb Hd Hc] H1 H2 H3. split; rewrite ?H1, ?H2; done.
Qed.

Lemma dump_cache_cases s run_id s' r :
  dump_cache s run_id = (s', r) ->
  (s' = s /\ is_ok r = false) \/
  exists rows db, mapM dumped_row (cache_values s) = Ok rows /\
    insert_run_txs (ta_db s) run_id rows = Ok db /\
    s' = set_cache ∅ (set_db db s) /\ r = Ok rows.
Proof.
  unfold dump_cache. intros H. destruct (mapM _ _) as [rows|e|] eqn:Hm; simplify_eq; auto.
  destruct (insert_run_txs _ _ _) as [db|e|] eqn:Hi; simplify_eq; auto.
  right. by exists rows, db.
Qed.

Lemma handle_message_inv s m s' r :
  actor_inv s -> handle_message s m = (s', r) -> actor_inv s'.
Proof.
  intros Hi H. pose proof Hi as [Hk Hf Hb Hd Hc].
  destruct m as [ctx|a|h st en k er a|h a|rid a|a|n|a]; cbn in H; simplify_eq; try done.
  - split; cbn.
    + intros h' p Hp. destruct (decide (h' = h)) as [->|Hne];
        [rewrite lookup_insert_eq in Hp; by simplify_eq|].
      rewrite lookup_insert_ne in Hp by done. by eapply Hk.
    + intros h' p Hp. destruct (decide (h' = h)) as [->|Hne].
      * rewrite lookup_insert_eq in Hp. simplify_eq. cbn.
        by destruct (ta_pending_flashblock_marks s !! h).
      * rewrite lookup_insert_ne in Hp by done. by eapply Hf.
    + pose proof (size_subseteq (delete h (ta_pending_flashblock_marks s)) _
        (delete_subseteq _ _)). lia.
    + intros h' Hp. destruct (decide (h' = h)) as [->|Hne]; [apply lookup_delete_eq|].
      rewrite lookup_insert_ne in Hp by done. rewrite lookup_delete_ne by done. by apply Hd.
    + done.
  - unfold remove_cached_tx in H. destruct (ta_cache s !! h) eqn:Hh; simplify_eq; [|done].
    apply actor_inv_shrink_cache; [done|]. apply delete_subseteq.
  - destruct (dump_cache s rid) as [s1 r1] eqn:Hdc.
    assert (s' = s1) as -> by (destruct r1; by simplify_eq).
    apply dump_cache_cases in Hdc as [[-> _]|(rows & db & _ & _ & -> & _)]; [done|].
    apply actor_inv_shrink_cache; [by eapply actor_inv_frame|]. apply map_empty_subseteq.
  - apply actor_inv_shrink_cache; [done|]. apply map_empty_subseteq.
Qed.

Lemma handle_flush_request_inv s r : actor_inv s -> actor_inv (handle_flush_request s r).
Proof.
  intros Hi. destruct r as [|hs t now]; cbn; [done|].
  match goal with |- actor_inv (set_ctx _ ?s1) =>
    apply (actor_inv_frame s1); [|done|done|] end.
  - apply (actor_inv_shrink s); [done|apply delete_all_subseteq|].
    etrans; [apply map_filter_subseteq|]. apply delete_all_subseteq.
  - apply Hi.
Qed.

Lemma handle_flashblock_mark_inv s m : actor_inv s -> actor_inv (handle_flashblock_mark s m).
Proof.
  intros [Hk Hf Hb Hd Hc]. unfold handle_flashblock_mark.
  destruct (ta_cache s !! fm_tx_hash m) as [p|] eqn:Hp.
  - assert (Hm : pt_tx_hash (mark_tx m p) = pt_tx_hash p /\
      (pt_flashblock_timestamp_ms (mark_tx m p) = None <->
       pt_flashblock_index (mark_tx m p) = None)).
    { unfold mark_tx. destruct (pt_flashblock_timestamp_ms p) eqn:Ht; cbn; [|done].
      split; [done|]. by eapply Hf. }
    split; cbn; [| |done| |done].
    + intros h q Hq. destruct (decide (h = fm_tx_hash m)) as [->|Hne].
      * rewrite lookup_insert_eq in Hq. injection Hq as <-. rewrite (proj1 Hm). by eapply Hk.
      * rewrite lookup_insert_ne in Hq by done. by eapply Hk.
    + intros h q Hq. destruct (decide (h = fm_tx_hash m)) as [->|Hne].
      * rewrite lookup_insert_eq in Hq. injection Hq as <-. apply Hm.
      * rewrite lookup_insert_ne in Hq by done. by eapply Hf.
    + intros h Hq. apply Hd. destruct (decide (h = fm_tx_hash m)) as [->|Hne]; [by rewrite Hp|].
      by rewrite lookup_insert_ne in Hq.
  - destruct (Nat.leb_spec MAX_PENDING_FLASHBLOCK_MARKS (size (ta_pending_flashblock_marks s)));
      [done|].
    destruct (ta_pending_flashblock_marks s !! fm_tx_hash m) eqn:Hm; [done|].
    split; cbn; [done|done| | |done].
    + rewrite map_size_insert_None by done. lia.
    + intros h Hh. destruct (decide (h = fm_tx_hash m)) as [->|Hne].
      * rewrite Hp in Hh. by destruct Hh.
      * rewrite lookup_insert_ne by done. by apply Hd.
Qed.

Lemma actor_step_inv s e s' r : actor_inv s -> actor_step s e = (s', r) -> actor_inv s'.
Proof.
  intros Hi H. destruct e as [|m|q|m]; cbn [actor_step] in H; simplify_eq.
  - by eapply handle_message_inv.
  - by eapply handle_message_inv.
  - by apply handle_flush_request_inv.
  - by apply handle_flashblock_mark_inv.
Qed.

(** C1: in every state the actor can reach, whatever the interleaving of
    messages, flush requests and marks, the cache is keyed by the transactions'
    own hashes, a transaction has both flashblock fields or neither, at most
    1024 marks are buffered and none for a cached transaction, and the channels
    are closed exactly when the actor is shutting down. *)
Theorem reachable_inv (db : D) (s : TxActor) (H : reachable db s) : actor_inv s.
Proof.
  induction H as [n|s e s' r _ IH _ Hs]; [apply actor_inv_new|]. by eapply actor_step_inv.
Qed.

Lemma mark_uncached s m :
  ta_cache s !! fm_tx_hash m = None ->
  ta_pending_flashblock_marks s !! fm_tx_hash m = None ->
  (size (ta_pending_flashblock_marks s) < MAX_PENDING_FLASHBLOCK_MARKS)%nat ->
  handle_flashblock_mark s m =
  set_marks (<[fm_tx_hash m := (fm_timestamp_ms m, fm_index m)]>
    (ta_pending_flashblock_marks s)) s.
Proof.
  intros Hc Hm Hr. unfold handle_flashblock_mark. rewrite Hc, Hm.
  by rewrite (proj2 (Nat.leb_gt _ _) Hr).
Qed.

Lemma mark_cached s m p :
  ta_cache s !! fm_tx_hash m = Some p ->
  handle_flashblock_mark s m =
  set_cache (<[fm_tx_hash m := mark_tx m p]> (ta_cache s)) s.
Proof. intros Hp. unfold handle_flashblock_mark. by rewrite Hp. Qed.

Lemma keys_perm_dom {V} (m : gmap TxHash V) : (map_to_list m).*1 ≡ₚ elements (dom m).
Proof.
  apply NoDup_Permutation; [apply NoDup_fst_map_to_list|apply NoDup_elements|].
  intros h. rewrite elem_of_elements, elem_of_dom, list_elem_of_fmap. split.
  - intros ([h' v] & -> & Hv). apply elem_of_map_to_list in Hv. by eexists.
  - intros [v Hv]. exists (h, v). split; [done|]. by apply elem_of_map_to_list.
Qed.

(** C36: for a transaction that is not cached yet and of which no mark is
    buffered, and with room in the buffer of early marks (fewer than the 1024 it
    holds), a flashblock mark and the notice of the transaction it marks lead to
    the same state in either order, in which the cached transaction carries the
    mark.  (A mark that comes early to a full buffer is dropped.) *)
Theorem mark_order_irrelevant s (m : FlashblockMark) (start : Z) (end_ : option Z)
    (kind error : option string) (alive : bool)
    (Hc : ta_cache s !! fm_tx_hash m = None)
    (Hm : ta_pending_flashblock_marks s !! fm_tx_hash m = None)
    (Hroom : (size (ta_pending_flashblock_marks s) < MAX_PENDING_FLASHBLOCK_MARKS)%nat) :
  let sent := EMessage (SentRunTx (fm_tx_hash m) start end_ kind error alive) in
  let s1 := fst (actor_step (fst (actor_step s (EMark m))) sent) in
  let s2 := fst (actor_step (fst (actor_step s sent)) (EMark m)) in
  s1 = s2 /\
  exists p, ta_cache s1 !! fm_tx_hash m = Some p /\
    pt_flashblock_timestamp_ms p = Some (fm_timestamp_ms m) /\
    pt_flashblock_index p = Some (fm_index m).
Proof.
  cbn [actor_step handle_message fst]. rewrite mark_uncached by done.
  match goal with |- _ = handle_flashblock_mark ?b m /\ _ =>
    rewrite (mark_cached b m {| pt_tx_hash := fm_tx_hash m; pt_start_timestamp_ms := start;
      pt_end_timestamp_ms := end_; pt_kind := kind; pt_error := error;
      pt_flashblock_timestamp_ms := fst <$> ta_pending_flashblock_marks s !! fm_tx_hash m;
      pt_flashblock_index := snd <$> ta_pending_flashblock_marks s !! fm_tx_hash m |})
      by (cbn [ta_cache set_cache]; by rewrite lookup_insert_eq) end.
  rewrite Hm. unfold set_cache, set_marks, mark_tx. cbn. rewrite !lookup_insert_eq.
  split; [|by eexists]. f_equal.
  - by rewrite insert_insert_eq.
  - rewrite delete_insert_eq. done.
Qed.

(** The events that take a transaction out of the cache or put it in anew. *)
Definition touches (h : TxHash) (e : Event) : bool :=
  match e with
  | EMessage (SentRunTx h' _ _ _ _ _) => bool_decide (h' = h)
  | EMessage (RemovedRunTx h' _) => bool_decide (h' = h)
  | EMessage (DumpCache _ _) => true
  | EMessage (ClearCache _) => true
  | EFlush (RemoveConfirmed hs _ _) => bool_decide (h ∈ hs)
  | _ => false
  end.

(** The same transaction, maybe marked since. *)
Definition same_tx (p p' : PendingRunTx) : Prop :=
  pt_tx_hash p' = pt_tx_hash p /\ pt_start_timestamp_ms p' = pt_start_timestamp_ms p /\
  pt_end_timestamp_ms p' = pt_end_timestamp_ms p /\ pt_kind p' = pt_kind p /\
  pt_error p' = pt_error p /\
  (pt_flashblock_timestamp_ms p <> None -> p' = p).

Lemma same_tx_refl p : same_tx p p.
Proof. unfold same_tx. naive_solver. Qed.

Lemma same_tx_trans p q r : same_tx p q -> same_tx q r -> same_tx p r.
Proof.
  unfold same_tx. intros (? & ? & ? & ? & ? & Hq) (? & ? & ? & ? & ? & Hr).
  split_and!; try congruence. intros Hp. specialize (Hq Hp). subst q. auto.
Qed.

Lemma same_tx_mark m p : same_tx p (mark_tx m p).
Proof. unfold same_tx, mark_tx. by destruct (pt_flashblock_timestamp_ms p) eqn:?. Qed.

Lemma actor_step_keeps s e s' r h p :
  actor_step s e = (s', r) -> touches h e = false -> ta_cache s !! h = Some p ->
  exists p', ta_cache s' !! h = Some p' /\ same_tx p p'.
Proof.
  intros H Ht Hp. pose proof (same_tx_refl p) as Hrefl.
  destruct e as [|[ctx|a|h' st en k er a|h' a|rid a|a|n|a]|[|hs t now]|m];
    cbn in H, Ht; simplify_eq; eauto.
  - apply bool_decide_eq_false in Ht. exists p. split; [|done]. cbn. by rewrite lookup_insert_ne.
  - apply bool_decide_eq_false in Ht. unfold remove_cached_tx in H.
    destruct (ta_cache s !! h'); simplify_eq; [|by eauto]. exists p. split; [|done]. cbn.
    by rewrite lookup_delete_ne.
  - exists p. split; [|done]. cbn. by rewrite delete_all_lookup, Ht.
  - destruct (ta_cache s !! fm_tx_hash m) as [q|] eqn:Hq.
    + rewrite (mark_cached s m q Hq). destruct (decide (fm_tx_hash m = h)) as [<-|Hne].
      * rewrite Hp in Hq. injection Hq as <-. exists (mark_tx m p).
        cbn. rewrite lookup_insert_eq. split; [done|]. apply same_tx_mark.
      * exists p. cbn. by rewrite lookup_insert_ne.
    + exists p. split; [|done]. unfold handle_flashblock_mark. rewrite Hq.
      destruct (_ <=? _)%nat; [done|]. by destruct (ta_pending_flashblock_marks s !! _).
Qed.

(** While the loop runs, a cached transaction stays cached with its data
    unchanged, and its first flashblock mark is never overwritten, until an
    event for it (or a dump or clear of the whole cache) is handled. *)
Theorem pending_tx_kept s (l : list Event) s' (r : outcome ActorError unit) (h : TxHash)
    (p : PendingRunTx) (Hrun : run_actor s l = (s', r))
    (Hl : Forall (fun e => touches h e = false) l) (Hp : ta_cache s !! h = Some p) :
  exists p', ta_cache s' !! h = Some p' /\ same_tx p p'.
Proof.
  revert s p Hrun Hp. induction Hl as [|e l He Hl IH]; intros s p Hrun Hp; cbn in Hrun.
  - exists p. split; [|apply same_tx_refl]. by destruct (ta_status s); simplify_eq.
  - destruct (ta_status s).
    { simplify_eq. exists p. split; [done|apply same_tx_refl]. }
    destruct (actor_step s e) as [s1 r1] eqn:Hs.
    destruct (actor_step_keeps _ _ _ _ _ _ Hs He Hp) as (p1 & Hp1 & H1).
    destruct r1 as [r1|e1|]; simplify_eq; [|by eauto..].
    destruct (IH _ _ Hrun Hp1) as (p2 & Hp2 & H2). exists p2. split; [done|].
    by eapply same_tx_trans.
Qed.

Lemma dumped_row_hash p row : dumped_row p = Ok row -> rt_tx_hash row = pt_tx_hash p.
Proof. unfold dumped_row. intros H. by inv_outcome. Qed.

Lemma cache_values_hashes s :
  actor_inv s -> pt_tx_hash <$> cache_values s = (map_to_list (ta_cache s)).*1.
Proof.
  intros Hi. unfold cache_values. apply list_eq. intros i. rewrite !list_lookup_fmap.
  destruct (map_to_list (ta_cache s) !! i) as [[h p]|] eqn:Hl; [|done]. cbn. f_equal.
  apply (inv_keys s Hi). apply elem_of_map_to_list. by eapply list_elem_of_lookup_2.
Qed.

(** Dumping the cache either changes nothing but fails, or writes one row
    for each cached transaction, and no other, to the database, empties the
    cache and returns the rows. *)
Theorem dump_cache_spec s (run_id : Z) s' (r : outcome ActorError (list RunTx))
    (Hi : actor_inv s) (H : dump_cache s run_id = (s', r)) :
  match r with
  | Ok rows =>
      rt_tx_hash <$> rows ≡ₚ elements (dom (ta_cache s)) /\
      (forall row, row ∈ rows -> rt_block_number row = None /\ rt_gas_used row = None /\
         exists p, ta_cache s !! rt_tx_hash row = Some p /\
           rt_start_timestamp_ms row = pt_start_timestamp_ms p /\
           rt_kind row = pt_kind p /\ rt_error row = pt_error p) /\
      insert_run_txs (ta_db s) run_id rows = Ok (ta_db s') /\
      ta_cache s' = ∅
  | _ => s' = s
  end.
Proof.
  apply dump_cache_cases in H as [[-> Hr]|(rows & db & Hm & Hd & -> & ->)]; [by destruct r|].
  split_and!; [| |done|done].
  - assert (Hh : rt_tx_hash <$> rows = pt_tx_hash <$> cache_values s).
    { apply mapM_ok in Hm. clear -Hm. induction Hm as [|p row ps rows Hp _ IH]; [done|].
      cbn. f_equal; [by apply dumped_row_hash|done]. }
    rewrite Hh, cache_values_hashes by done. apply keys_perm_dom.
  - intros row Hrow. apply mapM_ok in Hm. apply list_elem_of_lookup in Hrow as [i Hi'].
    eapply Forall2_lookup_r in Hm as (p & Hp & Hd'); [|exact Hi'].
    pose proof (dumped_row_hash _ _ Hd') as Hh. unfold dumped_row, narrow64, checked in Hd'.
    inv_outcome. repeat case_bool; simplify_eq. split_and!; [done..|]. exists p.
    split_and!; [|done..]. cbn in Hh |- *.
    unfold cache_values in Hp. apply list_lookup_fmap_Some in Hp as ([h p'] & -> & Hl).
    apply list_elem_of_lookup_2, elem_of_map_to_list in Hl. cbn.
    by rewrite (inv_keys s Hi _ _ Hl).
Qed.
End actor_props.

(** ** Properties of the receipts of a block *)

Lemma find_receipt_some rs p r :
  find_receipt rs p = Some r -> r ∈ rs /\ rc_transaction_hash r = pt_tx_hash p.
Proof.
  unfold find_receipt. intros ([i r'] & Hf & ->)%fmap_Some.
  apply list_find_Some in Hf as (Hl & Hh & _). split; [by eapply list_elem_of_lookup_2|done].
Qed.

Lemma find_receipt_none rs p :
  find_receipt rs p = None -> forall r, r ∈ rs -> rc_transaction_hash r <> pt_tx_hash p.
Proof.
  unfold find_receipt. intros Hf. rewrite fmap_None in Hf. apply list_find_None in Hf.
  intros r Hr. by eapply Forall_forall in Hf.
Qed.

Lemma confirmed_elem l rs p r :
  (p, r) ∈ confirmed_txs l rs <-> p ∈ l /\ find_receipt rs p = Some r.
Proof.
  unfold confirmed_txs. rewrite list_elem_of_omap. split.
  - intros (q & Hq & Hr). destruct (find_receipt rs q) eqn:Hf; cbn in Hr; simplify_eq. done.
  - intros [Hp Hf]. exists p. rewrite Hf. done.
Qed.

Lemma confirmed_sublist l rs : (confirmed_txs l rs).*1 `sublist_of` l.
Proof.
  induction l as [|p l IH]; cbn; [constructor|].
  destruct (find_receipt rs p); cbn; [by apply sublist_skip|by apply sublist_cons].
Qed.

Section receipt_props.
Context {D : Type} `{DO : DbOps D} {P : Profile}.

Lemma process_block_receipts_ok snapshot (db db' : D) run_id responses all one block hashes :
  wait_for_block responses = Some block ->
  process_block_receipts snapshot db run_id responses all one = Some (db', Ok hashes) ->
  let confirmed := confirmed_txs snapshot (block_receipts all one block) in
  hashes = (fun p => pt_tx_hash p.1) <$> confirmed /\
  exists rows, mapM (confirmed_row block) confirmed = Ok rows /\
    (rows = [] /\ db' = db \/ insert_run_txs db run_id rows = Ok db').
Proof.
  unfold process_block_receipts, record_receipts. intros Hb H. destruct snapshot as [|p l].
  { simplify_eq. split; [done|]. exists []. auto. }
  rewrite Hb in H. cbn [mbind option_bind] in H. apply (inj Some) in H. cbv zeta in *.
  destruct (mapM (confirmed_row block) (confirmed_txs (p :: l) (block_receipts all one block)))
    as [rows|e|] eqn:Hm;
    [|simplify_eq..].
  destruct rows as [|row rows].
  - simplify_eq. split; [done|]. exists []. auto.
  - destruct (insert_run_txs db run_id (row :: rows)) eqn:Hd; simplify_eq. split; [done|].
    exists (row :: rows). auto.
Qed.

(** What a receipt's row says of a transaction. *)
Definition row_of (block : Block) (p : PendingRunTx) (r : Receipt) (row : RunTx) : Prop :=
  rt_tx_hash row = pt_tx_hash p /\ rt_block_number row = Some (bl_number block) /\
  rt_gas_used row = Some (rc_gas_used r) /\ rt_kind row = pt_kind p /\
  rt_error row = (if rc_status r then pt_error p else Some "execution reverted"%string) /\
  rt_start_timestamp_ms row = pt_start_timestamp_ms p /\
  rt_end_timestamp_ms row <> None.

Lemma confirmed_row_ok block p r row :
  confirmed_row block (p, r) = Ok row -> row_of block p r row.
Proof.
  unfold confirmed_row, narrow64, checked. intros H. inv_outcome. repeat case_bool; simplify_eq.
  unfold row_of, get_tx_error; cbn. split_and!; done.
Qed.

(** C8: recording a block's receipts for the actor's snapshot writes exactly
    one row for each cached transaction that has a receipt in the block, with
    the block's number, the receipt's gas and the transaction's error (or the
    revert), and names exactly these transactions; handling the removal they
    are named in then leaves all others in the cache. *)
Theorem flush_block_exact (s : TxActor (D := D)) (db' : D) (run_id : Z)
    (responses : list (outcome unit (option Block))) (all : outcome unit (option (list Receipt)))
    (one : TxHash -> outcome unit (option Receipt)) (block : Block) (hashes : list TxHash)
    (target now : Z) (Hi : actor_inv s) (Hb : wait_for_block responses = Some block)
    (H : process_block_receipts (cache_values s) (ta_db s) run_id responses all one
         = Some (db', Ok hashes)) :
  let receipts := block_receipts all one block in
  NoDup hashes /\
  (forall h, h ∈ hashes <->
     is_Some (ta_cache s !! h) /\ exists r, r ∈ receipts /\ rc_transaction_hash r = h) /\
  (exists rows, rt_tx_hash <$> rows = hashes /\
     (rows = [] /\ db' = ta_db s \/ insert_run_txs (ta_db s) run_id rows = Ok db') /\
     (forall row, row ∈ rows -> exists p r, ta_cache s !! rt_tx_hash row = Some p /\
        r ∈ receipts /\ rc_transaction_hash r = rt_tx_hash row /\ row_of block p r row)) /\
  let s' := handle_flush_request (set_db db' s) (RemoveConfirmed hashes target now) in
  (forall h, ta_cache s' !! h = if bool_decide (h ∈ hashes) then None else ta_cache s !! h) /\
  ta_db s' = db'.
Proof.
  intros receipts. apply (process_block_receipts_ok _ _ _ _ _ _ _ _ _ Hb) in H
    as (Hh & rows & Hm & Hd). fold receipts in Hh, Hm.
  assert (Hin : forall p, p ∈ cache_values s <-> ta_cache s !! pt_tx_hash p = Some p).
  { intros p. unfold cache_values. rewrite list_elem_of_fmap. split.
    - intros ([h q] & -> & Hq). apply elem_of_map_to_list in Hq. cbn.
      by rewrite (inv_keys s Hi _ _ Hq).
    - intros Hq. exists (pt_tx_hash p, p). split; [done|]. by apply elem_of_map_to_list. }
  split_and!.
  - assert (Hc : hashes = pt_tx_hash <$> (confirmed_txs (cache_values s) receipts).*1)
      by (rewrite Hh; apply (list_fmap_compose fst pt_tx_hash)).
    rewrite Hc.
    eapply sublist_NoDup; [|apply fmap_sublist, confirmed_sublist].
    rewrite cache_values_hashes by done. apply NoDup_fst_map_to_list.
  - intros h. subst hashes. rewrite list_elem_of_fmap. split.
    + intros ([p r] & -> & Hp). apply confirmed_elem in Hp as [Hp Hr].
      apply find_receipt_some in Hr as [Hr Hrh]. cbn. split; [|by exists r].
      exists p. by apply Hin.
    + intros ([p Hp] & r & Hr & Hrh). pose proof (inv_keys s Hi _ _ Hp) as Hk.
      destruct (find_receipt receipts p) as [r'|] eqn:Hf.
      * exists (p, r'). split; [done|]. apply confirmed_elem. split; [|done]. apply Hin. by rewrite Hk.
      * exfalso. eapply find_receipt_none; [exact Hf|exact Hr|congruence].
  - exists rows. split_and!; [|done|].
    + subst hashes. apply mapM_ok in Hm. clear -Hm.
      induction Hm as [|[p r] row l rows Hp _ IH]; [done|]. cbn.
      f_equal; [|done]. apply confirmed_row_ok in Hp. apply Hp.
    + intros row Hrow. apply mapM_ok in Hm. apply list_elem_of_lookup in Hrow as [i Hrow].
      eapply Forall2_lookup_r in Hm as ([p r] & Hpr & Hrow'); [|exact Hrow].
      apply list_elem_of_lookup_2, confirmed_elem in Hpr as [Hp Hr].
      apply find_receipt_some in Hr as [Hr Hrh]. apply confirmed_row_ok in Hrow'.
      exists p, r. pose proof (proj1 Hrow') as Hx. rewrite Hx. split_and!; [by apply Hin|done..].
  - split; [|done]. intros h. cbn. by rewrite delete_all_lookup.
Qed.

(** ** Properties of the loop *)

(** A stop signal (or message) ends the loop: whatever events follow, the
    state no longer changes; and the removal of a transaction that is not cached
    ends the loop with an error that names it. *)
Theorem run_actor_ends (s : TxActor (D := D)) (l : list Event) (Hs : ta_status s = Running) :
  run_actor s (EStop :: l) = (shut_down s, Ok tt) /\
  run_actor s (EMessage (Stop true) :: l) = (shut_down s, Ok tt) /\
  run_actor (shut_down s) l = (shut_down s, Ok tt) /\
  forall h alive, ta_cache s !! h = None ->
    run_actor s (EMessage (RemovedRunTx h alive) :: l) = (s, Err (CacheRemoveTx h)).
Proof.
  assert (Hd : run_actor (shut_down s) l = (shut_down s, Ok tt)) by by destruct l.
  split_and!.
  - cbn [run_actor]. rewrite Hs. exact Hd.
  - cbn [run_actor]. rewrite Hs. exact Hd.
  - exact Hd.
  - intros h alive Hh. cbn [run_actor]. rewrite Hs. cbn. unfold remove_cached_tx. by rewrite Hh.
Qed.
End receipt_props.

(** ** Properties of the flush task *)

Section flush_props.
Context {P : Profile} {W : Type} (env : FlushEnv W).

(** Worlds in which sending is over, the same transactions stay pending and new
    blocks keep coming: [stuck w t] for the actor's target block [t]. *)
Record stuck_env (pending : list PendingRunTx) (stuck : W -> Z -> Prop) : Prop := {
  se_block : forall w t, stuck w t -> exists w' nb,
    fe_block_number _ env w = (w', Ok nb) /\ stuck w' t /\ t < nb < t + 2 ^ 63;
  se_cancelled : forall w t, stuck w t -> fe_cancelled _ env w = true;
  se_snapshot : forall w t, stuck w t -> exists w' ctx,
    fe_snapshot _ env w = (w', GotSnapshot pending (Some ctx)) /\ stuck w' t /\
    ac_target_block ctx = t;
  se_process : forall w t l r bn, stuck w t -> exists w' hs,
    fe_process_block _ env w l r bn = (w', Ok hs) /\ stuck w' t;
  se_remove : forall w t hs nb, stuck w t -> stuck (fe_remove_confirmed _ env w hs nb) (Z.max t nb);
}.

Lemma process_blocks_stuck pending stuck run_id n w t :
  stuck_env pending stuck -> pending <> [] -> stuck w t ->
  exists w', process_blocks env run_id (seqZ t (Z.of_nat n)) w t pending =
    (w', Some (t + Z.of_nat n, pending)) /\ stuck w' (t + Z.of_nat n).
Proof.
  intros He Hne. revert w t. induction n as [|n IH]; intros w t Hw.
  - exists w. cbn. rewrite Z.add_0_r. done.
  - rewrite seqZ_cons by lia. cbn [process_blocks].
    destruct (se_process _ _ He w t pending run_id t Hw) as (w1 & hs & -> & H1).
    apply (se_remove _ _ He _ _ hs (t + 1)) in H1. rewrite Z.max_r in H1 by lia.
    destruct (se_snapshot _ _ He _ _ H1) as (w2 & ctx & -> & H2 & Hc). rewrite Hc.
    destruct pending as [|p pending]; [done|].
    replace (Z.pred (Z.of_nat (S n))) with (Z.of_nat n) by lia.
    replace (Z.succ t) with (t + 1) by lia.
    destruct (IH _ _ H2) as (w3 & Hp & H3). rewrite Hp.
    replace (t + Z.of_nat (S n)) with (t + 1 + Z.of_nat n) by lia. eauto.
Qed.

(** One round in a stuck world. *)
Lemma flush_iter_stuck pending stuck w st :
  stuck_env pending stuck -> pending <> [] -> stuck w (fl_target_block st) ->
  exists w' nb, stuck w' nb /\ fl_target_block st < nb < fl_target_block st + 2 ^ 63 /\
    flush_iter env w st =
      (w', stale_update true (length pending) nb (fl_target_block st) (with_target nb st)).
Proof.
  intros He Hne Hw. set (t := fl_target_block st) in *.
  destruct (se_block _ _ He _ _ Hw) as (w1 & nb & Hb & H1 & Hnb).
  destruct (se_snapshot _ _ He _ _ H1) as (w2 & ctx & Hs & H2 & Hc).
  destruct (process_blocks_stuck pending stuck (ac_run_id ctx) (Z.to_nat (nb - t)) w2 t
    He Hne H2) as (w3 & Hp & H3). rewrite Z2Nat.id in Hp, H3 by lia.
  replace (t + (nb - t)) with nb in Hp, H3 by lia.
  exists w3, nb. split_and!; [done|lia|lia|].
  unfold flush_iter. fold t. rewrite Hb. rewrite (proj2 (Z.leb_gt _ _)) by lia.
  rewrite Hs, Hc. rewrite (proj2 (Z.leb_gt _ _)) by lia.
  rewrite (se_cancelled _ _ He _ _ H2). destruct pending as [|p pending]; [done|].
  cbn [length Nat.eqb andb]. rewrite Hp. rewrite Z.max_id.
  by rewrite (se_cancelled _ _ He _ _ H3).
Qed.

(** The counter of stale blocks grows until the task stops. *)
Lemma stale_update_seen st n nb t :
  (0 < n)%nat -> fl_last_pending_count st = Some n -> 0 <= fl_stale_blocks st < STALE_BLOCK_LIMIT ->
  t < nb < t + 2 ^ 63 ->
  stale_update true n nb t st = FlushStop \/
  exists st', stale_update true n nb t st = FlushContinue st' /\
    fl_target_block st' = fl_target_block st /\ fl_last_pending_count st' = Some n /\
    fl_stale_blocks st < fl_stale_blocks st' < STALE_BLOCK_LIMIT.
Proof.
  intros Hn Hl Hs Hnb. unfold stale_update, STALE_BLOCK_LIMIT in *.
  rewrite (proj2 (Nat.ltb_lt 0 n) Hn). cbn [andb]. rewrite bool_decide_eq_true_2 by done.
  rewrite saturating_sub_spec. destruct (Z.leb_spec t nb); [|lia].
  rewrite arith_in by lia. destruct (Z.leb_spec 6 (fl_stale_blocks st + (nb - t) `max` 1)); [by left|].
  right. eexists. split; [reflexivity|]. cbn. split_and!; [done|done|lia|lia].
Qed.

(** Rounds that have seen the count before. *)
Lemma flush_rounds_seen pending stuck n k w st :
  stuck_env pending stuck -> pending <> [] -> stuck w (fl_target_block st) ->
  fl_last_pending_count st = Some (length pending) ->
  0 <= fl_stale_blocks st -> 6 - Z.of_nat n <= fl_stale_blocks st < STALE_BLOCK_LIMIT ->
  snd (flush_rounds env (n + k) w st) = FlushStop.
Proof.
  intros He Hne. unfold STALE_BLOCK_LIMIT.
  revert w st. induction n as [|n IH]; intros w st Hw Hl H0 Hs; [lia|].
  cbn [flush_rounds Nat.add].
  destruct (flush_iter_stuck _ _ w st He Hne Hw) as (w1 & nb & H1 & Hnb & ->).
  destruct (stale_update_seen (with_target nb st) (length pending) nb (fl_target_block st))
    as [->|(st' & -> & Htb & Hlc & Hsb)]; cbn in *; unfold STALE_BLOCK_LIMIT in *;
    [by destruct pending; cbn; [|lia]|done|lia..|done|].
  apply IH; [by rewrite Htb|done|lia|lia].
Qed.

(** Once sending is over, the flush task gives up: as long as new blocks
    come and the same transactions stay unconfirmed, it ends after at most seven
    rounds, whatever it had counted before. *)
Theorem flush_gives_up (pending : list PendingRunTx) (stuck : W -> Z -> Prop) (w : W)
    (st : FlushState) (He : stuck_env pending stuck) (Hne : pending <> [])
    (Hw : stuck w (fl_target_block st))
    (Hst : 0 <= fl_stale_blocks st < STALE_BLOCK_LIMIT) :
  snd (flush_rounds env 7 w st) = FlushStop.
Proof.
  destruct (decide (fl_last_pending_count st = Some (length pending))) as [Hl|Hl].
  - apply (flush_rounds_seen pending stuck 6 1); unfold STALE_BLOCK_LIMIT in *; try done; lia.
  - change 7%nat with (S 6). cbn [flush_rounds].
    destruct (flush_iter_stuck _ _ w st He Hne Hw) as (w1 & nb & H1 & Hnb & ->).
    unfold stale_update. rewrite (proj2 (Nat.ltb_lt 0 (length pending)))
      by (destruct pending; cbn; [done|lia]).
    cbn [andb fl_last_pending_count with_target]. rewrite bool_decide_eq_false_2 by done.
    apply (flush_rounds_seen pending stuck 6 0); cbn; unfold STALE_BLOCK_LIMIT; try done; lia.
Qed.
End flush_props.

(** ** Witnesses *)

Module TxActorWitness.

(** The actor after the given events, from a new one on the mock database. *)
Definition actor_after (l : list Event) : TxActor (D := MockDb) :=
  fst (run_actor (TxActor_new 0 mock_db) l).
Definition sent_event (h start : Z) : Event :=
  EMessage (SentRunTx h start None (Some "transfer"%string) None true).
Definition mark_of (h ts : Z) : FlashblockMark :=
  {| fm_tx_hash := h; fm_timestamp_ms := ts; fm_index := 2 |}.
Definition two_txs : list Event := [sent_event 1 1000; EMark (mark_of 3 1250); sent_event 2 1100].

Lemma run_reachable {D} `{DbOps D} (db : D) l s :
  reachable db s -> reachable db (fst (run_actor s l)).
Proof.
  revert s. induction l as [|e l IH]; intros s Hs; cbn; destruct (ta_status s) eqn:Hst; try done.
  destruct (actor_step s e) as [s1 r] eqn:Hr. destruct r; cbn; [apply IH| |];
    by eapply reach_step.
Qed.

Lemma after_inv l : actor_inv (actor_after l).
Proof.
  assert (H : reachable mock_db (actor_after l)) by apply run_reachable, reach_new.
  induction H as [n|s e s' r _ IH _ Hs]; [apply actor_inv_new|]. by eapply actor_step_inv.
Qed.

Lemma reachable_inv_witness :
  size (ta_cache (actor_after two_txs)) = 2%nat /\ actor_inv (actor_after two_txs).
Proof.
  split; [vm_compute; reflexivity|].
  apply (reachable_inv mock_db). apply run_reachable, reach_new.
Defined.

Lemma mark_order_irrelevant_witness :
  let s := actor_after two_txs in
  let sent := EMessage (SentRunTx 7 900 None None None true) in
  fst (actor_step (fst (actor_step s (EMark (mark_of 7 950)))) sent) =
  fst (actor_step (fst (actor_step s sent)) (EMark (mark_of 7 950))).
Proof.
  apply (mark_order_irrelevant (actor_after two_txs) (mark_of 7 950) 900 None None None true).
  - vm_compute. reflexivity.
  - vm_compute. reflexivity.
  - apply Nat.leb_le. vm_compute. reflexivity.
Defined.

Lemma pending_tx_kept_witness :
  exists p', ta_cache (fst (run_actor (actor_after two_txs)
      [EMark (mark_of 1 1300); EFlush (RemoveConfirmed [2] 5 2000)])) !! 1 = Some p' /\
    pt_start_timestamp_ms p' = 1000.
Proof.
  destruct (pending_tx_kept (actor_after two_txs)
    [EMark (mark_of 1 1300); EFlush (RemoveConfirmed [2] 5 2000)] _ _ 1
    (PendingRunTx_new 1 1000 (Some "transfer"%string) None) (surjective_pairing _))
    as (p' & Hp & Hs).
  - repeat constructor.
  - vm_compute. reflexivity.
  - exists p'. split; [exact Hp|]. apply Hs.
Defined.

Lemma dump_cache_spec_witness :
  exists s' rows, dump_cache (actor_after two_txs) 4 = (s', Ok rows) /\
    rt_tx_hash <$> rows ≡ₚ elements (dom (ta_cache (actor_after two_txs))) /\ ta_cache s' = ∅.
Proof.
  destruct (dump_cache (actor_after two_txs) 4) as [s' r] eqn:H.
  pose proof (dump_cache_spec (actor_after two_txs) 4 s' r (after_inv _) H) as Hs.
  destruct r as [rows|e|].
  - exists s', rows. split; [reflexivity|]. split; apply Hs.
  - exfalso. assert (Hok : is_ok (snd (dump_cache (actor_after two_txs) 4)) = true)
      by (vm_compute; reflexivity). rewrite H in Hok. discriminate.
  - exfalso. assert (Hok : is_ok (snd (dump_cache (actor_after two_txs) 4)) = true)
      by (vm_compute; reflexivity). rewrite H in Hok. discriminate.
Defined.

Definition block9 : Block := {| bl_number := 9; bl_timestamp := 3; bl_hashes := [2; 5] |}.
Definition responses9 : list (outcome unit (option Block)) := [Ok None; Err tt; Ok (Some block9)].
(** The node has no receipts of whole blocks. *)
Definition one_receipt (h : TxHash) : outcome unit (option Receipt) :=
  if h =? 2 then Ok (Some {| rc_transaction_hash := 2; rc_status := false; rc_gas_used := 21000 |})
  else Err tt.

Lemma flush_block_exact_witness :
  let s := actor_after two_txs in
  process_block_receipts (P := true) (cache_values s) (ta_db s) 4 responses9
    (Err tt) one_receipt = Some (mock_db, Ok [2]) /\
  NoDup [2] /\
  ta_cache (handle_flush_request (set_db mock_db s) (RemoveConfirmed [2] 10 4000)) !! 2 = None.
Proof.
  assert (H : process_block_receipts (P := true) (cache_values (actor_after two_txs))
      (ta_db (actor_after two_txs)) 4 responses9 (Err tt) one_receipt
      = Some (mock_db, Ok [2]))
    by (vm_compute; reflexivity).
  destruct (flush_block_exact (P := true) (actor_after two_txs) mock_db 4 responses9 (Err tt)
    one_receipt block9 [2] 10 4000 (after_inv _) eq_refl H) as (Hnd & _ & _ & Hs & _).
  split; [exact H|]. split; [exact Hnd|]. rewrite Hs. reflexivity.
Defined.

Lemma run_actor_ends_witness :
  run_actor (actor_after two_txs) [EMessage (RemovedRunTx 8 true); sent_event 9 1]
    = (actor_after two_txs, Err (CacheRemoveTx 8)).
Proof.
  apply (run_actor_ends (actor_after two_txs) [sent_event 9 1]); vm_compute; reflexivity.
Defined.

(** A node with a new block each time it is asked (the world is the actor's
    target block), on which one transaction never gets a receipt. *)
Definition lost : list PendingRunTx := [PendingRunTx_new 1 1000 None None].
Definition lost_env : FlushEnv Z := {|
  fe_block_number w := (w, Ok (w + 2));
  fe_cancelled _ := true;
  fe_snapshot w := (w, GotSnapshot lost (Some (ActorContext_new w 4)));
  fe_remove_confirmed w _ nb := Z.max w nb;
  fe_process_block w _ _ _ := (w, Ok []);
|}.

Lemma flush_gives_up_witness :
  snd (flush_rounds (P := true) lost_env 7 100
    {| fl_target_block := 100; fl_stale_blocks := 0; fl_last_pending_count := None |})
  = FlushStop.
Proof.
  apply (flush_gives_up lost_env lost (fun w t => w = t)).
  - split; cbn.
    + intros w t ->. exists t, (t + 2). split; [reflexivity|]. split; [reflexivity|lia].
    + reflexivity.
    + intros w t ->. exists t, (ActorContext_new t 4). split; [reflexivity|]. split; reflexivity.
    + intros w t l r bn ->. exists t, []. split; reflexivity.
    + intros w t hs nb ->. reflexivity.
  - discriminate.
  - reflexivity.
  - unfold STALE_BLOCK_LIMIT. cbn. lia.
Defined.
End TxActorWitness.
