(* ===== verification/Scenario.v ===== *)
(** * The test scenario ([core/src/test_scenario.rs], [core/src/util.rs])

    The state a scenario keeps between batches, [Scenario], and the operations
    that prepare transactions: the synchronisation of nonces, the fetched gas
    prices, the gas limits cached per calldata, [prepare_tx_request] and
    [prepare_spam], and the deployment and setup of contracts.  The node is the
    record [RpcNode] of its responses; signing is the class [Signing].  Methods on
    [&mut self] are computations of [stm]: an error keeps the effects before
    it.  Sending the prepared batches is in [Spam]. *)

From Stdlib Require Import Strings.Byte Strings.String.
From S2P Require Import Prelude Text Seeder Alloy Agents Db GenTypes GenUtil CoreError Templater TestFile Generator.

(** A signed transaction of alloy. *)
Class Signing `{Alloy} := {
  Envelope : Type;
  tx_build : TransactionRequest -> Signer -> outcome string Envelope;
  envelope_hash : Envelope -> TxHash;
  envelope_nonce : Envelope -> Z;
  envelope_sender : Envelope -> Address;
}.

(** What is documented of signing: the transaction keeps its nonce and is
    recovered to the signer's address. *)
Class SigningLaws `{Signing} := {
  build_nonce : forall t s e, tx_build t s = Ok e -> tx_nonce t = Some (envelope_nonce e);
  build_sender : forall t s e, tx_build t s = Ok e -> envelope_sender e = signer_address s;
}.

Section scenario.
Context `{A : Alloy, Sg : !Signing} {P : Profile}.

(** The responses of the node while a batch is prepared. *)
Record RpcNode := {
  rpc_gas_price : outcome Error Z;
  rpc_blob_base_fee : outcome Error Z;
  rpc_chain_id : outcome Error Z;
  rpc_transaction_count : Address -> outcome Error Z;
  rpc_estimate_gas : TransactionRequest -> outcome Error Z;
  rpc_get_code : Address -> outcome Error (list byte);
}.

Inductive ExecutionPayload :=
| SignedTx (envelope : Envelope) (req : NamedTxRequest)
| SignedTxBundle (envelopes : list Envelope) (reqs : list NamedTxRequest).

(** The fields of [TestScenario] the operations read or change; the fields of
    its [ExecutionContext] are among them. *)
Record Scenario := {
  sn_signer_map : gmap Address Signer;
  sn_nonces : gmap Address Z;
  sn_chain_id : Z;
  sn_gas_limits : gmap Z Z;
  sn_tx_type : TxType;
  sn_gas_price_adder : Z;
  sn_setcode_signer : Signer;
  sn_should_sync_nonces : bool;
  sn_rpc_batch_size : Z;
  sn_num_rpc_batches_sent : Z;
  sn_gas_price : option Z;
  sn_send_raw_tx_sync : bool;
  sn_bundle_client : bool;
  sn_last_fetched_gas_price : option Z;
  sn_last_fetched_blob_gas_price : option Z;
}.

Definition set_nonces (v : gmap Address Z) (s : Scenario) : Scenario := {|
  sn_signer_map := sn_signer_map s; sn_nonces := v; sn_chain_id := sn_chain_id s;
  sn_gas_limits := sn_gas_limits s; sn_tx_type := sn_tx_type s;
  sn_gas_price_adder := sn_gas_price_adder s; sn_setcode_signer := sn_setcode_signer s;
  sn_should_sync_nonces := sn_should_sync_nonces s; sn_rpc_batch_size := sn_rpc_batch_size s;
  sn_num_rpc_batches_sent := sn_num_rpc_batches_sent s; sn_gas_price := sn_gas_price s;
  sn_send_raw_tx_sync := sn_send_raw_tx_sync s; sn_bundle_client := sn_bundle_client s;
  sn_last_fetched_gas_price := sn_last_fetched_gas_price s;
  sn_last_fetched_blob_gas_price := sn_last_fetched_blob_gas_price s |}.

Definition set_gas_limits (v : gmap Z Z) (s : Scenario) : Scenario := {|
  sn_signer_map := sn_signer_map s; sn_nonces := sn_nonces s; sn_chain_id := sn_chain_id s;
  sn_gas_limits := v; sn_tx_type := sn_tx_type s;
  sn_gas_price_adder := sn_gas_price_adder s; sn_setcode_signer := sn_setcode_signer s;
  sn_should_sync_nonces := sn_should_sync_nonces s; sn_rpc_batch_size := sn_rpc_batch_size s;
  sn_num_rpc_batches_sent := sn_num_rpc_batches_sent s; sn_gas_price := sn_gas_price s;
  sn_send_raw_tx_sync := sn_send_raw_tx_sync s; sn_bundle_client := sn_bundle_client s;
  sn_last_fetched_gas_price := sn_last_fetched_gas_price s;
  sn_last_fetched_blob_gas_price := sn_last_fetched_blob_gas_price s |}.

Definition set_gas_price_adder (v : Z) (s : Scenario) : Scenario := {|
  sn_signer_map := sn_signer_map s; sn_nonces := sn_nonces s; sn_chain_id := sn_chain_id s;
  sn_gas_limits := sn_gas_limits s; sn_tx_type := sn_tx_type s;
  sn_gas_price_adder := v; sn_setcode_signer := sn_setcode_signer s;
  sn_should_sync_nonces := sn_should_sync_nonces s; sn_rpc_batch_size := sn_rpc_batch_size s;
  sn_num_rpc_batches_sent := sn_num_rpc_batches_sent s; sn_gas_price := sn_gas_price s;
  sn_send_raw_tx_sync := sn_send_raw_tx_sync s; sn_bundle_client := sn_bundle_client s;
  sn_last_fetched_gas_price := sn_last_fetched_gas_price s;
  sn_last_fetched_blob_gas_price := sn_last_fetched_blob_gas_price s |}.

Definition set_batches_sent (v : Z) (s : Scenario) : Scenario := {|
  sn_signer_map := sn_signer_map s; sn_nonces := sn_nonces s; sn_chain_id := sn_chain_id s;
  sn_gas_limits := sn_gas_limits s; sn_tx_type := sn_tx_type s;
  sn_gas_price_adder := sn_gas_price_adder s; sn_setcode_signer := sn_setcode_signer s;
  sn_should_sync_nonces := sn_should_sync_nonces s; sn_rpc_batch_size := sn_rpc_batch_size s;
  sn_num_rpc_batches_sent := v; sn_gas_price := sn_gas_price s;
  sn_send_raw_tx_sync := sn_send_raw_tx_sync s; sn_bundle_client := sn_bundle_client s;
  sn_last_fetched_gas_price := sn_last_fetched_gas_price s;
  sn_last_fetched_blob_gas_price := sn_last_fetched_blob_gas_price s |}.

Definition set_fetched (gas blob : option Z) (s : Scenario) : Scenario := {|
  sn_signer_map := sn_signer_map s; sn_nonces := sn_nonces s; sn_chain_id := sn_chain_id s;
  sn_gas_limits := sn_gas_limits s; sn_tx_type := sn_tx_type s;
  sn_gas_price_adder := sn_gas_price_adder s; sn_setcode_signer := sn_setcode_signer s;
  sn_should_sync_nonces := sn_should_sync_nonces s; sn_rpc_batch_size := sn_rpc_batch_size s;
  sn_num_rpc_batches_sent := sn_num_rpc_batches_sent s; sn_gas_price := sn_gas_price s;
  sn_send_raw_tx_sync := sn_send_raw_tx_sync s; sn_bundle_client := sn_bundle_client s;
  sn_last_fetched_gas_price := gas; sn_last_fetched_blob_gas_price := blob |}.

(** ** Fetching with a fallback *)

(** The cache after the fetch, and its result. *)
Definition fetch_with_cache {E} (cache : option Z) (fetch : outcome E Z)
  : option Z * outcome E Z :=
  match fetch with
  | Ok value => (Some value, Ok value)
  | Err e =>
      match cache with
      | Some cached => (cache, Ok cached)
      | None => (cache, Err e)
      end
  | Panic => (cache, Panic)
  end.

(** [op] on the attempt's number. *)
Definition retry_once {E T} (op : nat -> outcome E T) : outcome E T :=
  match op 0%nat with Err _ => op 1%nat | r => r end.

Definition fetch_gas_price (rpc : RpcNode) : stm Scenario Error Z := fun s =>
  let '(cache, r) := fetch_with_cache (sn_last_fetched_gas_price s) (rpc_gas_price rpc) in
  (set_fetched cache (sn_last_fetched_blob_gas_price s) s, r).

(** 0 for other types, and when there is no price to fall back to. *)
Definition fetch_blob_gas_price (rpc : RpcNode) : stm Scenario Error Z := fun s =>
  match sn_tx_type s with
  | Eip4844 =>
      let '(cache, r) :=
        fetch_with_cache (sn_last_fetched_blob_gas_price s) (rpc_blob_base_fee rpc) in
      (set_fetched (sn_last_fetched_gas_price s) cache s,
       match r with Ok price => Ok price | Err _ => Ok 0 | Panic => Panic end)
  | _ => (s, Ok 0)
  end.

(** [get_block_time], on the number of the latest block and the timestamps of
    the blocks 1 and 2, where the node has them. *)
Definition get_block_time (block_num : outcome Error Z)
    (block : Z -> outcome Error (option Z)) : outcome Error Z :=
  n ← block_num;
  if 2 <=? n then
    b1 ← block 1; b2 ← block 2;
    match b1, b2 with
    | Some t1, Some t2 => d ← arith 64 (t2 - t1); mret (Z.max d 1)
    | _, _ => mret 1
    end
  else mret 1.

(** ** Nonces *)

(** The free function: every address is asked for; those that fail are left
    as they are.  The order of the answers does not matter, since each address
    is asked once ([wallet_map] may hold the set-code signer, whose two answers
    agree). *)
Definition sync_nonces_map (wallet_map : gmap Address Signer) (nonces : gmap Address Z)
    (rpc : RpcNode) (setcode_signer_address : Address) : gmap Address Z :=
  let all_addrs := (map_to_list wallet_map).*1 ++ [setcode_signer_address] in
  let answers := omap (fun addr =>
    match rpc_transaction_count rpc addr with Ok n => Some (addr, n) | _ => None end)
    all_addrs in
  fold_left (fun m an => <[an.1 := an.2]> m) answers nonces.

(** The method. *)
Definition sync_nonces (rpc : RpcNode) : stm Scenario Error unit := fun s =>
  if sn_should_sync_nonces s
  then (set_nonces (sync_nonces_map (sn_signer_map s) (sn_nonces s) rpc
                      (signer_address (sn_setcode_signer s))) s, Ok tt)
  else (s, Ok tt).

(** ** Preparing one transaction *)

(** [TxKey::key]: the hash of the calldata. *)
Definition gas_key (t : TransactionRequest) : Z := from_be (keccak256 (tx_input t)).

(** The request sent for estimation. (Its blob hashes, which follow from the
    sidecar, are left out.) *)
Definition estimation_request (blob_gas_price : Z) (t : TransactionRequest)
  : TransactionRequest :=
  let t := match tx_sidecar t with
           | Some _ => set_blob_fee (Some blob_gas_price) t
           | None => t
           end in
  match tx_max_priority_fee_per_gas t with
  | Some priority_fee =>
      if default 0 (tx_max_fee_per_gas t) <? priority_fee
      then set_1559_fees (Some priority_fee) (Some priority_fee) (tx_chain_id t) t
      else t
  | None => t
  end.

(** The code of a called address is asked for only to warn when it has none. *)
Definition check_code (rpc : RpcNode) (t : TransactionRequest) : outcome Error unit :=
  match tx_to t with
  | Some (Call address) =>
      match tx_input t with
      | [] => mret tt
      | _ => rpc_get_code rpc address;; mret tt
      end
  | _ => mret tt
  end.

Definition update_gas_map (rpc : RpcNode) (tx_req : TransactionRequest) (blob_gas_price : Z)
  : stm Scenario Error Z :=
  let key := gas_key tx_req in
  limits ← gets sn_gas_limits;
  match limits !! key with
  | Some _ => mret key
  | None =>
      let tx_req := estimation_request blob_gas_price tx_req in
      gas_limit ← lift (match tx_gas tx_req with
                        | Some gas => mret gas
                        | None => check_code rpc tx_req;; rpc_estimate_gas rpc tx_req
                        end);
      modify (fun s => set_gas_limits (<[key := gas_limit]> (sn_gas_limits s)) s);;
      mret key
  end.

(** The nonces are advanced before the gas is estimated, and stay so when the
    estimation fails. *)
Definition take_nonces (tx_req : TransactionRequest) : stm Scenario Error (Address * Z) :=
  from ← lift (ok_or (Runtime TxMissingFromAddress) (tx_from tx_req));
  s ← gets id;
  nonce ← lift (ok_or (Runtime (NonceMissing from)) (sn_nonces s !! from));
  let setcode_signer_addr := signer_address (sn_setcode_signer s) in
  setcode_signer_nonce ← lift (ok_or (Runtime (NonceMissing from))
                                 (sn_nonces s !! setcode_signer_addr));
  nonce' ← lift (arith 64 (nonce + 1));
  modify (fun s => set_nonces (<[from := nonce']> (sn_nonces s)) s);;
  match tx_authorization_list tx_req with
  | Some _ =>
      setcode_nonce' ← lift (arith 64 (setcode_signer_nonce + 1));
      modify (fun s => set_nonces (<[setcode_signer_addr := setcode_nonce']> (sn_nonces s)) s)
  | None => mret tt
  end;;
  mret (from, nonce).

Definition prepare_tx_request (rpc : RpcNode) (gas_price blob_gas_price : Z)
    (tx_req : TransactionRequest) : stm Scenario Error (TransactionRequest * Signer) :=
  '(from, nonce) ← take_nonces tx_req;
  key ← update_gas_map rpc tx_req blob_gas_price;
  s ← gets id;
  gas_limit ← lift (ok_or (Runtime GasLimitMissingFromMap) (sn_gas_limits s !! key));
  signer ← lift (ok_or (Runtime (SignerMissingFromMap from)) (sn_signer_map s !! from));
  let full_tx := set_nonce (Some nonce) tx_req in
  let priority_fee := default (gas_price / 10) (tx_max_priority_fee_per_gas tx_req) in
  mret (complete_tx_request full_tx (sn_tx_type s) gas_price priority_fee gas_limit
          (sn_chain_id s) blob_gas_price, signer).

Definition sign_tx (ts : TransactionRequest * Signer) : outcome Error Envelope :=
  map_err TransactionBuilderEth (tx_build ts.1 ts.2).

(** ** Preparing a batch *)

Definition prepare_payload (rpc : RpcNode) (gas_price blob_gas_price : Z) (tx : ExecutionRequest)
  : stm Scenario Error ExecutionPayload :=
  match tx with
  | ExecBundle reqs =>
      has_client ← gets sn_bundle_client;
      lift (ensure has_client (Runtime (InvalidParams BuilderUrlRequired)));;
      bundle_txs ← stm_mapM (fun req =>
          ts ← prepare_tx_request rpc gas_price blob_gas_price (nr_tx req);
          lift (sign_tx ts)) reqs;
      mret (SignedTxBundle bundle_txs reqs)
  | ExecTx req =>
      ts ← prepare_tx_request rpc gas_price blob_gas_price (nr_tx req);
      tx_envelope ← lift (sign_tx ts);
      mret (SignedTx tx_envelope
              {| nr_name := nr_name req; nr_kind := nr_kind req; nr_tx := ts.1 |})
  end.

Definition adjusted_gas_price (adder price : Z) : outcome Error Z :=
  if adder <? 0 then arith 128 (price - Z.abs adder) else arith 128 (price + adder).

(** The two prices of a batch: [to::<u128>()] of the given price panics when it
    does not fit. *)
Definition batch_prices (rpc : RpcNode) : stm Scenario Error (Z * Z) :=
  blob_gas_price ← fetch_blob_gas_price rpc;
  given ← gets sn_gas_price;
  match given with
  | Some override_price =>
      p ← lift (unwrap (checked 128 override_price));
      mret (p, blob_gas_price)
  | None =>
      gas_price ← fetch_gas_price rpc;
      adder ← gets sn_gas_price_adder;
      g ← lift (adjusted_gas_price adder gas_price);
      b ← lift (adjusted_gas_price adder blob_gas_price);
      mret (g, b)
  end.

Definition prepare_spam (rpc : RpcNode) (tx_requests : list ExecutionRequest)
  : stm Scenario Error (list ExecutionPayload) :=
  prices ← batch_prices rpc;
  stm_mapM (prepare_payload rpc prices.1 prices.2) tx_requests.

(** ** Deployments and setup

    A receipt, and the responses of the node to the tasks: the polls of a
    contract's code are those made before the ten seconds are over. *)
Record TxReceipt := {
  tr_hash : TxHash;
  tr_status : bool;
  tr_contract_address : option Address;
}.

Record TaskRpc := {
  tk_gas_price : outcome Error Z;
  tk_estimate_gas : TransactionRequest -> outcome Error Z;
  tk_send : Envelope -> outcome Error TxReceipt;
  tk_code_polls : Address -> list (outcome Error (list byte));
}.

Definition CODE_WAIT_SECS : Z := 10.

(** A poll that fails counts as no code. *)
Definition code_visible (polls : list (outcome Error (list byte))) : bool :=
  existsb (fun r => match r with Ok (_ :: _) => true | _ => false end) polls.

Section deployments.
Context {C : Type} `{PC : PlanConfig C, TS : TemplateSyntax C}.
Context {D : Type} `{DO : DbOps D}.
Context {Sd : Type} `{SV : SeedValue Sd, SD : Seeder Sd}.
Variables (config : C) (rand_seed : Sd) (agent_store : AgentStore) (rpc_url : string)
  (genesis_hash : TxHash) (scenario_label : option string) (groth16_proof : nat -> string).

(** The [Generator] of a scenario. *)
Definition gen_ctx (rpc : RpcNode) (s : Scenario) : GenCtx (C := C) (Sd := Sd) := {|
  gc_conf := config; gc_fuzz_seeder := rand_seed; gc_agent_store := agent_store;
  gc_rpc_url := rpc_url; gc_chain_id := sn_chain_id s;
  gc_transaction_count := rpc_transaction_count rpc; gc_nonce_map := sn_nonces s;
  gc_setcode_signer := sn_setcode_signer s; gc_genesis_hash := genesis_hash;
  gc_scenario_label := scenario_label; gc_groth16_proof := groth16_proof |}.

(** The task that deploys one contract, on the database. *)
Definition deploy_contract (node : TaskRpc) (db : D) (gas_price blob_gas_price chain_id : Z)
    (tx_type : TxType) (signer : Signer) (tx_req : NamedTxRequest) : outcome Error D :=
  gas_limit ← tk_estimate_gas node (nr_tx tx_req);
  let tx := complete_tx_request (nr_tx tx_req) tx_type gas_price (gas_price / 10) gas_limit
              chain_id blob_gas_price in
  signed_tx ← sign_tx (tx, signer);
  receipt ← tk_send node signed_tx;
  let contract_address := default 0 (tr_contract_address receipt) in
  ensure (code_visible (tk_code_polls node contract_address))
    (Runtime (ContractCodeNotVisible contract_address CODE_WAIT_SECS));;
  match nr_name tx_req with
  | Some name =>
      map_err ErrDb (insert_named_txs db
        [NamedTx_new (scenario_db_key name scenario_label) (tr_hash receipt)
           (tr_contract_address receipt)] rpc_url genesis_hash)
  | None => mret db
  end.

(** The task of one setup step: a step whose gas cannot be estimated is
    skipped. *)
Definition setup_task (node : TaskRpc) (db : D) (blob_base_fee chain_id : Z)
    (tx_type : TxType) (signer : Signer) (tx_req : NamedTxRequest) : outcome Error D :=
  gas_price ← tk_gas_price node;
  let gas := match tx_gas (nr_tx tx_req) with
             | Some gas => Ok gas
             | None => tk_estimate_gas node (nr_tx tx_req)
             end in
  match gas with
  | Err _ => mret db
  | Panic => Panic
  | Ok gas_limit =>
      let tx := complete_tx_request (nr_tx tx_req) tx_type gas_price (gas_price / 10) gas_limit
                  chain_id blob_base_fee in
      signed_tx ← sign_tx (tx, signer);
      receipt ← tk_send node signed_tx;
      ensure (tr_status receipt)
        (Runtime (SetupTxReverted
                    (default "" (match nr_name tx_req with Some n => Some n | None => nr_kind tx_req end))
                    (dec (tr_hash receipt))));;
      match nr_name tx_req with
      | Some name =>
          map_err ErrDb (insert_named_txs db
            [NamedTx_new name (tr_hash receipt) (tr_contract_address receipt)]
            rpc_url genesis_hash)
      | None => mret db
      end
  end.

(** A spawned task: the database after it and the outcome of awaiting it, where
    a panic is a join error. *)
Definition spawn_task (db : D) (task : outcome Error D) : D * option (outcome Error unit) :=
  match task with
  | Ok db => (db, Some (Ok tt))
  | Err e => (db, Some (Err e))
  | Panic => (db, Some (Err (Callback "task panicked")))
  end.

(** A sender without a wallet is a panic for a deployment, an error for a setup
    step. *)
Definition on_create (node : TaskRpc) (gas_price blob_gas_price chain_id : Z) (s : Scenario)
    (db : D) (tx_req : NamedTxRequest) : outcome Error (D * option (outcome Error unit)) :=
  from ← ok_or (Runtime NamedTxMissingFromAddress) (tx_from (nr_tx tx_req));
  wallet ← unwrap (sn_signer_map s !! from);
  mret (spawn_task db (deploy_contract node db gas_price blob_gas_price chain_id
                         (sn_tx_type s) wallet tx_req)).

Definition on_setup (node : TaskRpc) (blob_base_fee : Z) (s : Scenario)
    (db : D) (tx_req : NamedTxRequest) : outcome Error (D * option (outcome Error unit)) :=
  from ← ok_or (Runtime NamedTxMissingFromAddress) (tx_from (nr_tx tx_req));
  signer ← ok_or (Runtime (PrivateKeyMissing from)) (sn_signer_map s !! from);
  mret (spawn_task db (setup_task node db blob_base_fee (sn_chain_id s) (sn_tx_type s)
                         signer tx_req)).

Definition deploy_contracts (rpc : RpcNode) (node : TaskRpc) (db : D) : stm Scenario Error D :=
  gas_price ← lift (rpc_gas_price rpc);
  blob_gas_price ← fetch_blob_gas_price rpc;
  chain_id ← lift (rpc_chain_id rpc);
  s ← gets id;
  r ← lift (load_txs (gen_ctx rpc s) db
              (PlanCreate (on_create node gas_price blob_gas_price chain_id s)));
  modify (set_nonces r.2.2);;
  mret r.1.

Definition run_setup (rpc : RpcNode) (node : TaskRpc) (db : D) : stm Scenario Error D :=
  blob_base_fee ← fetch_blob_gas_price rpc;
  s ← gets id;
  r ← lift (load_txs (gen_ctx rpc s) db (PlanSetup (on_setup node blob_base_fee s)));
  modify (set_nonces r.2.2);;
  mret r.1.

(** ** The transactions of a run, in chunks of one period each *)

Definition no_callback (db : D) (req : NamedTxRequest)
  : outcome Error (D * option (outcome Error unit)) := Ok (db, None).

Definition get_spam_tx_chunks (rpc : RpcNode) (s : Scenario) (db : D)
    (txs_per_period num_periods : Z) : outcome Error (list (list ExecutionRequest)) :=
  n ← arith 64 (txs_per_period * num_periods);
  r ← load_txs (gen_ctx rpc s) db (PlanSpam n no_callback);
  chunks (Z.to_nat txs_per_period) r.2.1.

(** ** Costs *)

(** [U256::from(gas_price * gas) + value], the fee a 128-bit product. *)
Definition tx_cost (tx : TransactionRequest) : outcome Error Z :=
  let gas_price := default (default 0 (tx_gas_price tx)) (tx_max_fee_per_gas tx) in
  gas_price ← match tx_max_priority_fee_per_gas tx with
              | Some priority_fee => arith 128 (gas_price + priority_fee)
              | None => mret gas_price
              end;
  fee ← arith 128 (gas_price * default 0 (tx_gas tx));
  mret (wrap 256 (fee + default 0 (tx_value tx))).

Definition max_list (l : list Z) : option Z :=
  fold_left (fun acc x => Some (match acc with Some m => Z.max m x | None => x end)) l None.

(** The requests of a payload, prepared for a single transaction. *)
Definition payload_requests (p : ExecutionPayload) : list NamedTxRequest :=
  match p with SignedTx _ req => [req] | SignedTxBundle _ reqs => reqs end.

(** On the temporary scenario: a sample of the spam transactions is prepared
    twice, once as a batch and once for its cost. *)
Definition max_spam_cost (rpc : RpcNode) (db : D) : stm Scenario Error Z :=
  s ← gets id;
  let n := match get_spam_steps config with Ok l => Z.of_nat (length l) | _ => 0 end in
  r ← lift (load_txs (gen_ctx rpc s) db (PlanSpam n no_callback));
  payloads ← prepare_spam rpc r.2.1;
  blob_gas_price ← fetch_blob_gas_price rpc;
  given ← gets sn_gas_price;
  gas_price ← lift (match given with
                    | Some p => unwrap (checked 128 p)
                    | None => rpc_gas_price rpc
                    end);
  prepared ← stm_mapM (fun req => prepare_tx_request rpc gas_price blob_gas_price (nr_tx req))
               (payloads ≫= payload_requests);
  costs ← lift (mapM (M := outcome Error) (fun ts : TransactionRequest * Signer => tx_cost ts.1)
                  prepared);
  lift (ok_or (Runtime SpamTxsEmpty) (max_list costs)).

(** What setup consumed, from the balances before and after. *)
Definition setup_cost (start_balances : gmap Address Z) (balance : Address -> outcome Error Z)
  : outcome Error Z :=
  fold_steps (fun total ab =>
    new_balance ← balance ab.1;
    mret (if ab.2 <=? new_balance then total else wrap 256 (total + (ab.2 - new_balance))))
    0 (map_to_list start_balances).

(** The amount each account of the simulation gets. *)
Definition ETH_TO_WEI : Z := 10 ^ 18.
Definition sim_fund_amount (num_addresses : Z) : Z :=
  if 999 <=? num_addresses then 999999 * ETH_TO_WEI / num_addresses else 1000 * ETH_TO_WEI.
End deployments.
End scenario.

(** ** Properties of fetching *)

(** A sequence of fetches that share one cache. *)
Fixpoint fetch_all {E} (cache : option Z) (responses : list (outcome E Z)) : list (outcome E Z) :=
  match responses with
  | [] => []
  | r :: responses =>
      let '(cache, out) := fetch_with_cache cache r in out :: fetch_all cache responses
  end.

(** The last response that succeeded. *)
Definition last_good {E} (cache : option Z) (responses : list (outcome E Z)) : option Z :=
  fold_left (fun acc r => match r with Ok v => Some v | _ => acc end) responses cache.

Lemma fetch_all_lookup {E} cache (responses : list (outcome E Z)) i r :
  responses !! i = Some r ->
  fetch_all cache responses !! i =
  Some (match r, last_good cache (take i responses) with
        | Err _, Some cached => Ok cached
        | _, _ => r
        end).
Proof.
  revert cache i. induction responses as [|x responses IH]; intros cache [|i] H; [done..| |].
  - injection H as ->. cbn. destruct r as [v|e|], cache; done.
  - cbn in H |- *. destruct x as [v|e|], cache as [c|]; cbn; by apply IH.
Qed.

(** Of a sequence of price fetches, each that succeeds gives its own price,
    and each that fails gives the last price fetched before it, or its error
    when there is none. *)
Theorem fetch_falls_back {E} (responses : list (outcome E Z)) (i : nat) (r : outcome E Z)
    (Hr : responses !! i = Some r) :
  exists out, fetch_all None responses !! i = Some out /\
    (forall v, r = Ok v -> out = Ok v) /\
    (forall e, r = Err e ->
       (forall j v, (j < i)%nat -> responses !! j = Some (Ok v) ->
          (forall k w, (j < k < i)%nat -> responses !! k <> Some (Ok w)) -> out = Ok v) /\
       ((forall j v, (j < i)%nat -> responses !! j <> Some (Ok v)) -> out = Err e)).
Proof.
  eexists. split; [by apply fetch_all_lookup|].
  split; [by intros v ->|]. intros e ->.
  assert (Hg : forall l (c : option Z),
    (forall v, v ∈ l -> forall w, v <> Ok w) -> last_good (E := E) c l = c).
  { intros l. induction l as [|x l IH] using rev_ind; intros c Hl; [done|].
    unfold last_good. rewrite fold_left_app. cbn.
    destruct x as [v|?|]; [|by apply IH; intros v Hv; apply Hl; set_solver..].
    exfalso. by apply (Hl (Ok v) ltac:(set_solver) v). }
  split.
  - intros j v Hj Hv Hk. rewrite <- (take_drop (S j) (take i responses)).
    unfold last_good. rewrite fold_left_app. fold (last_good (E := E)).
    rewrite take_take, Nat.min_l by lia.
    rewrite (take_S_r _ _ _ Hv), fold_left_app. cbn [fold_left].
    fold (last_good (Some v) (drop (S j) (take i responses))). rewrite Hg; [done|].
    intros x Hx w ->. apply list_elem_of_lookup in Hx as [k Hx].
    rewrite lookup_drop in Hx. apply lookup_take_Some in Hx as [Hx Hlt].
    by apply (Hk (S j + k)%nat w); [lia|].
  - intros Hn. rewrite Hg; [done|]. intros x Hx w ->.
    apply list_elem_of_lookup in Hx as [k Hx]. apply lookup_take_Some in Hx as [Hx Hlt].
    by apply (Hn k w).
Qed.

(** ** Properties of preparing transactions *)

Section prepare_props.
Context `{A : Alloy, Sg : !Signing, L : !SigningLaws} {P : Profile}.
Implicit Types s : Scenario.

(** What preparing never changes. *)
Definition same_setting s s' : Prop :=
  (sn_signer_map s' = sn_signer_map s /\ sn_setcode_signer s' = sn_setcode_signer s) /\
  sn_tx_type s' = sn_tx_type s /\ sn_chain_id s' = sn_chain_id s.

Lemma same_setting_refl s : same_setting s s.
Proof. done. Qed.

Lemma same_setting_trans s1 s2 s3 :
  same_setting s1 s2 -> same_setting s2 s3 -> same_setting s1 s3.
Proof. unfold same_setting. intuition congruence. Qed.

Lemma update_gas_map_ok rpc t blob s s' k :
  update_gas_map rpc t blob s = (s', Ok k) ->
  k = gas_key t /\
  (exists g, sn_gas_limits s' = <[gas_key t := g]> (sn_gas_limits s) /\
     (sn_gas_limits s !! gas_key t = Some g \/ sn_gas_limits s !! gas_key t = None)) /\
  sn_nonces s' = sn_nonces s /\ same_setting s s'.
Proof.
  unfold update_gas_map. intros H. apply stm_bind_ok in H as (s1 & limits & H1 & H).
  apply stm_gets_ok in H1 as [-> ->].
  destruct (sn_gas_limits s !! gas_key t) as [g|] eqn:Hg; inv_stm.
  - split_and!; [done| |done|done]. exists g. split; [by rewrite insert_id|by left].
  - split_and!; [done| |done|done]. eexists. split; [reflexivity|by right].
Qed.

(** The gas limit of a calldata is asked for once: after a request with
    this calldata every other one with the same calldata, whoever sends it to
    whatever address, takes the limit found then, without asking the node; a
    limit that is known is never replaced. *)
Theorem gas_limit_cached rpc (t : TransactionRequest) (blob : Z) s s' (k : Z)
    (H : update_gas_map rpc t blob s = (s', Ok k)) :
  (exists g, sn_gas_limits s' !! k = Some g) /\
  (forall k' g, sn_gas_limits s !! k' = Some g -> sn_gas_limits s' !! k' = Some g) /\
  forall rpc' t' blob', tx_input t' = tx_input t ->
    update_gas_map rpc' t' blob' s' = (s', Ok k).
Proof.
  apply update_gas_map_ok in H as (-> & (g & Hg & Hold) & _).
  assert (Hk : sn_gas_limits s' !! gas_key t = Some g) by by rewrite Hg, lookup_insert_eq.
  split_and!; [by eexists| |].
  - intros k' g' Hk'. rewrite Hg. destruct (decide (gas_key t = k')) as [<-|Hne].
    + rewrite lookup_insert_eq. destruct Hold; congruence.
    + by rewrite lookup_insert_ne.
  - intros rpc' t' blob' Ht. unfold update_gas_map.
    assert (gas_key t' = gas_key t) as Hgk by by unfold gas_key; rewrite Ht.
    unfold mbind, stm_bind, gets. rewrite Hgk, Hk. reflexivity.
Qed.

(** The nonces of an address [a] that a transaction uses up: its own, and for
    the set-code signer that of each authorization. *)
Definition uses s (a : Address) (t : TransactionRequest) : bool :=
  bool_decide (tx_from t = Some a) ||
  (bool_decide (a = signer_address (sn_setcode_signer s)) &&
   bool_decide (is_Some (tx_authorization_list t))).

Definition count_uses s a (l : list TransactionRequest) : Z :=
  Z.of_nat (length (filter (fun t => uses s a t = true) l)).

Lemma insert_own_lookup (m : gmap Address Z) (f : Z -> Z) t from n a :
  tx_from t = Some from -> m !! from = Some n ->
  <[from := f n]> m !! a =
  if bool_decide (tx_from t = Some a) then f <$> m !! a else m !! a.
Proof.
  intros Hf Hn. destruct (decide (from = a)) as [<-|Hne].
  - by rewrite lookup_insert_eq, bool_decide_eq_true_2, Hn.
  - rewrite lookup_insert_ne, bool_decide_eq_false_2 by congruence. done.
Qed.

Lemma take_nonces_ok t s s' from n :
  take_nonces t s = (s', Ok (from, n)) ->
  tx_from t = Some from /\ sn_nonces s !! from = Some n /\
  (forall a, sn_nonces s' !! a =
     if uses s a t then (fun n => wrap 64 (n + 1)) <$> sn_nonces s !! a else sn_nonces s !! a) /\
  same_setting s s'.
Proof.
  unfold take_nonces. intros H. inv_stm. unfold id in *.
  match goal with H : match tx_authorization_list t with _ => _ end _ = _ |- _ =>
    rename H into Ha end.
  repeat match goal with H : arith 64 _ = Ok _ |- _ => apply arith_wrap in H; [|lia] end. subst.
  split_and!; [done|done| |].
  - intros a. destruct (tx_authorization_list t) as [auths|] eqn:Hauth; inv_stm;
      repeat match goal with H : arith 64 _ = Ok _ |- _ => apply arith_wrap in H; [|lia] end;
      subst; unfold uses; cbn [sn_nonces set_nonces]; rewrite Hauth.
    + rewrite (bool_decide_eq_true_2 (is_Some (Some auths))) by by eexists.
      rewrite andb_true_r.
      destruct (decide (a = signer_address (sn_setcode_signer s))) as [->|Hne].
      * rewrite lookup_insert_eq.
        rewrite (bool_decide_eq_true_2 (signer_address _ = _)) by done. rewrite orb_true_r.
        match goal with H : sn_nonces s !! signer_address _ = Some _ |- _ => by rewrite H end.
      * rewrite lookup_insert_ne by done. rewrite (bool_decide_eq_false_2 (a = _)) by done.
        rewrite orb_false_r. by apply (insert_own_lookup _ (fun n => wrap 64 (n + 1))).
    + rewrite (bool_decide_eq_false_2 (is_Some None)) by by intros [? ?].
      rewrite andb_false_r, orb_false_r.
      by apply (insert_own_lookup _ (fun n => wrap 64 (n + 1))).
  - destruct (tx_authorization_list t); inv_stm; done.
Qed.

Lemma complete_keeps_nonce t ty g pf gl ci b :
  tx_nonce (complete_tx_request t ty g pf gl ci b) = tx_nonce t.
Proof. by destruct ty. Qed.

Lemma prepare_tx_request_ok rpc g b t s s' full signer :
  prepare_tx_request rpc g b t s = (s', Ok (full, signer)) ->
  exists from n, tx_from t = Some from /\ sn_nonces s !! from = Some n /\
    tx_nonce full = Some n /\ sn_signer_map s !! from = Some signer /\
    (forall a, sn_nonces s' !! a =
       if uses s a t then (fun n => wrap 64 (n + 1)) <$> sn_nonces s !! a
       else sn_nonces s !! a) /\
    same_setting s s'.
Proof.
  unfold prepare_tx_request. intros H. apply stm_bind_ok in H as (s1 & [from n] & H1 & H).
  apply take_nonces_ok in H1 as (Hf & Hn & Hnn & Hs1).
  apply stm_bind_ok in H as (s2 & k & H2 & H).
  apply update_gas_map_ok in H2 as (_ & _ & Hn2 & Hs2). inv_stm. unfold id in *.
  exists from, n. rewrite complete_keeps_nonce. split_and!; [done..| | |].
  - destruct Hs1 as [[<- _] _], Hs2 as [[<- _] _]. done.
  - intros a. by rewrite Hn2.
  - by eapply same_setting_trans.
Qed.

(** The envelopes an address has signed. *)
Definition mine (a : Address) (l : list Envelope) : list Envelope :=
  filter (fun e => envelope_sender e = a) l.

(** Signing the transactions [l] leads from [s] to [s'] with the envelopes
    [es]: every nonce is advanced by the uses of its address; an address other
    than the set-code signer has signed one envelope for each use, with
    consecutive nonces. *)
Record prepared s (l : list TransactionRequest) (es : list Envelope) s' : Prop := {
  pd_setting : same_setting s s';
  pd_tracked : forall a start, sn_nonces s !! a = Some start -> 0 <= start < 2 ^ 64 ->
    sn_nonces s' !! a = Some (wrap 64 (start + count_uses s a l)) /\
    (a <> signer_address (sn_setcode_signer s) ->
       envelope_nonce <$> mine a es = nonces_from start (length (mine a es)) /\
       Z.of_nat (length (mine a es)) = count_uses s a l);
  pd_untracked : forall a, sn_nonces s !! a = None ->
    sn_nonces s' !! a = None /\ mine a es = [];
}.

Lemma nonces_from_add start n m :
  nonces_from start (n + m) =
  nonces_from start n ++ nonces_from (wrap 64 (start + Z.of_nat n)) m.
Proof.
  unfold nonces_from, rangeZ. rewrite seq_app, !fmap_app. f_equal.
  rewrite <- !list_fmap_compose. replace (0 + n)%nat with (n + 0)%nat by lia.
  rewrite <- fmap_add_seq, <- list_fmap_compose. apply list_fmap_ext. intros i x _. cbn.
  unfold wrap. rewrite Zplus_mod_idemp_l. f_equal. lia.
Qed.

Lemma count_uses_app s a l k : count_uses s a (l ++ k) = count_uses s a l + count_uses s a k.
Proof. unfold count_uses. rewrite filter_app, length_app. lia. Qed.

Lemma count_uses_setting s s' a l :
  same_setting s s' -> count_uses s' a l = count_uses s a l.
Proof. intros [[_ H] _]. unfold count_uses, uses. by rewrite H. Qed.

Lemma prepared_frame s s' :
  sn_nonces s' = sn_nonces s -> same_setting s s' -> prepared s [] [] s'.
Proof.
  intros Hn Hs. split; [done| |by rewrite Hn]. intros a start Ha Hr. rewrite Hn. split; [|done].
  unfold count_uses. cbn. by rewrite Z.add_0_r, wrap_small.
Qed.

Lemma prepared_nil s : prepared s [] [] s.
Proof. by apply prepared_frame. Qed.

Lemma prepared_app s l1 e1 s1 l2 e2 s2 :
  prepared s l1 e1 s1 -> prepared s1 l2 e2 s2 -> prepared s (l1 ++ l2) (e1 ++ e2) s2.
Proof.
  intros [Hs1 Ht1 Hu1] [Hs2 Ht2 Hu2]. split; [by eapply same_setting_trans| |].
  - intros a start Ha Hr. destruct (Ht1 a start Ha Hr) as [Hn1 Hm1].
    destruct (Ht2 a _ Hn1 ltac:(by apply wrap_range)) as [Hn2 Hm2].
    rewrite count_uses_app. rewrite (count_uses_setting s s1) in Hn2, Hm2 by done. split.
    + rewrite Hn2. f_equal. unfold wrap.
      rewrite Zplus_mod_idemp_l. f_equal. lia.
    + intros Hne. destruct (Hm1 Hne) as [He1 Hc1].
      destruct (Hm2 ltac:(by rewrite (proj2 (proj1 Hs1)))) as [He2 Hc2].
      unfold mine in *. rewrite filter_app, fmap_app, length_app. split; [|lia].
      by rewrite He1, He2, nonces_from_add, Hc1.
  - intros a Ha. destruct (Hu1 a Ha) as [Hn1 Hm1]. destruct (Hu2 a Hn1) as [Hn2 Hm2].
    split; [done|]. unfold mine in *. by rewrite filter_app, Hm1, Hm2.
Qed.

Definition signers_ok s : Prop := map_Forall (fun a sg => signer_address sg = a) (sn_signer_map s).

Lemma prepare_signed_ok rpc g b t s s1 ts e :
  signers_ok s -> prepare_tx_request rpc g b t s = (s1, Ok ts) -> sign_tx ts = Ok e ->
  prepared s [t] [e] s1.
Proof.
  intros Hok H He. destruct ts as [full signer].
  apply prepare_tx_request_ok in H as (from & n & Hf & Hn & Hfull & Hsg & Hnn & Hs).
  unfold sign_tx in He. apply map_err_ok in He. cbn in He.
  pose proof (build_nonce _ _ _ He) as Hen. pose proof (build_sender _ _ _ He) as Hes.
  rewrite Hfull in Hen. injection Hen as Hen. rewrite (Hok _ _ Hsg) in Hes.
  assert (Hm : forall a, mine a [e] = if decide (from = a) then [e] else []).
  { intros a. unfold mine. rewrite filter_cons, filter_nil, Hes. done. }
  split; [done| |].
  - intros a start Ha Hr. rewrite Hnn, Ha, Hm. unfold count_uses.
    rewrite filter_cons, filter_nil. split.
    + destruct (uses s a t) eqn:Hu; cbn; [done|]. by rewrite Z.add_0_r, wrap_small.
    + intros Hne. unfold uses. rewrite (bool_decide_eq_false_2 (a = _)) by done.
      rewrite orb_false_r. destruct (decide (from = a)) as [->|Hf'].
      * rewrite bool_decide_eq_true_2 by done. cbn. split; [|done].
        rewrite <- Hen. unfold nonces_from, rangeZ. cbn.
        rewrite Z.add_0_r, wrap_small by done. congruence.
      * rewrite bool_decide_eq_false_2 by congruence. done.
  - intros a Ha. rewrite Hnn, Ha, Hm, decide_False by congruence.
    split; [|done]. by destruct (uses s a t).
Qed.

Lemma prepared_signers s l es s' : signers_ok s -> prepared s l es s' -> signers_ok s'.
Proof. intros Hok [[[Hs _] _] _ _]. unfold signers_ok. by rewrite Hs. Qed.

Definition exec_requests (e : ExecutionRequest) : list TransactionRequest :=
  match e with ExecTx req => [nr_tx req] | ExecBundle reqs => nr_tx <$> reqs end.
Definition payload_envelopes (p : ExecutionPayload) : list Envelope :=
  match p with SignedTx e _ => [e] | SignedTxBundle es _ => es end.

(** A loop of steps each of which signs the transactions of its element. *)
Lemma prepared_mapM {X Y} (f : X -> stm Scenario Error Y) (txs : X -> list TransactionRequest)
    (envs : Y -> list Envelope) l s s' ys :
  (forall x s s' y, signers_ok s -> f x s = (s', Ok y) -> prepared s (txs x) (envs y) s') ->
  signers_ok s -> stm_mapM f l s = (s', Ok ys) ->
  prepared s (l ≫= txs) (ys ≫= envs) s' /\ length ys = length l.
Proof.
  intros Hf. revert s ys. induction l as [|x l IH]; intros s ys Hok H; cbn in H.
  - apply stm_ret_ok in H as [-> ->]. split; [apply prepared_nil|done].
  - apply stm_bind_ok in H as (s1 & y & H1 & H). apply stm_bind_ok in H as (s2 & ys' & H2 & H).
    apply stm_ret_ok in H as [-> ->]. apply Hf in H1; [|done].
    destruct (IH s1 ys') as [Hp Hl]; [by eapply prepared_signers|done|].
    split; [|by cbn; rewrite Hl]. by eapply prepared_app.
Qed.

Lemma prepare_payload_ok rpc g b e s s' p :
  signers_ok s -> prepare_payload rpc g b e s = (s', Ok p) ->
  prepared s (exec_requests e) (payload_envelopes p) s'.
Proof.
  intros Hok H. destruct e as [req|reqs]; cbn in H |- *.
  - inv_stm. by eapply prepare_signed_ok.
  - apply stm_bind_ok in H as (s1 & c & H1 & H). apply stm_gets_ok in H1 as [-> ->].
    apply stm_bind_ok in H as (s1 & u & H1 & H). apply stm_lift_ok in H1 as [-> _].
    apply stm_bind_ok in H as (s1 & es & H1 & H). apply stm_ret_ok in H as [-> ->]. cbn.
    eapply (prepared_mapM _ (fun req => [nr_tx req]) (fun e => [e])) in H1 as [H1 _].
    + replace (reqs ≫= (fun req => [nr_tx req])) with (nr_tx <$> reqs) in H1
        by (clear; induction reqs; csimpl; congruence).
      replace (es ≫= (fun e => [e])) with es in H1 by (clear; induction es; csimpl; congruence).
      done.
    + intros x s2 s3 y Hok2 Hx. inv_stm. by eapply prepare_signed_ok.
    + done.
Qed.

(** A request [t] and what becomes of it in a batch whose gas prices are [gp] and
    [bp]: [full], which has a nonce, the fees of the scenario's type and a gas
    limit and is otherwise [t], signed by the key of [t]'s sender. *)
Definition signed_request s (gp bp : Z) (t full : TransactionRequest) (e : Envelope) : Prop :=
  exists from signer nonce gas_limit,
    tx_from t = Some from /\ sn_signer_map s !! from = Some signer /\
    tx_build full signer = Ok e /\
    completed (set_nonce (Some nonce) t) full (sn_tx_type s) gp
      (default (gp / 10) (tx_max_priority_fee_per_gas t)) gas_limit (sn_chain_id s) bp.

Definition signed_payload s (gp bp : Z) (e : ExecutionRequest) (p : ExecutionPayload) : Prop :=
  match e, p with
  | ExecTx req, SignedTx env req' =>
      signed_request s gp bp (nr_tx req) (nr_tx req') env /\
      nr_name req' = nr_name req /\ nr_kind req' = nr_kind req
  | ExecBundle reqs, SignedTxBundle envs reqs' =>
      reqs' = reqs /\
      Forall2 (fun req env => exists full, signed_request s gp bp (nr_tx req) full env) reqs envs
  | _, _ => False
  end.

Lemma signed_request_setting s s' gp bp t full e :
  same_setting s s' -> signed_request s' gp bp t full e -> signed_request s gp bp t full e.
Proof. intros [[Hm _] [Ht Hc]] H. unfold signed_request in *. by rewrite Hm, Ht, Hc in H. Qed.

(** A loop of steps that keep the setting and relate each element to its
    result. *)
Lemma setting_mapM {X Y} (f : X -> stm Scenario Error Y) (R : X -> Y -> Prop) s0 l s s' ys :
  (forall x s s' y, same_setting s0 s -> f x s = (s', Ok y) -> R x y /\ same_setting s s') ->
  same_setting s0 s -> stm_mapM f l s = (s', Ok ys) -> Forall2 R l ys /\ same_setting s0 s'.
Proof.
  intros Hf. revert s ys. induction l as [|x l IH]; intros s ys Hs H; cbn in H.
  - apply stm_ret_ok in H as [-> ->]. by split; [constructor|].
  - apply stm_bind_ok in H as (s1 & y & H1 & H). apply stm_bind_ok in H as (s2 & ys' & H2 & H).
    apply stm_ret_ok in H as [-> ->]. apply Hf in H1 as [Hr H1]; [|done].
    apply IH in H2 as [Hall H2]; [|by eapply same_setting_trans]. split; [by constructor|done].
Qed.

Lemma prepare_tx_request_signed rpc gp bp t s s1 ts e :
  prepare_tx_request rpc gp bp t s = (s1, Ok ts) -> sign_tx ts = Ok e ->
  signed_request s gp bp t ts.1 e /\ same_setting s s1.
Proof.
  unfold prepare_tx_request. intros H He. apply stm_bind_ok in H as (s2 & [from n] & H1 & H).
  apply take_nonces_ok in H1 as (Hf & _ & _ & Hs1).
  apply stm_bind_ok in H as (s3 & k & H2 & H).
  apply update_gas_map_ok in H2 as (_ & _ & _ & Hs2).
  pose proof (same_setting_trans _ _ _ Hs1 Hs2) as Hs. inv_stm. unfold id in *.
  unfold sign_tx in He. apply map_err_ok in He. cbn in He |- *.
  split; [|done]. eapply signed_request_setting; [exact Hs|].
  eexists from, _, n, _. split_and!; [done|done|exact He|apply complete_tx_request_fields].
Qed.

Lemma prepare_payload_signed rpc gp bp e s s' p :
  prepare_payload rpc gp bp e s = (s', Ok p) ->
  signed_payload s gp bp e p /\ same_setting s s'.
Proof.
  intros H. destruct e as [req|reqs]; cbn in H.
  - inv_stm. cbn.
    edestruct prepare_tx_request_signed as [Hr Hs]; [eassumption..|]. done.
  - apply stm_bind_ok in H as (s1 & c & H1 & H). apply stm_gets_ok in H1 as [-> ->].
    apply stm_bind_ok in H as (s1 & u & H1 & H). apply stm_lift_ok in H1 as [-> _].
    apply stm_bind_ok in H as (s1 & es & H1 & H). apply stm_ret_ok in H as [-> ->]. cbn.
    eapply (setting_mapM _ (fun req env => exists full, signed_request s gp bp (nr_tx req) full env) s)
      in H1 as [Hr Hs]; [done| |done].
    intros x s2 s3 y Hs2 Hx. inv_stm.
    edestruct prepare_tx_request_signed as [Hr Hs]; [eassumption..|].
    split; [eexists; by eapply signed_request_setting|done].
Qed.

Lemma signed_payload_setting s s' gp bp e p :
  same_setting s s' -> signed_payload s' gp bp e p -> signed_payload s gp bp e p.
Proof.
  intros Hs. destruct e as [req|reqs], p as [env req'|envs reqs']; cbn; [|done..|].
  - intros [Hr Hn]. split; [by eapply signed_request_setting|done].
  - intros [-> Hall]. split; [done|]. eapply Forall2_impl; [exact Hall|].
    intros req env [full Hr]. exists full. by eapply signed_request_setting.
Qed.

Lemma batch_prices_frame rpc s s' p :
  batch_prices rpc s = (s', Ok p) -> sn_nonces s' = sn_nonces s /\ same_setting s s'.
Proof.
  assert (Hb : forall s s' x, fetch_blob_gas_price rpc s = (s', Ok x) ->
    sn_nonces s' = sn_nonces s /\ same_setting s s').
  { intros s1 s2 x H. unfold fetch_blob_gas_price in H.
    destruct (sn_tx_type s1); try (by simplify_eq).
    destruct (fetch_with_cache _ _) as [c [v|e|]]; by simplify_eq. }
  unfold batch_prices. intros H. apply stm_bind_ok in H as (s1 & blob & H1 & H).
  apply Hb in H1 as [Hn1 Hs1]. apply stm_bind_ok in H as (s2 & given & H2 & H).
  apply stm_gets_ok in H2 as [-> ->]. destruct (sn_gas_price s1); [by inv_stm|].
  apply stm_bind_ok in H as (s2 & gas & H2 & H).
  assert (Hg : sn_nonces s2 = sn_nonces s1 /\ same_setting s1 s2).
  { unfold fetch_gas_price in H2. destruct (fetch_with_cache _ _) as [c r]. by simplify_eq. }
  destruct Hg as [Hn2 Hs2]. inv_stm. split; [congruence|by eapply same_setting_trans].
Qed.

(** What a prepared batch is: its payloads are those of its requests, place by
    place, at the prices the batch starts with; and what becomes of the nonces. *)
Lemma prepare_spam_ok rpc (reqs : list ExecutionRequest) s s' payloads :
  signers_ok s -> prepare_spam rpc reqs s = (s', Ok payloads) ->
  (exists s1 gp bp, batch_prices rpc s = (s1, Ok (gp, bp)) /\
     Forall2 (signed_payload s gp bp) reqs payloads) /\
  prepared s (reqs ≫= exec_requests) (payloads ≫= payload_envelopes) s'.
Proof.
  intros Hok H. unfold prepare_spam in H. apply stm_bind_ok in H as (s1 & [gp bp] & H1 & H).
  apply batch_prices_frame in H1 as Hf. destruct Hf as [Hn Hs].
  assert (Hp0 : prepared s [] [] s1) by by apply prepared_frame. split.
  - exists s1, gp, bp. split; [done|].
    eapply (setting_mapM _ (signed_payload s gp bp) s) in H as [Hr _]; [done| |done].
    intros x s2 s3 y Hs2 Hx. apply prepare_payload_signed in Hx as [Hr Hs3].
    split; [by eapply signed_payload_setting|done].
  - eapply (prepared_mapM _ exec_requests payload_envelopes) in H as [Hp _].
    + change (reqs ≫= exec_requests) with ([] ++ (reqs ≫= exec_requests)).
      change (payloads ≫= payload_envelopes) with ([] ++ (payloads ≫= payload_envelopes)).
      by eapply prepared_app.
    + intros x s2 s3 y Hok2 Hx. by eapply prepare_payload_ok.
    + by eapply prepared_signers.
Qed.

(** C4: preparing a batch of a scenario whose wallets are filed under their own
    addresses, when it succeeds, signs request [i] as payload [i], a bundle's
    transactions in their order: each is the request with a nonce, a gas limit
    and the fees of the batch's prices filled in and nothing else changed, signed
    by its sender's own key.  The transactions of each sender carry consecutive
    nonces from the tracked one, which ends up advanced by their number, modulo
    2^64 (for the set-code signer: by the number of its transactions and of the
    authorizations); and no other nonce changes. *)
Theorem prepare_spam_nonces rpc (reqs : list ExecutionRequest) s s'
    (payloads : list ExecutionPayload) (Hok : signers_ok s)
    (H : prepare_spam rpc reqs s = (s', Ok payloads)) :
  (exists s1 gp bp, batch_prices rpc s = (s1, Ok (gp, bp)) /\
     Forall2 (signed_payload s gp bp) reqs payloads) /\
  prepared s (reqs ≫= exec_requests) (payloads ≫= payload_envelopes) s'.
Proof. exact (prepare_spam_ok rpc reqs s s' payloads Hok H). Qed.
End prepare_props.

(** ** Properties of the chunks and of the synchronisation *)

Section more_props.
Context `{A : Alloy, Sg : !Signing} {P : Profile}.

(** The transactions of a run are cut, in order and without loss, into
    chunks no larger than a period's count, and there is a full chunk for each
    period. *)
Theorem spam_chunks_full {C D Sd : Type} `{PC : PlanConfig C, TS : TemplateSyntax C,
      DO : DbOps D, SV : SeedValue Sd, SD : Seeder Sd}
    (config : C) (seed : Sd) (store : AgentStore) (url : string) (genesis : TxHash)
    (label : option string) (proof : nat -> string) (rpc : RpcNode) (s : Scenario) (db : D)
    (txs_per_period num_periods : Z) (steps : list SpamRequest)
    (cs : list (list ExecutionRequest))
    (Hs : get_spam_steps config = Ok steps) (Hp : 0 <= txs_per_period /\ 0 <= num_periods)
    (Hb : txs_per_period * num_periods + Z.of_nat (length steps) <= 2 ^ 64)
    (Hne : 0 < Z.of_nat (length steps))
    (H : get_spam_tx_chunks config seed store url genesis label proof rpc s db
           txs_per_period num_periods = Ok cs) :
  0 < txs_per_period /\
  (exists db' nn, load_txs (gen_ctx config seed store url genesis label proof rpc s) db
     (PlanSpam (txs_per_period * num_periods) no_callback) = Ok (db', (concat cs, nn))) /\
  Forall (fun c => 0 < Z.of_nat (length c) <= txs_per_period) cs /\
  forall i, 0 <= i < num_periods -> exists c,
    cs !! Z.to_nat i = Some c /\ Z.of_nat (length c) = txs_per_period.
Proof.
  unfold get_spam_tx_chunks in H. rewrite arith_in in H by nia.
  cbn [mbind outcome_bind] in H. apply bind_ok in H as ([db' [txs nn]] & Hl & H).
  unfold chunks in H. cbn [fst snd] in H.
  destruct (Nat.eqb_spec (Z.to_nat txs_per_period) 0); [done|]. injection H as <-.
  destruct (chunks_fuel_spec (length txs) (Z.to_nat txs_per_period) txs) as (Hc & Hf & Hi);
    [lia|done|].
  assert (Htot : txs_per_period * num_periods <= Z.of_nat (length txs)).
  { cbn [load_txs] in Hl. apply bind_ok in Hl as ([db1 txs1] & Hl & Hr). injection Hr as <- <- _.
    eapply load_spam_shapes in Hl as (reps & _ & _ & Hr); [apply Hr|done|lia]. }
  split_and!; [lia| | |].
  - rewrite Hc. by eexists _, _.
  - eapply Forall_impl; [exact Hf|]. cbn. lia.
  - intros i Hr. destruct (Hi (Z.to_nat i)) as (c & Hcl & Hlen); [nia|]. exists c.
    split; [done|lia].
Qed.

Lemma sync_nonces_map_lookup (wallets : gmap Address Signer) (nonces : gmap Address Z)
    (rpc : RpcNode) (setcode a : Address) :
  sync_nonces_map wallets nonces rpc setcode !! a =
  if bool_decide (is_Some (wallets !! a) \/ a = setcode)
  then match rpc_transaction_count rpc a with Ok n => Some n | _ => nonces !! a end
  else nonces !! a.
Proof.
  unfold sync_nonces_map. set (addrs := _ ++ _).
  rewrite (bool_decide_ext _ (a ∈ addrs)).
  2: { unfold addrs. rewrite elem_of_app, list_elem_of_singleton, list_elem_of_fmap. split.
       - intros [[v Hv]|Ha]; [left|by right]. exists (a, v).
         split; [done|]. by apply elem_of_map_to_list.
       - intros [([a' v] & -> & Hv)|Ha]; [left|by right].
         apply elem_of_map_to_list in Hv. by eexists. }
  generalize nonces as m. generalize addrs as l. clear.
  induction l as [|x l IH]; intros m; [done|]. cbn [omap list_omap].
  destruct (decide (x = a)) as [->|Hne].
  - rewrite (bool_decide_eq_true_2 (a ∈ a :: l)) by left.
    destruct (rpc_transaction_count rpc a) as [n|e|] eqn:Hn; cbn [fold_left fst snd];
      rewrite IH; case_bool_decide; rewrite ?Hn; try done. by rewrite lookup_insert_eq.
  - rewrite (bool_decide_ext (a ∈ x :: l) (a ∈ l)) by set_solver.
    destruct (rpc_transaction_count rpc x) as [n|e|]; cbn [fold_left fst snd];
      rewrite IH; [by rewrite lookup_insert_ne|done..].
Qed.

(** Synchronising never fails; when it is enabled, exactly the nonces of
    the wallet's addresses and of the set-code signer are replaced by those of
    the node, where it answers; every other nonce, and everything else, stays. *)
Theorem sync_nonces_spec (rpc : RpcNode) (s : Scenario) :
  let '(s', r) := sync_nonces rpc s in
  r = Ok tt /\ s' = set_nonces (sn_nonces s') s /\
  forall a, sn_nonces s' !! a =
    if sn_should_sync_nonces s &&
       bool_decide (is_Some (sn_signer_map s !! a) \/ a = signer_address (sn_setcode_signer s))
    then match rpc_transaction_count rpc a with Ok n => Some n | _ => sn_nonces s !! a end
    else sn_nonces s !! a.
Proof.
  unfold sync_nonces. destruct (sn_should_sync_nonces s); cbn [andb].
  2: { split_and!; [done|by destruct s|done]. }
  split_and!; [done|done|]. intros a. cbn [sn_nonces set_nonces]. apply sync_nonces_map_lookup.
Qed.
End more_props.

(** ** Witnesses *)

Module ScenarioWitness.
#[export] Existing Instance toy_alloy.
#[export] Instance toy_profile : Profile := true.

(** An envelope is the request with its signer; a request without a nonce is
    refused. *)
#[export] Instance toy_signing : Signing := {|
  Envelope := TransactionRequest * list byte;
  tx_build t s := match tx_nonce t with Some _ => Ok (t, s) | None => Err "no nonce"%string end;
  envelope_hash e := default 0 (tx_nonce e.1) * 2 ^ 160 + from_be e.2;
  envelope_nonce e := default 0 (tx_nonce e.1);
  envelope_sender e := signer_address e.2 |}.

#[export] Instance toy_laws : SigningLaws.
Proof.
  split; intros t s e; cbn [tx_build toy_signing]; destruct (tx_nonce t) eqn:Hn; try discriminate;
    intros [= <-]; cbn [envelope_nonce envelope_sender toy_signing fst snd]; [by rewrite Hn|done].
Qed.

Definition signer_of (a : Z) : Signer := to_be 20 a.
Definition scenario : Scenario := {|
  sn_signer_map := {[ 100 := signer_of 100; 101 := signer_of 101 ]};
  sn_nonces := {[ 100 := 5; 101 := 0; 9 := 3 ]};
  sn_chain_id := 1; sn_gas_limits := ∅; sn_tx_type := Eip1559; sn_gas_price_adder := 7;
  sn_setcode_signer := signer_of 9; sn_should_sync_nonces := true; sn_rpc_batch_size := 2;
  sn_num_rpc_batches_sent := 0; sn_gas_price := None; sn_send_raw_tx_sync := false;
  sn_bundle_client := true; sn_last_fetched_gas_price := None;
  sn_last_fetched_blob_gas_price := None |}.
Definition rpc : RpcNode := {|
  rpc_gas_price := Ok 1000; rpc_blob_base_fee := Err (Rpc "no blobs"); rpc_chain_id := Ok 1;
  rpc_transaction_count a := if a =? 101 then Ok 40 else Err (Rpc "unknown");
  rpc_estimate_gas t := Ok 21000; rpc_get_code _ := Ok [] |}.
Definition tx_of (a : Z) (auth : bool) : NamedTxRequest :=
  NamedTxRequest_from {| tx_from := Some a; tx_to := Some (Call 77); tx_value := Some 1;
    tx_input := []; tx_nonce := None; tx_gas := None; tx_gas_price := None;
    tx_max_fee_per_gas := None; tx_max_priority_fee_per_gas := None;
    tx_max_fee_per_blob_gas := None; tx_chain_id := None; tx_transaction_type := None;
    tx_sidecar := None; tx_authorization_list := if auth then Some [] else None |}.
Definition requests : list ExecutionRequest :=
  [ExecTx (tx_of 100 false); ExecBundle [tx_of 101 false; tx_of 100 true]; ExecTx (tx_of 100 true)].

Lemma scenario_signers : signers_ok scenario.
Proof.
  intros a sg H. cbn [scenario sn_signer_map] in H.
  apply lookup_insert_Some in H as [[<- <-]|[_ H]]; [vm_compute; reflexivity|].
  apply lookup_singleton_Some in H as [<- <-]. vm_compute. reflexivity.
Qed.

Lemma fetch_falls_back_witness :
  fetch_all (E := unit) None [Ok 5; Err tt; Ok 6; Err tt] !! 3%nat = Some (Ok 6).
Proof.
  destruct (fetch_falls_back (E := unit) [Ok 5; Err tt; Ok 6; Err tt] 3 (Err tt) eq_refl)
    as (out & Ho & _ & He). rewrite Ho. destruct (He tt eq_refl) as [Hj _].
  rewrite (Hj 2%nat 6); [reflexivity|lia|reflexivity|lia].
Defined.

Lemma gas_limit_cached_witness :
  exists s' k, update_gas_map rpc (nr_tx (tx_of 100 false)) 0 scenario = (s', Ok k) /\
    update_gas_map {| rpc_gas_price := Panic; rpc_blob_base_fee := Panic; rpc_chain_id := Panic;
      rpc_transaction_count _ := Panic; rpc_estimate_gas _ := Panic; rpc_get_code _ := Panic |}
      (nr_tx (tx_of 101 true)) 0 s' = (s', Ok k).
Proof.
  assert (Hok : is_ok (snd (update_gas_map rpc (nr_tx (tx_of 100 false)) 0 scenario)) = true)
    by (vm_compute; reflexivity).
  destruct (update_gas_map rpc (nr_tx (tx_of 100 false)) 0 scenario) as [s' [k|e|]] eqn:H;
    [|discriminate Hok..].
  exists s', k. split; [reflexivity|].
  apply (gas_limit_cached rpc (nr_tx (tx_of 100 false)) 0 scenario s' k H). reflexivity.
Defined.

Lemma prepare_spam_nonces_witness :
  exists s' payloads, prepare_spam rpc requests scenario = (s', Ok payloads) /\
    sn_nonces s' !! 100 = Some 8 /\ sn_nonces s' !! 9 = Some 5 /\
    (envelope_nonce <$> mine 100 (payloads ≫= payload_envelopes)) = [5; 6; 7].
Proof.
  assert (Hok : is_ok (snd (prepare_spam rpc requests scenario)) = true)
    by (vm_compute; reflexivity).
  destruct (prepare_spam rpc requests scenario) as [s' [payloads|e|]] eqn:H; [|discriminate Hok..].
  destruct (prepare_spam_nonces rpc requests scenario s' payloads scenario_signers H)
    as [_ [_ Ht _]].
  exists s', payloads. split; [reflexivity|].
  destruct (Ht 100 5 eq_refl ltac:(lia)) as [H1 H2].
  destruct (Ht 9 3 eq_refl ltac:(lia)) as [H3 _].
  assert (Hc : count_uses scenario 100 (requests ≫= exec_requests) = 3) by reflexivity.
  assert (Hc9 : count_uses scenario 9 (requests ≫= exec_requests) = 2) by reflexivity.
  rewrite Hc in H1. rewrite Hc9 in H3.
  destruct H2 as [He Hl]; [vm_compute; discriminate|].
  split; [exact H1|]. split; [exact H3|]. rewrite He. rewrite Hc in Hl.
  replace (length (mine 100 (payloads ≫= payload_envelopes))) with 3%nat by lia. reflexivity.
Defined.

Definition conf : TestConfig := {|
  tc_env := None; tc_create := None;
  tc_setup := Some [FunctionCallDefinition_new "0xabcd"];
  tc_spam := Some [Tx (FunctionCallDefinition_new "0xabcd"); Tx (FunctionCallDefinition_new "0x0")] |}.
Definition store : AgentStore := {| agents := {[
  "admin"%string := {| signers := [signer_of 100]; agent_class := Deployer |};
  "spammers"%string := {| signers := [signer_of 101]; agent_class := Spammer |} ]} |}.

Lemma spam_chunks_full_witness :
  exists cs, get_spam_tx_chunks conf (pack_u256 5) store "http" 0 None (fun _ => "[]"%string)
      rpc scenario mock_db 3 2 = Ok cs /\
    exists c, cs !! 1%nat = Some c /\ Z.of_nat (length c) = 3.
Proof.
  run_ok (get_spam_tx_chunks conf (pack_u256 5) store "http" 0 None (fun _ => "[]"%string)
      rpc scenario mock_db 3 2) cs H.
  exists cs. split; [exact H|].
  destruct (get_spam_steps conf) as [steps| |] eqn:Hs; [|discriminate..].
  assert (Z.of_nat (length steps) = 2) as H2 by (injection Hs as <-; reflexivity).
  destruct (spam_chunks_full conf (pack_u256 5) store "http" 0 None (fun _ => "[]"%string)
    rpc scenario mock_db 3 2 steps cs Hs) as (_ & _ & _ & Hi); [lia|lia|lia|exact H|].
  apply (Hi 1). lia.
Defined.

(** A setup step that is skipped, because its gas cannot be estimated, has used
    up a nonce all the same. *)
Definition no_estimate : TaskRpc := {|
  tk_gas_price := Ok 1000; tk_estimate_gas _ := Err (Rpc "reverted");
  tk_send _ := Panic; tk_code_polls _ := [] |}.
Lemma skipped_setup_uses_nonce :
  let '(s', r) := run_setup conf (pack_u256 5) store "http" 0 None (fun _ => "[]"%string)
                    rpc no_estimate mock_db scenario in
  is_ok r && bool_decide (sn_nonces s' !! 100 = Some 6) = true.
Proof. vm_compute. reflexivity. Qed.
End ScenarioWitness.
