(* ===== verification/Deploy.v ===== *)
(** * What a deployment leaves in the database

    A plan finds the contracts it calls by name: [Templater.resolve_key] asks the
    database for the address a deployment on the same node stored.  Against the
    part of the database's contract this needs ([NamedTxLaws], which the abstract
    store of [DbStore] keeps), a deployment that succeeds has every contract of
    the scenario found afterwards, with code on the chain, and the setup steps
    leave it so. *)

From Stdlib Require Import Strings.Byte Strings.String.
From S2P Require Import Prelude Text F64 Seeder Alloy Agents Db DbStore GenTypes GenUtil CoreError Templater TestFile Generator TxActor Scenario.

(** ** What is asked of the database *)

Class NamedTxLaws (D : Type) `{DO : DbOps D} : Prop := {
  named_found : forall d t url h d',
    nt_address t <> None -> insert_named_txs d [t] url h = Ok d' ->
    get_named_tx d' (nt_name t) url h = Ok (Some t);
  named_kept : forall d t url h d' name t',
    name <> nt_name t -> insert_named_txs d [t] url h = Ok d' ->
    get_named_tx d name url h = Ok (Some t') -> get_named_tx d' name url h = Ok (Some t');
  named_elsewhere : forall d t url h d' name url' h' t',
    (url', h') <> (url, h) -> insert_named_txs d [t] url h = Ok d' ->
    get_named_tx d name url' h' = Ok (Some t') -> get_named_tx d' name url' h' = Ok (Some t');
}.

(** A name with an address, for a node. *)
Definition known {D} `{DO : DbOps D} (db : D) (name url : string) (h : TxHash) : Prop :=
  exists t, nt_address t <> None /\ get_named_tx db name url h = Ok (Some t).
Lemma insert_known {D} `{DO : DbOps D} {NL : NamedTxLaws D} (d d' : D) t url h name url' h' :
  nt_address t <> None -> insert_named_txs d [t] url h = Ok d' ->
  known d name url' h' -> known d' name url' h'.
Proof.
  intros Ha Hi (t' & Ha' & Hg). destruct (decide ((url', h') = (url, h))) as [[= -> ->]|Hne].
  - destruct (decide (name = nt_name t)) as [->|Hn].
    + exists t. split; [done|]. by eapply named_found.
    + exists t'. split; [done|]. by eapply named_kept.
  - exists t'. split; [done|]. by eapply named_elsewhere.
Qed.

Lemma know_node_id n d id d' : know_node n d = (id, d') -> node_id n d' = Some id.
Proof.
  unfold know_node. destruct (node_id n d) as [i|] eqn:Hi; intros [= <- <-]; [done|].
  unfold node_id, add_node in *. cbn [st_nodes].
  destruct (list_find (fun m => m = n) (st_nodes d)) as [x|] eqn:Hf; [done|].
  rewrite list_find_app_r by done. cbn. rewrite decide_True by done. done.
Qed.

Lemma know_node_other n n' d id id' d' :
  n' <> n -> know_node n d = (id, d') -> node_id n' d = Some id' ->
  node_id n' d' = Some id' /\ id <> id' /\ st_named d' = st_named d.
Proof.
  intros Hn Hk Hi. unfold know_node in Hk. destruct (node_id n d) as [i|] eqn:Hn0.
  - injection Hk as <- <-. split_and!; [done| |done]. intros ->. unfold node_id in *.
    destruct (list_find (fun m => m = n) _) as [[j x]|] eqn:H1; [|done].
    destruct (list_find (fun m => m = n') _) as [[k y]|] eqn:H2; [|done].
    apply list_find_Some in H1 as (H1 & -> & _), H2 as (H2 & -> & _). cbn in Hi, Hn0.
    assert (j = k) as -> by (injection Hi as Hi; injection Hn0 as Hn0; lia). congruence.
  - injection Hk as <- <-. unfold node_id in *. cbn [st_nodes add_node].
    destruct (list_find (fun m => m = n') (st_nodes d)) as [[k y]|] eqn:H2; [|done].
    rewrite (list_find_app_l _ _ _ _ _ H2). split_and!; [done| |done].
    apply list_find_Some in H2 as (H2%lookup_lt_Some & _ & _). injection Hi as <-. unfold count_of. cbn. lia.
Qed.

#[export] Instance store_named_laws : NamedTxLaws Store.
Proof.
  split; cbn [insert_named_txs get_named_tx store_ops]; intros d t url h d'.
  - intros Ha H. destruct (know_node (url, h) d) as [id d1] eqn:Hk. injection H as <-.
    change (node_id (url, h) (add_named id [t] d1)) with (node_id (url, h) d1).
    rewrite (know_node_id _ _ _ _ Hk). cbn [st_named add_named]. rewrite omap_app. cbn.
    rewrite Z.eqb_refl, String.eqb_refl. cbn [andb]. rewrite last_snoc. cbn [found_named].
    by destruct (nt_address t).
  - intros name t' Hn H. unfold know_node in H.
    destruct (node_id (url, h) d) as [id|] eqn:Hi; [|done]. injection H as <-.
    change (node_id (url, h) (add_named id [t] d)) with (node_id (url, h) d). rewrite Hi.
    cbn [st_named add_named]. rewrite omap_app. cbn. rewrite Z.eqb_refl.
    destruct (String.eqb_spec (nt_name t) name) as [He|_]; [by symmetry in He|]. by rewrite app_nil_r.
  - intros name url' h' t' Hn H Hg. destruct (know_node (url, h) d) as [id d1] eqn:Hk. injection H as <-.
    destruct (node_id (url', h') d) as [id'|] eqn:Hi; [|done].
    destruct (know_node_other _ _ _ _ _ _ Hn Hk Hi) as (Hi1 & Hne & Hnamed).
    change (node_id (url', h') (add_named id [t] d1)) with (node_id (url', h') d1). rewrite Hi1.
    cbn [st_named add_named]. rewrite omap_app, Hnamed. cbn.
    destruct (Z.eqb_spec id id') as [|_]; [done|]. by rewrite app_nil_r.
Qed.

(** ** Deployments *)

Section deploy.
Context `{A : Alloy, Sg : !Signing} {P : Profile}.
Context {C : Type} `{PC : PlanConfig C, TS : TemplateSyntax C}.
Context {D : Type} `{DO : DbOps D, NL : !NamedTxLaws D}.
Context {Sd : Type} `{SV : SeedValue Sd, SD : Seeder Sd}.
Variables (config : C) (rand_seed : Sd) (agent_store : AgentStore) (rpc_url : string)
  (genesis_hash : TxHash) (scenario_label : option string) (groth16_proof : nat -> string).
Variables (rpc : RpcNode) (node : TaskRpc).

(** The receipt of a deployment has the address of the contract. *)
Hypothesis contract_addresses : forall e r, tk_send node e = Ok r -> tr_contract_address r <> None.

(** The contract [name] is stored for the node, with code on the chain. *)
Definition deployed (db : D) (name : string) : Prop :=
  exists hash a, code_visible (tk_code_polls node a) = true /\
    get_named_tx db (scenario_db_key name scenario_label) rpc_url genesis_hash =
      Ok (Some (NamedTx_new (scenario_db_key name scenario_label) hash (Some a))).

(** Nothing that was found is lost. *)
Definition kept (db db' : D) : Prop :=
  (forall other, deployed db other -> deployed db' other) /\
  forall name url h, known db name url h -> known db' name url h.

Abbreviation ctx := (gen_ctx config rand_seed agent_store rpc_url genesis_hash scenario_label groth16_proof rpc).

Lemma deploy_contract_deployed db gp bgp chain_id ty signer req name db' :
  deploy_contract rpc_url genesis_hash scenario_label node db gp bgp chain_id ty signer req = Ok db' ->
  nr_name req = Some name -> deployed db' name /\ kept db db'.
Proof.
  intros H Hn. unfold deploy_contract in H. rewrite Hn in H. inv_outcome.
  rename select (tk_send _ _ = Ok _) into Hr. rename select (code_visible _ = true) into Hc.
  rename select (insert_named_txs _ _ _ _ = Ok _) into Hi.
  apply contract_addresses in Hr. destruct (tr_contract_address _) as [a|] eqn:Ha; [|done].
  cbn [default] in Hc.
  assert (Hnew : deployed db' name).
  { eexists _, a. split; [exact Hc|]. apply named_found in Hi; [exact Hi|done]. }
  split; [exact Hnew|].
  split; [intros other (hash & b & Hb & Hg)|intros n u h; eapply insert_known; [|exact Hi]; done].
  destruct (decide (scenario_db_key other scenario_label = scenario_db_key name scenario_label)) as [He|Hne].
  - unfold deployed. rewrite He. exact Hnew.
  - exists hash, b. split; [exact Hb|]. eapply named_kept; [|exact Hi|exact Hg]. exact Hne.
Qed.

Lemma assign_nonce_name (self : GenCtx (C := C) (Sd := Sd)) nn tx nn' tx' :
  assign_nonce self nn tx = Ok (nn', tx') -> nr_name tx' = nr_name tx.
Proof. unfold assign_nonce. intros H. by inv_outcome. Qed.

Lemma spawn_task_ok (db db' : D) task handle :
  spawn_task db task = (db', handle) -> await_now handle = Ok tt -> task = Ok db'.
Proof. unfold spawn_task. destruct task; intros [= -> <-]; cbn; by intros. Qed.

Lemma create_step_deployed s gp bgp chain_id st step st' :
  create_step (ctx s)
    (on_create rpc_url genesis_hash scenario_label node gp bgp chain_id s) st step = Ok st' ->
  deployed (ls_db st') (cc_name (cd_contract step)) /\ kept (ls_db st) (ls_db st').
Proof.
  intros H. unfold create_step in H. inv_outcome.
  repeat match goal with x : (_ * _)%type |- _ => destruct x end. inv_outcome.
  repeat match goal with x : (_ * _)%type |- _ => destruct x end. inv_outcome. cbn [ls_db].
  rename select (assign_nonce _ _ _ = Ok _) into Hn. apply assign_nonce_name in Hn.
  rename select (make_strict_create _ _ _ = Ok _) into Hs. unfold make_strict_create in Hs.
  inv_outcome. cbn in Hn. unfold on_create in *. inv_outcome.
  rename select (await_now _ = Ok _) into Hw. match type of Hw with _ = Ok ?u => destruct u end.
  rename select (spawn_task _ _ = _) into Ht. apply (spawn_task_ok _ _ _ _ Ht) in Hw.
  by eapply deploy_contract_deployed.
Qed.

Lemma create_steps_deployed s gp bgp chain_id steps st st' :
  fold_steps (create_step (ctx s)
    (on_create rpc_url genesis_hash scenario_label node gp bgp chain_id s)) st steps = Ok st' ->
  Forall (fun step => deployed (ls_db st') (cc_name (cd_contract step))) steps /\
  kept (ls_db st) (ls_db st').
Proof.
  revert st. induction steps as [|step steps IH]; intros st H; cbn [fold_steps] in H.
  { injection H as <-. by repeat split. }
  apply bind_ok in H as (st1 & Hs & H). apply create_step_deployed in Hs as [Hnew [Hold Hold']].
  apply IH in H as [Hall [Hkept Hkept']]. split; [|by split; auto]. constructor; [by apply Hkept|done].
Qed.

(** After a deployment that succeeds every contract is found. *)
Lemma deploy_contracts_deployed db s s' db' :
  deploy_contracts config rand_seed agent_store rpc_url genesis_hash scenario_label groth16_proof
    rpc node db s = (s', Ok db') ->
  exists steps, get_create_steps config = Ok steps /\
    Forall (fun step => deployed db' (cc_name (cd_contract step))) steps /\ kept db db'.
Proof.
  unfold deploy_contracts. intros H. inv_stm.
  rename select (load_txs _ _ _ = Ok _) into Hl. cbn [load_txs] in Hl.
  change (gc_conf _) with config in Hl. inv_outcome.
  rename select (get_create_steps _ = Ok _) into Hc. eexists. split; [exact Hc|].
  rename select (fold_steps _ _ _ = Ok _) into Hf.
  by apply create_steps_deployed in Hf.
Qed.

(** ** Setup steps have no name: nothing is stored for them. *)

Lemma setup_tx_db s blob st step i st' :
  setup_tx (ctx s) (on_setup rpc_url genesis_hash node blob s) step st i = Ok st' ->
  ls_db st' = ls_db st.
Proof.
  intros H. unfold setup_tx in H. inv_outcome.
  repeat match goal with x : (_ * _)%type |- _ => destruct x end. inv_outcome.
  repeat match goal with x : (_ * _)%type |- _ => destruct x end. inv_outcome. cbn [ls_db].
  rename select (assign_nonce _ _ _ = Ok _) into Hn. apply assign_nonce_name in Hn. cbn in Hn.
  rename select (on_setup _ _ _ _ _ _ _ = Ok _) into Ho. unfold on_setup in Ho. inv_outcome.
  rename select (spawn_task _ _ = _) into Ht. unfold spawn_task in Ht.
  destruct (setup_task _ _ _ _ _ _ _ _ _) as [db|e|] eqn:Hs; injection Ht as <- _; [|done..].
  unfold setup_task in Hs. rewrite Hn in Hs. repeat (inv_outcome; case_match; try done); by inv_outcome.
Qed.

Lemma run_setup_db db s s' db' :
  run_setup config rand_seed agent_store rpc_url genesis_hash scenario_label groth16_proof
    rpc node db s = (s', Ok db') -> db' = db.
Proof.
  unfold run_setup. intros H. inv_stm.
  rename select (load_txs _ _ _ = Ok _) into Hl. cbn [load_txs] in Hl. inv_outcome. cbn [fst].
  rename select (fold_steps _ _ _ = Ok _) into Hf.
  apply (fold_steps_inv (fun st => ls_db st = db)) in Hf; [done| |done].
  intros st step st1 Hst Hs. unfold setup_step in Hs. inv_outcome.
  rename select (fold_steps _ _ _ = Ok _) into Hi.
  apply (fold_steps_inv (fun st1 => ls_db st1 = ls_db st)) in Hi; [congruence| |done].
  intros st2 idx st3 Heq Hx. apply setup_tx_db in Hx. congruence.
Qed.

(** ** A contract that is found is a placeholder that resolves. *)

Definition node_env (db : D) : LookupEnv (D := D) := {|
  le_db := db; le_rpc_url := rpc_url; le_genesis_hash := genesis_hash;
  le_scenario_label := scenario_label |}.
Lemma deployed_known db name :
  deployed db name -> known db (scenario_db_key name scenario_label) rpc_url genesis_hash.
Proof. intros (hash & a & _ & Hg). eexists. split; [|exact Hg]. done. Qed.
Lemma known_resolves db name m :
  known db (scenario_db_key name scenario_label) rpc_url genesis_hash ->
  name <> SENDER_KEY -> name <> SETCODE_KEY -> m !! name = None ->
  exists a, resolve_key (node_env db) name m = Ok (<[name := address_encode_hex a]> m).
Proof.
  intros (t & Ha & Hg) H1 H2 Hm. unfold resolve_key, node_env.
  cbn [le_scenario_label le_db le_rpc_url le_genesis_hash].
  apply String.eqb_neq in H1, H2. rewrite H1, H2, bool_decide_eq_false_2 by by rewrite Hm; intros [].
  rewrite Hg. destruct (nt_address t) as [a|] eqn:Hta; [|done]. exists a. cbn. by rewrite Hta.
Qed.
Lemma deployed_resolves db name m :
  deployed db name -> name <> SENDER_KEY -> name <> SETCODE_KEY -> m !! name = None ->
  exists a, code_visible (tk_code_polls node a) = true /\
    resolve_key (node_env db) name m = Ok (<[name := address_encode_hex a]> m).
Proof.
  intros (hash & a & Hc & Hg) H1 H2 Hm. exists a. split; [exact Hc|]. unfold resolve_key, node_env.
  cbn [le_scenario_label le_db le_rpc_url le_genesis_hash].
  apply String.eqb_neq in H1, H2. rewrite H1, H2, bool_decide_eq_false_2 by by rewrite Hm; intros [].
  by rewrite Hg.
Qed.
End deploy.
