(* ===== verification/Spam.v ===== *)
(** * Sending spam ([core/src/test_scenario.rs], [core/src/spammer],
      [bundle_provider/src])

    The callbacks on sent transactions, the tasks a batch of payloads is split
    into, what each task reports back ([SpamMsg]), the bookkeeping that collects
    the reports of a batch before the next one is prepared, and the loop of a
    whole run.  The tasks of a batch run concurrently, so the collector takes
    their reports in the order [be_arrival] gives them.  The node the payloads
    are sent to is the record [SendNode] of its responses. *)

From Stdlib Require Import Strings.Byte Strings.String.
From S2P Require Import Prelude Text Seeder Alloy Agents F64 Db GenTypes GenUtil CoreError Templater TestFile Generator TxActor Scenario.

(** ** Callbacks ([spammer/tx_callback.rs]) *)

Record RuntimeTxInfo := {
  ri_start_timestamp_ms : Z;
  ri_end_timestamp_ms : option Z;
  ri_kind : option string;
  ri_error : option string;
}.

(** [now], at the given time. *)
Definition info_now (ts : Z) : RuntimeTxInfo := {|
  ri_start_timestamp_ms := ts; ri_end_timestamp_ms := None; ri_kind := None; ri_error := None |}.
Definition info_with_kind (kind : string) (i : RuntimeTxInfo) : RuntimeTxInfo := {|
  ri_start_timestamp_ms := ri_start_timestamp_ms i; ri_end_timestamp_ms := ri_end_timestamp_ms i;
  ri_kind := Some kind; ri_error := ri_error i |}.
Definition info_with_error (error : string) (i : RuntimeTxInfo) : RuntimeTxInfo := {|
  ri_start_timestamp_ms := ri_start_timestamp_ms i; ri_end_timestamp_ms := ri_end_timestamp_ms i;
  ri_kind := ri_kind i; ri_error := Some error |}.
Definition info_with_start_timestamp (ts : Z) (i : RuntimeTxInfo) : RuntimeTxInfo := {|
  ri_start_timestamp_ms := ts; ri_end_timestamp_ms := ri_end_timestamp_ms i;
  ri_kind := ri_kind i; ri_error := ri_error i |}.
Definition info_with_end_timestamp (ts : Z) (i : RuntimeTxInfo) : RuntimeTxInfo := {|
  ri_start_timestamp_ms := ri_start_timestamp_ms i; ri_end_timestamp_ms := Some ts;
  ri_kind := ri_kind i; ri_error := ri_error i |}.

(** A spawned callback: the transactions it hands to the actor, and its
    outcome. *)
Record CbTask := { cb_cached : list CacheTx; cb_outcome : outcome string unit }.

(** [OnTxSent] (on whether there are handles to the actor) and [OnBatchSent]. *)
Class SpamCallback (F : Type) := {
  on_tx_sent : F -> TxHash -> RuntimeTxInfo -> bool -> option CbTask;
  on_batch_sent : F -> option CbTask;
}.

Definition cache_tx (tx_hash : TxHash) (extra : RuntimeTxInfo) : CacheTx := {|
  ct_tx_hash := tx_hash; ct_start_timestamp_ms := ri_start_timestamp_ms extra;
  ct_end_timestamp_ms := ri_end_timestamp_ms extra; ct_kind := ri_kind extra;
  ct_error := ri_error extra |}.

Inductive NilCallback := nil_callback.

(** Only the transactions that failed to send are recorded. *)
#[export] Instance nil_spam_callback : SpamCallback NilCallback := {|
  on_tx_sent _ tx_hash extra tx_handlers :=
    match ri_error extra with
    | Some _ =>
        if tx_handlers then Some {| cb_cached := [cache_tx tx_hash extra]; cb_outcome := Ok tt |}
        else None
    | None => None
    end;
  on_batch_sent _ := None |}.

(** [lc_auth_provider] is what advancing the chain gives, where there is a
    provider; [lc_cancelled] whether the token is cancelled before the actor
    answers. *)
Record LogCallback := {
  lc_auth_provider : option (outcome string unit);
  lc_send_fcu : bool;
  lc_cancelled : bool;
}.
Definition LogCallback_new : LogCallback :=
  {| lc_auth_provider := None; lc_send_fcu := false; lc_cancelled := false |}.

#[export] Instance log_spam_callback : SpamCallback LogCallback := {|
  on_tx_sent c tx_hash extra tx_actors :=
    Some {| cb_cached := if tx_actors && negb (lc_cancelled c) then [cache_tx tx_hash extra] else [];
            cb_outcome := Ok tt |};
  on_batch_sent c :=
    if lc_send_fcu c then
      (fun r => {| cb_cached := []; cb_outcome := r |}) <$> lc_auth_provider c
    else None |}.

Record CombinedCallback (X Y : Type) := { cc_base : X; cc_custom : Y }.
Arguments cc_base {X Y} _.
Arguments cc_custom {X Y} _.
Definition CombinedCallback_new {X Y} (base : X) (custom : Y) : CombinedCallback X Y :=
  {| cc_base := base; cc_custom := custom |}.

(** Both tasks run to their end; the first one's failure is reported first. *)
Definition join_callback_handles (a b : option CbTask) : option CbTask :=
  match a, b with
  | None, None => None
  | Some h, None | None, Some h => Some h
  | Some a, Some b =>
      let joined (r : outcome string unit) :=
        match r with Panic => Err "join error"%string | r => r end in
      Some {| cb_cached := cb_cached a ++ cb_cached b;
              cb_outcome := joined (cb_outcome a);; joined (cb_outcome b) |}
  end.

#[export] Instance combined_spam_callback {X Y} `{SpamCallback X, SpamCallback Y}
  : SpamCallback (CombinedCallback X Y) := {|
  on_tx_sent c tx_hash extra handlers :=
    join_callback_handles (on_tx_sent (cc_base c) tx_hash extra handlers)
      (on_tx_sent (cc_custom c) tx_hash extra handlers);
  on_batch_sent c :=
    join_callback_handles (on_batch_sent (cc_base c)) (on_batch_sent (cc_custom c)) |}.

(** ** Bundles ([bundle_provider/src]) *)

Inductive BundleType := L1 | RevertProtected.

Section spam.
Context `{A : Alloy, Sg : !Signing} {P : Profile}.

(** A raw transaction is its envelope. *)
Record RevertProtectBundle := {
  rb_transaction : list Envelope;
  rb_block_number_max : option Z;
}.
Record RevertProtectBundleRequest := {
  rq_txs : list Envelope;
  rq_block_number_max : option Z;
}.
Definition revert_request_new : RevertProtectBundleRequest :=
  {| rq_txs := []; rq_block_number_max := None |}.
Definition with_txs (txs : list Envelope) (r : RevertProtectBundleRequest) :=
  {| rq_txs := txs; rq_block_number_max := rq_block_number_max r |}.
Definition with_block_max (max_block : Z) (r : RevertProtectBundleRequest) :=
  {| rq_txs := rq_txs r; rq_block_number_max := Some max_block |}.

Inductive TypedBundle :=
| L1Bundle (txs : list Envelope) (block_number : Z)
| RevertProtectedBundle (r : RevertProtectBundleRequest).
Definition prepare (r : RevertProtectBundleRequest) : TypedBundle := RevertProtectedBundle r.

(** One bundle for each transaction. *)
Definition to_bundles (r : RevertProtectBundleRequest) : list RevertProtectBundle :=
  (fun tx => {| rb_transaction := [tx]; rb_block_number_max := rq_block_number_max r |})
    <$> rq_txs r.

(** What a client sends. *)
Inductive SentBundle := SentL1 (txs : list Envelope) (block_number : Z)
| SentRevert (b : RevertProtectBundle).

Definition bundle_send (client : SentBundle -> outcome BundleProviderError unit)
    (b : TypedBundle) : outcome BundleProviderError unit :=
  match b with
  | L1Bundle txs n => client (SentL1 txs n)
  | RevertProtectedBundle r =>
      fold_steps (fun _ bundle => client (SentRevert bundle)) tt (to_bundles r)
  end.

(** The calls a bundle is sent by, in order; and the transactions of those that
    are made, the first failure being the last. *)
Definition bundle_requests (b : TypedBundle) : list SentBundle :=
  match b with
  | L1Bundle txs n => [SentL1 txs n]
  | RevertProtectedBundle r => SentRevert <$> to_bundles r
  end.
Definition sent_txs (b : SentBundle) : list Envelope :=
  match b with SentL1 txs _ => txs | SentRevert b => rb_transaction b end.
Fixpoint bundles_sent (client : SentBundle -> outcome BundleProviderError unit)
    (l : list SentBundle) : list Envelope :=
  match l with
  | [] => []
  | b :: l => sent_txs b ++ match client b with Ok _ => bundles_sent client l | _ => [] end
  end.

(** ** Reports of a sent transaction *)

Inductive SpamTrigger :=
| TriggerNil | TriggerBlockNumber (n : Z) | TriggerTick (n : Z) | TriggerBlockHash (h : Z).

(** The messages on the three channels of a batch. *)
Inductive SpamMsg :=
| GasBump (bump : Z)
| ShiftNonce (a : Address) (shift : Z)
| SendSuccess.

Definition outcome_msgs (req : NamedTxRequest) (error_msg : option string) : list SpamMsg :=
  match error_msg with
  | Some msg =>
      let message := to_lowercase msg in
      if str_contains "replacement transaction underpriced" message then
        [GasBump (default (default 1000000000 (tx_gas_price (nr_tx req)))
                    (tx_max_fee_per_gas (nr_tx req)) / 10)]
      else if str_contains "nonce too low" message then
        match tx_from (nr_tx req) with Some from => [ShiftNonce from 1] | None => [] end
      else if str_contains "nonce too high" message then
        match tx_from (nr_tx req) with Some from => [ShiftNonce from (-1)] | None => [] end
      else []
  | None => [SendSuccess]
  end.

(** What a task leaves behind: the transactions it handed to a node (those of a
    call that was cancelled are left out: it may not have begun), its messages,
    the transactions its callbacks hand to the actor, the errors it reports, and
    whether it panicked. *)
Record TaskOut := {
  to_sent : list Envelope;
  to_msgs : list SpamMsg;
  to_cached : list CacheTx;
  to_errors : list Error;
  to_panicked : bool;
}.
Definition task_nothing : TaskOut :=
  {| to_sent := []; to_msgs := []; to_cached := []; to_errors := []; to_panicked := false |}.
Definition task_panicked : TaskOut :=
  {| to_sent := []; to_msgs := []; to_cached := []; to_errors := []; to_panicked := true |}.
Definition task_app (x y : TaskOut) : TaskOut := {|
  to_sent := to_sent x ++ to_sent y; to_msgs := to_msgs x ++ to_msgs y; to_cached := to_cached x ++ to_cached y;
  to_errors := to_errors x ++ to_errors y; to_panicked := to_panicked x || to_panicked y |}.

(** A task that has handed [txs] to a node. *)
Definition task_sent (txs : list Envelope) (t : TaskOut) : TaskOut := {|
  to_sent := txs; to_msgs := to_msgs t; to_cached := to_cached t; to_errors := to_errors t;
  to_panicked := to_panicked t |}.

Definition cb_txs (t : option CbTask) : list CacheTx :=
  match t with Some t => cb_cached t | None => [] end.

Section tasks.
Context {F : Type} `{CB : SpamCallback F} (callback : F).

Definition handle_tx_outcome (tx_hash : TxHash) (req : NamedTxRequest) (extra : RuntimeTxInfo)
    (error_msg : option string) : TaskOut :=
  let extra := match error_msg with
               | Some msg => info_with_error msg extra
               | None => extra
               end in
  {| to_sent := []; to_msgs := outcome_msgs req error_msg;
     to_cached := cb_txs (on_tx_sent callback tx_hash extra true);
     to_errors := []; to_panicked := false |}.

(** The responses of the nodes: a single send by the number of the attempt
    (an error with its message, when it has one); a synchronous send, unless it is
    cancelled, as the HTTP outcome and in it the parsed response with its error
    message; a JSON-RPC batch by the number of the attempt, with the error
    messages of its responses; and the start and end times of a task. *)
Record SendNode := {
  sd_async : Envelope -> nat -> outcome (option string) unit;
  sd_sync : Envelope -> option (outcome string (outcome string (option string)));
  sd_batch : list Envelope -> nat -> outcome string (outcome string (list (option string)));
  sd_bundle : SentBundle -> outcome BundleProviderError unit;
  sd_block_by_hash : Z -> outcome string (option Z);
  sd_block_number : outcome string Z;
  sd_start : list Envelope -> Z;
  sd_end : list Envelope -> Z;
}.
Variable node : SendNode.

Definition sync_error (resp : outcome string (outcome string (option string))) : option string :=
  match resp with
  | Ok (Ok error_msg) => error_msg
  | Ok (Err e) => Some ("failed to parse sendRawTransactionSync response: " +:+ e)%string
  | Err e => Some ("sendRawTransactionSync HTTP error: " +:+ e)%string
  | _ => None
  end.

Definition send_sync (tx : Envelope) (req : NamedTxRequest) : TaskOut :=
  match sd_sync node tx with
  | Some resp =>
      task_sent [tx]
        (handle_tx_outcome (envelope_hash tx) req
           (info_with_end_timestamp (sd_end node [tx]) (info_now (sd_start node [tx])))
           (sync_error resp))
  | None => task_nothing
  end.

Definition send_async (tx : Envelope) (req : NamedTxRequest) : TaskOut :=
  match retry_once (sd_async node tx) with
  | Ok _ =>
      task_sent [tx] (handle_tx_outcome (envelope_hash tx) req (info_now (sd_start node [tx])) None)
  | Err msg =>
      task_sent [tx]
        (handle_tx_outcome (envelope_hash tx) req (info_now (sd_start node [tx]))
           (Some (default "send_tx_envelope failed"%string msg)))
  | Panic => task_panicked
  end.

Definition trigger_block (trigger : SpamTrigger) : option Z :=
  match trigger with
  | TriggerBlockNumber n => Some n
  | TriggerBlockHash h => match sd_block_by_hash node h with Ok (Some n) => Some n | _ => None end
  | _ => match sd_block_number node with Ok n => Some n | _ => None end
  end.

(** A bundle reports one success for itself, and hands all its transactions to
    the callback whether or not it was accepted. *)
Definition send_bundle (has_client : bool) (bundle_type : BundleType) (trigger : SpamTrigger)
    (txs : list Envelope) (reqs : list NamedTxRequest) : TaskOut :=
  let rpc_bundle :=
    block_num ← trigger_block trigger;
    match bundle_type with
    | L1 => match arith (E := unit) 64 (block_num + 1) with
            | Ok n => Some (L1Bundle txs n)
            | _ => None
            end
    | RevertProtected => Some (prepare (with_txs txs revert_request_new))
    end in
  match rpc_bundle, has_client with
  | Some rpc_bundle, true =>
      let cached := zip txs reqs ≫= fun tr =>
        cb_txs (on_tx_sent callback (envelope_hash tr.1) (info_now (sd_start node txs)) true) in
      let sent := bundles_sent (sd_bundle node) (bundle_requests rpc_bundle) in
      match bundle_send (sd_bundle node) rpc_bundle with
      | Ok _ => {| to_sent := sent; to_msgs := [SendSuccess]; to_cached := cached;
                   to_errors := []; to_panicked := false |}
      | Err e => {| to_sent := sent; to_msgs := []; to_cached := cached;
                    to_errors := [error_of_bundle e]; to_panicked := false |}
      | Panic => task_panicked
      end
  | _, _ => task_panicked
  end.

Definition send_single (s : Scenario) (bundle_type : BundleType) (trigger : SpamTrigger)
    (p : ExecutionPayload) : TaskOut :=
  match p with
  | SignedTx tx req => if sn_send_raw_tx_sync s then send_sync tx req else send_async tx req
  | SignedTxBundle txs reqs => send_bundle (sn_bundle_client s) bundle_type trigger txs reqs
  end.

(** A JSON-RPC batch: when it cannot be sent or its response not be read, none of
    its transactions is reported. *)
Definition send_batch (chunk : list (Envelope * NamedTxRequest)) : TaskOut :=
  task_sent chunk.*1
    match retry_once (sd_batch node chunk.*1) with
    | Ok (Ok responses) =>
        foldr task_app task_nothing
          (imap (fun i tr => handle_tx_outcome (envelope_hash tr.1) tr.2
                               (info_now (sd_start node chunk.*1))
                               (m ← responses !! i; m)) chunk)
    | _ => task_nothing
    end.

(** ** One batch *)

(** The nonce a payload is sorted by: that of the request, or of a bundle's first
    request, as the payload holds it; indexing an empty bundle panics. *)
Definition payload_nonce (p : ExecutionPayload) : option (option Z) :=
  match p with
  | SignedTx _ req => Some (tx_nonce (nr_tx req))
  | SignedTxBundle _ (req :: _) => Some (tx_nonce (nr_tx req))
  | SignedTxBundle _ [] => None
  end.

(** [None] comes before every nonce. *)
Definition sort_key (p : ExecutionPayload) : Z :=
  match payload_nonce p with Some (Some n) => n | _ => -1 end.

(** The comparator runs on every payload as soon as there are two. *)
Definition sort_payloads (payloads : list ExecutionPayload)
  : outcome Error (list ExecutionPayload) :=
  if (2 <=? length payloads)%nat &&
     existsb (fun p => match payload_nonce p with None => true | _ => false end) payloads
  then Panic else Ok (sort_by sort_key payloads).

Definition is_signed_tx (p : ExecutionPayload) : bool :=
  match p with SignedTx _ _ => true | _ => false end.

Definition should_batch_rpc (s : Scenario) (payloads : list ExecutionPayload) : bool :=
  (0 <? sn_rpc_batch_size s) && negb (sn_send_raw_tx_sync s) && forallb is_signed_tx payloads.

(** The payloads of each task. *)
Definition task_payloads (s : Scenario) (payloads : list ExecutionPayload)
  : list (list ExecutionPayload) :=
  if should_batch_rpc s payloads
  then chunks_fuel (length payloads) (Z.to_nat (sn_rpc_batch_size s)) payloads
  else (fun p => [p]) <$> payloads.

Definition signed_pairs (l : list ExecutionPayload) : list (Envelope * NamedTxRequest) :=
  omap (fun p => match p with SignedTx tx req => Some (tx, req) | _ => None end) l.

Definition run_task (batched : bool) (s : Scenario) (bundle_type : BundleType)
    (trigger : SpamTrigger) (l : list ExecutionPayload) : TaskOut :=
  if batched then send_batch (signed_pairs l)
  else foldr task_app task_nothing (send_single s bundle_type trigger <$> l).

(** The tasks' outcomes, one per task; the count of batches is of 64 bits. *)
Definition execute_spam (bundle_type : BundleType) (trigger : SpamTrigger)
    (payloads : list ExecutionPayload) : stm Scenario Error (list TaskOut) :=
  payloads ← lift (sort_payloads payloads);
  s ← gets id;
  let tasks := task_payloads s payloads in
  sent ← lift (arith 64 (sn_num_rpc_batches_sent s + Z.of_nat (length tasks)));
  modify (set_batches_sent sent);;
  mret (run_task (should_batch_rpc s payloads) s bundle_type trigger <$> tasks).

(** ** Collecting a batch *)

(** Arithmetic on [w]-bit signed integers. *)
Definition wrap_signed (w x : Z) : Z :=
  let r := x mod 2 ^ w in if r <? 2 ^ (w - 1) then r else r - 2 ^ w.
Definition in_signed (w x : Z) : bool := (- 2 ^ (w - 1) <=? x) && (x <? 2 ^ (w - 1)).
Definition iarith {E} (w x : Z) : outcome E Z :=
  if in_signed w x then Ok x
  else if overflow_checks then Panic else Ok (wrap_signed w x).

Definition gas_bumps (l : list SpamMsg) : list Z :=
  omap (fun m => match m with GasBump b => Some b | _ => None end) l.
Definition nonce_shifts (l : list SpamMsg) : list (Address * Z) :=
  omap (fun m => match m with ShiftNonce a d => Some (a, d) | _ => None end) l.
Definition successes (l : list SpamMsg) : nat :=
  length (omap (fun m => match m with SendSuccess => Some tt | _ => None end) l).

(** One gas message; [starting] is the adder before the batch. *)
Definition add_gas_step (starting adder gas : Z) : outcome Error Z :=
  bound ← iarith 128 (wrap_signed 128 gas + starting);
  if bound <=? adder then mret adder else iarith 128 (adder + wrap_signed 128 gas).

(** The total shift of each address, of 32 bits. *)
Definition adjust_step (m : gmap Address Z) (ad : Address * Z) : outcome Error (gmap Address Z) :=
  total ← iarith 32 (default 0 (m !! ad.1) + ad.2);
  mret (<[ad.1 := total]> m).

Definition shifted_nonce (current_nonce total_shift : Z) : Z :=
  if total_shift <? 0 then saturating_sub current_nonce (Z.abs total_shift)
  else saturating_add 64 current_nonce total_shift.

Definition apply_shifts (adjustments nonces : gmap Address Z) : gmap Address Z :=
  fold_left (fun m at_ => <[at_.1 := shifted_nonce (default 0 (m !! at_.1)) at_.2]> m)
    (map_to_list adjustments) nonces.

(** [arrived]: the messages in the order they are taken off the channels;
    [error]: an error the wait for the tasks was interrupted by. *)
Definition collect_pending_batch (num_payloads : nat) (arrived : list SpamMsg)
    (error : option Error) : stm Scenario Error unit :=
  match error with Some e => lift (Err e) | None => mret tt end;;
  match on_batch_sent callback with
  | Some task =>
      lift (match cb_outcome task with
            | Ok _ => Ok tt
            | Err e => Err (Callback e)
            | Panic => Err (Callback "join error")
            end)
  | None => mret tt
  end;;
  starting ← gets sn_gas_price_adder;
  adder ← lift (fold_steps (add_gas_step starting) starting (gas_bumps arrived));
  modify (set_gas_price_adder adder);;
  adjustments ← lift (fold_steps adjust_step ∅ (nonce_shifts arrived));
  modify (fun s => set_nonces (apply_shifts adjustments (sn_nonces s)) s);;
  if (successes arrived =? num_payloads)%nat then
    if 0 <? adder then
      adder' ← lift (iarith 128 (adder + Z.quot adder (-10)));
      modify (set_gas_price_adder adder')
    else mret tt
  else
    (* the warning prints the difference *)
    lift (arith 64 (Z.of_nat num_payloads - Z.of_nat (successes arrived)));; mret tt.
End tasks.

(** ** A run *)

(** What the world does during one period: the node's responses to the
    preparation and to the sends, the callback, the order of the tasks' reports
    and the error that interrupts the wait, if one does. *)
Record BatchEnv (F : Type) := {
  be_rpc : RpcNode;
  be_node : SendNode;
  be_callback : F;
  be_arrival : list SpamMsg -> list SpamMsg;
  be_interrupt : list Error -> option Error;
}.
Arguments be_rpc {F} _.
Arguments be_node {F} _.
Arguments be_callback {F} _.
Arguments be_arrival {F} _.
Arguments be_interrupt {F} _.

Record PendingBatch (F : Type) := {
  pb_env : BatchEnv F;
  pb_tasks : list TaskOut;
  pb_num_payloads : nat;
}.
Arguments pb_env {F} _.
Arguments pb_tasks {F} _.
Arguments pb_num_payloads {F} _.

Section run.
Context {F : Type} `{CB : SpamCallback F}.

Definition collect (batch : option (PendingBatch F)) : stm Scenario Error unit :=
  match batch with
  | Some b =>
      collect_pending_batch (be_callback (pb_env b)) (pb_num_payloads b)
        (be_arrival (pb_env b) (pb_tasks b ≫= to_msgs))
        (be_interrupt (pb_env b) (pb_tasks b ≫= to_errors))
  | None => mret tt
  end.

(** A channel without capacity panics. *)
Definition channel (n : nat) : outcome Error unit := assert_ (negb (n =? 0)%nat).

(** What a period prepared, and what its tasks left behind. *)
Definition SentBatch : Type := list ExecutionPayload * list TaskOut.

(** The loop over the triggers; its result here is what the periods sent. *)
Fixpoint execute_spammer (bundle_type : BundleType) (tx_req_chunks : list (list ExecutionRequest))
    (triggers : list (SpamTrigger * BatchEnv F)) (tick : nat) (pending : option (PendingBatch F))
  : stm Scenario Error (list SentBatch) :=
  match triggers with
  | [] => collect pending;; mret []
  | (trigger, env) :: triggers =>
      collect pending;;
      chunk ← lift (unwrap (tx_req_chunks !! (tick mod Nat.max (length tx_req_chunks) 1)%nat));
      payloads ← prepare_spam (be_rpc env) chunk;
      lift (channel (length payloads));;
      first ← lift (unwrap (tx_req_chunks !! 0%nat));
      lift (channel (length first));;
      tasks ← execute_spam (be_callback env) (be_node env) bundle_type trigger payloads;
      rest ← execute_spammer bundle_type tx_req_chunks triggers (S tick)
               (Some {| pb_env := env; pb_tasks := tasks; pb_num_payloads := length payloads |});
      mret ((payloads, tasks) :: rest)
  end.
End run.
End spam.

#[global] Arguments be_rpc {_ _ _} _.
#[global] Arguments be_node {_ _ _} _.
#[global] Arguments be_callback {_ _ _} _.
#[global] Arguments be_arrival {_ _ _} _.
#[global] Arguments be_interrupt {_ _ _} _.
#[global] Arguments pb_env {_ _ _} _.
#[global] Arguments pb_tasks {_ _ _} _.
#[global] Arguments pb_num_payloads {_ _ _} _.

(** ** Properties of a batch *)

Section batch_props.
Context `{A : Alloy, Sg : !Signing} {P : Profile}.
Context {F : Type} `{CB : SpamCallback F} (callback : F) (node : SendNode).

(** What arrives of the messages sent: some of them, in any order. *)
Definition arrives (arrived sent : list SpamMsg) : Prop := arrived ⊆+ sent.

(** Every message is of one of the three kinds. *)
Lemma msg_kinds l :
  length l = (length (gas_bumps l) + length (nonce_shifts l) + successes l)%nat.
Proof.
  unfold gas_bumps, nonce_shifts, successes.
  induction l as [|[b|a d|] l IH]; cbn; [done|..]; lia.
Qed.

Lemma outcome_msgs_one req m : (length (outcome_msgs req m) <= 1)%nat.
Proof.
  destruct m as [m|]; cbn; [|lia]. repeat case_match; cbn; lia.
Qed.

(** At most one message from each of a list of reports. *)
Lemma msgs_length_le (ts : list TaskOut) :
  Forall (fun t => (length (to_msgs t) <= 1)%nat) ts ->
  (length (to_msgs (foldr task_app task_nothing ts)) <= length ts)%nat.
Proof. induction 1; cbn; [lia|]. rewrite length_app. lia. Qed.

Lemma send_single_msgs s bt trigger p :
  (length (to_msgs (send_single callback node s bt trigger p)) <= 1)%nat.
Proof.
  destruct p as [tx req|txs reqs]; cbn [send_single].
  - unfold send_sync, send_async. repeat case_match; (apply outcome_msgs_one || (cbn; lia)).
  - unfold send_bundle. repeat case_match; cbn; lia.
Qed.

Lemma run_task_msgs batched s bt trigger l :
  (length (to_msgs (run_task callback node batched s bt trigger l)) <= length l)%nat.
Proof.
  unfold run_task. destruct batched.
  - unfold send_batch. repeat case_match; cbn; try lia.
    etrans; [apply msgs_length_le|].
    + apply Forall_forall. intros t Ht. apply elem_of_lookup_imap in Ht as (i & tr & -> & _).
      apply outcome_msgs_one.
    + rewrite length_imap. apply omap_length_le.
  - etrans; [apply msgs_length_le|by rewrite length_fmap].
    apply Forall_fmap, Forall_true. intros p. apply send_single_msgs.
Qed.

Lemma execute_spam_ok bt trigger payloads s s' tasks :
  execute_spam callback node bt trigger payloads s = (s', Ok tasks) ->
  exists sorted n, sort_payloads payloads = Ok sorted /\ s' = set_batches_sent n s /\
    tasks = run_task callback node (should_batch_rpc s sorted) s bt trigger
              <$> task_payloads s sorted /\
    n = wrap 64 (sn_num_rpc_batches_sent s + Z.of_nat (length (task_payloads s sorted))).
Proof.
  unfold execute_spam. intros H. inv_stm. unfold id in *.
  match goal with H : arith 64 _ = Ok _ |- _ => apply arith_wrap in H; [|lia] end.
  eexists _, _. split_and!; done.
Qed.

Lemma sort_payloads_ok payloads sorted :
  sort_payloads payloads = Ok sorted -> sorted = sort_by sort_key payloads.
Proof. unfold sort_payloads. case_bool; [done|]. by intros [= <-]. Qed.

Lemma task_payloads_concat s payloads : concat (task_payloads s payloads) = payloads.
Proof.
  unfold task_payloads. destruct (should_batch_rpc s payloads) eqn:Hb.
  - apply andb_true_iff in Hb as [Hb _]. apply andb_true_iff in Hb as [Hb%Z.ltb_lt _].
    by apply chunks_fuel_spec; [lia|].
  - clear. induction payloads as [|p l IH]; cbn; [done|]. by rewrite IH.
Qed.

(** *** What the tasks hand to the node *)

Definition bundle_txs (b : TypedBundle) : list Envelope :=
  match b with L1Bundle txs _ => txs | RevertProtectedBundle r => rq_txs r end.

Lemma bundle_requests_txs b : bundle_requests b ≫= sent_txs = bundle_txs b.
Proof.
  destruct b as [txs n|[txs n]]; cbn; [by rewrite app_nil_r|]. unfold to_bundles. cbn.
  induction txs as [|tx txs IH]; csimpl; [done|]. by rewrite IH.
Qed.

Lemma bundles_sent_prefix client l : bundles_sent client l `prefix_of` l ≫= sent_txs.
Proof.
  induction l as [|b l IH]; csimpl; [done|]. apply list_relations.list.prefix_app.
  destruct (client b); [done|apply list_relations.list.prefix_nil..].
Qed.

Lemma bundle_sent_all client b u :
  bundle_send client b = Ok u -> bundles_sent client (bundle_requests b) = bundle_txs b.
Proof.
  rewrite <- bundle_requests_txs. destruct b as [txs n|r]; cbn.
  - intros ->. done.
  - generalize (to_bundles r) as l. induction l as [|b l IH]; intros H; [done|]. cbn in H.
    apply bind_ok in H as ([] & Hb & H). csimpl. rewrite Hb. by rewrite IH.
Qed.

(** What holds of a task that hands [l] to the node: never anything else, and
    nothing less unless it is cancelled, panics or reports an error. *)
Definition hands_over (l : list Envelope) (t : TaskOut) : Prop :=
  to_sent t `prefix_of` l /\
  ((forall e, is_Some (sd_sync node e)) -> to_panicked t = false -> to_errors t = [] ->
     to_sent t = l).

Lemma hands_over_all l t : to_sent t = l -> hands_over l t.
Proof. intros <-. split; done. Qed.

Lemma hands_over_none l t :
  to_sent t = [] -> to_panicked t = true \/ (exists e, sd_sync node e = None) -> hands_over l t.
Proof.
  intros Ht Hc. split; [rewrite Ht; apply list_relations.list.prefix_nil|]. intros Hs Hp _.
  destruct Hc as [Hc|[e Hc]]; [congruence|]. destruct (Hs e) as [? He]. congruence.
Qed.

Lemma send_bundle_over has_client bt trigger txs reqs :
  hands_over txs (send_bundle callback node has_client bt trigger txs reqs).
Proof.
  unfold send_bundle.
  destruct (trigger_block node trigger) as [n|]; [|apply hands_over_none; [done|by left]]. csimpl.
  set (b := match bt with L1 => _ | RevertProtected => _ end).
  assert (Hb : match b with Some b => bundle_txs b = txs | None => True end).
  { unfold b. destruct bt; [by destruct (arith _ _)|done]. }
  clearbody b. destruct b as [b|], has_client; try (apply hands_over_none; [done|by left]).
  rewrite <- Hb. destruct (bundle_send (sd_bundle node) b) eqn:Hr.
  - apply hands_over_all. by eapply bundle_sent_all.
  - split; [rewrite <- bundle_requests_txs; apply bundles_sent_prefix|done].
  - apply hands_over_none; [done|by left].
Qed.

Lemma send_single_over s bt trigger p :
  hands_over (payload_envelopes p) (send_single callback node s bt trigger p).
Proof.
  destruct p as [tx req|txs reqs]; cbn [send_single payload_envelopes]; [|apply send_bundle_over].
  destruct (sn_send_raw_tx_sync s); [unfold send_sync|unfold send_async].
  - destruct (sd_sync node tx) eqn:Hs; [by apply hands_over_all|].
    apply hands_over_none; [done|right; by exists tx].
  - destruct (retry_once _); [by apply hands_over_all..|]. apply hands_over_none; [done|by left].
Qed.

Lemma to_sent_foldr ts : to_sent (foldr task_app task_nothing ts) = ts ≫= to_sent.
Proof. induction ts as [|t ts IH]; csimpl; [done|]. by rewrite IH. Qed.

Lemma signed_pairs_envelopes l :
  forallb is_signed_tx l = true -> (signed_pairs l).*1 = l ≫= payload_envelopes.
Proof.
  induction l as [|[tx req|txs reqs] l IH]; csimpl; intros H; [done| |done].
  f_equal. by apply IH.
Qed.

(** Some of the transactions of the payloads, and all of them from a task
    nothing happens to. *)
Definition hands_some (l : list Envelope) (t : TaskOut) : Prop :=
  to_sent t ⊆+ l /\
  ((forall e, is_Some (sd_sync node e)) -> to_panicked t = false -> to_errors t = [] ->
     to_sent t = l).

Lemma run_task_sent batched s bt trigger l :
  (batched = true -> forallb is_signed_tx l = true) ->
  hands_some (l ≫= payload_envelopes) (run_task callback node batched s bt trigger l).
Proof.
  intros Hb. unfold run_task. destruct batched.
  - unfold send_batch. cbn. rewrite signed_pairs_envelopes by auto. split; done.
  - clear Hb. induction l as [|p l IH]; [split; done|]. cbn [foldr fmap list_fmap].
    destruct (send_single_over s bt trigger p) as [Hp Ha], IH as [IHp IHa]. csimpl.
    split; cbn [task_app to_sent to_panicked to_errors].
    + apply submseteq_app; [|done].
      destruct Hp as [k ->]. by apply submseteq_inserts_r.
    + intros Hs [H1 H2]%orb_false_iff [H3 H4]%app_eq_nil. by rewrite Ha, IHa.
Qed.

(** A period during which no send is cancelled, no task panics and no bundle
    is refused. *)
Definition undisturbed (tasks : list TaskOut) : Prop :=
  (forall e, is_Some (sd_sync node e)) /\
  Forall (fun t => to_panicked t = false /\ to_errors t = []) tasks.

Lemma task_payloads_signed s payloads :
  should_batch_rpc s payloads = true -> Forall (fun g => forallb is_signed_tx g = true)
    (task_payloads s payloads).
Proof.
  intros Hb. unfold should_batch_rpc in Hb. apply andb_true_iff in Hb as [_ Hb].
  rewrite <- (task_payloads_concat s payloads) in Hb. revert Hb.
  induction (task_payloads s payloads) as [|g gs IH]; [by constructor|].
  cbn. rewrite forallb_app. intros [Hg Hgs]%andb_true_iff. constructor; auto.
Qed.

Lemma tasks_sent batched s bt trigger gs :
  Forall (fun g => batched = true -> forallb is_signed_tx g = true) gs ->
  (run_task callback node batched s bt trigger <$> gs) ≫= to_sent ⊆+
    concat gs ≫= payload_envelopes /\
  (undisturbed (run_task callback node batched s bt trigger <$> gs) ->
   (run_task callback node batched s bt trigger <$> gs) ≫= to_sent =
     concat gs ≫= payload_envelopes).
Proof.
  induction 1 as [|g gs Hg Hgs IH]; [done|]. csimpl. rewrite bind_app.
  destruct (run_task_sent batched s bt trigger g Hg) as [Hr Ha], IH as [IHr IHa]. split.
  - by apply submseteq_app.
  - intros [Hs [[Hp He] Hall]%Forall_cons]. f_equal; [by apply Ha|]. by apply IHa.
Qed.

(** The tasks of a batch hand over transactions of its payloads only, none
    twice, and every one in a period that is not disturbed. *)
Lemma execute_spam_sent bt trigger payloads s s' tasks :
  execute_spam callback node bt trigger payloads s = (s', Ok tasks) ->
  tasks ≫= to_sent ⊆+ payloads ≫= payload_envelopes /\
  (undisturbed tasks -> tasks ≫= to_sent ≡ₚ payloads ≫= payload_envelopes).
Proof.
  intros H. apply execute_spam_ok in H as (sorted & n & Hs & _ & -> & _).
  apply sort_payloads_ok in Hs.
  assert (Hp : sorted ≫= payload_envelopes ≡ₚ payloads ≫= payload_envelopes).
  { apply bind_Permutation. rewrite Hs. apply sort_by_perm. }
  rewrite <- Hp. destruct (tasks_sent (should_batch_rpc s sorted) s bt trigger
    (task_payloads s sorted)) as [Hr Ha].
  { destruct (should_batch_rpc s sorted) eqn:Hb; [|by apply Forall_true].
    eapply Forall_impl; [by apply task_payloads_signed|]. done. }
  rewrite task_payloads_concat in Hr, Ha. split; [done|]. intros Hu. by rewrite Ha.
Qed.

(** C10: a batch sends every payload exactly once, those with lower nonces in
    earlier tasks and those with equal nonces in their order; each task sends one
    payload or, when JSON-RPC batches are enabled and can be used, at most the
    batch size; and each task counts as one request. *)
Theorem execute_spam_tasks bt trigger payloads s s' tasks
    (H : execute_spam callback node bt trigger payloads s = (s', Ok tasks)) :
  exists (groups : list (list ExecutionPayload)) sorted,
    tasks = run_task callback node (should_batch_rpc s sorted) s bt trigger <$> groups /\
    concat groups = sorted /\ sorted ≡ₚ payloads /\
    StronglySorted Z.le (sort_key <$> sorted) /\
    (forall k, filter (fun p => sort_key p = k) sorted = filter (fun p => sort_key p = k) payloads) /\
    Forall (fun g => 0 < Z.of_nat (length g) <=
      if should_batch_rpc s sorted then sn_rpc_batch_size s else 1) groups /\
    sn_num_rpc_batches_sent s' =
      wrap 64 (sn_num_rpc_batches_sent s + Z.of_nat (length groups)).
Proof.
  apply execute_spam_ok in H as (sorted & n & Hs & -> & -> & ->).
  apply sort_payloads_ok in Hs as ->. eexists (task_payloads s _), _.
  split_and!; [done|apply task_payloads_concat|apply sort_by_perm|apply sort_by_sorted| | |done].
  - intros k. apply sort_by_stable.
  - unfold task_payloads.
    destruct (should_batch_rpc s (sort_by sort_key payloads)) eqn:Hb.
    + apply andb_true_iff in Hb as [Hb _]. apply andb_true_iff in Hb as [Hb%Z.ltb_lt _].
      destruct (chunks_fuel_spec (length (sort_by sort_key payloads))
        (Z.to_nat (sn_rpc_batch_size s)) (sort_by sort_key payloads)) as (_ & Hf & _); [lia|done|].
      eapply Forall_impl; [exact Hf|]. cbn. intros g Hg. lia.
    + apply Forall_fmap, Forall_true. intros g. cbn. lia.
Qed.

Lemma tasks_msgs_length batched s bt trigger groups :
  (length ((run_task callback node batched s bt trigger <$> groups) ≫= to_msgs)
   <= length (concat groups))%nat.
Proof.
  induction groups as [|g gs IH]; [cbn; lia|].
  rewrite fmap_cons, bind_cons. cbn [concat]. rewrite !length_app.
  pose proof (run_task_msgs batched s bt trigger g). lia.
Qed.

(** The tasks of a batch send no more messages than there are payloads, so
    that no channel of the batch can be full; hence whichever of them arrive, the
    successes never exceed the payloads, and when they reach their number there
    was neither a gas bump nor a nonce shift. *)
Theorem batch_messages_fit bt trigger payloads s s' tasks (arrived : list SpamMsg)
    (H : execute_spam callback node bt trigger payloads s = (s', Ok tasks))
    (Ha : arrives arrived (tasks ≫= to_msgs)) :
  (length arrived <= length payloads)%nat /\ (successes arrived <= length payloads)%nat /\
  (successes arrived = length payloads -> gas_bumps arrived = [] /\ nonce_shifts arrived = []).
Proof.
  apply execute_spam_ok in H as (sorted & n & Hs & _ & -> & _).
  apply sort_payloads_ok in Hs as ->. apply submseteq_length in Ha.
  assert (Hl : (length arrived <= length payloads)%nat).
  { etrans; [exact Ha|]. etrans; [apply tasks_msgs_length|].
    rewrite task_payloads_concat. by rewrite sort_by_perm. }
  pose proof (msg_kinds arrived) as Hk. split_and!; [done|lia|].
  intros He. split; apply length_zero_iff_nil; lia.
Qed.
End batch_props.

(** ** Properties of the bookkeeping *)

Section collect_props.
Context `{A : Alloy, Sg : !Signing} {P : Profile}.
Context {F : Type} `{CB : SpamCallback F} (callback : F).

Lemma iarith_in {E} w x : 0 < w -> - 2 ^ (w - 1) <= x < 2 ^ (w - 1) -> iarith (E := E) w x = Ok x.
Proof.
  intros Hw Hx. unfold iarith, in_signed.
  rewrite (proj2 (Z.leb_le _ _)), (proj2 (Z.ltb_lt _ _)) by lia. done.
Qed.

Lemma wrap_signed_small w x : 0 < w -> 0 <= x < 2 ^ (w - 1) -> wrap_signed w x = x.
Proof.
  intros Hw Hx. unfold wrap_signed. assert (2 ^ w = 2 * 2 ^ (w - 1)) as Hp.
  { rewrite <- Z.pow_succ_r by lia. f_equal. lia. }
  rewrite Z.mod_small by lia. destruct (Z.ltb_spec x (2 ^ (w - 1))); lia.
Qed.

Lemma add_gas_bounds starting acc bumps :
  0 <= starting <= acc -> Forall (Z.le 0) bumps -> acc + sumZ bumps < 2 ^ 127 ->
  exists mid, fold_steps (add_gas_step starting) acc bumps = Ok mid /\
    acc <= mid <= acc + sumZ bumps /\ Forall (fun b => starting + b <= mid) bumps.
Proof.
  intros Hs Hb. revert acc Hs. induction Hb as [|b l Hb0 Hb IH]; intros acc Hs Hsum; cbn in *.
  { exists acc. split_and!; [done|lia|lia|done]. }
  pose proof (sumZ_nonneg l Hb).
  assert (Hstep : add_gas_step starting acc b = Ok (if b + starting <=? acc then acc else acc + b)).
  { unfold add_gas_step. rewrite wrap_signed_small by lia.
    rewrite (iarith_in 128 (b + starting)) by lia.
    cbn [mbind outcome_bind]. destruct (b + starting <=? acc); [done|]. apply iarith_in; lia. }
  rewrite Hstep. cbn [mbind outcome_bind]. destruct (Z.leb_spec (b + starting) acc) as [Hle|Hle].
  - destruct (IH acc) as (mid & Hm & Hr & Hf); [lia|lia|]. exists mid.
    split_and!; [done|lia|lia|]. constructor; [lia|done].
  - destruct (IH (acc + b)) as (mid & Hm & Hr & Hf); [lia|lia|]. exists mid.
    split_and!; [done|lia|lia|]. constructor; [lia|done].
Qed.

(** The steps of a collection that succeeds. *)
Lemma collect_ok n arrived error s s' :
  collect_pending_batch callback n arrived error s = (s', Ok tt) ->
  exists adder adjustments,
    fold_steps (add_gas_step (sn_gas_price_adder s)) (sn_gas_price_adder s) (gas_bumps arrived)
      = Ok adder /\
    fold_steps adjust_step ∅ (nonce_shifts arrived) = Ok adjustments /\
    sn_nonces s' = apply_shifts adjustments (sn_nonces s) /\ same_setting s s' /\
    (if (successes arrived =? n)%nat && (0 <? adder)
     then iarith (E := Error) 128 (adder + Z.quot adder (-10)) = Ok (sn_gas_price_adder s')
     else sn_gas_price_adder s' = adder).
Proof.
  unfold collect_pending_batch. intros H.
  apply stm_bind_ok in H as (s1 & [] & H1 & H).
  assert (s1 = s) as -> by (destruct error; by inv_stm).
  apply stm_bind_ok in H as (s2 & [] & H2 & H).
  assert (s2 = s) as -> by (destruct (on_batch_sent callback); by inv_stm). clear H1 H2.
  apply stm_bind_ok in H as (s1 & starting & H1 & H). apply stm_gets_ok in H1 as [-> ->].
  apply stm_bind_ok in H as (s1 & adder & H1 & H). apply stm_lift_ok in H1 as [-> Hg].
  apply stm_bind_ok in H as (s1 & u & H1 & H). apply stm_modify_ok in H1 as ->.
  apply stm_bind_ok in H as (s1 & adj & H1 & H). apply stm_lift_ok in H1 as [-> Ha].
  apply stm_bind_ok in H as (s1 & u' & H1 & H). apply stm_modify_ok in H1 as ->.
  exists adder, adj. split; [done|]. split; [done|].
  destruct (successes arrived =? n)%nat; [destruct (0 <? adder)|]; cbn [andb]; inv_stm; done.
Qed.

(** Collecting a batch raises the gas adder by at least the largest bump
    that arrived and at most by their sum, in whatever order they came; then,
    when every payload was sent, a tenth of it is taken off; so it never becomes
    negative. *)
Theorem collect_gas_adder n arrived s s'
    (Hs : 0 <= sn_gas_price_adder s) (Hb : Forall (Z.le 0) (gas_bumps arrived))
    (Hsum : sn_gas_price_adder s + sumZ (gas_bumps arrived) < 2 ^ 127)
    (H : collect_pending_batch callback n arrived None s = (s', Ok tt)) :
  exists adder,
    sn_gas_price_adder s <= adder <= sn_gas_price_adder s + sumZ (gas_bumps arrived) /\
    Forall (fun b => sn_gas_price_adder s + b <= adder) (gas_bumps arrived) /\
    sn_gas_price_adder s' =
      (if (successes arrived =? n)%nat then adder - adder / 10 else adder) /\
    0 <= sn_gas_price_adder s'.
Proof.
  apply collect_ok in H as (adder & adj & Hg & _ & _ & _ & Hf).
  destruct (add_gas_bounds (sn_gas_price_adder s) (sn_gas_price_adder s) (gas_bumps arrived))
    as (mid & Hm & Hr & Hall); [lia|done|done|].
  rewrite Hm in Hg. injection Hg as <-. exists mid. split; [done|]. split; [done|].
  pose proof (Z.div_pos mid 10) as Hd. pose proof (Z.div_le_upper_bound mid 10 mid).
  enough (He : sn_gas_price_adder s' =
    (if (successes arrived =? n)%nat then mid - mid / 10 else mid)).
  { split; [done|]. rewrite He. case_bool; lia. }
  destruct (successes arrived =? n)%nat; cbn [andb] in Hf; [|done].
  destruct (Z.ltb_spec 0 mid); [|rewrite Hf; replace mid with 0 by lia; done].
  change (-10) with (- (10)) in Hf.
  rewrite Z.quot_opp_r, Z.quot_div_nonneg in Hf by lia.
  rewrite iarith_in in Hf by lia. by injection Hf as <-.
Qed.

(** The shifts of one address. *)
Definition pick (a : Address) (l : list (Address * Z)) : list Z :=
  omap (fun ad : Address * Z => if bool_decide (ad.1 = a) then Some ad.2 else None) l.
Definition shifts_of (a : Address) (l : list SpamMsg) : list Z := pick a (nonce_shifts l).

Lemma pick_cons a x d l : pick a ((x, d) :: l) = if bool_decide (x = a) then d :: pick a l else pick a l.
Proof. unfold pick. cbn. by case_bool_decide. Qed.

Lemma adjust_lookup (l : list (Address * Z)) m m' :
  Forall (fun ad => ad.2 = 1 \/ ad.2 = -1) l ->
  (forall a, Z.abs (default 0 (m !! a)) + Z.of_nat (length l) < 2 ^ 31) ->
  fold_steps adjust_step m l = Ok m' ->
  forall a,
    m' !! a = match pick a l with [] => m !! a | _ => Some (default 0 (m !! a) + sumZ (pick a l)) end.
Proof.
  intros Hl. revert m. induction Hl as [|[x d] l Hd Hl IH]; intros m Hr H a.
  { cbn in H. by injection H as <-. }
  cbn [fold_steps] in H. apply bind_ok in H as (m1 & H1 & H). unfold adjust_step in H1.
  cbn [fst snd length] in *. pose proof (Hr x) as Hx. rewrite iarith_in in H1 by lia.
  cbn [mbind outcome_bind] in H1. injection H1 as <-.
  assert (Hr' : forall a', Z.abs (default 0 (<[x := default 0 (m !! x) + d]> m !! a'))
      + Z.of_nat (length l) < 2 ^ 31).
  { intros a'. specialize (Hr a'). destruct (decide (x = a')) as [<-|Hne].
    - rewrite lookup_insert_eq. cbn. lia.
    - rewrite lookup_insert_ne by done. lia. }
  rewrite (IH _ Hr' H a), pick_cons. destruct (decide (x = a)) as [<-|Hne].
  - rewrite lookup_insert_eq, bool_decide_eq_true_2 by done.
    destruct (pick x l); cbn; f_equal; lia.
  - by rewrite lookup_insert_ne, bool_decide_eq_false_2.
Qed.

Lemma apply_shifts_lookup adjustments nonces a :
  apply_shifts adjustments nonces !! a =
  match adjustments !! a with
  | Some t => Some (shifted_nonce (default 0 (nonces !! a)) t)
  | None => nonces !! a
  end.
Proof.
  unfold apply_shifts.
  assert (Hgen : forall (l : list (Address * Z)) (nonces : gmap Address Z), NoDup l.*1 ->
    fold_left (fun m at_ => <[at_.1 := shifted_nonce (default 0 (m !! at_.1)) at_.2]> m) l nonces
      !! a =
    match (list_to_map l : gmap Address Z) !! a with
    | Some t => Some (shifted_nonce (default 0 (nonces !! a)) t)
    | None => nonces !! a
    end).
  { induction l as [|[x t] l IH]; intros m Hnd; [done|]. cbn in Hnd |- *.
    apply NoDup_cons in Hnd as [Hx Hnd]. rewrite (IH _ Hnd).
    destruct (decide (x = a)) as [<-|Hne].
    - rewrite lookup_insert_eq, not_elem_of_list_to_map_1 by done. by rewrite lookup_insert_eq.
    - by rewrite !lookup_insert_ne. }
  rewrite Hgen by apply NoDup_fst_map_to_list. by rewrite list_to_map_to_list.
Qed.

(** Collecting a batch moves the nonce of each address by the sum of the
    shifts that arrived for it, whatever their order, within the 64-bit range;
    an untracked one counts from 0, and no other nonce changes. *)
Theorem collect_nonce_shifts n arrived error s s'
    (Hd : Forall (fun ad => ad.2 = 1 \/ ad.2 = -1) (nonce_shifts arrived))
    (Hl : Z.of_nat (length (nonce_shifts arrived)) < 2 ^ 31)
    (Hr : forall a n, sn_nonces s !! a = Some n -> 0 <= n <= U64_MAX)
    (H : collect_pending_batch callback n arrived error s = (s', Ok tt)) :
  forall a, sn_nonces s' !! a =
    match shifts_of a arrived with
    | [] => sn_nonces s !! a
    | _ => Some (Z.max 0 (Z.min U64_MAX
                   (default 0 (sn_nonces s !! a) + sumZ (shifts_of a arrived))))
    end.
Proof.
  apply collect_ok in H as (adder & adj & _ & Ha & Hn & _). intros a.
  rewrite Hn, apply_shifts_lookup.
  rewrite (adjust_lookup (nonce_shifts arrived) ∅ adj Hd) by
    (done || (intros a'; rewrite lookup_empty; cbn; lia)).
  fold (shifts_of a arrived). rewrite lookup_empty.
  assert (Hle : 0 <= default 0 (sn_nonces s !! a) <= U64_MAX).
  { destruct (sn_nonces s !! a) as [n0|] eqn:Hn0; [by eapply Hr|done]. }
  destruct (shifts_of a arrived) as [|d l] eqn:Hs; [done|]. f_equal.
  cbn [default]. unfold shifted_nonce, saturating_sub, saturating_add, U64_MAX, id in *.
  rewrite Z.add_0_l. destruct (Z.ltb_spec (sumZ (d :: l)) 0); unfold MAX in *; lia.
Qed.
End collect_props.

(** ** Properties of a run *)

Section run_props.
Context `{A : Alloy, Sg : !Signing, L : !SigningLaws} {P : Profile}.
Context {F : Type} `{CB : SpamCallback F}.

(** The requests of the period [tick]: the chunks are taken in turn. *)
Definition period_requests (chunks : list (list ExecutionRequest)) (tick : nat)
  : list TransactionRequest :=
  default [] (chunks !! (tick mod Nat.max (length chunks) 1)%nat) ≫= exec_requests.

Lemma collect_no_shift n (callback : F) arrived error s s' :
  nonce_shifts arrived = [] ->
  collect_pending_batch callback n arrived error s = (s', Ok tt) ->
  sn_nonces s' = sn_nonces s /\ same_setting s s'.
Proof.
  intros Hn H. apply collect_ok in H as (adder & adj & _ & Ha & Hs & Hset & _).
  rewrite Hn in Ha. injection Ha as <-. rewrite Hs. split; [|done].
  unfold apply_shifts. by rewrite map_to_list_empty.
Qed.

Lemma execute_spam_frame (callback : F) node bt trigger payloads s s' tasks :
  execute_spam callback node bt trigger payloads s = (s', Ok tasks) ->
  sn_nonces s' = sn_nonces s /\ same_setting s s'.
Proof. intros H. apply execute_spam_ok in H as (sorted & n & _ & -> & _). done. Qed.

Definition quiet (env : BatchEnv F) : Prop := forall l, nonce_shifts (be_arrival env l) = [].

Lemma prepared_frame_l s s1 l es s2 :
  sn_nonces s1 = sn_nonces s -> same_setting s s1 -> prepared s1 l es s2 -> prepared s l es s2.
Proof.
  intros Hn Hs Hp. change l with ([] ++ l). change es with ([] ++ es).
  by eapply prepared_app; [apply prepared_frame|].
Qed.

Lemma prepared_frame_r s l es s1 s2 :
  prepared s l es s1 -> sn_nonces s2 = sn_nonces s1 -> same_setting s1 s2 -> prepared s l es s2.
Proof.
  intros Hp Hn Hs. rewrite <- (app_nil_r l), <- (app_nil_r es).
  by eapply prepared_app; [|apply prepared_frame].
Qed.

Lemma collect_quiet pending s s' :
  match pending with Some b => quiet (pb_env b) | None => True end ->
  collect (F := F) pending s = (s', Ok tt) -> sn_nonces s' = sn_nonces s /\ same_setting s s'.
Proof.
  destruct pending as [b|]; intros Hq H.
  2: { apply stm_ret_ok in H as [-> _]. done. }
  cbn in H. eapply collect_no_shift in H; [done|]. apply Hq.
Qed.

(** What the period [tick] sends: its chunk, request by request, at the prices
    of its time; and its tasks hand over these transactions, none twice and
    nothing else, each of them unless the period is disturbed. *)
Definition period_sent s (chunks : list (list ExecutionRequest)) (tick : nat) (env : BatchEnv F)
    (b : SentBatch) : Prop :=
  exists chunk gp bp,
    chunks !! (tick mod Nat.max (length chunks) 1)%nat = Some chunk /\
    Forall2 (signed_payload s gp bp) chunk b.1 /\
    b.2 ≫= to_sent ⊆+ b.1 ≫= payload_envelopes /\
    (undisturbed (be_node env) b.2 -> b.2 ≫= to_sent ≡ₚ b.1 ≫= payload_envelopes).

Lemma period_sent_setting s s' chunks tick env b :
  same_setting s s' -> period_sent s' chunks tick env b -> period_sent s chunks tick env b.
Proof.
  intros Hs (chunk & gp & bp & Hc & Hp & Hsent). exists chunk, gp, bp. split; [done|].
  split; [|done]. eapply Forall2_impl; [exact Hp|]. intros e p.
  by apply signed_payload_setting.
Qed.

Lemma run_prepared bt chunks triggers tick pending s s' (sent : list SentBatch) :
  signers_ok s -> Forall (fun te => quiet te.2) triggers ->
  match pending with Some b => quiet (pb_env b) | None => True end ->
  execute_spammer (F := F) bt chunks triggers tick pending s = (s', Ok sent) ->
  prepared s (seq tick (length triggers) ≫= period_requests chunks)
    (sent ≫= (fun b => b.1 ≫= payload_envelopes)) s' /\
  length sent = length triggers /\
  forall i te b, triggers !! i = Some te -> sent !! i = Some b ->
    period_sent s chunks (tick + i) te.2 b.
Proof.
  intros Hok Hq. revert tick pending s Hok sent.
  induction Hq as [|[trigger env] triggers Henv Hq IH]; intros tick pending s Hok sent Hp H;
    cbn [execute_spammer] in H.
  - apply stm_bind_ok in H as (s1 & [] & H1 & H). apply stm_ret_ok in H as [-> ->].
    split; [|done]. apply collect_quiet in H1 as [Hn Hs]; [|done]. by apply prepared_frame.
  - apply stm_bind_ok in H as (s1 & [] & H1 & H). apply collect_quiet in H1 as [Hn1 Hs1]; [|done].
    apply stm_bind_ok in H as (s2 & chunk & H2 & H). apply stm_lift_ok in H2 as [-> Hc].
    apply unwrap_ok in Hc.
    apply stm_bind_ok in H as (s2 & payloads & H2 & H).
    assert (Hok1 : signers_ok s1) by (unfold signers_ok; by rewrite (proj1 (proj1 Hs1))).
    apply prepare_spam_ok in H2 as [(sp & gp & bp & _ & Hpay) H2]; [|done].
    apply stm_bind_ok in H as (s3 & u & H3 & H). apply stm_lift_ok in H3 as [-> _].
    apply stm_bind_ok in H as (s3 & first & H3 & H). apply stm_lift_ok in H3 as [-> _].
    apply stm_bind_ok in H as (s3 & u' & H3 & H). apply stm_lift_ok in H3 as [-> _].
    apply stm_bind_ok in H as (s3 & tasks & H3 & H). pose proof (execute_spam_sent _ _ _ _ _ _ _ _ H3) as Hsent.
    apply execute_spam_frame in H3 as [Hn3 Hs3].
    apply stm_bind_ok in H as (s4 & rest & H4 & H). apply stm_ret_ok in H as [-> ->].
    assert (Hok3 : signers_ok s3).
    { unfold signers_ok. rewrite (proj1 (proj1 Hs3)). by eapply prepared_signers. }
    assert (Hs13 : same_setting s s3).
    { eapply same_setting_trans; [exact Hs1|]. eapply same_setting_trans; [apply H2|done]. }
    apply IH in H4 as (H4 & Hl & Hper); [|done|exact Henv]. split; [|split].
    + cbn [length seq]. rewrite !bind_cons. eapply prepared_app; [|exact H4].
      eapply prepared_frame_r; [|done..]. eapply prepared_frame_l; [done..|].
      unfold period_requests. rewrite Hc. exact H2.
    + cbn. by rewrite Hl.
    + intros [|i] te b Ht Hb.
      * injection Ht as <-. injection Hb as <-. rewrite Nat.add_0_r.
        eapply period_sent_setting; [exact Hs1|]. by exists chunk, gp, bp.
      * rewrite <- Nat.add_succ_comm. eapply period_sent_setting; [exact Hs13|]. by apply (Hper i).
Qed.

End run_props.

(** ** Witnesses *)

Module SpamWitness.
Export ScenarioWitness.

(** A node that refuses the transaction with nonce 6 and the bundles. *)
Definition node : SendNode := {|
  sd_async e attempt :=
    if envelope_nonce e =? 6 then Err (Some "Nonce too LOW"%string) else Ok tt;
  sd_sync e := Some (Ok (Ok None));
  sd_batch es attempt := if (attempt =? 0)%nat then Err "timeout"%string
                         else Ok (Ok [None; Some "replacement transaction underpriced"%string]);
  sd_bundle _ := Err (SendBundleError "refused");
  sd_block_by_hash _ := Ok (Some 9); sd_block_number := Ok 8;
  sd_start _ := 100; sd_end _ := 110 |}.

Definition single (a n : Z) : ExecutionPayload :=
  SignedTx (set_nonce (Some n) (nr_tx (tx_of a false)), signer_of a)
    (with_nonce n (tx_of a false)).
Definition payloads : list ExecutionPayload := [single 100 7; single 100 5; single 101 5].

Lemma execute_spam_tasks_witness :
  exists s' tasks, execute_spam LogCallback_new node L1 TriggerNil payloads scenario
      = (s', Ok tasks) /\ sn_num_rpc_batches_sent s' = 2.
Proof.
  assert (Hc : match execute_spam LogCallback_new node L1 TriggerNil payloads scenario with
    | (s', Ok tasks) => sn_num_rpc_batches_sent s' =? 2 | _ => false end = true)
    by (vm_compute; reflexivity).
  destruct (execute_spam LogCallback_new node L1 TriggerNil payloads scenario)
    as [s' [tasks|e|]] eqn:H; [|discriminate Hc..].
  destruct (execute_spam_tasks LogCallback_new node L1 TriggerNil payloads scenario s' tasks H)
    as (groups & sorted & _ & _ & _ & _ & _ & _ & Hn).
  exists s', tasks. split; [reflexivity|]. by apply Z.eqb_eq.
Defined.

(** The JSON-RPC batches of two and of one transaction. *)
Lemma batch_messages_fit_witness :
  exists s' tasks, execute_spam LogCallback_new node L1 TriggerNil payloads scenario
      = (s', Ok tasks) /\ (successes (tasks ≫= to_msgs) <= 3)%nat.
Proof.
  assert (Hc : is_ok (snd (execute_spam LogCallback_new node L1 TriggerNil payloads scenario))
    = true) by (vm_compute; reflexivity).
  destruct (execute_spam LogCallback_new node L1 TriggerNil payloads scenario)
    as [s' [tasks|e|]] eqn:H; [|discriminate Hc..].
  exists s', tasks. split; [reflexivity|].
  apply (batch_messages_fit LogCallback_new node L1 TriggerNil payloads scenario s' tasks
    (tasks ≫= to_msgs) H). apply reflexivity.
Defined.

Definition arrived : list SpamMsg :=
  [GasBump 30; ShiftNonce 100 1; SendSuccess; GasBump 20; ShiftNonce 100 1; ShiftNonce 101 (-1)].

Lemma collect_gas_adder_witness :
  exists s', collect_pending_batch nil_callback 6 arrived None scenario = (s', Ok tt) /\
    37 <= sn_gas_price_adder s' <= 57.
Proof.
  assert (Hc : is_ok (snd (collect_pending_batch nil_callback 6 arrived None scenario)) = true)
    by (vm_compute; reflexivity).
  destruct (collect_pending_batch nil_callback 6 arrived None scenario)
    as [s' [[]|e|]] eqn:H; [|discriminate Hc..].
  exists s'. split; [reflexivity|].
  assert (Hb : gas_bumps arrived = [30; 20]) by reflexivity.
  destruct (collect_gas_adder nil_callback 6 arrived scenario s') as (adder & Hr & Hf & He & _).
  - cbn. lia.
  - rewrite Hb. repeat constructor; lia.
  - rewrite Hb. cbn. lia.
  - exact H.
  - rewrite Hb in Hr, Hf. rewrite He.
    assert (Hs : (successes arrived =? 6)%nat = false) by reflexivity. rewrite Hs.
    cbn [sumZ] in Hr. apply Forall_cons_1 in Hf as [Hf _].
    change (sn_gas_price_adder scenario) with 7 in *. lia.
Defined.

Lemma collect_nonce_shifts_witness :
  exists s', collect_pending_batch nil_callback 6 arrived None scenario = (s', Ok tt) /\
    sn_nonces s' !! 100 = Some 7 /\ sn_nonces s' !! 101 = Some 0.
Proof.
  assert (Hc : is_ok (snd (collect_pending_batch nil_callback 6 arrived None scenario)) = true)
    by (vm_compute; reflexivity).
  destruct (collect_pending_batch nil_callback 6 arrived None scenario)
    as [s' [[]|e|]] eqn:H; [|discriminate Hc..].
  exists s'. split; [reflexivity|].
  assert (Hn : forall a, sn_nonces s' !! a =
    match shifts_of a arrived with
    | [] => sn_nonces scenario !! a
    | _ => Some (Z.max 0 (Z.min U64_MAX
             (default 0 (sn_nonces scenario !! a) + sumZ (shifts_of a arrived))))
    end).
  { apply (collect_nonce_shifts nil_callback 6 arrived None scenario s').
    - change (nonce_shifts arrived) with [(100, 1); (100, 1); (101, -1)].
      apply Forall_cons; split; [by left|]. apply Forall_cons; split; [by left|].
      apply Forall_cons; split; [by right|]. by apply Forall_nil.
    - cbn. lia.
    - intros a n Ha. cbn [scenario sn_nonces] in Ha. unfold U64_MAX, MAX.
      apply lookup_insert_Some in Ha as [[_ <-]|[_ Ha]]; [lia|].
      apply lookup_insert_Some in Ha as [[_ <-]|[_ Ha]]; [lia|].
      apply lookup_singleton_Some in Ha as [_ <-]. lia.
    - exact H. }
  split; [exact (Hn 100)|exact (Hn 101)].
Defined.

(** A world in which every send succeeds, or every nonce report is lost. *)
Definition calm : BatchEnv NilCallback := {|
  be_rpc := rpc; be_node := node; be_callback := nil_callback;
  be_arrival l := filter (fun m => match m with ShiftNonce _ _ => false | _ => true end = true) l;
  be_interrupt _ := None |}.

Lemma calm_quiet : quiet calm.
Proof.
  intros l. unfold calm, be_arrival, nonce_shifts.
  induction l as [|m l IH]; [reflexivity|]. rewrite filter_cons.
  destruct m; cbn; [exact IH|exact IH|exact IH].
Qed.

Definition chunks : list (list ExecutionRequest) :=
  [[ExecTx (tx_of 100 false); ExecTx (tx_of 101 false)]; [ExecTx (tx_of 100 false)]].
Definition three_ticks : list (SpamTrigger * BatchEnv NilCallback) :=
  [(TriggerTick 0, calm); (TriggerTick 1, calm); (TriggerTick 2, calm)].

End SpamWitness.
