(* ===== verification/SpamRun.v ===== *)
(** * A spam run and its end ([core/src/spammer/spammer_trait.rs],
      [timed.rs], [blockwise.rs], [TestScenario::dump_tx_cache])

    [spam_rpc] runs the loop of [Spam] for a number of periods, waits for the
    background task that advances the chain, and stores the latency metrics.
    [wait_flushed] waits for the pending transactions of an actor. *)

From Stdlib Require Import Strings.String.
From S2P Require Import Prelude Text Seeder Alloy Agents F64 Db GenTypes GenUtil CoreError Templater TestFile Generator TxActor Scenario Spam.

(** ** The triggers of the two spammers *)

Definition timed_triggers (n : nat) : list SpamTrigger := TriggerTick <$> rangeZ n.
Definition blockwise_triggers (block_hashes : list Z) : list SpamTrigger :=
  TriggerBlockHash <$> block_hashes.
Definition timed_duration_units (periods : Z) : SpamDuration := Seconds periods.
Definition blockwise_duration_units (periods : Z) : SpamDuration := Blocks periods.

(** ** Advancing the chain in the background *)

(** The flags shared by the run and its background task. *)
Record RunFlags := { done_sending : bool; done_fcu : bool }.

(** [flags i] are the flags the task sees in its [i]-th round, [advance i] the
    outcome of advancing the chain in it; [None] when the task is still running
    after [fuel] rounds. *)
Fixpoint fcu_loop (fuel : nat) (flags : nat -> RunFlags) (advance : nat -> outcome string unit)
    (i : nat) : option (outcome string unit) :=
  match fuel with
  | O => None
  | S fuel =>
      if done_fcu (flags i) then Some (Ok tt)
      else if done_sending (flags i) then
        match advance i with
        | Ok _ => fcu_loop fuel flags advance (S i)
        | r => Some r
        end
      else fcu_loop fuel flags advance (S i)
  end.

(** The task: without an authenticated provider there is nothing to do. *)
Definition fcu_task (fuel : nat) (flags : nat -> RunFlags)
    (auth_provider : option (nat -> outcome string unit)) : option (outcome string unit) :=
  match auth_provider with
  | Some advance => fcu_loop fuel flags advance 0
  | None => Some (Ok tt)
  end.

(** The flags while the run waits for the task: it has finished sending, and
    sets the other flag only after the task has ended. *)
Definition waiting_flags : nat -> RunFlags :=
  fun _ => {| done_sending := true; done_fcu := false |}.

Section spam_rpc.
Context `{A : Alloy, Sg : !Signing} {P : Profile}.
Context {C : Type} `{PC : PlanConfig C, TS : TemplateSyntax C}.
Context {D : Type} `{DO : DbOps D}.
Context {Sd : Type} `{SV : SeedValue Sd, SD : Seeder Sd}.
Context {F : Type} `{CB : SpamCallback F}.
Variables (config : C) (rand_seed : Sd) (agent_store : AgentStore) (rpc_url : string)
  (genesis_hash : TxHash) (scenario_label : option string) (groth16_proof : nat -> string).

(** The database after the run and the batches it sent; [None] while it still
    waits for the background task after [fuel] of its rounds. *)
Definition spam_rpc (fuel : nat) (auth_provider : option (nat -> outcome string unit))
    (rpc : RpcNode) (metrics : list (string * list Bucket)) (bundle_type : BundleType)
    (triggers : list (SpamTrigger * BatchEnv F)) (txs_per_period num_periods : Z)
    (run_id : option Z) (db : D)
  : stm Scenario Error (option (D * list SentBatch)) :=
  (* evaluated even when the id is given *)
  num ← lift (map_err ErrDb (num_runs db));
  let run_id := default num run_id in
  s ← gets id;
  tx_req_chunks ← lift (get_spam_tx_chunks config rand_seed agent_store rpc_url genesis_hash
                          scenario_label groth16_proof rpc s db txs_per_period num_periods);
  sent ← execute_spammer bundle_type tx_req_chunks (take (Z.to_nat num_periods) triggers) 0 None;
  match fcu_task fuel waiting_flags auth_provider with
  | None => mret None
  | Some r =>
      lift (match r with
            | Ok _ => Ok tt
            | Err e => Err (Callback e)
            | Panic => Err (Callback "join error")
            end);;
      db ← lift (map_err ErrDb (insert_latency_metrics db run_id metrics));
      sync_nonces rpc;;
      mret (Some (db, sent))
  end.
End spam_rpc.

(** ** Waiting for the pending transactions

    On the polls of the cache's size with their times (in milliseconds): [true]
    when the cache ran empty, [false] when the wait timed out, [None] when the
    polls end before either.  [last] is the smallest size seen, [None] for the
    initial [usize::MAX]. *)
Fixpoint wait_flushed (timeout : Z) (last : option Z) (last_progress : Z)
    (polls : list (Z * outcome Error Z)) : option (outcome Error bool) :=
  match polls with
  | [] => None
  | (now, Err e) :: _ => Some (Err e)
  | (now, Panic) :: _ => Some Panic
  | (now, Ok cache_len) :: polls =>
      if cache_len =? 0 then Some (Ok true)
      else
        let shrunk := match last with Some n => cache_len <? n | None => true end in
        let last := if shrunk then Some cache_len else last in
        let last_progress := if shrunk then now else last_progress in
        if timeout <? now - last_progress then Some (Ok false)
        else wait_flushed timeout last last_progress polls
  end.

(** What is asked of the actors. *)
Inductive ActorCall := CallStopDefault | CallDump (handle : string).

(** One handle after the other; a failure of the wait or of the dump is
    dropped.  [None] when some wait does not end. *)
Fixpoint dump_tx_cache (cancelled : bool) (timeout start : Z)
    (handles : list (string * list (Z * outcome Error Z))) : option (list ActorCall) :=
  match handles with
  | [] => Some []
  | (name, polls) :: handles =>
      calls ← (if cancelled then Some [CallStopDefault]
               else match wait_flushed timeout None start polls with
                    | Some (Ok _) => Some [CallDump name]
                    | Some _ => Some []
                    | None => None
                    end);
      rest ← dump_tx_cache cancelled timeout start handles;
      Some (calls ++ rest)
  end.

(** ** Properties *)

Lemma fcu_loop_waits fuel advance i :
  (forall j, advance j = Ok tt) -> fcu_loop fuel waiting_flags advance i = None.
Proof.
  intros Ha. revert i. induction fuel as [|fuel IH]; intros i; cbn; [done|]. by rewrite Ha.
Qed.

Section props.
Context `{A : Alloy, Sg : !Signing} {P : Profile}.
Context {C : Type} `{PC : PlanConfig C, TS : TemplateSyntax C}.
Context {D : Type} `{DO : DbOps D}.
Context {Sd : Type} `{SV : SeedValue Sd, SD : Seeder Sd}.
Context {F : Type} `{CB : SpamCallback F}.

(** With an authenticated provider that keeps advancing the chain, a run
    never returns: the flag its background task waits for is set only after the
    task has ended.  (Without one, the task ends at once.) *)
Theorem spam_rpc_never_returns (config : C) (seed : Sd) (store : AgentStore) (url : string)
    (genesis : TxHash) (label : option string) (proof : nat -> string)
    (advance : nat -> outcome string unit) (rpc : RpcNode)
    (metrics : list (string * list Bucket)) (bt : BundleType)
    (triggers : list (SpamTrigger * BatchEnv F)) (txs_per_period num_periods : Z)
    (run_id : option Z) (db : D) (s : Scenario) (Ha : forall j, advance j = Ok tt) :
  forall fuel, match snd (spam_rpc config seed store url genesis label proof fuel (Some advance)
      rpc metrics bt triggers txs_per_period num_periods run_id db s) with
  | Ok (Some _) => False
  | _ => True
  end.
Proof.
  intros fuel. destruct (spam_rpc _ _ _ _ _ _ _ _ _ _ _ _ _ _ _ _ _ _) as [s' [r|e|]] eqn:H;
    [|done..].
  unfold spam_rpc in H.
  apply stm_bind_ok in H as (s1 & n & _ & H). apply stm_bind_ok in H as (s2 & s3 & _ & H).
  apply stm_bind_ok in H as (s4 & cs & _ & H). apply stm_bind_ok in H as (s5 & sent & _ & H).
  cbn [fcu_task] in H. rewrite fcu_loop_waits in H by done.
  apply stm_ret_ok in H as [_ ->]. done.
Qed.
End props.

(** Polls at growing times that all answer. *)
Fixpoint polled (prev : Z) (polls : list (Z * outcome Error Z)) : Prop :=
  match polls with
  | [] => True
  | (now, r) :: polls => prev < now /\ (exists n, r = Ok n /\ 0 <= n) /\ polled now polls
  end.

Lemma wait_flushed_bound timeout n last_progress prev polls :
  0 <= timeout -> polled prev polls -> last_progress <= prev <= last_progress + timeout ->
  0 <= n -> wait_flushed timeout (Some n) last_progress polls = None ->
  Z.of_nat (length polls) <= n * (timeout + 1) + (last_progress + timeout - prev).
Proof.
  intros Ht. revert n last_progress prev.
  induction polls as [|[now r] polls IH]; intros n lp prev Hp Hr Hn H; [cbn; nia|].
  destruct Hp as (Hlt & (k & -> & Hk) & Hp). cbn [wait_flushed] in H.
  destruct (Z.eqb_spec k 0); [done|]. destruct (Z.ltb_spec k n) as [Hkn|Hkn].
  - destruct (Z.ltb_spec timeout (now - now)); [done|].
    apply (IH _ _ now) in H; [|done|lia..]. cbn [length]. nia.
  - destruct (Z.ltb_spec timeout (now - lp)); [done|].
    apply (IH _ _ now) in H; [|done|lia..]. cbn [length]. nia.
Qed.

(** The wait for the pending transactions ends: it restarts its clock only
    when the cache has shrunk, so that it is over after at most [len + 1] times
    the timeout, where [len] is the size it first saw. *)
Theorem flush_wait_ends (timeout start now len : Z) (polls : list (Z * outcome Error Z))
    (Ht : 0 <= timeout) (Hp : polled start ((now, Ok len) :: polls))
    (Hlong : (len + 1) * (timeout + 1) <= Z.of_nat (length polls)) :
  exists b, wait_flushed timeout None start ((now, Ok len) :: polls) = Some (Ok b) /\
    (b = true -> exists t, (t, Ok 0) ∈ (now, Ok len) :: polls).
Proof.
  destruct Hp as (Hlt & (k & [= <-] & Hk) & Hp). cbn [wait_flushed].
  destruct (Z.eqb_spec len 0) as [->|Hne]; [exists true; split; [done|exists now; left]|].
  destruct (Z.ltb_spec timeout (now - now)) as [|_]; [lia|].
  destruct (wait_flushed timeout (Some len) now polls) as [r|] eqn:Hw.
  2: { apply (wait_flushed_bound _ _ _ now) in Hw; [nia|done|done|lia|lia]. }
  clear Hlong. enough (Hg : forall prev last lp, polled prev polls ->
    wait_flushed timeout last lp polls = Some r ->
    exists b, r = Ok b /\ (b = true -> exists t, (t, Ok 0) ∈ polls)).
  { destruct (Hg _ _ _ Hp Hw) as (b & -> & Hb). exists b. split; [done|].
    intros H. destruct (Hb H) as [t Ht']. exists t. by right. }
  clear. induction polls as [|[t x] polls IH]; intros prev last lp Hp Hw; [done|].
  destruct Hp as (_ & (k & -> & _) & Hp). cbn [wait_flushed] in Hw.
  destruct (Z.eqb_spec k 0) as [->|_].
  { injection Hw as <-. exists true. split; [done|]. intros _. exists t. left. }
  match type of Hw with (if ?c then _ else _) = _ => destruct c end.
  { injection Hw as <-. exists false. done. }
  destruct (IH _ _ _ Hp Hw) as (b & -> & Hb). exists b. split; [done|].
  intros H. destruct (Hb H) as [t' Ht']. exists t'. by right.
Qed.

(** ** Witnesses *)

Module SpamRunWitness.
Export SpamWitness.

Definition run_with (auth : option (nat -> outcome string unit))
  : Scenario * outcome Error (option (MockDb * list SentBatch)) :=
  spam_rpc conf (pack_u256 5) store "http" 0 None (fun _ => "[]"%string) 50 auth rpc [] L1
    three_ticks 2 3 None mock_db scenario.

Lemma spam_rpc_never_returns_witness :
  match snd (run_with (Some (fun _ => Ok tt))) with Ok (Some _) => False | _ => True end.
Proof. unfold run_with. apply spam_rpc_never_returns. intros j. reflexivity. Defined.

(** Without a provider the same run returns; with one it is still waiting. *)
Example spam_rpc_returns :
  match snd (run_with None) with Ok (Some (_, sent)) => (length sent =? 3)%nat | _ => false end &&
  match snd (run_with (Some (fun _ => Ok tt))) with Ok None => true | _ => false end = true.
Proof. vm_compute. reflexivity. Qed.

Lemma flush_wait_ends_witness :
  exists b, wait_flushed 2 None 0 [(1, Ok 1); (2, Ok 1); (3, Ok 1); (4, Ok 1); (5, Ok 1);
    (6, Ok 1); (7, Ok 0)] = Some (Ok b).
Proof.
  destruct (flush_wait_ends 2 0 1 1 [(2, Ok 1); (3, Ok 1); (4, Ok 1); (5, Ok 1); (6, Ok 1);
    (7, Ok 0)]) as (b & Hb & _).
  - lia.
  - repeat (split; [lia|split; [eexists; split; [reflexivity|lia]|]]). exact I.
  - cbn. lia.
  - exists b. exact Hb.
Defined.
End SpamRunWitness.
