(* ===== verification/Sql.v ===== *)
(** * Tables of the database ([sqlite_db/src/db.rs], the SQL statements)

    The statements of [db.rs] act on six tables, declared in [create_tables].
    A table is the list of its rows in the order of their row ids; a cell is a
    [SqlValue]; a column converts what is stored in it by its affinity.  This
    file gives the tables, the insertion of a row with its constraints, and the
    reading of cells.  Where the program writes values into the text of a
    statement, the database reads them back as literals: [SqlText] is that
    reading, [SqlTextLaws] what is documented of it, and [toy_sql] an instance. *)

From Stdlib Require Import Strings.Ascii Strings.String.
From S2P Require Import Prelude Text F64.

(** ** Cells *)

Inductive SqlValue := SNull | SInt (z : Z) | SReal (f : f64) | SText (s : string).
Inductive Affinity := IntegerCol | TextCol | RealCol.

(** What a column stores of a value. *)
Definition affinity (a : Affinity) (v : SqlValue) : SqlValue :=
  match a, v with
  | TextCol, SInt z => SText (dec z)
  | RealCol, SInt z => SReal (f64_of_Z z)
  | _, _ => v
  end.

(** [row.get(i)?] at the types the program reads. *)
Definition get_u64 (v : SqlValue) : outcome string Z :=
  match v with
  | SInt z => if 0 <=? z then Ok z else Err "Integer out of range"%string
  | _ => Err "Invalid column type"%string
  end.
Definition get_i64 (v : SqlValue) : outcome string Z :=
  match v with SInt z => Ok z | _ => Err "Invalid column type"%string end.
Definition get_text (v : SqlValue) : outcome string string :=
  match v with SText s => Ok s | _ => Err "Invalid column type"%string end.
Definition get_real (v : SqlValue) : outcome string f64 :=
  match v with
  | SReal f => Ok f
  | SInt z => Ok (f64_of_Z z)
  | _ => Err "Invalid column type"%string
  end.
Definition get_opt {A} (get : SqlValue -> outcome string A) (v : SqlValue)
  : outcome string (option A) :=
  match v with SNull => Ok None | _ => Some <$> get v end.

(** [params![..]] at the types the program binds: an integer above the signed
    64-bit range is refused. *)
Definition to_sql_u64 (v : Z) : outcome string SqlValue :=
  if v <? 2 ^ 63 then Ok (SInt v) else Err "ToSqlConversionFailure"%string.
Definition to_sql_opt_text (v : option string) : SqlValue :=
  match v with Some s => SText s | None => SNull end.

(** ** Tables *)

Record Row := { row_id : Z; row_cols : list (string * SqlValue) }.
Abbreviation Tables := (gmap string (list Row)).

Fixpoint assoc (c : string) (l : list (string * SqlValue)) : SqlValue :=
  match l with
  | [] => SNull
  | (d, v) :: l => if String.eqb c d then v else assoc c l
  end.
Definition cell (r : Row) (c : string) : SqlValue :=
  if String.eqb c "id" then SInt (row_id r) else assoc c (row_cols r).

(** The columns of a table but its id. *)
Definition schema (table : string) : list (string * Affinity) :=
  if String.eqb table "runs" then
    [("timestamp", TextCol); ("tx_count", IntegerCol); ("scenario_name", TextCol);
     ("campaign_id", TextCol); ("campaign_name", TextCol); ("stage_name", TextCol);
     ("rpc_url", TextCol); ("txs_per_duration", IntegerCol); ("duration", TextCol);
     ("timeout", IntegerCol)]%string
  else if String.eqb table "rpc_urls" then
    [("url", TextCol); ("genesis_hash", TextCol)]%string
  else if String.eqb table "named_txs" then
    [("name", TextCol); ("tx_hash", TextCol); ("contract_address", TextCol);
     ("rpc_url_id", IntegerCol)]%string
  else if String.eqb table "run_txs" then
    [("run_id", IntegerCol); ("tx_hash", TextCol); ("start_timestamp", IntegerCol);
     ("end_timestamp", IntegerCol); ("block_number", IntegerCol); ("gas_used", IntegerCol);
     ("kind", TextCol); ("error", TextCol); ("flashblock_latency", IntegerCol);
     ("flashblock_index", IntegerCol)]%string
  else if String.eqb table "latency" then
    [("run_id", IntegerCol); ("upper_bound_secs", RealCol); ("count", IntegerCol);
     ("method", TextCol)]%string
  else if String.eqb table "replay_reports" then
    [("rpc_url_id", IntegerCol); ("gas_per_second", IntegerCol); ("gas_used", IntegerCol)]%string
  else [].

(** The foreign keys: a column and the table whose id it names. *)
Definition foreign_key (table : string) : option (string * string) :=
  if String.eqb table "named_txs" then Some ("rpc_url_id", "rpc_urls")%string
  else if String.eqb table "run_txs" then Some ("run_id", "runs")%string
  else if String.eqb table "latency" then Some ("run_id", "runs")%string
  else None.

Definition table_names : list string :=
  ["runs"; "rpc_urls"; "named_txs"; "run_txs"; "latency"; "replay_reports"]%string.

Definition row_ids (rows : list Row) : list Z := row_id <$> rows.

(** The id of the next row: an [INTEGER PRIMARY KEY] takes one more than the
    largest. *)
Definition next_id (rows : list Row) : Z := foldr Z.max 0 (row_ids rows) + 1.

Definition has_id (t : Tables) (table : string) (z : Z) : bool :=
  match t !! table with Some rows => bool_decide (z ∈ row_ids rows) | None => false end.

Definition stored (table : string) (cols : list (string * SqlValue)) : list (string * SqlValue) :=
  (fun ca => (ca.1, affinity ca.2 (assoc ca.1 cols))) <$> schema table.

Definition fk_holds (t : Tables) (table : string) (cols : list (string * SqlValue)) : bool :=
  match foreign_key table with
  | Some (c, parent) =>
      match assoc c cols with SNull => true | SInt z => has_id t parent z | _ => false end
  | None => true
  end.

(** [INSERT INTO table (..) VALUES (..)]: the new id and tables. *)
Definition insert_into (foreign_keys : bool) (table : string) (cols : list (string * SqlValue))
    (t : Tables) : outcome string (Z * Tables) :=
  rows ← ok_or ("no such table: " +:+ table)%string (t !! table);
  let cols := stored table cols in
  ensure (negb foreign_keys || fk_holds t table cols) "FOREIGN KEY constraint failed"%string;;
  let id := next_id rows in
  mret (id, <[table := rows ++ [{| row_id := id; row_cols := cols |}]]> t).

(** [SELECT .. FROM table WHERE p]: in the order of the ids. *)
Definition select (table : string) (p : Row -> bool) (t : Tables) : outcome string (list Row) :=
  rows ← ok_or ("no such table: " +:+ table)%string (t !! table);
  mret (filter (fun r => p r = true) rows).

Definition eq_text (v : SqlValue) (s : string) : bool :=
  match v with SText u => String.eqb u s | _ => false end.
Definition eq_int (v : SqlValue) (z : Z) : bool :=
  match v with SInt u => u =? z | _ => false end.

(** ** Literals in the text of a statement *)

Definition quote : ascii := "'".
Definition comma : ascii := ",".
Definition quote_free (s : string) : bool := str_all (fun c => negb (Ascii.eqb quote c)) s.
Definition quoted (s : string) : string := ("'" +:+ s +:+ "'")%string.

Class SqlText := {
  read_literal : string -> option SqlValue;
  (** the literals between the parentheses of [VALUES (..)]; [None]: the
      statement is refused *)
  read_values : string -> option (list SqlValue);
}.

(** The texts that are a literal and nothing more. *)
Definition bare_literal (s : string) : bool :=
  first_solid s && str_all (fun c => negb (Ascii.eqb quote c) && negb (Ascii.eqb comma c)) s.
Inductive literal_text : string -> Prop :=
| literal_bare s : bare_literal s = true -> literal_text s
| literal_quoted s : quote_free s = true -> literal_text (quoted s).

Class SqlTextLaws `{SqlText} := {
  read_values_each texts :
    texts <> [] -> Forall literal_text texts ->
    read_values (String.concat ", " texts) = mapM read_literal texts;
  read_null : read_literal "NULL" = Some SNull;
  read_int z : 0 <= z < 2 ^ 63 -> read_literal (dec z) = Some (SInt z);
  read_quoted s : quote_free s = true -> read_literal (quoted s) = Some (SText s);
}.

(** ** Lemmas *)

Lemma get_opt_u64 (v : option Z) :
  (forall z, v = Some z -> 0 <= z) ->
  get_opt get_u64 (match v with Some z => SInt z | None => SNull end) = Ok v.
Proof.
  destruct v as [z|]; intros Hz; cbn; [|done]. specialize (Hz z eq_refl).
  by destruct (Z.leb_spec 0 z); [|lia].
Qed.

Lemma get_opt_text v : get_opt get_text (to_sql_opt_text v) = Ok v.
Proof. by destruct v. Qed.

Lemma to_sql_u64_ok v : 0 <= v < 2 ^ 63 -> to_sql_u64 v = Ok (SInt v).
Proof. intros H. unfold to_sql_u64. by destruct (Z.ltb_spec v (2 ^ 63)); [|lia]. Qed.

Lemma insert_into_ok fk table cols t id t' :
  insert_into fk table cols t = Ok (id, t') <->
  exists rows, t !! table = Some rows /\ id = next_id rows /\
    (fk = true -> fk_holds t table (stored table cols) = true) /\
    t' = <[table := rows ++ [{| row_id := id; row_cols := stored table cols |}]]> t.
Proof.
  unfold insert_into. split.
  - intros H. inv_outcome. exists x. split; [done|]. split; [done|]. split; [|done].
    intros ->. done.
  - intros (rows & Hr & -> & Hf & ->). rewrite Hr. cbn. destruct fk; [|done].
    by rewrite Hf.
Qed.

Lemma select_ok table p t l :
  select table p t = Ok l <->
  exists rows, t !! table = Some rows /\ l = filter (fun r => p r = true) rows.
Proof.
  unfold select. split.
  - intros H. inv_outcome. eauto.
  - intros (rows & -> & ->). done.
Qed.

(** The ids of a table without deletions are [1 .. n]. *)
Definition ids_upto (n : nat) : list Z := (fun i => Z.of_nat i + 1) <$> seq 0 n.

Lemma ids_upto_S n : ids_upto (S n) = ids_upto n ++ [Z.of_nat n + 1].
Proof. unfold ids_upto. rewrite seq_S, fmap_app. done. Qed.

Lemma elem_of_ids_upto n z : z ∈ ids_upto n <-> 1 <= z <= Z.of_nat n.
Proof.
  unfold ids_upto. rewrite list_elem_of_fmap. split.
  - intros (i & -> & Hi%elem_of_seq). lia.
  - intros Hz. exists (Z.to_nat (z - 1)). rewrite elem_of_seq. lia.
Qed.

Lemma max_ids_upto n : foldr Z.max 0 (ids_upto n) = Z.of_nat n.
Proof.
  assert (Hg : forall l a, 0 <= a -> foldr Z.max 0 (l ++ [a]) = Z.max (foldr Z.max 0 l) a).
  { intros l a Ha. induction l as [|x l IH]; cbn; [lia|]. rewrite IH. lia. }
  induction n as [|n IH]; [done|]. rewrite ids_upto_S, Hg, IH by lia. lia.
Qed.

Lemma next_id_upto rows : row_ids rows = ids_upto (length rows) -> next_id rows = Z.of_nat (length rows) + 1.
Proof. intros H. unfold next_id. rewrite H, max_ids_upto. done. Qed.

(** ** An instance of the reading of literals

    Values are separated by commas outside quotes. *)
Fixpoint split_values (in_quote : bool) (cur : string) (s : string) : list string :=
  match s with
  | EmptyString => [str_rev cur]
  | String c s =>
      if Ascii.eqb quote c then split_values (negb in_quote) (String c cur) s
      else if Ascii.eqb comma c && negb in_quote then str_rev cur :: split_values false "" s
      else split_values in_quote (String c cur) s
  end.

(** The text between the quotes, when no quote is inside. *)
Definition unquoted (s : string) : option string :=
  match s with
  | String "'" r =>
      match strip_suffix "'" r with
      | Some u => if quote_free u then Some u else None
      | None => None
      end
  | _ => None
  end.

(** A number with a point. *)
Definition toy_decimal (s : string) : option SqlValue :=
  i ← String.index 0 "." s;
  let digits := String.substring (S i) (String.length s) s in
  whole ← parse_uint 63 (String.substring 0 i s);
  part ← parse_uint 63 digits;
  let scale := 10 ^ Z.of_nat (String.length digits) in
  mret (SReal (f64_lit (whole * scale + part) scale)).

Definition toy_literal (s : string) : option SqlValue :=
  if String.eqb s "NULL" then Some SNull
  else match unquoted s with
       | Some u => Some (SText u)
       | None =>
           match parse_uint 63 s with Some z => Some (SInt z) | None => toy_decimal s end
       end.

#[export] Instance toy_sql : SqlText := {|
  read_literal := toy_literal;
  read_values s := mapM (fun x => toy_literal (trim_start x)) (split_values false "" s);
|}.

Lemma split_values_bare s cur r :
  str_all (fun c => negb (Ascii.eqb quote c) && negb (Ascii.eqb comma c)) s = true ->
  split_values false cur (s +:+ r) = split_values false (str_rev_app s cur) r.
Proof.
  revert cur. induction s as [|c s IH]; intros cur; cbn [str_all]; [done|].
  intros [[Hq Hc]%andb_true_iff Hs]%andb_true_iff.
  apply negb_true_iff in Hq, Hc. cbn [split_values String.append str_rev_app].
  rewrite Hq, Hc. cbn [andb]. by rewrite IH.
Qed.

Lemma split_values_inside s cur r :
  quote_free s = true ->
  split_values true cur (s +:+ r) = split_values true (str_rev_app s cur) r.
Proof.
  revert cur. induction s as [|c s IH]; intros cur; [done|]. unfold quote_free. cbn [str_all].
  intros [Hq Hs]%andb_true_iff. apply negb_true_iff in Hq.
  cbn [split_values String.append str_rev_app]. rewrite Hq, andb_false_r. by rewrite IH.
Qed.

Lemma split_values_literal s cur r :
  literal_text s -> split_values false cur (s +:+ r) = split_values false (str_rev_app s cur) r.
Proof.
  intros [s' [_ H]%andb_true_iff|s' H]; [by apply split_values_bare|].
  unfold quoted. rewrite !str_app_assoc.
  transitivity (split_values true (String quote cur) (s' +:+ String quote r)); [done|].
  rewrite split_values_inside by done. cbn [split_values]. rewrite Ascii.eqb_refl.
  cbn [negb]. f_equal.
  change (str_rev_app ("'" +:+ s' +:+ "'") cur) with
    (str_rev_app (s' +:+ String quote "") (String quote cur)).
  rewrite !str_rev_app_spec, str_rev_app_distr. done.
Qed.

Lemma split_values_concat texts cur :
  texts <> [] -> Forall literal_text texts ->
  exists t l, split_values false cur (String.concat ", " texts) =
              (str_rev cur +:+ t)%string :: ((fun x => String " " x) <$> l) /\ texts = t :: l.
Proof.
  revert cur. induction texts as [|t texts IH]; intros cur Hne Hall; [done|].
  apply Forall_cons in Hall as [Ht Hall]. exists t, texts. split; [|done].
  destruct texts as [|u texts].
  - cbn. rewrite <- (str_app_nil_r t) at 1. rewrite split_values_literal by done. cbn.
    rewrite str_rev_app_spec. by rewrite str_rev_app_distr, str_rev_involutive.
  - change (String.concat ", " (t :: u :: texts)) with
      (t +:+ (String "," (String " " (String.concat ", " (u :: texts)))))%string.
    rewrite split_values_literal by done. cbn [split_values].
    change (Ascii.eqb quote ",") with false. change (Ascii.eqb comma ",") with true.
    change (Ascii.eqb quote " ") with false. change (Ascii.eqb comma " ") with false.
    cbn [andb negb]. rewrite str_rev_app_spec, str_rev_app_distr, str_rev_involutive.
    f_equal. destruct (IH (String " " "")) as (t' & l' & Hs & Heq); [done|done|].
    rewrite Hs. injection Heq as -> ->. done.
Qed.

Lemma literal_solid s : literal_text s -> first_solid s = true.
Proof. intros [s' [H _]%andb_true_iff|s' H]; [done|]. done. Qed.

#[export] Instance toy_sql_laws : SqlTextLaws.
Proof.
  split.
  - intros texts Hne Hall. cbn [read_values read_literal toy_sql].
    destruct (split_values_concat texts "" Hne Hall) as (t & l & -> & ->).
    apply Forall_cons in Hall as [Ht Hall]. cbn [mapM fmap list_fmap].
    change (str_rev "" +:+ t)%string with t.
    rewrite trim_start_solid by by apply literal_solid.
    destruct (toy_literal t); cbn; [|done]. f_equal.
    clear Hne Ht t. induction Hall as [|u l Hu _ IH]; cbn; [done|].
    rewrite trim_start_solid by by apply literal_solid. by rewrite IH.
  - done.
  - intros z Hz. cbn. unfold toy_literal.
    pose proof (dec_digits z) as Hd. pose proof (parse_dec 63 z Hz) as Hp.
    destruct (String.eqb_spec (dec z) "NULL") as [E|_]; [by rewrite E in Hd|].
    rewrite Hp. destruct (dec z) as [|c s]; [done|]. cbn in Hd.
    destruct (decide (c = "'"%char)) as [->|Hc]; [done|].
    unfold unquoted. destruct c as [[] [] [] [] [] [] [] []]; done.
  - intros s Hs. cbn. unfold toy_literal.
    change (String.eqb (quoted s) "NULL") with false.
    unfold unquoted, quoted. cbn -[strip_suffix].
    rewrite strip_suffix_app, Hs. done.
Qed.
