(* ===== verification/SqliteDb.v ===== *)
(** * The SQLite database ([sqlite_db/src/db.rs], [sqlite_db/src/error.rs])

    [SqliteDb] is the tables of [Sql] behind a pool of connections.  A request
    to the pool yields a connection, or fails: [pick n] is its answer to the
    [n]-th request.  A connection remembers the id of its last insertion and
    whether it enforces foreign keys ([fk_default] says what a fresh one does).
    Every method is a computation of [stm]; [sqlite_ops] makes them the
    [DbOps] the core crate works with.  Statements fail for the reasons the
    tables give; failures of the disk and of locks are not modelled. *)

From Stdlib Require Import Strings.Ascii Strings.String.
From S2P Require Import Prelude Text F64 Alloy Db Sql.

Definition DB_VERSION : Z := 7.

(** ** Errors *)

Inductive SqliteError :=
| Pool (e : string)
| ExecuteQuery (e : string)
| SqliteNotFound (msg : string).

(** [From<Error> for DbError]. *)
Definition into_db_error (e : SqliteError) : DbError :=
  match e with
  | Pool e => Internal ("DB connection pool encountered an error: " +:+ e)
  | ExecuteQuery e => Internal ("failed to execute query: " +:+ e)
  | SqliteNotFound e => NotFound e
  end.

(** [Display], and [From<Error> for contender_core::Error] (inside [Error::Db]). *)
Definition sqlite_error_to_string (e : SqliteError) : string :=
  match e with
  | Pool _ => "error from DB connection pool"
  | ExecuteQuery _ => "failed to execute DB query"
  | SqliteNotFound m => "resource not found: " +:+ m
  end.
Definition into_core_error (e : SqliteError) : DbError := Internal (sqlite_error_to_string e).

(** ** State *)

Record Conn := { cn_last_insert_rowid : Z; cn_foreign_keys : bool }.

Record SqliteDb := {
  sq_tables : Tables;
  sq_user_version : Z;
  sq_conns : gmap nat Conn;
  sq_requests : nat;
}.

Definition set_tables t (s : SqliteDb) : SqliteDb :=
  {| sq_tables := t; sq_user_version := sq_user_version s; sq_conns := sq_conns s;
     sq_requests := sq_requests s |}.
Definition set_conn c k (s : SqliteDb) : SqliteDb :=
  {| sq_tables := sq_tables s; sq_user_version := sq_user_version s;
     sq_conns := <[c := k]> (sq_conns s); sq_requests := sq_requests s |}.
Definition set_user_version v (s : SqliteDb) : SqliteDb :=
  {| sq_tables := sq_tables s; sq_user_version := v; sq_conns := sq_conns s;
     sq_requests := sq_requests s |}.
Definition count_request (s : SqliteDb) : SqliteDb :=
  {| sq_tables := sq_tables s; sq_user_version := sq_user_version s; sq_conns := sq_conns s;
     sq_requests := S (sq_requests s) |}.

(** An empty database file. *)
Definition empty_db : SqliteDb :=
  {| sq_tables := ∅; sq_user_version := 0; sq_conns := ∅; sq_requests := 0 |}.

(** Hexadecimal text of hashes and addresses: [encode_hex] and [Display]. *)
Definition hash_encode_hex (h : TxHash) : string := hex_digits 64 h.
Definition hash_to_string (h : TxHash) : string := ("0x" +:+ hex_digits 64 h)%string.

#[global] Arguments hash_encode_hex : simpl never.
#[global] Arguments hash_to_string : simpl never.
#[global] Arguments address_encode_hex : simpl never.

(** [TxHash::from_hex] and [Address::from_hex]. *)
Class FromHex := {
  hash_from_hex : string -> option TxHash;
  address_from_hex : string -> option Address;
}.
Class FromHexLaws `{FromHex} := {
  address_from_hex_empty : address_from_hex "" = None;
  hash_from_hex_encode h : 0 <= h < 2 ^ 256 -> hash_from_hex (hash_encode_hex h) = Some h;
  address_from_hex_encode a : 0 <= a < 2 ^ 160 -> address_from_hex (address_encode_hex a) = Some a;
}.

Section sqlite.
Context `{D : F64Display} `{X : SqlText} `{H : FromHex} (pick : nat -> outcome string nat) (fk_default : bool).

Abbreviation sql A := (stm SqliteDb SqliteError A).

Definition fresh_conn : Conn := {| cn_last_insert_rowid := 0; cn_foreign_keys := fk_default |}.
Definition conn_of (s : SqliteDb) (c : nat) : Conn := default fresh_conn (sq_conns s !! c).

(** [self.pool.get()?]. *)
Definition get_pool : sql nat :=
  n ← gets sq_requests;
  modify count_request;;
  lift (map_err Pool (pick n)).

Definition statement {A} (m : outcome string A) : sql A := lift (map_err ExecuteQuery m).

(** An [INSERT] on connection [c]. *)
Definition insert_row (c : nat) (table : string) (cols : list (string * SqlValue)) : sql unit :=
  s ← gets id;
  r ← statement (insert_into (cn_foreign_keys (conn_of s c)) table cols (sq_tables s));
  modify (set_tables r.2);;
  modify (set_conn c {| cn_last_insert_rowid := r.1;
                        cn_foreign_keys := cn_foreign_keys (conn_of s c) |}).

Definition query (table : string) (p : Row -> bool) : sql (list Row) :=
  t ← gets sq_tables; statement (select table p t).

(** Preparing a statement on a table: it must exist. *)
Definition prepare (table : string) : sql unit := query table (fun _ => false);; mret tt.

(** [conn.transaction()?], the body and [tx.commit()?]: a body that does not
    reach the commit is rolled back. *)
Definition transaction {A} (m : sql A) : sql A := fun s =>
  match m s with
  | (s', Ok a) => (s', Ok a)
  | (s', r) => (set_tables (sq_tables s) s', r)
  end.

(** [self.query_row(..)] on a query that yields [v]. *)
Definition query_row {A} (v : SqliteDb -> nat -> outcome string A) : sql A :=
  c ← get_pool; s ← gets id; statement (v s c).

(** The first row of a query, as [query_row] takes it. *)
Definition first_row (l : list Row) : outcome string Row :=
  ok_or "Query returned no rows"%string (head l).

(** [.ok()] and [.unwrap_or(..)] on a query. *)
Definition sql_ok {A} (m : sql A) : sql (option A) := fun s =>
  match m s with
  | (s, Ok a) => (s, Ok (Some a))
  | (s, Err _) => (s, Ok None)
  | (s, Panic) => (s, Panic)
  end.

(** ** Rows of the program *)

Definition named_tx_of_row (name tx_hash : string) (contract_address : option string)
  : outcome SqliteError NamedTx :=
  tx_hash ← unwrap (hash_from_hex tx_hash);
  address ← match contract_address with
            | Some a => Some <$> unwrap (address_from_hex a)
            | None => mret None
            end;
  mret (NamedTx_new name tx_hash address).

(** [NamedTxRow::from_row]. *)
Definition read_named_tx (r : Row) : outcome string (string * string * option string) :=
  name ← get_text (cell r "name");
  tx_hash ← get_text (cell r "tx_hash");
  contract_address ← get_opt get_text (cell r "contract_address");
  mret (name, tx_hash, contract_address).

(** [RunTxRow::from_row], with the text of the hash. *)
Definition read_run_tx (r : Row) : outcome string (string * RunTx) :=
  run_id ← get_i64 (cell r "run_id");
  tx_hash ← get_text (cell r "tx_hash");
  start_timestamp ← get_u64 (cell r "start_timestamp");
  end_timestamp ← get_opt get_u64 (cell r "end_timestamp");
  block_number ← get_opt get_u64 (cell r "block_number");
  gas_used ← get_opt get_u64 (cell r "gas_used");
  kind ← get_opt get_text (cell r "kind");
  error ← get_opt get_text (cell r "error");
  flashblock_latency ← get_opt get_u64 (cell r "flashblock_latency");
  flashblock_index ← get_opt get_u64 (cell r "flashblock_index");
  mret (tx_hash, {| rt_tx_hash := 0; rt_start_timestamp_ms := start_timestamp;
     rt_end_timestamp_ms := end_timestamp; rt_block_number := block_number;
     rt_gas_used := gas_used; rt_kind := kind; rt_error := error;
     rt_flashblock_latency_ms := flashblock_latency;
     rt_flashblock_index := flashblock_index |}).

(** [From<RunTxRow> for RunTx]. *)
Definition run_tx_of_row (row : string * RunTx) : outcome SqliteError RunTx :=
  tx_hash ← unwrap (hash_from_hex row.1);
  let t := row.2 in
  mret {| rt_tx_hash := tx_hash; rt_start_timestamp_ms := rt_start_timestamp_ms t;
     rt_end_timestamp_ms := rt_end_timestamp_ms t; rt_block_number := rt_block_number t;
     rt_gas_used := rt_gas_used t; rt_kind := rt_kind t; rt_error := rt_error t;
     rt_flashblock_latency_ms := rt_flashblock_latency_ms t;
     rt_flashblock_index := rt_flashblock_index t |}.

(** [SpamRunRow]: the timestamp and the duration are still text. *)
Record SpamRunRow := {
  rw_id : Z;
  rw_timestamp : string;
  rw_tx_count : Z;
  rw_scenario_name : string;
  rw_campaign_id : option string;
  rw_campaign_name : option string;
  rw_stage_name : option string;
  rw_rpc_url : string;
  rw_txs_per_duration : Z;
  rw_duration : string;
  rw_timeout : Z;
}.

Definition read_spam_run (r : Row) : outcome string SpamRunRow :=
  id ← get_u64 (cell r "id");
  timestamp ← get_text (cell r "timestamp");
  tx_count ← get_u64 (cell r "tx_count");
  scenario_name ← get_text (cell r "scenario_name");
  campaign_id ← get_opt get_text (cell r "campaign_id");
  campaign_name ← get_opt get_text (cell r "campaign_name");
  stage_name ← get_opt get_text (cell r "stage_name");
  rpc_url ← get_text (cell r "rpc_url");
  txs_per_duration ← get_u64 (cell r "txs_per_duration");
  duration ← get_text (cell r "duration");
  timeout ← get_u64 (cell r "timeout");
  mret {| rw_id := id; rw_timestamp := timestamp; rw_tx_count := tx_count;
     rw_scenario_name := scenario_name; rw_campaign_id := campaign_id;
     rw_campaign_name := campaign_name; rw_stage_name := stage_name; rw_rpc_url := rpc_url;
     rw_txs_per_duration := txs_per_duration; rw_duration := duration; rw_timeout := timeout |}.

(** [From<SpamRunRow> for SpamRun]. *)
Definition spam_run_of_row (w : SpamRunRow) : outcome SqliteError SpamRun :=
  timestamp ← unwrap (parse_uint 64 (rw_timestamp w));
  duration ← duration_of_string (rw_duration w);
  mret {| sr_id := rw_id w; sr_timestamp := timestamp; sr_tx_count := rw_tx_count w;
     sr_scenario_name := rw_scenario_name w; sr_campaign_id := rw_campaign_id w;
     sr_campaign_name := rw_campaign_name w; sr_stage_name := rw_stage_name w;
     sr_rpc_url := rw_rpc_url w; sr_txs_per_duration := rw_txs_per_duration w;
     sr_duration := duration; sr_timeout := rw_timeout w |}.

(** [rows.map(|r| r.map(|r| r.into())).collect::<Result<Vec<_>>>()?]: the first
    row that cannot be read ends it. *)
Definition collect_rows {R A} (read : Row -> outcome string R) (into : R -> outcome SqliteError A)
    (rows : list Row) : outcome SqliteError (list A) :=
  mapM (fun r => x ← map_err ExecuteQuery (read r); into x) rows.

(** [rows.last().transpose()?.map(|r| r.into())]. *)
Definition last_row {R A} (read : Row -> outcome string R) (into : R -> outcome SqliteError A)
    (rows : list Row) : outcome SqliteError (option A) :=
  match last rows with
  | None => mret None
  | Some r => x ← map_err ExecuteQuery (read r); Some <$> into x
  end.

(** ** The operations of [DbOps] *)

Inductive CreateQuery := PragmaForeignKeys | PragmaUserVersion | CreateTable (table : string).
Definition create_queries : list CreateQuery :=
  [PragmaForeignKeys; PragmaUserVersion] ++ (CreateTable <$> table_names).

Definition run_create (q : CreateQuery) : sql unit :=
  c ← get_pool;
  match q with
  | PragmaForeignKeys =>
      s ← gets id;
      modify (set_conn c {| cn_last_insert_rowid := cn_last_insert_rowid (conn_of s c);
                            cn_foreign_keys := true |})
  | PragmaUserVersion => modify (set_user_version DB_VERSION)
  | CreateTable table =>
      t ← gets sq_tables;
      match t !! table with
      | Some _ => statement (Err ("table " +:+ table +:+ " already exists")%string)
      | None => modify (set_tables (<[table := []]> t))
      end
  end.

(** Errors are logged and dropped. *)
Definition create_tables : sql unit := stm_mapM (fun q => sql_ok (run_create q)) create_queries;; mret tt.

Definition table_exists (table_name : string) : sql bool :=
  r ← sql_ok (query_row (fun s _ => ok_or "Query returned no rows"%string (sq_tables s !! table_name)));
  mret (match r with Some _ => true | None => false end).

(** The condition [url = '..' AND genesis_hash = '..'], its texts read as
    literals of the statement. *)
Definition rpc_url_where (url genesis_hash : SqlValue) (r : Row) : bool :=
  match url, genesis_hash with
  | SText u, SText g => eq_text (cell r "url") u && eq_text (cell r "genesis_hash") g
  | _, _ => false
  end.

Definition get_rpc_url_id (rpc_url : string) (genesis_hash : TxHash) : sql Z :=
  pool ← get_pool;
  known ← query "rpc_urls" (rpc_url_where (SText rpc_url) (SText (hash_to_string genesis_hash)));
  (match known with
   | [] => insert_row pool "rpc_urls"
             [("url", SText rpc_url); ("genesis_hash", SText (hash_to_string genesis_hash))]%string
   | _ => mret tt
   end);;
  query_row (fun s _ =>
    url ← ok_or "syntax error"%string (read_literal (quoted rpc_url));
    hash ← ok_or "syntax error"%string
             (read_literal (quoted (to_lowercase (hash_to_string genesis_hash))));
    rows ← select "rpc_urls" (rpc_url_where url hash) (sq_tables s);
    r ← first_row rows;
    get_i64 (cell r "id")).

Definition get_rpc_url_for_scenario (scenario_name : string) : sql (option string) :=
  sql_ok (query_row (fun s _ =>
    rows ← select "runs" (fun r => eq_text (cell r "scenario_name") scenario_name) (sq_tables s);
    r ← first_row (rev rows);
    get_text (cell r "rpc_url"))).

Definition version : sql Z :=
  v ← sql_ok (query_row (fun s _ => mret (sq_user_version s)));
  mret (default 0 v).

Definition insert_run (run : SpamRunRequest) : sql Z :=
  pool ← get_pool;
  prepare "runs";;
  timestamp ← statement (to_sql_u64 (rr_timestamp run));
  tx_count ← statement (to_sql_u64 (rr_tx_count run));
  txs_per_duration ← statement (to_sql_u64 (rr_txs_per_duration run));
  timeout ← statement (to_sql_u64 (rr_pending_timeout_secs run));
  insert_row pool "runs"
    [("timestamp", timestamp); ("tx_count", tx_count);
     ("scenario_name", SText (rr_scenario_name run));
     ("campaign_id", to_sql_opt_text (rr_campaign_id run));
     ("campaign_name", to_sql_opt_text (rr_campaign_name run));
     ("stage_name", to_sql_opt_text (rr_stage_name run));
     ("rpc_url", SText (rr_rpc_url run)); ("txs_per_duration", txs_per_duration);
     ("duration", SText (duration_to_string (rr_duration run))); ("timeout", timeout)]%string;;
  query_row (fun s c => get_u64 (SInt (cn_last_insert_rowid (conn_of s c)))).

Definition count_rows (table : string) : sql Z :=
  query_row (fun s _ => l ← select table (fun _ => true) (sq_tables s); mret (Z.of_nat (length l))).
Definition num_runs : sql Z := count_rows "runs".
Definition num_replay_reports : sql Z := count_rows "replay_reports".

Definition get_run_txs (run_id : Z) : sql (list RunTx) :=
  get_pool;;
  prepare "run_txs";;
  statement (to_sql_u64 run_id);;
  rows ← query "run_txs" (fun r => eq_int (cell r "run_id") run_id);
  lift (collect_rows read_run_tx run_tx_of_row rows).

Definition get_run (run_id : Z) : sql (option SpamRun) :=
  get_pool;;
  prepare "runs";;
  statement (to_sql_u64 run_id);;
  rows ← query "runs" (fun r => eq_int (cell r "id") run_id);
  lift (last_row read_spam_run spam_run_of_row rows).

Definition get_runs_by_campaign (campaign_id : string) : sql (list SpamRun) :=
  get_pool;;
  rows ← query "runs" (fun r => eq_text (cell r "campaign_id") campaign_id);
  lift (collect_rows read_spam_run spam_run_of_row rows).

(** [ORDER BY id DESC LIMIT 1]. *)
Definition latest (l : list Row) : list Row := match last l with Some r => [r] | None => [] end.

Definition latest_campaign_id : sql (option string) :=
  get_pool;;
  rows ← query "runs" (fun r => match cell r "campaign_id" with SNull => false | _ => true end);
  lift (last_row (fun r => get_text (cell r "campaign_id")) (fun x => mret x) (latest rows)).

Definition insert_named_txs (named_txs : list NamedTx) (rpc_url : string) (genesis_hash : TxHash)
  : sql unit :=
  rpc_url_id ← get_rpc_url_id rpc_url genesis_hash;
  conn ← get_pool;
  transaction
    (stm_mapM (fun named_tx =>
       prepare "named_txs";;
       rpc_url_id ← statement (to_sql_u64 rpc_url_id);
       insert_row conn "named_txs"
         [("name", SText (nt_name named_tx));
          ("tx_hash", SText (hash_encode_hex (nt_tx_hash named_tx)));
          ("contract_address",
           SText (match nt_address named_tx with Some a => address_encode_hex a | None => "" end));
          ("rpc_url_id", rpc_url_id)]%string) named_txs);;
  mret tt.

Definition get_named_tx (name rpc_url : string) (genesis_hash : TxHash) : sql (option NamedTx) :=
  get_pool;;
  urls ← query "rpc_urls"
    (rpc_url_where (SText rpc_url) (SText (to_lowercase (hash_to_string genesis_hash))));
  rows ← query "named_txs" (fun r =>
    eq_text (cell r "name") name &&
    match urls with u :: _ => eq_int (cell r "rpc_url_id") (row_id u) | [] => false end);
  lift (last_row read_named_tx (fun '(n, h, a) => named_tx_of_row n h a) (latest rows)).

Definition get_named_tx_by_address (address : Address) : sql (option NamedTx) :=
  get_pool;;
  rows ← query "named_txs"
    (fun r => eq_text (cell r "contract_address") (address_encode_hex address));
  lift (last_row read_named_tx (fun '(n, h, a) => named_tx_of_row n h a) (latest rows)).

Definition get_latency_metrics (run_id : Z) (method : string) : sql (list Bucket) :=
  get_pool;;
  prepare "latency";;
  statement (to_sql_u64 run_id);;
  rows ← query "latency"
    (fun r => eq_int (cell r "run_id") run_id && eq_text (cell r "method") method);
  lift (collect_rows
          (fun r => upper_bound ← get_real (cell r "upper_bound_secs");
                    count ← get_u64 (cell r "count"); mret (upper_bound, count))
          (fun b => mret (Bucket_of b)) rows).

(** ** Statements written as text *)

Definition val_or_null_u64 (v : option Z) : string :=
  match v with Some v => dec v | None => "NULL" end.
Definition val_or_null_str (v : option string) : string :=
  match v with Some v => quoted v | None => "NULL" end.

(** The values of [INSERT INTO run_txs (..) VALUES (..)], in the order of its
    columns. *)
Definition run_tx_texts (run_id : Z) (run_tx : RunTx) : list string :=
  [dec run_id; quoted (hash_encode_hex (rt_tx_hash run_tx)); dec (rt_start_timestamp_ms run_tx);
   val_or_null_u64 (rt_end_timestamp_ms run_tx); val_or_null_u64 (rt_block_number run_tx);
   val_or_null_u64 (rt_gas_used run_tx); val_or_null_str (rt_kind run_tx);
   val_or_null_str (rt_error run_tx); val_or_null_u64 (rt_flashblock_latency_ms run_tx);
   val_or_null_u64 (rt_flashblock_index run_tx)].
Definition run_tx_columns : list string :=
  ["run_id"; "tx_hash"; "start_timestamp"; "end_timestamp"; "block_number"; "gas_used"; "kind";
   "error"; "flashblock_latency"; "flashblock_index"]%string.

(** [tx.execute_batch(..)] of an [INSERT] whose values are the given text. *)
Definition insert_text (c : nat) (table : string) (columns : list string) (values : string)
  : sql unit :=
  prepare table;;
  vs ← statement (ok_or "syntax error"%string (read_values values));
  statement (ensure (length vs =? length columns)%nat "values for columns"%string);;
  insert_row c table (zip columns vs).

Definition insert_run_txs (run_id : Z) (run_txs : list RunTx) : sql unit :=
  conn ← get_pool;
  transaction
    (stm_mapM (fun run_tx =>
       insert_text conn "run_txs" run_tx_columns
         (String.concat ", " (run_tx_texts run_id run_tx))) run_txs);;
  mret tt.

Definition latency_texts (run_id : Z) (method : string) (bucket : Bucket) : list string :=
  [dec run_id; f64_display (upper_bound bucket); dec (cumulative_count bucket); quoted method].
Definition latency_columns : list string :=
  ["run_id"; "upper_bound_secs"; "count"; "method"]%string.

Definition insert_latency_metrics (run_id : Z) (latency_metrics : list (string * list Bucket))
  : sql unit :=
  conn ← get_pool;
  transaction
    (stm_mapM (fun mb =>
       stm_mapM (fun bucket =>
         insert_text conn "latency" latency_columns
           (String.concat ", " (latency_texts run_id mb.1 bucket))) mb.2) latency_metrics);;
  mret tt.

(** ** Replay reports *)

Definition insert_replay_report `{P : Profile} (report : ReplayReportRequest)
  : sql ReplayReport :=
  pool ← get_pool;
  n ← num_replay_reports;
  report_id ← lift (arith 64 (n + 1));
  prepare "replay_reports";;
  rpc_url_id ← statement (to_sql_u64 (rq_rpc_url_id report));
  gas_per_second ← statement (to_sql_u64 (rq_gas_per_second report));
  gas_used ← statement (to_sql_u64 (rq_gas_used report));
  insert_row pool "replay_reports"
    [("rpc_url_id", rpc_url_id); ("gas_per_second", gas_per_second); ("gas_used", gas_used)]%string;;
  mret (ReplayReport_new report_id report).

Definition read_replay (id : Z) (r : Row) : outcome string ReplayReport :=
  rpc_url_id ← get_u64 (cell r "rpc_url_id");
  gas_per_second ← get_u64 (cell r "gas_per_second");
  gas_used ← get_u64 (cell r "gas_used");
  mret (ReplayReport_new id {| rq_rpc_url_id := rpc_url_id; rq_gas_per_second := gas_per_second;
                               rq_gas_used := gas_used |}).

Definition get_replay_report (id : Z) : sql ReplayReport :=
  get_pool;;
  prepare "replay_reports";;
  statement (to_sql_u64 id);;
  rows ← query "replay_reports" (fun r => eq_int (cell r "id") id);
  res ← lift (last_row (read_replay id) (fun x => mret x) rows);
  lift (ok_or (SqliteNotFound ("replay_reports(" +:+ dec id +:+ ")")) res).

(** ** The interface

    A method of [DbOps] that fails gives no new database: of what a failing
    method leaves behind only the requests to the pool, and the node that
    [get_rpc_url_id] may have added, are lost. *)
Definition reading {A} (m : sql A) (d : SqliteDb) : outcome DbError A :=
  map_err into_db_error (snd (m d)).
Definition writing {A} (m : sql A) (d : SqliteDb) : outcome DbError (A * SqliteDb) :=
  map_err into_db_error (match m d with
                         | (d', Ok a) => Ok (a, d')
                         | (_, Err e) => Err e
                         | (_, Panic) => Panic
                         end).

Definition sqlite_ops `{P : Profile} : DbOps SqliteDb := {|
  Db.create_tables d := snd <$> writing create_tables d;
  Db.get_latency_metrics d run_id method := reading (get_latency_metrics run_id method) d;
  Db.get_named_tx d name url hash := reading (get_named_tx name url hash) d;
  Db.get_named_tx_by_address d address := reading (get_named_tx_by_address address) d;
  Db.get_run d run_id := reading (get_run run_id) d;
  Db.get_runs_by_campaign d campaign_id := reading (get_runs_by_campaign campaign_id) d;
  Db.get_run_txs d run_id := reading (get_run_txs run_id) d;
  Db.latest_campaign_id d := reading latest_campaign_id d;
  Db.insert_named_txs d txs url hash := snd <$> writing (insert_named_txs txs url hash) d;
  Db.insert_run d run := writing (insert_run run) d;
  Db.insert_run_txs d run_id txs := snd <$> writing (insert_run_txs run_id txs) d;
  Db.insert_latency_metrics d run_id metrics :=
    snd <$> writing (insert_latency_metrics run_id metrics) d;
  Db.num_runs d := reading num_runs d;
  Db.get_rpc_url_for_scenario d name := reading (get_rpc_url_for_scenario name) d;
  Db.version d := match snd (version d) with Ok v => v | _ => 0 end;
  Db.num_replay_reports d := reading num_replay_reports d;
  Db.insert_replay_report d report := writing (insert_replay_report report) d;
  Db.get_replay_report d id := reading (get_replay_report id) d;
  Db.get_rpc_url_id d url hash := writing (get_rpc_url_id url hash) d;
|}.
End sqlite.

(** ** Every operation keeps the tables consistent *)

(** Ids count from 1, rows have the columns of their table, and foreign keys
    name rows that exist. *)
Record tables_wf (t : Tables) : Prop := {
  wf_ids : forall name rows, t !! name = Some rows -> row_ids rows = ids_upto (length rows);
  wf_cols : forall name rows, t !! name = Some rows ->
    Forall (fun r => (row_cols r).*1 = (schema name).*1) rows;
  wf_keys : forall name rows r, t !! name = Some rows -> r ∈ rows ->
    fk_holds t name (row_cols r) = true;
}.

(** Tables only get longer. *)
Definition tables_grow (t t' : Tables) : Prop :=
  forall name rows, t !! name = Some rows -> exists new, t' !! name = Some (rows ++ new).

#[export] Instance tables_grow_preorder : PreOrder tables_grow.
Proof.
  split.
  - intros t name rows H. exists []. by rewrite app_nil_r.
  - intros t1 t2 t3 H12 H23 name rows H. destruct (H12 _ _ H) as [n1 H1].
    destruct (H23 _ _ H1) as [n2 H2]. exists (n1 ++ n2). by rewrite app_assoc.
Qed.

Lemma has_id_grow t t' table z : tables_grow t t' -> has_id t table z = true -> has_id t' table z = true.
Proof.
  unfold has_id. intros Hg. destruct (t !! table) as [rows|] eqn:Hr; [|done].
  destruct (Hg _ _ Hr) as [new ->]. rewrite !bool_decide_eq_true.
  unfold row_ids. rewrite fmap_app. set_solver.
Qed.

Lemma fk_holds_grow t t' table cols :
  tables_grow t t' -> fk_holds t table cols = true -> fk_holds t' table cols = true.
Proof.
  unfold fk_holds. intros Hg. destruct (foreign_key table) as [[c parent]|]; [|done].
  destruct (assoc c cols); try done. by apply has_id_grow.
Qed.

Lemma insert_grows (t : Tables) table rows new :
  t !! table = Some rows -> tables_grow t (<[table := rows ++ new]> t).
Proof.
  intros Ht name rows' Hn. destruct (decide (name = table)) as [->|Hne].
  - rewrite lookup_insert_eq. exists new. congruence.
  - rewrite lookup_insert_ne by done. exists []. by rewrite app_nil_r.
Qed.

Lemma stored_columns table cols : (stored table cols).*1 = (schema table).*1.
Proof. unfold stored. induction (schema table) as [|[c a] l IH]; cbn; [done|]. by rewrite IH. Qed.

Lemma insert_into_wf table cols t id t' :
  tables_wf t -> insert_into true table cols t = Ok (id, t') -> tables_wf t' /\ tables_grow t t'.
Proof.
  intros [Hids Hcols Hkeys] (rows & Ht & -> & Hfk & ->)%insert_into_ok.
  pose proof (insert_grows t table rows
    [{| row_id := next_id rows; row_cols := stored table cols |}] Ht) as Hg.
  split; [|done]. split.
  - intros name rows' [[<- <-]|[Hne Hn]]%lookup_insert_Some; [|by apply Hids with name].
    unfold row_ids. rewrite fmap_app, length_app, Nat.add_1_r, ids_upto_S. cbn.
    rewrite next_id_upto by by apply Hids with table. f_equal. by apply Hids with table.
  - intros name rows' [[<- <-]|[Hne Hn]]%lookup_insert_Some; [|by apply Hcols].
    apply Forall_app. split; [by apply Hcols|]. constructor; [apply stored_columns|done].
  - intros name rows' r [[<- <-]|[Hne Hn]]%lookup_insert_Some Hr;
      (eapply fk_holds_grow; [exact Hg|]); [|by eapply Hkeys].
    apply elem_of_app in Hr as [Hr| ->%list_elem_of_singleton]; [by eapply Hkeys|].
    by apply Hfk.
Qed.

Lemma create_wf table t :
  tables_wf t -> t !! table = None ->
  tables_wf (<[table := []]> t) /\ tables_grow t (<[table := []]> t).
Proof.
  intros [Hids Hcols Hkeys] Hn.
  assert (Hg : tables_grow t (<[table := []]> t)).
  { intros name rows Hr. destruct (decide (name = table)) as [->|Hne]; [congruence|].
    rewrite lookup_insert_ne by done. exists []. by rewrite app_nil_r. }
  split; [|done]. split.
  - intros name rows' [[<- <-]|[Hne Hm]]%lookup_insert_Some; [done|by apply Hids with name].
  - intros name rows' [[<- <-]|[Hne Hm]]%lookup_insert_Some; [done|by apply Hcols].
  - intros name rows' r [[<- <-]|[Hne Hm]]%lookup_insert_Some Hr; [set_solver|].
    eapply fk_holds_grow; [exact Hg|]. by eapply Hkeys.
Qed.

Definition db_wf (s : SqliteDb) : Prop :=
  tables_wf (sq_tables s) /\ map_Forall (fun _ k => cn_foreign_keys k = true) (sq_conns s).

(** Whatever its outcome, a computation leaves the database well formed and
    removes and changes no row. *)
Definition keeps {A} (m : stm SqliteDb SqliteError A) : Prop :=
  forall s, db_wf s -> db_wf (m s).1 /\ tables_grow (sq_tables s) (sq_tables (m s).1).

Section keeps_steps.
Context {X : SqlText} {H : FromHex} (pick : nat -> outcome string nat).

Lemma keeps_same {A} (m : stm SqliteDb SqliteError A) :
  (forall s, (m s).1 = s) -> keeps m.
Proof. intros Hm s Hs. rewrite Hm. by split. Qed.

Lemma keeps_ret {A} (x : A) : keeps (mret x).
Proof. by apply keeps_same. Qed.
Lemma keeps_lift {A} (m : outcome SqliteError A) : keeps (lift m).
Proof. by apply keeps_same. Qed.
Lemma keeps_statement {A} (m : outcome string A) : keeps (statement m).
Proof. by apply keeps_same. Qed.
Lemma keeps_gets {A} (f : SqliteDb -> A) : keeps (gets f).
Proof. by apply keeps_same. Qed.

Lemma keeps_bind {A B} (m : stm SqliteDb SqliteError A) (f : A -> stm SqliteDb SqliteError B) :
  keeps m -> (forall x, keeps (f x)) -> keeps (m ≫= f).
Proof.
  intros Hm Hf s Hs. unfold mbind, stm_bind. specialize (Hm s Hs).
  destruct (m s) as [s1 [a|e|]]; cbn in *; [|done..]. destruct Hm as [Hw1 Hg1].
  destruct (Hf a s1 Hw1) as [Hw2 Hg2]. split; [done|]. by transitivity (sq_tables s1).
Qed.

Lemma keeps_mapM {A B} (f : A -> stm SqliteDb SqliteError B) l :
  (forall x, keeps (f x)) -> keeps (stm_mapM f l).
Proof.
  intros Hf. induction l as [|x l IH]; cbn; [apply keeps_ret|].
  apply keeps_bind; [done|]. intros y. apply keeps_bind; [done|]. intros ys. apply keeps_ret.
Qed.

Lemma keeps_get_pool : keeps (get_pool pick).
Proof. unfold get_pool. apply keeps_bind; [apply keeps_gets|]. intros n. by intros s Hs. Qed.

Lemma keeps_query table p : keeps (query table p).
Proof. apply keeps_bind; [apply keeps_gets|]. intros t. apply keeps_statement. Qed.

Lemma keeps_prepare table : keeps (prepare table).
Proof. apply keeps_bind; [apply keeps_query|]. intros t. apply keeps_ret. Qed.

Lemma keeps_insert_row c table cols : keeps (insert_row true c table cols).
Proof.
  intros s [Ht Hc].
  assert (Hf : cn_foreign_keys (conn_of true s c) = true).
  { unfold conn_of. destruct (sq_conns s !! c) as [k|] eqn:Hk; cbn; [by eapply Hc|done]. }
  unfold insert_row, mbind, stm_bind, gets, statement, lift, modify. cbn. rewrite Hf.
  destruct (insert_into true table cols (sq_tables s)) as [[id t]|e|] eqn:Hi; cbn; [|by split..].
  destruct (insert_into_wf _ _ _ _ _ Ht Hi) as [Ht' Hg]. split; [|done].
  split; [done|]. by apply map_Forall_insert_2.
Qed.

Lemma keeps_transaction {A} (m : stm SqliteDb SqliteError A) : keeps m -> keeps (transaction m).
Proof.
  intros Hm s Hs. unfold transaction. specialize (Hm s Hs).
  destruct (m s) as [s' [a|e|]]; cbn in *; [done|..];
    (split; [|done]; split; [apply Hs|apply Hm]).
Qed.

Lemma keeps_sql_ok {A} (m : stm SqliteDb SqliteError A) : keeps m -> keeps (sql_ok m).
Proof.
  intros Hm s Hs. unfold sql_ok. specialize (Hm s Hs). by destruct (m s) as [s' [a|e|]].
Qed.

Lemma keeps_query_row {A} (v : SqliteDb -> nat -> outcome string A) : keeps (query_row pick v).
Proof.
  apply keeps_bind; [apply keeps_get_pool|]. intros c.
  apply keeps_bind; [apply keeps_gets|]. intros s. apply keeps_statement.
Qed.
End keeps_steps.

Create HintDb keeps.
#[export] Hint Resolve keeps_ret keeps_lift keeps_statement keeps_gets keeps_get_pool keeps_query
  keeps_prepare keeps_insert_row keeps_transaction keeps_sql_ok keeps_query_row : keeps.
#[export] Hint Resolve keeps_bind keeps_mapM : keeps.
#[export] Hint Extern 5 (forall _, keeps _) => intro : keeps.
#[export] Hint Extern 5 (keeps (match ?x with _ => _ end)) => destruct x : keeps.

(** A call of one of the methods that write. *)
Inductive WriteOp :=
| OpCreateTables
| OpInsertRun (run : SpamRunRequest)
| OpInsertNamedTxs (txs : list NamedTx) (rpc_url : string) (genesis_hash : TxHash)
| OpInsertRunTxs (run_id : Z) (txs : list RunTx)
| OpInsertLatencyMetrics (run_id : Z) (metrics : list (string * list Bucket))
| OpInsertReplayReport (report : ReplayReportRequest)
| OpGetRpcUrlId (rpc_url : string) (genesis_hash : TxHash).

Section reachable.
Context {P : Profile} {D : F64Display} {X : SqlText} (pick : nat -> outcome string nat) (fk_default : bool).

Definition run_op (o : WriteOp) : stm SqliteDb SqliteError unit :=
  match o with
  | OpCreateTables => create_tables pick fk_default
  | OpInsertRun run => insert_run pick fk_default run;; mret tt
  | OpInsertNamedTxs txs url hash => insert_named_txs pick fk_default txs url hash
  | OpInsertRunTxs run_id txs => insert_run_txs pick fk_default run_id txs
  | OpInsertLatencyMetrics run_id metrics => insert_latency_metrics pick fk_default run_id metrics
  | OpInsertReplayReport report => insert_replay_report pick fk_default report;; mret tt
  | OpGetRpcUrlId url hash => get_rpc_url_id pick fk_default url hash;; mret tt
  end.

(** Calls in turn, whatever their outcomes. *)
Definition run_ops (l : list WriteOp) (s : SqliteDb) : SqliteDb :=
  fold_left (fun s o => (run_op o s).1) l s.
End reachable.

Section reachable_props.
Context {P : Profile} {D : F64Display} {X : SqlText} (pick : nat -> outcome string nat).

Lemma keeps_create_tables : keeps (create_tables pick true).
Proof.
  unfold create_tables. apply keeps_bind; [|auto with keeps].
  apply keeps_mapM. intros q. apply keeps_sql_ok. unfold run_create.
  apply keeps_bind; [auto with keeps|]. intros c. destruct q as [| |table].
  - apply keeps_bind; [auto with keeps|]. intros s0 s [Ht Hc]. split; [|done].
    split; [done|]. by apply map_Forall_insert_2.
  - by intros s Hs.
  - intros s [Ht Hc]. unfold mbind, stm_bind, gets. cbn.
    destruct (sq_tables s !! table) eqn:Hn; cbn; [by split|].
    destruct (create_wf table _ Ht Hn). by split.
Qed.

Lemma keeps_get_rpc_url_id url hash : keeps (get_rpc_url_id pick true url hash).
Proof. unfold get_rpc_url_id. auto 10 with keeps. Qed.

Lemma keeps_run_op o : keeps (run_op pick true o).
Proof.
  destruct o; cbn [run_op]; [apply keeps_create_tables|try apply keeps_bind..]; auto with keeps;
    unfold insert_run, insert_named_txs, insert_run_txs, insert_latency_metrics,
      insert_replay_report, insert_text, num_replay_reports, count_rows;
    auto 40 using keeps_get_rpc_url_id with keeps.
Qed.

(** From an empty file, whatever methods are called and however they end,
    ids count from 1 in every table, every row has its table's columns, foreign
    keys name existing rows, and no later call changes or removes a row. *)
Theorem database_consistent (before after : list WriteOp) :
  let s := run_ops pick true before empty_db in
  let s' := run_ops pick true after s in
  tables_wf (sq_tables s) /\ tables_wf (sq_tables s') /\ tables_grow (sq_tables s) (sq_tables s').
Proof.
  assert (Hk : forall l s, db_wf s ->
    db_wf (run_ops pick true l s) /\
    tables_grow (sq_tables s) (sq_tables (run_ops pick true l s))).
  { induction l as [|o l IH]; intros s Hs; cbn; [done|].
    destruct (keeps_run_op o s Hs) as [Hw Hg]. destruct (IH _ Hw) as [Hw' Hg'].
    split; [done|]. by etransitivity. }
  assert (H0 : db_wf empty_db) by by split; [split|]; intros ?.
  destruct (Hk before _ H0) as [H1 _]. destruct (Hk after _ H1) as [H2 Hg]. cbn.
  split; [apply H1|]. split; [apply H2|done].
Qed.
End reachable_props.

(** ** What the operations leave and find *)

Section op_lemmas.
Context {X : SqlText} {H : FromHex} (pick : nat -> outcome string nat) (fk : bool).

Lemma get_pool_ok s s' c :
  get_pool pick s = (s', Ok c) <-> s' = count_request s /\ pick (sq_requests s) = Ok c.
Proof.
  unfold get_pool, mbind, stm_bind, gets, modify, lift. cbn.
  destruct (pick (sq_requests s)); cbn; naive_solver.
Qed.

Lemma statement_ok {A} (m : outcome string A) s s' a :
  statement m s = (s', Ok a) <-> s' = s /\ m = Ok a.
Proof. unfold statement. rewrite stm_lift_ok, map_err_ok. done. Qed.

Lemma query_ok table p s s' l :
  query table p s = (s', Ok l) <-> s' = s /\ select table p (sq_tables s) = Ok l.
Proof. apply statement_ok. Qed.

Lemma prepare_ok table s s' u :
  prepare table s = (s', Ok u) <-> s' = s /\ is_Some (sq_tables s !! table).
Proof.
  unfold prepare. rewrite stm_bind_ok. setoid_rewrite query_ok. split.
  - intros (s1 & l & [-> (rows & Hr & _)%select_ok] & Hu). inv_stm. eauto.
  - intros [-> [rows Hr]]. destruct u. exists s, (filter (fun r => false = true) rows).
    split; [|done]. split; [done|]. apply select_ok. eauto.
Qed.

Lemma query_row_ok {A} (v : SqliteDb -> nat -> outcome string A) s s' a :
  query_row pick v s = (s', Ok a) <->
  s' = count_request s /\ exists c, pick (sq_requests s) = Ok c /\ v (count_request s) c = Ok a.
Proof.
  unfold query_row. split.
  - intros Hq. inv_stm. apply get_pool_ok in H0 as [-> Hc]. apply statement_ok in H2 as [-> Hv]. eauto.
  - intros (-> & c & Hc & Hv). apply stm_bind_ok. exists (count_request s), c.
    split; [by apply get_pool_ok|]. unfold mbind, stm_bind, gets. by apply statement_ok.
Qed.

Lemma get_pool_run s c :
  pick (sq_requests s) = Ok c -> get_pool pick s = (count_request s, Ok c).
Proof. intros Hc. by apply get_pool_ok. Qed.
Lemma statement_run {A} (m : outcome string A) s a : m = Ok a -> statement m s = (s, Ok a).
Proof. by intros ->. Qed.
Lemma query_run table p s rows :
  sq_tables s !! table = Some rows ->
  query table p s = (s, Ok (filter (fun r => p r = true) rows)).
Proof. intros Hr. apply query_ok. split; [done|]. apply select_ok. eauto. Qed.
Lemma prepare_run table s rows :
  sq_tables s !! table = Some rows -> prepare table s = (s, Ok tt).
Proof. intros Hr. apply prepare_ok. by rewrite Hr. Qed.
Lemma query_row_run {A} (v : SqliteDb -> nat -> outcome string A) s c a :
  pick (sq_requests s) = Ok c -> v (count_request s) c = Ok a ->
  query_row pick v s = (count_request s, Ok a).
Proof. intros Hc Hv. apply query_row_ok. eauto. Qed.

(** The state an insertion leaves. *)
Definition inserted (c : nat) (table : string) (rows : list Row)
    (cols : list (string * SqlValue)) (s : SqliteDb) : SqliteDb :=
  set_conn c {| cn_last_insert_rowid := next_id rows;
                cn_foreign_keys := cn_foreign_keys (conn_of fk s c) |}
    (set_tables (<[table := rows ++ [{| row_id := next_id rows;
                                        row_cols := stored table cols |}]]> (sq_tables s)) s).

Lemma insert_row_ok c table cols s s' u :
  insert_row fk c table cols s = (s', Ok u) <->
  exists rows, sq_tables s !! table = Some rows /\
    (cn_foreign_keys (conn_of fk s c) = true ->
     fk_holds (sq_tables s) table (stored table cols) = true) /\
    s' = inserted c table rows cols s.
Proof.
  unfold insert_row, mbind, stm_bind, gets, statement, lift, modify. cbn.
  pose proof (insert_into_ok (cn_foreign_keys (conn_of fk s c)) table cols (sq_tables s)) as Hi.
  destruct (insert_into _ table cols (sq_tables s)) as [[id t]|e|] eqn:He; cbn.
  - destruct (proj1 (Hi id t) eq_refl) as (rows & Hr & -> & Hf & ->). split.
    + intros [= <- _]. eauto.
    + intros (rows' & Hr' & _ & ->). destruct u. by simplify_eq.
  - split; [done|]. intros (rows & Hr & Hf & _).
    discriminate (proj2 (Hi _ _) (ex_intro _ rows (conj Hr (conj eq_refl (conj Hf eq_refl))))).
  - split; [done|]. intros (rows & Hr & Hf & _).
    discriminate (proj2 (Hi _ _) (ex_intro _ rows (conj Hr (conj eq_refl (conj Hf eq_refl))))).
Qed.

Lemma transaction_ok {A} (m : stm SqliteDb SqliteError A) s s' a :
  transaction m s = (s', Ok a) <-> m s = (s', Ok a).
Proof. unfold transaction. destruct (m s) as [s1 [x|e|]]; naive_solver. Qed.

(** A transaction that does not succeed leaves the tables alone. *)
Lemma transaction_failed {A} (m : stm SqliteDb SqliteError A) s :
  is_ok (transaction m s).2 = false -> sq_tables (transaction m s).1 = sq_tables s.
Proof. unfold transaction. by destruct (m s) as [s1 [x|e|]]. Qed.

End op_lemmas.

(** [sql_run]: evaluate the first steps of a computation that succeed. *)
Ltac sql_run :=
  repeat (erewrite stm_bind_run by first
    [ by apply get_pool_run | by eapply prepare_run | by eapply query_run
    | by apply statement_run | by eapply query_row_run ]).

Ltac inv_sql :=
  repeat match goal with
  | Hx : get_pool _ _ = (_, Ok _) |- _ => apply get_pool_ok in Hx as [? ?]
  | Hx : statement _ _ = (_, Ok _) |- _ => apply statement_ok in Hx as [? ?]
  | Hx : query _ _ _ = (_, Ok _) |- _ => apply query_ok in Hx as [? ?]
  | Hx : prepare _ _ = (_, Ok _) |- _ => apply prepare_ok in Hx as [? ?]
  | Hx : query_row _ _ _ = (_, Ok _) |- _ => apply query_row_ok in Hx as (? & ? & ? & ?)
  | Hx : transaction _ _ = (_, Ok _) |- _ => apply (proj1 (transaction_ok _ _ _ _)) in Hx
  | Hx : insert_row _ _ _ _ _ = (_, Ok _) |- _ => apply insert_row_ok in Hx as (? & ? & ? & ?)
  | _ => progress inv_stm
  end.

(** ** Runs *)

(** The numbers of a request fit the integers of the database. *)
Definition request_fits (r : SpamRunRequest) : Prop :=
  0 <= rr_timestamp r < 2 ^ 63 /\ 0 <= rr_tx_count r /\ 0 <= rr_txs_per_duration r /\
  0 <= rr_pending_timeout_secs r /\ 0 <= duration_value (rr_duration r) < 2 ^ 64.

Definition run_columns (r : SpamRunRequest) : list (string * SqlValue) :=
  [("timestamp", SInt (rr_timestamp r)); ("tx_count", SInt (rr_tx_count r));
   ("scenario_name", SText (rr_scenario_name r));
   ("campaign_id", to_sql_opt_text (rr_campaign_id r));
   ("campaign_name", to_sql_opt_text (rr_campaign_name r));
   ("stage_name", to_sql_opt_text (rr_stage_name r));
   ("rpc_url", SText (rr_rpc_url r)); ("txs_per_duration", SInt (rr_txs_per_duration r));
   ("duration", SText (duration_to_string (rr_duration r)));
   ("timeout", SInt (rr_pending_timeout_secs r))]%string.

Lemma to_sql_u64_inv v x : to_sql_u64 v = Ok x -> x = SInt v /\ v < 2 ^ 63.
Proof. unfold to_sql_u64. destruct (Z.ltb_spec v (2 ^ 63)); naive_solver. Qed.

Lemma to_sql_u64_small v : v < 2 ^ 63 -> to_sql_u64 v = Ok (SInt v).
Proof. intros Hv. unfold to_sql_u64. by destruct (Z.ltb_spec v (2 ^ 63)); [|lia]. Qed.

Lemma affinity_opt_text v : affinity TextCol (to_sql_opt_text v) = to_sql_opt_text v.
Proof. by destruct v. Qed.

Lemma get_u64_nonneg z : 0 <= z -> get_u64 (SInt z) = Ok z.
Proof. intros Hz. cbn. by destruct (Z.leb_spec 0 z); [|lia]. Qed.

(** The one row with a given id. *)
Lemma filter_id rows r :
  NoDup (row_ids rows) -> r ∈ rows ->
  filter (fun r' => eq_int (cell r' "id") (row_id r) = true) rows = [r].
Proof.
  induction rows as [|r0 rows IH]; cbn [row_ids fmap list_fmap]; [set_solver|].
  intros [Hn Hd]%NoDup_cons [<-|Hr]%elem_of_cons; rewrite filter_cons; cbn [cell eq_int].
  - change (eq_int (cell r "id") (row_id r)) with (row_id r =? row_id r).
    rewrite Z.eqb_refl. rewrite decide_True by done. f_equal.
    apply filter_nil_forall. intros r' Hr'. cbn. rewrite Z.eqb_eq. intros E.
    apply Hn. rewrite <- E. by apply list_elem_of_fmap_2.
  - rewrite decide_False; [by apply IH|]. cbn. rewrite Z.eqb_eq. intros E. apply Hn. rewrite E.
    by apply list_elem_of_fmap_2.
Qed.

Lemma ids_upto_NoDup n : NoDup (ids_upto n).
Proof.
  unfold ids_upto. apply NoDup_fmap_2_strong; [|apply NoDup_seq]. intros i j _ _ E. lia.
Qed.

Lemma get_u64_inv z id : get_u64 (SInt z) = Ok id -> id = z.
Proof. cbn. destruct (0 <=? z); naive_solver. Qed.

Lemma last_inserted fk c table rows cols s :
  cn_last_insert_rowid (conn_of fk (count_request (inserted fk c table rows cols s)) c) = next_id rows.
Proof. unfold conn_of. cbn. by rewrite lookup_insert_eq. Qed.

Lemma last_row_one {R A} (read : Row -> outcome string R) (into : R -> outcome SqliteError A) r :
  last_row read into [r] = Some <$> (x ← map_err ExecuteQuery (read r); into x).
Proof. unfold last_row. cbn. by destruct (read r). Qed.

Section runs.
Context {X : SqlText} (pick : nat -> outcome string nat) (fk : bool).

Lemma read_inserted_run id run :
  request_fits run -> 0 <= id ->
  (x ← map_err ExecuteQuery (read_spam_run {| row_id := id; row_cols := stored "runs" (run_columns run) |});
   spam_run_of_row x) = Ok (run_of_request id run).
Proof.
  intros (Ht & Hc & Hd & Hp & Hv) Hid.
  unfold read_spam_run. cbn -[get_u64 to_sql_opt_text affinity get_opt].
  rewrite !affinity_opt_text, !get_opt_text. cbn [affinity].
  rewrite !get_u64_nonneg by done. cbn. unfold spam_run_of_row. cbn.
  rewrite parse_dec by lia. cbn. by rewrite duration_roundtrip.
Qed.

Lemma get_run_eval id s rows c :
  pick (sq_requests s) = Ok c -> sq_tables s !! "runs"%string = Some rows -> id < 2 ^ 63 ->
  (get_run pick id s).2 =
  last_row read_spam_run spam_run_of_row (filter (fun r => eq_int (cell r "id") id = true) rows).
Proof.
  intros Hc Hr Hid%to_sql_u64_small. unfold get_run. by sql_run.
Qed.

Lemma insert_run_ok c s s' id run :
  pick (sq_requests s) = Ok c -> pick (S (sq_requests s)) = Ok c ->
  insert_run pick fk run s = (s', Ok id) ->
  exists rows, sq_tables s !! "runs"%string = Some rows /\ id = next_id rows /\
    sq_tables s' = <["runs"%string := rows ++ [{| row_id := id;
      row_cols := stored "runs" (run_columns run) |}]]> (sq_tables s).
Proof.
  intros Hc1 Hc2 Hi. unfold insert_run in Hi. inv_sql.
  repeat match goal with Hx : to_sql_u64 _ = Ok _ |- _ => apply to_sql_u64_inv in Hx as [-> _] end.
  change (sq_requests (inserted _ _ _ _ _ (count_request s))) with (S (sq_requests s)) in *.
  repeat match goal with
  | Hx : pick _ = Ok ?x, Hy : pick _ = Ok c |- _ => assert (x = c) as -> by congruence; clear Hx
  end.
  rewrite last_inserted in *.
  match goal with Hx : get_u64 _ = Ok _ |- _ => apply get_u64_inv in Hx as -> end.
  eexists. by split.
Qed.

(** The id a new run is given is fresh, and from then on, whatever is
    written later, the run is read back under it as it was requested: its
    timestamp and duration survive their text.  The insertion and the question
    for the new id have to meet the same connection of the pool. *)
Theorem run_roundtrip (s s' : SqliteDb) (run : SpamRunRequest) (id : Z) (c : nat)
  (Hwf : tables_wf (sq_tables s)) (Hfits : request_fits run)
  (Hinsert : pick (sq_requests s) = Ok c) (Hid : pick (S (sq_requests s)) = Ok c)
  (H : insert_run pick fk run s = (s', Ok id)) :
  has_id (sq_tables s) "runs" id = false /\
  forall later c', tables_wf (sq_tables later) ->
    tables_grow (sq_tables s') (sq_tables later) ->
    pick (sq_requests later) = Ok c' -> id < 2 ^ 63 ->
    (get_run pick id later).2 = Ok (Some (run_of_request id run)).
Proof.
  apply insert_run_ok with (c := c) in H as (rows & Hr & -> & Ht); [|done..].
  pose proof (wf_ids _ Hwf _ _ Hr) as Hids. rewrite (next_id_upto _ Hids) in *. split.
  - unfold has_id. rewrite Hr, Hids. apply bool_decide_eq_false.
    rewrite elem_of_ids_upto. lia.
  - intros later c' Hwf' Hg Hc Hlt.
    destruct (Hg "runs"%string _ ltac:(rewrite Ht; apply lookup_insert_eq)) as [new Hl].
    rewrite (get_run_eval _ _ _ c' Hc Hl Hlt).
    set (r := {| row_id := _; row_cols := stored "runs" (run_columns run) |}) in *.
    rewrite (filter_id _ r); [| |set_solver].
    + rewrite last_row_one. unfold r. by rewrite read_inserted_run by (done || lia).
    + rewrite (wf_ids _ Hwf' _ _ Hl). apply ids_upto_NoDup.
Qed.
End runs.

(** ** Named transactions *)

Lemma lower_hex_digit n : 0 <= n < 16 -> lower (hex_digit n) = hex_digit n.
Proof.
  intros Hn. apply Ascii.eqb_eq.
  by apply (hex_digit_all (fun n => Ascii.eqb (lower (hex_digit n)) (hex_digit n))).
Qed.

Lemma to_lowercase_hex n v : to_lowercase (hex_digits n v) = hex_digits n v.
Proof.
  induction n as [|n IH]; cbn [hex_digits to_lowercase]; [done|].
  rewrite IH, lower_hex_digit; [done|]. by apply Z.mod_pos_bound.
Qed.

Lemma to_lowercase_hash h : to_lowercase (hash_to_string h) = hash_to_string h.
Proof.
  unfold hash_to_string. cbn [to_lowercase String.append]. by rewrite to_lowercase_hex.
Qed.

Lemma hex_digit_not_quote n : 0 <= n < 16 -> Ascii.eqb quote (hex_digit n) = false.
Proof.
  intros Hn. apply negb_true_iff.
  by apply (hex_digit_all (fun n => negb (Ascii.eqb quote (hex_digit n)))).
Qed.

Lemma hex_quote_free n v : quote_free (hex_digits n v) = true.
Proof.
  unfold quote_free. induction n as [|n IH]; cbn [hex_digits str_all]; [done|].
  rewrite IH, hex_digit_not_quote; [done|]. by apply Z.mod_pos_bound.
Qed.

Lemma hash_quote_free h : quote_free (hash_to_string h) = true.
Proof. apply (hex_quote_free 64 h). Qed.

Definition named_columns (rpc_url_id : Z) (tx : NamedTx) : list (string * SqlValue) :=
  [("name", SText (nt_name tx)); ("tx_hash", SText (hash_encode_hex (nt_tx_hash tx)));
   ("contract_address",
    SText (match nt_address tx with Some a => address_encode_hex a | None => "" end));
   ("rpc_url_id", SInt rpc_url_id)]%string.

(** The rows of [rpc_urls] of a node. *)
Definition node_rows (rpc_url : string) (genesis_hash : TxHash) (rows : list Row) : list Row :=
  filter (fun r => rpc_url_where (SText rpc_url) (SText (hash_to_string genesis_hash)) r = true) rows.

(** A transaction of that name and node. *)
Definition named_where (name : string) (urls : list Row) (r : Row) : bool :=
  eq_text (cell r "name") name &&
  match urls with u :: _ => eq_int (cell r "rpc_url_id") (row_id u) | [] => false end.

Section named.
Context {X : SqlText} {HX : SqlTextLaws} {F : FromHex} (pick : nat -> outcome string nat).

Lemma get_rpc_url_id_ok fk url hash s s' z :
  quote_free url = true -> get_rpc_url_id pick fk url hash s = (s', Ok z) ->
  exists urls added u rest,
    sq_tables s !! "rpc_urls"%string = Some urls /\
    sq_tables s' !! "rpc_urls"%string = Some (urls ++ added) /\
    (node_rows url hash urls = [] \/ added = []) /\
    (forall r, r ∈ added -> cell r "url" = SText url /\ row_id r = next_id urls) /\
    node_rows url hash (urls ++ added) = u :: rest /\ row_id u = z /\
    (forall name, name <> "rpc_urls"%string -> sq_tables s' !! name = sq_tables s !! name).
Proof.
  intros Hq Hg. unfold get_rpc_url_id in Hg. inv_sql.
  match goal with Hs : select _ _ (sq_tables (count_request s)) = Ok _ |- _ =>
    apply select_ok in Hs as (urls & Hu & ->); cbn in Hu end.
  fold (node_rows url hash urls) in *.
  rewrite to_lowercase_hash in *. repeat match goal with
  | Hx : ok_or _ (read_literal (quoted _)) = Ok _ |- _ =>
      apply ok_or_ok in Hx
  | Hx : read_literal (quoted _) = Some _ |- _ =>
      rewrite read_quoted in Hx by (done || apply hash_quote_free); injection Hx as <-
  end.
  match goal with Hs : select _ _ _ = Ok _ |- _ =>
    apply select_ok in Hs as (urls' & Hu' & ->); cbn in Hu' end.
  change (filter _ urls') with (node_rows url hash urls') in *.
  destruct (node_rows url hash urls') as [|u rest] eqn:Hn; [done|]. cbn in *. simplify_eq.
  destruct (node_rows url hash urls) as [|u0 rest0] eqn:Hn0; inv_sql; cbn in *; simplify_eq.
  - rewrite lookup_insert_eq in Hu'. simplify_eq. eexists urls, [_], _, rest.
    split; [done|]. split; [apply lookup_insert_eq|]. split; [by left|].
    split; [|split; [done|split; [done|]]].
    + by intros r ->%list_elem_of_singleton.
    + intros name Hne. by rewrite lookup_insert_ne.
  - eexists _, [], _, rest. rewrite app_nil_r.
    split; [eassumption|]. split; [eassumption|]. split; [by right|]. split; [set_solver|]. done.
Qed.

Lemma insert_named_loop fk c z txs s s' us rows :
  sq_tables s !! "named_txs"%string = Some rows ->
  stm_mapM (fun named_tx =>
       prepare "named_txs";;
       rpc_url_id ← statement (to_sql_u64 z);
       insert_row fk c "named_txs"
         [("name", SText (nt_name named_tx));
          ("tx_hash", SText (hash_encode_hex (nt_tx_hash named_tx)));
          ("contract_address",
           SText (match nt_address named_tx with Some a => address_encode_hex a | None => "" end));
          ("rpc_url_id", rpc_url_id)]%string) txs s = (s', Ok us) ->
  exists new, sq_tables s' = <["named_txs"%string := rows ++ new]> (sq_tables s) /\
    Forall2 (fun tx r => row_cols r = stored "named_txs" (named_columns z tx)) txs new.
Proof.
  revert s s' us rows. induction txs as [|tx txs IH]; intros s s' us rows Hr Hm.
  - cbn in Hm. inv_sql. exists []. rewrite app_nil_r, insert_id by done. by split.
  - cbn [stm_mapM] in Hm. inv_sql.
    match goal with Hx : to_sql_u64 _ = _ |- _ => apply to_sql_u64_inv in Hx as [-> _] end.
    match goal with Hx : stm_mapM _ _ _ = _ |- _ => eapply IH in Hx as (new & Ht & Hall) end;
      [|by apply lookup_insert_eq].
    cbn in *. simplify_eq. eexists (_ :: new). rewrite Ht, insert_insert_eq, <- app_assoc.
    split; [done|]. by constructor.
Qed.
End named.

Lemma last_latest {R A} (read : Row -> outcome string R) (into : R -> outcome SqliteError A) l :
  last_row read into (latest l) = last_row read into l.
Proof. unfold latest, last_row. by destruct (last l). Qed.

Section named_props.
Context {P : Profile} {D : F64Display} {X : SqlText} {HX : SqlTextLaws} {F : FromHex} {HF : FromHexLaws}.
Context (pick : nat -> outcome string nat) (Hpool : forall n, is_ok (pick n) = true).

Definition find_named (name : string) (urls rows : list Row) : outcome SqliteError (option NamedTx) :=
  last_row read_named_tx (fun '(n, h, a) => named_tx_of_row n h a)
    (filter (fun r => named_where name urls r = true) rows).

Lemma get_named_eval name url hash s urls rows :
  sq_tables s !! "rpc_urls"%string = Some urls -> sq_tables s !! "named_txs"%string = Some rows ->
  (get_named_tx pick name url hash s).2 = find_named name (node_rows url hash urls) rows.
Proof.
  intros Hu Hr. destruct (is_ok_ex _ (Hpool (sq_requests s))) as [c Hc].
  unfold get_named_tx. sql_run. cbn. unfold lift. cbn. rewrite to_lowercase_hash.
  apply last_latest.
Qed.

Lemma node_rows_app url hash l k :
  node_rows url hash (l ++ k) = node_rows url hash l ++ node_rows url hash k.
Proof. apply filter_app. Qed.

Lemma elem_of_node_rows url hash r l :
  r ∈ node_rows url hash l -> r ∈ l /\ cell r "url" = SText url.
Proof.
  unfold node_rows. rewrite list_elem_of_filter. intros [Hw Hr]. split; [done|].
  unfold rpc_url_where in Hw. apply andb_true_iff in Hw as [Hw _].
  destruct (cell r "url"); try done. cbn in Hw. by apply String.eqb_eq in Hw as ->.
Qed.

(** A node added later is not the node of an earlier transaction. *)
Lemma where_stable (t : Tables) name url hash urls added rows r :
  tables_wf t -> t !! "rpc_urls"%string = Some urls -> t !! "named_txs"%string = Some rows ->
  (forall u, u ∈ added -> row_id u = next_id urls) -> r ∈ rows ->
  named_where name (node_rows url hash (urls ++ added)) r =
  named_where name (node_rows url hash urls) r.
Proof.
  intros Hwf Hu Hr Hadd Hin. unfold named_where. f_equal. rewrite node_rows_app.
  destruct (node_rows url hash urls) as [|v vs]; [|done]. cbn.
  destruct (node_rows url hash added) as [|v vs] eqn:Hv; [done|].
  assert (Hva : row_id v = next_id urls).
  { apply Hadd, (elem_of_node_rows url hash). rewrite Hv. left. }
  pose proof (wf_keys _ Hwf _ _ _ Hr Hin) as Hk. unfold fk_holds, has_id in Hk. cbn in Hk.
  rewrite Hu in Hk. cbn. destruct (assoc "rpc_url_id" (row_cols r)) as [|z| |]; try done.
  apply bool_decide_eq_true in Hk.
  rewrite (wf_ids _ Hwf _ _ Hu), elem_of_ids_upto in Hk. cbn. apply Z.eqb_neq.
  rewrite Hva, next_id_upto by by eapply (wf_ids _ Hwf). lia.
Qed.

Definition named_fits (tx : NamedTx) : Prop :=
  0 <= nt_tx_hash tx < 2 ^ 256 /\ forall a, nt_address tx = Some a -> 0 <= a < 2 ^ 160.

Lemma named_cells z tx r :
  row_cols r = stored "named_txs" (named_columns z tx) ->
  cell r "name" = SText (nt_name tx) /\ cell r "rpc_url_id" = SInt z /\
  cell r "tx_hash" = SText (hash_encode_hex (nt_tx_hash tx)) /\
  cell r "contract_address" =
    SText (match nt_address tx with Some a => address_encode_hex a | None => "" end).
Proof. unfold cell. intros ->. done. Qed.

Lemma read_named z tx r :
  named_fits tx -> row_cols r = stored "named_txs" (named_columns z tx) ->
  (x ← map_err ExecuteQuery (read_named_tx r); (fun '(n, h, a) => named_tx_of_row n h a) x) =
  (if nt_address tx then Ok tx else Panic).
Proof.
  intros [Hh Ha] (Hn & _ & Ht & Hc)%named_cells. unfold read_named_tx. rewrite Hn, Ht, Hc. cbn.
  unfold named_tx_of_row. rewrite hash_from_hex_encode by done. cbn.
  destruct tx as [n h [a|]]; cbn in *.
  - by rewrite address_from_hex_encode by auto.
  - by rewrite address_from_hex_empty.
Qed.

(** The rows of the given transactions that a query for a name finds. *)
Lemma find_new z name txs new u rest :
  Forall2 (fun tx r => row_cols r = stored "named_txs" (named_columns z tx)) txs new ->
  row_id u = z ->
  Forall2 (fun tx r => row_cols r = stored "named_txs" (named_columns z tx))
    (filter (fun tx => nt_name tx = name) txs)
    (filter (fun r => named_where name (u :: rest) r = true) new).
Proof.
  intros Hall Hz. eapply Forall2_filter; [|done]. cbn.
  intros tx r (Hn & Hi & _)%named_cells. unfold named_where. rewrite Hn, Hi. cbn.
  rewrite Hz, Z.eqb_refl, andb_true_r. symmetry. apply String.eqb_eq.
Qed.

(** What an insertion of named transactions leaves in the two tables. *)
Record named_inserted (s s' : SqliteDb) (txs : list NamedTx) (url : string) (hash : TxHash)
    (urls added rows new : list Row) (u : Row) (rest : list Row) : Prop := {
  ni_urls : sq_tables s !! "rpc_urls"%string = Some urls;
  ni_rows : sq_tables s !! "named_txs"%string = Some rows;
  ni_urls' : sq_tables s' !! "rpc_urls"%string = Some (urls ++ added);
  ni_rows' : sq_tables s' !! "named_txs"%string = Some (rows ++ new);
  ni_added : forall r, r ∈ added -> row_id r = next_id urls;
  ni_node : node_rows url hash (urls ++ added) = u :: rest;
  ni_new : Forall2 (fun tx r => row_cols r = stored "named_txs" (named_columns (row_id u) tx)) txs new;
}.

Lemma insert_named_ok fk s s' txs url hash :
  is_Some (sq_tables s !! "named_txs"%string) -> quote_free url = true ->
  insert_named_txs pick fk txs url hash s = (s', Ok tt) ->
  exists urls added rows new u rest, named_inserted s s' txs url hash urls added rows new u rest.
Proof.
  intros [rows Hr] Hq Hi. unfold insert_named_txs in Hi.
  apply stm_bind_ok in Hi as (s1 & z & Hg & (s2 & c & [-> _]%get_pool_ok & Hi)%stm_bind_ok).
  apply stm_bind_ok in Hi as (s3 & us & Hm & [-> _]%stm_ret_ok).
  apply (proj1 (transaction_ok _ _ _ _)) in Hm.
  apply get_rpc_url_id_ok in Hg as (urls & added & u & rest & Hu & Hu' & _ & Ha & Hn & <- & Hoth);
    [|done].
  eapply insert_named_loop in Hm as (new & Ht & Hall);
    [|cbn [sq_tables count_request]; rewrite Hoth by done; exact Hr].
  exists urls, added, rows, new, u, rest. split; try done.
  - rewrite Ht, lookup_insert_ne by done. done.
  - rewrite Ht. apply lookup_insert_eq.
  - intros r Hin. by apply Ha.
Qed.

(** Transactions of one node are none of another. *)
Lemma find_other s s' txs url hash urls added rows new u rest name url' hash' :
  named_inserted s s' txs url hash urls added rows new u rest ->
  tables_wf (sq_tables s') -> url' <> url ->
  filter (fun r => named_where name (node_rows url' hash' (urls ++ added)) r = true) new = [].
Proof.
  intros Hni Hwf Hne. apply filter_nil_forall. intros r Hr. unfold named_where.
  apply list_elem_of_lookup in Hr as [k Hk].
  destruct (Forall2_lookup_r _ _ _ _ _ (ni_new _ _ _ _ _ _ _ _ _ _ _ Hni) Hk)
    as (tx & _ & (_ & Hid & _)%named_cells).
  destruct (node_rows url' hash' (urls ++ added)) as [|v vs] eqn:Hv;
    [by rewrite andb_false_r|]. rewrite Hid. cbn [eq_int].
  intros [_ E%Z.eqb_eq]%andb_true_iff. apply Hne.
  destruct (elem_of_node_rows url' hash' v (urls ++ added)) as [Hvin Hvu]; [rewrite Hv; left|].
  destruct (elem_of_node_rows url hash u (urls ++ added)) as [Huin Huu].
  { rewrite (ni_node _ _ _ _ _ _ _ _ _ _ _ Hni). left. }
  enough (u = v) by congruence.
  pose proof (wf_ids _ Hwf _ _ (ni_urls' _ _ _ _ _ _ _ _ _ _ _ Hni)) as Hids.
  apply list_elem_of_lookup in Hvin as [i Hi], Huin as [j Hj].
  assert (i = j); [|congruence].
  apply (NoDup_lookup (row_ids (urls ++ added)) i j (row_id u)).
  - rewrite Hids. apply ids_upto_NoDup.
  - unfold row_ids. by rewrite list_lookup_fmap, Hi, E.
  - unfold row_ids. by rewrite list_lookup_fmap, Hj.
Qed.

(** After named transactions are stored for a node, a lookup on that node
    finds the last one given with the name, and panics when that one has no
    address; a name that was not given, and every other node, keep their
    answers. *)
Theorem named_tx_latest (s s' : SqliteDb) (txs : list NamedTx) (url : string) (hash : TxHash)
  (name : string)
  (Hwf : db_wf s) (Htable : is_Some (sq_tables s !! "named_txs"%string))
  (Hquote : quote_free url = true) (Hfits : Forall named_fits txs)
  (H : insert_named_txs pick true txs url hash s = (s', Ok tt)) :
  (get_named_tx pick name url hash s').2 =
    match last (filter (fun tx => nt_name tx = name) txs) with
    | Some tx => if nt_address tx then Ok (Some tx) else Panic
    | None => (get_named_tx pick name url hash s).2
    end /\
  forall url' hash', url' <> url ->
    (get_named_tx pick name url' hash' s').2 = (get_named_tx pick name url' hash' s).2.
Proof.
  assert (Hwf' : tables_wf (sq_tables s')).
  { destruct (keeps_run_op pick (OpInsertNamedTxs txs url hash) s Hwf) as [[Hw _] _].
    cbn [run_op] in Hw. by rewrite H in Hw. }
  destruct (insert_named_ok _ _ _ _ _ _ Htable Hquote H)
    as (urls & added & rows & new & u & rest & Hni).
  pose proof Hni as [Hu Hr Hu' Hr' Ha Hn Hall].
  assert (Hold : forall url' hash', filter (fun r => named_where name
      (node_rows url' hash' (urls ++ added)) r = true) rows =
    filter (fun r => named_where name (node_rows url' hash' urls) r = true) rows).
  { intros url' hash'. apply filter_ext_in. intros r Hin.
    by rewrite (where_stable _ name url' hash' urls added rows r (proj1 Hwf) Hu Hr Ha Hin). }
  split.
  - rewrite (get_named_eval _ _ _ _ _ _ Hu' Hr'), (get_named_eval _ _ _ _ _ _ Hu Hr).
    unfold find_named. rewrite filter_app, Hold, Hn.
    pose proof (find_new (row_id u) name txs new u rest Hall eq_refl) as Hnew.
    apply Forall2_last in Hnew. unfold last_row. rewrite last_app.
    destruct (last (filter (fun tx => nt_name tx = name) txs)) as [tx|] eqn:Hl;
      inversion Hnew as [? r Htx|]; subst; [|done].
    apply last_Some_elem_of, list_elem_of_filter in Hl as [_ Hl].
    rewrite Forall_forall in Hfits. pose proof (read_named _ _ _ (Hfits _ Hl) Htx) as Hread.
    destruct (read_named_tx r) as [x|e|]; cbn in *; rewrite ?Hread;
      by destruct (nt_address tx).
  - intros url' hash' Hne.
    rewrite (get_named_eval _ _ _ _ _ _ Hu' Hr'), (get_named_eval _ _ _ _ _ _ Hu Hr).
    unfold find_named. rewrite filter_app, Hold.
    rewrite (find_other _ _ _ _ _ _ _ _ _ _ _ name url' hash' Hni) by done.
    by rewrite app_nil_r.
Qed.
End named_props.

(** ** Transactions of a run *)

Definition fits_i64 (z : Z) : Prop := 0 <= z < 2 ^ 63.
Definition plain_text (s : option string) : Prop := forall t, s = Some t -> quote_free t = true.

(** A row whose numbers fit the database's integers, and whose texts can stand
    between quotes as they are. *)
Record run_tx_fits (tx : RunTx) : Prop := {
  rf_hash : 0 <= rt_tx_hash tx < 2 ^ 256;
  rf_start : fits_i64 (rt_start_timestamp_ms tx);
  rf_end : forall z, rt_end_timestamp_ms tx = Some z -> fits_i64 z;
  rf_block : forall z, rt_block_number tx = Some z -> fits_i64 z;
  rf_gas : forall z, rt_gas_used tx = Some z -> fits_i64 z;
  rf_latency : forall z, rt_flashblock_latency_ms tx = Some z -> fits_i64 z;
  rf_index : forall z, rt_flashblock_index tx = Some z -> fits_i64 z;
  rf_kind : plain_text (rt_kind tx);
  rf_error : plain_text (rt_error tx);
}.

Definition opt_int (v : option Z) : SqlValue := match v with Some z => SInt z | None => SNull end.

Definition run_tx_cells (run_id : Z) (tx : RunTx) : list SqlValue :=
  [SInt run_id; SText (hash_encode_hex (rt_tx_hash tx)); SInt (rt_start_timestamp_ms tx);
   opt_int (rt_end_timestamp_ms tx); opt_int (rt_block_number tx); opt_int (rt_gas_used tx);
   to_sql_opt_text (rt_kind tx); to_sql_opt_text (rt_error tx);
   opt_int (rt_flashblock_latency_ms tx); opt_int (rt_flashblock_index tx)].

Lemma dec_literal z : literal_text (dec z).
Proof.
  apply literal_bare. unfold bare_literal. apply andb_true_iff. split.
  - rewrite <- (str_app_nil_r (dec z)). apply first_solid_digits; [apply dec_nonempty|apply dec_digits].
  - eapply str_all_impl; [|apply (dec_digits z)]. intros c Hc.
    destruct (decide (c = quote)) as [->|Hq]; [done|].
    destruct (decide (c = comma)) as [->|Hk]; [done|].
    by rewrite (proj2 (Ascii.eqb_neq quote c)), (proj2 (Ascii.eqb_neq comma c)) by done.
Qed.

Section run_txs.
Context {X : SqlText} {HX : SqlTextLaws} {F : FromHex} {HF : FromHexLaws}.

Lemma opt_u64_literal v :
  (forall z, v = Some z -> fits_i64 z) ->
  literal_text (val_or_null_u64 v) /\ read_literal (val_or_null_u64 v) = Some (opt_int v).
Proof.
  destruct v as [z|]; cbn; intros Hv.
  - split; [apply dec_literal|]. apply read_int. by apply Hv.
  - split; [by apply literal_bare|]. apply read_null.
Qed.

Lemma opt_str_literal v :
  plain_text v ->
  literal_text (val_or_null_str v) /\ read_literal (val_or_null_str v) = Some (to_sql_opt_text v).
Proof.
  destruct v as [t|]; cbn; intros Hv.
  - split; [by apply literal_quoted, Hv|]. by apply read_quoted, Hv.
  - split; [by apply literal_bare|]. apply read_null.
Qed.

Lemma read_run_tx_texts run_id tx :
  fits_i64 run_id -> run_tx_fits tx ->
  Forall literal_text (run_tx_texts run_id tx) /\
  mapM read_literal (run_tx_texts run_id tx) = Some (run_tx_cells run_id tx).
Proof.
  intros Hid [Hh Hs He Hb Hg Hl Hi Hk Hr].
  destruct (opt_u64_literal _ He) as [Le Re], (opt_u64_literal _ Hb) as [Lb Rb],
    (opt_u64_literal _ Hg) as [Lg Rg], (opt_u64_literal _ Hl) as [Ll Rl],
    (opt_u64_literal _ Hi) as [Li Ri], (opt_str_literal _ Hk) as [Lk Rk],
    (opt_str_literal _ Hr) as [Lr Rr].
  split.
  - unfold run_tx_texts. rewrite !Forall_cons, Forall_nil. repeat split; try done;
      try apply dec_literal. by apply literal_quoted, hex_quote_free.
  - cbn [run_tx_texts mapM].
    rewrite !read_int, read_quoted, Re, Rb, Rg, Rk, Rr, Rl, Ri by (done || apply hex_quote_free).
    done.
Qed.

Lemma insert_text_run fk c table columns texts vs s rows :
  sq_tables s !! table = Some rows -> texts <> [] -> Forall literal_text texts ->
  mapM read_literal texts = Some vs -> length vs = length columns ->
  fk_holds (sq_tables s) table (stored table (zip columns vs)) = true ->
  insert_text fk c table columns (String.concat ", " texts) s =
  (inserted fk c table rows (zip columns vs) s, Ok tt).
Proof.
  intros Hr Hne Hall Hvs Hlen Hfk. unfold insert_text.
  erewrite stm_bind_run by by eapply prepare_run.
  erewrite stm_bind_run by (apply statement_run; by rewrite read_values_each, Hvs).
  erewrite stm_bind_run by (apply statement_run; by rewrite Hlen, Nat.eqb_refl).
  apply insert_row_ok. eauto.
Qed.

Lemma opt_int_affinity v : affinity IntegerCol (opt_int v) = opt_int v.
Proof. by destruct v. Qed.

Lemma read_opt_int v : (forall z, v = Some z -> fits_i64 z) -> get_opt get_u64 (opt_int v) = Ok v.
Proof. intros Hv. apply get_opt_u64. intros z Hz. apply (Hv z Hz). Qed.

Lemma read_stored_run_tx run_id tx r :
  run_tx_fits tx -> row_cols r = stored "run_txs" (zip run_tx_columns (run_tx_cells run_id tx)) ->
  (x ← map_err ExecuteQuery (read_run_tx r); run_tx_of_row x) = Ok tx.
Proof.
  intros [Hh Hs He Hb Hg Hl Hi Hk Hr] Hc. unfold read_run_tx, cell. rewrite Hc.
  cbn -[get_u64 to_sql_opt_text affinity get_opt opt_int].
  rewrite !opt_int_affinity, !affinity_opt_text, !get_opt_text, !read_opt_int by done.
  cbn [affinity]. rewrite get_u64_nonneg by apply Hs. cbn. unfold run_tx_of_row. cbn.
  rewrite hash_from_hex_encode by done. by destruct tx.
Qed.

Lemma run_txs_loop fk c run_id txs s rows :
  fits_i64 run_id -> Forall run_tx_fits txs ->
  has_id (sq_tables s) "runs" run_id = true -> sq_tables s !! "run_txs"%string = Some rows ->
  exists s' us new,
    stm_mapM (fun run_tx => insert_text fk c "run_txs" run_tx_columns
        (String.concat ", " (run_tx_texts run_id run_tx))) txs s = (s', Ok us) /\
    sq_tables s' !! "run_txs"%string = Some (rows ++ new) /\
    Forall2 (fun tx r => row_cols r =
      stored "run_txs" (zip run_tx_columns (run_tx_cells run_id tx))) txs new.
Proof.
  intros Hid Hfits. revert s rows.
  induction Hfits as [|tx txs Hf _ IH]; intros s rows Hrun Hr.
  - exists s, [], []. by rewrite app_nil_r.
  - destruct (read_run_tx_texts run_id tx Hid Hf) as [Ht Hvs].
    set (s1 := inserted fk c "run_txs" rows (zip run_tx_columns (run_tx_cells run_id tx)) s).
    destruct (IH s1 (rows ++ [{| row_id := next_id rows; row_cols :=
        stored "run_txs" (zip run_tx_columns (run_tx_cells run_id tx)) |}]))
      as (s' & us & new & Hrest & Hr' & Hall).
    { unfold has_id. cbn. by rewrite lookup_insert_ne. }
    { apply lookup_insert_eq. }
    rewrite <- app_assoc in Hr'. eexists s', (tt :: us), (_ :: new).
    split; [|split; [exact Hr'|by constructor]]. cbn [stm_mapM].
    erewrite stm_bind_run by by apply insert_text_run.
    by erewrite stm_bind_run by exact Hrest.
Qed.

Lemma collect_stored run_id txs new :
  Forall run_tx_fits txs ->
  Forall2 (fun tx r => row_cols r =
    stored "run_txs" (zip run_tx_columns (run_tx_cells run_id tx))) txs new ->
  collect_rows read_run_tx run_tx_of_row new = Ok txs.
Proof.
  intros Hfits Hall. unfold collect_rows. apply mapM_ok.
  induction Hall as [|tx r txs new Hr _ IH]; [constructor|].
  apply Forall_cons in Hfits as [Hf Hfits]. constructor; [|by apply IH].
  by eapply read_stored_run_tx.
Qed.

Lemma collect_rows_app {R A} (read : Row -> outcome string R) (into : R -> outcome SqliteError A)
    l k ys :
  collect_rows read into k = Ok ys ->
  collect_rows read into (l ++ k) = (fun xs => xs ++ ys) <$> collect_rows read into l.
Proof.
  intros Hk. unfold collect_rows in *. induction l as [|r l IH]; cbn; [by rewrite Hk|].
  rewrite IH. destruct (read r) as [x|e|]; cbn; [|done..]. destruct (into x); cbn; [|done..].
  by destruct (mapM _ l).
Qed.

Lemma filter_all run_id txs new :
  Forall2 (fun tx r => row_cols r =
    stored "run_txs" (zip run_tx_columns (run_tx_cells run_id tx))) txs new ->
  filter (fun r => eq_int (cell r "run_id") run_id = true) new = new.
Proof.
  induction 1 as [|tx r txs new Hr _ IH]; [done|]. rewrite filter_cons, IH, decide_True; [done|].
  unfold cell. rewrite Hr. apply Z.eqb_refl.
Qed.

Lemma filter_none run_id other txs new :
  other <> run_id ->
  Forall2 (fun tx r => row_cols r =
    stored "run_txs" (zip run_tx_columns (run_tx_cells run_id tx))) txs new ->
  filter (fun r => eq_int (cell r "run_id") other = true) new = [].
Proof.
  intros Hne. induction 1 as [|tx r txs new Hr _ IH]; [done|]. rewrite filter_cons, IH, decide_False; [done|].
  unfold cell. rewrite Hr. cbn. destruct (Z.eqb_spec run_id other); congruence.
Qed.

Lemma get_run_txs_eval pick run_id s rows c :
  pick (sq_requests s) = Ok c -> run_id < 2 ^ 63 -> sq_tables s !! "run_txs"%string = Some rows ->
  (get_run_txs pick run_id s).2 = collect_rows read_run_tx run_tx_of_row
    (filter (fun r => eq_int (cell r "run_id") run_id = true) rows).
Proof. intros Hc Hid%to_sql_u64_small Hr. unfold get_run_txs. by sql_run. Qed.

(** C37: The transactions of a run are stored all or not at all.  When the pool
    answers, the run exists, the numbers fit SQLite's integers and no text holds a
    quote, they are inserted and read back after the earlier ones of the run, in
    order and each as it was given, and the transactions of every other run are read
    as before; when an insertion fails, for whatever reason and from whatever state,
    no table has changed. *)
Theorem run_txs_stored (pick : nat -> outcome string nat) (fk : bool) (s : SqliteDb)
  (run_id : Z) (txs : list RunTx) (rows : list Row)
  (Hpool : forall n, is_ok (pick n) = true)
  (Hid : fits_i64 run_id) (Hrun : has_id (sq_tables s) "runs" run_id = true)
  (Htable : sq_tables s !! "run_txs"%string = Some rows) (Hfits : Forall run_tx_fits txs) :
  (exists s', insert_run_txs pick fk run_id txs s = (s', Ok tt) /\
     (get_run_txs pick run_id s').2 = (fun old => old ++ txs) <$> (get_run_txs pick run_id s).2 /\
     forall other, other <> run_id -> other < 2 ^ 63 ->
       (get_run_txs pick other s').2 = (get_run_txs pick other s).2) /\
  forall pick' run_id' txs' s', is_ok (insert_run_txs pick' fk run_id' txs' s').2 = false ->
    sq_tables (insert_run_txs pick' fk run_id' txs' s').1 = sq_tables s'.
Proof.
  split.
  - destruct (is_ok_ex _ (Hpool (sq_requests s))) as [c Hc].
    destruct (run_txs_loop fk c run_id txs (count_request s) rows Hid Hfits Hrun Htable)
      as (s' & us & new & Hm & Hr' & Hall).
    destruct (is_ok_ex _ (Hpool (sq_requests s'))) as [c' Hc'].
    exists s'. split_and!.
    + unfold insert_run_txs. erewrite stm_bind_run by by apply get_pool_run.
      erewrite stm_bind_run by by apply (proj2 (transaction_ok _ _ _ _)). done.
    + rewrite (get_run_txs_eval _ _ _ _ _ Hc' (proj2 Hid) Hr'),
        (get_run_txs_eval _ _ _ _ _ Hc (proj2 Hid) Htable), filter_app.
      apply collect_rows_app. rewrite (filter_all run_id txs new Hall).
      by apply (collect_stored run_id).
    + intros other Hne Ho.
      rewrite (get_run_txs_eval _ _ _ _ _ Hc' Ho Hr'), (get_run_txs_eval _ _ _ _ _ Hc Ho Htable).
      by rewrite filter_app, (filter_none run_id other txs new Hne Hall), app_nil_r.
  - intros pick' run_id' txs' s' Hf. unfold insert_run_txs in *. unfold mbind, stm_bind in *.
    unfold get_pool, mbind, stm_bind, gets, modify, lift in *. cbn in *.
    destruct (pick' (sq_requests s')) as [c|e|]; cbn in *; [|done..].
    match type of Hf with context [transaction ?m ?s0] =>
      pose proof (transaction_failed m s0) as Ht; destruct (transaction m s0) as [s1 [u|e|]] end;
      cbn in *; [done|by apply Ht..].
Qed.
End run_txs.

(** ** Replay reports *)

Definition report_columns (r : ReplayReportRequest) : list (string * SqlValue) :=
  [("rpc_url_id", SInt (rq_rpc_url_id r)); ("gas_per_second", SInt (rq_gas_per_second r));
   ("gas_used", SInt (rq_gas_used r))]%string.

Section replay.
Context {P : Profile} {D : F64Display} {X : SqlText} {F : FromHex} (pick : nat -> outcome string nat) (fk : bool).

Lemma insert_replay_ok s s' report rep :
  insert_replay_report pick fk report s = (s', Ok rep) ->
  exists rows, sq_tables s !! "replay_reports"%string = Some rows /\
    arith (E := SqliteError) 64 (Z.of_nat (length rows) + 1) = Ok (rp_id rep) /\
    rp_req rep = report /\
    sq_tables s' = <["replay_reports"%string := rows ++ [{| row_id := next_id rows;
      row_cols := stored "replay_reports" (report_columns report) |}]]> (sq_tables s).
Proof.
  unfold insert_replay_report, num_replay_reports, count_rows. intros Hi. inv_sql.
  repeat match goal with Hx : to_sql_u64 _ = Ok _ |- _ => apply to_sql_u64_inv in Hx as [-> _] end.
  match goal with Hs : select _ _ _ = Ok _ |- _ => apply select_ok in Hs as (rows & Hr & ->) end.
  cbn in *. simplify_eq. rewrite filter_true in *. exists rows. done.
Qed.

(** The id a replay report is given, one more than the number of reports, is
    the id of its row: from then on the report is read back under it. *)
Theorem replay_report_roundtrip (s s' : SqliteDb) (report : ReplayReportRequest) (rep : ReplayReport)
  (Hwf : tables_wf (sq_tables s))
  (Hfits : 0 <= rq_rpc_url_id report /\ 0 <= rq_gas_per_second report /\ 0 <= rq_gas_used report)
  (Hsmall : forall rows, sq_tables s !! "replay_reports"%string = Some rows ->
     Z.of_nat (length rows) + 1 < 2 ^ 63)
  (H : insert_replay_report pick fk report s = (s', Ok rep)) :
  rp_req rep = report /\
  forall later c, tables_wf (sq_tables later) ->
    tables_grow (sq_tables s') (sq_tables later) -> pick (sq_requests later) = Ok c ->
    (get_replay_report pick (rp_id rep) later).2 = Ok rep.
Proof.
  apply insert_replay_ok in H as (rows & Hr & Hid & Hreq & Ht). split; [done|].
  specialize (Hsmall _ Hr). rewrite arith_in in Hid by lia. injection Hid as Hid.
  rewrite next_id_upto in Ht by by eapply (wf_ids _ Hwf).
  intros later c Hwf' Hg Hc.
  destruct (Hg "replay_reports"%string _ ltac:(rewrite Ht; apply lookup_insert_eq)) as [new Hl].
  unfold get_replay_report. rewrite <- Hid. pose proof (to_sql_u64_small _ Hsmall) as Hsql.
  sql_run. set (r := {| row_id := _; row_cols := stored _ (report_columns report) |}) in *.
  rewrite (filter_id _ r); [| |set_solver].
  - rewrite last_row_one. destruct Hfits as (H1 & H2 & H3). unfold r, read_replay.
    cbn -[get_u64 String.append]. rewrite !get_u64_nonneg by done. cbn -[String.append].
    destruct rep as [rid req], report. cbn in *. by subst.
  - rewrite (wf_ids _ Hwf' _ _ Hl). apply ids_upto_NoDup.
Qed.
End replay.

(** ** An instance of the hexadecimal forms *)

Definition hex_value (c : ascii) : option Z :=
  let n := Z.of_nat (nat_of_ascii c) in
  if (48 <=? n) && (n <=? 57) then Some (n - 48)
  else if (97 <=? n) && (n <=? 102) then Some (n - 87)
  else if (65 <=? n) && (n <=? 70) then Some (n - 55)
  else None.

Fixpoint read_hex (acc : Z) (s : string) : option Z :=
  match s with
  | EmptyString => Some acc
  | String c s => v ← hex_value c; read_hex (acc * 16 + v) s
  end.

(** Exactly [n] digits, after an optional prefix. *)
Definition fixed_from_hex (n : nat) (s : string) : option Z :=
  let s := default s (strip_prefix "0x" s) in
  if (String.length s =? n)%nat then read_hex 0 s else None.

#[export] Instance toy_from_hex : FromHex :=
  {| hash_from_hex := fixed_from_hex 64; address_from_hex := fixed_from_hex 40 |}.

Lemma hex_value_digit n : 0 <= n < 16 -> hex_value (hex_digit n) = Some n.
Proof.
  intros Hn. pose proof (hex_digit_all (fun n => bool_decide (hex_value (hex_digit n) = Some n)) n
    eq_refl Hn) as Hv. by apply bool_decide_eq_true_1 in Hv.
Qed.

Lemma read_hex_digits n v acc :
  read_hex acc (hex_digits n v) = Some (acc * 16 ^ Z.of_nat n + v mod 16 ^ Z.of_nat n).
Proof.
  revert acc. induction n as [|n IH]; intros acc.
  - cbn. f_equal. rewrite Z.mod_1_r. lia.
  - cbn [hex_digits read_hex]. rewrite hex_value_digit by by apply Z.mod_pos_bound.
    cbn [mbind option_bind]. rewrite IH. f_equal.
    rewrite Nat2Z.inj_succ, Z.pow_succ_r by lia.
    rewrite (Z.mul_comm 16), Z.rem_mul_r by lia. lia.
Qed.

Lemma hex_no_prefix n v : strip_prefix "0x" (hex_digits n v) = None.
Proof.
  destruct n as [|[|n]]; [done|..]; cbn [hex_digits]; unfold strip_prefix, starts_with.
  - cbn [String.prefix]. destruct (ascii_dec _ _); done.
  - cbn [String.prefix]. destruct (ascii_dec _ _) as [_|]; [|done].
    destruct (ascii_dec "x" _) as [E|]; [|done].
    assert (Hx : hex_value "x" = None) by done. rewrite E, hex_value_digit in Hx; [done|].
    by apply Z.mod_pos_bound.
Qed.

Lemma fixed_from_hex_digits n v : 0 <= v < 16 ^ Z.of_nat n -> fixed_from_hex n (hex_digits n v) = Some v.
Proof.
  intros Hv. unfold fixed_from_hex. rewrite hex_no_prefix. cbn [default].
  by rewrite hex_digits_length, Nat.eqb_refl, read_hex_digits, Z.mod_small.
Qed.

#[export] Instance toy_from_hex_laws : FromHexLaws.
Proof.
  split.
  - done.
  - intros h Hh. by apply (fixed_from_hex_digits 64).
  - intros a Ha. by apply (fixed_from_hex_digits 40).
Qed.

(** ** Witnesses *)

Module SqliteWitness.
Local Instance debug : Profile := true.
Local Instance shown : F64Display := fun _ => "1"%string.

(** A pool whose requests are all answered by the one connection. *)
Definition one_conn (n : nat) : outcome string nat := Ok 0%nat.

Definition request : SpamRunRequest :=
  {| rr_timestamp := 100; rr_tx_count := 20; rr_scenario_name := "test"; rr_campaign_id := None;
     rr_campaign_name := Some "cmp"%string; rr_stage_name := None;
     rr_rpc_url := "http://test:8545"; rr_txs_per_duration := 10; rr_duration := Seconds 10;
     rr_pending_timeout_secs := 12 |}.
Definition sample_tx (h : Z) (error : option string) : RunTx :=
  {| rt_tx_hash := h; rt_start_timestamp_ms := 100000; rt_end_timestamp_ms := Some 200000;
     rt_block_number := Some 1; rt_gas_used := Some 100; rt_kind := Some "test"%string;
     rt_error := error; rt_flashblock_latency_ms := None; rt_flashblock_index := None |}.
Definition report : ReplayReportRequest :=
  {| rq_rpc_url_id := 1; rq_gas_per_second := 420000000; rq_gas_used := 420000000000 |}.
Definition url : string := "http://test.url:8545".

(** The tables exist, and one run is stored. *)
Definition ready : SqliteDb := run_ops one_conn true [OpCreateTables; OpInsertRun request] empty_db.

Lemma ready_wf : db_wf ready.
Proof.
  assert (H0 : db_wf empty_db) by by split; [split|]; intros ?.
  unfold ready, run_ops. cbn [fold_left]. by apply keeps_run_op, keeps_run_op.
Qed.

Definition after_run : SqliteDb := (insert_run one_conn true request ready).1.

Lemma run_roundtrip_witness :
  (get_run one_conn 2 after_run).2 = Ok (Some (run_of_request 2 request)).
Proof.
  destruct (run_roundtrip one_conn true ready after_run request 2 0 (proj1 ready_wf)) as [_ H].
  - unfold request_fits. cbn. lia.
  - reflexivity.
  - reflexivity.
  - vm_compute. reflexivity.
  - apply (H after_run 0%nat); [|reflexivity|reflexivity|lia].
    apply (keeps_run_op one_conn (OpInsertRun request) ready ready_wf).
Defined.

(** The second request of the pool may meet a connection that has inserted
    nothing: the id returned for the run is then 0, which names no run. *)
Definition two_conns (n : nat) : outcome string nat := Ok (n mod 2)%nat.
Lemma insert_run_other_connection :
  let s := run_ops two_conns true [OpCreateTables] empty_db in
  let r := insert_run two_conns true request s in
  r.2 = Ok 0 /\ (get_run two_conns 0 r.1).2 = Ok None.
Proof. vm_compute. done. Qed.

Definition txs : list NamedTx :=
  [NamedTx_new "a" 1 (Some 7); NamedTx_new "b" 2 (Some 8); NamedTx_new "a" 3 (Some 9)].
Definition after_named : SqliteDb := (insert_named_txs one_conn true txs url 5 ready).1.

Lemma named_tx_latest_witness :
  (get_named_tx one_conn "a" url 5 after_named).2 = Ok (Some (NamedTx_new "a" 3 (Some 9))).
Proof.
  destruct (named_tx_latest one_conn (fun _ => eq_refl) ready after_named txs url 5 "a" ready_wf)
    as [H _].
  - exists []. vm_compute. reflexivity.
  - reflexivity.
  - unfold txs, named_fits. rewrite !Forall_cons, Forall_nil. cbn. naive_solver lia.
  - vm_compute. reflexivity.
  - exact H.
Defined.

(** A stored transaction without an address, as those of setup calls are, makes
    a lookup of its name panic. *)
Lemma named_without_address_panics :
  let s := (insert_named_txs one_conn true [NamedTx_new "call" 1 None] url 5 ready).1 in
  (get_named_tx one_conn "call" url 5 s).2 = Panic.
Proof. vm_compute. done. Qed.

Lemma sample_fits h error :
  0 <= h < 2 ^ 256 -> plain_text error -> run_tx_fits (sample_tx h error).
Proof.
  intros Hh He. split; cbn; unfold fits_i64; try done; try naive_solver lia.
  intros t [= <-]. reflexivity.
Qed.

Lemma run_txs_stored_witness :
  exists s', (get_run_txs one_conn 1 s').2 =
    Ok [sample_tx 1 None; sample_tx 2 (Some "reverted"%string)].
Proof.
  destruct (run_txs_stored one_conn true ready 1
    [sample_tx 1 None; sample_tx 2 (Some "reverted"%string)] []) as [(s' & _ & Hget & _) _].
  - intros n. reflexivity.
  - unfold fits_i64. lia.
  - vm_compute. reflexivity.
  - vm_compute. reflexivity.
  - rewrite !Forall_cons, Forall_nil. split; [|split; [|done]]; apply sample_fits; try lia;
      intros t Ht; [done|]. injection Ht as <-. reflexivity.
  - exists s'. rewrite Hget.
    assert (E : (get_run_txs one_conn 1 ready).2 = Ok []) by (vm_compute; reflexivity).
    rewrite E. reflexivity.
Defined.

(** A quote in the error of one transaction: the statement is refused, and the
    rows of all the others are lost with it. *)
Lemma quoted_error_loses_all :
  let r := insert_run_txs one_conn true 1 [sample_tx 1 None; sample_tx 2 (Some "can't"%string)] ready in
  is_ok r.2 = false /\ (get_run_txs one_conn 1 r.1).2 = Ok [].
Proof. vm_compute. done. Qed.

Definition after_report : SqliteDb := (insert_replay_report one_conn true report ready).1.

Lemma replay_report_roundtrip_witness :
  (get_replay_report one_conn 1 after_report).2 = Ok (ReplayReport_new 1 report).
Proof.
  destruct (replay_report_roundtrip one_conn true ready after_report report
              (ReplayReport_new 1 report) (proj1 ready_wf)) as [_ H].
  - cbn. lia.
  - intros rows Hr. assert (E : sq_tables ready !! "replay_reports"%string = Some []) by
      (vm_compute; reflexivity). rewrite E in Hr. injection Hr as <-. cbn. lia.
  - vm_compute. reflexivity.
  - apply (H after_report 0%nat); [|reflexivity|reflexivity].
    apply (keeps_run_op one_conn (OpInsertReplayReport report) ready ready_wf).
Defined.
End SqliteWitness.
