(* ===== verification/SqliteRefine.v ===== *)
(** * The SQLite database refines the abstract one

    [tables_of] gives the tables a [Store] stands for.  Each method of the SQLite
    database, on the tables of a store, answers as the store does and leaves the
    tables of the store's next state: [call_refines].  Each call is served by one
    connection of the pool, and its values are in the range the database can hold
    ([call_fits]). *)

From Stdlib Require Import Strings.Ascii Strings.String.
From S2P Require Import Prelude Text F64 Alloy Db DbStore Sql SqliteDb.

(** ** The tables of a store *)

Definition rows_of {A} (table : string) (columns : A -> list (string * SqlValue)) (l : list A) : list Row :=
  (fun ix : Z * A => {| row_id := ix.1; row_cols := stored table (columns ix.2) |}) <$> numbered l.

Section tables.
Context {D : F64Display} {X : SqlText}.

Definition node_columns (n : string * TxHash) : list (string * SqlValue) :=
  [("url", SText n.1); ("genesis_hash", SText (hash_to_string n.2))]%string.
Definition tx_columns (x : Z * RunTx) : list (string * SqlValue) :=
  zip run_tx_columns (run_tx_cells x.1 x.2).
(** The bound of a bucket is what its text reads as. *)
Definition latency_cells (x : Z * (string * Bucket)) : list SqlValue :=
  [SInt x.1; default SNull (read_literal (f64_display (upper_bound x.2.2)));
   SInt (cumulative_count x.2.2); SText x.2.1].
Definition bucket_columns (x : Z * (string * Bucket)) : list (string * SqlValue) :=
  zip latency_columns (latency_cells x).
Definition named_row_columns (x : Z * NamedTx) : list (string * SqlValue) := named_columns x.1 x.2.

Definition tables_of (a : Store) : Tables :=
  <["runs" := rows_of "runs" run_columns (st_runs a)]>
  (<["rpc_urls" := rows_of "rpc_urls" node_columns (st_nodes a)]>
  (<["named_txs" := rows_of "named_txs" named_row_columns (st_named a)]>
  (<["run_txs" := rows_of "run_txs" tx_columns (st_txs a)]>
  (<["latency" := rows_of "latency" bucket_columns (st_latency a)]>
  (<["replay_reports" := rows_of "replay_reports" report_columns (st_reports a)]> ∅)))))%string.
End tables.

Lemma rows_of_length {A} t (f : A -> list (string * SqlValue)) l : length (rows_of t f l) = length l.
Proof. unfold rows_of. by rewrite length_fmap, numbered_length. Qed.

Lemma rows_of_ids {A} t (f : A -> list (string * SqlValue)) l : row_ids (rows_of t f l) = ids_upto (length l).
Proof.
  unfold row_ids, rows_of, ids_upto. rewrite <- list_fmap_compose. apply numbered_ids.
Qed.

Lemma next_id_rows_of {A} t (f : A -> list (string * SqlValue)) l :
  next_id (rows_of t f l) = count_of l + 1.
Proof. rewrite next_id_upto; rewrite rows_of_length; [done|apply rows_of_ids]. Qed.

Lemma rows_of_snoc {A} t (f : A -> list (string * SqlValue)) l x :
  rows_of t f l ++ [{| row_id := next_id (rows_of t f l); row_cols := stored t (f x) |}] =
  rows_of t f (l ++ [x]).
Proof. rewrite next_id_rows_of. unfold rows_of. by rewrite numbered_snoc, fmap_app. Qed.

(** A condition on rows as one on values. *)
Lemma filter_rows_of {A} t (f : A -> list (string * SqlValue)) l (p : Row -> bool) (q : Z * A -> bool) :
  (forall ix, ix ∈ numbered l -> p {| row_id := ix.1; row_cols := stored t (f ix.2) |} = q ix) ->
  filter (fun r => p r = true) (rows_of t f l) =
  (fun ix => {| row_id := ix.1; row_cols := stored t (f ix.2) |}) <$> filter (fun ix => q ix = true) (numbered l).
Proof.
  unfold rows_of. induction (numbered l) as [|ix nl IH]; intros Hpq; [done|].
  csimpl. rewrite !filter_cons, Hpq by left. rewrite IH by (intros y Hy; apply Hpq; by right).
  by case_decide.
Qed.

Lemma collect_rows_of {A R B} t (f : A -> list (string * SqlValue)) (nl : list (Z * A))
    (read : Row -> outcome string R) (into : R -> outcome SqliteError B) (g : Z * A -> B) :
  (forall ix, ix ∈ nl ->
     (x ← map_err ExecuteQuery (read {| row_id := ix.1; row_cols := stored t (f ix.2) |}); into x) = Ok (g ix)) ->
  collect_rows read into ((fun ix => {| row_id := ix.1; row_cols := stored t (f ix.2) |}) <$> nl) = Ok (g <$> nl).
Proof.
  intros Hg. unfold collect_rows. apply mapM_ok, Forall2_fmap, Forall_Forall2_diag, Forall_forall.
  exact Hg.
Qed.

Lemma last_row_of {A R B} t (f : A -> list (string * SqlValue)) (nl : list (Z * A))
    (read : Row -> outcome string R) (into : R -> outcome SqliteError B) :
  last_row read into ((fun ix => {| row_id := ix.1; row_cols := stored t (f ix.2) |}) <$> nl) =
  match last nl with
  | None => Ok None
  | Some ix => Some <$> (x ← map_err ExecuteQuery (read {| row_id := ix.1; row_cols := stored t (f ix.2) |}); into x)
  end.
Proof.
  unfold last_row. rewrite fmap_last. destruct (last nl) as [ix|]; [|done]. cbn.
  by destruct (read _).
Qed.

Lemma omap_filter {A B} (q : A -> bool) (g : A -> B) (l : list A) :
  omap (fun x => if q x then Some (g x) else None) l = g <$> filter (fun x => q x = true) l.
Proof.
  induction l as [|x l IH]; [done|]. rewrite filter_cons. cbn [omap list_omap].
  destruct (q x); csimpl; by rewrite <- IH.
Qed.

Lemma filter_snd {A} (q : A -> bool) (l : list A) :
  (filter (fun ix : Z * A => q ix.2 = true) (numbered l)).*2 = filter (fun x => q x = true) l.
Proof.
  rewrite <- (numbered_snd l) at 2. induction (numbered l) as [|ix nl IH]; [done|].
  csimpl. rewrite !filter_cons. case_decide; csimpl; by rewrite IH.
Qed.

Lemma omap_some {A B} (f : A -> option B) (l : list A) :
  omap f (filter (fun x => bool_decide (is_Some (f x)) = true) l) = omap f l.
Proof.
  induction l as [|x l IH]; [done|]. rewrite filter_cons. cbn [omap list_omap].
  destruct (f x) as [y|] eqn:E.
  - rewrite decide_True by done. cbn [omap list_omap]. rewrite E. by f_equal.
  - by rewrite decide_False.
Qed.

Lemma omap_numbered {A B} (f : A -> option B) (l : list A) : omap (fun ix : Z * A => f ix.2) (numbered l) = omap f l.
Proof.
  rewrite <- (numbered_snd l) at 2. induction (numbered l) as [|ix nl IH]; [done|]. cbn. by rewrite IH.
Qed.

(** ** Values the database can hold *)

Section fits.
Context {D : F64Display} {X : SqlText}.

Definition request_stored (r : SpamRunRequest) : Prop :=
  request_fits r /\ rr_tx_count r < 2 ^ 63 /\ rr_txs_per_duration r < 2 ^ 63 /\
  rr_pending_timeout_secs r < 2 ^ 63.
(** The shown bound is a literal that reads as the bound. *)
Definition bucket_fits (b : Bucket) : Prop :=
  fits_i64 (cumulative_count b) /\ literal_text (f64_display (upper_bound b)) /\
  exists v, read_literal (f64_display (upper_bound b)) = Some v /\
    affinity RealCol v = SReal (upper_bound b).
Definition hash_fits (h : TxHash) : Prop := 0 <= h < 2 ^ 256.
Definition node_fits (n : string * TxHash) : Prop := quote_free n.1 = true /\ hash_fits n.2.
Definition report_fits (r : ReplayReportRequest) : Prop :=
  fits_i64 (rq_rpc_url_id r) /\ fits_i64 (rq_gas_per_second r) /\ fits_i64 (rq_gas_used r).

Record store_fits (a : Store) : Prop := {
  sf_runs : Forall request_stored (st_runs a);
  sf_txs : Forall (fun x => fits_i64 x.1 /\ run_tx_fits x.2) (st_txs a);
  sf_latency : Forall (fun x => fits_i64 x.1 /\ bucket_fits x.2.2) (st_latency a);
  sf_nodes : Forall node_fits (st_nodes a);
  sf_named : Forall (fun x => named_fits x.2) (st_named a);
  sf_reports : Forall report_fits (st_reports a);
}.

Definition call_fits (c : DbCall) : Prop :=
  match c with
  | InsertRun r => request_stored r
  | InsertRunTxs id txs => fits_i64 id /\ Forall run_tx_fits txs
  | InsertLatency id metrics =>
      fits_i64 id /\ Forall (fun mb => quote_free mb.1 = true /\ Forall bucket_fits mb.2) metrics
  | InsertNamed txs url h => node_fits (url, h) /\ Forall named_fits txs
  | InsertReplay r => report_fits r
  | RpcUrlId url h => node_fits (url, h)
  | GetRun id | GetRunTxs id | GetReport id | GetLatency id _ => fits_i64 id
  | GetNamed _ _ h => hash_fits h
  | GetNamedByAddress a => 0 <= a < 2 ^ 160
  | _ => True
  end.
End fits.

Section refinement.
Context {P : Profile} {D : F64Display} {X : SqlText} {HX : SqlTextLaws} {F : FromHex} {HF : FromHexLaws}.
(** [serving] are the connections that serve calls: foreign keys are on there.
    One of them, [c], serves the call at hand. *)
Context (fk : bool) (serving : nat -> Prop).
Context (pick : nat -> outcome string nat) (c : nat).
Context (Hserving : serving c) (Hpool : forall n, pick n = Ok c).

(** The database [s] holds what the store [a] holds. *)
Record holds (s : SqliteDb) (a : Store) : Prop := {
  h_tables : sq_tables s = tables_of a;
  h_version : sq_user_version s = DB_VERSION;
  h_keys : forall c, serving c -> cn_foreign_keys (conn_of fk s c) = true;
  h_fits : store_fits a;
}.

Lemma holds_count s a : holds s a -> holds (count_request s) a.
Proof. intros [H1 H2 H3 H4]. by split. Qed.

Lemma holds_inserted s a a' t rows cols :
  holds s a -> store_fits a' ->
  <[t := rows ++ [{| row_id := next_id rows; row_cols := stored t cols |}]]> (tables_of a) = tables_of a' ->
  holds (inserted fk c t rows cols s) a'.
Proof.
  intros [H1 H2 H3 H4] Hf Ht. split; [|done| |done].
  - cbn. by rewrite H1.
  - intros c' Hc'. unfold conn_of. cbn. destruct (decide (c = c')) as [<-|Hne].
    + rewrite lookup_insert_eq. by apply H3.
    + rewrite lookup_insert_ne by done. by apply H3.
Qed.

(** Adding a value adds its row. *)
Ltac table_added :=
  intros; rewrite rows_of_snoc; unfold tables_of;
  cbn [st_runs st_nodes st_named st_txs st_latency st_reports add_run add_node add_named add_txs
       add_latency add_report fmap list_fmap];
  apply map_eq; intros k; rewrite !lookup_insert; repeat case_decide; congruence.

Lemma tables_add_run a r (rows := rows_of "runs" run_columns (st_runs a)) :
  <["runs"%string := rows ++ [{| row_id := next_id rows; row_cols := stored "runs" (run_columns r) |}]]>
    (tables_of a) = tables_of (add_run r a).
Proof. subst rows. table_added. Qed.
Lemma tables_add_node a n (rows := rows_of "rpc_urls" node_columns (st_nodes a)) :
  <["rpc_urls"%string := rows ++ [{| row_id := next_id rows; row_cols := stored "rpc_urls" (node_columns n) |}]]>
    (tables_of a) = tables_of (add_node n a).
Proof. subst rows. table_added. Qed.
Lemma tables_add_named a id x (rows := rows_of "named_txs" named_row_columns (st_named a)) :
  <["named_txs"%string := rows ++ [{| row_id := next_id rows; row_cols := stored "named_txs" (named_columns id x) |}]]>
    (tables_of a) = tables_of (add_named id [x] a).
Proof. subst rows. change (named_columns id x) with (named_row_columns (id, x)). table_added. Qed.
Lemma tables_add_tx a id x (rows := rows_of "run_txs" tx_columns (st_txs a)) :
  <["run_txs"%string := rows ++ [{| row_id := next_id rows; row_cols := stored "run_txs" (tx_columns (id, x)) |}]]>
    (tables_of a) = tables_of (add_txs id [x] a).
Proof. subst rows. table_added. Qed.
Lemma tables_add_latency a id x (rows := rows_of "latency" bucket_columns (st_latency a)) :
  <["latency"%string := rows ++ [{| row_id := next_id rows; row_cols := stored "latency" (bucket_columns (id, x)) |}]]>
    (tables_of a) = tables_of (add_latency id [x] a).
Proof. subst rows. table_added. Qed.
Lemma tables_add_report a r (rows := rows_of "replay_reports" report_columns (st_reports a)) :
  <["replay_reports"%string := rows ++ [{| row_id := next_id rows; row_cols := stored "replay_reports" (report_columns r) |}]]>
    (tables_of a) = tables_of (add_report r a).
Proof. subst rows. table_added. Qed.

Lemma holds_table s a t rows : holds s a -> tables_of a !! t = Some rows -> sq_tables s !! t = Some rows.
Proof. by intros [-> _ _ _]. Qed.

(** ** Reading *)

Lemma get_pool_one s : get_pool pick s = (count_request s, Ok c).
Proof. by apply get_pool_run. Qed.

Lemma eq_id_row {A} t (f : A -> list (string * SqlValue)) id (ix : Z * A) :
  eq_int (cell {| row_id := ix.1; row_cols := stored t (f ix.2) |} "id") id = bool_decide (ix.1 = id).
Proof.
  cbn. apply eq_true_iff_eq. by rewrite Z.eqb_eq, bool_decide_eq_true.
Qed.

Lemma filter_id_rows {A} t (f : A -> list (string * SqlValue)) id (l : list A) :
  filter (fun r => eq_int (cell r "id") id = true) (rows_of t f l) =
  match with_id id l with Some x => [{| row_id := id; row_cols := stored t (f x) |}] | None => [] end.
Proof.
  rewrite (filter_rows_of t f l _ (fun ix => bool_decide (ix.1 = id))) by (intros; apply eq_id_row).
  transitivity ((fun ix => {| row_id := ix.1; row_cols := stored t (f ix.2) |}) <$>
    filter (fun ix : Z * A => ix.1 = id) (numbered l)).
  - f_equal. apply list_filter_iff. intros ix. apply bool_decide_eq_true.
  - rewrite filter_numbered. by destruct (with_id id l).
Qed.

Lemma with_id_elem {A} id (l : list A) x : with_id id l = Some x -> 1 <= id /\ x ∈ l.
Proof.
  unfold with_id. destruct (Z.leb_spec 1 id); [|done]. intros Hx%list_elem_of_lookup_2. done.
Qed.

Lemma read_run_row id r : request_stored r -> 0 <= id ->
  (x ← map_err ExecuteQuery (read_spam_run {| row_id := id; row_cols := stored "runs" (run_columns r) |});
   spam_run_of_row x) = Ok (run_of_request id r).
Proof. intros [H _] Hid. by apply read_inserted_run. Qed.

Lemma get_run_holds s a id : holds s a -> fits_i64 id ->
  (get_run pick id s).2 = Ok (run_of_request id <$> with_id id (st_runs a)).
Proof.
  intros Hs Hid. erewrite get_run_eval; [|apply Hpool|by eapply holds_table|apply Hid].
  rewrite filter_id_rows. destruct (with_id id (st_runs a)) as [r|] eqn:Hr; [|done].
  apply with_id_elem in Hr as [H1 Hr]. rewrite last_row_one, read_run_row; [done| |lia].
  by apply (proj1 (Forall_forall _ _) (sf_runs _ (h_fits _ _ Hs))).
Qed.

Lemma cell_eq_opt_text (v : option string) s : eq_text (to_sql_opt_text v) s = bool_decide (v = Some s).
Proof.
  destruct v as [t|]; cbn; [|done]. apply eq_true_iff_eq.
  rewrite String.eqb_eq, bool_decide_eq_true. split; congruence.
Qed.

Lemma runs_by_campaign_holds s a cid : holds s a ->
  (get_runs_by_campaign pick cid s).2 =
  Ok (omap (fun x : Z * SpamRunRequest =>
      if bool_decide (rr_campaign_id x.2 = Some cid) then Some (run_of_request x.1 x.2) else None)
      (numbered (st_runs a))).
Proof.
  intros Hs. unfold get_runs_by_campaign.
  assert (Ht : sq_tables (count_request s) !! "runs"%string = Some (rows_of "runs" run_columns (st_runs a)))
    by by eapply (holds_table (count_request s)); [apply holds_count|].
  sql_run. unfold lift. cbn [snd].
  rewrite (filter_rows_of "runs" run_columns (st_runs a) _
    (fun ix => bool_decide (rr_campaign_id ix.2 = Some cid))).
  - rewrite omap_filter. apply collect_rows_of. intros ix [_ Hix]%list_elem_of_filter.
    apply elem_of_numbered, with_id_elem in Hix as [H1 Hr]. apply read_run_row; [|lia].
    by apply (proj1 (Forall_forall _ _) (sf_runs _ (h_fits _ _ Hs))).
  - intros ix _. etrans; [|apply cell_eq_opt_text]. f_equal. apply affinity_opt_text.
Qed.

(** The texts of a column, the last of them. *)
Lemma latest_campaign_holds s a : holds s a ->
  (latest_campaign_id pick s).2 = Ok (last (omap rr_campaign_id (st_runs a))).
Proof.
  intros Hs. unfold latest_campaign_id.
  assert (Ht : sq_tables (count_request s) !! "runs"%string = Some (rows_of "runs" run_columns (st_runs a)))
    by by eapply (holds_table (count_request s)); [apply holds_count|].
  sql_run. unfold lift. cbn [snd]. rewrite last_latest.
  rewrite (filter_rows_of "runs" run_columns (st_runs a) _
    (fun ix => bool_decide (is_Some (rr_campaign_id ix.2)))).
  - rewrite last_row_of.
    rewrite <- (omap_numbered rr_campaign_id),
      <- (omap_some (fun ix : Z * SpamRunRequest => rr_campaign_id ix.2)).
    assert (forall ix, ix ∈ filter (fun ix : Z * SpamRunRequest =>
        bool_decide (is_Some (rr_campaign_id ix.2)) = true) (numbered (st_runs a)) ->
        is_Some (rr_campaign_id ix.2)) as Hall.
    { intros ix [H%bool_decide_eq_true _]%list_elem_of_filter. exact H. }
    induction (filter _ (numbered (st_runs a))) as [|ix nl IH] using rev_ind; [done|].
    rewrite omap_app, !last_app. cbn [last omap list_omap].
    destruct (Hall ix ltac:(set_solver)) as [t Ht']. rewrite Ht'. cbn. rewrite Ht'. done.
  - intros ix _. cbn. by destruct (rr_campaign_id ix.2).
Qed.

Lemma url_for_scenario_holds s a name : holds s a ->
  (get_rpc_url_for_scenario pick name s).2 =
  Ok (last (omap (fun r : SpamRunRequest =>
      if String.eqb name (rr_scenario_name r) then Some (rr_rpc_url r) else None) (st_runs a))).
Proof.
  intros Hs. unfold get_rpc_url_for_scenario, sql_ok, query_row.
  erewrite stm_bind_run by apply get_pool_one. unfold mbind at 1, stm_bind, gets, statement, lift. cbn [id].
  unfold select. erewrite holds_table; [|by apply holds_count|reflexivity].
  cbn [ok_or mbind outcome_bind mret outcome_ret].
  rewrite (filter_rows_of "runs" run_columns (st_runs a) _
    (fun ix => String.eqb name (rr_scenario_name ix.2))).
  - rewrite omap_filter, <- (filter_snd (fun r => String.eqb name (rr_scenario_name r))), fmap_last.
    unfold first_row. rewrite rev_alt. change (rev_append ?l []) with (reverse l).
    rewrite head_reverse, !fmap_last. by destruct (last (filter _ (numbered (st_runs a)))) as [ix|].
  - intros ix _. cbn. apply String.eqb_sym.
Qed.

Lemma run_txs_holds s a id : holds s a -> fits_i64 id ->
  (get_run_txs pick id s).2 = Ok (omap (fun x : Z * RunTx => if x.1 =? id then Some x.2 else None) (st_txs a)).
Proof.
  intros Hs Hid. erewrite get_run_txs_eval; [|apply Hpool|apply Hid|by eapply holds_table].
  rewrite (filter_rows_of "run_txs" tx_columns (st_txs a) _ (fun ix => ix.2.1 =? id)).
  - erewrite (collect_rows_of _ _ _ _ _ (fun ix : Z * (Z * RunTx) => ix.2.2)).
    + f_equal. rewrite (omap_filter (fun x : Z * RunTx => x.1 =? id) snd),
        <- (filter_snd (fun x : Z * RunTx => x.1 =? id)), <- list_fmap_compose. done.
    + intros [z [i tx]] [_ Hix]%list_elem_of_filter. apply elem_of_numbered, with_id_elem in Hix as [_ Hr].
      apply (read_stored_run_tx i); [|done].
      by apply (proj1 (Forall_forall _ _) (sf_txs _ (h_fits _ _ Hs)) (i, tx)).
  - intros [z [i tx]] _. reflexivity.
Qed.

Lemma read_latency_row z x : fits_i64 x.1 -> bucket_fits x.2.2 ->
  (y ← map_err ExecuteQuery
     ((fun r => upper_bound ← get_real (cell r "upper_bound_secs");
                count ← get_u64 (cell r "count"); mret (upper_bound, count))
        {| row_id := z; row_cols := stored "latency" (bucket_columns x) |});
   (fun b => mret (Bucket_of b)) y) = Ok x.2.2.
Proof.
  intros Hx ([Hc _] & _ & v & Hv & Ha).
  change (cell _ "upper_bound_secs") with
    (affinity RealCol (default SNull (read_literal (f64_display (upper_bound x.2.2))))).
  change (cell _ "count") with (SInt (cumulative_count x.2.2)).
  rewrite Hv. change (default SNull (Some v)) with v. rewrite Ha, get_u64_nonneg by done. cbn. by destruct x as [? [? []]].
Qed.

Lemma latency_holds s a id method : holds s a -> fits_i64 id ->
  (get_latency_metrics pick id method s).2 =
  Ok (omap (fun x : Z * (string * Bucket) =>
        if (x.1 =? id) && String.eqb x.2.1 method then Some x.2.2 else None) (st_latency a)).
Proof.
  intros Hs Hid. unfold get_latency_metrics.
  assert (Ht : sq_tables (count_request s) !! "latency"%string =
    Some (rows_of "latency" bucket_columns (st_latency a)))
    by by eapply (holds_table (count_request s)); [apply holds_count|].
  pose proof (to_sql_u64_small id (proj2 Hid)) as Hsql. sql_run. unfold lift. cbn [snd].
  rewrite (filter_rows_of "latency" bucket_columns (st_latency a) _
    (fun ix => (ix.2.1 =? id) && String.eqb ix.2.2.1 method)).
  - erewrite (collect_rows_of _ _ _ _ _ (fun ix : Z * (Z * (string * Bucket)) => ix.2.2.2)).
    + f_equal. rewrite (omap_filter (fun x : Z * (string * Bucket) => (x.1 =? id) && String.eqb x.2.1 method)
        (fun x => x.2.2)),
        <- (filter_snd (fun x : Z * (string * Bucket) => (x.1 =? id) && String.eqb x.2.1 method)),
        <- list_fmap_compose. done.
    + intros ix [_ Hix]%list_elem_of_filter. apply elem_of_numbered, with_id_elem in Hix as [_ Hr].
      apply (proj1 (Forall_forall _ _) (sf_latency _ (h_fits _ _ Hs))) in Hr as [H1 H2].
      by apply read_latency_row.
  - intros [z [i [m b]]] _. reflexivity.
Qed.

Lemma count_holds {A} s a t (f : A -> list (string * SqlValue)) l :
  holds s a -> tables_of a !! t = Some (rows_of t f l) -> (count_rows pick t s).2 = Ok (count_of l).
Proof.
  intros Hs Ht. unfold count_rows. erewrite query_row_run; [|apply Hpool|].
  - cbn [snd]. reflexivity.
  - unfold select. erewrite holds_table; [|by apply holds_count|exact Ht]. cbn.
    rewrite filter_true. by rewrite rows_of_length.
Qed.

Lemma version_holds s a : holds s a -> (version pick s).2 = Ok 7.
Proof.
  intros Hs. unfold version, sql_ok, query_row.
  rewrite (stm_bind_run _ _ s (count_request s) (Some 7)).
  - reflexivity.
  - erewrite stm_bind_run by apply get_pool_one. unfold mbind, stm_bind, gets, statement, lift. cbn.
    by rewrite (h_version _ _ Hs).
Qed.

Lemma report_holds s a id : holds s a -> fits_i64 id ->
  agree eq (map_err into_db_error (get_replay_report pick id s).2)
    (match with_id id (st_reports a) with
     | Some r => Ok (ReplayReport_new id r)
     | None => Err (NotFound "no such report")
     end).
Proof.
  intros Hs Hid. unfold get_replay_report.
  assert (Ht : sq_tables (count_request s) !! "replay_reports"%string =
    Some (rows_of "replay_reports" report_columns (st_reports a)))
    by by eapply (holds_table (count_request s)); [apply holds_count|].
  pose proof (to_sql_u64_small id (proj2 Hid)) as Hsql. sql_run.
  cbn beta. rewrite filter_id_rows. destruct (with_id id (st_reports a)) as [r|] eqn:Hr.
  - apply with_id_elem in Hr as [_ Hr].
    apply (proj1 (Forall_forall _ _) (sf_reports _ (h_fits _ _ Hs))) in Hr as ([H1 _] & [H2 _] & [H3 _]).
    unfold mbind at 1, stm_bind, lift. rewrite last_row_one. unfold read_replay.
    cbn -[get_u64 String.append]. rewrite !get_u64_nonneg by done. cbn. by destruct r.
  - cbn -[String.append]. done.
Qed.

(** ** Nodes and named transactions *)

Lemma head_numbered_from {A} `{EqDecision A} (n : A) (l : list A) k :
  head (filter (fun ix => bool_decide (ix.2 = n) = true) (imap (fun i x => (Z.of_nat (i + k) + 1, x)) l)) =
  (fun x : nat * A => (Z.of_nat (x.1 + k) + 1, n)) <$> list_find (fun m => m = n) l.
Proof.
  revert k. induction l as [|x l IH]; intros k; [done|].
  rewrite imap_cons, filter_cons. cbn [list_find snd]. destruct (decide (x = n)) as [->|Hne].
  - rewrite decide_True by by apply bool_decide_eq_true. done.
  - rewrite decide_False by by rewrite bool_decide_eq_true.
    transitivity (head (filter (fun ix : Z * A => bool_decide (ix.2 = n) = true)
      (imap (fun i x => (Z.of_nat (i + S k) + 1, x)) l))).
    { f_equal. f_equal. apply imap_ext. intros i y _. cbn. f_equal. lia. }
    rewrite IH. destruct (list_find _ l) as [[i y]|]; cbn; [|done]. do 2 f_equal. lia.
Qed.

Lemma head_node a n :
  head (filter (fun ix => bool_decide (ix.2 = n) = true) (numbered (st_nodes a))) =
  (fun id => (id, n)) <$> node_id n a.
Proof.
  transitivity (head (filter (fun ix : Z * (string * TxHash) => bool_decide (ix.2 = n) = true)
    (imap (fun i x => (Z.of_nat (i + 0) + 1, x)) (st_nodes a)))).
  { f_equal. f_equal. apply imap_ext. intros i y _. cbn. f_equal. lia. }
  rewrite head_numbered_from. unfold node_id. destruct (list_find _ _) as [[i y]|]; cbn; [|done].
  do 2 f_equal. lia.
Qed.

Lemma hash_encode_inj h h' : hash_fits h -> hash_fits h' -> hash_encode_hex h = hash_encode_hex h' -> h = h'.
Proof. intros H H' E. apply (f_equal hash_from_hex) in E. rewrite !hash_from_hex_encode in E by done. congruence. Qed.

Lemma hash_to_string_inj h h' : hash_fits h -> hash_fits h' -> hash_to_string h = hash_to_string h' -> h = h'.
Proof.
  unfold hash_to_string. intros H H' E. apply hash_encode_inj; [done..|].
  change (String "0" (String "x" (hash_encode_hex h)) = String "0" (String "x" (hash_encode_hex h'))) in E.
  congruence.
Qed.

Lemma node_rows_of a n : store_fits a -> hash_fits n.2 ->
  node_rows n.1 n.2 (rows_of "rpc_urls" node_columns (st_nodes a)) =
  (fun ix => {| row_id := ix.1; row_cols := stored "rpc_urls" (node_columns ix.2) |}) <$>
    filter (fun ix => bool_decide (ix.2 = n) = true) (numbered (st_nodes a)).
Proof.
  intros Hf Hn. unfold node_rows. apply filter_rows_of. intros ix Hix.
  apply elem_of_numbered, with_id_elem in Hix as [_ Hr].
  apply (proj1 (Forall_forall _ _) (sf_nodes _ Hf)) in Hr as [_ Hh].
  change (rpc_url_where _ _ _) with
    (String.eqb ix.2.1 n.1 && String.eqb (hash_to_string ix.2.2) (hash_to_string n.2)).
  apply eq_true_iff_eq. rewrite andb_true_iff, !String.eqb_eq, bool_decide_eq_true.
  destruct ix as [z [u h]], n as [u' h']. cbn in *. split; [|intros [= -> ->]; done].
  intros [-> ->%hash_to_string_inj]; done.
Qed.

Lemma head_node_row a n : store_fits a -> hash_fits n.2 ->
  row_id <$> head (node_rows n.1 n.2 (rows_of "rpc_urls" node_columns (st_nodes a))) = node_id n a.
Proof.
  intros Hf Hn. rewrite node_rows_of by done. pose proof (head_node a n) as Hh.
  destruct (filter _ _) as [|ix l], (node_id n a); cbn in *; try done. by injection Hh as ->.
Qed.

Lemma read_named_last (nl : list (Z * (Z * NamedTx))) :
  (forall ix, ix ∈ nl -> named_fits ix.2.2) ->
  map_err into_db_error (last_row read_named_tx (fun '(n, h, a) => named_tx_of_row n h a)
    ((fun ix => {| row_id := ix.1; row_cols := stored "named_txs" (named_row_columns ix.2) |}) <$> nl)) =
  found_named (last (snd <$> nl.*2)).
Proof.
  intros Hfits. rewrite last_row_of, !fmap_last. destruct (last nl) as [ix|] eqn:Hl; [|done].
  apply last_Some_elem_of, Hfits in Hl.
  rewrite (read_named ix.2.1 ix.2.2) by done. cbn. by destruct (nt_address ix.2.2).
Qed.

Lemma elem_of_named a ix : store_fits a -> ix ∈ numbered (st_named a) -> named_fits ix.2.2.
Proof.
  intros Hf [_ Hr]%elem_of_numbered%with_id_elem.
  by apply (proj1 (Forall_forall _ _) (sf_named _ Hf)) in Hr.
Qed.

Lemma named_holds s a name url hash : holds s a -> hash_fits hash ->
  map_err into_db_error (get_named_tx pick name url hash s).2 =
  match node_id (url, hash) a with
  | Some id => found_named (last (omap (fun x : Z * NamedTx =>
      if (x.1 =? id) && String.eqb (nt_name x.2) name then Some x.2 else None) (st_named a)))
  | None => Ok None
  end.
Proof.
  intros Hs Hh. pose proof (h_fits _ _ Hs) as Hf.
  erewrite (get_named_eval pick ltac:(intros n; by rewrite Hpool)); [|by eapply holds_table..].
  unfold find_named. pose proof (head_node_row a (url, hash) Hf Hh) as Hhead. cbn [fst snd] in Hhead.
  rewrite <- Hhead. destruct (node_rows url hash _) as [|u rest]; cbn [head fmap option_fmap option_map].
  - rewrite (filter_nil_forall _ (rows_of _ _ _)); [done|]. intros r _. unfold named_where.
    by rewrite andb_false_r.
  - rewrite (filter_rows_of "named_txs" named_row_columns (st_named a) _
      (fun ix => (ix.2.1 =? row_id u) && String.eqb (nt_name ix.2.2) name)).
    + rewrite read_named_last.
      * do 2 f_equal. rewrite (omap_filter (fun x : Z * NamedTx => (x.1 =? row_id u) && String.eqb (nt_name x.2) name)
          snd). f_equal. apply (filter_snd (fun x : Z * NamedTx => (x.1 =? row_id u) && String.eqb (nt_name x.2) name)).
      * intros ix [_ Hix]%list_elem_of_filter. by eapply elem_of_named.
    + intros ix _. unfold named_where. by rewrite andb_comm.
Qed.

Lemma by_address_holds s a address : holds s a -> 0 <= address < 2 ^ 160 ->
  map_err into_db_error (get_named_tx_by_address pick address s).2 =
  Ok (last (omap (fun x : Z * NamedTx =>
      if bool_decide (nt_address x.2 = Some address) then Some x.2 else None) (st_named a))).
Proof.
  intros Hs Ha. pose proof (h_fits _ _ Hs) as Hf. unfold get_named_tx_by_address.
  assert (Ht : sq_tables (count_request s) !! "named_txs"%string =
    Some (rows_of "named_txs" named_row_columns (st_named a)))
    by by eapply (holds_table (count_request s)); [apply holds_count|].
  sql_run. unfold lift. cbn [snd]. rewrite last_latest.
  rewrite (filter_rows_of "named_txs" named_row_columns (st_named a) _
    (fun ix => bool_decide (nt_address ix.2.2 = Some address))).
  - rewrite read_named_last.
    + rewrite (omap_filter (fun x : Z * NamedTx => bool_decide (nt_address x.2 = Some address)) snd),
        <- (filter_snd (fun x : Z * NamedTx => bool_decide (nt_address x.2 = Some address))).
      unfold found_named. rewrite !fmap_last. destruct (last _) as [ix|] eqn:Hl; [|done].
      apply last_Some_elem_of, list_elem_of_filter in Hl as [Hix%bool_decide_eq_true _].
      cbn. by rewrite Hix.
    + intros ix [_ Hix]%list_elem_of_filter. by eapply elem_of_named.
  - intros ix Hix%elem_of_named; [|done]. destruct Hix as [_ Hfa].
    change (eq_text _ _) with (String.eqb
      (match nt_address ix.2.2 with Some b => address_encode_hex b | None => ""%string end)
      (address_encode_hex address)).
    apply eq_true_iff_eq. rewrite String.eqb_eq, bool_decide_eq_true.
    pose proof (address_from_hex_encode address Ha) as Hx.
    destruct (nt_address ix.2.2) as [b|]; split; try congruence.
    + intros E. rewrite <- E, address_from_hex_encode in Hx by auto. done.
    + intros E. by rewrite <- E, address_from_hex_empty in Hx.
Qed.

(** ** Writing *)

Lemma insert_row_holds s a t rows cols :
  holds s a -> tables_of a !! t = Some rows ->
  fk_holds (tables_of a) t (stored t cols) = true ->
  insert_row fk c t cols s = (inserted fk c t rows cols s, Ok tt).
Proof.
  intros Hs Ht Hk. apply insert_row_ok. exists rows. split; [by eapply holds_table|].
  split; [|done]. by rewrite (h_tables _ _ Hs).
Qed.

Lemma store_fits_add_run a r : store_fits a -> request_stored r -> store_fits (add_run r a).
Proof. intros [] Hr. split; try done. apply Forall_app_2; [done|]. by apply Forall_singleton. Qed.
Lemma store_fits_add_report a r : store_fits a -> report_fits r -> store_fits (add_report r a).
Proof. intros [] Hr. split; try done. apply Forall_app_2; [done|]. by apply Forall_singleton. Qed.
Lemma store_fits_add_node a n : store_fits a -> node_fits n -> store_fits (add_node n a).
Proof. intros [] Hr. split; try done. apply Forall_app_2; [done|]. by apply Forall_singleton. Qed.
Lemma store_fits_add_named a id x : store_fits a -> named_fits x -> store_fits (add_named id [x] a).
Proof. intros [] Hr. split; try done. apply Forall_app_2; [done|]. by apply Forall_singleton. Qed.
Lemma store_fits_add_tx a id x :
  store_fits a -> fits_i64 id -> run_tx_fits x -> store_fits (add_txs id [x] a).
Proof. intros [] Hi Hr. split; try done. apply Forall_app_2; [done|]. by apply Forall_singleton. Qed.
Lemma store_fits_add_latency a id x :
  store_fits a -> fits_i64 id -> bucket_fits x.2 -> store_fits (add_latency id [x] a).
Proof. intros [] Hi Hr. split; try done. apply Forall_app_2; [done|]. by apply Forall_singleton. Qed.

Lemma insert_run_holds s a r : holds s a -> request_stored r ->
  exists s', insert_run pick fk r s = (s', Ok (count_of (st_runs a) + 1)) /\ holds s' (add_run r a).
Proof.
  intros Hs Hr. pose proof Hr as ((Ht & Hc & Hd & Hp & Hv) & Hc' & Hd' & Hp').
  assert (Hs1 : holds (count_request s) a) by by apply holds_count.
  assert (Htab : sq_tables (count_request s) !! "runs"%string = Some (rows_of "runs" run_columns (st_runs a)))
    by by eapply holds_table.
  pose proof (to_sql_u64_small _ (proj2 Ht)). pose proof (to_sql_u64_small _ Hc').
  pose proof (to_sql_u64_small _ Hd'). pose proof (to_sql_u64_small _ Hp').
  unfold insert_run. sql_run.
  erewrite stm_bind_run by by eapply insert_row_holds.
  eexists. split.
  - eapply query_row_run; [apply Hpool|]. rewrite last_inserted, next_id_rows_of.
    apply get_u64_nonneg. unfold count_of. lia.
  - apply holds_count. eapply holds_inserted; [exact Hs1|apply store_fits_add_run; [apply (h_fits _ _ Hs)|done]|].
    apply (tables_add_run a r).
Qed.

Lemma insert_report_holds s a r : holds s a -> report_fits r -> count_of (st_reports a) + 1 < 2 ^ 63 ->
  exists s', insert_replay_report pick fk r s = (s', Ok (ReplayReport_new (count_of (st_reports a) + 1) r)) /\
    holds s' (add_report r a).
Proof.
  intros Hs Hr Hsmall. pose proof Hr as (H1 & H2 & H3).
  pose proof (to_sql_u64_small _ (proj2 H1)). pose proof (to_sql_u64_small _ (proj2 H2)).
  pose proof (to_sql_u64_small _ (proj2 H3)).
  unfold insert_replay_report. erewrite stm_bind_run by apply get_pool_one.
  assert (Hs1 : holds (count_request (count_request s)) a) by by do 2 apply holds_count.
  assert (Hn : num_replay_reports pick (count_request s) =
    (count_request (count_request s), Ok (count_of (st_reports a)))).
  { unfold num_replay_reports, count_rows. eapply query_row_run; [apply Hpool|].
    unfold select. erewrite holds_table; [|exact Hs1|reflexivity]. cbn.
    rewrite filter_true. by rewrite rows_of_length. }
  erewrite stm_bind_run by exact Hn.
  rewrite arith_in by (unfold count_of in *; lia).
  erewrite stm_bind_run by reflexivity.
  assert (Htab : sq_tables (count_request (count_request s)) !! "replay_reports"%string =
    Some (rows_of "replay_reports" report_columns (st_reports a))) by by eapply holds_table.
  sql_run. erewrite stm_bind_run by by eapply insert_row_holds.
  eexists. split; [reflexivity|].
  eapply holds_inserted; [exact Hs1|apply store_fits_add_report; [apply (h_fits _ _ Hs)|done]|].
  apply (tables_add_report a r).
Qed.

Lemma node_known a n : store_fits a -> hash_fits n.2 ->
  node_rows n.1 n.2 (rows_of "rpc_urls" node_columns (st_nodes a)) <> [] <-> is_Some (node_id n a).
Proof.
  intros Hf Hn. rewrite <- head_node_row by done. destruct (node_rows _ _ _); cbn; split; try done; intros [? [=]].
Qed.

Lemma node_id_added a n : node_id n a = None -> node_id n (add_node n a) = Some (count_of (st_nodes a) + 1).
Proof.
  unfold node_id, count_of. cbn [st_nodes add_node]. intros H.
  destruct (list_find (fun m => m = n) (st_nodes a)) as [|] eqn:E; [done|].
  rewrite list_find_app_r by done. cbn. rewrite decide_True by done. cbn. done.
Qed.

Lemma node_read s a n id : holds s a -> node_fits n -> node_id n a = Some id ->
  query_row pick (fun s _ =>
    url ← ok_or "syntax error"%string (read_literal (quoted n.1));
    hash ← ok_or "syntax error"%string
             (read_literal (quoted (to_lowercase (hash_to_string n.2))));
    rows ← select "rpc_urls" (rpc_url_where url hash) (sq_tables s);
    r ← first_row rows;
    get_i64 (cell r "id")) s = (count_request s, Ok id).
Proof.
  intros Hs [Hq Hh] Hid. eapply query_row_run; [apply Hpool|].
  rewrite to_lowercase_hash, !read_quoted by (done || apply hash_quote_free).
  cbn [ok_or mbind outcome_bind]. unfold select.
  erewrite holds_table; [|by apply holds_count|reflexivity]. cbn [ok_or mbind outcome_bind mret outcome_ret].
  fold (node_rows n.1 n.2 (rows_of "rpc_urls" node_columns (st_nodes a))).
  pose proof (head_node_row a n (h_fits _ _ Hs) Hh) as Hhead. rewrite Hid in Hhead.
  destruct (node_rows _ _ _) as [|u rest]; [done|]. cbn in *. congruence.
Qed.

Lemma rpc_url_id_holds s a n (r := know_node n a) : holds s a -> node_fits n ->
  exists s', get_rpc_url_id pick fk n.1 n.2 s = (s', Ok r.1) /\ holds s' r.2.
Proof.
  intros Hs Hn. pose proof Hn as [Hq Hh]. pose proof (h_fits _ _ Hs) as Hf.
  assert (Hs1 : holds (count_request s) a) by by apply holds_count.
  assert (Htab : sq_tables (count_request s) !! "rpc_urls"%string =
    Some (rows_of "rpc_urls" node_columns (st_nodes a))) by by eapply holds_table.
  unfold get_rpc_url_id. sql_run. cbn beta.
  fold (node_rows n.1 n.2 (rows_of "rpc_urls" node_columns (st_nodes a))).
  pose proof (node_known a n Hf Hh) as Hknown. subst r. unfold know_node.
  destruct (node_id n a) as [id|] eqn:Hid; cbn [fst snd].
  - destruct (node_rows _ _ _) as [|u rest]; [by destruct (proj2 Hknown (ex_intro _ id eq_refl))|].
    erewrite stm_bind_run by reflexivity. eexists. split; [by apply (node_read _ a)|].
    by apply holds_count.
  - destruct (node_rows _ _ _) as [|u rest]; [|by destruct (proj1 Hknown ltac:(done))].
    erewrite stm_bind_run by by eapply insert_row_holds.
    assert (holds (inserted fk c "rpc_urls" (rows_of "rpc_urls" node_columns (st_nodes a))
      (node_columns n) (count_request s)) (add_node n a)) as Hs2.
    { eapply holds_inserted; [exact Hs1|by apply store_fits_add_node|apply (tables_add_node a n)]. }
    eexists. split; [|by apply holds_count].
    apply (node_read _ (add_node n a)); [done|done|by apply node_id_added].
Qed.

(** A loop of insertions: each keeps [ok], which says the parent row exists. *)
Lemma mapM_holds {A} (step : A -> stm SqliteDb SqliteError unit) (add : A -> Store -> Store)
    (ok : Store -> Prop) (l : list A) s a :
  (forall x s a, x ∈ l -> holds s a -> ok a ->
     exists s', step x s = (s', Ok tt) /\ holds s' (add x a) /\ ok (add x a)) ->
  holds s a -> ok a ->
  exists s' us, stm_mapM step l s = (s', Ok us) /\ holds s' (fold_left (fun a x => add x a) l a) /\
    ok (fold_left (fun a x => add x a) l a).
Proof.
  revert s a. induction l as [|x l IH]; intros s a Hstep Hs Ha; [by exists s, []|].
  destruct (Hstep x s a ltac:(left) Hs Ha) as (s1 & H1 & Hs1 & Ha1).
  destruct (IH s1 (add x a)) as (s' & us & H2 & Hs' & Ha'); [|done..|].
  { intros y s2 a2 Hy. apply Hstep. by right. }
  exists s', (tt :: us). cbn [stm_mapM fold_left]. split; [|done].
  erewrite stm_bind_run by exact H1. by erewrite stm_bind_run by exact H2.
Qed.

Lemma add_named_fold id l a : fold_left (fun a x => add_named id [x] a) l a = add_named id l a.
Proof.
  revert a. induction l as [|x l IH]; intros a; cbn [fold_left].
  - unfold add_named. rewrite app_nil_r. by destruct a.
  - rewrite IH. unfold add_named. cbn. by rewrite <- app_assoc.
Qed.
Lemma add_txs_fold id l a : fold_left (fun a x => add_txs id [x] a) l a = add_txs id l a.
Proof.
  revert a. induction l as [|x l IH]; intros a; cbn [fold_left].
  - unfold add_txs. rewrite app_nil_r. by destruct a.
  - rewrite IH. unfold add_txs. cbn. by rewrite <- app_assoc.
Qed.
Lemma add_latency_nil id a : add_latency id [] a = a.
Proof. unfold add_latency. rewrite app_nil_r. by destruct a. Qed.
Lemma add_latency_app id l k a : add_latency id k (add_latency id l a) = add_latency id (l ++ k) a.
Proof. unfold add_latency. cbn [st_runs st_txs st_latency st_nodes st_named st_reports]. by rewrite fmap_app, app_assoc. Qed.
Lemma add_latency_fold id m bs a :
  fold_left (fun a x => add_latency id [(m, x)] a) bs a = add_latency id (pair m <$> bs) a.
Proof.
  revert a. induction bs as [|x bs IH]; intros a; [by rewrite add_latency_nil|].
  cbn [fold_left]. by rewrite IH, add_latency_app.
Qed.

(** The parent of a row. *)
Lemma has_id_rows {A} a t (f : A -> list (string * SqlValue)) l id :
  tables_of a !! t = Some (rows_of t f l) ->
  has_id (tables_of a) t id = bool_decide (is_Some (with_id id l)).
Proof.
  intros Ht. unfold has_id. rewrite Ht, rows_of_ids. apply bool_decide_ext.
  rewrite elem_of_ids_upto. unfold with_id. destruct (Z.leb_spec 1 id).
  - rewrite lookup_lt_is_Some. lia.
  - split; [lia|intros [? [=]]].
Qed.

Definition has_run (id : Z) (a : Store) : Prop := is_Some (with_id id (st_runs a)).
Definition has_node (id : Z) (a : Store) : Prop := is_Some (with_id id (st_nodes a)).

Lemma know_node_has a n : has_node (know_node n a).1 (know_node n a).2.
Proof.
  unfold has_node, know_node, node_id, with_id.
  destruct (list_find (fun m => m = n) (st_nodes a)) as [[i y]|] eqn:E; cbn.
  - apply list_find_Some in E as (Hi & _). destruct (Z.leb_spec 1 (Z.of_nat i + 1)); [|lia].
    replace (Z.to_nat (Z.of_nat i + 1 - 1)) with i by lia. by rewrite Hi.
  - unfold count_of. destruct (Z.leb_spec 1 (Z.of_nat (length (st_nodes a)) + 1)); [|lia].
    apply lookup_lt_is_Some. rewrite length_app. cbn. lia.
Qed.

Lemma insert_named_holds s a txs n : holds s a -> node_fits n -> Forall named_fits txs ->
  count_of (st_nodes a) + 1 < 2 ^ 63 ->
  exists s', insert_named_txs pick fk txs n.1 n.2 s = (s', Ok tt) /\
    holds s' (add_named (know_node n a).1 txs (know_node n a).2).
Proof.
  intros Hs Hn Hfits Hsmall. unfold insert_named_txs.
  destruct (rpc_url_id_holds s a n Hs Hn) as (s1 & H1 & Hs1). pose proof (know_node_has a n) as Hid.
  assert (to_sql_u64 (know_node n a).1 = Ok (SInt (know_node n a).1)) as Hsql.
  { apply to_sql_u64_small. unfold has_node, with_id in Hid.
    destruct (Z.leb_spec 1 (know_node n a).1); [|by destruct Hid].
    apply lookup_lt_is_Some in Hid. unfold know_node, count_of in *.
    destruct (node_id n a); cbn in *; rewrite ?length_app in Hid; cbn in *; lia. }
  set (id := (know_node n a).1) in *. set (a1 := (know_node n a).2) in *. clearbody id a1.
  erewrite stm_bind_run by exact H1. erewrite stm_bind_run by apply get_pool_one.
  edestruct (mapM_holds (fun named_tx => prepare "named_txs";; rpc_url_id ← statement (to_sql_u64 id);
      insert_row fk c "named_txs" (("name"%string, SText (nt_name named_tx)) ::
        ("tx_hash"%string, SText (hash_encode_hex (nt_tx_hash named_tx))) ::
        ("contract_address"%string,
           SText (match nt_address named_tx with Some a => address_encode_hex a | None => ""%string end)) ::
        ("rpc_url_id"%string, rpc_url_id) :: nil)) (fun x a => add_named id [x] a) (has_node id) txs
      (count_request s1) a1) as (s' & us & Hm & Hs' & _).
  - intros x s2 a2 Hx Hs2 Ha2.
    assert (sq_tables s2 !! "named_txs"%string = Some (rows_of "named_txs" named_row_columns (st_named a2)))
      by by eapply holds_table.
    sql_run. eexists. split; [eapply insert_row_holds; [done|done|]|].
    + change (has_id (tables_of a2) "rpc_urls" id = true).
      rewrite (has_id_rows a2 "rpc_urls" node_columns (st_nodes a2)) by done. by apply bool_decide_eq_true.
    + split; [|done]. eapply holds_inserted; [done| |apply (tables_add_named a2 id x)].
      apply store_fits_add_named; [apply (h_fits _ _ Hs2)|]. by apply (proj1 (Forall_forall _ _) Hfits).
  - by apply holds_count.
  - exact Hid.
  - exists s'. rewrite add_named_fold in Hs'. split; [|done].
    erewrite stm_bind_run; [|apply (proj2 (transaction_ok _ _ _ _)); exact Hm]. done.
Qed.

Lemma stm_bind_err {S E A B} (m : stm S E A) (f : A -> stm S E B) s s1 e :
  m s = (s1, Err e) -> (m ≫= f) s = (s1, Err e).
Proof. unfold mbind, stm_bind. by intros ->. Qed.

Lemma transaction_err {A} (m : stm SqliteDb SqliteError A) s s1 e :
  m s = (s1, Err e) -> exists s2, transaction m s = (s2, Err e).
Proof. unfold transaction. intros ->. by eexists. Qed.

(** A row whose parent is missing is refused. *)
Lemma insert_text_refused s a t columns texts vs rows :
  holds s a -> tables_of a !! t = Some rows -> texts <> [] -> Forall literal_text texts ->
  mapM read_literal texts = Some vs -> length vs = length columns ->
  fk_holds (tables_of a) t (stored t (zip columns vs)) = false ->
  exists e, insert_text fk c t columns (String.concat ", " texts) s = (s, Err e).
Proof.
  intros Hs Ht Hne Hall Hvs Hlen Hk. unfold insert_text.
  erewrite stm_bind_run by by eapply prepare_run, holds_table.
  erewrite stm_bind_run by (apply statement_run; by rewrite read_values_each, Hvs).
  erewrite stm_bind_run by (apply statement_run; by rewrite Hlen, Nat.eqb_refl).
  eexists. unfold insert_row. unfold mbind at 1, stm_bind at 1, gets.
  erewrite stm_bind_err; [reflexivity|]. unfold statement, lift, insert_into.
  change (id s) with s. rewrite (h_keys _ _ Hs c Hserving), (h_tables _ _ Hs), Ht. cbn [ok_or mbind outcome_bind]. by rewrite Hk.
Qed.

Lemma run_txs_fk a id tx :
  fk_holds (tables_of a) "run_txs" (stored "run_txs" (tx_columns (id, tx))) =
  bool_decide (has_run id a).
Proof. apply (has_id_rows a "runs" run_columns (st_runs a)). done. Qed.

Lemma insert_run_txs_holds s a id txs : holds s a -> fits_i64 id -> Forall run_tx_fits txs ->
  (txs = [] \/ has_run id a ->
    exists s', insert_run_txs pick fk id txs s = (s', Ok tt) /\ holds s' (add_txs id txs a)) /\
  (txs <> [] -> ~ has_run id a -> exists s' e, insert_run_txs pick fk id txs s = (s', Err e)).
Proof.
  intros Hs Hid Hfits. unfold insert_run_txs. split.
  - intros Hrun.
    edestruct (mapM_holds (fun run_tx => insert_text fk c "run_txs" run_tx_columns
        (String.concat ", " (run_tx_texts id run_tx))) (fun x a => add_txs id [x] a)
        (fun a => txs = [] \/ has_run id a) txs (count_request s) a) as (s' & us & Hm & Hs' & _).
    + intros x s2 a2 Hx Hs2 Ha2. destruct Ha2 as [->|Ha2]; [by apply not_elem_of_nil in Hx|].
      apply (proj1 (Forall_forall _ _) Hfits) in Hx. destruct (read_run_tx_texts id x Hid Hx) as [Ht Hvs].
      eexists. split; [eapply insert_text_run; try done|].
      * by eapply holds_table.
      * rewrite (h_tables _ _ Hs2). etrans; [apply (run_txs_fk a2 id x)|]. by apply bool_decide_eq_true.
      * split; [|by right]. eapply holds_inserted; [done| |apply (tables_add_tx a2 id x)].
        apply store_fits_add_tx; [apply (h_fits _ _ Hs2)|done|done].
    + by apply holds_count.
    + exact Hrun.
    + exists s'. rewrite add_txs_fold in Hs'. split; [|done].
      erewrite stm_bind_run by apply get_pool_one.
      erewrite stm_bind_run; [|apply (proj2 (transaction_ok _ _ _ _)); exact Hm]. done.
  - intros Hne Hno. destruct txs as [|x txs]; [done|]. apply Forall_cons in Hfits as [Hx _].
    destruct (read_run_tx_texts id x Hid Hx) as [Ht Hvs].
    destruct (insert_text_refused (count_request s) a "run_txs" run_tx_columns (run_tx_texts id x)
      (run_tx_cells id x) (rows_of "run_txs" tx_columns (st_txs a))) as [e He]; try done.
    { by apply holds_count. }
    { etrans; [apply (run_txs_fk a id x)|]. by apply bool_decide_eq_false. }
    erewrite stm_bind_run by apply get_pool_one.
    destruct (transaction_err (stm_mapM (fun run_tx => insert_text fk c "run_txs" run_tx_columns
      (String.concat ", " (run_tx_texts id run_tx))) (x :: txs)) (count_request s) (count_request s) e)
      as [s2 H2]; [by apply stm_bind_err|].
    exists s2, e. by erewrite stm_bind_err by exact H2.
Qed.

(** ** Latencies *)

Lemma latency_texts_read id m b : fits_i64 id -> quote_free m = true -> bucket_fits b ->
  Forall literal_text (latency_texts id m b) /\
  mapM read_literal (latency_texts id m b) = Some (latency_cells (id, (m, b))).
Proof.
  intros Hid Hm (Hc & Hl & v & Hv & _). split.
  - unfold latency_texts. rewrite !Forall_cons, Forall_nil. repeat split; try done;
      try apply dec_literal. by apply literal_quoted.
  - unfold latency_texts, latency_cells. cbn [mapM fst snd].
    rewrite !read_int, read_quoted, Hv by done. done.
Qed.

Lemma latency_fk a id mb :
  fk_holds (tables_of a) "latency" (stored "latency" (bucket_columns (id, mb))) =
  bool_decide (has_run id a).
Proof. apply (has_id_rows a "runs" run_columns (st_runs a)). done. Qed.

Abbreviation insert_bucket id m := (fun bucket =>
  insert_text fk c "latency" latency_columns (String.concat ", " (latency_texts id m bucket))).

Lemma insert_buckets_holds s a id m bs :
  holds s a -> fits_i64 id -> quote_free m = true -> Forall bucket_fits bs -> bs = [] \/ has_run id a ->
  exists s' us, stm_mapM (insert_bucket id m) bs s = (s', Ok us) /\
    holds s' (add_latency id (pair m <$> bs) a).
Proof.
  intros Hs Hid Hm Hfits Hrun.
  edestruct (mapM_holds (insert_bucket id m) (fun x a => add_latency id [(m, x)] a)
    (fun a => bs = [] \/ has_run id a) bs s a) as (s' & us & Hmap & Hs' & _); [|done..|].
  - intros x s2 a2 Hx Hs2 Ha2. destruct Ha2 as [->|Ha2]; [by apply not_elem_of_nil in Hx|].
    apply (proj1 (Forall_forall _ _) Hfits) in Hx.
    destruct (latency_texts_read id m x Hid Hm Hx) as [Ht Hvs].
    eexists. split; [eapply insert_text_run; try done|].
    + by eapply holds_table.
    + rewrite (h_tables _ _ Hs2). etrans; [apply (latency_fk a2 id (m, x))|]. by apply bool_decide_eq_true.
    + split; [|by right]. eapply holds_inserted; [done| |apply (tables_add_latency a2 id (m, x))].
      apply store_fits_add_latency; [apply (h_fits _ _ Hs2)|done|done].
  - exists s', us. split; [done|]. by rewrite <- add_latency_fold.
Qed.

Lemma insert_metrics_holds s a id (metrics : list (string * list Bucket))
    (l := metrics ≫= fun mb => pair mb.1 <$> mb.2) :
  holds s a -> fits_i64 id ->
  Forall (fun mb => quote_free mb.1 = true /\ Forall bucket_fits mb.2) metrics ->
  (l = [] \/ has_run id a ->
    exists s' us, stm_mapM (fun mb => stm_mapM (insert_bucket id mb.1) mb.2) metrics s = (s', Ok us) /\
      holds s' (add_latency id l a)) /\
  (l <> [] -> ~ has_run id a ->
    exists s' e, stm_mapM (fun mb => stm_mapM (insert_bucket id mb.1) mb.2) metrics s = (s', Err e)).
Proof.
  intros Hs Hid Hfits. revert s a Hs. subst l.
  induction Hfits as [|[m bs] metrics [Hm Hbs] _ IH]; intros s a Hs.
  { split; [|done]. intros _. exists s, []. split; [done|]. by rewrite add_latency_nil. }
  cbn [mbind list_bind stm_mapM fst snd] in *. split.
  - intros Hrun. destruct (insert_buckets_holds s a id m bs Hs Hid Hm Hbs) as (s1 & u & H1 & Hs1).
    { destruct Hrun as [Hnil|]; [|by right]. left. destruct bs; [done|discriminate]. }
    destruct (proj1 (IH s1 _ Hs1)) as (s' & us & H2 & Hs').
    { destruct Hrun as [[_ Hnil]%app_nil|]; [by left|by right]. }
    exists s', (u :: us). rewrite add_latency_app in Hs'. split; [|done].
    erewrite stm_bind_run by exact H1. by erewrite stm_bind_run by exact H2.
  - intros Hne Hno. destruct bs as [|b bs].
    + destruct (proj2 (IH s a Hs) Hne Hno) as (s' & e & He). exists s', e.
      cbn [stm_mapM]. erewrite stm_bind_run by reflexivity. by erewrite stm_bind_err by exact He.
    + apply Forall_cons in Hbs as [Hb _]. destruct (latency_texts_read id m b Hid Hm Hb) as [Ht Hvs].
      destruct (insert_text_refused s a "latency" latency_columns (latency_texts id m b)
        (latency_cells (id, (m, b))) (rows_of "latency" bucket_columns (st_latency a))) as [e He]; try done.
      { etrans; [apply (latency_fk a id (m, b))|]. by apply bool_decide_eq_false. }
      exists s, e. apply stm_bind_err. cbn [stm_mapM]. by apply stm_bind_err.
Qed.

Lemma insert_latency_holds s a id (metrics : list (string * list Bucket))
    (l := metrics ≫= fun mb => pair mb.1 <$> mb.2) :
  holds s a -> fits_i64 id ->
  Forall (fun mb => quote_free mb.1 = true /\ Forall bucket_fits mb.2) metrics ->
  (l = [] \/ has_run id a ->
    exists s', insert_latency_metrics pick fk id metrics s = (s', Ok tt) /\ holds s' (add_latency id l a)) /\
  (l <> [] -> ~ has_run id a -> exists s' e, insert_latency_metrics pick fk id metrics s = (s', Err e)).
Proof.
  intros Hs Hid Hfits.
  destruct (insert_metrics_holds (count_request s) a id metrics) as [Hok Herr]; [by apply holds_count|done..|].
  unfold insert_latency_metrics. split.
  - intros Hrun. destruct (Hok Hrun) as (s' & us & Hm & Hs'). exists s'. split; [|done].
    erewrite stm_bind_run by apply get_pool_one.
    erewrite stm_bind_run; [|apply (proj2 (transaction_ok _ _ _ _)); exact Hm]. done.
  - intros Hne Hno. destruct (Herr Hne Hno) as (s1 & e & He).
    destruct (transaction_err _ _ _ _ He) as [s2 H2]. exists s2, e.
    erewrite stm_bind_run by apply get_pool_one. by erewrite stm_bind_err by exact H2.
Qed.

(** ** Every call *)

#[local] Existing Instance store_ops.
Abbreviation sqlite := (sqlite_ops pick fk).

(** The same answer, and again the same content. *)
Definition same (x : Answer * SqliteDb) (y : Answer * Store) : Prop := x.1 = y.1 /\ holds x.2 y.2.

Lemma agree_reading {A} (f : A -> Answer) s a (m : outcome SqliteError A) (m' : outcome DbError A) :
  holds s a -> agree eq (map_err into_db_error m) m' ->
  agree same (answering f s (map_err into_db_error m)) (answering f a m').
Proof.
  intros Hs. destruct m, m'; cbn; try done. intros ->. done.
Qed.

Lemma agree_ok {A} (m : outcome SqliteError A) (x : A) : m = Ok x -> agree eq (map_err into_db_error m) (Ok x).
Proof. by intros ->. Qed.
Lemma agree_eq {A} (x y : outcome DbError A) : x = y -> agree eq x y.
Proof. intros ->. by destruct y. Qed.

Lemma writing_ok {A} (m : stm SqliteDb SqliteError A) s s' x : m s = (s', Ok x) -> writing m s = Ok (x, s').
Proof. unfold writing. by intros ->. Qed.
Lemma writing_err {A} (m : stm SqliteDb SqliteError A) s s' e :
  m s = (s', Err e) -> writing m s = Err (into_db_error e).
Proof. unfold writing. by intros ->. Qed.

Definition small (a : Store) : Prop :=
  count_of (st_nodes a) + 1 < 2 ^ 63 /\ count_of (st_reports a) + 1 < 2 ^ 63.

(** The rows of a run that exists are stored, those of another are refused. *)
Lemma for_run_cases {A} id (l : list A) a a' : (l = [] -> a' = a) ->
  (l = [] \/ has_run id a) /\ for_run id l a a' = Ok a' \/
  (l <> [] /\ ~ has_run id a) /\ exists e, for_run id l a a' = Err e.
Proof.
  intros Hnil. unfold has_run. destruct l as [|x l]; cbn.
  - left. split; [by left|]. by rewrite Hnil.
  - destruct (with_id id (st_runs a)); [left|right]; (split; [|eauto]).
    + right. eauto.
    + split; [done|intros [? [=]]].
Qed.

Lemma write_refines x s a : holds s a -> call_fits x -> small a ->
  match x with
  | InsertRun _ | InsertRunTxs _ _ | InsertLatency _ _ | InsertNamed _ _ _ | InsertReplay _ | RpcUrlId _ _ =>
      agree same (call (O := sqlite) x s) (call x a)
  | _ => True
  end.
Proof.
  intros Hs Hx [Hn Hr]. destruct x as [r|id txs|id l|txs url h|r|url h| | | | | | | | | | | |]; try done; cbn in Hx;
    cbn [call Db.insert_run Db.insert_run_txs Db.insert_latency_metrics Db.insert_named_txs
         Db.insert_replay_report Db.get_rpc_url_id sqlite_ops store_ops].
  - destruct (insert_run_holds s a r Hs Hx) as (s' & H1 & Hs'). by rewrite (writing_ok _ _ _ _ H1).
  - destruct Hx as [Hid Hfits]. destruct (insert_run_txs_holds s a id txs Hs Hid Hfits) as [Hok Herr].
    destruct (for_run_cases id txs a (add_txs id txs a)) as [[Hrun ->]|[[Hne Hno] [e ->]]].
    { intros ->. rewrite <- add_txs_fold. done. }
    + destruct (Hok Hrun) as (s' & H1 & Hs'). by rewrite (writing_ok _ _ _ _ H1).
    + destruct (Herr Hne Hno) as (s' & e' & H1). by rewrite (writing_err _ _ _ _ H1).
  - destruct Hx as [Hid Hfits]. destruct (insert_latency_holds s a id l Hs Hid Hfits) as [Hok Herr].
    set (k := l ≫= fun mb => pair mb.1 <$> mb.2) in *.
    destruct (for_run_cases id k a (add_latency id k a)) as [[Hrun ->]|[[Hne Hno] [e ->]]].
    { intros ->. apply add_latency_nil. }
    + destruct (Hok Hrun) as (s' & H1 & Hs'). by rewrite (writing_ok _ _ _ _ H1).
    + destruct (Herr Hne Hno) as (s' & e' & H1). by rewrite (writing_err _ _ _ _ H1).
  - destruct Hx as [Hnode Hfits].
    destruct (insert_named_holds s a txs (url, h) Hs Hnode Hfits Hn) as (s' & H1 & Hs').
    cbn [fst snd] in H1. rewrite (writing_ok _ _ _ _ H1). by destruct (know_node (url, h) a).
  - destruct (insert_report_holds s a r Hs Hx Hr) as (s' & H1 & Hs'). by rewrite (writing_ok _ _ _ _ H1).
  - destruct (rpc_url_id_holds s a (url, h) Hs Hx) as (s' & H1 & Hs').
    cbn [fst snd] in H1. rewrite (writing_ok _ _ _ _ H1). by destruct (know_node (url, h) a).
Qed.

Lemma call_refines x s a : holds s a -> call_fits x -> small a ->
  agree same (call (O := sqlite) x s) (call x a).
Proof.
  intros Hs Hx Hsmall. pose proof (write_refines x s a Hs Hx Hsmall) as Hw.
  destruct x as [r|id txs|id l|txs url h|r|url h|id|id|cid| |id m|name url h|ad|name| | |id|]; try done; clear Hw;
    cbn [call]; cbn in Hx; try (apply agree_reading; [done|]).
  - apply agree_ok. by apply get_run_holds.
  - apply agree_ok. by apply run_txs_holds.
  - apply agree_ok. by apply runs_by_campaign_holds.
  - apply agree_ok. by apply latest_campaign_holds.
  - apply agree_ok. by apply latency_holds.
  - apply agree_eq. by apply named_holds.
  - apply agree_eq. by apply by_address_holds.
  - apply agree_ok. by apply url_for_scenario_holds.
  - apply agree_ok. by apply (count_holds s a "runs" run_columns).
  - apply agree_ok. by apply (count_holds s a "replay_reports" report_columns).
  - by apply report_holds.
  - cbn. split; [|done]. cbn. by rewrite (version_holds s a Hs).
Qed.

Lemma run_create_pragma_keys s :
  sql_ok (run_create pick fk PragmaForeignKeys) s =
  (set_conn c {| cn_last_insert_rowid := cn_last_insert_rowid (conn_of fk (count_request s) c);
                 cn_foreign_keys := true |} (count_request s), Ok (Some tt)).
Proof. unfold sql_ok, run_create. by erewrite stm_bind_run by apply get_pool_one. Qed.
Lemma run_create_pragma_version s :
  sql_ok (run_create pick fk PragmaUserVersion) s = (set_user_version DB_VERSION (count_request s), Ok (Some tt)).
Proof. unfold sql_ok, run_create. by erewrite stm_bind_run by apply get_pool_one. Qed.
Lemma run_create_table s t : sq_tables s !! t = None ->
  sql_ok (run_create pick fk (CreateTable t)) s =
  (set_tables (<[t := []]> (sq_tables s)) (count_request s), Ok (Some tt)).
Proof.
  intros Ht. unfold sql_ok, run_create. erewrite stm_bind_run by apply get_pool_one.
  unfold mbind, stm_bind, gets. cbn [sq_tables count_request]. by rewrite Ht.
Qed.

(** The connection that makes the tables turns foreign keys on for itself. *)
Lemma create_holds : (forall c', serving c' -> fk = true \/ c' = c) ->
  exists s, create_tables pick fk empty_db = (s, Ok tt) /\ holds s empty_store.
Proof.
  intros Hon. unfold create_tables, create_queries, table_names. cbn [app fmap list_fmap stm_mapM].
  eexists. split.
  - erewrite stm_bind_run; [reflexivity|].
    erewrite stm_bind_run by apply run_create_pragma_keys.
    erewrite stm_bind_run; [reflexivity|]. erewrite stm_bind_run by apply run_create_pragma_version.
    do 6 (erewrite stm_bind_run; [reflexivity|]; erewrite stm_bind_run by by apply run_create_table).
    reflexivity.
  - split; [|done| |by split].
    + apply map_eq. intros k. unfold tables_of. cbn. rewrite !lookup_insert. by repeat case_decide; subst.
    + intros c' Hc'. unfold conn_of. cbn. destruct (decide (c = c')) as [<-|Hne].
      * by rewrite lookup_insert_eq.
      * rewrite lookup_insert_ne by done. by destruct (Hon c' Hc') as [->| ->].
Qed.

(** A call adds at most one node and one report. *)
Definition grows (a a' : Store) : Prop :=
  count_of (st_nodes a') <= count_of (st_nodes a) + 1 /\
  count_of (st_reports a') <= count_of (st_reports a) + 1.

Lemma grows_refl a : grows a a.
Proof. unfold grows. lia. Qed.
Lemma answering_inv {A} (f : A -> Answer) (a : Store) m y a' : answering f a m = Ok (y, a') -> a' = a.
Proof. unfold answering. intros H. by inv_outcome. Qed.
Lemma for_run_inv {A} id (l : list A) (a a' a'' : Store) : for_run id l a a' = Ok a'' -> a'' = a \/ a'' = a'.
Proof. unfold for_run. destruct l; [|destruct (with_id id _)]; naive_solver. Qed.
Lemma grows_know_node n a : grows a (know_node n a).2.
Proof.
  unfold grows, know_node, count_of. destruct (node_id n a); cbn; [lia|]. rewrite length_app. cbn. lia.
Qed.

Lemma call_grows x a y a' : call x a = Ok (y, a') -> grows a a'.
Proof.
  destruct x as [r|id txs|id l|txs url h|r|url h| | | | | | | | | | |id|]; cbn [call]; intros Hc;
    try (apply answering_inv in Hc as ->; apply grows_refl); unfold updating in Hc; inv_outcome;
    cbn [fst snd] in *.
  - injection H as <-. unfold grows. cbn. lia.
  - apply for_run_inv in H as [->| ->]; unfold grows; cbn; lia.
  - apply for_run_inv in H as [->| ->]; unfold grows; cbn; lia.
  - cbn in H. pose proof (grows_know_node (url, h) a) as Hg.
    destruct (know_node (url, h) a) as [id b]. injection H as <-. exact Hg.
  - injection H as <-. unfold grows, count_of. cbn. rewrite length_app. cbn. lia.
  - injection H as <-. apply grows_know_node.
Qed.

End refinement.

(** ** Calls on the connections of a pool *)

#[local] Existing Instance store_ops.

Section pool.
Context {P : Profile} {D : F64Display} {X : SqlText} {HX : SqlTextLaws} {F : FromHex} {HF : FromHexLaws}.
Context (fk : bool).

(** A call that the pool serves with the connection [c], whenever it asks. *)
Abbreviation sqlite_on c := (sqlite_ops (fun _ => Ok c) fk).

(** The calls, each with the connection that serves it: the answers, and the
    database after them. *)
Fixpoint answers_on (l : list (nat * DbCall)) (s : SqliteDb) : list (outcome DbError Answer) :=
  match l with
  | [] => []
  | (c, x) :: l =>
      match call (O := sqlite_on c) x s with
      | Ok (y, s) => Ok y :: answers_on l s
      | Err e => Err e :: answers_on l s
      | Panic => Panic :: answers_on l s
      end
  end.
Fixpoint after_on (l : list (nat * DbCall)) (s : SqliteDb) : SqliteDb :=
  match l with
  | [] => s
  | (c, x) :: l =>
      match call (O := sqlite_on c) x s with Ok (_, s) => after_on l s | _ => after_on l s end
  end.

(** The connections with foreign keys on, when [c0] has made the tables: all of
    them where that is SQLite's default. *)
Definition keyed (c0 c : nat) : Prop := fk = true \/ c = c0.

Lemma answers_refine c0 (l : list (nat * DbCall)) s a :
  holds fk (keyed c0) s a -> Forall (fun cx => keyed c0 cx.1 /\ call_fits cx.2) l ->
  count_of (st_nodes a) + Z.of_nat (length l) < 2 ^ 63 ->
  count_of (st_reports a) + Z.of_nat (length l) < 2 ^ 63 ->
  Forall2 (agree eq) (answers_on l s) (answers l.*2 a) /\
  holds fk (keyed c0) (after_on l s) (after l.*2 a).
Proof.
  intros Hs Hl. revert s a Hs.
  induction Hl as [|[c x] l [Hk Hx] Hl IH]; intros s a Hs Hn Hr; [by split|].
  cbn [length fst snd] in *. cbn [fmap list_fmap snd].
  pose proof (call_refines fk (keyed c0) (fun _ => Ok c) c Hk (fun _ => eq_refl) x s a Hs Hx) as Hc.
  cbn [answers answers_on after after_on].
  specialize (Hc ltac:(unfold small; lia)). pose proof (call_grows x a) as Hg.
  destruct (call (O := sqlite_on c) x s) as [[y s']|e|], (call x a) as [[y' a']|e'|]; try done.
  - destruct Hc as [Hy Hs']. cbn in Hy, Hs'. subst y'. destruct (Hg y a' eq_refl) as [Hg1 Hg2].
    destruct (IH s' a' Hs') as [H1 H2]; [lia|lia|]. split; [|done]. by constructor.
  - destruct (IH s a Hs) as [H1 H2]; [lia|lia|]. split; [|done]. by constructor.
  - destruct (IH s a Hs) as [H1 H2]; [lia|lia|]. split; [|done]. by constructor.
Qed.

Lemma fresh_refines c0 (l : list (nat * DbCall)) :
  Forall (fun cx => keyed c0 cx.1 /\ call_fits cx.2) l -> Z.of_nat (length l) < 2 ^ 63 ->
  exists s, Db.create_tables (DbOps := sqlite_on c0) empty_db = Ok s /\
    Forall2 (agree eq) (answers_on l s) (answers l.*2 empty_store) /\
    holds fk (keyed c0) (after_on l s) (after l.*2 empty_store).
Proof.
  intros Hl Hlen.
  destruct (create_holds fk (keyed c0) (fun _ => Ok c0) c0 (fun _ => eq_refl)
    (fun _ H => H)) as (s & Hc & Hs).
  exists s. split.
  - cbn [Db.create_tables sqlite_ops]. by rewrite (writing_ok _ _ _ _ Hc).
  - by apply (answers_refine c0 l s empty_store Hs Hl).
Qed.


(** ** Types of the cells *)

Definition has_type (t : Affinity) (v : SqlValue) : bool :=
  match t, v with
  | _, SNull | IntegerCol, SInt _ | TextCol, SText _ | RealCol, SReal _ => true
  | _, _ => false
  end.
Definition row_typed (table : string) (r : Row) : Prop :=
  Forall (fun ca => has_type ca.2 (assoc ca.1 (row_cols r)) = true) (schema table).

Lemma has_type_opt_text v : has_type TextCol (affinity TextCol (to_sql_opt_text v)) = true.
Proof. by destruct v. Qed.
Lemma has_type_opt_int v : has_type IntegerCol (affinity IntegerCol (opt_int v)) = true.
Proof. by destruct v. Qed.

Lemma rows_of_typed {A} t (f : A -> list (string * SqlValue)) l :
  (forall z x, x ∈ l -> row_typed t {| row_id := z; row_cols := stored t (f x) |}) ->
  Forall (row_typed t) (rows_of t f l).
Proof.
  intros Hf. apply Forall_forall. intros r (ix & -> & Hix)%list_elem_of_fmap.
  apply Hf. by apply elem_of_numbered, with_id_elem in Hix as [_ ?].
Qed.

Ltac typed_row :=
  intros z x Hx; unfold row_typed; cbn -[has_type affinity to_sql_opt_text opt_int];
  repeat constructor; cbn [fst snd];
  first [apply has_type_opt_text | apply has_type_opt_int | reflexivity | idtac].

Lemma tables_typed a t rows : store_fits a -> tables_of a !! t = Some rows -> Forall (row_typed t) rows.
Proof.
  intros Hf Ht. unfold tables_of in Ht. rewrite !lookup_insert in Ht.
  repeat case_decide; simplify_eq; apply rows_of_typed; try (by typed_row).
  typed_row. apply (proj1 (Forall_forall _ _) (sf_latency _ Hf)) in Hx as (_ & _ & _ & v & Hv & Ha).
  rewrite Hv. change (default SNull (Some v)) with v. by rewrite Ha.
Qed.

End pool.

(** ** A session *)

Module SqliteRefineWitness.
Local Instance debug : Profile := true.
Local Instance shown : F64Display := fun _ => "1"%string.

Definition bucket : Bucket := {| upper_bound := f64_of_Z 1; cumulative_count := 4 |}.
Definition named : NamedTx := NamedTx_new "token" 7 (Some 9).
Definition session : list DbCall :=
  [InsertRun SqliteWitness.request; InsertRunTxs 1 [SqliteWitness.sample_tx 3 (Some "reverted"%string)];
   InsertRunTxs 2 [SqliteWitness.sample_tx 4 None]; GetRun 1; GetRunTxs 1;
   InsertLatency 1 [("eth_chainId"%string, [bucket])]; GetLatency 1 "eth_chainId";
   InsertNamed [named] "http://node" 5; GetNamed "token" "http://node" 5; GetReport 1; NumRuns].

Lemma session_fits : Forall call_fits session.
Proof.
  assert (Htx : forall h e, 0 <= h < 2 ^ 256 -> plain_text e -> run_tx_fits (SqliteWitness.sample_tx h e)).
  { intros h e Hh He. split; cbn; unfold fits_i64; try lia; try done.
    - intros z [= <-]. lia.
    - intros z [= <-]. lia.
    - intros z [= <-]. lia.
    - intros t [= <-]. reflexivity. }
  unfold session. repeat (apply Forall_cons; split); cbn; unfold fits_i64; try done; try lia.
  - split; [lia|]. apply Forall_singleton, Htx; [done|]. intros t [= <-]. reflexivity.
  - split; [lia|]. apply Forall_singleton, Htx; [done|]. by intros t.
  - split; [lia|]. apply Forall_singleton. split; [reflexivity|]. apply Forall_singleton.
    split; [unfold fits_i64; cbn; lia|]. split; [by apply literal_bare|].
    exists (SInt 1). split; [reflexivity|]. cbn. reflexivity.
  - split; [split; [reflexivity|unfold hash_fits; cbn; lia]|]. apply Forall_singleton.
    split; [cbn; lia|]. intros a [= <-]. lia.
Qed.

(** Each call on another connection than the one before. *)
Definition spread : list (nat * DbCall) := imap (fun i x => ((i mod 4)%nat, x)) session.

Lemma spread_fits : Forall (fun cx => keyed true 0 cx.1 /\ call_fits cx.2) spread.
Proof.
  unfold spread. apply Forall_forall. intros [c x] (i & y & [= -> ->] & Hy)%elem_of_lookup_imap.
  split; [by left|]. apply (proj1 (Forall_forall _ _) session_fits). by eapply list_elem_of_lookup_2.
Qed.


End SqliteRefineWitness.
