(* ===== verification/Bn254.v ===== *)
(** * Points for proofs ([core/src/generator/bn254_points.rs], and the proof
      strings of [core/src/generator/trait.rs])

    A verification of a proof is spammed with points of the curve BN254 that
    differ from transaction to transaction.  The arithmetic of the curve is
    arkworks': the class [Curve]; what is modelled is the way of numbers between
    hexadecimal text, the four 64-bit limbs of arkworks, and the words of the
    EVM. *)

From Stdlib Require Import Strings.Byte Strings.String.
From S2P Require Import Prelude Text Alloy SqliteDb.

(** Affine points by their coordinates, those of the second group in a
    quadratic extension, real part first; [g1_mul] and [g2_mul] are a point times
    a scalar of the field of scalars. *)
Abbreviation G1Affine := (Z * Z)%type.
Abbreviation G2Affine := ((Z * Z) * (Z * Z))%type.
Class Curve := {
  g1_mul : G1Affine -> Z -> G1Affine;
  g2_mul : G2Affine -> Z -> G2Affine;
}.

(** The prime of the coordinates. *)
Definition BN_P : Z := 21888242871839275222246405745257275088696311157297823662689037894645226208583.

(** Coordinates are remainders. *)
Definition coordinate (x : Z) : Prop := 0 <= x < BN_P.
Class CurveLaws (K : Curve) : Prop := {
  g1_mul_range p n : coordinate (g1_mul p n).1 /\ coordinate (g1_mul p n).2;
  g2_mul_range p n :
    coordinate (g2_mul p n).1.1 /\ coordinate (g2_mul p n).1.2 /\
    coordinate (g2_mul p n).2.1 /\ coordinate (g2_mul p n).2.2;
}.

(** ** Numbers *)

(** A [BigInteger256]: four limbs, the least significant first. *)
Definition limbs_of (v : Z) : list Z := (fun i => (v / 2 ^ (64 * Z.of_nat i)) mod 2 ^ 64) <$> seq 0 4.
Definition limbs_value (limbs : list Z) : Z :=
  sumZ (imap (fun i l => l * 2 ^ (64 * Z.of_nat i)) limbs).

(** [bytes.chunks_exact(8)] of 32 bytes. *)
Definition chunks8 (bytes : list byte) : list (list byte) :=
  (fun i => take 8 (drop (8 * i) bytes)) <$> seq 0 4.

Section numbers.
(** [<[u8; 32]>::from_hex]. *)
Context (from_hex : string -> option (list byte)).

Definition hex_to_bigint256 {E} (hex : string) : outcome E (list Z) :=
  match from_hex hex with
  | Some bytes =>
      mret (fold_left (fun limbs p => <[(3 - p.1)%nat := from_be p.2]> limbs)
              (imap pair (chunks8 bytes)) (replicate 4 0))
  | None => Panic
  end.

(** The generators; the constants are those of the source. *)
Definition G1_GENERATOR {E} : outcome E G1Affine :=
  x ← hex_to_bigint256 "0000000000000000000000000000000000000000000000000000000000000001";
  y ← hex_to_bigint256 "0000000000000000000000000000000000000000000000000000000000000002";
  mret (limbs_value x, limbs_value y).
Definition G2_GENERATOR {E} : outcome E G2Affine :=
  x0 ← hex_to_bigint256 "1800DEEF121F1E76426A00665E5C4479674322D4F75EDADD46DEBD5CD992F6ED";
  x1 ← hex_to_bigint256 "198E9393920D483A7260BFB731FB5D25F1AA493335A9E71297E485B7AEF312C2";
  y0 ← hex_to_bigint256 "12C85EA5DB8C6DEB4AAB71808DCB408FE3D1E7690C43D37B4CE6CC0166FA7DAA";
  y1 ← hex_to_bigint256 "090689D0585FF075EC9E99AD690C3395BC4B313370B38EF355ACDADCD122975B";
  mret ((limbs_value x0, limbs_value x1), (limbs_value y0, limbs_value y1)).
End numbers.

(** [x_bytes[(3 - i) * 8..(4 - i) * 8].copy_from_slice(..)]. *)
Definition splice (at_ : nat) (new bytes : list byte) : list byte :=
  take at_ bytes ++ new ++ drop (at_ + length new) bytes.
Definition fill_bytes (limbs : list Z) : list byte :=
  fold_left (fun bytes p => splice ((3 - p.1) * 8) (to_be 8 p.2) bytes)
    (imap pair limbs) (replicate 32 x00).

(** A coordinate as a [U256]. *)
Definition u256_of (coordinate : Z) : Z := from_be (fill_bytes (limbs_of coordinate)).

(** ** Points *)

Section points.
Context `{K : Curve} (from_hex : string -> option (list byte)).

(** Index 0 would be the point at infinity. *)
Definition scalar_val (index : Z) : Z := if index =? 0 then index + 1 else index.

Definition generate_g1_point {E} (index : Z) : outcome E (list Z) :=
  g ← G1_GENERATOR from_hex;
  let point := g1_mul g (scalar_val index) in
  mret [u256_of point.1; u256_of point.2].

Definition generate_g2_point {E} (index : Z) : outcome E (list Z) :=
  g ← G2_GENERATOR from_hex;
  let point := g2_mul g (scalar_val index) in
  mret [u256_of point.1.1; u256_of point.1.2; u256_of point.2.1; u256_of point.2.2].

(** The words of the [i]-th proof and its text: the EVM wants the imaginary part
    of a coordinate first. *)
Definition proof_values {E} (i : Z) : outcome E (list Z) :=
  a ← generate_g1_point i;
  b ← generate_g2_point i;
  c ← generate_g1_point (i + 1000);
  match a, b, c with
  | [a0; a1], [b0; b1; b2; b3], [c0; c1] => mret [a0; a1; b1; b0; b3; b2; c0; c1]
  | _, _, _ => Panic
  end.
Definition groth16_proof {E} (i : Z) : outcome E string :=
  values ← proof_values i;
  mret ("[" +:+ String.concat ", " ((fun v => "0x" +:+ hex_padded 64 v) <$> values) +:+ "]")%string.
End points.

(** ** Properties *)

Lemma chunk_value l : length l = 8%nat -> 0 <= from_be l < 2 ^ 64.
Proof. intros Hl. pose proof (from_be_range l) as H. rewrite Hl in H. exact H. Qed.

(** Four chunks of eight bytes. *)
Lemma chunks_split (bytes : list byte) :
  length bytes = 32%nat ->
  exists a b c d, bytes = a ++ b ++ c ++ d /\ chunks8 bytes = [a; b; c; d] /\
    length a = 8%nat /\ length b = 8%nat /\ length c = 8%nat /\ length d = 8%nat.
Proof.
  intros Hl. unfold chunks8. cbn [seq fmap list_fmap].
  exists (take 8 bytes), (take 8 (drop 8 bytes)), (take 8 (drop 16 bytes)), (take 8 (drop 24 bytes)).
  split_and!; [|done|rewrite length_take, ?length_drop; lia..].
  assert (E : forall n, drop n bytes = take 8 (drop n bytes) ++ drop (n + 8) bytes).
  { intros n. rewrite <- drop_drop. symmetry. apply take_drop. }
  rewrite (take_ge (drop 24 bytes)) by (rewrite length_drop; lia).
  pose proof (E 8%nat) as E8. pose proof (E 16%nat) as E16. change (8 + 8)%nat with 16%nat in E8.
  change (16 + 8)%nat with 24%nat in E16. rewrite <- E16, <- E8. symmetry. apply take_drop.
Qed.

(** The number read from 64 digits is the number of its bytes, most significant
    first: the limbs are at their places. *)
Lemma hex_to_bigint256_value from_hex hex bytes :
  from_hex hex = Some bytes -> length bytes = 32%nat ->
  exists limbs, hex_to_bigint256 (E := unit) from_hex hex = Ok limbs /\
    length limbs = 4%nat /\ Forall (fun l => 0 <= l < 2 ^ 64) limbs /\
    limbs_value limbs = from_be bytes.
Proof.
  intros Hh Hl. destruct (chunks_split bytes Hl) as (a & b & c & d & -> & Hch & Ha & Hb & Hc & Hd).
  unfold hex_to_bigint256. rewrite Hh, Hch. eexists. split; [reflexivity|]. cbn.
  split; [done|]. split; [repeat constructor; by apply chunk_value|].
  unfold limbs_value. cbn -[Z.mul Z.pow]. rewrite !from_be_app, !length_app, ?Ha, Hb, Hc, Hd.
  change (256 ^ Z.of_nat 8) with (2 ^ 64). change (256 ^ Z.of_nat (8 + 8)) with (2 ^ 128).
  change (256 ^ Z.of_nat (8 + (8 + 8))) with (2 ^ 192).
  change (2 ^ (64 * Z.of_nat 0)) with 1. change (2 ^ (64 * Z.of_nat 1)) with (2 ^ 64).
  change (2 ^ (64 * Z.of_nat 2)) with (2 ^ 128). change (2 ^ (64 * Z.of_nat 3)) with (2 ^ 192). lia.
Qed.

Lemma fill_bytes_value a b c d :
  from_be (fill_bytes [a; b; c; d]) =
  d mod 2 ^ 64 * 2 ^ 192 + c mod 2 ^ 64 * 2 ^ 128 + b mod 2 ^ 64 * 2 ^ 64 + a mod 2 ^ 64.
Proof.
  assert (E : fill_bytes [a; b; c; d] = to_be 8 d ++ to_be 8 c ++ to_be 8 b ++ to_be 8 a) by reflexivity.
  rewrite E, !from_be_app, !length_app, !to_be_length, !from_be_to_be.
  change (256 ^ Z.of_nat 8) with (2 ^ 64). change (256 ^ Z.of_nat (8 + 8)) with (2 ^ 128).
  change (256 ^ Z.of_nat (8 + (8 + 8))) with (2 ^ 192). lia.
Qed.

(** A coordinate is what the EVM is given: the bytes taken out of the limbs lose
    nothing. *)
Lemma u256_of_coordinate v : 0 <= v < 2 ^ 256 -> u256_of v = v.
Proof.
  intros Hv. unfold u256_of, limbs_of. cbn [seq fmap list_fmap]. rewrite fill_bytes_value, !Z.mod_mod by lia.
  change (64 * Z.of_nat 0) with 0. change (64 * Z.of_nat 1) with 64.
  change (64 * Z.of_nat 2) with 128. change (64 * Z.of_nat 3) with 192.
  rewrite Z.pow_0_r, Z.div_1_r.
  pose proof (Z.div_mod v (2 ^ 64)). pose proof (Z.div_mod (v / 2 ^ 64) (2 ^ 64)).
  pose proof (Z.div_mod (v / 2 ^ 128) (2 ^ 64)).
  rewrite !Z.div_div in * by lia. change (2 ^ 64 * 2 ^ 64) with (2 ^ 128) in *.
  change (2 ^ 128 * 2 ^ 64) with (2 ^ 192) in *.
  rewrite (Z.mod_small (v / 2 ^ 192)) by (split; [apply Z.div_pos; lia|apply Z.div_lt_upper_bound; lia]).
  lia.
Qed.

Section point_props.
Context `{KL : !CurveLaws K} (from_hex : string -> option (list byte)).

(** The words of a proof are the coordinates of the three points, the points
    multiples of the generators. *)
Lemma proof_values_coordinates i g1 g2 :
  G1_GENERATOR (E := unit) from_hex = Ok g1 -> G2_GENERATOR (E := unit) from_hex = Ok g2 ->
  let a := g1_mul g1 (scalar_val i) in
  let b := g2_mul g2 (scalar_val i) in
  let c := g1_mul g1 (scalar_val (i + 1000)) in
  proof_values (E := unit) from_hex i = Ok [a.1; a.2; b.1.2; b.1.1; b.2.2; b.2.1; c.1; c.2].
Proof.
  intros H1 H2 a b c. unfold proof_values, generate_g1_point, generate_g2_point. rewrite H1, H2. cbn.
  fold a b c. destruct (g1_mul_range g1 (scalar_val i)) as [A1 A2].
  destruct (g2_mul_range g2 (scalar_val i)) as (B1 & B2 & B3 & B4).
  destruct (g1_mul_range g1 (scalar_val (i + 1000))) as [C1 C2]. fold a in A1, A2.
  fold b in B1, B2, B3, B4. fold c in C1, C2.
  assert (Hp : BN_P < 2 ^ 256) by done. unfold coordinate in *.
  rewrite !u256_of_coordinate by lia. done.
Qed.

(** The first two proofs of a run have the same first two points. *)
Lemma first_proofs_share_points {E} :
  generate_g1_point (E := E) from_hex 0 = generate_g1_point from_hex 1 /\
  generate_g2_point (E := E) from_hex 0 = generate_g2_point from_hex 1.
Proof. by split. Qed.
End point_props.

(** ** The constants *)

Module Bn254Witness.
Definition from_hex (s : string) : option (list byte) := to_be 32 <$> fixed_from_hex 64 s.

(** The field, and its extension by a square root of -1. *)
Definition mul2 (x y : Z * Z) : Z * Z :=
  ((x.1 * y.1 - x.2 * y.2) mod BN_P, (x.1 * y.2 + x.2 * y.1) mod BN_P).
Definition add2 (x y : Z * Z) : Z * Z := ((x.1 + y.1) mod BN_P, (x.2 + y.2) mod BN_P).

(** The first generator lies on [y^2 = x^3 + 3]. *)
Example g1_generator_on_curve :
  match G1_GENERATOR (E := unit) from_hex with
  | Ok (x, y) => (y * y) mod BN_P = (x * x * x + 3) mod BN_P
  | _ => False
  end.
Proof. vm_compute. reflexivity. Qed.

(** The second on the twist: [y^2 = x^3 + 3 / (9 + i)], multiplied out. *)
Example g2_generator_on_twist :
  match G2_GENERATOR (E := unit) from_hex with
  | Ok (x, y) => mul2 (9, 1) (mul2 y y) = add2 (mul2 (9, 1) (mul2 x (mul2 x x))) (3, 0)
  | _ => False
  end.
Proof. vm_compute. reflexivity. Qed.
End Bn254Witness.
