(* ===== verification/Flashblocks.v ===== *)
(** * The flashblocks client ([core/src/flashblocks.rs])

    A websocket endpoint streams the differences of a block that is being
    built.  [preflight] checks that it does; [listen] turns every message into
    marks, one for each transaction the message has a receipt of, and sends
    them to the transaction actor.  A stream is the list of the items read from
    it, each with the time it is read at.  The JSON parser is a parameter. *)

From Stdlib Require Import Strings.Byte Strings.Ascii Strings.String.
From S2P Require Import Prelude Text Utf8 F64 Json Alloy Db TxActor SqliteDb.

(** [tungstenite::Message]. *)
Inductive Message :=
| TextMessage (text : string)
| BinaryMessage (bytes : list byte)
| PingMessage
| PongMessage
| CloseMessage
| FrameMessage.

(** The errors of the websocket library are kept as texts. *)
Inductive FlashblocksError :=
| ConnectionClosed
| ConnectionFailed (err url : string)
| ConnectionLost (err : string)
| PreflightConnectionClosed
| PreflightRequestFailed (err : string)
| PreflightTimeout (secs : Z)
| PreflightInvalidResult (result : string)
| WriteStreamClose (err : string).

(** The text of an error.  That of an invalid result shows its first 200 bytes. *)
Definition flashblocks_error_text (e : FlashblocksError) : outcome string string :=
  match e with
  | ConnectionClosed => mret "Flashblocks WS connection closed by server."
  | ConnectionFailed err url =>
      mret ("Failed to connect to flashblocks WS endpoint " +:+ url +:+ ": " +:+ err)
  | ConnectionLost _ => mret "Flashblocks WS connection lost"
  | PreflightConnectionClosed => mret "Flashblocks WS connection closed during preflight"
  | PreflightRequestFailed _ => mret "Flashblocks WS connection error during preflight"
  | PreflightTimeout secs =>
      mret ("Flashblocks WS endpoint did not send any data within " +:+ dec secs +:+ " seconds")
  | PreflightInvalidResult result =>
      shown ← str_prefix (String.length result `min` 200) result;
      mret ("Flashblocks WS endpoint sent unexpected message format (missing metadata.receipts): "
              +:+ shown)
  | WriteStreamClose _ => mret "Failed to close write stream for Flashblocks WS endpoint"
  end%string.

Definition ws_message_to_text (msg : Message) : option string :=
  match msg with
  | TextMessage t => Some t
  | BinaryMessage b => from_utf8 b
  | _ => None
  end.

(** What is read from the stream, an error or a message, and when (in
    milliseconds). *)
Record Item := { it_at : Z; it_msg : string + Message }.

(** A connected stream: its items, and when the server ends it, if it does. *)
Record FbStream := { fs_items : list Item; fs_end : option Z }.

Section client.
Context {F : FromHex} (from_str : string -> option Json) (from_str_error : string -> string).

(** ** The preflight check *)

Definition PREFLIGHT_TIMEOUT : Z := 10.

(** The text of the first message that has one, within the timeout.  The times
    count from the moment the client starts to read. *)
Fixpoint first_text (items : list Item) (end_ : option Z) : outcome FlashblocksError string :=
  match items with
  | [] =>
      match end_ with
      | Some t =>
          Err (if t <=? PREFLIGHT_TIMEOUT * 1000 then PreflightConnectionClosed
               else PreflightTimeout PREFLIGHT_TIMEOUT)
      | None => Err (PreflightTimeout PREFLIGHT_TIMEOUT)
      end
  | i :: items =>
      if PREFLIGHT_TIMEOUT * 1000 <? it_at i then Err (PreflightTimeout PREFLIGHT_TIMEOUT)
      else
        match it_msg i with
        | inl e => Err (PreflightRequestFailed e)
        | inr res =>
            match ws_message_to_text res with
            | Some text => Ok text
            | None => first_text items end_
            end
        end
  end.

Definition metadata_receipts (parsed : Json) : option Json :=
  metadata ← json_field "metadata" parsed; json_field "receipts" metadata.

Definition preflight (connect : outcome FlashblocksError FbStream) : outcome FlashblocksError unit :=
  ws_stream ← connect;
  text ← first_text (fs_items ws_stream) (fs_end ws_stream);
  match from_str text with
  | None => Err (PreflightInvalidResult (from_str_error text))
  | Some parsed =>
      match metadata_receipts parsed with
      | None => Err (PreflightInvalidResult text)
      | Some _ => Ok tt
      end
  end.

(** ** Listening *)

(** The hashes a message has receipts of: the keys that are hashes. *)
Definition receipt_hashes (parsed : Json) : list TxHash :=
  match metadata_receipts parsed ≫= as_object with
  | Some receipts => omap hash_from_hex receipts.*1
  | None => []
  end.

(** The marks of a parsed message: none without an index. *)
Definition diff_marks (timestamp_ms : Z) (parsed : Json) : list FlashblockMark :=
  match json_field "index" parsed ≫= as_u64 with
  | Some index =>
      (fun h => {| fm_tx_hash := h; fm_timestamp_ms := timestamp_ms; fm_index := index |}) <$>
        receipt_hashes parsed
  | None => []
  end.

Definition message_marks (timestamp_ms : Z) (msg : Message) : list FlashblockMark :=
  match ws_message_to_text msg ≫= from_str with
  | Some parsed => diff_marks timestamp_ms parsed
  | None => []
  end.

(** The marks that were sent, whether the run was cancelled, and the result
    once the listener has returned. *)
Record Listener := {
  li_sent : list FlashblockMark;
  li_cancelled : bool;
  li_result : option (outcome FlashblocksError unit);
}.

Definition Listener_new : Listener :=
  {| li_sent := []; li_cancelled := false; li_result := None |}.

(** Sending to an actor that takes [room] marks in all before its channel
    closes ([None]: it never closes). *)
Definition is_open (room : option nat) (sent : list FlashblockMark) : bool :=
  match room with Some n => (length sent <? n)%nat | None => true end.

Fixpoint send_marks (room : option nat) (marks : list FlashblockMark) (l : Listener) : Listener :=
  match marks with
  | [] => l
  | m :: marks =>
      if is_open room (li_sent l)
      then send_marks room marks
             {| li_sent := li_sent l ++ [m]; li_cancelled := li_cancelled l;
                li_result := li_result l |}
      else {| li_sent := li_sent l; li_cancelled := li_cancelled l; li_result := Some (Ok tt) |}
  end.

(** The connection is gone: the run is cancelled. *)
Definition give_out (e : FlashblocksError) (l : Listener) : Listener :=
  {| li_sent := li_sent l; li_cancelled := true; li_result := Some (Err e) |}.

(** One turn of the loop. *)
Definition listen_step (room : option nat) (l : Listener) (i : Item) : Listener :=
  match li_result l with
  | Some _ => l
  | None =>
      match it_msg i with
      | inl e => give_out (ConnectionLost e) l
      | inr CloseMessage => give_out ConnectionClosed l
      | inr msg => send_marks room (message_marks (it_at i) msg) l
      end
  end.

(** The listener after these items; the stream ends after the last one if
    [ended], otherwise the listener still waits. *)
Definition listen_end (ended : bool) (l : Listener) : Listener :=
  match li_result l with
  | Some _ => l
  | None =>
      {| li_sent := li_sent l; li_cancelled := li_cancelled l;
         li_result := if ended then Some (Ok tt) else None |}
  end.

Definition listen (room : option nat) (connect : outcome FlashblocksError (list Item)) (ended : bool)
  : Listener :=
  match connect with
  | Ok items => listen_end ended (fold_left (listen_step room) items Listener_new)
  | Err e => {| li_sent := []; li_cancelled := false; li_result := Some (Err e) |}
  | Panic => {| li_sent := []; li_cancelled := false; li_result := Some Panic |}
  end.

End client.

(** ** Marks *)

Section marks.
Context {F : FromHex} (from_str : string -> option Json).

(** The error that ends reading, if there is one, and the marks of the messages
    before it. *)
Definition item_error (i : Item) : option FlashblocksError :=
  match it_msg i with
  | inl e => Some (ConnectionLost e)
  | inr CloseMessage => Some ConnectionClosed
  | inr _ => None
  end.
Definition item_marks (i : Item) : list FlashblockMark :=
  match it_msg i with inl _ => [] | inr msg => message_marks from_str (it_at i) msg end.

Fixpoint stream_error (items : list Item) : option FlashblocksError :=
  match items with
  | [] => None
  | i :: items => match item_error i with Some e => Some e | None => stream_error items end
  end.
Fixpoint stream_marks (items : list Item) : list FlashblockMark :=
  match items with
  | [] => []
  | i :: items =>
      match item_error i with Some _ => [] | None => item_marks i ++ stream_marks items end
  end.

(** What the actor takes. *)
Definition fits (room : option nat) (k : nat) : bool :=
  match room with Some n => (k <=? n)%nat | None => true end.
Definition cut {A} (room : option nat) (l : list A) : list A :=
  match room with Some n => take n l | None => l end.

Lemma cut_fits {A} room (l : list A) : fits room (length l) = true -> cut room l = l.
Proof. destruct room as [n|]; cbn; [|done]. intros H%Nat.leb_le. by apply take_ge. Qed.

Lemma fits_open room (l : list FlashblockMark) m :
  fits room (length l) = true -> is_open room l = fits room (length (l ++ [m])).
Proof.
  unfold is_open, fits. rewrite length_app. destruct room as [n|]; [|done].
  change (length [m]) with 1%nat. intros H%Nat.leb_le.
  destruct (Nat.ltb_spec (length l) n), (Nat.leb_spec (length l + 1) n); done || lia.
Qed.

Lemma send_marks_spec room ms l : fits room (length (li_sent l)) = true ->
  send_marks room ms l =
    {| li_sent := cut room (li_sent l ++ ms); li_cancelled := li_cancelled l;
       li_result := if fits room (length (li_sent l ++ ms)) then li_result l else Some (Ok tt) |}.
Proof.
  revert l. induction ms as [|m ms IH]; intros l Hl; cbn [send_marks].
  { rewrite app_nil_r, Hl, cut_fits by done. by destruct l. }
  rewrite (fits_open room _ m) by done.
  destruct (fits room (length (li_sent l ++ [m]))) eqn:E.
  - rewrite IH by done. cbn. by rewrite <- app_assoc.
  - destruct room as [n|]; [|done]. unfold fits, cut in *. rewrite length_app in E |- *.
    change (length [m]) with 1%nat in E. apply Nat.leb_le in Hl. apply Nat.leb_gt in E.
    assert (length (li_sent l) = n) as <- by lia.
    rewrite take_app_length. by rewrite (proj2 (Nat.leb_gt _ _)) by (cbn; lia).
Qed.

Lemma listen_stopped room items l r :
  li_result l = Some r -> fold_left (listen_step from_str room) items l = l.
Proof.
  intros H. induction items as [|i items IH]; [done|]. cbn [fold_left].
  unfold listen_step at 2. by rewrite H.
Qed.

(** The result of the items, when no send fails. *)
Lemma listen_items room items l :
  li_result l = None -> fits room (length (li_sent l)) = true ->
  fold_left (listen_step from_str room) items l =
    let sent := li_sent l ++ stream_marks items in
    if fits room (length sent) then
      {| li_sent := sent;
         li_cancelled := li_cancelled l || bool_decide (is_Some (stream_error items));
         li_result := Err <$> stream_error items |}
    else {| li_sent := cut room sent; li_cancelled := li_cancelled l; li_result := Some (Ok tt) |}.
Proof.
  revert l. induction items as [|i items IH]; intros l Hn Hl; cbn zeta.
  { cbn. rewrite app_nil_r, Hl, orb_false_r, <- Hn. by destruct l. }
  cbn [fold_left stream_marks stream_error].
  assert (Hstep : listen_step from_str room l i =
    match item_error i with
    | Some e => give_out e l
    | None => send_marks room (item_marks i) l
    end).
  { unfold listen_step, item_error, item_marks. rewrite Hn. by destruct (it_msg i) as [|[]]. }
  rewrite Hstep. destruct (item_error i) as [e|].
  { rewrite (listen_stopped _ _ _ (Err e)) by done. rewrite app_nil_r, Hl. cbn.
    unfold give_out. by rewrite orb_true_r. }
  rewrite send_marks_spec by done. rewrite Hn, (app_assoc (li_sent l)).
  set (s1 := li_sent l ++ item_marks i). destruct (fits room (length s1)) eqn:E1.
  - rewrite cut_fits by done. by rewrite IH.
  - rewrite (listen_stopped _ _ _ (Ok tt)) by done. unfold fits in *. destruct room as [n|]; [|done].
    apply Nat.leb_gt in E1. rewrite length_app. rewrite (proj2 (Nat.leb_gt _ _)) by lia.
    cbn [cut]. by rewrite take_app_le by lia.
Qed.

(** The flashblock listener sends the marks of the messages in the order
    of the stream, those of every message up to the first error or close
    message: one for each key of its receipts that is a hash, all with the
    message's index and the time it was read at, none for a message that is not
    JSON or has no index.  It stops, without cancelling the run, at the first
    mark the actor no longer takes; it cancels the run exactly when the
    connection is lost or closed by a message, and ends well when the stream
    just ends. *)
Theorem listen_sends_marks room items ended :
  let sent := stream_marks items in
  listen from_str room (Ok items) ended =
    if fits room (length sent) then
      {| li_sent := sent;
         li_cancelled := bool_decide (is_Some (stream_error items));
         li_result := match stream_error items with
                      | Some e => Some (Err e)
                      | None => if ended then Some (Ok tt) else None
                      end |}
    else {| li_sent := cut room sent; li_cancelled := false; li_result := Some (Ok tt) |}.
Proof.
  cbn zeta. unfold listen. rewrite listen_items by (done || by destruct room). cbn.
  destruct (fits room (length (stream_marks items))); [|done].
  unfold listen_end. by destruct (stream_error items).
Qed.

(** ** The actor *)

Context {D : Type} {DO : DbOps D}.

Definition deliver (marks : list FlashblockMark) (s : TxActor (D := D)) : TxActor (D := D) :=
  fold_left handle_flashblock_mark marks s.

Definition names (h : TxHash) (m : FlashblockMark) : bool := fm_tx_hash m =? h.

Lemma mark_tx_twice m m' p : mark_tx m' (mark_tx m p) = mark_tx m p.
Proof. unfold mark_tx. by destruct (pt_flashblock_timestamp_ms p) eqn:E; cbn; rewrite ?E. Qed.

Lemma mark_other s m h p : names h m = false ->
  ta_cache s !! h = Some p -> ta_cache (handle_flashblock_mark (D := D) s m) !! h = Some p.
Proof.
  unfold names, handle_flashblock_mark. intros Hn H.
  destruct (ta_cache s !! fm_tx_hash m) as [q|] eqn:E; [cbn; rewrite lookup_insert_ne by lia; done|].
  by repeat case_match.
Qed.

(** A cached transaction keeps the first mark that names it. *)
Lemma deliver_cached marks s h p : ta_cache s !! h = Some p ->
  ta_cache (deliver marks s) !! h =
    Some (match List.find (names h) marks with Some m => mark_tx m p | None => p end).
Proof.
  unfold deliver. revert s p. induction marks as [|m marks IH]; intros s p H; cbn; [done|].
  destruct (names h m) eqn:En.
  - unfold names in En. apply Z.eqb_eq in En. subst h.
    assert (H' : ta_cache (handle_flashblock_mark s m) !! fm_tx_hash m = Some (mark_tx m p)).
    { unfold handle_flashblock_mark. rewrite H. cbn. by rewrite lookup_insert_eq. }
    rewrite (IH _ _ H'). destruct (List.find _ marks); [|done]. by rewrite mark_tx_twice.
  - by apply IH, mark_other.
Qed.

Lemma stream_marks_app items items' : stream_error items = None ->
  stream_marks (items ++ items') = (items ≫= item_marks) ++ stream_marks items'.
Proof.
  induction items as [|i items IH]; cbn; [done|]. destruct (item_error i); [done|].
  intros H. rewrite IH by done. by rewrite app_assoc.
Qed.

Lemma listen_sent_all items ended :
  li_sent (listen from_str None (Ok items) ended) = stream_marks items.
Proof. unfold listen. rewrite listen_items by done. cbn. by destruct (stream_error items). Qed.

Lemma find_app_none {A} (p : A -> bool) (l l' : list A) :
  Forall (fun x => p x = false) l -> List.find p (l ++ l') = List.find p l'.
Proof. induction 1 as [|x l Hx _ IH]; cbn; [done|]. by rewrite Hx. Qed.

Lemma find_head {A} (p : A -> bool) (f : TxHash -> A) h hs l :
  (forall x, p (f x) = (x =? h)) -> h ∈ hs -> List.find p ((f <$> hs) ++ l) = Some (f h).
Proof.
  intros Hp. induction hs as [|x hs IH]; [by intros H%elem_of_nil|]. intros Hin. cbn. rewrite Hp.
  destruct (Z.eqb_spec x h) as [->|Hne]; [done|]. apply IH.
  apply elem_of_cons in Hin as [->|]; done.
Qed.

(** C20: a transaction that is in the actor's cache without a mark gets its
    mark from the first message of the stream with a receipt of it: after all
    the marks of the stream have reached the actor it is cached with that
    message's time and index, whatever messages follow, and its latency is the
    time between being sent and that message being read. *)
Theorem flashblock_recorded s h p before i msg parsed idx after ended :
  ta_cache s !! h = Some p -> pt_flashblock_timestamp_ms p = None ->
  stream_error before = None ->
  Forall (fun m => names h m = false) (before ≫= item_marks) ->
  it_msg i = inr msg -> ws_message_to_text msg ≫= from_str = Some parsed ->
  json_field "index" parsed ≫= as_u64 = Some idx -> h ∈ receipt_hashes parsed ->
  let marks := li_sent (listen from_str None (Ok (before ++ i :: after)) ended) in
  exists p', ta_cache (deliver marks s) !! h = Some p' /\
    pt_flashblock_timestamp_ms p' = Some (it_at i) /\ pt_flashblock_index p' = Some idx /\
    pt_start_timestamp_ms p' = pt_start_timestamp_ms p /\
    flashblock_latency_ms (E := unit) p' =
      opt_narrow64 (Some (saturating_sub (it_at i) (pt_start_timestamp_ms p))).
Proof.
  intros Hc Hp Hb Hf Hi Htext Hidx Hin marks. subst marks.
  rewrite listen_sent_all, stream_marks_app by done.
  set (i_marks := stream_marks (i :: after)).
  assert (exists rest, i_marks = ((fun h => {| fm_tx_hash := h; fm_timestamp_ms := it_at i;
            fm_index := idx |}) <$> receipt_hashes parsed) ++ rest) as [rest Hrest].
  { subst i_marks. cbn [stream_marks]. unfold item_error, item_marks, message_marks, diff_marks.
    rewrite Hi, Htext, Hidx. destruct msg; try done; by eexists. }
  assert (Hfind : List.find (names h) ((before ≫= item_marks) ++ i_marks) =
            Some {| fm_tx_hash := h; fm_timestamp_ms := it_at i; fm_index := idx |}).
  { rewrite find_app_none, Hrest by done.
    apply (find_head (names h) (fun h => {| fm_tx_hash := h; fm_timestamp_ms := it_at i;
             fm_index := idx |})); done. }
  eexists. split.
  { by rewrite (deliver_cached _ _ _ _ Hc), Hfind. }
  unfold mark_tx, flashblock_latency_ms. by rewrite Hp.
Qed.

End marks.

(** ** The preflight check *)

Section check_stream.
Context (from_str : string -> option Json) (from_str_error : string -> string).

(** A stream passes exactly when its first message with a text comes within
    the timeout, before any error and before the end of the stream, and is JSON
    with receipts in its metadata. *)
Definition good_first (text : string) (before : list Item) (i : Item) : Prop :=
  Forall (fun j => it_at j <= PREFLIGHT_TIMEOUT * 1000 /\
            exists m, it_msg j = inr m /\ ws_message_to_text m = None) before /\
  it_at i <= PREFLIGHT_TIMEOUT * 1000 /\
  exists m, it_msg i = inr m /\ ws_message_to_text m = Some text.

Lemma first_text_ok items end_ text :
  first_text items end_ = Ok text <->
  exists before i after, items = before ++ i :: after /\ good_first text before i.
Proof.
  unfold good_first. induction items as [|j items IH]; cbn [first_text].
  { split; [by repeat case_match|]. by intros ([] & ? & ? & ? & _). }
  destruct (Z.ltb_spec (PREFLIGHT_TIMEOUT * 1000) (it_at j)) as [Hlate|Hin].
  { split; [done|]. intros ([|j' before] & i & after & [= -> ->] & Hb & Hi & _); [lia|].
    apply Forall_cons in Hb as [[] _]. lia. }
  destruct (it_msg j) as [e|m] eqn:Em.
  { split; [done|]. intros ([|j' before] & i & after & [= -> ->] & Hb & _ & m & Hm & _);
      [by rewrite Hm in Em|]. apply Forall_cons in Hb as [[_ (m' & Hm' & _)] _]. congruence. }
  destruct (ws_message_to_text m) as [t|] eqn:Et.
  - split.
    + intros [= ->]. exists [], j, items. naive_solver.
    + intros ([|j' before] & i & after & [= -> ->] & Hb & _ & m' & Hm & Ht); [congruence|].
      apply Forall_cons in Hb as [[_ (m'' & Hm'' & Hnone)] _]. congruence.
  - rewrite IH. split.
    + intros (before & i & after & -> & Hb & Hi). exists (j :: before), i, after.
      split; [done|]. split; [constructor; naive_solver|done].
    + intros ([|j' before] & i & after & [= -> ->] & Hb & Hi & m' & Hm & Ht); [congruence|].
      apply Forall_cons in Hb as [_ Hb]. exists before, i, after. naive_solver.
Qed.

(** The preflight check lets an endpoint pass exactly when its stream can
    be read, and the first message with a text arrives in the first ten
    seconds, after messages without text only, and is JSON whose metadata has
    receipts (of whatever form). *)
Theorem preflight_passes connect :
  preflight from_str from_str_error connect = Ok tt <->
  exists st before i after text parsed receipts,
    connect = Ok st /\ fs_items st = before ++ i :: after /\ good_first text before i /\
    from_str text = Some parsed /\ metadata_receipts parsed = Some receipts.
Proof.
  unfold preflight. destruct connect as [st|e|]; cbn; [|naive_solver..].
  destruct (first_text (fs_items st) (fs_end st)) as [text|e|] eqn:Ef; cbn.
  2-3: split; [done|]; intros (? & before & i & after & text & parsed & receipts & [= <-] & Hs & Hg & _);
    by rewrite (proj2 (first_text_ok _ _ _) (ex_intro _ before (ex_intro _ i (ex_intro _ after
      (conj Hs Hg))))) in Ef.
  pose proof Ef as Ef'. apply first_text_ok in Ef' as (before & i & after & Hs & Hg). split.
  - destruct (from_str text) as [parsed|] eqn:Ep; [|done].
    destruct (metadata_receipts parsed) as [receipts|] eqn:Er; [|done]. intros _. naive_solver.
  - intros (st' & before' & i' & after' & text' & parsed & receipts & [= <-] & Hs' & Hg' & Hp & Hr).
    rewrite (proj2 (first_text_ok _ (fs_end st) _) (ex_intro _ before' (ex_intro _ i'
      (ex_intro _ after' (conj Hs' Hg'))))) in Ef.
    simplify_eq. by rewrite Hp, Hr.
Qed.

End check_stream.

(** ** Examples *)

Section examples.

#[local] Instance toy_hex : FromHex := {
  hash_from_hex s := if String.prefix "0x" s then Some (Z.of_nat (String.length s)) else None;
  address_from_hex _ := None }.

Definition diff_of (index : Json) (keys : list string) : Json :=
  JObject [("index", index);
           ("metadata", JObject [("receipts", JObject ((fun k => (k, JNull)) <$> keys))])].

(** A parser that knows three texts. *)
Definition toy_parse (s : string) : option Json :=
  if String.eqb s "first" then Some (diff_of (JNumber 0) ["0x1"; "zz"; "0x22"])
  else if String.eqb s "second" then Some (diff_of (JNumber 1) ["0x22"; "0x333"])
  else if String.eqb s "no index" then Some (diff_of (JString "1") ["0x1"])
  else None.

Definition at_ms (t : Z) (m : Message) : Item := {| it_at := t; it_msg := inr m |}.
Definition stream3 : list Item :=
  [at_ms 1000 PingMessage; at_ms 1100 (TextMessage "no index"); at_ms 1250 (TextMessage "first");
   at_ms 1400 (BinaryMessage (list_byte_of_string "second"))].

Example stream3_marks :
  (fun m => (fm_tx_hash m, fm_timestamp_ms m, fm_index m)) <$> stream_marks toy_parse stream3 =
  [(3, 1250, 0); (4, 1250, 0); (4, 1400, 1); (5, 1400, 1)].
Proof. vm_compute. reflexivity. Qed.

Definition sent_first : TxActor (D := MockDb) :=
  (handle_message (TxActor_new 0 mock_db) (SentRunTx 4 1000 None None None true)).1.

Lemma flashblock_recorded_witness :
  exists p', ta_cache (deliver (li_sent (listen toy_parse None (Ok stream3) false)) sent_first) !! 4
               = Some p' /\
    pt_flashblock_timestamp_ms p' = Some 1250 /\ pt_flashblock_index p' = Some 0 /\
    pt_start_timestamp_ms p' = 1000 /\
    flashblock_latency_ms (E := unit) p' = opt_narrow64 (Some (saturating_sub 1250 1000)).
Proof.
  refine (flashblock_recorded toy_parse sent_first 4 (PendingRunTx_new 4 1000 None None)
            [at_ms 1000 PingMessage; at_ms 1100 (TextMessage "no index")]
            (at_ms 1250 (TextMessage "first")) (TextMessage "first")
            (diff_of (JNumber 0) ["0x1"; "zz"; "0x22"]) 0 _ false _ _ _ _ _ _ _ _);
    try reflexivity; [constructor|]. vm_compute. right. left.
Defined.

(** A text of a hundred and one e-acute after one letter: its 200th byte is inside a
    character, and the text of the error cannot be made. *)
Definition long_invalid : list byte :=
  byte_of_ascii "a" :: concat (replicate 101 [byte_of_ascii (ascii_of_nat 195);
                                              byte_of_ascii (ascii_of_nat 169)]).

Example long_invalid_panics :
  from_utf8 long_invalid = Some (string_of_list_byte long_invalid) /\
  flashblocks_error_text (PreflightInvalidResult (string_of_list_byte long_invalid)) = Panic.
Proof. vm_compute. done. Qed.

End examples.
