(* ===== verification/Metrics.v ===== *)
(** * Latency metrics and progress reports ([core/src/provider.rs],
      [core/src/test_scenario.rs], [core/src/util.rs])

    A layer of every client times the requests and observes the latency of the
    answered ones in a histogram by method; the sends of a run that go past the
    clients, synchronous ones and JSON-RPC batches, are observed by the scenario
    itself, whatever comes of them.  From the registry of the process
    [F64.collect_latency_from_registry] reads the buckets that reports show.
    The prometheus library is the class [Prometheus]: what a registry gathers
    from the samples of its histograms.  While a run goes on a task prints what
    the database knows of it. *)

From Stdlib Require Import Strings.String.
From S2P Require Import Prelude Text F64 Alloy Db.

(** ** Histograms *)

(** [HistogramVec::new]: a name, the upper bounds of the buckets and the label,
    with the label's values asked for so far, and the samples observed, each
    with its label's value. *)
Record HistogramVec := {
  hv_name : string;
  hv_bounds : list f64;
  hv_label : string;
  hv_children : list string;
  hv_samples : list (string * f64);
}.

(** The bucket a sample falls into: the first whose bound it does not exceed. *)
Definition bucket_of (bounds : list f64) (v : f64) : option nat :=
  fst <$> list_find (fun b => f64_le v b = true) bounds.

(** How many samples with a label fall into the first buckets up to the [i]-th. *)
Definition falls (bounds : list f64) (i : nat) (v : f64) : bool :=
  match bucket_of bounds v with Some j => (j <=? i)%nat | None => false end.
Definition bucket_count (h : HistogramVec) (label : string) (i : nat) : Z :=
  Z.of_nat (length (filter (fun s => String.eqb s.1 label && falls (hv_bounds h) i s.2 = true)
                      (hv_samples h))).

Definition metric_of (h : HistogramVec) (label : string) : Metric := {|
  m_labels := [(hv_label h, label)];
  m_buckets := imap (fun i b => (b, Some (bucket_count h label i))) (hv_bounds h) |}.

(** A registry with one histogram gathers one family, with the metric of each
    label value asked for, in some order. *)
Class Prometheus := gather : list HistogramVec -> list MetricFamily.
Class PrometheusLaws (Pr : Prometheus) : Prop := {
  gather_one h : exists labels, NoDup labels /\
    (forall l, l ∈ labels <-> l ∈ hv_children h) /\
    gather [h] = match labels with
                 | [] => []
                 | _ => [{| mf_name := hv_name h; mf_metrics := metric_of h <$> labels |}]
                 end;
}.

(** ** The layer *)

(** The histograms made so far, by number, and the two cells of the process: the
    registry, as the histograms registered in it, and the histogram observed. *)
Record Metrics := {
  mt_histograms : list HistogramVec;
  mt_registry : option (list nat);
  mt_histogram : option nat;
}.
Definition Metrics_new : Metrics :=
  {| mt_histograms := []; mt_registry := None; mt_histogram := None |}.

Definition latency_bounds : list f64 :=
  [f64_lit 1 10000; f64_lit 1 1000; f64_lit 1 100; f64_lit 5 100; f64_lit 1 10; f64_lit 25 100;
   f64_lit 5 10].
Definition latency_histogram : HistogramVec := {|
  hv_name := RPC_REQUEST_LATENCY_ID; hv_bounds := latency_bounds;
  hv_label := "rpc_method"; hv_children := []; hv_samples := [] |}.

(** [init_metrics], the three things another thread can see: a histogram is made
    and registered in a registry of its own; each cell is set unless it is. *)
Definition make_histogram (m : Metrics) : Metrics * nat :=
  ({| mt_histograms := mt_histograms m ++ [latency_histogram];
      mt_registry := mt_registry m; mt_histogram := mt_histogram m |},
   length (mt_histograms m)).
Definition set_registry (h : nat) (m : Metrics) : Metrics := {|
  mt_histograms := mt_histograms m;
  mt_registry := match mt_registry m with None => Some [h] | Some r => Some r end;
  mt_histogram := mt_histogram m |}.
Definition set_histogram (h : nat) (m : Metrics) : Metrics := {|
  mt_histograms := mt_histograms m; mt_registry := mt_registry m;
  mt_histogram := match mt_histogram m with None => Some h | Some h' => Some h' end |}.
Definition init_metrics (m : Metrics) : Metrics :=
  let '(m, h) := make_histogram m in set_histogram h (set_registry h m).

(** A request: one, with its method and its id when that is a number, or a
    batch; its answer, which for one has a payload when it is a success. *)
Inductive RequestPacket := SingleRequest (method : string) (id : option Z) | BatchRequest.
Inductive ResponsePacket := SingleResponse (payload : option string) | BatchResponse.

(** What a call remembers while the request is under way. *)
Record PendingCall := {
  pc_method : string;
  pc_id : Z;
  pc_log_req : bool;
  pc_histogram : option nat;
}.

Definition begin_call (m : Metrics) (req : RequestPacket) : PendingCall :=
  match req with
  | SingleRequest method id => {|
      pc_method := method; pc_id := default 0 id;
      pc_log_req := String.eqb method "eth_sendRawTransaction"; pc_histogram := mt_histogram m |}
  | BatchRequest => {|
      pc_method := ""; pc_id := 0; pc_log_req := false; pc_histogram := mt_histogram m |}
  end.

Definition alter_histogram (g : HistogramVec -> HistogramVec) (h : nat) (m : Metrics) : Metrics := {|
  mt_histograms := alter g h (mt_histograms m);
  mt_registry := mt_registry m; mt_histogram := mt_histogram m |}.
(** [with_label_values]: the label's value is there from then on. *)
Definition with_label_values (method : string) (hv : HistogramVec) : HistogramVec := {|
  hv_name := hv_name hv; hv_bounds := hv_bounds hv; hv_label := hv_label hv;
  hv_children := hv_children hv ++ [method]; hv_samples := hv_samples hv |}.
(** The observation of a value that was asked for before. *)
Definition observe_child (method : string) (elapsed : f64) (hv : HistogramVec) : HistogramVec := {|
  hv_name := hv_name hv; hv_bounds := hv_bounds hv; hv_label := hv_label hv;
  hv_children := hv_children hv; hv_samples := hv_samples hv ++ [(method, elapsed)] |}.
Definition observe (h : nat) (method : string) (elapsed : f64) (m : Metrics) : Metrics :=
  alter_histogram (fun hv => observe_child method elapsed (with_label_values method hv)) h m.

(** The end of a call: the metrics, and the lines written to the debug log; the
    result goes to the caller as it is. *)
Definition end_call (c : PendingCall) (res : outcome string ResponsePacket) (elapsed : f64)
    (m : Metrics) : Metrics * list string :=
  match res with
  | Ok resp =>
      let m := match pc_histogram c with
               | Some h => observe h (pc_method c) elapsed m
               | None => m
               end in
      (m, match resp with
          | SingleResponse (Some payload) =>
              if pc_log_req c
              then ["tx delivered. hash: " +:+ payload +:+ ", id: " +:+ dec (pc_id c)]
              else []
          | _ => []
          end)%string
  | Err err =>
      (m, ["[" +:+ pc_method c +:+ "] RPC Error (id: " +:+ dec (pc_id c) +:+ "): " +:+ err])%string
  | Panic => (m, [])
  end.

(** A request and how it ended, after how many seconds. *)
Record Served := {
  sr_request : RequestPacket;
  sr_result : outcome string ResponsePacket;
  sr_elapsed : f64;
}.
Definition serve (m : Metrics) (s : Served) : Metrics :=
  (end_call (begin_call m (sr_request s)) (sr_result s) (sr_elapsed s) m).1.

(** [collect_latency_from_registry] of the cell. *)
Definition collected `{Prometheus} (m : Metrics) : gmap string (list Bucket) :=
  match mt_registry m with
  | Some r => collect_latency_from_registry (gather (omap (fun h => mt_histograms m !! h) r))
  | None => ∅
  end.

(** ** The sends of a run that go past the clients ([TestScenario::execute_spam]) *)

(** On the histogram of the cell, when there is one. *)
Definition on_histogram (g : HistogramVec -> HistogramVec) (m : Metrics) : Metrics :=
  match mt_histogram m with Some h => alter_histogram g h m | None => m end.

Definition SEND_SYNC : string := "eth_sendRawTransactionSync".
Definition SEND : string := "eth_sendRawTransaction".
(** A synchronous send is over: it was answered or could not be sent, or the run
    was cancelled. *)
Definition sync_send_over (elapsed : f64) (m : Metrics) : Metrics :=
  on_histogram (fun hv => observe_child SEND_SYNC elapsed (with_label_values SEND_SYNC hv)) m.
(** The timer of a JSON-RPC batch is started, and observes once the batch is sent
    or could not be, or when its task is dropped. *)
Definition batch_send_starts (m : Metrics) : Metrics := on_histogram (with_label_values SEND) m.
Definition batch_send_over (elapsed : f64) (m : Metrics) : Metrics := on_histogram (observe_child SEND elapsed) m.

(** What happens to the metrics of a process: a client is made with a layer of its
    own, a request is served by a client, or a run sends past the clients. *)
Inductive MetricsEvent :=
| NewLayer
| Serve (s : Served)
| SyncSendOver (elapsed : f64)
| BatchSendStarts
| BatchSendOver (elapsed : f64).
Definition metrics_event (m : Metrics) (e : MetricsEvent) : Metrics :=
  match e with
  | NewLayer => init_metrics m
  | Serve s => serve m s
  | SyncSendOver elapsed => sync_send_over elapsed m
  | BatchSendStarts => batch_send_starts m
  | BatchSendOver elapsed => batch_send_over elapsed m
  end.

(** The methods under which events make samples or will, and the samples: of the
    requests of the clients only the answered ones, a batch's under the empty name;
    of the other sends all that are over. *)
Definition request_method (r : RequestPacket) : string :=
  match r with SingleRequest m _ => m | BatchRequest => "" end.
Definition label_of (e : MetricsEvent) : option string :=
  match e with
  | Serve s => match sr_result s with Ok _ => Some (request_method (sr_request s)) | _ => None end
  | SyncSendOver _ => Some SEND_SYNC
  | BatchSendStarts => Some SEND
  | NewLayer | BatchSendOver _ => None
  end.
Definition sample_of (e : MetricsEvent) : option (string * f64) :=
  match e with
  | Serve s => match sr_result s with
               | Ok _ => Some (request_method (sr_request s), sr_elapsed s)
               | _ => None
               end
  | SyncSendOver elapsed => Some (SEND_SYNC, elapsed)
  | BatchSendOver elapsed => Some (SEND, elapsed)
  | NewLayer | BatchSendStarts => None
  end.
Definition labels (l : list MetricsEvent) : list string := omap label_of l.
Definition samples (l : list MetricsEvent) : list (string * f64) := omap sample_of l.

(** How many of the samples of a method fall into the first buckets up to the
    [i]-th. *)
Definition count_upto (l : list (string * f64)) (method : string) (i : nat) : Z :=
  Z.of_nat (length (filter (fun s => String.eqb s.1 method && falls latency_bounds i s.2 = true) l)).

Definition counted (l : list (string * f64)) (method : string) : list Bucket :=
  imap (fun i b => {| upper_bound := b; cumulative_count := count_upto l method i |}) latency_bounds.

(** ** What is collected *)

Section metrics.
Context `{PL : !PrometheusLaws Pr}.

(** The cells name one histogram, the one of the latencies, with these labels and
    samples. *)
Definition latencies (ls : list string) (l : list (string * f64)) : HistogramVec :=
  {| hv_name := RPC_REQUEST_LATENCY_ID; hv_bounds := latency_bounds; hv_label := "rpc_method";
     hv_children := ls; hv_samples := l |}.
Definition holds (m : Metrics) (ls : list string) (l : list (string * f64)) : Prop :=
  exists h, mt_registry m = Some [h] /\ mt_histogram m = Some h /\
    mt_histograms m !! h = Some (latencies ls l).

Lemma holds_new : holds (init_metrics Metrics_new) [] [].
Proof. by exists 0%nat. Qed.

Lemma holds_alter m h g ls l ls' l' :
  mt_registry m = Some [h] -> mt_histogram m = Some h -> mt_histograms m !! h = Some (latencies ls l) ->
  g (latencies ls l) = latencies ls' l' -> holds (alter_histogram g h m) ls' l'.
Proof. intros Hr Hh Hl Hg. exists h. split_and!; [done..|]. cbn. by rewrite list_lookup_alter_eq, Hl, <- Hg. Qed.

Lemma holds_event m ls l e :
  holds m ls l -> holds (metrics_event m e) (ls ++ labels [e]) (l ++ samples [e]).
Proof.
  intros H. pose proof H as (h & Hr & Hh & Hl).
  destruct e as [|s| | |]; unfold metrics_event, sync_send_over, batch_send_starts, batch_send_over,
    on_histogram; rewrite ?Hh; cbn [labels samples omap list_omap label_of sample_of]; rewrite ?app_nil_r;
    try by eapply holds_alter.
  - exists h. cbn. rewrite Hr, Hh. split_and!; [done..|]. by apply lookup_app_l_Some.
  - unfold serve, end_call. replace (pc_histogram (begin_call m (sr_request s))) with (Some h)
      by (by destruct (sr_request s)).
    destruct (sr_result s) as [resp|err|]; cbn [fst]; rewrite ?app_nil_r; [|done..].
    eapply holds_alter; try done. by destruct (sr_request s).
Qed.

Lemma holds_run m ls l evs :
  holds m ls l -> holds (fold_left metrics_event evs m) (ls ++ labels evs) (l ++ samples evs).
Proof.
  revert m ls l. induction evs as [|e evs IH]; intros m ls l H; cbn [fold_left]; [by rewrite !app_nil_r|].
  unfold labels, samples. rewrite (omap_app _ [e] evs : omap label_of (e :: evs) = _).
  rewrite (omap_app _ [e] evs : omap sample_of (e :: evs) = _), !app_assoc. by apply IH, holds_event.
Qed.

Lemma metric_buckets_counts c bounds labels :
  metric_buckets {| m_labels := labels; m_buckets := imap (fun i b => (b, Some (c i))) bounds |} =
  imap (fun i b => {| upper_bound := b; cumulative_count := c i |}) bounds.
Proof.
  unfold metric_buckets. cbn. revert c. induction bounds as [|b bounds IH]; intros c; [done|].
  rewrite !imap_cons. cbn. f_equal. apply (IH (c ∘ S)).
Qed.

(** What is collected of the metrics of one histogram. *)
Lemma collect_metrics h values acc l :
  hv_label h = "rpc_method"%string ->
  fold_left collect_metric (metric_of h <$> values) acc !! l =
  if decide (l ∈ values) then Some (metric_buckets (metric_of h l)) else acc !! l.
Proof.
  intros Hl. revert acc. induction values as [|x values IH]; intros acc; [done|]. cbn [fmap list_fmap fold_left].
  rewrite IH. unfold collect_metric at 1. cbn [m_labels metric_of]. rewrite Hl. cbn.
  destruct (decide (x = l)) as [->|Hne].
  - rewrite lookup_insert_eq. destruct (decide (l ∈ values)), (decide (l ∈ l :: values)) as [|Hn]; try done;
      by destruct Hn; left.
  - rewrite lookup_insert_ne by done.
    destruct (decide (l ∈ values)), (decide (l ∈ x :: values)) as [Hi|Hn]; try done.
    + by destruct Hn; right.
    + by apply elem_of_cons in Hi as [].
Qed.

Lemma collected_counted m ls l method :
  holds m ls l -> collected m !! method =
    if decide (method ∈ ls) then Some (counted l method) else None.
Proof.
  intros (h & Hr & _ & Hl). unfold collected. rewrite Hr. cbn [omap list_omap]. rewrite Hl.
  destruct (gather_one (latencies ls l)) as (values & _ & Hin & ->). cbn [hv_children latencies] in Hin.
  rewrite (decide_ext (method ∈ ls) (method ∈ values)) by (symmetry; apply Hin).
  unfold collect_latency_from_registry.
  destruct values as [|x values]; [done|]. cbn [fold_left mf_name mf_metrics hv_name latencies].
  rewrite String.eqb_refl, collect_metrics by done. unfold metric_of. by rewrite metric_buckets_counts.
Qed.

(** C25: The latencies collected in a process whose layers are made one after
    the other, after any sequence of clients made, requests served by clients,
    synchronous sends and JSON-RPC batches of runs.  There are buckets for a method
    when a client's request of it was answered, for the empty name when a client's
    batch was, for [eth_sendRawTransactionSync] when a synchronous send was over and
    for [eth_sendRawTransaction] also when a JSON-RPC batch was started.  Each
    bucket then counts what took no longer than its bound: of the requests of the
    clients the answered ones only, but every synchronous send that was over,
    failed and cancelled ones among them, and every JSON-RPC batch that was over,
    as one and also when it could not be sent; those of earlier runs of the process
    are among them. *)
Theorem latencies_counted (evs : list MetricsEvent) (method : string) :
  collected (fold_left metrics_event evs (init_metrics Metrics_new)) !! method =
    if decide (method ∈ labels evs) then Some (counted (samples evs) method) else None.
Proof. apply collected_counted. exact (holds_run _ _ _ evs holds_new). Qed.

(** ** Their quantiles *)

Lemma samples_length evs : (length (samples evs) <= length evs)%nat.
Proof.
  unfold samples. induction evs as [|e evs IH]; [done|]. cbn. destruct (sample_of e); cbn; lia.
Qed.

Lemma count_upto_mono l method i : count_upto l method i <= count_upto l method (S i).
Proof.
  unfold count_upto. apply inj_le. induction l as [|s l IH]; [done|]. rewrite !filter_cons.
  destruct (decide (_ && falls latency_bounds i s.2 = true)) as [H|H];
    destruct (decide (_ && falls latency_bounds (S i) s.2 = true)) as [H'|H']; cbn; try lia.
  destruct H'. apply andb_true_iff in H as [-> H]. unfold falls in *.
  destruct (bucket_of latency_bounds s.2); [|done]. apply Nat.leb_le in H. by apply Nat.leb_le; lia.
Qed.

Lemma counts_sorted (c : nat -> Z) (bounds : list f64) :
  (forall i, c i <= c (S i)) ->
  Sorted Z.le (cumulative_count <$>
    imap (fun i b => {| upper_bound := b; cumulative_count := c i |}) bounds).
Proof.
  revert c. induction bounds as [|b bounds IH]; intros c Hc; [constructor|]. rewrite imap_cons. cbn.
  constructor; [apply (IH (c ∘ S)); intros i; apply Hc|].
  destruct bounds as [|b' bounds]; [constructor|]. constructor. apply Hc.
Qed.

Lemma counted_cumulative l method :
  Z.of_nat (length l) < 2 ^ 64 -> cumulative (counted l method).
Proof.
  intros Hl. split; [|apply counts_sorted, count_upto_mono].
  apply Forall_forall. intros b Hb. apply elem_of_lookup_imap in Hb as (i & x & -> & _). cbn.
  unfold count_upto. pose proof (length_filter (fun s : string * f64 =>
    String.eqb s.1 method && falls latency_bounds i s.2 = true) l). lia.
Qed.

(** C40: no quantile of the collected latencies panics, in whatever build, as
    long as fewer requests than fit 64 bits were answered. *)
Theorem collected_quantiles `{P : Profile} {E} (evs : list MetricsEvent) method buckets (q : f64)
    (Hn : Z.of_nat (length evs) < 2 ^ 64)
    (H : collected (fold_left metrics_event evs (init_metrics Metrics_new)) !! method = Some buckets) :
  exists x, estimate_quantile (E := E) buckets q = Ok x.
Proof.
  rewrite (collected_counted _ (labels evs) (samples evs)) in H by exact (holds_run _ _ _ evs holds_new).
  destruct (decide _); [|done]. injection H as <-.
  pose proof (samples_length evs) as Hl.
  destruct (estimate_quantile_total (E := E) (counted (samples evs) method) q) as (x & Hx & _).
  - apply counted_cumulative. lia.
  - by exists x.
Qed.
End metrics.

(** ** Two layers at once *)

(** Two threads make the first two layers of the process: the second sets both
    cells between the first's two. *)
Definition raced : Metrics :=
  let '(m, a) := make_histogram Metrics_new in
  let '(m, b) := make_histogram m in
  set_histogram a (set_histogram b (set_registry a m)).

(** No latency of the process is ever collected. *)
Lemma race_loses_latencies `{PL : !PrometheusLaws Pr} evs :
  collected (fold_left metrics_event evs raced) = ∅.
Proof.
  enough (H : forall m, mt_registry m = Some [0%nat] -> mt_histogram m = Some 1%nat ->
    mt_histograms m !! 0%nat = Some latency_histogram ->
    collected (fold_left metrics_event evs m) = ∅) by (by apply H).
  induction evs as [|e evs IH]; intros m Hr Hh Hl; cbn [fold_left].
  - unfold collected. rewrite Hr. cbn [omap list_omap]. rewrite Hl.
    destruct (gather_one latency_histogram) as ([|l values] & _ & Hin & ->); [done|].
    exfalso. specialize (proj1 (Hin l) (list_elem_of_here _ _)). apply not_elem_of_nil.
  - assert (Ha : forall g, mt_histograms (alter_histogram g 1%nat m) !! 0%nat = Some latency_histogram)
      by (intros g; cbn; by rewrite list_lookup_alter_ne).
    destruct e as [|s| | |]; cbn [metrics_event]; unfold sync_send_over, batch_send_starts,
      batch_send_over, on_histogram; rewrite ?Hh; try (by apply IH).
    + apply IH; cbn; [by rewrite Hr|by rewrite Hh|by apply lookup_app_l_Some].
    + assert (E : pc_histogram (begin_call m (sr_request s)) = Some 1%nat)
        by (destruct (sr_request s); exact Hh).
      unfold serve, end_call. destruct (sr_result s); rewrite ?E; apply IH; try done; apply Ha.
Qed.

(** ** Tracing *)

Record TracingOptions := { to_ansi : bool; to_target : bool; to_line_number : bool }.
Definition TracingOptions_default : TracingOptions :=
  {| to_ansi := true; to_target := false; to_line_number := false |}.
Definition with_ansi (b : bool) (o : TracingOptions) : TracingOptions :=
  {| to_ansi := b; to_target := to_target o; to_line_number := to_line_number o |}.
Definition with_target (b : bool) (o : TracingOptions) : TracingOptions :=
  {| to_ansi := to_ansi o; to_target := b; to_line_number := to_line_number o |}.
Definition with_line_number (b : bool) (o : TracingOptions) : TracingOptions :=
  {| to_ansi := to_ansi o; to_target := to_target o; to_line_number := b |}.

(** ** Progress reports *)

Record SpamProgressReport := {
  pr_elapsed_s : Z;
  pr_txs_sent : Z;
  pr_txs_confirmed : Z;
  pr_txs_failed : Z;
  pr_current_tps : f64;
}.

Definition is_confirmed (tx : RunTx) : bool :=
  match rt_block_number tx, rt_error tx with Some _, None => true | _, _ => false end.
Definition is_failed (tx : RunTx) : bool :=
  match rt_error tx with Some _ => true | None => false end.
Definition count (p : RunTx -> bool) (txs : list RunTx) : Z :=
  Z.of_nat (length (filter (fun tx => p tx = true) txs)).

Section progress.
Context {P : Profile} {D : Type} `{DO : DbOps D}.

(** [print_progress_report], [elapsed_ns] after the start: the report printed,
    or [None] when the database cannot be read. *)
Definition print_progress_report {E} (db : D) (run_id elapsed_ns : Z) (planned_tx_count : option Z)
  : outcome E (option SpamProgressReport) :=
  let elapsed_s := elapsed_ns / 10 ^ 9 in
  match get_run_txs db run_id with
  | Ok txs =>
      let txs_confirmed := count is_confirmed txs in
      let txs_failed := count is_failed txs in
      sum ← arith 64 (txs_confirmed + txs_failed);
      sum' ← arith 64 (txs_confirmed + txs_failed);
      let txs_sent := Z.max sum (Z.min (default 0 planned_tx_count) sum') in
      let current_tps :=
        if 0 <? elapsed_s then f64_div (f64_of_Z txs_confirmed) (f64_of_Z elapsed_s)
        else f64_of_Z 0 in
      mret (Some {|
        pr_elapsed_s := elapsed_s; pr_txs_sent := txs_sent; pr_txs_confirmed := txs_confirmed;
        pr_txs_failed := txs_failed;
        pr_current_tps :=
          f64_div (f64_round (f64_mul current_tps (f64_of_Z 10))) (f64_of_Z 10) |})
  | Err _ => mret None
  | Panic => Panic
  end.

(** What the task of [spawn_spam_report_task] meets: a tick, with the time since
    its start and the database then, or its token cancelled. *)
Inductive ReportEvent := Tick (elapsed_ns : Z) (db : D) | TokenCancelled.

Fixpoint report_loop {E} (run_id planned_tx_count : Z) (events : list ReportEvent)
  : outcome E (list SpamProgressReport) :=
  match events with
  | [] => mret []
  | TokenCancelled :: _ => mret []
  | Tick elapsed_ns db :: events =>
      r ← print_progress_report db run_id elapsed_ns (Some planned_tx_count);
      rs ← report_loop run_id planned_tx_count events;
      mret (option_list r ++ rs)
  end.

(** tokio's [interval] panics for a period of zero. *)
Definition report_task {E} (run_id interval_secs planned_tx_count : Z) (events : list ReportEvent)
  : outcome E (list SpamProgressReport) :=
  if interval_secs =? 0 then Panic else report_loop run_id planned_tx_count events.

Lemma count_disjoint txs :
  count is_confirmed txs + count is_failed txs <= Z.of_nat (length txs).
Proof.
  unfold count. induction txs as [|tx txs IH]; [done|]. rewrite !filter_cons.
  destruct (decide (is_confirmed tx = true)) as [Hc|], (decide (is_failed tx = true)) as [Hf|];
    cbn; [|lia..].
  revert Hc Hf. unfold is_confirmed, is_failed. by destruct (rt_block_number tx), (rt_error tx).
Qed.

(** A report is printed exactly when the database can be read, whatever was
    planned: the transactions it calls sent are those confirmed or failed, at most
    those recorded, and the rate is that of the confirmed ones. *)
Lemma progress_spec {E} db run_id elapsed_ns planned txs :
  get_run_txs db run_id = Ok txs -> Z.of_nat (length txs) < 2 ^ 64 ->
  exists r, print_progress_report (E := E) db run_id elapsed_ns planned = Ok (Some r) /\
    pr_txs_sent r = pr_txs_confirmed r + pr_txs_failed r /\
    pr_txs_confirmed r = count is_confirmed txs /\ pr_txs_failed r = count is_failed txs /\
    pr_txs_sent r <= Z.of_nat (length txs) /\ pr_elapsed_s r = elapsed_ns / 10 ^ 9.
Proof.
  intros Ht Hl. pose proof (count_disjoint txs) as Hd. unfold print_progress_report. rewrite Ht.
  assert (Hs : 0 <= count is_confirmed txs + count is_failed txs < 2 ^ 64) by (unfold count in *; lia).
  rewrite (arith_in 64 _ Hs). cbn [mbind outcome_bind]. eexists. split; [reflexivity|]. cbn. lia.
Qed.

(** Nothing is printed once the token is cancelled. *)
Lemma report_loop_cancelled {E} run_id planned before after :
  report_loop (E := E) run_id planned (before ++ TokenCancelled :: after) =
  report_loop run_id planned before.
Proof.
  induction before as [|[e db|] before IH]; cbn [app report_loop]; [done| |done]. by rewrite IH.
Qed.
End progress.

(** ** Witnesses *)

Module MetricsWitness.
(** The metrics of the label values in the order of their first samples. *)
#[export] Instance toy_prometheus : Prometheus := fun hs => hs ≫= fun h =>
  match remove_dups (hv_children h) with
  | [] => []
  | values => [{| mf_name := hv_name h; mf_metrics := metric_of h <$> values |}]
  end.

#[export] Instance toy_prometheus_laws : PrometheusLaws toy_prometheus.
Proof.
  constructor. intros h. exists (remove_dups (hv_children h)). split_and!.
  - apply NoDup_remove_dups.
  - intros l. apply elem_of_remove_dups.
  - unfold gather, toy_prometheus. cbn. rewrite app_nil_r. by destruct (remove_dups _).
Qed.

Definition answered (method : string) (elapsed : f64) : MetricsEvent := Serve {|
  sr_request := SingleRequest method (Some 1); sr_result := Ok (SingleResponse None);
  sr_elapsed := elapsed |}.
(** Two answers, between them another client, a failure, a batch, a synchronous
    send and a JSON-RPC batch. *)
Definition served : list MetricsEvent :=
  [answered "eth_call" (f64_lit 5 1000); NewLayer;
   Serve {| sr_request := SingleRequest "eth_call" None; sr_result := Err "down"%string;
            sr_elapsed := f64_lit 1 1000 |};
   BatchSendStarts;
   Serve {| sr_request := BatchRequest; sr_result := Ok BatchResponse; sr_elapsed := f64_lit 2 10 |};
   SyncSendOver (f64_lit 7 100);
   BatchSendOver (f64_lit 2 100);
   answered "eth_call" (f64_lit 3 1)].

Example served_counts :
  fmap (M := gmap string) (fmap cumulative_count)
    (collected (fold_left metrics_event served (init_metrics Metrics_new))) =
  {[ "eth_call"%string := [0; 0; 1; 1; 1; 1; 1]; ""%string := [0; 0; 0; 0; 0; 1; 1];
     SEND_SYNC := [0; 0; 0; 0; 1; 1; 1]; SEND := [0; 0; 0; 1; 1; 1; 1] ]}.
Proof. vm_compute. reflexivity. Qed.

Lemma latencies_counted_witness :
  collected (fold_left metrics_event served (init_metrics Metrics_new)) !! "eth_call"%string =
  Some (counted (samples served) "eth_call").
Proof. exact (latencies_counted served "eth_call"). Defined.

Lemma collected_quantiles_witness :
  exists x, estimate_quantile (P := true) (E := unit) (counted (samples served) "eth_call")
              (f64_lit 5 10) = Ok x.
Proof.
  apply (collected_quantiles served "eth_call").
  - cbn. lia.
  - vm_compute. reflexivity.
Defined.

Example no_interval_no_report {D} `{DbOps D} :
  report_task (P := true) (E := unit) (D := D) 1 0 10 [] = Panic.
Proof. reflexivity. Qed.
End MetricsWitness.
