(* ===== verification/FileSystem.v ===== *)
(** * Files and directories ([std::fs], [std::path])

    A file system maps paths to files and directories; an operation of
    [std::fs] is a computation on it.  The operating system may refuse any of
    them: [fault] says which, and what a refused copy or write has left in the
    target.  A path is the list of its components, relative ones already
    resolved. *)

From Stdlib Require Import Strings.Ascii Strings.String.
From S2P Require Import Prelude Text Sql.

Abbreviation Path := (list string).

(** What a file holds: text, or a database. *)
Inductive Content :=
| Bytes (s : string)
| Database (tables : Tables) (user_version : Z).
Inductive Node := File (c : Content) | Dir.
Abbreviation FS := (gmap Path Node).

Inductive FsOp :=
| OpMkdir (p : Path)
| OpRemove (p : Path)
| OpRename (p q : Path)
| OpCopy (p q : Path)
| OpRead (p : Path)
| OpWrite (p : Path).
Record Fault := { ft_error : string; ft_left : option Content }.
Class Faults := fault : FsOp -> option Fault.

(** [p.join(name)], [p.parent()], [p.exists()], [p.is_dir()]. *)
Definition join (p : Path) (name : string) : Path := p ++ [name].
Definition parent (p : Path) : option Path :=
  match p with [] => None | _ => Some (removelast p) end.
Definition exists_path (fs : FS) (p : Path) : bool := bool_decide (is_Some (fs !! p)).
Definition is_dir (fs : FS) (p : Path) : bool :=
  match p with
  | [] => true
  | _ => match fs !! p with Some Dir => true | _ => false end
  end.

(** [p.with_extension(ext)]: the part after the last point of the file name,
    unless the point is its first character, is replaced. *)
Definition file_stem (name : string) : string :=
  match find_char (Ascii.eqb "."%char) (str_rev name) with
  | Some k =>
      let n := (String.length name - k - 1)%nat in
      if (n =? 0)%nat then name else str_take n name
  | None => name
  end.
Definition with_extension (p : Path) (ext : string) : Path :=
  match last p with
  | Some name => if String.eqb name ".." then p else removelast p ++ [(file_stem name +:+ "." +:+ ext)%string]
  | None => p
  end.

Section fs.
Context `{Faults}.

Abbreviation io A := (stm FS string A).

Definition not_found : string := "No such file or directory (os error 2)".
Definition fail {A} (e : string) : io A := lift (Err e).

(** An operation without an effect when the system refuses it. *)
Definition allowed (op : FsOp) : io unit :=
  match fault op with Some f => fail (ft_error f) | None => mret tt end.

Definition remove_file (p : Path) : io unit :=
  fs ← gets id;
  match fs !! p with
  | Some (File _) => allowed (OpRemove p);; modify (delete p)
  | Some Dir => fail "Is a directory (os error 21)"
  | None => fail not_found
  end.

(** Whether a file can be opened for writing at [p]. *)
Definition writable (fs : FS) (p : Path) : bool :=
  match fs !! p with
  | Some (File _) => true
  | Some Dir => false
  | None => match parent p with Some q => is_dir fs q | None => false end
  end.

(** Writing [c] to the file [p]: a write that fails may leave something else. *)
Definition put (op : FsOp) (p : Path) (c : Content) : io unit :=
  fs ← gets id;
  if writable fs p then
    match fault op with
    | Some f =>
        modify (fun fs => match ft_left f with Some c' => <[p := File c']> fs | None => fs end);;
        fail (ft_error f)
    | None => modify (<[p := File c]>)
    end
  else fail "cannot create file".

Definition write (p : Path) (s : string) : io unit := put (OpWrite p) p (Bytes s).

(** [fs::copy]: a file copied to itself is truncated before it is read. *)
Definition copy (from to : Path) : io unit :=
  fs ← gets id;
  match fs !! from with
  | Some (File c) => put (OpCopy from to) to (if decide (from = to) then Bytes "" else c)
  | Some Dir => fail "the source path is neither a regular file nor a symlink to a regular file"
  | None => fail not_found
  end.

Definition read_to_string (p : Path) : io string :=
  fs ← gets id;
  match fs !! p with
  | Some (File (Bytes s)) => allowed (OpRead p);; mret s
  | Some (File (Database _ _)) => fail "stream did not contain valid UTF-8"
  | Some Dir => fail "Is a directory (os error 21)"
  | None => fail not_found
  end.

(** [fs::create_dir_all]: the directories on the way to [pre ++ rest]. *)
Fixpoint create_dirs (pre rest : Path) : io unit :=
  match rest with
  | [] => mret tt
  | name :: rest =>
      let p := join pre name in
      fs ← gets id;
      (match fs !! p with
       | Some Dir => mret tt
       | Some (File _) => fail "File exists (os error 17)"
       | None => allowed (OpMkdir p);; modify (<[p := Dir]>)
       end);;
      create_dirs p rest
  end.
Definition create_dir_all (p : Path) : io unit := create_dirs [] p.

(** What lies at or below [p], and its place once [p] has become [q]. *)
Fixpoint strip_path (p l : Path) : option Path :=
  match p, l with
  | [], _ => Some l
  | x :: p, y :: l => if String.eqb x y then strip_path p l else None
  | _ :: _, [] => None
  end.
Definition relocate (p q l : Path) : Path :=
  match strip_path p l with Some r => q ++ r | None => l end.

(** [fs::rename] to a path where there is nothing yet. *)
Definition rename (p q : Path) : io unit :=
  fs ← gets id;
  match fs !! p with
  | None => fail not_found
  | Some _ =>
      if bool_decide (is_Some (strip_path p q)) then fail "Invalid argument (os error 22)"
      else if negb (match parent q with Some d => is_dir fs d | None => false end)
      then fail not_found
      else
        allowed (OpRename p q);;
        modify (fun fs => list_to_map (prod_map (relocate p q) id <$> map_to_list fs))
  end.

End fs.

(** ** What the operations leave alone *)

Section fs_lemmas.
Context `{F : Faults}.
Implicit Types (fs : FS) (p q l : Path).

Lemma allowed_same op fs fs' r : allowed op fs = (fs', r) -> fs' = fs.
Proof. unfold allowed, fail. case_match; by intros [= <- _]. Qed.

Lemma put_other op p q c fs fs' r : put op p c fs = (fs', r) -> q <> p -> fs' !! q = fs !! q.
Proof.
  intros H Hq. unfold put, fail, mbind, stm_bind, gets, modify, lift in H. cbn in H.
  repeat case_match; simplify_eq; try done; by rewrite lookup_insert_ne.
Qed.

Lemma put_ok op p c fs fs' u : put op p c fs = (fs', Ok u) -> fs' = <[p := File c]> fs.
Proof.
  intros H. unfold put, fail, mbind, stm_bind, gets, modify, lift in H. cbn in H.
  repeat case_match; by simplify_eq.
Qed.

Lemma copy_other p q l fs fs' r : copy p q fs = (fs', r) -> l <> q -> fs' !! l = fs !! l.
Proof.
  intros H Hl. unfold copy, fail, mbind, stm_bind, gets, lift in H. cbn in H.
  destruct (fs !! p) as [[c|]|]; [by eapply put_other|by simplify_eq..].
Qed.

(** A copy that succeeds. *)
Lemma copy_done p q fs fs' u : copy p q fs = (fs', Ok u) ->
  exists c, fs !! p = Some (File c) /\
    fs' = <[q := File (if decide (p = q) then Bytes "" else c)]> fs.
Proof.
  intros H. unfold copy, fail, mbind, stm_bind, gets, lift in H. cbn in H.
  destruct (fs !! p) as [[c|]|]; [|done..]. apply put_ok in H. by exists c.
Qed.

Lemma remove_other p q fs fs' r : remove_file p fs = (fs', r) -> q <> p -> fs' !! q = fs !! q.
Proof.
  intros H Hq. unfold remove_file, allowed, fail, mbind, stm_bind, gets, modify, lift in H. cbn in H.
  destruct (fs !! p) as [[c|]|]; [|by simplify_eq..].
  destruct (fault (OpRemove p)); cbn in H; simplify_eq; [done|]. by rewrite lookup_delete_ne.
Qed.

(** ** Directories *)

(** Every entry lies in a directory. *)
Definition fs_wf fs : Prop := forall p name n, fs !! join p name = Some n -> is_dir fs p = true.

(** [fs'] has more directories than [fs], and nothing else changed. *)
Definition more_dirs fs fs' : Prop :=
  (forall p n, fs !! p = Some n -> fs' !! p = Some n) /\
  (forall p n, fs' !! p = Some n -> fs !! p = Some n \/ n = Dir).

#[export] Instance more_dirs_preorder : PreOrder more_dirs.
Proof.
  split; [split; tauto|]. intros a b c [H1 H2] [H3 H4]. split; [auto|].
  intros p n Hn. destruct (H4 _ _ Hn) as [Hb|]; [|by right]. destruct (H2 _ _ Hb); auto.
Qed.

Lemma more_dirs_is_dir fs fs' p : more_dirs fs fs' -> is_dir fs p = true -> is_dir fs' p = true.
Proof.
  intros [H _]. destruct p; [done|]. cbn. destruct (fs !! _) as [[]|] eqn:E; [done| |done].
  by rewrite (H _ _ E).
Qed.

Lemma insert_dir_more fs p : fs !! p = None -> more_dirs fs (<[p := Dir]> fs).
Proof.
  intros Hp. split; intros q n Hq.
  - rewrite lookup_insert_ne; [done|]. by intros ->; rewrite Hp in Hq.
  - apply lookup_insert_Some in Hq as [[_ <-]|[_ Hq]]; auto.
Qed.

Lemma join_inj p q x y : join p x = join q y -> p = q /\ x = y.
Proof. unfold join. intros H. by apply app_inj_tail in H. Qed.

Lemma insert_dir_wf fs p name :
  fs_wf fs -> is_dir fs p = true -> fs !! join p name = None -> fs_wf (<[join p name := Dir]> fs).
Proof.
  intros Hwf Hp Hn q x n Hq. apply (more_dirs_is_dir fs); [by apply insert_dir_more|].
  apply lookup_insert_Some in Hq as [[Heq _]|[_ Hq]]; [|by eapply Hwf].
  by apply join_inj in Heq as [<- _].
Qed.

Lemma is_dir_lookup fs p : fs !! p = Some Dir -> is_dir fs p = true.
Proof. intros H. destruct p; [done|]. cbn. by rewrite H. Qed.

Lemma create_dirs_spec rest pre fs fs' r :
  create_dirs pre rest fs = (fs', r) ->
  more_dirs fs fs' /\
  (fs_wf fs -> is_dir fs pre = true -> fs_wf fs') /\
  (r = Ok tt -> is_dir fs pre = true -> is_dir fs' (pre ++ rest) = true).
Proof.
  revert pre fs. induction rest as [|name rest IH]; intros pre fs H.
  { injection H as <- <-. rewrite app_nil_r. done. }
  cbn [create_dirs] in H. unfold mbind, stm_bind, gets in H. cbn [id] in H.
  replace (pre ++ name :: rest) with (join pre name ++ rest) by (unfold join; by rewrite <- app_assoc).
  destruct (fs !! join pre name) as [[c|]|] eqn:Ej.
  - injection H as <- <-. done.
  - destruct (IH _ _ H) as (H1 & H2 & H3). split; [done|].
    pose proof (is_dir_lookup _ _ Ej). auto.
  - unfold allowed, fail, lift, modify in H. destruct (fault _) as [f|].
    { injection H as <- <-. done. }
    cbn in H. destruct (IH _ _ H) as (H1 & H2 & H3).
    assert (is_dir (<[join pre name := Dir]> fs) (join pre name) = true)
      by (apply is_dir_lookup, lookup_insert_eq).
    split; [|split]; [|intros Hwf Hp; apply H2; [by apply insert_dir_wf|done]|auto].
    etrans; [by apply insert_dir_more|done].
Qed.

(** Nothing lies below what is missing. *)
Lemma nothing_below fs q r : fs_wf fs -> q <> [] -> fs !! q = None -> fs !! (q ++ r) = None.
Proof.
  intros Hwf Hne Hq. induction r as [|x r IH] using rev_ind; [by rewrite app_nil_r|].
  destruct (fs !! (q ++ r ++ [x])) as [n|] eqn:E; [|done].
  rewrite app_assoc in E. apply Hwf in E.
  destruct (q ++ r) as [|y t] eqn:Er; [by destruct q|]. cbn in E. by rewrite IH in E.
Qed.

(** ** Renaming *)

Lemma strip_path_spec p l r : strip_path p l = Some r <-> l = p ++ r.
Proof.
  revert l. induction p as [|x p IH]; intros l; cbn; [naive_solver|].
  destruct l as [|y l]; [done|]. destruct (String.eqb_spec x y) as [->|]; [rewrite IH|]; naive_solver.
Qed.

Lemma relocate_inj p q fs l1 l2 n1 n2 :
  fs_wf fs -> q <> [] -> fs !! q = None -> fs !! l1 = Some n1 -> fs !! l2 = Some n2 ->
  relocate p q l1 = relocate p q l2 -> l1 = l2.
Proof.
  intros Hwf Hne Hq H1 H2. unfold relocate.
  destruct (strip_path p l1) as [r1|] eqn:E1, (strip_path p l2) as [r2|] eqn:E2;
    try apply strip_path_spec in E1 as ->; try apply strip_path_spec in E2 as ->.
  - by intros ->%app_inv_head.
  - intros <-. by rewrite nothing_below in H2.
  - intros ->. by rewrite nothing_below in H1.
  - done.
Qed.

Lemma rename_run p q fs :
  (exists e, rename p q fs = (fs, Err e)) \/
  rename p q fs = (list_to_map (prod_map (relocate p q) id <$> map_to_list fs), Ok tt).
Proof.
  unfold rename, allowed, fail, mbind, stm_bind, gets, modify, lift. cbn.
  destruct (fs !! p); [|left; by eexists].
  destruct (bool_decide _); [left; by eexists|]. destruct (negb _); [left; by eexists|].
  destruct (fault _); [left; by eexists|by right].
Qed.

(** A rename that succeeds takes everything at or below [p] to [q], and nothing
    else; one that fails changes nothing. *)
Lemma rename_spec p q fs fs' r l n :
  fs_wf fs -> q <> [] -> fs !! q = None -> rename p q fs = (fs', r) -> fs !! l = Some n ->
  fs' !! l = Some n \/ r = Ok tt /\ fs' !! relocate p q l = Some n.
Proof.
  intros Hwf Hne Hq H Hl. destruct (rename_run p q fs) as [[e He]|He]; rewrite He in H.
  { left. by simplify_eq. }
  right. simplify_eq. split; [done|].
  apply elem_of_list_to_map_1'.
  - intros y Hy. apply list_elem_of_fmap in Hy as ([l' n'] & [= Hr ->] & Hin).
    apply elem_of_map_to_list in Hin.
    assert (l = l') as <- by (eapply (relocate_inj p q fs); eauto). cbn. congruence.
  - apply list_elem_of_fmap. exists (l, n). split; [done|]. by apply elem_of_map_to_list.
Qed.

End fs_lemmas.
