(* ===== verification/Histogram.v ===== *)
(** * Histograms of the charts ([report/src/chart])

    Three charts count values into a growing vector of buckets: the index of a
    value's bucket decides whether the vectors of labels and counts are resized,
    the count at the index is raised, the greatest count is kept, and the bucket
    is (re)labelled.  [hist_add] is that loop body, [hist_of] the histogram it is
    meant to build. *)

From Stdlib Require Import Strings.String.
From S2P Require Import Prelude Text.

Record Hist := { hs_buckets : list string; hs_counts : list Z; hs_max : Z }.
Definition hist_new : Hist := {| hs_buckets := []; hs_counts := []; hs_max := 0 |}.

(** [v.resize(n, x)]. *)
Definition resize {A} (n : nat) (x : A) (l : list A) : list A :=
  if (n <=? length l)%nat then take n l else l ++ replicate (n - length l) x.

Section histogram.
Context {P : Profile} {E : Type} (empty : string) (label : Z -> outcome E string).

(** One value, whose bucket is [bucket_index]. *)
Definition hist_add (st : Hist) (bucket_index : Z) : outcome E Hist :=
  let i := Z.to_nat bucket_index in
  let grow := (length (hs_buckets st) <=? i)%nat in
  let buckets := if grow then resize (S i) empty (hs_buckets st) else hs_buckets st in
  let counts := if grow then resize (S i) 0 (hs_counts st) else hs_counts st in
  c ← unwrap (counts !! i);
  c ← arith 64 (c + 1);
  text ← label bucket_index;
  unwrap (buckets !! i);;
  mret {| hs_buckets := <[i := text]> buckets;
          hs_counts := <[i := c]> counts;
          hs_max := if hs_max st <? c then c else hs_max st |}.

Definition hist_all (indices : list Z) : outcome E Hist := fold_steps hist_add hist_new indices.
End histogram.

(** ** The histogram that is meant *)

Definition occurrences (i : Z) (l : list Z) : Z := Z.of_nat (length (filter (fun x => x = i) l)).
Definition width (l : list Z) : nat := foldr (fun x n => Nat.max (S (Z.to_nat x)) n) 0%nat l.
Definition maxZ (l : list Z) : Z := foldr Z.max 0 l.

Definition hist_of (empty : string) (text : Z -> string) (l : list Z) : Hist :=
  {| hs_buckets := (fun i => if occurrences i l =? 0 then empty else text i) <$> rangeZ (width l);
     hs_counts := (fun i => occurrences i l) <$> rangeZ (width l);
     hs_max := maxZ ((fun i => occurrences i l) <$> rangeZ (width l)) |}.

(** ** Lemmas *)

Lemma lookup_rangeZ n k : (k < n)%nat -> rangeZ n !! k = Some (Z.of_nat k).
Proof. intros Hk. unfold rangeZ. by rewrite list_lookup_fmap, lookup_seq_lt. Qed.

Lemma elem_of_rangeZ n z : z ∈ rangeZ n <-> 0 <= z < Z.of_nat n.
Proof.
  unfold rangeZ. rewrite list_elem_of_fmap. setoid_rewrite elem_of_seq. split.
  - intros (k & -> & Hk). lia.
  - intros Hz. exists (Z.to_nat z). lia.
Qed.

Lemma rangeZ_app n k : rangeZ (n + k) = rangeZ n ++ ((fun i => Z.of_nat n + i) <$> rangeZ k).
Proof.
  unfold rangeZ. rewrite seq_app, fmap_app, Nat.add_comm, <- (fmap_add_seq n 0 k),
    <- !list_fmap_compose. f_equal.
  apply list_fmap_ext. intros i x _. cbn. lia.
Qed.

Lemma resize_range {A} (f : Z -> A) x w n :
  (w <= n)%nat -> (forall k, Z.of_nat w <= k -> f k = x) ->
  resize n x (f <$> rangeZ w) = f <$> rangeZ n.
Proof.
  intros Hw Hf. unfold resize. rewrite length_fmap, rangeZ_length.
  destruct (Nat.leb_spec n w).
  - assert (n = w) as -> by lia. by rewrite take_ge by (rewrite length_fmap, rangeZ_length; lia).
  - replace n with (w + (n - w))%nat at 2 by lia. rewrite rangeZ_app, fmap_app. f_equal.
    apply list_eq. intros i. destruct (Nat.ltb_spec i (n - w)).
    + rewrite lookup_replicate_2, !list_lookup_fmap, lookup_rangeZ by lia. cbn.
      by rewrite Hf by lia.
    + rewrite !lookup_ge_None_2; [done|..]; rewrite ?length_fmap, ?rangeZ_length, ?length_replicate;
        done.
Qed.

Lemma insert_range {A} (f g : Z -> A) i w v :
  (i < w)%nat -> v = g (Z.of_nat i) -> (forall k, k <> Z.of_nat i -> f k = g k) ->
  <[i := v]> (f <$> rangeZ w) = g <$> rangeZ w.
Proof.
  intros Hi -> Hfg. apply list_eq. intros k. destruct (decide (k = i)) as [->|Hk].
  - rewrite list_lookup_insert_eq by (rewrite length_fmap, rangeZ_length; done).
    by rewrite list_lookup_fmap, lookup_rangeZ.
  - rewrite list_lookup_insert_ne, !list_lookup_fmap by done.
    destruct (Nat.ltb_spec k w).
    + rewrite lookup_rangeZ by done. cbn. by rewrite Hfg by lia.
    + rewrite lookup_ge_None_2; [done|]. by rewrite rangeZ_length.
Qed.

Lemma maxZ_le l m : maxZ l <= m <-> 0 <= m /\ Forall (fun x => x <= m) l.
Proof.
  induction l as [|x l IH]; cbn.
  - split; [done|by intros []].
  - rewrite Forall_cons, Z.max_lub_iff, IH. naive_solver.
Qed.

Lemma maxZ_elem x l : x ∈ l -> x <= maxZ l.
Proof.
  intros Hx. destruct (proj1 (maxZ_le l (maxZ l)) ltac:(lia)) as [_ Hall].
  rewrite Forall_forall in Hall. by apply Hall.
Qed.

Lemma maxZ_nonneg l : 0 <= maxZ l.
Proof. destruct (proj1 (maxZ_le l (maxZ l)) ltac:(lia)). lia. Qed.

Lemma occurrences_snoc i l x :
  occurrences i (l ++ [x]) = occurrences i l + (if decide (x = i) then 1 else 0).
Proof.
  unfold occurrences. rewrite filter_app, length_app, filter_cons. destruct (decide (x = i)); cbn; lia.
Qed.

Lemma occurrences_nonneg i l : 0 <= occurrences i l.
Proof. unfold occurrences. lia. Qed.

Lemma occurrences_le i l : occurrences i l <= Z.of_nat (length l).
Proof. unfold occurrences. pose proof (length_filter (fun x => x = i) l). lia. Qed.

Lemma occurrences_pos i l : occurrences i l <> 0 <-> i ∈ l.
Proof.
  unfold occurrences. split.
  - intros H. destruct (filter (fun x => x = i) l) as [|y k] eqn:Hf; [done|].
    assert (Hy : y ∈ filter (fun x => x = i) l) by (rewrite Hf; left).
    apply list_elem_of_filter in Hy as [-> Hy]. done.
  - intros Hi. assert (Hf : i ∈ filter (fun x => x = i) l) by by apply list_elem_of_filter.
    destruct (filter (fun x => x = i) l); [by apply not_elem_of_nil in Hf|cbn; lia].
Qed.

Lemma width_elem l x : x ∈ l -> (S (Z.to_nat x) <= width l)%nat.
Proof.
  induction l as [|y l IH]; cbn; [by intros ?%not_elem_of_nil|].
  fold (width l). intros [->|Hx]%elem_of_cons; [lia|]. specialize (IH Hx). lia.
Qed.

Lemma width_snoc l x : width (l ++ [x]) = Nat.max (width l) (S (Z.to_nat x)).
Proof. induction l as [|y l IH]; cbn; [lia|]. unfold width in IH. rewrite IH. lia. Qed.

Lemma occurrences_width l k : 0 <= k -> Z.of_nat (width l) <= k -> occurrences k l = 0.
Proof.
  intros H0 Hk. destruct (decide (occurrences k l = 0)) as [|Hne]; [done|].
  apply occurrences_pos, width_elem in Hne. lia.
Qed.

(** The sum over the buckets is the number of values. *)
Lemma sum_occurrences l :
  Forall (Z.le 0) l ->
  sumZ ((fun i => occurrences i l) <$> rangeZ (width l)) = Z.of_nat (length l).
Proof.
  intros Hl.
  enough (Hg : forall n, (width l <= n)%nat ->
    sumZ ((fun i => occurrences i l) <$> rangeZ n) = Z.of_nat (length l)) by by apply Hg.
  intros n. induction Hl as [|x l Hx Hl IH]; intros Hn.
  - cbn. clear Hn. induction (rangeZ n) as [|y r IHr]; [done|]. cbn. rewrite IHr. done.
  - cbn in Hn. fold (width l) in Hn. cbn [length]. rewrite Nat2Z.inj_succ, <- (IH ltac:(lia)).
    assert (Hsum : forall r, NoDup r ->
      sumZ ((fun i => occurrences i (x :: l)) <$> r) =
      sumZ ((fun i => occurrences i l) <$> r) + (if decide (x ∈ r) then 1 else 0)).
    { induction 1 as [|y r Hy _ IHr]; [by rewrite decide_False by by apply not_elem_of_nil|].
      cbn. rewrite IHr. unfold occurrences at 1. rewrite filter_cons.
      fold (occurrences y l). destruct (decide (x = y)) as [->|Hxy].
      - cbn. rewrite (decide_False (P := y ∈ r)) by done.
        rewrite decide_True by left. unfold occurrences. lia.
      - unfold occurrences at 2. rewrite (decide_ext (x ∈ y :: r) (x ∈ r)); [lia|].
        rewrite elem_of_cons. naive_solver. }
    rewrite Hsum, decide_True; [lia| |].
    + apply elem_of_rangeZ. lia.
    + unfold rangeZ. apply NoDup_fmap_2_strong; [|apply NoDup_seq]. intros a b _ _ ?. lia.
Qed.

(** ** The loop builds that histogram *)

Section correct.
Context {P : Profile} {E : Type} (empty : string) (label : Z -> outcome E string) (text : Z -> string).

Lemma hist_of_length l :
  length (hs_buckets (hist_of empty text l)) = width l /\
  length (hs_counts (hist_of empty text l)) = width l.
Proof. cbn. by rewrite !length_fmap, rangeZ_length. Qed.

(** Resizing keeps the histogram, on more buckets. *)
Lemma hist_grow l n :
  (width l <= n)%nat ->
  resize n empty (hs_buckets (hist_of empty text l)) =
    (fun i => if occurrences i l =? 0 then empty else text i) <$> rangeZ n /\
  resize n 0 (hs_counts (hist_of empty text l)) = (fun i => occurrences i l) <$> rangeZ n.
Proof.
  intros Hn. split; apply resize_range; try done; intros k Hk;
    rewrite occurrences_width by lia; done.
Qed.

Lemma maxZ_raise (f g : Z -> Z) n x :
  x ∈ rangeZ n -> (forall k, k <> x -> f k = g k) -> f x <= g x -> 0 <= g x ->
  maxZ (g <$> rangeZ n) = Z.max (maxZ (f <$> rangeZ n)) (g x).
Proof.
  intros Hx Hfg Hle H0. apply Z.le_antisymm.
  - apply maxZ_le. split; [lia|]. apply Forall_fmap, Forall_forall. intros k Hk. cbn.
    destruct (decide (k = x)) as [->|Hne]; [lia|]. rewrite <- Hfg by done.
    pose proof (maxZ_elem (f k) (f <$> rangeZ n) ltac:(by apply list_elem_of_fmap_2)). lia.
  - apply Z.max_lub; [|by apply maxZ_elem, list_elem_of_fmap_2].
    apply maxZ_le. split; [apply maxZ_nonneg|]. apply Forall_fmap, Forall_forall. intros k Hk. cbn.
    pose proof (maxZ_elem (g k) (g <$> rangeZ n) ltac:(by apply list_elem_of_fmap_2)).
    destruct (decide (k = x)) as [->|Hne]; [lia|]. rewrite Hfg by done. lia.
Qed.

Lemma maxZ_grow l n :
  (width l <= n)%nat ->
  maxZ ((fun i => occurrences i l) <$> rangeZ n) = maxZ ((fun i => occurrences i l) <$> rangeZ (width l)).
Proof.
  intros Hn. apply Z.le_antisymm; apply maxZ_le; (split; [apply maxZ_nonneg|]);
    apply Forall_fmap, Forall_forall; intros k Hk%elem_of_rangeZ; cbn.
  - destruct (Z.ltb_spec k (Z.of_nat (width l))).
    + apply maxZ_elem, (list_elem_of_fmap_2 (fun i => occurrences i l)), elem_of_rangeZ. lia.
    + rewrite occurrences_width by lia. apply maxZ_nonneg.
  - apply maxZ_elem, (list_elem_of_fmap_2 (fun i => occurrences i l)), elem_of_rangeZ. lia.
Qed.

Lemma hist_add_step l x :
  0 <= x -> label x = Ok (text x) -> Z.of_nat (length l) + 1 < 2 ^ 64 ->
  hist_add empty label (hist_of empty text l) x = Ok (hist_of empty text (l ++ [x])).
Proof.
  intros Hx Hlab Hlen. set (n := width (l ++ [x])).
  assert (Hn : n = Nat.max (width l) (S (Z.to_nat x))) by apply width_snoc.
  destruct (hist_of_length l) as [Hlb Hlc].
  destruct (hist_grow l n ltac:(lia)) as [Hb Hc].
  assert (Hgb : (if (length (hs_buckets (hist_of empty text l)) <=? Z.to_nat x)%nat
                 then resize (S (Z.to_nat x)) empty (hs_buckets (hist_of empty text l))
                 else hs_buckets (hist_of empty text l)) =
                (fun i => if occurrences i l =? 0 then empty else text i) <$> rangeZ n).
  { rewrite Hlb. destruct (Nat.leb_spec (width l) (Z.to_nat x)).
    - by replace (S (Z.to_nat x)) with n by lia.
    - cbn. by replace n with (width l) by lia. }
  assert (Hgc : (if (length (hs_buckets (hist_of empty text l)) <=? Z.to_nat x)%nat
                 then resize (S (Z.to_nat x)) 0 (hs_counts (hist_of empty text l))
                 else hs_counts (hist_of empty text l)) =
                (fun i => occurrences i l) <$> rangeZ n).
  { rewrite Hlb. destruct (Nat.leb_spec (width l) (Z.to_nat x)).
    - by replace (S (Z.to_nat x)) with n by lia.
    - cbn. by replace n with (width l) by lia. }
  unfold hist_add. rewrite Hgb, Hgc.
  assert (Hi : (Z.to_nat x < n)%nat) by lia.
  rewrite !list_lookup_fmap, lookup_rangeZ, Z2Nat.id by done. cbn [fmap option_fmap option_map unwrap].
  pose proof (occurrences_nonneg x l). pose proof (occurrences_le x l).
  cbn [mbind outcome_bind]. rewrite arith_in by lia. cbn [mbind outcome_bind]. rewrite Hlab. cbn.
  assert (Hsame : forall k, k <> x -> occurrences k l = occurrences k (l ++ [x])).
  { intros k Hk. rewrite occurrences_snoc, decide_False by congruence. lia. }
  assert (Hown : occurrences x (l ++ [x]) = occurrences x l + 1).
  { by rewrite occurrences_snoc, decide_True. }
  unfold hist_of. fold n. f_equal. f_equal.
  - apply insert_range; [done| |].
    + cbn. rewrite Z2Nat.id, Hown by done. by destruct (Z.eqb_spec (occurrences x l + 1) 0); [lia|].
    + intros k Hk. cbn. rewrite (Hsame k); [done|lia].
  - apply insert_range; [done| |].
    + cbn. by rewrite Z2Nat.id, Hown.
    + intros k Hk. apply Hsame. lia.
  - rewrite <- (maxZ_grow l n) by lia.
    rewrite (maxZ_raise (fun i => occurrences i l) (fun i => occurrences i (l ++ [x])) n x); [|apply elem_of_rangeZ; lia|done|lia|lia].
    cbn. rewrite Hown. destruct (Z.ltb_spec (maxZ ((fun i => occurrences i l) <$> rangeZ n))
      (occurrences x l + 1)); lia.
Qed.

(** The loop over a list of indices whose labels exist. *)
Lemma hist_all_of l :
  Forall (fun x => 0 <= x /\ label x = Ok (text x)) l -> Z.of_nat (length l) < 2 ^ 64 ->
  hist_all empty label l = Ok (hist_of empty text l).
Proof.
  unfold hist_all. induction l as [|x l IH] using rev_ind; intros Hall Hlen; [done|].
  apply Forall_app in Hall as [Hall Hx]. apply Forall_singleton in Hx as [Hx Hlab].
  rewrite length_app in Hlen. cbn in Hlen.
  rewrite fold_steps_app, IH by (done || lia). cbn. rewrite hist_add_step by (done || lia). done.
Qed.
End correct.

(** The occupied buckets, in order. *)
Definition occupied (l : list Z) : list Z := filter (fun i => i ∈ l) (rangeZ (width l)).

Lemma zip_hist empty text l :
  zip (hs_buckets (hist_of empty text l)) (hs_counts (hist_of empty text l)) =
  (fun i => (if occurrences i l =? 0 then empty else text i, occurrences i l)) <$> rangeZ (width l).
Proof. cbn. induction (rangeZ (width l)) as [|i r IH]; [done|]. cbn. by rewrite IH. Qed.

(** Filtering out the empty buckets leaves the occupied ones with their texts. *)
Lemma filter_hist (keep : string * Z -> bool) empty text l :
  keep (empty, 0) = false -> (forall i c, 0 < c -> keep (text i, c) = true) ->
  filter (fun bc => keep bc = true)
    (zip (hs_buckets (hist_of empty text l)) (hs_counts (hist_of empty text l))) =
  (fun i => (text i, occurrences i l)) <$> occupied l.
Proof.
  intros He Hk. rewrite zip_hist. unfold occupied.
  induction (rangeZ (width l)) as [|i r IH]; [done|]. rewrite fmap_cons, !filter_cons, IH.
  pose proof (occurrences_nonneg i l).
  destruct (Z.eqb_spec (occurrences i l) 0) as [H0|H0].
  - rewrite H0, decide_False by (rewrite He; done).
    rewrite decide_False; [done|]. intros Hi%occurrences_pos. by apply Hi.
  - rewrite decide_True by (apply Hk; lia). rewrite decide_True; [done|].
    by apply occurrences_pos.
Qed.

Lemma elem_of_occupied l i : Forall (Z.le 0) l -> i ∈ occupied l <-> i ∈ l.
Proof.
  intros Hl. unfold occupied. rewrite list_elem_of_filter, elem_of_rangeZ. split; [by intros []|].
  intros Hi. split; [done|]. rewrite Forall_forall in Hl. specialize (Hl i Hi).
  apply width_elem in Hi. lia.
Qed.

Lemma rangeZ_sorted n : StronglySorted Z.lt (rangeZ n).
Proof.
  induction n as [|n IH]; [constructor|].
  replace (S n) with (n + 1)%nat by lia. rewrite rangeZ_app.
  apply StronglySorted_app_2; [|done|repeat constructor].
  intros x y Hx%elem_of_rangeZ Hy. cbn in Hy. apply list_elem_of_singleton in Hy. lia.
Qed.

Lemma occupied_sorted l : StronglySorted Z.lt (occupied l).
Proof.
  unfold occupied. induction (rangeZ_sorted (width l)) as [|x r _ IH Hx]; [constructor|].
  rewrite filter_cons. destruct (decide (x ∈ l)); [|done]. constructor; [done|].
  apply Forall_forall. intros y [_ Hy]%list_elem_of_filter. rewrite Forall_forall in Hx.
  by apply Hx.
Qed.

Lemma sum_occupied l :
  Forall (Z.le 0) l -> sumZ ((fun i => occurrences i l) <$> occupied l) = Z.of_nat (length l).
Proof.
  intros Hl. rewrite <- sum_occurrences by done. unfold occupied.
  induction (rangeZ (width l)) as [|i r IH]; [done|]. rewrite filter_cons.
  destruct (decide (i ∈ l)) as [Hi|Hi]; cbn; rewrite IH; [done|].
  destruct (decide (occurrences i l = 0)) as [->|Hne]; [done|].
  by apply occurrences_pos in Hne.
Qed.

Lemma max_occupied l :
  maxZ ((fun i => occurrences i l) <$> rangeZ (width l)) =
  maxZ ((fun i => occurrences i l) <$> occupied l).
Proof.
  apply Z.le_antisymm; apply maxZ_le; (split; [apply maxZ_nonneg|]);
    apply Forall_fmap, Forall_forall; intros i Hi; cbn.
  - destruct (decide (i ∈ l)).
    + apply maxZ_elem, (list_elem_of_fmap_2 (fun i => occurrences i l)).
      by apply list_elem_of_filter.
    + destruct (decide (occurrences i l = 0)) as [->|Hne]; [apply maxZ_nonneg|].
      by apply occurrences_pos in Hne.
  - apply list_elem_of_filter in Hi as [_ Hi].
    by apply maxZ_elem, (list_elem_of_fmap_2 (fun i => occurrences i l)).
Qed.
