(* ===== verification/Charts.v ===== *)
(** * The charts of a report ([report/src/chart], [report/src/util.rs])

    Each chart is built from the transactions of a run, the blocks or the traces,
    and gives the data its page draws.  What the charts read of a block, a
    receipt and a trace are the records below; a [BTreeMap] is a [gmap] read in
    the order of its keys; a storage slot is the [Z] of its 32 bytes. *)

From Stdlib Require Import Strings.String.
From S2P Require Import Prelude Text F64 Alloy Db Histogram.

(** ** What the charts read *)

Record RpcBlock := {
  bl_number : Z;
  bl_gas_used : Z;
  bl_gas_limit : Z;
  bl_timestamp : Z;
  bl_tx_hashes : list TxHash;
}.

(** A frame of the prestate tracer: for each account the slots it lists. *)
Inductive PreStateFrame :=
| DefaultFrame (accounts : list (Address * list Z))
| DiffFrame.
Inductive GethTrace := PreStateTracer (frame : PreStateFrame) | OtherTracer.

Record TraceReceipt := {
  re_transaction_hash : TxHash;
  re_block_number : option Z;
  re_gas_used : Z;
}.
Record TxTraceReceipt := { tr_trace : GethTrace; tr_receipt : TraceReceipt }.

(** ** Errors ([report/src/error.rs]) *)

Inductive ReportError :=
| CsvWriter (e : string)
| ReportDb (e : DbError)
| DecodePrestateTraceFrame
| HandlebarsRender (e : string)
| InvalidRunId (id : Z)
| Io (e : string)
| MpscSendTraceReceipt
| ReceiptMissingBlockNum (hash : TxHash)
| ReportRpc (e : string)
| ReportCore (e : string)
| RunDoesNotExist (id : Z)
| CampaignNotFound (id : string)
| SerdeJson (e : string).

(** ** A [BTreeMap] in the order of its keys *)

Definition keys_of {A} (m : gmap Z A) : list Z := sortZ (map_to_list m).*1.
Definition values_of {A} (m : gmap Z A) : list A := omap (fun k => m !! k) (keys_of m).

(** [report/src/util.rs]. *)
Definition abbreviate_num (num : Z) : string :=
  if 1000000 <=? num then (fmt_fixed 1 (f64_div (f64_of_Z num) (f64_of_Z 1000000)) +:+ "M")%string
  else if 1000 <=? num then (dec (num / 1000) +:+ "k")%string
  else dec num.

Definition f64_sum (l : list f64) : f64 := fold_left f64_add l (f64_of_Z 0).

Definition mean (data : list Z) : option f64 :=
  let sum := f64_sum (f64_of_Z <$> data) in
  match data with [] => None | _ => Some (f64_div sum (f64_of_Z (Z.of_nat (length data)))) end.

Definition std_deviation (data : list Z) : option f64 :=
  match mean data, data with
  | Some data_mean, _ :: _ =>
      let variance := f64_div
        (f64_sum ((fun value => let diff := f64_sub data_mean (f64_of_Z value) in f64_mul diff diff)
                    <$> data))
        (f64_of_Z (Z.of_nat (length data))) in
      Some (f64_sqrt variance)
  | _, _ => None
  end.

Section charts.
Context {P : Profile} {D : F64Display}.
Abbreviation result A := (outcome ReportError A).

(** [iter.sum::<u64>()]. *)
Definition sum_u64 (l : list Z) : result Z := fold_steps (fun acc x => arith 64 (acc + x)) 0 l.

(** ** Gas per block *)

Record GasPerBlockData := { gb_blocks : list Z; gb_gas_used : list Z; gb_max_gas_used : Z }.

(** [.collect()] into a map: the last block of a number stays. *)
Definition gas_per_block_new (blocks : list RpcBlock) : gmap Z Z :=
  fold_left (fun m b => <[bl_number b := bl_gas_used b]> m) blocks ∅.
Definition gas_per_block_data (chart : gmap Z Z) : GasPerBlockData :=
  {| gb_blocks := keys_of chart; gb_gas_used := values_of chart;
     gb_max_gas_used := maxZ (values_of chart) |}.

(** ** Pending transactions *)

Record PendingTxsData := { pd_timestamps : list Z; pd_pending_txs : list Z }.

Definition timestamp_bounds (run_txs : list RunTx) : Z * Z :=
  fold_left (fun mm tx =>
    (Z.min mm.1 (rt_start_timestamp_ms tx / 1000),
     Z.max mm.2 (default 0 (rt_end_timestamp_ms tx) / 1000))) run_txs (U64_MAX, 0).

Definition pending_at (t_ms t_ms_end : Z) (tx : RunTx) : bool :=
  (rt_start_timestamp_ms tx <? t_ms_end) && (t_ms <? default U64_MAX (rt_end_timestamp_ms tx)).

Definition pending_in_second (run_txs : list RunTx) (t : Z) : result (Z * Z) :=
  t_ms ← arith 64 (t * 1000);
  t_ms_end ← arith 64 (t_ms + 1000);
  mret (t, Z.of_nat (length (filter (fun tx => pending_at t_ms t_ms_end tx = true) run_txs))).

(** [a..b]. *)
Definition range_from (a b : Z) : list Z := (fun i => a + i) <$> rangeZ (Z.to_nat (b - a)).

(** The map is filled in the order of its keys. *)
Definition pending_txs_new (run_txs : list RunTx) : result (list (Z * Z)) :=
  let '(min_timestamp_s, max_timestamp_s) := timestamp_bounds run_txs in
  last ← arith 64 (max_timestamp_s + 1);
  mapM (pending_in_second run_txs) (range_from (saturating_sub min_timestamp_s 1) last).
Definition pending_txs_data (chart : list (Z * Z)) : PendingTxsData :=
  {| pd_timestamps := chart.*1; pd_pending_txs := chart.*2 |}.

(** ** Time to inclusion *)

Record BucketData := { bd_buckets : list string; bd_counts : list Z; bd_max_count : Z }.

Definition inclusion_time (tx : RunTx) : result (option Z) :=
  match rt_end_timestamp_ms tx with
  | None => mret None
  | Some end_timestamp_ms =>
      dumb_base ← (if end_timestamp_ms <? rt_start_timestamp_ms tx
                   then d ← arith 64 (rt_start_timestamp_ms tx - end_timestamp_ms);
                        arith 64 (0 + d)
                   else mret 0);
      end_timestamp_ms ← arith 64 (end_timestamp_ms + dumb_base);
      tti_ms ← arith 64 (end_timestamp_ms - rt_start_timestamp_ms tx);
      mret (Some tti_ms)
  end.
Definition time_to_inclusion_new (run_txs : list RunTx) : result (list Z) :=
  l ← mapM inclusion_time run_txs; mret (omap id l).

Definition tti_label (bucket_size_ms bucket_index : Z) : result string :=
  start_ms ← arith 64 (bucket_index * bucket_size_ms);
  end_ms ← arith 64 (start_ms + bucket_size_ms);
  r ← rem_ bucket_size_ms 1000;
  mret (if r =? 0
        then (dec (start_ms / 1000) +:+ " - " +:+ dec (end_ms / 1000) +:+ " s")%string
        else (dec start_ms +:+ " - " +:+ dec end_ms +:+ " ms")%string).

(** The non-empty buckets. *)
Definition drop_empty (keep : string * Z -> bool) (h : Hist) : BucketData :=
  let kept := filter (fun bc => keep bc = true) (zip (hs_buckets h) (hs_counts h)) in
  {| bd_buckets := kept.*1; bd_counts := kept.*2; bd_max_count := hs_max h |}.

Definition time_to_inclusion_data (inclusion_times_ms : list Z) (bucket_size_ms : Z)
  : result BucketData :=
  indices ← mapM (fun tti_ms => div_ tti_ms bucket_size_ms) inclusion_times_ms;
  h ← hist_all "" (tti_label bucket_size_ms) indices;
  mret (drop_empty (fun bc => negb (String.eqb bc.1 "") && (0 <? bc.2)) h).

(** ** Gas used by transactions *)

Definition gas_bucket (bucket_width gas : Z) : result Z :=
  r ← rem_ gas bucket_width;
  d ← arith 64 (bucket_width - r);
  gas ← arith 64 (gas + d);
  div_ gas bucket_width.
Definition gas_label (bucket_width bucket_index : Z) : result string :=
  lo ← arith 64 (bucket_index * bucket_width);
  hi ← arith 64 ((bucket_index + 1) * bucket_width);
  mret (abbreviate_num lo +:+ " - " +:+ abbreviate_num hi)%string.

Definition tx_gas_used_new (trace_data : list TxTraceReceipt) : list Z :=
  (fun t => re_gas_used (tr_receipt t)) <$> trace_data.
Definition tx_gas_used_data (gas_used : list Z) (bucket_width : Z) : result BucketData :=
  indices ← mapM (gas_bucket bucket_width) gas_used;
  h ← hist_all "0" (gas_label bucket_width) indices;
  mret (drop_empty (fun bc => negb (bc.2 =? 0)) h).

(** ** Flashblocks *)

Definition flashblock_index_new (run_txs : list RunTx) : option (list Z) :=
  match omap rt_flashblock_index run_txs with [] => None | l => Some l end.
Definition flashblock_index_data (indices : list Z) : result BucketData :=
  let max_index := maxZ indices in
  counts ← fold_steps (fun counts idx =>
    c ← unwrap (counts !! Z.to_nat idx);
    c ← arith 64 (c + 1);
    mret (<[Z.to_nat idx := c]> counts)) (replicate (Z.to_nat (max_index + 1)) 0) indices;
  mret {| bd_buckets := dec <$> rangeZ (Z.to_nat (max_index + 1));
          bd_counts := counts;
          bd_max_count := maxZ counts |}.

Definition flashblock_tti_new (run_txs : list RunTx) : option (list Z) :=
  match omap rt_flashblock_latency_ms run_txs with [] => None | l => Some l end.
Definition ms_label (bucket_size_ms bucket_index : Z) : result string :=
  lo ← arith 64 (bucket_index * bucket_size_ms);
  hi ← arith 64 (lo + bucket_size_ms);
  mret (dec lo +:+ " - " +:+ dec hi +:+ " ms")%string.

(** The positions of the first and the last count above zero. *)
Definition first_pos (counts : list Z) : option nat :=
  fst <$> list_find (fun c => 0 < c) counts.
Definition last_pos (counts : list Z) : option nat :=
  (fun k => length counts - 1 - k)%nat <$> (fst <$> list_find (fun c => 0 < c) (reverse counts)).

Definition flashblock_tti_data (latencies_ms : list Z) : result BucketData :=
  let bucket_size_ms := 100 in
  h ← hist_all "" (ms_label bucket_size_ms) ((fun latency_ms => latency_ms / bucket_size_ms) <$> latencies_ms);
  match first_pos (hs_counts h), last_pos (hs_counts h) with
  | Some first, Some lst =>
      buckets ← mapM (fun ib : nat * string =>
        if ((first <=? ib.1) && (ib.1 <=? lst))%nat && String.eqb ib.2 ""
        then ms_label bucket_size_ms (Z.of_nat ib.1) else mret ib.2)
        (imap pair (hs_buckets h));
      mret {| bd_buckets := take (S lst - first) (drop first buckets);
              bd_counts := take (S lst - first) (drop first (hs_counts h));
              bd_max_count := hs_max h |}
  | _, _ => mret {| bd_buckets := hs_buckets h; bd_counts := hs_counts h; bd_max_count := hs_max h |}
  end.

(** ** RPC latency *)

Record LatencyQuantiles := { lq_p50 : f64; lq_p90 : f64; lq_p99 : f64 }.
Record LatencyData := {
  ld_buckets : list string;
  ld_counts : list Z;
  ld_quantiles : LatencyQuantiles;
}.
Record MethodLatencyData := { ml_method : string; ml_data : LatencyData }.

(** The bounds and counts of adjacent buckets, the first after [lower]. *)
Fixpoint latency_labels (lower : f64) (l : list Bucket) : list string :=
  match l with
  | [] => []
  | b :: l =>
      (f64_display (f64_mul lower (f64_of_Z 1000)) +:+ " - " +:+
       f64_display (f64_mul (upper_bound b) (f64_of_Z 1000)))%string ::
      latency_labels (upper_bound b) l
  end.
Fixpoint count_differences (previous : Z) (l : list Bucket) : result (list Z) :=
  match l with
  | [] => mret []
  | b :: l =>
      c ← arith 64 (cumulative_count b - previous);
      cs ← count_differences (cumulative_count b) l;
      mret (c :: cs)
  end.
Definition latency_counts (l : list Bucket) : result (list Z) :=
  match l with
  | [] => mret []
  | b :: l => cs ← count_differences (cumulative_count b) l; mret (cumulative_count b :: cs)
  end.

Definition latency_data (buckets : list Bucket) : result LatencyData :=
  counts ← latency_counts buckets;
  p50 ← estimate_quantile buckets (f64_lit 5 10);
  p90 ← estimate_quantile buckets (f64_lit 9 10);
  p99 ← estimate_quantile buckets (f64_lit 99 100);
  mret {| ld_buckets := latency_labels (f64_of_Z 0) buckets;
          ld_counts := counts;
          ld_quantiles := {| lq_p50 := f64_mul p50 (f64_of_Z 1000);
                             lq_p90 := f64_mul p90 (f64_of_Z 1000);
                             lq_p99 := f64_mul p99 (f64_of_Z 1000) |} |}.
End charts.

(** ** Properties of the histogram charts *)

Section histogram_props.
Context {P : Profile}.

Definition fits_u64 (z : Z) : Prop := 0 <= z < 2 ^ 64.

(** What a chart of non-empty buckets shows of values with the given buckets. *)
Definition bucket_chart (text : Z -> string) (indices : list Z) : BucketData :=
  {| bd_buckets := text <$> occupied indices;
     bd_counts := (fun i => occurrences i indices) <$> occupied indices;
     bd_max_count := maxZ ((fun i => occurrences i indices) <$> occupied indices) |}.

Lemma drop_empty_chart keep empty text l :
  keep (empty, 0) = false -> (forall i c, 0 < c -> keep (text i, c) = true) ->
  drop_empty keep (hist_of empty text l) = bucket_chart text l.
Proof.
  intros He Hk. unfold drop_empty. rewrite filter_hist by done. unfold bucket_chart.
  rewrite <- !list_fmap_compose. f_equal. apply max_occupied.
Qed.

Lemma inclusion_time_ok tx :
  fits_u64 (rt_start_timestamp_ms tx) ->
  (forall e, rt_end_timestamp_ms tx = Some e -> fits_u64 e) ->
  inclusion_time tx =
  Ok ((fun e => saturating_sub e (rt_start_timestamp_ms tx)) <$> rt_end_timestamp_ms tx).
Proof.
  unfold fits_u64. intros Hs He. unfold inclusion_time.
  destruct (rt_end_timestamp_ms tx) as [e|]; [|done]. specialize (He e eq_refl).
  cbn [fmap option_fmap option_map]. rewrite saturating_sub_spec.
  destruct (Z.ltb_spec e (rt_start_timestamp_ms tx));
    destruct (Z.leb_spec (rt_start_timestamp_ms tx) e); try lia; cbn;
    repeat (rewrite arith_in by lia; cbn); do 2 f_equal; lia.
Qed.

(** The text of the bucket from [i * size] on. *)
Definition tti_text (size i : Z) : string :=
  if size mod 1000 =? 0
  then (dec (i * size / 1000) +:+ " - " +:+ dec ((i * size + size) / 1000) +:+ " s")%string
  else (dec (i * size) +:+ " - " +:+ dec (i * size + size) +:+ " ms")%string.

Lemma tti_label_ok size i :
  0 < size -> 0 <= i -> (i + 1) * size < 2 ^ 64 -> tti_label size i = Ok (tti_text size i).
Proof.
  intros Hs Hi Hf. unfold tti_label, tti_text. rewrite arith_in by nia. cbn.
  rewrite arith_in by nia. cbn. unfold rem_. by destruct (Z.eqb_spec 1000 0).
Qed.

Lemma keep_tti size i c :
  0 < c -> negb (String.eqb (tti_text size i) "") && (0 <? c) = true.
Proof.
  intros Hc. apply andb_true_iff. split; [|by apply Z.ltb_lt]. unfold tti_text.
  destruct (size mod 1000 =? 0);
    match goal with |- context [(dec ?z +:+ _)%string] =>
      pose proof (dec_nonempty z); by destruct (dec z) end.
Qed.

(** The time-to-inclusion chart never fails on a positive bucket size: a
    confirmed transaction's time is its end minus its start, or 0 when the clock
    ran backwards; the chart shows, in increasing order and without a repeat,
    exactly the buckets that hold some time, each with its interval as text and
    the number of times in it, and these numbers add up to the confirmed
    transactions. *)
Theorem time_to_inclusion_histogram (run_txs : list RunTx) (size : Z)
  (Hsize : 0 < size) (Hlen : Z.of_nat (length run_txs) < 2 ^ 64)
  (Hfits : forall tx, tx ∈ run_txs -> fits_u64 (rt_start_timestamp_ms tx) /\
     forall e, rt_end_timestamp_ms tx = Some e -> fits_u64 e)
  (Hlabel : forall tx e, tx ∈ run_txs -> rt_end_timestamp_ms tx = Some e -> e + size < 2 ^ 64) :
  let times := omap (fun tx => (fun e => saturating_sub e (rt_start_timestamp_ms tx)) <$>
                                 rt_end_timestamp_ms tx) run_txs in
  let indices := (fun t => t / size) <$> times in
  time_to_inclusion_new run_txs = Ok times /\
  time_to_inclusion_data times size = Ok (bucket_chart (tti_text size) indices) /\
  StronglySorted Z.lt (occupied indices) /\ (forall i, i ∈ occupied indices <-> i ∈ indices) /\
  sumZ (bd_counts (bucket_chart (tti_text size) indices)) = Z.of_nat (length times).
Proof.
  intros times indices.
  assert (Htimes : forall t, t ∈ times -> 0 <= t /\ t + size < 2 ^ 64).
  { intros t (tx & Htx & Ht)%list_elem_of_omap. destruct (Hfits tx Htx) as [[Hs _] He].
    destruct (rt_end_timestamp_ms tx) as [e|] eqn:Hte; [|done]. injection Ht as <-.
    specialize (Hlabel tx e Htx Hte). specialize (He e eq_refl). unfold fits_u64 in *.
    rewrite saturating_sub_spec. destruct (Z.leb_spec (rt_start_timestamp_ms tx) e); lia. }
  assert (Hpos : Forall (Z.le 0) indices).
  { apply Forall_fmap, Forall_forall. intros t Ht. apply Z.div_pos; [|lia]. by apply Htimes. }
  split_and!.
  - unfold time_to_inclusion_new. rewrite (mapM_total _ (fun tx =>
      (fun e => saturating_sub e (rt_start_timestamp_ms tx)) <$> rt_end_timestamp_ms tx)).
    + cbn. f_equal. unfold times. clear. induction run_txs as [|tx l IH]; [done|]. cbn.
      by destruct (_ <$> rt_end_timestamp_ms tx); cbn; rewrite IH.
    + intros tx Htx. by apply inclusion_time_ok; apply Hfits.
  - unfold time_to_inclusion_data. rewrite (mapM_total _ (fun t => t / size)).
    + cbn. rewrite (hist_all_of _ _ (tti_text size)).
      * cbn. f_equal. apply (drop_empty_chart _ "" (tti_text size)); [done|].
        intros i c. apply keep_tti.
      * apply Forall_fmap, Forall_forall. intros t Ht. cbn. destruct (Htimes t Ht).
        pose proof (Z.div_pos t size). split; [lia|]. apply tti_label_ok; [done|lia|].
        pose proof (Z.mul_div_le t size Hsize). lia.
      * rewrite length_fmap. pose proof (omap_length_le _ run_txs : (length times <= _)%nat). lia.
    + intros t Ht. unfold div_. by destruct (Z.eqb_spec size 0); [lia|].
  - apply occupied_sorted.
  - intros i. by apply elem_of_occupied.
  - cbn. rewrite sum_occupied by done. unfold indices. by rewrite length_fmap.
Qed.

Definition gas_text (width i : Z) : string :=
  (abbreviate_num (i * width) +:+ " - " +:+ abbreviate_num ((i + 1) * width))%string.

Lemma gas_text_nonempty width i : gas_text width i <> ""%string.
Proof.
  unfold gas_text. generalize (abbreviate_num (i * width)). intros s. by destruct s.
Qed.

Lemma gas_bucket_ok w g :
  0 < w -> 0 <= g -> g + w < 2 ^ 64 -> gas_bucket w g = Ok (g / w + 1).
Proof.
  intros Hw Hg Hf. pose proof (Z.mod_pos_bound g w Hw). pose proof (Z.div_mod g w ltac:(lia)).
  unfold gas_bucket, rem_. destruct (Z.eqb_spec w 0); [lia|]. cbn.
  rewrite arith_in by lia. cbn. rewrite arith_in by lia. cbn.
  unfold div_. destruct (Z.eqb_spec w 0); [lia|]. f_equal.
  replace (g + (w - g mod w)) with ((g / w + 1) * w) by lia. apply Z.div_mul. lia.
Qed.

(** The gas chart counts every transaction once and loses none, but in the
    bucket above the one its gas lies in: its interval starts above the gas. *)
Theorem gas_chart_one_bucket_up (gas_used : list Z) (width : Z)
  (Hwidth : 0 < width) (Hlen : Z.of_nat (length gas_used) < 2 ^ 64)
  (Hfits : Forall (fun g => 0 <= g /\ g + 2 * width < 2 ^ 64) gas_used) :
  let indices := (fun g => g / width + 1) <$> gas_used in
  tx_gas_used_data gas_used width = Ok (bucket_chart (gas_text width) indices) /\
  sumZ (bd_counts (bucket_chart (gas_text width) indices)) = Z.of_nat (length gas_used) /\
  Forall (fun g => g < (g / width + 1) * width <= g + width) gas_used.
Proof.
  intros indices. rewrite Forall_forall in Hfits.
  assert (Hpos : Forall (Z.le 0) indices).
  { apply Forall_fmap, Forall_forall. intros g Hg. destruct (Hfits g Hg).
    pose proof (Z.div_pos g width). cbn. lia. }
  split_and!.
  - unfold tx_gas_used_data. rewrite (mapM_total _ (fun g => g / width + 1)).
    + cbn. rewrite (hist_all_of _ _ (gas_text width)).
      * cbn. f_equal. apply (drop_empty_chart _ "0" (gas_text width)); [done|].
        intros i c Hc. cbn. by destruct (Z.eqb_spec c 0); [lia|].
      * apply Forall_fmap, Forall_forall. intros g Hg. cbn. destruct (Hfits g Hg).
        pose proof (Z.div_pos g width). pose proof (Z.mul_div_le g width Hwidth).
        split; [lia|]. unfold gas_label. rewrite arith_in by nia. cbn.
        rewrite arith_in by nia. done.
      * by rewrite length_fmap.
    + intros g Hg. destruct (Hfits g Hg). apply gas_bucket_ok; lia.
  - cbn. rewrite sum_occupied by done. unfold indices. by rewrite length_fmap.
  - apply Forall_forall. intros g Hg. pose proof (Z.mod_pos_bound g width Hwidth).
    pose proof (Z.div_mod g width ltac:(lia)). lia.
Qed.

(** ** Flashblocks *)

Lemma flashblock_index_step l w idx :
  0 <= idx < Z.of_nat w -> Z.of_nat (length l) + 1 < 2 ^ 64 ->
  (c ← unwrap (((fun i => occurrences i l) <$> rangeZ w) !! Z.to_nat idx);
   c ← arith (E := ReportError) 64 (c + 1);
   mret (<[Z.to_nat idx := c]> ((fun i => occurrences i l) <$> rangeZ w))) =
  Ok ((fun i => occurrences i (l ++ [idx])) <$> rangeZ w).
Proof.
  intros Hi Hl. rewrite list_lookup_fmap, lookup_rangeZ, Z2Nat.id by lia. cbn.
  pose proof (occurrences_nonneg idx l). pose proof (occurrences_le idx l).
  rewrite arith_in by lia. cbn. f_equal. apply insert_range; [lia| |].
  - by rewrite Z2Nat.id, occurrences_snoc, decide_True by lia.
  - intros k Hk. rewrite occurrences_snoc, decide_False by lia. lia.
Qed.

(** The flashblock chart has a bar for every index up to the greatest one,
    labelled by it, with the number of transactions of that index. *)
Theorem flashblock_index_counts (run_txs : list RunTx) (indices : list Z)
  (Hnew : flashblock_index_new run_txs = Some indices)
  (Hpos : Forall (Z.le 0) indices) (Hlen : Z.of_nat (length indices) < 2 ^ 64) :
  indices = omap rt_flashblock_index run_txs /\ indices <> [] /\
  flashblock_index_data indices = Ok
    {| bd_buckets := dec <$> rangeZ (Z.to_nat (maxZ indices + 1));
       bd_counts := (fun i => occurrences i indices) <$> rangeZ (Z.to_nat (maxZ indices + 1));
       bd_max_count := maxZ ((fun i => occurrences i indices) <$> rangeZ (Z.to_nat (maxZ indices + 1))) |}.
Proof.
  unfold flashblock_index_new in Hnew. destruct (omap rt_flashblock_index run_txs) as [|x l] eqn:Ho;
    [done|]. injection Hnew as <-. split_and!; [done|done|]. clear Ho.
  set (indices := x :: l) in *. clearbody indices. unfold flashblock_index_data.
  set (w := Z.to_nat (maxZ indices + 1)).
  assert (Hw : Forall (fun i => 0 <= i < Z.of_nat w) indices).
  { apply Forall_forall. intros i Hi. rewrite Forall_forall in Hpos. specialize (Hpos i Hi).
    apply maxZ_elem in Hi. lia. }
  enough (Hg : fold_steps (fun counts idx => c ← unwrap (counts !! Z.to_nat idx);
      c ← arith 64 (c + 1); mret (<[Z.to_nat idx := c]> counts)) (replicate w 0) indices =
      Ok ((fun i => occurrences i indices) <$> rangeZ w)) by (rewrite Hg; done).
  clear Hpos. clearbody w. induction indices as [|y k IH] using rev_ind.
  - cbn. f_equal. apply list_eq. intros i. destruct (Nat.ltb_spec i w).
    + by rewrite lookup_replicate_2, list_lookup_fmap, lookup_rangeZ.
    + by rewrite !lookup_ge_None_2 by (rewrite ?length_fmap, ?rangeZ_length, ?length_replicate; done).
  - rewrite length_app in Hlen. cbn in Hlen. apply Forall_app in Hw as [Hk Hy].
    apply (proj1 (Forall_singleton _ _)) in Hy.
    rewrite fold_steps_app, IH by (done || lia). cbn [mbind outcome_bind fold_steps].
    rewrite flashblock_index_step by (done || lia). done.
Qed.

(** ** RPC latency *)

(** The counts of the latency chart are the steps of the cumulative counts:
    none fails, and summed up again they give the cumulative counts back. *)
Theorem latency_counts_add_up (l : list Bucket) (Hc : cumulative l) :
  exists counts, latency_counts l = Ok counts /\ length counts = length l /\
    Forall (Z.le 0) counts /\
    forall i b, l !! i = Some b -> sumZ (take (S i) counts) = cumulative_count b.
Proof.
  assert (Hgen : forall l prev, 0 <= prev -> cumulative l ->
    HdRel Z.le prev (cumulative_count <$> l) ->
    exists counts, count_differences prev l = Ok counts /\ length counts = length l /\
      Forall (Z.le 0) counts /\
      forall i b, l !! i = Some b -> prev + sumZ (take (S i) counts) = cumulative_count b).
  { clear. intros l. induction l as [|b l IH]; intros prev Hp [Hf Hs] Hh.
    { exists []. split_and!; [done|done|constructor|]. intros i b Hi. by rewrite lookup_nil in Hi. }
    apply Forall_cons in Hf as [Hb Hf]. inversion Hs; subst. inversion Hh; subst.
    destruct (IH (cumulative_count b)) as (cs & Hcs & Hl & Hn & Hsum); [lia|by split|done|].
    exists (cumulative_count b - prev :: cs). cbn. rewrite arith_in by lia. cbn. rewrite Hcs.
    split_and!; [done|by rewrite Hl|constructor; [lia|done]|].
    intros [|i] b' Hi; [injection Hi as <-; cbn; rewrite take_0; cbn; lia|]. specialize (Hsum i b' Hi).
    change (prev + (cumulative_count b - prev + sumZ (take (S i) cs)) = cumulative_count b'). lia. }
  destruct l as [|b l].
  { exists []. split_and!; [done|done|constructor|]. intros i b Hi. by rewrite lookup_nil in Hi. }
  destruct Hc as [Hf Hs]. apply Forall_cons in Hf as [Hb Hf]. inversion Hs; subst.
  destruct (Hgen l (cumulative_count b)) as (cs & Hcs & Hl & Hn & Hsum); [lia|by split|done|].
  exists (cumulative_count b :: cs). cbn. rewrite Hcs.
  split_and!; [done|by rewrite <- Hl|constructor; [lia|done]|].
  intros [|i] b' Hi; [injection Hi as <-; cbn; rewrite take_0; cbn; lia|]. by apply Hsum.
Qed.
End histogram_props.

(** ** Witnesses *)

Module ChartsWitness.
Local Instance debug : Profile := true.

Definition tx (start_ms : Z) (end_ms flashblock_index : option Z) : RunTx :=
  {| rt_tx_hash := 0; rt_start_timestamp_ms := start_ms; rt_end_timestamp_ms := end_ms;
     rt_block_number := Some 1; rt_gas_used := Some 21000; rt_kind := None; rt_error := None;
     rt_flashblock_latency_ms := None; rt_flashblock_index := flashblock_index |}.

Definition three : list RunTx := [tx 0 (Some 50) None; tx 0 (Some 80) None; tx 0 (Some 150) None].

Lemma time_to_inclusion_histogram_witness :
  time_to_inclusion_data [50; 80; 150] 100 =
  Ok {| bd_buckets := ["0 - 100 ms"; "100 - 200 ms"]%string; bd_counts := [2; 1]; bd_max_count := 2 |}.
Proof.
  destruct (time_to_inclusion_histogram three 100) as (_ & H & _).
  - lia.
  - cbn. lia.
  - intros t Ht. unfold three in Ht. rewrite !elem_of_cons, elem_of_nil in Ht. unfold fits_u64.
    destruct Ht as [->|[->|[->|[]]]]; (split; [cbn; lia|intros e [= <-]; lia]).
  - intros t e Ht. unfold three in Ht. rewrite !elem_of_cons, elem_of_nil in Ht.
    destruct Ht as [->|[->|[->|[]]]]; (intros [= <-]; lia).
  - exact H.
Defined.

(** A gas of 21000 is shown between 24k and 28k. *)
Lemma gas_chart_one_bucket_up_witness :
  tx_gas_used_data [21000; 21000] 4000 =
  Ok {| bd_buckets := ["24k - 28k"]%string; bd_counts := [2]; bd_max_count := 2 |}.
Proof.
  destruct (gas_chart_one_bucket_up [21000; 21000] 4000) as (H & _ & _).
  - lia.
  - cbn. lia.
  - rewrite !Forall_cons, Forall_nil. lia.
  - exact H.
Defined.

Lemma flashblock_index_counts_witness :
  flashblock_index_data [0; 0; 1; 3] =
  Ok {| bd_buckets := ["0"; "1"; "2"; "3"]%string; bd_counts := [2; 1; 0; 1]; bd_max_count := 2 |}.
Proof.
  destruct (flashblock_index_counts
    [tx 0 None (Some 0); tx 0 None None; tx 0 None (Some 0); tx 0 None (Some 1); tx 0 None (Some 3)]
    [0; 0; 1; 3]) as (_ & _ & H).
  - reflexivity.
  - rewrite !Forall_cons, Forall_nil. lia.
  - cbn. lia.
  - exact H.
Defined.

Lemma latency_counts_add_up_witness :
  exists counts, latency_counts (Bucket_of <$> [(f64_of_Z 1, 4); (f64_of_Z 2, 10)]) = Ok counts /\
    sumZ (take 2 counts) = 10.
Proof.
  destruct (latency_counts_add_up (Bucket_of <$> [(f64_of_Z 1, 4); (f64_of_Z 2, 10)]))
    as (counts & H & _ & _ & Hs).
  - split; repeat constructor; cbn; lia.
  - exists counts. split; [exact H|]. exact (Hs 1%nat (Bucket_of (f64_of_Z 2, 10)) eq_refl).
Defined.

(** Nothing is shown of a run none of whose transactions was confirmed. *)
Lemma unconfirmed_run_shows_nothing :
  pending_txs_new [tx 5000 None None; tx 6000 None None] = Ok [].
Proof. vm_compute. done. Qed.
End ChartsWitness.
