(* ===== verification/Heatmap.v ===== *)
(** * The heat map of storage accesses ([report/src/chart/heatmap.rs])

    From the prestate traces of the transactions of a run: how often each storage
    slot is touched in each block, condensed to at most [MAX_BLOCKS] rows of
    adjacent blocks and the [MAX_SLOTS] most active slots. *)

From Stdlib Require Import Strings.String.
From S2P Require Import Prelude Text F64 Alloy Db Histogram Charts.

(** Block number, slot, count. *)
Abbreviation AccessMap := (gmap Z (gmap Z Z)).

Section heatmap.
Context {P : Profile}.
Abbreviation result A := (outcome ReportError A).

(** ** The heat map of storage slots *)

Definition MAX_BLOCKS : nat := 100.
Definition MAX_SLOTS : nat := 100.

(** One access of a slot in a block. *)
Definition count_access (block_num : Z) (updates : AccessMap) (slot : Z) : result AccessMap :=
  match updates !! block_num with
  | Some slot_map =>
      value ← match slot_map !! slot with Some v => arith 64 (v + 1) | None => mret 1 end;
      mret (<[block_num := <[slot := value]> slot_map]> updates)
  | None => mret (<[block_num := {[slot := 1]}]> updates)
  end.

Definition copy_slot_access_map (updates : AccessMap) (t : TxTraceReceipt) : result AccessMap :=
  block_num ← ok_or (ReceiptMissingBlockNum (re_transaction_hash (tr_receipt t)))
                (re_block_number (tr_receipt t));
  match tr_trace t with
  | OtherTracer => mret updates
  | PreStateTracer DiffFrame => Err DecodePrestateTraceFrame
  | PreStateTracer (DefaultFrame accounts) =>
      fold_steps (fun updates account => fold_steps (count_access block_num) updates account.2)
        updates accounts
  end.

Definition heatmap_new (trace_data : list TxTraceReceipt) : result AccessMap :=
  fold_steps copy_slot_access_map ∅ trace_data.

(** [get_hex_slots]: every slot once, sorted. *)
Definition get_hex_slots (chart : AccessMap) : list Z :=
  sortZ (elements (list_to_set (values_of chart ≫= fun slot_map => (map_to_list slot_map).*1) : gset Z)).

(** The accesses of a slot in one block, and in several. *)
Definition accesses (chart : AccessMap) (slot block : Z) : option Z :=
  slot_map ← chart !! block; slot_map !! slot.
Definition slot_accesses (chart : AccessMap) (blocks : list Z) (slot : Z) : result Z :=
  sum_u64 (omap (accesses chart slot) blocks).

Definition div_ceil (a b : nat) : nat := (a + b - 1) / b.

(** The most active slots, in the order of the slots. *)
Definition top_slots (slot_counts : list (Z * Z)) : list Z :=
  sortZ (take MAX_SLOTS (sort_by (fun sc => - sc.2) slot_counts)).*1.

Definition heatmap_slots (chart : AccessMap) : result (list Z) :=
  let all_slots := get_hex_slots chart in
  if (MAX_SLOTS <? length all_slots)%nat then
    slot_counts ← mapM (fun slot =>
      total ← slot_accesses chart (keys_of chart) slot; mret (slot, total)) all_slots;
    mret (top_slots slot_counts)
  else mret all_slots.

(** The labels of the condensed blocks, and how many blocks one stands for. *)
Definition block_buckets (all_blocks : list Z) : list Z * nat :=
  if (MAX_BLOCKS <? length all_blocks)%nat then
    let bucket_size := div_ceil (length all_blocks) MAX_BLOCKS in
    (omap head (chunks_fuel (length all_blocks) bucket_size all_blocks), bucket_size)
  else (all_blocks, 1%nat).

Record HeatmapData := {
  hm_blocks : list Z;
  hm_slots : list string;
  hm_matrix : list (Z * Z * Z);
  hm_max_accesses : Z;
}.

(** One cell: row [i] of the bucket [bucket_blocks], column [j] of [slot]. *)
Definition heat_cell (chart : AccessMap) (i : nat) (bucket_blocks : list Z)
    (st : list (Z * Z * Z) * Z) (js : nat * Z) : result (list (Z * Z * Z) * Z) :=
  count ← slot_accesses chart bucket_blocks js.2;
  let max_accesses := if st.2 <? count then count else st.2 in
  mret (if 0 <? count then st.1 ++ [(Z.of_nat i, Z.of_nat js.1, count)] else st.1, max_accesses).

Definition heat_row (chart : AccessMap) (slots : list Z) (st : list (Z * Z * Z) * Z)
    (ib : nat * list Z) : result (list (Z * Z * Z) * Z) :=
  fold_steps (heat_cell chart ib.1 ib.2) st (imap pair slots).

Definition heatmap_data (chart : AccessMap) : result HeatmapData :=
  let all_blocks := keys_of chart in
  let '(blocks, block_bucket_size) := block_buckets all_blocks in
  slots ← heatmap_slots chart;
  mm ← fold_steps (heat_row chart slots) ([], 0)
         (imap pair (chunks_fuel (length all_blocks) block_bucket_size all_blocks));
  mret {| hm_blocks := blocks;
          hm_slots := hex_digits 64 <$> slots;
          hm_matrix := mm.1;
          hm_max_accesses := mm.2 |}.
End heatmap.

(** ** What the map counts *)

Section access_props.
Context {P : Profile}.

(** The listings of a slot by the accounts of a trace, in a given block. *)
Definition frame_accesses (slot : Z) (t : TxTraceReceipt) : Z :=
  match tr_trace t with
  | PreStateTracer (DefaultFrame accounts) => sumZ ((fun a => occurrences slot a.2) <$> accounts)
  | _ => 0
  end.
Definition trace_accesses (slot block : Z) (t : TxTraceReceipt) : Z :=
  if decide (re_block_number (tr_receipt t) = Some block) then frame_accesses slot t else 0.

(** A trace the chart accepts: of a mined transaction, not in diff mode. *)
Definition traceable (t : TxTraceReceipt) : bool :=
  match re_block_number (tr_receipt t), tr_trace t with
  | None, _ | _, PreStateTracer DiffFrame => false
  | _, _ => true
  end.

(** The map holds a count exactly where it is not zero. *)
Definition counts_as (m : AccessMap) (f : Z -> Z -> Z) : Prop :=
  forall slot block, accesses m slot block = (if f slot block =? 0 then None else Some (f slot block)) /\
                     0 <= f slot block.

Lemma count_access_ok m f block slot :
  counts_as m f -> f slot block + 1 < 2 ^ 64 ->
  exists m', count_access block m slot = Ok m' /\
    counts_as m' (fun s b => f s b + (if decide (s = slot /\ b = block) then 1 else 0)).
Proof.
  intros Hm Hf. destruct (Hm slot block) as [Ha H0]. unfold accesses in Ha.
  assert (Hother : forall s b (sm : gmap Z Z), (s <> slot \/ b <> block) ->
    (forall s, s <> slot -> sm !! s = accesses m s block) ->
    accesses (<[block := sm]> m) s b = accesses m s b).
  { intros s b sm Hne Hsm. unfold accesses in *. destruct (decide (b = block)) as [->|Hb].
    - rewrite lookup_insert_eq. cbn. apply Hsm. by destruct Hne.
    - by rewrite lookup_insert_ne. }
  assert (Hdone : forall (sm : gmap Z Z), sm !! slot = Some (f slot block + 1) ->
    (forall s, s <> slot -> sm !! s = accesses m s block) ->
    counts_as (<[block := sm]> m) (fun s b => f s b + (if decide (s = slot /\ b = block) then 1 else 0))).
  { intros sm Hs Hsm s b. destruct (decide (s = slot /\ b = block)) as [[-> ->]|Hne].
    - unfold accesses. rewrite lookup_insert_eq. cbn. rewrite Hs. split; [|lia].
      by destruct (Z.eqb_spec (f slot block + 1) 0); [lia|].
    - rewrite Hother, Z.add_0_r; [apply Hm| |done].
      destruct (decide (s = slot)); [|by left]. right. naive_solver. }
  unfold count_access. destruct (m !! block) as [sm|] eqn:Hb; cbn in Ha.
  - assert (Hrest : forall v s, s <> slot -> <[slot := v]> sm !! s = accesses m s block).
    { intros v s Hs. unfold accesses. rewrite Hb. cbn. by rewrite lookup_insert_ne. }
    rewrite Ha. destruct (Z.eqb_spec (f slot block) 0) as [H1|H1].
    + cbn. eexists. split; [done|]. apply Hdone; [|apply Hrest].
      by rewrite lookup_insert_eq, H1.
    + rewrite arith_in by lia. cbn. eexists. split; [done|]. apply Hdone; [|apply Hrest].
      by rewrite lookup_insert_eq.
  - destruct (Z.eqb_spec (f slot block) 0) as [H1|H1]; [|done].
    eexists. split; [done|]. apply Hdone.
    + by rewrite lookup_singleton_eq, H1.
    + intros s Hs. unfold accesses. rewrite Hb. cbn. by rewrite lookup_singleton_ne.
Qed.

Lemma counts_as_ext m f g :
  (forall s b, f s b = g s b) -> counts_as m f -> counts_as m g.
Proof. intros Hfg Hm s b. rewrite <- Hfg. apply Hm. Qed.

Lemma occurrences_cons i x l :
  occurrences i (x :: l) = (if decide (x = i) then 1 else 0) + occurrences i l.
Proof. unfold occurrences. rewrite filter_cons. destruct (decide (x = i)); cbn; lia. Qed.

Lemma count_slots_ok block slots m f :
  counts_as m f -> (forall s, f s block + occurrences s slots < 2 ^ 64) ->
  exists m', fold_steps (count_access block) m slots = Ok m' /\
    counts_as m' (fun s b => f s b + (if decide (b = block) then occurrences s slots else 0)).
Proof.
  revert m f. induction slots as [|x slots IH]; intros m f Hm Hf.
  - exists m. split; [done|]. eapply counts_as_ext, Hm. intros s b.
    change (occurrences s []) with 0. case_decide; lia.
  - destruct (count_access_ok m f block x Hm) as (m1 & H1 & Hm1).
    { specialize (Hf x). rewrite occurrences_cons, decide_True in Hf by done.
      pose proof (occurrences_nonneg x slots). lia. }
    destruct (IH m1 _ Hm1) as (m2 & H2 & Hm2).
    { intros s. specialize (Hf s). rewrite occurrences_cons in Hf. cbn.
      destruct (decide (x = s)) as [->|Hne].
      - rewrite decide_True by done. lia.
      - rewrite decide_False by naive_solver. lia. }
    exists m2. cbn. rewrite H1. split; [done|]. eapply counts_as_ext, Hm2. intros s b. cbn.
    destruct (decide (b = block)) as [->|Hb].
    + rewrite occurrences_cons. destruct (decide (x = s)) as [->|Hne].
      * rewrite decide_True by done. lia.
      * rewrite decide_False by naive_solver. lia.
    + rewrite decide_False by naive_solver. lia.
Qed.

Lemma sum_occurrences_nonneg (accounts : list (Address * list Z)) s :
  0 <= sumZ ((fun a => occurrences s a.2) <$> accounts).
Proof.
  apply sumZ_nonneg, Forall_fmap, Forall_forall. intros a _. apply occurrences_nonneg.
Qed.

Lemma count_accounts_ok block (accounts : list (Address * list Z)) m f :
  counts_as m f ->
  (forall s, f s block + sumZ ((fun a => occurrences s a.2) <$> accounts) < 2 ^ 64) ->
  exists m', fold_steps (fun updates account => fold_steps (count_access block) updates account.2)
      m accounts = Ok m' /\
    counts_as m' (fun s b => f s b + (if decide (b = block)
                                       then sumZ ((fun a => occurrences s a.2) <$> accounts) else 0)).
Proof.
  revert m f. induction accounts as [|a accounts IH]; intros m f Hm Hf.
  - exists m. split; [done|]. eapply counts_as_ext, Hm. intros s b. cbn. case_decide; lia.
  - destruct (count_slots_ok block a.2 m f Hm) as (m1 & H1 & Hm1).
    { intros s. specialize (Hf s). cbn in Hf. pose proof (sum_occurrences_nonneg accounts s). lia. }
    destruct (IH m1 _ Hm1) as (m2 & H2 & Hm2).
    { intros s. specialize (Hf s). cbn in Hf |- *. rewrite decide_True by done. lia. }
    exists m2. cbn [fold_steps]. rewrite H1. split; [done|]. eapply counts_as_ext, Hm2.
    intros s b. cbn. case_decide; lia.
Qed.

Definition total_accesses (traces : list TxTraceReceipt) (slot block : Z) : Z :=
  sumZ (trace_accesses slot block <$> traces).

Lemma frame_accesses_nonneg slot t : 0 <= frame_accesses slot t.
Proof.
  unfold frame_accesses. destruct (tr_trace t) as [[accounts|]|]; try done.
  apply sum_occurrences_nonneg.
Qed.

Lemma total_accesses_nonneg traces slot block : 0 <= total_accesses traces slot block.
Proof.
  apply sumZ_nonneg, Forall_fmap, Forall_forall. intros t _. unfold trace_accesses. cbn.
  case_decide; [apply frame_accesses_nonneg|lia].
Qed.

Lemma copy_ok m f t :
  counts_as m f -> traceable t = true ->
  (forall s b, f s b + trace_accesses s b t < 2 ^ 64) ->
  exists m', copy_slot_access_map m t = Ok m' /\
    counts_as m' (fun s b => f s b + trace_accesses s b t).
Proof.
  unfold traceable, copy_slot_access_map, trace_accesses, frame_accesses. intros Hm Ht Hf.
  destruct (re_block_number (tr_receipt t)) as [block|]; [|done]. cbn.
  destruct (tr_trace t) as [[accounts|]|]; [|done|].
  - destruct (count_accounts_ok block accounts m f Hm) as (m' & H1 & H2).
    { intros s. specialize (Hf s block). by rewrite decide_True in Hf. }
    exists m'. split; [done|]. eapply counts_as_ext, H2. intros s b. cbn. f_equal.
    apply decide_ext. naive_solver.
  - exists m. split; [done|]. eapply counts_as_ext, Hm. intros s b. case_decide; lia.
Qed.

(** From traces of mined transactions that are not in diff mode the chart
    counts, for each slot and block, how often the accounts of the block's
    traces list the slot, and has no entry where that is never; the first trace
    without a block number, or in diff mode, is reported as such. *)
Theorem heatmap_counts (traces : list TxTraceReceipt)
  (Hfits : forall slot block, total_accesses traces slot block < 2 ^ 64) :
  (forallb traceable traces = true ->
   exists m, heatmap_new traces = Ok m /\ counts_as m (total_accesses traces)) /\
  forall pre t post, traces = pre ++ t :: post -> forallb traceable pre = true ->
    traceable t = false ->
    heatmap_new traces = Err (match re_block_number (tr_receipt t) with
                              | None => ReceiptMissingBlockNum (re_transaction_hash (tr_receipt t))
                              | Some _ => DecodePrestateTraceFrame
                              end).
Proof.
  assert (Hgen : forall l m f, counts_as m f -> forallb traceable l = true ->
    (forall s b, f s b + total_accesses l s b < 2 ^ 64) ->
    exists m', fold_steps copy_slot_access_map m l = Ok m' /\
      counts_as m' (fun s b => f s b + total_accesses l s b)).
  { clear. intros l. induction l as [|t l IH]; intros m f Hm Hl Hf.
    - exists m. split; [done|]. eapply counts_as_ext, Hm. intros s b. cbn. lia.
    - cbn in Hl. apply andb_true_iff in Hl as [Ht Hl].
      destruct (copy_ok m f t Hm Ht) as (m1 & H1 & Hm1).
      { intros s b. specialize (Hf s b). pose proof (total_accesses_nonneg l s b). cbn in Hf.
        unfold total_accesses in *. lia. }
      destruct (IH m1 _ Hm1 Hl) as (m2 & H2 & Hm2).
      { intros s b. specialize (Hf s b). cbn in Hf |- *. unfold total_accesses in *. lia. }
      exists m2. cbn. rewrite H1. split; [done|]. eapply counts_as_ext, Hm2. intros s b. cbn.
      unfold total_accesses. lia. }
  assert (Hempty : counts_as ∅ (fun _ _ => 0)).
  { intros s b. unfold accesses. by rewrite lookup_empty. }
  split.
  - intros Hall. destruct (Hgen traces _ _ Hempty Hall) as (m & Hm & Hc).
    { intros s b. by apply Hfits. }
    exists m. split; [done|]. by eapply counts_as_ext, Hc.
  - intros pre t post -> Hpre Ht. destruct (Hgen pre _ _ Hempty Hpre) as (m & Hm & _).
    { intros s b. specialize (Hfits s b). unfold total_accesses in *.
      rewrite fmap_app, sumZ_app in Hfits.
      pose proof (total_accesses_nonneg (t :: post) s b). unfold total_accesses in *. lia. }
    unfold heatmap_new. rewrite fold_steps_app, Hm. cbn.
    unfold traceable, copy_slot_access_map in *.
    destruct (re_block_number (tr_receipt t)); [|done]. cbn.
    by destruct (tr_trace t) as [[accounts|]|].
Qed.
End access_props.

(** ** What the page shows *)

Section page_props.
Context {P : Profile}.

Definition sum_accesses (m : AccessMap) (blocks : list Z) (slot : Z) : Z :=
  sumZ (omap (accesses m slot) blocks).

(** Counts are never negative, and no slot's total overflows. *)
Definition chart_fits (m : AccessMap) : Prop :=
  (forall slot block n, accesses m slot block = Some n -> 0 <= n) /\
  forall slot, sum_accesses m (keys_of m) slot < 2 ^ 64.

Lemma sum_u64_ok l : Forall (Z.le 0) l -> sumZ l < 2 ^ 64 -> sum_u64 l = Ok (sumZ l).
Proof.
  intros Hl Hs. unfold sum_u64.
  enough (Hg : forall a, 0 <= a -> a + sumZ l < 2 ^ 64 ->
    fold_steps (fun acc x => arith (E := ReportError) 64 (acc + x)) a l = Ok (a + sumZ l)).
  { by rewrite Hg by lia. }
  clear Hs. induction Hl as [|x l Hx Hl IH]; intros a Ha Hs; cbn in *; [f_equal; lia|].
  pose proof (sumZ_nonneg l Hl). rewrite arith_in by lia. cbn. rewrite IH by lia. f_equal. lia.
Qed.

Lemma accesses_nonneg m blocks slot :
  chart_fits m -> Forall (Z.le 0) (omap (accesses m slot) blocks).
Proof.
  intros [Hn _]. apply Forall_forall. intros n (b & _ & Hb)%list_elem_of_omap. by eapply Hn.
Qed.

Lemma sum_accesses_nonneg m blocks slot : chart_fits m -> 0 <= sum_accesses m blocks slot.
Proof. intros Hm. by apply sumZ_nonneg, accesses_nonneg. Qed.

Lemma sum_accesses_app m l k slot :
  sum_accesses m (l ++ k) slot = sum_accesses m l slot + sum_accesses m k slot.
Proof. unfold sum_accesses. by rewrite omap_app, sumZ_app. Qed.

Lemma slot_accesses_ok m blocks slot :
  chart_fits m -> sum_accesses m blocks slot < 2 ^ 64 ->
  slot_accesses m blocks slot = Ok (sum_accesses m blocks slot).
Proof. intros Hm Hs. apply sum_u64_ok; [by apply accesses_nonneg|done]. Qed.

(** A part of a list that is put together again. *)
Lemma sum_accesses_part m (parts : list (list Z)) part slot :
  chart_fits m -> part ∈ parts ->
  sum_accesses m part slot <= sum_accesses m (concat parts) slot.
Proof.
  intros Hm. induction parts as [|p parts IH]; [by intros ?%not_elem_of_nil|].
  change (concat (p :: parts)) with (p ++ concat parts). rewrite sum_accesses_app. pose proof (sum_accesses_nonneg m p slot Hm).
  pose proof (sum_accesses_nonneg m (concat parts) slot Hm).
  intros [->|Hp]%elem_of_cons; [lia|]. specialize (IH Hp). lia.
Qed.

(** *** The slots *)

Lemma sortZ_strict l : NoDup l -> StronglySorted Z.lt (sortZ l).
Proof.
  intros Hn. pose proof (sortZ_sorted l) as Hs. apply Sorted_StronglySorted in Hs; [|intros ???; lia].
  rewrite <- (sortZ_perm l) in Hn. revert Hn Hs. induction (sortZ l) as [|x k IH]; [constructor|].
  intros [Hx Hn]%NoDup_cons [Hs Hf]%StronglySorted_inv. constructor; [by apply IH|].
  rewrite Forall_forall in *. intros y Hy. specialize (Hf y Hy).
  assert (x <> y) by (intros ->; done). lia.
Qed.

Lemma elem_of_values_of {A} (m : gmap Z A) x : x ∈ values_of m <-> exists k, m !! k = Some x.
Proof.
  unfold values_of, keys_of. rewrite list_elem_of_omap. split.
  - intros (k & _ & Hk). eauto.
  - intros [k Hk]. exists k. split; [|done]. rewrite sortZ_perm.
    apply list_elem_of_fmap. exists (k, x). by rewrite elem_of_map_to_list.
Qed.

Lemma elem_of_keys_of {A} (m : gmap Z A) k : k ∈ keys_of m <-> is_Some (m !! k).
Proof.
  unfold keys_of. rewrite sortZ_perm, list_elem_of_fmap. split.
  - intros ([k' x] & -> & Hx%elem_of_map_to_list). by eexists.
  - intros [x Hx]. exists (k, x). by rewrite elem_of_map_to_list.
Qed.

Lemma get_hex_slots_spec m :
  StronglySorted Z.lt (get_hex_slots m) /\
  forall slot, slot ∈ get_hex_slots m <-> exists block, is_Some (accesses m slot block).
Proof.
  unfold get_hex_slots. split; [apply sortZ_strict, NoDup_elements|]. intros slot.
  rewrite sortZ_perm, elem_of_elements, elem_of_list_to_set, list_elem_of_bind. split.
  - intros (sm & Hin & [b Hb]%elem_of_values_of). exists b. unfold accesses. rewrite Hb. cbn.
    apply list_elem_of_fmap in Hin as ([s v] & -> & Hv%elem_of_map_to_list). by eexists.
  - intros (b & n & Hn). unfold accesses in Hn. destruct (m !! b) as [sm|] eqn:Hb; [|done].
    exists sm. split; [|apply elem_of_values_of; by eexists].
    apply list_elem_of_fmap. exists (slot, n). by rewrite elem_of_map_to_list.
Qed.

(** Sorting by decreasing count and cutting keeps the greatest counts. *)
Lemma top_slots_spec (l : list (Z * Z)) :
  NoDup l.*1 -> (MAX_SLOTS < length l)%nat ->
  StronglySorted Z.lt (top_slots l) /\ length (top_slots l) = MAX_SLOTS /\
  (forall s, s ∈ top_slots l -> s ∈ l.*1) /\
  forall s c s' c', (s, c) ∈ l -> (s', c') ∈ l -> s ∈ top_slots l -> s' ∉ top_slots l -> c' <= c.
Proof.
  intros Hn Hl. unfold top_slots. set (k := sort_by (fun sc => - sc.2) l).
  assert (Hp : k ≡ₚ l) by apply sort_by_perm.
  assert (Hk : NoDup (take MAX_SLOTS k).*1).
  { apply (NoDup_app (take MAX_SLOTS k).*1 (drop MAX_SLOTS k).*1).
    by rewrite <- fmap_app, take_drop, Hp. }
  split_and!.
  - by apply sortZ_strict.
  - rewrite sortZ_perm, length_fmap, length_take, Hp. lia.
  - intros s. rewrite sortZ_perm. intros ([s' c] & -> & Hs)%list_elem_of_fmap.
    apply list_elem_of_fmap. exists (s', c). split; [done|]. rewrite <- Hp.
    by eapply elem_of_take in Hs as (i & Hi & _); eapply list_elem_of_lookup_2.
  - intros s c s' c' Hs Hs'. rewrite !sortZ_perm. intros Hin Hout.
    assert (Hfun : forall a x y, (a, x) ∈ l -> (a, y) ∈ l -> x = y).
    { intros a x y Hx Hy. apply list_elem_of_lookup in Hx as [i Hi], Hy as [j Hj].
      assert (i = j); [|congruence]. apply (NoDup_lookup l.*1 i j a Hn);
        by rewrite list_lookup_fmap, ?Hi, ?Hj. }
    assert (Hst : (s, c) ∈ take MAX_SLOTS k).
    { apply list_elem_of_fmap in Hin as ([s1 c1] & -> & H1). cbn in Hs.
      enough (c = c1) as -> by done. apply (Hfun s1); [done|]. rewrite <- Hp.
      rewrite <- (take_drop MAX_SLOTS k). apply elem_of_app. by left. }
    assert (Hsd : (s', c') ∈ drop MAX_SLOTS k).
    { rewrite <- Hp, <- (take_drop MAX_SLOTS k) in Hs'. apply elem_of_app in Hs' as [Ht|]; [|done].
      destruct Hout. apply list_elem_of_fmap. by exists (s', c'). }
    pose proof (sort_by_sorted (fun sc => - sc.2) l) as Hsort. fold k in Hsort.
    rewrite <- (take_drop MAX_SLOTS k), fmap_app in Hsort.
    apply StronglySorted_app in Hsort as (Hsort & _ & _).
    specialize (Hsort (- c) (- c')). enough (- c <= - c') by lia. apply Hsort.
    + apply list_elem_of_fmap. by exists (s, c).
    + apply list_elem_of_fmap. by exists (s', c').
Qed.

(** *** The rows *)

Lemma chunks_count {A} fuel n (l : list A) :
  (0 < n)%nat -> (length l <= fuel)%nat ->
  chunks_fuel fuel n l = [] \/ ((length (chunks_fuel fuel n l) - 1) * n < length l)%nat.
Proof.
  intros Hn. revert l. induction fuel as [|fuel IH]; intros l Hl; [by left|].
  destruct l as [|x l]; [by left|]. right. cbn [chunks_fuel].
  destruct (IH (drop n (x :: l))) as [-> |Hlt].
  - rewrite length_drop. cbn in *. lia.
  - cbn. lia.
  - rewrite length_drop in Hlt. cbn [length] in *. nia.
Qed.

Lemma div_ceil_spec a b : (0 < b)%nat -> (a <= div_ceil a b * b)%nat.
Proof.
  intros Hb. unfold div_ceil. pose proof (Nat.div_mod (a + b - 1) b ltac:(lia)).
  pose proof (Nat.mod_upper_bound (a + b - 1) b ltac:(lia)). nia.
Qed.

Lemma heads {A} (parts : list (list A)) :
  Forall (fun c => 0 < length c)%nat parts -> length (omap head parts) = length parts.
Proof.
  induction 1 as [|c parts Hc _ IH]; [done|]. destruct c; [cbn in Hc; lia|]. cbn. by rewrite IH.
Qed.

(** The condensed rows: at most [MAX_BLOCKS], one per label, nothing lost. *)
Lemma block_buckets_spec all :
  let (blocks, n) := block_buckets all in
  let parts := chunks_fuel (length all) n all in
  (0 < n)%nat /\ concat parts = all /\ length blocks = length parts /\
  (length parts <= MAX_BLOCKS)%nat /\ omap head parts = blocks.
Proof.
  unfold block_buckets. destruct (Nat.ltb_spec MAX_BLOCKS (length all)) as [Hlt|Hle].
  - set (n := div_ceil (length all) MAX_BLOCKS).
    assert (Hn : (length all <= n * MAX_BLOCKS)%nat) by (apply div_ceil_spec; unfold MAX_BLOCKS; lia).
    assert (Hpos : (0 < n)%nat) by (unfold MAX_BLOCKS in *; lia).
    destruct (chunks_fuel_spec (length all) n all Hpos ltac:(lia)) as (Hc & Hf & _).
    split_and!; [done|done| | |done].
    + apply heads. eapply Forall_impl; [exact Hf|]. cbn. lia.
    + destruct (chunks_count (length all) n all Hpos ltac:(lia)) as [-> | Hk]; [cbn; lia|].
      unfold MAX_BLOCKS in *. nia.
  - destruct (chunks_fuel_spec (length all) 1 all ltac:(lia) ltac:(lia)) as (Hc & Hf & _).
    assert (Hone : forall fuel (l : list Z), (length l <= fuel)%nat ->
      chunks_fuel fuel 1 l = (fun x => [x]) <$> l).
    { induction fuel as [|fuel IH]; intros [|x l] Hl; cbn in *; try done; [lia|].
      by rewrite take_0, drop_0, IH by lia. }
    rewrite Hone by done. split_and!; [lia| | | |].
    + clear. induction all as [|x l IH]; [done|]. cbn. by rewrite IH.
    + by rewrite length_fmap.
    + by rewrite length_fmap.
    + clear. induction all as [|x l IH]; [done|]. cbn. by rewrite IH.
Qed.

(** The cells of a row, and of all rows. *)
Definition row_cells (m : AccessMap) (slots : list Z) (ib : nat * list Z) : list (Z * Z * Z) :=
  omap (fun js : nat * Z =>
    let c := sum_accesses m ib.2 js.2 in
    if 0 <? c then Some (Z.of_nat ib.1, Z.of_nat js.1, c) else None) (imap pair slots).
Definition all_cells (m : AccessMap) (slots : list Z) (parts : list (list Z)) : list (Z * Z * Z) :=
  imap pair parts ≫= row_cells m slots.

Lemma heat_cell_ok m i bucket st js :
  chart_fits m -> sum_accesses m bucket js.2 < 2 ^ 64 -> 0 <= st.2 ->
  heat_cell m i bucket st js =
  let c := sum_accesses m bucket js.2 in
  Ok (if 0 <? c then (st.1 ++ [(Z.of_nat i, Z.of_nat js.1, c)], Z.max st.2 c) else st).
Proof.
  intros Hm Hf H0. unfold heat_cell. rewrite slot_accesses_ok by done. cbn.
  pose proof (sum_accesses_nonneg m bucket js.2 Hm).
  destruct (Z.ltb_spec 0 (sum_accesses m bucket js.2));
    destruct (Z.ltb_spec st.2 (sum_accesses m bucket js.2)); try lia; destruct st; cbn in *;
    rewrite ?Z.max_r, ?Z.max_l by lia; done.
Qed.

Lemma heat_row_ok m slots st ib :
  chart_fits m -> (forall slot, sum_accesses m ib.2 slot < 2 ^ 64) -> 0 <= st.2 ->
  heat_row m slots st ib =
  Ok (st.1 ++ row_cells m slots ib, Z.max st.2 (maxZ (snd <$> row_cells m slots ib))).
Proof.
  intros Hm Hf. unfold heat_row, row_cells. generalize (imap pair slots). intros js. revert st.
  induction js as [|[j slot] js IH]; intros [cells mx] H0; cbn [fold_steps].
  - cbn. rewrite app_nil_r, Z.max_l by done. done.
  - rewrite heat_cell_ok by done. cbn [mbind outcome_bind omap list_omap fst snd] in *.
    set (c := sum_accesses m ib.2 slot) in *. destruct (Z.ltb_spec 0 c).
    + rewrite IH by (cbn; lia). cbn [fst snd fmap list_fmap maxZ foldr].
      rewrite <- app_assoc, <- Z.max_assoc. done.
    + by rewrite IH.
Qed.

Lemma maxZ_app l k : maxZ (l ++ k) = Z.max (maxZ l) (maxZ k).
Proof.
  induction l as [|x l IH]; cbn.
  - pose proof (maxZ_nonneg k). unfold maxZ in *. lia.
  - unfold maxZ in *. rewrite IH. lia.
Qed.

Lemma heat_rows_ok m slots (rows : list (nat * list Z)) st :
  chart_fits m -> (forall ib slot, ib ∈ rows -> sum_accesses m ib.2 slot < 2 ^ 64) -> 0 <= st.2 ->
  fold_steps (heat_row m slots) st rows =
  Ok (st.1 ++ (rows ≫= row_cells m slots), Z.max st.2 (maxZ (snd <$> (rows ≫= row_cells m slots)))).
Proof.
  intros Hm. revert st. induction rows as [|ib rows IH]; intros st Hf H0; cbn [fold_steps].
  - cbn. rewrite app_nil_r, Z.max_l by done. by destruct st.
  - rewrite heat_row_ok; [|done|by intros; apply Hf; left|done]. cbn [mbind outcome_bind].
    rewrite IH; [|by intros; apply Hf; right|cbn; pose proof (maxZ_nonneg (snd <$> row_cells m slots ib)); lia].
    cbn [fst snd]. rewrite bind_cons, fmap_app, maxZ_app, app_assoc, Z.max_assoc. done.
Qed.

(** The page never fails to build: it has at most 100 rows and 100 columns;
    the columns are slots in increasing order, all of them when they are few and
    otherwise 100 of them none of which is less active than one left out; the
    rows are adjacent blocks, none left out, labelled by their first; and the
    cells are exactly the slots' counts summed over a row's blocks where these
    are not zero, with the greatest of them as maximum. *)
Theorem heatmap_page (m : AccessMap) (Hm : chart_fits m) :
  exists slots parts d,
    heatmap_data m = Ok d /\
    hm_slots d = hex_digits 64 <$> slots /\ StronglySorted Z.lt slots /\
    (length slots <= MAX_SLOTS)%nat /\
    (forall s, s ∈ slots -> s ∈ get_hex_slots m) /\
    (forall s s', s ∈ slots -> s' ∈ get_hex_slots m -> s' ∉ slots ->
       length slots = MAX_SLOTS /\
       sum_accesses m (keys_of m) s' <= sum_accesses m (keys_of m) s) /\
    concat parts = keys_of m /\ (length parts <= MAX_BLOCKS)%nat /\
    hm_blocks d = omap head parts /\ length (hm_blocks d) = length parts /\
    hm_matrix d = all_cells m slots parts /\ hm_max_accesses d = maxZ (snd <$> hm_matrix d).
Proof.
  destruct (get_hex_slots_spec m) as [Hsorted _].
  assert (Hslots : exists slots, heatmap_slots m = Ok slots /\ StronglySorted Z.lt slots /\
    (length slots <= MAX_SLOTS)%nat /\ (forall s, s ∈ slots -> s ∈ get_hex_slots m) /\
    (forall s s', s ∈ slots -> s' ∈ get_hex_slots m -> s' ∉ slots ->
       length slots = MAX_SLOTS /\
       sum_accesses m (keys_of m) s' <= sum_accesses m (keys_of m) s)).
  { unfold heatmap_slots. destruct (Nat.ltb_spec MAX_SLOTS (length (get_hex_slots m))) as [Hlt|Hle].
    - set (l := (fun s => (s, sum_accesses m (keys_of m) s)) <$> get_hex_slots m).
      rewrite (mapM_total _ (fun s => (s, sum_accesses m (keys_of m) s))).
      2: { intros s _. rewrite slot_accesses_ok; [done|done|apply Hm]. }
      fold l. assert (Hl : l.*1 = get_hex_slots m).
      { unfold l. rewrite <- list_fmap_compose. apply list_fmap_id. }
      assert (Hin : forall s, s ∈ get_hex_slots m -> (s, sum_accesses m (keys_of m) s) ∈ l).
      { intros s Hs. by apply (list_elem_of_fmap_2 (fun s => (s, sum_accesses m (keys_of m) s))). }
      destruct (top_slots_spec l) as (Hs & Hlen & Hsub & Htop).
      { rewrite Hl. unfold get_hex_slots. rewrite sortZ_perm. apply NoDup_elements. }
      { unfold l. by rewrite length_fmap. }
      rewrite Hl in Hsub. exists (top_slots l). split_and!; [done|done|lia|done|].
      intros s s' H1 H2 H3. split; [done|]. eapply Htop; [by apply Hin, Hsub|by apply Hin|done|done].
    - exists (get_hex_slots m). split_and!; try done. }
  destruct Hslots as (slots & Hslots & H1 & H2 & H3 & H4).
  pose proof (block_buckets_spec (keys_of m)) as Hb.
  unfold heatmap_data. destruct (block_buckets (keys_of m)) as [blocks n].
  set (parts := chunks_fuel (length (keys_of m)) n (keys_of m)) in *.
  destruct Hb as (_ & Hc & Hlen & Hmax & Hhead).
  rewrite Hslots. cbn [mbind outcome_bind].
  rewrite heat_rows_ok; [|done| |done].
  2: { intros [i b] slot Hin. cbn [snd].
       assert (Hbp : b ∈ parts).
       { apply elem_of_lookup_imap in Hin as (k & y & [= -> ->] & Hk). by eapply list_elem_of_lookup_2. }
       pose proof (sum_accesses_part m parts b slot Hm Hbp) as Hle. rewrite Hc in Hle.
       destruct Hm as [_ Hf]. specialize (Hf slot). lia. }
  exists slots, parts. eexists. split; [reflexivity|].
  cbn [hm_slots hm_blocks hm_matrix hm_max_accesses fst snd]. split_and!; try done.
  rewrite Z.max_r; [done|]. apply maxZ_nonneg.
Qed.
End page_props.

(** ** Witnesses *)

Module HeatmapWitness.
Local Instance debug : Profile := true.

Definition trace (block : Z) (accounts : list (Address * list Z)) : TxTraceReceipt :=
  {| tr_trace := PreStateTracer (DefaultFrame accounts);
     tr_receipt := {| re_transaction_hash := 1; re_block_number := Some block; re_gas_used := 21000 |} |}.
Definition traces : list TxTraceReceipt := [trace 5 [(7, [1; 2]); (8, [1])]; trace 6 [(7, [2])]].

Lemma traces_fit slot block : total_accesses traces slot block < 2 ^ 64.
Proof.
  assert (Hl : forall t, t ∈ traces -> trace_accesses slot block t <= 3).
  { intros t Ht. unfold traces in Ht. rewrite !elem_of_cons, elem_of_nil in Ht.
    assert (Hb : frame_accesses slot t <= 3).
    { destruct Ht as [->|[->|[]]]; unfold frame_accesses; cbn [tr_trace trace fmap list_fmap sumZ snd];
        repeat match goal with |- context [occurrences slot ?l] =>
          pose proof (occurrences_le slot l); generalize dependent (occurrences slot l); intros end;
        cbn in *; lia. }
    unfold trace_accesses. case_decide; lia. }
  unfold total_accesses. cbn. rewrite !Z.add_0_r.
  pose proof (Hl (trace 5 [(7, [1; 2]); (8, [1])]) ltac:(left)).
  pose proof (Hl (trace 6 [(7, [2])]) ltac:(right; left)). lia.
Qed.

Lemma heatmap_counts_witness :
  exists m, heatmap_new traces = Ok m /\ accesses m 1 5 = Some 2 /\ accesses m 1 6 = None.
Proof.
  destruct (heatmap_counts traces traces_fit) as [H _].
  destruct (H eq_refl) as (m & Hm & Hc). exists m. split; [exact Hm|].
  destruct (Hc 1 5) as [H5 _], (Hc 1 6) as [H6 _]. split; [exact H5|exact H6].
Defined.

Definition chart : AccessMap := {[5 := {[1 := 2; 2 := 1]}; 6 := {[2 := 1]}]}.

Lemma chart_ok : chart_fits chart.
Proof.
  split.
  - intros slot block n Hn. unfold accesses, chart in Hn.
    apply bind_Some in Hn as (sm & Hb & Hs).
    apply lookup_insert_Some in Hb as [[_ <-]|[_ [_ <-]%lookup_singleton_Some]].
    + apply lookup_insert_Some in Hs as [[_ <-]|[_ [_ <-]%lookup_singleton_Some]]; lia.
    + apply lookup_singleton_Some in Hs as [_ <-]. lia.
  - intros slot. change (sum_accesses chart (keys_of chart) slot) with
      (sumZ (omap (accesses chart slot) [5; 6])).
    assert (Hle : forall b, default 0 (accesses chart slot b) <= 2).
    { intros b. destruct (accesses chart slot b) as [n|] eqn:Hn; cbn; [|lia].
      unfold accesses, chart in Hn. apply bind_Some in Hn as (sm & Hb & Hs).
      apply lookup_insert_Some in Hb as [[_ <-]|[_ [_ <-]%lookup_singleton_Some]].
      + apply lookup_insert_Some in Hs as [[_ <-]|[_ [_ <-]%lookup_singleton_Some]]; lia.
      + apply lookup_singleton_Some in Hs as [_ <-]. lia. }
    pose proof (Hle 5) as H5. pose proof (Hle 6) as H6. cbn [omap list_omap].
    destruct (accesses chart slot 5), (accesses chart slot 6); cbn in *; lia.
Qed.

Lemma heatmap_page_witness :
  exists d, heatmap_data chart = Ok d /\ (length (hm_blocks d) <= 100)%nat.
Proof.
  destruct (heatmap_page chart chart_ok) as
    (slots & parts & d & Hd & _ & _ & _ & _ & _ & _ & Hp & _ & Hlen & _).
  exists d. split; [exact Hd|]. rewrite Hlen. exact Hp.
Defined.
End HeatmapWitness.
