(* ===== verification/BlockTrace.v ===== *)
(** * Blocks and traces of a report ([report/src/block_trace.rs])

    Which blocks a report asks the node for, and what it keeps of the answers.
    The node is the record [ReportNode] of its responses; the tasks that ask for
    blocks, and those that trace the transactions of one block, run concurrently:
    [rn_arrival] and [rn_trace_arrival] are the orders their answers come in.  A
    task that fails leaves nothing. *)

From Stdlib Require Import Strings.String.
From S2P Require Import Prelude Text F64 Alloy Db Histogram Charts.

Record ReportNode := {
  rn_block_time : outcome ReportError Z;
  rn_latest_block : outcome ReportError (option RpcBlock);
  rn_block : Z -> outcome string (option RpcBlock);
  rn_trace : TxHash -> outcome string GethTrace;
  rn_receipt : TxHash -> outcome string (option TraceReceipt);
  rn_arrival : list RpcBlock -> list RpcBlock;
  rn_trace_arrival : list TxTraceReceipt -> list TxTraceReceipt;
}.

(** [a..=b]. *)
Definition range_inclusive (a b : Z) : list Z := range_from a (b + 1).

Section block_trace.
Context {P : Profile} {Db : Type} {O : DbOps Db} (node : ReportNode).
Abbreviation result A := (outcome ReportError A).

(** A task of [get_blocks]: the panic of a failing one is contained in it. *)
Definition ask_block (block_num : Z) : option RpcBlock :=
  match rn_block node block_num with Ok (Some block) => Some block | _ => None end.

Definition get_blocks (min_block max_block : Z) : result (list RpcBlock) :=
  d ← arith 64 (max_block - min_block);
  arith 64 (d + 1);;
  mret (rn_arrival node (omap ask_block (range_inclusive min_block max_block))).

(** The least and the greatest block of the transactions, none being without. *)
Definition block_bounds (block_numbers : list Z) : Z * Z :=
  fold_left (fun mm bn => (Z.min mm.1 bn, Z.max mm.2 bn)) block_numbers (U64_MAX, 0).

Definition get_block_data (txs : list RunTx) : result (list RpcBlock) :=
  match omap rt_block_number txs with
  | [] => mret []
  | numbers =>
      let '(min_block, max_block) := block_bounds numbers in
      let block_padding := 3 in
      get_blocks (saturating_sub min_block block_padding)
        (saturating_add 64 max_block block_padding)
  end.

(** [db.get_run(id)?.ok_or(RunDoesNotExist)?]. *)
Definition existing_run (db : Db) (id : Z) : result SpamRun :=
  r ← map_err ReportDb (get_run db id);
  ok_or (RunDoesNotExist id) r.

Definition estimate_block_data (start_run_id end_run_id : Z) (db : Db) : result (list RpcBlock) :=
  start_run ← existing_run db start_run_id;
  end_run ← existing_run db end_run_id;
  let start_timestamp := sr_timestamp start_run / 1000 in
  let end_timestamp := sr_timestamp end_run / 1000 in
  block_time ← rn_block_time node;
  add_seconds ← match sr_duration end_run with
                | Seconds secs => mret secs
                | Blocks blocks => arith 64 (blocks * block_time)
                end;
  recent ← rn_latest_block node;
  recent_block ← unwrap recent;
  start_time_delta ← arith 64 (bl_timestamp recent_block - start_timestamp);
  start_block_delta ← div_ start_time_delta block_time;
  let start_block := saturating_sub (bl_number recent_block) start_block_delta in
  d ← arith 64 (end_timestamp - start_timestamp);
  end_time_delta ← arith 64 (d + add_seconds);
  blocks ← div_ end_time_delta block_time;
  end_block ← arith 64 (start_block + blocks);
  get_blocks start_block end_block.

(** A task of [get_block_traces]: nothing without a trace or a receipt. *)
Definition trace_tx (tx_hash : TxHash) : option TxTraceReceipt :=
  match rn_trace node tx_hash, rn_receipt node tx_hash with
  | Ok trace, Ok (Some receipt) => Some {| tr_trace := trace; tr_receipt := receipt |}
  | _, _ => None
  end.

Definition get_block_traces (full_blocks : list RpcBlock) : list TxTraceReceipt :=
  full_blocks ≫= fun block => rn_trace_arrival node (omap trace_tx (bl_tx_hashes block)).
End block_trace.

(** ** Properties *)

Section block_props.
Context {P : Profile} (node : ReportNode).

Lemma block_bounds_spec l m a b :
  Forall (fun x => 0 <= x < m) l -> 0 <= a -> 0 <= b < m ->
  let r := fold_left (fun mm bn => (Z.min mm.1 bn, Z.max mm.2 bn)) l (a, b) in
  0 <= r.1 <= a /\ b <= r.2 < m /\ forall x, x ∈ l -> r.1 <= x <= r.2.
Proof.
  intros Hl. revert a b. induction Hl as [|x l Hx _ IH]; intros a b Ha Hb; cbn [fold_left].
  - split_and!; try (cbn; lia). by intros x ?%not_elem_of_nil.
  - destruct (IH (Z.min a x) (Z.max b x)) as (H1 & H2 & H3); [lia|lia|].
    cbn [fst snd] in *. split_and!; try lia. intros y [->|Hy]%elem_of_cons; [lia|by apply H3].
Qed.

Lemma elem_of_range_inclusive a b z : z ∈ range_inclusive a b <-> a <= z <= b.
Proof.
  unfold range_inclusive, range_from. rewrite list_elem_of_fmap.
  setoid_rewrite elem_of_rangeZ. split.
  - intros (i & -> & Hi). lia.
  - intros Hz. exists (z - a). lia.
Qed.

(** When the node has every block, the blocks of a report hold the block of
    every confirmed transaction; a block the node does not give is left out and
    nothing fails. *)
Theorem block_data_covers (txs : list RunTx)
  (Harrival : forall l, rn_arrival node l ≡ₚ l)
  (Hfits : forall tx n, tx ∈ txs -> rt_block_number tx = Some n -> 0 <= n < 2 ^ 63) :
  exists blocks, get_block_data node txs = Ok blocks /\
    (forall b, b ∈ blocks -> exists n, ask_block node n = Some b) /\
    forall tx n b, tx ∈ txs -> rt_block_number tx = Some n -> ask_block node n = Some b -> b ∈ blocks.
Proof.
  unfold get_block_data.
  assert (Hin : forall tx n, tx ∈ txs -> rt_block_number tx = Some n -> n ∈ omap rt_block_number txs).
  { intros tx n Htx Hn. apply list_elem_of_omap. eauto. }
  assert (Hall : Forall (fun n => 0 <= n < 2 ^ 63) (omap rt_block_number txs)).
  { apply Forall_forall. intros n (tx & Htx & Hn)%list_elem_of_omap. by apply (Hfits tx). }
  destruct (omap rt_block_number txs) as [|x l].
  { exists []. split_and!; [done|by intros ? ?%not_elem_of_nil|].
    intros tx n b Htx Hn. by specialize (Hin tx n Htx Hn) as ?%not_elem_of_nil. }
  pose proof (list_elem_of_here x l) as Hx. set (numbers := x :: l) in *. clearbody numbers.
  pose proof (block_bounds_spec numbers (2 ^ 63) U64_MAX 0 Hall ltac:(done) ltac:(done)) as Hb.
  unfold block_bounds. destruct (fold_left _ numbers _) as [lo hi]. cbn [fst snd] in Hb.
  destruct Hb as (H1 & H2 & H3).
  assert (Hs : saturating_add 64 hi 3 = hi + 3).
  { apply saturating_add_exact. unfold MAX. lia. }
  unfold get_blocks. rewrite Hs. rewrite saturating_sub_spec.
  assert (Hlo : 0 <= (if 3 <=? lo then lo - 3 else 0) <= lo) by (destruct (Z.leb_spec 3 lo); lia).
  set (lo' := if 3 <=? lo then lo - 3 else 0) in *.
  destruct (H3 x Hx).
  rewrite arith_in by lia. cbn. rewrite arith_in by lia. cbn. eexists. split; [done|]. split.
  - intros b. rewrite Harrival. intros (n & _ & Hn)%list_elem_of_omap. by exists n.
  - intros tx n b Htx Hn Hask. rewrite Harrival. apply list_elem_of_omap. exists n.
    split; [|done]. apply elem_of_range_inclusive. destruct (H3 n (Hin tx n Htx Hn)). lia.
Qed.
End block_props.

(** ** A node with ten blocks *)

Module BlockTraceWitness.
#[export] Instance debug : Profile := true.

Definition block (n : Z) : RpcBlock :=
  {| bl_number := n; bl_gas_used := 21000 * n; bl_gas_limit := 30000000; bl_timestamp := 1000 + 2 * n;
     bl_tx_hashes := [n] |}.
Definition chain : ReportNode :=
  {| rn_block_time := Ok 2;
     rn_latest_block := Ok (Some (block 10));
     rn_block n := Ok (if n <=? 10 then Some (block n) else None);
     rn_trace _ := Err "no tracer"%string;
     rn_receipt n := Ok (Some {| re_transaction_hash := n; re_block_number := Some n; re_gas_used := 21000 |});
     rn_arrival l := rev l;
     rn_trace_arrival l := l |}.

Definition landed (hash n : Z) (error : option string) : RunTx :=
  {| rt_tx_hash := hash; rt_start_timestamp_ms := 1000 * n; rt_end_timestamp_ms := Some (1000 * n + 1500);
     rt_block_number := Some n; rt_gas_used := Some 21000; rt_kind := None; rt_error := error;
     rt_flashblock_latency_ms := None; rt_flashblock_index := None |}.

Lemma block_data_covers_witness :
  exists blocks, get_block_data chain [landed 1 5 None; landed 2 9 None] = Ok blocks /\
    block 5 ∈ blocks /\ block 9 ∈ blocks.
Proof.
  destruct (block_data_covers chain [landed 1 5 None; landed 2 9 None]) as (blocks & Hb & _ & Hin).
  - intros l. symmetry. apply Permutation_rev.
  - intros tx n Htx Hn. rewrite !elem_of_cons, elem_of_nil in Htx.
    destruct Htx as [->|[->|[]]]; injection Hn as <-; lia.
  - exists blocks. split; [exact Hb|]. split.
    + apply (Hin (landed 1 5 None) 5); [left|done|reflexivity].
    + apply (Hin (landed 2 9 None) 9); [right; left|done|reflexivity].
Defined.
End BlockTraceWitness.
