(* ===== verification/Report.v ===== *)
(** * Reports ([report/src/command.rs])

    [report] collects the transactions, blocks and traces of a range of runs and
    computes the metrics and charts of its page; [report_campaign] does so for
    each run of a campaign and sums them up per stage and scenario.  Writing the
    files and opening the browser are not modelled.  [scenario_file_name] is the
    regular expression that takes a scenario's name from its path; a [HashSet]
    is read in the order of its elements as a [gset]. *)

From Stdlib Require Import Strings.String.
From S2P Require Import Prelude Text F64 Alloy Db Histogram Charts Heatmap BlockTrace.

(** ** Parameters *)

Record ReportParams := {
  rp_last_run_id : option Z;
  rp_preceding_runs : Z;
  rp_use_json : bool;
  rp_skip_tx_traces : bool;
  rp_time_to_inclusion_bucket : Z;
}.
Definition default_report_params : ReportParams :=
  {| rp_last_run_id := None; rp_preceding_runs := 0; rp_use_json := false;
     rp_skip_tx_traces := false; rp_time_to_inclusion_bucket := 1000 |}.

Definition with_last_run_id (p : ReportParams) (run_id : Z) : ReportParams :=
  {| rp_last_run_id := Some run_id; rp_preceding_runs := rp_preceding_runs p;
     rp_use_json := rp_use_json p; rp_skip_tx_traces := rp_skip_tx_traces p;
     rp_time_to_inclusion_bucket := rp_time_to_inclusion_bucket p |}.
Definition with_preceding_runs (p : ReportParams) (preceding_runs : Z) : ReportParams :=
  {| rp_last_run_id := rp_last_run_id p; rp_preceding_runs := preceding_runs;
     rp_use_json := rp_use_json p; rp_skip_tx_traces := rp_skip_tx_traces p;
     rp_time_to_inclusion_bucket := rp_time_to_inclusion_bucket p |}.
Definition with_use_json (p : ReportParams) (use_json : bool) : ReportParams :=
  {| rp_last_run_id := rp_last_run_id p; rp_preceding_runs := rp_preceding_runs p;
     rp_use_json := use_json; rp_skip_tx_traces := rp_skip_tx_traces p;
     rp_time_to_inclusion_bucket := rp_time_to_inclusion_bucket p |}.
Definition with_skip_tx_traces (p : ReportParams) (skip_tx_traces : bool) : ReportParams :=
  {| rp_last_run_id := rp_last_run_id p; rp_preceding_runs := rp_preceding_runs p;
     rp_use_json := rp_use_json p; rp_skip_tx_traces := skip_tx_traces;
     rp_time_to_inclusion_bucket := rp_time_to_inclusion_bucket p |}.
Definition with_time_to_inclusion_bucket (p : ReportParams) (bucket : Z) : ReportParams :=
  {| rp_last_run_id := rp_last_run_id p; rp_preceding_runs := rp_preceding_runs p;
     rp_use_json := rp_use_json p; rp_skip_tx_traces := rp_skip_tx_traces p;
     rp_time_to_inclusion_bucket := bucket |}.

(** ** Metrics *)

Record GasQuantiles := { gq_p50 : Z; gq_p90 : Z; gq_p95 : Z; gq_p99 : Z }.
Record RpcLatencyQuantiles := { rl_p50 : Z; rl_p90 : Z; rl_p99 : Z; rl_method : string }.
Record RuntimeParams := {
  rt_txs_per_duration : Z;
  rt_duration_value : Z;
  rt_duration_unit : string;
  rt_timeout : Z;
}.
Record MetricDescriptor (T : Type) := { md_description : option string; md_value : T }.
Arguments md_description {T}.
Arguments md_value {T}.
Definition MetricDescriptor_new {T} (value : T) (description : option string) : MetricDescriptor T :=
  {| md_description := description; md_value := value |}.

Record SpamRunMetrics := {
  sm_peak_gas : MetricDescriptor Z;
  sm_gas_quantiles : GasQuantiles;
  sm_peak_tx_count : MetricDescriptor Z;
  sm_average_block_time_secs : MetricDescriptor f64;
  sm_latency_quantiles : list RpcLatencyQuantiles;
  sm_runtime_params : list RuntimeParams;
  sm_total_txs : MetricDescriptor Z;
  sm_successful_txs : MetricDescriptor Z;
  sm_failed_txs : MetricDescriptor Z;
}.

Record CampaignMetadata := {
  cm_id : option string;
  cm_name : option string;
  cm_stage : option string;
  cm_scenario : option string;
}.

Record ChartData := {
  cd_heatmap : HeatmapData;
  cd_gas_per_block : GasPerBlockData;
  cd_time_to_inclusion : BucketData;
  cd_tx_gas_used : BucketData;
  cd_pending_txs : PendingTxsData;
  cd_latency_charts : list MethodLatencyData;
  cd_flashblock_time_to_inclusion : option BucketData;
  cd_flashblock_index : option BucketData;
}.

Record ReportMetadata := {
  rm_scenario_name : string;
  rm_start_run_id : Z;
  rm_end_run_id : Z;
  rm_start_block : Z;
  rm_end_block : Z;
  rm_rpc_url : string;
  rm_metrics : SpamRunMetrics;
  rm_chart_data : ChartData;
  rm_campaign : option CampaignMetadata;
}.

(** What the pages are rendered from, the present time and the version given. *)
Record TemplateData := {
  td_scenario_name : string;
  td_date : string;
  td_rpc_url : string;
  td_start_block : string;
  td_end_block : string;
  td_metrics : SpamRunMetrics;
  td_chart_data : ChartData;
  td_campaign : option CampaignMetadata;
  td_version : string;
}.
Definition TemplateData_new (now pkg_version : string) (meta : ReportMetadata) : TemplateData :=
  {| td_scenario_name := rm_scenario_name meta; td_date := now; td_rpc_url := rm_rpc_url meta;
     td_start_block := dec (rm_start_block meta); td_end_block := dec (rm_end_block meta);
     td_metrics := rm_metrics meta; td_chart_data := rm_chart_data meta;
     td_campaign := rm_campaign meta; td_version := pkg_version |}.

Record ReportExportV1 := {
  ex_export_version : Z;
  ex_version : string;
  ex_generated_at : string;
  ex_scenario_name : string;
  ex_rpc_url : string;
  ex_start_run_id : Z;
  ex_end_run_id : Z;
  ex_start_block : Z;
  ex_end_block : Z;
  ex_metrics : SpamRunMetrics;
  ex_chart_data : ChartData;
  ex_campaign : option CampaignMetadata;
}.
Definition ReportExportV1_new (now pkg_version : string) (meta : ReportMetadata) : ReportExportV1 :=
  {| ex_export_version := 1; ex_version := pkg_version; ex_generated_at := now;
     ex_scenario_name := rm_scenario_name meta; ex_rpc_url := rm_rpc_url meta;
     ex_start_run_id := rm_start_run_id meta; ex_end_run_id := rm_end_run_id meta;
     ex_start_block := rm_start_block meta; ex_end_block := rm_end_block meta;
     ex_metrics := rm_metrics meta; ex_chart_data := rm_chart_data meta;
     ex_campaign := rm_campaign meta |}.

Section report.
Context {P : Profile} {FD : F64Display} {Db : Type} {O : DbOps Db} (node : ReportNode).
Context (scenario_file_name : string -> string).
Abbreviation result A := (outcome ReportError A).

(** The runs of the report. *)
Definition report_end (params : ReportParams) (num_runs : Z) : result Z :=
  match rp_last_run_id params with
  | Some id => if (id =? 0) || (num_runs <? id) then Err (InvalidRunId id) else mret id
  | None => mret num_runs
  end.

(** The position of a quantile among [len] sorted values. *)
Definition quantile_index (len : nat) (q : f64) : nat :=
  Nat.min
    (Z.to_nat (f64_to_uint 64 (f64_ceil (f64_mul (f64_of_Z (Z.of_nat len)) q))) - 1)
    (len - 1).

Definition gas_quantiles (blocks : list RpcBlock) : result GasQuantiles :=
  match sortZ (bl_gas_used <$> blocks) with
  | [] => mret {| gq_p50 := 0; gq_p90 := 0; gq_p95 := 0; gq_p99 := 0 |}
  | gas_values =>
      let len := length gas_values in
      p50 ← unwrap (gas_values !! quantile_index len (f64_lit 5 10));
      p90 ← unwrap (gas_values !! quantile_index len (f64_lit 9 10));
      p95 ← unwrap (gas_values !! quantile_index len (f64_lit 95 100));
      p99 ← unwrap (gas_values !! quantile_index len (f64_lit 99 100));
      mret {| gq_p50 := p50; gq_p90 := p90; gq_p95 := p95; gq_p99 := p99 |}
  end.

(** [windows(2)] on sorted timestamps: the times between blocks. *)
Fixpoint window_deltas (l : list Z) : result (list Z) :=
  match l with
  | a :: (b :: _) as l' => d ← arith 64 (b - a); ds ← window_deltas l'; mret (d :: ds)
  | _ => mret []
  end.

(** The mean time between blocks, and its standard deviation. *)
Definition block_times (blocks : list RpcBlock) : result (f64 * f64) :=
  deltas ← window_deltas (sortZ (bl_timestamp <$> blocks));
  total ← sum_u64 deltas;
  n ← arith 64 (Z.of_nat (length blocks) - 1);
  let average_block_time := f64_div (f64_of_Z total) (f64_of_Z (Z.max n 1)) in
  mret (average_block_time, default (f64_of_Z 0) (std_deviation deltas)).

(** One bucket of a run added to those of the runs before. *)
Fixpoint merge_bucket (bucket : Bucket) (l : list Bucket) : result (list Bucket) :=
  match l with
  | [] => mret [bucket]
  | b :: l =>
      if SFeqb (upper_bound b) (upper_bound bucket)
      then c ← arith 64 (cumulative_count b + cumulative_count bucket);
           mret ({| upper_bound := upper_bound b; cumulative_count := c |} :: l)
      else l ← merge_bucket bucket l; mret (b :: l)
  end.

(** The latency buckets of a method over all runs. *)
Definition canonical_latency (db : Db) (run_ids : list Z) (method : string) : result (list Bucket) :=
  fold_steps (fun canonical run_id =>
    latencies ← map_err ReportDb (get_latency_metrics db run_id method);
    fold_steps (fun canonical bucket => merge_bucket bucket canonical) canonical latencies)
    [] run_ids.

Definition latency_methods : list string :=
  ["eth_sendRawTransaction"; "eth_sendRawTransactionSync"; "eth_blockNumber"; "eth_chainId";
   "eth_estimateGas"; "eth_gasPrice"; "eth_getBlockByNumber"; "eth_getBlockReceipts";
   "eth_getTransactionCount"; "eth_sendBundle"]%string.

(** The order of a [BTreeMap] over names. *)
Definition name_le {A} (a b : string * A) : Prop := String.leb a.1 b.1 = true.
#[export] Instance name_le_dec {A} (a b : string * A) : Decision (name_le a b) :=
  decide (String.leb a.1 b.1 = true).
Definition tx_send_methods : list string :=
  ["eth_sendRawTransaction"; "eth_sendRawTransactionSync"]%string.

Definition has_data (latencies : list Bucket) : bool :=
  match last latencies with Some b => 0 <? cumulative_count b | None => false end.

Definition to_ms (latency : f64) : Z :=
  f64_to_uint 64 (f64_round_ties_even (f64_mul latency (f64_of_Z 1000))).

Definition latency_quantiles_of (ml : string * list Bucket) : result RpcLatencyQuantiles :=
  p50 ← estimate_quantile ml.2 (f64_lit 5 10);
  p90 ← estimate_quantile ml.2 (f64_lit 9 10);
  p99 ← estimate_quantile ml.2 (f64_lit 99 100);
  mret {| rl_p50 := to_ms p50; rl_p90 := to_ms p90; rl_p99 := to_ms p99; rl_method := ml.1 |}.

Definition failed_count (run_txs : list RunTx) : Z :=
  Z.of_nat (length (filter (fun tx => is_Some (rt_error tx)) run_txs)).

Definition failure_rate_desc (total_txs failed_txs : Z) : option string :=
  if 0 <? total_txs
  then Some (fmt_fixed 2 (f64_mul (f64_div (f64_of_Z failed_txs) (f64_of_Z total_txs)) (f64_of_Z 100))
               +:+ "%")%string
  else None.

Definition run_metrics (all_txs : list RunTx) (blocks : list RpcBlock)
    (runtime_params : list RuntimeParams) (canonical : list (string * list Bucket))
  : result SpamRunMetrics :=
  let peak_gas := maxZ (bl_gas_used <$> blocks) in
  quantiles ← gas_quantiles blocks;
  let block_gas_limit := default 30000000 (bl_gas_limit <$> head blocks) in
  let peak_tx_count := maxZ ((fun b => Z.of_nat (length (bl_tx_hashes b))) <$> blocks) in
  times ← block_times blocks;
  let total_txs := Z.of_nat (length all_txs) in
  let failed_txs := failed_count all_txs in
  let successful_txs := saturating_sub total_txs failed_txs in
  share ← arith 64 (peak_gas * 100);
  share ← div_ share block_gas_limit;
  latencies ← mapM latency_quantiles_of (filter (fun ml => has_data ml.2 = true) canonical);
  mret {| sm_peak_gas := MetricDescriptor_new peak_gas (Some (dec share +:+ "%")%string);
          sm_gas_quantiles := quantiles;
          sm_peak_tx_count := MetricDescriptor_new peak_tx_count None;
          sm_average_block_time_secs := MetricDescriptor_new times.1
            (Some (if SFeqb times.2 (f64_of_Z 0) then "stable"
                   else ("unstable (σ=" +:+ fmt_fixed 2 times.2 +:+ ")"))%string);
          sm_latency_quantiles := latencies;
          sm_runtime_params := runtime_params;
          sm_total_txs := MetricDescriptor_new total_txs None;
          sm_successful_txs := MetricDescriptor_new successful_txs None;
          sm_failed_txs := MetricDescriptor_new failed_txs (failure_rate_desc total_txs failed_txs) |}.

(** ** A report *)

(** The runs of the range that exist and used the node. *)
Definition runs_of_node (db : Db) (rpc_url : string) (run_ids : list Z) : result (list SpamRun) :=
  runs ← mapM (fun id => map_err ReportDb (get_run db id)) run_ids;
  mret (filter (fun run => sr_rpc_url run = rpc_url) (omap id runs)).

Definition runtime_params_of (run : SpamRun) : RuntimeParams :=
  {| rt_txs_per_duration := sr_txs_per_duration run;
     rt_duration_value := duration_value (sr_duration run);
     rt_duration_unit := duration_unit (sr_duration run);
     rt_timeout := sr_timeout run |}.

(** That of the last run that belongs to a campaign. *)
Definition campaign_context (run_data : list SpamRun) : option CampaignMetadata :=
  head (omap (fun run =>
    (fun campaign_id =>
       {| cm_id := Some campaign_id; cm_name := sr_campaign_name run;
          cm_stage := sr_stage_name run; cm_scenario := Some (sr_scenario_name run) |})
    <$> sr_campaign_id run) (rev run_data)).

Definition scenario_title (run_data : list SpamRun) : string :=
  String.concat ", "
    (scenario_file_name <$> elements (list_to_set (sr_scenario_name <$> run_data) : gset string)).

Definition latency_chart_of (canonical : list (string * list Bucket)) (method : string)
  : result (option MethodLatencyData) :=
  match list_find (fun ml => ml.1 = method) canonical with
  | Some (_, ml) =>
      if has_data ml.2
      then d ← latency_data ml.2; mret (Some {| ml_method := method; ml_data := d |})
      else mret None
  | None => mret None
  end.

Definition chart_data (params : ReportParams) (all_txs : list RunTx) (blocks : list RpcBlock)
    (traces : list TxTraceReceipt) (canonical : list (string * list Bucket)) : result ChartData :=
  heatmap ← heatmap_new traces;
  tti ← time_to_inclusion_new all_txs;
  pending ← pending_txs_new all_txs;
  charts ← mapM (latency_chart_of canonical) tx_send_methods;
  heatmap ← heatmap_data heatmap;
  tti ← time_to_inclusion_data tti (rp_time_to_inclusion_bucket params);
  gas_used ← tx_gas_used_data (tx_gas_used_new traces) 4000;
  flashblock_tti ← match flashblock_tti_new all_txs with
                   | Some c => Some <$> flashblock_tti_data c
                   | None => mret None
                   end;
  flashblock_idx ← match flashblock_index_new all_txs with
                   | Some c => Some <$> flashblock_index_data c
                   | None => mret None
                   end;
  mret {| cd_heatmap := heatmap; cd_gas_per_block := gas_per_block_data (gas_per_block_new blocks);
          cd_time_to_inclusion := tti; cd_tx_gas_used := gas_used;
          cd_pending_txs := pending_txs_data pending; cd_latency_charts := omap id charts;
          cd_flashblock_time_to_inclusion := flashblock_tti;
          cd_flashblock_index := flashblock_idx |}.

(** The blocks and traces: from the cache file, when [DEBUG_USEFILE] is set. *)
Definition collect_blocks (db : Db) (params : ReportParams)
    (cache : option (result (list TxTraceReceipt * list RpcBlock)))
    (start_run_id end_run_id : Z) (all_txs : list RunTx)
  : result (list TxTraceReceipt * list RpcBlock) :=
  match cache with
  | Some cache_data => cache_data
  | None =>
      block_data ← (match all_txs with
                    | [] => estimate_block_data node start_run_id end_run_id db
                    | _ => get_block_data node all_txs
                    end);
      mret (if rp_skip_tx_traces params then [] else get_block_traces node block_data, block_data)
  end.

(** [None]: there is no run to report on. *)
Definition report (db : Db) (params : ReportParams)
    (cache : option (result (list TxTraceReceipt * list RpcBlock))) : result (option ReportMetadata) :=
  num_runs ← map_err ReportDb (num_runs db);
  if num_runs =? 0 then mret None else
  end_run_id ← report_end params num_runs;
  end_run ← existing_run db end_run_id;
  let rpc_url := sr_rpc_url end_run in
  start_run_id ← arith 64 (end_run_id - rp_preceding_runs params);
  let run_ids := range_inclusive start_run_id end_run_id in
  txs ← mapM (fun id => map_err ReportDb (get_run_txs db id)) run_ids;
  let all_txs := concat txs in
  run_data ← runs_of_node db rpc_url run_ids;
  tb ← collect_blocks db params cache start_run_id end_run_id all_txs;
  let '(traces, blocks) := tb in
  canonical ← mapM (fun m => l ← canonical_latency db run_ids m; mret (m, l)) latency_methods;
  let canonical := merge_sort name_le canonical in
  metrics ← run_metrics all_txs blocks (runtime_params_of <$> run_data) canonical;
  charts ← chart_data params all_txs blocks traces canonical;
  mret (Some {|
    rm_scenario_name := scenario_title run_data;
    rm_start_run_id := start_run_id;
    rm_end_run_id := end_run_id;
    rm_start_block := default 0 (bl_number <$> head blocks);
    rm_end_block := default 0 (bl_number <$> last blocks);
    rm_rpc_url := rpc_url;
    rm_metrics := metrics;
    rm_chart_data := charts;
    rm_campaign := campaign_context run_data |}).
End report.

(** ** Properties *)

Section report_props.
Context {P : Profile} {FD : F64Display} {Db : Type} {O : DbOps Db} (node : ReportNode).
Context (scenario_file_name : string -> string).

(** What stops a report before anything is collected: without runs there is
    none, an id that is 0 or beyond the last run is refused by its number, and in
    a build with overflow checks asking for as many preceding runs as there is no
    room for panics. *)
Theorem report_refusals (db : Db) (params : ReportParams) cache (n : Z)
  (Hn : num_runs db = Ok n) (Hpos : 0 <= n < 2 ^ 64) :
  let result := report node scenario_file_name db params cache in
  (n = 0 -> result = Ok None) /\
  (forall id, n <> 0 -> rp_last_run_id params = Some id -> id = 0 \/ n < id ->
    result = Err (InvalidRunId id)) /\
  (forall e r, n <> 0 -> report_end params n = Ok e -> get_run db e = Ok r ->
    match r with
    | None => result = Err (RunDoesNotExist e)
    | Some _ => overflow_checks = true -> e < rp_preceding_runs params -> result = Panic
    end).
Proof.
  cbv zeta. unfold report. rewrite Hn. cbn [map_err mbind outcome_bind]. split_and!.
  - by intros ->.
  - intros id Hne Hid Hbad. rewrite (proj2 (Z.eqb_neq n 0) Hne). unfold report_end. rewrite Hid.
    assert ((id =? 0) || (n <? id) = true) as -> by (rewrite orb_true_iff, Z.eqb_eq, Z.ltb_lt; lia).
    done.
  - intros e r Hne He Hr. rewrite (proj2 (Z.eqb_neq n 0) Hne), He.
    cbn [mbind outcome_bind]. unfold existing_run. rewrite Hr. destruct r as [run|]; [|done].
    intros Hchecks Hlt. cbn [map_err ok_or mbind outcome_bind]. unfold arith.
    destruct (in_range 64 (e - rp_preceding_runs params)) eqn:Hin.
    + apply in_range_spec in Hin. lia.
    + by rewrite Hchecks.
Qed.

Lemma quantile_index_bound len q : (0 < len)%nat -> (quantile_index len q < len)%nat.
Proof. unfold quantile_index. lia. Qed.

Lemma window_deltas_spec l :
  Sorted Z.le l -> Forall (fun x => 0 <= x < 2 ^ 64) l ->
  exists ds, window_deltas l = Ok ds /\ length ds = (length l - 1)%nat /\
    Forall (fun d => 0 <= d) ds /\
    sumZ ds = match l with [] => 0 | a :: _ => default a (last l) - a end.
Proof.
  intros Hs Hl. induction Hl as [|a [|b l] Ha Hl IH]; [by exists []|exists []; cbn; split_and!; [done..|lia]|].
  apply Sorted_inv in Hs as [Hs Hd%HdRel_inv].
  destruct (IH Hs) as (ds & Hds & Hlen & Hpos & Hsum).
  apply Forall_cons in Hl as [Hb _].
  exists (b - a :: ds).
  change (window_deltas (a :: b :: l)) with
    (d ← arith (E := ReportError) 64 (b - a); ds ← window_deltas (b :: l); mret (d :: ds)).
  rewrite arith_in by lia.
  cbn [mbind outcome_bind]. rewrite Hds. cbn [mbind outcome_bind]. split_and!; [done| | |].
  - cbn [length] in *. lia.
  - constructor; [lia|done].
  - cbn [sumZ]. rewrite Hsum, last_cons_cons.
    destruct (last (b :: l)) as [z|] eqn:Hz; [cbn; lia|by apply last_None in Hz].
Qed.

Lemma sum_u64_spec l acc :
  Forall (fun d => 0 <= d) l -> 0 <= acc -> acc + sumZ l < 2 ^ 64 ->
  fold_steps (fun acc x => arith (E := ReportError) 64 (acc + x)) acc l = Ok (acc + sumZ l).
Proof.
  intros Hl. revert acc. induction Hl as [|x l Hx Hl IH]; intros acc Ha Hfit; cbn [fold_steps sumZ].
  - by rewrite Z.add_0_r.
  - cbn [sumZ] in Hfit. pose proof (sumZ_nonneg l Hl). rewrite arith_in by lia.
    cbn [mbind outcome_bind]. rewrite IH by lia. f_equal. lia.
Qed.

(** The average block time of a report is the time from its earliest block to
    its latest over the number of blocks but one, whatever the order the blocks
    came in; without any block, a build with overflow checks panics. *)
Theorem block_times_average (blocks : list RpcBlock) (lo hi : Z)
  (Hts : Forall (fun b => 0 <= bl_timestamp b < 2 ^ 64) blocks)
  (Hlen : Z.of_nat (length blocks) < 2 ^ 64)
  (Hlo : lo ∈ bl_timestamp <$> blocks) (Hhi : hi ∈ bl_timestamp <$> blocks)
  (Hall : Forall (fun b => lo <= bl_timestamp b <= hi) blocks) :
  (exists deviation, block_times blocks = Ok
    (f64_div (f64_of_Z (hi - lo)) (f64_of_Z (Z.max (Z.of_nat (length blocks) - 1) 1)), deviation)) /\
  (overflow_checks = true -> block_times [] = Panic).
Proof.
  split; [|intros H; unfold block_times, arith; cbn; by rewrite H].
  unfold block_times. set (ts := sortZ (bl_timestamp <$> blocks)).
  assert (Hperm : ts ≡ₚ bl_timestamp <$> blocks) by apply sortZ_perm.
  destruct (window_deltas_spec ts) as (ds & -> & _ & Hpos & Hsum).
  { apply sortZ_sorted. }
  { rewrite Hperm. by apply Forall_fmap. }
  assert (Forall (fun t => lo <= t <= hi) ts) as Hts'.
  { rewrite Hperm. by apply Forall_fmap. }
  rewrite <- Hperm in Hlo, Hhi.
  assert (sumZ ds = hi - lo) as Hspan.
  { pose proof (sortZ_sorted (bl_timestamp <$> blocks)) as Hss. fold ts in Hss.
    apply Sorted_StronglySorted in Hss; [|intros ? ? ?; lia].
    rewrite Hsum. clear - Hss Hlo Hhi Hts'. destruct ts as [|a l]; [by apply not_elem_of_nil in Hlo|].
    assert (a = lo) as ->.
    { apply StronglySorted_inv in Hss as [_ Hle]. apply Forall_cons in Hts' as [Ha _].
      apply elem_of_cons in Hlo as [->|Hlo]; [done|]. rewrite Forall_forall in Hle.
      specialize (Hle lo Hlo). lia. }
    f_equal. destruct (last_is_Some (lo :: l)) as [_ [z Hz]]; [done|]. rewrite Hz. cbn.
    apply last_Some in Hz as [k Hk]. rewrite Hk in Hss, Hhi, Hts'.
    apply elem_of_app in Hhi as [Hhi|Hhi%list_elem_of_singleton]; [|done].
    apply Forall_app in Hts' as [_ [Hz _]%Forall_cons].
    pose proof (StronglySorted_app_1_elem_of Z.le k [z] hi z Hss Hhi ltac:(left)). lia. }
  cbn [mbind outcome_bind]. unfold sum_u64.
  assert (0 <= hi - lo < 2 ^ 64) as Hrange.
  { rewrite Hperm in Hlo, Hhi. apply list_elem_of_fmap in Hlo as (x & -> & Hx), Hhi as (y & -> & Hy).
    rewrite Forall_forall in Hts, Hall. pose proof (Hts x Hx). pose proof (Hts y Hy).
    pose proof (Hall x Hx). lia. }
  rewrite sum_u64_spec by (done || lia). cbn [mbind outcome_bind].
  assert (blocks <> []) as Hne.
  { intros ->. rewrite Hperm in Hlo. by apply not_elem_of_nil in Hlo. }
  assert (0 < length blocks)%nat by (destruct blocks; [done|cbn; lia]).
  rewrite arith_in by lia. cbn [mbind outcome_bind]. rewrite Z.add_0_l, Hspan. by eexists.
Qed.
End report_props.

Module ReportWitness.
Import BlockTraceWitness.
#[export] Instance display : F64Display := fun _ => "?"%string.

Definition old_params : ReportParams := with_preceding_runs default_report_params 5.

Lemma report_refusals_witness :
  report chain id mock_db old_params None = Ok None.
Proof.
  apply (report_refusals (Db := MockDb) chain id mock_db old_params None 0); [reflexivity|lia|reflexivity].
Defined.

Lemma block_times_average_witness :
  exists deviation, block_times [block 7; block 4; block 6] =
    Ok (f64_div (f64_of_Z 6) (f64_of_Z 2), deviation).
Proof.
  apply (block_times_average [block 7; block 4; block 6] 1008 1014).
  - repeat constructor; cbn; lia.
  - done.
  - right. left.
  - left.
  - repeat constructor; cbn; lia.
Defined.
End ReportWitness.
