(* ===== verification/CampaignReport.v ===== *)
(** * Campaign reports ([report/src/command.rs], [report_campaign])

    A report for each run of a campaign, and their sums: over the campaign, and
    per stage and scenario.  The two accumulators of the source have the same
    fields and the same [add_run]; a [BTreeMap] is a [gmap], listed in the order
    of its keys.  [millis_to_rfc3339] is chrono's rendering of a time. *)

From Stdlib Require Import Strings.String.
From S2P Require Import Prelude Text F64 Alloy Db Histogram Charts Heatmap BlockTrace Report.

Record CampaignRunSummary := {
  cr_run_id : Z;
  cr_scenario_name : string;
  cr_stage_name : option string;
  cr_tx_count : Z;
  cr_duration : string;
  cr_report_path : string;
}.

Record CampaignOverall := {
  co_total_tx_count : Z;
  co_total_error_count : Z;
  co_error_rate : f64;
  co_campaign_start_time : option string;
  co_campaign_end_time : option string;
  co_campaign_duration_secs : Z;
  co_avg_tps : f64;
}.

Record StageScenarioSummary := {
  ss_stage_name : string;
  ss_scenario_name : string;
  ss_total_tx_count : Z;
  ss_total_error_count : Z;
  ss_error_rate : f64;
  ss_duration_secs : Z;
  ss_avg_tps : f64;
}.

Record CampaignReportSummary := {
  cp_campaign_id : string;
  cp_campaign_name : option string;
  cp_runs : list CampaignRunSummary;
  cp_totals_by_stage : gmap string (gmap string Z);
  cp_overall : option CampaignOverall;
  cp_stage_scenario : list StageScenarioSummary;
  cp_logs_incomplete : bool;
}.

(** ** What a run counts for *)

Definition tx_and_error_counts (run_txs : list RunTx) (fallback_tx_count : Z) : Z * Z :=
  match run_txs with
  | [] => (fallback_tx_count, 0)
  | _ => (Z.of_nat (length run_txs), failed_count run_txs)
  end.

Definition min_list (x : Z) (l : list Z) : Z := fold_left Z.min l x.
Definition max_list (x : Z) (l : list Z) : Z := fold_left Z.max l x.

(** When a run began and ended, in milliseconds: by its transactions, or else by
    its duration, blocks being taken for seconds. *)
Definition run_time_bounds (run : SpamRun) (run_txs : list RunTx) : option Z * option Z :=
  match run_txs with
  | t :: ts =>
      let ended t := default (rt_start_timestamp_ms t) (rt_end_timestamp_ms t) in
      (Some (min_list (rt_start_timestamp_ms t) (rt_start_timestamp_ms <$> ts)),
       Some (max_list (ended t) (ended <$> ts)))
  | [] =>
      let start_ms := sr_timestamp run in
      let duration_ms := Z.min U64_MAX (duration_value (sr_duration run) * 1000) in
      (Some start_ms, Some (saturating_add 128 start_ms duration_ms))
  end.

(** ** Accumulators *)

Record Accumulator := {
  ac_total_tx : Z;
  ac_total_errors : Z;
  ac_start_ms : option Z;
  ac_end_ms : option Z;
}.
Definition accumulator_default : Accumulator :=
  {| ac_total_tx := 0; ac_total_errors := 0; ac_start_ms := None; ac_end_ms := None |}.

Definition overall_add_run (acc : Accumulator) (tx errors : Z) (start_ms end_ms : option Z)
  : Accumulator :=
  {| ac_total_tx := saturating_add 64 (ac_total_tx acc) tx;
     ac_total_errors := saturating_add 64 (ac_total_errors acc) errors;
     ac_start_ms := match start_ms with
                    | Some s => Some (match ac_start_ms acc with Some curr => Z.min curr s | None => s end)
                    | None => ac_start_ms acc
                    end;
     ac_end_ms := match end_ms with
                  | Some e => Some (match ac_end_ms acc with Some curr => Z.max curr e | None => e end)
                  | None => ac_end_ms acc
                  end |}.

(** The same text again in the source. *)
Definition stage_add_run : Accumulator -> Z -> Z -> option Z -> option Z -> Accumulator :=
  overall_add_run.

Definition span_secs (start_ms end_ms : option Z) : Z :=
  match start_ms, end_ms with
  | Some s, Some e => if s <? e then wrap 64 ((e - s) / 1000) else 0
  | _, _ => 0
  end.

(** A quotient to two decimals; 0 when there is nothing to divide by. *)
Definition ratio (a b : Z) : f64 :=
  if 0 <? b
  then f64_div (f64_round (f64_mul (f64_div (f64_of_Z a) (f64_of_Z b)) (f64_of_Z 100))) (f64_of_Z 100)
  else f64_of_Z 0.

(** [v as i64]. *)
Definition as_i64 (v : Z) : Z := if wrap 64 v <? 2 ^ 63 then wrap 64 v else wrap 64 v - 2 ^ 64.

Definition into_overall (millis_to_rfc3339 : Z -> string) (acc : Accumulator) : CampaignOverall :=
  let duration_secs := span_secs (ac_start_ms acc) (ac_end_ms acc) in
  {| co_total_tx_count := ac_total_tx acc;
     co_total_error_count := ac_total_errors acc;
     co_error_rate := ratio (ac_total_errors acc) (ac_total_tx acc);
     co_campaign_start_time := (fun v => millis_to_rfc3339 (as_i64 v)) <$> ac_start_ms acc;
     co_campaign_end_time := (fun v => millis_to_rfc3339 (as_i64 v)) <$> ac_end_ms acc;
     co_campaign_duration_secs := duration_secs;
     co_avg_tps := ratio (ac_total_tx acc) duration_secs |}.

Definition into_summary (acc : Accumulator) (stage scenario : string) : StageScenarioSummary :=
  let duration_secs := span_secs (ac_start_ms acc) (ac_end_ms acc) in
  {| ss_stage_name := stage;
     ss_scenario_name := scenario;
     ss_total_tx_count := ac_total_tx acc;
     ss_total_error_count := ac_total_errors acc;
     ss_error_rate := ratio (ac_total_errors acc) (ac_total_tx acc);
     ss_duration_secs := duration_secs;
     ss_avg_tps := ratio (ac_total_tx acc) duration_secs |}.

(** ** The report *)

(** The loop's variables. *)
Record CampaignTotals := {
  ct_summaries : list CampaignRunSummary;
  ct_totals : gmap string (gmap string Z);
  ct_overall : Accumulator;
  ct_stages : gmap (string * string) Accumulator;
  ct_logs_incomplete : bool;
}.
Definition campaign_totals_new : CampaignTotals :=
  {| ct_summaries := []; ct_totals := ∅; ct_overall := accumulator_default; ct_stages := ∅;
     ct_logs_incomplete := false |}.

Record RunCount := {
  rc_complete : bool;
  rc_tx : Z;
  rc_errors : Z;
  rc_start : option Z;
  rc_end : option Z;
}.

(** The logs of a run count when they hold at least as many transactions as the
    run sent. *)
Definition count_run (run : SpamRun) (run_txs : list RunTx) : RunCount :=
  let '(tx_count_from_logs, error_count_from_logs) := tx_and_error_counts run_txs (sr_tx_count run) in
  let logs_complete :=
    match run_txs with [] => false | _ => sr_tx_count run <=? tx_count_from_logs end in
  let bounds := run_time_bounds run (if logs_complete then run_txs else []) in
  {| rc_complete := logs_complete;
     rc_tx := if logs_complete then tx_count_from_logs else sr_tx_count run;
     rc_errors := if logs_complete then error_count_from_logs else 0;
     rc_start := bounds.1;
     rc_end := bounds.2 |}.

Definition stage_key (run : SpamRun) : string := default "unspecified-stage"%string (sr_stage_name run).
Definition run_key (run : SpamRun) : string * string := (stage_key run, sr_scenario_name run).

(** The order of a [BTreeMap] with pairs of strings as keys. *)
Definition key_le (a b : string * string) : bool :=
  match String.compare a.1 b.1 with
  | Lt => true
  | Gt => false
  | Eq => String.leb a.2 b.2
  end.
Definition entry_le {A} (a b : (string * string) * A) : Prop := key_le a.1 b.1 = true.
#[export] Instance entry_le_dec {A} (a b : (string * string) * A) : Decision (entry_le a b) :=
  decide (key_le a.1 b.1 = true).
Definition in_key_order {A} (m : gmap (string * string) A) : list ((string * string) * A) :=
  merge_sort entry_le (map_to_list m).

Section campaign_report.
Context {P : Profile} {FD : F64Display} {Db : Type} {O : DbOps Db} (node : ReportNode).
Context (scenario_file_name : string -> string) (millis_to_rfc3339 : Z -> string).
Context (cache : option (outcome ReportError (list TxTraceReceipt * list RpcBlock))).
Abbreviation result A := (outcome ReportError A).

(** [totals.entry(stage).or_default().entry(scenario).and_modify(..).or_insert(..)]. *)
Definition add_total (totals : gmap string (gmap string Z)) (k : string * string) (tx : Z)
  : result (gmap string (gmap string Z)) :=
  let of_stage := default ∅ (totals !! k.1) in
  count ← match of_stage !! k.2 with
          | Some count => arith 64 (count + tx)
          | None => mret tx
          end;
  mret (<[k.1 := <[k.2 := count]> of_stage]> totals).

Definition add_run_count (st : CampaignTotals) (run : SpamRun) (c : RunCount) : result CampaignTotals :=
  totals ← add_total (ct_totals st) (run_key run) (rc_tx c);
  mret {| ct_summaries := ct_summaries st ++
            [{| cr_run_id := sr_id run; cr_scenario_name := sr_scenario_name run;
                cr_stage_name := sr_stage_name run; cr_tx_count := rc_tx c;
                cr_duration := duration_to_string (sr_duration run);
                cr_report_path :=
                  ("report-" +:+ dec (sr_id run) +:+ "-" +:+ dec (sr_id run) +:+ ".html")%string |}];
          ct_totals := totals;
          ct_overall := overall_add_run (ct_overall st) (rc_tx c) (rc_errors c) (rc_start c) (rc_end c);
          ct_stages := <[run_key run :=
            stage_add_run (default accumulator_default (ct_stages st !! run_key run))
              (rc_tx c) (rc_errors c) (rc_start c) (rc_end c)]> (ct_stages st);
          ct_logs_incomplete := ct_logs_incomplete st || negb (rc_complete c) |}.

(** The parameters of a run's own report. *)
Definition run_report_params (params : ReportParams) (run : SpamRun) : ReportParams :=
  with_last_run_id
    (with_time_to_inclusion_bucket
       (with_skip_tx_traces default_report_params (rp_skip_tx_traces params))
       (rp_time_to_inclusion_bucket params))
    (sr_id run).

Definition report_run (db : Db) (params : ReportParams) (st : CampaignTotals) (run : SpamRun)
  : result CampaignTotals :=
  report node scenario_file_name db (run_report_params params run) cache;;
  run_txs ← map_err ReportDb (get_run_txs db (sr_id run));
  add_run_count st run (count_run run run_txs).

Definition campaign_summary (campaign_id : string) (first : SpamRun) (st : CampaignTotals)
  : CampaignReportSummary :=
  {| cp_campaign_id := campaign_id;
     cp_campaign_name := sr_campaign_name first;
     cp_runs := ct_summaries st;
     cp_totals_by_stage := ct_totals st;
     cp_overall := Some (into_overall millis_to_rfc3339 (ct_overall st));
     cp_stage_scenario :=
       (fun '((stage, scenario), acc) => into_summary acc stage scenario)
         <$> in_key_order (ct_stages st);
     cp_logs_incomplete := ct_logs_incomplete st |}.

Definition report_campaign (db : Db) (campaign_id : string) (params : ReportParams)
  : result CampaignReportSummary :=
  runs ← map_err ReportDb (get_runs_by_campaign db campaign_id);
  match runs with
  | [] => Err (CampaignNotFound campaign_id)
  | first :: _ =>
      st ← fold_steps (report_run db params) campaign_totals_new runs;
      mret (campaign_summary campaign_id first st)
  end.
End campaign_report.

(** ** Lemmas *)

Definition add_count (acc : Accumulator) (c : RunCount) : Accumulator :=
  overall_add_run acc (rc_tx c) (rc_errors c) (rc_start c) (rc_end c).
Definition add_count_opt (o : option Accumulator) (c : RunCount) : option Accumulator :=
  Some (add_count (default accumulator_default o) c).
Definition total_at (totals : gmap string (gmap string Z)) (k : string * string) : Z :=
  default 0 (default ∅ (totals !! k.1) !! k.2).

Lemma count_run_bounds run txs :
  0 <= sr_tx_count run ->
  0 <= rc_errors (count_run run txs) <= rc_tx (count_run run txs) /\
  exists s e, rc_start (count_run run txs) = Some s /\ rc_end (count_run run txs) = Some e.
Proof.
  intros Hn. unfold count_run, tx_and_error_counts. destruct txs as [|tx txs]; cbn [rc_errors rc_tx rc_start rc_end].
  - split; [lia|]. unfold run_time_bounds. eauto.
  - assert (failed_count (tx :: txs) <= Z.of_nat (length (tx :: txs))) as Hf.
    { unfold failed_count. pose proof (length_filter (fun tx => is_Some (rt_error tx)) (tx :: txs)). lia. }
    assert (0 <= failed_count (tx :: txs)) by (unfold failed_count; lia).
    destruct (_ <=? _); (split; [lia|]); unfold run_time_bounds; eauto.
Qed.

Lemma saturating_fold (g : RunCount -> Z) (get : Accumulator -> Z) l acc :
  (forall acc c, get (add_count acc c) = saturating_add 64 (get acc) (g c)) ->
  Forall (fun c => 0 <= g c) l -> 0 <= get acc -> get acc + sumZ (g <$> l) < 2 ^ 64 ->
  get (fold_left add_count l acc) = get acc + sumZ (g <$> l).
Proof.
  intros Hget Hl. revert acc. induction Hl as [|c l Hc Hl IH]; intros acc Hacc Hfit; [cbn; lia|].
  csimpl. cbn [sumZ] in *. fold (g <$> l) in Hfit.
  assert (0 <= sumZ (g <$> l)) by (apply sumZ_nonneg, Forall_fmap, Hl).
  change (sumZ (g <$> c :: l)) with (g c + sumZ (g <$> l)) in Hfit.
  assert (get (add_count acc c) = get acc + g c) as Hadd.
  { rewrite Hget. unfold saturating_add, MAX. lia. }
  rewrite IH; rewrite ?Hadd; lia.
Qed.

#[export] Instance Z_ge_preorder : PreOrder Z.ge.
Proof. split; red; lia. Qed.

(** The extreme of what the runs give, in the sense of [le]. *)
Lemma fold_extreme (get : Accumulator -> option Z) (g : RunCount -> option Z)
    (pick : Z -> Z -> Z) (le : Z -> Z -> Prop) l acc `{!PreOrder le} :
  (forall acc c x, g c = Some x ->
     get (add_count acc c) = Some (match get acc with Some y => pick y x | None => x end)) ->
  (forall x y, le (pick x y) x /\ le (pick x y) y /\ (pick x y = x \/ pick x y = y)) ->
  Forall (fun c => is_Some (g c)) l -> is_Some (get acc) \/ l <> [] ->
  exists a, get (fold_left add_count l acc) = Some a /\
    (get acc = Some a \/ exists c, c ∈ l /\ g c = Some a) /\
    (forall x, get acc = Some x -> le a x) /\
    (forall c x, c ∈ l -> g c = Some x -> le a x).
Proof.
  intros Hget Hpick Hl. revert acc. induction Hl as [|c l [x Hx] Hl IH]; intros acc Hsome.
  - destruct Hsome as [[a Ha]|]; [|done]. exists a. split_and!; [done|by left| |].
    + intros y Hy. by simplify_eq.
    + by intros ? ? ?%not_elem_of_nil.
  - pose proof (Hget acc c x Hx) as Hc.
    destruct (IH (add_count acc c)) as (a & H1 & H2 & H3 & H4); [left; by eexists|].
    exists a. split; [done|]. rewrite Hc in H2, H3. specialize (H3 _ eq_refl). split_and!.
    + destruct H2 as [[= H2]|(d & Hd & Hg)].
      * destruct (get acc) as [y|].
        -- destruct (Hpick y x) as (_ & _ & [E|E]); [left|right; exists c; split; [left|]]; congruence.
        -- right. exists c. split; [left|congruence].
      * right. exists d. split; [by right|done].
    + intros y Hy. rewrite Hy in H3. etrans; [exact H3|apply Hpick].
    + intros d y [->|Hd]%elem_of_cons Hg; [|by eapply H4]. rewrite Hx in Hg. injection Hg as <-.
      destruct (get acc); [|done]. etrans; [exact H3|apply Hpick].
Qed.

Lemma total_at_insert totals k v k' :
  total_at (<[k.1 := <[k.2 := v]> (default ∅ (totals !! k.1))]> totals) k' =
  if decide (k = k') then v else total_at totals k'.
Proof.
  unfold total_at. destruct k as [a b], k' as [a' b']. cbn [fst snd].
  destruct (decide (a = a')) as [<-|Ha].
  - rewrite lookup_insert_eq. cbn. destruct (decide (b = b')) as [<-|Hb].
    + rewrite lookup_insert_eq. by rewrite decide_True.
    + rewrite lookup_insert_ne by done. by rewrite decide_False by congruence.
  - rewrite lookup_insert_ne by done. by rewrite decide_False by congruence.
Qed.

Section campaign_lemmas.
Context {P : Profile} {FD : F64Display} {Db : Type} {O : DbOps Db} (node : ReportNode).

Lemma add_total_spec totals k tx :
  0 <= total_at totals k -> 0 <= tx -> total_at totals k + tx < 2 ^ 64 ->
  exists totals', add_total totals k tx = Ok totals' /\
    forall k', total_at totals' k' = if decide (k = k') then total_at totals k + tx else total_at totals k'.
Proof.
  intros Hk Htx Hfit. unfold add_total.
  assert ((match default ∅ (totals !! k.1) !! k.2 with
           | Some count => arith 64 (count + tx) | None => mret tx end : outcome ReportError Z)
          = Ok (total_at totals k + tx)) as ->.
  { unfold total_at in *. destruct (default ∅ (totals !! k.1) !! k.2); cbn in *; [|done].
    apply arith_in. lia. }
  cbn. eexists. split; [done|]. apply total_at_insert.
Qed.

(** The loop over the runs, from any state of its variables. *)
Lemma campaign_loop (count : SpamRun -> RunCount) l st :
  Forall (fun run => 0 <= rc_tx (count run)) l ->
  (forall k, 0 <= total_at (ct_totals st) k /\
     total_at (ct_totals st) k + sumZ ((fun run => rc_tx (count run)) <$> l) < 2 ^ 64) ->
  exists st', fold_steps (fun st run => add_run_count st run (count run)) st l = Ok st' /\
    ct_overall st' = fold_left add_count (count <$> l) (ct_overall st) /\
    (forall k, ct_stages st' !! k =
       fold_left add_count_opt (count <$> filter (fun run => run_key run = k) l) (ct_stages st !! k)) /\
    (forall k, total_at (ct_totals st') k = total_at (ct_totals st) k +
       sumZ ((fun run => rc_tx (count run)) <$> filter (fun run => run_key run = k) l)) /\
    ct_logs_incomplete st' = ct_logs_incomplete st || existsb (fun run => negb (rc_complete (count run))) l.
Proof.
  intros Hl. revert st. induction Hl as [|run l Hrun Hl IH]; intros st Hfit.
  { exists st. split_and!; try done; [|by rewrite orb_false_r]. intros k. cbn. lia. }
  assert (0 <= sumZ ((fun run => rc_tx (count run)) <$> l)) as Hpos.
  { apply sumZ_nonneg, Forall_fmap, Hl. }
  set (sum := sumZ ((fun run => rc_tx (count run)) <$> l)) in *.
  assert (forall k, 0 <= total_at (ct_totals st) k /\ total_at (ct_totals st) k + (rc_tx (count run) + sum) < 2 ^ 64)
    as Hfit' by exact Hfit. clear Hfit.
  destruct (Hfit' (run_key run)) as [Hk0 Hk1].
  destruct (add_total_spec (ct_totals st) (run_key run) (rc_tx (count run))) as (totals & Hadd & Htot);
    [lia..|].
  assert (exists st1, add_run_count st run (count run) = Ok st1 /\
    ct_totals st1 = totals /\ ct_overall st1 = add_count (ct_overall st) (count run) /\
    ct_stages st1 = <[run_key run :=
      add_count (default accumulator_default (ct_stages st !! run_key run)) (count run)]> (ct_stages st) /\
    ct_logs_incomplete st1 = ct_logs_incomplete st || negb (rc_complete (count run)))
    as (st1 & Hst1 & E1 & E2 & E3 & E4).
  { unfold add_run_count. rewrite Hadd. eexists. split; [reflexivity|]. done. }
  cbn [fold_steps]. rewrite Hst1. cbn [mbind outcome_bind].
  destruct (IH st1) as (st' & -> & H1 & H2 & H3 & H4).
  { intros k. rewrite E1, Htot. specialize (Hfit' k). case_decide; subst; lia. }
  exists st'. split; [done|]. split; [by rewrite H1, E2|]. split_and!.
  - intros k. rewrite H2, E3. rewrite filter_cons. case_decide as Hd.
    + subst k. by rewrite lookup_insert_eq.
    + by rewrite lookup_insert_ne.
  - intros k. rewrite H3, E1, Htot. rewrite filter_cons. case_decide as Hd; [subst k|done].
    csimpl. cbn [sumZ]. lia.
  - rewrite H4, E4. cbn [existsb]. by rewrite orb_assoc.
Qed.

(** A group that is not empty is summed from zero. *)
Lemma stage_group l :
  l <> [] -> fold_left add_count_opt l None = Some (fold_left add_count l accumulator_default).
Proof.
  destruct l as [|c l]; [done|]. intros _. cbn [fold_left].
  change (add_count_opt None c) with (Some (add_count accumulator_default c)).
  generalize (add_count accumulator_default c) as acc.
  induction l as [|d l IH]; intros acc; [done|]. cbn [fold_left]. apply (IH (add_count acc d)).
Qed.

Lemma fold_steps_ext {E X Y} (f g : Y -> X -> outcome E Y) st l :
  (forall st x, x ∈ l -> f st x = g st x) -> fold_steps f st l = fold_steps g st l.
Proof.
  revert st. induction l as [|x l IH]; intros st Hfg; [done|]. cbn [fold_steps].
  rewrite Hfg by left. destruct (g st x); [|done..]. cbn. apply IH.
  intros st' y Hy. apply Hfg. by right.
Qed.
End campaign_lemmas.

Lemma in_key_order_spec {A} (m : gmap (string * string) A) :
  in_key_order m ≡ₚ map_to_list m.
Proof. apply merge_sort_Permutation. Qed.

Lemma sum_filter_le (f : SpamRun -> Z) k l :
  (forall run, run ∈ l -> 0 <= f run) ->
  0 <= sumZ (f <$> filter (fun run => run_key run = k) l) <= sumZ (f <$> l).
Proof.
  induction l as [|run l IH]; intros Hf; [cbn; lia|].
  rewrite filter_cons. pose proof (Hf run ltac:(left)).
  specialize (IH ltac:(intros r Hr; apply Hf; by right)).
  case_decide; csimpl; cbn [sumZ]; lia.
Qed.

(** ** Properties *)

Section campaign_theorems.
Context {P : Profile} {FD : F64Display} {Db : Type} {O : DbOps Db} (node : ReportNode).
Context (scenario_file_name : string -> string) (millis_to_rfc3339 : Z -> string).
Context (cache : option (outcome ReportError (list TxTraceReceipt * list RpcBlock))).
Context (db : Db) (campaign_id : string) (params : ReportParams).

(** A campaign whose runs are reported without error, with their logs. *)
Context (runs : list SpamRun) (logs : SpamRun -> list RunTx).
Let count (run : SpamRun) : RunCount := count_run run (logs run).
Context (Hruns : get_runs_by_campaign db campaign_id = Ok runs) (Hne : runs <> []).
Context (Hwidth : Forall (fun run => 0 <= sr_tx_count run) runs).
Context (Hreports : Forall (fun run =>
  is_ok (report node scenario_file_name db (run_report_params params run) cache) = true) runs).
Context (Hlogs : Forall (fun run => get_run_txs db (sr_id run) = Ok (logs run)) runs).
Context (Hfits : sumZ ((fun run => rc_tx (count run)) <$> runs) < 2 ^ 64).

Lemma run_counts run : run ∈ runs ->
  0 <= rc_errors (count run) <= rc_tx (count run) /\
  exists s e, rc_start (count run) = Some s /\ rc_end (count run) = Some e.
Proof. intros Hrun. apply count_run_bounds. by apply (proj1 (Forall_forall _ _) Hwidth). Qed.

Lemma campaign_run_loop :
  exists st, fold_steps (report_run node scenario_file_name cache db params) campaign_totals_new runs = Ok st /\
    ct_overall st = fold_left add_count (count <$> runs) accumulator_default /\
    (forall k, ct_stages st !! k =
       fold_left add_count_opt (count <$> filter (fun run => run_key run = k) runs) None) /\
    (forall k, total_at (ct_totals st) k =
       sumZ ((fun run => rc_tx (count run)) <$> filter (fun run => run_key run = k) runs)) /\
    ct_logs_incomplete st = existsb (fun run => negb (rc_complete (count run))) runs.
Proof.
  erewrite (fold_steps_ext _ (fun st run => add_run_count st run (count run))).
  - destruct (campaign_loop count runs campaign_totals_new) as (st & H & H1 & H2 & H3 & H4).
    + apply Forall_forall. intros run [? _]%run_counts. lia.
    + intros k. change (total_at (ct_totals campaign_totals_new) k) with 0. split; [done|exact Hfits].
    + exists st. split_and!; done.
  - intros st run Hrun. unfold report_run.
    destruct (is_ok_ex _ (proj1 (Forall_forall _ _) Hreports run Hrun)) as [r ->]. cbn.
    by rewrite (proj1 (Forall_forall _ _) Hlogs run Hrun).
Qed.

Lemma fold_counts (sub : list SpamRun) :
  (forall run, run ∈ sub -> run ∈ runs) ->
  sumZ ((fun run => rc_tx (count run)) <$> sub) < 2 ^ 64 ->
  let acc := fold_left add_count (count <$> sub) accumulator_default in
  ac_total_tx acc = sumZ ((fun run => rc_tx (count run)) <$> sub) /\
  ac_total_errors acc = sumZ ((fun run => rc_errors (count run)) <$> sub).
Proof.
  intros Hsub Hfit acc.
  assert (forall g : RunCount -> Z, (forall run, run ∈ sub -> 0 <= g (count run)) ->
    Forall (fun c => 0 <= g c) (count <$> sub)) as Hall.
  { intros g Hg. apply Forall_fmap, Forall_forall. exact Hg. }
  assert (sumZ ((fun run => rc_errors (count run)) <$> sub)
    <= sumZ ((fun run => rc_tx (count run)) <$> sub)) as Hle.
  { clear Hfit acc Hall. induction sub as [|run sub IH]; [done|]. csimpl. cbn [sumZ].
    destruct (run_counts run) as [? _]; [apply Hsub; left|].
    specialize (IH ltac:(intros r Hr; apply Hsub; by right)). lia. }
  assert (forall g : RunCount -> Z, (fun run => g (count run)) <$> sub = g <$> (count <$> sub)) as Hcomp.
  { intros g. apply (list_fmap_compose count g). }
  split; subst acc; rewrite (Hcomp rc_tx) in *; rewrite ?(Hcomp rc_errors) in *.
  - apply (saturating_fold rc_tx ac_total_tx); try done.
    + apply Hall. intros run Hr%Hsub%run_counts. lia.
  - apply (saturating_fold rc_errors ac_total_errors); try done.
    + apply Hall. intros run Hr%Hsub%run_counts. lia.
    + cbn [ac_total_errors accumulator_default]. lia.
Qed.

Lemma group_total k :
  let rs := filter (fun run => run_key run = k) runs in
  let acc := fold_left add_count (count <$> rs) accumulator_default in
  ac_total_tx acc = sumZ ((fun run => rc_tx (count run)) <$> rs) /\
  ac_total_errors acc = sumZ ((fun run => rc_errors (count run)) <$> rs).
Proof.
  apply fold_counts.
  - intros run [_ Hr]%list_elem_of_filter. exact Hr.
  - eapply Z.le_lt_trans; [|exact Hfits]. apply sum_filter_le. intros run Hr%run_counts. lia.
Qed.

(** The accumulator of a stage and scenario that has runs is the fold of theirs. *)
Lemma stage_entry (st : CampaignTotals) k acc :
  (forall k, ct_stages st !! k =
     fold_left add_count_opt (count <$> filter (fun run => run_key run = k) runs) None) ->
  ct_stages st !! k = Some acc <->
  (exists run, run ∈ runs /\ run_key run = k) /\
  acc = fold_left add_count (count <$> filter (fun run => run_key run = k) runs) accumulator_default.
Proof.
  intros ->. destruct (filter (fun run => run_key run = k) runs) as [|r rs] eqn:Hf.
  - split; [done|]. intros [(run & Hr & Hk) _]. exfalso.
    apply (not_elem_of_nil run). rewrite <- Hf. by apply list_elem_of_filter.
  - rewrite stage_group by done. split; [|by intros [_ ->]]. intros [= <-]. split; [|done].
    exists r. assert (r ∈ filter (fun run => run_key run = k) runs) as Hr by (rewrite Hf; left).
    by apply list_elem_of_filter in Hr as [? ?].
Qed.

Lemma stage_sums (st : CampaignTotals) (get : StageScenarioSummary -> Z) (g : RunCount -> Z) :
  let summarise := fun '((stage, scenario), acc) => into_summary acc stage scenario in
  (forall k acc, ct_stages st !! k = Some acc ->
     get (into_summary acc k.1 k.2) =
     sumZ ((fun run => g (count run)) <$> filter (fun run => run_key run = k) runs)) ->
  (forall run, run ∈ runs -> is_Some (ct_stages st !! run_key run)) ->
  sumZ (get <$> (summarise <$> in_key_order (ct_stages st))) = sumZ ((fun run => g (count run)) <$> runs).
Proof.
  intros summarise Hget Hin.
  rewrite <- (sumZ_groups run_key (fun run => g (count run)) (map_to_list (ct_stages st)).*1 runs).
  - rewrite in_key_order_spec. f_equal. rewrite <- !list_fmap_compose.
    apply list_fmap_ext. intros i [[a b] acc] Hi%list_elem_of_lookup_2%elem_of_map_to_list.
    apply (Hget (a, b) acc Hi).
  - apply NoDup_fst_map_to_list.
  - intros run [acc Hacc]%Hin. apply list_elem_of_fmap. exists (run_key run, acc).
    split; [done|]. by apply elem_of_map_to_list.
Qed.

Lemma run_report_shape (st : CampaignTotals) :
  fold_steps (report_run node scenario_file_name cache db params) campaign_totals_new runs = Ok st ->
  exists s,
    report_campaign node scenario_file_name millis_to_rfc3339 cache db campaign_id params = Ok s /\
    cp_overall s = Some (into_overall millis_to_rfc3339 (ct_overall st)) /\
    cp_totals_by_stage s = ct_totals st /\
    cp_stage_scenario s = (fun '((stage, scenario), acc) => into_summary acc stage scenario)
      <$> in_key_order (ct_stages st) /\
    cp_logs_incomplete s = ct_logs_incomplete st.
Proof.
  intros Hst. unfold report_campaign. rewrite Hruns. cbn [map_err mbind outcome_bind].
  clear -Hst Hne. destruct runs as [|first rest]; [done|]. rewrite Hst. by eexists.
Qed.

(** C7: A campaign's report counts every run once: the totals per stage and
    scenario are the sums over exactly the runs of that stage and scenario, they
    add up to the totals of the campaign, and the logs are called incomplete when
    those of some run are. *)
Theorem campaign_totals :
  exists s o,
    report_campaign node scenario_file_name millis_to_rfc3339 cache db campaign_id params = Ok s /\
    cp_overall s = Some o /\
    co_total_tx_count o = sumZ ((fun run => rc_tx (count run)) <$> runs) /\
    co_total_error_count o = sumZ ((fun run => rc_errors (count run)) <$> runs) /\
    sumZ (ss_total_tx_count <$> cp_stage_scenario s) = co_total_tx_count o /\
    sumZ (ss_total_error_count <$> cp_stage_scenario s) = co_total_error_count o /\
    (forall t, t ∈ cp_stage_scenario s ->
      let of_t := filter (fun run => run_key run = (ss_stage_name t, ss_scenario_name t)) runs in
      of_t <> [] /\
      ss_total_tx_count t = sumZ ((fun run => rc_tx (count run)) <$> of_t) /\
      ss_total_error_count t = sumZ ((fun run => rc_errors (count run)) <$> of_t) /\
      total_at (cp_totals_by_stage s) (ss_stage_name t, ss_scenario_name t) = ss_total_tx_count t) /\
    cp_logs_incomplete s = existsb (fun run => negb (rc_complete (count run))) runs.
Proof.
  destruct campaign_run_loop as (st & Hst & H1 & H2 & H3 & H4).
  assert (forall run, run ∈ runs -> is_Some (ct_stages st !! run_key run)) as Hin.
  { intros run Hr. eexists. apply (stage_entry st); [done|]. split; [by exists run|done]. }
  destruct (fold_counts runs ltac:(done) Hfits) as [Htx Herr].
  assert (forall k acc, ct_stages st !! k = Some acc ->
    ac_total_tx acc = sumZ ((fun run => rc_tx (count run)) <$> filter (fun run => run_key run = k) runs) /\
    ac_total_errors acc = sumZ ((fun run => rc_errors (count run)) <$> filter (fun run => run_key run = k) runs))
    as Hgroup.
  { intros k acc [_ ->]%(stage_entry st); [apply group_total|done]. }
  destruct (run_report_shape st Hst) as (s & Hs & Ho & Hbt & Hg & Hi).
  exists s, (into_overall millis_to_rfc3339 (ct_overall st)). split; [done|]. split; [done|].
  cbn [co_total_tx_count co_total_error_count into_overall].
  rewrite Hbt, Hg, Hi, H1, Htx, Herr. split_and!; try done.
  - apply stage_sums; [|done]. intros k acc Hk. apply Hgroup, Hk.
  - apply stage_sums; [|done]. intros k acc Hk. apply Hgroup, Hk.
  - intros t ([[a b] acc] & -> & Ht)%list_elem_of_fmap. cbn [ss_stage_name ss_scenario_name ss_total_tx_count ss_total_error_count into_summary].
    rewrite in_key_order_spec in Ht. apply elem_of_map_to_list in Ht.
    destruct (Hgroup _ _ Ht) as [E1 E2].
    rewrite H3, E1, E2. split_and!; try done.
    apply (stage_entry st) in Ht as [(run & Hr & Hk) _]; [|done]. intros Hnil.
    apply (not_elem_of_nil run). rewrite <- Hnil. by apply list_elem_of_filter.
Qed.

(** A campaign lasts from the earliest start of its runs to the latest end. *)
Theorem campaign_span :
  exists s o a b,
    report_campaign node scenario_file_name millis_to_rfc3339 cache db campaign_id params = Ok s /\
    cp_overall s = Some o /\
    co_campaign_start_time o = Some (millis_to_rfc3339 (as_i64 a)) /\
    co_campaign_end_time o = Some (millis_to_rfc3339 (as_i64 b)) /\
    co_campaign_duration_secs o = (if a <? b then wrap 64 ((b - a) / 1000) else 0) /\
    (exists run, run ∈ runs /\ rc_start (count run) = Some a) /\
    (exists run, run ∈ runs /\ rc_end (count run) = Some b) /\
    (forall run x, run ∈ runs -> rc_start (count run) = Some x -> a <= x) /\
    (forall run x, run ∈ runs -> rc_end (count run) = Some x -> x <= b).
Proof.
  destruct campaign_run_loop as (st & Hst & H1 & _).
  assert (forall g : RunCount -> option Z, (forall run, run ∈ runs -> is_Some (g (count run))) ->
    Forall (fun c => is_Some (g c)) (count <$> runs)) as Hall.
  { intros g Hg. apply Forall_fmap, Forall_forall, Hg. }
  destruct (fold_extreme ac_start_ms rc_start Z.min Z.le (count <$> runs) accumulator_default)
    as (a & Ha & [|(ca & (ra & -> & Hra)%list_elem_of_fmap & Hca)] & _ & Hlo); try done.
  { intros acc c x Hx. cbn. by rewrite Hx. }
  { lia. }
  { apply Hall. intros run (_ & x & y & -> & _)%run_counts. done. }
  { right. by intros ?%fmap_nil_inv. }
  destruct (fold_extreme ac_end_ms rc_end Z.max Z.ge (count <$> runs) accumulator_default)
    as (b & Hb & [|(cb & (rb & -> & Hrb)%list_elem_of_fmap & Hcb)] & _ & Hhi); try done.
  { intros acc c x Hx. cbn. by rewrite Hx. }
  { lia. }
  { apply Hall. intros run (_ & x & y & _ & ->)%run_counts. done. }
  { right. by intros ?%fmap_nil_inv. }
  rewrite <- H1 in Ha, Hb. destruct (run_report_shape st Hst) as (s & Hs & Ho & _).
  exists s, (into_overall millis_to_rfc3339 (ct_overall st)), a, b. split; [done|]. split; [done|].
  cbn [co_campaign_start_time co_campaign_end_time co_campaign_duration_secs into_overall].
  rewrite Ha, Hb. split_and!; try done.
  - by exists ra.
  - by exists rb.
  - intros run x Hr Hx. apply (Hlo (count run)); [|done]. by apply list_elem_of_fmap_2.
  - intros run x Hr Hx. apply Z.ge_le, (Hhi (count run)); [|done]. by apply list_elem_of_fmap_2.
Qed.
End campaign_theorems.

(** ** A campaign of three runs *)

Module CampaignReportWitness.
Import BlockTraceWitness.

(** A database that holds just runs and their transactions. *)
Record RunsDb := { rd_runs : list SpamRun; rd_txs : list (list RunTx) }.
#[export] Instance runs_ops : DbOps RunsDb := {|
  create_tables d := Ok d;
  get_latency_metrics d _ _ := Ok [];
  get_named_tx d _ _ _ := Ok None;
  get_named_tx_by_address d _ := Ok None;
  get_run d id := Ok (rd_runs d !! (Z.to_nat id - 1)%nat);
  get_runs_by_campaign d id := Ok (rd_runs d);
  get_run_txs d id := Ok (default [] (rd_txs d !! (Z.to_nat id - 1)%nat));
  latest_campaign_id d := Ok None;
  insert_named_txs d _ _ _ := Ok d;
  insert_run d _ := Ok (0, d);
  insert_run_txs d _ _ := Ok d;
  insert_latency_metrics d _ _ := Ok d;
  num_runs d := Ok (Z.of_nat (length (rd_runs d)));
  get_rpc_url_for_scenario d _ := Ok None;
  version d := 6;
  num_replay_reports d := Ok 0;
  insert_replay_report d req := Ok (ReplayReport_new 0 req, d);
  get_replay_report d id := Ok (ReplayReport_new id ReplayReportRequest_new);
  get_rpc_url_id d _ _ := Ok (0, d);
|}.
#[export] Instance display : F64Display := fun _ => "?"%string.

Definition run (id : Z) (stage : string) (tx_count : Z) : SpamRun :=
  {| sr_id := id; sr_timestamp := 1000 * id; sr_tx_count := tx_count; sr_scenario_name := "transfers";
     sr_campaign_id := Some "c"%string; sr_campaign_name := Some "load"%string; sr_stage_name := Some stage;
     sr_rpc_url := "http://node"; sr_txs_per_duration := 2; sr_duration := Seconds 2; sr_timeout := 30 |}.
Definition the_runs : list SpamRun := [run 1 "warmup" 2; run 2 "load" 2; run 3 "load" 3].
Definition the_db : RunsDb :=
  {| rd_runs := the_runs;
     rd_txs := [[landed 1 4 None; landed 2 5 None]; [landed 3 6 None; landed 4 8 (Some "reverted"%string)];
                [landed 5 9 None]] |}.
Definition the_logs (r : SpamRun) : list RunTx :=
  default [] (rd_txs the_db !! (Z.to_nat (sr_id r) - 1)%nat).
Definition the_params : ReportParams := with_skip_tx_traces default_report_params true.

Ltac each_run := repeat constructor; vm_compute; (reflexivity || lia || discriminate).

(** The third run's log holds one of its three transactions. *)
Lemma campaign_totals_witness :
  exists s o, report_campaign chain id dec None the_db "c" the_params = Ok s /\ cp_overall s = Some o /\
    co_total_tx_count o = 7 /\ co_total_error_count o = 1 /\ cp_logs_incomplete s = true.
Proof.
  destruct (campaign_totals chain id dec None the_db "c" the_params the_runs the_logs)
    as (s & o & Hs & Ho & Htx & Herr & _ & _ & _ & Hinc); [reflexivity|discriminate|each_run|each_run|each_run|vm_compute; reflexivity|].
  exists s, o. split; [exact Hs|]. split; [exact Ho|]. rewrite Htx, Herr, Hinc.
  split_and!; vm_compute; reflexivity.
Defined.

Lemma campaign_span_witness :
  exists s o, report_campaign chain id dec None the_db "c" the_params = Ok s /\ cp_overall s = Some o /\
    exists a, co_campaign_start_time o = Some (dec (as_i64 a)) /\ a <= 4000.
Proof.
  destruct (campaign_span chain id dec None the_db "c" the_params the_runs the_logs)
    as (s & o & a & b & Hs & Ho & Ha & _ & _ & _ & _ & Hlo & _); [reflexivity|discriminate|each_run|each_run|each_run|vm_compute; reflexivity|].
  exists s, o. split; [exact Hs|]. split; [exact Ho|]. exists a. split; [exact Ha|].
  apply (Hlo (run 1 "warmup" 2)); [left|reflexivity].
Defined.

(** The blocks are asked for concurrently; a page calls the first to answer its
    start block and the last its end block. *)
Example start_block_after_end_block :
  match report chain id the_db default_report_params None with
  | Ok (Some m) => rm_end_block m < rm_start_block m
  | _ => False
  end.
Proof. vm_compute. reflexivity. Qed.

(** Asking for more preceding runs than there are panics. *)
Example preceding_underflow :
  report chain id the_db (with_preceding_runs default_report_params 5) None = Panic.
Proof. reflexivity. Qed.
End CampaignReportWitness.
