(* ===== verification/Orchestrator.v ===== *)
(** * The orchestrator ([core/src/orchestrator.rs], [TestScenario::new],
      [estimate_setup_cost], [prepare_for_run], [shutdown] of
      [core/src/test_scenario.rs])

    A [ContenderCtx] gathers what a run needs; [initialize] makes a scenario of
    it, simulates the setup on a local node to learn its cost, funds the
    agents, deploys and sets up; [spam] runs a spammer on the scenario and
    leaves it ready for another run.  What the outside answers is in one record
    per operation ([NewNode], [SimEnv], [InitEnv], [RunEnv]).  A result [None]
    is a wait that has not ended. *)

From Stdlib Require Import Strings.Byte Strings.String.
From S2P Require Import Prelude Text Seeder Alloy Agents F64 Db GenTypes GenUtil CoreError Templater TestFile Generator TxActor Scenario Spam SpamRun.

(** ** The options of a run *)

Record RunOpts := {
  ro_txs_per_period : Z;
  ro_periods : Z;
  ro_name : string;
  ro_report_interval_secs : option Z;
  ro_fund_interval_secs : option Z;
}.
Definition RunOpts_new : RunOpts := {|
  ro_txs_per_period := 10; ro_periods := 1; ro_name := "Unknown";
  ro_report_interval_secs := None; ro_fund_interval_secs := None |}.
Definition opts_txs_per_period (n : Z) (o : RunOpts) : RunOpts := {|
  ro_txs_per_period := n; ro_periods := ro_periods o; ro_name := ro_name o;
  ro_report_interval_secs := ro_report_interval_secs o;
  ro_fund_interval_secs := ro_fund_interval_secs o |}.
Definition opts_periods (n : Z) (o : RunOpts) : RunOpts := {|
  ro_txs_per_period := ro_txs_per_period o; ro_periods := n; ro_name := ro_name o;
  ro_report_interval_secs := ro_report_interval_secs o;
  ro_fund_interval_secs := ro_fund_interval_secs o |}.
Definition opts_name (n : string) (o : RunOpts) : RunOpts := {|
  ro_txs_per_period := ro_txs_per_period o; ro_periods := ro_periods o; ro_name := n;
  ro_report_interval_secs := ro_report_interval_secs o;
  ro_fund_interval_secs := ro_fund_interval_secs o |}.
Definition opts_report_interval_secs (n : Z) (o : RunOpts) : RunOpts := {|
  ro_txs_per_period := ro_txs_per_period o; ro_periods := ro_periods o; ro_name := ro_name o;
  ro_report_interval_secs := Some n; ro_fund_interval_secs := ro_fund_interval_secs o |}.
Definition opts_fund_interval_secs (n : Z) (o : RunOpts) : RunOpts := {|
  ro_txs_per_period := ro_txs_per_period o; ro_periods := ro_periods o; ro_name := ro_name o;
  ro_report_interval_secs := ro_report_interval_secs o; ro_fund_interval_secs := Some n |}.

(** [now] is the time since the epoch in milliseconds, [None] for a clock set
    before it; the pending timeout is in seconds. *)
Definition create_spam_run_request {P : Profile} {E} (opts : RunOpts) (now : option Z)
    (rpc_url : string) (pending_timeout : Z) (spam_duration : SpamDuration)
  : outcome E SpamRunRequest :=
  millis ← unwrap now;
  tx_count ← arith 64 (ro_periods opts * ro_txs_per_period opts);
  mret {| rr_timestamp := wrap 64 millis; rr_tx_count := tx_count;
          rr_scenario_name := ro_name opts; rr_campaign_id := None; rr_campaign_name := None;
          rr_stage_name := None; rr_rpc_url := rpc_url;
          rr_txs_per_duration := ro_txs_per_period opts; rr_duration := spam_duration;
          rr_pending_timeout_secs := pending_timeout |}.

(** ** Cancellation tokens and actors' handles *)

(** A token of the scenario: cancelled itself, and whether it is a child of the
    context's token, which then cancels it too. *)
Record Token := { tk_cancelled : bool; tk_child : bool }.
Definition child_token : Token := {| tk_cancelled := false; tk_child := true |}.
Definition CancellationToken_new : Token := {| tk_cancelled := false; tk_child := false |}.
Definition cancel (t : Token) : Token := {| tk_cancelled := true; tk_child := tk_child t |}.
Definition is_cancelled (ctx_cancelled : bool) (t : Token) : bool :=
  tk_cancelled t || (tk_child t && ctx_cancelled).

(** A handle: whether its actor still receives, the context it was last given,
    and how many flush loops it was started with. *)
Record Handle := { hd_alive : bool; hd_ctx : option ActorContext; hd_flushes : nat }.
Definition Handle_new : Handle := {| hd_alive := true; hd_ctx := None; hd_flushes := 1 |}.

Definition handle_restart_flush (h : Handle) : outcome Error Handle :=
  if hd_alive h
  then Ok {| hd_alive := true; hd_ctx := hd_ctx h; hd_flushes := S (hd_flushes h) |}
  else Err (Callback "channel closed").
Definition handle_init_ctx (ctx : ActorContext) (h : Handle) : outcome Error Handle :=
  if hd_alive h
  then Ok {| hd_alive := true; hd_ctx := Some ctx; hd_flushes := hd_flushes h |}
  else Err (Callback "channel closed").
Definition handle_stopped (h : Handle) : Handle :=
  {| hd_alive := false; hd_ctx := hd_ctx h; hd_flushes := hd_flushes h |}.

(** [for handle in handles.values() { f(handle)?; }]: the first failure leaves
    the handles after it as they were. *)
Fixpoint each_handle (f : Handle -> outcome Error Handle) (l : list (string * Handle))
    (m : gmap string Handle) : gmap string Handle * outcome Error unit :=
  match l with
  | [] => (m, Ok tt)
  | (name, h) :: l =>
      match f h with
      | Ok h => each_handle f l (<[name := h]> m)
      | Err e => (m, Err e)
      | Panic => (m, Panic)
      end
  end.

(** ** The scenario *)

Section orchestrator.
Context `{A : Alloy, Sg : !Signing} {P : Profile}.
Context {C : Type} `{PC : PlanConfig C, TS : TemplateSyntax C}.
Context {D : Type} `{DO : DbOps D}.
Context {Sd : Type} `{SV : SeedValue Sd, SD : Seeder Sd, SG : !SeedGenerator Sd}.
(** alloy's [format_ether], and the proofs of the fuzzer *)
Variables (format_ether : Z -> string) (groth16_proof : nat -> string).

Record TestScenarioParams := {
  tp_rpc_url : string;
  tp_builder_rpc_url : option string;
  tp_txs_rpc_url : option string;
  tp_signers : list Signer;
  tp_agent_spec : AgentSpec;
  tp_tx_type : TxType;
  tp_pending_tx_timeout : Z;
  tp_bundle_type : BundleType;
  tp_extra_msg_handles : option (gmap string Handle);
  tp_sync_nonces_after_batch : bool;
  tp_rpc_batch_size : Z;
  tp_gas_price : option Z;
  tp_scenario_label : option string;
  tp_send_raw_tx_sync : bool;
  tp_flashblocks_ws_url : option string;
}.

(** The whole scenario; [ts_core] are the fields of [Scenario]. *)
Record TestScenario := {
  ts_core : Scenario;
  ts_config : C;
  ts_rand_seed : Sd;
  ts_rpc_url : string;
  ts_builder_rpc_url : option string;
  ts_txs_rpc_url : string;
  ts_agent_store : AgentStore;
  ts_agent_spec : AgentSpec;
  ts_msg_handles : gmap string Handle;
  ts_bundle_type : BundleType;
  ts_pending_tx_timeout : Z;
  ts_block_time_secs : Z;
  ts_cancel_token : Token;
  ts_genesis_hash : TxHash;
  ts_scenario_label : option string;
}.

Definition set_core (v : Scenario) (s : TestScenario) : TestScenario := {|
  ts_core := v; ts_config := ts_config s; ts_rand_seed := ts_rand_seed s;
  ts_rpc_url := ts_rpc_url s; ts_builder_rpc_url := ts_builder_rpc_url s;
  ts_txs_rpc_url := ts_txs_rpc_url s; ts_agent_store := ts_agent_store s;
  ts_agent_spec := ts_agent_spec s; ts_msg_handles := ts_msg_handles s;
  ts_bundle_type := ts_bundle_type s; ts_pending_tx_timeout := ts_pending_tx_timeout s;
  ts_block_time_secs := ts_block_time_secs s; ts_cancel_token := ts_cancel_token s;
  ts_genesis_hash := ts_genesis_hash s; ts_scenario_label := ts_scenario_label s |}.
Definition set_running (handles : gmap string Handle) (token : Token) (s : TestScenario)
  : TestScenario := {|
  ts_core := ts_core s; ts_config := ts_config s; ts_rand_seed := ts_rand_seed s;
  ts_rpc_url := ts_rpc_url s; ts_builder_rpc_url := ts_builder_rpc_url s;
  ts_txs_rpc_url := ts_txs_rpc_url s; ts_agent_store := ts_agent_store s;
  ts_agent_spec := ts_agent_spec s; ts_msg_handles := handles;
  ts_bundle_type := ts_bundle_type s; ts_pending_tx_timeout := ts_pending_tx_timeout s;
  ts_block_time_secs := ts_block_time_secs s; ts_cancel_token := token;
  ts_genesis_hash := ts_genesis_hash s; ts_scenario_label := ts_scenario_label s |}.

(** What the node answers while a scenario is made: the genesis block's hash,
    the requests of [RpcNode], the builder's chain id, the check of a
    flashblocks endpoint, the latest block and the timestamps of blocks. *)
Record NewNode := {
  nn_genesis : outcome Error (option TxHash);
  nn_rpc : RpcNode;
  nn_builder_chain_id : outcome Error Z;
  nn_preflight : string -> outcome string unit;
  nn_block_number : outcome Error Z;
  nn_block : Z -> outcome Error (option Z);
}.

(** [AgentPools::build_agent_store] of a plan. *)
Definition config_agent_store (config : C) (seed : Sd) (spec : AgentSpec)
  : outcome Error AgentStore :=
  spam_pools ← get_spam_pools config;
  build_agent_store (get_create_pools config) (get_setup_pools config) spam_pools seed spec.

(** The user's signers first, then those of the agents. *)
Definition add_wallet (m : gmap Address Signer) (s : Signer) : gmap Address Signer :=
  <[signer_address s := s]> m.
Definition wallets (signers : list Signer) (st : AgentStore) : gmap Address Signer :=
  fold_left add_wallet (all_signers st) (fold_left add_wallet signers ∅).

(** [TestScenario::new]. *)
Definition TestScenario_new (config : C) (rand_seed : Sd) (params : TestScenarioParams)
    (node : NewNode) : outcome Error TestScenario :=
  agent_store ← config_agent_store config rand_seed (tp_agent_spec params);
  '(setcode_signer, _) ← generate_setcode_signer rand_seed;
  genesis_block ← nn_genesis node;
  genesis_hash ← ok_or (Runtime GenesisBlockMissing) genesis_block;
  let signer_map := wallets (tp_signers params) agent_store in
  let nonces := sync_nonces_map signer_map ∅ (nn_rpc node) (signer_address setcode_signer) in
  chain_id ← rpc_chain_id (nn_rpc node);
  chain_id_builder ← match tp_builder_rpc_url params with
                     | Some _ => nn_builder_chain_id node
                     | None => mret chain_id
                     end;
  ensure (chain_id =? chain_id_builder) (Runtime (ChainIdMismatch chain_id chain_id_builder));;
  match tp_flashblocks_ws_url params with
  | Some ws_url => map_err error_of_flashblocks (nn_preflight node ws_url)
  | None => mret tt
  end;;
  let msg_handles := default ∅ (tp_extra_msg_handles params) ∪ {[ "default"%string := Handle_new ]} in
  block_time_secs ← get_block_time (nn_block_number node) (nn_block node);
  mret {|
    ts_core := {|
      sn_signer_map := signer_map; sn_nonces := nonces; sn_chain_id := chain_id;
      sn_gas_limits := ∅; sn_tx_type := tp_tx_type params; sn_gas_price_adder := 0;
      sn_setcode_signer := setcode_signer;
      sn_should_sync_nonces := tp_sync_nonces_after_batch params;
      sn_rpc_batch_size := tp_rpc_batch_size params; sn_num_rpc_batches_sent := 0;
      sn_gas_price := tp_gas_price params; sn_send_raw_tx_sync := tp_send_raw_tx_sync params;
      sn_bundle_client := match tp_builder_rpc_url params with Some _ => true | None => false end;
      sn_last_fetched_gas_price := None; sn_last_fetched_blob_gas_price := None |};
    ts_config := config; ts_rand_seed := rand_seed; ts_rpc_url := tp_rpc_url params;
    ts_builder_rpc_url := tp_builder_rpc_url params;
    ts_txs_rpc_url := default (tp_rpc_url params) (tp_txs_rpc_url params);
    ts_agent_store := agent_store; ts_agent_spec := tp_agent_spec params;
    ts_msg_handles := msg_handles; ts_bundle_type := tp_bundle_type params;
    ts_pending_tx_timeout := tp_pending_tx_timeout params; ts_block_time_secs := block_time_secs;
    ts_cancel_token := child_token; ts_genesis_hash := genesis_hash;
    ts_scenario_label := tp_scenario_label params |}.

(** Nothing to do while the token is fresh. *)
Definition prepare_for_run (ctx_cancelled : bool) : stm TestScenario Error unit := fun s =>
  if is_cancelled ctx_cancelled (ts_cancel_token s) then
    let '(handles, r) := each_handle handle_restart_flush (map_to_list (ts_msg_handles s))
                           (ts_msg_handles s) in
    (set_running handles CancellationToken_new s, r)
  else (s, Ok tt).

Definition shutdown (s : TestScenario) : TestScenario :=
  set_running (handle_stopped <$> ts_msg_handles s) (cancel (ts_cancel_token s)) s.
Definition is_shutdown (ctx_cancelled : bool) (s : TestScenario) : bool :=
  is_cancelled ctx_cancelled (ts_cancel_token s).

(** ** Simulating the setup *)

(** The polls of the local node, each with the milliseconds since the start. *)
Fixpoint wait_for_anvil_ready (timeout_ms : Z) (polls : list (Z * outcome unit unit))
  : option (outcome Error unit) :=
  match polls with
  | [] => None
  | (elapsed, r) :: polls =>
      if timeout_ms <? elapsed then Some (Err (Runtime (AnvilTimeout (timeout_ms / 1000))))
      else match r with Ok _ => Some (Ok tt) | _ => wait_for_anvil_ready timeout_ms polls end
  end.

(** [PrivateKeySigner::from_str]. *)
Definition signer_from_str (key : string) : option Signer :=
  bs ← bytes_from_hex key;
  if (length bs =? 32)%nat then signer_from_bytes bs else None.

Definition DEFAULT_PRV_KEYS : list string :=
  ["0xac0974bec39a17e36ba4a6b4d238ff944bacb478cbed5efcae784d7bf4f2ff80";
   "0x59c6995e998f97a5a0044966f0945389dc9e86dae88c7a8412f4603b6b78690d";
   "0x5de4111afa1a4b94908f83103eb1f1706367c2e68ca870fc3fb9a804cdab365a";
   "0x7c852118294e51e653712a81e05800f419141751be58f605c371e15141b007a6";
   "0x47e179ec197488593b187f80a00eb0da91f1b9d0b13f8733639f19c30a34926a";
   "0x8b3a350cf5c34c9194ca85829a2df0ec3153be0318b5e2d3348e872092edffba";
   "0x92db14e403b83dfe3df233f83dfa3a0d7096f21ca9b0d6d6b8d88b2b4ec1564e";
   "0x4bbbf85ce3377467afe5d46f804f221813b2bb87f24d81f60f1fcdbf7cbf4356";
   "0xdbda1821b80551c9d65939329250298aa3472ba22feea921c0cf5d620ea67b97";
   "0x2a871d0798f97d79848a013d4936a73bf4cc922c825d33c1cf7073dff6d409c6"]%string.
Definition default_signers {E} : outcome E (list Signer) :=
  mapM (fun k => unwrap (signer_from_str k)) DEFAULT_PRV_KEYS.
Definition ADMIN_KEY : string :=
  "0xac0974bec39a17e36ba4a6b4d238ff944bacb478cbed5efcae784d7bf4f2ff80".

(** Every agent's signers, one agent after the other; the node is asked anew
    for each. *)
Fixpoint fund_agents (prov : nat -> FundProvider (E := Error) Envelope) (i : nat)
    (agents : list (string * SignerStore)) (funder : outcome Error Signer) (amount : Z)
  : outcome Error unit :=
  match agents with
  | [] => mret tt
  | (_, agent) :: agents =>
      signer ← funder;
      fund_signers (prov i) agent signer amount;;
      fund_agents prov (S i) agents funder amount
  end.

(** What happens while the setup is simulated: the target's gas price, the
    spawned node or the text of its error, its polls, what it answers, and
    whether the scenario's token is cancelled before the setup is over. *)
Record SimEnv := {
  sv_gas_price : outcome Error Z;
  sv_anvil : outcome string string;
  sv_polls : list (Z * outcome unit unit);
  sv_new : NewNode;
  sv_balance_before : Address -> outcome Error Z;
  sv_fund : nat -> FundProvider (E := Error) Envelope;
  sv_deploy : RpcNode * TaskRpc;
  sv_sync : RpcNode;
  sv_setup : RpcNode * TaskRpc;
  sv_cancelled : bool;
  sv_balance_after : Address -> outcome Error Z;
}.

(** The parameters of the simulated scenario. *)
Definition sim_params (s : TestScenario) (endpoint : string) (signers : list Signer)
  : TestScenarioParams := {|
  tp_rpc_url := endpoint; tp_builder_rpc_url := None; tp_txs_rpc_url := None;
  tp_signers := signers; tp_agent_spec := ts_agent_spec s;
  tp_tx_type := sn_tx_type (ts_core s); tp_pending_tx_timeout := ts_pending_tx_timeout s;
  tp_bundle_type := ts_bundle_type s; tp_extra_msg_handles := None;
  tp_sync_nonces_after_batch := sn_should_sync_nonces (ts_core s);
  tp_rpc_batch_size := sn_rpc_batch_size (ts_core s); tp_gas_price := sn_gas_price (ts_core s);
  tp_scenario_label := ts_scenario_label s;
  tp_send_raw_tx_sync := sn_send_raw_tx_sync (ts_core s); tp_flashblocks_ws_url := None |}.

(** Without agents (the senders are overridden) the scenario's own signers join. *)
Definition simulation_signers (s : TestScenario) (admin : Signer) : list Signer :=
  match all_agents (ts_agent_store s) with
  | [] => admin :: (map_to_list (sn_signer_map (ts_core s))).*2
  | _ => [admin]
  end.

Definition GWEI_TO_WEI : Z := 10 ^ 9.

(** The price given to the local node. *)
Definition sim_gas_price (s : TestScenario) (env : SimEnv) : outcome Error Z :=
  gas_price ← match sn_gas_price (ts_core s) with
              | Some gas_price => unwrap (checked 128 gas_price)
              | None => sv_gas_price env
              end;
  arith 128 (gas_price + GWEI_TO_WEI * 5).

(** [deploy_contracts], [run_setup] of a whole scenario. *)
Definition deploy_all (s : TestScenario) (rpc : RpcNode) (node : TaskRpc) (db : D)
  : stm Scenario Error D :=
  deploy_contracts (ts_config s) (ts_rand_seed s) (ts_agent_store s) (ts_rpc_url s)
    (ts_genesis_hash s) (ts_scenario_label s) groth16_proof rpc node db.
Definition setup_all (s : TestScenario) (rpc : RpcNode) (node : TaskRpc) (db : D)
  : stm Scenario Error D :=
  run_setup (ts_config s) (ts_rand_seed s) (ts_agent_store s) (ts_rpc_url s)
    (ts_genesis_hash s) (ts_scenario_label s) groth16_proof rpc node db.

(** The balances before funding, each with the amount it is about to get. *)
Fixpoint start_balances (balance : Address -> outcome Error Z) (fund_amount : Z)
    (addresses : list Address) (m : gmap Address Z) : outcome Error (gmap Address Z) :=
  match addresses with
  | [] => mret m
  | addr :: addresses =>
      bal ← balance addr;
      start_balances balance fund_amount addresses (<[addr := wrap 256 (bal + fund_amount)]> m)
  end.

(** After the local node is ready: the cost, and the database, which the
    simulation shares with the scenario. *)
Definition simulate (s : TestScenario) (db : D) (env : SimEnv) (endpoint : string)
  : outcome Error (Z * D) :=
  admin_signer ← unwrap (signer_from_str ADMIN_KEY);
  scenario ← TestScenario_new (ts_config s) (ts_rand_seed s)
               (sim_params s endpoint (simulation_signers s admin_signer)) (sv_new env);
  let addresses := all_signer_addresses (ts_agent_store scenario) in
  let fund_amount := sim_fund_amount (Z.of_nat (length addresses)) in
  balances ← start_balances (sv_balance_before env) fund_amount addresses ∅;
  fund_agents (sv_fund env) 0 (all_agents (ts_agent_store scenario)) (Ok admin_signer) fund_amount;;
  ensure (negb (sv_cancelled env)) (Runtime InitializationCancelled);;
  db ← snd ((db ← deploy_all scenario (sv_deploy env).1 (sv_deploy env).2 db;
             sync_nonces (sv_sync env);;
             setup_all scenario (sv_setup env).1 (sv_setup env).2 db) (ts_core scenario));
  cost ← setup_cost balances (sv_balance_after env);
  mret (cost, db).

Definition ANVIL_TIMEOUT_MS : Z := 30000.

Definition estimate_setup_cost (s : TestScenario) (db : D) (env : SimEnv)
  : option (outcome Error (Z * D)) :=
  match (sim_gas_price s env;; map_err error_of_node (sv_anvil env)) with
  | Ok endpoint =>
      ready ← wait_for_anvil_ready ANVIL_TIMEOUT_MS (sv_polls env);
      Some (ready;; simulate s db env endpoint)
  | Err e => Some (Err e)
  | Panic => Some Panic
  end.

(** ** The context and its builder *)

(** The fields of [ContenderCtxBuilder], which [build] copies. (The Prometheus
    collector is left out; an authenticated provider is how it advances the
    chain.) *)
Record ContenderCtxBuilder := {
  cb_config : C;
  cb_db : D;
  cb_seeder : Sd;
  cb_rpc_url : string;
  cb_builder_rpc_url : option string;
  cb_agent_spec : AgentSpec;
  cb_user_signers : list Signer;
  cb_tx_type : TxType;
  cb_bundle_type : BundleType;
  cb_pending_tx_timeout : Z;
  cb_extra_msg_handles : option (gmap string Handle);
  cb_auth_provider : option (nat -> outcome string unit);
  cb_funding : Z;
  cb_sync_nonces_after_batch : bool;
  cb_rpc_batch_size : Z;
  cb_scenario_label : option string;
  cb_send_raw_tx_sync : bool;
  cb_txs_rpc_url : option string;
}.

Record ContenderCtx := { cx : ContenderCtxBuilder; cx_cancelled : bool }.

Definition SMOL_AMOUNT : Z := ETH_TO_WEI / 100.

(** The URL is given parsed: [None] when it does not parse. *)
Definition builder {E} (config : C) (db : D) (seeder : Sd) (rpc_url : option string)
  : outcome E ContenderCtxBuilder :=
  url ← unwrap rpc_url;
  signers ← default_signers;
  mret {| cb_config := config; cb_db := db; cb_seeder := seeder; cb_rpc_url := url;
    cb_builder_rpc_url := None; cb_agent_spec := default_agent_spec; cb_user_signers := signers;
    cb_tx_type := Eip1559; cb_bundle_type := L1; cb_pending_tx_timeout := 12;
    cb_extra_msg_handles := None; cb_auth_provider := None; cb_funding := SMOL_AMOUNT;
    cb_sync_nonces_after_batch := false; cb_rpc_batch_size := 0; cb_scenario_label := None;
    cb_send_raw_tx_sync := false; cb_txs_rpc_url := None |}.

(** On the mock database; an error of the plan counts as no steps. *)
Definition builder_simple_ok (config : C) : bool :=
  (length (match get_create_steps config with Ok l => l | _ => [] end) =? 0)%nat &&
  (length (match get_setup_steps config with Ok l => l | _ => [] end) =? 0)%nat.

(** The tables may exist already: the error is ignored. *)
Definition build {E} (b : ContenderCtxBuilder) : outcome E ContenderCtx :=
  db ← match create_tables (cb_db b) with
       | Ok db => mret db
       | Err _ => mret (cb_db b)
       | Panic => Panic
       end;
  mret {| cx := {| cb_config := cb_config b; cb_db := db; cb_seeder := cb_seeder b;
    cb_rpc_url := cb_rpc_url b; cb_builder_rpc_url := cb_builder_rpc_url b;
    cb_agent_spec := cb_agent_spec b; cb_user_signers := cb_user_signers b;
    cb_tx_type := cb_tx_type b; cb_bundle_type := cb_bundle_type b;
    cb_pending_tx_timeout := cb_pending_tx_timeout b;
    cb_extra_msg_handles := cb_extra_msg_handles b; cb_auth_provider := cb_auth_provider b;
    cb_funding := cb_funding b; cb_sync_nonces_after_batch := cb_sync_nonces_after_batch b;
    cb_rpc_batch_size := cb_rpc_batch_size b; cb_scenario_label := cb_scenario_label b;
    cb_send_raw_tx_sync := cb_send_raw_tx_sync b; cb_txs_rpc_url := cb_txs_rpc_url b |};
    cx_cancelled := false |}.

(** The parameters [build_scenario] makes of the context: no gas price and no
    flashblocks endpoint. *)
Definition scenario_params (b : ContenderCtxBuilder) : TestScenarioParams := {|
  tp_rpc_url := cb_rpc_url b; tp_builder_rpc_url := cb_builder_rpc_url b;
  tp_txs_rpc_url := cb_txs_rpc_url b; tp_signers := cb_user_signers b;
  tp_agent_spec := cb_agent_spec b; tp_tx_type := cb_tx_type b;
  tp_pending_tx_timeout := cb_pending_tx_timeout b; tp_bundle_type := cb_bundle_type b;
  tp_extra_msg_handles := cb_extra_msg_handles b;
  tp_sync_nonces_after_batch := cb_sync_nonces_after_batch b;
  tp_rpc_batch_size := cb_rpc_batch_size b; tp_gas_price := None;
  tp_scenario_label := cb_scenario_label b; tp_send_raw_tx_sync := cb_send_raw_tx_sync b;
  tp_flashblocks_ws_url := None |}.
Definition build_scenario (c : ContenderCtx) (node : NewNode) : outcome Error TestScenario :=
  TestScenario_new (cb_config (cx c)) (cb_seeder (cx c)) (scenario_params (cx c)) node.

Definition funder (c : ContenderCtx) : option Signer := head (cb_user_signers (cx c)).
Definition min_balance (c : ContenderCtx) : Z := cb_funding (cx c).

(** ** Initialization *)

(** The node while the scenario is made, the simulation, the funding of the
    agents, deployment and setup, and whether the context's token is cancelled
    before they are over. *)
Record InitEnv := {
  iv_new : NewNode;
  iv_sim : SimEnv;
  iv_fund : nat -> FundProvider (E := Error) Envelope;
  iv_deploy : RpcNode * TaskRpc;
  iv_setup : RpcNode * TaskRpc;
  iv_cancelled : bool;
}.

Definition insufficient_funding (funding setup_cost : Z) : Error :=
  Runtime (InvalidParams (InvalidArgs
    ("configured funding (" +:+ format_ether funding +:+
     ") is insufficient for estimated setup cost (" +:+ format_ether setup_cost +:+
     "). Increase --min-balance or funding amount.")%string)).

(** After the estimate. *)
Definition initialize_funded (c : ContenderCtx) (s : TestScenario) (env : InitEnv)
    (estimate : Z * D) : outcome Error (TestScenario * D) :=
  let '(setup_cost, db) := estimate in
  let funding := cb_funding (cx c) in
  ensure (setup_cost <=? funding) (insufficient_funding funding setup_cost);;
  fund_agents (iv_fund env) 0 (all_agents (ts_agent_store s)) (unwrap (funder c)) funding;;
  match (db ← deploy_all s (iv_deploy env).1 (iv_deploy env).2 db;
         setup_all s (iv_setup env).1 (iv_setup env).2 db) (ts_core s) with
  | (core, Ok db) => Ok (set_core core s, db)
  | (_, Err e) => Err e
  | (_, Panic) => Panic
  end.

Definition initialize_inner (c : ContenderCtx) (s : TestScenario) (env : InitEnv)
  : option (outcome Error (TestScenario * D)) :=
  r ← estimate_setup_cost s (cb_db (cx c)) (iv_sim env);
  Some (r ≫= initialize_funded c s env).

(** Cancelled, the scenario is shut down and dropped. *)
Definition initialize (c : ContenderCtx) (env : InitEnv)
  : option (outcome Error (TestScenario * D)) :=
  match build_scenario c (iv_new env) with
  | Ok s =>
      if iv_cancelled env then Some (Err (Runtime InitializationCancelled))
      else initialize_inner c s env
  | Err e => Some (Err e)
  | Panic => Some Panic
  end.

(** ** Spamming *)

(** A type that implements the trait [Spammer], with its callback: [None] for a
    run that does not end. *)
Record SpammerImpl := {
  duration_units : Z -> SpamDuration;
  si_spam_rpc : Z -> Z -> option Z -> D ->
    stm Scenario Error (option (D * list SentBatch));
}.

(** [TimedSpammer], [BlockwiseSpammer]: the default [spam_rpc] of the trait, on
    the triggers and the responses of the run. *)
Definition spammer_of {F : Type} `{CB : SpamCallback F} (units : Z -> SpamDuration) (fuel : nat)
    (s : TestScenario) (auth_provider : option (nat -> outcome string unit)) (rpc : RpcNode)
    (metrics : list (string * list Bucket)) (triggers : list (SpamTrigger * BatchEnv F))
  : SpammerImpl := {|
  duration_units := units;
  si_spam_rpc txs_per_period num_periods run_id db :=
    spam_rpc (ts_config s) (ts_rand_seed s) (ts_agent_store s) (ts_rpc_url s) (ts_genesis_hash s)
      (ts_scenario_label s) groth16_proof fuel auth_provider rpc metrics (ts_bundle_type s)
      triggers txs_per_period num_periods run_id db |}.

(** The clock (milliseconds) and the latest block when the run starts; what is
    left of a run that the caller's token cancels before it is over; whether
    the flush loops end. *)
Record RunEnv := {
  rn_now : option Z;
  rn_block_number : outcome Error Z;
  rn_external : option (Scenario * D);
  rn_flushed : bool;
}.

Definition actor_ctx (c : ContenderCtx) (current_block run_id : Z) : ActorContext :=
  with_pending_tx_timeout (cb_pending_tx_timeout (cx c)) (ActorContext_new current_block run_id).

Definition init_handles (ctx : ActorContext) : stm TestScenario Error unit := fun s =>
  let '(handles, r) := each_handle (handle_init_ctx ctx) (map_to_list (ts_msg_handles s))
                         (ts_msg_handles s) in
  (set_running handles (ts_cancel_token s) s, r).

(** The spammer, which changes the fields of [Scenario] only, unless the
    caller's token comes first: its state, the database, and the result to be
    returned after the clean-up; [None] when it does not end. *)
Definition run_spammer (spammer : SpammerImpl) (opts : RunOpts) (run_id : Z) (env : RunEnv)
    (db : D) (core : Scenario) : option (Scenario * D * outcome Error unit) :=
  match rn_external env with
  | Some (core, db) => Some (core, db, Ok tt)
  | None =>
      match si_spam_rpc spammer (ro_txs_per_period opts) (ro_periods opts) (Some run_id) db core with
      | (core, Ok (Some (db, _))) => Some (core, db, Ok tt)
      | (core, Ok None) => None
      | (core, Err e) => Some (core, db, Err e)
      | (core, Panic) => Some (core, db, Panic)
      end
  end.

(** What follows the spammer. *)
Definition finish_run (c : ContenderCtx) (env : RunEnv) (result : outcome Error unit) (db : D)
  : stm TestScenario Error (option D) :=
  modify (fun s => set_running (ts_msg_handles s) (cancel (ts_cancel_token s)) s);;
  if rn_flushed env then
    prepare_for_run (cx_cancelled c);;
    lift result;;
    mret (Some db)
  else mret None.

(** [spam]: the database after the run; [None] when it does not return. A panic
    of the spammer is not caught here. *)
Definition spam (c : ContenderCtx) (spammer : SpammerImpl) (opts : RunOpts) (env : RunEnv) (db : D)
  : stm TestScenario Error (option D) :=
  prepare_for_run (cx_cancelled c);;
  rpc_url ← gets ts_rpc_url;
  run_req ← lift (create_spam_run_request opts (rn_now env) rpc_url
                    (cb_pending_tx_timeout (cx c)) (duration_units spammer (ro_periods opts)));
  '(run_id, db) ← lift (map_err ErrDb (insert_run db run_req));
  current_block ← lift (rn_block_number env);
  init_handles (actor_ctx c current_block run_id);;
  core ← gets ts_core;
  match run_spammer spammer opts run_id env db core with
  | None => mret None
  | Some (core, _, Panic) => modify (set_core core);; lift Panic
  | Some (core, db, result) => modify (set_core core);; finish_run c env result db
  end.

(** [fund_accounts]: a class without a pool is skipped. *)
Definition fund_accounts (c : ContenderCtx) (s : TestScenario) (prov : FundProvider (E := Error) Envelope)
    (class : AgentClass) (amount : Z) : outcome Error unit :=
  signer ← unwrap (funder c);
  match get_class (ts_agent_store s) class with
  | Some agent => fund_signers prov agent signer amount
  | None => mret tt
  end.
End orchestrator.

(** [ContenderCtx::builder_simple]: refused, by a panic, for a plan with create
    or setup steps. *)
Definition builder_simple `{A : Alloy, Sg : !Signing} {P : Profile} {C} `{PC : PlanConfig C} {Sd : Type}
    (config : C) (seed : Sd) (rpc_url : option string)
  : outcome Error (ContenderCtxBuilder (C := C) (D := MockDb) (Sd := Sd)) :=
  assert_ (builder_simple_ok config);; builder config mock_db seed rpc_url.

(** ** Properties *)

Lemma each_handle_list (f : Handle -> outcome Error Handle) (g : Handle -> Handle)
    (l : list (string * Handle)) (m : gmap string Handle) :
  NoDup l.*1 -> (forall p, p ∈ l -> f p.2 = Ok (g p.2)) ->
  each_handle f l m = (list_to_map (prod_map id g <$> l) ∪ m, Ok tt).
Proof.
  revert m. induction l as [|[name h] l IH]; intros m Hnd Hf; csimpl.
  { by rewrite (left_id_L ∅ _). }
  apply NoDup_cons in Hnd as [Hn Hnd].
  assert (f h = Ok (g h)) as -> by (apply (Hf (name, h)); left).
  rewrite IH; [|done|by intros p Hp; apply Hf; right]. f_equal.
  rewrite <- insert_union_r, insert_union_l; [done|].
  apply not_elem_of_list_to_map_1. rewrite <- list_fmap_compose.
  by replace (fst ∘ prod_map id g <$> l) with l.*1 by by apply list_fmap_ext; intros ? [].
Qed.

Lemma each_handle_all f g (m : gmap string Handle) :
  (forall name h, m !! name = Some h -> f h = Ok (g h)) ->
  each_handle f (map_to_list m) m = (g <$> m, Ok tt).
Proof.
  intros Hf. rewrite (each_handle_list _ g).
  2: { apply NoDup_fst_map_to_list. }
  2: { intros [name h] Hp%elem_of_map_to_list. by eapply Hf. }
  f_equal. rewrite <- (map_to_list_fmap g), list_to_map_to_list.
  apply map_eq. intros name. rewrite lookup_union, lookup_fmap. by destruct (m !! name).
Qed.

(** Polls at least half a second apart. *)
Fixpoint spaced (prev : Z) (polls : list (Z * outcome unit unit)) : Prop :=
  match polls with
  | [] => True
  | (elapsed, _) :: polls => prev + 500 <= elapsed /\ spaced elapsed polls
  end.

Lemma anvil_wait_over polls : forall timeout prev,
  spaced prev polls -> prev <= timeout -> timeout - prev < 500 * Z.of_nat (length polls) ->
  exists r, wait_for_anvil_ready timeout polls = Some r /\
    (r = Ok tt /\ (exists t, (t, Ok tt) ∈ polls /\ t <= timeout) \/
     r = Err (Runtime (AnvilTimeout (timeout / 1000)))).
Proof.
  induction polls as [|[t r] polls IH]; intros timeout prev Hp Ht Hl; [cbn in Hl; lia|].
  destruct Hp as [Hs Hp]. cbn [wait_for_anvil_ready length] in *.
  destruct (Z.ltb_spec timeout t); [eexists; split; [done|by right]|].
  destruct r as [[]|e|]; [eexists; split; [done|left; split; [done|exists t; split; [left|done]]]|..].
  all: destruct (IH timeout t Hp) as (r & Hr & Hc); [lia..|]; exists r; split; [done|].
  all: destruct Hc as [[-> (t' & Hin & Hle)]| ->]; [left; split; [done|]|by right].
  all: exists t'; split; [by right|done].
Qed.

(** The wait for the local node of the simulation ends, within 62 polls at
    half-second intervals: the node has answered a poll within the thirty
    seconds, or the wait is given up with [AnvilTimeout]. *)
Theorem anvil_wait_ends (polls : list (Z * outcome unit unit)) (Hp : spaced (-500) polls)
    (Hl : 62 <= Z.of_nat (length polls)) :
  exists r, wait_for_anvil_ready ANVIL_TIMEOUT_MS polls = Some r /\
    (r = Ok tt /\ (exists t, (t, Ok tt) ∈ polls /\ t <= ANVIL_TIMEOUT_MS) \/
     r = Err (Runtime (AnvilTimeout 30))).
Proof. apply (anvil_wait_over polls ANVIL_TIMEOUT_MS (-500) Hp); unfold ANVIL_TIMEOUT_MS; lia. Qed.

Section props.
Context `{A : Alloy, Sg : !Signing} {P : Profile}.
Context {C : Type} `{PC : PlanConfig C, TS : TemplateSyntax C}.
Context {D : Type} `{DO : DbOps D}.
Context {Sd : Type} `{SV : SeedValue Sd, SD : Seeder Sd, SG : !SeedGenerator Sd}.
Implicit Types (s : TestScenario (C := C) (Sd := Sd)) (c : ContenderCtx (C := C) (D := D) (Sd := Sd)).

Lemma add_wallets_spec l (m : gmap Address Signer) :
  map_Forall (fun a sg => signer_address sg = a) m ->
  map_Forall (fun a sg => signer_address sg = a) (fold_left add_wallet l m) /\
  (forall a, is_Some (m !! a) -> is_Some (fold_left add_wallet l m !! a)) /\
  (forall sg, sg ∈ l -> is_Some (fold_left add_wallet l m !! signer_address sg)) /\
  (forall a sg, fold_left add_wallet l m !! a = Some sg -> m !! a = Some sg \/ sg ∈ l).
Proof.
  revert m. induction l as [|x l IH]; intros m Hm; cbn [fold_left].
  { split_and!; [done|done|set_solver|naive_solver]. }
  destruct (IH (add_wallet m x)) as (H1 & H2 & H3 & H4).
  { by apply map_Forall_insert_2. }
  assert (Hx : forall a, is_Some (m !! a) \/ a = signer_address x -> is_Some (add_wallet m x !! a)).
  { intros a Ha. unfold add_wallet.
    destruct (decide (signer_address x = a)) as [->|Hne]; [by rewrite lookup_insert_eq|].
    rewrite lookup_insert_ne by done. naive_solver. }
  split_and!; [done|by auto| |].
  - intros sg [->|Hin]%elem_of_cons; [apply H2, Hx; by right|by apply H3].
  - intros a sg Hs. destruct (H4 a sg Hs) as [Hm'|Hin]; [|right; by right].
    unfold add_wallet in Hm'. apply lookup_insert_Some in Hm' as [[_ ->]|[_ Hm']]; [right; left|by left].
Qed.

Lemma wallets_spec l st :
  map_Forall (fun a sg => signer_address sg = a) (wallets l st) /\
  (forall sg, sg ∈ l ++ all_signers st -> is_Some (wallets l st !! signer_address sg)) /\
  (forall a sg, wallets l st !! a = Some sg -> sg ∈ l ++ all_signers st).
Proof.
  unfold wallets. destruct (add_wallets_spec l ∅) as (H1 & _ & H3 & H4); [done|].
  destruct (add_wallets_spec (all_signers st) (fold_left add_wallet l ∅)) as (G1 & G2 & G3 & G4); [done|].
  split_and!; [done| |].
  - intros sg [Hin|Hin]%elem_of_app; auto.
  - intros a sg Hs. apply elem_of_app. destruct (G4 a sg Hs) as [Hl|Hin]; [left|by right].
    by destruct (H4 a sg Hl).
Qed.

(** The wallets of a new scenario are those of the user's signers and of
    the signers of every agent, each under its own address; the nonces are
    those the node gave for these addresses and the set-code signer's; the
    builder, when there is one, is on the same chain. *)
Theorem new_scenario_wallets (config : C) (seed : Sd) (params : TestScenarioParams)
    (node : NewNode) s (H : TestScenario_new config seed params node = Ok s) :
  signers_ok (ts_core s) /\
  (forall sg, sg ∈ tp_signers params ++ all_signers (ts_agent_store s) ->
     is_Some (sn_signer_map (ts_core s) !! signer_address sg)) /\
  (forall a sg, sn_signer_map (ts_core s) !! a = Some sg ->
     sg ∈ tp_signers params ++ all_signers (ts_agent_store s)) /\
  (forall a, sn_nonces (ts_core s) !! a =
     if bool_decide (is_Some (sn_signer_map (ts_core s) !! a) \/
                     a = signer_address (sn_setcode_signer (ts_core s)))
     then match rpc_transaction_count (nn_rpc node) a with Ok n => Some n | _ => None end
     else None) /\
  rpc_chain_id (nn_rpc node) = Ok (sn_chain_id (ts_core s)) /\
  (is_Some (tp_builder_rpc_url params) ->
     nn_builder_chain_id node = Ok (sn_chain_id (ts_core s))).
Proof.
  unfold TestScenario_new in H. inv_outcome.
  repeat match goal with
  | H : context [let '(_, _) := ?p in _] |- _ => destruct p
  | H : (let '(_, _) := ?p in _) = _ |- _ => destruct p
  end. inv_outcome. cbn [ts_core ts_agent_store sn_signer_map sn_nonces sn_chain_id sn_setcode_signer].
  destruct (wallets_spec (tp_signers params) x) as (H1' & H2' & H3').
  split_and!; [exact H1'|exact H2'|exact H3'| |done|].
  - intros a. rewrite sync_nonces_map_lookup. by case_bool_decide.
  - intros [url Hu]. rewrite Hu in *. by apply Z.eqb_eq in H5 as ->.
Qed.

Section initialization.
Variables (format_ether : Z -> string) (groth16_proof : nat -> string).

Lemma fund_agents_ok prov i agents signer amount :
  fund_agents prov i agents signer amount = Ok tt ->
  forall k name agent, agents !! k = Some (name, agent) ->
  exists sg, signer = Ok sg /\ fund_signers (prov (i + k)%nat) agent sg amount = Ok tt.
Proof.
  revert i. induction agents as [|[n a] agents IH]; intros i H k name agent Hk; [done|].
  cbn [fund_agents] in H. inv_outcome. destruct k as [|k].
  - injection Hk as -> ->. exists x. rewrite Nat.add_0_r. split; [done|].
    by match goal with u : unit |- _ => destruct u end.
  - destruct (IH (S i)) with (k := k) (name := name) (agent := agent) as (sg & Hs & Hf); [done..|].
    exists sg. split; [done|]. by replace (i + S k)%nat with (S i + k)%nat by lia.
Qed.

(** C17: an initialization that succeeds has simulated the setup first: the
    configured funding covers the simulated cost, and every agent of the
    scenario has been funded with it by the first user signer.  When the
    funding does not cover the cost, the error says so and depends on nothing
    the target node would answer to a transaction: none was sent. *)
Theorem initialize_funded_or_refused c (env : InitEnv) s0 (cost : Z) (db0 : D)
    (Hs : build_scenario c (iv_new env) = Ok s0)
    (Hc : estimate_setup_cost groth16_proof s0 (cb_db (cx c)) (iv_sim env) = Some (Ok (cost, db0)))
    (Hn : iv_cancelled env = false) :
  match initialize format_ether groth16_proof c env with
  | Some (Ok (s, db)) =>
      cost <= min_balance c /\ ts_agent_store s = ts_agent_store s0 /\
      forall i name agent, all_agents (ts_agent_store s) !! i = Some (name, agent) ->
        exists sg, funder c = Some sg /\ fund_signers (iv_fund env i) agent sg (min_balance c) = Ok tt
  | Some (Err e) =>
      min_balance c < cost -> e = insufficient_funding format_ether (min_balance c) cost
  | Some Panic => cost <= min_balance c
  | None => False
  end.
Proof.
  replace (initialize format_ether groth16_proof c env)
    with (Some (initialize_funded format_ether groth16_proof c s0 env (cost, db0)))
    by (unfold initialize, initialize_inner; by rewrite Hs, Hn, Hc).
  unfold initialize_funded, min_balance.
  destruct (Z.leb_spec cost (cb_funding (cx c))) as [Hle|Hlt]; [|done].
  change (ensure true _) with (Ok (E := Error) tt). cbn [mbind outcome_bind].
  destruct (fund_agents _ _ _ _ _) as [[]|e|] eqn:Hf; cbn; [|lia|done].
  pose proof (fund_agents_ok _ _ _ _ _ Hf) as Hall.
  match goal with |- context [match ?m with (_, _) => _ end] => destruct m as [core [db|e|]] end;
    [|lia|done].
  split_and!; [done|done|]. intros i name agent Hi.
  destruct (Hall i name agent Hi) as (sg & Hsg%unwrap_ok & Hfs). by exists sg.
Qed.

End initialization.

Definition all_alive s : Prop := map_Forall (fun _ h => hd_alive h = true) (ts_msg_handles s).

Definition restarted (h : Handle) : Handle :=
  {| hd_alive := true; hd_ctx := hd_ctx h; hd_flushes := S (hd_flushes h) |}.

Lemma prepare_for_run_ok (ctx_cancelled : bool) s :
  all_alive s ->
  prepare_for_run ctx_cancelled s =
  (if is_cancelled ctx_cancelled (ts_cancel_token s)
   then set_running (restarted <$> ts_msg_handles s) CancellationToken_new s else s, Ok tt).
Proof.
  intros Ha. unfold prepare_for_run. case_bool; [|done].
  rewrite (each_handle_all _ restarted); [done|].
  intros name h Hh. unfold handle_restart_flush. by rewrite (Ha name h Hh).
Qed.

Lemma init_handles_ok ctx s :
  all_alive s ->
  init_handles ctx s =
  (set_running ((fun h => {| hd_alive := true; hd_ctx := Some ctx; hd_flushes := hd_flushes h |})
                  <$> ts_msg_handles s) (ts_cancel_token s) s, Ok tt).
Proof.
  intros Ha. unfold init_handles.
  rewrite (each_handle_all _ (fun h => {| hd_alive := true; hd_ctx := Some ctx;
                                          hd_flushes := hd_flushes h |})); [done|].
  intros name h Hh. unfold handle_init_ctx. by rewrite (Ha name h Hh).
Qed.

(** C18: a run that ends, be it by the spammer, by its error or by the caller's
    token, leaves the scenario ready for another one: every actor is still
    served, knows the run it was for, and has a new flush loop under a new
    token; preparing again has nothing to do.  This holds whatever becomes of
    the context's token, of which the new token is no longer a child. *)
Theorem spam_leaves_ready c (spammer : SpammerImpl (D := D)) (opts : RunOpts) (env : RunEnv)
    (db db1 db2 : D) s req run_id block core result (Ha : all_alive s)
    (Hreq : create_spam_run_request (E := Error) opts (rn_now env) (ts_rpc_url s)
       (cb_pending_tx_timeout (cx c)) (duration_units spammer (ro_periods opts)) = Ok req)
    (Hins : insert_run db req = Ok (run_id, db1)) (Hb : rn_block_number env = Ok block)
    (Hrun : run_spammer spammer opts run_id env db1 (ts_core s) = Some (core, db2, result))
    (Hres : result <> Panic) (Hfl : rn_flushed env = true) :
  exists s', spam c spammer opts env db s = (s', (fun _ => Some db2) <$> result) /\
    ts_core s' = core /\ ts_cancel_token s' = CancellationToken_new /\ all_alive s' /\
    (forall name, (hd_ctx <$> ts_msg_handles s' !! name) =
       (fun _ => Some (actor_ctx c block run_id)) <$> ts_msg_handles s !! name) /\
    (forall name h h', ts_msg_handles s !! name = Some h -> ts_msg_handles s' !! name = Some h' ->
       (hd_flushes h < hd_flushes h')%nat) /\
    forall ctx_cancelled, is_shutdown ctx_cancelled s' = false /\
      prepare_for_run ctx_cancelled s' = (s', Ok tt).
Proof.
  unfold spam.
  rewrite (stm_bind_run _ _ _ _ _ (prepare_for_run_ok (cx_cancelled c) s Ha)).
  set (s1 := if is_cancelled _ _ then _ else s).
  assert (Hs1 : ts_rpc_url s1 = ts_rpc_url s /\ ts_core s1 = ts_core s /\ all_alive s1 /\
    forall name, exists n, ts_msg_handles s1 !! name =
      (fun h => {| hd_alive := hd_alive h; hd_ctx := hd_ctx h; hd_flushes := n + hd_flushes h |})
        <$> ts_msg_handles s !! name).
  { unfold s1. destruct (is_cancelled _ _).
    - split_and!; [done|done|intros name h; cbn; rewrite lookup_fmap|intros name; exists 1%nat].
      + by destruct (ts_msg_handles s !! name); intros [= <-].
      + cbn. rewrite lookup_fmap. destruct (ts_msg_handles s !! name) eqn:Hl; [|done].
        unfold restarted. cbn. by rewrite (Ha name _ Hl).
    - split_and!; [done..|]. intros name. exists 0%nat. by destruct (ts_msg_handles s !! name) as [[]|]. }
  clearbody s1. destruct Hs1 as (Hu & Hco & Ha1 & Hh).
  rewrite (stm_bind_run (gets ts_rpc_url) _ s1 s1 (ts_rpc_url s)) by (unfold gets; by rewrite Hu).
  rewrite (stm_bind_run _ _ s1 s1 req) by (unfold lift; by rewrite Hreq).
  rewrite (stm_bind_run _ _ s1 s1 (run_id, db1)) by (unfold lift; by rewrite Hins).
  rewrite (stm_bind_run _ _ s1 s1 block) by (unfold lift; by rewrite Hb).
  rewrite (stm_bind_run _ _ _ _ _ (init_handles_ok _ s1 Ha1)).
  set (s2 := set_running _ _ s1).
  rewrite (stm_bind_run (gets ts_core) _ s2 s2 (ts_core s)) by (unfold gets, s2; cbn; by rewrite Hco).
  rewrite Hrun.
  set (s3 := set_running (ts_msg_handles s2) (cancel (ts_cancel_token s2)) (set_core core s2)).
  assert (Ha3 : all_alive s3).
  { intros name h. unfold s3, s2. cbn. rewrite lookup_fmap.
    by destruct (ts_msg_handles s1 !! name); intros [= <-]. }
  assert (Hfin : (modify (set_core core) ≫= (fun _ => finish_run c env result db2)) s2 =
    (set_running (restarted <$> ts_msg_handles s3) CancellationToken_new s3,
     (fun _ => Some db2) <$> result)).
  { rewrite (stm_bind_run _ _ s2 (set_core core s2) tt) by done. unfold finish_run.
    rewrite (stm_bind_run _ _ (set_core core s2) s3 tt) by done. rewrite Hfl.
    rewrite (stm_bind_run _ _ _ _ _ (prepare_for_run_ok (cx_cancelled c) s3 Ha3)).
    destruct result as [[]|e|]; done. }
  eexists. split.
  { destruct result as [[]|e|]; [exact Hfin|exact Hfin|done]. }
  split_and!; [done|done| | | |done].
  - intros name h. cbn. rewrite lookup_fmap.
    by destruct (_ !! name); intros [= <-].
  - intros name. unfold s3, s2. cbn. rewrite !lookup_fmap.
    destruct (Hh name) as [n ->]. by destruct (ts_msg_handles s !! name).
  - intros name h h' Hn. unfold s3, s2. cbn. rewrite !lookup_fmap.
    destruct (Hh name) as [n ->]. rewrite Hn. intros [= <-]. cbn. lia.
Qed.
End props.

(** ** Witnesses *)

Module OrchestratorWitness.
Export SpamRunWitness.

Lemma anvil_wait_ends_witness :
  exists r, wait_for_anvil_ready ANVIL_TIMEOUT_MS
      ((fun i => (i * 500, if i =? 3 then Ok tt else Err tt)) <$> rangeZ 70) = Some r /\
    (r = Ok tt \/ r = Err (Runtime (AnvilTimeout 30))).
Proof.
  destruct (anvil_wait_ends ((fun i => (i * 500, if i =? 3 then Ok tt else Err tt)) <$> rangeZ 70))
    as (r & Hr & Hc).
  - cbn [rangeZ]. repeat (split; [lia|]). exact I.
  - rewrite length_fmap. cbn. lia.
  - exists r. split; [exact Hr|]. destruct Hc as [[-> _]| ->]; [left|right]; reflexivity.
Defined.

(** A seed type that only counts. *)
Record CountSeed := { count : Z }.
#[export] Instance count_value : SeedValue CountSeed := {|
  as_bytes s := to_be 32 (count s); as_u64 s := wrap 64 (count s);
  as_u128 s := wrap 128 (count s); as_u256 s := wrap 256 (count s) |}.
#[export] Instance count_seeder : Seeder CountSeed := {|
  seed_values E s n lo hi := Ok ((fun i => {| count := count s + i + 1 |}) <$> rangeZ n);
  seed_from_u256 v := {| count := v |};
  seed_from_bytes l := {| count := from_be l |};
  seed_from_str E _ := Ok {| count := 0 |} |}.
#[export] Instance count_generator : SeedGenerator CountSeed.
Proof.
  constructor; cbn; unfold wrap.
  - intros s. apply to_be_length.
  - intros s. apply Z.mod_pos_bound. lia.
  - intros v Hv. by apply Z.mod_small.
  - intros E s n _ _ l [= <-]. by rewrite length_fmap, rangeZ_length.
  - intros E s n. by eexists.
  - intros E s n k _ _ l [= <-]. f_equal. rewrite <- fmap_take. f_equal.
    unfold rangeZ. rewrite seq_app, fmap_app, take_app_length'; [done|].
    by rewrite length_fmap, length_seq.
Qed.

Definition create_node : NewNode := {|
  nn_genesis := Ok (Some 77); nn_rpc := {|
    rpc_gas_price := Ok 1000; rpc_blob_base_fee := Err (Rpc "no blobs"); rpc_chain_id := Ok 1;
    rpc_transaction_count a := Ok 40;
    rpc_estimate_gas t := Ok 21000; rpc_get_code _ := Ok [] |};
  nn_builder_chain_id := Ok 1; nn_preflight _ := Ok tt; nn_block_number := Ok 0;
  nn_block _ := Ok None |}.
Definition params : TestScenarioParams := {|
  tp_rpc_url := "http"; tp_builder_rpc_url := Some "builder"%string; tp_txs_rpc_url := None;
  tp_signers := [signer_of 200]; tp_agent_spec := default_agent_spec; tp_tx_type := Eip1559;
  tp_pending_tx_timeout := 12; tp_bundle_type := L1; tp_extra_msg_handles := None;
  tp_sync_nonces_after_batch := true; tp_rpc_batch_size := 0; tp_gas_price := None;
  tp_scenario_label := None; tp_send_raw_tx_sync := false; tp_flashblocks_ws_url := None |}.

Definition sample := TestScenario_new conf {| count := 5 |} params create_node.

Lemma new_scenario_wallets_witness :
  exists s, sample = Ok s /\
    is_Some (sn_signer_map (ts_core s) !! 200) /\ sn_nonces (ts_core s) !! 200 = Some 40.
Proof.
  run_ok sample s H. exists s. split; [exact H|].
  destruct (new_scenario_wallets conf {| count := 5 |} params create_node s H)
    as (_ & Hw & _ & Hn & _).
  assert (Hs : is_Some (sn_signer_map (ts_core s) !! 200)).
  { apply (Hw (signer_of 200)). left. }
  split; [exact Hs|]. rewrite (Hn 200), bool_decide_eq_true_2 by (left; exact Hs). reflexivity.
Defined.

(** A local node that charges every account 30 wei, and a target that serves
    every request. *)
Definition task_node : TaskRpc := {|
  tk_gas_price := Ok 1000; tk_estimate_gas _ := Ok 21000;
  tk_send e := Ok {| tr_hash := envelope_hash e; tr_status := true; tr_contract_address := None |};
  tk_code_polls _ := [] |}.
Definition funds (i : nat) : FundProvider (E := Error) Envelope := {|
  fp_gas_price := Ok 100; fp_nonce _ := Ok (7 + Z.of_nat i); fp_chain_id := Ok 1;
  fp_build sg t := Ok (t, sg); fp_send e := Ok (envelope_hash e); fp_watch _ := Ok tt |}.
Definition calls : RpcNode * TaskRpc := (nn_rpc create_node, task_node).
Definition sim_env : SimEnv := {|
  sv_gas_price := Ok 1000; sv_anvil := Ok "anvil"%string; sv_polls := [(0, Err tt); (600, Ok tt)];
  sv_new := create_node; sv_balance_before _ := Ok 0; sv_fund := funds;
  sv_deploy := calls; sv_sync := nn_rpc create_node; sv_setup := calls; sv_cancelled := false;
  sv_balance_after _ := Ok (1000 * ETH_TO_WEI - 30) |}.
Definition init_env : InitEnv := {|
  iv_new := create_node; iv_sim := sim_env; iv_fund := funds; iv_deploy := calls;
  iv_setup := calls; iv_cancelled := false |}.
Definition context (funding : Z) : ContenderCtx := {| cx := {|
  cb_config := conf; cb_db := mock_db; cb_seeder := {| count := 5 |}; cb_rpc_url := "http";
  cb_builder_rpc_url := None; cb_agent_spec := default_agent_spec;
  cb_user_signers := [signer_of 200]; cb_tx_type := Eip1559; cb_bundle_type := L1;
  cb_pending_tx_timeout := 12; cb_extra_msg_handles := None; cb_auth_provider := None;
  cb_funding := funding; cb_sync_nonces_after_batch := false; cb_rpc_batch_size := 0;
  cb_scenario_label := None; cb_send_raw_tx_sync := false; cb_txs_rpc_url := None |};
  cx_cancelled := false |}.
Definition no_proof : nat -> string := fun _ => "[]"%string.
Definition initialized (funding : Z) := initialize dec no_proof (context funding) init_env.

Lemma initialize_funded_or_refused_witness :
  (exists s db sg, initialized 400 = Some (Ok (s, db)) /\ funder (context 400) = Some sg) /\
  initialized 300 = Some (Err (insufficient_funding dec 300 330)).
Proof.
  assert (Hc : forall funding, (funding =? 400) || (funding =? 300) = true ->
    match build_scenario (context funding) create_node with
    | Ok s0 => match estimate_setup_cost no_proof s0 mock_db sim_env with
               | Some (Ok (cost, _)) => cost =? 330
               | _ => false
               end
    | _ => false
    end = true).
  { intros funding Hf. apply orb_true_iff in Hf as [->%Z.eqb_eq | ->%Z.eqb_eq];
      vm_compute; reflexivity. }
  split.
  - specialize (Hc 400 eq_refl).
    destruct (build_scenario (context 400) create_node) as [s0|e|] eqn:Hs; [|discriminate Hc..].
    destruct (estimate_setup_cost no_proof s0 mock_db sim_env) as [[[cost db0]|e|]|] eqn:He;
      [|discriminate Hc..].
    apply Z.eqb_eq in Hc as ->.
    assert (Hok : match initialized 400 with Some (Ok _) => true | _ => false end = true)
      by (vm_compute; reflexivity).
    pose proof (initialize_funded_or_refused dec no_proof (context 400) init_env s0 330 db0 Hs He eq_refl)
      as Ht. change (initialize dec no_proof (context 400) init_env) with (initialized 400) in Ht.
    destruct (initialized 400) as [[[s db]|e|]|]; [|discriminate Hok..].
    exists s, db, (signer_of 200). split; reflexivity.
  - specialize (Hc 300 eq_refl).
    destruct (build_scenario (context 300) create_node) as [s0|e|] eqn:Hs; [|discriminate Hc..].
    destruct (estimate_setup_cost no_proof s0 mock_db sim_env) as [[[cost db0]|e|]|] eqn:He;
      [|discriminate Hc..].
    apply Z.eqb_eq in Hc as ->.
    pose proof (initialize_funded_or_refused dec no_proof (context 300) init_env s0 330 db0 Hs He eq_refl)
      as Ht. change (initialize dec no_proof (context 300) init_env) with (initialized 300) in Ht.
    unfold min_balance in Ht. cbn [cx context cb_funding] in Ht.
    destruct (initialized 300) as [[[s db]|e|]|]; [destruct Ht; lia| |lia|destruct Ht].
    rewrite Ht by lia. reflexivity.
Defined.

(** A run of the timed spammer on the new scenario. *)
Definition run_env : RunEnv (D := MockDb) := {|
  rn_now := Some 1700000000000; rn_block_number := Ok 9; rn_external := None; rn_flushed := true |}.
Definition opts : RunOpts := opts_periods 3 (opts_txs_per_period 2 RunOpts_new).
Definition timed (s : TestScenario) : SpammerImpl (D := MockDb) :=
  spammer_of no_proof timed_duration_units 50 s None (nn_rpc create_node) [] three_ticks.

Lemma spam_leaves_ready_witness :
  exists s s' db, sample = Ok s /\
    spam (context 400) (timed s) opts run_env mock_db s = (s', Ok (Some db)) /\
    is_shutdown true s = true /\ is_shutdown true s' = false.
Proof.
  assert (Hc : match sample with
    | Ok s => match run_spammer (timed s) opts 0 run_env mock_db (ts_core s) with
              | Some (_, _, Ok _) =>
                  forallb (fun p => hd_alive p.2) (map_to_list (ts_msg_handles s)) &&
                  is_shutdown true s
              | _ => false
              end
    | _ => false
    end = true) by (vm_compute; reflexivity).
  destruct sample as [s|e|]; [|discriminate Hc..].
  destruct (run_spammer (timed s) opts 0 run_env mock_db (ts_core s)) as [[[core db2] [[]|e|]]|]
    eqn:Hr; [|discriminate Hc..].
  apply andb_true_iff in Hc as [Hh Hsd].
  destruct (create_spam_run_request (E := Error) opts (rn_now run_env) (ts_rpc_url s)
    (cb_pending_tx_timeout (cx (context 400))) (duration_units (timed s) (ro_periods opts)))
    as [req|e|] eqn:Hreq; [|discriminate Hreq..].
  destruct (spam_leaves_ready (context 400) (timed s) opts run_env mock_db mock_db db2 s req 0 9 core
    (Ok tt)) as (s' & Hs & _ & _ & _ & _ & _ & Hf).
  - intros name h Hl%elem_of_map_to_list. rewrite forallb_forall in Hh.
    apply (Hh (name, h)), list_elem_of_In, Hl.
  - exact Hreq.
  - reflexivity.
  - reflexivity.
  - exact Hr.
  - discriminate.
  - reflexivity.
  - exists s, s', db2. split_and!; [reflexivity|exact Hs|exact Hsd|apply Hf].
Defined.
End OrchestratorWitness.
