(* ===== verification/Engine.v ===== *)
(** * The engine provider ([engine_provider/src])

    [AuthProvider] drives a node through the engine API: [advance_chain] lets it
    build a block and makes that its head, [replay_chain_segment] sends blocks it
    has again.  The node is a parameter, [EngineNode]; a connection keeps the
    requests that were sent to it.  A call is repeated until the node's answer is
    final ([valid_payload.rs]), at most [patience] times in the model: a result
    [None] is a call that is still waiting then. *)

From Stdlib Require Import Strings.Byte Strings.String.
From S2P Require Import Prelude.

Abbreviation B256 := Z (only parsing).
Abbreviation Bytes := (list byte) (only parsing).

(** ** Computations that may wait for ever *)

Definition waiting (S E A : Type) : Type := S -> option (S * outcome E A).
#[export] Instance waiting_ret {S E} : MRet (waiting S E) := fun A a s => Some (s, Ok a).
#[export] Instance waiting_bind {S E} : MBind (waiting S E) := fun A B f m s =>
  match m s with
  | Some (s, Ok a) => f a s
  | Some (s, Err e) => Some (s, Err e)
  | Some (s, Panic) => Some (s, Panic)
  | None => None
  end.
Definition pure {S E A} (m : outcome E A) : waiting S E A := fun s => Some (s, m).

Lemma waiting_bind_ok {S E A B} (m : waiting S E A) (f : A -> waiting S E B) s s' b :
  (m ≫= f) s = Some (s', Ok b) <-> exists s1 a, m s = Some (s1, Ok a) /\ f a s1 = Some (s', Ok b).
Proof. unfold mbind, waiting_bind. destruct (m s) as [[s1 [a|e|]]|]; naive_solver. Qed.
Lemma waiting_bind_run {S E A B} (m : waiting S E A) (f : A -> waiting S E B) s s1 a :
  m s = Some (s1, Ok a) -> (m ≫= f) s = f a s1.
Proof. unfold mbind, waiting_bind. by intros ->. Qed.
Lemma waiting_pure_ok {S E A} (m : outcome E A) (s s' : S) a :
  pure m s = Some (s', Ok a) <-> s' = s /\ m = Ok a.
Proof. unfold pure. naive_solver. Qed.
Lemma waiting_ret_ok {S E A} (x : A) (s s' : S) a :
  (mret x : waiting S E A) s = Some (s', Ok a) <-> s' = s /\ a = x.
Proof. unfold mret, waiting_ret. naive_solver. Qed.

(** [inv_waiting]: the steps of a computation that has ended well. *)
Ltac inv_waiting :=
  repeat match goal with
  | H : (_ ≫= _) _ = Some (_, Ok _) |- _ => apply waiting_bind_ok in H as (? & ? & ? & ?)
  | H : pure _ _ = Some (_, Ok _) |- _ => apply waiting_pure_ok in H as [? ?]
  | H : mret _ _ = Some (_, Ok _) |- _ => apply waiting_ret_ok in H as [? ?]
  end; subst; inv_outcome.

(** ** Errors ([error.rs]) *)

Module Version.
Inductive t := V1 | V2 | V3 | V4 | V5 | V6.
End Version.

(** alloy's transport errors: those the provider makes itself, and the others. *)
Inductive TransportErr := UnsupportedFeature (s : string) | OtherTransport (e : string).

Module AuthProviderError.
Inductive t :=
| TransportError (e : TransportErr)
| MissingBlock (n : Z)
| InvalidTxs
| Internal (e : string)
| InvalidBlockRange (first last : Z)
| InvalidBlockStart (start : Z)
| InvalidPayload (version : Version.t) (reason : string)
| ExtraDataTooShort
| GasLimitRequired.
End AuthProviderError.
Abbreviation AuthError := AuthProviderError.t.

Definition GAS_LIMIT_REQUIRED : string := "gasLimit parameter required".
Definition EXTRA_DATA_TOO_SHORT : string := "extra_data of genesis block is too short".
Definition parse_err_str (error : string) : AuthError :=
  if str_contains GAS_LIMIT_REQUIRED error then AuthProviderError.GasLimitRequired
  else if str_contains EXTRA_DATA_TOO_SHORT error then AuthProviderError.ExtraDataTooShort
  else AuthProviderError.Internal error.

(** ** Blocks and payloads *)

Record Withdrawal := { wd_index : Z; wd_validator_index : Z; wd_address : Z; wd_amount : Z }.
(** What the provider reads of a header. *)
Record Header := {
  hash : B256;
  parent_hash : B256;
  beneficiary : Z;
  state_root : B256;
  receipts_root : B256;
  logs_bloom : Bytes;
  mix_hash : option B256;
  number : Z;
  gas_limit : Z;
  gas_used : Z;
  timestamp : Z;
  extra_data : Bytes;
  base_fee_per_gas : option Z;
  blob_gas_used : option Z;
  excess_blob_gas : option Z;
  requests_hash : option B256;
  parent_beacon_block_root : option B256;
}.
(** [TxLike]: a transaction of either network. *)
Record AnyTx := {
  tx_hash : B256;
  encoded_2718 : Bytes;
  blob_versioned_hashes : option (list B256);
}.
Record Block := { header : Header; transactions : list AnyTx; withdrawals : option (list Withdrawal) }.

Record ExecutionPayloadV1 := {
  p_block_hash : B256;
  p_parent_hash : B256;
  p_fee_recipient : Z;
  p_state_root : B256;
  p_receipts_root : B256;
  p_logs_bloom : Bytes;
  p_prev_randao : B256;
  p_block_number : Z;
  p_gas_limit : Z;
  p_gas_used : Z;
  p_timestamp : Z;
  p_extra_data : Bytes;
  p_base_fee_per_gas : Z;
  p_transactions : list Bytes;
}.
Record ExecutionPayloadV2 := { v2_withdrawals : list Withdrawal; v2_inner : ExecutionPayloadV1 }.
Record ExecutionPayloadV3 := { v3_inner : ExecutionPayloadV2; v3_blob_gas_used : Z; v3_excess_blob_gas : Z }.
Record ExecutionPayloadV4 := { v4_inner : ExecutionPayloadV3; v4_block_access_list : Bytes }.
Inductive ExecutionPayload :=
| PayloadV1 (p : ExecutionPayloadV1)
| PayloadV2 (p : ExecutionPayloadV2)
| PayloadV3 (p : ExecutionPayloadV3)
| PayloadV4 (p : ExecutionPayloadV4).
Definition payload_v1 (p : ExecutionPayload) : ExecutionPayloadV1 :=
  match p with
  | PayloadV1 p => p
  | PayloadV2 p => v2_inner p
  | PayloadV3 p => v2_inner (v3_inner p)
  | PayloadV4 p => v2_inner (v3_inner (v4_inner p))
  end.

(** ** The engine API ([engine.rs]) *)

Record ForkchoiceState := { head_block_hash : B256; safe_block_hash : B256; finalized_block_hash : B256 }.
Record PayloadAttributes := {
  pa_timestamp : Z;
  pa_prev_randao : B256;
  pa_suggested_fee_recipient : Z;
  pa_withdrawals : option (list Withdrawal);
  pa_parent_beacon_block_root : option B256;
  pa_slot_number : option Z;
}.
Record OpPayloadAttributes := {
  oa_payload_attributes : PayloadAttributes;
  oa_transactions : option (list Bytes);
  oa_no_tx_pool : option bool;
  oa_gas_limit : option Z;
  oa_eip_1559_params : option Bytes;
  oa_min_base_fee : option Z;
}.
Record OpPayloadParams := {
  op_transactions : option (list Bytes);
  op_gas_limit : option Z;
  op_eip_1559_params : option Bytes;
}.
Definition default_op_params : OpPayloadParams :=
  {| op_transactions := None; op_gas_limit := None; op_eip_1559_params := None |}.

(** [NetworkAttributes] with [FcuDefault], by the type of the attributes. *)
Class NetworkAttributes (Attr : Type) := {
  fcu_payload_attributes : Z -> option OpPayloadParams -> Attr;
  is_op : bool;
  base_attributes : Attr -> PayloadAttributes;
  attributes_timestamp : forall t params, pa_timestamp (base_attributes (fcu_payload_attributes t params)) = t;
}.
Definition eth_attributes (timestamp : Z) : PayloadAttributes := {|
  pa_timestamp := timestamp; pa_prev_randao := 0; pa_suggested_fee_recipient := 0;
  pa_withdrawals := Some []; pa_parent_beacon_block_root := Some 0; pa_slot_number := None |}.
Definition op_attributes (timestamp : Z) (op_params : option OpPayloadParams) : OpPayloadAttributes :=
  let p := default default_op_params op_params in
  {| oa_payload_attributes := eth_attributes timestamp; oa_transactions := op_transactions p;
     oa_no_tx_pool := Some false; oa_gas_limit := op_gas_limit p;
     oa_eip_1559_params := op_eip_1559_params p; oa_min_base_fee := None |}.
#[export] Instance ethereum : NetworkAttributes PayloadAttributes := {|
  fcu_payload_attributes timestamp _ := eth_attributes timestamp; is_op := false;
  base_attributes a := a; attributes_timestamp _ _ := eq_refl |}.
#[export] Instance optimism : NetworkAttributes OpPayloadAttributes := {|
  fcu_payload_attributes := op_attributes; is_op := true;
  base_attributes := oa_payload_attributes; attributes_timestamp _ _ := eq_refl |}.

Inductive NewPayload :=
| NewPayloadV1 (p : ExecutionPayloadV1)
| NewPayloadV2 (p : ExecutionPayloadV1) (withdrawals : option (list Withdrawal))
| NewPayloadV3 (p : ExecutionPayloadV3) (versioned_hashes : list B256) (root : B256)
| NewPayloadV4 (p : ExecutionPayloadV4) (versioned_hashes : list B256) (root : B256)
    (requests : list Bytes).
(** The versions of [engine_forkchoiceUpdated]. *)
Inductive FcuVersion := FcuV1 | FcuV2 | FcuV3.
Inductive EngineRequest (Attr : Type) :=
| SendPayload (p : NewPayload)
| SendForkchoice (v : FcuVersion) (state : ForkchoiceState) (attributes : option Attr)
| SendGetPayload (v : Version.t) (payload_id : Bytes).
#[global] Arguments SendPayload {_} _.
#[global] Arguments SendForkchoice {_} _ _ _.
#[global] Arguments SendGetPayload {_} _ _.

(** The name of the JSON-RPC method of a request. *)
Definition engine_method {Attr} (r : EngineRequest Attr) : string :=
  match r with
  | SendPayload (NewPayloadV1 _) => "engine_newPayloadV1"
  | SendPayload (NewPayloadV2 _ _) => "engine_newPayloadV2"
  | SendPayload (NewPayloadV3 _ _ _) => "engine_newPayloadV3"
  | SendPayload (NewPayloadV4 _ _ _ _) => "engine_newPayloadV4"
  | SendForkchoice FcuV1 _ _ => "engine_forkchoiceUpdatedV1"
  | SendForkchoice FcuV2 _ _ => "engine_forkchoiceUpdatedV2"
  | SendForkchoice FcuV3 _ _ => "engine_forkchoiceUpdatedV3"
  | SendGetPayload Version.V1 _ => "engine_getPayloadV1"
  | SendGetPayload Version.V2 _ => "engine_getPayloadV2"
  | SendGetPayload Version.V3 _ => "engine_getPayloadV3"
  | SendGetPayload _ _ => "engine_getPayloadV4"
  end.

(** [RequestsOrHash]: requests are sent as they are, a hash as the only one. *)
Inductive RequestsOrHash := RequestsHash (h : B256) | Requests (l : list Bytes).
Definition request_bytes (r : RequestsOrHash) : list Bytes :=
  match r with RequestsHash h => [to_be 32 h] | Requests l => l end.

Inductive PayloadStatus := Valid | Invalid (validation_error : string) | Syncing | Accepted.
Record ForkchoiceUpdated := { fu_status : PayloadStatus; fu_payload_id : option Bytes }.
Definition is_valid (s : PayloadStatus) : bool := match s with Valid => true | _ => false end.
Definition is_invalid (s : PayloadStatus) : bool := match s with Invalid _ => true | _ => false end.
Definition is_syncing (s : PayloadStatus) : bool := match s with Syncing => true | _ => false end.

(** A node: how it answers, and what it is then. *)
Class EngineNode (N Attr : Type) := {
  node_new_payload : NewPayload -> N -> N * outcome TransportErr PayloadStatus;
  node_forkchoice : FcuVersion -> ForkchoiceState -> option Attr -> N ->
    N * outcome TransportErr ForkchoiceUpdated;
  node_get_payload_v1 : Bytes -> N -> N * outcome TransportErr ExecutionPayloadV1;
  node_get_payload_v2 : Bytes -> N -> N * outcome TransportErr (ExecutionPayloadV1 + ExecutionPayloadV2);
  node_get_payload_v3 : Bytes -> N -> N * outcome TransportErr ExecutionPayloadV3;
  node_get_payload_v4 : Bytes -> N -> N * outcome TransportErr ExecutionPayloadV3;
  node_latest : N -> outcome TransportErr (option Block);
  node_block_number : N -> outcome TransportErr Z;
  node_block : N -> Z -> outcome TransportErr (option Block);
}.

(** The body of an envelope of [engine_getPayloadV2]. *)
Definition payload_of_v2 (p : ExecutionPayloadV1 + ExecutionPayloadV2) : ExecutionPayload :=
  match p with inl p => PayloadV1 p | inr p => PayloadV2 p end.

(** [engine_getPayload] in the version of the provider. *)
Definition node_payload {N Attr} `{EN : EngineNode N Attr} (v : Version.t) (id : Bytes) (n : N)
  : N * outcome TransportErr ExecutionPayload :=
  let made {A} (f : A -> ExecutionPayload) (a : N * outcome TransportErr A) :=
    (a.1, fmap (M := outcome TransportErr) f a.2) in
  match v with
  | Version.V1 => made PayloadV1 (node_get_payload_v1 id n)
  | Version.V2 => made payload_of_v2 (node_get_payload_v2 id n)
  | Version.V3 => made PayloadV3 (node_get_payload_v3 id n)
  | Version.V4 => made PayloadV3 (node_get_payload_v4 id n)
  | Version.V5 | Version.V6 => (n, Panic)
  end.

(** ** Waiting for a final answer ([valid_payload.rs]) *)

(** A connection: the node, and the requests sent, the oldest first. *)
Record Conn (N Attr : Type) := { node : N; sent : list (EngineRequest Attr) }.
#[global] Arguments node {_ _} _.
#[global] Arguments sent {_ _} _.
#[global] Arguments Build_Conn {_ _} _ _.

Section wait.
Context {N Attr : Type}.

(** Sends a request once. *)
Definition request {A} (r : EngineRequest Attr) (f : N -> N * outcome TransportErr A)
    (c : Conn N Attr) : Conn N Attr * outcome TransportErr A :=
  let '(n, a) := f (node c) in ({| node := n; sent := sent c ++ [r] |}, a).

(** What is made of an answer: the end of the wait, or another round. *)
Inductive Verdict (A : Type) := Final (r : outcome TransportErr A) | Again.
#[global] Arguments Final {A} r.
#[global] Arguments Again {A}.

Fixpoint wait {A} (patience : nat) (verdict : A -> Verdict A) (r : EngineRequest Attr)
    (f : N -> N * outcome TransportErr A) : waiting (Conn N Attr) TransportErr A := fun c =>
  match patience with
  | O => None
  | S patience =>
      match request r f c with
      | (c, Ok a) => match verdict a with
                     | Final result => Some (c, result)
                     | Again => wait patience verdict r f c
                     end
      | (c, Err e) => Some (c, Err e)
      | (c, Panic) => Some (c, Panic)
      end
  end.

Definition NO_CANONICAL_STATE : string :=
  "invalid range: no canonical state found for parent of requested block".
(** Only the later versions give up on a node that is syncing. *)
Definition payload_verdict (p : NewPayload) (status : PayloadStatus) : Verdict PayloadStatus :=
  let '(name, gives_up) := match p with
                           | NewPayloadV1 _ => ("Invalid newPayloadV1"%string, false)
                           | NewPayloadV2 _ _ => ("Invalid newPayloadV2"%string, false)
                           | NewPayloadV3 _ _ _ => ("Invalid newPayloadV3"%string, true)
                           | NewPayloadV4 _ _ _ _ => ("Invalid newPayloadV4"%string, true)
                           end in
  if is_valid status then Final (Ok status)
  else if is_invalid status then Final (Err (UnsupportedFeature name))
  else if is_syncing status && gives_up then Final (Err (UnsupportedFeature NO_CANONICAL_STATE))
  else Again.
(** Here an invalid state panics, and the last version does not give up. *)
Definition fcu_verdict (v : FcuVersion) (r : ForkchoiceUpdated) : Verdict ForkchoiceUpdated :=
  let gives_up := match v with FcuV1 | FcuV2 => true | FcuV3 => false end in
  if is_valid (fu_status r) then Final (Ok r)
  else if is_invalid (fu_status r) then Final Panic
  else if is_syncing (fu_status r) && gives_up then Final (Err (UnsupportedFeature NO_CANONICAL_STATE))
  else Again.
End wait.

(** ** The provider ([auth_provider.rs]) *)

Record AuthProvider := {
  genesis_block : Header;
  message_version : Version.t;
  rpc_url : string;
}.

(** [util.rs]: the file of the secret, [None] when there is none, and what
    decodes it. *)
Definition DEFAULT_BLOCK_TIME : Z := 1.
Definition read_jwt_file {J} (from_hex : string -> outcome string J) (path : string)
    (file : option (outcome string string)) : outcome string J :=
  text ← match file with
         | Some text => text
         | None => Err ("JWT secret file not found: " +:+ path)%string
         end;
  from_hex text.
(** [AuthProvider::new], from the outcome of connecting and the genesis block. *)
Definition AuthProvider_new (show : TransportErr -> string) (connected : outcome TransportErr unit)
    (genesis : outcome TransportErr (option Header)) (auth_rpc_url : string) (version : Version.t)
  : outcome AuthError AuthProvider :=
  map_err AuthProviderError.TransportError connected;;
  genesis ← map_err (fun e => AuthProviderError.Internal ("failed to get genesis block: " +:+ show e)%string)
              genesis;
  genesis ← unwrap genesis;
  mret {| genesis_block := genesis; message_version := version; rpc_url := auth_rpc_url |}.
Definition from_jwt_file {J} (from_hex : string -> outcome string J) (path : string)
    (file : option (outcome string string)) (new : J -> outcome AuthError AuthProvider)
  : outcome AuthError AuthProvider :=
  jwt ← map_err (fun e => AuthProviderError.Internal ("failed to read jwt file: " +:+ e)%string)
          (read_jwt_file from_hex path file);
  new jwt.

Record ChainReplayResults := { cr_gas_used : Z; cr_time_elapsed : Z }.
(** [Duration] in seconds, rounded down. *)
Definition gas_per_second (r : ChainReplayResults) : Z := cr_gas_used r / Z.max (cr_time_elapsed r) 1.

(** [EIP-4844]: the version, then the hash of the commitment without its first byte. *)
Definition kzg_to_versioned_hash (sha256 : Bytes -> Bytes) (commitment : Bytes) : B256 :=
  from_be (byte_of_Z 1 :: take 31 (drop 1 (sha256 commitment))).
Definition tx_versioned_hashes (sha256 : Bytes -> Bytes) (sidecars : option (gmap B256 (list Bytes)))
    (tx : AnyTx) : list B256 :=
  match blob_versioned_hashes tx with
  | Some hashes => hashes
  | None =>
      match m ← sidecars; m !! tx_hash tx with
      | Some commitments => kzg_to_versioned_hash sha256 <$> commitments
      | None => []
      end
  end.
Definition derive_blob_versioned_hashes (sha256 : Bytes -> Bytes) (txs : list AnyTx)
    (sidecars : option (gmap B256 (list Bytes))) : list B256 :=
  txs ≫= tx_versioned_hashes sha256 sidecars.

(** The payload of a block that is read again; blobs are what tells the versions
    apart. *)
Definition payload_of_block (b : Block) : ExecutionPayload :=
  let h := header b in
  let v1 := {|
    p_block_hash := hash h; p_parent_hash := parent_hash h; p_fee_recipient := beneficiary h;
    p_state_root := state_root h; p_receipts_root := receipts_root h; p_logs_bloom := logs_bloom h;
    p_prev_randao := default 0 (mix_hash h); p_block_number := number h; p_gas_limit := gas_limit h;
    p_gas_used := gas_used h; p_timestamp := timestamp h; p_extra_data := extra_data h;
    p_base_fee_per_gas := default 0 (base_fee_per_gas h);
    p_transactions := encoded_2718 <$> transactions b |} in
  let v2 := {| v2_withdrawals := default [] (withdrawals b); v2_inner := v1 |} in
  match blob_gas_used h, excess_blob_gas h with
  | Some used, Some excess =>
      PayloadV3 {| v3_inner := v2; v3_blob_gas_used := used; v3_excess_blob_gas := excess |}
  | _, _ => PayloadV2 v2
  end.

Section provider.
Context {P : Profile} {N Attr : Type} `{NA : !NetworkAttributes Attr, EN : !EngineNode N Attr}.
Variables (patience : nat) (op_block_info_tx : Bytes) (sha256 : Bytes -> Bytes) (ap : AuthProvider).

Abbreviation provider := (waiting (Conn N Attr) AuthError) (only parsing).
Definition transport {A} (m : outcome TransportErr A) : outcome AuthError A :=
  map_err AuthProviderError.TransportError m.
(** Requests of other namespaces are only read from. *)
Definition read {A} (f : N -> outcome TransportErr A) : provider A :=
  fun c => Some (c, transport (f (node c))).
Definition once {A} (r : EngineRequest Attr) (f : N -> N * outcome TransportErr A) : provider A :=
  fun c => let '(c, a) := request r f c in Some (c, transport a).
Definition wait_for {A} (verdict : A -> Verdict A) (r : EngineRequest Attr)
    (f : N -> N * outcome TransportErr A) : provider A := fun c =>
  match wait patience verdict r f c with
  | Some (c, a) => Some (c, transport a)
  | None => None
  end.
Definition send_payload (p : NewPayload) : provider PayloadStatus :=
  wait_for (payload_verdict p) (SendPayload p) (node_new_payload p).

Definition fcu_version (v : Version.t) : outcome AuthError FcuVersion :=
  match v with
  | Version.V6 | Version.V5 => Panic
  | Version.V4 | Version.V3 => Ok FcuV3
  | Version.V2 => Ok FcuV2
  | Version.V1 => Ok FcuV1
  end.
Definition call_forkchoice_updated (state : ForkchoiceState) (attributes : option Attr)
  : provider ForkchoiceUpdated :=
  v ← pure (fcu_version (message_version ap));
  wait_for (fcu_verdict v) (SendForkchoice v state attributes) (node_forkchoice v state attributes).

(** The parameters of the rollup's blocks: all of the genesis block's extra data
    but its first byte, which [from_slice] takes only when it is 8 bytes. *)
Definition op_params : outcome AuthError (option OpPayloadParams) :=
  if is_op then
    let extra := extra_data (genesis_block ap) in
    ensure (9 <=? length extra)%nat AuthProviderError.ExtraDataTooShort;;
    assert_ (length (drop 1 extra) =? 8)%nat;;
    mret (Some {| op_transactions := Some [op_block_info_tx];
                  op_gas_limit := Some (gas_limit (genesis_block ap));
                  op_eip_1559_params := Some (drop 1 extra) |})
  else mret None.
Definition fcu_state (current_head new_head : B256) : ForkchoiceState :=
  {| head_block_hash := new_head; safe_block_hash := current_head; finalized_block_hash := current_head |}.
Definition call_fcu_default (current_head new_head : B256) (timestamp : option Z)
  : provider ForkchoiceUpdated :=
  params ← pure op_params;
  call_forkchoice_updated (fcu_state current_head new_head)
    ((fun t => fcu_payload_attributes t params) <$> timestamp).

Definition invalid_payload (reason : string) : AuthError :=
  AuthProviderError.InvalidPayload (message_version ap) reason.
Definition new_payload_of (payload : ExecutionPayload) (root : option B256) (hashes : list B256)
    (requests : option RequestsOrHash) : outcome AuthError (NewPayload * Version.t) :=
  match payload with
  | PayloadV4 p =>
      root ← ok_or (invalid_payload "parent_beacon_block_root is required for V4 payloads") root;
      requests ← ok_or (invalid_payload "execution_requests is required for V4 payloads") requests;
      mret (NewPayloadV4 p hashes root (request_bytes requests), Version.V4)
  | PayloadV3 p =>
      root ← ok_or (invalid_payload "parent_beacon_block_root is required for V3 payloads") root;
      mret (NewPayloadV3 p hashes root, Version.V3)
  | PayloadV2 p => mret (NewPayloadV2 (v2_inner p) (Some (v2_withdrawals p)), Version.V2)
  | PayloadV1 p => mret (NewPayloadV1 p, Version.V1)
  end.
Definition call_new_payload (payload : ExecutionPayload) (root : option B256) (hashes : list B256)
    (requests : option RequestsOrHash) : provider Version.t :=
  '(p, v) ← pure (new_payload_of payload root hashes requests);
  send_payload p;;
  mret v.

Definition get_payload (id : Bytes) : provider ExecutionPayload :=
  let v := message_version ap in
  match v with
  | Version.V5 | Version.V6 => pure Panic
  | _ => once (SendGetPayload v id) (node_payload v id)
  end.

(** [AdvanceChain]: the node builds on its head, takes the payload, and moves to it. *)
Definition advance_chain (block_time_secs : Z) : provider unit :=
  block ← read node_latest;
  block ← pure (unwrap block);
  let h := header block in
  time ← pure (arith 64 (timestamp h + block_time_secs));
  res ← call_fcu_default (hash h) (hash h) (Some time);
  payload_id ← pure (unwrap (fu_payload_id res));
  payload ← get_payload payload_id;
  call_new_payload payload (Some 0) [] (Some (RequestsHash (default 0 (requests_hash h))));;
  call_fcu_default (hash h) (p_block_hash (payload_v1 payload)) None;;
  mret tt.

Definition block_to_payload (block_num : Z) : provider ExecutionPayload :=
  blk ← read (fun n => node_block n block_num);
  blk ← pure (unwrap blk);
  mret (payload_of_block blk).

(** A block that is missing is reported with the number of the last one. *)
Definition get_block (head : Z) (i : Z) : provider Block :=
  blk ← read (fun n => node_block n i);
  pure (ok_or (AuthProviderError.MissingBlock head) blk).
Fixpoint get_blocks (head : Z) (l : list Z) : provider (list Block) :=
  match l with
  | [] => mret []
  | i :: l => blk ← get_block head i; blks ← get_blocks head l; mret (blk :: blks)
  end.

Definition replay_block (gas_used_before : Z) (prev_block current_block : Block) : provider Z :=
  gas ← pure (arith 128 (gas_used_before + gas_used (header current_block)));
  call_fcu_default (hash (header prev_block)) (hash (header current_block)) None;;
  payload ← block_to_payload (number (header current_block));
  call_new_payload payload (parent_beacon_block_root (header current_block))
    (derive_blob_versioned_hashes sha256 (transactions current_block) None)
    (Some (RequestsHash (default 0 (requests_hash (header current_block)))));;
  mret gas.
(** [blocks.windows(2)]. *)
Fixpoint replay_blocks (gas : Z) (prev_block : Block) (blocks : list Block) : provider Z :=
  match blocks with
  | [] => mret gas
  | b :: blocks => gas ← replay_block gas prev_block b; replay_blocks gas b blocks
  end.
Definition replay_windows (blocks : list Block) : provider Z :=
  match blocks with [] => mret 0 | b :: blocks => replay_blocks 0 b blocks end.

(** The numbers of the blocks that are read: from the parent of the first, up to
    but without the last. *)
Definition replay_range (start_block blocknum_head : Z) : list Z :=
  (fun i => start_block - 1 + i) <$> rangeZ (Z.to_nat (blocknum_head - (start_block - 1))).
Definition replay_chain_segment (start_block : Z) (end_block : option Z) (time_elapsed : Z)
  : provider ChainReplayResults :=
  latest ← read node_block_number;
  let blocknum_head := default latest end_block in
  pure (ensure (start_block <? blocknum_head)
          (AuthProviderError.InvalidBlockRange start_block blocknum_head));;
  pure (ensure (1 <=? start_block) (AuthProviderError.InvalidBlockStart start_block));;
  blocks ← get_blocks blocknum_head (replay_range start_block blocknum_head);
  gas ← replay_windows blocks;
  mret {| cr_gas_used := gas; cr_time_elapsed := time_elapsed |}.
End provider.

(** ** Requests that may be repeated *)

Definition repeats {X} (ms l : list X) : Prop :=
  exists ns : list nat, length ns = length ms /\
    l = concat (zip_with (fun n m => replicate (S n) m) ns ms).

Lemma repeats_nil {X} : repeats (X := X) [] [].
Proof. by exists []. Qed.
Lemma repeats_one {X} (m : X) n : repeats [m] (replicate (S n) m).
Proof. exists [n]. split; [done|]. cbn. by rewrite app_nil_r. Qed.
Lemma repeats_app {X} (ms ms' l l' : list X) :
  repeats ms l -> repeats ms' l' -> repeats (ms ++ ms') (l ++ l').
Proof.
  intros (ns & Hn & ->) (ns' & Hn' & ->). exists (ns ++ ns'). split; [rewrite !length_app; lia|].
  by rewrite zip_with_app, concat_app by done.
Qed.

Section wait_lemmas.
Context {N Attr A : Type} (verdict : A -> Verdict A) (r : EngineRequest Attr)
  (f : N -> N * outcome TransportErr A).

(** Whatever comes of it, a wait has sent its request, and nothing else. *)
Lemma wait_sent patience c c' m :
  wait patience verdict r f c = Some (c', m) -> exists k, sent c' = sent c ++ replicate (S k) r.
Proof.
  revert c. induction patience as [|n IH]; intros c Hw; [done|]. cbn [wait] in Hw. unfold request in Hw.
  destruct (f (node c)) as [n1 [a|e|]]; [destruct (verdict a)| |].
  2: { apply IH in Hw as [k Hk]. exists (S k). rewrite Hk. cbn [sent]. by rewrite <- app_assoc. }
  all: injection Hw as <- _; by exists 0%nat.
Qed.

(** A property of the node that the request keeps. *)
Lemma wait_node (I : N -> Prop) patience c c' m :
  (forall n, I n -> I (f n).1) -> wait patience verdict r f c = Some (c', m) -> I (node c) -> I (node c').
Proof.
  intros Hf. revert c. induction patience as [|n IH]; intros c Hw Hi; [done|]. cbn [wait] in Hw.
  unfold request in Hw. pose proof (Hf _ Hi) as Hi1.
  destruct (f (node c)) as [n1 [a|e|]]; [destruct (verdict a)| |]; cbn in Hi1.
  2: { by eapply IH. }
  all: by injection Hw as <- _.
Qed.

(** The first answer that is final ends the wait. *)
Lemma wait_final patience c n1 a x :
  (0 < patience)%nat -> f (node c) = (n1, Ok a) -> verdict a = Final x ->
  wait patience verdict r f c = Some ({| node := n1; sent := sent c ++ [r] |}, x).
Proof. intros Hp Hf Hv. destruct patience; [lia|]. cbn [wait]. unfold request. by rewrite Hf, Hv. Qed.

(** More patience does not change the answer. *)
Lemma wait_patience p q c x :
  wait p verdict r f c = Some x -> (p <= q)%nat -> wait q verdict r f c = Some x.
Proof.
  revert q c. induction p as [|p IH]; intros q c Hw Hq; [done|]. destruct q as [|q]; [lia|].
  cbn [wait] in *. destruct (request r f c) as [c1 [a|e|]]; [|done..].
  destruct (verdict a); [done|]. apply IH; [done|lia].
Qed.

(** An answer that is never final is waited for for ever. *)
Lemma wait_forever patience (a : A) c :
  (forall n, (f n).2 = Ok a) -> verdict a = Again -> wait patience verdict r f c = None.
Proof.
  intros Hf Hv. revert c. induction patience as [|p IH]; intros c; [done|]. cbn [wait]. unfold request.
  specialize (Hf (node c)). destruct (f (node c)) as [n1 r1]. cbn in Hf. subst r1. by rewrite Hv.
Qed.
End wait_lemmas.

(** ** Replaying blocks *)

(** The blocks of a node, by number. *)
Definition serves {N Attr} `{EN : EngineNode N Attr} (chain : Z -> option Block) (n : N) : Prop :=
  forall i, node_block n i = Ok (chain i).

(** A node that keeps its blocks while the requests of a replay are sent to it. *)
Class Archive (N Attr : Type) `{EN : EngineNode N Attr} (chain : Z -> option Block) : Prop := {
  archive_payload : forall p n, serves chain n -> serves chain (node_new_payload p n).1;
  archive_forkchoice : forall v s a n, serves chain n -> serves chain (node_forkchoice v s a n).1;
  archive_number : forall i b, chain i = Some b -> number (header b) = i;
  archive_gas : forall i b, chain i = Some b -> 0 <= gas_used (header b) < 2 ^ 64;
}.

Section replay.
Context {P : Profile} {N Attr : Type} `{NA : !NetworkAttributes Attr, EN : !EngineNode N Attr}.
Variables (patience : nat) (op_block_info_tx : Bytes) (sha256 : Bytes -> Bytes) (ap : AuthProvider).
Context (chain : Z -> option Block) `{AR : !Archive N Attr chain}.

(** What is sent for a block, given the one before. *)
Definition replayed (prev_block current_block : Block) : list (EngineRequest Attr) :=
  match fcu_version (message_version ap),
        new_payload_of ap (payload_of_block current_block) (parent_beacon_block_root (header current_block))
          (derive_blob_versioned_hashes sha256 (transactions current_block) None)
          (Some (RequestsHash (default 0 (requests_hash (header current_block))))) with
  | Ok v, Ok (p, _) =>
      [SendForkchoice v {| head_block_hash := hash (header current_block);
                           safe_block_hash := hash (header prev_block);
                           finalized_block_hash := hash (header prev_block) |} None;
       SendPayload p]
  | _, _ => []
  end.

Lemma wait_for_ok {A} (verdict : A -> Verdict A) r f (c c' : Conn N Attr) a :
  wait_for patience verdict r f c = Some (c', Ok a) -> wait patience verdict r f c = Some (c', Ok a).
Proof.
  unfold wait_for, transport. destruct (wait _ _ _ _ _) as [[c1 [x|e|]]|]; naive_solver.
Qed.

Lemma fcu_sent cur new t (c c' : Conn N Attr) res :
  call_fcu_default patience op_block_info_tx ap cur new t c = Some (c', Ok res) -> serves chain (node c) ->
  serves chain (node c') /\ exists v params k, fcu_version (message_version ap) = Ok v /\
    op_params (Attr := Attr) op_block_info_tx ap = Ok params /\
    sent c' = sent c ++ replicate (S k)
      (SendForkchoice v (fcu_state cur new) ((fun t => fcu_payload_attributes t params) <$> t)).
Proof.
  intros H Hs. unfold call_fcu_default, call_forkchoice_updated in H. inv_waiting.
  match goal with H : wait_for _ _ _ _ _ = _ |- _ => apply wait_for_ok in H as Hw end.
  split; [by eapply (wait_node _ _ _ (serves chain)); [|exact Hw|]; auto using archive_payload, archive_forkchoice|].
  apply wait_sent in Hw as [k Hk]. by eexists _, _, k.
Qed.

Lemma call_new_payload_sent payload root hashes requests (c c' : Conn N Attr) v :
  call_new_payload patience ap payload root hashes requests c = Some (c', Ok v) -> serves chain (node c) ->
  serves chain (node c') /\ exists p k, new_payload_of ap payload root hashes requests = Ok (p, v) /\
    sent c' = sent c ++ replicate (S k) (SendPayload p).
Proof.
  intros H Hs. unfold call_new_payload in H. inv_waiting. destruct x0 as [p v']. inv_waiting.
  match goal with H : send_payload _ _ _ = _ |- _ => apply wait_for_ok in H as Hw end.
  split; [by eapply (wait_node _ _ _ (serves chain)); [|exact Hw|]; auto using archive_payload, archive_forkchoice|].
  apply wait_sent in Hw as [k Hk]. by exists p, k.
Qed.

Lemma block_to_payload_ok k (c c' : Conn N Attr) payload :
  block_to_payload k c = Some (c', Ok payload) -> serves chain (node c) ->
  exists b, chain k = Some b /\ c' = c /\ payload = payload_of_block b.
Proof.
  intros H Hs. unfold block_to_payload, read in H. inv_waiting.
  rewrite Hs in *. simplify_eq/=. by eexists.
Qed.

Lemma replay_block_sent gas prev cur (c c' : Conn N Attr) gas' :
  replay_block patience op_block_info_tx sha256 ap gas prev cur c = Some (c', Ok gas') ->
  serves chain (node c) -> chain (number (header cur)) = Some cur ->
  serves chain (node c') /\ arith (E := AuthError) 128 (gas + gas_used (header cur)) = Ok gas' /\
  exists new, repeats (replayed prev cur) new /\ sent c' = sent c ++ new.
Proof.
  intros H Hs Hc. unfold replay_block in H. inv_waiting.
  rename select (call_fcu_default _ _ _ _ _ _ _ = _) into Hf. apply fcu_sent in Hf as [Hs1 Hf]; [|done].
  destruct Hf as (v & params & k & Hv & _ & Hsent).
  rename select (block_to_payload _ _ = _) into Hb.
  apply block_to_payload_ok in Hb as (b & Hb & -> & ->); [|done]. rewrite Hc in Hb. injection Hb as <-.
  rename select (call_new_payload _ _ _ _ _ _ _ = _) into Hn.
  apply call_new_payload_sent in Hn as [Hs2 Hn]; [|done]. destruct Hn as (p & j & Hp & Hsent').
  split_and!; [done|done|]. exists (replicate (S k) (SendForkchoice v (fcu_state (hash (header prev))
    (hash (header cur))) None) ++ replicate (S j) (SendPayload p)). split.
  - unfold replayed. rewrite Hv, Hp. apply (repeats_app [_] [_]); apply repeats_one.
  - rewrite Hsent', Hsent, <- app_assoc. done.
Qed.

Lemma replay_blocks_sent gas prev blocks (c c' : Conn N Attr) g :
  replay_blocks patience op_block_info_tx sha256 ap gas prev blocks c = Some (c', Ok g) ->
  serves chain (node c) -> Forall (fun b => chain (number (header b)) = Some b) blocks ->
  0 <= gas -> gas + 2 ^ 64 * Z.of_nat (length blocks) < 2 ^ 128 ->
  g = gas + sumZ ((fun b => gas_used (header b)) <$> blocks) /\
  exists new, repeats (concat (zip_with replayed (prev :: blocks) blocks)) new /\ sent c' = sent c ++ new.
Proof.
  revert gas prev c. induction blocks as [|b blocks IH]; intros gas prev c H Hs Hb Hg Hlen.
  - cbn in H. inv_waiting. cbn. split; [lia|]. exists []. split; [apply repeats_nil|by rewrite app_nil_r].
  - cbn [replay_blocks] in H. inv_waiting. apply Forall_cons in Hb as [Hb Hbs].
    rename select (replay_block _ _ _ _ _ _ _ _ = _) into Hr.
    apply replay_block_sent in Hr as (Hs1 & Ha & new & Hnew & Hsent); [|done..].
    pose proof (archive_gas _ _ Hb) as Hgas. cbn [length] in Hlen. rewrite Nat2Z.inj_succ in Hlen.
    rewrite arith_in in Ha by lia. injection Ha as <-.
    rename select (replay_blocks _ _ _ _ _ _ _ _ = _) into Hr.
    apply IH in Hr as (-> & new' & Hnew' & Hsent'); [|done|done|lia|lia].
    split; [cbn; lia|]. exists (new ++ new'). split; [by apply repeats_app|].
    by rewrite Hsent', Hsent, app_assoc.
Qed.

Lemma get_blocks_ok head l (c c' : Conn N Attr) blocks :
  get_blocks head l c = Some (c', Ok blocks) -> serves chain (node c) ->
  c' = c /\ Forall2 (fun i b => chain i = Some b) l blocks.
Proof.
  intros H Hs. revert blocks H. induction l as [|i l IH]; intros blocks H; cbn [get_blocks] in H; inv_waiting.
  - by split.
  - rename select (get_block _ _ _ = _) into Hb. unfold get_block, read in Hb. inv_waiting.
    rewrite Hs in *. simplify_eq/=. rename select (get_blocks _ _ _ = _) into Hl.
    apply IH in Hl as [-> Hl]. split; [done|]. by constructor.
Qed.

Definition range_from (start n : Z) : list Z := Z.add start <$> rangeZ (Z.to_nat n).
Lemma replay_range_cons start head :
  start <= head -> replay_range start head = (start - 1) :: range_from start (head - start).
Proof.
  intros H. unfold replay_range, range_from, rangeZ.
  replace (Z.to_nat (head - (start - 1))) with (S (Z.to_nat (head - start))) by lia.
  cbn [seq]. rewrite !fmap_cons. f_equal; [lia|]. rewrite <- fmap_S_seq, <- !list_fmap_compose.
  apply list_fmap_ext. intros i x _. cbn. lia.
Qed.

(** A replay that has succeeded is the replay of the blocks it has read. *)
Lemma replay_chain_split start_block end_block time_elapsed (c c' : Conn N Attr) r latest :
  let last := default latest end_block in
  serves chain (node c) -> node_block_number (node c) = Ok latest -> last < 2 ^ 64 ->
  replay_chain_segment patience op_block_info_tx sha256 ap start_block end_block time_elapsed c =
    Some (c', Ok r) ->
  exists before blocks gas, 1 <= start_block < last /\ chain (start_block - 1) = Some before /\
    Forall2 (fun i b => chain i = Some b) (range_from start_block (last - start_block)) blocks /\
    replay_blocks patience op_block_info_tx sha256 ap 0 before blocks c = Some (c', Ok gas) /\
    Forall (fun b => chain (number (header b)) = Some b) blocks /\
    0 + 2 ^ 64 * Z.of_nat (length blocks) < 2 ^ 128 /\
    r = {| cr_gas_used := gas; cr_time_elapsed := time_elapsed |}.
Proof.
  intros last Hs Hn Hlast H. unfold replay_chain_segment, read in H.
  apply waiting_bind_ok in H as (c1 & n & Hr & H). cbv beta in Hr. rewrite Hn in Hr.
  injection Hr as <- <-. fold last in H. inv_waiting.
  rename select (start_block <? last = true) into Hlt. apply Z.ltb_lt in Hlt.
  rename select (1 <=? start_block = true) into Hge. apply Z.leb_le in Hge.
  rename select (get_blocks _ _ _ = _) into Hb. apply get_blocks_ok in Hb as [-> Hb]; [|done].
  rewrite replay_range_cons in Hb by lia.
  apply Forall2_cons_inv_l in Hb as (before & blocks & Hbefore & Hb & ->).
  rename select (replay_windows _ _ _ _ _ _ = _) into Hr. cbn [replay_windows] in Hr.
  pose proof (Forall2_length _ _ _ Hb) as Hlen. unfold range_from in Hlen.
  rewrite length_fmap, rangeZ_length in Hlen.
  exists before, blocks. eexists. split_and!; [lia..|done|done|exact Hr| | |reflexivity].
  - clear -Hb AR. induction Hb; constructor; [|done]. by erewrite (archive_number x).
  - change (2 ^ 128) with (2 ^ 64 * 2 ^ 64). nia.
Qed.

(** C30: When the replay of a range of blocks succeeds, the node was sent, for each
    block from the first up to the one before the last, in order, the move of the
    head to that block from the one before it and the payload that block has,
    each as often as it took to be accepted, and nothing else; the gas reported
    is that of these blocks.  The last block of the range is not replayed. *)
Theorem replay_chain_ok start_block end_block time_elapsed (c c' : Conn N Attr) r latest :
  let last := default latest end_block in
  serves chain (node c) -> node_block_number (node c) = Ok latest -> last < 2 ^ 64 ->
  replay_chain_segment patience op_block_info_tx sha256 ap start_block end_block time_elapsed c =
    Some (c', Ok r) ->
  exists before blocks new, 1 <= start_block < last /\ chain (start_block - 1) = Some before /\
    Forall2 (fun i b => chain i = Some b) (range_from start_block (last - start_block)) blocks /\
    repeats (concat (zip_with replayed (before :: blocks) blocks)) new /\ sent c' = sent c ++ new /\
    cr_gas_used r = sumZ ((fun b => gas_used (header b)) <$> blocks).
Proof.
  intros last Hs Hn Hlast H.
  apply (replay_chain_split _ _ _ _ _ _ latest) in H as (before & blocks & gas & Hr & Hbefore & Hb & H & Hnum & Hlen & ->);
    [|done..].
  apply replay_blocks_sent in H as (-> & new & Hnew & Hsent); [|done|done|lia|done].
  by exists before, blocks, new.
Qed.
End replay.

(** ** A node that is syncing *)

Section syncing.
Context {P : Profile} {N Attr : Type} `{NA : !NetworkAttributes Attr, EN : !EngineNode N Attr}.
Variables (patience : nat).

(** The first two versions of [engine_newPayload] wait for such a node for ever,
    the others give up at its first answer. *)
Lemma syncing_payload p (c : Conn N Attr) :
  (forall n, (node_new_payload p n).2 = Ok Syncing) -> (0 < patience)%nat ->
  match p with
  | NewPayloadV1 _ | NewPayloadV2 _ _ => send_payload patience p c = None
  | _ => exists c', send_payload patience p c =
           Some (c', Err (AuthProviderError.TransportError (UnsupportedFeature NO_CANONICAL_STATE)))
  end.
Proof.
  intros Hn Hp. unfold send_payload, wait_for. destruct p.
  1,2: by rewrite (wait_forever _ _ _ _ Syncing).
  all: specialize (Hn (node c)); destruct (node_new_payload _ _) as [n1 r] eqn:He; cbn in Hn; subst r;
    erewrite wait_final by (exact Hp || exact He || reflexivity); by eexists.
Qed.

(** With forkchoice updates it is the other way round: the last version waits. *)
Lemma syncing_forkchoice ap state attributes (c : Conn N Attr) v :
  fcu_version (message_version ap) = Ok v -> (0 < patience)%nat ->
  (forall n, exists id, (node_forkchoice v state attributes n).2 =
     Ok {| fu_status := Syncing; fu_payload_id := id |}) ->
  match v with
  | FcuV3 => call_forkchoice_updated patience ap state attributes c = None
  | _ => exists c', call_forkchoice_updated patience ap state attributes c =
           Some (c', Err (AuthProviderError.TransportError (UnsupportedFeature NO_CANONICAL_STATE)))
  end.
Proof.
  intros Hv Hp Hn. unfold call_forkchoice_updated. rewrite Hv. unfold mbind, waiting_bind, pure, wait_for.
  destruct v.
  1,2: destruct (Hn (node c)) as [id Hid]; destruct (node_forkchoice _ _ _ _) as [n1 r] eqn:He;
    cbn in Hid; subst r; erewrite wait_final by (exact Hp || exact He || reflexivity); by eexists.
  clear Hp. revert c. induction patience as [|k IH]; intros c; [done|]. cbn [wait]. unfold request.
  destruct (Hn (node c)) as [id Hid]. destruct (node_forkchoice _ _ _ _) as [n1 r]; cbn in Hid; subst r.
  apply IH.
Qed.
End syncing.

(** ** Advancing the chain *)

Definition payload_inner (p : NewPayload) : ExecutionPayloadV1 :=
  match p with
  | NewPayloadV1 p | NewPayloadV2 p _ => p
  | NewPayloadV3 p _ _ => v2_inner (v3_inner p)
  | NewPayloadV4 p _ _ _ => v2_inner (v3_inner (v4_inner p))
  end.

(** The forks of the engine API that its methods tell apart, by the time of a block. *)
Inductive Fork := Paris | Shanghai | Cancun | Prague.
#[export] Instance fork_eq_decision : EqDecision Fork.
Proof. solve_decision. Defined.

(** The attributes that a version of [engine_forkchoiceUpdated] takes at a fork. *)
Definition attributes_of_fork (f : Fork) (v : FcuVersion) (a : PayloadAttributes) : bool :=
  match f, v, pa_withdrawals a, pa_parent_beacon_block_root a with
  | Paris, (FcuV1 | FcuV2), None, None => true
  | Shanghai, FcuV2, Some _, None => true
  | (Cancun | Prague), FcuV3, Some _, Some _ => true
  | _, _, _, _ => false
  end.
(** The version of [engine_getPayload] that hands out the blocks of a fork. *)
Definition get_payload_of_fork (f : Fork) (v : Version.t) : bool :=
  match f, v with
  | Paris, (Version.V1 | Version.V2) | Shanghai, Version.V2 => true
  | Cancun, Version.V3 | Prague, Version.V4 => true
  | _, _ => false
  end.
(** The forks whose payloads a version of [engine_newPayload] takes. *)
Definition payload_of_fork (f : Fork) (p : NewPayload) : bool :=
  match f, p with
  | Paris, (NewPayloadV1 _ | NewPayloadV2 _ None) | Shanghai, NewPayloadV2 _ (Some _) => true
  | Cancun, NewPayloadV3 _ _ _ | Prague, NewPayloadV4 _ _ _ _ => true
  | _, _ => false
  end.
(** A payload is sent as it was handed out. *)
Definition hands_back (p : NewPayload) (built : ExecutionPayload) : Prop :=
  match p, built with
  | NewPayloadV1 p, PayloadV1 p' | NewPayloadV2 p None, PayloadV1 p' => p = p'
  | NewPayloadV2 p (Some w), PayloadV2 p' => p' = {| v2_withdrawals := w; v2_inner := p |}
  | NewPayloadV3 p _ _, PayloadV3 p' => p = p'
  | NewPayloadV4 p _ _ _, PayloadV3 p' => v4_inner p = p'
  | _, _ => False
  end.
(** What a payload is sent with besides: the hashes of its blobs, the beacon root. *)
Definition sent_hashes (p : NewPayload) : list B256 :=
  match p with NewPayloadV3 _ h _ | NewPayloadV4 _ h _ _ => h | _ => [] end.
Definition sent_root (p : NewPayload) : option B256 :=
  match p with NewPayloadV3 _ _ r | NewPayloadV4 _ _ r _ => Some r | _ => None end.

(** What a node was asked to build. *)
Record BuildJob := { job_parent : B256; job_attributes : PayloadAttributes }.

(** What the engine API promises of a node that is in sync.  It moves to a block it
    knows when the safe and the finalized hash are of that block or its parent; it
    starts to build on it when the attributes are those of the fork and the version,
    and their time is later than the block's.  The version of the fork hands out what
    was built, and the version of the fork takes it back when the blob hashes and
    the beacon root are the block's.  The versions from the third on refuse the
    payloads of another fork. *)
Class EngineLaws (N : Type) `{EN : !EngineNode N PayloadAttributes} := {
  schedule : Z -> Fork;
  head : N -> Header;
  known : N -> Header -> Prop;
  building : N -> Bytes -> option BuildJob;
  built : N -> BuildJob -> ExecutionPayload -> Prop;
  blob_hashes : ExecutionPayload -> list B256;

  law_latest : forall n, exists b, node_latest n = Ok (Some b) /\ header b = head n;
  law_head : forall n, known n (head n);
  law_forkchoice : forall v s a n h, known n h -> hash h = head_block_hash s ->
    safe_block_hash s = hash h \/ safe_block_hash s = parent_hash h ->
    finalized_block_hash s = safe_block_hash s ->
    (forall a', a = Some a' -> timestamp h < pa_timestamp a' /\
       attributes_of_fork (schedule (pa_timestamp a')) v a' = true) ->
    exists n' id, node_forkchoice v s a n = (n', Ok {| fu_status := Valid; fu_payload_id := id |}) /\
      head n' = h /\ (forall x, known n x -> known n' x) /\
      (forall a', a = Some a' -> exists i, id = Some i /\
         building n' i = Some {| job_parent := hash h; job_attributes := a' |});
  law_get_payload : forall v i n job, building n i = Some job ->
    get_payload_of_fork (schedule (pa_timestamp (job_attributes job))) v = true ->
    exists n' p, node_payload v i n = (n', Ok p) /\ head n' = head n /\
      (forall x, known n x -> known n' x) /\ built n' job p /\
      p_parent_hash (payload_v1 p) = job_parent job /\
      p_timestamp (payload_v1 p) = pa_timestamp (job_attributes job);
  law_new_payload : forall q p n job, built n job p -> hands_back q p ->
    payload_of_fork (schedule (p_timestamp (payload_inner q))) q = true ->
    sent_hashes q = blob_hashes p -> sent_root q = pa_parent_beacon_block_root (job_attributes job) ->
    (exists x, known n x /\ hash x = p_parent_hash (payload_inner q)) ->
    exists n' h, node_new_payload q n = (n', Ok Valid) /\ known n' h /\
      hash h = p_block_hash (payload_inner q) /\ parent_hash h = p_parent_hash (payload_inner q) /\
      timestamp h = p_timestamp (payload_inner q);
  law_unsupported_fork : forall q n,
    match q with NewPayloadV3 _ _ _ | NewPayloadV4 _ _ _ _ => true | _ => false end = true ->
    payload_of_fork (schedule (p_timestamp (payload_inner q))) q = false ->
    exists n' e, node_new_payload q n = (n', Err e) /\ head n' = head n;
}.

Section advance.
Context {P : Profile} {N : Type} `{EL : EngineLaws N}.
Variables (patience : nat) (op_block_info_tx : Bytes) (ap : AuthProvider).
Hypothesis Hpatience : (0 < patience)%nat.

Lemma payload_verdict_valid p : payload_verdict p Valid = Final (Ok Valid).
Proof. by destruct p. Qed.

Lemma fcu_default_run cur new t (c : Conn N PayloadAttributes) h v :
  fcu_version (message_version ap) = Ok v -> known (node c) h -> hash h = new ->
  cur = hash h \/ cur = parent_hash h ->
  (forall time, t = Some time -> timestamp h < time /\
     attributes_of_fork (schedule time) v (eth_attributes time) = true) ->
  exists c' res, call_fcu_default patience op_block_info_tx ap cur new t c = Some (c', Ok res) /\
    head (node c') = h /\ (forall x, known (node c) x -> known (node c') x) /\
    (forall time, t = Some time -> exists i, fu_payload_id res = Some i /\
       building (node c') i = Some {| job_parent := new; job_attributes := eth_attributes time |}).
Proof.
  intros Hv Hk Hh Hs Ht. unfold call_fcu_default, op_params, call_forkchoice_updated. cbn [is_op ethereum].
  rewrite Hv. unfold mret, outcome_ret, mbind at 1 2, waiting_bind, pure, wait_for.
  destruct (law_forkchoice v (fcu_state cur new) (eth_attributes <$> t) (node c) h Hk Hh Hs eq_refl)
    as (n' & id & Hf & Hhead & Hkn & Hb).
  { intros a Ha. apply fmap_Some in Ha as (time & -> & ->). by apply Ht. }
  erewrite wait_final by (exact Hpatience || exact Hf || reflexivity). eexists _, _. split; [reflexivity|].
  cbn [node fu_payload_id]. split_and!; [done|done|]. intros time ->.
  destruct (Hb _ eq_refl) as (i & -> & Hi). exists i. split; [done|]. by rewrite Hi, Hh.
Qed.

Lemma get_payload_run i job (c : Conn N PayloadAttributes) :
  building (node c) i = Some job ->
  get_payload_of_fork (schedule (pa_timestamp (job_attributes job))) (message_version ap) = true ->
  exists c' p, get_payload ap i c = Some (c', Ok p) /\ head (node c') = head (node c) /\
    (forall x, known (node c) x -> known (node c') x) /\ built (node c') job p /\
    p_parent_hash (payload_v1 p) = job_parent job /\
    p_timestamp (payload_v1 p) = pa_timestamp (job_attributes job).
Proof.
  intros Hb Hf. destruct (law_get_payload (message_version ap) i (node c) job Hb Hf) as (n' & p & Hget & H).
  exists {| node := n'; sent := sent c ++ [SendGetPayload (message_version ap) i] |}, p.
  split; [|exact H]. unfold get_payload.
  destruct (message_version ap); try (by destruct (schedule _)); unfold once, request; by rewrite Hget.
Qed.

(** The answer to one payload that ends the wait for it. *)
Lemma send_payload_run q (c : Conn N PayloadAttributes) n' r :
  node_new_payload q (node c) = (n', r) -> match r with Ok s => s = Valid | _ => True end ->
  exists c', send_payload patience q c = Some (c', transport r) /\ node c' = n'.
Proof.
  intros Hq Hr. exists {| node := n'; sent := sent c ++ [SendPayload q] |}. split; [|done].
  unfold send_payload, wait_for. destruct patience as [|k]; [lia|]. cbn [wait]. unfold request. rewrite Hq.
  destruct r as [s|e|]; [|done..]. by rewrite Hr, payload_verdict_valid.
Qed.

(** The steps up to the payload, in the versions that build: the third and, where
    the blocks are of the next fork, the fourth. *)
Lemma advance_built block_time (c : Conn N PayloadAttributes) :
  let h := head (node c) in let time := timestamp h + block_time in
  0 < block_time -> 0 <= time < 2 ^ 64 ->
  message_version ap = Version.V3 /\ schedule time = Cancun \/
  message_version ap = Version.V4 /\ schedule time = Prague ->
  exists c' (p : ExecutionPayloadV3), head (node c') = h /\ known (node c') h /\
    built (node c') {| job_parent := hash h; job_attributes := eth_attributes time |} (PayloadV3 p) /\
    p_parent_hash (v2_inner (v3_inner p)) = hash h /\ p_timestamp (v2_inner (v3_inner p)) = time /\
    advance_chain patience op_block_info_tx ap block_time c =
      (send_payload patience (NewPayloadV3 p [] 0);;
       call_fcu_default patience op_block_info_tx ap (hash h) (p_block_hash (v2_inner (v3_inner p))) None;;
       mret tt) c'.
Proof.
  intros h time Hbt Ht Hv. destruct (law_latest (node c)) as (b & Hb & Hh).
  destruct (fcu_default_run (hash h) (hash h) (Some time) c h FcuV3)
    as (c1 & res & Hf & Hh1 & Hk1 & Hb1); [by destruct Hv as [[-> _]|[-> _]]|apply law_head|done|by left| |].
  { intros ? [= <-]. split; [lia|]. by destruct Hv as [[_ ->]|[_ ->]]. }
  destruct (Hb1 _ eq_refl) as (i & Hi & Hbuild).
  destruct (get_payload_run i _ c1 Hbuild) as (c2 & p & Hg & Hh2 & Hk2 & Hbuilt & Hparent & Htime).
  { cbn. by destruct Hv as [[-> ->]|[-> ->]]. }
  assert (Hp : exists p3, p = PayloadV3 p3).
  { clear - Hv Hg. unfold get_payload, once, request, node_payload in Hg.
    destruct Hv as [[E _]|[E _]]; rewrite E in Hg; cbv beta iota zeta in Hg;
      [destruct (node_get_payload_v3 i (node c1)) as [? [x|?|]]
      |destruct (node_get_payload_v4 i (node c1)) as [? [x|?|]]]; cbn in Hg; try done;
      injection Hg as _ <-; by exists x. }
  destruct Hp as [p3 ->]. exists c2, p3. split_and!; [by rewrite Hh2|apply Hk2, Hk1, law_head|done..|].
  unfold advance_chain. erewrite waiting_bind_run by (unfold read; rewrite Hb; reflexivity).
  cbn [unwrap]. erewrite waiting_bind_run by reflexivity. rewrite Hh.
  erewrite waiting_bind_run by (unfold pure; rewrite arith_in by exact Ht; reflexivity).
  erewrite waiting_bind_run by exact Hf. rewrite Hi. erewrite waiting_bind_run by reflexivity.
  erewrite waiting_bind_run by exact Hg. cbn [payload_v1]. unfold call_new_payload, mbind, waiting_bind. cbn.
  by destruct (send_payload _ _ _) as [[? [?|?|]]|].
Qed.

End advance.

(** ** A small node, and the theorems on it *)

Module EngineWitness.
#[export] Instance checked_build : Profile := true.

(** The blocks after the genesis block, by their parents and times; a block's
    hash is its place.  The Prague fork is at time 100. *)
Record ToyNode := { toy_tail : list (B256 * Z); toy_head : nat; toy_build : option BuildJob }.
Definition toy_schedule (time : Z) : Fork := if time <? 100 then Cancun else Prague.
Definition unsupported_fork {A} : outcome TransportErr A := Err (OtherTransport "-38005: Unsupported fork").
Definition toy_blocks (n : ToyNode) : list (B256 * Z) := (0, 0) :: toy_tail n.
Definition toy_header (l : list (B256 * Z)) (i : nat) : Header := {|
  hash := Z.of_nat i; parent_hash := (default (0, 0) (l !! i)).1; beneficiary := 0; state_root := 0;
  receipts_root := 0; logs_bloom := []; mix_hash := None; number := Z.of_nat i; gas_limit := 30000000;
  gas_used := 21000 * Z.of_nat i; timestamp := (default (0, 0) (l !! i)).2; extra_data := [];
  base_fee_per_gas := Some 7; blob_gas_used := Some 0; excess_blob_gas := Some 0;
  requests_hash := None; parent_beacon_block_root := Some 0 |}.
Definition toy_block (l : list (B256 * Z)) (i : nat) : Block :=
  {| header := toy_header l i; transactions := []; withdrawals := None |}.
Definition toy_payload (n : ToyNode) (parent : B256) (time : Z) : ExecutionPayloadV1 := {|
  p_block_hash := Z.of_nat (length (toy_blocks n)); p_parent_hash := parent; p_fee_recipient := 0;
  p_state_root := 0; p_receipts_root := 0; p_logs_bloom := []; p_prev_randao := 0;
  p_block_number := 0; p_gas_limit := 30000000; p_gas_used := 0; p_timestamp := time;
  p_extra_data := []; p_base_fee_per_gas := 7; p_transactions := [] |}.
Definition toy_v3 (p : ExecutionPayloadV1) : ExecutionPayloadV3 :=
  {| v3_inner := {| v2_withdrawals := []; v2_inner := p |}; v3_blob_gas_used := 0; v3_excess_blob_gas := 0 |}.

Definition toy_new_payload (q : NewPayload) (n : ToyNode) : ToyNode * outcome TransportErr PayloadStatus :=
  let p := payload_inner q in
  if negb (payload_of_fork (toy_schedule (p_timestamp p)) q) then (n, unsupported_fork)
  else if p_block_hash p =? Z.of_nat (length (toy_blocks n)) then
    ({| toy_tail := toy_tail n ++ [(p_parent_hash p, p_timestamp p)]; toy_head := toy_head n;
        toy_build := toy_build n |}, Ok Valid)
  else (n, Ok (if p_block_hash p <? Z.of_nat (length (toy_blocks n)) then Valid else Syncing)).
(** The attributes of a block that can be built on a block. *)
Definition toy_accepts (v : FcuVersion) (time : Z) (a : PayloadAttributes) : bool :=
  (time <? pa_timestamp a) && attributes_of_fork (toy_schedule (pa_timestamp a)) v a.
Definition toy_forkchoice (v : FcuVersion) (s : ForkchoiceState) (a : option PayloadAttributes) (n : ToyNode)
  : ToyNode * outcome TransportErr ForkchoiceUpdated :=
  let i := Z.to_nat (head_block_hash s) in
  if (0 <=? head_block_hash s) && (head_block_hash s <? Z.of_nat (length (toy_blocks n))) then
    if from_option (toy_accepts v (timestamp (toy_header (toy_blocks n) i))) true a then
      ({| toy_tail := toy_tail n; toy_head := i;
          toy_build := (fun a => {| job_parent := head_block_hash s; job_attributes := a |}) <$> a |},
       Ok {| fu_status := Valid; fu_payload_id := (fun _ => []) <$> a |})
    else (n, Err (OtherTransport "-38003: Invalid payload attributes"))
  else (n, Ok {| fu_status := Syncing; fu_payload_id := None |}).
Definition toy_get {A} (v : Version.t) (make : ExecutionPayloadV1 -> A) (n : ToyNode)
  : ToyNode * outcome TransportErr A :=
  (n, match toy_build n with
      | Some {| job_parent := parent; job_attributes := a |} =>
          if get_payload_of_fork (toy_schedule (pa_timestamp a)) v
          then Ok (make (toy_payload n parent (pa_timestamp a))) else unsupported_fork
      | None => Err (OtherTransport "unknown payload")
      end).
Definition toy_head_header (n : ToyNode) : Header :=
  toy_header (toy_blocks n) (Nat.min (toy_head n) (length (toy_tail n))).

(** The blocks there are at first can be asked for. *)
Definition toy_start : ToyNode :=
  {| toy_tail := [(0, 12); (1, 24); (2, 36)]; toy_head := 3; toy_build := None |}.
Definition toy_chain (i : Z) : option Block :=
  if (0 <=? i) && (i <? 4) then Some (toy_block (toy_blocks toy_start) (Z.to_nat i)) else None.
#[export] Instance toy_node : EngineNode ToyNode PayloadAttributes := {|
  node_new_payload := toy_new_payload;
  node_forkchoice := toy_forkchoice;
  node_get_payload_v1 _ := toy_get Version.V1 id;
  node_get_payload_v2 _ := toy_get Version.V2 inl;
  node_get_payload_v3 _ := toy_get Version.V3 toy_v3;
  node_get_payload_v4 _ := toy_get Version.V4 toy_v3;
  node_latest n := Ok (Some {| header := toy_head_header n; transactions := []; withdrawals := None |});
  node_block_number n := Ok (Z.of_nat (toy_head n));
  node_block _ i := Ok (toy_chain i) |}.

#[export] Instance toy_archive : Archive ToyNode PayloadAttributes toy_chain.
Proof.
  constructor; [done|done|intros i b Hi..].
  all: unfold toy_chain in Hi; destruct (Z.leb_spec 0 i), (Z.ltb_spec i 4); [|discriminate Hi..];
    injection Hi as <-; cbn; lia.
Qed.

Definition toy_known (n : ToyNode) (h : Header) : Prop :=
  exists i, (i < length (toy_blocks n))%nat /\ h = toy_header (toy_blocks n) i.
Lemma toy_known_grows n e h b x :
  toy_known n x -> toy_known {| toy_tail := toy_tail n ++ e; toy_head := h; toy_build := b |} x.
Proof.
  intros (i & Hi & ->). exists i. unfold toy_blocks in *. cbn [length toy_tail] in *. rewrite length_app.
  split; [lia|]. unfold toy_header. by rewrite app_comm_cons, lookup_app_l by (cbn; lia).
Qed.
#[export] Program Instance toy_laws : EngineLaws ToyNode := {|
  schedule := toy_schedule;
  head := toy_head_header;
  known := toy_known;
  building n _ := toy_build n;
  built n job p := p = PayloadV3 (toy_v3 (toy_payload n (job_parent job) (pa_timestamp (job_attributes job))));
  blob_hashes _ := [];
|}.
Next Obligation. intros n. by eexists. Qed.
Next Obligation. intros n. eexists. split; [|reflexivity]. cbn. lia. Qed.
Next Obligation.
  intros v s a n h (i & Hi & ->) Hh _ _ Ha. cbn in Hh. cbn [node_forkchoice toy_node]. unfold toy_forkchoice.
  rewrite <- Hh, Nat2Z.id, (proj2 (Z.leb_le 0 _)), (proj2 (Z.ltb_lt _ _)) by lia. cbn [andb].
  assert (E : from_option (toy_accepts v (timestamp (toy_header (toy_blocks n) i))) true a = true).
  { destruct a as [a|]; [|done]. destruct (Ha a eq_refl) as [Ht Hf]. cbn. unfold toy_accepts.
    by rewrite (proj2 (Z.ltb_lt _ _)) by exact Ht. }
  rewrite E. eexists _, _. split_and!; [reflexivity| | |].
  - unfold toy_head_header. cbn [toy_head toy_tail]. rewrite Nat.min_l; [done|]. cbn in Hi. lia.
  - intros x (j & Hj & ->). by exists j.
  - intros a' ->. exists []. by split.
Qed.
Next Obligation.
  intros v i n [parent a] Hb Hf. cbn in Hb, Hf.
  destruct v; try (by destruct (toy_schedule _)); cbn; unfold toy_get; rewrite Hb, ?Hf;
    try (exfalso; unfold toy_schedule in Hf; by destruct (_ <? _)); eexists _, _; split_and!; done.
Qed.
Next Obligation.
  intros q p n job -> Hback Hfork _ _ _. cbn [node_new_payload toy_node]. unfold toy_new_payload. rewrite Hfork.
  assert (Hp : p_block_hash (payload_inner q) = Z.of_nat (length (toy_blocks n))).
  { destruct q as [|? [] | |[]]; cbn in Hback; try done; by subst. }
  rewrite (proj2 (Z.eqb_eq _ _) Hp). cbn [negb].
  eexists _, (toy_header (toy_blocks n ++ [(p_parent_hash (payload_inner q), p_timestamp (payload_inner q))])
                (length (toy_blocks n))).
  split_and!; [reflexivity| | | |].
  - exists (length (toy_blocks n)). split; [|done]. unfold toy_blocks. cbn. rewrite length_app. cbn. lia.
  - by rewrite Hp.
  - unfold toy_header. cbn [parent_hash]. by rewrite list_lookup_middle.
  - unfold toy_header. cbn [timestamp]. by rewrite list_lookup_middle.
Qed.
Next Obligation.
  intros q n _ Hf. cbn [node_new_payload toy_node]. unfold toy_new_payload. rewrite Hf. by eexists _, _.
Qed.

Definition toy_provider : AuthProvider :=
  {| genesis_block := toy_header [] 0; message_version := Version.V3; rpc_url := "http" |}.
Definition toy_conn : Conn ToyNode PayloadAttributes := {| node := toy_start; sent := [] |}.

Lemma toy_blocks_read blocks :
  Forall2 (fun i b => toy_chain i = Some b) (range_from 1 2) blocks ->
  blocks = [toy_block (toy_blocks toy_start) 1; toy_block (toy_blocks toy_start) 2].
Proof.
  intros Hb. vm_compute (range_from _ _) in Hb. apply Forall2_cons_inv_l in Hb as (b1 & l1 & H1 & Hb & ->).
  apply Forall2_cons_inv_l in Hb as (b2 & l2 & H2 & Hb & ->). apply Forall2_nil_inv_l in Hb as ->.
  injection H1 as <-. by injection H2 as <-.
Qed.

(** Blocks 1 and 2 are sent, 3 is not. *)
Lemma replay_chain_ok_witness :
  exists c' r, replay_chain_segment 1 [] id toy_provider 1 (Some 3) 9 toy_conn = Some (c', Ok r) /\
    cr_gas_used r = 63000 /\ length (sent c') = 4%nat.
Proof.
  destruct (replay_chain_segment 1 [] id toy_provider 1 (Some 3) 9 toy_conn) as [[c' [r|e|]]|] eqn:H;
    [|exfalso; revert H; vm_compute; discriminate..].
  exists c', r. split; [reflexivity|].
  destruct (replay_chain_ok 1 [] id toy_provider toy_chain 1 (Some 3) 9 toy_conn c' r 3)
    as (before & blocks & new & _ & _ & Hb & _ & Hs & Hg); [done|done|done|exact H|].
  rewrite (toy_blocks_read _ Hb) in Hg.
  split; [exact Hg|]. revert H. vm_compute. by intros [= <- _].
Defined.

Definition toy_prague : AuthProvider :=
  {| genesis_block := toy_header [] 0; message_version := Version.V4; rpc_url := "http" |}.
End EngineWitness.
