(* ===== verification/EngineTransport.v ===== *)
(** * The authenticated transport of the engine API
    ([engine_provider/src/auth_transport.rs])

    Each request carries a token that a node accepts for a limited time.  The
    transport keeps the claims of its token and connects again, with a new one,
    before the token runs out. *)

From Stdlib Require Import Strings.String.
From S2P Require Import Prelude.

Module AuthenticatedTransportError.
Inductive t :=
| InvalidUrl
| LockFailed
| InvalidJwt (e : string)
| TransportError (e url : string)
| HttpConstructionError (e : string)
| BadScheme (scheme : string).
End AuthenticatedTransportError.
Abbreviation TransportError := AuthenticatedTransportError.t.

(** The transports, with the time at which the token they send was made; local
    sockets send none. *)
Inductive InnerTransport := Http (token : Z) | Ws (token : Z) | Ipc.
Definition token_of (t : InnerTransport) : option Z :=
  match t with Http token | Ws token => Some token | Ipc => None end.

(** [Claims], of which only the time they are issued at is used. *)
Record Claims := { iat : Z }.

(** What connecting meets: the time, the encoding of the token, and the client or
    socket. *)
Record ConnectEnv := {
  ce_now : Z;
  ce_encode : outcome unit unit;
  ce_client : outcome string unit;
  ce_socket : outcome string unit;
}.

Section transport.
Context {P : Profile}.
(** The claims' own check, by the time they are issued at and the present. *)
Variable is_within_time_window : Claims -> Z -> bool.
Variables (url scheme : string).

Definition build_auth (env : ConnectEnv) : outcome TransportError Claims :=
  map_err (fun _ => AuthenticatedTransportError.InvalidJwt "failed to encode auth claims with JWT secret")
    (ce_encode env);;
  mret {| iat := ce_now env |}.
Definition connect_http (env : ConnectEnv) : outcome TransportError (InnerTransport * Claims) :=
  claims ← build_auth env;
  map_err AuthenticatedTransportError.HttpConstructionError (ce_client env);;
  mret (Http (iat claims), claims).
Definition connect_ws (env : ConnectEnv) : outcome TransportError (InnerTransport * Claims) :=
  claims ← build_auth env;
  map_err (fun e => AuthenticatedTransportError.TransportError e url) (ce_socket env);;
  mret (Ws (iat claims), claims).
Definition connect_ipc (env : ConnectEnv) : outcome TransportError InnerTransport :=
  map_err (fun e => AuthenticatedTransportError.TransportError e url) (ce_socket env);;
  mret Ipc.
Definition connect (env : ConnectEnv) : outcome TransportError (InnerTransport * Claims) :=
  if String.eqb scheme "http" || String.eqb scheme "https" then connect_http env
  else if String.eqb scheme "ws" || String.eqb scheme "wss" then connect_ws env
  else if String.eqb scheme "file" then
    inner ← connect_ipc env; mret (inner, {| iat := ce_now env |})
  else Err (AuthenticatedTransportError.BadScheme scheme).

Definition AuthenticatedTransport : Type := InnerTransport * Claims.

(** The transport a request goes out on, at the time [now]: a new one when the
    claims, taken to be a second older, are out of their time. *)
Definition request (now : Z) (env : ConnectEnv)
  : stm AuthenticatedTransport TransportError InnerTransport := fun t =>
  match arith 64 (iat t.2 - 1) with
  | Ok shifted =>
      if is_within_time_window {| iat := shifted |} now then (t, Ok t.1)
      else match connect env with
           | Ok t => (t, Ok t.1)
           | Err e => (t, Err e)
           | Panic => (t, Panic)
           end
  | Err e => (t, Err e)
  | Panic => (t, Panic)
  end.

(** Requests one after the other, each with its time and what connecting would
    meet; the lock lets one through at a time. *)
Fixpoint requests (events : list (Z * ConnectEnv)) (t : AuthenticatedTransport)
  : list (Z * outcome TransportError InnerTransport) :=
  match events with
  | [] => []
  | (now, env) :: events => let '(t, r) := request now env t in (now, r) :: requests events t
  end.

(** ** Tokens are fresh *)

(** The documented window of the claims. *)
Variable max_difference : Z.
Hypothesis window : forall c now, is_within_time_window c now = true <-> Z.abs (now - iat c) <= max_difference.
Hypothesis max_difference_pos : 1 <= max_difference.

(** The token that is sent is the one of the claims. *)
Definition token_matches (t : AuthenticatedTransport) : Prop :=
  0 < iat t.2 < 2 ^ 64 /\ forall token, token_of t.1 = Some token -> token = iat t.2.

Lemma connect_matches env t :
  connect env = Ok t -> 0 < ce_now env < 2 ^ 64 -> token_matches t /\ iat t.2 = ce_now env.
Proof.
  unfold connect, connect_http, connect_ws, connect_ipc, build_auth. intros H Hnow.
  repeat case_bool; inv_outcome; cbn; (split; [split; [done|]|done]); cbn; naive_solver.
Qed.

(** Every request that goes out carries a token the node accepts, also when it
    arrives up to a second later, whatever the time between requests, as long as
    the clock does not run backwards. *)
Theorem requests_fresh events t :
  token_matches t -> Forall (fun e => 0 < ce_now e.2 < 2 ^ 64 /\ ce_now e.2 = e.1) events ->
  Forall (fun r => forall inner token, r.2 = Ok inner -> token_of inner = Some token ->
    forall arrival, r.1 <= arrival <= r.1 + 1 -> token <= r.1 -> is_within_time_window {| iat := token |} arrival = true)
    (requests events t).
Proof.
  revert t. induction events as [|[now env] events IH]; intros t Ht He; [constructor|].
  apply Forall_cons in He as [[Hnow Heq] He]. cbn in Hnow, Heq. cbn [requests].
  destruct (request now env t) as [t' r] eqn:Hr. unfold request in Hr.
  rewrite arith_in in Hr by (destruct Ht; lia).
  case_bool; [|destruct (connect env) as [t1|e|] eqn:Hc]; injection Hr as <- <-.
  - constructor; [|by apply IH]. cbn. intros inner token [= <-] Htok arrival Ha Hle.
    apply Ht in Htok as ->. apply window in Hb. apply window. cbn in *. lia.
  - apply connect_matches in Hc as [Hm Hi]; [|done]. constructor; [|by apply IH].
    cbn. intros inner token [= <-] Htok arrival Ha Hle. apply Hm in Htok as ->. apply window. cbn. lia.
  - constructor; [done|]. by apply IH.
  - constructor; [done|]. by apply IH.
Qed.
End transport.

Module EngineTransportWitness.
#[export] Instance checked_build : Profile := true.
Definition env (now : Z) : ConnectEnv :=
  {| ce_now := now; ce_encode := Ok tt; ce_client := Ok tt; ce_socket := Err "refused"%string |}.
Definition sixty (c : Claims) (now : Z) : bool := Z.abs (now - iat c) <=? 60.
Definition times : list (Z * ConnectEnv) := (fun t => (t, env t)) <$> [1000; 1059; 1060; 1500].

(** The second request uses the first token, the others make new ones. *)
Lemma requests_fresh_witness :
  requests sixty "http://node" "http" times (Http 1000, {| iat := 1000 |}) =
    [(1000, Ok (Http 1000)); (1059, Ok (Http 1000)); (1060, Ok (Http 1060)); (1500, Ok (Http 1500))] /\
  sixty {| iat := 1000 |} 1060 = true.
Proof.
  split; [reflexivity|].
  pose proof (requests_fresh sixty "http://node" "http" 60) as H. specialize (H (fun c now => Z.leb_le _ _)).
  specialize (H ltac:(lia) times (Http 1000, {| iat := 1000 |})).
  assert (Hm : token_matches (Http 1000, {| iat := 1000 |})) by (split; [done|by intros token [= <-]]).
  assert (He : Forall (fun e => 0 < ce_now e.2 < 2 ^ 64 /\ ce_now e.2 = e.1) times)
    by (repeat constructor; cbn; lia).
  specialize (H Hm He). apply Forall_cons in H as [_ H]. apply Forall_cons in H as [H _].
  exact (H (Http 1000) 1000 eq_refl eq_refl 1060 ltac:(cbn; lia) ltac:(cbn; lia)).
Defined.
End EngineTransportWitness.
