(* ===== verification/AuthClient.v ===== *)
(** * The engine provider of the commands ([cli/src/util/provider.rs],
      [EngineArgs] of [cli/src/commands/spam.rs])

    The commands use a provider of the engine API through a wrapper that says
    more about its errors: what goes to the log, and the advice printed.  The
    results are the provider's. *)

From Stdlib Require Import Strings.String.
From S2P Require Import Prelude Text Engine.

(** A line of the error log, or one printed. *)
Inductive Line := Logged (s : string) | Printed (s : string).

(** The [Debug] form of a message version. *)
Definition version_debug (v : Version.t) : string :=
  match v with
  | Version.V1 => "V1" | Version.V2 => "V2" | Version.V3 => "V3"
  | Version.V4 => "V4" | Version.V5 => "V5" | Version.V6 => "V6"
  end.

Section client.
(** [bold] of [cli/src/util/utils.rs]: the ANSI sequences around a text. *)
Context (bold : string -> string).

Definition inspect_auth_err (err : AuthError) : list Line :=
  (match err with
   | AuthProviderError.MissingBlock n =>
       [Logged ("block number " +:+ dec n +:+ " was not found onchain")]
   | AuthProviderError.InvalidPayload v msg =>
       [Logged ("invalid payload (tried message version " +:+ version_debug v +:+ "): " +:+ msg);
        Printed ("Try changing the message version with " +:+ bold "-m")]
   | AuthProviderError.InvalidTxs => [Logged "failed to encode txs in block"]
   | AuthProviderError.InvalidBlockRange first last =>
       [Logged ("invalid block range: " +:+ dec first +:+ " - " +:+ dec last)]
   | AuthProviderError.InvalidBlockStart blk => [Logged ("invalid start block: " +:+ dec blk)]
   | AuthProviderError.Internal errs =>
       Logged "AuthClient encountered an internal error. Please check contender_engine_provider debug logs for more details." ::
       (if str_contains "Invalid newPayload" errs then
          [Printed ("You may need to specify a different engine message version with " +:+
                    bold "--message-version (-m)")]
        else if str_contains "data did not match any variant of untagged enum BlockTransactions" errs then
          [Printed ("You may need to add the " +:+ bold "--op" +:+ " flag to target this node.")]
        else if str_contains "Unsupported fork" errs then
          [Printed ("You may need to specify a different engine message version with " +:+
                    bold "--message-version (-m)")]
        else [])
   | AuthProviderError.TransportError _ =>
       [Logged "Failed to connect to the auth API. You may need to enable the auth API on your target node."]
   | AuthProviderError.ExtraDataTooShort =>
       [Logged "Invalid payload.";
        Printed ("You may need to remove the " +:+ bold "--op" +:+ " flag to target this node.")]
   | AuthProviderError.GasLimitRequired =>
       [Logged "Invalid payload.";
        Printed ("You may need to pass the " +:+ bold "--op" +:+ " flag to target this node.")]
   end)%string.

(** [.inspect_err(inspect_auth_err)]. *)
Definition inspected {A} (m : outcome AuthError A) : outcome AuthError A * list Line :=
  (m, match m with Err e => inspect_auth_err e | _ => [] end).

(** The trait [ControlChain], its results already computed; [R] are those of a
    replay. *)
Record ControlChain (R : Type) := {
  cc_advance_chain : Z -> outcome AuthError unit;
  cc_replay_chain_segment : Z -> option Z -> outcome AuthError R;
  cc_genesis_hash : Z;
  cc_rpc_url : string;
}.
Arguments cc_advance_chain {R}. Arguments cc_replay_chain_segment {R}.
Arguments cc_genesis_hash {R}. Arguments cc_rpc_url {R}.

Context {R : Type}.
Record AuthClient := { auth_provider : ControlChain R }.

Definition client_advance_chain (c : AuthClient) (block_time : Z) : outcome AuthError unit * list Line :=
  inspected (cc_advance_chain (auth_provider c) block_time).
Definition client_replay_chain_segment (c : AuthClient) (start_block : Z) (end_block : option Z)
  : outcome AuthError R * list Line :=
  inspected (cc_replay_chain_segment (auth_provider c) start_block end_block).
Definition client_genesis_hash (c : AuthClient) : Z := cc_genesis_hash (auth_provider c).
Definition client_rpc_url (c : AuthClient) : string := cc_rpc_url (auth_provider c).

(** [EngineArgs::new_provider]: a rollup's provider or Ethereum's, made of the
    address, the file with the secret and the version. *)
Record EngineArgs := {
  ea_auth_rpc_url : string;
  ea_jwt_secret : string;
  ea_use_op : bool;
  ea_message_version : Version.t;
}.
Definition new_provider
    (optimism ethereum : string -> string -> Version.t -> outcome AuthError (ControlChain R))
    (a : EngineArgs) : outcome AuthError AuthClient :=
  let from_jwt_file := if ea_use_op a then optimism else ethereum in
  provider ← from_jwt_file (ea_auth_rpc_url a) (ea_jwt_secret a) (ea_message_version a);
  mret {| auth_provider := provider |}.

(** What a node's refusal leads the user to: a rollup's node asked in the way of
    Ethereum is recognised, and so is the reverse, whatever surrounds the node's
    words and whatever else they contain. *)
Lemma node_refusal_advice (text : string) :
  (str_contains GAS_LIMIT_REQUIRED text = true ->
   Printed ("You may need to pass the " +:+ bold "--op" +:+ " flag to target this node.")%string
     ∈ inspect_auth_err (parse_err_str text)) /\
  (str_contains GAS_LIMIT_REQUIRED text = false -> str_contains EXTRA_DATA_TOO_SHORT text = true ->
   Printed ("You may need to remove the " +:+ bold "--op" +:+ " flag to target this node.")%string
     ∈ inspect_auth_err (parse_err_str text)).
Proof.
  unfold parse_err_str. split.
  - intros ->. right. left.
  - intros -> ->. right. left.
Qed.

(** The wrapper changes no result and says nothing of a success. *)
Lemma client_transparent (c : AuthClient) start_block end_block :
  (client_replay_chain_segment c start_block end_block).1 =
    cc_replay_chain_segment (auth_provider c) start_block end_block /\
  forall r, cc_replay_chain_segment (auth_provider c) start_block end_block = Ok r ->
    (client_replay_chain_segment c start_block end_block).2 = [].
Proof. split; [done|]. intros r H. unfold client_replay_chain_segment, inspected. by rewrite H. Qed.
End client.
