(* ===== verification/CliError.v ===== *)
(** * Errors of the command line ([cli/src/error.rs], [cli/src/commands/error.rs],
      [cli/src/util/error.rs])

    Errors of libraries are their text; of an RPC error it is kept whether the
    transport failed. *)

From Stdlib Require Import Strings.String.
From S2P Require Import Prelude Text Alloy Db GenTypes CoreError.

(** alloy's [RpcError<TransportErrorKind>]. *)
Inductive RpcError := Transport (e : string) | OtherRpc (e : string).
Definition rpc_text (e : RpcError) : string := match e with Transport e | OtherRpc e => e end.

Inductive TxTypeCli := CliLegacy | CliEip1559 | CliEip4844 | CliEip7702.
Definition tx_type_of (t : TxTypeCli) : TxType :=
  match t with
  | CliLegacy => Legacy | CliEip1559 => Eip1559 | CliEip4844 => Eip4844 | CliEip7702 => Eip7702
  end.

Inductive ParseDurationError :=
| UnexpectedDigit (input : string)
| NoFloats (input : string)
| InvalidNumber (num : string)
| InvalidUnits (unit : string).

Module UtilError.
Inductive t :=
| EnvVar (e : string)
| Io (e : string)
| ParseDuration (e : ParseDurationError)
| Rpc (e : RpcError)
| BuildTxFailed (e : string)
| DBBackupFailed (e : string)
| DBImportFailed (e : string)
| DBDoesNotExist
| DBExportFailed (e : string)
| InsufficientUserFunds (sender : Address) (have need chain_id : Z).
End UtilError.

Module ArgsError.
Inductive t :=
| BuilderUrlRequiredForBundles
| BundleTypeInvalid
| EngineArgsRequired (auth_rpc_url jwt_secret : option string)
| EngineProviderUninitialized (s : string)
| MinBalanceInsufficient (min_balance required_balance : Z)
| ScenarioFileBuiltinConflict
| SpamNotFound
| SpamRateNotFound
| TransactionsPerDurationInsufficient (min_tpd tpd : Z)
| TxTypeInvalid (current_type required_type : TxTypeCli)
| UrlParse (e : string).
End ArgsError.

Module SetupError.
Inductive t :=
| FundingTxFailed (tx_hash : TxHash) (e : string)
| FundingTxTimedOut (tx_hash : TxHash) (secs : Z)
| InsufficientFunds (broke_accounts : list (Address * Z))
| Util (e : UtilError.t).
End SetupError.

(** [cli/src/default_scenarios/custom_contract.rs]. *)
Module ContractMetaError.
Inductive t :=
| ABINotFound
| ABIFunctionNotFound (call : string)
| ArtifactMissing (path : string)
| ArtifactInvalid (path e : string)
| BytecodeMissing
| ConstructorNotFound
| ContractBuildFailed (e : string)
| DeserializeABI (e : string)
| ForgeBuildFailed (e : string)
| FunctionNotFound (name : string)
| InvalidCall (reason : string)
| NoSolidityFiles (dir output : string).
End ContractMetaError.

Module CustomContractArgsError.
Inductive t :=
| Regex (e : string)
| InvalidContractPathFormat (path : string)
| InvalidContractPath (path : string)
| InvalidContractName (path : string)
| FilenameNotFound (path : string)
| ParentDirectoryNotFound (path : string)
| SpamArgsEmpty
| Core (e : Error)
| Meta (e : ContractMetaError.t)
| Generator (e : GeneratorError).
End CustomContractArgsError.

(** [cli/src/commands/admin.rs]. *)
Module AdminError.
Inductive t :=
| SeedFileEmpty (path : string)
| SeedFileDoesNotExist (path : string)
| SeedFileInvalid (path : string)
| Readline (e : string)
| GenesisBlockMissing (rpc_url : string)
| ContractNotFound (name : string)
| ContractAddressMissing (name : string).
End AdminError.

Inductive CliError :=
| Aborted
| CliParamsInvalid (e : RuntimeParamErrorKind)
| CliAuthProvider (e : string)
| Args (e : ArgsError.t)
| Admin (e : AdminError.t)
| Core (e : Error)
| CustomContractArgs (e : CustomContractArgsError.t)
| CliDb (e : string)
| DbVersion
| CliIo (e : string)
| TaskJoin (e : string)
| ParseHex (e : string)
| TestFileError (e : string)
| ReportErr (e : string)
| CliRpc (e : RpcError)
| Setup (e : SetupError.t)
| ServerStartup (e : string)
| Util (e : UtilError.t).

Definition is_recoverable (e : CliError) : bool :=
  match e with CliRpc (Transport _) => true | _ => false end.

(** The text of a database error, and a command's call of the database. *)
Definition db_text (e : DbError) : string := match e with Db.Internal s | Db.NotFound s => s end.
Definition db_call {A} (m : outcome DbError A) : outcome CliError A :=
  map_err (fun e => CliDb (db_text e)) m.
