(* ===== verification/DataDir.v ===== *)
(** * The data directory and the database file ([cli/src/util/utils.rs],
      [cli/src/commands/db.rs], [init_db] of [cli/src/main.rs])

    Where the program keeps its files, the migration of the directory of older
    versions, the seed file, the commands on the database file and the check of
    its version.  A database is opened by reading its file and closed by writing
    it back; its write-ahead log is not modelled. *)

From Stdlib Require Import Strings.Byte Strings.String.
From S2P Require Import Prelude Text Alloy Db GenTypes CoreError Sql SqliteDb FileSystem CliError.

(** The error of a computation translated, and an error that is ignored. *)
Definition stm_map_err {S E E' A} (f : E -> E') (m : stm S E A) : stm S E' A :=
  fun s => let '(s', r) := m s in (s', map_err f r).
Definition ignore_err {S E E'} (m : stm S E unit) : stm S E' unit := fun s =>
  match m s with
  | (s', Panic) => (s', Panic)
  | (s', _) => (s', Ok tt)
  end.
(** [.expect(..)]. *)
Definition expect_stm {S E E' A} (m : stm S E A) : stm S E' A := fun s =>
  match m s with
  | (s', Ok a) => (s', Ok a)
  | (s', _) => (s', Panic)
  end.

Section data_dir.
Context `{F : Faults} (to_path : string -> Path) (var : string -> outcome string string).

Definition io_util {A} (m : stm FS string A) : stm FS UtilError.t A := stm_map_err UtilError.Io m.

(** ** The data directory *)

Definition state_home (home_dir : Path) (xdg_state_home : option string) : Path :=
  match xdg_state_home with
  | Some val => if String.eqb val "" then join (join home_dir ".local") "state" else to_path val
  | None => join (join home_dir ".local") "state"
  end.

(** The directory of older versions is moved when the new one does not exist;
    if that fails it stays where it is. *)
Definition migrate_legacy (legacy_dir dir : Path) : stm FS UtilError.t unit :=
  fs ← gets id;
  if exists_path fs legacy_dir && negb (exists_path fs dir) then
    match parent dir with
    | Some parent => io_util (create_dir_all parent)
    | None => mret tt
    end;;
    ignore_err (rename legacy_dir dir)
  else mret tt.

Definition resolve_default_data_dir (home_dir : Path) (xdg_state_home : option string)
  : stm FS UtilError.t Path :=
  let dir := join (state_home home_dir xdg_state_home) "contender" in
  migrate_legacy (join home_dir ".contender") dir;;
  io_util (create_dir_all dir);;
  mret dir.

Definition opt_var (name : string) : option string :=
  match var name with Ok v => Some v | _ => None end.

Definition default_data_dir : stm FS UtilError.t Path :=
  home ← lift (map_err UtilError.EnvVar (var "HOME"));
  resolve_default_data_dir (to_path home) (opt_var "XDG_STATE_HOME").

Definition resolve_data_dir (cli_arg : option Path) : stm FS UtilError.t Path :=
  match cli_arg, opt_var "CONTENDER_DATA_DIR" with
  | Some dir, _ => io_util (create_dir_all dir);; mret dir
  | None, Some env_dir => io_util (create_dir_all (to_path env_dir));; mret (to_path env_dir)
  | None, None => default_data_dir
  end.

Definition init_reports_dir (data_dir : Path) : stm FS CliError Path :=
  let path := join data_dir "reports" in
  expect_stm (create_dir_all path);; mret path.

Definition db_file_in (data_dir : Path) : Path := join data_dir "contender.db".

(** The seed file is made from random bytes when there is none. *)
Definition load_seedfile (random : list byte) (data_dir : Path) : stm FS CliError string :=
  let seed_path := join data_dir "seed" in
  fs ← gets id;
  (if exists_path fs seed_path then mret tt
   else stm_map_err CliIo (write seed_path (encode_hex random)));;
  stored ← stm_map_err CliIo (read_to_string seed_path);
  mret ("0x" +:+ stored)%string.

(** ** The database file *)

Context {X : SqlText} {H : FromHex} (pick : nat -> outcome string nat) (fk_default : bool).

(** SQLite makes the file when there is none, and takes an empty file for an
    empty database. *)
Definition from_file (p : Path) : stm FS string SqliteDb :=
  fs ← gets id;
  let opened t v := {| sq_tables := t; sq_user_version := v; sq_conns := ∅; sq_requests := 0 |} in
  match fs !! p with
  | Some (File (Database t v)) => mret (opened t v)
  | Some (File (Bytes s)) =>
      if String.eqb s "" then modify (<[p := File (Database ∅ 0)]>);; mret (opened ∅ 0)
      else fail "file is not a database"
  | Some Dir => fail "unable to open database file"
  | None =>
      if writable fs p then modify (<[p := File (Database ∅ 0)]>);; mret (opened ∅ 0)
      else fail "unable to open database file"
  end.
Definition close_db (p : Path) (db : SqliteDb) : FS -> FS :=
  <[p := File (Database (sq_tables db) (sq_user_version db))]>.

(** A computation on the database of a file. *)
Definition with_db {A} (p : Path) (db : SqliteDb) (m : stm SqliteDb SqliteError A) : stm FS CliError A :=
  let '(db', r) := m db in
  modify (close_db p db');;
  lift (map_err (fun e => CliDb (db_text (into_db_error e))) r).

Definition drop_db (db_path : Path) : stm FS CliError unit :=
  fs ← gets id;
  if exists_path fs db_path then stm_map_err CliIo (remove_file db_path) else mret tt.

Definition reset_db (db_path : Path) : stm FS CliError unit :=
  drop_db db_path;;
  db ← expect_stm (from_file db_path);
  with_db db_path db (create_tables pick fk_default).

Definition copy_or (err : string -> UtilError.t) (src target : Path) : stm FS CliError unit :=
  stm_map_err (fun e => Util (err e)) (copy src target).

Definition export_db (src_path target_path : Path) : stm FS CliError unit :=
  fs ← gets id;
  lift (ensure (exists_path fs src_path) (Util UtilError.DBDoesNotExist));;
  copy_or UtilError.DBExportFailed src_path target_path.

(** An existing database is backed up first. *)
Definition import_db (src_path target_path : Path) : stm FS CliError unit :=
  fs ← gets id;
  lift (ensure (exists_path fs src_path) (Util UtilError.DBDoesNotExist));;
  (if exists_path fs target_path
   then copy_or UtilError.DBBackupFailed target_path (with_extension target_path "backup")
   else mret tt);;
  copy_or UtilError.DBImportFailed src_path target_path.

(** ** The version of the database *)

(** Tables are made in a database that has none; a database of another version
    is refused, except for the commands that [bypass] the check. *)
Definition init_db (bypass : bool) : stm SqliteDb SqliteError bool :=
  known ← table_exists pick "run_txs";
  if (known : bool) then
    v ← version pick;
    mret (negb (negb (v =? DB_VERSION) && negb bypass))
  else
    create_tables pick fk_default;; mret true.

End data_dir.

(** ** No file is lost *)

Section data_dir_lemmas.
Context `{F : Faults} (to_path : string -> Path) (var : string -> outcome string string).
Implicit Types (fs : FS) (p q l : Path).

Lemma stm_map_err_run {S E E' A} (f : E -> E') (m : stm S E A) s s' r :
  stm_map_err f m s = (s', r) -> exists r', m s = (s', r') /\ r = map_err f r'.
Proof. unfold stm_map_err. destruct (m s) as [s1 r1]. intros [= <- <-]. by exists r1. Qed.

Lemma map_err_ok_inv {E E' A} (f : E -> E') (r : outcome E A) a : map_err f r = Ok a -> r = Ok a.
Proof. destruct r; naive_solver. Qed.

(** The file at [l] is still there, or was moved with the old directory. *)
Definition kept_or_moved (legacy dir : Path) fs fs' : Prop :=
  forall l c, fs !! l = Some (File c) ->
    fs' !! l = Some (File c) \/ exists r, l = legacy ++ r /\ fs' !! (dir ++ r) = Some (File c).

Lemma more_dirs_kept legacy dir fs fs1 fs2 :
  kept_or_moved legacy dir fs fs1 -> more_dirs fs1 fs2 -> kept_or_moved legacy dir fs fs2.
Proof.
  intros Hk [Hm _] l c Hl. destruct (Hk l c Hl) as [H|(r & -> & H)]; [left|right]; eauto.
Qed.
Lemma kept_refl legacy dir fs : kept_or_moved legacy dir fs fs.
Proof. by left. Qed.

Lemma exists_path_false fs p : exists_path fs p = false -> fs !! p = None.
Proof. unfold exists_path. intros H%bool_decide_eq_false. by apply eq_None_not_Some. Qed.

Lemma rename_kept legacy dir fs fs1 fs' r :
  fs_wf fs1 -> dir <> [] -> fs1 !! dir = None ->
  kept_or_moved legacy dir fs fs1 -> more_dirs fs fs1 ->
  rename legacy dir fs1 = (fs', r) -> kept_or_moved legacy dir fs fs'.
Proof.
  intros Hwf Hne Hd Hk [Hm _] H l c Hl. pose proof (Hm _ _ Hl) as Hl1.
  destruct (rename_spec _ _ _ _ _ _ _ Hwf Hne Hd H Hl1) as [H'|[_ H']]; [by left|].
  unfold relocate in H'. destruct (strip_path legacy l) as [r'|] eqn:E; [|by left].
  apply strip_path_spec in E as ->. right. by exists r'.
Qed.

(** Creating the directories on the way to [removelast p] does not create [p]. *)
Lemma create_dirs_shorter rest pre fs fs' r p :
  create_dirs pre rest fs = (fs', r) -> (length (pre ++ rest) < length p)%nat ->
  fs !! p = None -> fs' !! p = None.
Proof.
  revert pre fs. induction rest as [|name rest IH]; intros pre fs H Hlen Hp.
  { by injection H as <- <-. }
  cbn [create_dirs] in H. unfold mbind, stm_bind, gets in H. cbn [id] in H.
  assert (Hlen' : (length (join pre name ++ rest) < length p)%nat).
  { unfold join. rewrite <- app_assoc. done. }
  destruct (fs !! join pre name) as [[c|]|].
  - by injection H as <- <-.
  - eapply IH; [exact H|done..].
  - unfold allowed, fail, lift, modify in H. destruct (fault _) as [f|]; [by injection H as <- <-|].
    cbn in H. eapply IH; [exact H|done|]. rewrite lookup_insert_ne; [done|].
    intros <-. rewrite !length_app in Hlen'. lia.
Qed.

Lemma parent_join p name : parent (join p name) = Some p.
Proof.
  unfold parent, join. rewrite removelast_last. by destruct p.
Qed.

Lemma join_nonnil p name : join p name <> [].
Proof. by destruct p. Qed.

Lemma migrate_kept legacy q name fs fs' r :
  let dir := join q name in
  fs_wf fs -> migrate_legacy legacy dir fs = (fs', r) -> kept_or_moved legacy dir fs fs'.
Proof.
  intros dir Hwf H. unfold migrate_legacy, mbind, stm_bind, gets in H. cbn [id] in H.
  destruct (exists_path fs legacy && negb (exists_path fs dir)) eqn:Ee;
    [|injection H as <- <-; apply kept_refl].
  apply andb_prop in Ee as [_ Hd%negb_true_iff%exists_path_false].
  unfold dir in H at 1. rewrite parent_join in H.
  destruct (io_util (create_dir_all q) fs) as [fs1 r1] eqn:E1.
  apply stm_map_err_run in E1 as (r1' & E1 & ->).
  pose proof (create_dirs_spec _ _ _ _ _ E1) as (Hm & Hw & _).
  assert (Hk1 : kept_or_moved legacy dir fs fs1) by (eapply more_dirs_kept; [apply kept_refl|done]).
  destruct r1' as [u|e|]; cbn in H; [|by injection H as <- <-..].
  unfold ignore_err in H. destruct (rename legacy dir fs1) as [fs2 r2] eqn:E2.
  assert (fs' = fs2) as -> by (by destruct r2; simplify_eq).
  eapply rename_kept; [by apply Hw| |..]; [apply join_nonnil| |done..].
  eapply create_dirs_shorter; [exact E1| |done].
  cbn. unfold dir, join. rewrite length_app. cbn. lia.
Qed.

(** C29: choosing the default data directory loses no file, whatever the
    operating system refuses: every file is still where it was, or, if it was in
    the directory of older versions, at the same place of the new directory; and
    the directory that is returned is there. *)
Theorem data_dir_keeps_files home xdg fs fs' r :
  fs_wf fs -> resolve_default_data_dir to_path home xdg fs = (fs', r) ->
  let dir := join (state_home to_path home xdg) "contender" in
  kept_or_moved (join home ".contender") dir fs fs' /\
  (forall d, r = Ok d -> d = dir /\ is_dir fs' dir = true).
Proof.
  intros Hwf H dir. unfold resolve_default_data_dir, mbind, stm_bind in H. fold dir in H.
  destruct (migrate_legacy _ dir fs) as [fs1 r1] eqn:E1.
  pose proof (migrate_kept _ _ _ _ _ _ Hwf E1) as Hk.
  destruct r1 as [u|e|]; [|by injection H as <- <-..].
  destruct (io_util (create_dir_all dir) fs1) as [fs2 r2] eqn:E2.
  apply stm_map_err_run in E2 as (r2' & E2 & ->).
  destruct (create_dirs_spec _ _ _ _ _ E2) as (Hm & _ & Hd).
  destruct r2' as [u2|e|]; cbn in H; injection H as <- <-.
  2-3: split; [by eapply more_dirs_kept|done].
  split; [by eapply more_dirs_kept|]. intros d [= <-]. split; [done|]. destruct u2. by apply Hd.
Qed.

End data_dir_lemmas.

(** ** Moving database files *)

Section db_files.
Context `{F : Faults}.
Implicit Types (fs : FS) (p q l : Path).

Lemma copy_or_run err p q fs fs' r :
  copy_or err p q fs = (fs', r) -> exists r', copy p q fs = (fs', r') /\ (r = Ok tt -> r' = Ok tt).
Proof.
  intros H. apply stm_map_err_run in H as (r' & H & ->). exists r'. split; [done|].
  intros Hr. destruct r' as [u|e|]; [by destruct u|done..].
Qed.

Lemma copy_or_ok err p q fs fs' u : copy_or err p q fs = (fs', Ok u) ->
  exists c, fs !! p = Some (File c) /\
    fs' = <[q := File (if decide (p = q) then Bytes "" else c)]> fs.
Proof.
  intros H. apply copy_or_run in H as (r' & H & Hr). destruct u.
  rewrite (Hr eq_refl) in H. by apply copy_done in H.
Qed.

(** The steps of [import_db], when the source exists. *)
Lemma import_run src target fs fs' r :
  import_db src target fs = (fs', r) ->
  let backup := with_extension target "backup" in
  (fs !! src = None /\ fs' = fs /\ r = Err (Util UtilError.DBDoesNotExist)) \/
  (is_Some (fs !! src) /\ exists fs1 r1,
     (if exists_path fs target then copy_or UtilError.DBBackupFailed target backup fs = (fs1, r1)
      else fs1 = fs /\ r1 = Ok tt) /\
     ((r1 <> Ok tt /\ fs' = fs1 /\ r = r1) \/
      (r1 = Ok tt /\ copy_or UtilError.DBImportFailed src target fs1 = (fs', r)))).
Proof.
  intros H backup. unfold import_db, ensure, lift, mbind, stm_bind, gets in H. cbn in H.
  destruct (fs !! src) as [n|] eqn:Es;
    unfold exists_path in H at 1; rewrite Es in H; cbn in H;
    [right|left; by simplify_eq].
  split; [by eexists|]. fold backup in H.
  destruct (exists_path fs target).
  - destruct (copy_or _ target backup fs) as [fs1 r1] eqn:E1. exists fs1, r1. split; [done|].
    destruct r1 as [u|e|]; [right; by destruct u|left; by simplify_eq..].
  - exists fs, (Ok tt). split; [done|]. by right.
Qed.

(** C28: importing never loses the database it replaces, whatever copy fails
    and whatever that leaves behind: unless it was refused, the old content is
    still in the file, or in the backup next to it, as long as the imported
    file is not that backup itself. *)
Theorem import_keeps_old src target c fs fs' r :
  fs !! target = Some (File c) -> with_extension target "backup" <> target ->
  src <> with_extension target "backup" ->
  import_db src target fs = (fs', r) ->
  (fs' !! target = Some (File c) \/ fs' !! with_extension target "backup" = Some (File c)) /\
  (forall c', fs !! src = Some (File c') -> src <> target -> r = Ok tt ->
     fs' !! target = Some (File c') /\ fs' !! with_extension target "backup" = Some (File c)).
Proof.
  intros Ht Hb Hs H. set (backup := with_extension target "backup") in *.
  assert (He : exists_path fs target = true) by (by apply bool_decide_eq_true; eexists).
  apply import_run in H as [(Hsrc & -> & ->)|(Hsrc & fs1 & r1 & H1 & H)].
  { split; [by left|]. intros c' Hc'. by rewrite Hsrc in Hc'. }
  rewrite He in H1. fold backup in H1. destruct H as [(Hr1 & -> & ->)|(-> & H)].
  { split; [|done]. apply copy_or_run in H1 as (r' & H1 & _). left.
    by rewrite (copy_other _ _ _ _ _ _ H1). }
  apply copy_or_ok in H1 as (c0 & Hc0 & ->). rewrite decide_False in H by done. simplify_eq.
  apply copy_or_run in H as (r' & H & Hr).
  assert (Hkept : fs' !! backup = Some (File c))
    by (rewrite (copy_other _ _ _ _ _ _ H) by done; apply lookup_insert_eq).
  split; [by right|]. intros c' Hc' Hne Hok. split; [|done].
  rewrite (Hr Hok) in H. apply copy_done in H as (c1 & Hc1 & ->).
  rewrite lookup_insert_ne in Hc1 by done. simplify_eq.
  by rewrite decide_False, lookup_insert_eq by done.
Qed.

(** Restoring the backup is the exception: it is overwritten with the current
    database first, and what it held is gone. *)
Lemma import_own_backup target c c' fs :
  fs !! target = Some (File c) -> with_extension target "backup" <> target ->
  fs !! with_extension target "backup" = Some (File c') ->
  (forall op, fault op = None) ->
  exists fs', import_db (with_extension target "backup") target fs = (fs', Ok tt) /\
    fs' !! target = Some (File c) /\ fs' !! with_extension target "backup" = Some (File c).
Proof.
  intros Ht Hne Hb Hf. set (backup := with_extension target "backup") in *.
  exists (<[target := File c]> (<[backup := File c]> fs)).
  rewrite lookup_insert_eq, lookup_insert_ne, lookup_insert_eq by done. split; [|done].
  unfold import_db, copy_or, stm_map_err, copy, put, writable, exists_path, ensure, mbind, stm_bind,
    gets, lift, modify. cbn. fold backup. rewrite Hb. cbn. rewrite Ht. cbn. rewrite Ht, Hb. cbn.
  rewrite Hf. cbn. rewrite decide_False, lookup_insert_eq by done. cbn.
  rewrite lookup_insert_ne, Ht, Hf, decide_False by done. cbn. done.
Qed.

(** What was exported can be imported: if the export succeeded and later
    the exported file is untouched, an import of it that succeeds puts the
    exported content back into the database file. *)
Theorem export_import db out c fs fs1 fs2 fs' :
  fs !! db = Some (File c) -> out <> db -> out <> with_extension db "backup" ->
  export_db db out fs = (fs1, Ok tt) ->
  fs2 !! out = fs1 !! out -> import_db out db fs2 = (fs', Ok tt) ->
  fs1 !! db = Some (File c) /\ fs' !! db = Some (File c) /\ fs' !! out = Some (File c).
Proof.
  intros Hdb Hne Hnb He Hout Hi.
  unfold export_db, ensure, lift, mbind, stm_bind, gets in He. cbn in He.
  unfold exists_path in He. rewrite Hdb in He. cbn in He.
  apply copy_or_ok in He as (c0 & Hc0 & ->). simplify_eq. rewrite decide_False in * by done.
  rewrite lookup_insert_eq in Hout. rewrite lookup_insert_ne by done. split; [done|].
  apply import_run in Hi as [(_ & _ & [=])|(_ & fs3 & r1 & H1 & [(Hr1 & -> & <-)|(-> & H)])]; [done|].
  apply copy_or_ok in H as (c1 & Hc1 & ->). rewrite decide_False by done.
  assert (Hc1' : fs3 !! out = Some (File c)).
  { destruct (exists_path fs2 db); [|by destruct H1 as [-> _]].
    apply copy_or_run in H1 as (r' & H1 & _). by rewrite (copy_other _ _ _ _ _ _ H1). }
  rewrite Hc1' in Hc1. simplify_eq. by rewrite lookup_insert_eq, lookup_insert_ne.
Qed.

End db_files.

(** ** The version of the database *)

Section version.
Context {X : SqlText} {H : FromHex} (pick : nat -> outcome string nat) (fk : bool).
(** The pool always has a connection. *)
Context (pool_ok : forall n, exists c, pick n = Ok c).
Implicit Types s : SqliteDb.

(** What a query of [create_tables] leaves of the tables and the version. *)
Definition created (q : CreateQuery) (t : Tables) : Tables :=
  match q with
  | CreateTable table => match t !! table with Some _ => t | None => <[table := []]> t end
  | _ => t
  end.
Definition created_version (q : CreateQuery) (v : Z) : Z :=
  match q with PragmaUserVersion => DB_VERSION | _ => v end.

Lemma get_pool_total s : exists c, get_pool pick s = (count_request s, Ok c).
Proof.
  destruct (pool_ok (sq_requests s)) as [c Hc]. exists c.
  unfold get_pool, mbind, stm_bind, gets, modify, lift. by rewrite Hc.
Qed.

Lemma run_create_total q s : exists s' r,
  sql_ok (run_create pick fk q) s = (s', Ok r) /\
  sq_tables s' = created q (sq_tables s) /\
  sq_user_version s' = created_version q (sq_user_version s).
Proof.
  destruct (get_pool_total s) as [c Hc]. unfold sql_ok, run_create.
  rewrite (stm_bind_run _ _ _ _ _ Hc). unfold mbind, stm_bind, gets, modify, statement, lift.
  destruct q as [| |table]; cbn; [by do 2 eexists..|].
  destruct (sq_tables s !! table); by do 2 eexists.
Qed.

Lemma create_queries_total qs s : exists s' r,
  stm_mapM (fun q => sql_ok (run_create pick fk q)) qs s = (s', Ok r) /\
  sq_tables s' = fold_left (fun t q => created q t) qs (sq_tables s) /\
  sq_user_version s' = fold_left (fun v q => created_version q v) qs (sq_user_version s).
Proof.
  revert s. induction qs as [|q qs IH]; intros s; [by do 2 eexists|]. cbn [stm_mapM fold_left].
  destruct (run_create_total q s) as (s1 & r1 & H1 & <- & <-).
  destruct (IH s1) as (s2 & r2 & H2 & <- & <-).
  rewrite (stm_bind_run _ _ _ _ _ H1), (stm_bind_run _ _ _ _ _ H2). by do 2 eexists.
Qed.

Lemma created_tables_lookup ts t name :
  fold_left (fun t q => created q t) (CreateTable <$> ts) t !! name =
  match t !! name with
  | Some rows => Some rows
  | None => if decide (name ∈ ts) then Some [] else None
  end.
Proof.
  revert t. induction ts as [|table ts IH]; intros t; cbn [fmap list_fmap fold_left].
  { rewrite decide_False by (by intros ?%elem_of_nil). by destruct (t !! name). }
  rewrite IH. unfold created. destruct (t !! table) as [rows|] eqn:Et.
  - destruct (t !! name) eqn:En; [done|]. destruct (decide (name = table)) as [->|Hne]; [congruence|].
    destruct (decide (name ∈ ts)), (decide (name ∈ table :: ts)) as [Hin|Hn]; try done.
    + destruct Hn. by apply elem_of_cons; right.
    + by apply elem_of_cons in Hin as [|].
  - destruct (decide (name = table)) as [->|Hne].
    + rewrite lookup_insert_eq, Et, decide_True by (apply elem_of_cons; by left). done.
    + rewrite lookup_insert_ne by done. destruct (t !! name); [done|].
      destruct (decide (name ∈ ts)), (decide (name ∈ table :: ts)) as [Hin|Hn]; try done.
      * destruct Hn. by apply elem_of_cons; right.
      * by apply elem_of_cons in Hin as [|].
Qed.

(** [create_tables] adds the tables that are missing, empty, and sets the
    version. *)
Lemma create_tables_total s : exists s',
  create_tables pick fk s = (s', Ok tt) /\ sq_user_version s' = DB_VERSION /\
  forall name, sq_tables s' !! name =
    match sq_tables s !! name with
    | Some rows => Some rows
    | None => if decide (name ∈ table_names) then Some [] else None
    end.
Proof.
  unfold create_tables. destruct (create_queries_total create_queries s) as (s' & r & Hr & Ht & Hv).
  exists s'. rewrite (stm_bind_run _ _ _ _ _ Hr). split; [done|]. split.
  - rewrite Hv. unfold create_queries, table_names. reflexivity.
  - intros name. rewrite Ht. unfold create_queries. rewrite fold_left_app. cbn [fold_left created].
    apply created_tables_lookup.
Qed.

Lemma query_row_total {A} (v : SqliteDb -> nat -> outcome string A) s : exists c,
  query_row pick v s = (count_request s, map_err ExecuteQuery (v (count_request s) c)).
Proof.
  destruct (get_pool_total s) as [c Hc]. exists c. unfold query_row.
  by rewrite (stm_bind_run _ _ _ _ _ Hc).
Qed.

Lemma table_exists_total name s :
  table_exists pick name s = (count_request s, Ok (bool_decide (is_Some (sq_tables s !! name)))).
Proof.
  unfold table_exists, sql_ok, mbind at 1, stm_bind.
  destruct (query_row_total
    (fun s _ => ok_or "Query returned no rows"%string (sq_tables s !! name)) s) as [c ->].
  cbn. destruct (sq_tables s !! name); done.
Qed.

Lemma version_total s : version pick s = (count_request s, Ok (sq_user_version s)).
Proof.
  unfold version, sql_ok, mbind at 1, stm_bind.
  destruct (query_row_total (fun s _ => mret (sq_user_version s)) s) as [c ->]. done.
Qed.

(** The check at the start of every command makes the tables of a new
    database and leaves an existing one as it is; it lets a command pass exactly
    when the database then has the version of the program, apart from the
    commands that manage the database or the accounts, which always pass. *)
Theorem init_db_gate bypass s :
  exists s', init_db pick fk bypass s =
      (s', Ok (bypass || (sq_user_version s' =? DB_VERSION))) /\
    match sq_tables s !! "run_txs" with
    | Some _ => sq_tables s' = sq_tables s /\ sq_user_version s' = sq_user_version s
    | None => sq_user_version s' = DB_VERSION /\
        forall name, name ∈ table_names -> is_Some (sq_tables s' !! name)
    end.
Proof.
  unfold init_db. rewrite (stm_bind_run _ _ _ _ _ (table_exists_total "run_txs" s)).
  destruct (sq_tables s !! "run_txs") as [rows|] eqn:Er; cbn [bool_decide decide_rel].
  - rewrite bool_decide_true by by eexists.
    rewrite (stm_bind_run _ _ _ _ _ (version_total (count_request s))). cbn.
    exists (count_request (count_request s)). split; [|by split]. cbn. unfold mret, stm_ret.
    destruct bypass, (sq_user_version s =? DB_VERSION); done.
  - rewrite bool_decide_false by (by intros []).
    destruct (create_tables_total (count_request s)) as (s' & Hc & Hv & Ht).
    exists s'. rewrite (stm_bind_run _ _ _ _ _ Hc). split; [|split; [done|]].
    + rewrite Hv, Z.eqb_refl. by destruct bypass.
    + intros name Hin. rewrite Ht. destruct (_ !! name); [by eexists|].
      rewrite decide_True by done. by eexists.
Qed.

Context {F : Faults}.

(** After a reset that succeeded the file is a database without rows, with
    every table, of the version of the program, whatever was there before; so the
    check of the next command passes and changes nothing. *)
Theorem reset_db_fresh (p : Path) (fs fs' : FS) :
  reset_db pick fk p fs = (fs', Ok tt) ->
  exists t, fs' !! p = Some (File (Database t DB_VERSION)) /\
    (forall name, t !! name = if decide (name ∈ table_names) then Some [] else None) /\
    exists db, from_file p fs' = (fs', Ok db) /\ sq_tables db = t /\
      (init_db pick fk false db).2 = Ok true.
Proof.
  intros Hr. unfold reset_db in Hr. apply stm_bind_ok in Hr as (fs1 & u1 & Hd & Hr).
  apply stm_bind_ok in Hr as (fs2 & db & Ho & Hw).
  assert (Hp : fs1 !! p = None).
  { unfold drop_db, mbind, stm_bind, gets in Hd. cbn [id] in Hd.
    destruct (exists_path fs p) eqn:Ee; [|injection Hd as <- _; by apply exists_path_false].
    apply stm_map_err_run in Hd as (r & Hd & Hr'). destruct r; try done.
    unfold remove_file, allowed, fail, mbind, stm_bind, gets, modify, lift in Hd. cbn in Hd.
    destruct (fs !! p) as [[c|]|]; [|done..].
    destruct (fault _); cbn in Hd; simplify_eq. apply lookup_delete_eq. }
  assert (db = empty_db) as ->.
  { unfold expect_stm, from_file, fail, mbind, stm_bind, gets, modify, lift in Ho. cbn in Ho.
    rewrite Hp in Ho. destruct (writable fs1 p); cbn in Ho; by simplify_eq. }
  destruct (create_tables_total empty_db) as (s' & Hc & Hv & Ht).
  unfold with_db in Hw. rewrite Hc in Hw. cbn in Hw. injection Hw as <-. unfold close_db.
  rewrite lookup_insert_eq, Hv. exists (sq_tables s'). split; [done|].
  split. { intros name. rewrite Ht. done. }
  eexists. unfold from_file, mbind, stm_bind, gets. cbn. rewrite lookup_insert_eq.
  split; [done|]. split; [done|].
  unfold init_db. rewrite (stm_bind_run _ _ _ _ _ (table_exists_total "run_txs" _)).
  cbn [sq_tables]. rewrite Ht, bool_decide_true by (rewrite decide_True by set_solver; by eexists).
  rewrite (stm_bind_run _ _ _ _ _ (version_total _)). done.
Qed.

End version.

(** ** Witnesses *)

Module DataDirWitness.

#[local] Instance no_faults : Faults := fun _ => None.

Definition home : Path := ["home"; "user"]%string.
Definition legacy_db : Path := home ++ [".contender"; "contender.db"]%string.
Definition old_content : Content := Database ∅ 6.

(** A home directory with the directory of an older version. *)
Definition old_home : FS :=
  list_to_map [(["home"], Dir); (home, Dir); (join home ".contender", Dir);
               (legacy_db, File old_content)]%string.

Lemma old_home_wf : fs_wf old_home.
Proof.
  intros p name n Hp. unfold old_home in Hp. apply elem_of_list_to_map_2 in Hp.
  rewrite !elem_of_cons, elem_of_nil in Hp.
  destruct Hp as [Hp|[Hp|[Hp|[Hp|[]]]]]; injection Hp as Hp _;
    [change (["home"]%string) with (join [] "home") in Hp
    |change home with (join ["home"]%string "user") in Hp
    |
    |change legacy_db with (join (join home ".contender") "contender.db") in Hp];
    apply join_inj in Hp as [-> ->]; by vm_compute.
Qed.

Definition migrated : FS * outcome UtilError.t Path :=
  resolve_default_data_dir (fun s => [s]) home None old_home.

Lemma data_dir_keeps_files_witness :
  let dir := home ++ [".local"; "state"; "contender"]%string in
  kept_or_moved (join home ".contender") dir old_home migrated.1 /\
  migrated.1 !! (dir ++ ["contender.db"%string]) = Some (File old_content) /\
  (forall d, migrated.2 = Ok d -> d = dir /\ is_dir migrated.1 dir = true).
Proof.
  destruct (data_dir_keeps_files (fun s => [s]) home None old_home migrated.1 migrated.2
              old_home_wf (surjective_pairing _)) as [Hk Hd].
  split; [exact Hk|]. split; [|exact Hd]. destruct (Hk legacy_db old_content) as [H|(r & Hr & H)].
  - by vm_compute.
  - by vm_compute in H.
  - change legacy_db with (join home ".contender" ++ ["contender.db"%string]) in Hr.
    apply app_inv_head in Hr as <-. exact H.
Defined.

Definition db_path : Path := ["data"; "contender.db"]%string.
Definition out_path : Path := ["data"; "out.db"]%string.
Definition new_content : Content := Database ∅ 7.
Definition data : FS :=
  list_to_map [(["data"]%string, Dir); (db_path, File old_content); (out_path, File new_content)].

Lemma import_keeps_old_witness :
  let run := import_db out_path db_path data in
  (run.1 !! db_path = Some (File old_content) \/
   run.1 !! ["data"; "contender.backup"]%string = Some (File old_content)) /\
  run.2 = Ok tt /\ run.1 !! db_path = Some (File new_content).
Proof.
  intros run.
  assert (Hok : run.2 = Ok tt) by (by vm_compute).
  destruct (import_keeps_old out_path db_path old_content data run.1 run.2) as [H1 H2];
    [by vm_compute|done|done|apply surjective_pairing|].
  split; [exact H1|]. split; [exact Hok|]. apply (H2 new_content); [by vm_compute|done|exact Hok].
Defined.

Lemma run_ok {S E} (x : S * outcome E unit) : x.2 = Ok tt -> x = (x.1, Ok tt).
Proof. intros <-. apply surjective_pairing. Qed.

Definition saved_db : Path := ["data"; "saved.db"]%string.
Definition exported : FS * outcome CliError unit := export_db db_path saved_db data.
(** Later the database is lost. *)
Definition broken : FS := <[db_path := File (Bytes "")]> exported.1.
Definition imported : FS * outcome CliError unit := import_db saved_db db_path broken.

Lemma export_import_witness : imported.1 !! db_path = Some (File old_content).
Proof.
  assert (He : exported.2 = Ok tt) by (vm_compute; reflexivity).
  assert (Hi : imported.2 = Ok tt) by (vm_compute; reflexivity).
  destruct (export_import db_path saved_db old_content data exported.1 broken imported.1)
    as (_ & H & _); [|discriminate..|exact (run_ok _ He)| |exact (run_ok _ Hi)|exact H];
    vm_compute; reflexivity.
Defined.

Lemma pool_ok (n : nat) : exists c, SqliteWitness.one_conn n = Ok c.
Proof. by exists 0%nat. Qed.

(** A database of version 6 is refused. *)
Definition old_db : SqliteDb :=
  {| sq_tables := <["runs"%string := []]> (<["run_txs"%string := []]> ∅); sq_user_version := 6;
     sq_conns := ∅; sq_requests := 0 |}.

Lemma init_db_gate_witness :
  (init_db SqliteWitness.one_conn true false old_db).2 = Ok false /\
  (init_db SqliteWitness.one_conn true true old_db).2 = Ok true.
Proof.
  split.
  - destruct (init_db_gate SqliteWitness.one_conn true pool_ok false old_db) as (s & -> & H).
    cbn in H. by destruct H as [_ ->].
  - destruct (init_db_gate SqliteWitness.one_conn true pool_ok true old_db) as (s & -> & _). done.
Defined.

Definition reset_run : FS * outcome CliError unit := reset_db SqliteWitness.one_conn true db_path data.

Lemma reset_db_fresh_witness :
  exists t, reset_run.1 !! db_path = Some (File (Database t DB_VERSION)) /\
    t !! "runs"%string = Some [].
Proof.
  assert (Hr : reset_run.2 = Ok tt) by (vm_compute; reflexivity).
  destruct (reset_db_fresh SqliteWitness.one_conn true pool_ok db_path data reset_run.1
              (run_ok _ Hr))
    as (t & H & Ht & _).
  exists t. split; [exact H|]. rewrite Ht. vm_compute. reflexivity.
Defined.

End DataDirWitness.
