(* ===== verification/RpcRuns.v ===== *)
(** * Runs of raw requests ([cli/src/commands/rpc.rs])

    [contender rpc] sends one JSON-RPC request over and over and records the
    latencies: the methods and their parameters, the tasks of the requests and how
    they are joined, the run, the summary it prints and the data of its report.
    The client has the layer of [Metrics], the database is that of [SqliteDb].
    How alloy writes its values as JSON is a parameter ([JsonText]). *)

From Stdlib Require Import Strings.Byte Strings.String.
From stdpp Require Import pretty.
From S2P Require Import Prelude Text F64 Json Alloy Db DbStore Sql SqliteDb SqliteRefine Metrics Histogram Charts Report CliError.

(** [BlockNumberOrTag]. *)
Inductive BlockNumberOrTag := Latest | Finalized | Safe | Earliest | Pending | Number (n : Z).

(** The texts of alloy's values. *)
Class JsonText := {
  address_text : Address -> string;
  hash_text : Z -> string;
  u256_text : Z -> string;
  bytes_text : list byte -> string;
  block_text : BlockNumberOrTag -> string;
}.

(** ** Parameters *)

Record TxCallObject := {
  co_from : Address;
  co_to : Address;
  co_input : list byte;
  co_gas : option Z;
  co_gas_price : option Z;
  co_value : option Z;
  co_nonce : option Z;
}.
Record LogFilterObject := {
  lf_from_block : option BlockNumberOrTag;
  lf_to_block : option BlockNumberOrTag;
  lf_address : option Address;
  lf_topics : option (list Z);
  lf_block_hash : option Z;
}.

Inductive RpcMethodSubcommand :=
| EthBlockNumber | EthChainId | EthGasPrice | EthSyncing | EthAccounts | EthProtocolVersion
| EthCoinbase | EthMining | EthHashrate | EthNewBlockFilter | EthNewPendingTransactionFilter
| NetVersion | NetListening | NetPeerCount | Web3ClientVersion
| Web3Sha3 (data : list byte)
| EthGetBalance (address : Address) (block : option BlockNumberOrTag)
| EthGetTransactionCount (address : Address) (block : option BlockNumberOrTag)
| EthGetCode (address : Address) (block : option BlockNumberOrTag)
| EthGetStorageAt (address : Address) (position : Z) (block : option BlockNumberOrTag)
| EthGetBlockByNumber (block : BlockNumberOrTag) (full_txs : bool)
| EthGetBlockByHash (hash : Z) (full_txs : bool)
| EthGetTransactionByHash (hash : Z)
| EthGetTransactionByBlockHashAndIndex (block_hash : Z) (index : Z)
| EthGetTransactionByBlockNumberAndIndex (block : BlockNumberOrTag) (index : Z)
| EthGetTransactionReceipt (hash : Z)
| EthGetBlockTransactionCountByNumber (block : BlockNumberOrTag)
| EthGetBlockTransactionCountByHash (hash : Z)
| EthGetUncleCountByBlockHash (hash : Z)
| EthGetUncleCountByBlockNumber (block : BlockNumberOrTag)
| EthGetUncleByBlockHashAndIndex (block_hash : Z) (index : Z)
| EthGetUncleByBlockNumberAndIndex (block : BlockNumberOrTag) (index : Z)
| EthSign (address : Address) (message : list byte)
| EthSignTransaction (tx : TxCallObject)
| EthUninstallFilter (filter_id : Z)
| EthGetFilterChanges (filter_id : Z)
| EthGetFilterLogs (filter_id : Z)
| EthCall (tx : TxCallObject) (block : option BlockNumberOrTag)
| EthEstimateGas (tx : TxCallObject) (block : option BlockNumberOrTag)
| EthSendTransaction (tx : TxCallObject)
| EthGetLogs (filter : LogFilterObject)
| EthNewFilter (filter : LogFilterObject).

Definition method_name (m : RpcMethodSubcommand) : string :=
  match m with
  | EthBlockNumber => "eth_blockNumber"
  | EthChainId => "eth_chainId"
  | EthGasPrice => "eth_gasPrice"
  | EthSyncing => "eth_syncing"
  | EthAccounts => "eth_accounts"
  | EthProtocolVersion => "eth_protocolVersion"
  | EthCoinbase => "eth_coinbase"
  | EthMining => "eth_mining"
  | EthHashrate => "eth_hashrate"
  | EthNewBlockFilter => "eth_newBlockFilter"
  | EthNewPendingTransactionFilter => "eth_newPendingTransactionFilter"
  | NetVersion => "net_version"
  | NetListening => "net_listening"
  | NetPeerCount => "net_peerCount"
  | Web3ClientVersion => "web3_clientVersion"
  | Web3Sha3 _ => "web3_sha3"
  | EthGetBalance _ _ => "eth_getBalance"
  | EthGetTransactionCount _ _ => "eth_getTransactionCount"
  | EthGetCode _ _ => "eth_getCode"
  | EthGetStorageAt _ _ _ => "eth_getStorageAt"
  | EthGetBlockByNumber _ _ => "eth_getBlockByNumber"
  | EthGetBlockByHash _ _ => "eth_getBlockByHash"
  | EthGetTransactionByHash _ => "eth_getTransactionByHash"
  | EthGetTransactionByBlockHashAndIndex _ _ => "eth_getTransactionByBlockHashAndIndex"
  | EthGetTransactionByBlockNumberAndIndex _ _ => "eth_getTransactionByBlockNumberAndIndex"
  | EthGetTransactionReceipt _ => "eth_getTransactionReceipt"
  | EthGetBlockTransactionCountByNumber _ => "eth_getBlockTransactionCountByNumber"
  | EthGetBlockTransactionCountByHash _ => "eth_getBlockTransactionCountByHash"
  | EthGetUncleCountByBlockHash _ => "eth_getUncleCountByBlockHash"
  | EthGetUncleCountByBlockNumber _ => "eth_getUncleCountByBlockNumber"
  | EthGetUncleByBlockHashAndIndex _ _ => "eth_getUncleByBlockHashAndIndex"
  | EthGetUncleByBlockNumberAndIndex _ _ => "eth_getUncleByBlockNumberAndIndex"
  | EthSign _ _ => "eth_sign"
  | EthSignTransaction _ => "eth_signTransaction"
  | EthUninstallFilter _ => "eth_uninstallFilter"
  | EthGetFilterChanges _ => "eth_getFilterChanges"
  | EthGetFilterLogs _ => "eth_getFilterLogs"
  | EthCall _ _ => "eth_call"
  | EthEstimateGas _ _ => "eth_estimateGas"
  | EthSendTransaction _ => "eth_sendTransaction"
  | EthGetLogs _ => "eth_getLogs"
  | EthNewFilter _ => "eth_newFilter"
  end.

Section params.
Context {J : JsonText}.

Definition j_address (a : Address) : Json := JString (address_text a).
Definition j_hash (h : Z) : Json := JString (hash_text h).
Definition j_u256 (v : Z) : Json := JString (u256_text v).
Definition j_bytes (b : list byte) : Json := JString (bytes_text b).
Definition j_block (b : BlockNumberOrTag) : Json := JString (block_text b).

(** A field, and one that is left out when there is no value. *)
Definition field {A} (key : string) (f : A -> Json) (x : A) : list (string * Json) := [(key, f x)].
Definition opt_field {A} (key : string) (f : A -> Json) (o : option A) : list (string * Json) :=
  match o with Some x => field key f x | None => [] end.
(** The nonce is a plain [u64], which serde writes as a number. *)
Definition tx_json (tx : TxCallObject) : Json := JObject (
  field "from" j_address (co_from tx) ++ field "to" j_address (co_to tx) ++
  field "input" j_bytes (co_input tx) ++
  opt_field "gas" j_u256 (co_gas tx) ++ opt_field "gasPrice" j_u256 (co_gas_price tx) ++
  opt_field "value" j_u256 (co_value tx) ++ opt_field "nonce" JNumber (co_nonce tx)).
Definition filter_json (f : LogFilterObject) : Json := JObject (
  opt_field "fromBlock" j_block (lf_from_block f) ++ opt_field "toBlock" j_block (lf_to_block f) ++
  opt_field "address" j_address (lf_address f) ++
  opt_field "topics" (fun l => JArray (j_hash <$> l)) (lf_topics f) ++
  opt_field "blockHash" j_hash (lf_block_hash f)).

Definition push_optional {A} (out : list Json) (f : A -> Json) (val : option A) : list Json :=
  match val with Some inner => out ++ [f inner] | None => out end.
Definition single_param (val : Json) : list Json := [val].
Definition addr_block_params (address : Address) (block : option BlockNumberOrTag) : list Json :=
  push_optional [j_address address] j_block block.
Definition tx_object_params (tx : TxCallObject) (block : option BlockNumberOrTag) : list Json :=
  push_optional [tx_json tx] j_block block.

Definition to_params (m : RpcMethodSubcommand) : Json := JArray
  match m with
  | EthBlockNumber | EthChainId | EthGasPrice | EthSyncing | EthAccounts | EthProtocolVersion
  | EthCoinbase | EthMining | EthHashrate | EthNewBlockFilter | EthNewPendingTransactionFilter
  | NetVersion | NetListening | NetPeerCount | Web3ClientVersion => []
  | Web3Sha3 data => single_param (j_bytes data)
  | EthGetTransactionByHash hash => single_param (j_hash hash)
  | EthGetTransactionReceipt hash => single_param (j_hash hash)
  | EthGetBlockTransactionCountByNumber block => single_param (j_block block)
  | EthGetBlockTransactionCountByHash hash => single_param (j_hash hash)
  | EthGetUncleCountByBlockHash hash => single_param (j_hash hash)
  | EthGetUncleCountByBlockNumber block => single_param (j_block block)
  | EthUninstallFilter filter_id => single_param (j_u256 filter_id)
  | EthGetFilterChanges filter_id => single_param (j_u256 filter_id)
  | EthGetFilterLogs filter_id => single_param (j_u256 filter_id)
  | EthGetBalance address block => addr_block_params address block
  | EthGetTransactionCount address block => addr_block_params address block
  | EthGetCode address block => addr_block_params address block
  | EthSign address message => [j_address address; j_bytes message]
  | EthGetTransactionByBlockHashAndIndex block_hash index => [j_hash block_hash; j_u256 index]
  | EthGetTransactionByBlockNumberAndIndex block index => [j_block block; j_u256 index]
  | EthGetUncleByBlockHashAndIndex block_hash index => [j_hash block_hash; j_u256 index]
  | EthGetUncleByBlockNumberAndIndex block index => [j_block block; j_u256 index]
  | EthGetStorageAt address position block =>
      push_optional [j_address address; j_u256 position] j_block block
  | EthGetBlockByNumber block full_txs => [j_block block; JBool full_txs]
  | EthGetBlockByHash hash full_txs => [j_hash hash; JBool full_txs]
  | EthCall tx block => tx_object_params tx block
  | EthEstimateGas tx block => tx_object_params tx block
  | EthSignTransaction tx => tx_object_params tx None
  | EthSendTransaction tx => tx_object_params tx None
  | EthGetLogs filter => single_param (filter_json filter)
  | EthNewFilter filter => single_param (filter_json filter)
  end.
End params.

(** ** The run *)

Record RpcCliArgs := {
  rpc_url : string;
  rps : Z;
  duration : Z;
  gen_report : bool;
  method : RpcMethodSubcommand;
}.

(** A request, and how the task that sends it ends: with what its client answers,
    or in a panic, after how many seconds. *)
Record Request := { rq_method : string; rq_params : Json }.
Record TaskEnd := { te_result : outcome string ResponsePacket; te_elapsed : f64 }.

(** What joining a task gives: a response, an error (of the transport or in the
    answer), or the panic. *)
Inductive Reply := Response | RpcFailure | JoinFailure.
Definition reply_of (e : TaskEnd) : Reply :=
  match te_result e with
  | Ok (SingleResponse (Some _)) => Response
  | Ok _ | Err _ => RpcFailure
  | Panic => JoinFailure
  end.
Definition tally_reply (acc : Z * Z) (r : Reply) : Z * Z :=
  match r with Response => (acc.1 + 1, acc.2) | _ => (acc.1, acc.2 + 1) end.

(** A task, with its number, and all of them as the loop spawns them. *)
Abbreviation Task := (nat * Request)%type (only parsing).
Definition spawn_requests (request : Request) (total : Z) : list (nat * Request) :=
  (fun i => (i, request)) <$> seq 0 (Z.to_nat total).

(** The request as the layer of the client sees it. *)
Definition served_of (t : nat * Request) (e : TaskEnd) : Served := {|
  sr_request := SingleRequest (rq_method t.2) (Some (Z.of_nat t.1));
  sr_result := te_result e; sr_elapsed := te_elapsed e |}.

Section tasks.
(** How each task ends, and which of those left ends next. *)
Variables (ends : nat * Request -> TaskEnd) (next : list (nat * Request) -> nat).

Definition join_task (j : (Z * Z) * Metrics) (t : nat * Request) : (Z * Z) * Metrics :=
  (tally_reply j.1 (reply_of (ends t)), serve j.2 (served_of t (ends t))).
(** [join_next] until the set is empty. *)
Fixpoint join_all (fuel : nat) (tasks : list (nat * Request)) (j : (Z * Z) * Metrics)
  : (Z * Z) * Metrics :=
  match fuel with
  | O => j
  | S fuel =>
      let i := (next tasks mod length tasks)%nat in
      match tasks !! i with
      | Some t => join_all fuel (delete i tasks) (join_task j t)
      | None => j
      end
  end.
End tasks.

(** [Duration::from_secs_f64(1.0 / rps)] in nanoseconds, and the interval, whose
    period is not zero. *)
Definition interval {E} (rps : Z) : outcome E Z :=
  match f64_div (f64_of_Z 1) (f64_of_Z rps) with
  | S754_finite false m e =>
      let ns := if 0 <=? e then Z.pos m * 10 ^ 9 * 2 ^ e
                else round_half_even (Z.pos m * 10 ^ 9) (2 ^ (- e)) in
      assert_ (0 <? ns);; mret ns
  | _ => Panic
  end.

(** [RpcReportMetadata]. *)
Record RpcReportMetadata := {
  md_method : string;
  md_rpc_url : string;
  md_run_id : Z;
  md_rps : Z;
  md_duration_secs : Z;
  md_total_requests : Z;
  md_success_count : Z;
  md_error_count : Z;
  md_latency_quantiles : RpcLatencyQuantiles;
  md_latency_chart : LatencyData;
}.

(** By the names of the methods, as in the [BTreeMap]. *)
Definition collect_latency_metrics `{Prometheus} (m : Metrics) : list (string * list Bucket) :=
  merge_sort name_le (map_to_list (collected m)).

Definition latency_of (method : string) (latency_map : list (string * list Bucket)) : list Bucket :=
  default [] ((fun x => x.2.2) <$> list_find (fun mb => mb.1 = method) latency_map).

Definition rpc_run_request (args : RpcCliArgs) (now_secs : option Z) : SpamRunRequest := {|
  rr_timestamp := wrap 64 (default 0 now_secs); rr_tx_count := 0;
  rr_scenario_name := ("rpc:" +:+ method_name (method args))%string;
  rr_campaign_id := None; rr_campaign_name := None; rr_stage_name := None;
  rr_rpc_url := rpc_url args; rr_txs_per_duration := rps args;
  rr_duration := Seconds (duration args); rr_pending_timeout_secs := 0 |}.

(** Milliseconds, half away from zero. *)
Definition rpc_to_ms (v : f64) : Z := f64_to_uint 64 (f64_round (f64_mul v (f64_of_Z 1000))).

Section run.
Context {P : Profile} {F : F64Display} {J : JsonText} {Pr : Prometheus} {D : Type} `{DO : DbOps D}.

Definition rpc_report (args : RpcCliArgs) (total run_id : Z) (counts : Z * Z)
    (latency_map : list (string * list Bucket)) : outcome CliError RpcReportMetadata :=
  let name := method_name (method args) in
  let buckets := latency_of name latency_map in
  p50 ← estimate_quantile buckets (f64_lit 5 10);
  p90 ← estimate_quantile buckets (f64_lit 9 10);
  p99 ← estimate_quantile buckets (f64_lit 99 100);
  chart ← map_err (fun _ => ReportErr "chart") (latency_data buckets);
  mret {| md_method := name; md_rpc_url := rpc_url args; md_run_id := run_id; md_rps := rps args;
          md_duration_secs := duration args; md_total_requests := total;
          md_success_count := counts.1; md_error_count := counts.2;
          md_latency_quantiles := {| rl_p50 := rpc_to_ms p50; rl_p90 := rpc_to_ms p90;
                                     rl_p99 := rpc_to_ms p99; rl_method := name |};
          md_latency_chart := chart |}.

(** From the metrics of the process. *)
Definition run_rpc_spam (args : RpcCliArgs) (ends : nat * Request -> TaskEnd)
    (next : list (nat * Request) -> nat) (now_secs : option Z) (m : Metrics) (db : D)
  : outcome CliError (option RpcReportMetadata * D) :=
  let m := init_metrics m in
  let request := {| rq_method := method_name (method args); rq_params := to_params (method args) |} in
  total ← arith 64 (rps args * duration args);
  interval (rps args);;
  let tasks := spawn_requests request total in
  let '(counts, m) := join_all ends next (length tasks) tasks ((0, 0), m) in
  let latency_map := collect_latency_metrics m in
  '(run_id, db) ← db_call (Db.insert_run db (rpc_run_request args now_secs));
  db ← db_call (Db.insert_latency_metrics db run_id latency_map);
  if gen_report args then
    report ← rpc_report args total run_id counts latency_map;
    mret (Some report, db)
  else mret (None, db).
End run.

(** ** The summary *)

(** A histogram of the requests, as the registry has it. *)
Record LatencyHist := {
  lh_labels : list (string * string);
  lh_sample_count : Z;
  lh_sample_sum : f64;
  lh_buckets : list Bucket;
}.
Record LatencySummary := {
  ls_count : Z;
  ls_avg : f64;
  ls_quantiles : list (string * f64);
}.
Definition summary_quantiles : list (string * f64) :=
  [("p50"%string, f64_lit 5 10); ("p90"%string, f64_lit 9 10); ("p95"%string, f64_lit 95 100);
   ("p99"%string, f64_lit 99 100)].
(** The first bucket that reaches the count, rounded down. *)
Definition summary_quantile (count : Z) (buckets : list Bucket) (q : string * f64) : option (string * f64) :=
  let target := f64_to_uint 64 (f64_mul q.2 (f64_of_Z count)) in
  (fun b => (q.1, upper_bound b.2)) <$> list_find (fun b => target <= cumulative_count b) buckets.
Definition of_method (method : string) (h : LatencyHist) : bool :=
  existsb (fun l => String.eqb l.1 "rpc_method" && String.eqb l.2 method) (lh_labels h).
(** What is printed, one after the other: an empty histogram ends it. *)
Fixpoint latency_summary (method : string) (hists : list LatencyHist) : list LatencySummary :=
  match hists with
  | [] => []
  | h :: hists =>
      if of_method method h then
        if lh_sample_count h =? 0 then []
        else {| ls_count := lh_sample_count h;
                ls_avg := f64_div (lh_sample_sum h) (f64_of_Z (lh_sample_count h));
                ls_quantiles := omap (summary_quantile (lh_sample_count h) (lh_buckets h)) summary_quantiles |}
             :: latency_summary method hists
      else latency_summary method hists
  end.

(** ** Different requests are sent differently *)

(** Texts tell values apart. *)
Class JsonTextLaws `{J : JsonText} : Prop := {
  address_text_inj :: Inj (=) (=) address_text;
  hash_text_inj :: Inj (=) (=) hash_text;
  u256_text_inj :: Inj (=) (=) u256_text;
  bytes_text_inj :: Inj (=) (=) bytes_text;
  block_text_inj :: Inj (=) (=) block_text;
}.

Section distinct.
Context `{JL : JsonTextLaws}.

#[local] Instance j_address_inj : Inj (=) (=) j_address.
Proof. intros x y [= H]. by simplify_eq. Qed.
#[local] Instance j_hash_inj : Inj (=) (=) j_hash.
Proof. intros x y [= H]. by simplify_eq. Qed.
#[local] Instance j_u256_inj : Inj (=) (=) j_u256.
Proof. intros x y [= H]. by simplify_eq. Qed.
#[local] Instance j_bytes_inj : Inj (=) (=) j_bytes.
Proof. intros x y [= H]. by simplify_eq. Qed.
#[local] Instance j_block_inj : Inj (=) (=) j_block.
Proof. intros x y [= H]. by simplify_eq. Qed.
#[local] Instance j_topics_inj : Inj (=) (=) (fun l => JArray (j_hash <$> l)).
Proof. intros x y [= H]. by apply (inj (fmap j_hash)) in H. Qed.
#[local] Instance j_number_inj : Inj (=) (=) JNumber.
Proof. by intros x y [= H]. Qed.

Lemma tx_json_fields tx :
  json_field "from" (tx_json tx) = Some (j_address (co_from tx)) /\
  json_field "to" (tx_json tx) = Some (j_address (co_to tx)) /\
  json_field "input" (tx_json tx) = Some (j_bytes (co_input tx)) /\
  json_field "gas" (tx_json tx) = j_u256 <$> co_gas tx /\
  json_field "gasPrice" (tx_json tx) = j_u256 <$> co_gas_price tx /\
  json_field "value" (tx_json tx) = j_u256 <$> co_value tx /\
  json_field "nonce" (tx_json tx) = JNumber <$> co_nonce tx.
Proof. by destruct tx as [? ? ? [] [] [] []]. Qed.

Lemma filter_json_fields f :
  json_field "fromBlock" (filter_json f) = j_block <$> lf_from_block f /\
  json_field "toBlock" (filter_json f) = j_block <$> lf_to_block f /\
  json_field "address" (filter_json f) = j_address <$> lf_address f /\
  json_field "topics" (filter_json f) = (fun l => JArray (j_hash <$> l)) <$> lf_topics f /\
  json_field "blockHash" (filter_json f) = j_hash <$> lf_block_hash f.
Proof. by destruct f as [[] [] [] [] []]. Qed.

#[local] Instance tx_json_inj : Inj (=) (=) tx_json.
Proof.
  intros x y H. destruct (tx_json_fields x) as (H1 & H2 & H3 & H4 & H5 & H6 & H7).
  rewrite H in H1, H2, H3, H4, H5, H6, H7.
  destruct (tx_json_fields y) as (K1 & K2 & K3 & K4 & K5 & K6 & K7).
  rewrite K1 in H1. rewrite K2 in H2. rewrite K3 in H3. rewrite K4 in H4. rewrite K5 in H5.
  rewrite K6 in H6. rewrite K7 in H7. destruct x, y. cbn in *. by simplify_eq.
Qed.

#[local] Instance filter_json_inj : Inj (=) (=) filter_json.
Proof.
  intros x y H. destruct (filter_json_fields x) as (H1 & H2 & H3 & H4 & H5).
  rewrite H in H1, H2, H3, H4, H5. destruct (filter_json_fields y) as (K1 & K2 & K3 & K4 & K5).
  rewrite K1 in H1. rewrite K2 in H2. rewrite K3 in H3. rewrite K4 in H4. rewrite K5 in H5.
  destruct x, y. cbn in *. by simplify_eq.
Qed.

Lemma push_optional_inj {A} (f : A -> Json) `{!Inj (=) (=) f} l k o1 o2 :
  length l = length k -> push_optional l f o1 = push_optional k f o2 -> l = k /\ o1 = o2.
Proof.
  intros Hl H. destruct o1 as [x|], o2 as [y|]; cbn in H.
  - apply app_inj_1 in H as [-> [= ->%(inj f)]]; done.
  - apply (f_equal length) in H. rewrite length_app in H. cbn in H. lia.
  - apply (f_equal length) in H. rewrite length_app in H. cbn in H. lia.
  - done.
Qed.

Lemma one_inj {A} (f : A -> Json) `{!Inj (=) (=) f} x y : [f x] = [f y] -> x = y.
Proof. intros H. apply (inj f). by apply (f_equal (default (f x) ∘ head)) in H. Qed.
Lemma array_inj l k : JArray l = JArray k -> l = k.
Proof. by intros [= ->]. Qed.

(** The same parameters, in the cases of a command. *)
Ltac same_params H :=
  apply array_inj in H; unfold addr_block_params, tx_object_params, single_param in H;
  first [ apply push_optional_inj in H as [H ->]; [| |reflexivity]; [|apply _]
        | idtac ];
  first [ apply one_inj in H as ->; [reflexivity|apply _] | simplify_eq; reflexivity ].

(** Every argument of a request reaches the node: two commands that send the
    same method with the same parameters are the same command. *)
Theorem requests_distinct m1 m2 :
  method_name m1 = method_name m2 -> to_params m1 = to_params m2 -> m1 = m2.
Proof.
  intros Hn Hp. destruct m1, m2; try discriminate Hn; clear Hn; try reflexivity; same_params Hp.
Qed.
End distinct.

(** ** What is recorded *)

(** Every task is joined once, in some order. *)
Lemma join_all_each ends next tasks j :
  exists order, order ≡ₚ tasks /\
    join_all ends next (length tasks) tasks j = fold_left (join_task ends) order j.
Proof.
  remember (length tasks) as n eqn:Hn. revert tasks j Hn. induction n as [|n IH]; intros tasks j Hn.
  - exists []. split; [|done]. by destruct tasks.
  - cbn [join_all]. rewrite <- Hn.
    destruct (lookup_lt_is_Some_2 tasks (next tasks mod S n)) as [t Ht].
    { rewrite <- Hn. apply Nat.mod_upper_bound. lia. }
    rewrite Ht. pose proof (delete_Permutation _ _ _ Ht) as Hp.
    destruct (IH (delete (next tasks mod S n)%nat tasks) (join_task ends j t)) as (order & Ho & ->).
    { rewrite length_delete by (by eexists). lia. }
    exists (t :: order). split; [|done]. by rewrite Ho.
Qed.

Definition is_response (r : Reply) : bool := match r with Response => true | _ => false end.
Definition replies_that (p : bool) (l : list Reply) : Z :=
  Z.of_nat (length (filter (fun r => is_response r = p) l)).

Lemma join_tasks ends order s e m :
  fold_left (join_task ends) order ((s, e), m) =
  ((s + replies_that true (reply_of ∘ ends <$> order), e + replies_that false (reply_of ∘ ends <$> order)),
   fold_left metrics_event ((fun t => Serve (served_of t (ends t))) <$> order) m).
Proof.
  revert s e m. induction order as [|t order IH]; intros s e m; cbn [fold_left fmap list_fmap].
  - unfold replies_that. cbn. by rewrite !Z.add_0_r.
  - unfold join_task at 2. cbn [fst snd]. unfold replies_that. rewrite !filter_cons.
    change ((reply_of ∘ ends) t) with (reply_of (ends t)).
    destruct (reply_of (ends t)); cbn [tally_reply is_response fst snd]; rewrite IH; unfold replies_that;
      repeat case_decide; try done; cbn [length metrics_event]; do 2 f_equal; lia.
Qed.

Lemma replies_that_perm p l k : l ≡ₚ k -> replies_that p l = replies_that p k.
Proof. intros H. unfold replies_that. by rewrite H. Qed.
Lemma counted_perm l k m : l ≡ₚ k -> counted l m = counted k m.
Proof. intros H. unfold counted. apply imap_ext. intros i b _. f_equal. unfold count_upto. by rewrite H. Qed.

Lemma latency_rows id method l :
  NoDup l.*1 ->
  omap (fun x : Z * (string * Bucket) => if (x.1 =? id) && String.eqb x.2.1 method then Some x.2.2 else None)
    (pair id <$> (l ≫= fun mb => pair mb.1 <$> mb.2)) = latency_of method l.
Proof.
  unfold latency_of. induction l as [|[m bs] l IH]; intros Hd; [done|].
  apply NoDup_cons in Hd as [Hm Hd]. cbn [list_find fst].
  change (((m, bs) :: l) ≫= fun mb => pair mb.1 <$> mb.2) with
    ((pair m <$> bs) ++ (l ≫= fun mb => pair mb.1 <$> mb.2)).
  rewrite fmap_app, omap_app.
  assert (Hb : forall bs : list Bucket, omap (fun x : Z * (string * Bucket) =>
      if (x.1 =? id) && String.eqb x.2.1 method then Some x.2.2 else None) (pair id <$> (pair m <$> bs)) =
    if decide (m = method) then bs else []).
  { clear. induction bs as [|b bs IH]; cbn; [by case_decide|]. rewrite Z.eqb_refl. cbn. rewrite IH.
    destruct (String.eqb_spec m method); by case_decide. }
  rewrite Hb, IH by done. case_decide as He.
  - subst m. cbn. assert (Hnone : list_find (fun mb : string * list Bucket => mb.1 = method) l = None).
    { apply list_find_None, Forall_forall. intros mb Hin Heq. apply Hm. rewrite <- Heq.
      change (mb.1 ∈ l.*1). by apply list_elem_of_fmap_2. }
    rewrite Hnone. cbn. by rewrite app_nil_r.
  - cbn [app]. by destruct (list_find _ l) as [[i x]|].
Qed.

Lemma latency_metrics_nodup `{Pr : Prometheus} m : NoDup (collect_latency_metrics m).*1.
Proof.
  unfold collect_latency_metrics. rewrite merge_sort_Permutation. apply NoDup_fst_map_to_list.
Qed.

(** Nothing of a method that the registry does not have. *)
Lemma latency_of_none method l : method ∉ l.*1 -> latency_of method l = [].
Proof.
  intros Hn. unfold latency_of. assert (Hf : list_find (fun mb : string * list Bucket => mb.1 = method) l = None).
  { apply list_find_None, Forall_forall. intros mb Hin <-. apply Hn. by apply list_elem_of_fmap_2. }
  by rewrite Hf.
Qed.
Lemma latency_of_elem method bs l : NoDup l.*1 -> (method, bs) ∈ l -> latency_of method l = bs.
Proof.
  intros Hd Hin. unfold latency_of. induction l as [|[k v] l IH]; [by apply not_elem_of_nil in Hin|].
  apply NoDup_cons in Hd as [Hk Hd]. cbn [list_find fst]. case_decide as He.
  - subst k. cbn. apply elem_of_cons in Hin as [[= <-]|Hin]; [done|]. destruct Hk.
    by apply (list_elem_of_fmap_2 fst) in Hin.
  - apply elem_of_cons in Hin as [[= -> _]|Hin]; [done|]. rewrite <- (IH Hd Hin).
    by destruct (list_find _ l) as [[? ?]|].
Qed.
Lemma latency_of_collected `{Pr : Prometheus} m method :
  latency_of method (collect_latency_metrics m) = default [] (collected m !! method).
Proof.
  pose proof (latency_metrics_nodup m) as Hd.
  assert (Hp : collect_latency_metrics m ≡ₚ map_to_list (collected m))
    by (unfold collect_latency_metrics; by rewrite merge_sort_Permutation).
  destruct (collected m !! method) as [bs|] eqn:Hm; cbn.
  - apply latency_of_elem; [done|]. rewrite Hp. by apply elem_of_map_to_list.
  - apply latency_of_none. rewrite Hp. intros ([k v] & -> & Hin)%list_elem_of_fmap.
    apply elem_of_map_to_list in Hin. cbn in Hm. congruence.
Qed.

(** The bounds of the buckets are shown so that SQLite reads them back. *)
Definition bounds_shown {F : F64Display} {X : SqlText} : Prop :=
  Forall (fun b => bucket_fits {| upper_bound := b; cumulative_count := 0 |}) latency_bounds.
(** The database has what the store has, on whatever connection it is asked. *)
Abbreviation holds_all := (SqliteRefine.holds true (fun _ : nat => True)) (only parsing).

Lemma method_quote_free m : quote_free (method_name m) = true.
Proof. by destruct m. Qed.

Section recorded.
Context {P : Profile} {F : F64Display} {X : SqlText} {HX : SqlTextLaws} {FH : FromHex} {HF : FromHexLaws}.
Context {J : JsonText} `{PL : !PrometheusLaws Pr}.
Abbreviation sqlite_on c := (sqlite_ops (fun _ : nat => Ok c) true).

Lemma counted_fits l m : bounds_shown -> Z.of_nat (length l) < 2 ^ 63 -> Forall bucket_fits (counted l m).
Proof.
  intros Hb Hl. apply Forall_forall. intros b Hin. apply elem_of_lookup_imap in Hin as (i & x & -> & Hx).
  apply list_elem_of_lookup_2 in Hx. destruct (proj1 (Forall_forall _ _) Hb x Hx) as (_ & Ht & Hv).
  split; [|by split]. cbn. unfold count_upto, fits_i64.
  pose proof (length_filter (fun s : string * f64 => String.eqb s.1 m && falls latency_bounds i s.2 = true) l). lia.
Qed.

(** A run and its latencies, written one after the other and read back. *)
Lemma run_saved c s a r metrics db1 db2 id :
  holds_all s a -> Forall (fun x : Z * (string * Bucket) => x.1 <= count_of (st_runs a)) (st_latency a) ->
  count_of (st_runs a) + 1 < 2 ^ 63 -> request_stored r -> NoDup metrics.*1 ->
  Forall (fun mb => quote_free mb.1 = true /\ Forall bucket_fits mb.2) metrics ->
  Db.insert_run (DbOps := sqlite_on c) s r = Ok (id, db1) ->
  Db.insert_latency_metrics (DbOps := sqlite_on c) db1 id metrics = Ok db2 ->
  id = count_of (st_runs a) + 1 /\
  forall c', Db.get_run (DbOps := sqlite_on c') db2 id = Ok (Some (run_of_request id r)) /\
    forall m, Db.get_latency_metrics (DbOps := sqlite_on c') db2 id m = Ok (latency_of m metrics).
Proof.
  intros Hs Hrows Hsmall Hr Hd Hfits H1 H2.
  destruct (insert_run_holds true (fun _ => True) (fun _ => Ok c) c (fun _ => eq_refl) s a r Hs Hr)
    as (s1 & Hins & Hs1).
  cbn [Db.insert_run sqlite_ops] in H1. rewrite (writing_ok _ _ _ _ Hins) in H1. injection H1 as <- <-.
  assert (Hid : fits_i64 (count_of (st_runs a) + 1)) by (unfold fits_i64, count_of in *; lia).
  assert (Hhas : with_id (count_of (st_runs a) + 1) (st_runs (add_run r a)) = Some r).
  { cbn. unfold with_id, count_of. destruct (Z.leb_spec 1 (Z.of_nat (length (st_runs a)) + 1)); [|lia].
    by rewrite list_lookup_middle by lia. }
  destruct (insert_latency_holds true (fun _ => True) (fun _ => Ok c) c I (fun _ => eq_refl) s1 (add_run r a)
    (count_of (st_runs a) + 1) metrics Hs1 Hid Hfits) as [Hok _].
  destruct Hok as (s2 & Hlat & Hs2); [right; by eexists|].
  cbn [Db.insert_latency_metrics sqlite_ops] in H2. rewrite (writing_ok _ _ _ _ Hlat) in H2. injection H2 as <-.
  split; [done|]. intros c'. split; [|intros m].
  - cbn [Db.get_run sqlite_ops]. unfold reading.
    rewrite (get_run_holds true (fun _ => True) (fun _ => Ok c') c' (fun _ => eq_refl) s2 _ _ Hs2 Hid).
    cbn [st_runs add_latency]. by rewrite Hhas.
  - cbn [Db.get_latency_metrics sqlite_ops]. unfold reading.
    rewrite (latency_holds true (fun _ => True) (fun _ => Ok c') c' (fun _ => eq_refl) s2 _ _ m Hs2 Hid).
    cbn [map_err st_latency add_latency add_run]. f_equal.
    rewrite omap_app, (latency_rows _ m _ Hd).
    assert (Hold : omap (fun x : Z * (string * Bucket) => if (x.1 =? count_of (st_runs a) + 1) && String.eqb x.2.1 m
        then Some x.2.2 else None) (st_latency a) = []); [|by rewrite Hold].
    clear - Hrows. induction Hrows as [|x l Hx _ IH]; [done|]. cbn.
    destruct (Z.eqb_spec x.1 (count_of (st_runs a) + 1)); [lia|done].
Qed.

(** The latencies of a process that has sent nothing but the requests of a run. *)
Lemma run_latencies (evs : list MetricsEvent) m :
  latency_of m (collect_latency_metrics (fold_left metrics_event evs (init_metrics Metrics_new))) =
  if decide (m ∈ labels evs) then counted (samples evs) m else [].
Proof.
  rewrite latency_of_collected, (collected_counted _ (labels evs) (samples evs))
    by exact (holds_run _ _ _ evs holds_new). by destruct (decide _).
Qed.

(** The methods of a list of served requests of one method. *)
Lemma labels_served name (l : list Served) :
  (forall s, s ∈ l -> request_method (sr_request s) = name) -> forall m, m ∈ labels (Serve <$> l) -> m = name.
Proof.
  intros Hl m Hm. unfold labels in Hm. apply list_elem_of_omap in Hm as (e & (s & -> & Hs)%list_elem_of_fmap & He).
  cbn in He. destruct (sr_result s); try done. injection He as <-. by apply Hl.
Qed.

(** C35: Of [contender rpc] in a process of its own, with a database that holds what
    a store holds, whose latencies are of its runs and that one connection serves, when
    the values fit SQLite, its bounds of buckets are read back as they are shown, and
    the run succeeds.  Every one of [rps * duration] tasks has then sent the method
    with its parameters, in whatever order they ended.  On every connection the
    database gives back a run under the name of the method, with the URL, the rate
    and the duration; for the method the counts of exactly the requests the client
    had an answer to, and for another method nothing.  When a report was asked for,
    it names the run and counts as successes the tasks that ended with a response,
    and as errors all others. *)
Theorem rpc_run_recorded args (ends : nat * Request -> TaskEnd) next now (c : nat) (s s' : SqliteDb)
    (a : Store) report
    (requests := (fun i => (i, {| rq_method := method_name (method args);
                                  rq_params := to_params (method args) |})) <$>
                 seq 0 (Z.to_nat (rps args * duration args)))
    (served := (fun t => served_of t (ends t)) <$> requests)
    (replies := reply_of ∘ ends <$> requests) :
  holds_all s a -> Forall (fun x : Z * (string * Bucket) => x.1 <= count_of (st_runs a)) (st_latency a) ->
  count_of (st_runs a) + 1 < 2 ^ 63 -> bounds_shown -> request_stored (rpc_run_request args now) ->
  0 <= rps args * duration args < 2 ^ 63 ->
  run_rpc_spam (DO := sqlite_on c) args ends next now Metrics_new s = Ok (report, s') ->
  exists id, id = count_of (st_runs a) + 1 /\
    (forall c', Db.get_run (DbOps := sqlite_on c') s' id = Ok (Some (run_of_request id {|
       rr_timestamp := wrap 64 (default 0 now); rr_tx_count := 0;
       rr_scenario_name := ("rpc:" +:+ method_name (method args))%string;
       rr_campaign_id := None; rr_campaign_name := None; rr_stage_name := None;
       rr_rpc_url := rpc_url args; rr_txs_per_duration := rps args;
       rr_duration := Seconds (duration args); rr_pending_timeout_secs := 0 |}))) /\
    (forall c' m, Db.get_latency_metrics (DbOps := sqlite_on c') s' id m = Ok (
       if decide (m ∈ labels (Serve <$> served)) then counted (samples (Serve <$> served)) m else [])) /\
    (forall m, m ∈ labels (Serve <$> served) -> m = method_name (method args)) /\
    (gen_report args = true -> exists r, report = Some r /\ md_run_id r = id /\
       md_method r = method_name (method args) /\ md_total_requests r = rps args * duration args /\
       md_success_count r = replies_that true replies /\ md_error_count r = replies_that false replies).
Proof.
  intros Hs Hrows Hsmall Hb Hr Ht H. unfold run_rpc_spam in H.
  apply bind_ok in H as (total & Htotal & H). rewrite arith_in in Htotal by lia. injection Htotal as <-.
  apply bind_ok in H as (ns & _ & H). cbv zeta in H.
  destruct (join_all_each ends next (spawn_requests {| rq_method := method_name (method args);
    rq_params := to_params (method args) |} (rps args * duration args)) ((0, 0), init_metrics Metrics_new))
    as (order & Ho & Hj).
  rewrite Hj, join_tasks, !Z.add_0_l in H. change (order ≡ₚ requests) in Ho.
  set (evs := (fun t => Serve (served_of t (ends t))) <$> order) in H.
  assert (Hevs : evs ≡ₚ Serve <$> served) by (subst evs served; rewrite <- list_fmap_compose; by rewrite Ho).
  assert (Hlab : forall m, m ∈ labels evs <-> m ∈ labels (Serve <$> served))
    by (intros m; unfold labels; by rewrite Hevs).
  assert (Hsam : samples evs ≡ₚ samples (Serve <$> served)) by (unfold samples; by rewrite Hevs).
  assert (Hname : forall m, m ∈ labels (Serve <$> served) -> m = method_name (method args)).
  { apply labels_served. intros sv (t & -> & (i & -> & _)%list_elem_of_fmap)%list_elem_of_fmap. done. }
  set (metrics := collect_latency_metrics _) in H.
  assert (Hlat : forall m, latency_of m metrics =
    if decide (m ∈ labels (Serve <$> served)) then counted (samples (Serve <$> served)) m else []).
  { intros m. subst metrics. rewrite run_latencies, (decide_ext _ _ _ _ (Hlab m)). case_decide; [|done].
    by apply counted_perm. }
  apply bind_ok in H as ([id db1] & Hrun & H). apply map_err_ok in Hrun.
  apply bind_ok in H as (db2 & Hins & H). apply map_err_ok in Hins.
  destruct (run_saved c s a (rpc_run_request args now) metrics db1 db2 id) as [-> Hget]; try done.
  { apply latency_metrics_nodup. }
  { subst metrics. apply Forall_forall. intros [m bs] Hin. unfold collect_latency_metrics in Hin.
    rewrite merge_sort_Permutation in Hin. apply elem_of_map_to_list in Hin.
    rewrite (collected_counted _ (labels evs) (samples evs)) in Hin by exact (holds_run _ _ _ evs holds_new).
    destruct (decide (m ∈ labels evs)) as [Hm|]; [|done]. injection Hin as <-. cbn [fst snd].
    split; [rewrite (Hname m) by (by apply Hlab); apply method_quote_free|]. apply counted_fits; [done|].
    pose proof (samples_length evs) as Hl. apply Permutation_length in Ho. subst evs requests.
    rewrite length_fmap, Ho, length_fmap, length_seq in Hl. lia. }
  exists (count_of (st_runs a) + 1). split; [done|].
  assert (Hend : s' = db2 /\ (gen_report args = true -> exists r, report = Some r /\
      rpc_report args (rps args * duration args) (count_of (st_runs a) + 1)
        (replies_that true (reply_of ∘ ends <$> order), replies_that false (reply_of ∘ ends <$> order))
        metrics = Ok r)).
  { destruct (gen_report args); inv_outcome; (split; [done|]); [|done]. intros _. by eexists. }
  destruct Hend as [-> Hrep]. split_and!.
  - intros c'. apply Hget.
  - intros c' m. rewrite <- Hlat. apply Hget.
  - exact Hname.
  - intros Hg. destruct (Hrep Hg) as (r & -> & Hr'). exists r. unfold rpc_report in Hr'. inv_outcome. cbn.
    assert (Hrp : reply_of ∘ ends <$> order ≡ₚ replies) by (subst replies; by rewrite Ho).
    split_and!; try done; by apply replies_that_perm.
Qed.
End recorded.

(** ** The ends of the range *)

(** No requests per second: the interval cannot be made. *)
Lemma interval_zero {E} : interval (E := E) 0 = Panic.
Proof. reflexivity. Qed.

(** Whole nanoseconds. *)
Example interval_second : interval (E := string) 1 = Ok 1000000000.
Proof. reflexivity. Qed.
Example interval_third : interval (E := string) 3 = Ok 333333333.
Proof. reflexivity. Qed.

(** The counts are rounded down: after one request every quantile is the first
    bucket, whatever the latency was. *)
Lemma summary_one_sample b bs : 0 <= cumulative_count b ->
  omap (summary_quantile 1 (b :: bs)) summary_quantiles =
  (fun q : string * f64 => (q.1, upper_bound b)) <$> summary_quantiles.
Proof.
  intros Hb. assert (Hq : forall q, q ∈ summary_quantiles ->
      summary_quantile 1 (b :: bs) q = Some (q.1, upper_bound b)).
  { intros q Hq. unfold summary_quantile.
    replace (f64_to_uint 64 (f64_mul q.2 (f64_of_Z 1))) with 0.
    - cbn. by rewrite decide_True.
    - revert q Hq. apply (Forall_forall (fun q : string * f64 => 0 = f64_to_uint 64 (f64_mul q.2 (f64_of_Z 1)))).
      repeat constructor. }
  revert Hq. generalize summary_quantiles. induction l as [|q l IH]; intros Hq; [done|].
  cbn [omap list_omap]. rewrite Hq by set_solver. cbn [fmap list_fmap]. f_equal. apply IH. intros x Hx. apply Hq. set_solver.
Qed.

Module RpcWitness.
#[export] Instance texts : JsonText := {|
  address_text a := pretty a;
  hash_text h := pretty h;
  u256_text v := pretty v;
  bytes_text := string_of_list_byte;
  block_text b :=
    match b with
    | Latest => "latest" | Finalized => "finalized" | Safe => "safe" | Earliest => "earliest"
    | Pending => "pending" | Number n => ("#" +:+ pretty n)%string
    end;
|}.

#[export] Instance texts_laws : JsonTextLaws.
Proof.
  split; try (by intros x y Hxy; apply (inj pretty) in Hxy).
  - intros x y Hxy. apply (f_equal list_byte_of_string) in Hxy.
    by rewrite !list_byte_of_string_of_list_byte in Hxy.
  - intros [] [] Hxy; try done. cbn in Hxy. apply (inj (String.append "#")) in Hxy.
    by apply (inj pretty) in Hxy as ->.
Defined.

(** A balance at the latest block is not a balance without a block. *)
Lemma requests_distinct_witness : to_params (EthGetBalance 7 (Some Latest)) <> to_params (EthGetBalance 7 None).
Proof.
  intros H. pose proof (requests_distinct (EthGetBalance 7 (Some Latest)) (EthGetBalance 7 None) eq_refl H) as Hd.
  discriminate Hd.
Defined.

#[local] Instance checked_build : Profile := true.
#[local] Existing Instance MetricsWitness.toy_prometheus.
#[local] Existing Instance MetricsWitness.toy_prometheus_laws.
(** The bounds of the buckets as they are shown. *)
Definition bound_texts : list (f64 * string) :=
  zip latency_bounds ["0.0001"; "0.001"; "0.01"; "0.05"; "0.1"; "0.25"; "0.5"]%string.
#[local] Instance shown : F64Display := fun x =>
  default "1"%string ((fun t => t.2.2) <$> list_find (fun t : f64 * string => f64_le x t.1 = true) bound_texts).

Definition two_per_second : RpcCliArgs := {|
  rpc_url := "http://localhost:8545"; rps := 2; duration := 2; gen_report := true; method := EthChainId |}.
(** Two responses, an error in an answer and one of the transport. *)
Definition ends (t : nat * Request) : TaskEnd :=
  match t.1 with
  | 0%nat => {| te_result := Ok (SingleResponse (Some "0x1"%string)); te_elapsed := f64_lit 2 1000 |}
  | 1%nat => {| te_result := Err "refused"%string; te_elapsed := f64_lit 1 1000 |}
  | 2%nat => {| te_result := Ok (SingleResponse None); te_elapsed := f64_lit 2 10 |}
  | _ => {| te_result := Ok (SingleResponse (Some "0x1"%string)); te_elapsed := f64_lit 7 100 |}
  end.
Definition last_task (tasks : list (nat * Request)) : nat := length tasks - 1.
Definition made : SqliteDb := (create_tables (fun _ => Ok 0%nat) true empty_db).1.

Lemma made_holds : holds_all made empty_store.
Proof.
  destruct (create_holds true (fun _ => True) (fun _ => Ok 0%nat) 0%nat) as (s & Hs & Hh); [done|by intros; left|].
  unfold made. by rewrite Hs.
Qed.
Lemma bounds_are_shown : bounds_shown.
Proof.
  assert (H : (fun b => (bare_literal (f64_display b), read_literal (f64_display b))) <$> latency_bounds =
    (fun b => (true, Some (SReal b))) <$> latency_bounds) by (vm_compute; reflexivity).
  unfold bounds_shown. revert H. generalize latency_bounds. induction l as [|b l IH]; intros H; [constructor|].
  injection H as Hb Hl H. constructor; [|by apply IH].
  split; [done|]. split; [by apply literal_bare|]. by eexists.
Qed.

Lemma rpc_run_recorded_witness :
  exists report s', run_rpc_spam (DO := sqlite_ops (fun _ => Ok 0%nat) true) two_per_second ends last_task
      (Some 1700000000) Metrics_new made = Ok (Some report, s') /\
    cumulative_count <$> default [] (match Db.get_latency_metrics (DbOps := sqlite_ops (fun _ => Ok 3%nat) true)
      s' 1 "eth_chainId" with Ok l => Some l | _ => None end) = [0; 0; 1; 1; 2; 3; 3] /\
    md_success_count report = 2 /\ md_error_count report = 2.
Proof.
  destruct (run_rpc_spam (DO := sqlite_ops (fun _ => Ok 0%nat) true) two_per_second ends last_task
    (Some 1700000000) Metrics_new made) as [[r s']|e|] eqn:H; [|vm_compute in H; discriminate..].
  destruct (rpc_run_recorded two_per_second ends last_task (Some 1700000000) 0 made s' empty_store r)
    as (id & -> & _ & Hl & _ & Hr).
  - exact made_holds.
  - constructor.
  - done.
  - exact bounds_are_shown.
  - repeat split; cbn; done.
  - cbn. lia.
  - exact H.
  - destruct (Hr eq_refl) as (report & -> & _ & _ & _ & Hs & He). exists report, s'. split; [reflexivity|].
    change (count_of (st_runs empty_store) + 1) with 1 in Hl. rewrite (Hl 3%nat "eth_chainId"%string), Hs, He.
    split_and!; [vm_compute; reflexivity|reflexivity|reflexivity].
Defined.
End RpcWitness.
