(* ===== verification/ReportFiles.v ===== *)
(** * The files of reports ([report/src/gen_html.rs], [report/src/cache.rs],
      [report] and [report_campaign] of [report/src/command.rs])

    What [Report] and [CampaignReport] compute is written to files of the data
    directory: the transactions of each run, the traces and blocks, the page or
    the export of a report, the pages of a campaign.  The libraries that render
    a page, a table or JSON are the class [Render].  Opening the browser is left
    out. *)

From Stdlib Require Import Strings.String.
From S2P Require Import Prelude Text F64 Alloy Db Histogram Charts BlockTrace Report CampaignReport FileSystem DataDir RpcRuns.

Record CacheFile := {
  cf_traces : list TxTraceReceipt;
  cf_blocks : list RpcBlock;
  cf_data_dir : Path;
}.

(** What the page of a run of raw requests is rendered from. *)
Record RpcTemplateData := {
  rt_method : string;
  rt_date : string;
  rt_rpc_url : string;
  rt_rps : Z;
  rt_duration_secs : Z;
  rt_total_requests : Z;
  rt_success_count : Z;
  rt_error_count : Z;
  rt_latency_quantiles : RpcLatencyQuantiles;
  rt_latency_chart : LatencyData;
  rt_version : string;
}.
Definition RpcTemplateData_new (now pkg_version : string) (meta : RpcReportMetadata) : RpcTemplateData := {|
  rt_method := md_method meta; rt_date := now; rt_rpc_url := md_rpc_url meta; rt_rps := md_rps meta;
  rt_duration_secs := md_duration_secs meta; rt_total_requests := md_total_requests meta;
  rt_success_count := md_success_count meta; rt_error_count := md_error_count meta;
  rt_latency_quantiles := md_latency_quantiles meta; rt_latency_chart := md_latency_chart meta;
  rt_version := pkg_version |}.

(** handlebars on the templates, serde on reports and on the cache file, csv. *)
Class Render := {
  render_page : TemplateData -> outcome ReportError string;
  render_export : ReportExportV1 -> outcome ReportError string;
  render_rpc : RpcTemplateData -> outcome ReportError string;
  render_campaign_html : CampaignReportSummary -> outcome ReportError string;
  render_summary : CampaignReportSummary -> outcome ReportError string;
  csv_text : list RunTx -> string;
  write_cache : CacheFile -> string;
  read_cache : string -> outcome ReportError CacheFile;
}.

(** What serde promises of the cache file: it reads what it wrote. *)
Class RenderLaws (R : Render) : Prop := { read_write_cache c : read_cache (write_cache c) = Ok c }.

Section files.
Context {P : Profile} {FD : F64Display} {Db : Type} {O : DbOps Db} (node : ReportNode).
Context (scenario_file_name : string -> string) (millis_to_rfc3339 : Z -> string).
Context `{F : Faults} `{R : Render}.
(** The version of the program, and the time at which the report that ends with
    a run is made. *)
Context (pkg_version : string) (now : Z -> string).

Abbreviation io A := (stm FS ReportError A).
Definition io_report {A} (m : stm FS string A) : io A := stm_map_err Io m.

(** ** The cache file *)

Definition cache_path (data_dir : Path) : Path := join data_dir "debug_trace.json".
Definition cache_save (c : CacheFile) : io unit :=
  io_report (write (cache_path (cf_data_dir c)) (write_cache c)).
Definition cache_load (data_dir : Path) : io CacheFile :=
  text ← io_report (read_to_string (cache_path data_dir));
  lift (read_cache text).

(** ** Reports *)

Definition report_name (start_run_id end_run_id : Z) (extension : string) : string :=
  ("report-" +:+ dec start_run_id +:+ "-" +:+ dec end_run_id +:+ "." +:+ extension)%string.

Definition build_html_report (meta : ReportMetadata) (reports_dir : Path) : io Path :=
  html ← lift (render_page (TemplateData_new (now (rm_end_run_id meta)) pkg_version meta));
  let path := join reports_dir (report_name (rm_start_run_id meta) (rm_end_run_id meta) "html") in
  io_report (write path html);;
  mret path.

Definition build_json_report (meta : ReportMetadata) (reports_dir : Path) : io Path :=
  json ← lift (render_export (ReportExportV1_new (now (rm_end_run_id meta)) pkg_version meta));
  let path := join reports_dir (report_name (rm_start_run_id meta) (rm_end_run_id meta) "json") in
  io_report (write path json);;
  mret path.

(** A write that fails is called an error of the csv writer, whichever step of
    it failed. *)
Definition csv_name (id : Z) : string := (dec id +:+ ".csv")%string.
Definition save_csv_report (id : Z) (txs : list RunTx) (reports_dir : Path) : io unit :=
  stm_map_err CsvWriter (write (join reports_dir (csv_name id)) (csv_text txs)).

Definition reports_of (data_dir : Path) : Path := join data_dir "reports".
Definition ensure_dir (p : Path) : io unit :=
  fs ← gets id;
  if exists_path fs p then mret tt else io_report (create_dir_all p).

(** [build_rpc_html_report] and [report_rpc]. *)
Definition rpc_report_name (run_id : Z) : string := ("rpc-report-" +:+ dec run_id +:+ ".html")%string.
Definition build_rpc_html_report (meta : RpcReportMetadata) (reports_dir : Path) : io Path :=
  html ← lift (render_rpc (RpcTemplateData_new (now (md_run_id meta)) pkg_version meta));
  let path := join reports_dir (rpc_report_name (md_run_id meta)) in
  io_report (write path html);;
  mret path.
Definition report_rpc (meta : RpcReportMetadata) (data_dir : Path) : io Path :=
  ensure_dir (reports_of data_dir);;
  build_rpc_html_report meta (reports_of data_dir).

(** [report]: the path of the page or export, when there is a run.
    [debug_usefile] is whether [DEBUG_USEFILE] is set. *)
Definition report_files (debug_usefile : bool) (db : Db) (data_dir : Path) (params : ReportParams)
  : io (option Path) :=
  num_runs ← lift (map_err ReportDb (num_runs db));
  let dir := reports_of data_dir in
  ensure_dir dir;;
  if num_runs =? 0 then mret None else
  end_run_id ← lift (report_end params num_runs);
  end_run ← lift (existing_run db end_run_id);
  start_run_id ← lift (arith 64 (end_run_id - rp_preceding_runs params));
  let run_ids := range_inclusive start_run_id end_run_id in
  txs ← stm_mapM (fun run_id =>
          txs ← lift (map_err ReportDb (get_run_txs db run_id));
          save_csv_report run_id txs dir;;
          mret txs) run_ids;
  lift (runs_of_node db (sr_rpc_url end_run) run_ids);;
  cache ← (if debug_usefile then
             c ← cache_load data_dir; mret (Some (Ok (cf_traces c, cf_blocks c)))
           else mret None);
  tb ← lift (collect_blocks node db params cache start_run_id end_run_id (concat txs));
  cache_save {| cf_traces := tb.1; cf_blocks := tb.2; cf_data_dir := data_dir |};;
  meta ← lift (report node scenario_file_name db params cache);
  match meta with
  | None => mret None
  | Some meta =>
      path ← (if rp_use_json params then build_json_report meta dir else build_html_report meta dir);
      mret (Some path)
  end.

(** [report_campaign]: the loop, and its two files. *)
Fixpoint report_runs (debug_usefile : bool) (db : Db) (data_dir : Path) (params : ReportParams)
    (st : CampaignTotals) (runs : list SpamRun) : io CampaignTotals :=
  match runs with
  | [] => mret st
  | run :: runs =>
      report_files debug_usefile db data_dir (run_report_params params run);;
      run_txs ← lift (map_err ReportDb (get_run_txs db (sr_id run)));
      st ← lift (add_run_count st run (count_run run run_txs));
      report_runs debug_usefile db data_dir params st runs
  end.

Definition campaign_name (campaign_id extension : string) : string :=
  ("campaign-" +:+ campaign_id +:+ "." +:+ extension)%string.

Definition report_campaign_files (debug_usefile : bool) (db : Db) (campaign_id : string)
    (data_dir : Path) (params : ReportParams) : io CampaignReportSummary :=
  runs ← lift (map_err ReportDb (get_runs_by_campaign db campaign_id));
  match runs with
  | [] => lift (Err (CampaignNotFound campaign_id))
  | first :: _ =>
      let data_path := reports_of data_dir in
      ensure_dir data_path;;
      st ← report_runs debug_usefile db data_dir params campaign_totals_new runs;
      let summary := campaign_summary millis_to_rfc3339 campaign_id first st in
      html ← lift (render_campaign_html summary);
      io_report (write (join data_path (campaign_name campaign_id "html")) html);;
      json ← lift (render_summary summary);
      io_report (write (join data_path (campaign_name campaign_id "json")) json);;
      mret summary
  end.
End files.

(** ** What a report leaves as it is *)

(** A computation that leaves the files outside [W] as they are, whether it
    succeeds or not. *)
Definition untouched {E A} (W : Path -> Prop) (m : stm FS E A) : Prop :=
  forall fs fs' r p c, m fs = (fs', r) -> ~ W p -> fs !! p = Some (File c) ->
    fs' !! p = Some (File c).

Create HintDb untouched.

Section untouched.
Context `{F : Faults} {E : Type} (W : Path -> Prop).

Lemma untouched_ret {A} (x : A) : untouched (E := E) W (mret x).
Proof. by intros fs fs' r p c [= <- _]. Qed.
Lemma untouched_lift {A} (m : outcome E A) : untouched W (lift m).
Proof. by intros fs fs' r p c [= <- _]. Qed.
Lemma untouched_gets {A} (f : FS -> A) : untouched (E := E) W (gets f).
Proof. by intros fs fs' r p c [= <- _]. Qed.

Lemma untouched_bind {A A' : Type} (m : stm FS E A) (f : A -> stm FS E A') :
  untouched W m -> (forall x, untouched W (f x)) -> untouched W (m ≫= f).
Proof.
  intros Hm Hf fs fs' r p c H Hp Hc. unfold mbind, stm_bind in H.
  destruct (m fs) as [fs1 [a|e|]] eqn:H1; [|injection H as <- <-; by eapply Hm..].
  eapply Hf; [exact H|done|by eapply Hm].
Qed.

Lemma untouched_mapM {A A' : Type} (f : A -> stm FS E A') l :
  (forall x, x ∈ l -> untouched W (f x)) -> untouched W (stm_mapM f l).
Proof.
  induction l as [|x l IH]; intros Hf; cbn [stm_mapM]; [apply untouched_ret|].
  apply untouched_bind; [apply Hf; left|]. intros y. apply untouched_bind; [|intros ys; apply untouched_ret].
  apply IH. intros z Hz. apply Hf. by right.
Qed.

Lemma untouched_if {A} (b : bool) (m k : stm FS E A) : untouched W m -> untouched W k -> untouched W (if b then m else k).
Proof. by destruct b. Qed.

Lemma untouched_err {E' A} (f : E' -> E) (m : stm FS E' A) : untouched W m -> untouched W (stm_map_err f m).
Proof.
  intros Hm fs fs' r p c H Hp Hc. apply stm_map_err_run in H as (r' & H & _). by eapply Hm.
Qed.
End untouched.

Lemma untouched_read `{F : Faults} (W : Path -> Prop) p : untouched W (read_to_string p).
Proof.
  intros fs fs' r q c H _ Hc. enough (fs' = fs) as -> by done. revert H.
  unfold read_to_string, mbind, stm_bind, gets. cbn [id].
  destruct (fs !! p) as [[[s|t v]|]|]; [|by intros [= <- _]..].
  destruct (allowed (OpRead p) fs) as [fs1 r1] eqn:E1. apply allowed_same in E1 as ->.
  destruct r1; by intros [= <- _].
Qed.

Lemma untouched_write `{F : Faults} (W : Path -> Prop) p s : W p -> untouched W (write p s).
Proof.
  intros HW fs fs' r q c H Hq Hc. rewrite <- Hc. apply (put_other _ _ _ _ _ _ _ H). by intros ->.
Qed.

Lemma untouched_create_dir_all `{F : Faults} (W : Path -> Prop) p : untouched W (create_dir_all p).
Proof. intros fs fs' r q c H _ Hc. apply create_dirs_spec in H as ([Hm _] & _). by apply Hm. Qed.

#[export] Hint Resolve untouched_ret untouched_lift untouched_gets untouched_bind untouched_mapM untouched_if untouched_err
  untouched_read untouched_write untouched_create_dir_all : untouched.

(** ** The names of the files *)

Lemma digits_dash a b x y :
  str_all is_digit a = true -> str_all is_digit b = true ->
  (a +:+ "-" +:+ x = b +:+ "-" +:+ y)%string -> a = b /\ x = y.
Proof.
  revert b. induction a as [|c a IH]; intros [|d b] Ha Hb H; cbn in *.
  - by injection H.
  - injection H as <- _. done.
  - injection H as -> _. done.
  - injection H as -> H. apply andb_true_iff in Ha as [_ Ha], Hb as [_ Hb].
    destruct (IH b Ha Hb H) as [-> ->]. done.
Qed.

Lemma report_name_inj s e s' e' x y :
  0 <= s -> 0 <= s' -> report_name s e x = report_name s' e' y -> s = s'.
Proof.
  intros Hs Hs' H. unfold report_name in H. cbn [String.append] in H. injection H as H. apply digits_dash in H as [H _]; [|apply dec_digits..].
  by apply dec_inj.
Qed.

(** The files of the report that ends with run [id] and has that run alone. *)
Definition report_writes (data_dir : Path) (id : Z) (p : Path) : Prop :=
  p = cache_path data_dir \/ p = join (reports_of data_dir) (csv_name id) \/
  exists ext, p = join (reports_of data_dir) (report_name id id ext).

Lemma range_one a x : x ∈ range_inclusive a a -> x = a.
Proof. rewrite elem_of_range_inclusive. lia. Qed.

Section report_files_lemmas.
Context {P : Profile} {FD : F64Display} {Db : Type} {O : DbOps Db} (node : ReportNode).
Context (scenario_file_name : string -> string) (millis_to_rfc3339 : Z -> string).
Context `{F : Faults} `{R : Render} (pkg_version : string) (now : Z -> string).
Implicit Types (db : Db) (params : ReportParams) (fs : FS) (dir : Path).
#[local] Notation to_files := (report_files node scenario_file_name pkg_version now).
#[local] Notation runs_to_files := (report_runs node scenario_file_name pkg_version now).
#[local] Notation report := (report node scenario_file_name).

Lemma untouched_ensure_dir (W : Path -> Prop) p : untouched W (ensure_dir p).
Proof. unfold ensure_dir, io_report. eauto with untouched. Qed.

(** The ids a report has when it is asked for one run. *)
Lemma report_ids db params cache meta :
  report db params cache = Ok (Some meta) ->
  exists n start, num_runs db = Ok n /\ report_end params n = Ok (rm_end_run_id meta) /\
    arith (E := ReportError) 64 (rm_end_run_id meta - rp_preceding_runs params) = Ok start /\
    rm_start_run_id meta = start.
Proof.
  intros H. unfold Report.report in H. destruct (num_runs db) as [n|e|] eqn:Hn; [|done..].
  cbn [map_err mbind outcome_bind] in H. destruct (n =? 0); [done|]. inv_outcome.
  repeat match goal with x : (_ * _)%type |- _ => destruct x end. inv_outcome. cbn.
  by eexists _, _.
Qed.

Lemma untouched_bind_lift {E A A' : Type} (W : Path -> Prop) (m : outcome E A) (f : A -> stm FS E A') :
  (forall a, m = Ok a -> untouched W (f a)) -> untouched W (lift m ≫= f).
Proof.
  intros Hf fs fs' r p c H Hp Hc. unfold mbind, stm_bind, lift in H.
  destruct m as [a|e|]; [by eapply Hf|by injection H as <- _..].
Qed.

Lemma report_none db params cache : report db params cache = Ok None -> num_runs db = Ok 0.
Proof.
  intros H. unfold Report.report in H. destruct (num_runs db) as [n|e|]; [|done..].
  cbn [map_err mbind outcome_bind] in H. destruct (n =? 0) eqn:E0; [by apply Z.eqb_eq in E0 as ->|].
  inv_outcome. repeat match goal with x : (_ * _)%type |- _ => destruct x end. inv_outcome.
Qed.

Lemma build_html_ok meta reports_dir fs fs' path :
  build_html_report pkg_version now meta reports_dir fs = (fs', Ok path) ->
  exists html, render_page (TemplateData_new (now (rm_end_run_id meta)) pkg_version meta) = Ok html /\
    path = join reports_dir (report_name (rm_start_run_id meta) (rm_end_run_id meta) "html") /\
    fs' = <[path := File (Bytes html)]> fs.
Proof.
  intros H. unfold build_html_report in H. inv_stm.
  match goal with Hw : io_report _ _ = _ |- _ => apply stm_map_err_run in Hw as ([?|?|] & Hw & E) end;
    [|done..].
  match goal with Hw : write _ _ _ = _ |- _ => apply put_ok in Hw as -> end.
  by eexists.
Qed.

(** The report of one run, as a campaign asks for it. *)
Section one_run.
Context (db : Db) (dir : Path) (params : ReportParams) (run : SpamRun) (debug_usefile : bool).
Context (Hid : 0 <= sr_id run < 2 ^ 64).

Lemma one_run_ids cache meta :
  report db (run_report_params params run) cache = Ok (Some meta) ->
  rm_end_run_id meta = sr_id run /\ rm_start_run_id meta = sr_id run.
Proof.
  intros (n & start & _ & He & Hs & E)%report_ids. unfold report_end in He. cbn in He, Hs.
  destruct (_ || _); [done|]. injection He as He. rewrite <- He, Z.sub_0_r, arith_in in Hs by done.
  injection Hs as <-. by rewrite E, He.
Qed.

Lemma untouched_page cache meta (W : Path -> Prop) :
  report db (run_report_params params run) cache = Ok (Some meta) ->
  (forall ext, W (join (reports_of dir) (report_name (sr_id run) (sr_id run) ext))) ->
  untouched W (build_html_report pkg_version now meta (reports_of dir)).
Proof.
  intros Hm HW. destruct (one_run_ids _ _ Hm) as [He Hs]. unfold build_html_report, io_report.
  rewrite He, Hs. eauto 8 with untouched.
Qed.

Lemma report_files_keeps :
  untouched (report_writes dir (sr_id run)) (to_files debug_usefile db dir (run_report_params params run)).
Proof.
  unfold report_files, io_report.
  apply untouched_bind_lift. intros n _. apply untouched_bind; [apply untouched_ensure_dir|intros _].
  apply untouched_if; [apply untouched_ret|]. apply untouched_bind_lift. intros e He.
  apply untouched_bind_lift. intros end_run _. apply untouched_bind_lift. intros start Hs.
  assert (e = sr_id run /\ start = sr_id run) as [-> ->].
  { unfold report_end in He. cbn in He, Hs. destruct (_ || _); [done|]. injection He as <-.
    rewrite Z.sub_0_r, arith_in in Hs by done. by injection Hs as <-. }
  apply untouched_bind.
  { apply untouched_mapM. intros id ->%range_one. unfold save_csv_report.
    apply untouched_bind; [apply untouched_lift|]. intros txs. apply untouched_bind; [|eauto with untouched].
    apply untouched_err, untouched_write. right. by left. }
  intros txs. apply untouched_bind_lift. intros _ _. apply untouched_bind.
  { unfold cache_load, io_report. apply untouched_if; [|apply untouched_ret].
    apply untouched_bind; [|eauto with untouched]. apply untouched_bind; [|eauto with untouched].
    apply untouched_err, untouched_read. }
  intros cache. apply untouched_bind_lift. intros tb _. apply untouched_bind.
  { unfold cache_save, io_report. apply untouched_err, untouched_write. by left. }
  intros _. apply untouched_bind_lift. intros [meta|] Hm; [|apply untouched_ret]. cbn [rp_use_json run_report_params with_last_run_id].
  apply untouched_bind; [|eauto with untouched].
  apply (untouched_page _ _ _ Hm). intros ext. right. right. by exists ext.
Qed.

(** It leaves the page of the run under its name. *)
Lemma report_files_page fs fs' o :
  (forall n, num_runs db = Ok n -> n <> 0) ->
  to_files debug_usefile db dir (run_report_params params run) fs = (fs', Ok o) ->
  exists cache meta html, report db (run_report_params params run) cache = Ok (Some meta) /\
    rm_end_run_id meta = sr_id run /\
    render_page (TemplateData_new (now (sr_id run)) pkg_version meta) = Ok html /\
    fs' !! join (reports_of dir) (report_name (sr_id run) (sr_id run) "html") = Some (File (Bytes html)).
Proof.
  intros Hn H. unfold report_files in H. apply stm_bind_ok in H as (fs1 & n & H1 & H).
  apply stm_lift_ok in H1 as [-> H1]. destruct (num_runs db) as [n'|e|] eqn:En; [|done..].
  injection H1 as ->. apply stm_bind_ok in H as (fs2 & [] & _ & H).
  rewrite (proj2 (Z.eqb_neq n 0) (Hn n eq_refl)) in H.
  inv_stm.
  match goal with Hr : report db _ ?c = Ok ?m |- _ => rename Hr into Hm; destruct m as [meta|] end.
  2: { apply report_none in Hm. rewrite En in Hm. injection Hm as ->. by destruct (Hn 0 eq_refl). }
  destruct (one_run_ids _ _ Hm) as [He Hs].
  match goal with Hw : _ = (fs', Ok o) |- _ => rename Hw into Hp end.
  apply stm_bind_ok in Hp as (fs3 & path & (html & Hr & -> & ->)%build_html_ok & Hp).
  apply stm_ret_ok in Hp as [-> _]. rewrite He, Hs in *. eexists _, meta, html.
  by rewrite lookup_insert_eq.
Qed.
End one_run.

Lemma untouched_mono {E A} (W W' : Path -> Prop) (m : stm FS E A) :
  untouched W m -> (forall p, W p -> W' p) -> untouched W' m.
Proof. intros Hm HW fs fs' r p c H Hp. apply (Hm fs fs' r p c H). by intros ?%HW. Qed.

(** ** A campaign *)

Definition page_path dir (id : Z) : Path := join (reports_of dir) (report_name id id "html").

Lemma dec_not_report id x : report_name id id x <> csv_name id /\ forall i, report_name id id x <> csv_name i.
Proof.
  assert (H : forall i, report_name id id x <> csv_name i); [|by split].
  intros i H. unfold report_name, csv_name in H. pose proof (dec_digits i) as Hd.
  pose proof (dec_nonempty i) as Hn. destruct (dec i) as [|c d]; [done|]. cbn in H, Hd.
  injection H as <- _. done.
Qed.

Lemma page_not_written dir i j :
  0 <= i -> 0 <= j -> i <> j -> ~ report_writes dir j (page_path dir i).
Proof.
  intros Hi Hj Hne [H|[H|[ext H]]]; unfold page_path in H.
  - apply join_inj in H as [H _]. apply (f_equal length) in H. unfold reports_of, join in H.
    rewrite length_app in H. cbn in H. lia.
  - apply join_inj in H as [_ H]. by apply dec_not_report in H.
  - apply join_inj in H as [_ H]. apply Hne. by apply report_name_inj in H.
Qed.

Section campaign.
Context (db : Db) (dir : Path) (params : ReportParams) (debug_usefile : bool).
Context (Hdb : forall n, num_runs db = Ok n -> n <> 0).

(** The page of a run is there. *)
Definition page_at fs (run : SpamRun) : Prop :=
  exists cache meta html, report db (run_report_params params run) cache = Ok (Some meta) /\
    rm_end_run_id meta = sr_id run /\
    render_page (TemplateData_new (now (sr_id run)) pkg_version meta) = Ok html /\
    fs !! page_path dir (sr_id run) = Some (File (Bytes html)).

Lemma page_at_kept fs fs' run :
  (forall c, fs !! page_path dir (sr_id run) = Some (File c) ->
     fs' !! page_path dir (sr_id run) = Some (File c)) -> page_at fs run -> page_at fs' run.
Proof. intros Hk (cache & meta & html & H1 & H2 & H3 & H4). exists cache, meta, html. auto. Qed.

Definition runs_write (runs : list SpamRun) (p : Path) : Prop :=
  exists run, run ∈ runs /\ report_writes dir (sr_id run) p.

Lemma report_runs_keeps runs st :
  Forall (fun run => 0 <= sr_id run < 2 ^ 64) runs ->
  untouched (runs_write runs) (runs_to_files debug_usefile db dir params st runs).
Proof.
  intros Hids. revert st. induction Hids as [|run runs Hid Hids IH]; intros st; cbn [report_runs].
  { apply untouched_ret. }
  apply untouched_bind.
  { apply (untouched_mono (report_writes dir (sr_id run))); [by apply report_files_keeps|].
    intros p Hp. exists run. split; [left|done]. }
  intros _. apply untouched_bind; [apply untouched_lift|]. intros txs.
  apply untouched_bind; [apply untouched_lift|]. intros st1. apply (untouched_mono (runs_write runs)); [apply IH|].
  intros p (r & Hr & Hp). exists r. split; [by right|done].
Qed.

(** The summary of a run in the campaign's report. *)
Definition listed (runs : list SpamRun) (c : CampaignRunSummary) : Prop :=
  exists run, run ∈ runs /\ cr_run_id c = sr_id run /\
    cr_report_path c = report_name (sr_id run) (sr_id run) "html".

Lemma report_runs_pages runs st st' fs fs' :
  Forall (fun run => 0 <= sr_id run < 2 ^ 64) runs -> NoDup (sr_id <$> runs) ->
  runs_to_files debug_usefile db dir params st runs fs = (fs', Ok st') ->
  Forall (page_at fs') runs /\
  exists l, ct_summaries st' = ct_summaries st ++ l /\ Forall (listed runs) l.
Proof.
  intros Hids. revert st fs. induction Hids as [|run runs Hid Hids IH]; intros st fs Hnd H;
    cbn [report_runs] in H.
  { apply stm_ret_ok in H as [-> ->]. split; [constructor|]. exists []. by rewrite app_nil_r. }
  cbn in Hnd. apply NoDup_cons in Hnd as [Hnotin Hnd].
  apply stm_bind_ok in H as (fs1 & o & H1 & H).
  pose proof (report_files_page _ _ _ _ _ Hid _ _ _ Hdb H1) as Hpage. fold (page_at fs1 run) in Hpage.
  apply stm_bind_ok in H as (fs2 & txs & H2 & H). apply stm_lift_ok in H2 as [-> _].
  apply stm_bind_ok in H as (fs2 & st1 & H2 & H). apply stm_lift_ok in H2 as [-> Hst].
  destruct (IH _ _ Hnd H) as (Hpages & l & Hl & Hlisted). split.
  - constructor; [|done]. apply (page_at_kept fs1); [|done]. intros c Hc.
    eapply report_runs_keeps; [exact Hids|exact H| |exact Hc]. intros (r & Hr & Hw).
    pose proof (proj1 (Forall_forall _ _) Hids r Hr) as Hr0. cbn in Hr0.
    revert Hw. apply page_not_written; [lia..|]. intros E. apply Hnotin. rewrite E.
    by apply list_elem_of_fmap_2.
  - unfold add_run_count in Hst. inv_outcome. rewrite Hl. cbn [ct_summaries]. rewrite <- app_assoc.
    eexists. split; [reflexivity|]. cbn. constructor.
    + exists run. split; [left|done].
    + apply (Forall_impl _ _ _ Hlisted). intros c (r & Hr & Hc). exists r. split; [by right|done].
Qed.
End campaign.

Lemma campaign_name_other id x i y : campaign_name id x <> report_name i i y.
Proof. unfold campaign_name, report_name. cbn. intros H. injection H as H. discriminate H. Qed.

Lemma write_other p t fs fs' r q : io_report (write p t) fs = (fs', r) -> q <> p -> fs' !! q = fs !! q.
Proof. intros (r' & H & _)%stm_map_err_run. by apply (put_other _ _ _ _ _ _ _ H). Qed.

Lemma campaign_page_other dir id campaign_id x :
  page_path dir id <> join (reports_of dir) (campaign_name campaign_id x).
Proof. intros [_ H]%join_inj. by apply (campaign_name_other campaign_id x id "html"). Qed.

(** The page of a run of raw requests leaves all others as they are. *)
Lemma report_rpc_keeps meta dir :
  untouched (fun p => p = join (reports_of dir) (rpc_report_name (md_run_id meta)))
    (report_rpc pkg_version now meta dir).
Proof.
  unfold report_rpc, build_rpc_html_report, io_report.
  apply untouched_bind; [apply untouched_ensure_dir|intros _]. eauto 8 with untouched.
Qed.

(** C11: every link of a campaign's page leads to a page: when the report of a
    campaign succeeds, each run it lists is one of the campaign, and the file
    named for it is there and is the page of a report of just that run, whatever
    was written after it. *)
Theorem campaign_links_resolve debug_usefile db campaign_id dir params fs fs' summary runs
    (Hruns : get_runs_by_campaign db campaign_id = Ok runs)
    (Hids : Forall (fun run => 0 <= sr_id run < 2 ^ 64) runs) (Hnd : NoDup (sr_id <$> runs))
    (Hdb : forall n, num_runs db = Ok n -> n <> 0)
    (H : report_campaign_files node scenario_file_name millis_to_rfc3339 pkg_version now
           debug_usefile db campaign_id dir params fs = (fs', Ok summary)) :
  Forall (fun c => exists run cache meta html, run ∈ runs /\ cr_run_id c = sr_id run /\
    report db (run_report_params params run) cache = Ok (Some meta) /\
    rm_end_run_id meta = sr_id run /\
    render_page (TemplateData_new (now (sr_id run)) pkg_version meta) = Ok html /\
    fs' !! join (reports_of dir) (cr_report_path c) = Some (File (Bytes html))) (cp_runs summary).
Proof.
  unfold report_campaign_files in H. rewrite Hruns in H. cbn [map_err] in H.
  apply stm_bind_ok in H as (fs0 & runs' & H0 & H). apply stm_lift_ok in H0 as [-> [= <-]].
  destruct runs as [|first runs]; [done|]. set (all := first :: runs) in *.
  apply stm_bind_ok in H as (fs1 & [] & _ & H).
  apply stm_bind_ok in H as (fs2 & st & H2 & H).
  destruct (report_runs_pages _ _ _ _ Hdb _ _ _ _ _ Hids Hnd H2) as (Hpages & l & Hl & Hlisted).
  cbn in Hl. subst l. apply stm_bind_ok in H as (f1 & h & H3 & H). apply stm_lift_ok in H3 as [-> _].
  apply stm_bind_ok in H as (f2 & u & H3 & H).
  apply stm_bind_ok in H as (f3 & json & H4 & H). apply stm_lift_ok in H4 as [-> _].
  apply stm_bind_ok in H as (f4 & u' & H4 & H). apply stm_ret_ok in H as [-> ->].
  assert (Hk : forall id, f4 !! page_path dir id = fs2 !! page_path dir id).
  { intros id. etrans; [eapply write_other, campaign_page_other; exact H4|].
    eapply write_other, campaign_page_other. exact H3. }
  apply (Forall_impl _ _ _ Hlisted). intros c (run & Hr & Hc & Hp).
  destruct (proj1 (Forall_forall _ _) Hpages run Hr) as (cache & meta & html & E1 & E2 & E3 & E4).
  exists run, cache, meta, html. rewrite Hp. split_and!; try done. etrans; [apply Hk|done].
Qed.
(** The cache file: what was saved is loaded again, unless the system refuses. *)
Lemma cache_roundtrip `{RL : !RenderLaws R} c fs fs' u :
  cache_save c fs = (fs', Ok u) ->
  (forall r fs2, cache_load (cf_data_dir c) fs' = (fs2, r) ->
     fs2 = fs' /\ (r = Ok c \/ exists e, r = Err (Io e))).
Proof.
  intros H r fs2 Hl. unfold cache_save, io_report in H.
  apply stm_map_err_run in H as ([v|e|] & Hw & E); [|done..]. apply put_ok in Hw as ->.
  unfold cache_load, io_report, stm_map_err, read_to_string, mbind, stm_bind, gets in Hl. cbn [id] in Hl.
  rewrite lookup_insert_eq in Hl. unfold allowed, fail, lift in Hl.
  destruct (fault _) as [ft|]; cbn in Hl; injection Hl as <- <-; (split; [done|]).
  - right. by eexists.
  - left. apply read_write_cache.
Qed.
End report_files_lemmas.

(** ** Witnesses *)

Module ReportFilesWitness.
Import BlockTraceWitness CampaignReportWitness.

#[export] Instance plain : Render := {|
  render_page td := Ok (td_scenario_name td +:+ td_date td)%string;
  render_export ex := Ok (ex_generated_at ex);
  render_rpc td := Ok (rt_method td);
  render_campaign_html s := Ok (cp_campaign_id s);
  render_summary s := Ok (cp_campaign_id s);
  csv_text txs := dec (Z.of_nat (length txs));
  write_cache c := "";
  read_cache s := Err (SerdeJson "empty") |}.
#[export] Instance sound_disk : Faults := fun _ => None.
Definition disk : FS := {[ ["data"]%string := Dir ]}.
Definition reported : FS * outcome ReportError CampaignReportSummary :=
  report_campaign_files chain id dec "1.0" dec false the_db "c" ["data"]%string the_params disk.

Lemma campaign_links_resolve_witness :
  exists fs' summary, reported = (fs', Ok summary) /\
    Forall (fun c => exists html,
      fs' !! ["data"; "reports"; cr_report_path c]%string = Some (File (Bytes html))) (cp_runs summary).
Proof.
  assert (Hok : is_ok reported.2 = true) by (vm_compute; reflexivity).
  destruct reported as [fs' [summary|e|]] eqn:H; [|discriminate Hok..].
  exists fs', summary. split; [reflexivity|].
  eapply Forall_impl.
  - apply (campaign_links_resolve chain id dec "1.0" dec false the_db "c" ["data"]%string the_params disk
      fs' summary the_runs).
    + reflexivity.
    + each_run.
    + apply (bool_decide_unpack (NoDup (sr_id <$> the_runs))). vm_compute. exact I.
    + intros n Hn. injection Hn as <-. discriminate.
    + exact H.
  - intros c (run & cache & meta & html & _ & _ & _ & _ & _ & Hc). exists html. exact Hc.
Defined.

Example reported_pages :
  forallb (fun n => bool_decide (is_Some (reported.1 !! ["data"; "reports"; n]%string)))
    ["1.csv"; "report-1-1.html"; "report-3-3.html"; "campaign-c.html"; "campaign-c.json"]%string = true.
Proof. vm_compute. reflexivity. Qed.
End ReportFilesWitness.
