(* ===== verification/CliUtil.v ===== *)
(** * Utilities of the command line ([cli/src/util/utils.rs])

    Reading durations, the user's signers, the keys a scenario needs, and
    [fund_accounts], which tops up accounts from one signer: a task per account,
    at most [FUNDING_CONCURRENCY_LIMIT] at a time, that report to a channel which
    is read only after all of them have ended. *)

From Stdlib Require Import Strings.Byte Strings.Ascii Strings.String.
From S2P Require Import Prelude Text F64 Seeder Alloy Agents Db GenTypes GenUtil CoreError Templater TestFile Generator TxActor Scenario Spam SpamRun Orchestrator CliError.

(** ** Durations *)

(** The loop over the characters: the digits, then the unit. *)
Fixpoint split_duration (input s num_str unit_str : string)
  : outcome ParseDurationError (string * string) :=
  match s with
  | EmptyString => Ok (num_str, unit_str)
  | String c s =>
      if String.eqb num_str "" && is_space c then split_duration input s num_str unit_str
      else if is_digit c then
        if String.eqb unit_str "" then split_duration input s (num_str +:+ String c "") unit_str
        else Err (UnexpectedDigit input)
      else if Ascii.eqb c "."%char then Err (NoFloats input)
      else split_duration input s num_str (unit_str +:+ String c "")
  end.

Definition one_of (names : list string) (s : string) : bool := existsb (String.eqb s) names.

(** In milliseconds. *)
Definition parse_duration {P : Profile} (input : string) : outcome ParseDurationError Z :=
  let s := to_lowercase (trim input) in
  '(num_str, unit_str) ← split_duration input s "" "";
  value ← ok_or (InvalidNumber num_str) (parse_uint 64 num_str);
  let unit := trim unit_str in
  let secs factor := fmap (M := outcome _) (Z.mul 1000) (arith 64 (value * factor)) in
  if String.eqb unit "" then mret (1000 * value)
  else if one_of ["ms"; "msec"; "msecs"; "millisecond"; "milliseconds"]%string unit then mret value
  else if one_of ["s"; "sec"; "secs"; "second"; "seconds"]%string unit then mret (1000 * value)
  else if one_of ["m"; "min"; "mins"; "minute"; "minutes"]%string unit then secs 60
  else if one_of ["h"; "hr"; "hrs"; "hour"; "hours"]%string unit then secs 3600
  else if one_of ["d"; "day"; "days"]%string unit then secs 86400
  else Err (InvalidUnits unit).

(** ** Readable quantities *)

(** An [f32] is a [spec_float] of 24 bits; its [Display] is a parameter. *)
Definition f32_of_Z (z : Z) : spec_float := binary_normalize 24 128 z 0 false.
Definition as_secs_f32 (millis : Z) : spec_float :=
  SFadd 24 128 (f32_of_Z (millis / 1000))
    (SFdiv 24 128 (f32_of_Z (millis mod 1000 * 1000000)) (f32_of_Z 1000000000)).

Definition human_readable_duration (f32_display : spec_float -> string) (millis : Z) : string :=
  if 1000 * (60 * 2) <? millis
  then (f32_display (SFdiv 24 128 (as_secs_f32 millis) (f32_of_Z 60)) +:+ " minutes")%string
  else if 1000 <? millis then (f32_display (as_secs_f32 millis) +:+ " seconds")%string
  else (dec millis +:+ " milliseconds")%string.

Definition human_readable_gas `{F64Display} (gas : Z) : string :=
  let unit_divisors := [("Ggas", 1000000000); ("Mgas", 1000000); ("Kgas", 1000); ("gas", 1)]%string in
  let gas := f64_of_Z gas in
  let '(gas_unit, divisor) :=
    default ("gas"%string, 1)
      (snd <$> list_find (fun p => f64_le (f64_of_Z p.2) gas = true) unit_divisors) in
  (f64_display (f64_div gas (f64_of_Z divisor)) +:+ " " +:+ gas_unit)%string.

(** ** Scenario files *)

Definition DEFAULT_SCENARIOS_URL : string :=
  "https://raw.githubusercontent.com/flashbots/contender/refs/heads/main/scenarios".

(** The two readers of [TestConfig]. *)
Definition load_testconfig (from_remote_url from_file : string -> outcome string TestConfig)
    (testfile : string) : outcome CliError TestConfig :=
  map_err TestFileError
    (if starts_with "scenario:" testfile
     then from_remote_url (DEFAULT_SCENARIOS_URL +:+ "/" +:+ str_replace "scenario:" "" testfile)%string
     else from_file testfile).

Section util.
Context `{A : Alloy, Sg : !Signing} {P : Profile}.

(** ** The user's keys *)

(** The crate's own copy of the development keys. *)
Definition DEFAULT_PRV_KEYS : list string :=
  ["0xac0974bec39a17e36ba4a6b4d238ff944bacb478cbed5efcae784d7bf4f2ff80";
   "0x59c6995e998f97a5a0044966f0945389dc9e86dae88c7a8412f4603b6b78690d";
   "0x5de4111afa1a4b94908f83103eb1f1706367c2e68ca870fc3fb9a804cdab365a";
   "0x7c852118294e51e653712a81e05800f419141751be58f605c371e15141b007a6";
   "0x47e179ec197488593b187f80a00eb0da91f1b9d0b13f8733639f19c30a34926a";
   "0x8b3a350cf5c34c9194ca85829a2df0ec3153be0318b5e2d3348e872092edffba";
   "0x92db14e403b83dfe3df233f83dfa3a0d7096f21ca9b0d6d6b8d88b2b4ec1564e";
   "0x4bbbf85ce3377467afe5d46f804f221813b2bb87f24d81f60f1fcdbf7cbf4356";
   "0xdbda1821b80551c9d65939329250298aa3472ba22feea921c0cf5d620ea67b97";
   "0x2a871d0798f97d79848a013d4936a73bf4cc922c825d33c1cf7073dff6d409c6"]%string.

(** The user's keys come first. *)
Definition get_signers_with_defaults {E} (private_keys : option (list string))
  : outcome E (list Signer) :=
  mapM (fun k => unwrap (signer_from_str k)) (default [] private_keys ++ DEFAULT_PRV_KEYS).

(** A sender that is a placeholder is passed over. *)
Definition check_private_key {E} (prv_keys : list Signer) (fn_call : FunctionCallDefinition)
  : outcome E unit :=
  match fc_from fn_call with
  | Some from =>
      if starts_with "{" from then mret tt
      else
        address ← unwrap (parse_address from);
        assert_ (existsb (fun k => signer_address k =? address) prv_keys)
  | None => mret tt
  end.
Definition check_private_keys_fns {E} (fn_calls : list FunctionCallDefinition)
    (prv_keys : list Signer) : outcome E unit :=
  fold_steps (fun _ fn_call => check_private_key prv_keys fn_call) tt fn_calls.

Definition check_private_keys {E} (testconfig : TestConfig) (prv_keys : list Signer)
  : outcome E unit :=
  spam ← unwrap (tc_spam testconfig);
  check_private_keys_fns
    (default [] (tc_setup testconfig) ++
     (s ← spam; match s with Tx fn_call => [fn_call] | Bundle bundle => bc_txs bundle end)) prv_keys.

(** ** Funding accounts *)

(** The engine API: the outcome of its [i]-th advancing of the chain. *)
Record EngineParams := {
  engine_provider : option (nat -> outcome string unit);
  call_fcu : bool;
}.
Definition EngineParams_new (provider : nat -> outcome string unit) (call_forkchoice : bool)
  : EngineParams := {| engine_provider := Some provider; call_fcu := call_forkchoice |}.
Definition default_engine_params : EngineParams :=
  {| engine_provider := None; call_fcu := false |}.

Definition is_balance_sufficient (min_balance : Z) (balance : outcome RpcError Z)
  : outcome UtilError.t (bool * Z) :=
  balance ← map_err UtilError.Rpc balance;
  mret (min_balance <=? balance, balance).

(** In the order of the addresses; the node is asked for each. *)
Fixpoint find_insufficient_balances (addresses : list Address) (min_balance : Z)
    (balance : Address -> outcome RpcError Z) : outcome UtilError.t (list (Address * Z)) :=
  match addresses with
  | [] => mret []
  | address :: addresses =>
      '(sufficient, b) ← is_balance_sufficient min_balance (balance address);
      l ← find_insufficient_balances addresses min_balance balance;
      mret (if sufficient : bool then l else (address, b) :: l)
  end.

Definition get_blob_fee_maybe (blob_base_fee : outcome RpcError Z) (tx_type : TxType) : Z :=
  if decide (tx_type = Eip4844) then match blob_base_fee with Ok fee => fee | _ => 0 end else 0.

(** What the node answers while one account is funded. *)
Record AccountNode := {
  an_gas_price : outcome RpcError Z;
  an_blob_base_fee : outcome RpcError Z;
  an_nonce : Address -> outcome RpcError Z;
  an_chain_id : outcome RpcError Z;
  an_send : Envelope -> outcome RpcError TxHash;
}.

(** The signed transaction.  The node is asked for the nonce even when one is
    given. *)
Definition fund_tx (node : AccountNode) (sender : Signer) (recipient amount : Z)
    (nonce : option Z) (tx_type : TxType) : outcome UtilError.t Envelope :=
  gas_price ← map_err UtilError.Rpc (an_gas_price node);
  let blob_gas_price := get_blob_fee_maybe (an_blob_base_fee node) tx_type in
  fetched ← map_err UtilError.Rpc (an_nonce node (signer_address sender));
  let nonce := default fetched nonce in
  chain_id ← map_err UtilError.Rpc (an_chain_id node);
  let tx_req := {|
    tx_from := Some (signer_address sender); tx_to := Some (Call recipient);
    tx_value := Some amount; tx_input := []; tx_nonce := Some nonce; tx_gas := None;
    tx_gas_price := None; tx_max_fee_per_gas := None; tx_max_priority_fee_per_gas := None;
    tx_max_fee_per_blob_gas := None; tx_chain_id := Some chain_id;
    tx_transaction_type := None; tx_sidecar := None; tx_authorization_list := None |} in
  map_err UtilError.BuildTxFailed
    (tx_build (complete_tx_request tx_req tx_type gas_price (gas_price / 10) 21000 chain_id
                 blob_gas_price) sender).

Definition fund_account (node : AccountNode) (sender : Signer) (recipient amount : Z)
    (nonce : option Z) (tx_type : TxType) : outcome UtilError.t TxHash :=
  tx ← fund_tx node sender recipient amount nonce tx_type;
  map_err UtilError.Rpc (an_send node tx).

(** The end of the wait for a transaction: confirmed, failed, or timed out. *)
Inductive WatchEnd := Confirmed | WatchFailed (e : string) | TimedOut.

(** What is answered while accounts are funded: the balances of the recipients,
    the funder's nonce and balance (asked for twice), each task's node, the order
    in which the tasks come to their ends (one that is not in it never does), and
    the ends of the waits. *)
Record FundEnv := {
  fe_balance : Address -> outcome RpcError Z;
  fe_nonce : outcome RpcError Z;
  fe_gas_price : outcome RpcError Z;
  fe_chain_id : outcome RpcError Z;
  fe_funder_balance : outcome RpcError Z;
  fe_funder_balance_again : outcome RpcError Z;
  fe_task : nat -> AccountNode;
  fe_ended : list nat;
  fe_watch : TxHash -> WatchEnd;
}.

(** The capacity of the channel of pending transactions. *)
Definition PENDING_TX_CAPACITY : nat := Z.to_nat 9000.

Definition already_in_mempool (e : RpcError) : bool :=
  existsb (fun em => str_contains em (to_lowercase (rpc_text e)))
    ["already known"; "replacement transaction underpriced"; "transaction already imported"]%string.

(** A task: a hash to put into the channel, nothing, an error, or a panic. *)
Inductive TaskEnd := TaskSent (h : TxHash) | TaskSkipped | TaskFailed (e : CliError) | TaskPanicked.

Definition fund_task (env : FundEnv) (fund_with : Signer) (min_balance admin_nonce : Z)
    (tx_type : TxType) (idx : nat) (address : Address) : TaskEnd :=
  match nonce ← arith 64 (admin_nonce + Z.of_nat idx);
        fund_account (fe_task env idx) fund_with address min_balance (Some nonce) tx_type with
  | Ok h => TaskSent h
  | Err (UtilError.Rpc e) =>
      if already_in_mempool e then TaskSkipped else TaskFailed (Util (UtilError.Rpc e))
  | Err e => TaskFailed (Util e)
  | Panic => TaskPanicked
  end.

Definition sent_hash (t : TaskEnd) : option TxHash :=
  match t with TaskSent h => Some h | _ => None end.

(** The tasks whose hash fits into the channel, in the order of their ends: the
    others wait for room for ever, since nothing is taken out before all tasks
    have ended. *)
Definition delivered (ends : list TaskEnd) (ended : list nat) : list nat :=
  take PENDING_TX_CAPACITY
    (filter (fun i => is_Some (ends !! i ≫= sent_hash)) ended).

(** Whether the task [i] comes to its end. *)
Definition task_returns (ends : list TaskEnd) (ended : list nat) (i : nat) : bool :=
  bool_decide (i ∈ ended) &&
  match ends !! i with
  | Some (TaskSent _) => bool_decide (i ∈ delivered ends ended)
  | _ => true
  end.

(** [handle.await??] for each, in the order of the accounts; [None] when one
    never ends. *)
Fixpoint await_tasks (returns : nat -> bool) (i : nat) (ends : list TaskEnd)
  : option (outcome CliError unit) :=
  match ends with
  | [] => Some (Ok tt)
  | e :: ends =>
      if returns i then
        match e with
        | TaskSent _ | TaskSkipped => await_tasks returns (S i) ends
        | TaskFailed e => Some (Err e)
        | TaskPanicked => Some (Err (TaskJoin "task panicked"))
        end
      else None
  end.

Definition watch_tx (watch : TxHash -> WatchEnd) (tx_hash : TxHash) : outcome CliError unit :=
  match watch tx_hash with
  | Confirmed => mret tt
  | WatchFailed e => Err (Setup (SetupError.FundingTxFailed tx_hash e))
  | TimedOut => Err (Setup (SetupError.FundingTxTimedOut tx_hash 24))
  end.

(** The pending transactions a hundred at a time, each hundred after the chain
    was advanced, if that was asked for. *)
Fixpoint watch_chunks (engine_params : EngineParams) (watch : TxHash -> WatchEnd) (i : nat)
    (l : list (list TxHash)) : outcome CliError unit :=
  match l with
  | [] => mret tt
  | txs_chunk :: l =>
      (if call_fcu engine_params then
         match engine_provider engine_params with
         | Some provider => map_err CliAuthProvider (provider i)
         | None => Err (Args (ArgsError.EngineProviderUninitialized "required to advance chain"))
         end
       else mret tt);;
      fold_steps (fun _ tx => watch_tx watch tx) tt txs_chunk;;
      watch_chunks engine_params watch (S i) l
  end.

(** The accounts to fund, in the order of their addresses. *)
Definition to_fund (recipients : list Address) (min_balance : Z) (env : FundEnv)
  : outcome UtilError.t (list (Address * Z)) :=
  l ← find_insufficient_balances recipients min_balance (fe_balance env);
  mret (sort_by fst l).

(** The checks before any transaction: the accounts to fund and the first nonce. *)
Definition fund_precheck (recipient_addresses : list Address) (fund_with : Signer)
    (min_balance : Z) (env : FundEnv) : outcome CliError (list (Address * Z) * Z) :=
  insufficient ← map_err Util (to_fund recipient_addresses min_balance env);
  admin_nonce ← map_err CliRpc (fe_nonce env);
  gas_price ← map_err CliRpc (fe_gas_price env);
  gas_price ← arith 128 (gas_price + gas_price / 10);
  let gas_cost_per_tx := wrap 256 (21000 * gas_price) in
  chain_id ← map_err CliRpc (fe_chain_id env);
  let n := Z.of_nat (length insufficient) in
  let total_cost := wrap 256 (n * wrap 256 (min_balance + gas_cost_per_tx)) in
  '(sufficient, balance) ← map_err Util (is_balance_sufficient total_cost (fe_funder_balance env));
  ensure (sufficient : bool)
    (Util (UtilError.InsufficientUserFunds (signer_address fund_with) balance total_cost chain_id));;
  '(sufficient, balance) ← map_err Util
    (is_balance_sufficient (wrap 256 (min_balance * n)) (fe_funder_balance_again env));
  ensure (sufficient : bool)
    (Util (UtilError.InsufficientUserFunds (signer_address fund_with) balance min_balance chain_id));;
  mret (insufficient, admin_nonce).

Definition task_ends (env : FundEnv) (fund_with : Signer) (min_balance admin_nonce : Z)
    (tx_type : TxType) (insufficient : list (Address * Z)) : list TaskEnd :=
  imap (fun idx p => fund_task env fund_with min_balance admin_nonce tx_type idx p.1) insufficient.

(** [None]: it does not return. *)
Definition fund_accounts (recipient_addresses : list Address) (fund_with : Signer)
    (min_balance : Z) (tx_type : TxType) (engine_params : EngineParams) (env : FundEnv)
  : option (outcome CliError unit) :=
  match fund_precheck recipient_addresses fund_with min_balance env with
  | Ok (insufficient, admin_nonce) =>
      let ends := task_ends env fund_with min_balance admin_nonce tx_type insufficient in
      r ← await_tasks (task_returns ends (fe_ended env)) 0 ends;
      Some (r;;
            let pending_txs := omap (fun i => ends !! i ≫= sent_hash) (delivered ends (fe_ended env)) in
            txs_chunks ← chunks 100 pending_txs;
            watch_chunks engine_params (fe_watch env) 0 txs_chunks)
  | Err e => Some (Err e)
  | Panic => Some Panic
  end.
End util.

(** ** Properties *)

Section funding.
Context `{A : Alloy, Sg : !Signing} {P : Profile}.

Lemma find_insufficient_spec recipients min_balance balance l :
  find_insufficient_balances recipients min_balance balance = Ok l ->
  Forall (fun p => balance p.1 = Ok p.2 /\ p.2 < min_balance) l /\
  (forall a b, a ∈ recipients -> balance a = Ok b -> b < min_balance -> (a, b) ∈ l) /\
  l.*1 `sublist_of` recipients.
Proof.
  revert l. induction recipients as [|a recipients IH]; intros l H; cbn [find_insufficient_balances] in H.
  { injection H as <-. split_and!; [constructor|by intros ? ? ?%elem_of_nil|constructor]. }
  apply bind_ok in H as ([ok b] & Hb & H). apply bind_ok in H as (l' & Hl & H).
  unfold is_balance_sufficient in Hb. inv_outcome.
  destruct (IH _ Hl) as (H1 & H2 & H3). destruct (Z.leb_spec min_balance b) as [Hle|Hgt].
  - split_and!; [done| |by constructor]. intros a' b' [->|Ha]%elem_of_cons Hb' Hlt; [|by eapply H2].
    assert (b' = b) by congruence. lia.
  - split_and!; [by constructor| |by constructor].
    intros a' b' [->|Ha]%elem_of_cons Hb' Hlt; [|right; by eapply H2].
    assert (b' = b) as -> by congruence. left.
Qed.

(** What a funding transaction is. *)
Lemma fund_tx_ok node sender recipient amount nonce tx_type e :
  fund_tx node sender recipient amount (Some nonce) tx_type = Ok e ->
  exists req, tx_build req sender = Ok e /\ tx_from req = Some (signer_address sender) /\
    tx_to req = Some (Call recipient) /\ tx_value req = Some amount /\
    tx_nonce req = Some nonce /\ tx_gas req = Some 21000.
Proof.
  unfold fund_tx. intros H. inv_outcome. eexists. split; [done|]. by destruct tx_type.
Qed.

Lemma await_all returns ends i :
  await_tasks returns i ends = Some (Ok tt) <->
  forall j t, ends !! j = Some t -> returns (i + j)%nat = true /\
    (t = TaskSkipped \/ exists h, t = TaskSent h).
Proof.
  revert i. induction ends as [|t ends IH]; intros i; cbn [await_tasks].
  { split; [by intros _ [|j] ? ?|done]. }
  split.
  - intros H [|j] t' Hj.
    + injection Hj as <-. rewrite Nat.add_0_r. destruct (returns i); [|done].
      split; [done|]. destruct t; try done; eauto.
    + cbn in Hj. rewrite Nat.add_succ_r, <- Nat.add_succ_l. apply (IH (S i)); [|done].
      destruct (returns i); [|done]. by destruct t.
  - intros H. destruct (H 0%nat t eq_refl) as [Hr Ht]. rewrite Nat.add_0_r in Hr. rewrite Hr.
    assert (Hn : await_tasks returns (S i) ends = Some (Ok tt)).
    { apply IH. intros j t' Hj. specialize (H (S j) t' Hj).
      by rewrite Nat.add_succ_r, <- Nat.add_succ_l in H. }
    by destruct Ht as [-> | [h ->]].
Qed.

Lemma await_stuck returns ends i :
  (forall t, t ∈ ends -> t = TaskSkipped \/ exists h, t = TaskSent h) ->
  await_tasks returns i ends = None <-> exists j, (j < length ends)%nat /\ returns (i + j)%nat = false.
Proof.
  revert i. induction ends as [|t ends IH]; intros i Ht; cbn [await_tasks].
  { split; [done|]. intros (j & Hj & _). cbn in Hj. lia. }
  specialize (IH (S i) ltac:(intros; apply Ht; by right)).
  destruct (returns i) eqn:Hr.
  - assert ((exists j, (j < length (t :: ends))%nat /\ returns (i + j)%nat = false) <->
            (exists j, (j < length ends)%nat /\ returns (S i + j)%nat = false)) as ->.
    { split.
      - intros ([|j] & Hj & Hf); [rewrite Nat.add_0_r in Hf; congruence|].
        exists j. cbn in Hj. split; [lia|]. by rewrite Nat.add_succ_l, <- Nat.add_succ_r.
      - intros (j & Hj & Hf). exists (S j). cbn. split; [lia|].
        by rewrite Nat.add_succ_r. }
    destruct (Ht t) as [-> | [h ->]]; [left|done|done].
  - split; [|done]. intros _. exists 0%nat. rewrite Nat.add_0_r. split; [cbn; lia|done].
Qed.

Lemma delivered_length ends ended : (length (delivered ends ended) <= PENDING_TX_CAPACITY)%nat.
Proof. unfold delivered. rewrite length_take. lia. Qed.

(** When everything was sent, all tasks end exactly when the channel has room
    for every hash. *)
Lemma tasks_return ends ended :
  NoDup ended -> (forall i, i ∈ ended <-> (i < length ends)%nat) ->
  (forall t, t ∈ ends -> exists h, t = TaskSent h) ->
  (forall i, (i < length ends)%nat -> task_returns ends ended i = true) <->
  (length ends <= PENDING_TX_CAPACITY)%nat.
Proof.
  intros Hnd Hin Hsent.
  assert (Hlen : length ended = length ends).
  { rewrite <- (length_seq (length ends) 0). apply Permutation_length, NoDup_Permutation; [done| |].
    - apply NoDup_seq.
    - intros i. rewrite Hin, elem_of_seq. lia. }
  assert (Hd : delivered ends ended = take PENDING_TX_CAPACITY ended).
  { unfold delivered. f_equal. apply filter_all_true. intros i Hi%Hin.
    destruct (lookup_lt_is_Some_2 _ _ Hi) as [t Ht]. rewrite Ht.
    destruct (Hsent t) as [h ->]; [by eapply list_elem_of_lookup_2|]. by eexists. }
  split.
  - intros Hr. transitivity (length (delivered ends ended)); [|apply delivered_length].
    rewrite <- (length_seq (length ends) 0). apply submseteq_length, NoDup_submseteq; [apply NoDup_seq|].
    intros i Hi%elem_of_seq. specialize (Hr i ltac:(lia)). unfold task_returns in Hr.
    destruct (lookup_lt_is_Some_2 ends i) as [t Ht]; [lia|]. rewrite Ht in Hr.
    destruct (Hsent t) as [h ->]; [by eapply list_elem_of_lookup_2|].
    apply andb_true_iff in Hr as [_ Hr%bool_decide_eq_true]. done.
  - intros Hl i Hi. unfold task_returns. rewrite bool_decide_eq_true_2 by by apply Hin.
    destruct (ends !! i) as [[]|]; try done. rewrite bool_decide_eq_true_2; [done|].
    rewrite Hd, take_ge by lia. by apply Hin.
Qed.

Lemma task_ends_lookup env signer min n ty l i :
  task_ends env signer min n ty l !! i = (fun p => fund_task env signer min n ty i p.1) <$> l !! i.
Proof. apply list_lookup_imap. Qed.

Lemma task_ends_length env signer min n ty l : length (task_ends env signer min n ty l) = length l.
Proof. apply length_imap. Qed.

(** A hash that was put into the channel is waited for. *)
Lemma watch_chunks_ok engine watch i l :
  watch_chunks engine watch i l = Ok tt -> forall h, h ∈ concat l -> watch h = Confirmed.
Proof.
  revert i. induction l as [|c l IH]; intros i H h Hh; [by apply elem_of_nil in Hh|].
  cbn [watch_chunks] in H. apply bind_ok in H as (u & _ & H). apply bind_ok in H as ([] & Hc & H).
  cbn [concat] in Hh. apply elem_of_app in Hh as [Hh|Hh]; [|by eapply IH].
  revert Hc. clear -Hh. induction c as [|x c IH]; [by apply elem_of_nil in Hh|].
  cbn [fold_steps]. intros H. apply bind_ok in H as ([] & Hx & H).
  apply elem_of_cons in Hh as [->|Hh]; [|by apply IH].
  unfold watch_tx in Hx. by destruct (watch x).
Qed.

Lemma fund_precheck_ok recipients signer min env l n :
  fund_precheck recipients signer min env = Ok (l, n) ->
  to_fund recipients min env = Ok l /\ fe_nonce env = Ok n /\
  exists price total balance, fe_gas_price env = Ok price /\
    arith (E := CliError) 128 (price + price / 10) = Ok total /\
    fe_funder_balance env = Ok balance /\
    wrap 256 (Z.of_nat (length l) * wrap 256 (min + wrap 256 (21000 * total))) <= balance.
Proof.
  unfold fund_precheck. intros H.
  apply bind_ok in H as (l' & Hl%map_err_ok & H). apply bind_ok in H as (n' & Hn%map_err_ok & H).
  apply bind_ok in H as (p & Hp%map_err_ok & H). apply bind_ok in H as (t & Ht & H).
  apply bind_ok in H as (ch & _ & H). apply bind_ok in H as ([ok b] & Hb%map_err_ok & H).
  apply bind_ok in H as (u & Hok%ensure_ok & H). apply bind_ok in H as ([ok2 b2] & _ & H).
  apply bind_ok in H as (u2 & _ & H). injection H as <- <-.
  unfold is_balance_sufficient in Hb. inv_outcome.
  split_and!; [done|done|]. exists p, t, b. split_and!; try done. by apply Z.leb_le.
Qed.

(** C16: when funding accounts succeeds, the accounts below the minimum were
    taken in the order of their addresses, and the [i]-th of them was either sent
    exactly the minimum by the funder, with the [i]-th nonce from the one the
    node gave, in a transaction that was confirmed, or its transaction was
    already in the node's pool; accounts at the minimum are left alone, and the
    funder's balance covered all of it with a tenth more than the gas price. *)
Theorem fund_accounts_spec recipients signer min ty engine env
    (H : fund_accounts recipients signer min ty engine env = Some (Ok tt))
    (Hn : forall n, fe_nonce env = Ok n -> 0 <= n /\ n + Z.of_nat (length recipients) < 2 ^ 64) :
  exists l n price total balance, to_fund recipients min env = Ok l /\ fe_nonce env = Ok n /\
    (forall a b, (a, b) ∈ l <-> a ∈ recipients /\ fe_balance env a = Ok b /\ b < min) /\
    StronglySorted Z.le l.*1 /\ (length l <= length recipients)%nat /\
    fe_gas_price env = Ok price /\ arith (E := CliError) 128 (price + price / 10) = Ok total /\
    fe_funder_balance env = Ok balance /\
    wrap 256 (Z.of_nat (length l) * wrap 256 (min + wrap 256 (21000 * total))) <= balance /\
    forall i a b, l !! i = Some (a, b) ->
      (exists e h req, tx_build req signer = Ok e /\ tx_from req = Some (signer_address signer) /\
         tx_to req = Some (Call a) /\ tx_value req = Some min /\
         tx_nonce req = Some (n + Z.of_nat i) /\ tx_gas req = Some 21000 /\
         an_send (fe_task env i) e = Ok h /\ fe_watch env h = Confirmed) \/
      (exists e, already_in_mempool e = true /\
         fund_account (fe_task env i) signer a min (Some (n + Z.of_nat i)) ty =
           Err (UtilError.Rpc e)).
Proof.
  unfold fund_accounts in H.
  destruct (fund_precheck recipients signer min env) as [[l n]|e|] eqn:Hp; [|discriminate H..].
  set (ends := task_ends env signer min n ty l) in H.
  destruct (await_tasks _ _ _) as [r|] eqn:Hr; [|discriminate H]. cbn in H. injection H as H.
  destruct r as [[]|e|]; [|discriminate H..]. cbn [mbind outcome_bind] in H.
  rename H into Hw. apply fund_precheck_ok in Hp as (Hl & Hno & price & total & balance & Hg).
  pose proof Hl as Htf. apply bind_ok in Hl as (l0 & Hl0 & Hl). injection Hl as <-.
  apply find_insufficient_spec in Hl0 as (Hf1 & Hf2 & Hf3).
  destruct (Hn n Hno) as [Hn0 Hn1].
  assert (Hlen : (length (sort_by fst l0) <= length recipients)%nat).
  { rewrite (sort_by_perm fst l0), <- (length_fmap fst). by apply sublist_length. }
  exists (sort_by fst l0), n, price, total, balance. split_and!; try done; try apply Hg.
  - intros a b. rewrite sort_by_perm. split.
    + intros Hab. rewrite Forall_forall in Hf1. destruct (Hf1 _ Hab). split_and!; [|done..].
      eapply elem_of_sublist; [|exact Hf3]. apply list_elem_of_fmap. by exists (a, b).
    + intros (Ha & Hb & Hlt). by apply Hf2.
  - apply sort_by_sorted.
  - intros i a b Hi. rewrite await_all in Hr. specialize (Hr i).
    unfold ends in Hr. rewrite task_ends_lookup, Hi in Hr. specialize (Hr _ eq_refl) as [Hret Hend].
    cbn [fst] in Hend. unfold fund_task in Hend.
    assert (Hlt : (i < length (sort_by fst l0))%nat) by by eapply lookup_lt_Some.
    rewrite arith_in in Hend by lia. cbn [mbind outcome_bind] in Hend.
    destruct (fund_account _ _ _ _ _ _) as [h|e|] eqn:Hfa.
    + left. pose proof Hfa as Hfa'. unfold fund_account in Hfa. apply bind_ok in Hfa as (e & He & Hs%map_err_ok).
      apply fund_tx_ok in He as (req & H1 & H2 & H3 & H4 & H5 & H6).
      exists e, h, req. split_and!; try done.
      eapply watch_chunks_ok; [exact Hw|].
      match goal with |- _ ∈ concat (chunks_fuel ?f ?k ?x) =>
        rewrite (proj1 (chunks_fuel_spec f k x ltac:(lia) ltac:(lia))) end.
      apply list_elem_of_omap. exists i.
      assert (Hi' : ends !! i = Some (TaskSent h)).
      { unfold ends. rewrite task_ends_lookup, Hi. cbn. unfold fund_task. rewrite arith_in by lia.
        cbn [mbind outcome_bind]. by rewrite Hfa'. }
      unfold task_returns in Hret. fold ends in Hret. cbn in Hret. rewrite Hi' in Hret.
      apply andb_true_iff in Hret as [_ Hret%bool_decide_eq_true]. by rewrite Hi'.
    + right. destruct Hend as [Hend|[h Hend]]; destruct e; try discriminate Hend;
        destruct (already_in_mempool e) eqn:Hm; try discriminate Hend. by exists e.
    + by destruct Hend as [|[]].
Qed.

(** The wait for the funding tasks ends exactly when the channel of pending
    transactions has room for all: when every account below the minimum gets its
    transaction out, [fund_accounts] returns for up to 9000 of them, and never
    returns for more, since the channel is emptied only after the last task. *)
Theorem fund_accounts_capacity recipients signer min ty engine env l n
    (Hp : fund_precheck recipients signer min env = Ok (l, n))
    (Hs : forall i p, l !! i = Some p -> exists h, fund_task env signer min n ty i p.1 = TaskSent h)
    (Hnd : NoDup (fe_ended env))
    (He : forall i, i ∈ fe_ended env <-> (i < length l)%nat) :
  is_Some (fund_accounts recipients signer min ty engine env) <->
  (length l <= Z.to_nat 9000)%nat.
Proof.
  set (ends := task_ends env signer min n ty l).
  assert (Hlen : length ends = length l) by apply task_ends_length.
  assert (Hsent : forall t, t ∈ ends -> exists h, t = TaskSent h).
  { intros t [i Hi]%list_elem_of_lookup. unfold ends in Hi. rewrite task_ends_lookup in Hi.
    destruct (l !! i) as [p|] eqn:Hl; [|done]. injection Hi as <-. by eapply Hs. }
  assert (Hfund : is_Some (fund_accounts recipients signer min ty engine env) <->
                  await_tasks (task_returns ends (fe_ended env)) 0 ends <> None).
  { unfold fund_accounts. rewrite Hp. fold ends. destruct (await_tasks _ _ _) as [r|].
    - split; [done|]. intros _. by eexists.
    - split; [by intros []|done]. }
  rewrite Hfund, await_stuck by (intros t Ht; right; by apply Hsent).
  change (Z.to_nat 9000) with PENDING_TX_CAPACITY. rewrite <- Hlen.
  rewrite <- (tasks_return ends (fe_ended env)); [|done|by rewrite Hlen|done]. split.
  - intros Hno i Hi. destruct (task_returns ends (fe_ended env) i) eqn:Hr; [done|].
    exfalso. apply Hno. by exists i.
  - intros Hall (j & Hj & Hf). cbn in Hf. by rewrite Hall in Hf.
Qed.
End funding.

Section durations.
Context {P : Profile}.

Lemma to_lowercase_id s : str_all (fun c => Ascii.eqb (lower c) c) s = true -> to_lowercase s = s.
Proof.
  induction s as [|c s IH]; cbn; [done|]. intros [Hc%Ascii.eqb_eq Hs]%andb_true_iff.
  by rewrite Hc, IH.
Qed.

Lemma trim_start_spaces sp s : str_all is_space sp = true -> trim_start (sp +:+ s)%string = trim_start s.
Proof.
  induction sp as [|c sp IH]; cbn; [done|]. intros [Hc Hs]%andb_true_iff. rewrite Hc. by apply IH.
Qed.

Lemma trim_around sp s sp' :
  str_all is_space sp = true -> str_all is_space sp' = true -> s <> ""%string ->
  first_solid s = true -> first_solid (str_rev s) = true -> trim (sp +:+ s +:+ sp')%string = s.
Proof.
  intros H1 H2 Hs H3 H4. unfold trim, trim_end. rewrite trim_start_spaces by done.
  rewrite (trim_start_solid (s +:+ sp')).
  - rewrite str_rev_app_distr, trim_start_spaces by by rewrite str_all_rev.
    rewrite trim_start_solid by done. apply str_rev_involutive.
  - by destruct s.
Qed.

Lemma split_digits input d t num :
  str_all is_digit d = true ->
  split_duration input (d +:+ t) num "" = split_duration input t (num +:+ d) "".
Proof.
  revert num. induction d as [|c d IH]; intros num; cbn [str_all]; [by rewrite str_app_nil_r|].
  intros [Hc Hd]%andb_true_iff. cbn [String.append split_duration].
  rewrite (digit_not_space c Hc), andb_false_r, Hc. cbn [String.eqb]. rewrite IH by done.
  by rewrite str_app_assoc.
Qed.

Definition unit_char (c : ascii) : bool := negb (is_digit c) && negb (Ascii.eqb c ".").

Lemma split_unit input t num u :
  str_all unit_char t = true -> num <> ""%string ->
  split_duration input t num u = Ok (num, (u +:+ t)%string).
Proof.
  intros Ht Hn. revert u Ht. induction t as [|c t IH]; intros u; cbn [str_all].
  { by rewrite str_app_nil_r. }
  intros [[Hd%negb_true_iff He%negb_true_iff]%andb_true_iff Ht]%andb_true_iff.
  cbn [split_duration]. rewrite Hd, He. destruct (String.eqb_spec num ""); [done|].
  cbn [andb]. rewrite IH by done. by rewrite str_app_assoc.
Qed.

(** The accepted units, in milliseconds. *)
Definition duration_units : list (string * Z) :=
  ((fun u => (u, 1)) <$> ["ms"; "msec"; "msecs"; "millisecond"; "milliseconds"]) ++
  ((fun u => (u, 1000)) <$> ["s"; "sec"; "secs"; "second"; "seconds"]) ++
  ((fun u => (u, 60000)) <$> ["m"; "min"; "mins"; "minute"; "minutes"]) ++
  ((fun u => (u, 3600000)) <$> ["h"; "hr"; "hrs"; "hour"; "hours"]) ++
  ((fun u => (u, 86400000)) <$> ["d"; "day"; "days"])%string.

Definition unit_ok (p : string * Z) : bool :=
  str_all unit_char p.1 && str_all (fun c => Ascii.eqb (lower c) c) p.1 &&
  negb (String.eqb p.1 "") && first_solid p.1 && first_solid (str_rev p.1).
Lemma units_ok : forallb unit_ok duration_units = true.
Proof. reflexivity. Qed.

(** A duration is read back: a number, white space, a unit in any of its
    spellings, with white space around, gives the number of units. *)
Theorem parse_duration_units (v f : Z) (u sp sp1 sp2 : string) :
  0 <= v < 2 ^ 64 -> v * (f / 1000) < 2 ^ 64 -> (u, f) ∈ duration_units ->
  str_all is_space sp = true -> str_all is_space sp1 = true -> str_all is_space sp2 = true ->
  parse_duration (sp1 +:+ (dec v +:+ sp +:+ u) +:+ sp2) = Ok (f * v).
Proof.
  intros Hv Ho Hu Hs Hs1 Hs2.
  pose proof units_ok as Hok. rewrite List.forallb_forall in Hok.
  specialize (Hok (u, f) (proj1 (list_elem_of_In _ _) Hu)). unfold unit_ok in Hok. cbn [fst] in Hok.
  apply andb_true_iff in Hok as [Hok Hrev]. apply andb_true_iff in Hok as [Hok Hsol].
  apply andb_true_iff in Hok as [Hok Hne%negb_true_iff%String.eqb_neq].
  apply andb_true_iff in Hok as [Hchar Hlow].
  assert (Hspace : str_all unit_char sp = true /\ str_all (fun c => Ascii.eqb (lower c) c) sp = true).
  { split; revert Hs; apply str_all_impl; intros [[] [] [] [] [] [] [] []]; done. }
  destruct Hspace as [Hsp1 Hsp2].
  pose proof (dec_digits v) as Hdig. pose proof (dec_nonempty v) as Hdne.
  assert (Hdlow : str_all (fun c => Ascii.eqb (lower c) c) (dec v) = true).
  { revert Hdig. apply str_all_impl. intros [[] [] [] [] [] [] [] []]; done. }
  unfold parse_duration. rewrite trim_around; [|done|done| | |].
  2: { by destruct (dec v). }
  2: { by apply first_solid_digits. }
  2: { rewrite !str_rev_app_distr, str_app_assoc. destruct (str_rev u) eqn:Hru; [|done].
       exfalso. apply Hne. by rewrite <- (str_rev_involutive u), Hru. }
  rewrite to_lowercase_id by by rewrite !str_all_app, Hdlow, Hsp2, Hlow.
  rewrite split_digits by done. cbn [String.append].
  rewrite split_unit by first [done|by rewrite str_all_app, Hsp1, Hchar].
  cbn [mbind outcome_bind String.append]. rewrite parse_dec by done. cbn [ok_or].
  assert (Htr : trim (sp +:+ u) = u).
  { rewrite <- (str_app_nil_r u) at 1. by apply trim_around. }
  rewrite Htr. clear -Hu Hv Ho. cbn in Hu. rewrite !elem_of_cons, elem_of_nil in Hu.
  decompose [or] Hu; simplify_eq; cbn; try (rewrite arith_in; cbn).
  all: clear Hu; try change (60000 / 1000) with 60 in Ho; try change (3600000 / 1000) with 3600 in Ho;
    try change (86400000 / 1000) with 86400 in Ho; unfold mret, outcome_ret; first [f_equal; lia | lia].
Qed.
End durations.

(** ** Witnesses *)

Module CliUtilWitness.
Export OrchestratorWitness.

(** An unchecked overflow would wrap; the checked build panics. *)
Example parse_duration_overflow : parse_duration "999999999999999999 days" = Panic.
Proof. reflexivity. Qed.
Example parse_duration_float : parse_duration "5.5s" = Err (NoFloats "5.5s").
Proof. reflexivity. Qed.

Lemma parse_duration_units_witness : parse_duration " 3 minutes " = Ok 180000.
Proof.
  apply (parse_duration_units 3 60000 "minutes" " " " " " ");
    [lia|change (60000 / 1000) with 60; lia| |reflexivity..].
  apply list_elem_of_In. vm_compute. tauto.
Defined.

(** Accounts below 100 own nothing; the second one's transaction is known already. *)
Definition node (i : nat) : AccountNode := {|
  an_gas_price := Ok 10; an_blob_base_fee := Ok 0; an_nonce _ := Ok 0; an_chain_id := Ok 1;
  an_send e := if (i =? 1)%nat then Err (OtherRpc "Already Known") else Ok (envelope_hash e) |}.
Definition env (send : nat -> AccountNode) (ended : list nat) : FundEnv := {|
  fe_balance a := Ok (if a <? 100 then 0 else 1000); fe_nonce := Ok 7; fe_gas_price := Ok 10;
  fe_chain_id := Ok 1; fe_funder_balance := Ok (2 ^ 200);
  fe_funder_balance_again := Ok (2 ^ 200); fe_task := send; fe_ended := ended;
  fe_watch _ := Confirmed |}.

Lemma fund_accounts_spec_witness :
  fund_accounts [9; 100; 5; 2] (signer_of 200) 50 Legacy default_engine_params (env node [2; 0; 1]%nat)
    = Some (Ok tt) /\
  exists e h req, tx_build req (signer_of 200) = Ok e /\ tx_to req = Some (Call 9) /\
    tx_value req = Some 50 /\ tx_nonce req = Some 9 /\ an_send (node 2) e = Ok h.
Proof.
  assert (Hf : fund_accounts [9; 100; 5; 2] (signer_of 200) 50 Legacy default_engine_params
                 (env node [2; 0; 1]%nat) = Some (Ok tt)) by (vm_compute; reflexivity).
  split; [exact Hf|].
  destruct (fund_accounts_spec [9; 100; 5; 2] (signer_of 200) 50 Legacy default_engine_params
              (env node [2; 0; 1]%nat) Hf)
    as (l & n & price & total & balance & Htf & Hn & _ & _ & _ & _ & _ & _ & _ & Hi).
  { intros n [= <-]. cbn. lia. }
  injection Hn as <-.
  injection Htf as <-. destruct (Hi 2%nat 9 0 eq_refl) as [(e & h & req & Hb & _ & Ht & Hv & Hno & _ & Hs & _)|(e & _ & He)].
  - exists e, h, req. split_and!; assumption.
  - vm_compute in He. discriminate He.
Defined.

(** 9001 accounts, all of whose transactions are sent. *)
Definition crowd : list (Address * Z) := (fun a => (a, 0)) <$> rangeZ (Z.to_nat 9001).
Definition sender (i : nat) : AccountNode := {|
  an_gas_price := Ok 10; an_blob_base_fee := Ok 0; an_nonce _ := Ok 0; an_chain_id := Ok 1;
  an_send e := Ok (envelope_hash e) |}.
Definition crowd_env : FundEnv := {|
  fe_balance _ := Ok 0; fe_nonce := Ok 7; fe_gas_price := Ok 10;
  fe_chain_id := Ok 1; fe_funder_balance := Ok (2 ^ 200);
  fe_funder_balance_again := Ok (2 ^ 200); fe_task := sender; fe_ended := seq 0 (Z.to_nat 9001);
  fe_watch _ := Confirmed |}.

Lemma fund_accounts_capacity_witness :
  fund_accounts (rangeZ (Z.to_nat 9001)) (signer_of 200) 50 Legacy default_engine_params crowd_env
    = None.
Proof.
  assert (Hlen : length crowd = Z.to_nat 9001).
  { unfold crowd. rewrite length_fmap. apply rangeZ_length. }
  destruct (fund_accounts_capacity (rangeZ (Z.to_nat 9001)) (signer_of 200) 50 Legacy
              default_engine_params crowd_env crowd 7) as [Hc _].
  - vm_compute. reflexivity.
  - intros i p Hi. apply lookup_lt_Some in Hi. rewrite Hlen in Hi. unfold fund_task.
    rewrite arith_in by (change (2 ^ 64) with 18446744073709551616; lia). cbn [mbind outcome_bind].
    eexists. reflexivity.
  - apply NoDup_seq.
  - intros i. rewrite Hlen. cbn [crowd_env fe_ended]. rewrite elem_of_seq. lia.
  - destruct (fund_accounts _ _ _ _ _ _) as [r|] eqn:Hf; [|reflexivity].
    exfalso. assert (Hle : (length crowd <= Z.to_nat 9000)%nat) by (apply Hc; eexists; reflexivity).
    rewrite Hlen in Hle. lia.
Defined.
End CliUtilWitness.
