(* ===== verification/CliArgs.v ===== *)
(** * Arguments of the commands ([cli/src/commands/common.rs])

    What the command line gives, after clap's parsing, and what the commands take
    from it: the engine API's provider, the rate, the signers, the scenario's
    configuration. *)

From Stdlib Require Import Strings.Byte Strings.Ascii Strings.String.
From S2P Require Import Prelude Text F64 Seeder Alloy Agents Db GenTypes GenUtil CoreError Templater TestFile Generator TxActor Scenario Spam SpamRun Orchestrator CliError CliUtil.

Inductive BundleTypeCli := CliL1 | CliRevertProtected.
Definition bundle_type_of (b : BundleTypeCli) : BundleType :=
  match b with CliL1 => L1 | CliRevertProtected => RevertProtected end.
Definition bundle_type_cli (b : BundleType) : BundleTypeCli :=
  match b with L1 => CliL1 | RevertProtected => CliRevertProtected end.

(** [TxTypeCli]'s [Display], and its comparison with alloy's type. *)
Definition tx_type_text (t : TxTypeCli) : string :=
  match t with
  | CliLegacy => "legacy" | CliEip1559 => "eip1559" | CliEip4844 => "eip4844" | CliEip7702 => "eip7702"
  end.
Definition tx_type_eqb (t : TxTypeCli) (other : TxType) : bool :=
  match t, other with
  | CliLegacy, Legacy | CliEip1559, Eip1559 | CliEip4844, Eip4844 | CliEip7702, Eip7702 => true
  | _, _ => false
  end.

Inductive EngineMessageVersion := V1 | V2 | V3 | V4.

Record AuthCliArgs := {
  auth_rpc_url : option string;
  jwt_secret : option string;
  message_version : EngineMessageVersion;
  use_op : bool;
}.
Definition default_auth_args : AuthCliArgs :=
  {| auth_rpc_url := None; jwt_secret := None; message_version := V4; use_op := false |}.

(** Connecting to the engine API, from the url, the file of the secret, the
    version and the kind of node. *)
Definition Connect : Type :=
  string -> string -> EngineMessageVersion -> bool -> outcome CliError (nat -> outcome string unit).

Definition engine_params (connect : Connect) (args : AuthCliArgs) (call_forkchoice : bool)
  : outcome CliError EngineParams :=
  match auth_rpc_url args, jwt_secret args with
  | Some url, Some secret =>
      provider ← connect url secret (message_version args) (use_op args);
      mret (EngineParams_new provider call_forkchoice)
  | url, secret =>
      if call_forkchoice then Err (Args (ArgsError.EngineArgsRequired url secret))
      else mret default_engine_params
  end.

(** [cli/src/default_scenarios/fill_block.rs]. *)
Inductive SpamRate := TxsPerSecond (n : Z) | TxsPerBlock (n : Z).

Record SendSpamCliArgs := {
  txs_per_second : option Z;
  txs_per_block : option Z;
  duration : Z;
  builder_url : option string;
  pending_timeout : Z;
  run_forever : bool;
}.

Definition spam_rate (a : SendSpamCliArgs) : outcome ArgsError.t SpamRate :=
  match txs_per_second a, txs_per_block a with
  | Some _, Some _ => Err ArgsError.SpamRateNotFound
  | None, None => Err ArgsError.SpamRateNotFound
  | Some tps, None => Ok (TxsPerSecond tps)
  | None, Some tpb => Ok (TxsPerBlock tpb)
  end.

Record SendTxsCliArgsInner := {
  ta_env : option (list (string * string));
  ta_min_balance : Z;
  ta_private_keys : option (list string);
  ta_rpc_url : string;
  ta_txs_url : option string;
  ta_scenario_label : option string;
  ta_seed : option string;
  ta_bundle_type : BundleTypeCli;
  ta_gas_price : option Z;
  ta_tx_type : TxTypeCli;
  ta_accounts_per_agent : option Z;
  ta_override_senders : bool;
  ta_call_forkchoice : bool;
  ta_auth_args : AuthCliArgs;
}.

Section args.
Context `{A : Alloy, Sg : !Signing} {P : Profile}.

Definition accounts_per_agent_or (default_ : Z) (a : SendTxsCliArgsInner) : Z :=
  default default_ (ta_accounts_per_agent a).

(** Only the keys the user gave. *)
Definition user_signers {E} (a : SendTxsCliArgsInner) : outcome E (list Signer) :=
  mapM (fun key => unwrap (signer_from_str key)) (default [] (ta_private_keys a)).
Definition user_signers_with_defaults {E} (a : SendTxsCliArgsInner) : outcome E (list Signer) :=
  get_signers_with_defaults (ta_private_keys a).
Definition primary_signer {E} (a : SendTxsCliArgsInner) : outcome E Signer :=
  signers ← user_signers_with_defaults a;
  unwrap (head signers).

(** The scenario's configuration, all senders replaced by the primary signer if
    that is asked for. *)
Definition args_testconfig (a : SendTxsCliArgsInner) (scenario : outcome CliError TestConfig)
  : outcome CliError TestConfig :=
  testconfig ← scenario;
  if ta_override_senders a then
    signer ← primary_signer a;
    mret (override_senders (signer_address signer) testconfig)
  else mret testconfig.

(** The variables of the arguments override those of the configuration. *)
Definition with_cli_env (env : option (list (string * string))) (testconfig : TestConfig) : TestConfig :=
  with_env (fold_left (fun m kv => <[kv.1 := kv.2]> m) (default [] env)
              (default ∅ (tc_env testconfig))) testconfig.
End args.

Definition quote : string := String "034" "".

(** [KEY=VALUE]: cut at the first equality sign. *)
Definition cli_env_vars_parser (s : string) : outcome string (string * string) :=
  equal_sign_index ← ok_or ("Invalid KEY=VALUE: No " +:+ quote +:+ "=" +:+ quote +:+ " found")%string
                       (find_char (Ascii.eqb "=") s);
  if (equal_sign_index =? 0)%nat then Err "Empty Key: No Key found"%string
  else mret (str_take equal_sign_index s, str_drop (S equal_sign_index) s).

(** ** Properties *)

Lemma find_char_some p s i :
  find_char p s = Some i ->
  exists c, s = (str_take i s +:+ String c (str_drop (S i) s))%string /\ p c = true /\
    str_all (fun x => negb (p x)) (str_take i s) = true /\ String.length (str_take i s) = i.
Proof.
  revert i. induction s as [|d s IH]; intros i; cbn [find_char]; [done|].
  destruct (p d) eqn:Hp.
  - intros [= <-]. exists d. unfold str_take, str_drop. cbn.
    rewrite substring_full by lia. done.
  - destruct (find_char p s) as [j|]; [|done]. intros [= <-].
    destruct (IH j eq_refl) as (c & Hs & Hc & Ha & Hl). exists c.
    unfold str_take, str_drop in *. cbn. rewrite Hp, Ha, Hl. cbn. split_and!; [|done..].
    by rewrite <- Hs at 1.
Qed.

(** Reading a variable is the inverse of writing it: a text is accepted
    exactly when it is a key without equality signs and not empty, an equality
    sign, and a value, which may hold anything. *)
Theorem cli_env_vars_round_trip (s key value : string) :
  cli_env_vars_parser s = Ok (key, value) <->
  s = (key +:+ "=" +:+ value)%string /\ key <> ""%string /\
  str_all (fun c => negb (Ascii.eqb "=" c)) key = true.
Proof.
  unfold cli_env_vars_parser. split.
  - intros H. apply bind_ok in H as (i & Hi%ok_or_ok & H).
    apply find_char_some in Hi as (c & Hs & Hc%Ascii.eqb_eq & Ha & Hl).
    destruct (Nat.eqb_spec i 0) as [->|Hne]; [discriminate H|]. injection H as <- <-. subst c.
    split_and!; [exact Hs| |done]. intros He. rewrite He in Hl. by cbn in Hl.
  - intros (-> & Hk & Ha). change ("=" +:+ value)%string with (String "=" value).
    rewrite (find_char_app _ key "=") by done. cbn [ok_or mbind outcome_bind].
    destruct (Nat.eqb_spec (String.length key) 0) as [Hz|_]; [by destruct key|].
    rewrite str_take_app. unfold mret, outcome_ret. do 2 f_equal.
    pose proof (str_drop_app (key +:+ String "=" "") value) as Hd.
    rewrite str_length_app, str_app_assoc in Hd. cbn [String.length] in Hd.
    by rewrite Nat.add_1_r in Hd.
Qed.
