(* ===== verification/Replay.v ===== *)
(** * The replay command ([cli/src/commands/replay.rs])

    Replays a range of blocks through the engine API, and stores how fast the
    node was. *)

From Stdlib Require Import Strings.Byte Strings.String.
From S2P Require Import Prelude Text F64 Alloy Sql SqliteDb Db Engine CliError CliUtil CliArgs.

(** The arguments: the engine API's, and the range. *)
Record ReplayCliArgs := { rc_auth_params : AuthCliArgs; rc_start_block : Z; rc_end_block : option Z }.
(** [EngineParams] with a provider that can replay blocks. *)
Record ReplayArgs := {
  ra_engine_provider : option AuthProvider;
  ra_start_block : Z;
  ra_end_block : option Z;
}.

(** The forkchoice is always called, so the engine arguments are required. *)
Definition replay_args (connect : AuthCliArgs -> bool -> outcome CliError (option AuthProvider))
    (a : ReplayCliArgs) : outcome CliError ReplayArgs :=
  engine ← connect (rc_auth_params a) true;
  mret {| ra_engine_provider := engine; ra_start_block := rc_start_block a;
          ra_end_block := rc_end_block a |}.

Section replay.
Context {P : Profile} {N Attr : Type} `{NA : !NetworkAttributes Attr, EN : !EngineNode N Attr}.
Variables (patience : nat) (op_block_info_tx : Bytes) (sha256 : Bytes -> Bytes).
(** The text of an error of the provider. *)
Variable show : AuthError -> string.

Definition replay_report (rpc_url_id : Z) (res : ChainReplayResults) : ReplayReportRequest :=
  {| rq_rpc_url_id := rpc_url_id; rq_gas_per_second := wrap 64 (gas_per_second res);
     rq_gas_used := wrap 64 (cr_gas_used res) |}.

(** The database is written to when the replay is over. *)
Definition save_replay {D} `{DO : DbOps D} (ap : AuthProvider) (res : ChainReplayResults) (db : D)
  : outcome CliError (ReplayReport * D) :=
  '(rpc_url_id, db) ← map_err (fun e => CliDb (db_text e)) (Db.get_rpc_url_id db (rpc_url ap) (hash (genesis_block ap)));
  map_err (fun e => CliDb (db_text e)) (Db.insert_replay_report db (replay_report rpc_url_id res)).

Definition replay {D} `{DO : DbOps D} (args : ReplayArgs) (time_elapsed : Z) (db : D)
  : waiting (Conn N Attr) CliError (ReplayReport * D) := fun c =>
  match ra_engine_provider args with
  | None => Some (c, Err (Args (ArgsError.EngineProviderUninitialized "required for replay")))
  | Some ap =>
      match replay_chain_segment patience op_block_info_tx sha256 ap (ra_start_block args)
              (ra_end_block args) time_elapsed c with
      | Some (c, r) => Some (c, res ← map_err (fun e => CliAuthProvider (show e)) r;
                                save_replay ap res db)
      | None => None
      end
  end.

Lemma replay_ok {D} `{DO : DbOps D} args elapsed (db db' : D) c c' rep :
  replay args elapsed db c = Some (c', Ok (rep, db')) ->
  exists ap res, ra_engine_provider args = Some ap /\
    replay_chain_segment patience op_block_info_tx sha256 ap (ra_start_block args)
      (ra_end_block args) elapsed c = Some (c', Ok res) /\
    save_replay ap res db = Ok (rep, db').
Proof.
  unfold replay. destruct (ra_engine_provider args) as [ap|]; [|done].
  destruct (replay_chain_segment _ _ _ _ _ _ _ _) as [[c1 r]|] eqn:Hr; [|done].
  intros [= -> H]. inv_outcome. by eexists ap, _.
Qed.

Lemma writing_inv {A} (m : stm SqliteDb SqliteError A) s s' x : writing m s = Ok (x, s') -> m s = (s', Ok x).
Proof. unfold writing. destruct (m s) as [s1 [a|e|]]; cbn; naive_solver. Qed.

(** C32: After a replay that succeeds, the database has a report with the gas of the
    blocks replayed, from the first up to the one before the last, and the gas per
    second of the time it took, at least one. *)
Theorem replay_recorded {X : SqlText} {HX : SqlTextLaws} {F : FromHex} {FD : F64Display} pick
    (chain : Z -> option Block) `{AR : !Archive N Attr chain} args elapsed (db db' : SqliteDb) c c' rep latest :
  (forall n, is_ok (pick n) = true) -> db_wf db ->
  (forall ap, ra_engine_provider args = Some ap -> quote_free (rpc_url ap) = true) ->
  (forall rows, sq_tables db !! "replay_reports"%string = Some rows -> Z.of_nat (length rows) + 1 < 2 ^ 63) ->
  serves chain (node c) -> node_block_number (node c) = Ok latest ->
  default latest (ra_end_block args) < 2 ^ 64 ->
  replay (DO := sqlite_ops pick true) args elapsed db c = Some (c', Ok (rep, db')) ->
  exists blocks,
    Forall2 (fun i b => chain i = Some b)
      (range_from (ra_start_block args) (default latest (ra_end_block args) - ra_start_block args)) blocks /\
    let gas := sumZ ((fun b => gas_used (header b)) <$> blocks) in
    (Db.get_replay_report (DbOps := sqlite_ops pick true) db' (rp_id rep) = Ok rep) /\
    replay_gas_used rep = wrap 64 gas /\ replay_gas_per_second rep = wrap 64 (gas / Z.max elapsed 1).
Proof.
  intros Hpick Hwf Hquote Hsmall Hs Hn Hlast H. apply replay_ok in H as (ap & res & Hap & Hr & Hsave).
  apply (replay_chain_split _ _ _ _ chain _ _ _ _ _ _ latest) in Hr
    as (before & blocks & gas & _ & _ & Hb & Hr & Hnum & Hlen & ->); [|done..].
  apply (replay_blocks_sent _ _ _ _ chain) in Hr as [-> _]; [|done|done|lia|done].
  exists blocks. split; [done|]. cbn zeta. unfold save_replay in Hsave.
  apply bind_ok in Hsave as ([id db1] & Hid & Hsave). apply map_err_ok in Hid, Hsave.
  cbn [Db.get_rpc_url_id Db.insert_replay_report sqlite_ops] in Hid, Hsave.
  apply writing_inv in Hid, Hsave.
  destruct (keeps_get_rpc_url_id pick (rpc_url ap) (hash (genesis_block ap)) db Hwf) as [Hwf1 _].
  rewrite Hid in Hwf1.
  apply get_rpc_url_id_ok in Hid as (urls & added & u & rest & Hurls & Hurls1 & _ & _ & Hu & <- & Hother);
    [|by apply Hquote].
  set (report := replay_report _ _) in Hsave.
  destruct (replay_report_roundtrip pick true db1 db' report rep (proj1 Hwf1)) as [Hreq Hget]; [| |exact Hsave|].
  - cbn. split_and!; [|by apply wrap_range..].
    assert (Hin : u ∈ urls ++ added) by (eapply list_elem_of_filter; unfold node_rows in Hu; rewrite Hu; left).
    apply (list_elem_of_fmap_2 row_id) in Hin. change (row_id <$> urls ++ added) with (row_ids (urls ++ added)) in Hin.
    rewrite (wf_ids _ (proj1 Hwf1) _ _ Hurls1), elem_of_ids_upto in Hin. lia.
  - intros rows Hr'. rewrite Hother in Hr' by done. by apply Hsmall.
  - destruct (keeps_run_op pick (OpInsertReplayReport report) db1 Hwf1) as [Hwf2 _]. cbn [run_op] in Hwf2.
    unfold mbind, stm_bind in Hwf2. rewrite Hsave in Hwf2. cbn [mret stm_ret fst] in Hwf2.
    destruct (is_ok_ex _ (Hpick (sq_requests db'))) as [conn Hc].
    unfold Db.get_replay_report, sqlite_ops, reading. rewrite (Hget db' conn (proj1 Hwf2) ltac:(done) Hc).
    unfold replay_gas_used, replay_gas_per_second. rewrite Hreq. done.
Qed.
End replay.

Module ReplayWitness.
Export EngineWitness SqliteWitness.
Local Existing Instance shown.

Definition replay_provider : AuthProvider :=
  {| genesis_block := toy_header [] 0; Engine.message_version := Version.V3; Engine.rpc_url := "http://node" |}.
Definition args : ReplayArgs :=
  {| ra_engine_provider := Some replay_provider; ra_start_block := 1; ra_end_block := None |}.
Definition show (_ : AuthError) : string := "error".
Definition replayed_toy : option (Conn ToyNode PayloadAttributes * outcome CliError (ReplayReport * SqliteDb)) :=
  replay 1 [] id show (DO := sqlite_ops one_conn true) args 2 ready toy_conn.

Lemma replay_recorded_witness :
  exists c' rep db', replayed_toy = Some (c', Ok (rep, db')) /\
    Db.get_replay_report (DbOps := sqlite_ops one_conn true) db' (rp_id rep) = Ok rep /\
    replay_gas_per_second rep = 31500.
Proof.
  destruct replayed_toy as [[c' [[rep db']|e|]]|] eqn:H; [|exfalso; revert H; vm_compute; discriminate..].
  exists c', rep, db'. split; [reflexivity|].
  destruct (replay_recorded 1 [] id show one_conn toy_chain args 2 ready db' toy_conn c' rep 3)
    as (blocks & Hb & Hget & _ & Hspeed).
  - done.
  - exact ready_wf.
  - by intros ap [= <-].
  - intros rows Hr. assert (E : sq_tables ready !! "replay_reports"%string = Some []) by
      (vm_compute; reflexivity). rewrite E in Hr. injection Hr as <-. cbn. lia.
  - done.
  - done.
  - done.
  - exact H.
  - split; [exact Hget|]. rewrite Hspeed.
    rewrite (toy_blocks_read _ Hb).
    reflexivity.
Defined.
End ReplayWitness.
