(* ===== verification/SpamCommand.v ===== *)
(** * The spam command ([cli/src/commands/spam.rs])

    [init_scenario] checks the arguments against the scenario, funds the agents,
    makes the test scenario, sets a builtin scenario up, and checks that the
    minimum balance covers the run; [spam_inner] records the run and loops the
    spammer; [spam] retries the initialization.  Builtin scenarios are used
    through [BuiltinOps].  A result [None] is a command that does not return. *)

From Stdlib Require Import Strings.Byte Strings.String.
From S2P Require Import Prelude Text F64 Seeder Alloy Agents Db GenTypes GenUtil CoreError Templater TestFile Generator TxActor Scenario Spam SpamRun Orchestrator CliError CliUtil CliArgs.

(** What the command needs of a builtin scenario. *)
Class BuiltinOps (B : Type) := {
  builtin_config : B -> outcome CliError TestConfig;
  builtin_title : B -> outcome CliError string;
  builtin_blobs : B -> bool;
  builtin_set_code : B -> bool;
}.

Record SpamCliArgs := {
  sa_spam_args : SendSpamCliArgs;
  sa_testfile : option string;
  sa_rpc_args : SendTxsCliArgsInner;
  sa_ignore_receipts : bool;
  sa_optimistic_nonces : bool;
  sa_gen_report : bool;
  sa_skip_setup : bool;
  sa_rpc_batch_size : Z;
  sa_send_raw_tx_sync : bool;
  sa_spam_timeout : Z;
  sa_flashblocks_ws_url : option string;
  sa_report_interval : option Z;
}.

Record SpamCampaignContext := {
  cc_campaign_id : option string;
  cc_campaign_name : option string;
  cc_stage_name : option string;
  cc_scenario_name : option string;
}.
Definition default_campaign_context : SpamCampaignContext := {|
  cc_campaign_id := None; cc_campaign_name := None; cc_stage_name := None;
  cc_scenario_name := None |}.

Section spam_command.
Context {B : Type} `{BO : !BuiltinOps B}.

Inductive SpamScenario := Testfile (testfile : string) | Builtin (scenario : B).
Definition is_builtin (s : SpamScenario) : bool :=
  match s with Builtin _ => true | Testfile _ => false end.
Definition scenario_testconfig (load : string -> outcome CliError TestConfig) (s : SpamScenario)
  : outcome CliError TestConfig :=
  match s with Testfile testfile => load testfile | Builtin scenario => builtin_config scenario end.
Definition scenario_title (s : SpamScenario) : outcome CliError string :=
  match s with Testfile testfile => Ok testfile | Builtin scenario => builtin_title scenario end.

Context `{A : Alloy, Sg : !Signing} {P : Profile}.
Context {D : Type} `{DO : DbOps D}.
Context {Sd : Type} `{SV : SeedValue Sd, SD : Seeder Sd, SG : !SeedGenerator Sd}.
Variables (groth16_proof : nat -> string) (connect : Connect)
  (load : string -> outcome CliError TestConfig).

Record SpamCommandArgs := {
  scenario : SpamScenario;
  spam_args : SpamCliArgs;
  seed : Sd;
}.

(** The seed file is read, or written, even when a seed is given. *)
Definition seed_of_args (seedfile : outcome CliError string) (args : SendTxsCliArgsInner)
  : outcome CliError Sd :=
  stored ← seedfile;
  seed_from_str (default stored (ta_seed args)).
Definition SpamCommandArgs_new (seedfile : outcome CliError string) (scenario : SpamScenario)
    (cli_args : SpamCliArgs) : outcome CliError SpamCommandArgs :=
  seed ← seed_of_args seedfile (sa_rpc_args cli_args);
  mret {| scenario := scenario; spam_args := cli_args; seed := seed |}.

(** ** Checking the arguments *)

(** Batching is off with synchronous sending and without transactions, and a
    batch is no larger than a period. *)
Definition effective_batch_size (args : SpamCliArgs) (txs_per_duration : Z) : Z :=
  let size := sa_rpc_batch_size args in
  let size := if sa_send_raw_tx_sync args && (0 <? size) then 0 else size in
  if 0 <? size then
    if txs_per_duration =? 0 then 0
    else if txs_per_duration <? size then txs_per_duration else size
  else size.

(** Of single transactions only. *)
Definition has_blob_data (s : SpamRequest) : bool :=
  match s with Tx t => bool_decide (is_Some (fc_blob_data t)) | Bundle _ => false end.
Definition has_authorization (s : SpamRequest) : bool :=
  match s with Tx t => bool_decide (is_Some (fc_authorization_address t)) | Bundle _ => false end.

Definition check_tx_types (tx_type : TxTypeCli) (spam : list SpamRequest) : outcome CliError unit :=
  ensure (negb (existsb has_blob_data spam) || tx_type_eqb tx_type Eip4844)
    (Args (ArgsError.TxTypeInvalid tx_type CliEip4844));;
  ensure (negb (existsb has_authorization spam) || tx_type_eqb tx_type Eip7702)
    (Args (ArgsError.TxTypeInvalid tx_type CliEip7702)).

Definition check_spam (builtin : bool) (args : SpamCliArgs) (testconfig : TestConfig)
  : outcome CliError unit :=
  match tc_spam testconfig with
  | None => mret tt
  | Some spam =>
      ensure (negb (length spam =? 0)%nat) (Args ArgsError.SpamNotFound);;
      ensure (negb (bool_decide (builder_url (sa_spam_args args) = None) && existsb is_bundle spam))
        (Args ArgsError.BuilderUrlRequiredForBundles);;
      if builtin then mret tt else check_tx_types (ta_tx_type (sa_rpc_args args)) spam
  end.

Definition spam_tx_type (scenario : SpamScenario) (tx_type : TxTypeCli) : TxType :=
  match scenario with
  | Builtin b => if builtin_blobs b then Eip4844 else if builtin_set_code b then Eip7702
                 else tx_type_of tx_type
  | Testfile _ => tx_type_of tx_type
  end.

Definition spam_agent_spec (scenario : SpamScenario) (accounts_per_agent : Z) : AgentSpec :=
  let n := if is_builtin scenario then 1%nat else 0%nat in
  with_spam_accounts (with_setup_accounts (with_create_accounts default_agent_spec n) n)
    (Z.to_nat accounts_per_agent).

(** ** Initialization *)

(** How the setup of a builtin scenario is left: it ran to its end; the user
    interrupted it, without an engine API, which counts as a success; or the
    task that advances the chain failed. *)
Inductive SetupEnd :=
| SetupRan
| SetupInterrupted (core : Scenario) (db : D)
| SetupFcuFailed (e : CliError).

Record InitScenarioEnv := {
  ie_block_number : outcome Error Z;
  ie_block : Z -> outcome Error (option Z);
  ie_fund : FundEnv;
  ie_new : NewNode;
  ie_sim : SimEnv;
  ie_deploy : RpcNode * TaskRpc;
  ie_setup : RpcNode * TaskRpc;
  ie_setup_end : SetupEnd;
  ie_cost : NewNode * RpcNode;
}.

Abbreviation TestScn := (TestScenario (C := TestConfig) (Sd := Sd)).

(** [get_max_spam_cost], on a temporary scenario with the given signers. *)
Definition cost_params (s : TestScn) (user_signers : list Signer)
  : TestScenarioParams := {|
  tp_rpc_url := ts_rpc_url s; tp_builder_rpc_url := ts_builder_rpc_url s; tp_txs_rpc_url := None;
  tp_signers := user_signers; tp_agent_spec := ts_agent_spec s;
  tp_tx_type := sn_tx_type (ts_core s); tp_pending_tx_timeout := ts_pending_tx_timeout s;
  tp_bundle_type := ts_bundle_type s; tp_extra_msg_handles := None;
  tp_sync_nonces_after_batch := sn_should_sync_nonces (ts_core s);
  tp_rpc_batch_size := sn_rpc_batch_size (ts_core s); tp_gas_price := sn_gas_price (ts_core s);
  tp_scenario_label := ts_scenario_label s;
  tp_send_raw_tx_sync := sn_send_raw_tx_sync (ts_core s); tp_flashblocks_ws_url := None |}.
Definition get_max_spam_cost (s : TestScn) (node : NewNode * RpcNode) (db : D)
    (user_signers : list Signer) : outcome Error Z :=
  t ← TestScenario_new (ts_config s) (ts_rand_seed s) (cost_params s user_signers) node.1;
  snd (max_spam_cost (ts_config t) (ts_rand_seed t) (ts_agent_store t) (ts_rpc_url t)
         (ts_genesis_hash t) (ts_scenario_label t) groth16_proof node.2 db (ts_core t)).

(** Everything up to the funding: the configuration, the signers, the rate, the
    engine API and the agents. *)
Record SpamPlan := {
  pl_testconfig : TestConfig;
  pl_signers : list Signer;
  pl_engine : EngineParams;
  pl_agent_spec : AgentSpec;
  pl_txs_per_duration : Z;
  pl_block_time : Z;
  pl_agents : AgentStore;
}.

Definition spam_plan (args : SpamCommandArgs) (env : InitScenarioEnv) : outcome CliError SpamPlan :=
  let sa := spam_args args in
  let ra := sa_rpc_args sa in
  let tps := txs_per_second (sa_spam_args sa) in
  let tpb := txs_per_block (sa_spam_args sa) in
  testconfig ← args_testconfig ra (scenario_testconfig load (scenario args));
  let spam_len := Z.of_nat (length (default [] (tc_spam testconfig))) in
  let txs_per_duration := default (default spam_len tps) tpb in
  engine ← engine_params connect (ta_auth_args ra) (ta_call_forkchoice ra);
  total ← arith 64 (txs_per_duration * duration (sa_spam_args sa));
  ensure (spam_len <=? total)
    (Args (ArgsError.TransactionsPerDurationInsufficient spam_len txs_per_duration));;
  check_spam (is_builtin (scenario args)) sa testconfig;;
  let testconfig := with_cli_env (ta_env ra) testconfig in
  user_signers ← user_signers_with_defaults ra;
  let agent_spec := spam_agent_spec (scenario args) (default 10 (ta_accounts_per_agent ra)) in
  block_time ← map_err Core (get_block_time (ie_block_number env) (ie_block env));
  check_private_keys testconfig user_signers;;
  assert_ (negb (bool_decide (is_Some tpb) && bool_decide (is_Some tps)));;
  assert_ (bool_decide (is_Some tpb) || bool_decide (is_Some tps));;
  agents ← map_err Core (config_agent_store testconfig (seed args) agent_spec);
  mret {| pl_testconfig := testconfig; pl_signers := user_signers; pl_engine := engine;
          pl_agent_spec := agent_spec; pl_txs_per_duration := txs_per_duration;
          pl_block_time := block_time; pl_agents := agents |}.

Definition spam_params (args : SpamCommandArgs) (plan : SpamPlan)
  : outcome CliError TestScenarioParams :=
  let sa := spam_args args in
  let ra := sa_rpc_args sa in
  timeout ← arith 64 (pending_timeout (sa_spam_args sa) * pl_block_time plan);
  mret {|
    tp_rpc_url := ta_rpc_url ra; tp_builder_rpc_url := builder_url (sa_spam_args sa);
    tp_txs_rpc_url := ta_txs_url ra; tp_signers := pl_signers plan;
    tp_agent_spec := pl_agent_spec plan;
    tp_tx_type := spam_tx_type (scenario args) (ta_tx_type ra);
    tp_pending_tx_timeout := timeout; tp_bundle_type := bundle_type_of (ta_bundle_type ra);
    tp_extra_msg_handles := None; tp_sync_nonces_after_batch := negb (sa_optimistic_nonces sa);
    tp_rpc_batch_size := effective_batch_size sa (pl_txs_per_duration plan);
    tp_gas_price := ta_gas_price ra; tp_scenario_label := ta_scenario_label ra;
    tp_send_raw_tx_sync := sa_send_raw_tx_sync sa;
    tp_flashblocks_ws_url := sa_flashblocks_ws_url sa |}.

(** The agents are topped up by the first signer, unless one account sends all. *)
Definition fund_agents_of (args : SpamCommandArgs) (plan : SpamPlan) (env : InitScenarioEnv)
  : option (outcome CliError unit) :=
  let ra := sa_rpc_args (spam_args args) in
  if ta_override_senders ra then Some (Ok tt)
  else match unwrap (head (pl_signers plan)) with
       | Ok funder => fund_accounts (all_signer_addresses (pl_agents plan)) funder
                        (ta_min_balance ra) Legacy (pl_engine plan) (ie_fund env)
       | Err e => Some (Err e)
       | Panic => Some Panic
       end.

(** Deployment, then setup, however they are left. *)
Definition setup_ended (s : TestScn) (deploy setup : RpcNode * TaskRpc) (e : SetupEnd) (db : D)
  : outcome CliError (TestScn * D) :=
  match e with
  | SetupRan =>
      match (db ← deploy_all groth16_proof s deploy.1 deploy.2 db;
             setup_all groth16_proof s setup.1 setup.2 db) (ts_core s) with
      | (core, Ok db) => Ok (set_core core s, db)
      | (_, Err e) => Err (Core e)
      | (_, Panic) => Panic
      end
  | SetupInterrupted core db => Ok (set_core core s, db)
  | SetupFcuFailed e => Err e
  end.

(** The setup of a builtin scenario, whose cost is estimated first. *)
Definition builtin_setup (args : SpamCommandArgs) (s : TestScn) (db : D) (env : InitScenarioEnv)
  : option (outcome CliError (TestScn * D)) :=
  let min_balance := ta_min_balance (sa_rpc_args (spam_args args)) in
  r ← estimate_setup_cost groth16_proof s db (ie_sim env);
  Some ('(cost, db) ← map_err Core r;
        ensure (cost <=? min_balance) (Args (ArgsError.MinBalanceInsufficient min_balance cost));;
        setup_ended s (ie_deploy env) (ie_setup env) (ie_setup_end env) db).

(** The last check: the minimum balance covers a run. *)
Definition check_spam_cost (args : SpamCommandArgs) (plan : SpamPlan) (s : TestScn) (db : D)
    (env : InitScenarioEnv) : outcome CliError unit :=
  let min_balance := ta_min_balance (sa_rpc_args (spam_args args)) in
  cost ← map_err Core (get_max_spam_cost s (ie_cost env) db (pl_signers plan));
  let total_cost := wrap 256 (duration (sa_spam_args (spam_args args)) * cost) in
  ensure (total_cost <=? min_balance) (Args (ArgsError.MinBalanceInsufficient min_balance total_cost)).

Definition init_scenario (args : SpamCommandArgs) (db : D) (env : InitScenarioEnv)
  : option (outcome CliError (TestScn * D)) :=
  match spam_plan args env with
  | Ok plan =>
      funded ← fund_agents_of args plan env;
      match funded;;
            params ← spam_params args plan;
            map_err Core (TestScenario_new (pl_testconfig plan) (seed args) params (ie_new env)) with
      | Ok s =>
          r ← (if is_builtin (scenario args) && negb (sa_skip_setup (spam_args args))
               then builtin_setup args s db env else Some (Ok (s, db)));
          Some ('(s, db) ← r;
                check_spam_cost args plan s db env;;
                mret (s, db))
      | Err e => Some (Err e)
      | Panic => Some Panic
      end
  | Err e => Some (Err e)
  | Panic => Some Panic
  end.

(** ** Topping up in the background *)

(** A signal with the balances then seen and the answers to the funding, the end
    of the channel, or the token. *)
Inductive FundSignal :=
| BatchSent (balance : Address -> outcome RpcError Z) (env : FundEnv)
| SignalsClosed
| FundingCancelled.

(** For each signal whether [fund_accounts] was called and how it ended: its
    errors are dropped, and one that does not return keeps the task from the
    next signal. *)
Fixpoint balance_checked_funding (recipient_addresses : list Address) (fund_with : Signer)
    (min_balance : Z) (engine : EngineParams) (signals : list FundSignal)
  : list (option (outcome CliError unit)) :=
  match signals with
  | BatchSent balance env :: signals =>
      let rest := balance_checked_funding recipient_addresses fund_with min_balance engine signals in
      match find_insufficient_balances recipient_addresses
              (wrap 256 (min_balance + min_balance / 4)) balance with
      | Ok (_ :: _) =>
          let r := fund_accounts recipient_addresses fund_with min_balance Legacy engine env in
          r :: match r with Some _ => rest | None => [] end
      | _ => rest
      end
  | _ => []
  end.

(** ** Running *)

(** Errors of the spammer that are the arguments'. *)
Definition err_parse (err : CliError) : CliError :=
  match err with
  | Core (Runtime (InvalidParams BundleTypeInvalid)) => Args ArgsError.BundleTypeInvalid
  | Core (Runtime (InvalidParams p)) => CliParamsInvalid p
  | _ => err
  end.

(** An iteration of the loop: a run of the spammer, or an interruption by the
    user with what the run has done by then. *)
Inductive LoopEvent :=
| RunEnds (spam_rpc : Z -> Z -> option Z -> D -> stm Scenario Error (option (D * list SentBatch)))
| CtrlC (core : Scenario) (db : D).

Definition run_event (txs_per_batch duration : Z) (run_id : option Z) (event : LoopEvent) (db : D)
  : stm TestScn CliError (option D) := fun s =>
  match event with
  | CtrlC core db => (shutdown (set_core core s), Ok (Some db))
  | RunEnds spam_rpc =>
      let '(core, r) := spam_rpc txs_per_batch duration run_id db (ts_core s) in
      (set_core core s,
       (fmap (M := outcome CliError) (option_map fst) (map_err (fun e => err_parse (Core e)) r)))
  end.

(** [None] when the events end before the loop, or a run does not return.  The
    scenario's token is a child of a token nobody cancels. *)
Fixpoint spam_loop (run_forever : bool) (txs_per_batch duration : Z) (run_id : option Z)
    (events : list LoopEvent) (db : D) : stm TestScn CliError (option D) :=
  match events with
  | [] => mret None
  | event :: events =>
      r ← run_event txs_per_batch duration run_id event db;
      match r with
      | None => mret None
      | Some db =>
          over ← gets (fun s => negb run_forever || is_shutdown false s);
          if over : bool then mret (Some db)
          else spam_loop run_forever txs_per_batch duration run_id events db
      end
  end.

Record SpamEnv := {
  sp_start_block : outcome Error Z;
  sp_block_number : outcome Error Z;
  sp_block : Z -> outcome Error (option Z);
  sp_now : option Z;
  sp_cost : NewNode * RpcNode;
  sp_events : list LoopEvent;
  sp_dump : list (string * list (Z * outcome Error Z));
  sp_dump_start : Z;
  sp_dump_interrupted : bool;
}.

(** Whether a run is recorded: when receipts are, or for a campaign. *)
Definition records_run (args : SpamCliArgs) (ctx : SpamCampaignContext) : bool :=
  negb (sa_ignore_receipts args) || bool_decide (is_Some (cc_campaign_id ctx)).

(** The number of transactions of a batch and the length of a run. *)
Definition spam_rate_of (a : SendSpamCliArgs) : outcome CliError (Z * SpamDuration) :=
  match txs_per_block a, txs_per_second a with
  | Some txs_per_block, _ => mret (txs_per_block, Blocks (duration a))
  | None, Some txs_per_second => mret (txs_per_second, Seconds (duration a))
  | None, None => Err (Args ArgsError.SpamRateNotFound)
  end.

Definition run_request (args : SpamCommandArgs) (ctx : SpamCampaignContext) (rpc_url title : string)
    (now : option Z) (pending_timeout : Z) (rate : Z * SpamDuration) : outcome CliError SpamRunRequest :=
  timestamp ← unwrap now;
  tx_count ← arith 64 (rate.1 * duration (sa_spam_args (spam_args args)));
  mret {| rr_timestamp := wrap 64 timestamp; rr_tx_count := tx_count;
          rr_scenario_name := default title (cc_scenario_name ctx);
          rr_campaign_id := cc_campaign_id ctx; rr_campaign_name := cc_campaign_name ctx;
          rr_stage_name := cc_stage_name ctx; rr_rpc_url := rpc_url;
          rr_txs_per_duration := rate.1; rr_duration := rate.2;
          rr_pending_timeout_secs := pending_timeout |}.

(** [tx_actor().init_ctx]: of the default handle only. *)
Definition init_default_handle (ctx : ActorContext) : stm TestScn CliError unit := fun s =>
  match ts_msg_handles s !! "default"%string with
  | Some h =>
      match handle_init_ctx ctx h with
      | Ok h => (set_running (<["default"%string := h]> (ts_msg_handles s)) (ts_cancel_token s) s, Ok tt)
      | Err e => (s, Err (Core e))
      | Panic => (s, Panic)
      end
  | None => (s, Panic)
  end.

(** Before the loop, when running forever: the cost is asked for again. *)
Definition auto_funding (args : SpamCommandArgs) (db : D) (env : SpamEnv) : stm TestScn CliError bool :=
  let sa := spam_args args in
  if run_forever (sa_spam_args sa) && negb (ta_override_senders (sa_rpc_args sa)) then
    signers ← lift (user_signers_with_defaults (sa_rpc_args sa));
    s ← gets id;
    cost ← lift (map_err Core (get_max_spam_cost s (sp_cost env) db signers));
    mret (0 <? cost)
  else mret false.

(** The run's id and the database; [None] when it does not return. *)
Definition spam_inner (args : SpamCommandArgs) (ctx : SpamCampaignContext) (env : SpamEnv) (db : D)
  : stm TestScn CliError (option (option Z * D)) :=
  let sa := spam_args args in
  start_block ← lift (map_err Core (sp_start_block env));
  lift (engine_params connect (ta_auth_args (sa_rpc_args sa)) (ta_call_forkchoice (sa_rpc_args sa)));;
  title ← lift (scenario_title (scenario args));
  block_time ← lift (map_err Core (get_block_time (sp_block_number env) (sp_block env)));
  rate ← lift (spam_rate_of (sa_spam_args sa));
  timeout ← lift (arith 64 (block_time * pending_timeout (sa_spam_args sa)));
  rpc_url ← gets ts_rpc_url;
  '(run_id, db) ←
    (if records_run sa ctx then
       run ← lift (run_request args ctx rpc_url title (sp_now env) timeout rate);
       '(id, db) ← lift (map_err (fun e => Core (ErrDb e)) (insert_run db run));
       mret (Some id, db)
     else mret (None, db));
  init_default_handle (with_pending_tx_timeout timeout (ActorContext_new start_block (default 0 run_id)));;
  auto_funding args db env;;
  r ← spam_loop (run_forever (sa_spam_args sa)) rate.1 (duration (sa_spam_args sa)) run_id
        (sp_events env) db;
  match r with
  | None => mret None
  | Some db =>
      cancelled ← gets (is_shutdown false);
      timeout ← gets ts_pending_tx_timeout;
      match dump_tx_cache cancelled timeout (sp_dump_start env) (sp_dump env) with
      | None => if sp_dump_interrupted env then modify shutdown;; mret (Some (run_id, db))
                else mret None
      | Some _ => modify shutdown;; mret (Some (run_id, db))
      end
  end.

(** Three attempts; only an error that can be recovered from leads to another.
    [None] for an interruption by the user. *)
Fixpoint init_attempts {T} (n : nat) (last_err : option CliError)
    (attempts : list (option (outcome CliError T))) : outcome CliError T :=
  match n, attempts with
  | S n, None :: _ => Err Aborted
  | S n, Some (Ok s) :: _ => Ok s
  | S n, Some (Err e) :: attempts =>
      if is_recoverable e then init_attempts n (Some e) attempts else Err e
  | S n, Some Panic :: _ => Panic
  | _, _ => match last_err with Some e => Err e | None => Panic end
  end.
Definition MAX_ATTEMPTS : nat := 3.

(** The delay before the attempt after the [i]-th, counted from 1, in seconds. *)
Definition backoff (attempt : Z) : Z := 5 * attempt.

(** The whole command: the attempts, each with the database it finds, or
    interrupted by the user while it runs, then the run. *)
Definition init_attempt (args : SpamCommandArgs) (attempt : option (D * InitScenarioEnv))
  : option (outcome CliError (TestScn * D)) :=
  '(db, env) ← attempt;
  init_scenario args db env.
Definition spam (args : SpamCommandArgs) (ctx : SpamCampaignContext)
    (attempts : list (option (D * InitScenarioEnv))) (env : SpamEnv)
  : outcome CliError (TestScn * option (option Z * D)) :=
  '(s, db) ← init_attempts MAX_ATTEMPTS None (init_attempt args <$> attempts);
  let '(s, r) := spam_inner args ctx env db s in
  r ← r;
  mret (s, r).

(** ** Properties *)

Lemma effective_batch_size_le args rate :
  0 <= sa_rpc_batch_size args -> 0 <= rate -> 0 <= effective_batch_size args rate <= rate.
Proof. intros Hs Hr. unfold effective_batch_size. repeat case_bool; lia. Qed.

Lemma effective_batch_size_sync args rate :
  0 <= sa_rpc_batch_size args -> sa_send_raw_tx_sync args = true ->
  effective_batch_size args rate = 0.
Proof.
  intros Hs Hsync. unfold effective_batch_size. rewrite Hsync. cbn [andb].
  destruct (Z.ltb_spec 0 (sa_rpc_batch_size args)); [reflexivity|].
  destruct (Z.ltb_spec 0 (sa_rpc_batch_size args)); lia.
Qed.

(** The checks on the configured steps: there are some, bundles have a builder,
    and blobs and delegations the transaction type they need. *)
Lemma check_spam_ok builtin args testconfig spam u :
  tc_spam testconfig = Some spam ->
  check_spam builtin args testconfig = Ok u ->
  spam <> [] /\
  (builder_url (sa_spam_args args) = None -> Forall (fun r => is_bundle r = false) spam) /\
  (builtin = false -> Forall (fun r =>
     (has_blob_data r = true -> ta_tx_type (sa_rpc_args args) = CliEip4844) /\
     (has_authorization r = true -> ta_tx_type (sa_rpc_args args) = CliEip7702)) spam).
Proof.
  intros Hs. unfold check_spam. rewrite Hs. intros H. inv_outcome.
  rename select (negb (length _ =? 0)%nat = true) into Hne.
  rename select (negb (_ && existsb is_bundle _) = true) into Hb.
  split; [|split].
  - by intros ->.
  - intros Hu. rewrite bool_decide_eq_true_2 in Hb by exact Hu. cbn [andb] in Hb.
    apply negb_true_iff in Hb. apply Forall_forall. intros r Hr%list_elem_of_In.
    destruct (is_bundle r) eqn:Hbr; [|reflexivity].
    rewrite <- Hb. symmetry. apply existsb_exists. by exists r.
  - intros ->. unfold check_tx_types in *. inv_outcome.
    apply Forall_forall. intros r Hr%list_elem_of_In.
    assert (Hx : forall f t, negb (existsb f spam) || tx_type_eqb (ta_tx_type (sa_rpc_args args)) t = true ->
                   f r = true -> tx_type_eqb (ta_tx_type (sa_rpc_args args)) t = true).
    { intros f t Ho Hf. replace (existsb f spam) with true in Ho; [exact Ho|].
      symmetry. apply existsb_exists. by exists r. }
    split; intros Hf; eapply Hx in Hf; try eassumption;
      by destruct (ta_tx_type (sa_rpc_args args)).
Qed.
Lemma init_attempts_ok {T} n last_err (l : list (option (outcome CliError T))) t :
  init_attempts n last_err l = Ok t ->
  exists i, (i < n)%nat /\ l !! i = Some (Some (Ok t)) /\
    forall j, (j < i)%nat -> exists e, l !! j = Some (Some (Err e)) /\ is_recoverable e = true.
Proof.
  revert last_err l. induction n as [|n IH]; intros last_err [|[[t'|e|]|] l]; cbn; try case_match;
    try discriminate.
  - intros [= <-]. exists 0%nat. split_and!; [lia|reflexivity|]. intros j Hj. lia.
  - intros (i & Hi & Ht & Hj)%IH. exists (S i). split_and!; [lia|exact Ht|].
    intros [|j] Hlt; [by exists e|]. apply Hj. lia.
Qed.

Lemma run_event_running rate d run_id event db s s1 r :
  run_event rate d run_id event db s = (s1, Ok r) ->
  exists core, s1 = set_core core s \/
    (s1 = shutdown (set_core core s) /\ exists db, event = CtrlC core db).
Proof.
  destruct event as [spam_rpc|core db1]; cbn.
  - destruct (spam_rpc _ _ _ _ _) as [core o]. intros [= <- _]. exists core. by left.
  - intros [= <- <-]. exists core. right. split; [done|]. by exists db1.
Qed.

(** Of the scenario the loop changes what a run may change, and an interruption
    shuts it down; without one, a loop that is to run forever does not end. *)
Lemma spam_loop_running forever rate d run_id events db s s' db' :
  spam_loop forever rate d run_id events db s = (s', Ok (Some db')) ->
  (exists core, s' = set_core core s \/ s' = shutdown (set_core core s)) /\
  (forever = true -> is_shutdown false s = false ->
   exists core db0, CtrlC core db0 ∈ events).
Proof.
  revert db s. induction events as [|event events IH]; intros db s; cbn -[run_event]; intros H;
    [discriminate H|].
  apply stm_bind_ok in H as (s1 & [db1|] & Hr & H); [|discriminate H].
  apply stm_bind_ok in H as (s2 & over & Ho & H). apply stm_gets_ok in Ho as [-> ->].
  apply run_event_running in Hr as (core & [->|(-> & dbc & ->)]).
  - destruct (negb forever || _) eqn:Ho; cbv beta iota in H.
    + apply stm_ret_ok in H as [-> _]. split; [exists core; by left|].
      intros -> Hs. cbn in Ho. unfold is_shutdown in *. cbn in Ho. congruence.
    + apply IH in H as [[core' Hc] Hf]. split; [by exists core'|].
      intros Hfo Hs. destruct (Hf Hfo Hs) as (c & dbc & Hin). exists c, dbc. by right.
  - assert (Ho : is_shutdown false (shutdown (set_core core s)) = true) by reflexivity.
    rewrite Ho, orb_true_r in H. apply stm_ret_ok in H as [-> _].
    split; [exists core; by right|]. intros _ _. exists core, dbc. left.
Qed.
(** A plan is made for one rate, high enough to send every step once. *)
Lemma spam_plan_ok args env plan :
  spam_plan args env = Ok plan ->
  let sa := spam_args args in
  let ra := sa_rpc_args sa in
  exists testconfig total,
    args_testconfig ra (scenario_testconfig load (scenario args)) = Ok testconfig /\
    pl_testconfig plan = with_cli_env (ta_env ra) testconfig /\
    user_signers_with_defaults (E := CliError) ra = Ok (pl_signers plan) /\
    (txs_per_block (sa_spam_args sa) = Some (pl_txs_per_duration plan) /\
       txs_per_second (sa_spam_args sa) = None \/
     txs_per_block (sa_spam_args sa) = None /\
       txs_per_second (sa_spam_args sa) = Some (pl_txs_per_duration plan)) /\
    arith (E := CliError) 64 (pl_txs_per_duration plan * duration (sa_spam_args sa)) = Ok total /\
    Z.of_nat (length (default [] (tc_spam testconfig))) <= total /\
    check_spam (is_builtin (scenario args)) sa testconfig = Ok tt /\
    config_agent_store (pl_testconfig plan) (seed args)
      (spam_agent_spec (scenario args) (default 10 (ta_accounts_per_agent ra))) = Ok (pl_agents plan).
Proof.
  unfold spam_plan. intros H. inv_outcome. cbn [pl_testconfig pl_signers pl_txs_per_duration pl_agents].
  rename select (args_testconfig _ _ = Ok _) into Hc.
  rename select (arith 64 _ = Ok _) into Ht.
  rename select (check_spam _ _ _ = Ok _) into Hch.
  match type of Hch with _ = Ok ?u => destruct u end.
  rename select ((_ <=? _) = true) into Hle. apply Z.leb_le in Hle.
  eexists _, _. split_and!; try eassumption; [reflexivity|].
  destruct (txs_per_block _), (txs_per_second _); try discriminate;
    cbn in *; (try by left); by right.
Qed.

(** Deployments and setups leave the batch size of a scenario. *)
Lemma fetch_blob_batch rpc s s' p :
  fetch_blob_gas_price rpc s = (s', Ok p) -> sn_rpc_batch_size s' = sn_rpc_batch_size s.
Proof.
  unfold fetch_blob_gas_price. destruct (sn_tx_type s); try (by intros [= <- _]).
  destruct (fetch_with_cache _ _) as [c [v|e|]]; by intros [= <- _].
Qed.
Lemma deploy_all_batch (s : TestScn) rpc node (db db' : D) core core' :
  deploy_all groth16_proof s rpc node db core = (core', Ok db') ->
  sn_rpc_batch_size core' = sn_rpc_batch_size core.
Proof.
  unfold deploy_all, deploy_contracts. intros H. apply stm_bind_ok in H as (s1 & gp & H1 & H).
  apply stm_lift_ok in H1 as [-> _]. apply stm_bind_ok in H as (s2 & bp & H2%fetch_blob_batch & H).
  rewrite <- H2. by inv_stm.
Qed.
Lemma setup_all_batch (s : TestScn) rpc node (db db' : D) core core' :
  setup_all groth16_proof s rpc node db core = (core', Ok db') ->
  sn_rpc_batch_size core' = sn_rpc_batch_size core.
Proof.
  unfold setup_all, run_setup. intros H. apply stm_bind_ok in H as (s2 & bp & H2%fetch_blob_batch & H).
  rewrite <- H2. by inv_stm.
Qed.
Lemma builtin_setup_batch args s db env s' db' :
  builtin_setup args s db env = Some (Ok (s', db')) -> ie_setup_end env = SetupRan ->
  sn_rpc_batch_size (ts_core s') = sn_rpc_batch_size (ts_core s).
Proof.
  unfold builtin_setup. intros Hr Hend.
  destruct (estimate_setup_cost _ _ _ _) as [rc|]; cbn [mbind option_bind] in Hr; [|discriminate Hr].
  injection Hr as Hr. apply bind_ok in Hr as ([cost db0] & _ & Hr). apply bind_ok in Hr as ([] & _ & Hr).
  unfold setup_ended in Hr. rewrite Hend in Hr.
  match type of Hr with (let (_, _) := ?m in _) = _ => destruct m as [core [db2|e|]] eqn:Hs end;
    [|discriminate Hr..]. injection Hr as <- _. cbn [ts_core set_core].
  apply stm_bind_ok in Hs as (core1 & db1 & Hd%deploy_all_batch & Hs%setup_all_batch). congruence.
Qed.

(** C15: what [init_scenario] has checked and done when it succeeds.  Exactly one
    rate is set, and it sends every configured step at least once; when spam steps
    are configured there is at least one, and without a builder's URL none is a
    bundle; in a scenario file (builtin scenarios are not checked) blobs and
    delegations have the transaction type they need.  Unless one account sends
    everything ([--override-senders]), the first signer's funding of the agents
    ended well.  Unless the setup of a builtin scenario was interrupted, the size
    of JSON-RPC batches is the effective one, at most a period's count, and 0 with
    synchronous sending.  The minimum balance covers the estimated cost of the run,
    modulo 2^256.  The database is only changed by the setup of a builtin
    scenario. *)
Theorem init_scenario_ok args db env s db' :
  init_scenario args db env = Some (Ok (s, db')) ->
  let sa := spam_args args in
  let ra := sa_rpc_args sa in
  0 <= sa_rpc_batch_size sa ->
  exists testconfig signers rate total cost,
    args_testconfig ra (scenario_testconfig load (scenario args)) = Ok testconfig /\
    user_signers_with_defaults (E := CliError) ra = Ok signers /\
    (txs_per_block (sa_spam_args sa) = Some rate /\ txs_per_second (sa_spam_args sa) = None \/
     txs_per_block (sa_spam_args sa) = None /\ txs_per_second (sa_spam_args sa) = Some rate) /\
    arith (E := CliError) 64 (rate * duration (sa_spam_args sa)) = Ok total /\
    (forall spam, tc_spam testconfig = Some spam ->
      spam <> [] /\ Z.of_nat (length spam) <= total /\
      (builder_url (sa_spam_args sa) = None -> Forall (fun r => is_bundle r = false) spam) /\
      (is_builtin (scenario args) = false -> Forall (fun r =>
         (has_blob_data r = true -> ta_tx_type ra = CliEip4844) /\
         (has_authorization r = true -> ta_tx_type ra = CliEip7702)) spam)) /\
    (ta_override_senders ra = false -> exists plan funder,
       spam_plan args env = Ok plan /\ head signers = Some funder /\
       fund_accounts (all_signer_addresses (pl_agents plan)) funder (ta_min_balance ra) Legacy
         (pl_engine plan) (ie_fund env) = Some (Ok tt)) /\
    (is_builtin (scenario args) = false \/ sa_skip_setup sa = true ->
       db' = db) /\
    (is_builtin (scenario args) = false \/ sa_skip_setup sa = true \/ ie_setup_end env = SetupRan ->
       sn_rpc_batch_size (ts_core s) = effective_batch_size sa rate /\
       (0 <= rate -> sn_rpc_batch_size (ts_core s) <= rate) /\
       (sa_send_raw_tx_sync sa = true -> sn_rpc_batch_size (ts_core s) = 0)) /\
    get_max_spam_cost s (ie_cost env) db' signers = Ok cost /\
    wrap 256 (duration (sa_spam_args sa) * cost) <= ta_min_balance ra.
Proof.
  intros H sa ra Hb. unfold init_scenario in H.
  destruct (spam_plan args env) as [plan|e|] eqn:Hplan; [|discriminate H..].
  destruct (spam_plan_ok _ _ _ Hplan) as (testconfig & total & Hc & Hcfg & Hsg & Hrate & Ht & Hle & Hch & _).
  destruct (fund_agents_of args plan env) as [funded|] eqn:Hf; cbn [mbind option_bind] in H;
    [|discriminate H].
  destruct (_ ≫= _) as [s0|e|] eqn:Hs0 in H; [|discriminate H..].
  apply bind_ok in Hs0 as ([] & -> & Hs0). apply bind_ok in Hs0 as (params & Hp & Hs0%map_err_ok).
  destruct (if _ && _ then _ else _) as [r|] eqn:Hr in H; cbn [mbind option_bind] in H; [|discriminate H].
  injection H as H. apply bind_ok in H as ([s1 db1] & -> & H).
  apply bind_ok in H as ([] & Hcost & [= -> ->]).
  unfold check_spam_cost in Hcost. inv_outcome. rename select ((_ <=? _) = true) into Hmin.
  apply Z.leb_le in Hmin.
  rename select (get_max_spam_cost _ _ _ _ = Ok _) into Hmax.
  eexists testconfig, (pl_signers plan), (pl_txs_per_duration plan), total, _.
  split_and!; try eassumption.
  - intros spam Hs. rewrite Hs in Hle. cbn [default] in Hle.
    destruct (check_spam_ok _ _ _ _ _ Hs Hch) as (Hne & Hbu & Htx). split_and!; assumption.
  - intros Ho. unfold fund_agents_of in Hf. fold sa ra in Hf. rewrite Ho in Hf.
    destruct (head (pl_signers plan)) as [funder|]; [|discriminate Hf].
    exists plan, funder. split_and!; [reflexivity|reflexivity|exact Hf].
  - intros Hskip. replace (is_builtin (scenario args) && _) with false in Hr
      by (destruct Hskip as [Hx|Hx]; [by rewrite Hx|]; fold sa; rewrite Hx; by destruct (is_builtin _)).
    by injection Hr as _ ->.
  - intros Hran.
    assert (Hs : sn_rpc_batch_size (ts_core s) = sn_rpc_batch_size (ts_core s0)).
    { destruct (is_builtin (scenario args)) eqn:Hbi; cbn [andb] in Hr; [|by injection Hr as -> _].
      fold sa in Hr. destruct (sa_skip_setup sa); cbn [negb] in Hr; [by injection Hr as -> _|].
      destruct Hran as [|[|Hend]]; [done..|]. by eapply builtin_setup_batch. }
    assert (Hn : sn_rpc_batch_size (ts_core s0) = effective_batch_size sa (pl_txs_per_duration plan)).
    { unfold spam_params in Hp. inv_outcome.
      unfold TestScenario_new in Hs0. repeat (inv_outcome; try case_match; simplify_eq); reflexivity. }
    rewrite Hs, Hn. split_and!; [reflexivity| |].
    + intros Hz. by apply effective_batch_size_le.
    + intros Hsync. by apply effective_batch_size_sync.
Qed.
Lemma init_scenario_fresh args db env s db' :
  init_scenario args db env = Some (Ok (s, db')) -> ts_cancel_token s = child_token.
Proof.
  intros H. unfold init_scenario in H.
  destruct (spam_plan args env) as [plan|e|]; [|discriminate H..].
  destruct (fund_agents_of args plan env) as [funded|]; cbn [mbind option_bind] in H;
    [|discriminate H].
  destruct (_ ≫= _) as [s0|e|] eqn:Hs0 in H; [|discriminate H..].
  apply bind_ok in Hs0 as (? & ? & Hs0). apply bind_ok in Hs0 as (params & Hp & Hs0%map_err_ok).
  assert (Hfresh : ts_cancel_token s0 = child_token).
  { unfold TestScenario_new in Hs0. repeat (inv_outcome; try case_match; simplify_eq); reflexivity. }
  destruct (if _ && _ then _ else _) as [r|] eqn:Hr in H; cbn [mbind option_bind] in H; [|discriminate H].
  injection H as H. apply bind_ok in H as ([s1 db1] & -> & H).
  apply bind_ok in H as ([] & Hcost & [= -> ->]).
  destruct (is_builtin _ && _); [|injection Hr as -> ->; exact Hfresh].
  unfold builtin_setup in Hr.
  destruct (estimate_setup_cost _ _ _ _) as [rc|]; cbn [mbind option_bind] in Hr; [|discriminate Hr].
  injection Hr as Hr. apply bind_ok in Hr as ([cost db0] & _ & Hr).
  apply bind_ok in Hr as ([] & _ & Hr). unfold setup_ended in Hr.
  repeat case_match; simplify_eq; exact Hfresh.
Qed.

Lemma auto_funding_ok args db env s s' b :
  auto_funding args db env s = (s', Ok b) -> s' = s.
Proof. unfold auto_funding. intros H. case_bool; inv_stm; done. Qed.

Lemma init_default_handle_ok ctx s s' u :
  init_default_handle ctx s = (s', Ok u) ->
  ts_cancel_token s' = ts_cancel_token s /\
  exists h, ts_msg_handles s !! "default"%string = Some h /\ hd_alive h = true.
Proof.
  unfold init_default_handle. intros H.
  destruct (ts_msg_handles s !! _) as [h|] eqn:Hh; [|discriminate H].
  destruct (handle_init_ctx ctx h) as [h'|e|] eqn:Hi; try discriminate H.
  injection H as <- <-. split; [reflexivity|]. exists h. split; [reflexivity|].
  unfold handle_init_ctx in Hi. by destruct (hd_alive h).
Qed.

Lemma shutdown_stops (s : TestScn) c :
  is_shutdown c (shutdown s) = true /\
  forall name h, ts_msg_handles (shutdown s) !! name = Some h -> hd_alive h = false.
Proof.
  split; [by destruct c|]. intros name h. cbn. rewrite lookup_fmap.
  by destruct (_ !! name); intros [= <-].
Qed.

(** The run that [spam_inner] records, if it records one, the loop on the
    database with it, and how it leaves the scenario. *)
Lemma spam_inner_ok args ctx env db s s' run_id db' :
  spam_inner args ctx env db s = (s', Ok (Some (run_id, db'))) ->
  let sa := spam_args args in
  (exists title rate block_time timeout,
    scenario_title (scenario args) = Ok title /\
    spam_rate_of (sa_spam_args sa) = Ok rate /\
    get_block_time (sp_block_number env) (sp_block env) = Ok block_time /\
    arith (E := CliError) 64 (block_time * pending_timeout (sa_spam_args sa)) = Ok timeout /\
    exists db1,
      (if records_run sa ctx then
         exists req id,
           run_request args ctx (ts_rpc_url s) title (sp_now env) timeout rate = Ok req /\
           insert_run db req = Ok (id, db1) /\ run_id = Some id
       else run_id = None /\ db1 = db) /\
      exists s1 s2, spam_loop (run_forever (sa_spam_args sa)) rate.1 (duration (sa_spam_args sa)) run_id
        (sp_events env) db1 s1 = (s2, Ok (Some db'))) /\
  (run_forever (sa_spam_args sa) = true -> is_shutdown false s = false ->
   exists core db0, CtrlC core db0 ∈ sp_events env) /\
  exists s0, s' = shutdown s0.
Proof.
  intros H sa. unfold spam_inner in H.
  apply stm_bind_ok in H as (? & start & Hl & H). apply stm_lift_ok in Hl as [-> Hstart].
  apply stm_bind_ok in H as (? & engine & Hl & H). apply stm_lift_ok in Hl as [-> _].
  apply stm_bind_ok in H as (? & title & Hl & H). apply stm_lift_ok in Hl as [-> Htitle].
  apply stm_bind_ok in H as (? & block_time & Hl & H). apply stm_lift_ok in Hl as [-> Hbt%map_err_ok].
  apply stm_bind_ok in H as (? & rate & Hl & H). apply stm_lift_ok in Hl as [-> Hrate].
  apply stm_bind_ok in H as (? & timeout & Hl & H). apply stm_lift_ok in Hl as [-> Htime].
  apply stm_bind_ok in H as (? & url & Hl & H). apply stm_gets_ok in Hl as [-> ->].
  apply stm_bind_ok in H as (s1 & [id db1] & Hrun & H).
  assert (Hrec : s1 = s /\ if records_run sa ctx then
      exists req id1,
        run_request args ctx (ts_rpc_url s) title (sp_now env) timeout rate = Ok req /\
        insert_run db req = Ok (id1, db1) /\ id = Some id1
    else id = None /\ db1 = db).
  { fold sa in Hrun. destruct (records_run sa ctx).
    - apply stm_bind_ok in Hrun as (? & req & Hl & Hrun). apply stm_lift_ok in Hl as [-> Hreq].
      apply stm_bind_ok in Hrun as (? & [id1 db2] & Hl & Hrun).
      apply stm_lift_ok in Hl as [-> Hins%map_err_ok].
      apply stm_ret_ok in Hrun as [-> [= -> ->]]. split; [done|]. by exists req, id1.
    - apply stm_ret_ok in Hrun as [-> [= -> ->]]. done. }
  destruct Hrec as [-> Hrec].
  apply stm_bind_ok in H as (s2 & [] & Hh & H). apply init_default_handle_ok in Hh as [Htok _].
  apply stm_bind_ok in H as (s3 & b & Ha & H). apply auto_funding_ok in Ha as ->.
  apply stm_bind_ok in H as (s4 & [db2|] & Hloop & H); [|discriminate H].
  pose proof Hloop as Hran. apply spam_loop_running in Hloop as [_ Hforever].
  apply stm_bind_ok in H as (? & cancelled & Hl & H). apply stm_gets_ok in Hl as [-> ->].
  apply stm_bind_ok in H as (? & pt & Hl & H). apply stm_gets_ok in Hl as [-> ->].
  assert (Hend : (modify (E := CliError) shutdown;; mret (Some (id, db2))) s4
                 = (s', Ok (Some (run_id, db')))).
  { repeat case_match; try exact H; discriminate H. }
  injection Hend as <- <- <-. split_and!.
  - exists title, rate, block_time, timeout. split_and!; [done..|]. exists db1. split; [exact Hrec|].
    by exists s2, s4.
  - intros Hf Hs. apply Hforever; [exact Hf|]. unfold is_shutdown in *. by rewrite Htok.
  - by exists s4.
Qed.

(** C22: The whole command: when it returns, one of at most three attempts made
    the scenario and every attempt before it failed with an error that can be
    recovered from; the run is recorded exactly when receipts are collected or it
    is a campaign's, under the campaign's scenario name or the scenario's own,
    with its rate and the number of its transactions; a run that is to last
    forever has been interrupted; and the scenario is shut down, none of its
    actors alive. *)
Theorem spam_ok args ctx attempts env s' run_id db' :
  spam args ctx attempts env = Ok (s', Some (run_id, db')) ->
  let sa := spam_args args in
  (exists i s db, (i < 3)%nat /\
    init_attempt args <$> (attempts !! i) = Some (Some (Ok (s, db))) /\
    (forall j, (j < i)%nat -> exists e,
      init_attempt args <$> (attempts !! j) = Some (Some (Err e)) /\ is_recoverable e = true) /\
    if negb (sa_ignore_receipts sa) || bool_decide (is_Some (cc_campaign_id ctx)) then
      exists req id db1 title rate,
        scenario_title (scenario args) = Ok title /\
        spam_rate_of (sa_spam_args sa) = Ok rate /\
        insert_run db req = Ok (id, db1) /\ run_id = Some id /\
        rr_scenario_name req = default title (cc_scenario_name ctx) /\
        rr_campaign_id req = cc_campaign_id ctx /\ rr_rpc_url req = ts_rpc_url s /\
        rr_txs_per_duration req = rate.1 /\ rr_duration req = rate.2 /\
        arith (E := CliError) 64 (rate.1 * duration (sa_spam_args sa)) = Ok (rr_tx_count req)
    else run_id = None) /\
  (run_forever (sa_spam_args sa) = true -> exists core db0, CtrlC core db0 ∈ sp_events env) /\
  is_shutdown false s' = true /\
  forall name h, ts_msg_handles s' !! name = Some h -> hd_alive h = false.
Proof.
  intros H sa. unfold spam in H. apply bind_ok in H as ([s db] & Hi & H).
  destruct (spam_inner args ctx env db s) as [s1 r] eqn:Hr.
  apply bind_ok in H as (r' & -> & [= -> ->]).
  apply init_attempts_ok in Hi as (i & Hi & Hs & Hbefore). rewrite list_lookup_fmap in Hs.
  apply spam_inner_ok in Hr as ((title & rate & bt & timeout & Htitle & Hrate & _ & _ & Hrec) & Hforever & s0 & ->).
  destruct (shutdown_stops s0 false) as [Hst Hh]. split_and!; [|  |exact Hst|exact Hh].
  - exists i, s, db. split_and!; [exact Hi|exact Hs| |].
    + intros j Hj. destruct (Hbefore j Hj) as (e & He & Hrc). exists e.
      by rewrite list_lookup_fmap in He.
    + destruct Hrec as (db1 & Hrec & _). fold sa in Hrec. unfold records_run in Hrec.
      destruct (negb _ || _); [|apply Hrec]. destruct Hrec as (req & id & Hreq & Hins & ->). exists req, id, db1, title, rate.
      unfold run_request in Hreq. inv_outcome. by split_and!.
  - intros Hf. apply Hforever; [exact Hf|].
    destruct (attempts !! i) as [[[db0 env0]|]|]; try discriminate Hs. injection Hs as Hs.
    apply init_scenario_fresh in Hs. unfold is_shutdown. by rewrite Hs.
Qed.
End spam_command.

(** ** An application *)

Module SpamCommandWitness.
Export CliUtilWitness.

#[export] Instance no_builtins : BuiltinOps False := {|
  builtin_config (b : False) := match b with end; builtin_title (b : False) := match b with end;
  builtin_blobs (b : False) := match b with end; builtin_set_code (b : False) := match b with end |}.

Definition send_args : SendTxsCliArgsInner := {|
  ta_env := None; ta_min_balance := 10 ^ 18; ta_private_keys := None; ta_rpc_url := "http";
  ta_txs_url := None; ta_scenario_label := None; ta_seed := None; ta_bundle_type := CliL1;
  ta_gas_price := None; ta_tx_type := CliEip1559; ta_accounts_per_agent := Some 1;
  ta_override_senders := false; ta_call_forkchoice := false; ta_auth_args := default_auth_args |}.
Definition rate_args : SendSpamCliArgs := {|
  txs_per_second := Some 2; txs_per_block := None; duration := 3; builder_url := None;
  pending_timeout := 12; run_forever := false |}.
Definition cli_args : SpamCliArgs := {|
  sa_spam_args := rate_args; sa_testfile := Some "file"%string; sa_rpc_args := send_args;
  sa_ignore_receipts := false; sa_optimistic_nonces := true; sa_gen_report := false;
  sa_skip_setup := false; sa_rpc_batch_size := 7; sa_send_raw_tx_sync := false;
  sa_spam_timeout := 5; sa_flashblocks_ws_url := None; sa_report_interval := None |}.
Definition args : SpamCommandArgs (B := False) (Sd := CountSeed) :=
  {| SpamCommand.scenario := Testfile "file"; spam_args := cli_args; seed := {| count := 5 |} |}.
Definition no_engine : Connect := fun _ _ _ _ => Err (Args ArgsError.SpamNotFound).
Definition load_conf : string -> outcome CliError TestConfig := fun _ => Ok conf.

(** Every account is rich enough already. *)
Definition fund_env : FundEnv := {|
  fe_balance _ := Ok (2 ^ 200); fe_nonce := Ok 7; fe_gas_price := Ok 10; fe_chain_id := Ok 1;
  fe_funder_balance := Ok (2 ^ 200); fe_funder_balance_again := Ok (2 ^ 200); fe_task := sender;
  fe_ended := []; fe_watch _ := Confirmed |}.
Definition start_env : InitScenarioEnv (D := MockDb) := {|
  ie_block_number := Ok 0; ie_block _ := Ok None; ie_fund := fund_env; ie_new := create_node;
  ie_sim := sim_env; ie_deploy := calls; ie_setup := calls; ie_setup_end := SetupRan;
  ie_cost := (create_node, nn_rpc create_node) |}.
Definition started := init_scenario no_proof no_engine load_conf args mock_db start_env.

Lemma init_scenario_ok_witness :
  exists s db, started = Some (Ok (s, db)) /\ sn_rpc_batch_size (ts_core s) = 2 /\
    exists signers cost, get_max_spam_cost no_proof s (create_node, nn_rpc create_node) db signers = Ok cost /\
      wrap 256 (3 * cost) <= 10 ^ 18.
Proof.
  assert (Hok : match started with Some (Ok _) => true | _ => false end = true)
    by (vm_compute; reflexivity).
  destruct started as [[[s db]|e|]|] eqn:Hs; [|discriminate Hok..].
  destruct (init_scenario_ok no_proof no_engine load_conf args mock_db start_env s db Hs)
    as (testconfig & signers & rate & total & cost & _ & _ & Hr & _ & _ & _ & _ & Hbatch & Hcost & Hmin).
  { cbn. lia. }
  destruct Hbatch as (Hb & _); [left; reflexivity|].
  exists s, db. split_and!; [reflexivity| |].
  - rewrite Hb. destruct Hr as [[Hr _]|[_ Hr]]; [discriminate Hr|]. injection Hr as <-. reflexivity.
  - exists signers, cost. split; [exact Hcost|exact Hmin].
Defined.

(** The node is unreachable when the first attempt funds the agents. *)
Definition offline_env : InitScenarioEnv (D := MockDb) := {|
  ie_block_number := Ok 0; ie_block _ := Ok None; ie_fund := {|
    fe_balance _ := Ok (2 ^ 200); fe_nonce := Err (Transport "refused"); fe_gas_price := Ok 10;
    fe_chain_id := Ok 1; fe_funder_balance := Ok (2 ^ 200);
    fe_funder_balance_again := Ok (2 ^ 200); fe_task := sender; fe_ended := [];
    fe_watch _ := Confirmed |};
  ie_new := create_node; ie_sim := sim_env; ie_deploy := calls; ie_setup := calls;
  ie_setup_end := SetupRan; ie_cost := (create_node, nn_rpc create_node) |}.
Definition agents_of_args : AgentStore :=
  match config_agent_store conf {| count := 5 |}
          (with_spam_accounts (with_setup_accounts (with_create_accounts default_agent_spec 0) 0) 1) with
  | Ok st => st | _ => store end.
Definition run_once : LoopEvent (D := MockDb) :=
  RunEnds (fun txs duration run_id db =>
    spam_rpc conf {| count := 5 |} agents_of_args "http" 0 None no_proof 50 None (nn_rpc create_node) [] L1
      three_ticks txs duration run_id db).
Definition spam_env : SpamEnv (D := MockDb) := {|
  sp_start_block := Ok 9; sp_block_number := Ok 0; sp_block _ := Ok None;
  sp_now := Some 1700000000000; sp_cost := (create_node, nn_rpc create_node);
  sp_events := [run_once]; sp_dump := []; sp_dump_start := 0; sp_dump_interrupted := false |}.
Definition spammed := SpamCommand.spam no_proof no_engine load_conf args default_campaign_context
  [Some (mock_db, offline_env); Some (mock_db, start_env)] spam_env.

Lemma spam_ok_witness :
  exists s db, spammed = Ok (s, Some (Some 0, db)) /\ is_shutdown false s = true.
Proof.
  assert (Hok : match spammed with Ok (_, Some (Some id, _)) => id =? 0 | _ => false end = true)
    by (vm_compute; reflexivity).
  destruct spammed as [[s [[[id|] db]|]]|e|] eqn:Hs; [|discriminate Hok..].
  apply Z.eqb_eq in Hok as ->.
  destruct (spam_ok no_proof no_engine load_conf args default_campaign_context
    [Some (mock_db, offline_env); Some (mock_db, start_env)] spam_env s (Some 0) db Hs)
    as (_ & _ & Hsd & _).
  exists s, db. split; [reflexivity|exact Hsd].
Defined.
End SpamCommandWitness.
