(* ===== verification/RunsKept.v ===== *)
(** * The recorded runs stay in the database

    What a client of the database relies on for the runs it records
    ([RunLaws], which the abstract store of [DbStore] keeps): a run is read back
    under an id that was free, and no other insertion touches it.  Against this
    the deployments, setups and runs of [Scenario], [Orchestrator],
    [SpamCommand] and [SpamRun] keep every run recorded before them. *)

From Stdlib Require Import Strings.Byte Strings.String.
From S2P Require Import Prelude Text F64 Seeder Alloy Agents Db DbStore GenTypes GenUtil CoreError Templater TestFile Generator TxActor Scenario Deploy Spam SpamRun Orchestrator CliError CliUtil CliArgs SpamCommand.

Section relation.
Context {D : Type} `{DO : DbOps D}.

(** Every run of the one is, with all its fields, in the other. *)
Definition runs_kept (db db' : D) : Prop :=
  forall id r, get_run db id = Ok (Some r) -> get_run db' id = Ok (Some r).

#[export] Instance runs_kept_preorder : PreOrder runs_kept.
Proof. split; [by intros db id r|]. intros d1 d2 d3 H1 H2 id r Hr. by apply H2, H1. Qed.
End relation.

(** ** What is asked of the database *)

Class RunLaws (D : Type) `{DO : DbOps D} : Prop := {
  run_found : forall d req id d', insert_run d req = Ok (id, d') ->
    get_run d' id = Ok (Some (run_of_request id req));
  run_fresh : forall d req id d' r, insert_run d req = Ok (id, d') -> get_run d id <> Ok (Some r);
  run_kept_run : forall d req id d', insert_run d req = Ok (id, d') -> runs_kept d d';
  run_kept_named : forall d txs url h d', insert_named_txs d txs url h = Ok d' -> runs_kept d d';
  run_kept_latency : forall d id l d', insert_latency_metrics d id l = Ok d' -> runs_kept d d';
}.

#[export] Instance store_run_laws : RunLaws Store.
Proof.
  split; cbn [insert_run insert_named_txs insert_latency_metrics get_run store_ops].
  - intros d req id d' [= <- <-]. cbn [st_runs add_run]. unfold with_id, count_of.
    destruct (Z.leb_spec 1 (Z.of_nat (length (st_runs d)) + 1)); [|lia].
    rewrite lookup_app_r by lia.
    by replace (Z.to_nat (Z.of_nat (length (st_runs d)) + 1 - 1) - length (st_runs d))%nat with 0%nat by lia.
  - intros d req id d' r [= <- _]. unfold with_id, count_of.
    destruct (Z.leb_spec 1 (Z.of_nat (length (st_runs d)) + 1)); [|done].
    by rewrite lookup_ge_None_2 by lia.
  - intros d req id d' [= <- <-] i r. cbn [get_run store_ops st_runs add_run]. unfold with_id.
    destruct (Z.leb_spec 1 i); [|done].
    destruct (st_runs d !! Z.to_nat (i - 1)) as [x|] eqn:Hx; [|done].
    by rewrite (lookup_app_l_Some _ _ _ _ Hx).
  - intros d txs url h d' H i r. destruct (know_node (url, h) d) as [id d1] eqn:Hk.
    injection H as <-. cbn [get_run store_ops].
    enough (st_runs (add_named id txs d1) = st_runs d) as -> by done.
    unfold know_node in Hk. destruct (node_id (url, h) d); by injection Hk as _ <-.
  - intros d id l d' H i r. cbn [get_run store_ops].
    enough (st_runs d' = st_runs d) as -> by done.
    unfold for_run in H. destruct (l ≫= _); [by injection H as <-|].
    destruct (with_id id (st_runs d)); [by injection H as <-|done].
Qed.

(** ** Deployments, setups and runs *)

Section keeping.
Context `{A : Alloy, Sg : !Signing} {P : Profile}.
Context {D : Type} `{DO : DbOps D, RL : !RunLaws D}.
Context {Sd : Type} `{SV : SeedValue Sd, SD : Seeder Sd}.

Section scenario.
Context {C : Type} `{PC : PlanConfig C, TS : TemplateSyntax C}.
Variables (config : C) (rand_seed : Sd) (agent_store : AgentStore) (rpc_url : string)
  (genesis_hash : TxHash) (scenario_label : option string) (groth16_proof : nat -> string).

Lemma deploy_contract_runs node (db : D) gp bgp chain_id ty signer req db' :
  deploy_contract rpc_url genesis_hash scenario_label node db gp bgp chain_id ty signer req = Ok db' ->
  runs_kept db db'.
Proof.
  intros H. unfold deploy_contract in H. destruct (nr_name req); inv_outcome; [|done].
  by eapply run_kept_named.
Qed.

Lemma create_step_runs rpc node s gp bgp chain_id st step st' :
  create_step (gen_ctx config rand_seed agent_store rpc_url genesis_hash scenario_label groth16_proof rpc s)
    (on_create (D := D) rpc_url genesis_hash scenario_label node gp bgp chain_id s) st step = Ok st' ->
  runs_kept (ls_db st) (ls_db st').
Proof.
  intros H. unfold create_step in H. inv_outcome.
  repeat match goal with x : (_ * _)%type |- _ => destruct x end. inv_outcome.
  repeat match goal with x : (_ * _)%type |- _ => destruct x end. inv_outcome. cbn [ls_db].
  rename select (on_create _ _ _ _ _ _ _ _ _ _ = Ok _) into Ho. unfold on_create in Ho. inv_outcome.
  rename select (await_now _ = Ok _) into Hw. match type of Hw with _ = Ok ?u => destruct u end.
  rename select (spawn_task _ _ = _) into Ht. apply (spawn_task_ok _ _ _ _ Ht) in Hw.
  by eapply deploy_contract_runs.
Qed.

Lemma deploy_contracts_runs rpc node (db : D) s s' db' :
  deploy_contracts config rand_seed agent_store rpc_url genesis_hash scenario_label groth16_proof
    rpc node db s = (s', Ok db') -> runs_kept db db'.
Proof.
  unfold deploy_contracts. intros H. inv_stm.
  rename select (load_txs _ _ _ = Ok _) into Hl. cbn [load_txs] in Hl. inv_outcome.
  rename select (fold_steps _ _ _ = Ok _) into Hf.
  apply (fold_steps_inv (fun st => runs_kept db (ls_db st))) in Hf; [exact Hf| |done].
  intros st step st1 Hst Hs. etransitivity; [exact Hst|]. by eapply create_step_runs.
Qed.

(** The spammer stores latencies only. *)
Lemma spam_rpc_runs {F : Type} `{CB : SpamCallback F} fuel auth rpc metrics bt
    (triggers : list (SpamTrigger * BatchEnv F)) rate num run_id (db db' : D) s s' sent :
  spam_rpc config rand_seed agent_store rpc_url genesis_hash scenario_label groth16_proof fuel auth
    rpc metrics bt triggers rate num run_id db s = (s', Ok (Some (db', sent))) -> runs_kept db db'.
Proof.
  unfold spam_rpc. intros H. apply stm_bind_ok in H as (? & n & _ & H).
  apply stm_bind_ok in H as (? & s1 & _ & H). apply stm_bind_ok in H as (? & chunks & _ & H).
  apply stm_bind_ok in H as (? & batches & _ & H). destruct (fcu_task _ _ _) as [r|]; [|by inv_stm].
  apply stm_bind_ok in H as (? & u & _ & H). apply stm_bind_ok in H as (? & db1 & Hi & H).
  apply stm_lift_ok in Hi as [-> Hi%map_err_ok]. apply stm_bind_ok in H as (? & u' & _ & H).
  apply stm_ret_ok in H as [_ [= <- _]]. by eapply run_kept_latency.
Qed.
End scenario.

Context `{SG : !SeedGenerator Sd}.
Context {B : Type} `{BO : !BuiltinOps B}.
Variables (groth16_proof : nat -> string) (connect : Connect)
  (load : string -> outcome CliError TestConfig).

Abbreviation TestScn := (TestScenario (C := TestConfig) (Sd := Sd)).

Lemma setup_ended_runs (s s' : TestScn) deploy setup (db db' : D) :
  setup_ended groth16_proof s deploy setup SetupRan db = Ok (s', db') -> runs_kept db db'.
Proof.
  intros Hr. unfold setup_ended in Hr.
  match type of Hr with (let (_, _) := ?m in _) = _ => destruct m as [core [db2|e|]] eqn:H end;
    [|discriminate Hr..]. injection Hr as _ <-.
  apply stm_bind_ok in H as (core1 & db0 & Hd & H). unfold setup_all in H.
  apply run_setup_db in H as ->. by eapply deploy_contracts_runs.
Qed.

Lemma estimate_setup_cost_runs (s : TestScn) (db : D) env cost db' :
  estimate_setup_cost groth16_proof s db env = Some (Ok (cost, db')) -> runs_kept db db'.
Proof.
  intros H. unfold estimate_setup_cost in H. destruct (_ ≫= _) as [endpoint|e|] in H; [|done..].
  destruct (wait_for_anvil_ready _ _) as [ready|]; cbn [mbind option_bind] in H; [|done].
  injection H as H. apply bind_ok in H as (? & _ & H). unfold simulate in H. inv_outcome.
  rename select (snd _ = Ok _) into Hd.
  match type of Hd with (?t).2 = _ => destruct t as [core [db1|e|]] eqn:Hr end; cbn in Hd; [|done..].
  injection Hd as <-. apply stm_bind_ok in Hr as (core1 & db0 & Hdep & Hr).
  apply stm_bind_ok in Hr as (core2 & ? & _ & Hs). unfold setup_all in Hs. apply run_setup_db in Hs as ->.
  by eapply deploy_contracts_runs.
Qed.

(** The initialization, unless the user interrupts its setup. *)
Lemma init_scenario_runs (args : SpamCommandArgs (B := B) (Sd := Sd)) (db : D) env s db' :
  ie_setup_end env = SetupRan -> init_scenario groth16_proof connect load args db env = Some (Ok (s, db')) ->
  runs_kept db db'.
Proof.
  intros Hend H. unfold init_scenario in H.
  destruct (spam_plan connect load args env) as [plan|e|]; [|discriminate H..].
  destruct (fund_agents_of args plan env) as [funded|]; cbn [mbind option_bind] in H;
    [|discriminate H].
  destruct (_ ≫= _) as [s0|e|] in H; [|discriminate H..].
  destruct (if _ && _ then _ else _) as [r|] eqn:Hr in H; cbn [mbind option_bind] in H; [|discriminate H].
  injection H as H. apply bind_ok in H as ([s1 db1] & -> & H).
  apply bind_ok in H as ([] & _ & [= -> ->]).
  destruct (is_builtin _ && _); [|by injection Hr as _ ->].
  unfold builtin_setup in Hr.
  destruct (estimate_setup_cost _ _ _ _) as [rc|] eqn:Hc; cbn [mbind option_bind] in Hr; [|discriminate Hr].
  injection Hr as Hr. apply bind_ok in Hr as ([cost db0] & Hrc & Hr). apply map_err_ok in Hrc as ->.
  apply bind_ok in Hr as ([] & _ & Hr). rewrite Hend in Hr.
  etransitivity; [by eapply estimate_setup_cost_runs|by eapply setup_ended_runs].
Qed.

(** A spammer that keeps the runs, as [spam_rpc] does; none is interrupted. *)
Definition event_keeps (event : LoopEvent (D := D)) : Prop :=
  match event with
  | RunEnds spam_rpc => forall rate d run_id db core core' db' sent,
      spam_rpc rate d run_id db core = (core', Ok (Some (db', sent))) -> runs_kept db db'
  | CtrlC _ _ => False
  end.

Lemma spam_loop_runs forever rate d run_id events (db : D) (s s' : TestScn) db' :
  Forall event_keeps events ->
  spam_loop forever rate d run_id events db s = (s', Ok (Some db')) -> runs_kept db db'.
Proof.
  intros Hev. revert db s. induction Hev as [|event events He _ IH]; intros db s H;
    cbn -[run_event] in H; [discriminate H|].
  apply stm_bind_ok in H as (s1 & [db1|] & Hr & H); [|discriminate H].
  assert (H1 : runs_kept db db1).
  { destruct event as [f|]; [|done]. cbn in Hr.
    destruct (f rate d run_id db (ts_core s)) as [core [[[db2 sent]|]|e|]] eqn:Hf; cbn in Hr; try done.
    injection Hr as _ ->. by eapply He. }
  apply stm_bind_ok in H as (s2 & over & Ho & H). apply stm_gets_ok in Ho as [-> ->].
  etransitivity; [exact H1|]. destruct (negb forever || _).
  - by apply stm_ret_ok in H as [_ [= ->]].
  - by eapply IH.
Qed.

End keeping.
