(* ===== verification/Setup.v ===== *)
(** * The setup command ([cli/src/commands/setup.rs])

    [setup] checks that the user's own accounts are rich enough, funds the
    agents of the deployment and setup steps, estimates the cost on a local
    node, then deploys the contracts and runs the setup steps while a task may
    advance the chain.  The waits are those of [SpamCommand]; a result [None] is a
    command that does not return. *)

From Stdlib Require Import Strings.Byte Strings.String.
From S2P Require Import Prelude Text F64 Seeder Alloy Agents Db DbStore GenTypes GenUtil CoreError Templater TestFile Generator TxActor Scenario Deploy Spam SpamRun Orchestrator CliError CliUtil CliArgs SpamCommand.

Section setup_command.
Context {B : Type} `{BO : !BuiltinOps B}.
Context `{A : Alloy, Sg : !Signing} {P : Profile}.
Context {D : Type} `{DO : DbOps D}.
Context {Sd : Type} `{SV : SeedValue Sd, SD : Seeder Sd, SG : !SeedGenerator Sd}.
Variables (groth16_proof : nat -> string) (connect : Connect)
  (load : string -> outcome CliError TestConfig).

Record SetupCommandArgs := {
  su_scenario : SpamScenario (B := B);
  su_args : SendTxsCliArgsInner;
  su_seed : Sd;
}.
Definition SetupCommandArgs_new (seedfile : outcome CliError string) (scenario : SpamScenario)
    (cli_args : SendTxsCliArgsInner) : outcome CliError SetupCommandArgs :=
  seed ← seed_of_args seedfile cli_args;
  mret {| su_scenario := scenario; su_args := cli_args; su_seed := seed |}.

(** No accounts for spam. *)
Definition setup_agent_spec (accounts_per_agent : nat) : AgentSpec :=
  with_spam_accounts
    (with_setup_accounts (with_create_accounts default_agent_spec accounts_per_agent) accounts_per_agent) 0.

Record SetupEnv := {
  se_balance : Address -> outcome RpcError Z;
  se_fund : FundEnv;
  se_new : NewNode;
  se_sim : SimEnv;
  se_block_number : outcome Error Z;
  se_block : Z -> outcome Error (option Z);
  se_deploy : RpcNode * TaskRpc;
  se_setup : RpcNode * TaskRpc;
  se_end : SetupEnd (D := D);
}.

(** Everything up to the funding. *)
Record SetupPlan := {
  sp_testconfig : TestConfig;
  sp_signers : list Signer;
  sp_engine : EngineParams;
  sp_agents : AgentStore;
}.
Definition setup_spec (args : SetupCommandArgs) : AgentSpec :=
  setup_agent_spec (Z.to_nat (accounts_per_agent_or 1 (su_args args))).
Definition setup_plan (args : SetupCommandArgs) (env : SetupEnv) : outcome CliError SetupPlan :=
  let a := su_args args in
  engine ← engine_params connect (ta_auth_args a) (ta_call_forkchoice a);
  user_signers_with_defaults ← user_signers_with_defaults a;
  testconfig ← args_testconfig a (scenario_testconfig load (su_scenario args));
  let testconfig := with_cli_env (ta_env a) testconfig in
  check_private_keys testconfig user_signers_with_defaults;;
  own ← user_signers a;
  broke_accounts ← map_err Util
    (find_insufficient_balances (signer_address <$> own) (ta_min_balance a) (se_balance env));
  ensure (length broke_accounts =? 0)%nat (Setup (SetupError.InsufficientFunds broke_accounts));;
  agents ← map_err Core (config_agent_store testconfig (su_seed args) (setup_spec args));
  mret {| sp_testconfig := testconfig; sp_signers := user_signers_with_defaults;
          sp_engine := engine; sp_agents := agents |}.

(** The agents are topped up unless one account sends all. *)
Definition setup_funding (args : SetupCommandArgs) (plan : SetupPlan) (env : SetupEnv)
  : option (outcome CliError unit) :=
  let a := su_args args in
  match primary_signer a with
  | Ok admin_signer =>
      if ta_override_senders a then Some (Ok tt)
      else fund_accounts (all_signer_addresses (sp_agents plan)) admin_signer (ta_min_balance a)
             (tx_type_of (ta_tx_type a)) (sp_engine plan) (se_fund env)
  | Err e => Some (Err e)
  | Panic => Some Panic
  end.

Definition setup_params (args : SetupCommandArgs) (plan : SetupPlan) : TestScenarioParams :=
  let a := su_args args in {|
  tp_rpc_url := ta_rpc_url a; tp_builder_rpc_url := None; tp_txs_rpc_url := ta_txs_url a;
  tp_signers := sp_signers plan; tp_agent_spec := setup_spec args;
  tp_tx_type := tx_type_of (ta_tx_type a); tp_pending_tx_timeout := 12;
  tp_bundle_type := bundle_type_of (ta_bundle_type a); tp_extra_msg_handles := None;
  tp_sync_nonces_after_batch := true; tp_rpc_batch_size := 0; tp_gas_price := None;
  tp_scenario_label := ta_scenario_label a; tp_send_raw_tx_sync := false;
  tp_flashblocks_ws_url := None |}.

Definition setup (args : SetupCommandArgs) (db : D) (env : SetupEnv) : option (outcome CliError D) :=
  let min_balance := ta_min_balance (su_args args) in
  match setup_plan args env with
  | Ok plan =>
      funded ← setup_funding args plan env;
      match funded;;
            map_err Core (TestScenario_new (sp_testconfig plan) (su_seed args)
                            (setup_params args plan) (se_new env)) with
      | Ok s =>
          r ← estimate_setup_cost groth16_proof s db (se_sim env);
          Some ('(total_cost, db) ← map_err Core r;
                ensure (total_cost <=? min_balance)
                  (Args (ArgsError.MinBalanceInsufficient min_balance total_cost));;
                map_err Core (get_block_time (se_block_number env) (se_block env));;
                '(_, db) ← setup_ended groth16_proof s (se_deploy env) (se_setup env) (se_end env) db;
                mret db)
      | Err e => Some (Err e)
      | Panic => Some Panic
      end
  | Err e => Some (Err e)
  | Panic => Some Panic
  end.

(** ** What a setup leaves *)

Lemma TestScenario_new_fields (config : TestConfig) (seed : Sd) params node s :
  TestScenario_new config seed params node = Ok s ->
  ts_config s = config /\ ts_rpc_url s = tp_rpc_url params /\
  ts_scenario_label s = tp_scenario_label params /\ nn_genesis node = Ok (Some (ts_genesis_hash s)).
Proof.
  unfold TestScenario_new. intros H. repeat (inv_outcome; try case_match; simplify_eq); done.
Qed.

Lemma setup_plan_ok args env plan :
  setup_plan args env = Ok plan ->
  let a := su_args args in
  exists testconfig own, args_testconfig a (scenario_testconfig load (su_scenario args)) = Ok testconfig /\
    sp_testconfig plan = with_cli_env (ta_env a) testconfig /\
    user_signers (E := CliError) a = Ok own /\
    forall s b, s ∈ own -> se_balance env (signer_address s) = Ok b -> ta_min_balance a <= b.
Proof.
  unfold setup_plan. intros H. inv_outcome. cbn [sp_testconfig].
  rename select (find_insufficient_balances _ _ _ = Ok _) into Hf.
  rename select ((length _ =? 0)%nat = true) into Hz.
  apply Nat.eqb_eq, nil_length_inv in Hz as ->.
  eexists _, _. split_and!; [eassumption|done|eassumption|].
  intros s b Hs Hb. apply find_insufficient_spec in Hf as (_ & Hf & _).
  destruct (Z.le_gt_cases (ta_min_balance (su_args args)) b) as [|Hlt]; [done|exfalso].
  eapply not_elem_of_nil, Hf; [|exact Hb|exact Hlt]. by apply list_elem_of_fmap_2.
Qed.

Context {NL : NamedTxLaws D}.

Lemma setup_ended_deployed s deploy setup_node db s' db' :
  (forall e r, tk_send deploy.2 e = Ok r -> tr_contract_address r <> None) ->
  setup_ended groth16_proof s deploy setup_node SetupRan db = Ok (s', db') ->
  exists steps, get_create_steps (ts_config s) = Ok steps /\
    Forall (fun step => deployed (ts_rpc_url s) (ts_genesis_hash s) (ts_scenario_label s) deploy.2 db'
              (cc_name (cd_contract step))) steps /\
    forall name url h, known db name url h -> known db' name url h.
Proof.
  intros Hnode H. cbn [setup_ended] in H.
  match type of H with context [match ?t with _ => _ end] =>
    destruct t as [core [db1|e|]] eqn:Hr; [|done..] end. injection H as _ <-.
  apply stm_bind_ok in Hr as (core1 & db0 & Hd & Hs).
  unfold setup_all in Hs. apply run_setup_db in Hs as ->.
  unfold deploy_all in Hd. by eapply deploy_contracts_deployed in Hd as (steps & ? & ? & _ & ?); [exists steps|].
Qed.

(** What the stages of a setup that was not interrupted did. *)
Lemma setup_stages args db env db' :
  setup args db env = Some (Ok db') -> se_end env = SetupRan ->
  exists plan s s' cost db1,
    setup_plan args env = Ok plan /\ setup_funding args plan env = Some (Ok tt) /\
    TestScenario_new (sp_testconfig plan) (su_seed args) (setup_params args plan) (se_new env) = Ok s /\
    estimate_setup_cost groth16_proof s db (se_sim env) = Some (Ok (cost, db1)) /\
    setup_ended groth16_proof s (se_deploy env) (se_setup env) SetupRan db1 = Ok (s', db').
Proof.
  intros H Hend. unfold setup in H. destruct (setup_plan args env) as [plan|e|]; [|done..].
  destruct (setup_funding args plan env) as [funded|] eqn:Hf; cbn [mbind option_bind] in H; [|done].
  destruct (_ ≫= _) as [s|e|] eqn:Hs in H; [|done..].
  apply bind_ok in Hs as ([] & -> & Hs%map_err_ok).
  destruct (estimate_setup_cost _ _ _ _) as [r|] eqn:Hr; cbn [mbind option_bind] in H; [|done].
  injection H as H. rewrite Hend in H. apply bind_ok in H as ([cost db1] & ->%map_err_ok & H).
  apply bind_ok in H as ([] & _ & H). apply bind_ok in H as (bt & _ & H).
  apply bind_ok in H as ([s' db2] & He & [= ->]). by exists plan, s, s', cost, db1.
Qed.

(** The simulation deploys on the local node and leaves what the database knew. *)
Lemma estimate_setup_cost_known s (db : D) env cost db' :
  (forall e r, tk_send (sv_deploy env).2 e = Ok r -> tr_contract_address r <> None) ->
  estimate_setup_cost groth16_proof s db env = Some (Ok (cost, db')) ->
  forall name url h, known db name url h -> known db' name url h.
Proof.
  intros Hnode H. unfold estimate_setup_cost in H. destruct (_ ≫= _) as [endpoint|e|] in H; [|done..].
  destruct (wait_for_anvil_ready _ _) as [ready|]; cbn [mbind option_bind] in H; [|done].
  injection H as H. apply bind_ok in H as (? & _ & H). unfold simulate in H. inv_outcome.
  rename select (snd _ = Ok _) into Hd.
  match type of Hd with (?t).2 = _ => destruct t as [core [db1|e|]] eqn:Hr end; cbn in Hd; [|done..].
  injection Hd as <-. apply stm_bind_ok in Hr as (core1 & db0 & Hdep & Hr).
  apply stm_bind_ok in Hr as (core2 & ? & _ & Hs). unfold setup_all in Hs. apply run_setup_db in Hs as ->.
  unfold deploy_all in Hdep. by eapply deploy_contracts_deployed in Hdep as (steps & _ & _ & _ & ?).
Qed.

(** A setup leaves what the database knew, and every contract of its scenario
    known. *)
Lemma setup_known args db env db' :
  (forall e r, tk_send (se_deploy env).2 e = Ok r -> tr_contract_address r <> None) ->
  (forall e r, tk_send (sv_deploy (se_sim env)).2 e = Ok r -> tr_contract_address r <> None) ->
  setup args db env = Some (Ok db') -> se_end env = SetupRan ->
  (forall name url h, known db name url h -> known db' name url h) /\
  exists testconfig steps genesis_hash,
    args_testconfig (su_args args) (scenario_testconfig load (su_scenario args)) = Ok testconfig /\
    nn_genesis (se_new env) = Ok (Some genesis_hash) /\
    get_create_steps (with_cli_env (ta_env (su_args args)) testconfig) = Ok steps /\
    Forall (fun step => known db' (scenario_db_key (cc_name (cd_contract step))
      (ta_scenario_label (su_args args))) (ta_rpc_url (su_args args)) genesis_hash) steps.
Proof.
  intros Hnode Hsim H Hend. apply setup_stages in H as (plan & s & s' & cost & db1 & Hp & _ & Hs & Hc & He); [|done].
  pose proof (estimate_setup_cost_known _ _ _ _ _ Hsim Hc) as Hk.
  apply setup_ended_deployed in He as (steps & Hsteps & Hall & Hkept); [|done]. split; [by auto|].
  destruct (TestScenario_new_fields _ _ _ _ _ Hs) as (Hsc & Hsu & Hsl & Hgen).
  destruct (setup_plan_ok _ _ _ Hp) as (testconfig & own & Hcfg & Hwith & _).
  rewrite Hsc, Hwith in Hsteps. rewrite Hsu, Hsl in Hall.
  exists testconfig, steps, (ts_genesis_hash s). split_and!; [done..|].
  eapply Forall_impl; [exact Hall|]. intros step Hd. apply deployed_known in Hd; exact Hd.
Qed.

(** C33: When a setup succeeds that was not interrupted, the user's own accounts
    had the minimum balance and the agents were funded, unless one account sends
    everything; and from then on every contract of the scenario is found: on the
    same node and under the same label, a placeholder with its name resolves to
    the address of a contract whose code is on the chain. *)
Theorem setup_ready args db env db' :
  (forall e r, tk_send (se_deploy env).2 e = Ok r -> tr_contract_address r <> None) ->
  setup args db env = Some (Ok db') -> se_end env = SetupRan ->
  let a := su_args args in
  exists testconfig own genesis_hash steps,
    args_testconfig a (scenario_testconfig load (su_scenario args)) = Ok testconfig /\
    user_signers (E := CliError) a = Ok own /\
    (forall s b, s ∈ own -> se_balance env (signer_address s) = Ok b -> ta_min_balance a <= b) /\
    (ta_override_senders a = false -> exists plan funder,
       setup_plan args env = Ok plan /\ primary_signer (E := CliError) a = Ok funder /\
       fund_accounts (all_signer_addresses (sp_agents plan)) funder (ta_min_balance a)
         (tx_type_of (ta_tx_type a)) (sp_engine plan) (se_fund env) = Some (Ok tt)) /\
    nn_genesis (se_new env) = Ok (Some genesis_hash) /\
    get_create_steps (with_cli_env (ta_env a) testconfig) = Ok steps /\
    Forall (fun step =>
      let name := cc_name (cd_contract step) in
      forall m, name <> SENDER_KEY -> name <> SETCODE_KEY -> m !! name = None ->
      exists address, code_visible (tk_code_polls (se_deploy env).2 address) = true /\
        resolve_key (node_env (ta_rpc_url a) genesis_hash (ta_scenario_label a) db') name m =
          Ok (<[name := address_encode_hex address]> m)) steps.
Proof.
  intros Hnode H Hend a. apply setup_stages in H as (plan & s & s' & cost & db1 & Hplan & Hf & Hs & _ & He); [|done].
  destruct (setup_plan_ok _ _ _ Hplan) as (testconfig & own & Hc & Hcfg & Hown & Hrich). fold a in Hc, Hcfg, Hown, Hrich.
  destruct (TestScenario_new_fields _ _ _ _ _ Hs) as (Hsc & Hsu & Hsl & Hgen).
  apply setup_ended_deployed in He as (steps & Hsteps & Hall & _); [|done].
  rewrite Hsc, Hcfg in Hsteps. rewrite Hsu, Hsl in Hall.
  exists testconfig, own, (ts_genesis_hash s), steps. split_and!; [done..| |done|done|].
  - intros Ho. unfold setup_funding in Hf. fold a in Hf. rewrite Ho in Hf.
    destruct (primary_signer a) as [funder|e|]; [|done..]. by exists plan, funder.
  - eapply Forall_impl; [exact Hall|]. intros step Hd name m H1 H2 Hm. by eapply deployed_resolves.
Qed.
End setup_command.

(** ** A contract deployed, then called *)

Module SetupWitness.
Export SpamCommandWitness.

Definition token_conf : TestConfig := {|
  tc_env := None; tc_create := Some [CreateDefinition_new (CompiledContract_new "00" "token")];
  tc_setup := Some [FunctionCallDefinition_new "0x{token}"];
  tc_spam := Some [Tx (FunctionCallDefinition_new "0x{token}")] |}.
Definition load_token : string -> outcome CliError TestConfig := fun _ => Ok token_conf.
Definition setup_args : SetupCommandArgs (B := False) (Sd := CountSeed) :=
  {| su_scenario := Testfile "file"; su_args := send_args; su_seed := {| count := 5 |} |}.
Definition creating_node : TaskRpc := {|
  tk_gas_price := Ok 1000; tk_estimate_gas _ := Ok 21000;
  tk_send e := Ok {| tr_hash := envelope_hash e; tr_status := true; tr_contract_address := Some 4660 |};
  tk_code_polls a := if a =? 4660 then [Err (Rpc "busy"); Ok [x01]] else [] |}.
Definition creating : RpcNode * TaskRpc := (nn_rpc create_node, creating_node).
Definition token_sim : SimEnv := {|
  sv_gas_price := Ok 1000; sv_anvil := Ok "anvil"%string; sv_polls := [(0, Err tt); (600, Ok tt)];
  sv_new := create_node; sv_balance_before _ := Ok 0; sv_fund := funds;
  sv_deploy := creating; sv_sync := nn_rpc create_node; sv_setup := creating; sv_cancelled := false;
  sv_balance_after _ := Ok (1000 * ETH_TO_WEI - 30) |}.
Definition token_env : SetupEnv (D := Store) := {|
  se_balance _ := Ok (2 ^ 200); se_fund := fund_env; se_new := create_node; se_sim := token_sim;
  se_block_number := Ok 0; se_block _ := Ok None; se_deploy := creating; se_setup := creating;
  se_end := SetupRan |}.
Definition token_setup := setup no_proof no_engine load_token setup_args empty_store token_env.

Lemma setup_ready_witness :
  exists db', token_setup = Some (Ok db') /\
    resolve_key (node_env "http" 77 None db') "token" ∅ =
      Ok {[ "token"%string := "0000000000000000000000000000000000001234"%string ]}.
Proof.
  assert (Hok : match token_setup with Some (Ok _) => true | _ => false end = true)
    by (vm_compute; reflexivity).
  destruct token_setup as [[db'|e|]|] eqn:Hs; [|discriminate Hok..].
  destruct (setup_ready no_proof no_engine load_token setup_args empty_store token_env db')
    as (testconfig & own & gh & steps & Hc & _ & _ & _ & Hg & Hsteps & Hall);
    [by intros e r [= <-]|exact Hs|reflexivity|].
  injection Hg as <-. injection Hc as <-. injection Hsteps as <-.
  apply Forall_inv in Hall. destruct (Hall ∅) as (a & Ha & Hr); [done..|].
  exists db'. split; [reflexivity|].
  assert (a = 4660) as ->.
  { destruct (Z.eqb_spec a 4660) as [|Hne]; [done|]. cbn in Ha.
    apply Z.eqb_neq in Hne. by rewrite Hne in Ha. }
  exact Hr.
Defined.
End SetupWitness.
