(* ===== verification/Admin.v ===== *)
(** * The admin commands ([cli/src/commands/admin.rs])

    What is derived from the seed file (accounts, the set-code signer), lookups
    in the database, and [reclaim-eth], which sends what the generated accounts
    hold to a recipient. *)

From Stdlib Require Import Strings.Byte Strings.Ascii Strings.String.
From S2P Require Import Prelude Text F64 Seeder Alloy Agents Db DbStore GenTypes GenUtil CoreError Templater TestFile Generator TxActor Scenario Spam SpamRun Orchestrator CliError CliUtil CliArgs SpamCommand.

Inductive AdminCommand :=
| Accounts (from_pool : string) (num_signers : nat)
| LatestRunId
| SeedContents
| SetCodeSigner
| ReclaimEth (recipient : Address) (rpc : option string) (from_pool : list string) (num_signers : nat)
    (scenario_file : option string)
| ContractAddress (rpc_url contract_name : string).

(** [Path::file_stem] with [to_str]: the last component without what follows its
    last dot, if that is not all of it. *)
Definition last_dot (name : string) : option nat :=
  (fun i => (String.length name - 1 - i)%nat) <$> find_char (Ascii.eqb ".") (str_rev name).
Definition file_stem (path : string) : option string :=
  let parts := filter (fun c => negb (String.eqb c "" || String.eqb c ".") = true) (split_char "/" path) in
  name ← last parts;
  if String.eqb name ".." then None
  else match last_dot name with
       | Some (S i) => Some (str_take (S i) name)
       | _ => Some name
       end.

Definition DEFAULT_RPC_URL : string := "http://localhost:8545".

(** The pools a scenario names, and the defaults. *)
Definition scenario_pools (config : TestConfig) : gset string :=
  {[ "admin"; "spammers" ]}%string ∪
  list_to_set (omap cd_from_pool (default [] (tc_create config)) ++
               omap fc_from_pool (default [] (tc_setup config)) ++
               omap fc_from_pool (default [] (tc_spam config) ≫= step_calls)).

Section admin.
Context `{A : Alloy, Sg : !Signing} {P : Profile}.
Context {D : Type} `{DO : DbOps D}.
Context {Sd : Type} `{SV : SeedValue Sd, SD : Seeder Sd, SG : !SeedGenerator Sd}.
Variables (hex_decode : string -> option (list byte)) (load : string -> outcome CliError TestConfig)
  (parse_url : string -> outcome string unit).

(** What a command prints. *)
Inductive AdminOutput :=
| PrintedAccounts (accounts : list (Address * Signer))
| PrintedNumber (n : Z)
| PrintedBytes (bytes : list byte)
| PrintedKey (address : Address) (key : list byte)
| Reclaimed (total : Z) (accounts : Z)
| PrintedAddress (a : Address).

(** The seed file, [None] when it cannot be read. *)
Definition read_seed_file (seed_path : string) (file : option string) : outcome CliError (list byte) :=
  seed_hex ← ok_or (Admin (AdminError.SeedFileDoesNotExist seed_path)) file;
  decoded ← ok_or (Admin (AdminError.SeedFileInvalid seed_path)) (hex_decode (trim seed_hex));
  ensure (negb (length decoded =? 0)%nat) (Admin (AdminError.SeedFileEmpty seed_path));;
  mret decoded.

(** The class of the accounts does not matter here. *)
Definition pool_accounts (num_signers : nat) (seed_bytes : list byte) (pool : string)
  : outcome CliError SignerStore :=
  map_err Core (SignerStore_new num_signers (seed_from_bytes (S := Sd) seed_bytes) pool Spammer).

(** ** Reclaiming *)

(** What the node answers while an account is looked at. *)
Record ReclaimNode := {
  rn_balance : Address -> outcome RpcError Z;
  rn_gas_price : Address -> outcome RpcError Z;
  rn_nonce : Address -> outcome RpcError Z;
  rn_chain_id : Address -> outcome RpcError Z;
  rn_send : Envelope -> outcome RpcError TxHash;
}.
Variable node : ReclaimNode.

Definition reclaim_request (from recipient : Address) (amount nonce gas_price chain_id : Z)
  : TransactionRequest := {|
  tx_from := Some from; tx_to := Some (Call recipient); tx_value := Some amount; tx_input := [];
  tx_nonce := Some nonce; tx_gas := Some 21000; tx_gas_price := Some gas_price;
  tx_max_fee_per_gas := None; tx_max_priority_fee_per_gas := None;
  tx_max_fee_per_blob_gas := None; tx_chain_id := Some chain_id;
  tx_transaction_type := None; tx_sidecar := None; tx_authorization_list := None |}.

(** The state is the list of the transactions sent; the totals are given on.
    (There are fewer than [2 ^ 31] accounts.) *)
Abbreviation sending := (stm (list TransactionRequest) CliError) (only parsing).
Definition reclaim_account (recipient : Address) (acc : Z * Z) (signer : Signer) : sending (Z * Z) :=
  let address := signer_address signer in
  let ask {T} (m : outcome RpcError T) : sending T := lift (map_err CliRpc m) in
  balance ← ask (rn_balance node address);
  if balance =? 0 then mret acc
  else
    gas_price ← ask (rn_gas_price node address);
    let gas_cost := wrap 256 (gas_price * 21000) in
    if balance <=? gas_cost then mret acc
    else
      let transfer_amount := balance - gas_cost in
      nonce ← ask (rn_nonce node address);
      chain_id ← ask (rn_chain_id node address);
      let tx_req := reclaim_request address recipient transfer_amount nonce gas_price chain_id in
      signed_tx ← lift (map_err (fun e => Util (UtilError.BuildTxFailed e)) (tx_build tx_req signer));
      ask (rn_send node signed_tx);;
      modify (fun sent => sent ++ [tx_req]);;
      mret (wrap 256 (acc.1 + transfer_amount), acc.2 + 1).
Fixpoint reclaim_signers (recipient : Address) (acc : Z * Z) (l : list Signer) : sending (Z * Z) :=
  match l with
  | [] => mret acc
  | signer :: l => acc ← reclaim_account recipient acc signer; reclaim_signers recipient acc l
  end.
Fixpoint reclaim_pools (recipient : Address) (num_accounts : nat) (seed_bytes : list byte)
    (acc : Z * Z) (pools : list string) : sending (Z * Z) :=
  match pools with
  | [] => mret acc
  | pool :: pools =>
      store ← lift (pool_accounts num_accounts seed_bytes pool);
      acc ← reclaim_signers recipient acc (signers store);
      reclaim_pools recipient num_accounts seed_bytes acc pools
  end.

(** The node to ask and the pools to empty; the pools of a scenario come in no
    particular order. *)
Definition reclaim_rpc_url (rpc : option string) (scenario_path : string) (db : D)
  : outcome CliError string :=
  match rpc with
  | Some rpc => mret rpc
  | None =>
      u ← db_call (get_rpc_url_for_scenario db (default "unknown"%string (file_stem scenario_path)));
      mret (default DEFAULT_RPC_URL u)
  end.
Definition reclaim_target (rpc : option string) (from_pool : list string)
    (scenario_file : option string) (db : D) : outcome CliError (string * list string) :=
  match scenario_file with
  | Some scenario_path =>
      config ← load scenario_path;
      let pools := match from_pool with [] => elements (scenario_pools config) | _ => from_pool end in
      rpc_url ← reclaim_rpc_url rpc scenario_path db;
      mret (rpc_url, pools)
  | None =>
      mret (default DEFAULT_RPC_URL rpc,
            match from_pool with [] => ["spammers"%string] | _ => from_pool end)
  end.
Definition handle_reclaim_eth (recipient : Address) (rpc : option string) (from_pool : list string)
    (num_accounts : nat) (scenario_file : option string) (seed_path : string) (file : option string)
    (db : D) : sending (Z * Z) :=
  '(rpc_url, agent_pools) ← lift (reclaim_target rpc from_pool scenario_file db);
  lift (map_err (fun e => Args (ArgsError.UrlParse e)) (parse_url rpc_url));;
  seed_bytes ← lift (read_seed_file seed_path file);
  reclaim_pools recipient num_accounts seed_bytes (0, 0) agent_pools.

(** ** The other commands *)

(** The genesis block's hash, [None] when the node has no such block. *)
Definition handle_contract_address (contract_name rpc_url : string)
    (genesis : outcome RpcError (option TxHash)) (db : D) : outcome CliError Address :=
  genesis_block ← map_err CliRpc genesis;
  genesis_hash ← ok_or (Admin (AdminError.GenesisBlockMissing rpc_url)) genesis_block;
  named ← db_call (get_named_tx db contract_name rpc_url genesis_hash);
  named_tx ← ok_or (Admin (AdminError.ContractNotFound contract_name)) named;
  ok_or (Admin (AdminError.ContractAddressMissing contract_name)) (nt_address named_tx).

(** Asking for a confirmation: reading a line fails or does not. *)
Definition confirm_sensitive_operation (line : outcome string unit) : outcome CliError unit :=
  map_err (fun e => Admin (AdminError.Readline e)) line.

Definition handle_admin_command (command : AdminCommand) (seed_path : string) (file : option string)
    (line : outcome string unit) (genesis : outcome RpcError (option TxHash)) (db : D)
  : sending AdminOutput :=
  match command with
  | Accounts from_pool num_signers =>
      lift (seed_bytes ← read_seed_file seed_path file;
            agent ← pool_accounts num_signers seed_bytes from_pool;
            mret (PrintedAccounts ((fun s => (signer_address s, s)) <$> signers agent)))
  | LatestRunId => lift (n ← db_call (num_runs db); mret (PrintedNumber n))
  | SeedContents =>
      lift (confirm_sensitive_operation line;;
            seed_bytes ← read_seed_file seed_path file;
            mret (PrintedBytes seed_bytes))
  | SetCodeSigner =>
      lift (confirm_sensitive_operation line;;
            seed_bytes ← read_seed_file seed_path file;
            '(signer, key) ← generate_setcode_signer (seed_from_bytes (S := Sd) seed_bytes);
            mret (PrintedKey (signer_address signer) key))
  | ReclaimEth recipient rpc from_pool num_signers scenario_file =>
      r ← handle_reclaim_eth recipient rpc from_pool num_signers scenario_file seed_path file db;
      mret (Reclaimed r.1 r.2)
  | ContractAddress rpc_url contract_name =>
      lift (a ← handle_contract_address contract_name rpc_url genesis db; mret (PrintedAddress a))
  end.

(** ** What reclaiming leaves *)

(** What is made of an account: nothing when it cannot pay for a transfer,
    otherwise one that takes all that is left when it is paid. *)
Definition account_spec (recipient : Address) (s : Signer) (o : option TransactionRequest) : Prop :=
  exists b, rn_balance node (signer_address s) = Ok b /\
    match o with
    | None => b = 0 \/ exists g, rn_gas_price node (signer_address s) = Ok g /\ b <= 21000 * g
    | Some req => exists g n c, rn_gas_price node (signer_address s) = Ok g /\ 21000 * g < b /\
        req = reclaim_request (signer_address s) recipient (b - 21000 * g) n g c
    end.
Definition values (sent : list TransactionRequest) : Z := sumZ (default 0 ∘ tx_value <$> sent).

Hypothesis prices : forall a g, rn_gas_price node a = Ok g -> 0 <= g < 2 ^ 128.

(** The totals after an account, from those before. *)
Lemma reclaim_account_ok recipient x n s sent sent' acc' :
  reclaim_account recipient (wrap 256 x, n) s sent = (sent', Ok acc') ->
  exists o, account_spec recipient s o /\ sent' = sent ++ option_list o /\
    acc' = (wrap 256 (x + values (option_list o)), n + count_of (option_list o)).
Proof.
  unfold reclaim_account. intros H. apply stm_bind_ok in H as (s1 & b & Hb & H).
  apply stm_lift_ok in Hb as [-> Hb%map_err_ok]. destruct (Z.eqb_spec b 0) as [->|Hne].
  { apply stm_ret_ok in H as [-> ->]. exists None. split; [by exists 0; split; [|left]|].
    cbn. by rewrite app_nil_r, !Z.add_0_r. }
  apply stm_bind_ok in H as (s1 & g & Hg & H). apply stm_lift_ok in Hg as [-> Hg%map_err_ok].
  rewrite (wrap_small 256 (g * 21000)) in H by (apply prices in Hg; lia).
  destruct (Z.leb_spec b (g * 21000)) as [Hle|Hgt].
  { apply stm_ret_ok in H as [-> ->]. exists None. split.
    - exists b. split; [done|]. right. exists g. split; [done|lia].
    - cbn. by rewrite app_nil_r, !Z.add_0_r. }
  inv_stm. eexists (Some (reclaim_request (signer_address s) recipient (b - g * 21000) _ g _)). split_and!.
  - exists b. split; [done|]. eexists g, _, _. split_and!; [done|lia|]. by rewrite (Z.mul_comm 21000 g).
  - reflexivity.
  - cbn. f_equal. unfold values, wrap. cbn. rewrite Zplus_mod_idemp_l. do 2 f_equal. lia.
Qed.

Lemma values_app l k : values (l ++ k) = values l + values k.
Proof. unfold values. by rewrite fmap_app, sumZ_app. Qed.

Lemma reclaim_signers_ok recipient x n l sent sent' acc' :
  reclaim_signers recipient (wrap 256 x, n) l sent = (sent', Ok acc') ->
  exists outs, Forall2 (account_spec recipient) l outs /\ sent' = sent ++ omap id outs /\
    acc' = (wrap 256 (x + values (omap id outs)), n + count_of (omap id outs)).
Proof.
  revert x n sent. induction l as [|s l IH]; intros x n sent H; cbn [reclaim_signers] in H.
  { apply stm_ret_ok in H as [-> ->]. exists []. cbn. rewrite app_nil_r, !Z.add_0_r. by split. }
  apply stm_bind_ok in H as (s1 & acc & Ha & H). apply reclaim_account_ok in Ha as (o & Ho & -> & ->).
  apply IH in H as (outs & Hall & -> & ->). exists (o :: outs).
  assert (He : omap id (o :: outs) = option_list o ++ omap id outs) by by destruct o.
  rewrite He, values_app. unfold count_of. rewrite length_app, <- app_assoc. split_and!; [by constructor|done|].
  f_equal; [f_equal|]; lia.
Qed.

Lemma reclaim_pools_ok recipient num bytes x n pools sent sent' acc' :
  reclaim_pools recipient num bytes (wrap 256 x, n) pools sent = (sent', Ok acc') ->
  exists stores outs, Forall2 (fun p st => pool_accounts num bytes p = Ok st) pools stores /\
    Forall2 (account_spec recipient) (stores ≫= signers) outs /\ sent' = sent ++ omap id outs /\
    acc' = (wrap 256 (x + values (omap id outs)), n + count_of (omap id outs)).
Proof.
  revert x n sent. induction pools as [|p pools IH]; intros x n sent H; cbn [reclaim_pools] in H.
  { apply stm_ret_ok in H as [-> ->]. exists [], []. cbn. rewrite app_nil_r, !Z.add_0_r. by repeat split. }
  apply stm_bind_ok in H as (s1 & st & Hs & H). apply stm_lift_ok in Hs as [-> Hs].
  apply stm_bind_ok in H as (s1 & acc & Ha & H). apply reclaim_signers_ok in Ha as (outs & Ho & -> & ->).
  apply IH in H as (stores & outs' & Hst & Hall & -> & ->). exists (st :: stores), (outs ++ outs').
  rewrite omap_app, values_app, app_assoc. unfold count_of. rewrite length_app. split_and!.
  - by constructor.
  - change ((st :: stores) ≫= signers) with (signers st ++ (stores ≫= signers)). by apply Forall2_app.
  - done.
  - f_equal; [f_equal|]; lia.
Qed.

(** ** The accounts of a scenario *)

Lemma scenario_pools_named config name :
  name ∈ get_create_pools config \/ name ∈ get_setup_pools config \/
  (exists pools, get_spam_pools (E := Error) config = Ok pools /\ name ∈ pools) ->
  name ∈ scenario_pools config.
Proof.
  assert (Hdef : forall p f, fc_from_pool (default_call_pool p f) = fc_from_pool f \/
      fc_from_pool (default_call_pool p f) = Some p).
  { intros p f. unfold default_call_pool. repeat case_match; auto. }
  assert (Hcall : forall p l, name ∈ omap fc_from_pool (map (default_call_pool p) l) ->
      name = p \/ name ∈ omap fc_from_pool l).
  { intros p l (f' & Hf & Hn)%list_elem_of_omap. apply list_elem_of_fmap in Hf as (f & -> & Hf).
    destruct (Hdef p f) as [He|He]; rewrite He in Hn; [right|left; congruence].
    apply list_elem_of_omap. by exists f. }
  unfold scenario_pools. rewrite elem_of_union, elem_of_list_to_set, !elem_of_app.
  intros [H|[H|(pools & Hp & H)]].
  - apply (proj1 (proj2 (sort_dedup_spec _) _)) in H. cbn in H.
    apply list_elem_of_omap in H as (c' & Hc & Hn). apply list_elem_of_fmap in Hc as (c & -> & Hc).
    unfold default_create_pool in Hn. destruct (cd_from c), (cd_from_pool c) eqn:Hpool; cbn in Hn;
      rewrite ?Hpool in Hn; try discriminate Hn; injection Hn as <-;
      first [right; left; apply list_elem_of_omap; by exists c | set_solver].
  - apply (proj1 (proj2 (sort_dedup_spec _) _)) in H. cbn in H. apply Hcall in H as [->|H]; [set_solver|auto].
  - injection Hp as <-. apply (proj1 (proj2 (sort_dedup_spec _) _)) in H. rewrite map_steps_calls in H.
    apply Hcall in H as [->|H]; [set_solver|auto].
Qed.

Lemma config_pools_env config env :
  get_create_pools (with_cli_env env config) = get_create_pools config /\
  get_setup_pools (with_cli_env env config) = get_setup_pools config /\
  get_spam_pools (E := Error) (with_cli_env env config) = get_spam_pools config.
Proof. done. Qed.

(** The agents of a scenario, whoever makes them, are among the accounts that the
    pools of the scenario give. *)
Lemma agents_in_pools config env (seed : Sd) spec st bytes num stores s :
  config_agent_store (with_cli_env env config) seed spec = Ok st ->
  as_u256 seed = as_u256 (seed_from_bytes (S := Sd) bytes) ->
  (create_accounts spec <= num)%nat -> (setup_accounts spec <= num)%nat -> (spam_accounts spec <= num)%nat ->
  Forall2 (fun p store => pool_accounts num bytes p = Ok store) (elements (scenario_pools config)) stores ->
  s ∈ all_signers st -> s ∈ stores ≫= signers.
Proof.
  intros Hst Hseed H1 H2 H3 Hstores Hs. unfold config_agent_store in Hst.
  apply bind_ok in Hst as (pools & Hp & Hst). apply list_elem_of_bind in Hs as (store & Hs & Hin).
  apply list_elem_of_fmap in Hin as ([name store'] & -> & Hin). cbn [snd] in Hs.
  apply elem_of_map_to_list in Hin.
  destruct (build_agent_store_made _ _ _ _ _ _ _ _ num Hst Hin H1 H2 H3) as (c & k & Hnew & Hc & Hname).
  assert (Hel : name ∈ elements (scenario_pools config)).
  { apply elem_of_elements, scenario_pools_named. destruct Hname as [?|[?|?]]; [by left|by right; left|].
    right. right. by exists pools. }
  apply list_elem_of_lookup in Hel as (i & Hi). destruct (Forall2_lookup_l _ _ _ _ _ Hstores Hi) as (big & Hbig & Hacc).
  unfold pool_accounts in Hacc. apply map_err_ok in Hacc. replace num with (c + (num - c))%nat in Hacc by lia.
  apply (SignerStore_new_prefix _ _ _ seed _ _ k) in Hacc; [|done].
  assert (Heq : store' = {| signers := take c (signers big); agent_class := k |}).
  { congruence. }
  rewrite Heq in Hs. cbn [signers] in Hs. apply list_elem_of_bind. exists big. split.
  - rewrite <- (take_drop c (signers big)). apply elem_of_app. by left.
  - by eapply list_elem_of_lookup_2.
Qed.

(** C34: reclaiming with a scenario file and without [--from-pool], when it
    succeeds and is asked for at least as many accounts per pool as a setup or a
    run of the scenario made there (for creating, setting up and spamming) from the
    same seed file, has looked at every one of these accounts: each is left alone
    when its balance does not cover a transfer, and is otherwise the sender of one
    whose value and whole gas limit at its price are exactly the balance.  The
    totals reported are those of the transactions sent.  (Asked for fewer, as with
    the default of ten, it leaves the accounts beyond; gas prices are those of 128
    bits.) *)
Theorem reclaim_covers_agents recipient rpc num scenario_file config env (seed : Sd) spec st
    seed_path file bytes (db : D) sent total count :
  load scenario_file = Ok config -> read_seed_file seed_path file = Ok bytes ->
  as_u256 seed = as_u256 (seed_from_bytes (S := Sd) bytes) ->
  config_agent_store (with_cli_env env config) seed spec = Ok st ->
  (create_accounts spec <= num)%nat -> (setup_accounts spec <= num)%nat -> (spam_accounts spec <= num)%nat ->
  handle_reclaim_eth recipient rpc [] num (Some scenario_file) seed_path file db [] = (sent, Ok (total, count)) ->
  total = wrap 256 (values sent) /\ count = count_of sent /\
  forall s, s ∈ all_signers st ->
    exists b, rn_balance node (signer_address s) = Ok b /\
      (b = 0 \/ exists g, rn_gas_price node (signer_address s) = Ok g /\
        (b <= 21000 * g \/ exists req amount, req ∈ sent /\ tx_from req = Some (signer_address s) /\
           tx_to req = Some (Call recipient) /\ tx_value req = Some amount /\ tx_gas req = Some 21000 /\
           tx_gas_price req = Some g /\ amount + 21000 * g = b)).
Proof.
  intros Hload Hbytes Hseed Hst H1 H2 H3 H. unfold handle_reclaim_eth, reclaim_target in H.
  rewrite Hload in H. cbn [mbind outcome_bind] in H.
  apply stm_bind_ok in H as (s1 & [url pools] & Ht & H). apply stm_lift_ok in Ht as [-> Ht].
  apply bind_ok in Ht as (url1 & Hurl & [= -> <-]).
  apply stm_bind_ok in H as (s1 & u & Hu & H). apply stm_lift_ok in Hu as [-> _].
  apply stm_bind_ok in H as (s1 & bytes' & Hb & H). apply stm_lift_ok in Hb as [-> Hb].
  assert (bytes' = bytes) as -> by congruence.
  apply (reclaim_pools_ok recipient num bytes 0 0) in H as (stores & outs & Hstores & Houts & -> & [= -> ->]).
  cbn [app]. rewrite !Z.add_0_l. split_and!; [done|done|]. intros s Hs.
  apply (agents_in_pools config env seed spec st bytes num stores) in Hs; [|done..].
  apply list_elem_of_lookup in Hs as (i & Hi). destruct (Forall2_lookup_l _ _ _ _ _ Houts Hi) as (o & Ho & b & Hbal & Hspec).
  exists b. split; [done|]. destruct o as [req|].
  - destruct Hspec as (g & n & c & Hg & Hlt & ->). right. exists g. split; [done|]. right.
    exists (reclaim_request (signer_address s) recipient (b - 21000 * g) n g c), (b - 21000 * g).
    split_and!; [|done..|lia]. apply list_elem_of_omap.
    eexists (Some _). split; [by eapply list_elem_of_lookup_2|reflexivity].
  - destruct Hspec as [->|(g & Hg & Hle)]; [by left|]. right. exists g. split; [done|]. by left.
Qed.
End admin.

(** The seed file gives the spam and setup commands, which read it as a number,
    and the admin commands, which read it as bytes, the same seed: 64 digits with
    nothing around them are one number either way. *)
Lemma seed_file_agrees `{A : Alloy} (digits : string) (bytes : list byte) (s : rand_seed) :
  from_str_radix digits 16 = Some (from_be bytes) -> length bytes = 32%nat ->
  seed_from_str (S := rand_seed) (E := CliError) ("0x" +:+ digits)%string = Ok s ->
  as_u256 s = as_u256 (seed_from_bytes (S := rand_seed) bytes).
Proof.
  intros Hr Hl H. cbn in H. unfold pack_value, RandSeed.seed_from_str in H.
  assert (Hp : starts_with "0x" (String "0" (String "x" digits)) = true) by by destruct digits.
  pose proof (str_drop_app "0x" digits) as Hd. cbn [String.length String.append] in Hd.
  rewrite Hp, Hd, Hr in H. cbn in H. injection H as <-. cbn.
  pose proof (from_be_range bytes) as Hb. rewrite Hl in Hb.
  rewrite !RandSeed.as_u256_seed_from_u256, !Z.mod_small by (try rewrite Z.mod_small; exact Hb).
  unfold RandSeed.as_u256, RandSeed.seed_from_bytes, RandSeed.fill_bytes. cbn [RandSeed.seed].
  by rewrite Hl, take_ge by lia.
Qed.

(** Runs of a scenario file are recorded under the path it was given by, but the
    node of a run is looked up by the name of the file alone: unless they are the
    same, reclaiming asks the default node. *)
Lemma reclaim_asks_default (d : Store) path stem :
  file_stem path = Some stem -> stem <> path -> Forall (fun r => rr_scenario_name r = path) (st_runs d) ->
  reclaim_rpc_url None path d = Ok DEFAULT_RPC_URL.
Proof.
  intros Hs Hne Hall. unfold reclaim_rpc_url. rewrite Hs. cbn [default].
  assert (Ho : omap (fun r : SpamRunRequest =>
    if String.eqb stem (rr_scenario_name r) then Some (rr_rpc_url r) else None) (st_runs d) = []).
  { induction Hall as [|r l Hr _ IH]; [done|]. cbn. apply String.eqb_neq in Hne. by rewrite Hr, Hne. }
  cbn [get_rpc_url_for_scenario store_ops]. change (id stem) with stem. by rewrite Ho.
Qed.

(** ** Taking back what a run was given *)

Module AdminWitness.
Export SpamCommandWitness.

Definition decode_hex (s : string) : option (list byte) := if String.eqb s "05" then Some [x05] else None.
Definition any_url (u : string) : outcome string unit := Ok tt.
Definition rich_node : ReclaimNode := {|
  rn_balance a := Ok 1000000000; rn_gas_price _ := Ok 10; rn_nonce _ := Ok 3; rn_chain_id _ := Ok 1;
  rn_send e := Ok 0 |}.
Definition reclaimed :=
  handle_reclaim_eth (Sd := CountSeed) decode_hex load_conf any_url rich_node 99 None [] 2
    (Some "dir/conf.toml"%string) "data/seed" (Some "05
"%string) mock_db [].

Definition one_each : AgentSpec :=
  with_spam_accounts (with_setup_accounts (with_create_accounts default_agent_spec 1) 1) 1.
Definition agents_made : outcome Error AgentStore :=
  config_agent_store (with_cli_env None conf) {| count := 5 |} one_each.

Lemma prices_fit a g : rn_gas_price rich_node a = Ok g -> 0 <= g < 2 ^ 128.
Proof. by intros [= <-]. Qed.
Lemma reclaim_covers_agents_witness :
  exists st sent total count, agents_made = Ok st /\ reclaimed = (sent, Ok (total, count)) /\
    forall s, s ∈ all_signers st ->
      exists req, req ∈ sent /\ tx_from req = Some (signer_address s) /\ tx_value req = Some 999790000.
Proof.
  assert (Hok : match reclaimed with (_, Ok _) => true | _ => false end = true)
    by (vm_compute; reflexivity).
  destruct reclaimed as [sent [[total count]|e|]] eqn:Hr; [|discriminate Hok..].
  run_ok agents_made st Hst.
  exists st, sent, total, count. split; [exact Hst|]. split; [reflexivity|]. intros s Hs.
  assert (Hfile : read_seed_file decode_hex "data/seed" (Some "05
"%string) = Ok [x05]) by (vm_compute; reflexivity).
  assert (Hseed : as_u256 {| count := 5 |} = as_u256 (seed_from_bytes (S := CountSeed) [x05]))
    by (vm_compute; reflexivity).
  destruct (reclaim_covers_agents decode_hex load_conf any_url rich_node prices_fit
    99 None 2 "dir/conf.toml" conf None {| count := 5 |} one_each st "data/seed" (Some "05
"%string) [x05] mock_db sent total count eq_refl Hfile Hseed Hst ltac:(cbn; lia) ltac:(cbn; lia) ltac:(cbn; lia) Hr)
    as (_ & _ & Hall).
  destruct (Hall s Hs) as (b & Hb & Hcases). injection Hb as <-.
  destruct Hcases as [H|(g & Hg & H)]; [lia|]. injection Hg as <-.
  destruct H as [H|(req & amount & Hin & Hf & _ & Hv & _ & _ & Ha)]; [lia|].
  exists req. split_and!; [exact Hin|exact Hf|]. rewrite Hv. f_equal. lia.
Defined.
End AdminWitness.
