(* ===== verification/CustomContract.v ===== *)
(** * Contracts compiled on the spot ([cli/src/default_scenarios/custom_contract.rs])

    A path with the name of a contract, and calls written as text, become a
    contract with its setup and spam calls.  The compiler, the JSON of its
    output and the tree of directories are arguments; the regular expression of
    the path is spelled out. *)

From Stdlib Require Import Strings.Byte Strings.Ascii Strings.String.
From S2P Require Import Prelude Text Alloy Db GenTypes GenUtil CoreError TestFile CliError.

Record CustomContractCliArgs := {
  contract_path : string;
  constructor_args_text : option string;
  setup_calls : list string;
  spam_calls : list string;
}.

Definition constructor_args (a : CustomContractCliArgs) : list string :=
  match constructor_args_text a with
  | Some text => filter (fun arg => arg <> "") (trim <$> split_char "," text)
  | None => []
  end.

(** ** The path of the contract *)

(** [rfind(c)]: the position of the last such character. *)
Definition rfind_char (p : ascii -> bool) (s : string) : option nat :=
  (fun i => String.length s - 1 - i)%nat <$> find_char p (str_rev s).

Definition is_letter (c : ascii) : bool :=
  let n := nat_of_ascii c in
  ((65 <=? n) && (n <=? 90) || (97 <=? n) && (n <=? 122) || (n =? 95))%nat.
Definition is_identifier (s : string) : bool :=
  match s with
  | String c s => is_letter c && str_all (fun c => is_letter c || is_digit c) s
  | EmptyString => false
  end.
Definition not_newline (c : ascii) : bool := negb (Ascii.eqb c "010").

(** The captures of the regular expression: a path of a [.sol] file, a colon and
    an identifier.  A name has no colon, so it stands behind the last one. *)
Definition sol_captures (path : string) : option (string * string) :=
  colon ← rfind_char (Ascii.eqb ":") path;
  let file := str_take colon path in
  let name := str_drop (S colon) path in
  stem ← strip_suffix ".sol" file;
  if negb (String.eqb stem "") && str_all not_newline stem && is_identifier name
  then Some (file, name) else None.

(** [Path::file_name] of a path that ends in [.sol]. *)
Definition file_name (path : string) : string :=
  match rfind_char (Ascii.eqb "/") path with
  | Some i => str_drop (S i) path
  | None => path
  end.

Record ContractMeta := { name : string; filename : string; root_dir : string }.

(** The closest directory with a [foundry.toml], from the file's own upwards,
    else its own. *)
Definition find_foundry_toml (exists_toml : string -> bool) (ancestors : list string) : option string :=
  snd <$> list_find (fun dir => exists_toml dir = true) ancestors.

Definition read_sol_file (ancestors : string -> list string) (exists_toml : string -> bool)
    (a : CustomContractCliArgs) : outcome CustomContractArgsError.t ContractMeta :=
  '(path, contract_name) ← ok_or (CustomContractArgsError.InvalidContractPathFormat (contract_path a))
                             (sol_captures (contract_path a));
  parent_dir ← ok_or (CustomContractArgsError.ParentDirectoryNotFound path) (head (ancestors path));
  mret {| name := contract_name; filename := file_name path;
          root_dir := default parent_dir (find_foundry_toml exists_toml (ancestors path)) |}.

(** ** Calls *)

(** The ABI of a contract: the signatures of the functions of each name, and
    the selector types of the constructor's inputs. *)
Record JsonAbi := {
  functions : gmap string (list string);
  constructor : option (list string);
}.

Definition join (sep : string) (l : list string) : string := String.concat sep l.

Definition abi_constructor_sig (abi : JsonAbi) : outcome ContractMetaError.t string :=
  input_types ← ok_or ContractMetaError.ConstructorNotFound (constructor abi);
  mret ("(" +:+ join "," input_types +:+ ")")%string.

Record NameAndArgs := { fn_name : string; fn_args : list string }.

(** A slice whose end lies before its start panics. *)
Definition from_function_call (call : string) : outcome ContractMetaError.t NameAndArgs :=
  open_paren ← ok_or (ContractMetaError.InvalidCall ("'" +:+ call +:+ "' missing '('"))
                 (find_char (Ascii.eqb "(") call);
  let fn_name := str_take open_paren call in
  ensure (negb (String.eqb fn_name ""))
    (ContractMetaError.InvalidCall ("'" +:+ call +:+ "' function name is empty"));;
  close_paren ← ok_or (ContractMetaError.InvalidCall ("'" +:+ call +:+ "' missing ')'"))
                  (rfind_char (Ascii.eqb ")") call);
  assert_ (S open_paren <=? close_paren)%nat;;
  let args_str := substring (S open_paren) (close_paren - S open_paren) call in
  mret {| fn_name := fn_name;
          fn_args := if String.eqb (trim args_str) "" then []
                     else trim <$> split_char "," args_str |}.

Definition to_fn_call (n : NameAndArgs) : string :=
  (fn_name n +:+ "(" +:+ join ", " (fn_args n) +:+ ")")%string.

Record CustomContractArgs := {
  contract : CompiledContract;
  setup : list FunctionCallDefinition;
  spam : list FunctionCallDefinition;
}.

Section custom_contract.
Context `{A : Alloy}.

(** The first function of the name that takes the arguments. *)
Definition signature (n : NameAndArgs) (abi : JsonAbi) : outcome ContractMetaError.t string :=
  fn_abis ← ok_or (ContractMetaError.FunctionNotFound (fn_name n)) (functions abi !! fn_name n);
  ok_or (ContractMetaError.ABIFunctionNotFound (to_fn_call n))
    (snd <$> list_find (fun sig => is_ok (encode_calldata (fn_args n) sig) = true) fn_abis).

Definition call_step (contract : CompiledContract) (abi : JsonAbi) (n : NameAndArgs)
  : outcome CustomContractArgsError.t FunctionCallDefinition :=
  sig ← map_err CustomContractArgsError.Meta (signature n abi);
  mret (with_args (fn_args n)
          (with_signature sig (FunctionCallDefinition_new (template_name contract)))).

(** [forge]: the bytecode and the ABI that the build leaves behind. *)
Definition from_cli_args (ancestors : string -> list string) (exists_toml : string -> bool)
    (forge : ContractMeta -> outcome ContractMetaError.t (JsonAbi * string))
    (a : CustomContractCliArgs) : outcome CustomContractArgsError.t CustomContractArgs :=
  ensure (negb (bool_decide (spam_calls a = []))) CustomContractArgsError.SpamArgsEmpty;;
  meta ← read_sol_file ancestors exists_toml a;
  '(abi, bytecode) ← map_err CustomContractArgsError.Meta (forge meta);
  spam_fns ← map_err CustomContractArgsError.Meta (mapM from_function_call (spam_calls a));
  setup_fns ← map_err CustomContractArgsError.Meta (mapM from_function_call (setup_calls a));
  let contract := CompiledContract_new bytecode (name meta) in
  contract ← match abi_constructor_sig abi with
             | Ok sig => map_err CustomContractArgsError.Generator
                           (with_constructor_args contract sig (constructor_args a))
             | _ => mret contract
             end;
  spam ← mapM (call_step contract abi) spam_fns;
  setup ← mapM (call_step contract abi) setup_fns;
  mret {| contract := contract; setup := setup; spam := spam |}.
End custom_contract.

Definition custom_contract_config (a : CustomContractArgs) : TestConfig :=
  with_spam (new_tx <$> spam a)
    (with_setup (setup a) (with_create [CreateDefinition_new (contract a)] TestConfig_new)).

(** ** Properties *)

Example call_reversed : from_function_call "f)(" = Panic.
Proof. reflexivity. Qed.
Example call_spaces : from_function_call "callMe( 100 , 0xbeef )" =
  Ok {| fn_name := "callMe"; fn_args := ["100"; "0xbeef"]%string |}.
Proof. reflexivity. Qed.
Example path_ok : sol_captures "src/a:b/C.sol:Counter_1" = Some ("src/a:b/C.sol", "Counter_1").
Proof. reflexivity. Qed.
Example path_bad : (sol_captures ".sol:A", sol_captures "C.sol:1A", sol_captures "C.sol") = (None, None, None).
Proof. reflexivity. Qed.
