(* ===== verification/Builtins.v ===== *)
(** * Builtin scenarios ([cli/src/default_scenarios])

    The scenarios the command line knows by name: their arguments, the checks
    of these ([builtin.rs]), their titles, and the scenario files they stand
    for.  The bytecodes and the Uniswap file that are part of the binary are
    the class [ScenarioFiles].  The scenario of a contract compiled on the
    spot is in [CustomContract]; here it is its result. *)

From Stdlib Require Import Strings.Byte Strings.Ascii Strings.String.
From S2P Require Import Prelude Text Seeder Alloy Agents Db GenTypes GenUtil CoreError Templater TestFile Generator TxActor Scenario Spam SpamRun Orchestrator CliError CliUtil CliArgs SpamCommand CustomContract.

(** What the binary includes ([include_str!]). *)
Class ScenarioFiles := {
  counter_hex : string;
  smart_wallet_hex : string;
  spam_me_hex : string;
  spam_me_6_hex : string;
  test_token_hex : string;
  uniV2_toml : TestConfig;
}.

(** ** Opcodes and precompiles ([eth_functions]) *)

Module Opcode.
Inductive t :=
| Stop | Add | Mul | Sub | Div | Sdiv | Mod | Smod | Addmod | Mulmod | Exp | Signextend | Lt
  | Gt | Slt | Sgt | Eq | Iszero | And | Or | Xor | Not | Byte | Shl | Shr | Sar | Sha3 |
  Keccak256 | Address | Balance | Origin | Caller | Callvalue | Calldataload | Calldatasize
  | Calldatacopy | Codesize | Codecopy | Gasprice | Extcodesize | Extcodecopy |
  Returndatasize | Returndatacopy | Extcodehash | Blockhash | Coinbase | Timestamp | Number
  | Prevrandao | Gaslimit | Chainid | Selfbalance | Basefee | Pop | Mload | Mstore | Mstore8
  | Sload | Sstore | Msize | Gas | Log0 | Log1 | Log2 | Log3 | Log4 | Create | Call |
  Callcode | Return | Delegatecall | Create2 | Staticcall | Revert | Invalid | Selfdestruct.

(** The number of the variant, which derived equality compares. *)
Definition index (o : t) : nat :=
  match o with
  | Stop => 0 | Add => 1 | Mul => 2 | Sub => 3 | Div => 4 | Sdiv => 5 | Mod => 6 | Smod => 7
  | Addmod => 8 | Mulmod => 9 | Exp => 10 | Signextend => 11 | Lt => 12 | Gt => 13
  | Slt => 14 | Sgt => 15 | Eq => 16 | Iszero => 17 | And => 18 | Or => 19 | Xor => 20
  | Not => 21 | Byte => 22 | Shl => 23 | Shr => 24 | Sar => 25 | Sha3 => 26 | Keccak256 => 27
  | Address => 28 | Balance => 29 | Origin => 30 | Caller => 31 | Callvalue => 32
  | Calldataload => 33 | Calldatasize => 34 | Calldatacopy => 35 | Codesize => 36
  | Codecopy => 37 | Gasprice => 38 | Extcodesize => 39 | Extcodecopy => 40
  | Returndatasize => 41 | Returndatacopy => 42 | Extcodehash => 43 | Blockhash => 44
  | Coinbase => 45 | Timestamp => 46 | Number => 47 | Prevrandao => 48 | Gaslimit => 49
  | Chainid => 50 | Selfbalance => 51 | Basefee => 52 | Pop => 53 | Mload => 54
  | Mstore => 55 | Mstore8 => 56 | Sload => 57 | Sstore => 58 | Msize => 59 | Gas => 60
  | Log0 => 61 | Log1 => 62 | Log2 => 63 | Log3 => 64 | Log4 => 65 | Create => 66
  | Call => 67 | Callcode => 68 | Return => 69 | Delegatecall => 70 | Create2 => 71
  | Staticcall => 72 | Revert => 73 | Invalid => 74 | Selfdestruct => 75
  end.
Definition iter : list t :=
  [Stop; Add; Mul; Sub; Div; Sdiv; Mod; Smod; Addmod; Mulmod; Exp; Signextend; Lt; Gt; Slt;
   Sgt; Eq; Iszero; And; Or; Xor; Not; Byte; Shl; Shr; Sar; Sha3; Keccak256; Address;
   Balance; Origin; Caller; Callvalue; Calldataload; Calldatasize; Calldatacopy; Codesize;
   Codecopy; Gasprice; Extcodesize; Extcodecopy; Returndatasize; Returndatacopy;
   Extcodehash; Blockhash; Coinbase; Timestamp; Number; Prevrandao; Gaslimit; Chainid;
   Selfbalance; Basefee; Pop; Mload; Mstore; Mstore8; Sload; Sstore; Msize; Gas; Log0; Log1;
   Log2; Log3; Log4; Create; Call; Callcode; Return; Delegatecall; Create2; Staticcall;
   Revert; Invalid; Selfdestruct].
Definition text (o : t) : string :=
  match o with
  | Stop => "Stop" | Add => "Add" | Mul => "Mul" | Sub => "Sub" | Div => "Div"
  | Sdiv => "Sdiv" | Mod => "Mod" | Smod => "Smod" | Addmod => "Addmod" | Mulmod => "Mulmod"
  | Exp => "Exp" | Signextend => "Signextend" | Lt => "Lt" | Gt => "Gt" | Slt => "Slt"
  | Sgt => "Sgt" | Eq => "Eq" | Iszero => "Iszero" | And => "And" | Or => "Or" | Xor => "Xor"
  | Not => "Not" | Byte => "Byte" | Shl => "Shl" | Shr => "Shr" | Sar => "Sar"
  | Sha3 => "Sha3" | Keccak256 => "Keccak256" | Address => "Address" | Balance => "Balance"
  | Origin => "Origin" | Caller => "Caller" | Callvalue => "Callvalue"
  | Calldataload => "Calldataload" | Calldatasize => "Calldatasize"
  | Calldatacopy => "Calldatacopy" | Codesize => "Codesize" | Codecopy => "Codecopy"
  | Gasprice => "Gasprice" | Extcodesize => "Extcodesize" | Extcodecopy => "Extcodecopy"
  | Returndatasize => "Returndatasize" | Returndatacopy => "Returndatacopy"
  | Extcodehash => "Extcodehash" | Blockhash => "Blockhash" | Coinbase => "Coinbase"
  | Timestamp => "Timestamp" | Number => "Number" | Prevrandao => "Prevrandao"
  | Gaslimit => "Gaslimit" | Chainid => "Chainid" | Selfbalance => "Selfbalance"
  | Basefee => "Basefee" | Pop => "Pop" | Mload => "Mload" | Mstore => "Mstore"
  | Mstore8 => "Mstore8" | Sload => "Sload" | Sstore => "Sstore" | Msize => "Msize"
  | Gas => "Gas" | Log0 => "Log0" | Log1 => "Log1" | Log2 => "Log2" | Log3 => "Log3"
  | Log4 => "Log4" | Create => "Create" | Call => "Call" | Callcode => "Callcode"
  | Return => "Return" | Delegatecall => "Delegatecall" | Create2 => "Create2"
  | Staticcall => "Staticcall" | Revert => "Revert" | Invalid => "Invalid"
  | Selfdestruct => "Selfdestruct"
  end.

Lemma iter_index o : iter !! index o = Some o.
Proof. by destruct o. Qed.
#[global] Instance eq_dec : EqDecision t.
Proof.
  refine (fun x y => cast_if (decide (index x = index y))).
  - apply (inj Some). rewrite <- !iter_index. congruence.
  - congruence.
Defined.
End Opcode.
Abbreviation EthereumOpcode := Opcode.t (only parsing).

Module Precompile.
Inductive t := HashSha256 | HashRipemd160 | Identity | ModExp | EcAdd | EcMul | EcPairing | Blake2f.
Definition iter : list t :=
  [HashSha256; HashRipemd160; Identity; ModExp; EcAdd; EcMul; EcPairing; Blake2f].
Definition text (p : t) : string :=
  match p with
  | HashSha256 => "HashSha256" | HashRipemd160 => "HashRipemd160" | Identity => "Identity"
  | ModExp => "ModExp" | EcAdd => "EcAdd" | EcMul => "EcMul" | EcPairing => "EcPairing"
  | Blake2f => "Blake2f"
  end.
(** The name the contract knows it by. *)
Definition method (p : t) : string :=
  match p with
  | HashSha256 => "hash_sha256" | HashRipemd160 => "hash_ripemd160" | Identity => "identity"
  | ModExp => "modExp" | EcAdd => "ecAdd" | EcMul => "ecMul" | EcPairing => "ecPairing"
  | Blake2f => "blake2f"
  end.
#[global] Instance eq_dec : EqDecision t.
Proof. solve_decision. Defined.
End Precompile.
Abbreviation EthereumPrecompile := Precompile.t (only parsing).

Section scenarios.
Context `{F : ScenarioFiles} {P : Profile}.

(** ** Contracts ([contracts/mod.rs]) *)

Definition COUNTER : CompiledContract := CompiledContract_new counter_hex "Counter".
Definition SMART_WALLET : CompiledContract := CompiledContract_new smart_wallet_hex "SmartWallet".
Definition SPAM_ME : CompiledContract := CompiledContract_new spam_me_hex "SpamMe5".
Definition SPAM_ME_6 : CompiledContract := CompiledContract_new spam_me_6_hex "SpamMe6".
Definition test_token (token_num initial_supply : Z) : CompiledContract :=
  CompiledContract_new (test_token_hex +:+ hex_padded 64 initial_supply) ("testToken" +:+ dec token_num).

(** The deployments of the scenarios come from the pool of the admin. *)
Definition create_by_admin (contract : CompiledContract) : CreateDefinition := {|
  cd_contract := contract; cd_signature := None; cd_args := None; cd_from := None;
  cd_from_pool := Some "admin"%string |}.
Definition spam_me_config (spam : list SpamRequest) : TestConfig := {|
  tc_env := None; tc_create := Some [create_by_admin SPAM_ME]; tc_setup := None;
  tc_spam := Some spam |}.
Definition spam_only (spam : list SpamRequest) : TestConfig := {|
  tc_env := None; tc_create := None; tc_setup := None; tc_spam := Some spam |}.

(** ** Blobs *)

Record BlobsCliArgs := { blob_data : string; blob_recipient : option string }.
Definition blob_txs (blob_data : string) (recipient : option string) : list SpamRequest :=
  [Tx (with_blob_data blob_data (FunctionCallDefinition_new (default sender_placeholder recipient)))].
Definition blobs_config (a : BlobsCliArgs) : TestConfig :=
  spam_only (blob_txs (blob_data a) (blob_recipient a)).

(** ** Calls of opcodes and precompiles *)

Record EthFunctionsArgs := {
  opcodes : list EthereumOpcode;
  precompiles : list EthereumPrecompile;
  ef_num_iterations : Z;
}.
Definition consume_gas_sig : string := "consumeGas(string memory method, uint256 iterations)".
Definition opcode_tx (num_iterations : Z) (opcode : EthereumOpcode) : SpamRequest :=
  Tx (with_kind "opcodes"
        (with_args [to_lowercase (Opcode.text opcode); dec num_iterations]
           (with_signature consume_gas_sig (FunctionCallDefinition_new (template_name SPAM_ME))))).
Definition opcode_txs (args : list EthereumOpcode) (num_iterations : Z) : list SpamRequest :=
  opcode_tx num_iterations <$> args.
Definition precompile_tx (num_iterations : Z) (precompile : EthereumPrecompile) : SpamRequest :=
  Tx (with_kind "precompiles"
        (with_args [Precompile.method precompile; dec num_iterations]
           (with_signature "callPrecompile(string memory method, uint256 iterations)"
              (FunctionCallDefinition_new (template_name SPAM_ME))))).
Definition precompile_txs (args : list EthereumPrecompile) (num_iterations : Z) : list SpamRequest :=
  precompile_tx num_iterations <$> args.
Definition eth_functions_spam (a : EthFunctionsArgs) : list SpamRequest :=
  precompile_txs (precompiles a) (ef_num_iterations a) ++ opcode_txs (opcodes a) (ef_num_iterations a).
Definition eth_functions_config (a : EthFunctionsArgs) : TestConfig :=
  spam_me_config (eth_functions_spam a).

(** ** Reverts, storage, transfers *)

Definition revert_config {E} (gas_use : Z) : outcome E TestConfig :=
  gas_limit ← arith 64 (gas_use + 35000);
  mret {|
    tc_env := None; tc_create := Some [create_by_admin SPAM_ME_6]; tc_setup := None;
    tc_spam := Some [new_tx (with_gas_limit gas_limit (with_args [dec gas_use]
                 (with_signature "consumeGasAndRevert(uint256 gas)"
                    (FunctionCallDefinition_new (template_name SPAM_ME_6)))))] |}.

Record StorageStressArgs := { num_slots : Z; num_iterations : Z }.
Definition storage_spam (a : StorageStressArgs) : list SpamRequest :=
  [Tx (with_args [dec (num_slots a); dec (num_iterations a)]
         (with_signature "fillStorageSlots(uint256 numSlots, uint256 iteration)"
            (FunctionCallDefinition_new (template_name SPAM_ME))))].
Definition storage_config (a : StorageStressArgs) : TestConfig := spam_me_config (storage_spam a).

Record TransferStressCliArgs := { tr_amount : Z; tr_recipient : option Address }.
Record TransferStressArgs := { amount : Z; recipient : string }.
Definition transfer_args `{A : Alloy} (a : TransferStressCliArgs) : TransferStressArgs := {|
  amount := tr_amount a;
  recipient := default sender_placeholder (address_to_string <$> tr_recipient a) |}.
Definition transfer_spam (a : TransferStressArgs) : list SpamRequest :=
  [Tx (with_value (amount a) (FunctionCallDefinition_new (recipient a)))].
Definition transfers_config (a : TransferStressArgs) : TestConfig := spam_only (transfer_spam a).

(** ** Filling blocks *)

Record FillBlockArgs := { max_gas_per_block : Z; num_txs : Z }.
Definition rate_txs (r : SpamRate) : Z := match r with TxsPerBlock n | TxsPerSecond n => n end.
Definition default_spam_rate : SpamRate := TxsPerSecond 10.

(** The gas limit is the one given, the latest block's, or 30 million.  Dividing
    by no transactions panics. *)
Definition fill_block (block_gas_limit : outcome CliError (option Z)) (spam_rate : SpamRate)
    (max_gas : option Z) : outcome CliError FillBlockArgs :=
  gas_limit ← match max_gas with
              | Some max_gas => mret max_gas
              | None => limit ← block_gas_limit; mret (default 30000000 limit)
              end;
  assert_ (negb (rate_txs spam_rate =? 0));;
  mret {| max_gas_per_block := gas_limit; num_txs := rate_txs spam_rate |}.

Definition fill_block_tx (gas_per_tx : Z) : SpamRequest :=
  Tx (with_gas_limit gas_per_tx (with_kind "fill-block" (with_signature "consumeGas()"
        (FunctionCallDefinition_new (template_name SPAM_ME))))).
Definition fill_block_config {E} (a : FillBlockArgs) : outcome E TestConfig :=
  assert_ (negb (num_txs a =? 0));;
  mret (spam_me_config
          (replicate (Z.to_nat (num_txs a)) (fill_block_tx (max_gas_per_block a / num_txs a)))).

(** ** Tokens *)

Record Erc20CliArgs := { e_send_amount : Z; e_fund_amount : Z; e_token_recipient : option Address }.
Record Erc20Args := {
  send_amount : Z;
  fund_amount : Z;
  fund_recipients : list Address;
  token_recipient : option string;
}.
Definition transfer_sig : string := "transfer(address guy, uint256 wad)".

Section erc20.
Context `{A : Alloy}.

Definition erc20_args (a : Erc20CliArgs) (fund_recipients : list Address) : Erc20Args := {|
  send_amount := e_send_amount a; fund_amount := e_fund_amount a;
  fund_recipients := fund_recipients;
  token_recipient := address_to_string <$> e_token_recipient a |}.

Definition erc20_setup_tx (token : CompiledContract) (fund_amount : Z) (recipient : Address)
  : FunctionCallDefinition :=
  with_args [address_to_string recipient; dec fund_amount]
    (with_signature transfer_sig (FunctionCallDefinition_new (template_name token))).
(** The recipient is drawn anew for each transaction unless it is given. *)
Definition recipient_fuzz : FuzzParam := {|
  fz_param := Some "guy"%string; fz_value := None; fz_max_priority_fee_per_gas := None;
  fz_min := Some 1; fz_max := Some (2 ^ 128 - 1) |}.
Definition erc20_spam_tx (token : CompiledContract) (a : Erc20Args) : FunctionCallDefinition :=
  let func_def :=
    with_gas_limit 55000
      (with_args [default "0x0000000000000000000000000000000000000000"%string (token_recipient a);
                  dec (send_amount a)]
         (with_signature transfer_sig
            (with_from_pool "spammers" (FunctionCallDefinition_new (template_name token))))) in
  match token_recipient a with None => with_fuzz [recipient_fuzz] func_def | Some _ => func_def end.
Definition erc20_config (a : Erc20Args) : TestConfig :=
  let token := test_token 0 U256_MAX in {|
    tc_env := None; tc_create := Some [create_by_admin token];
    tc_setup := Some (erc20_setup_tx token (fund_amount a) <$> fund_recipients a);
    tc_spam := Some [new_tx (erc20_spam_tx token a)] |}.
End erc20.

(** ** Stress ([stress.rs]) *)

Record StressCliArgs := {
  disable_storage : bool;
  disable_transfers : bool;
  disable_opcodes : option (list EthereumOpcode);
  disable_precompiles : option (list EthereumPrecompile);
  disable_all_precompiles : bool;
  disable_all_opcodes : bool;
  st_storage : StorageStressArgs;
  st_transfers : TransferStressCliArgs;
  opcode_iterations : Z;
  with_fails : bool;
}.

(** The opcodes whose gas cannot be estimated are called apart. *)
Definition failing_opcodes : list EthereumOpcode := [Opcode.Revert; Opcode.Create2; Opcode.Invalid].
Definition stress_opcodes (a : StressCliArgs) : list EthereumOpcode :=
  filter (fun o => (o ∉ default [] (disable_opcodes a)) /\ o ∉ failing_opcodes) Opcode.iter.
Definition stress_precompiles (a : StressCliArgs) : list EthereumPrecompile :=
  filter (fun p => (p ∉ default [] (disable_precompiles a)) /\
                   (with_fails a = true \/ p <> Precompile.Identity)) Precompile.iter.
Definition stress_functions (a : StressCliArgs) : EthFunctionsArgs := {|
  opcodes := if disable_all_opcodes a then [] else stress_opcodes a;
  precompiles := if disable_all_precompiles a then [] else stress_precompiles a;
  ef_num_iterations := opcode_iterations a |}.

Definition consume_gas (args : list string) : FunctionCallDefinition :=
  with_args args (with_signature consume_gas_sig (FunctionCallDefinition_new (template_name SPAM_ME))).
Definition stress_fails (a : StressCliArgs) : list SpamRequest :=
  let call (o : EthereumOpcode) (req : FunctionCallDefinition) : list SpamRequest :=
    if decide (o ∈ default [] (disable_opcodes a)) then [] else [Tx req] in
  if negb (disable_all_opcodes a) && with_fails a then
    call Opcode.Revert (with_gas_limit 42000 (consume_gas ["revert"; "1"]%string)) ++
    call Opcode.Create2 (consume_gas ["create2"; "1"]%string) ++
    call Opcode.Invalid (with_gas_limit 21000 (consume_gas ["invalid"; "1"]%string))
  else [].
Definition stress_config `{A : Alloy} (a : StressCliArgs) : TestConfig :=
  spam_me_config
    ((if disable_storage a then [] else storage_spam (st_storage a)) ++
     (if disable_transfers a then [] else transfer_spam (transfer_args (st_transfers a))) ++
     eth_functions_spam (stress_functions a) ++ stress_fails a).

(** ** Set code ([setcode]) *)

Record SetCodeExecuteCliArgs := {
  ex_to : string;
  ex_sig : string;
  ex_args : list string;
  ex_value : option Z;
}.
Record SetCodeCliArgs := {
  command : option SetCodeExecuteCliArgs;
  contract_address : option string;
  sig : option string;
  call_args : option (list string);
}.
Definition DEFAULT_SIG : string := "execute((address,uint256,bytes)[])".
Definition DEFAULT_ARGS : string := "[(0x{Counter},0,0xd09de08a)]".

(** [trim_start_matches("0x")]: as often as it is there. *)
Fixpoint trim_0x (s : string) : string :=
  match s with
  | String a (String b r) =>
      if Ascii.eqb a "0"%char && Ascii.eqb b "x"%char then trim_0x r else s
  | _ => s
  end.

Definition to_setcode_cli_args `{A : Alloy} (e : SetCodeExecuteCliArgs) (og_args : SetCodeCliArgs)
  : outcome CliError SetCodeCliArgs :=
  data ← map_err (fun e => Core (ErrGenerator (GenTypes.Util e))) (encode_calldata (ex_args e) (ex_sig e));
  mret {| contract_address := contract_address og_args; command := command og_args;
          sig := Some DEFAULT_SIG;
          call_args := Some ["[(0x" +:+ trim_0x (ex_to e) +:+ "," +:+ dec (default 0 (ex_value e)) +:+ "," +:+
                        encode_hex data +:+ ")]"]%string |}.

Record SetCodeArgs := {
  sc_contract_address : option string;
  sc_signature : string;
  sc_args : list string;
  sc_signer_address : string;
}.
Definition setcode_args (a : SetCodeCliArgs) (signer_address : string) : SetCodeArgs := {|
  sc_args := default [DEFAULT_ARGS] (call_args a); sc_signature := default DEFAULT_SIG (sig a);
  sc_contract_address := contract_address a; sc_signer_address := signer_address |}.
Definition setcode_config (a : SetCodeArgs) : TestConfig :=
  let fn_call :=
    with_authorization (default (template_name SMART_WALLET) (sc_contract_address a))
      (with_signature (sc_signature a)
         (with_args (sc_args a) (FunctionCallDefinition_new (sc_signer_address a)))) in
  let config := with_spam [new_tx fn_call] TestConfig_new in
  match sc_contract_address a with
  | None => with_create (CreateDefinition_new <$> [COUNTER; SMART_WALLET]) config
  | Some _ => config
  end.

(** ** Uniswap ([uni_v2.rs]) *)

Record UniV2CliArgs := {
  u_num_tokens : Z;
  u_weth_per_token : Z;
  u_initial_token_supply : Z;
  u_weth_trade_amount : option Z;
  u_token_trade_amount : option Z;
}.
Record UniV2Args := {
  num_tokens : Z;
  weth_per_token : Z;
  initial_token_supply : Z;
  weth_trade_amount : Z;
  token_trade_amount : Z;
}.
Definition univ2_args (a : UniV2CliArgs) : UniV2Args := {|
  num_tokens := u_num_tokens a; weth_per_token := u_weth_per_token a;
  initial_token_supply := u_initial_token_supply a;
  weth_trade_amount := default (u_weth_per_token a / 10000) (u_weth_trade_amount a);
  token_trade_amount := default (u_initial_token_supply a / 100000) (u_token_trade_amount a) |}.

Definition liquidity_amount (a : UniV2Args) : Z := initial_token_supply a / 2.
(** The number of tokens is a [u32]; a sum of zero panics as a divisor. *)
Definition pool_liquidity_amount {E} (a : UniV2Args) : outcome E Z :=
  n ← arith 32 (num_tokens a + 1);
  assert_ (negb (n =? 0));;
  mret (liquidity_amount a / n).

Definition call_of (c : CompiledContract) (sig kind : string) (args : list string)
  : FunctionCallDefinition :=
  with_args args (with_kind kind (with_signature sig (FunctionCallDefinition_new (template_name c)))).
Definition add_liquidity_sig : string :=
  "addLiquidity(address,address,uint256,uint256,uint256,uint256,address,uint256)".
Definition token_transfer_sig : string := "transfer(address,uint256)".

Definition create_pair (univ2_factory token_a token_b : CompiledContract) : FunctionCallDefinition :=
  with_gas_limit 3000000
    (call_of univ2_factory "createPair(address,address)"
       ("univ2_create_pair_" +:+ cc_name token_a +:+ "-" +:+ cc_name token_b)
       [template_name token_a; template_name token_b]).
(** [now] is the time in seconds, [None] before the epoch; its sum is a [u64]. *)
Definition add_liquidity {E} (now : option Z) (uni_router_v2 token_a token_b : CompiledContract)
    (amount_a amount_b : Z) : outcome E FunctionCallDefinition :=
  now ← unwrap now;
  deadline ← arith 64 (now + 600);
  mret (with_gas_limit 300000
    (call_of uni_router_v2 add_liquidity_sig
       ("univ2_add_liquidity_" +:+ cc_name token_a +:+ "-" +:+ cc_name token_b)
       [template_name token_a; template_name token_b; dec amount_a; dec amount_b;
        dec (amount_a / 100); dec (amount_b / 100); sender_placeholder; dec deadline])).
Definition token_transfer (token to : CompiledContract) (amount : Z) : FunctionCallDefinition :=
  with_gas_limit 200000
    (call_of token token_transfer_sig (cc_name token +:+ "_transfer_to_" +:+ cc_name to)
       [template_name to; dec amount]).
Definition approve_max (token spender : CompiledContract) : FunctionCallDefinition :=
  call_of token "approve(address,uint256)" (cc_name token +:+ "_approve_" +:+ cc_name spender)
    [template_name spender; dec U256_MAX].
Definition swap (unicheat token_a token_b : CompiledContract) (amount : Z) : FunctionCallDefinition :=
  call_of unicheat "swap(address,address,uint256)"
    ("univ2_swap_" +:+ cc_name token_a +:+ "-" +:+ cc_name token_b)
    [template_name token_a; template_name token_b; dec amount].

(** [find_contract(..).expect(..)]. *)
Definition find_contract {E} (create_steps : list CreateDefinition) (name : string)
  : outcome E CompiledContract :=
  unwrap (cd_contract <$> (snd <$> list_find (fun c => cc_name (cd_contract c) = name) create_steps)).
Definition token_name (i : Z) : string := "testToken" +:+ dec i.

(** The contracts of the file, and the amounts. *)
Record UniV2Env := {
  uv_create_steps : list CreateDefinition;
  uv_weth : CompiledContract;
  uv_factory : CompiledContract;
  uv_router : CompiledContract;
  uv_unicheat : CompiledContract;
  uv_pool : Z;
  uv_now : option Z;
}.

(** The pair of a token with each later one, [js] their numbers. *)
Fixpoint other_pairs {E} (a : UniV2Args) (v : UniV2Env) (token : CompiledContract) (js : list Z)
  : outcome E (list FunctionCallDefinition * list FunctionCallDefinition) :=
  match js with
  | [] => mret ([], [])
  | j :: js =>
      other_token ← find_contract (uv_create_steps v) (token_name (j + 1));
      liquidity ← add_liquidity (uv_now v) (uv_router v) token other_token (uv_pool v) (uv_pool v);
      '(setup, spam) ← other_pairs a v token js;
      mret (create_pair (uv_factory v) token other_token :: liquidity :: setup,
            swap (uv_unicheat v) token other_token (token_trade_amount a) ::
            swap (uv_unicheat v) other_token token (token_trade_amount a) :: spam)
  end.

(** Setup and spam steps of the tokens with the numbers [ids]. *)
Fixpoint token_steps {E} (a : UniV2Args) (v : UniV2Env) (ids : list Z)
  : outcome E (list FunctionCallDefinition * list FunctionCallDefinition) :=
  match ids with
  | [] => mret ([], [])
  | i :: ids =>
      token ← find_contract (uv_create_steps v) (token_name (i + 1));
      liquidity ← add_liquidity (uv_now v) (uv_router v) (uv_weth v) token (weth_per_token a) (uv_pool v);
      '(setup, spam) ← other_pairs a v token ids;
      '(setup', spam') ← token_steps a v ids;
      mret (create_pair (uv_factory v) (uv_weth v) token :: liquidity :: setup ++
              token_transfer token (uv_unicheat v) (liquidity_amount a) :: setup',
            swap (uv_unicheat v) (uv_weth v) token (weth_trade_amount a) ::
            swap (uv_unicheat v) token (uv_weth v) (weth_trade_amount a) :: spam ++ spam')
  end.

(** The tokens of the file are replaced by [num_tokens] new ones, deployed first. *)
Definition univ2_create_steps (a : UniV2Args) : list CreateDefinition :=
  ((fun i => create_by_admin (test_token (i + 1) (initial_token_supply a))) <$>
     rangeZ (Z.to_nat (num_tokens a))) ++
  filter (fun c => String.prefix "testToken" (cc_name (cd_contract c)) = false)
    (default [] (tc_create uniV2_toml)).

Definition univ2_config {E} (now : option Z) (a : UniV2Args) : outcome E TestConfig :=
  let create_steps := univ2_create_steps a in
  weth ← find_contract create_steps "weth";
  univ2_factory ← find_contract create_steps "uniV2Factory";
  uni_router_v2 ← find_contract create_steps "uniRouterV2";
  unicheat ← find_contract create_steps "unicheat";
  n ← arith 32 (num_tokens a + 1);
  let weth_value := wrap 256 (weth_per_token a * n) in
  let ids := rangeZ (Z.to_nat (num_tokens a)) in
  approvals ← mapM (fun i => token ← find_contract create_steps (token_name (i + 1));
                            mret (approve_max token uni_router_v2)) ids;
  pool ← (if (0 <? num_tokens a) then pool_liquidity_amount a else mret 0);
  let v := {| uv_create_steps := create_steps; uv_weth := weth; uv_factory := univ2_factory;
              uv_router := uni_router_v2; uv_unicheat := unicheat; uv_pool := pool; uv_now := now |} in
  '(setup, spam) ← token_steps a v ids;
  mret {|
    tc_env := tc_env uniV2_toml; tc_create := Some create_steps;
    tc_setup := Some
      (with_value weth_value (with_kind "weth_deposit" (with_signature "deposit()"
         (FunctionCallDefinition_new (template_name weth)))) ::
       approve_max weth uni_router_v2 :: token_transfer weth unicheat (weth_per_token a) ::
       approvals ++ approve_max weth uni_router_v2 :: setup);
    tc_spam := Some (Tx <$> spam) |}.

(** ** The scenarios ([builtin.rs]) *)

Inductive BuiltinScenarioCli :=
| CliBlobs (args : BlobsCliArgs)
| CliContract (args : CustomContractCliArgs)
| CliEthFunctions (args : EthFunctionsArgs)
| CliErc20 (args : Erc20CliArgs)
| CliFillBlock (max_gas_per_block : option Z)
| CliRevert (gas_use : Z)
| CliSetCode (args : SetCodeCliArgs)
| CliStorage (args : StorageStressArgs)
| CliStress (args : StressCliArgs)
| CliTransfers (args : TransferStressCliArgs)
| CliUniV2 (args : UniV2CliArgs).

(** The arguments' defaults ([Default]); their amounts are texts. *)
Definition parsed `{A : Alloy} {E} (text : string) : outcome E Z :=
  match parse_value text with Ok v => Ok v | _ => Panic end.
Definition default_storage_args : StorageStressArgs := {| num_slots := 500; num_iterations := 1 |}.
Definition default_transfer_args `{A : Alloy} {E} : outcome E TransferStressCliArgs :=
  amount ← parsed "0.001 eth";
  mret {| tr_amount := amount; tr_recipient := None |}.
Definition default_erc20_args `{A : Alloy} {E} : outcome E Erc20CliArgs :=
  sent ← parsed "0.00001 ether";
  funded ← parsed "1000000 ether";
  mret {| e_send_amount := sent; e_fund_amount := funded; e_token_recipient := None |}.
Definition default_stress_args `{A : Alloy} {E} : outcome E StressCliArgs :=
  transfers ← default_transfer_args;
  mret {| disable_storage := false; disable_transfers := false; disable_opcodes := None;
          disable_precompiles := None; disable_all_precompiles := false; disable_all_opcodes := false;
          st_storage := default_storage_args; st_transfers := transfers;
          opcode_iterations := 10; with_fails := false |}.
Definition default_revert_gas : Z := 30000.
Definition default_univ2_args `{A : Alloy} {E} : outcome E UniV2CliArgs :=
  weth ← parsed "1 eth";
  supply ← parsed "5000000 eth";
  mret {| u_num_tokens := 2; u_weth_per_token := weth; u_initial_token_supply := supply;
          u_weth_trade_amount := None; u_token_trade_amount := None |}.

Inductive BuiltinScenario :=
| Blobs (args : BlobsCliArgs)
| Contract (args : CustomContractArgs)
| Erc20 (args : Erc20Args)
| EthFunctions (args : EthFunctionsArgs)
| FillBlock (args : FillBlockArgs)
| Revert (gas_use : Z)
| SetCode (args : SetCodeArgs)
| Storage (args : StorageStressArgs)
| Transfers (args : TransferStressArgs)
| Stress (args : StressCliArgs)
| UniV2 (args : UniV2Args).

Definition invalid_args (s : string) : CliError := CliParamsInvalid (InvalidArgs s).
Definition must_be_positive (bold : string -> string) (name : string) : CliError :=
  invalid_args (bold name +:+ " must be greater than 0").

Section builtin.
Context `{A : Alloy}.
Context {Sd : Type} `{SV : SeedValue Sd, SD : Seeder Sd, SG : !SeedGenerator Sd}.
Variables (bold : string -> string) (block_gas_limit : outcome CliError (option Z))
  (compile : CustomContractCliArgs -> outcome CustomContractArgsError.t CustomContractArgs).

Record BuiltinOptions := {
  bo_accounts_per_agent : option Z;
  bo_seed : Sd;
  bo_spam_rate : option SpamRate;
}.
Definition builtin_options (seedfile : outcome CliError string) (a : SpamCliArgs)
  : outcome CliError BuiltinOptions :=
  seed ← seed_of_args seedfile (sa_rpc_args a);
  rate ← map_err Args (spam_rate (sa_spam_args a));
  mret {| bo_accounts_per_agent := ta_accounts_per_agent (sa_rpc_args a); bo_seed := seed;
          bo_spam_rate := Some rate |}.

(** The accounts that get tokens: those of the spammers. *)
Definition erc20_recipients (options : BuiltinOptions) : outcome CliError (list Address) :=
  agents ← map_err Core (init AgentStore_new ["spammers"]%string
             (Z.to_nat (default 10 (bo_accounts_per_agent options))) (bo_seed options) Spammer);
  spammers ← unwrap (get_agent agents "spammers");
  mret (all_addresses spammers).

(** [setCode execute] takes its signature and arguments from the subcommand. *)
Definition setcode_cli (args : SetCodeCliArgs) : outcome CliError SetCodeCliArgs :=
  match command args with
  | Some execute_args =>
      let given_args := bool_decide (is_Some (call_args args)) in
      let given_sig := bool_decide (is_Some (sig args)) in
      ensure (negb (given_args || given_sig))
        (invalid_args ((if given_args then bold "--args" else "") +:+
           (if given_sig then (if given_args then " and " else "") +:+ bold "--sig" else "") +:+
           " may not be provided to " +:+ bold "setCode" +:+ " when calling " +:+
           bold "setCode execute"));;
      to_setcode_cli_args execute_args args
  | None => mret args
  end.

Definition to_builtin_scenario (options : BuiltinOptions) (scenario : BuiltinScenarioCli)
  : outcome CliError BuiltinScenario :=
  match scenario with
  | CliBlobs args => mret (Blobs args)
  | CliContract args => map_err CliError.CustomContractArgs (fmap (M := outcome _) Contract (compile args))
  | CliErc20 args =>
      recipients ← erc20_recipients options;
      mret (Erc20 (erc20_args args recipients))
  | CliFillBlock max_gas =>
      args ← fill_block block_gas_limit (default default_spam_rate (bo_spam_rate options)) max_gas;
      mret (FillBlock args)
  | CliEthFunctions args =>
      ensure (negb (bool_decide (opcodes args = []) && bool_decide (precompiles args = [])))
        (CliParamsInvalid (MissingArgs (bold "--opcode (-o)" +:+ " or " +:+ bold "--precompile (-p)")));;
      mret (EthFunctions args)
  | CliRevert gas_use => mret (Revert gas_use)
  | CliSetCode args =>
      args ← setcode_cli args;
      mret (SetCode (setcode_args args setcode_placeholder))
  | CliStorage args =>
      ensure (negb (num_slots args =? 0)) (must_be_positive bold "--num-slots (-s)");;
      ensure (negb (num_iterations args =? 0)) (must_be_positive bold "--num-iterations (-n)");;
      mret (Storage args)
  | CliTransfers args => mret (Transfers (transfer_args args))
  | CliStress args =>
      ensure (negb (disable_storage args && disable_transfers args && disable_all_opcodes args &&
                    disable_all_precompiles args))
        (CliParamsInvalid (MissingArgs "At least one stress test must be enabled"));;
      mret (Stress args)
  | CliUniV2 args =>
      ensure (negb (u_initial_token_supply args =? 0)) (must_be_positive bold "--initial-token-supply (-i)");;
      ensure (negb (u_num_tokens args =? 0)) (must_be_positive bold "--num-tokens (-n)");;
      ensure (negb (u_weth_per_token args =? 0)) (must_be_positive bold "--weth-per-token (-w)");;
      ensure (match u_token_trade_amount args with Some amount => negb (amount =? 0) | None => true end)
        (must_be_positive bold "--token-trade-amount");;
      mret (UniV2 (univ2_args args))
  end.

Definition stress_title (a : StressCliArgs) : outcome CliError string :=
  let disabled :=
    ((if disable_storage a then ["storage"%string] else []) ++
     (if disable_transfers a then ["transfers"%string] else []) ++
     (if disable_all_opcodes a then ["all opcodes"%string] else []) ++
     (if disable_all_precompiles a then ["all precompiles"%string] else [])) in
  let disabled_str :=
    match disabled with [] => "" | _ => " (sans " +:+ join ", " disabled +:+ ")" end in
  n ← arith 64 (Z.of_nat (length Opcode.iter) -
                Z.of_nat (length (default [] (disable_opcodes a))));
  mret ("stress" +:+ disabled_str +:+ ": " +:+ dec n +:+ " opcodes, " +:+
        dec (num_slots (st_storage a)) +:+ " storage slots")%string.

(** [BuiltinScenario::title]. *)
Definition title (s : BuiltinScenario) : outcome CliError string :=
  match s with
  | Blobs _ => mret "blobs"
  | Contract args => mret ("custom contract: " +:+ cc_name (contract args))
  | Erc20 _ => mret "erc20 transfers"
  | FillBlock _ => mret "fill-block"
  | EthFunctions args =>
      mret (join ", " ((to_lowercase ∘ Opcode.text <$> opcodes args) ++
                       (to_lowercase ∘ Precompile.text <$> precompiles args))%list)
  | Revert _ => mret "reverts"
  | SetCode _ => mret "setCode (eip-7702)"
  | Storage args =>
      mret ("storage (" +:+ dec (num_slots args) +:+ " slots" +:+
            (if (1 <? num_iterations args)%Z then ", " +:+ dec (num_iterations args) +:+ " iterations" else "") +:+
            ")")
  | Transfers _ => mret "ETH transfers"
  | Stress args => stress_title args
  | UniV2 args => mret ("uni-v2 (" +:+ dec (num_tokens args) +:+ " tokens)")
  end%string.

(** [From<BuiltinScenario> for TestConfig]; the clock is read for deadlines. *)
Definition to_testconfig (now : option Z) (s : BuiltinScenario) : outcome CliError TestConfig :=
  match s with
  | Blobs args => mret (blobs_config args)
  | Contract args => mret (custom_contract_config args)
  | Erc20 args => mret (erc20_config args)
  | FillBlock args => fill_block_config args
  | EthFunctions args => mret (eth_functions_config args)
  | Revert gas_use => revert_config gas_use
  | SetCode args => mret (setcode_config args)
  | Storage args => mret (storage_config args)
  | Transfers args => mret (transfers_config args)
  | Stress args => mret (stress_config args)
  | UniV2 args => univ2_config now args
  end.

(** What the spam command uses of them. *)
#[export] Instance builtin_ops (now : option Z) : BuiltinOps BuiltinScenario := {|
  builtin_config := to_testconfig now;
  builtin_title := title;
  builtin_blobs s := match s with Blobs _ => true | _ => false end;
  builtin_set_code s := match s with SetCode _ => true | _ => false end |}.
End builtin.

(** ** Properties of the Uniswap scenario *)

(** What a setup step takes of a token from the admin's account: its part of a
    pool's liquidity, or what is transferred. *)
Definition amount_of (x : string) : Z := default 0 (parse_uint 256 x).
Definition spent (token : string) (f : FunctionCallDefinition) : Z :=
  match fc_signature f, fc_args f with
  | Some sig, Some args =>
      if String.eqb sig add_liquidity_sig then
        match args with
        | a :: b :: x :: y :: _ => (if decide (a = token) then amount_of x else 0) +
                                   (if decide (b = token) then amount_of y else 0)
        | _ => 0
        end
      else if String.eqb sig token_transfer_sig then
        match args with
        | _ :: x :: _ => if decide (fc_to f = token) then amount_of x else 0
        | _ => 0
        end
      else 0
  | _, _ => 0
  end.
Definition total_spent (token : string) (l : list FunctionCallDefinition) : Z :=
  sumZ (spent token <$> l).

Lemma total_spent_app token l k : total_spent token (l ++ k) = total_spent token l + total_spent token k.
Proof. unfold total_spent. by rewrite fmap_app, sumZ_app. Qed.
Lemma total_spent_cons token f l : total_spent token (f :: l) = spent token f + total_spent token l.
Proof. reflexivity. Qed.

Lemma amount_of_dec v : 0 <= v < 2 ^ 256 -> amount_of (dec v) = v.
Proof. intros Hv. unfold amount_of. by rewrite parse_dec. Qed.

Lemma spent_add_liquidity {E} now router ta tb x y f token :
  add_liquidity (E := E) now router ta tb x y = Ok f -> 0 <= x < 2 ^ 256 -> 0 <= y < 2 ^ 256 ->
  spent token f = (if decide (template_name ta = token) then x else 0) +
                  (if decide (template_name tb = token) then y else 0).
Proof.
  intros Hf Hx Hy. unfold add_liquidity in Hf. inv_outcome. unfold spent. cbn [fc_signature fc_args
    with_gas_limit call_of with_args with_kind with_signature].
  by rewrite String.eqb_refl, !amount_of_dec.
Qed.

Lemma spent_transfer token tok to x :
  0 <= x < 2 ^ 256 ->
  spent token (token_transfer tok to x) = if decide (template_name tok = token) then x else 0.
Proof.
  intros Hx. unfold spent, token_transfer. cbn [fc_signature fc_args fc_to with_gas_limit call_of
    with_args with_kind with_signature FunctionCallDefinition_new].
  change (String.eqb token_transfer_sig add_liquidity_sig) with false. cbv iota.
  by rewrite String.eqb_refl, amount_of_dec.
Qed.

Lemma spent_pair token v ta tb : spent token (create_pair (uv_factory v) ta tb) = 0.
Proof. reflexivity. Qed.
Lemma spent_approve token t s : spent token (approve_max t s) = 0.
Proof. reflexivity. Qed.

Lemma find_contract_name {E} l n c : find_contract (E := E) l n = Ok c -> cc_name c = n.
Proof.
  unfold find_contract. intros H%unwrap_ok.
  destruct (list_find _ l) as [[i d]|] eqn:Hl; [|discriminate H]. injection H as <-.
  by apply list_find_Some in Hl as (_ & ? & _).
Qed.

(** The templates of tokens. *)
Definition token_template (i : Z) : string := placeholder (token_name (i + 1)).
Lemma token_template_eq c i : cc_name c = token_name (i + 1) -> template_name c = token_template i.
Proof. unfold template_name. by intros ->. Qed.
Lemma token_template_inj i j : 0 <= i -> 0 <= j -> token_template i = token_template j -> i = j.
Proof.
  intros Hi Hj H. unfold token_template, placeholder in H. injection H as H.
  assert (Hd : dec (i + 1) = dec (j + 1)).
  { apply (f_equal (strip_suffix "}")) in H. rewrite !strip_suffix_app in H. by injection H. }
  apply dec_inj in Hd; lia.
Qed.
Lemma token_template_weth i : token_template i <> placeholder "weth".
Proof. discriminate. Qed.

Section univ2.
Context {E : Type} (a : UniV2Args) (v : UniV2Env).
Hypotheses (Hw : cc_name (uv_weth v) = "weth"%string) (Hpool : 0 <= uv_pool v < 2 ^ 256)
  (Hweth : 0 <= weth_per_token a < 2 ^ 256) (Hsupply : 0 <= initial_token_supply a < 2 ^ 256).

Lemma weth_template : template_name (uv_weth v) = placeholder "weth".
Proof. unfold template_name. by rewrite Hw. Qed.

Lemma other_pairs_spent token i js setup spam :
  other_pairs (E := E) a v token js = Ok (setup, spam) ->
  cc_name token = token_name (i + 1) -> 0 <= i -> Forall (Z.le 0) js -> NoDup js -> i ∉ js ->
  (forall k, 0 <= k -> total_spent (token_template k) setup =
     uv_pool v * (if decide (k = i) then Z.of_nat (length js) else if decide (k ∈ js) then 1 else 0)) /\
  total_spent (placeholder "weth") setup = 0 /\ length spam = (2 * length js)%nat.
Proof.
  intros H Htok Hi. revert setup spam H. induction js as [|j js IH]; intros setup spam H Hjs Hnd Hin.
  - injection H as <- <-. split_and!; [|reflexivity|reflexivity]. intros k Hk. cbn.
    repeat case_decide; (lia || set_solver).
  - cbn [other_pairs] in H. inv_outcome. destruct x1 as [setup' spam']. inv_outcome.
    rename select (find_contract _ _ = Ok _) into Hc. apply find_contract_name in Hc.
    rename select (add_liquidity _ _ _ _ _ _ = Ok _) into Hl.
    rename select (other_pairs _ _ _ _ = Ok _) into Ho.
    apply Forall_cons in Hjs as [Hj Hjs]. apply NoDup_cons in Hnd as [Hjn Hnd].
    apply not_elem_of_cons in Hin as [Hij Hin].
    destruct (IH _ _ Ho Hjs Hnd Hin) as (Hs & Hws & Hlen). split_and!.
    + intros k Hk. rewrite !total_spent_cons, spent_pair, Hs by exact Hk.
      rewrite (spent_add_liquidity _ _ _ _ _ _ _ _ Hl) by assumption.
      rewrite (token_template_eq _ _ Htok), (token_template_eq _ _ Hc).
      assert (Heq : forall u, 0 <= u -> token_template u = token_template k <-> u = k).
      { intros u Hu. split; [by apply token_template_inj|by intros ->]. }
      rewrite (decide_ext _ _ _ _ (Heq i Hi)), (decide_ext _ _ _ _ (Heq j Hj)).
      cbn [length]. rewrite (decide_ext _ _ _ _ (elem_of_cons js k j)).
      repeat case_decide; subst; solve [lia | rewrite Nat2Z.inj_succ; lia | exfalso; intuition congruence].
    + rewrite !total_spent_cons, spent_pair, Hws.
      rewrite (spent_add_liquidity _ _ _ _ _ _ _ _ Hl) by assumption.
      rewrite (token_template_eq _ _ Htok), (token_template_eq _ _ Hc).
      by rewrite !decide_False by apply token_template_weth.
    + cbn [length]. lia.
Qed.

Lemma token_steps_spec ids setup spam :
  token_steps (E := E) a v ids = Ok (setup, spam) -> Forall (Z.le 0) ids -> NoDup ids ->
  (forall k, 0 <= k -> total_spent (token_template k) setup =
     if decide (k ∈ ids) then uv_pool v * Z.of_nat (length ids) + liquidity_amount a else 0) /\
  total_spent (placeholder "weth") setup = weth_per_token a * Z.of_nat (length ids) /\
  length spam = (length ids * S (length ids))%nat.
Proof.
  assert (Hliq : 0 <= liquidity_amount a < 2 ^ 256).
  { unfold liquidity_amount. split; [apply Z.div_pos; lia|].
    apply Z.le_lt_trans with (initial_token_supply a); [apply Z.div_le_upper_bound; lia|lia]. }
  revert setup spam. induction ids as [|i ids IH]; intros setup spam H Hids Hnd.
  - injection H as <- <-. split_and!; [|cbn; lia|reflexivity]. intros k Hk.
    rewrite decide_False by apply not_elem_of_nil. reflexivity.
  - cbn [token_steps] in H. inv_outcome. destruct x1 as [setup1 spam1]. inv_outcome.
    destruct x1 as [setup2 spam2]. inv_outcome.
    rename select (find_contract _ _ = Ok _) into Hc. apply find_contract_name in Hc.
    rename select (add_liquidity _ _ _ _ _ _ = Ok _) into Hl.
    rename select (other_pairs _ _ _ _ = Ok _) into Ho.
    rename select (token_steps _ _ _ = Ok _) into Ht.
    apply Forall_cons in Hids as [Hi Hids]. apply NoDup_cons in Hnd as [Hin Hnd].
    destruct (IH _ _ Ht Hids Hnd) as (Hs & Hws & Hlen).
    destruct (other_pairs_spent _ _ _ _ _ Ho Hc Hi Hids Hnd Hin) as (Hos & How & Holen). split_and!.
    + intros k Hk. rewrite !total_spent_cons, total_spent_app, total_spent_cons, spent_pair.
      rewrite (spent_add_liquidity _ _ _ _ _ _ _ _ Hl), spent_transfer, Hos, Hs by assumption.
      rewrite weth_template, (token_template_eq _ _ Hc).
      rewrite (decide_False (P := placeholder "weth" = _))
        by (intros Heq; by apply (token_template_weth k)).
      assert (Heq : token_template i = token_template k <-> k = i).
      { split; [intros Heq; symmetry; by apply token_template_inj|by intros ->]. }
      rewrite (decide_ext _ _ _ _ Heq), (decide_ext _ _ _ _ (elem_of_cons ids k i)). cbn [length].
      repeat case_decide; subst; solve [lia | rewrite Nat2Z.inj_succ; lia | exfalso; intuition congruence].
    + rewrite !total_spent_cons, total_spent_app, total_spent_cons, spent_pair, How, Hws.
      rewrite (spent_add_liquidity _ _ _ _ _ _ _ _ Hl), spent_transfer by assumption.
      rewrite weth_template, (token_template_eq _ _ Hc), decide_True by reflexivity.
      rewrite !decide_False by apply token_template_weth. cbn [length]. lia.
    + cbn [length]. rewrite length_app. lia.
Qed.
End univ2.

Lemma total_spent_approvals token router ids l steps :
  mapM (M := outcome CliError) (fun i => t ← find_contract steps (token_name (i + 1));
     mret (approve_max t router)) ids = Ok l ->
  total_spent token l = 0.
Proof.
  intros H%mapM_ok. induction H as [|i f ids l Hf Hl IH]; [reflexivity|].
  inv_outcome. by rewrite total_spent_cons, spent_approve, IH.
Qed.

Lemma sum32 {E} n x : 0 < n < 2 ^ 32 -> arith (E := E) 32 (n + 1) = Ok x -> x <> 0 -> x = n + 1.
Proof.
  intros Hn Ha Hx. apply arith_wrap in Ha as ->; [|lia]. unfold wrap in *.
  destruct (Z.eq_dec (n + 1) (2 ^ 32)) as [Heq|]; [by rewrite Heq in Hx|]. apply Z.mod_small. lia.
Qed.

Lemma pool_liquidity_ok {E} a x :
  0 < num_tokens a < 2 ^ 32 -> pool_liquidity_amount (E := E) a = Ok x ->
  x = liquidity_amount a / (num_tokens a + 1).
Proof.
  intros Hn H. unfold pool_liquidity_amount in H. inv_outcome.
  rename select (arith 32 _ = Ok _) into Ha. f_equal. eapply sum32; [exact Hn|exact Ha|]. lia.
Qed.

(** The contract that steps find under a token's name is the one minted for it. *)
Lemma find_token supply n i rest :
  0 <= i < Z.of_nat n ->
  find (fun cd => String.eqb (template_name (cd_contract cd)) (token_template i))
    (((fun i => create_by_admin (test_token (i + 1) supply)) <$> rangeZ n) ++ rest) =
  Some (create_by_admin (test_token (i + 1) supply)).
Proof.
  intros Hi. assert (Hin : i ∈ rangeZ n).
  { apply list_elem_of_fmap. exists (Z.to_nat i). rewrite elem_of_seq. lia. }
  assert (Hpos : Forall (Z.le 0) (rangeZ n)).
  { apply Forall_forall. intros z (k & -> & _)%list_elem_of_fmap. lia. }
  clear Hi. revert Hpos. generalize (rangeZ n) Hin. clear n Hin. intros r Hin.
  induction Hin as [k l|k j l Hin IH]; intros Hpos.
  - cbn. by rewrite String.eqb_refl.
  - apply Forall_cons in Hpos as [Hj Hpos]. cbn [fmap list_fmap app find].
    destruct (String.eqb_spec (template_name (cd_contract (create_by_admin (test_token (j + 1) supply))))
                (token_template k)) as [Heq|]; [|by apply IH].
    change (token_template j = token_template k) in Heq.
    apply token_template_inj in Heq as ->; [done|lia|].
    rewrite Forall_forall in Hpos. by apply Hpos.
Qed.

(** The Uniswap scenario is balanced whatever the number of tokens: its setup
    deposits exactly as much WETH as it then spends, takes no more of any token
    than was minted for it, and there are as many swaps as ordered pairs of
    different tokens, WETH among them. *)
Theorem univ2_balanced now a c :
  univ2_config (E := CliError) now a = Ok c -> 0 < num_tokens a < 2 ^ 32 ->
  0 <= weth_per_token a -> weth_per_token a * (num_tokens a + 1) < 2 ^ 256 ->
  0 <= initial_token_supply a < 2 ^ 256 ->
  exists deposit setup spam, tc_setup c = Some (deposit :: setup) /\ tc_spam c = Some (Tx <$> spam) /\
    fc_to deposit = placeholder "weth" /\ fc_signature deposit = Some "deposit()"%string /\
    fc_value deposit = Some (dec (total_spent (placeholder "weth") setup)) /\
    (forall i, 0 <= i < num_tokens a ->
       find (fun cd => String.eqb (template_name (cd_contract cd)) (token_template i))
         (default [] (tc_create c)) = Some (create_by_admin (test_token (i + 1) (initial_token_supply a))) /\
       0 <= total_spent (token_template i) setup <= initial_token_supply a) /\
    Z.of_nat (length spam) = num_tokens a * (num_tokens a + 1).
Proof.
  intros Hc Hn Hw0 Hw Hs. unfold univ2_config in Hc. rewrite (proj2 (Z.ltb_lt 0 _)) in Hc by lia.
  inv_outcome. destruct x6 as [setup spam]. inv_outcome. cbn [tc_setup tc_spam tc_create default].
  rename select (pool_liquidity_amount a = Ok _) into Hp. pose proof (pool_liquidity_ok _ _ Hn Hp) as ->.
  rename select (arith 32 _ = Ok _) into Ha.
  assert (x3 = num_tokens a + 1) as ->.
  { unfold pool_liquidity_amount in Hp. rewrite Ha in Hp. cbn [mbind outcome_bind] in Hp.
    eapply sum32; [exact Hn|exact Ha|]. inv_outcome. lia. }
  rename select (token_steps _ _ _ = Ok _) into Ht. rename select (mapM _ _ = Ok _) into Hap.
  rename select (find_contract _ "weth" = Ok _) into Hfw. apply find_contract_name in Hfw.
  assert (Hl : 0 <= liquidity_amount a <= initial_token_supply a).
  { unfold liquidity_amount. split; [apply Z.div_pos; lia|apply Z.div_le_upper_bound; lia]. }
  assert (Hq : 0 <= liquidity_amount a / (num_tokens a + 1) /\
               (num_tokens a + 1) * (liquidity_amount a / (num_tokens a + 1)) <= liquidity_amount a).
  { split; [apply Z.div_pos; lia|apply Z.mul_div_le; lia]. }
  assert (Hl2 : 2 * liquidity_amount a <= initial_token_supply a) by (apply Z.mul_div_le; lia).
  eapply token_steps_spec in Ht as (Hts & Htw & Hlen);
    cbn [uv_weth uv_pool]; [|exact Hfw|nia|nia|exact Hs| |].
  2:{ apply Forall_forall. intros z (k & -> & _)%list_elem_of_fmap. lia. }
  2:{ apply NoDup_fmap_2; [intros ? ?; lia|apply NoDup_seq]. }
  cbn [uv_pool] in Hts. rewrite rangeZ_length, Z2Nat.id in Hts, Htw by lia. rewrite rangeZ_length in Hlen.
  eexists _, _, spam. split_and!; try reflexivity.
  - cbn. by rewrite Hfw.
  - cbn [fc_value with_value set_value_field]. f_equal. f_equal.
    rewrite !total_spent_cons, total_spent_app, total_spent_cons, !spent_approve, Htw.
    rewrite (total_spent_approvals _ _ _ _ _ Hap), spent_transfer by nia.
    rewrite decide_True by (unfold template_name; by rewrite Hfw).
    unfold wrap. rewrite Z.mod_small by nia. lia.
  - intros i Hi. split; [apply find_token; lia|].
    rewrite !total_spent_cons, total_spent_app, total_spent_cons, !spent_approve, Hts by lia.
    rewrite (total_spent_approvals _ _ _ _ _ Hap), spent_transfer by nia.
    rewrite decide_False by (unfold template_name; rewrite Hfw; intros Heq;
                             symmetry in Heq; by apply (token_template_weth i)).
    rewrite decide_True; [nia|]. apply list_elem_of_fmap. exists (Z.to_nat i).
    rewrite elem_of_seq. split; lia.
  - rewrite Hlen. nia.
Qed.
(** ** Properties of the token scenario *)

Section erc20_props.
Context `{A : Alloy, Sg : !Signing}.
Context {Sd : Type} `{SV : SeedValue Sd, SD : Seeder Sd, SG : !SeedGenerator Sd}.
Context {D : Type} `{DO : DbOps D}.

Lemma erc20_recipients_spec (options : BuiltinOptions (Sd := Sd)) l :
  erc20_recipients options = Ok l ->
  exists pool, SignerStore_new (E := Error) (Z.to_nat (default 10 (bo_accounts_per_agent options)))
                 (bo_seed options) "spammers" Spammer = Ok pool /\ l = all_addresses pool.
Proof.
  unfold erc20_recipients. intros H. inv_outcome.
  rename select (init _ _ _ _ _ = Ok _) into Hi. cbn [init] in Hi. inv_outcome.
  rename select (init_step _ _ _ _ _ = Ok _) into Hs. unfold init_step in Hs.
  replace (has_agent AgentStore_new "spammers") with false in Hs by reflexivity.
  unfold add_new_agent in Hs. inv_outcome.
  rename select (get_agent _ _ = Some _) into Hg. unfold get_agent in Hg. cbn in Hg.
  rewrite lookup_insert_eq in Hg. injection Hg as <-. by eexists.
Qed.

Lemma erc20_create_pool env (a : Erc20Args) :
  "spammers"%string ∉ get_create_pools (with_cli_env env (erc20_config a)).
Proof. unfold get_create_pools. rewrite dedup_elem. cbn. set_solver. Qed.

Lemma erc20_setup_pool env (a : Erc20Args) :
  "spammers"%string ∉ get_setup_pools (with_cli_env env (erc20_config a)).
Proof.
  unfold get_setup_pools. rewrite dedup_elem. unfold sort_strings. rewrite merge_sort_Permutation.
  cbn. intros (f & Hf & Hs)%list_elem_of_omap. rewrite map_map in Hf.
  apply list_elem_of_In, in_map_iff in Hf as (r & <- & _). discriminate Hs.
Qed.

(** The plan of the scenario has one pool of spammers, made from the seed. *)
Lemma erc20_agents (a : Erc20Args) env (seed : Sd) n st :
  config_agent_store (with_cli_env env (erc20_config a)) seed (spam_agent_spec (Builtin (Erc20 a)) n) = Ok st ->
  0 < n ->
  exists pool, agents st !! "spammers"%string = Some pool /\
    SignerStore_new (E := Error) (Z.to_nat n) seed "spammers" Spammer = Ok pool.
Proof.
  intros H Hn. unfold config_agent_store in H. inv_outcome.
  rename select (get_spam_pools _ = Ok _) into Hp.
  rename select (build_agent_store _ _ _ _ _ = Ok _) into Hb.
  assert (x = ["spammers"]%string) as ->.
  { unfold get_spam_pools in Hp. cbn in Hp. unfold erc20_spam_tx in Hp.
    destruct (token_recipient a); injection Hp as <-; reflexivity. }
  clear Hp. unfold build_agent_store in Hb. eapply add_pools_made in Hb.
  - exact Hb.
  - apply NoDup_fst_map_to_list.
  - apply elem_of_map_to_list. rewrite pool_max_signers_lookup. unfold demand. cbn [mbind list_bind].
    rewrite bool_decide_eq_false_2 by apply erc20_create_pool.
    rewrite bool_decide_eq_false_2 by apply erc20_setup_pool.
    rewrite bool_decide_eq_true_2 by apply list_elem_of_singleton, eq_refl. reflexivity.
  - cbn. lia.
Qed.

(** The token scenario gives tokens to the accounts that will send them: run
    by the spam command with the seed and the number of accounts it was made
    with, its plan has a pool of that many spammers, and the setup has a
    transfer of the funded amount to each of them. *)
Theorem erc20_senders_funded now bold limit compile connect load seedfile sargs args options e b
    (env : InitScenarioEnv (D := D)) plan :
  builtin_options (Sd := Sd) seedfile sargs = Ok options ->
  to_builtin_scenario bold limit compile options (CliErc20 e) = Ok b ->
  SpamCommandArgs_new seedfile (Builtin b) sargs = Ok args ->
  ta_override_senders (sa_rpc_args sargs) = false ->
  0 < default 10 (ta_accounts_per_agent (sa_rpc_args sargs)) ->
  spam_plan (BO := builtin_ops now) connect load args env = Ok plan ->
  exists pool setup, agents (pl_agents plan) !! "spammers"%string = Some pool /\
    Z.of_nat (length (signers pool)) = default 10 (ta_accounts_per_agent (sa_rpc_args sargs)) /\
    tc_setup (pl_testconfig plan) = Some setup /\
    forall r, r ∈ all_addresses pool -> exists f, f ∈ setup /\
      fc_to f = placeholder "testToken0" /\ fc_signature f = Some transfer_sig /\
      fc_args f = Some [address_to_string r; dec (e_fund_amount e)].
Proof.
  intros Ho Hb Ha Hsend Hn Hplan. unfold builtin_options in Ho. inv_outcome.
  unfold SpamCommandArgs_new in *. inv_outcome. cbn [to_builtin_scenario] in Hb. inv_outcome.
  rename select (erc20_recipients _ = Ok _) into Hr.
  apply erc20_recipients_spec in Hr as (pool & Hpool & ->). cbn [bo_accounts_per_agent bo_seed] in Hpool.
  apply spam_plan_ok in Hplan as (testconfig & total & Hc & Hcfg & _ & _ & _ & _ & _ & Hag).
  cbn [scenario spam_args seed] in *.
  unfold args_testconfig in Hc. rewrite Hsend in Hc.
  apply bind_ok in Hc as (tc & Hc & [= ->]).
  cbn in Hc. injection Hc as <-. assert (x1 = x) as -> by congruence.
  rewrite Hcfg in Hag |- *. apply erc20_agents in Hag as (pool' & Hpool' & Hnew); [|exact Hn].
  assert (pool' = pool) as -> by congruence.
  apply SignerStore_new_ok in Hpool as (Hlen & _ & _). eexists pool, _.
  split_and!; [exact Hpool'|rewrite Hlen; lia|reflexivity|].
  intros r Hr. eexists. split; [by apply list_elem_of_fmap_2|]. by split_and!.
Qed.
End erc20_props.

(** ** Properties of the stress scenario *)

(** Whether a step calls the function of the contract for a name. *)
Definition calls (sig name : string) (s : SpamRequest) : bool :=
  match s with
  | Tx f => bool_decide (fc_signature f = Some sig) &&
            bool_decide (head (default [] (fc_args f)) = Some name)
  | Bundle _ => false
  end.
Definition count_calls (sig name : string) (l : list SpamRequest) : nat :=
  length (filter (fun s => calls sig name s = true) l).

Lemma count_calls_app sig name l k :
  count_calls sig name (l ++ k) = (count_calls sig name l + count_calls sig name k)%nat.
Proof. unfold count_calls. by rewrite filter_app, length_app. Qed.

Lemma count_calls_none sig name l :
  Forall (fun s => calls sig name s = false) l -> count_calls sig name l = 0%nat.
Proof.
  unfold count_calls. intros H. rewrite filter_nil_forall; [done|].
  rewrite Forall_forall in H. intros s Hs. by rewrite (H s Hs).
Qed.

(** Steps made from different names call each of them once. *)
Lemma count_calls_fmap {T} `{!EqDecision T} sig (name : T -> string) (step : T -> SpamRequest)
    (l all : list T) x :
  (forall y, calls sig (name x) (step y) = bool_decide (name y = name x)) ->
  (forall y, y ∈ l -> y ∈ all) -> x ∈ all -> NoDup (name <$> all) -> NoDup l ->
  count_calls sig (name x) (step <$> l) = if decide (x ∈ l) then 1%nat else 0%nat.
Proof.
  intros Hstep Hsub Hx Hall Hnd.
  assert (Hinj : forall y, y ∈ l -> name y = name x -> y = x).
  { intros y Hy Heq. apply Hsub in Hy. apply list_elem_of_lookup in Hy as [i Hi].
    apply list_elem_of_lookup in Hx as [j Hj].
    assert (i = j) as ->; [|congruence].
    eapply NoDup_lookup; [exact Hall|rewrite list_lookup_fmap, Hi; reflexivity|].
    rewrite list_lookup_fmap, Hj. cbn. by rewrite Heq. }
  clear Hsub. induction l as [|y l IH]; [by rewrite decide_False by apply not_elem_of_nil|].
  apply NoDup_cons in Hnd as [Hy Hnd].
  change (step <$> y :: l) with ([step y] ++ (step <$> l)). rewrite count_calls_app, IH;
    [|exact Hnd|intros z Hz; apply Hinj; by right].
  unfold count_calls. cbn. rewrite Hstep.
  destruct (decide (y = x)) as [->|Hne].
  - rewrite bool_decide_eq_true_2 by reflexivity. cbn.
    by rewrite (decide_False (P := x ∈ l)), (decide_True (P := x ∈ x :: l)) by (done || left).
  - rewrite bool_decide_eq_false_2 by (intros Heq; apply Hne, Hinj; [left|exact Heq]). cbn.
    rewrite (decide_ext _ _ _ _ (elem_of_cons l x y)). repeat case_decide; naive_solver.
Qed.

Definition opcode_arg (o : EthereumOpcode) : string := to_lowercase (Opcode.text o).
Lemma opcode_args_differ : NoDup (opcode_arg <$> Opcode.iter).
Proof. apply (bool_decide_unpack _). vm_compute. exact I. Qed.
Lemma opcodes_differ : NoDup Opcode.iter.
Proof. apply (NoDup_fmap_1 opcode_arg), opcode_args_differ. Qed.
Lemma opcode_in_iter o : o ∈ Opcode.iter.
Proof. eapply list_elem_of_lookup_2, Opcode.iter_index. Qed.
Lemma precompiles_differ : NoDup (Precompile.method <$> Precompile.iter).
Proof. apply (bool_decide_unpack _). vm_compute. exact I. Qed.
Lemma precompile_in_iter p : p ∈ Precompile.iter.
Proof. destruct p; set_solver. Qed.
Definition precompile_sig : string := "callPrecompile(string memory method, uint256 iterations)".

Lemma bool_decide_head x y (l : list string) :
  bool_decide (head (x :: l) = Some y) = bool_decide (x = y).
Proof. apply bool_decide_ext. cbn. split; [by intros [= ->]|by intros ->]. Qed.

Lemma stress_fails_calls a o :
  count_calls consume_gas_sig (opcode_arg o) (stress_fails a) =
  if decide (o ∈ failing_opcodes /\ disable_all_opcodes a = false /\ with_fails a = true /\
             (o ∉ default [] (disable_opcodes a))) then 1%nat else 0%nat.
Proof.
  unfold stress_fails. destruct (disable_all_opcodes a); cbn [negb andb].
  { rewrite decide_False by naive_solver. reflexivity. }
  destruct (with_fails a); [|rewrite decide_False by naive_solver; reflexivity].
  rewrite !count_calls_app.
  assert (Hc : forall x req, calls consume_gas_sig (opcode_arg o) (Tx req) = bool_decide (x = o) ->
    count_calls consume_gas_sig (opcode_arg o)
      (if decide (x ∈ default [] (disable_opcodes a)) then [] else [Tx req]) =
    if decide (x = o /\ (o ∉ default [] (disable_opcodes a))) then 1%nat else 0%nat).
  { intros x req Hr. destruct (decide (x ∈ default [] (disable_opcodes a))) as [Hin|Hin].
    - rewrite (decide_False (P := _ /\ _)) by (intros [-> ?]; done). reflexivity.
    - unfold count_calls. rewrite filter_cons. destruct (decide (_ = true)) as [Hd|Hd]; rewrite Hr in Hd.
      + apply bool_decide_eq_true in Hd as ->. by rewrite (decide_True (P := _ /\ _)).
      + rewrite (decide_False (P := _ /\ _)); [done|]. intros [-> _]. apply Hd.
        by apply bool_decide_eq_true. }
  rewrite !Hc; [|destruct o; reflexivity..].
  destruct (decide (o ∈ default [] (disable_opcodes a))).
  - rewrite !(decide_False (P := _ /\ _)) by naive_solver. reflexivity.
  - unfold failing_opcodes. repeat case_decide; destruct_and?; subst; try reflexivity;
      exfalso; set_solver.
Qed.
(** The steps before the opcodes call none of them. *)
Lemma opcode_steps_count a o :
  count_calls consume_gas_sig (opcode_arg o) (opcode_txs (opcodes (stress_functions a)) (opcode_iterations a)) =
  if decide (o ∈ opcodes (stress_functions a)) then 1%nat else 0%nat.
Proof.
  apply (count_calls_fmap consume_gas_sig opcode_arg (opcode_tx _) _ Opcode.iter).
  - intros y. cbn [calls opcode_tx fc_signature fc_args with_kind with_args with_signature default].
    rewrite bool_decide_eq_true_2 by reflexivity. apply bool_decide_head.
  - intros y _. apply opcode_in_iter.
  - apply opcode_in_iter.
  - apply opcode_args_differ.
  - cbn [opcodes stress_functions]. case_bool; [constructor|]. apply NoDup_filter, opcodes_differ.
Qed.

Lemma precompile_steps_count a p :
  count_calls precompile_sig (Precompile.method p)
    (precompile_txs (precompiles (stress_functions a)) (opcode_iterations a)) =
  if decide (p ∈ precompiles (stress_functions a)) then 1%nat else 0%nat.
Proof.
  apply (count_calls_fmap precompile_sig Precompile.method (precompile_tx _) _ Precompile.iter).
  - intros y. cbn [calls precompile_tx fc_signature fc_args with_kind with_args with_signature default].
    rewrite bool_decide_eq_true_2 by reflexivity. apply bool_decide_head.
  - intros y _. apply precompile_in_iter.
  - apply precompile_in_iter.
  - apply precompiles_differ.
  - cbn [precompiles stress_functions]. case_bool; [constructor|].
    apply NoDup_filter, (NoDup_fmap_1 Precompile.method), precompiles_differ.
Qed.

(** Steps that are not calls of the kind asked for. *)
Lemma storage_steps_count sig name (b : bool) a :
  sig = consume_gas_sig \/ sig = precompile_sig ->
  count_calls sig name (if b then [] else storage_spam a) = 0%nat.
Proof. intros [-> | ->]; destruct b; reflexivity. Qed.
Lemma transfer_steps_count sig name (b : bool) a :
  count_calls sig name (if b then [] else transfer_spam a) = 0%nat.
Proof. destruct b; reflexivity. Qed.

Lemma precompiles_no_opcode l n name : count_calls consume_gas_sig name (precompile_txs l n) = 0%nat.
Proof.
  apply count_calls_none, Forall_forall. intros s (p & -> & _)%list_elem_of_fmap. reflexivity.
Qed.
Lemma opcodes_no_precompile l n name : count_calls precompile_sig name (opcode_txs l n) = 0%nat.
Proof.
  apply count_calls_none, Forall_forall. intros s (o & -> & _)%list_elem_of_fmap. reflexivity.
Qed.
Lemma fails_no_precompile a name : count_calls precompile_sig name (stress_fails a) = 0%nat.
Proof.
  apply count_calls_none, Forall_forall. unfold stress_fails. intros s Hs.
  case_bool; [|by apply not_elem_of_nil in Hs].
  rewrite !elem_of_app in Hs. repeat case_decide; set_solver.
Qed.

(** The stress scenario calls every opcode and every precompile once that it
    is to call, and the others not at all: an opcode unless it or all of them are
    disabled, those that fail only when asked for; a precompile likewise, the
    identity only with the failing ones. *)
Theorem stress_coverage `{A : Alloy} (a : StressCliArgs) :
  exists spam, tc_spam (stress_config a) = Some spam /\
    (forall o, count_calls consume_gas_sig (opcode_arg o) spam =
       if decide (disable_all_opcodes a = false /\ (o ∉ default [] (disable_opcodes a)) /\
                  (o ∈ failing_opcodes -> with_fails a = true)) then 1%nat else 0%nat) /\
    (forall p, count_calls precompile_sig (Precompile.method p) spam =
       if decide (disable_all_precompiles a = false /\ (p ∉ default [] (disable_precompiles a)) /\
                  (p = Precompile.Identity -> with_fails a = true)) then 1%nat else 0%nat).
Proof.
  eexists. split; [reflexivity|]. split; intros x; rewrite !count_calls_app.
  - rewrite storage_steps_count, transfer_steps_count by (by left). unfold eth_functions_spam.
    rewrite count_calls_app, precompiles_no_opcode, stress_fails_calls.
    cbn [ef_num_iterations stress_functions]. fold (stress_functions a).
    rewrite opcode_steps_count.
    assert (Hin : x ∈ opcodes (stress_functions a) <->
      disable_all_opcodes a = false /\ (x ∉ default [] (disable_opcodes a)) /\ x ∉ failing_opcodes).
    { cbn [opcodes stress_functions]. unfold stress_opcodes.
      destruct (disable_all_opcodes a); [rewrite elem_of_nil; naive_solver|]. rewrite list_elem_of_filter. pose proof (opcode_in_iter x). tauto. }
    rewrite (decide_ext _ _ _ _ Hin).
    destruct (decide (x ∈ failing_opcodes)); destruct (disable_all_opcodes a), (with_fails a);
      repeat case_decide; destruct_and?; try reflexivity; exfalso; tauto.
  - rewrite storage_steps_count, transfer_steps_count, fails_no_precompile by (by right).
    unfold eth_functions_spam. rewrite count_calls_app, opcodes_no_precompile.
    cbn [ef_num_iterations stress_functions]. fold (stress_functions a). rewrite precompile_steps_count.
    assert (Hin : x ∈ precompiles (stress_functions a) <->
      disable_all_precompiles a = false /\ (x ∉ default [] (disable_precompiles a)) /\
      (x = Precompile.Identity -> with_fails a = true)).
    { cbn [precompiles stress_functions]. unfold stress_precompiles.
      destruct (disable_all_precompiles a); [rewrite elem_of_nil; naive_solver|].
      rewrite list_elem_of_filter. pose proof (precompile_in_iter x).
      destruct (decide (x = Precompile.Identity)), (with_fails a); naive_solver. }
    rewrite (decide_ext _ _ _ _ Hin). case_decide; reflexivity.
Qed.

(** ** Properties of filling blocks *)

(** A scenario that fills blocks has a step for each transaction of a period,
    and their gas limits add up to no more than the block's limit, from which
    less than one unit for each transaction is missing. *)
Theorem fill_block_gas limit rate max args (c : TestConfig) :
  fill_block limit rate max = Ok args -> fill_block_config (E := CliError) args = Ok c ->
  0 < rate_txs rate ->
  exists spam gas, tc_spam c = Some spam /\ Z.of_nat (length spam) = rate_txs rate /\
    Forall (fun s => exists f, s = Tx f /\ fc_gas_limit f = Some gas) spam /\
    rate_txs rate * gas <= max_gas_per_block args < rate_txs rate * gas + rate_txs rate /\
    match max with
    | Some g => max_gas_per_block args = g
    | None => exists o, limit = Ok o /\ max_gas_per_block args = default 30000000 o
    end.
Proof.
  intros Hf Hc Hr. unfold fill_block in Hf. inv_outcome. unfold fill_block_config in Hc. inv_outcome.
  cbn [num_txs max_gas_per_block].
  eexists _, _. split_and!; [reflexivity| | | | |].
  - rewrite length_replicate. lia.
  - apply Forall_replicate. eexists. split; reflexivity.
  - apply Z.mul_div_le. lia.
  - rewrite <- Z.mul_succ_r. apply Z.mul_succ_div_gt. lia.
  - destruct max as [g|]; inv_outcome; [done|]. by eexists.
Qed.
End scenarios.

(** ** Applications *)

Module BuiltinsWitness.
Export SpamCommandWitness.

#[export] Instance files : ScenarioFiles := {|
  counter_hex := "c0"; smart_wallet_hex := "50"; spam_me_hex := "5a"; spam_me_6_hex := "56";
  test_token_hex := "70";
  uniV2_toml := with_create
    ((fun n => CreateDefinition_new (CompiledContract_new "00" n)) <$>
       ["weth"; "testToken"; "testToken2"; "uniV2Factory"; "uniRouterV2"; "unicheat"]%string)
    TestConfig_new |}.

Definition tokens (n : Z) : UniV2Args := univ2_args {|
  u_num_tokens := n; u_weth_per_token := 10 ^ 18; u_initial_token_supply := 5 * 10 ^ 24;
  u_weth_trade_amount := None; u_token_trade_amount := None |}.

Lemma univ2_balanced_witness :
  exists c setup, univ2_config (E := CliError) (Some 1700000000) (tokens 3) = Ok c /\
    tc_setup c = Some setup /\ length (default [] (tc_spam c)) = 12%nat.
Proof.
  run_ok (univ2_config (E := CliError) (Some 1700000000) (tokens 3)) c Hc.
  destruct (univ2_balanced (Some 1700000000) (tokens 3) c Hc) as (d & setup & spam & Hs & Hsp & _ & _ & _ & _ & Hl).
  - split; reflexivity.
  - discriminate.
  - reflexivity.
  - split; [discriminate|reflexivity].
  - exists c, (d :: setup). split_and!; [exact Hc|exact Hs|]. rewrite Hsp.
    etransitivity; [apply (length_fmap Tx)|]. cbn in Hl. lia.
Defined.

Lemma fill_block_gas_witness :
  exists a c spam, fill_block (Ok (Some 30000001)) (TxsPerSecond 7) None = Ok a /\
    fill_block_config (E := CliError) a = Ok c /\ tc_spam c = Some spam /\ Z.of_nat (length spam) = 7.
Proof.
  run_ok (fill_block (Ok (Some 30000001)) (TxsPerSecond 7) None) a Ha.
  assert (Hok : is_ok (fill_block_config (E := CliError) a) = true) by (injection Ha as <-; reflexivity).
  destruct (is_ok_ex _ Hok) as [c Hc].
  destruct (fill_block_gas _ _ _ a c Ha Hc eq_refl) as (spam & gas & Hs & Hl & _).
  exists a, c, spam. split_and!; assumption.
Defined.

Definition token_args : Erc20CliArgs :=
  {| e_send_amount := 7; e_fund_amount := 1000; e_token_recipient := None |}.
Definition options : BuiltinOptions (Sd := CountSeed) :=
  {| bo_accounts_per_agent := Some 1; bo_seed := {| count := 0 |}; bo_spam_rate := Some (TxsPerSecond 2) |}.
Definition no_compiler : CustomContractCliArgs -> outcome CustomContractArgsError.t CustomContractArgs :=
  fun _ => Err CustomContractArgsError.SpamArgsEmpty.
Definition erc20_scenario : outcome CliError BuiltinScenario :=
  to_builtin_scenario id (Ok None) no_compiler options (CliErc20 token_args).
Definition spam_plan_of (b : BuiltinScenario) : outcome CliError SpamPlan :=
  spam_plan (BO := builtin_ops (Some 0)) no_engine load_conf
    {| SpamCommand.scenario := Builtin b; spam_args := cli_args; seed := {| count := 0 |} |} start_env.

Lemma erc20_senders_funded_witness :
  exists b plan pool, erc20_scenario = Ok b /\ spam_plan_of b = Ok plan /\
    agents (pl_agents plan) !! "spammers"%string = Some pool /\ length (signers pool) = 1%nat.
Proof.
  assert (Hok : match erc20_scenario with Ok b => is_ok (spam_plan_of b) | _ => false end = true)
    by (vm_compute; reflexivity).
  destruct erc20_scenario as [b|e|] eqn:Hb; [|discriminate Hok..].
  destruct (is_ok_ex _ Hok) as [plan Hplan].
  assert (Ho : builtin_options (Sd := CountSeed) (Ok "seed"%string) cli_args = Ok options) by reflexivity.
  assert (Ha : SpamCommandArgs_new (Sd := CountSeed) (Ok "seed"%string) (Builtin b) cli_args =
    Ok {| SpamCommand.scenario := Builtin b; spam_args := cli_args; seed := {| count := 0 |} |}) by reflexivity.
  destruct (erc20_senders_funded (Some 0) id (Ok None) no_compiler no_engine load_conf (Ok "seed"%string)
    cli_args _ options token_args b start_env plan Ho Hb Ha eq_refl eq_refl Hplan)
    as (pool & setup & Hp & Hl & _).
  exists b, plan, pool. split_and!; [reflexivity|exact Hplan|exact Hp|]. apply Nat2Z.inj. exact Hl.
Defined.
End BuiltinsWitness.
