(* ===== verification/CampaignRun.v ===== *)
(** * Running a campaign ([cli/src/commands/campaign.rs])

    The command resolves the file ([Campaign]), sets the scenario files of all
    stages up ([Setup]), then runs the stages, the scenarios of a stage side by
    side ([SpamCommand]), and reports on the runs ([Report]).  Every entry of a
    mix has a seed of its own, derived from the campaign's.

    A run is taken as one step on the database: the runs of a stage, which wait
    for each other to be initialized, take their turns in any order.  A result
    [None] is a command that does not return. *)

From Stdlib Require Import Strings.Byte Strings.Ascii Strings.String.
From S2P Require Import Prelude Text F64 Seeder Alloy Agents Db DbStore GenTypes GenUtil CoreError Templater TestFile Generator Campaign TxActor Scenario Deploy Spam SpamRun Histogram Charts BlockTrace Report Orchestrator CliError CliUtil CliArgs SpamCommand RunsKept Setup CustomContract Builtins.

(** ** Errors of the file ([testfile/src/error.rs]) *)

Definition campaign_error_text (e : CampaignError) : string :=
  match e with
  | NameEmpty => "campaign name must not be empty"
  | SpamRateMissing => "'rate' must be specified for [spam] or [[spam.stage]]"
  | SpamDurationMissing index name =>
      "stage " +:+ dec (Z.of_nat index) +:+ " (" +:+ name +:+
      ") missing duration and no default spam duration provided"
  | MixSharesSumInvalid name =>
      "stage " +:+ name +:+ " mix shares must sum to a positive number"
  | StageMixEmpty index name =>
      "stage " +:+ dec (Z.of_nat index) +:+ " (" +:+ name +:+ ") must include at least one mix entry"
  | SpamMixEmpty => "campaign spam: spam.mix must include at least one entry"
  | SpamStageOrMixUndefined =>
      "campaign spam: must define either spam.stage or spam.mix + spam.duration"
  | ShorthandRequiresSpamDuration => "campaign spam: shorthand requires spam.duration"
  | ConflictingMixAndStage => "campaign spam: cannot define both spam.stage and spam.mix"
  | RateDistributionExceedsLimit name assigned_rate total_rate =>
      "stage " +:+ name +:+ ": rate distribution error - assigned " +:+ dec assigned_rate +:+
      " exceeds total rate " +:+ dec total_rate
  end%string.
Definition campaign_result {A} (m : outcome CampaignError A) : outcome CliError A :=
  map_err (fun e => TestFileError ("campaign validation error: " +:+ campaign_error_text e)%string) m.

(** ** Arguments *)

Record CampaignCliArgs := {
  ca_campaign : string;
  ca_rpc_args : SendTxsCliArgsInner;
  ca_builder_url : option string;
  ca_pending_timeout : Z;
  ca_rpc_batch_size : Z;
  ca_ignore_receipts : bool;
  ca_optimistic_nonces : bool;
  ca_gen_report : bool;
  ca_skip_setup : bool;
  ca_spam_timeout : Z;
  ca_send_raw_tx_sync : bool;
  ca_run_forever : bool;
  ca_flashblocks_ws_url : option string;
  ca_skip_tx_traces : bool;
  ca_time_to_inclusion_bucket : Z;
}.

(** The arguments of the node with a seed, and a number of accounts. *)
Definition with_accounts (seed : string) (accounts : option Z) (a : SendTxsCliArgsInner)
  : SendTxsCliArgsInner := {|
  ta_env := ta_env a; ta_min_balance := ta_min_balance a; ta_private_keys := ta_private_keys a;
  ta_rpc_url := ta_rpc_url a; ta_txs_url := ta_txs_url a; ta_scenario_label := ta_scenario_label a;
  ta_seed := Some seed; ta_bundle_type := ta_bundle_type a; ta_gas_price := ta_gas_price a;
  ta_tx_type := ta_tx_type a; ta_accounts_per_agent := accounts;
  ta_override_senders := ta_override_senders a; ta_call_forkchoice := ta_call_forkchoice a;
  ta_auth_args := ta_auth_args a |}.

(** The two rates of the spam arguments, by mode. *)
Definition mode_txs_per_second (spam_mode : CampaignMode) (spam_rate : Z) : option Z :=
  match spam_mode with Tps => Some spam_rate | Tpb => None end.
Definition mode_txs_per_block (spam_mode : CampaignMode) (spam_rate : Z) : option Z :=
  match spam_mode with Tpb => Some spam_rate | Tps => None end.

Definition create_spam_cli_args (testfile : option string) (args : CampaignCliArgs)
    (rpc_args : SendTxsCliArgsInner) (spam_mode : CampaignMode) (spam_rate spam_duration : Z)
    (skip_setup : bool) : SpamCliArgs := {|
  sa_spam_args := {|
    txs_per_second := mode_txs_per_second spam_mode spam_rate;
    txs_per_block := mode_txs_per_block spam_mode spam_rate;
    duration := spam_duration; builder_url := ca_builder_url args;
    pending_timeout := ca_pending_timeout args; run_forever := false |};
  sa_testfile := testfile; sa_rpc_args := rpc_args;
  sa_ignore_receipts := ca_ignore_receipts args; sa_optimistic_nonces := ca_optimistic_nonces args;
  sa_gen_report := false; sa_skip_setup := skip_setup;
  sa_rpc_batch_size := ca_rpc_batch_size args; sa_send_raw_tx_sync := ca_send_raw_tx_sync args;
  sa_spam_timeout := ca_spam_timeout args; sa_flashblocks_ws_url := ca_flashblocks_ws_url args;
  sa_report_interval := None |}.

(** The names a run is recorded under. *)
Record ScenarioMeta := {
  sm_campaign_id : string;
  sm_campaign_name : string;
  sm_stage_name : string;
  sm_scenario_label : string;
  sm_mode : CampaignMode;
  sm_rate : Z;
  sm_duration : Z;
}.
Definition to_context (m : ScenarioMeta) : SpamCampaignContext := {|
  cc_campaign_id := Some (sm_campaign_id m); cc_campaign_name := Some (sm_campaign_name m);
  cc_stage_name := Some (sm_stage_name m); cc_scenario_name := Some (sm_scenario_label m) |}.

(** ** References to builtin scenarios *)

(** [trim_start_matches("builtin:")]: every leading occurrence. *)
Fixpoint strip_all (fuel : nat) (s : string) : string :=
  match fuel with
  | O => s
  | S fuel =>
      match strip_prefix "builtin:" s with Some s => strip_all fuel s | None => s end
  end.
Definition strip_builtin_name (name : string) : string :=
  let s := trim name in strip_all (String.length s) s.

Inductive BuiltinReference := RefErc20 | RefRevert | RefStress | RefUniV2.

Definition parse_builtin_reference (name : string) : option BuiltinReference :=
  let norm := to_lowercase (strip_builtin_name name) in
  if String.eqb norm "erc20" then Some RefErc20
  else if String.eqb norm "revert" || String.eqb norm "reverts" then Some RefRevert
  else if String.eqb norm "stress" then Some RefStress
  else if String.eqb norm "uni_v2" || String.eqb norm "univ2" || String.eqb norm "uni-v2"
  then Some RefUniV2
  else None.
Definition is_builtin_reference (name : string) : bool :=
  bool_decide (is_Some (parse_builtin_reference name)).

(** ** Entries of the mix *)

Definition option_list (o : option Z) : list Z :=
  match o with Some x => [x] | None => [] end.

Definition active_scenarios (stage : ResolvedStage) : list (nat * ResolvedMixEntry) :=
  filter (fun p => (0 <? rm_rate p.2) = true) (imap pair (rs_mix stage)).

(** Those that are set up beforehand: builtin scenarios do it themselves. *)
Definition needs_setup (mix : ResolvedMixEntry) : bool :=
  negb (rm_rate mix =? 0) && negb (is_builtin_reference (rm_scenario mix)).
Definition setup_entries (stages : list ResolvedStage)
  : list ((nat * ResolvedStage) * (nat * ResolvedMixEntry)) :=
  imap pair stages ≫= fun st =>
    pair st <$> filter (fun p => needs_setup p.2 = true) (imap pair (rs_mix st.2)).

(** The report's last run and number of preceding runs. *)
Definition report_range (run_ids : list Z) : option (Z * Z) :=
  let run_ids := sortZ run_ids in
  match head run_ids, last run_ids with
  | Some first_run, Some last_run => Some (last_run, last_run - first_run)
  | _, _ => None
  end.
Definition campaign_report_params (args : CampaignCliArgs) (range : Z * Z) : ReportParams := {|
  rp_last_run_id := Some range.1; rp_preceding_runs := range.2; rp_use_json := false;
  rp_skip_tx_traces := ca_skip_tx_traces args;
  rp_time_to_inclusion_bucket := ca_time_to_inclusion_bucket args |}.

(** The range a campaign's report covers contains every recorded run, and
    its last run and first run are recorded ones. *)
Lemma report_range_covers (run_ids : list Z) :
  match report_range run_ids with
  | None => run_ids = []
  | Some (last_run, preceding) =>
      0 <= preceding /\ last_run ∈ run_ids /\ (last_run - preceding) ∈ run_ids /\
      Forall (fun r => last_run - preceding <= r <= last_run) run_ids
  end.
Proof.
  unfold report_range. pose proof (sortZ_perm run_ids) as Hp.
  pose proof (StronglySorted_merge_sort Z.le run_ids) as Hs. change (merge_sort _ _) with (sortZ run_ids) in Hs.
  destruct (sortZ run_ids) as [|x l] eqn:Hl; cbn [head].
  - by apply Permutation_nil.
  - destruct (last (x :: l)) as [y|] eqn:Hy; [|by apply last_None in Hy].
    apply last_Some in Hy as [l' Hy].
    assert (Hx : Forall (fun r => x <= r <= y) (x :: l)).
    { apply Forall_forall. intros r Hr. split.
      - apply StronglySorted_inv in Hs as [_ Hs]. apply elem_of_cons in Hr as [->|Hr]; [lia|].
        by apply (proj1 (Forall_forall _ _) Hs).
      - rewrite Hy in Hr, Hs. apply elem_of_app in Hr as [Hr|Hr%list_elem_of_singleton]; [|lia].
        apply (StronglySorted_app_1_elem_of Z.le l' [y]); [done|done|set_solver]. }
    assert (Hxy : x <= y) by (apply Forall_inv in Hx; lia).
    replace (y - (y - x)) with x by lia. rewrite <- Hp. split_and!; [lia| | |done].
    + rewrite Hy. set_solver.
    + left.
Qed.

(** A command after another that may not return. *)
Definition after {E A B} (m : option (outcome E A)) (f : A -> option (outcome E B))
  : option (outcome E B) :=
  r ← m;
  match r with Ok x => f x | Err e => Some (Err e) | Panic => Some Panic end.
Lemma after_ok {E A B} (m : option (outcome E A)) (f : A -> option (outcome E B)) y :
  after m f = Some (Ok y) -> exists x, m = Some (Ok x) /\ f x = Some (Ok y).
Proof. destruct m as [[x|e|]|]; cbn; [by exists x|done..]. Qed.

(** ** The command *)

Section campaign_run.
Context `{A : Alloy, Sg : !Signing, F : ScenarioFiles} {P : Profile} {FD : F64Display}.
Context {D : Type} `{DO : DbOps D}.
Context {Sd : Type} `{SV : SeedValue Sd, SD : Seeder Sd, SG : !SeedGenerator Sd}.
Variables (groth16_proof : nat -> string) (connect : Connect)
  (load : string -> outcome CliError TestConfig) (bold : string -> string)
  (block_gas_limit : outcome CliError (option Z))
  (compile : CustomContractCliArgs -> outcome CustomContractArgsError.t CustomContractArgs)
  (report_node : ReportNode) (scenario_file_name : string -> string)
  (report_error : ReportError -> string).
Abbreviation SpamArgs := (SpamCommandArgs (B := BuiltinScenario) (Sd := Sd)).
Abbreviation SetupArgs := (SetupCommandArgs (B := BuiltinScenario) (Sd := Sd)).
Abbreviation TestScn := (TestScenario (C := TestConfig) (Sd := Sd)).

(** The decimal form of the union of the bits of two hashes. *)
Definition bump_seed (base_seed stage_name : string) : string :=
  dec (Z.lor (from_be (keccak256 (str_bytes base_seed)))
             (from_be (keccak256 (str_bytes stage_name)))).
Definition mix_seed (stage_seed : string) (mix_idx : nat) : string :=
  bump_seed stage_seed (dec (Z.of_nat mix_idx)).

(** The arguments of a builtin scenario are the defaults. *)
Definition builtin_default (r : BuiltinReference) : outcome CliError BuiltinScenarioCli :=
  match r with
  | RefErc20 => args ← default_erc20_args; mret (CliErc20 args)
  | RefRevert => mret (CliRevert default_revert_gas)
  | RefStress => args ← default_stress_args; mret (CliStress args)
  | RefUniV2 => args ← default_univ2_args; mret (CliUniV2 args)
  end.

(** *** Rates *)

Definition no_spam_entries (stage : ResolvedStage) (mix : ResolvedMixEntry) : CliError :=
  invalid_args ("Stage '" +:+ rs_name stage +:+ "' scenario '" +:+ rm_scenario mix +:+
                "' has no spam entries defined.").
Definition too_few_txs (stage : ResolvedStage) (mix : ResolvedMixEntry)
    (total_txs spam_len minimum : Z) : CliError :=
  invalid_args ("Stage '" +:+ rs_name stage +:+ "' scenario '" +:+ rm_scenario mix +:+
    "': insufficient transactions (rate " +:+ dec (rm_rate mix) +:+ " * duration " +:+
    dec (rs_duration stage) +:+ " = " +:+ dec total_txs +:+ ") to cover " +:+ dec spam_len +:+
    " spam entries. Minimum rate needed: " +:+ dec minimum).
(** [div_ceil]. *)
Definition div_ceil {E} (x y : Z) : outcome E Z :=
  q ← div_ x y;
  mret (if 0 <? x mod y then q + 1 else q).

Definition validate_mix_rate (stage : ResolvedStage) (mix : ResolvedMixEntry)
  : outcome CliError unit :=
  if rm_rate mix =? 0 then mret tt
  else if is_builtin_reference (rm_scenario mix) then mret tt
  else
    cfg ← load (rm_scenario mix);
    let spam_len := Z.of_nat (length (default [] (tc_spam cfg))) in
    ensure (negb (spam_len =? 0)) (no_spam_entries stage mix);;
    total_txs ← arith 64 (rm_rate mix * rs_duration stage);
    if total_txs <? spam_len then
      minimum ← div_ceil spam_len (rs_duration stage);
      Err (too_few_txs stage mix total_txs spam_len minimum)
    else mret tt.
Definition validate_stage_rates (stages : list ResolvedStage) : outcome CliError unit :=
  fold_steps (fun _ stage => fold_steps (fun _ mix => validate_mix_rate stage mix) tt
                               (rs_mix stage)) tt stages.

(** *** Setting up *)

(** What a setup, and its reading of the seed file, meet. *)
Record EntrySetupEnv := {
  es_seedfile : outcome CliError string;
  es_now : option Z;
  es_env : SetupEnv (D := D);
}.
Definition setup_args_of (args : CampaignCliArgs) (base_seed : string)
    (stage : ResolvedStage) (mix_idx : nat) : SendTxsCliArgsInner :=
  with_accounts (mix_seed (bump_seed base_seed (rs_name stage)) mix_idx)
    (Some (default 10 (ta_accounts_per_agent (ca_rpc_args args)))) (ca_rpc_args args).
Definition setup_cmd (args : CampaignCliArgs) (base_seed : string) (stage : ResolvedStage)
    (mix_idx : nat) (mix : ResolvedMixEntry) (seedfile : outcome CliError string)
  : outcome CliError SetupArgs :=
  SetupCommandArgs_new seedfile (Testfile (rm_scenario mix)) (setup_args_of args base_seed stage mix_idx).
Fixpoint setup_all_entries (args : CampaignCliArgs) (base_seed : string)
    (envs : nat -> nat -> EntrySetupEnv)
    (entries : list ((nat * ResolvedStage) * (nat * ResolvedMixEntry))) (db : D)
  : option (outcome CliError D) :=
  match entries with
  | [] => Some (Ok db)
  | ((i, stage), (mix_idx, mix)) :: entries =>
      let env := envs i mix_idx in
      after (Some (setup_cmd args base_seed stage mix_idx mix (es_seedfile env))) (fun cmd =>
      after (Setup.setup (BO := builtin_ops (es_now env)) groth16_proof connect load cmd db (es_env env))
        (setup_all_entries args base_seed envs entries))
  end.

(** *** A scenario of a stage *)

(** [ScenarioContext], without the directory of the seed file. *)
Record ScenarioContext := {
  sx_args : CampaignCliArgs;
  sx_campaign : CampaignConfig;
  sx_stage : ResolvedStage;
  sx_campaign_id : string;
  sx_stage_seed : string;
}.
Definition spam_scenario_of (ctx : ScenarioContext) (mix : ResolvedMixEntry) (rand_seed : Sd)
  : outcome CliError (SpamScenario (B := BuiltinScenario)) :=
  match parse_builtin_reference (rm_scenario mix) with
  | Some r =>
      builtin_cli ← builtin_default r;
      builtin ← to_builtin_scenario bold block_gas_limit compile
        {| bo_accounts_per_agent := ta_accounts_per_agent (ca_rpc_args (sx_args ctx));
           bo_seed := rand_seed;
           bo_spam_rate := Some (match sp_mode (cf_spam (sx_campaign ctx)) with
             | Tps => TxsPerSecond (rm_rate mix) | Tpb => TxsPerBlock (rm_rate mix) end) |}
        builtin_cli;
      mret (Builtin builtin)
  | None => mret (Testfile (rm_scenario mix))
  end.
Definition prepare_scenario (ctx : ScenarioContext) (mix_idx : nat) (mix : ResolvedMixEntry)
    (seedfile : outcome CliError string) : outcome CliError (SpamArgs * ScenarioMeta) :=
  let args := sx_args ctx in
  let mode := sp_mode (cf_spam (sx_campaign ctx)) in
  let scenario_seed := mix_seed (sx_stage_seed ctx) mix_idx in
  let rpc_args := with_accounts scenario_seed (ta_accounts_per_agent (ca_rpc_args args)) (ca_rpc_args args) in
  (* testfiles were set up before, a builtin scenario does it now *)
  let skip_setup := if is_builtin_reference (rm_scenario mix) then ca_skip_setup args else true in
  let cli_args := create_spam_cli_args (Some (rm_scenario mix)) args rpc_args mode (rm_rate mix)
                    (rs_duration (sx_stage ctx)) skip_setup in
  rand_seed ← seed_from_str scenario_seed;
  spam_scenario ← spam_scenario_of ctx mix rand_seed;
  spam_args ← SpamCommandArgs_new seedfile spam_scenario cli_args;
  mret (spam_args, {|
    sm_campaign_id := sx_campaign_id ctx; sm_campaign_name := cf_name (sx_campaign ctx);
    sm_stage_name := rs_name (sx_stage ctx); sm_scenario_label := rm_scenario mix;
    sm_mode := mode; sm_rate := rm_rate mix; sm_duration := rs_duration (sx_stage ctx) |}).

(** What a scenario's initialization and its run meet. *)
Record EntryEnv := {
  en_seedfile : outcome CliError string;
  en_now : option Z;
  en_init : InitScenarioEnv (D := D);
  en_spam : SpamEnv (D := D);
}.
(** A scenario ready to run. *)
Record Task := {
  tk_args : SpamArgs;
  tk_context : SpamCampaignContext;
  tk_scenario : TestScn;
  tk_env : EntryEnv;
}.
Definition prepare_task (ctx : ScenarioContext) (mix_idx : nat) (mix : ResolvedMixEntry)
    (env : EntryEnv) (db : D) : option (outcome CliError (Task * D)) :=
  after (Some (prepare_scenario ctx mix_idx mix (en_seedfile env))) (fun '(spam_args, meta) =>
  after (init_scenario (BO := builtin_ops (en_now env)) groth16_proof connect load spam_args db
           (en_init env)) (fun '(s, db) =>
  Some (Ok ({| tk_args := spam_args; tk_context := to_context meta; tk_scenario := s;
               tk_env := env |}, db)))).
(** The run of the scenario: its id, if it is recorded. *)
Definition run_task (t : Task) (db : D) : option (outcome CliError (option Z * D)) :=
  match (spam_inner (BO := builtin_ops (en_now (tk_env t))) groth16_proof connect (tk_args t)
           (tk_context t) (en_spam (tk_env t)) db (tk_scenario t)).2 with
  | Ok r => Ok <$> r
  | Err e => Some (Err e)
  | Panic => Some Panic
  end.

(** *** A stage *)

(** What the entries meet, when the runs take their turns, and whether the stage
    runs out of its time. *)
Record StageEnv := {
  sg_entry : nat -> EntryEnv;
  sg_turn : nat -> Z;
  sg_late : bool;
}.
Fixpoint prepare_tasks (ctx : ScenarioContext) (env : StageEnv) (l : list (nat * ResolvedMixEntry))
    (db : D) : option (outcome CliError (list (nat * Task) * D)) :=
  match l with
  | [] => Some (Ok ([], db))
  | (mix_idx, mix) :: l =>
      after (prepare_task ctx mix_idx mix (sg_entry env mix_idx) db) (fun '(t, db) =>
      after (prepare_tasks ctx env l db) (fun '(tasks, db) =>
      Some (Ok ((mix_idx, t) :: tasks, db))))
  end.

(** How a spawned run ends; its panic is contained in it. *)
Definition spawned_run (t : Task) (db : D) : option (outcome CliError (option Z)) * D :=
  match run_task t db with
  | Some (Ok (run_id, db)) => (Some (Ok run_id), db)
  | Some (Err e) => (Some (Err e), db)
  | Some Panic => (Some (Err (TaskJoin "panic")), db)
  | None => (None, db)
  end.
Fixpoint spawned_runs (l : list (nat * Task)) (db : D)
  : list (nat * option (outcome CliError (option Z))) * D :=
  match l with
  | [] => ([], db)
  | (i, t) :: l =>
      let '(r, db) := spawned_run t db in
      let '(rs, db) := spawned_runs l db in
      ((i, r) :: rs, db)
  end.
Definition joined {X} (i : nat) (results : list (nat * option X)) : option X :=
  list_find (fun r => r.1 = i) results ≫= fun x => x.2.2.
(** The handles are awaited in the order of the mix. *)
Fixpoint await_runs (handles : list nat) (results : list (nat * option (outcome CliError (option Z))))
  : option (outcome CliError (list Z)) :=
  match handles with
  | [] => Some (Ok [])
  | i :: handles =>
      after (joined i results) (fun run_id =>
      after (await_runs handles results) (fun run_ids => Some (Ok (option_list run_id ++ run_ids))))
  end.
Definition turn_le {X} (turn : nat -> Z) (a b : nat * X) : Prop := turn a.1 <= turn b.1.
#[local] Instance turn_le_dec {X} turn : RelDecision (@turn_le X turn).
Proof. intros a b. unfold turn_le. apply _. Defined.
Definition run_tasks (env : StageEnv) (tasks : list (nat * Task)) (db : D)
  : option (outcome CliError (list Z * D)) :=
  let in_turn := merge_sort (turn_le (sg_turn env)) tasks in
  let '(results, db) := spawned_runs in_turn db in
  after (await_runs tasks.*1 results) (fun run_ids => Some (Ok (run_ids, db))).

Definition no_active_scenarios (stage : ResolvedStage) : CliError :=
  invalid_args ("Stage '" +:+ rs_name stage +:+ "' has no scenarios with non-zero rate after resolution").
Definition execute_stage (ctx : ScenarioContext) (env : StageEnv) (db : D)
  : option (outcome CliError (list Z * D)) :=
  match active_scenarios (sx_stage ctx) with
  | [] => Some (Err (no_active_scenarios (sx_stage ctx)))
  | [(mix_idx, mix)] =>
      after (prepare_task ctx mix_idx mix (sg_entry env mix_idx) db) (fun '(t, db) =>
      after (run_task t db) (fun '(run_id, db) => Some (Ok (option_list run_id, db))))
  | active =>
      after (prepare_tasks ctx env active db) (fun '(tasks, db) => run_tasks env tasks db)
  end.

(** *** The stages *)

Definition one_sender_many_mixes : CliError :=
  invalid_args "override-senders cannot be used when a stage has multiple mix entries; it would share one sender across mixes and cause nonce conflicts".
Definition stage_timed_out (stage : ResolvedStage) (timeout_secs : Z) : CliError :=
  invalid_args ("Stage '" +:+ rs_name stage +:+ "' exceeded timeout of " +:+ dec timeout_secs +:+ " seconds").
Definition stage_context (args : CampaignCliArgs) (campaign : CampaignConfig)
    (campaign_id base_seed : string) (stage : ResolvedStage) : ScenarioContext := {|
  sx_args := args; sx_campaign := campaign; sx_stage := stage; sx_campaign_id := campaign_id;
  sx_stage_seed := bump_seed base_seed (rs_name stage) |}.
Definition run_stage (args : CampaignCliArgs) (ctx : ScenarioContext) (env : StageEnv) (db : D)
  : option (outcome CliError (list Z * D)) :=
  let stage := sx_stage ctx in
  if ta_override_senders (ca_rpc_args args) && (1 <? length (rs_mix stage))%nat
  then Some (Err one_sender_many_mixes)
  else
    match rs_stage_timeout stage with
    | Some timeout_secs =>
        if sg_late env then Some (Err (stage_timed_out stage timeout_secs))
        else execute_stage ctx env db
    | None => execute_stage ctx env db
    end.
(** One pass over the stages, in order. *)
Fixpoint run_stages (args : CampaignCliArgs) (campaign : CampaignConfig)
    (campaign_id base_seed : string) (envs : nat -> StageEnv) (i : nat)
    (stages : list ResolvedStage) (db : D) : option (outcome CliError (list Z * D)) :=
  match stages with
  | [] => Some (Ok ([], db))
  | stage :: stages =>
      after (run_stage args (stage_context args campaign campaign_id base_seed stage) (envs i) db)
        (fun '(ids, db) =>
      after (run_stages args campaign campaign_id base_seed envs (S i) stages db)
        (fun '(more, db) => Some (Ok (ids ++ more, db))))
  end.

(** A pass, or the user's interruption of one, with the runs of the stages that
    have ended and the database by then. *)
Inductive Pass :=
| PassEnds (envs : nat -> StageEnv)
| PassInterrupted (run_ids : list Z) (db : D).
Fixpoint campaign_loop (args : CampaignCliArgs) (campaign : CampaignConfig)
    (campaign_id base_seed : string) (stages : list ResolvedStage) (passes : list Pass)
    (run_ids : list Z) (db : D) : option (outcome CliError (list Z * D)) :=
  match passes with
  | [] => None
  | PassInterrupted ids db :: _ => Some (Ok (run_ids ++ ids, db))
  | PassEnds envs :: passes =>
      after (run_stages args campaign campaign_id base_seed envs 0 stages db) (fun '(ids, db) =>
      if ca_run_forever args
      then campaign_loop args campaign campaign_id base_seed stages passes (run_ids ++ ids) db
      else Some (Ok (run_ids ++ ids, db)))
  end.

(** *** The whole command *)

Record CampaignEnv := {
  cp_file : outcome string CampaignConfig;
  cp_seedfile : outcome CliError string;
  cp_id : string;
  cp_setup : nat -> nat -> EntrySetupEnv;
  cp_passes : list Pass;
  cp_cache : option (outcome ReportError (list TxTraceReceipt * list RpcBlock));
}.
Definition campaign_from_file (file : outcome string CampaignConfig) : outcome CliError CampaignConfig :=
  cfg ← map_err TestFileError file;
  campaign_result (validate cfg);;
  mret cfg.
(** The seed file is read, or written, whatever seed there is. *)
Definition campaign_seed (args : CampaignCliArgs) (campaign : CampaignConfig)
    (seedfile : outcome CliError string) : outcome CliError string :=
  stored ← seedfile;
  mret (default (default stored (dec <$> sp_seed (cf_spam campaign))) (ta_seed (ca_rpc_args args))).
Definition campaign_report (args : CampaignCliArgs) (run_ids : list Z)
    (cache : option (outcome ReportError (list TxTraceReceipt * list RpcBlock))) (db : D)
  : outcome CliError (option ReportMetadata) :=
  match report_range run_ids with
  | None => mret None
  | Some range =>
      map_err (fun e => ReportErr (report_error e))
        (report report_node scenario_file_name db (campaign_report_params args range) cache)
  end.

(** The campaign and its stages, before anything is run. *)
Definition campaign_plan (env : CampaignEnv) (args : CampaignCliArgs)
  : outcome CliError (CampaignConfig * list ResolvedStage * string) :=
  campaign ← campaign_from_file (cp_file env);
  stages ← campaign_result (resolve campaign);
  validate_stage_rates stages;;
  base_seed ← campaign_seed args campaign (cp_seedfile env);
  mret (campaign, stages, base_seed).
(** The runs recorded and the report. *)
Definition run_campaign (args : CampaignCliArgs) (env : CampaignEnv) (db : D)
  : option (outcome CliError (list Z * option ReportMetadata * D)) :=
  after (Some (campaign_plan env args)) (fun '(campaign, stages, base_seed) =>
  after (if ca_skip_setup args then Some (Ok db)
         else setup_all_entries args base_seed (cp_setup env) (setup_entries stages) db) (fun db =>
  after (campaign_loop args campaign (cp_id env) base_seed stages (cp_passes env) [] db)
    (fun '(run_ids, db) =>
  if ca_gen_report args then
    after (Some (campaign_report args run_ids (cp_cache env) db))
      (fun meta => Some (Ok (run_ids, meta, db)))
  else Some (Ok (run_ids, None, db))))).

(** ** What a stage records *)

Context {RL : RunLaws D}.

(** A run with the fields of [req], under [id]. *)
Definition stored_run (db : D) (id : Z) (req : SpamRunRequest) : Prop :=
  get_run db id = Ok (Some (run_of_request id req)).

(** The runs [ids] are what [db'] has more than [db], which it keeps. *)
Record adds (db : D) (ids : list Z) (db' : D) : Prop := {
  ad_kept : runs_kept db db';
  ad_distinct : NoDup ids;
  ad_fresh : Forall (fun id => forall r, get_run db id <> Ok (Some r)) ids;
  ad_there : Forall (fun id => exists r, get_run db' id = Ok (Some r)) ids;
}.

Lemma adds_nil db db' : runs_kept db db' -> adds db [] db'.
Proof. intros Hk. split; [done|constructor..]. Qed.

Lemma adds_one db0 db req id db1 db' :
  runs_kept db0 db -> insert_run db req = Ok (id, db1) -> runs_kept db1 db' ->
  adds db0 [id] db' /\ stored_run db' id req.
Proof.
  intros Hk Hi Hk'. assert (Hs : stored_run db' id req) by by apply Hk', (run_found _ _ _ _ Hi).
  split; [|done]. split; [|apply NoDup_singleton|apply Forall_singleton..].
  - etransitivity; [exact Hk|]. etransitivity; [by eapply run_kept_run|done].
  - intros r Hr. by apply (run_fresh _ _ _ _ r Hi), Hk.
  - by eexists.
Qed.

Lemma adds_app db ids1 db1 ids2 db2 :
  adds db ids1 db1 -> adds db1 ids2 db2 -> adds db (ids1 ++ ids2) db2.
Proof.
  intros [K1 N1 F1 T1] [K2 N2 F2 T2]. rewrite Forall_forall in F2, T1. split.
  - by etransitivity.
  - apply NoDup_app. split_and!; [done| |done]. intros id H1 H2.
    destruct (T1 id H1) as [r Hr]. by apply (F2 id H2 r).
  - apply Forall_app_2; [done|]. apply Forall_forall. intros id Hin r Hr.
    by apply (F2 id Hin r), K1.
  - apply Forall_app_2; [|done]. apply Forall_forall. intros id Hin.
    destruct (T1 id Hin) as [r Hr]. exists r. by apply K2.
Qed.

Lemma adds_perm db ids ids' db' : ids ≡ₚ ids' -> adds db ids db' -> adds db ids' db'.
Proof. intros Hp [Hk Hn Hf Ht]. split; by rewrite <- ?Hp. Qed.

Lemma adds_kept_l db0 db ids db' : runs_kept db0 db -> adds db ids db' -> adds db0 ids db'.
Proof. intros Hk H. change ids with ([] ++ ids). eapply adds_app; [by apply adds_nil|done]. Qed.

(** The request of an entry's run, under all its names. *)
Definition entry_request (c : CampaignConfig) (campaign_id : string) (stage : ResolvedStage)
    (mix : ResolvedMixEntry) (req : SpamRunRequest) : Prop :=
  rr_campaign_id req = Some campaign_id /\ rr_campaign_name req = Some (cf_name c) /\
  rr_stage_name req = Some (rs_name stage) /\ rr_scenario_name req = rm_scenario mix /\
  rr_txs_per_duration req = rm_rate mix /\
  rr_duration req = match sp_mode (cf_spam c) with
                    | Tps => Seconds (rs_duration stage) | Tpb => Blocks (rs_duration stage) end /\
  arith (E := CliError) 64 (rm_rate mix * rs_duration stage) = Ok (rr_tx_count req).
Definition recorded (db : D) (c : CampaignConfig) (campaign_id : string) (stage : ResolvedStage)
    (mix : ResolvedMixEntry) (id : Z) (req : SpamRunRequest) : Prop :=
  stored_run db id req /\ entry_request c campaign_id stage mix req.

(** What a scenario meets when it is not interrupted: neither its setup nor its
    run is, and its spammer keeps the runs of the database. *)
Definition steady (env : EntryEnv) : Prop :=
  ie_setup_end (en_init env) = SetupRan /\ Forall event_keeps (sp_events (en_spam env)).

(** A task of an entry. *)
Definition task_of (ctx : ScenarioContext) (mix : ResolvedMixEntry) (t : Task) : Prop :=
  tk_context t = {|
    cc_campaign_id := Some (sx_campaign_id ctx); cc_campaign_name := Some (cf_name (sx_campaign ctx));
    cc_stage_name := Some (rs_name (sx_stage ctx)); cc_scenario_name := Some (rm_scenario mix) |} /\
  let sa := sa_spam_args (spam_args (tk_args t)) in
  let mode := sp_mode (cf_spam (sx_campaign ctx)) in
  txs_per_second sa = mode_txs_per_second mode (rm_rate mix) /\
  txs_per_block sa = mode_txs_per_block mode (rm_rate mix) /\
  duration sa = rs_duration (sx_stage ctx).

Lemma prepare_task_ok ctx mix_idx mix env db t db' :
  steady env -> prepare_task ctx mix_idx mix env db = Some (Ok (t, db')) ->
  task_of ctx mix t /\ steady (tk_env t) /\ runs_kept db db'.
Proof.
  unfold prepare_task. intros Hst H. apply after_ok in H as ([sa meta] & [= Hp] & H).
  apply after_ok in H as ([s db1] & Hinit & [= <- <-]).
  split; [|split; [exact Hst|eapply init_scenario_runs; [apply Hst|exact Hinit]]].
  unfold prepare_scenario in Hp. inv_outcome. rename select (SpamCommandArgs_new _ _ _ = Ok _) into Hn.
  unfold SpamCommandArgs_new in Hn. inv_outcome. split; [reflexivity|]. cbn. by split_and!.
Qed.

Lemma task_recorded ctx mix t db run_id db' :
  task_of ctx mix t -> steady (tk_env t) -> run_task t db = Some (Ok (run_id, db')) ->
  exists id req, run_id = Some id /\ adds db [id] db' /\
    recorded db' (sx_campaign ctx) (sx_campaign_id ctx) (sx_stage ctx) mix id req.
Proof.
  intros (Hc & Ht1 & Ht2 & Hd) [_ Hev] H. unfold run_task in H.
  destruct (spam_inner _ _ _ _ _ _ _) as [s' [r|e|]] eqn:Hs; cbn in H; [|discriminate H..].
  destruct r as [[id1 db1]|]; [|discriminate H]. injection H as -> ->.
  apply spam_inner_ok in Hs as ((title & rate & bt & timeout & _ & Hrate & _ & _ & db2 & Hrec & s1 & s2 & Hloop) & _).
  unfold records_run in Hrec. rewrite Hc in Hrec. cbn [cc_campaign_id] in Hrec.
  rewrite bool_decide_eq_true_2, orb_true_r in Hrec by by eexists.
  destruct Hrec as (req & id & Hreq & Hins & ->). apply spam_loop_runs in Hloop; [|done].
  destruct (adds_one db db req id db2 db') as [Hadds Hst]; [done..|].
  exists id, req. split; [done|]. split; [done|]. split; [done|].
  unfold run_request in Hreq. inv_outcome. cbn [cc_campaign_id cc_campaign_name cc_stage_name cc_scenario_name] in *.
  unfold spam_rate_of in Hrate. rewrite Ht1, Ht2, Hd in Hrate.
  assert (Hr : rate = (rm_rate mix, match sp_mode (cf_spam (sx_campaign ctx)) with
    | Tps => Seconds (rs_duration (sx_stage ctx)) | Tpb => Blocks (rs_duration (sx_stage ctx)) end)).
  { destruct (sp_mode (cf_spam (sx_campaign ctx))); cbn in Hrate; by injection Hrate as <-. }
  subst rate. rewrite Hd in *. by split_and!.
Qed.

(** A task that can be run for an entry. *)
Definition good_task (ctx : ScenarioContext) (t : Task) : Prop :=
  steady (tk_env t) /\ exists mix, task_of ctx mix t.

Lemma run_task_adds ctx t db r db' :
  good_task ctx t -> run_task t db = Some (Ok (r, db')) -> adds db (option_list r) db'.
Proof.
  intros [Hst [mix Ht]] H. by destruct (task_recorded _ _ _ _ _ _ Ht Hst H) as (id & req & -> & Ha & _).
Qed.

(** The id a spawned run ends with, if it ends well. *)
Definition ended_id (r : option (outcome CliError (option Z))) : list Z :=
  match r with Some (Ok id) => option_list id | _ => [] end.
Definition entry_id (p : nat * option (outcome CliError (option Z))) : list Z := ended_id p.2.

(** Spawned runs: each is of its task, on the database it finds, and they add
    their runs one after the other. *)
Definition ran (db db' : D) (t : Task) (r : option Z) : Prop :=
  exists db0 db1, run_task t db0 = Some (Ok (r, db1)) /\ runs_kept db1 db'.
Lemma spawned_runs_ran ctx l db results db' :
  Forall (fun p => good_task ctx p.2) l -> spawned_runs l db = (results, db') ->
  results.*1 = l.*1 /\ adds db (results ≫= entry_id) db' /\
  forall i r, (i, Some (Ok r)) ∈ results -> exists t, (i, t) ∈ l /\ ran db db' t r.
Proof.
  intros Hl. revert db results. induction Hl as [|[j t] l Ht _ IH]; intros db results H; cbn [spawned_runs] in H.
  { injection H as <- <-. split_and!; [done|by apply adds_nil|]. by intros i r Hin%not_elem_of_nil. }
  destruct (spawned_run t db) as [r1 db1] eqn:Hr. destruct (spawned_runs l db1) as [rs db2] eqn:Hs.
  injection H as <- <-. destruct (IH _ _ Hs) as (Hi & Ha & Hin).
  assert (H1 : adds db (ended_id r1) db1 /\ forall r, r1 = Some (Ok r) -> run_task t db = Some (Ok (r, db1))).
  { unfold spawned_run in Hr.
    destruct (run_task t db) as [[[id db3]|e|]|] eqn:Hrun; injection Hr as <- <-;
      (split; [try (by apply adds_nil); by eapply run_task_adds|by intros r [=]]) ||
      (split; [by eapply run_task_adds|by intros r [= <-]]). }
  destruct H1 as [H1 Hr1]. split_and!; [cbn; by rewrite Hi|csimpl; by eapply adds_app|].
  intros i r [Heq|Hlater]%elem_of_cons.
  - injection Heq as -> <-. exists t. split; [by left|]. exists db, db1. split; [by apply Hr1|apply Ha].
  - destruct (Hin i r Hlater) as (t' & Ht' & db3 & db4 & Hran & Hk). exists t'. split; [by right|].
    by exists db3, db4.
Qed.

(** The entry of a handle, when no two have the same. *)
Lemma joined_elem {X} i (r : option X) results :
  NoDup results.*1 -> (i, r) ∈ results -> joined i results = r.
Proof.
  intros Hd Hin. apply list_elem_of_lookup in Hin as [k Hk]. unfold joined.
  enough (list_find (fun x => x.1 = i) results = Some (k, (i, r))) as -> by done.
  apply list_find_Some. split_and!; [done|done|]. intros j [i' r'] Hj Hlt Heq. cbn in Heq. subst i'.
  assert (j = k); [|lia]. eapply NoDup_lookup; [exact Hd| |]; rewrite list_lookup_fmap; [by rewrite Hj|by rewrite Hk].
Qed.

Lemma await_runs_ok handles results ids :
  await_runs handles results = Some (Ok ids) ->
  exists rs, Forall2 (fun i r => (i, Some (Ok r)) ∈ results) handles rs /\ ids = rs ≫= option_list.
Proof.
  revert ids. induction handles as [|i handles IH]; intros ids H; cbn [await_runs] in H.
  { injection H as <-. by exists []. }
  apply after_ok in H as (r & Hj & H). apply after_ok in H as (more & Hm & [= <-]).
  destruct (IH _ Hm) as (rs & Hrs & ->). exists (r :: rs). split; [|done]. constructor; [|done].
  unfold joined in Hj. apply bind_Some in Hj as ([k [j o]] & Hf & Hj). cbn in Hj. subst o.
  apply list_find_Some in Hf as (Hk & Hji & _). cbn in Hji. subst j. by eapply list_elem_of_lookup_2.
Qed.

(** The ids awaited are those of the runs, in another order. *)
Lemma await_runs_perm handles results rs :
  NoDup results.*1 -> handles ≡ₚ results.*1 ->
  Forall2 (fun i r => (i, Some (Ok r)) ∈ results) handles rs ->
  rs ≫= option_list ≡ₚ results ≫= entry_id.
Proof.
  intros Hd Hp H.
  assert (H1 : rs ≫= option_list = handles ≫= (fun i => ended_id (joined i results))).
  { clear Hp. induction H as [|i r hs rs Hin _ IH]; [done|]. csimpl. rewrite IH. f_equal.
    by rewrite (joined_elem _ _ _ Hd Hin). }
  assert (H2 : results ≫= entry_id = results.*1 ≫= (fun i => ended_id (joined i results))).
  { assert (Hsub : forall l, (forall p, p ∈ l -> p ∈ results) ->
      l ≫= entry_id = l.*1 ≫= (fun i => ended_id (joined i results))).
    { induction l as [|[i r] l IH]; intros Hl; [done|]. csimpl. rewrite IH by set_solver. f_equal.
      rewrite (joined_elem i r); [done|done|apply Hl; left]. }
    by apply Hsub. }
  rewrite H1, H2. by apply bind_Permutation.
Qed.

Lemma prepare_tasks_ok ctx env l db tasks db' :
  (forall i, steady (sg_entry env i)) -> prepare_tasks ctx env l db = Some (Ok (tasks, db')) ->
  Forall2 (fun p t => t.1 = p.1 /\ task_of ctx p.2 t.2 /\ steady (tk_env t.2)) l tasks /\ runs_kept db db'.
Proof.
  intros Hst. revert db tasks. induction l as [|[i mix] l IH]; intros db tasks H; cbn [prepare_tasks] in H.
  { injection H as <- <-. by split; [constructor|]. }
  apply after_ok in H as ([t db1] & Ht & H). apply after_ok in H as ([more db2] & Hm & [= <- <-]).
  destruct (prepare_task_ok _ _ _ _ _ _ _ (Hst i) Ht) as (Ht1 & Ht2 & Hk).
  destruct (IH _ _ Hm) as [Hall Hk']. split; [|by etransitivity]. constructor; [|done]. by split_and!.
Qed.

Lemma run_tasks_ok ctx env tasks db ids db' :
  NoDup tasks.*1 -> Forall (fun p => good_task ctx p.2) tasks ->
  run_tasks env tasks db = Some (Ok (ids, db')) ->
  adds db ids db' /\
  exists rs, Forall2 (fun t r => ran db db' t.2 r) tasks rs /\ ids = rs ≫= option_list.
Proof.
  intros Hd Hg H. unfold run_tasks in H. destruct (spawned_runs _ _) as [results db1] eqn:Hs.
  apply after_ok in H as (ids' & Ha & [= <- <-]). apply await_runs_ok in Ha as (rs & Hrs & ->).
  pose proof (merge_sort_Permutation (turn_le (sg_turn env)) tasks) as Hp.
  apply (spawned_runs_ran ctx) in Hs as (Hi & Hadds & Hran); [|by rewrite Hp].
  assert (Hp1 : tasks.*1 ≡ₚ results.*1) by by rewrite Hi, Hp.
  assert (Hd' : NoDup results.*1) by by rewrite <- Hp1.
  split; [eapply adds_perm; [symmetry; by eapply await_runs_perm|done]|].
  exists rs. split; [|done]. apply Forall2_fmap_l in Hrs.
  apply Forall2_same_length_lookup. split; [by eapply Forall2_length|]. intros i [j t] r Ht Hr.
  pose proof (Forall2_lookup_lr _ _ _ _ _ _ Hrs Ht Hr) as Hin. cbn [fst] in Hin.
  destruct (Hran _ _ Hin) as (t' & Ht' & Hr'). rewrite Hp in Ht'.
  apply list_elem_of_lookup in Ht' as (k & Hk).
  assert (k = i) as ->.
  { eapply NoDup_lookup; [exact Hd| |]; rewrite list_lookup_fmap; [by rewrite Hk|by rewrite Ht]. }
  rewrite Ht in Hk. by injection Hk as <-.
Qed.

Lemma active_indices stage : NoDup (active_scenarios stage).*1.
Proof.
  unfold active_scenarios. eapply sublist_NoDup; [|refine (fmap_sublist fst _ _ (sublist_filter _ _))].
  rewrite fmap_imap. rewrite (imap_ext _ (fun i _ => id i)) by done. rewrite imap_seq_0.
  rewrite list_fmap_id. apply NoDup_seq.
Qed.

(** A stage adds a run for each entry that has a rate. *)
Lemma execute_stage_recorded ctx env db ids db' :
  (forall i, steady (sg_entry env i)) -> execute_stage ctx env db = Some (Ok (ids, db')) ->
  adds db ids db' /\
  exists reqs, length reqs = length ids /\
    Forall2 (fun p x => recorded db' (sx_campaign ctx) (sx_campaign_id ctx) (sx_stage ctx) p.2 x.1 x.2)
      (active_scenarios (sx_stage ctx)) (zip ids reqs).
Proof.
  intros Hst. unfold execute_stage. pose proof (active_indices (sx_stage ctx)) as Hd.
  destruct (active_scenarios (sx_stage ctx)) as [|[i mix] l]; [done|]. destruct l as [|q l].
  - intros H. apply after_ok in H as ([t db1] & Ht & H).
    apply prepare_task_ok in Ht as (Ht & Hs & Hk); [|done].
    apply after_ok in H as ([r db2] & Hr & [= <- <-]).
    destruct (task_recorded _ _ _ _ _ _ Ht Hs Hr) as (id & req & -> & Ha & Hrec).
    split; [by eapply adds_kept_l|]. exists [req].
    split; [done|]. cbn [option_list zip zip_with]. constructor; [exact Hrec|constructor].
  - intros H. apply after_ok in H as ([tasks db1] & Ht & H).
    apply prepare_tasks_ok in Ht as [Ht Hk]; [|done].
    set (active := (i, mix) :: q :: l) in *. clearbody active.
    assert (Hidx : tasks.*1 = active.*1).
    { clear H Hd. induction Ht as [|p t ps ts [Hi _] _ IH]; cbn; [done|]. by rewrite Hi, IH. }
    apply (run_tasks_ok ctx) in H as (Ha & rs & Hrs & ->); [|by rewrite Hidx|].
    2: { clear -Ht. induction Ht as [|p t ps ts (_ & Ht & Hs) _ IH]; constructor; [|done]. split; [done|by eexists]. }
    split; [by eapply adds_kept_l|]. clear Hd Hidx Ha.
    revert rs Hrs. induction Ht as [|p t ps ts (_ & Ht & Hs) _ IH]; intros rs Hrs.
    { apply Forall2_nil_inv_l in Hrs as ->. by exists []. }
    apply Forall2_cons_inv_l in Hrs as (r & rs' & (db2 & db3 & Hran & Hk3) & Hrs & ->).
    destruct (task_recorded _ _ _ _ _ _ Ht Hs Hran) as (id & req & -> & _ & Hrec).
    destruct (IH _ Hrs) as (reqs & Hl & Hall). exists (req :: reqs). cbn. split; [by rewrite Hl|].
    constructor; [|done]. split; [apply Hk3, Hrec|apply Hrec].
Qed.

Lemma run_stage_recorded args ctx env db ids db' :
  run_stage args ctx env db = Some (Ok (ids, db')) -> execute_stage ctx env db = Some (Ok (ids, db')).
Proof. unfold run_stage. intros H. by repeat case_match. Qed.

Lemma recorded_kept db db' c campaign_id stage mix id req :
  runs_kept db db' -> recorded db c campaign_id stage mix id req ->
  recorded db' c campaign_id stage mix id req.
Proof. intros Hk [Hs Hr]. split; [by apply Hk|done]. Qed.

Lemma run_stages_recorded args c campaign_id base_seed envs i stages db ids db' :
  (forall i j, steady (sg_entry (envs i) j)) ->
  run_stages args c campaign_id base_seed envs i stages db = Some (Ok (ids, db')) ->
  adds db ids db' /\
  exists runs, ids = (concat runs).*1 /\
    Forall2 (fun stage l => Forall2 (fun p x => recorded db' c campaign_id stage p.2 x.1 x.2)
                              (active_scenarios stage) l) stages runs.
Proof.
  intros Hst. revert i db ids. induction stages as [|stage stages IH]; intros i db ids H; cbn [run_stages] in H.
  { injection H as <- <-. split; [by apply adds_nil|by exists []]. }
  apply after_ok in H as ([ids1 db1] & Hs & H). apply after_ok in H as ([more db2] & Hm & [= <- <-]).
  destruct (IH _ _ _ Hm) as (Ha & runs & -> & Hall). apply run_stage_recorded in Hs.
  apply execute_stage_recorded in Hs as (Ha1 & reqs & Hl & Hrec); [|apply Hst].
  split; [by eapply adds_app|]. exists (zip ids1 reqs :: runs). cbn.
  rewrite fmap_app, fst_zip by lia. split; [done|]. constructor; [|done].
  eapply Forall2_impl; [exact Hrec|]. intros p x. apply recorded_kept, Ha.
Qed.

(** The active entries have the whole rate. *)
Lemma active_rates stage :
  Forall (fun m => 0 <= rm_rate m) (rs_mix stage) ->
  sumZ ((fun p => rm_rate p.2) <$> active_scenarios stage) = sumZ (rm_rate <$> rs_mix stage).
Proof.
  unfold active_scenarios. intros H.
  assert (Hgen : forall k, sumZ ((fun p : nat * ResolvedMixEntry => rm_rate p.2) <$>
      filter (fun p => (0 <? rm_rate p.2) = true) (imap (fun i x => ((k + i)%nat, x)) (rs_mix stage))) =
    sumZ (rm_rate <$> rs_mix stage)).
  { induction H as [|m l Hm _ IH]; intros k; [done|]. cbn [imap].
    rewrite (imap_ext _ (fun i x => ((S k + i)%nat, x))) by (intros; cbn; f_equal; lia).
    rewrite filter_cons. cbn [snd]. case_decide as Hr.
    - rewrite fmap_cons. cbn [sumZ snd]. rewrite IH. done.
    - rewrite IH, fmap_cons. cbn [sumZ]. destruct (Z.ltb_spec 0 (rm_rate m)); [done|lia]. }
  exact (Hgen 0%nat).
Qed.

(** The runs of a stage of the file in the database, by their ids and what was
    recorded. *)
Definition stage_runs (db : D) (c : CampaignConfig) (campaign_id : string) (src : CampaignStage)
    (l : list (Z * SpamRunRequest)) : Prop :=
  exists rate dur,
    Some rate = match st_rate src with Some r => Some r | None => sp_rate (cf_spam c) end /\
    Some dur = match st_duration src with Some d => Some d | None => sp_duration (cf_spam c) end /\
    Forall (fun x : Z * SpamRunRequest => let req := x.2 in
      stored_run db x.1 req /\
      rr_campaign_id req = Some campaign_id /\ rr_campaign_name req = Some (cf_name c) /\
      rr_stage_name req = Some (st_name src) /\
      rr_duration req = match sp_mode (cf_spam c) with Tps => Seconds dur | Tpb => Blocks dur end /\
      arith (E := CliError) 64 (rr_txs_per_duration req * dur) = Ok (rr_tx_count req)) l /\
    (fun x => rr_scenario_name x.2) <$> l `sublist_of` me_scenario <$> st_mix src /\
    (rate < U64_MAX ->
     Forall (fun x => 0 < rr_txs_per_duration x.2) l /\
     sumZ ((fun x => rr_txs_per_duration x.2) <$> l) = rate).

Lemma Forall2_fmap_eq {X Y B} (R : X -> Y -> Prop) (f : X -> B) (g : Y -> B) l k :
  Forall2 R l k -> (forall x y, R x y -> g y = f x) -> g <$> k = f <$> l.
Proof. intros H Hfg. induction H as [|x y l k Hxy _ IH]; [done|]. rewrite !fmap_cons, IH. f_equal. by apply Hfg. Qed.

Lemma stage_runs_of db c campaign_id src stage l :
  stage_resolved (cf_spam c) src stage ->
  Forall2 (fun p x => recorded db c campaign_id stage p.2 x.1 x.2) (active_scenarios stage) l ->
  stage_runs db c campaign_id src l.
Proof.
  intros (Hn & Hr & Hd & _ & Hm & _ & Hsum) H. exists (rs_rate stage), (rs_duration stage).
  assert (Hrate : (fun x => rr_txs_per_duration x.2) <$> l = (fun p => rm_rate p.2) <$> active_scenarios stage).
  { eapply Forall2_fmap_eq; [exact H|]. by intros p x (_ & _ & _ & _ & _ & Ht & _). }
  split_and!; [done|done| | |].
  - apply Forall_forall. intros y Hy. apply list_elem_of_lookup in Hy as (i & Hi).
    destruct (Forall2_lookup_r _ _ _ _ _ H Hi) as (x & _ & Hin & Hc & Hcn & Hs & _ & Ht & Hdu & Htx).
    cbv zeta. rewrite Ht. split_and!; try done. by rewrite Hs, Hn.
  - rewrite (Forall2_fmap_eq _ (fun p => rm_scenario p.2) _ _ _ H) by (by intros p x (_ & _ & _ & _ & ? & _)).
    assert (Hmix : rm_scenario <$> rs_mix stage = (fun p => rm_scenario p.2) <$> imap pair (rs_mix stage))
      by (rewrite fmap_imap, (imap_ext _ (const rm_scenario)) by done; by rewrite imap_const).
    rewrite <- Hm, Hmix. exact (fmap_sublist _ _ _ (sublist_filter _ _)).
  - intros Hlt. destruct (Hsum Hlt) as [Hs Hpos]. split.
    + apply (Forall_fmap (fun x : Z * SpamRunRequest => rr_txs_per_duration x.2) (Z.lt 0)).
      rewrite Hrate. apply Forall_fmap, Forall_forall. intros p Hp.
      apply list_elem_of_filter in Hp as [Hp _]. cbn. lia.
    + by rewrite Hrate, active_rates.
Qed.

(** The setups of the files keep the runs that are recorded. *)
Lemma setup_all_entries_runs args base_seed envs entries (db db' : D) :
  (forall i j, se_end (es_env (envs i j)) = SetupRan) ->
  setup_all_entries args base_seed envs entries db = Some (Ok db') -> runs_kept db db'.
Proof.
  intros Hend. revert db. induction entries as [|[[i stage] [mix_idx mix]] entries IH]; intros db H;
    cbn [setup_all_entries] in H.
  { by injection H as <-. }
  apply after_ok in H as (cmd & _ & H). apply after_ok in H as (db1 & Hs & H). apply IH in H.
  apply setup_stages in Hs as (plan & s & s' & cost & db2 & _ & _ & _ & Hc & He); [|done].
  etransitivity; [by eapply estimate_setup_cost_runs|]. etransitivity; [by eapply setup_ended_runs|done].
Qed.


(** ** The setup makes the accounts that the runs use *)

Lemma setup_plan_agents {B} `{BO : !BuiltinOps B} (args : SetupCommandArgs (B := B) (Sd := Sd))
    (env : SetupEnv (D := D)) plan :
  setup_plan connect load args env = Ok plan ->
  config_agent_store (sp_testconfig plan) (su_seed args) (setup_spec args) = Ok (sp_agents plan).
Proof. unfold setup_plan. intros H. by inv_outcome. Qed.
Lemma spam_plan_agents {B} `{BO : !BuiltinOps B} (args : SpamCommandArgs (B := B) (Sd := Sd))
    (env : InitScenarioEnv (D := D)) plan :
  spam_plan connect load args env = Ok plan ->
  config_agent_store (pl_testconfig plan) (SpamCommand.seed args)
    (spam_agent_spec (SpamCommand.scenario args)
       (default 10 (ta_accounts_per_agent (sa_rpc_args (spam_args args))))) = Ok (pl_agents plan).
Proof. unfold spam_plan. intros H. by inv_outcome. Qed.

Lemma config_agents_equal (config : TestConfig) (seed : Sd) spec st pool s n :
  config_agent_store config seed spec = Ok st -> agents st !! pool = Some s ->
  Forall (fun c => c = 0 \/ c = n)%nat [create_accounts spec; setup_accounts spec; spam_accounts spec] ->
  exists k, SignerStore_new (E := Error) n seed pool k = Ok s.
Proof.
  unfold config_agent_store. intros H. apply bind_ok in H as (spam & _ & H).
  by eapply build_agent_store_equal.
Qed.

(** C13: The setup of a scenario file in a campaign and its run derive the same
    seed; a pool that both have has the same accounts, in the same order, so what
    the setup gave to the accounts of a pool, the run finds there. *)
Theorem setup_matches_spam args c campaign_id base_seed stage mix_idx mix seedfile seedfile'
    cmd spam_cmd meta now now' (senv : SetupEnv (D := D)) (ienv : InitScenarioEnv (D := D)) plan plan' pool s s' :
  is_builtin_reference (rm_scenario mix) = false ->
  setup_cmd args base_seed stage mix_idx mix seedfile = Ok cmd ->
  prepare_scenario (stage_context args c campaign_id base_seed stage) mix_idx mix seedfile' =
    Ok (spam_cmd, meta) ->
  setup_plan (BO := builtin_ops now) connect load cmd senv = Ok plan ->
  spam_plan (BO := builtin_ops now') connect load spam_cmd ienv = Ok plan' ->
  agents (sp_agents plan) !! pool = Some s -> agents (pl_agents plan') !! pool = Some s' ->
  su_seed cmd = SpamCommand.seed spam_cmd /\ signers s = signers s'.
Proof.
  intros Hb Hcmd Hprep Hplan Hplan' Hs Hs'. apply setup_plan_agents in Hplan. apply spam_plan_agents in Hplan'.
  unfold setup_cmd, SetupCommandArgs_new in Hcmd. inv_outcome. cbn [su_seed su_args] in *.
  rename select (seed_of_args _ _ = Ok _) into Hseed. unfold seed_of_args in Hseed. inv_outcome.
  unfold prepare_scenario in Hprep. inv_outcome. rename select (spam_scenario_of _ _ _ = Ok _) into Hsc.
  unfold spam_scenario_of in Hsc. unfold is_builtin_reference in Hb. apply bool_decide_eq_false in Hb.
  destruct (parse_builtin_reference _); [by destruct Hb; eexists|]. injection Hsc as <-.
  rename select (SpamCommandArgs_new _ _ _ = Ok _) into Hn. unfold SpamCommandArgs_new in Hn. inv_outcome.
  rename select (seed_of_args _ _ = Ok _) into Hseed'. unfold seed_of_args in Hseed'. inv_outcome.
  cbn in *. simplify_eq. split; [congruence|].
  set (n := Z.to_nat (default 10 (ta_accounts_per_agent (ca_rpc_args args)))) in *.
  eapply (config_agents_equal _ _ _ _ _ _ n) in Hplan as [k Hk]; [|exact Hs|].
  2: { cbn. repeat apply Forall_cons_2; first [apply Forall_nil_2|by left|by right]. }
  eapply (config_agents_equal _ _ _ _ _ _ n) in Hplan' as [k' Hk']; [|exact Hs'|].
  2: { cbn. repeat apply Forall_cons_2; first [apply Forall_nil_2|by left|by right]. }
  match type of Hk' with SignerStore_new _ ?y _ _ = _ => match type of Hk with
    SignerStore_new _ ?x _ _ = _ => assert (y = x) as Hxy by congruence end end.
  rewrite Hxy in Hk'. by eapply SignerStore_new_class.
Qed.

(** ** The runs find the contracts of the setup *)

Context {NL : NamedTxLaws D}.

(** The nodes of a setup give the addresses of what is deployed, on a chain with
    the given genesis, and the setup is not interrupted. *)
Definition fair_setup (genesis_hash : TxHash) (env : SetupEnv (D := D)) : Prop :=
  (forall e r, tk_send (se_deploy env).2 e = Ok r -> tr_contract_address r <> None) /\
  (forall e r, tk_send (sv_deploy (se_sim env)).2 e = Ok r -> tr_contract_address r <> None) /\
  nn_genesis (se_new env) = Ok (Some genesis_hash) /\ se_end env = SetupRan.

(** The contracts of a scenario file are known to a node. *)
Definition contracts_known (args : CampaignCliArgs) (genesis_hash : TxHash) (db : D) (file : string) : Prop :=
  let a := ca_rpc_args args in
  exists testconfig steps, args_testconfig a (load file) = Ok testconfig /\
    get_create_steps (with_cli_env (ta_env a) testconfig) = Ok steps /\
    Forall (fun step => known db (scenario_db_key (cc_name (cd_contract step)) (ta_scenario_label a))
                          (ta_rpc_url a) genesis_hash) steps.

Lemma contracts_known_kept args gh db db' file :
  (forall name url h, known db name url h -> known db' name url h) ->
  contracts_known args gh db file -> contracts_known args gh db' file.
Proof.
  intros Hk (tc & steps & Hc & Hs & Hall). exists tc, steps. split_and!; [done..|].
  eapply Forall_impl; [exact Hall|]. intros step. apply Hk.
Qed.

Lemma setup_all_entries_known args base_seed envs gh entries db db' :
  (forall i j, fair_setup gh (es_env (envs i j))) ->
  setup_all_entries args base_seed envs entries db = Some (Ok db') ->
  (forall name url h, known db name url h -> known db' name url h) /\
  Forall (fun e => contracts_known args gh db' (rm_scenario e.2.2)) entries.
Proof.
  intros Hfair. revert db. induction entries as [|[[i stage] [mix_idx mix]] entries IH]; intros db H;
    cbn [setup_all_entries] in H.
  { injection H as <-. by split. }
  apply after_ok in H as (cmd & [= Hcmd] & H). apply after_ok in H as (db1 & Hs & H).
  apply IH in H as [Hk Hall]. destruct (Hfair i mix_idx) as (H1 & H2 & Hgen & Hend).
  apply setup_known in Hs as (Hk1 & tc & steps & gh' & Hc & Hgen' & Hsteps & Hknown); [|done..].
  assert (gh' = gh) as -> by congruence.
  unfold setup_cmd, SetupCommandArgs_new in Hcmd. inv_outcome. cbn in Hc, Hsteps, Hknown.
  split; [by auto|]. constructor; [|done]. apply (contracts_known_kept args gh db1 _ _ Hk). by exists tc, steps.
Qed.

(** C14: Once the scenario files of a campaign are set up, every contract of each
    of them is found in each of its stages: whatever was set up after it, a
    placeholder with its name resolves to an address on the node. *)
Theorem campaign_contracts_found args base_seed envs stages gh db db' stage mix :
  (forall i j, fair_setup gh (es_env (envs i j))) ->
  setup_all_entries args base_seed envs (setup_entries stages) db = Some (Ok db') ->
  stage ∈ stages -> mix ∈ rs_mix stage -> rm_rate mix <> 0 ->
  is_builtin_reference (rm_scenario mix) = false ->
  let a := ca_rpc_args args in
  exists testconfig steps, args_testconfig a (load (rm_scenario mix)) = Ok testconfig /\
    get_create_steps (with_cli_env (ta_env a) testconfig) = Ok steps /\
    Forall (fun step =>
      let name := cc_name (cd_contract step) in
      forall m, name <> SENDER_KEY -> name <> SETCODE_KEY -> m !! name = None ->
      exists address, resolve_key (node_env (ta_rpc_url a) gh (ta_scenario_label a) db') name m =
        Ok (<[name := address_encode_hex address]> m)) steps.
Proof.
  intros Hfair H Hst Hmix Hrate Hb a. apply (setup_all_entries_known _ _ _ gh) in H as [_ Hall]; [|done].
  rewrite Forall_forall in Hall. apply list_elem_of_lookup in Hst as (i & Hi), Hmix as (j & Hj).
  destruct (Hall ((i, stage), (j, mix))) as (tc & steps & Hc & Hs & Hknown).
  { apply list_elem_of_bind. exists (i, stage). split.
    - apply list_elem_of_fmap_2, list_elem_of_filter. split.
      + unfold needs_setup. cbn [snd]. rewrite Hb. by apply Z.eqb_neq in Hrate as ->.
      + apply list_elem_of_lookup. exists j. cbn; rewrite list_lookup_imap; cbn in Hj; by rewrite Hj.
    - apply list_elem_of_lookup. exists i. by rewrite list_lookup_imap, Hi. }
  exists tc, steps. split_and!; [done..|]. eapply Forall_impl; [exact Hknown|].
  intros step Hk name m H1 H2 Hm. by eapply known_resolves.
Qed.
End campaign_run.

(** ** What the checks do not catch *)

(** A stage of duration 0 with too few transactions is not reported: computing
    the minimum rate for the message divides by zero. *)
Lemma validate_zero_duration `{Profile} config :
  tc_spam config = Some [Tx (FunctionCallDefinition_new "to")] ->
  let mix := {| rm_scenario := "file.toml"; rm_share_pct := f64_of_Z 100; rm_rate := 5 |} in
  validate_mix_rate (fun _ => Ok config)
    {| rs_name := "s"; rs_rate := 5; rs_duration := 0; rs_stage_timeout := None; rs_mix := [mix] |}
    mix = Panic.
Proof. intros Htc. unfold validate_mix_rate. cbn. rewrite Htc. reflexivity. Qed.

(** ** A campaign of one stage *)

Module CampaignRunWitness.
Export SetupWitness.

#[export] Instance files : ScenarioFiles := {|
  counter_hex := "c0"; smart_wallet_hex := "50"; spam_me_hex := "5a"; spam_me_6_hex := "56";
  test_token_hex := "70"; uniV2_toml := TestConfig_new |}.
#[export] Instance shown : F64Display := fun _ => "1"%string.

Definition no_compiler : CustomContractCliArgs -> outcome CustomContractArgsError.t CustomContractArgs :=
  fun _ => Err CustomContractArgsError.SpamArgsEmpty.
Definition silent : ReportNode := {|
  rn_block_time := Ok 2; rn_latest_block := Ok None; rn_block _ := Err "offline"%string;
  rn_trace _ := Err "offline"%string; rn_receipt _ := Err "offline"%string;
  rn_arrival l := l; rn_trace_arrival l := l |}.

Definition campaign : CampaignConfig := {|
  cf_name := "load"; cf_description := None;
  cf_spam := {| sp_mode := Tps; sp_rate := Some 2; sp_duration := Some 3; sp_seed := Some 9;
                sp_stage_timeout := None; sp_stage := [];
                sp_mix := Some [{| me_scenario := "file"; me_share_pct := f64_of_Z 100 |}] |} |}.
Definition campaign_args : CampaignCliArgs := {|
  ca_campaign := "campaign.toml"; ca_rpc_args := send_args; ca_builder_url := None;
  ca_pending_timeout := 12; ca_rpc_batch_size := 0; ca_ignore_receipts := true;
  ca_optimistic_nonces := false; ca_gen_report := false; ca_skip_setup := true;
  ca_spam_timeout := 5; ca_send_raw_tx_sync := false; ca_run_forever := false;
  ca_flashblocks_ws_url := None; ca_skip_tx_traces := true; ca_time_to_inclusion_bucket := 1000 |}.
Definition fresh_env : InitScenarioEnv (D := Store) := {|
  ie_block_number := Ok 0; ie_block _ := Ok None; ie_fund := fund_env; ie_new := create_node;
  ie_sim := sim_env; ie_deploy := calls; ie_setup := calls; ie_setup_end := SetupRan;
  ie_cost := (create_node, nn_rpc create_node) |}.
Definition quiet_run : SpamEnv (D := Store) := {|
  sp_start_block := Ok 9; sp_block_number := Ok 0; sp_block _ := Ok None;
  sp_now := Some 1700000000000; sp_cost := (create_node, nn_rpc create_node);
  sp_events := [RunEnds (fun _ _ _ db => mret (Some (db, [])))];
  sp_dump := []; sp_dump_start := 0; sp_dump_interrupted := false |}.
Definition stage_env : StageEnv (D := Store) := {|
  sg_entry _ := {| en_seedfile := Ok "0x05"%string; en_now := Some 0; en_init := fresh_env;
                   en_spam := quiet_run |};
  sg_turn _ := 0; sg_late := false |}.
Definition campaign_env : CampaignEnv (D := Store) := {|
  cp_file := Ok campaign; cp_seedfile := Ok "0x05"%string; cp_id := "1234";
  cp_setup _ _ := {| es_seedfile := Ok "0x05"%string; es_now := None;
    es_env := {| se_balance _ := Ok 0; se_fund := fund_env; se_new := create_node; se_sim := sim_env;
                 se_block_number := Ok 0; se_block _ := Ok None; se_deploy := calls; se_setup := calls;
                 se_end := SetupRan |} |};
  cp_passes := [PassEnds (fun _ => stage_env)]; cp_cache := None |}.
Definition campaign_ran := run_campaign (Sd := CountSeed) no_proof no_engine load_conf id (Ok None)
  no_compiler silent id (fun _ => ""%string) campaign_args campaign_env empty_store.


(** A scenario file with a pool that both the setup and the spam steps use. *)
Definition user_call : FunctionCallDefinition := with_from_pool "users" (FunctionCallDefinition_new "0x{token}").
Definition users_conf : TestConfig := {|
  tc_env := None; tc_create := None; tc_setup := Some [user_call]; tc_spam := Some [Tx user_call] |}.
Definition load_users : string -> outcome CliError TestConfig := fun _ => Ok users_conf.
Definition the_mix : ResolvedMixEntry :=
  {| rm_scenario := "file"; rm_share_pct := f64_of_Z 100; rm_rate := 2 |}.
Definition the_stage : ResolvedStage :=
  {| rs_name := "steady"; rs_rate := 2; rs_duration := 3; rs_stage_timeout := None; rs_mix := [the_mix] |}.
Definition seed_file : outcome CliError string := Ok "0x05"%string.
Definition users_setup : outcome CliError (SetupCommandArgs (B := BuiltinScenario) (Sd := CountSeed)) :=
  setup_cmd campaign_args "9" the_stage 0 the_mix seed_file.
Definition users_spam : outcome CliError (SpamCommandArgs (B := BuiltinScenario) (Sd := CountSeed) * ScenarioMeta) :=
  prepare_scenario id (Ok None) no_compiler (stage_context campaign_args campaign "1234" "9" the_stage)
    0 the_mix seed_file.
Definition rich_env : SetupEnv (D := MockDb) := {|
  se_balance _ := Ok (2 ^ 200); se_fund := fund_env; se_new := create_node; se_sim := sim_env;
  se_block_number := Ok 0; se_block _ := Ok None; se_deploy := calls; se_setup := calls;
  se_end := SetupRan |}.
Definition setup_users : outcome CliError (option SignerStore) :=
  cmd ← users_setup;
  plan ← setup_plan (BO := builtin_ops None) no_engine load_users cmd rich_env;
  mret (agents (sp_agents plan) !! "users"%string).
Definition spam_users : outcome CliError (option SignerStore) :=
  '(cmd, _) ← users_spam;
  plan ← spam_plan (BO := builtin_ops None) no_engine load_users cmd start_env;
  mret (agents (pl_agents plan) !! "users"%string).

Lemma setup_matches_spam_witness :
  exists s s', setup_users = Ok (Some s) /\ spam_users = Ok (Some s') /\ signers s = signers s'.
Proof.
  assert (H1 : match setup_users with Ok (Some _) => true | _ => false end = true)
    by (vm_compute; reflexivity).
  assert (H2 : match spam_users with Ok (Some _) => true | _ => false end = true)
    by (vm_compute; reflexivity).
  destruct setup_users as [[s|]|e|] eqn:Hs; [|discriminate H1..].
  destruct spam_users as [[s'|]|e|] eqn:Hs'; [|discriminate H2..].
  exists s, s'. split_and!; [reflexivity..|].
  apply bind_ok in Hs as (cmd & Hcmd & Hs). apply bind_ok in Hs as (plan & Hplan & Hs).
  apply bind_ok in Hs' as ([cmd' meta] & Hcmd' & Hs'). apply bind_ok in Hs' as (plan' & Hplan' & Hs').
  injection Hs as Hs. injection Hs' as Hs'.
  destruct (setup_matches_spam no_engine load_users id (Ok None) no_compiler campaign_args campaign
    "1234" "9" the_stage 0 the_mix seed_file seed_file cmd cmd' meta None None rich_env start_env
    plan plan' "users" s s') as [_ H]; [reflexivity|exact Hcmd|exact Hcmd'|exact Hplan|exact Hplan'|exact Hs|exact Hs'|].
  exact H.
Defined.

(** The scenario with the token, set up for one stage. *)
Definition tokens_setup : option (outcome CliError Store) :=
  setup_all_entries no_proof no_engine load_token campaign_args "9"
    (fun _ _ => {| es_seedfile := seed_file; es_now := None; es_env := token_env |})
    (setup_entries [the_stage]) empty_store.
Lemma campaign_contracts_found_witness :
  exists db' address, tokens_setup = Some (Ok db') /\
    resolve_key (node_env "http" 77 None db') "token" ∅ =
      Ok (<["token"%string := address_encode_hex address]> ∅).
Proof.
  assert (Hok : match tokens_setup with Some (Ok _) => true | _ => false end = true)
    by (vm_compute; reflexivity).
  destruct tokens_setup as [[db'|e|]|] eqn:Hs; [|discriminate Hok..].
  destruct (campaign_contracts_found no_proof no_engine load_token campaign_args "9"
    (fun _ _ => {| es_seedfile := seed_file; es_now := None; es_env := token_env |})
    [the_stage] 77 empty_store db' the_stage the_mix) as (tc & steps & Hc & Hsteps & Hall).
  - intros _ _. split_and!; [by intros e r [= <-]|by intros e r [= <-]|reflexivity|reflexivity].
  - exact Hs.
  - left.
  - left.
  - discriminate.
  - reflexivity.
  - injection Hc as <-. injection Hsteps as <-. apply Forall_inv in Hall.
    destruct (Hall ∅) as (a & Ha); [done..|]. exists db', a. split; [reflexivity|exact Ha].
Defined.
End CampaignRunWitness.
