(* ===== verification/Main.v ===== *)
(** * The commands ([cli/src/main.rs], [cli/src/commands/contender_subcommand.rs])

    What the program does with its arguments: it finds its directory, opens and
    checks the database, and calls one command.  A command is a [Call], the
    function of [cli/src/commands] or [report/src/command.rs] with its
    arguments; the commands on the database file are executed here. *)

From Stdlib Require Import Strings.Byte Strings.Ascii Strings.String.
From S2P Require Import Prelude Text Seeder Alloy Agents F64 Db Sql SqliteDb GenTypes GenUtil CoreError Templater TestFile Generator TxActor Scenario Spam Orchestrator Histogram Charts Report Engine FileSystem CliError DataDir RpcRuns CliUtil CliArgs Replay SpamCommand Setup Admin CustomContract Builtins CampaignRun.

(** ** Arguments *)

Inductive ReportFormat := Html | JsonFormat.
Definition default_report_format : ReportFormat := Html.
Definition use_json_of (f : ReportFormat) : bool :=
  match f with JsonFormat => true | Html => false end.

Inductive DbCommand :=
| DbDrop
| DbReset
| DbExport (out_path : Path)
| DbImport (src_path : Path).

Inductive ContenderSubcommand :=
| CmdAdmin (command : AdminCommand)
| CmdDb (command : DbCommand)
| CmdSpam (args : SpamCliArgs) (builtin_scenario_config : option BuiltinScenarioCli)
| CmdSetup (testfile : option string) (rpc_args : SendTxsCliArgsInner)
| CmdServer
| CmdReplay (args : ReplayCliArgs)
| CmdReport (last_run_id : option Z) (preceding_runs : Z) (campaign_id : option string)
    (format : ReportFormat) (skip_tx_traces : bool) (time_to_inclusion_bucket : Z)
| CmdCampaign (args : CampaignCliArgs)
| CmdRpc (args : RpcCliArgs).

Record ContenderCli := { data_dir : option Path; command : ContenderSubcommand }.

(** ** Log levels *)

Inductive Level := TRACE | DEBUG | INFO | WARN | ERROR.
(** [Level::from_str] on a word, [unwrap_or(Level::INFO)]. *)
Definition level_of (word : string) : Level :=
  if String.eqb word "trace" then TRACE
  else if String.eqb word "debug" then DEBUG
  else if String.eqb word "warn" then WARN
  else if String.eqb word "error" then ERROR
  else INFO.
(** [lvl > Level::INFO]. *)
Definition more_than_info (l : Level) : bool :=
  match l with TRACE | DEBUG => true | _ => false end.

Definition is_letter (c : ascii) : bool :=
  let n := nat_of_ascii (lower c) in (97 <=? n)%nat && (n <=? 122)%nat.

(** The words of the matches of [=[a-zA-Z]+]; [cur] is the word that is being
    read, if an equals sign came before. *)
Definition emit (cur : option string) : list string :=
  match cur with
  | Some word => if String.eqb word "" then [] else [word]
  | None => []
  end.
Fixpoint level_words (cur : option string) (s : string) : list string :=
  match s with
  | EmptyString => emit cur
  | String c s =>
      match cur with
      | Some word =>
          if is_letter c then level_words (Some (word +:+ String c "")%string) s
          else emit cur ++ level_words (if Ascii.eqb c "="%char then Some ""%string else None) s
      | None => level_words (if Ascii.eqb c "="%char then Some ""%string else None) s
      end
  end.
Definition read_rust_log (rust_log : option string) : list Level :=
  level_of <$> level_words None (to_lowercase (default ""%string rust_log)).

(** Whether log lines show their place in the source. *)
Definition detailed_tracing (rust_log : option string) : bool :=
  existsb more_than_info (read_rust_log rust_log).

(** ** Dispatch *)

Section dispatch.
Context `{A : Alloy, Sg : !Signing} {P : Profile}.
Context {D : Type} `{DO : DbOps D}.
Context {Sd : Type} `{SV : SeedValue Sd, SD : Seeder Sd, SG : !SeedGenerator Sd}.
Variables (bold : string -> string) (block_gas_limit : outcome CliError (option Z))
  (compile : CustomContractCliArgs -> outcome CustomContractArgsError.t CustomContractArgs)
  (engine_connect : AuthCliArgs -> bool -> outcome CliError (option AuthProvider)).

Abbreviation SpamArgs := (SpamCommandArgs (B := BuiltinScenario) (Sd := Sd)).
Abbreviation SetupArgs := (SetupCommandArgs (B := BuiltinScenario) (Sd := Sd)).

(** The command that is called. *)
Inductive Call :=
| CallDb (command : DbCommand)
| CallSetup (args : SetupArgs)
| CallSpam (args : SpamArgs) (context : SpamCampaignContext)
| CallServer
| CallReplay (args : ReplayArgs)
| CallReport (params : ReportParams)
| CallReportCampaign (campaign_id : string) (params : ReportParams)
| CallAdmin (command : AdminCommand)
| CallCampaign (args : CampaignCliArgs)
| CallRpc (args : RpcCliArgs).

Definition DEFAULT_TESTFILE : string := "scenario:simple.toml".

(** The scenario of [contender spam]: a file, a builtin scenario, or filling
    blocks when neither is given. *)
Definition spam_scenario (seedfile : outcome CliError string) (args : SpamCliArgs)
    (builtin : option BuiltinScenarioCli) : outcome CliError (SpamScenario (B := BuiltinScenario)) :=
  ensure (negb (bool_decide (is_Some builtin) && bool_decide (is_Some (sa_testfile args))))
    (Args ArgsError.ScenarioFileBuiltinConflict);;
  match sa_testfile args with
  | Some testfile => mret (Testfile testfile)
  | None =>
      options ← builtin_options seedfile args;
      scenario ← to_builtin_scenario bold block_gas_limit compile options
                   (default (CliFillBlock None) builtin);
      mret (Builtin scenario)
  end.

Definition LATEST_CAMPAIGN : string := "__LATEST_CAMPAIGN__".

(** The campaign that is reported: the latest one when its id is left out. *)
Definition resolve_campaign_id (db : D) (campaign_id : string) : outcome CliError string :=
  if String.eqb campaign_id LATEST_CAMPAIGN then
    latest ← db_call (Db.latest_campaign_id db);
    ok_or (ReportErr "no runs found for campaign id latest") latest
  else mret campaign_id.

Definition report_call (db : D) (last_run_id : option Z) (preceding_runs : Z)
    (campaign_id : option string) (format : ReportFormat) (skip_tx_traces : bool)
    (time_to_inclusion_bucket : Z) : outcome CliError Call :=
  let common p :=
    with_use_json
      (with_time_to_inclusion_bucket (with_skip_tx_traces p skip_tx_traces) time_to_inclusion_bucket)
      (use_json_of format) in
  match campaign_id with
  | Some campaign_id =>
      id ← resolve_campaign_id db campaign_id;
      mret (CallReportCampaign id (common default_report_params))
  | None =>
      let params := common (with_preceding_runs default_report_params preceding_runs) in
      mret (CallReport (match last_run_id with Some id => with_last_run_id params id | None => params end))
  end.

Definition dispatch (seedfile : outcome CliError string) (db : D) (command : ContenderSubcommand)
  : outcome CliError Call :=
  match command with
  | CmdDb c => mret (CallDb c)
  | CmdSetup testfile rpc_args =>
      args ← SetupCommandArgs_new seedfile (Testfile (default DEFAULT_TESTFILE testfile)) rpc_args;
      mret (CallSetup args)
  | CmdSpam args builtin =>
      scenario ← spam_scenario seedfile args builtin;
      spam_args ← SpamCommandArgs_new seedfile scenario args;
      mret (CallSpam spam_args default_campaign_context)
  | CmdServer => mret CallServer
  | CmdReplay args => args ← replay_args engine_connect args; mret (CallReplay args)
  | CmdReport last_run_id preceding_runs campaign_id format skip_tx_traces bucket =>
      report_call db last_run_id preceding_runs campaign_id format skip_tx_traces bucket
  | CmdAdmin c => mret (CallAdmin c)
  | CmdCampaign args => mret (CallCampaign args)
  | CmdRpc args => mret (CallRpc args)
  end.

End dispatch.

(** ** The program *)

(** The commands that run whatever the version of the database. *)
Definition bypasses_version (command : ContenderSubcommand) : bool :=
  match command with CmdDb _ | CmdAdmin _ => true | _ => false end.

(** The commands that read, or make, the seed file. *)
Definition reads_seedfile (command : ContenderSubcommand) : bool :=
  match command with
  | CmdSetup _ _ => true
  | CmdSpam args builtin =>
      negb (bool_decide (is_Some builtin) && bool_decide (is_Some (sa_testfile args)))
  | _ => false
  end.

(** The outcome of a computation, whose error is looked at later. *)
Definition attempt {S E E' B} (m : stm S E B) : stm S E' (outcome E B) :=
  fun s => let '(s', r) := m s in (s', Ok r).

Section run.
Context `{F : Faults} (to_path : string -> Path) (var : string -> outcome string string).
Context `{A : Alloy, Sg : !Signing} {P : Profile}.
Context {FD : F64Display} {X : SqlText} {H : FromHex} (pick : nat -> outcome string nat)
  (fk_default : bool).
Context {Sd : Type} `{SV : SeedValue Sd, SD : Seeder Sd, SG : !SeedGenerator Sd}.
Variables (bold : string -> string) (block_gas_limit : outcome CliError (option Z))
  (compile : CustomContractCliArgs -> outcome CustomContractArgsError.t CustomContractArgs)
  (engine_connect : AuthCliArgs -> bool -> outcome CliError (option AuthProvider))
  (random : list byte).

Definition run_db_command (db_path : Path) (command : DbCommand) : stm FS CliError unit :=
  match command with
  | DbDrop => drop_db db_path
  | DbReset => reset_db pick fk_default db_path
  | DbExport out_path => export_db db_path out_path
  | DbImport src_path => import_db src_path db_path
  end.

(** Opening the database, and the check of its version. *)
Definition open_checked (db_path : Path) (command : ContenderSubcommand) : stm FS CliError SqliteDb :=
  db ← stm_map_err CliDb (from_file db_path);
  compatible ← with_db db_path db (init_db pick fk_default (bypasses_version command));
  lift (ensure compatible DbVersion);;
  stm_map_err CliDb (from_file db_path).

(** [run], up to the call of a command; the commands on the database file are
    executed. *)
Definition run (args : ContenderCli) : stm FS CliError (Call (Sd := Sd)) :=
  data_dir ← stm_map_err Util (resolve_data_dir to_path var (data_dir args));
  let db_path := db_file_in data_dir in
  init_reports_dir data_dir;;
  db ← open_checked db_path (command args);
  match command args with
  | CmdDb c => run_db_command db_path c;; mret (CallDb c)
  | c =>
      seedfile ← (if reads_seedfile c then attempt (load_seedfile random data_dir)
                  else mret (Err Aborted));
      lift (dispatch (DO := sqlite_ops pick fk_default) bold block_gas_limit compile engine_connect
              seedfile db c)
  end.

End run.

(** ** The version of the database *)

Section run_lemmas.
Context `{F : Faults} (to_path : string -> Path) (var : string -> outcome string string).
Context `{A : Alloy, Sg : !Signing} {P : Profile}.
Context {FD : F64Display} {X : SqlText} {H : FromHex} (pick : nat -> outcome string nat)
  (fk : bool) (pool_ok : forall n, exists c, pick n = Ok c).
Context {Sd : Type} `{SV : SeedValue Sd, SD : Seeder Sd, SG : !SeedGenerator Sd}.
Variables (bold : string -> string) (block_gas_limit : outcome CliError (option Z))
  (compile : CustomContractCliArgs -> outcome CustomContractArgsError.t CustomContractArgs)
  (engine_connect : AuthCliArgs -> bool -> outcome CliError (option AuthProvider))
  (random : list byte).
Implicit Types fs : FS.

Abbreviation run_here args := (run to_path var pick fk bold block_gas_limit compile engine_connect random
  (Sd := Sd) args).

(** The file at [p] holds this database. *)
Definition holds_db fs (p : Path) (t : Tables) (v : Z) : Prop :=
  fs !! p = Some (File (Database t v)).

Lemma from_file_ok p fs fs' db : from_file p fs = (fs', Ok db) ->
  holds_db fs' p (sq_tables db) (sq_user_version db).
Proof.
  unfold from_file, holds_db, fail, mbind, stm_bind, gets, modify, lift. cbn.
  destruct (fs !! p) as [[[s|t v]|]|] eqn:E.
  - destruct (String.eqb s ""); intros [= <- <-]. apply lookup_insert_eq.
  - by intros [= <- <-].
  - done.
  - destruct (writable fs p); intros [= <- <-]. apply lookup_insert_eq.
Qed.

Lemma from_file_db p fs t v : holds_db fs p t v ->
  from_file p fs = (fs, Ok {| sq_tables := t; sq_user_version := v; sq_conns := ∅; sq_requests := 0 |}).
Proof. unfold holds_db, from_file, mbind, stm_bind, gets. cbn. by intros ->. Qed.

(** What [open_checked] does with a database. *)
Lemma open_checked_run p command fs fs1 db :
  from_file p fs = (fs1, Ok db) ->
  exists s', open_checked pick fk p command fs =
      (close_db p s' fs1,
       if bypasses_version command || (sq_user_version s' =? DB_VERSION)
       then Ok {| sq_tables := sq_tables s'; sq_user_version := sq_user_version s';
                  sq_conns := ∅; sq_requests := 0 |}
       else Err DbVersion) /\
    (is_Some (sq_tables db !! "run_txs") ->
       sq_tables s' = sq_tables db /\ sq_user_version s' = sq_user_version db).
Proof.
  intros Ho. destruct (init_db_gate pick fk pool_ok (bypasses_version command) db) as (s' & Hi & Ht).
  exists s'. split.
  - unfold open_checked.
    assert (Ho' : stm_map_err CliDb (from_file p) fs = (fs1, Ok db)) by (unfold stm_map_err; by rewrite Ho).
    rewrite (stm_bind_run _ _ _ _ _ Ho'). unfold with_db. rewrite Hi. unfold mbind, stm_bind, modify, lift, ensure. cbn.
    destruct (bypasses_version command || (sq_user_version s' =? DB_VERSION)); [|done].
    unfold stm_map_err. erewrite from_file_db by apply lookup_insert_eq. done.
  - intros [rows Hr]. by rewrite Hr in Ht.
Qed.

Lemma load_seedfile_other dir fs fs' r q :
  load_seedfile random dir fs = (fs', r) -> q <> FileSystem.join dir "seed" -> fs' !! q = fs !! q.
Proof.
  intros Hl Hq. unfold load_seedfile, mbind, stm_bind, gets in Hl. cbn [id] in Hl.
  assert (Hread : forall fs0 fs0' r0, read_to_string (FileSystem.join dir "seed") fs0 = (fs0', r0) -> fs0' = fs0).
  { intros fs0 fs0' r0. unfold read_to_string, allowed, fail, mbind, stm_bind, gets, lift, mret, stm_ret.
    cbn. repeat case_match; intros; simplify_eq; done. }
  destruct (exists_path fs (FileSystem.join dir "seed")).
  - cbn in Hl. unfold stm_map_err in Hl. destruct (read_to_string _ fs) as [fs2 r2] eqn:E.
    apply Hread in E as ->. by destruct r2; injection Hl as <- _.
  - unfold stm_map_err at 1 in Hl. destruct (write _ _ fs) as [fs1 r1] eqn:E1.
    assert (Hw : fs1 !! q = fs !! q) by (by eapply put_other).
    destruct r1; cbn in Hl; [|by injection Hl as <- _..].
    unfold stm_map_err in Hl. destruct (read_to_string _ fs1) as [fs2 r2] eqn:E.
    apply Hread in E as ->. by destruct r2; injection Hl as <- _.
Qed.

Lemma db_not_seed dir : db_file_in dir <> FileSystem.join dir "seed".
Proof. intros E. by apply join_inj in E as [_ E]. Qed.

Lemma init_reports_more dir fs fs' r : init_reports_dir dir fs = (fs', r) ->
  more_dirs fs fs' /\ (r = Panic \/ exists p, r = Ok p).
Proof.
  unfold init_reports_dir, expect_stm, mbind, stm_bind.
  destruct (create_dir_all (FileSystem.join dir "reports") fs) as [fs1 r1] eqn:E.
  pose proof (create_dirs_spec _ _ _ _ _ E) as (Hm & _ & _).
  destruct r1; intros [= <- <-]; split; eauto.
Qed.

(** The steps of a command that is not one on the database file. *)
Lemma run_steps args dir fs fs1 fs' r :
  resolve_data_dir to_path var (data_dir args) fs = (fs1, Ok dir) ->
  bypasses_version (command args) = false ->
  run_here args fs = (fs', r) ->
  exists fs2, more_dirs fs1 fs2 /\
    (r = Panic \/ exists fs3 ro, open_checked pick fk (db_file_in dir) (command args) fs2 = (fs3, ro) /\
       fs' !! db_file_in dir = fs3 !! db_file_in dir /\
       ((exists db, ro = Ok db) \/ exists e, ro = Err e /\ r = Err e)).
Proof.
  intros Hd Hb Hr. unfold run in Hr.
  assert (Hd' : stm_map_err Util (resolve_data_dir to_path var (data_dir args)) fs = (fs1, Ok dir))
    by (unfold stm_map_err; by rewrite Hd).
  rewrite (stm_bind_run _ _ _ _ _ Hd') in Hr. unfold mbind at 1, stm_bind in Hr.
  destruct (init_reports_dir dir fs1) as [fs2 r2] eqn:E2.
  apply init_reports_more in E2 as [Hm [->|[p ->]]]; exists fs2; (split; [done|]).
  { left. by injection Hr as _ <-. }
  unfold mbind at 1, stm_bind in Hr.
  destruct (open_checked pick fk (db_file_in dir) (command args) fs2) as [fs3 r3] eqn:E3.
  destruct r3 as [db|e|]; [|right; exists fs3, (Err e); injection Hr as <- <-; eauto 6
                           |left; by injection Hr as _ <-].
  right. exists fs3, (Ok db). split; [done|]. split; [|by left; eexists].
  assert (Hc : forall c seed, (seedfile ← seed; lift (dispatch (DO := sqlite_ops pick fk) (Sd := Sd) bold
             block_gas_limit compile engine_connect seedfile db c)) fs3 = (fs', r) ->
             seed = (if reads_seedfile c then attempt (load_seedfile random dir) else mret (Err Aborted)) ->
             fs' !! db_file_in dir = fs3 !! db_file_in dir).
  { intros c seed Hs ->. unfold mbind, stm_bind, attempt, lift in Hs. destruct (reads_seedfile c).
    - destruct (load_seedfile random dir fs3) as [fs4 r4] eqn:E4. injection Hs as <- _.
      eapply load_seedfile_other; [done|apply db_not_seed].
    - by injection Hs as <- _. }
  destruct (command args); try done; by eapply Hc.
Qed.

(** C27: a command that is called, other than those on the database file and
    on the accounts, finds a database of the version of the program. *)
Theorem run_compatible args dir fs fs1 fs' call :
  resolve_data_dir to_path var (data_dir args) fs = (fs1, Ok dir) ->
  bypasses_version (command args) = false ->
  run_here args fs = (fs', Ok call) ->
  exists t, fs' !! db_file_in dir = Some (File (Database t DB_VERSION)).
Proof.
  intros Hd Hb Hr.
  destruct (run_steps args dir fs fs1 fs' (Ok call) Hd Hb Hr)
    as (fs2 & _ & [[=]|(fs3 & ro & Ho & -> & [[db ->]|(e & _ & [=])])]).
  pose proof Ho as Hopen. unfold open_checked in Hopen.
  apply stm_bind_ok in Hopen as (fs4 & db0 & Hf & _).
  apply stm_map_err_run in Hf as (r0 & Hf & Hr0). symmetry in Hr0. apply map_err_ok_inv in Hr0 as ->.
  destruct (open_checked_run _ (command args) _ _ _ Hf) as (s' & Hs & _).
  rewrite Hs, Hb in Ho. cbn in Ho.
  destruct (Z.eqb_spec (sq_user_version s') DB_VERSION) as [Hv|]; [|done].
  injection Ho as <- _. exists (sq_tables s'). unfold close_db. by rewrite lookup_insert_eq, Hv.
Qed.

(** A database of another version stops every other command before it
    starts, and is left as it is. *)
Theorem run_refuses_version args dir fs fs1 fs' r t v :
  resolve_data_dir to_path var (data_dir args) fs = (fs1, Ok dir) ->
  bypasses_version (command args) = false ->
  holds_db fs1 (db_file_in dir) t v -> is_Some (t !! "run_txs") -> v <> DB_VERSION ->
  run_here args fs = (fs', r) -> r <> Panic ->
  r = Err DbVersion /\ holds_db fs' (db_file_in dir) t v.
Proof.
  intros Hd Hb Ht Hrun Hv Hr Hp.
  destruct (run_steps args dir fs fs1 fs' r Hd Hb Hr)
    as (fs2 & [Hm _] & [?|(fs3 & ro & Ho & Hsame & Hro)]); [done|].
  assert (Ht2 : holds_db fs2 (db_file_in dir) t v) by (by apply Hm).
  destruct (open_checked_run _ (command args) _ _ _ (from_file_db _ _ _ _ Ht2)) as (s' & Hs & Hkeep).
  destruct (Hkeep Hrun) as [Ht' Hv']. cbn in Ht', Hv'. rewrite Hs, Hb, Hv' in Ho.
  rewrite (proj2 (Z.eqb_neq _ _) Hv) in Ho. cbn in Ho. injection Ho as <- <-.
  destruct Hro as [[db [=]]|(e & [= <-] & ->)]. split; [done|].
  unfold holds_db. rewrite Hsame. unfold close_db. by rewrite lookup_insert_eq, Ht', Hv'.
Qed.

End run_lemmas.

(** ** The spam command *)

Section spam_choice.
Context `{A : Alloy, Sg : !Signing} {P : Profile}.
Context {Sd : Type} `{SV : SeedValue Sd, SD : Seeder Sd, SG : !SeedGenerator Sd}.
Variables (bold : string -> string) (block_gas_limit : outcome CliError (option Z))
  (compile : CustomContractCliArgs -> outcome CustomContractArgsError.t CustomContractArgs).

(** A scenario file and a builtin scenario together are refused; a file is
    taken as it is, and without either the blocks are filled. *)
Lemma spam_scenario_cases seedfile args builtin :
  spam_scenario (Sd := Sd) bold block_gas_limit compile seedfile args builtin =
  match sa_testfile args, builtin with
  | Some _, Some _ => Err (Args ArgsError.ScenarioFileBuiltinConflict)
  | Some testfile, None => Ok (Testfile testfile)
  | None, _ =>
      options ← builtin_options seedfile args;
      scenario ← to_builtin_scenario bold block_gas_limit compile options
                   (default (CliFillBlock None) builtin);
      mret (Builtin scenario)
  end.
Proof. unfold spam_scenario. by destruct (sa_testfile args), builtin. Qed.

End spam_choice.

(** A level without a target does not count for the details. *)
Example bare_level_ignored :
  detailed_tracing (Some "debug"%string) = false /\
  detailed_tracing (Some "contender=DEBUG,hyper=warn"%string) = true.
Proof. vm_compute. done. Qed.

(** ** Witnesses *)

Module MainWitness.
Export CampaignRunWitness.
#[local] Instance no_faults : Faults := fun _ => None.

Definition server_args : ContenderCli := {| data_dir := Some ["data"%string]; command := CmdServer |}.
Definition run_server (fs : FS) : FS * outcome CliError (Call (Sd := CountSeed)) :=
  run (fun s => [s]) (fun _ => Err "not set"%string) SqliteWitness.one_conn true id (Ok None)
    no_compiler (fun _ _ => Ok None) [] server_args fs.

(** An empty directory; then a database of version 6 in it. *)
Definition old_tables : Tables := <["run_txs"%string := []]> ∅.
Definition with_old_db : FS :=
  <[["data"; "contender.db"]%string := File (Database old_tables 6)]> (<[["data"%string] := Dir]> ∅).

Lemma run_compatible_witness :
  (run_server ∅).2 = Ok CallServer /\
  exists t, (run_server ∅).1 !! ["data"; "contender.db"]%string = Some (File (Database t DB_VERSION)).
Proof.
  assert (Hok : (run_server ∅).2 = Ok CallServer) by (vm_compute; reflexivity).
  split; [exact Hok|].
  assert (Hr : run_server ∅ = ((run_server ∅).1, Ok CallServer))
    by (rewrite <- Hok; apply surjective_pairing).
  destruct (run_compatible (fun s => [s]) (fun _ => Err "not set"%string) SqliteWitness.one_conn true
    DataDirWitness.pool_ok id (Ok None) no_compiler (fun _ _ => Ok None) [] server_args ["data"%string] ∅
    (<[["data"%string] := Dir]> ∅) (run_server ∅).1 CallServer) as [t Ht];
    [vm_compute; reflexivity|reflexivity|exact Hr|].
  exists t. exact Ht.
Defined.

Lemma run_refuses_version_witness :
  (run_server with_old_db).2 = Err DbVersion /\
  holds_db (run_server with_old_db).1 ["data"; "contender.db"]%string old_tables 6.
Proof.
  apply (run_refuses_version (fun s => [s]) (fun _ => Err "not set"%string) SqliteWitness.one_conn true
    DataDirWitness.pool_ok id (Ok None) no_compiler (fun _ _ => Ok None) [] server_args ["data"%string]
    with_old_db with_old_db (run_server with_old_db).1 (run_server with_old_db).2 old_tables 6).
  - vm_compute. reflexivity.
  - reflexivity.
  - vm_compute. reflexivity.
  - exists []. reflexivity.
  - discriminate.
  - apply surjective_pairing.
  - vm_compute. discriminate.
Defined.

End MainWitness.
