(* ===== verification/BuildText.v ===== *)
(** * Texts of the build script ([cli/build.rs], the functions on strings)

    The build script writes JavaScript and JSON by hand, from the token texts
    that [syn] prints.  Characters outside ASCII are neither letters nor digits
    here.  A string literal of this file that is written with [q] has single
    quotes where the text has double quotes. *)

From Stdlib Require Import Strings.Ascii Strings.String.
From S2P Require Import Prelude Text.

#[local] Open Scope string_scope.

Definition dquote : ascii := "034".
Definition backslash : ascii := "092".
Fixpoint q (s : string) : string :=
  match s with
  | EmptyString => EmptyString
  | String c s => String (if Ascii.eqb c "'" then dquote else c) (q s)
  end.
Definition nl : string := String "010" "".
Definition quoted_text (s : string) : string := String dquote (s +:+ String dquote "").

Definition is_upper (c : ascii) : bool :=
  let n := nat_of_ascii c in (65 <=? n)%nat && (n <=? 90)%nat.
Definition is_lower (c : ascii) : bool :=
  let n := nat_of_ascii c in (97 <=? n)%nat && (n <=? 122)%nat.
Definition upper (c : ascii) : ascii :=
  if is_lower c then ascii_of_nat (nat_of_ascii c - 32) else c.

(** ** Names *)

Definition starts_lower (s : string) : bool :=
  match s with String c _ => is_lower c | EmptyString => false end.

(** A dash before an upper-case letter that ends a word or starts one; [prev] is
    the character before. *)
Fixpoint kebab (prev : option ascii) (s : string) : string :=
  match s with
  | EmptyString => ""
  | String c s =>
      (if is_upper c &&
          match prev with
          | Some p => is_lower p || is_digit p || starts_lower s
          | None => false
          end
       then "-" else "") +:+ String (lower c) (kebab (Some c) s)
  end.
Definition to_kebab_case (s : string) : string := kebab None s.

Fixpoint camel (first capitalize_next : bool) (s : string) : string :=
  match s with
  | EmptyString => ""
  | String c s =>
      if Ascii.eqb c "_" then camel false true s
      else if capitalize_next then String (upper c) (camel false false s)
      else if first then String (lower c) (camel false false s)
      else String c (camel false false s)
  end.
Definition to_camel_case (s : string) : string := camel true false s.

Definition apply_rename_all (name : string) (convention : option string) : string :=
  match convention with
  | Some c =>
      if String.eqb c "camelCase" then to_camel_case name
      else if String.eqb c "lowercase" then to_lowercase name
      else if String.eqb c "kebab-case" then to_kebab_case name
      else name
  | None => name
  end.

(** The name of a generated test. *)
Definition is_alphanumeric (c : ascii) : bool := is_upper c || is_lower c || is_digit c.
Fixpoint test_name (rel_str : string) : string :=
  match rel_str with
  | EmptyString => ""
  | String c s => String (if is_alphanumeric c then c else "_"%char) (test_name s)
  end.

(** ** String literals *)

Definition char_str (c : ascii) : string := String c "".

Definition js_escape (s : string) : string :=
  str_replace (String "013" "") "\r"
    (str_replace nl "\n"
       (str_replace (char_str dquote) (String backslash (char_str dquote))
          (str_replace (char_str backslash) "\\" s))).
Definition js_str (s : string) : string := quoted_text (js_escape s).
Definition js_opt (v : option string) : string :=
  match v with Some s => js_str s | None => "null" end.

Definition json_escape (s : string) : string := str_replace (String "009" "") "\t" (js_escape s).

(** [inject_description]: a first field for the object that starts at the first
    brace. *)
Definition inject_description (schema desc : string) : string :=
  match str_find "{" schema with
  | Some pos =>
      str_take pos schema +:+ "{" +:+ q "'description':'" +:+ json_escape desc +:+ q "'," +:+
      str_drop (pos + 1) schema
  | None => schema
  end.

(** ** Token texts *)

Definition no_spaces (s : string) : string := str_replace " " "" s.

(** The pieces between the commas that are not inside parentheses, brackets or
    quotes; the last one is there even when it is empty. *)
Fixpoint top_pieces (cur : string) (depth : nat) (in_string : bool) (prev : ascii) (s : string)
  : list string :=
  match s with
  | EmptyString => [cur]
  | String ch s =>
      let in_string := if Ascii.eqb ch dquote && negb (Ascii.eqb prev backslash)
                       then negb in_string else in_string in
      let push depth := top_pieces (cur +:+ char_str ch) depth in_string ch s in
      if in_string then push depth
      else if Ascii.eqb ch "(" || Ascii.eqb ch "[" then push (S depth)
      else if Ascii.eqb ch ")" || Ascii.eqb ch "]" then push (depth - 1)%nat
      else if Ascii.eqb ch "," && (depth =? 0)%nat then cur :: top_pieces "" depth in_string ch s
      else push depth
  end.
(** A blank last piece is dropped. *)
Fixpoint drop_blank_last (l : list string) : list string :=
  match l with
  | [] => []
  | [x] => if String.eqb (trim x) "" then [] else [x]
  | x :: l => x :: drop_blank_last l
  end.
Definition split_top_level (s : string) : list string :=
  drop_blank_last (top_pieces "" 0 false "000" s).

(** [segment.split_once('=')]. *)
Definition split_once (c : ascii) (s : string) : option (string * string) :=
  i ← find_char (Ascii.eqb c) s;
  Some (str_take i s, str_drop (i + 1) s).

(** The first quoted text after [key =]. *)
Definition extract_attr_value (tokens key : string) : option string :=
  let search := key +:+ " =" in
  idx ← str_find search tokens;
  let after := str_drop (idx + String.length search) tokens in
  open ← find_char (Ascii.eqb dquote) after;
  let rest := str_drop (open + 1) after in
  close ← find_char (Ascii.eqb dquote) rest;
  Some (str_take close rest).

(** The text up to the bracket that closes [depth] open ones, or all of it. *)
Fixpoint until_close (depth : nat) (s : string) : string :=
  match s with
  | EmptyString => ""
  | String c s =>
      if Ascii.eqb c "<" then String c (until_close (S depth) s)
      else if Ascii.eqb c ">" then
        match depth with
        | O | 1%nat => ""
        | S depth => String c (until_close depth s)
        end
      else String c (until_close depth s)
  end.

(** The argument of the first [wrapper<..>] in the text of a type. *)
Definition unwrap_generic (s wrapper : string) : option string :=
  let s := no_spaces s in
  let prefix := wrapper +:+ "<" in
  pos ← str_find prefix s;
  Some (until_close 1 (str_drop (pos + String.length prefix) s)).

(** [cleaned.rsplit(sep).next()] for the separator [::]. *)
Definition last_segment (s : string) : string :=
  match str_find "::" (str_rev s) with
  | Some k => str_rev (str_take k (str_rev s))
  | None => s
  end.

(** ** Replacing one character *)

Fixpoint str_bind (f : ascii -> string) (s : string) : string :=
  match s with EmptyString => "" | String c s => f c +:+ str_bind f s end.
Definition subst_char (c : ascii) (to : string) (d : ascii) : string :=
  if Ascii.eqb c d then to else char_str d.

Lemma str_bind_app f s t : str_bind f (s +:+ t) = str_bind f s +:+ str_bind f t.
Proof. induction s as [|c s IH]; cbn; [done|]. by rewrite IH, str_app_assoc. Qed.

Lemma str_bind_bind f g s : str_bind f (str_bind g s) = str_bind (fun c => str_bind f (g c)) s.
Proof. induction s as [|c s IH]; cbn; [done|]. by rewrite str_bind_app, IH. Qed.

Lemma str_bind_ext f g s : (forall c, f c = g c) -> str_bind f s = str_bind g s.
Proof. intros H. induction s as [|c s IH]; cbn; [done|]. by rewrite H, IH. Qed.

Lemma prefix_char c d s : String.prefix (char_str c) (String d s) = Ascii.eqb c d.
Proof.
  unfold char_str. cbn. destruct (ascii_dec c d) as [->|H].
  - rewrite Ascii.eqb_refl. by destruct s.
  - by rewrite (proj2 (Ascii.eqb_neq _ _) H).
Qed.

Lemma find_char_str c s :
  match str_find (char_str c) s with
  | Some i => exists t r, s = t +:+ String c r /\ String.length t = i /\
                str_bind (subst_char c "") t = t /\ forall to, str_bind (subst_char c to) t = t
  | None => forall to, str_bind (subst_char c to) s = s
  end.
Proof.
  unfold str_find. induction s as [|d s IH]; [done|].
  cbn [String.index]. rewrite prefix_char.
  destruct (Ascii.eqb_spec c d) as [->|Hne].
  - by exists "", s.
  - destruct (String.index 0 (char_str c) s) as [i|].
    + destruct IH as (t & r & -> & <- & Ht & Hto). exists (String d t), r.
      assert (Hs : forall to, subst_char c to d = char_str d)
        by (intros to; unfold subst_char; by rewrite (proj2 (Ascii.eqb_neq _ _) Hne)).
      split; [done|]. split; [done|]. cbn. rewrite Hs. split; [|intros to; rewrite Hs]; cbn; by f_equal.
    + intros to. cbn. unfold subst_char at 1. rewrite (proj2 (Ascii.eqb_neq _ _) Hne). cbn. f_equal.
      apply IH.
Qed.

Lemma replace_char c to s : str_replace (char_str c) to s = str_bind (subst_char c to) s.
Proof.
  unfold str_replace. remember (String.length s) as fuel eqn:Hf.
  assert (Hle : (String.length s <= fuel)%nat) by lia. clear Hf. revert s Hle.
  induction fuel as [|fuel IH]; intros s Hle; cbn [replace_fuel]; [by destruct s; cbn in Hle; [|lia]|].
  pose proof (find_char_str c s) as Hf. destruct (str_find (char_str c) s) as [i|]; [|by rewrite Hf].
  destruct Hf as (t & r & -> & <- & _ & Ht). rewrite str_take_app.
  replace (str_drop _ _) with r.
  2: { replace (t +:+ String c r) with ((t +:+ char_str c) +:+ r) by (by rewrite str_app_assoc).
       replace (String.length t + String.length (char_str c))%nat with (String.length (t +:+ char_str c))
         by (by rewrite str_length_app).
       by rewrite str_drop_app. }
  rewrite str_bind_app, Ht. cbn [str_bind].
  replace (subst_char c to c) with to by (unfold subst_char; by rewrite Ascii.eqb_refl).
  rewrite IH; [done|]. rewrite str_length_app in Hle. cbn in Hle. lia.
Qed.

(** ** Reading literals back *)

(** The escape of a character, with tabs for JSON. *)
Definition escape_char (tabs : bool) (c : ascii) : string :=
  if Ascii.eqb c backslash then "\\"
  else if Ascii.eqb c dquote then String backslash (char_str dquote)
  else if Ascii.eqb c "010" then "\n"
  else if Ascii.eqb c "013" then "\r"
  else if tabs && Ascii.eqb c "009" then "\t"
  else char_str c.

Lemma js_escape_chars s : js_escape s = str_bind (escape_char false) s.
Proof.
  unfold js_escape, nl. change (String "013" "") with (char_str "013").
  change (String "010" "") with (char_str "010"). rewrite !replace_char, !str_bind_bind.
  apply str_bind_ext. by intros [[] [] [] [] [] [] [] []].
Qed.

Lemma json_escape_chars s : json_escape s = str_bind (escape_char true) s.
Proof.
  unfold json_escape. change (String "009" "") with (char_str "009").
  rewrite replace_char, js_escape_chars, str_bind_bind.
  apply str_bind_ext. by intros [[] [] [] [] [] [] [] []].
Qed.

(** A reader of the rest of a string literal, after its opening quote: the text
    and what follows the closing quote.  A literal may not contain the
    characters [bad] as they are. *)
Definition unescape (e : ascii) : option ascii :=
  if Ascii.eqb e dquote || Ascii.eqb e backslash || Ascii.eqb e "/" then Some e
  else if Ascii.eqb e "n" then Some "010"%char
  else if Ascii.eqb e "r" then Some "013"%char
  else if Ascii.eqb e "t" then Some "009"%char
  else if Ascii.eqb e "b" then Some "008"%char
  else if Ascii.eqb e "f" then Some "012"%char
  else None.
Fixpoint read_literal (bad : ascii -> bool) (s : string) : option (string * string) :=
  match s with
  | EmptyString => None
  | String c s =>
      if Ascii.eqb c dquote then Some ("", s)
      else if Ascii.eqb c backslash then
        match s with
        | String e s =>
            x ← unescape e;
            '(t, r) ← read_literal bad s;
            Some (String x t, r)
        | EmptyString => None
        end
      else if bad c then None
      else '(t, r) ← read_literal bad s; Some (String c t, r)
  end.

(** JSON forbids the control characters, JavaScript the ends of lines. *)
Definition json_bad (c : ascii) : bool := (nat_of_ascii c <? 32)%nat.
Definition js_bad (c : ascii) : bool := Ascii.eqb c "010" || Ascii.eqb c "013".
(** The control characters that [json_escape] writes as escapes. *)
Definition escapable (c : ascii) : bool :=
  negb (json_bad c) || Ascii.eqb c "009" || Ascii.eqb c "010" || Ascii.eqb c "013".

Lemma read_escaped tabs bad c s :
  read_literal bad (escape_char tabs c +:+ s) =
  if bad c && negb (Ascii.eqb c backslash || Ascii.eqb c dquote || Ascii.eqb c "010" ||
                    Ascii.eqb c "013" || (tabs && Ascii.eqb c "009"))
  then None
  else '(t, r) ← read_literal bad s; Some (String c t, r).
Proof.
  unfold escape_char.
  destruct (Ascii.eqb_spec c backslash) as [->|H1]; [by rewrite andb_false_r|].
  destruct (Ascii.eqb_spec c dquote) as [->|H2]; [by rewrite andb_false_r|].
  destruct (Ascii.eqb_spec c "010") as [->|H3]; [by rewrite andb_false_r|].
  destruct (Ascii.eqb_spec c "013") as [->|H4]; [by rewrite andb_false_r|].
  destruct (Ascii.eqb_spec c "009") as [->|H5]; destruct tabs; cbn [andb orb negb];
    rewrite ?andb_false_r; try reflexivity;
    cbn; try rewrite (proj2 (Ascii.eqb_neq _ _) H2); try rewrite (proj2 (Ascii.eqb_neq _ _) H1);
    rewrite ?andb_true_r;
    by destruct (bad _).
Qed.

(** A JSON reader gets back the text that was escaped, and stops exactly at
    its end, for every text without control characters other than tabs and ends
    of lines; it refuses every other one, since only those are escaped. *)
Theorem json_escape_read s rest :
  read_literal json_bad (json_escape s +:+ String dquote rest) =
  if str_all escapable s then Some (s, rest) else None.
Proof.
  rewrite json_escape_chars. induction s as [|c s IH]; [done|]. cbn [str_bind str_all].
  rewrite str_app_assoc, read_escaped, IH.
  replace (escapable c) with (negb (json_bad c) || Ascii.eqb c "009" || Ascii.eqb c "010" ||
                              Ascii.eqb c "013") by done.
  destruct (json_bad c) eqn:Hb; cbn [negb orb andb]; [|by destruct (str_all escapable s)].
  destruct (Ascii.eqb_spec c backslash) as [->|]; [done|].
  destruct (Ascii.eqb_spec c dquote) as [->|]; [done|].
  destruct (Ascii.eqb c "009"), (Ascii.eqb c "010"), (Ascii.eqb c "013"); cbn -[escapable]; try done;
    by destruct (str_all escapable s).
Qed.

(** A JavaScript reader gets back every text. *)
Lemma js_str_read s rest : read_literal js_bad (js_escape s +:+ String dquote rest) = Some (s, rest).
Proof.
  rewrite js_escape_chars. induction s as [|c s IH]; [done|]. cbn [str_bind].
  rewrite str_app_assoc, read_escaped, IH. unfold js_bad.
  by destruct (Ascii.eqb c "010"), (Ascii.eqb c "013"), (Ascii.eqb c backslash), (Ascii.eqb c dquote).
Qed.

(** ** Splitting *)

Lemma top_pieces_concat s : forall cur depth in_string prev,
  top_pieces cur depth in_string prev s <> [] /\
  String.concat "," (top_pieces cur depth in_string prev s) = cur +:+ s.
Proof.
  assert (Happ : forall cur ch s, (cur +:+ char_str ch) +:+ s = cur +:+ String ch s)
    by (intros; by rewrite str_app_assoc).
  induction s as [|ch s IH]; intros cur depth in_string prev; cbn [top_pieces].
  { split; [done|]. cbn. by rewrite str_app_nil_r. }
  repeat match goal with |- context[if ?b then _ else _] => destruct b eqn:? end;
    rewrite <- ?Happ; try apply IH.
  split; [done|]. destruct (IH "" depth false ch) as [Hne Hc].
  match goal with H : Ascii.eqb ch "," && _ = true |- _ => apply andb_prop in H as [Hch _] end.
  apply Ascii.eqb_eq in Hch as ->.
  destruct (top_pieces "" depth false "," s) as [|p ps]; [done|].
  change (cur +:+ "," +:+ String.concat "," (p :: ps) = (cur +:+ char_str ",") +:+ s).
  by rewrite Hc, Happ.
Qed.

Lemma until_close_length s : forall depth, (String.length (until_close depth s) <= String.length s)%nat.
Proof.
  induction s as [|c s IH]; intros depth; cbn; [lia|].
  destruct (Ascii.eqb c "<"); [specialize (IH (S depth)); cbn; lia|].
  destruct (Ascii.eqb c ">"); [|specialize (IH depth); cbn; lia].
  destruct depth as [|[|depth]]; [cbn; lia..|]. specialize (IH (S depth)). cbn [String.length]. lia.
Qed.

Lemma str_drop_length n s : String.length (str_drop n s) = (String.length s - n)%nat.
Proof.
  unfold str_drop. revert n. induction s as [|c s IH]; intros [|n]; [done..| |exact (IH n)].
  rewrite substring_full by lia. lia.
Qed.

Lemma no_spaces_length s : (String.length (no_spaces s) <= String.length s)%nat.
Proof.
  unfold no_spaces. change " " with (char_str " "). rewrite replace_char.
  induction s as [|c s IH]; cbn; [done|]. unfold subst_char at 1. destruct (Ascii.eqb " " c); cbn; lia.
Qed.

Lemma str_find_bound pat s i : str_find pat s = Some i -> (i + String.length pat <= String.length s)%nat.
Proof.
  unfold str_find. revert i. induction s as [|c s IH]; intros i Hi; cbn [String.index] in Hi.
  { destruct pat; [|done]. injection Hi as <-. cbn. lia. }
  destruct (String.prefix pat (String c s)) eqn:Ep.
  - injection Hi as <-. clear IH. revert Ep. generalize (String c s) as t. clear s c.
    induction pat as [|d pat IHp]; intros t Ht; [cbn; lia|].
    destruct t as [|e t]; cbn in Ht; [done|]. destruct (ascii_dec d e); [|done].
    specialize (IHp t Ht). cbn. lia.
  - destruct (String.index 0 pat s) as [j|]; [|done]. injection Hi as <-.
    specialize (IH j eq_refl). cbn. lia.
Qed.

(** The argument of a wrapper is shorter than the whole. *)
Lemma unwrap_generic_length s wrapper inner :
  unwrap_generic s wrapper = Some inner -> (String.length inner < String.length s)%nat.
Proof.
  unfold unwrap_generic. intros Hu.
  destruct (str_find (wrapper +:+ "<") (no_spaces s)) as [pos|] eqn:Ef; [|done].
  cbn in Hu. injection Hu as <-. apply str_find_bound in Ef. rewrite str_length_app in Ef.
  change (String.length "<") with 1%nat in Ef.
  pose proof (until_close_length
    (str_drop (pos + String.length (wrapper +:+ "<")) (no_spaces s)) 1) as Hc.
  rewrite str_drop_length, str_length_app in Hc. change (String.length "<") with 1%nat in Hc.
  pose proof (no_spaces_length s). rewrite str_length_app. change (String.length "<") with 1%nat. lia.
Qed.
