(* ===== verification/OpenRpc.v ===== *)
(** * The OpenRPC document and the scenario forms ([cli/build.rs])

    The build script reads the source files of the server and writes two files
    from them: the fields of the builtin scenarios, for the web page, and the
    OpenRPC document of the server.  The source files are the trees of the
    parser [syn]: items with their attributes, types as token texts.  A schema
    is a text, as in the script. *)

From Stdlib Require Import Strings.Ascii Strings.String.
From S2P Require Import Prelude Text BuildText.

#[local] Open Scope string_scope.

(** ** Syntax trees *)

(** An attribute: its path, the tokens of the whole, the tokens between the
    brackets of a list, and the string literal of a name-value attribute. *)
Record Attribute := {
  at_path : string;
  at_tokens : string;
  at_list : option string;
  at_literal : option string;
}.
Record Field := { fd_ident : option string; fd_type : string; fd_attrs : list Attribute }.
Inductive Fields := Named (l : list Field) | Unnamed (l : list Field) | UnitFields.
Record ItemStruct := { st_ident : string; st_attrs : list Attribute; st_fields : Fields }.
Record Variant := { va_ident : string; va_attrs : list Attribute; va_fields : Fields }.
Record ItemEnum := { en_ident : string; en_attrs : list Attribute; en_variants : list Variant }.
(** The parameters of a function: [None] for the receiver, and its return type. *)
Record Signature := { sg_inputs : list (option (string * string)); sg_output : option string }.
Inductive Item :=
| Struct (s : ItemStruct)
| Enum (e : ItemEnum)
| Trait (attrs : list Attribute) (fns : list (list Attribute * Signature))
| OtherItem.

(** ** Attributes *)

Definition is_ident (name : string) (a : Attribute) : bool := String.eqb (at_path a) name.

(** [/// ..] comments, joined. *)
Definition doc_comment (attrs : list Attribute) : option string :=
  let docs := filter (fun s => negb (String.eqb s "") = true)
                (trim <$> omap at_literal (filter (fun a => is_ident "doc" a = true) attrs)) in
  match docs with [] => None | _ => Some (String.concat " " docs) end.

Definition has_attr (path keyword : string) (attrs : list Attribute) : bool :=
  existsb (fun a => is_ident path a && str_contains keyword (at_tokens a)) attrs.
Definition has_command_attr (f : Field) (keyword : string) : bool :=
  has_attr "command" keyword (fd_attrs f).
Definition has_serde_attr (attrs : list Attribute) (keyword : string) : bool :=
  has_attr "serde" keyword attrs.

(** The first attribute [serde] with this key. *)
Fixpoint serde_value (key : string) (attrs : list Attribute) : option string :=
  match attrs with
  | [] => None
  | a :: attrs =>
      if is_ident "serde" a then
        match extract_attr_value (at_tokens a) key with
        | Some v => Some v
        | None => serde_value key attrs
        end
      else serde_value key attrs
  end.
Definition serde_rename_all : list Attribute -> option string := serde_value "rename_all".
Definition serde_rename : list Attribute -> option string := serde_value "rename".

(** ** The forms of the builtin scenarios *)

Section forms.
(** [syn] reads a quoted literal. *)
Variable parse_lit : string -> option string.

Definition arg_segment (segment : string) : option (string * string) :=
  '(k, v) ← split_once "=" (trim segment);
  let v := trim v in
  Some (trim k, if starts_with (char_str dquote) v then default v (parse_lit v) else v).
Definition arg_pairs (a : Attribute) : list (string * string) :=
  match at_list a with
  | Some tokens => omap arg_segment (split_top_level tokens)
  | None => []
  end.
Definition collect_arg_kv (attrs : list Attribute) : gmap string string :=
  fold_left (fun m p => <[p.1 := p.2]> m)
    (filter (fun a => is_ident "arg" a = true) attrs ≫= arg_pairs) ∅.

(** The kind of input for a type; [enum_variants] lists the known enumerations,
    in the order of the map. *)
Fixpoint enum_input (raw inner : string) (enum_variants : list (string * list string)) : option string :=
  match enum_variants with
  | [] => None
  | (enum_name, variants) :: l =>
      if str_contains enum_name inner
      then Some ((if str_contains "Vec" raw then "multi-select:" else "select:") +:+
                   String.concat "," variants)
      else enum_input raw inner l
  end.
Definition rust_type_to_js (raw : string) (enum_variants : list (string * list string)) : string :=
  let inner :=
    str_replace " " "" (str_replace ">" "" (str_replace "Vec<" "" (str_replace "Option<" ""
      (str_replace "Vec <" "Vec<" (str_replace "Option <" "Option<" raw))))) in
  match enum_input raw inner enum_variants with
  | Some input => input
  | None =>
      if String.eqb inner "bool" then "bool"
      else if existsb (String.eqb inner) ["u32"; "u64"; "i64"; "usize"] then "number"
      else "text"
  end.

Record FieldInfo := {
  fi_name : string;
  fi_type : string;
  fi_default : option string;
  fi_help : option string;
  fi_optional : bool;
}.

Definition first_some {A} (a b : option A) : option A :=
  match a with Some x => Some x | None => b end.

Definition field_info (enum_variants : list (string * list string)) (f : Field) : FieldInfo :=
  let args := collect_arg_kv (fd_attrs f) in
  {| fi_name := default "" (fd_ident f);
     fi_type := rust_type_to_js (fd_type f) enum_variants;
     fi_default := first_some (args !! "default_value") (args !! "default_value_t");
     fi_help := first_some (first_some (args !! "long_help") (args !! "help"))
                  (doc_comment (fd_attrs f));
     fi_optional := starts_with "Option <" (fd_type f) || starts_with "Option<" (fd_type f) |}.
Definition fields_from_struct (enum_variants : list (string * list string)) (s : ItemStruct)
  : list FieldInfo :=
  match st_fields s with
  | Named named =>
      field_info enum_variants <$>
        filter (fun f => negb (has_command_attr f "flatten" || has_command_attr f "subcommand") = true) named
  | _ => []
  end.
Fixpoint extract_fields (enum_variants : list (string * list string)) (struct_name : string)
    (items : list Item) : list FieldInfo :=
  match items with
  | [] => []
  | Struct s :: items =>
      if String.eqb (st_ident s) struct_name then fields_from_struct enum_variants s
      else extract_fields enum_variants struct_name items
  | _ :: items => extract_fields enum_variants struct_name items
  end.

Definition field_js (f : FieldInfo) : string :=
  "    { name: " +:+ js_str (fi_name f) +:+ ", type: " +:+ js_str (fi_type f) +:+ ", default: " +:+
  js_opt (fi_default f) +:+ ", help: " +:+ js_opt (fi_help f) +:+ ", optional: " +:+
  (if fi_optional f then "true" else "false") +:+ " }," +:+ nl.

(** The file for the web page: scenarios by name, with the struct of their
    arguments in a source file. *)
Definition builtin_scenarios_js (enum_variants : list (string * list string))
    (scenarios : list (string * list Item * string)) : string :=
  "// AUTO-GENERATED by build.rs — do not edit" +:+ nl +:+ "const BUILTIN_SCENARIOS = {" +:+ nl +:+
  String.concat "" ((fun '(name, ast, struct_name) =>
      q "  '" +:+ to_kebab_case name +:+ q "': [" +:+ nl +:+
      String.concat "" (field_js <$> extract_fields enum_variants struct_name ast) +:+
      "  ]," +:+ nl) <$> scenarios) +:+
  "};" +:+ nl.

End forms.

(** The variants of the enumerations of the opcodes and precompiles. *)
Definition enum_named (name : string) (items : list Item) : option (list string) :=
  last (omap (fun i => match i with
                       | Enum e => if String.eqb (en_ident e) name then Some (va_ident <$> en_variants e)
                                   else None
                       | _ => None
                       end) items).
Definition parse_enum_files (enums : list (string * list Item)) : gmap string (list string) :=
  fold_left (fun m '(name, items) =>
    match enum_named name items with Some variants => <[name := variants]> m | None => m end) enums ∅.

(** ** Schemas of types *)

Definition string_types : list string :=
  ["String"; "str"; "Url"; "B256"; "U256"; "JwtParam"; "PathBuf"; "Address"].
Definition integer_types : list string :=
  ["u8"; "u16"; "u32"; "u64"; "u128"; "usize"; "isize"; "SessionId"; "i8"; "i16"; "i32"; "i64"; "i128"].
Definition one_of_types (l : list string) (base : string) : bool := existsb (String.eqb base) l.

Definition REF_PREFIX : string := "#/components/schemas/".
Definition ref_schema (base : string) : string := q "{'$ref':'" +:+ REF_PREFIX +:+ base +:+ q "'}".

Definition is_type_param (base : string) : bool :=
  match base with String c "" => is_upper c | _ => false end.

Definition base_schema (cleaned : string) : string :=
  let base := last_segment cleaned in
  if one_of_types string_types base then q "{'type':'string'}"
  else if String.eqb base "bool" then q "{'type':'boolean'}"
  else if one_of_types integer_types base then q "{'type':'integer'}"
  else if one_of_types ["f32"; "f64"] base then q "{'type':'number'}"
  else if String.eqb base "Duration"
  then q "{'type':'object','properties':{'secs':{'type':'integer'},'nanos':{'type':'integer'}}}"
  else if String.eqb base "()" then q "{'type':'null'}"
  else if is_type_param base then q "{'type':'string'}"
  else ref_schema base.

(** The wrapper a type text is read as: the first of these that occurs in it. *)
Inductive Wrapped :=
| WOption (inner : string)
| WBox (inner : string)
| WVec (inner : string)
| WHashMap (inner : string)
| WPlain.
Definition unwrap_type (cleaned : string) : Wrapped :=
  match unwrap_generic cleaned "Option" with
  | Some inner => WOption inner
  | None =>
      match unwrap_generic cleaned "Box" with
      | Some inner => WBox inner
      | None =>
          match unwrap_generic cleaned "Vec" with
          | Some inner => WVec inner
          | None =>
              match unwrap_generic cleaned "HashMap" with
              | Some inner => WHashMap inner
              | None => WPlain
              end
          end
      end
  end.

(** The key and the value types of a map: around the first comma. *)
Definition map_types (inner : string) : option (string * string) := split_once "," inner.

(** The schema of a type, and whether it is optional.  Every call is on a
    shorter text, so the length of the text is fuel enough ([schema_total]). *)
Fixpoint schema_fuel (fuel : nat) (raw : string) : option (string * bool) :=
  match fuel with
  | O => None
  | S fuel =>
      let cleaned := no_spaces raw in
      match unwrap_type cleaned with
      | WOption inner => '(schema, _) ← schema_fuel fuel inner; Some (schema, true)
      | WBox inner => schema_fuel fuel inner
      | WVec inner =>
          '(item_schema, _) ← schema_fuel fuel inner;
          Some (q "{'type':'array','items':" +:+ item_schema +:+ "}", false)
      | WHashMap inner =>
          match map_types inner with
          | Some (_, v) =>
              '(val_schema, _) ← schema_fuel fuel v;
              Some (q "{'type':'object','additionalProperties':" +:+ val_schema +:+ "}", false)
          | None => Some (q "{'type':'object'}", false)
          end
      | WPlain => Some (base_schema cleaned, false)
      end
  end.
Definition rust_type_to_json_schema (raw : string) : string * bool :=
  default ("", false) (schema_fuel (S (String.length raw)) raw).

(** ** Schemas of items *)

Record SchemaDef := { sd_description : option string; sd_body : string }.

Definition describe (desc : option string) (schema : string) : string :=
  match desc with Some d => inject_description schema d | None => schema end.
Definition json_str (s : string) : string := quoted_text (json_escape s).

Definition field_json_name (rename_all : option string) (f : Field) : string :=
  default (apply_rename_all (default "" (fd_ident f)) rename_all) (serde_rename (fd_attrs f)).
Definition field_prop (rename_all : option string) (f : Field) : string :=
  describe (doc_comment (fd_attrs f))
    (json_str (field_json_name rename_all f) +:+ ":" +:+ (rust_type_to_json_schema (fd_type f)).1).

Definition struct_to_schema (s : ItemStruct) (rename_all : option string) : string :=
  match st_fields s with
  | Named named =>
      let is_flatten f := has_serde_attr (fd_attrs f) "flatten" in
      let flatten_refs :=
        (fun f => (rust_type_to_json_schema (fd_type f)).1) <$> filter (fun f => is_flatten f = true) named in
      let fields := filter (fun f => negb (is_flatten f) = true) named in
      let props_str := String.concat "," (field_prop rename_all <$> fields) in
      let required :=
        (fun f => json_str (field_json_name rename_all f)) <$>
          filter (fun f => negb (rust_type_to_json_schema (fd_type f)).2 = true) fields in
      let obj := q "{'type':'object','properties':{" +:+ props_str +:+ "}" +:+
        match required with
        | [] => "}"
        | _ => q ",'required':[" +:+ String.concat "," required +:+ "]}"
        end in
      match flatten_refs with
      | [] => obj
      | _ => q "{'allOf':[" +:+ String.concat "," (flatten_refs ++ [obj]) +:+ "]}"
      end
  | _ => q "{'type':'object'}"
  end.

Definition variant_json_name (rename_all : option string) (v : Variant) : string :=
  default (apply_rename_all (va_ident v) rename_all) (serde_rename (va_attrs v)).
Definition is_unit (v : Variant) : bool := match va_fields v with UnitFields => true | _ => false end.

Definition variant_schema (rename_all : option string) (v : Variant) : string :=
  let name := json_escape (variant_json_name rename_all v) in
  match va_fields v with
  | UnitFields =>
      describe (doc_comment (va_attrs v)) (q "{'type':'string','const':'" +:+ name +:+ q "'}")
  | Unnamed [f] =>
      describe (doc_comment (va_attrs v))
        (q "{'type':'object','properties':{'" +:+ name +:+ q "': " +:+
         (rust_type_to_json_schema (fd_type f)).1 +:+ q "},'required':['" +:+ name +:+ q "']}")
  | _ => q "{'type':'object','description':'variant " +:+ json_escape (va_ident v) +:+ q "'}"
  end.
Definition enum_to_schema (e : ItemEnum) : string :=
  let rename_all := serde_rename_all (en_attrs e) in
  if forallb is_unit (en_variants e) then
    q "{'type':'string','enum':[" +:+
    String.concat "," ((fun v => json_str (variant_json_name rename_all v)) <$> en_variants e) +:+ "]}"
  else
    q "{'oneOf':[" +:+ String.concat "," (variant_schema rename_all <$> en_variants e) +:+ "]}".

Definition extract_schema (schemas : gmap string SchemaDef) (i : Item) : gmap string SchemaDef :=
  match i with
  | Struct s =>
      <[st_ident s := {| sd_description := doc_comment (st_attrs s);
                         sd_body := struct_to_schema s (serde_rename_all (st_attrs s)) |}]> schemas
  | Enum e =>
      <[en_ident e := {| sd_description := doc_comment (en_attrs e);
                         sd_body := enum_to_schema e |}]> schemas
  | _ => schemas
  end.
Definition extract_schemas (items : list Item) (schemas : gmap string SchemaDef) : gmap string SchemaDef :=
  fold_left extract_schema items schemas.

(** ** The methods of the server *)

Record RpcMethod := {
  me_rpc_name : string;
  me_description : option string;
  me_params : list (string * string);
  me_result_type : string;
  me_is_subscription : bool;
  me_subscription_item : option string;
}.

Fixpoint parse_method_or_subscription_attr (attrs : list Attribute)
  : option string * bool * option string :=
  match attrs with
  | [] => (None, false, None)
  | a :: attrs =>
      match (if is_ident "method" a then extract_attr_value (at_tokens a) "name" else None) with
      | Some name => (Some name, false, None)
      | None =>
          if is_ident "subscription" a
          then (extract_attr_value (at_tokens a) "name", true, extract_attr_value (at_tokens a) "item")
          else parse_method_or_subscription_attr attrs
      end
  end.
Definition extract_fn_params (s : Signature) : list (string * string) :=
  (fun p => (no_spaces p.1, p.2)) <$> omap id (sg_inputs s).
Definition extract_result_type (s : Signature) : string :=
  match sg_output s with
  | Some full => default full (first_some (unwrap_generic full "RpcResult") (unwrap_generic full "Result"))
  | None => "()"
  end.
Definition rpc_method (f : list Attribute * Signature) : option RpcMethod :=
  let '(rpc_name, is_subscription, item) := parse_method_or_subscription_attr f.1 in
  name ← rpc_name;
  Some {| me_rpc_name := name; me_description := doc_comment f.1;
          me_params := extract_fn_params f.2; me_result_type := extract_result_type f.2;
          me_is_subscription := is_subscription; me_subscription_item := item |}.
Definition parse_rpc_trait (items : list Item) : list RpcMethod :=
  items ≫= (fun i => match i with
                     | Trait attrs fns =>
                         if has_attr "rpc" "server" attrs then omap rpc_method fns else []
                     | _ => []
                     end).

(** ** The types a document needs *)

Definition plain_types : list string :=
  string_types ++ ["bool"] ++ integer_types ++ ["f32"; "f64"; "Duration"; "()"].
Fixpoint type_refs_fuel (fuel : nat) (ty : string) : list string :=
  match fuel with
  | O => []
  | S fuel =>
      let cleaned := no_spaces ty in
      match unwrap_type cleaned with
      | WOption inner | WBox inner | WVec inner => type_refs_fuel fuel inner
      | WHashMap inner =>
          match map_types inner with
          | Some (k, v) => type_refs_fuel fuel k ++ type_refs_fuel fuel v
          | None => []
          end
      | WPlain =>
          let base := last_segment cleaned in
          if one_of_types plain_types base then [] else [base]
      end
  end.
Definition collect_type_refs (ty : string) : list string := type_refs_fuel (S (String.length ty)) ty.

(** The names after the prefix of a reference in a schema, up to a quote or a
    brace. *)
Definition ref_end (c : ascii) : bool := Ascii.eqb c dquote || Ascii.eqb c "}".
Fixpoint body_refs_fuel (fuel : nat) (body : string) : list string :=
  match fuel with
  | O => []
  | S fuel =>
      match str_find REF_PREFIX body with
      | None => []
      | Some pos =>
          let rest := str_drop (pos + String.length REF_PREFIX) body in
          let end_ := default (String.length rest) (find_char ref_end rest) in
          str_take end_ rest :: body_refs_fuel fuel (str_drop end_ rest)
      end
  end.
Definition body_refs (body : string) : list string := body_refs_fuel (String.length body) body.

Section references.
Context (schemas : gmap string SchemaDef).

Definition refs_of (name : string) : list string :=
  match schemas !! name with Some def => body_refs (sd_body def) | None => [] end.

(** The queue is popped at its end; a name that is pushed twice is skipped the
    second time.  [push_refs] is the scan of one schema. *)
Definition push_refs (visited queue : list string) (name : string) : list string :=
  (queue ++ filter (fun r => r ∉ visited) (refs_of name))%list.
Fixpoint collect_loop (fuel : nat) (visited queue : list string) : option (list string) :=
  match last queue with
  | None => Some visited
  | Some name =>
      match fuel with
      | O => None
      | S fuel =>
          let queue := removelast queue in
          if bool_decide (name ∈ visited) then collect_loop fuel visited queue
          else
            let visited := (visited ++ [name])%list in
            collect_loop fuel visited (push_refs visited queue name)
      end
  end.

Definition seeds (methods : list RpcMethod) : list string :=
  methods ≫= fun m =>
    ((me_params m ≫= fun p => collect_type_refs p.2) ++ collect_type_refs (me_result_type m))%list.

(** Each schema is scanned once, so the references of all of them bound the
    number of rounds ([collect_total]). *)
Definition all_refs : nat := sum_list ((fun p => length (refs_of p.1)) <$> map_to_list schemas).
Definition string_le (a b : string) : Prop := String.leb a b = true.
#[export] Instance string_le_dec a b : Decision (string_le a b).
Proof. unfold string_le. apply _. Defined.
#[export] Instance string_le_total : Total string_le.
Proof. intros a b. unfold string_le. destruct (String.leb_total a b); auto. Qed.
Definition collect_referenced_schemas (methods : list RpcMethod) : list string :=
  let queue := seeds methods in
  merge_sort string_le (default [] (collect_loop (length queue + all_refs) [] queue)).

End references.

(** ** Where types are declared *)

Fixpoint find_line (p : string -> bool) (n : Z) (lines : list string) : option Z :=
  match lines with
  | [] => None
  | l :: lines => if p l then Some n else find_line p (n + 1) lines
  end.
Definition declares (type_name line : string) : bool :=
  existsb (fun p => str_contains (p +:+ type_name) line)
    ["pub struct "; "pub enum "; "struct "; "enum "].

(** The first declaration of each type, file by file; a file that cannot be
    read is skipped. *)
Definition locate_types (referenced : list string) (m : gmap string (string * Z))
    (f : string * option (list string)) : gmap string (string * Z) :=
  match f.2 with
  | None => m
  | Some lines =>
      fold_left (fun m type_name =>
        match m !! type_name with
        | Some _ => m
        | None =>
            match find_line (declares type_name) 1 lines with
            | Some n => <[type_name := (f.1, n)]> m
            | None => m
            end
        end) referenced m
  end.
Definition build_source_map (referenced : list string) (files : list (string * option (list string)))
  : gmap string (string * Z) :=
  fold_left (locate_types referenced) files ∅.

(** ** The document *)

(** Lines with commas between them: after each but the last. *)
Definition with_commas (l : list (string -> string)) : string :=
  String.concat "" (imap (fun i f => f (if (i + 1 <? length l)%nat then "," else "")) l).
Definition line (s : string) : string := s +:+ nl.

Definition source_entry (e : string * (string * Z)) (comma : string) : string :=
  line (q "      '" +:+ json_escape e.1 +:+ q "': {'file':'" +:+ json_escape e.2.1 +:+ q "','line':" +:+
        dec e.2.2 +:+ "}" +:+ comma).
Definition param_entry (p : string * string) (comma : string) : string :=
  let '(schema, optional) := rust_type_to_json_schema p.2 in
  line "        {" +:+
  line (q "          'name': '" +:+ json_escape p.1 +:+ q "',") +:+
  (if optional then "" else line (q "          'required': true,")) +:+
  line (q "          'schema': " +:+ schema) +:+
  line ("        }" +:+ comma).
Definition result_schema (m : RpcMethod) : string :=
  if me_is_subscription m then
    match me_subscription_item m with
    | Some item => (rust_type_to_json_schema item).1
    | None => q "{'type':'string'}"
    end
  else (rust_type_to_json_schema (me_result_type m)).1.
Definition method_entry (m : RpcMethod) (comma : string) : string :=
  line "    {" +:+
  line (q "      'name': '" +:+ json_escape (me_rpc_name m) +:+ q "',") +:+
  match me_description m with
  | Some desc => line (q "      'summary': '" +:+ json_escape desc +:+ q "',")
  | None => ""
  end +:+
  line (q "      'params': [") +:+
  with_commas (param_entry <$> me_params m) +:+
  line "      ]," +:+
  line (q "      'result': {") +:+
  line (q "        'name': '" +:+ json_escape (me_rpc_name m) +:+ q "',") +:+
  line (q "        'schema': " +:+ result_schema m) +:+
  line "      }" +:+
  line ("    }" +:+ comma).
Definition schema_entry (p : string * SchemaDef) (comma : string) : string :=
  line (q "      '" +:+ json_escape p.1 +:+ q "': " +:+ describe (sd_description p.2) (sd_body p.2) +:+ comma).

(** The schemas that are listed: those of the referenced names that have one. *)
Definition listed_schemas (schemas : gmap string SchemaDef) (referenced : list string)
  : list (string * SchemaDef) :=
  omap (fun name => pair name <$> schemas !! name) referenced.
Definition sorted_entries {A} (m : gmap string A) : list (string * A) :=
  omap (fun k => pair k <$> m !! k) (merge_sort string_le (map_to_list m).*1).

Definition build_openrpc_json (crate_version : string) (methods : list RpcMethod)
    (schemas : gmap string SchemaDef) (referenced : list string) (source_map : gmap string (string * Z))
  : string :=
  line "{" +:+
  line (q "  'openrpc': '1.3.2',") +:+
  line (q "  'info': {") +:+
  line (q "    'title': 'Contender RPC Server',") +:+
  line (q "    'description': 'JSON-RPC API to remotely run contender sessions.',") +:+
  line (q "    'version': '" +:+ crate_version +:+ q "'") +:+
  line "  }," +:+
  line (q "  'x-source': {") +:+
  line (q "    'repository': 'https://github.com/flashbots/contender',") +:+
  line (q "    'types': {") +:+
  with_commas (source_entry <$> sorted_entries source_map) +:+
  line "    }" +:+
  line "  }," +:+
  line (q "  'methods': [") +:+
  with_commas (method_entry <$> methods) +:+
  line "  ]," +:+
  line (q "  'components': {") +:+
  line (q "    'schemas': {") +:+
  with_commas (schema_entry <$> listed_schemas schemas referenced) +:+
  line "    }" +:+
  line "  }" +:+
  line "}".

(** [generate_openrpc_spec]: from the file of the trait, the files of the types
    and the texts that are searched for declarations. *)
Definition generate_openrpc_spec (crate_version : string) (server : list Item)
    (type_files : list (list Item)) (search_files : list (string * option (list string))) : string :=
  let methods := parse_rpc_trait server in
  let schemas := fold_left (fun m items => extract_schemas items m) type_files ∅ in
  let referenced := collect_referenced_schemas schemas methods in
  build_openrpc_json crate_version methods schemas referenced (build_source_map referenced search_files).

(** ** Tests of the scenario files *)

(** A directory in the order it is read, and its files from the root. *)
Inductive Tree := FileAt (name : string) | DirAt (name : string) (entries : list Tree).
Fixpoint collect_files (path : string) (t : Tree) : list string :=
  match t with
  | FileAt name => [path +:+ "/" +:+ name]
  | DirAt name entries => concat (collect_files (path +:+ "/" +:+ name) <$> entries)
  end.
(** [debug] is the form [{:?}] of a text. *)
Definition generate_scenario_tests (debug : string -> string) (scenarios : list Tree) : string :=
  line "scenario_tests! {" +:+
  String.concat "" ((fun rel_str => line ("    " +:+ test_name rel_str +:+ " => " +:+ debug rel_str +:+ ","))
                      <$> concat (collect_files "scenarios" <$> scenarios)) +:+
  line "}".

(** ** Reading types ends *)

Definition wrapped_text (w : Wrapped) : option string :=
  match w with
  | WOption i | WBox i | WVec i | WHashMap i => Some i
  | WPlain => None
  end.

Lemma unwrap_type_length raw inner :
  wrapped_text (unwrap_type (no_spaces raw)) = Some inner ->
  (String.length inner < String.length raw)%nat.
Proof.
  pose proof (no_spaces_length raw). unfold unwrap_type.
  repeat match goal with
  | |- context[unwrap_generic ?s ?w] =>
      let E := fresh in destruct (unwrap_generic s w) eqn:E; [apply unwrap_generic_length in E|clear E]
  end; cbn; intros [= <-]; lia.
Qed.

Lemma split_once_length c s k v : split_once c s = Some (k, v) ->
  (String.length k <= String.length s /\ String.length v <= String.length s)%nat.
Proof.
  unfold split_once. destruct (find_char _ s) as [i|]; [|done]. cbn. intros [= <- <-].
  rewrite str_drop_length. split; [|lia]. unfold str_take.
  revert i. induction s as [|d s IH]; intros [|i]; cbn; try lia. specialize (IH i). lia.
Qed.

Lemma schema_enough fuel : forall fuel' raw,
  (String.length raw < fuel)%nat -> (String.length raw < fuel')%nat ->
  exists r, schema_fuel fuel raw = Some r /\ schema_fuel fuel' raw = Some r.
Proof.
  induction fuel as [|fuel IH]; intros [|fuel'] raw H H'; [lia..|]. cbn [schema_fuel].
  pose proof (unwrap_type_length raw) as Hlen.
  destruct (unwrap_type (no_spaces raw)) as [i|i|i|i|]; cbn [wrapped_text] in Hlen;
    try (specialize (Hlen i eq_refl)); [| | | |by eexists].
  - destruct (IH fuel' i) as ([s b] & -> & ->); [lia..|]. by eexists.
  - destruct (IH fuel' i) as (r & -> & ->); [lia..|]. by eexists.
  - destruct (IH fuel' i) as ([s b] & -> & ->); [lia..|]. by eexists.
  - destruct (map_types i) as [[k v]|] eqn:Em; [|by eexists].
    apply split_once_length in Em as [_ Hv].
    destruct (IH fuel' v) as ([s b] & -> & ->); [lia..|]. by eexists.
Qed.

Lemma schema_some fuel raw : (String.length raw < fuel)%nat ->
  schema_fuel fuel raw = Some (rust_type_to_json_schema raw).
Proof.
  intros H. destruct (schema_enough fuel (S (String.length raw)) raw) as (r & Hr & Hs); [lia..|].
  unfold rust_type_to_json_schema. by rewrite Hs, Hr.
Qed.

(** The recursion over the text of a type ends, for every text, and its
    result is the one the source describes: the schema of the argument marked
    as optional for [Option], the same for [Box], an array for [Vec], an object
    for [HashMap] and the schema of its last segment for any other type. *)
Theorem schema_equation raw :
  rust_type_to_json_schema raw =
  match unwrap_type (no_spaces raw) with
  | WOption inner => ((rust_type_to_json_schema inner).1, true)
  | WBox inner => rust_type_to_json_schema inner
  | WVec inner =>
      (q "{'type':'array','items':" +:+ (rust_type_to_json_schema inner).1 +:+ "}", false)
  | WHashMap inner =>
      match map_types inner with
      | Some (_, v) =>
          (q "{'type':'object','additionalProperties':" +:+ (rust_type_to_json_schema v).1 +:+ "}", false)
      | None => (q "{'type':'object'}", false)
      end
  | WPlain => (base_schema (no_spaces raw), false)
  end.
Proof.
  pose proof (schema_some (S (String.length raw)) raw ltac:(lia)) as E. cbn [schema_fuel] in E.
  pose proof (unwrap_type_length raw) as Hlen.
  destruct (unwrap_type (no_spaces raw)) as [i|i|i|i|]; cbn [wrapped_text] in Hlen;
    try (specialize (Hlen i eq_refl)); [| | | |by apply (inj Some) in E].
  - rewrite (schema_some (String.length raw) i) in E by lia.
    destruct (rust_type_to_json_schema i). by apply (inj Some) in E.
  - rewrite (schema_some (String.length raw) i) in E by lia. by apply (inj Some) in E.
  - rewrite (schema_some (String.length raw) i) in E by lia.
    destruct (rust_type_to_json_schema i). by apply (inj Some) in E.
  - destruct (map_types i) as [[k v]|] eqn:Em; [|by apply (inj Some) in E].
    apply split_once_length in Em as [_ Hv].
    rewrite (schema_some (String.length raw) v) in E by lia.
    destruct (rust_type_to_json_schema v). by apply (inj Some) in E.
Qed.

(** ** The referenced types *)

Section reachable.
Context (schemas : gmap string SchemaDef) (start : list string).

(** The names that are needed: those of the methods, and those in the schemas of
    needed names. *)
Inductive needed : string -> Prop :=
| needed_start n : n ∈ start -> needed n
| needed_ref n r : needed n -> r ∈ refs_of schemas n -> needed r.

Record loop_inv (visited queue : list string) : Prop := {
  li_nodup : NoDup visited;
  li_needed n : n ∈ visited \/ n ∈ queue -> needed n;
  li_start n : n ∈ start -> n ∈ visited \/ n ∈ queue;
  li_closed n r : n ∈ visited -> r ∈ refs_of schemas n -> r ∈ visited \/ r ∈ queue;
}.

Definition pending_of (visited : list string) (l : list (string * SchemaDef)) : nat :=
  sum_list ((fun p => if decide (p.1 ∈ visited) then 0%nat else length (refs_of schemas p.1)) <$> l).

Lemma pending_visit visited name l : NoDup l.*1 -> name ∉ visited ->
  (pending_of (visited ++ [name]) l + (if decide (name ∈ l.*1) then length (refs_of schemas name) else 0)
   = pending_of visited l)%nat.
Proof.
  intros Hnd Hv. unfold pending_of. induction l as [|[n d] l IH]; [done|].
  cbn [fmap list_fmap sum_list sum_list_with fst id] in *. apply NoDup_cons in Hnd as [Hn Hnd]. specialize (IH Hnd).
  destruct (decide (n = name)) as [->|Hne].
  - rewrite (decide_False (P := name ∈ l.*1)) in IH by done.
    rewrite (decide_True (P := name ∈ (visited ++ [name])%list)) by set_solver.
    rewrite (decide_False (P := name ∈ visited)) by done.
    rewrite decide_True by (apply elem_of_cons; by left). lia.
  - assert (Hin : name ∈ l.*1 <-> name ∈ n :: l.*1) by (rewrite elem_of_cons; naive_solver).
    rewrite <- (decide_ext _ _ _ _ Hin).
    assert (Hv' : n ∈ (visited ++ [name])%list <-> n ∈ visited) by set_solver.
    rewrite (decide_ext _ _ _ _ Hv'). lia.
Qed.

Lemma push_inv visited queue name :
  loop_inv visited (queue ++ [name]) -> name ∉ visited ->
  loop_inv (visited ++ [name]) (push_refs schemas (visited ++ [name]) queue name).
Proof.
  intros [Hnd Hr Hs Hc] Hn. unfold push_refs. split.
  - apply NoDup_app. split; [done|]. split; [set_solver|]. apply NoDup_singleton.
  - intros n Hin. destruct Hin as [Hin|Hin].
    + apply Hr. set_solver.
    + apply elem_of_app in Hin as [Hin|Hin]; [apply Hr; set_solver|].
      apply list_elem_of_filter in Hin as [_ Hin]. apply (needed_ref name); [apply Hr; set_solver|done].
  - intros n Hin. destruct (Hs n Hin) as [|Hq]; set_solver.
  - intros n r Hin Href. destruct (decide (r ∈ (visited ++ [name])%list)) as [|Hnot]; [by left|right].
    apply elem_of_app in Hin as [Hin|Hin%list_elem_of_singleton].
    + destruct (Hc n r Hin Href) as [|Hq]; set_solver.
    + subst n. apply elem_of_app. right. by apply list_elem_of_filter.
Qed.

Lemma skip_inv visited queue name :
  loop_inv visited (queue ++ [name]) -> name ∈ visited -> loop_inv visited queue.
Proof. intros [Hnd Hr Hs Hc] Hn. split; [done|set_solver|set_solver|set_solver]. Qed.

Lemma collect_loop_spec fuel : forall visited queue,
  loop_inv visited queue ->
  (length queue + pending_of visited (map_to_list schemas) <= fuel)%nat ->
  exists v, collect_loop schemas fuel visited queue = Some v /\ loop_inv v [].
Proof.
  induction fuel as [|fuel IH]; intros visited queue Hi Hf;
    (destruct queue as [|name queue _] using rev_ind; [by exists visited|]).
  { rewrite length_app in Hf. cbn in Hf. lia. }
  rewrite length_app in Hf. cbn [length] in Hf.
  cbn [collect_loop]. rewrite last_snoc, removelast_last.
  destruct (bool_decide_reflect (name ∈ visited)) as [Hv|Hv].
  - apply IH; [by eapply skip_inv|lia].
  - apply IH; [by apply push_inv|].
    pose proof (pending_visit visited name (map_to_list schemas) (NoDup_fst_map_to_list _) Hv) as Hp.
    unfold push_refs. rewrite length_app.
    pose proof (length_filter (fun r => r ∉ (visited ++ [name])%list) (refs_of schemas name)) as Hl.
    destruct (decide (name ∈ (map_to_list schemas).*1)) as [|Hnot]; [lia|].
    assert (Hno : refs_of schemas name = []).
    { unfold refs_of. destruct (schemas !! name) as [d|] eqn:Ed; [|done]. destruct Hnot.
      apply list_elem_of_fmap. exists (name, d). by rewrite elem_of_map_to_list. }
    rewrite Hno in *. cbn in *. lia.
Qed.

End reachable.

Lemma all_refs_pending schemas : pending_of schemas [] (map_to_list schemas) = all_refs schemas.
Proof. reflexivity. Qed.

(** C26: the search for the referenced types ends, and finds every type that the
    methods name, or the schema of a found type refers to, and no other; each
    once, in order.  So every type that a listed schema refers to is listed, if
    it has a schema at all. *)
Theorem collect_exact schemas methods :
  let found := collect_referenced_schemas schemas methods in
  NoDup found /\ Sorted string_le found /\
  (forall n, n ∈ found <-> needed schemas (seeds methods) n) /\
  (forall n def r, (n, def) ∈ listed_schemas schemas found -> r ∈ body_refs (sd_body def) ->
     forall rdef, schemas !! r = Some rdef -> (r, rdef) ∈ listed_schemas schemas found).
Proof.
  intros found.
  destruct (collect_loop_spec schemas (seeds methods) (length (seeds methods) + all_refs schemas) []
              (seeds methods)) as (v & Hv & Hi).
  { split; [by constructor|..]; [|set_solver|set_solver].
    intros n [Hn|Hn]; [by apply elem_of_nil in Hn|by apply needed_start]. }
  { rewrite all_refs_pending. lia. }
  assert (Hf : found = merge_sort string_le v)
    by (unfold found, collect_referenced_schemas; by rewrite Hv).
  assert (Hp : found ≡ₚ v) by (rewrite Hf; apply merge_sort_Permutation).
  assert (Hn : forall n, n ∈ found <-> needed schemas (seeds methods) n).
  { intros n. rewrite Hp. split; [intros Hin; apply (li_needed _ _ _ _ Hi); by left|].
    induction 1 as [n Hs|n r _ IH Hr].
    - destruct (li_start _ _ _ _ Hi n Hs) as [|Hq]; [done|by apply elem_of_nil in Hq].
    - destruct (li_closed _ _ _ _ Hi n r IH Hr) as [|Hq]; [done|by apply elem_of_nil in Hq]. }
  split; [rewrite Hp; apply (li_nodup _ _ _ _ Hi)|]. split; [|split; [done|]].
  { rewrite Hf. apply (Sorted_merge_sort string_le). }
  intros n def r Hin Hr rdef Hrdef. unfold listed_schemas in *.
  apply list_elem_of_omap in Hin as (n' & Hn' & Hd). destruct (schemas !! n') as [d|] eqn:Ed; [|done].
  injection Hd as -> ->. apply list_elem_of_omap. exists r. rewrite Hrdef. split; [|done].
  apply Hn. apply (needed_ref _ _ n); [by apply Hn|]. unfold refs_of. by rewrite Ed.
Qed.

(** ** Examples *)

Example kebab_names :
  to_kebab_case <$> ["EthFunctions"; "Erc20"; "FillBlock"; "SetCode"; "UniV2"] =
  ["eth-functions"; "erc20"; "fill-block"; "set-code"; "uni-v2"].
Proof. vm_compute. reflexivity. Qed.

Example optional_list :
  rust_type_to_json_schema "Option < Vec < SpamRequest > >" =
  (q "{'type':'array','items':{'$ref':'#/components/schemas/SpamRequest'}}", true).
Proof. vm_compute. reflexivity. Qed.

(** A wrapper is looked for anywhere in the text: a map to lists is described as
    a list, and a list of optional values as one optional value. *)
Example wrappers_misread :
  rust_type_to_json_schema "HashMap < String , Vec < u64 > >" =
    (q "{'type':'array','items':{'type':'integer'}}", false) /\
  rust_type_to_json_schema "Vec < Option < u64 > >" = (q "{'type':'integer'}", true).
Proof. vm_compute. done. Qed.

(** A type is found at the first declaration whose name starts with its name. *)
Example prefix_declares :
  build_source_map ["TestConfig"; "TestConfigSource"]
    [("types.rs", Some ["use std::fmt;"; "pub enum TestConfigSource {"]);
     ("test_config.rs", Some ["pub struct TestConfig {"])] !! "TestConfig" = Some ("types.rs", 2%Z).
Proof. vm_compute. reflexivity. Qed.

Module OpenRpcWitness.

Definition doc_attr (s : string) : Attribute :=
  {| at_path := "doc"; at_tokens := "doc = ..."; at_list := None; at_literal := Some s |}.
Definition field (name ty : string) : Field :=
  {| fd_ident := Some name; fd_type := ty; fd_attrs := [] |}.
Definition struct_of (name : string) (fields : list Field) : Item :=
  Struct {| st_ident := name; st_attrs := []; st_fields := Named fields |}.

(** A tree of types, one of them not needed. *)
Definition type_items : list Item :=
  [struct_of "Node" [field "left" "Option < Box < Node > >"; field "leaf" "Vec < Leaf >"];
   struct_of "Leaf" [field "value" "u64"];
   struct_of "Unused" [field "node" "Node"]].
Definition schemas : gmap string SchemaDef := extract_schemas type_items ∅.
Definition get_node : RpcMethod := {|
  me_rpc_name := "getNode"; me_description := None; me_params := [("id", "usize")];
  me_result_type := "Option < Node >"; me_is_subscription := false; me_subscription_item := None |}.

Lemma collect_exact_witness :
  collect_referenced_schemas schemas [get_node] = ["Leaf"; "Node"] /\
  needed schemas (seeds [get_node]) "Leaf" /\ ~ needed schemas (seeds [get_node]) "Unused".
Proof.
  assert (E : collect_referenced_schemas schemas [get_node] = ["Leaf"; "Node"])
    by (vm_compute; reflexivity).
  destruct (collect_exact schemas [get_node]) as (_ & _ & H & _). rewrite E in H.
  split; [exact E|]. split.
  - apply H. left.
  - intros Hn%H. rewrite !elem_of_cons, elem_of_nil in Hn. destruct Hn as [Hn|[Hn|[]]]; discriminate Hn.
Defined.

End OpenRpcWitness.
