(* ===== verification/ServerTypes.v ===== *)
(** * What the server receives and answers
      ([cli/src/server/rpc_server/types.rs], [cli/src/server/error.rs],
      [ContenderSessionInfo] of [cli/src/server/sessions.rs])

    The parameters of the JSON-RPC methods and what they become ([RunOpts],
    [AgentSpec], the test configuration, the context of a session), the status
    of a session, and the errors with their codes. *)

From Stdlib Require Import Strings.Byte Strings.String.
From S2P Require Import Prelude Text Utf8 Seeder Alloy Agents F64 Db GenTypes GenUtil CoreError Templater TestFile Generator TxActor Scenario Spam SpamRun Orchestrator CliError CliUtil CliArgs.

(** ** Parameters *)

Inductive SpammerType := Timed | Blockwise.

Record SpamParams := {
  sp_session_id : Z;
  sp_txs_per_period : option Z;
  sp_duration : option Z;
  sp_spammer : option SpammerType;
  sp_name : option string;
  sp_save_receipts : option bool;
  sp_run_forever : option bool;
  sp_report_interval_secs : option Z;
}.

Definition spammer_type (p : SpamParams) : SpammerType := default Timed (sp_spammer p).

(** [if let Some(v) = field { opts = opts.setter(v); }]. *)
Definition apply_opt {X Y} (set : X -> Y -> Y) (v : option X) (y : Y) : Y :=
  match v with Some v => set v y | None => y end.

Definition as_run_opts (p : SpamParams) : RunOpts :=
  let opts := RunOpts_new in
  let opts := apply_opt opts_txs_per_period (sp_txs_per_period p) opts in
  let opts := apply_opt opts_periods (sp_duration p) opts in
  let opts := apply_opt opts_name (sp_name p) opts in
  apply_opt opts_report_interval_secs (sp_report_interval_secs p) opts.

Record AgentParams := {
  ap_create_accounts : option nat;
  ap_setup_accounts : option nat;
  ap_spam_accounts : option nat;
}.
Definition agent_spec_of (params : AgentParams) : AgentSpec :=
  let spec := default_agent_spec in
  let spec := apply_opt (fun n spec => with_create_accounts spec n) (ap_create_accounts params) spec in
  let spec := apply_opt (fun n spec => with_setup_accounts spec n) (ap_setup_accounts params) spec in
  apply_opt (fun n spec => with_spam_accounts spec n) (ap_spam_accounts params) spec.

Record BuilderParams := { bp_rpc_url : string; bp_bundle_type : BundleTypeCli }.

(** The authentication parameters are the outcome of connecting with them. *)
Record SessionOptions := {
  so_auth : option (outcome string (nat -> outcome string unit));
  so_builder : option BuilderParams;
  so_min_balance : option Z;
  so_pending_tx_timeout : option Z;
  so_tx_type : option TxTypeCli;
  so_private_keys : option (list (list byte));
  so_agents : option AgentParams;
  so_env : option (gmap string string);
}.
Definition no_options : SessionOptions := {|
  so_auth := None; so_builder := None; so_min_balance := None; so_pending_tx_timeout := None;
  so_tx_type := None; so_private_keys := None; so_agents := None; so_env := None |}.

Record FundAccountsParams := {
  fa_session_id : Z;
  fa_agent_class : option AgentClass;
  fa_amount : Z;
}.

(** ** The status of a session *)

Inductive SessionStatus :=
| Initializing
| Ready
| Spamming (params : SpamParams)
| Failed (err : string).

(** Its [Display]. *)
Definition status_text (st : SessionStatus) : string :=
  match st with
  | Initializing => "Initializing"
  | Ready => "Ready"
  | Spamming params =>
      let run_opts := as_run_opts params in
      let units := match spammer_type params with
                   | Timed => ("tps", "seconds")
                   | Blockwise => ("tpb", "blocks")
                   end in
      "Spamming (" +:+ dec (ro_txs_per_period run_opts) +:+ " " +:+ units.1 +:+ " for " +:+
      dec (ro_periods run_opts) +:+ " " +:+ units.2 +:+ ")"
  | Failed err => "Failed: " +:+ err
  end%string.

Record ContenderSessionInfo := {
  si_id : Z;
  si_name : string;
  si_rpc_url : string;
  si_status : SessionStatus;
}.

(** ** Errors *)

(** Errors of libraries and of the core crate are their text. *)
Inductive ContenderRpcError :=
| SessionInitializationFailed (e : string)
| SessionNotFound (id : Z)
| SessionNotInitialized (info : ContenderSessionInfo)
| SessionFailed (info : ContenderSessionInfo) (error : string)
| SessionBusy (info : ContenderSessionInfo)
| SessionNotBusy (id : Z)
| InvalidTestConfig (e : string)
| InvalidArguments (msg : string)
| AuthProviderError (e : string)
| InvalidBase64 (e : string)
| InvalidUtf8 (e : string)
| FundingFailed (e : string).

Record ErrorObject := { eo_code : Z; eo_message : string; eo_data : option string }.
Definition owned (code : Z) (message : string) (data : option string) : ErrorObject :=
  {| eo_code := code; eo_message := message; eo_data := data |}.

(** [From<ContenderRpcError> for ErrorObjectOwned]. *)
Definition error_object (err : ContenderRpcError) : ErrorObject :=
  match err with
  | SessionInitializationFailed e => owned 1 "Failed to initialize contender session" (Some e)
  | InvalidTestConfig e => owned 2 "Invalid test config" (Some e)
  | InvalidBase64 e => owned 3 "Invalid base64 encoding" (Some e)
  | InvalidUtf8 e => owned 4 "Invalid UTF-8 in config" (Some e)
  | SessionNotFound id => owned 5 ("Session " +:+ dec id +:+ " not found") None
  | SessionNotInitialized info =>
      owned 6 ("Session " +:+ dec (si_id info) +:+ " not ready (status: " +:+
               status_text (si_status info) +:+
               "); must finish initializing before performing this action") None
  | SessionBusy info =>
      owned 7 ("Session " +:+ dec (si_id info) +:+ " is currently busy: " +:+
               status_text (si_status info)) None
  | SessionNotBusy id => owned 9 ("Session " +:+ dec id +:+ " is not currently spamming") None
  | SessionFailed info error =>
      owned 8 ("Session " +:+ dec (si_id info) +:+ " failed with error: " +:+ error) None
  | AuthProviderError e => owned 10 "Failed to initialize auth provider" (Some e)
  | FundingFailed e => owned 11 "Failed to fund accounts" (Some e)
  | InvalidArguments msg => owned 400 "Invalid arguments" (Some msg)
  end%string.

(** ** Creating the context of a session *)

Section contexts.
Context `{A : Alloy, Sg : !Signing} {P : Profile}.
Context {D : Type} `{DO : DbOps D}.
Context {Sd : Type} `{SV : SeedValue Sd, SD : Seeder Sd, SG : !SeedGenerator Sd}.

(** A base64 text of a TOML file, a configuration, or a builtin scenario, which
    is made with a seed. *)
Inductive TestConfigSource :=
| TomlBase64 (b64 : string)
| Json (config : TestConfig)
| Builtin (make : Sd -> outcome string TestConfig).

(** The base64 and TOML parsers, the text of a UTF-8 error and the default
    configuration are not code of the repository. *)
Variables (b64_decode : string -> outcome string (list byte))
  (from_utf8_error : list byte -> string)
  (toml_config : string -> outcome string TestConfig) (default_config : TestConfig).

(** A builtin scenario that cannot be made is a panic. *)
Definition to_testconfig (source : TestConfigSource) (seed : Sd)
  : outcome ContenderRpcError TestConfig :=
  match source with
  | TomlBase64 b64 =>
      bytes ← map_err InvalidBase64 (b64_decode b64);
      config_str ← ok_or (InvalidUtf8 (from_utf8_error bytes)) (from_utf8 bytes);
      map_err InvalidTestConfig (toml_config config_str)
  | Json config => mret config
  | Builtin make => match make seed with Ok c => Ok c | _ => Panic end
  end.

Record AddSessionParams := {
  as_name : string;
  as_rpc_url : string;
  as_test_config : option TestConfigSource;
  as_options : option SessionOptions;
}.

Record NewSessionParams := {
  ns_name : string;
  ns_rpc_url : string;
  ns_test_config : TestConfig;
  ns_options : SessionOptions;
}.

Definition to_new_session_params (p : AddSessionParams) (seed : Sd)
  : outcome ContenderRpcError NewSessionParams :=
  test_config ← match as_test_config p with
                | Some config => to_testconfig config seed
                | None => mret default_config
                end;
  mret {| ns_name := as_name p; ns_rpc_url := as_rpc_url p; ns_test_config := test_config;
          ns_options := default no_options (as_options p) |}.

(** The options' variables override those of the configuration. *)
Definition merge_env (env : option (gmap string string)) (c : TestConfig) : TestConfig :=
  match env with
  | Some env => with_env (env ∪ default ∅ (tc_env c)) c
  | None => c
  end.

(** The builder's setters, on the options that are given. *)
Definition apply_options (label : string) (auth : option (nat -> outcome string unit))
    (signers : option (list Signer)) (o : SessionOptions)
    (b : ContenderCtxBuilder (C := TestConfig) (D := D) (Sd := Sd)) : ContenderCtxBuilder := {|
  cb_config := cb_config b; cb_db := cb_db b; cb_seeder := cb_seeder b;
  cb_rpc_url := cb_rpc_url b;
  cb_builder_rpc_url := match so_builder o with
                        | Some p => Some (bp_rpc_url p) | None => cb_builder_rpc_url b end;
  cb_agent_spec := match so_agents o with
                   | Some p => agent_spec_of p | None => cb_agent_spec b end;
  cb_user_signers := default (cb_user_signers b) signers;
  cb_tx_type := match so_tx_type o with Some t => tx_type_of t | None => cb_tx_type b end;
  cb_bundle_type := match so_builder o with
                    | Some p => bundle_type_of (bp_bundle_type p) | None => cb_bundle_type b end;
  cb_pending_tx_timeout := default (cb_pending_tx_timeout b) (so_pending_tx_timeout o);
  cb_extra_msg_handles := cb_extra_msg_handles b;
  cb_auth_provider := match auth with Some a => Some a | None => cb_auth_provider b end;
  cb_funding := default (cb_funding b) (so_min_balance o);
  cb_sync_nonces_after_batch := cb_sync_nonces_after_batch b;
  cb_rpc_batch_size := cb_rpc_batch_size b; cb_scenario_label := Some label;
  cb_send_raw_tx_sync := cb_send_raw_tx_sync b; cb_txs_rpc_url := cb_txs_rpc_url b |}.

Definition signer_of_key (key : list byte) : outcome ContenderRpcError Signer :=
  ok_or (InvalidArguments "invalid private key detected") (signer_from_bytes key).

(** [ContenderSessionInfo::create_contender], on a new in-memory database; the
    session's id seeds the accounts and labels the scenario. *)
Definition create_contender (new_memory : D) (info : ContenderSessionInfo) (testconfig : TestConfig)
    (o : SessionOptions) : outcome ContenderRpcError (ContenderCtx (C := TestConfig)) :=
  let seeder := seed_from_bytes (S := Sd) (to_be 8 (si_id info)) in
  let testconfig := merge_env (so_env o) testconfig in
  b ← builder testconfig new_memory seeder (Some (si_rpc_url info));
  auth ← match so_auth o with
         | Some r => fmap (M := outcome _) Some (map_err AuthProviderError r)
         | None => mret None
         end;
  signers ← match so_private_keys o with
            | Some keys => fmap (M := outcome _) Some (mapM signer_of_key keys)
            | None => mret None
            end;
  build (apply_options (si_name info +:+ "_" +:+ dec (si_id info)) auth signers o b).
End contexts.

(** ** Properties *)

(** A session's seed is its id in the first eight bytes. *)
Lemma session_seed_u256 id :
  0 <= id < 2 ^ 64 ->
  from_be (RandSeed.fill_bytes (to_be 8 id)) = id * 256 ^ 24 + from_be (replicate 24 x01).
Proof.
  intros Hid. unfold RandSeed.fill_bytes. rewrite to_be_length. cbn [Nat.ltb Nat.leb Nat.sub].
  rewrite from_be_app, from_be_to_be, length_replicate, Z.mod_small by lia. done.
Qed.

Section props.
Context `{A : Alloy, Sg : !Signing} {P : Profile}.
Context {D : Type} `{DO : DbOps D}.

(** [build] keeps everything but the database. *)
Lemma build_ok {E} (b : ContenderCtxBuilder (C := TestConfig) (D := D) (Sd := rand_seed)) c :
  build (E := E) b = Ok c ->
  cb_seeder (cx c) = cb_seeder b /\ cb_config (cx c) = cb_config b /\
  cb_funding (cx c) = cb_funding b /\ cb_user_signers (cx c) = cb_user_signers b /\
  cb_scenario_label (cx c) = cb_scenario_label b.
Proof. unfold build. intros Hc. inv_outcome; done. Qed.

(** The builder's own values, before the options. *)
Lemma builder_ok {E} (config : TestConfig) (db : D) (sd : rand_seed) url b :
  builder (E := E) config db sd (Some url) = Ok b ->
  cb_seeder b = sd /\ cb_config b = config /\ cb_funding b = SMOL_AMOUNT /\
  default_signers (E := E) = Ok (cb_user_signers b).
Proof.
  unfold builder. simpl unwrap. destruct default_signers as [l| |] eqn:Hl; intros Hb; inv_outcome; done.
Qed.

(** The parts of a context that was made. *)
Lemma create_contender_ok (db : D) info conf o (c : ContenderCtx (Sd := rand_seed)) :
  create_contender db info conf o = Ok c ->
  cb_seeder (cx c) = seed_from_bytes (to_be 8 (si_id info)) /\
  cb_config (cx c) = merge_env (so_env o) conf /\
  cb_funding (cx c) = default SMOL_AMOUNT (so_min_balance o) /\
  cb_scenario_label (cx c) = Some (si_name info +:+ "_" +:+ dec (si_id info))%string /\
  match so_private_keys o with
  | Some keys => mapM signer_of_key keys = Ok (cb_user_signers (cx c))
  | None => default_signers (E := ContenderRpcError) = Ok (cb_user_signers (cx c))
  end.
Proof.
  unfold create_contender. intros Hc.
  apply bind_ok in Hc as (b & Hb & Hc). apply bind_ok in Hc as (auth & _ & Hc).
  apply bind_ok in Hc as (signers & Hs & Hc).
  apply builder_ok in Hb as (Hsd & Hconf & Hfund & Hsig).
  apply build_ok in Hc as (-> & -> & -> & -> & ->). cbn [apply_options cb_seeder cb_config cb_funding
    cb_scenario_label cb_user_signers]. rewrite Hsd, Hconf, Hfund, Hsig.
  split_and!; [reflexivity..|].
  destruct (so_private_keys o) as [keys|]; [|injection Hs as <-; reflexivity].
  apply fmap_ok in Hs as (l & Hl & ->). exact Hl.
Qed.

(** Two sessions with different ids never share generated accounts or
    stored names: whatever configuration and options they are given, the seeds
    of their contexts are different as numbers (the number every account is
    derived from), their scenario labels are different when they have the same
    name, and each context's configuration has the session's own variables in
    front of the file's. *)
Theorem sessions_isolated (db1 db2 : D) i1 i2 conf1 conf2 o1 o2
    (c1 c2 : ContenderCtx (Sd := rand_seed)) :
  0 <= si_id i1 < 2 ^ 64 -> 0 <= si_id i2 < 2 ^ 64 -> si_id i1 <> si_id i2 ->
  create_contender db1 i1 conf1 o1 = Ok c1 -> create_contender db2 i2 conf2 o2 = Ok c2 ->
  as_u256 (cb_seeder (cx c1)) <> as_u256 (cb_seeder (cx c2)) /\
  (si_name i1 = si_name i2 -> cb_scenario_label (cx c1) <> cb_scenario_label (cx c2)) /\
  forall key, default ∅ (tc_env (cb_config (cx c1))) !! key =
    match default ∅ (so_env o1) !! key with
    | Some v => Some v
    | None => default ∅ (tc_env conf1) !! key
    end.
Proof.
  intros Hi1 Hi2 Hne Hc1 Hc2.
  apply create_contender_ok in Hc1 as (-> & -> & _ & -> & _).
  apply create_contender_ok in Hc2 as (-> & _ & _ & -> & _). split_and!.
  - cbn. unfold RandSeed.as_u256, RandSeed.seed_from_bytes. cbn [RandSeed.seed].
    rewrite !session_seed_u256 by done. intros Heq. apply Hne.
    apply (Z.mul_cancel_r _ _ (256 ^ 24)); lia.
  - intros -> [= Heq]. apply (inj (String.append _)) in Heq. injection Heq as Heq.
    apply Hne, dec_inj; [lia..|done].
  - intros key. unfold merge_env. destruct (so_env o1) as [env|]; cbn.
    + rewrite lookup_union. destruct (env !! key), (default ∅ (tc_env conf1) !! key); done.
    + by rewrite lookup_empty.
Qed.
End props.

(** ** Witnesses *)

Module ServerTypesWitness.
Export ScenarioWitness.

Definition info (id : Z) : ContenderSessionInfo :=
  {| si_id := id; si_name := "load"; si_rpc_url := "http"; si_status := Initializing |}.
Definition options : SessionOptions := {|
  so_auth := None; so_builder := None; so_min_balance := Some 5; so_pending_tx_timeout := None;
  so_tx_type := Some CliEip4844; so_private_keys := Some [to_be 32 77]; so_agents := None;
  so_env := Some {[ "a" := "mine" ]} |}.
Definition config : TestConfig := with_env {[ "a" := "file"; "b" := "kept" ]} TestConfig_new.

Lemma sessions_isolated_witness :
  exists c1 c2, create_contender mock_db (info 3) config options = Ok c1 /\
    create_contender mock_db (info 4) config options = Ok c2 /\
    as_u256 (cb_seeder (cx c1)) <> as_u256 (cb_seeder (cx c2)) /\
    cb_scenario_label (cx c1) <> cb_scenario_label (cx c2) /\
    default ∅ (tc_env (cb_config (cx c1))) !! "a" = Some "mine" /\
    default ∅ (tc_env (cb_config (cx c1))) !! "b" = Some "kept".
Proof.
  assert (Hok : forall id, (id =? 3) || (id =? 4) = true ->
    is_ok (create_contender mock_db (info id) config options) = true).
  { intros id Hid. apply orb_true_iff in Hid as [->%Z.eqb_eq | ->%Z.eqb_eq];
      vm_compute; reflexivity. }
  destruct (is_ok_ex _ (Hok 3 eq_refl)) as [c1 H1].
  destruct (is_ok_ex _ (Hok 4 eq_refl)) as [c2 H2].
  destruct (sessions_isolated mock_db mock_db (info 3) (info 4) config config options options c1 c2)
    as (Hs & Hl & He); [split; cbn; lia..|discriminate|exact H1|exact H2|].
  exists c1, c2. split_and!; [exact H1|exact H2|exact Hs|exact (Hl eq_refl)| |];
    rewrite He; reflexivity.
Defined.
End ServerTypesWitness.
