(* ===== verification/Builder.v ===== *)
(** * The builder of a context, setter by setter
      ([ContenderCtxBuilder] and [initialize_and_spam] of
      [core/src/orchestrator.rs])

    Each setter replaces one field of the builder and returns it.
    [ServerTypes.apply_options], which fills in the options of a session at
    once, is the chain of setters that the server calls; [initialize_and_spam]
    is [Orchestrator.initialize] followed by one [Orchestrator.spam]. *)

From Stdlib Require Import Strings.Byte Strings.String.
From S2P Require Import Prelude Text Utf8 Seeder Alloy Agents F64 Db GenTypes GenUtil CoreError Templater TestFile Generator TxActor Scenario Spam SpamRun Orchestrator CliError CliUtil CliArgs ServerTypes.

Inductive LifecyclePhase := Uninitialized | Initialized.

(** [Contender<_, _, _, State>]: the context, with the scenario once there is
    one. *)
Definition phase {Sc : Type} (scenario : option Sc) : LifecyclePhase :=
  match scenario with None => Uninitialized | Some _ => Initialized end.

(** ** Setters *)

Section setters.
Context `{A : Alloy, Sg : !Signing} {C D Sd : Type}.
Notation Builder := (ContenderCtxBuilder (C := C) (D := D) (Sd := Sd)).

Definition set_builder_rpc_url (v : string) (b : Builder) : Builder := {|
  cb_config := cb_config b; cb_db := cb_db b; cb_seeder := cb_seeder b;
  cb_rpc_url := cb_rpc_url b; cb_builder_rpc_url := Some v; cb_agent_spec := cb_agent_spec b;
  cb_user_signers := cb_user_signers b; cb_tx_type := cb_tx_type b;
  cb_bundle_type := cb_bundle_type b; cb_pending_tx_timeout := cb_pending_tx_timeout b;
  cb_extra_msg_handles := cb_extra_msg_handles b; cb_auth_provider := cb_auth_provider b;
  cb_funding := cb_funding b; cb_sync_nonces_after_batch := cb_sync_nonces_after_batch b;
  cb_rpc_batch_size := cb_rpc_batch_size b; cb_scenario_label := cb_scenario_label b;
  cb_send_raw_tx_sync := cb_send_raw_tx_sync b; cb_txs_rpc_url := cb_txs_rpc_url b |}.
Definition set_txs_rpc_url (v : string) (b : Builder) : Builder := {|
  cb_config := cb_config b; cb_db := cb_db b; cb_seeder := cb_seeder b;
  cb_rpc_url := cb_rpc_url b; cb_builder_rpc_url := cb_builder_rpc_url b;
  cb_agent_spec := cb_agent_spec b; cb_user_signers := cb_user_signers b;
  cb_tx_type := cb_tx_type b; cb_bundle_type := cb_bundle_type b;
  cb_pending_tx_timeout := cb_pending_tx_timeout b;
  cb_extra_msg_handles := cb_extra_msg_handles b; cb_auth_provider := cb_auth_provider b;
  cb_funding := cb_funding b; cb_sync_nonces_after_batch := cb_sync_nonces_after_batch b;
  cb_rpc_batch_size := cb_rpc_batch_size b; cb_scenario_label := cb_scenario_label b;
  cb_send_raw_tx_sync := cb_send_raw_tx_sync b; cb_txs_rpc_url := Some v |}.
Definition set_agent_spec (v : AgentSpec) (b : Builder) : Builder := {|
  cb_config := cb_config b; cb_db := cb_db b; cb_seeder := cb_seeder b;
  cb_rpc_url := cb_rpc_url b; cb_builder_rpc_url := cb_builder_rpc_url b; cb_agent_spec := v;
  cb_user_signers := cb_user_signers b; cb_tx_type := cb_tx_type b;
  cb_bundle_type := cb_bundle_type b; cb_pending_tx_timeout := cb_pending_tx_timeout b;
  cb_extra_msg_handles := cb_extra_msg_handles b; cb_auth_provider := cb_auth_provider b;
  cb_funding := cb_funding b; cb_sync_nonces_after_batch := cb_sync_nonces_after_batch b;
  cb_rpc_batch_size := cb_rpc_batch_size b; cb_scenario_label := cb_scenario_label b;
  cb_send_raw_tx_sync := cb_send_raw_tx_sync b; cb_txs_rpc_url := cb_txs_rpc_url b |}.
Definition set_user_signers (v : list Signer) (b : Builder) : Builder := {|
  cb_config := cb_config b; cb_db := cb_db b; cb_seeder := cb_seeder b;
  cb_rpc_url := cb_rpc_url b; cb_builder_rpc_url := cb_builder_rpc_url b;
  cb_agent_spec := cb_agent_spec b; cb_user_signers := v; cb_tx_type := cb_tx_type b;
  cb_bundle_type := cb_bundle_type b; cb_pending_tx_timeout := cb_pending_tx_timeout b;
  cb_extra_msg_handles := cb_extra_msg_handles b; cb_auth_provider := cb_auth_provider b;
  cb_funding := cb_funding b; cb_sync_nonces_after_batch := cb_sync_nonces_after_batch b;
  cb_rpc_batch_size := cb_rpc_batch_size b; cb_scenario_label := cb_scenario_label b;
  cb_send_raw_tx_sync := cb_send_raw_tx_sync b; cb_txs_rpc_url := cb_txs_rpc_url b |}.
Definition set_tx_type (v : TxType) (b : Builder) : Builder := {|
  cb_config := cb_config b; cb_db := cb_db b; cb_seeder := cb_seeder b;
  cb_rpc_url := cb_rpc_url b; cb_builder_rpc_url := cb_builder_rpc_url b;
  cb_agent_spec := cb_agent_spec b; cb_user_signers := cb_user_signers b; cb_tx_type := v;
  cb_bundle_type := cb_bundle_type b; cb_pending_tx_timeout := cb_pending_tx_timeout b;
  cb_extra_msg_handles := cb_extra_msg_handles b; cb_auth_provider := cb_auth_provider b;
  cb_funding := cb_funding b; cb_sync_nonces_after_batch := cb_sync_nonces_after_batch b;
  cb_rpc_batch_size := cb_rpc_batch_size b; cb_scenario_label := cb_scenario_label b;
  cb_send_raw_tx_sync := cb_send_raw_tx_sync b; cb_txs_rpc_url := cb_txs_rpc_url b |}.
Definition set_bundle_type (v : BundleType) (b : Builder) : Builder := {|
  cb_config := cb_config b; cb_db := cb_db b; cb_seeder := cb_seeder b;
  cb_rpc_url := cb_rpc_url b; cb_builder_rpc_url := cb_builder_rpc_url b;
  cb_agent_spec := cb_agent_spec b; cb_user_signers := cb_user_signers b;
  cb_tx_type := cb_tx_type b; cb_bundle_type := v;
  cb_pending_tx_timeout := cb_pending_tx_timeout b;
  cb_extra_msg_handles := cb_extra_msg_handles b; cb_auth_provider := cb_auth_provider b;
  cb_funding := cb_funding b; cb_sync_nonces_after_batch := cb_sync_nonces_after_batch b;
  cb_rpc_batch_size := cb_rpc_batch_size b; cb_scenario_label := cb_scenario_label b;
  cb_send_raw_tx_sync := cb_send_raw_tx_sync b; cb_txs_rpc_url := cb_txs_rpc_url b |}.
Definition set_pending_tx_timeout (v : Z) (b : Builder) : Builder := {|
  cb_config := cb_config b; cb_db := cb_db b; cb_seeder := cb_seeder b;
  cb_rpc_url := cb_rpc_url b; cb_builder_rpc_url := cb_builder_rpc_url b;
  cb_agent_spec := cb_agent_spec b; cb_user_signers := cb_user_signers b;
  cb_tx_type := cb_tx_type b; cb_bundle_type := cb_bundle_type b; cb_pending_tx_timeout := v;
  cb_extra_msg_handles := cb_extra_msg_handles b; cb_auth_provider := cb_auth_provider b;
  cb_funding := cb_funding b; cb_sync_nonces_after_batch := cb_sync_nonces_after_batch b;
  cb_rpc_batch_size := cb_rpc_batch_size b; cb_scenario_label := cb_scenario_label b;
  cb_send_raw_tx_sync := cb_send_raw_tx_sync b; cb_txs_rpc_url := cb_txs_rpc_url b |}.
Definition set_extra_msg_handles (v : gmap string Handle) (b : Builder) : Builder := {|
  cb_config := cb_config b; cb_db := cb_db b; cb_seeder := cb_seeder b;
  cb_rpc_url := cb_rpc_url b; cb_builder_rpc_url := cb_builder_rpc_url b;
  cb_agent_spec := cb_agent_spec b; cb_user_signers := cb_user_signers b;
  cb_tx_type := cb_tx_type b; cb_bundle_type := cb_bundle_type b;
  cb_pending_tx_timeout := cb_pending_tx_timeout b; cb_extra_msg_handles := Some v;
  cb_auth_provider := cb_auth_provider b; cb_funding := cb_funding b;
  cb_sync_nonces_after_batch := cb_sync_nonces_after_batch b;
  cb_rpc_batch_size := cb_rpc_batch_size b; cb_scenario_label := cb_scenario_label b;
  cb_send_raw_tx_sync := cb_send_raw_tx_sync b; cb_txs_rpc_url := cb_txs_rpc_url b |}.
Definition set_auth_provider (v : nat -> outcome string unit) (b : Builder) : Builder := {|
  cb_config := cb_config b; cb_db := cb_db b; cb_seeder := cb_seeder b;
  cb_rpc_url := cb_rpc_url b; cb_builder_rpc_url := cb_builder_rpc_url b;
  cb_agent_spec := cb_agent_spec b; cb_user_signers := cb_user_signers b;
  cb_tx_type := cb_tx_type b; cb_bundle_type := cb_bundle_type b;
  cb_pending_tx_timeout := cb_pending_tx_timeout b;
  cb_extra_msg_handles := cb_extra_msg_handles b; cb_auth_provider := Some v;
  cb_funding := cb_funding b; cb_sync_nonces_after_batch := cb_sync_nonces_after_batch b;
  cb_rpc_batch_size := cb_rpc_batch_size b; cb_scenario_label := cb_scenario_label b;
  cb_send_raw_tx_sync := cb_send_raw_tx_sync b; cb_txs_rpc_url := cb_txs_rpc_url b |}.
Definition set_funding (v : Z) (b : Builder) : Builder := {|
  cb_config := cb_config b; cb_db := cb_db b; cb_seeder := cb_seeder b;
  cb_rpc_url := cb_rpc_url b; cb_builder_rpc_url := cb_builder_rpc_url b;
  cb_agent_spec := cb_agent_spec b; cb_user_signers := cb_user_signers b;
  cb_tx_type := cb_tx_type b; cb_bundle_type := cb_bundle_type b;
  cb_pending_tx_timeout := cb_pending_tx_timeout b;
  cb_extra_msg_handles := cb_extra_msg_handles b; cb_auth_provider := cb_auth_provider b;
  cb_funding := v; cb_sync_nonces_after_batch := cb_sync_nonces_after_batch b;
  cb_rpc_batch_size := cb_rpc_batch_size b; cb_scenario_label := cb_scenario_label b;
  cb_send_raw_tx_sync := cb_send_raw_tx_sync b; cb_txs_rpc_url := cb_txs_rpc_url b |}.
Definition set_seeder (v : Sd) (b : Builder) : Builder := {|
  cb_config := cb_config b; cb_db := cb_db b; cb_seeder := v; cb_rpc_url := cb_rpc_url b;
  cb_builder_rpc_url := cb_builder_rpc_url b; cb_agent_spec := cb_agent_spec b;
  cb_user_signers := cb_user_signers b; cb_tx_type := cb_tx_type b;
  cb_bundle_type := cb_bundle_type b; cb_pending_tx_timeout := cb_pending_tx_timeout b;
  cb_extra_msg_handles := cb_extra_msg_handles b; cb_auth_provider := cb_auth_provider b;
  cb_funding := cb_funding b; cb_sync_nonces_after_batch := cb_sync_nonces_after_batch b;
  cb_rpc_batch_size := cb_rpc_batch_size b; cb_scenario_label := cb_scenario_label b;
  cb_send_raw_tx_sync := cb_send_raw_tx_sync b; cb_txs_rpc_url := cb_txs_rpc_url b |}.
Definition set_scenario_label (v : string) (b : Builder) : Builder := {|
  cb_config := cb_config b; cb_db := cb_db b; cb_seeder := cb_seeder b;
  cb_rpc_url := cb_rpc_url b; cb_builder_rpc_url := cb_builder_rpc_url b;
  cb_agent_spec := cb_agent_spec b; cb_user_signers := cb_user_signers b;
  cb_tx_type := cb_tx_type b; cb_bundle_type := cb_bundle_type b;
  cb_pending_tx_timeout := cb_pending_tx_timeout b;
  cb_extra_msg_handles := cb_extra_msg_handles b; cb_auth_provider := cb_auth_provider b;
  cb_funding := cb_funding b; cb_sync_nonces_after_batch := cb_sync_nonces_after_batch b;
  cb_rpc_batch_size := cb_rpc_batch_size b; cb_scenario_label := Some v;
  cb_send_raw_tx_sync := cb_send_raw_tx_sync b; cb_txs_rpc_url := cb_txs_rpc_url b |}.
Definition set_sync_nonces_after_batch (v : bool) (b : Builder) : Builder := {|
  cb_config := cb_config b; cb_db := cb_db b; cb_seeder := cb_seeder b;
  cb_rpc_url := cb_rpc_url b; cb_builder_rpc_url := cb_builder_rpc_url b;
  cb_agent_spec := cb_agent_spec b; cb_user_signers := cb_user_signers b;
  cb_tx_type := cb_tx_type b; cb_bundle_type := cb_bundle_type b;
  cb_pending_tx_timeout := cb_pending_tx_timeout b;
  cb_extra_msg_handles := cb_extra_msg_handles b; cb_auth_provider := cb_auth_provider b;
  cb_funding := cb_funding b; cb_sync_nonces_after_batch := v;
  cb_rpc_batch_size := cb_rpc_batch_size b; cb_scenario_label := cb_scenario_label b;
  cb_send_raw_tx_sync := cb_send_raw_tx_sync b; cb_txs_rpc_url := cb_txs_rpc_url b |}.
End setters.

(** ** The server's chain of setters *)

Section server.
Context `{A : Alloy, Sg : !Signing} {D Sd : Type}.
Notation Builder := (ContenderCtxBuilder (C := TestConfig) (D := D) (Sd := Sd)).

(** The calls of [create_contender], in its order. *)
Definition option_setters (label : string) (auth : option (nat -> outcome string unit))
    (signers : option (list Signer)) (o : SessionOptions) (b : Builder) : Builder :=
  let b := set_scenario_label label b in
  let b := apply_opt set_auth_provider auth b in
  let b := match so_builder o with
           | Some p => set_bundle_type (bundle_type_of (bp_bundle_type p))
                         (set_builder_rpc_url (bp_rpc_url p) b)
           | None => b
           end in
  let b := apply_opt set_funding (so_min_balance o) b in
  let b := apply_opt set_pending_tx_timeout (so_pending_tx_timeout o) b in
  let b := match so_tx_type o with Some t => set_tx_type (tx_type_of t) b | None => b end in
  let b := apply_opt set_user_signers signers b in
  match so_agents o with Some p => set_agent_spec (agent_spec_of p) b | None => b end.

(** What the session's options make of a builder is what the chain of setters
    makes of it: no call overwrites the field of another. *)
Lemma apply_options_setters label auth signers o (b : Builder) :
  apply_options label auth signers o b = option_setters label auth signers o b.
Proof.
  unfold apply_options, option_setters.
  destruct o as [auth' builder mb pt tx keys ag env]; cbn.
  destruct auth, builder, mb, pt, tx, signers, ag; reflexivity.
Qed.
End server.

(** ** Initialising and spamming in one call *)

Section run.
Context `{A : Alloy, Sg : !Signing} {P : Profile}.
Context {C : Type} `{PC : PlanConfig C, TS : TemplateSyntax C}.
Context {D : Type} `{DO : DbOps D}.
Context {Sd : Type} `{SV : SeedValue Sd, SD : Seeder Sd, SG : !SeedGenerator Sd}.
Variables (format_ether : Z -> string) (groth16_proof : nat -> string).

(** The spammer reads the scenario that was made; [None] when the
    initialisation or the run does not end. *)
Definition initialize_and_spam (c : ContenderCtx (C := C) (D := D) (Sd := Sd)) (ienv : InitEnv)
    (spammer : TestScenario (C := C) (Sd := Sd) -> SpammerImpl (D := D)) (opts : RunOpts) (env : RunEnv)
  : option (outcome Error (TestScenario * D)) :=
  match initialize format_ether groth16_proof c ienv with
  | None => None
  | Some (Err e) => Some (Err e)
  | Some Panic => Some Panic
  | Some (Ok (s, db)) =>
      match spam c (spammer s) opts env db s with
      | (s, Ok (Some db)) => Some (Ok (s, db))
      | (_, Ok None) => None
      | (_, Err e) => Some (Err e)
      | (_, Panic) => Some Panic
      end
  end.

(** A funding below the simulated cost of the setup refuses the whole call: its
    result does not depend on the spammer, on the options of the run, nor on
    the node that would have answered it. *)
Lemma refused_never_spams (c : ContenderCtx (C := C) (D := D) (Sd := Sd))
    (ienv : InitEnv) s0 cost db0 spammer opts env :
  build_scenario c (iv_new ienv) = Ok s0 ->
  estimate_setup_cost groth16_proof s0 (cb_db (cx c)) (iv_sim ienv) = Some (Ok (cost, db0)) ->
  iv_cancelled ienv = false -> min_balance c < cost ->
  initialize_and_spam c ienv spammer opts env =
  Some (Err (insufficient_funding format_ether (min_balance c) cost)).
Proof.
  intros Hs Hc Hn Hlt. unfold initialize_and_spam.
  replace (initialize format_ether groth16_proof c ienv)
    with (Some (initialize_funded format_ether groth16_proof c s0 ienv (cost, db0)))
    by (unfold initialize, initialize_inner; by rewrite Hs, Hn, Hc).
  unfold initialize_funded, min_balance in *.
  destruct (Z.leb_spec cost (cb_funding (cx c))); [lia|done].
Qed.
End run.
