(* ===== verification/Sessions.v ===== *)
(** * The sessions of the server ([cli/src/server/sessions.rs],
      [cli/src/server/rpc_server/server.rs])

    A server keeps a list of sessions behind a lock and spawns tasks that
    initialize a session's contender, run its spam, or fund its accounts.  What
    happens under one acquisition of the lock is one step: [handle] is the
    server after an [Action], with its reply, or [None] when there is no such
    task or request.  [spam] takes the lock twice, so that it is two steps.  A
    task is named by its position in the list of running ones; its outcome is
    given with the step that ends it.  Contenders are taken through the class
    [ContenderOps]. *)

From Stdlib Require Import Strings.Byte Strings.String.
From S2P Require Import Prelude Text Seeder Alloy Agents F64 Db GenTypes GenUtil CoreError Templater TestFile Generator TxActor Scenario Spam SpamRun Orchestrator ServerTypes.

(** What the sessions need of a contender, uninitialized [U] and initialized
    [I]: the funder, the agents, the node and the funding of the latter. *)
Class ContenderOps `{Alloy} (U I : Type) := {
  ic_funder : I -> option Signer;
  ic_agent_store : I -> AgentStore;
  ic_rpc_client : I -> string;
  ic_min_balance : I -> Z;
}.

(** A context, and a context with its scenario. *)
#[export] Instance orchestrator_ops `{A : Alloy, Sg : !Signing} {C D Sd : Type}
  : ContenderOps (ContenderCtx (C := C) (D := D) (Sd := Sd))
      (ContenderCtx (C := C) (D := D) (Sd := Sd) * TestScenario (C := C) (Sd := Sd)) := {|
  ic_funder c := funder c.1; ic_agent_store c := ts_agent_store c.2;
  ic_rpc_client c := ts_rpc_url c.2; ic_min_balance c := min_balance c.1 |}.

Section sessions.
Context `{A : Alloy} {U I : Type} `{CO : !ContenderOps U I}.

Inductive SessionContender := Uninit (c : U) | Init (c : I).

(** A token is its number: [se_cancel] that of the session, [se_spam_cancel]
    that of a run. *)
Record ContenderSession := {
  se_info : ContenderSessionInfo;
  se_contender : option SessionContender;
  se_cancel : nat;
  se_spam_cancel : option nat;
  se_funder : option Signer;
  se_agent_store : option AgentStore;
  se_rpc_client : option string;
  se_min_balance : option Z;
}.
Definition se_id (s : ContenderSession) : Z := si_id (se_info s).
Definition se_status (s : ContenderSession) : SessionStatus := si_status (se_info s).

Definition ContenderSession_new (info : ContenderSessionInfo) (contender : U) (cancel : nat)
  : ContenderSession := {|
  se_info := info; se_contender := Some (Uninit contender); se_cancel := cancel;
  se_spam_cancel := None; se_funder := None; se_agent_store := None; se_rpc_client := None;
  se_min_balance := None |}.

Definition set_status (st : SessionStatus) (s : ContenderSession) : ContenderSession := {|
  se_info := {| si_id := si_id (se_info s); si_name := si_name (se_info s);
                si_rpc_url := si_rpc_url (se_info s); si_status := st |};
  se_contender := se_contender s; se_cancel := se_cancel s; se_spam_cancel := se_spam_cancel s;
  se_funder := se_funder s; se_agent_store := se_agent_store s;
  se_rpc_client := se_rpc_client s; se_min_balance := se_min_balance s |}.
Definition set_contender (c : option SessionContender) (s : ContenderSession)
  : ContenderSession := {|
  se_info := se_info s; se_contender := c; se_cancel := se_cancel s;
  se_spam_cancel := se_spam_cancel s; se_funder := se_funder s;
  se_agent_store := se_agent_store s; se_rpc_client := se_rpc_client s;
  se_min_balance := se_min_balance s |}.
Definition set_spam_cancel (t : option nat) (s : ContenderSession) : ContenderSession := {|
  se_info := se_info s; se_contender := se_contender s; se_cancel := se_cancel s;
  se_spam_cancel := t; se_funder := se_funder s; se_agent_store := se_agent_store s;
  se_rpc_client := se_rpc_client s; se_min_balance := se_min_balance s |}.

(** [put_initialized], on the session found. *)
Definition put_contender (c : I) (s : ContenderSession) : ContenderSession := {|
  se_info := se_info s; se_contender := Some (Init c); se_cancel := se_cancel s;
  se_spam_cancel := se_spam_cancel s; se_funder := ic_funder c;
  se_agent_store := Some (ic_agent_store c); se_rpc_client := Some (ic_rpc_client c);
  se_min_balance := Some (ic_min_balance c) |}.

(** ** The cache *)

Definition get_session (l : list ContenderSession) (id : Z) : option ContenderSession :=
  snd <$> list_find (fun s => se_id s = id) l.

(** [if let Some(session) = get_session_mut(id) { .. }]. *)
Fixpoint update_session (id : Z) (f : ContenderSession -> ContenderSession)
    (l : list ContenderSession) : list ContenderSession :=
  match l with
  | [] => []
  | s :: l => if se_id s =? id then f s :: l else s :: update_session id f l
  end.

(** The first random number that is no session's id; [None] when the given
    draws are used up. *)
Definition gen_id (l : list ContenderSession) (draws : list Z) : option Z :=
  snd <$> list_find (fun id => forallb (fun s => negb (se_id s =? id)) l = true)
            ((fun d => wrap 32 d) <$> draws).

(** The wrong variant is put back. *)
Definition take_uninitialized (id : Z) (l : list ContenderSession)
  : list ContenderSession * option U :=
  match get_session l id with
  | Some s =>
      match se_contender s with
      | Some (Uninit c) => (update_session id (set_contender None) l, Some c)
      | _ => (l, None)
      end
  | None => (l, None)
  end.
Definition take_initialized (id : Z) (l : list ContenderSession)
  : list ContenderSession * option I :=
  match get_session l id with
  | Some s =>
      match se_contender s with
      | Some (Init c) => (update_session id (set_contender None) l, Some c)
      | _ => (l, None)
      end
  | None => (l, None)
  end.
Definition put_initialized (id : Z) (c : I) : list ContenderSession -> list ContenderSession :=
  update_session id (put_contender c).

Definition all_sessions (l : list ContenderSession) : list ContenderSessionInfo := se_info <$> l.
Definition num_sessions (l : list ContenderSession) : nat := length l.

(** ** The server *)

(** An initialization that has not taken its contender yet, or has; a call of
    [spam] between its two locks; a run, with its token; a funding. *)
Inductive Task :=
| InitTask (id : Z) (contender : option U)
| SpamCall (params : SpamParams)
| SpamTask (id : Z) (contender : I) (spam_cancel : nat)
| FundTask (id : Z).

(** Tokens are numbered from 0 as they are made; [sv_cancelled] are those
    cancelled.  [sv_sinks] are the sessions whose logs are routed. *)
Record Server := {
  sv_sessions : list ContenderSession;
  sv_tasks : list Task;
  sv_tokens : nat;
  sv_cancelled : gset nat;
  sv_sinks : gset Z;
}.
Definition Server_new : Server := {|
  sv_sessions := []; sv_tasks := []; sv_tokens := 0; sv_cancelled := ∅; sv_sinks := ∅ |}.

Definition set_sessions (l : list ContenderSession) (sv : Server) : Server := {|
  sv_sessions := l; sv_tasks := sv_tasks sv; sv_tokens := sv_tokens sv;
  sv_cancelled := sv_cancelled sv; sv_sinks := sv_sinks sv |}.
Definition set_tasks (l : list Task) (sv : Server) : Server := {|
  sv_sessions := sv_sessions sv; sv_tasks := l; sv_tokens := sv_tokens sv;
  sv_cancelled := sv_cancelled sv; sv_sinks := sv_sinks sv |}.
Definition set_sinks (l : gset Z) (sv : Server) : Server := {|
  sv_sessions := sv_sessions sv; sv_tasks := sv_tasks sv; sv_tokens := sv_tokens sv;
  sv_cancelled := sv_cancelled sv; sv_sinks := l |}.
Definition cancel_tokens (l : gset nat) (sv : Server) : Server := {|
  sv_sessions := sv_sessions sv; sv_tasks := sv_tasks sv; sv_tokens := sv_tokens sv;
  sv_cancelled := l ∪ sv_cancelled sv; sv_sinks := sv_sinks sv |}.
Definition new_token (sv : Server) : Server := {|
  sv_sessions := sv_sessions sv; sv_tasks := sv_tasks sv; sv_tokens := S (sv_tokens sv);
  sv_cancelled := sv_cancelled sv; sv_sinks := sv_sinks sv |}.
Definition update (id : Z) (f : ContenderSession -> ContenderSession) (sv : Server) : Server :=
  set_sessions (update_session id f (sv_sessions sv)) sv.

(** What is answered. *)
Inductive Answer :=
| Session (info : ContenderSessionInfo)
| Found (info : option ContenderSessionInfo)
| Sessions (infos : list ContenderSessionInfo)
| NumSessions (n : nat)
| Text (s : string)
| Nothing.

(** The end of a run: the contender and the error, if it had one, or the message
    of a panic. *)
Inductive SpamEnd := SpamDone (c : I) (error : option string) | SpamPanicked (msg : string).

Inductive Action :=
| AddSession (name rpc_url : string) (draws : list Z) (made : Z -> outcome ContenderRpcError U)
    (sinks_locked : bool)
| InitTake (task : nat)
| InitEnd (task : nat) (result : outcome string I)
| GetSession (id : Z)
| GetAllSessions
| Status
| SpamCheck (params : SpamParams)
| SpamStart (call : nat)
| SpamFinish (task : nat) (result : SpamEnd)
| StopSession (id : Z)
| FundCheck (params : FundAccountsParams)
| FundFinish (task : nat) (result : outcome string unit)
| RemoveSession (id : Z) (sinks_locked : bool).

Definition Reply : Type := outcome ContenderRpcError Answer.

(** [error_if_session_not_ready]. *)
Definition error_if_session_not_ready (s : ContenderSession) : outcome ContenderRpcError unit :=
  match se_status s with
  | Failed msg => Err (SessionFailed (se_info s) msg)
  | Spamming _ => Err (SessionBusy (se_info s))
  | Ready => Ok tt
  | Initializing => Err (SessionNotInitialized (se_info s))
  end.

(** [addSession]: the contender is made with the id, before the session is
    added, and its initialization is spawned.  The logs are not routed when the
    sinks are locked at that moment. *)
Definition add_session (name rpc_url : string) (draws : list Z)
    (made : Z -> outcome ContenderRpcError U) (sinks_locked : bool) (sv : Server)
  : option (Server * Reply) :=
  id ← gen_id (sv_sessions sv) draws;
  Some match made id with
       | Ok contender =>
           let info := {| si_id := id; si_name := name; si_rpc_url := rpc_url;
                          si_status := Initializing |} in
           let session := ContenderSession_new info contender (sv_tokens sv) in
           let sv := new_token sv in
           let sv := if sinks_locked then sv else set_sinks ({[ id ]} ∪ sv_sinks sv) sv in
           let sv := set_sessions (sv_sessions sv ++ [session]) sv in
           (set_tasks (sv_tasks sv ++ [InitTask id None]) sv, Ok (Session info))
       | Err e => (sv, Err e)
       | Panic => (sv, Panic)
       end.

(** The task of an initialization takes the contender, or ends. *)
Definition init_take (k : nat) (sv : Server) : option (Server * Reply) :=
  match sv_tasks sv !! k with
  | Some (InitTask id None) =>
      Some match take_uninitialized id (sv_sessions sv) with
           | (l, Some c) =>
               (set_tasks (<[k := InitTask id (Some c)]> (sv_tasks sv)) (set_sessions l sv), Ok Nothing)
           | (l, None) => (set_tasks (delete k (sv_tasks sv)) (set_sessions l sv), Ok Nothing)
           end
  | _ => None
  end.

(** A panic of the task leaves the session as it is. *)
Definition init_end (k : nat) (result : outcome string I) (sv : Server) : option (Server * Reply) :=
  match sv_tasks sv !! k with
  | Some (InitTask id (Some _)) =>
      let sv := set_tasks (delete k (sv_tasks sv)) sv in
      Some (match result with
            | Ok initialized => update id (set_status Ready)
                                  (set_sessions (put_initialized id initialized (sv_sessions sv)) sv)
            | Err msg => update id (set_status (Failed msg)) sv
            | Panic => sv
            end, Ok Nothing)
  | _ => None
  end.

(** The first lock of [spam]. *)
Definition spam_check (params : SpamParams) (sv : Server) : Server * Reply :=
  match get_session (sv_sessions sv) (sp_session_id params) with
  | None => (sv, Err (SessionNotFound (sp_session_id params)))
  | Some session =>
      match error_if_session_not_ready session with
      | Ok _ => (set_tasks (sv_tasks sv ++ [SpamCall params]) sv, Ok Nothing)
      | Err e => (sv, Err e)
      | Panic => (sv, Panic)
      end
  end.

(** The second: the status and the token are set whether or not there is a
    contender to take. *)
Definition spam_start (k : nat) (sv : Server) : option (Server * Reply) :=
  match sv_tasks sv !! k with
  | Some (SpamCall params) =>
      let id := sp_session_id params in
      let spam_cancel := sv_tokens sv in
      let sv := new_token (set_tasks (delete k (sv_tasks sv)) sv) in
      let sv := update id (fun s => set_spam_cancel (Some spam_cancel)
                                      (set_status (Spamming params) s)) sv in
      Some match take_initialized id (sv_sessions sv) with
           | (l, Some c) =>
               (set_tasks (sv_tasks sv ++ [SpamTask id c spam_cancel]) (set_sessions l sv),
                Ok (Text ("Spamming session " +:+ dec id)))
           | (l, None) => (set_sessions l sv, Err (SessionNotFound id))
           end
  | _ => None
  end.

Definition spam_finish (k : nat) (result : SpamEnd) (sv : Server) : option (Server * Reply) :=
  match sv_tasks sv !! k with
  | Some (SpamTask id _ _) =>
      let sv := set_tasks (delete k (sv_tasks sv)) sv in
      Some (match result with
            | SpamDone contender error =>
                let sv := set_sessions (put_initialized id contender (sv_sessions sv)) sv in
                let sv := update id (set_spam_cancel None) sv in
                update id (set_status match error with
                                      | Some e => Failed ("spam failed: " +:+ e)
                                      | None => Ready
                                      end) sv
            | SpamPanicked msg =>
                update id (fun s => set_status (Failed ("spam panicked: " +:+ msg))
                                      (set_spam_cancel None s)) sv
            end, Ok Nothing)
  | _ => None
  end.

Definition stop (id : Z) (sv : Server) : Server * Reply :=
  match get_session (sv_sessions sv) id with
  | None => (sv, Err (SessionNotFound id))
  | Some session =>
      match se_spam_cancel session with
      | None => (sv, Err (SessionNotBusy id))
      | Some token => (cancel_tokens {[ token ]} sv, Ok (Text ("Stopping session " +:+ dec id)))
      end
  end.

(** The guards of [fundAccounts], in their order. *)
Definition fund_ready (s : ContenderSession) : outcome ContenderRpcError unit :=
  match se_status s with
  | Failed msg => Err (SessionFailed (se_info s) msg)
  | Ready | Spamming _ => Ok tt
  | Initializing => Err (SessionNotInitialized (se_info s))
  end;;
  ok_or (SessionNotInitialized (se_info s)) (se_funder s);;
  ok_or (SessionNotInitialized (se_info s)) (se_rpc_client s);;
  ok_or (SessionNotInitialized (se_info s)) (se_agent_store s);;
  mret tt.

Definition fund_check (params : FundAccountsParams) (sv : Server) : Server * Reply :=
  let id := fa_session_id params in
  match get_session (sv_sessions sv) id with
  | None => (sv, Err (SessionNotFound id))
  | Some session =>
      match fund_ready session with
      | Ok _ => (set_tasks (sv_tasks sv ++ [FundTask id]) sv,
                 Ok (Text ("Funding accounts for session " +:+ dec id)))
      | Err e => (sv, Err e)
      | Panic => (sv, Panic)
      end
  end.

Definition fund_finish (k : nat) (result : outcome string unit) (sv : Server)
  : option (Server * Reply) :=
  match sv_tasks sv !! k with
  | Some (FundTask id) =>
      let sv := set_tasks (delete k (sv_tasks sv)) sv in
      Some (match result with
            | Err e => update id (set_status (Failed ("funding accounts failed: " +:+ e))) sv
            | _ => sv
            end, Ok Nothing)
  | _ => None
  end.

(** The tokens that removing a session cancels: its run's, and its own, which
    is also that of its contender's context. *)
Definition session_tokens (s : ContenderSession) : gset nat :=
  match se_spam_cancel s with Some t => {[ t; se_cancel s ]} | None => {[ se_cancel s ]} end.

Definition remove_session (id : Z) (sinks_locked : bool) (sv : Server) : Server :=
  let sv := match get_session (sv_sessions sv) id with
            | Some s => cancel_tokens (session_tokens s) sv
            | None => sv
            end in
  let sv := if sinks_locked then sv else set_sinks (sv_sinks sv ∖ {[ id ]}) sv in
  set_sessions (filter (fun s => se_id s <> id) (sv_sessions sv)) sv.

(** One step. *)
Definition handle (sv : Server) (a : Action) : option (Server * Reply) :=
  match a with
  | AddSession name rpc_url draws made locked => add_session name rpc_url draws made locked sv
  | InitTake k => init_take k sv
  | InitEnd k result => init_end k result sv
  | GetSession id => Some (sv, Ok (Found (se_info <$> get_session (sv_sessions sv) id)))
  | GetAllSessions => Some (sv, Ok (Sessions (all_sessions (sv_sessions sv))))
  | Status => Some (sv, Ok (NumSessions (num_sessions (sv_sessions sv))))
  | SpamCheck params => Some (spam_check params sv)
  | SpamStart k => spam_start k sv
  | SpamFinish k result => spam_finish k result sv
  | StopSession id => Some (stop id sv)
  | FundCheck params => Some (fund_check params sv)
  | FundFinish k result => fund_finish k result sv
  | RemoveSession id locked => Some (remove_session id locked sv, Ok Nothing)
  end.

(** Several steps, with the replies. *)
Fixpoint run (sv : Server) (l : list Action) : option (Server * list Reply) :=
  match l with
  | [] => Some (sv, [])
  | a :: l =>
      '(sv, r) ← handle sv a;
      '(sv, rs) ← run sv l;
      Some (sv, r :: rs)
  end.
End sessions.

(** ** The run of a session *)

(** [run_spam!]: each run's result, and whether the token is cancelled after it;
    [None] while the runs go on. *)
Fixpoint run_spam (run_forever : bool) (runs : list (outcome string unit * bool))
  : option (outcome string unit) :=
  match runs with
  | [] => None
  | (Panic, _) :: _ => Some Panic
  | (res, cancelled) :: runs =>
      if negb run_forever || negb (is_ok res) || cancelled then Some res
      else run_spam run_forever runs
  end.

(** ** Funding in the background *)

(** A quarter above the minimum. *)
Definition funding_threshold (min_balance : Z) : Z := wrap 256 (min_balance + min_balance / 4).

(** The balances in the order of the addresses; one that cannot be read is
    passed over, and the first one below the threshold decides. *)
Fixpoint needs_funding (threshold : Z) (balances : list (outcome string Z)) : bool :=
  match balances with
  | [] => false
  | Ok balance :: balances => (balance <? threshold) || needs_funding threshold balances
  | _ :: balances => needs_funding threshold balances
  end.

(** What wakes the loop: a signal with the balances then read, the channel
    closed, or the token. *)
Inductive FundEvent := BatchDone (balances : Address -> outcome string Z) | ChannelClosed | Cancelled.

(** The fundings asked for: for each the store and the amount. *)
Fixpoint run_funding_loop `{Alloy} (agent_store : AgentStore) (min_balance : Z)
    (events : list FundEvent) : list (SignerStore * Z) :=
  match events with
  | BatchDone balances :: events =>
      match get_class agent_store Spammer with
      | None => run_funding_loop agent_store min_balance events
      | Some spammers =>
          if needs_funding (funding_threshold min_balance) (balances <$> all_addresses spammers)
          then (spammers, min_balance) :: run_funding_loop agent_store min_balance events
          else run_funding_loop agent_store min_balance events
      end
  | _ => []
  end.

(** ** Properties *)

Section props.
Context `{A : Alloy} {U I : Type} `{CO : !ContenderOps U I}.
Implicit Types (s : ContenderSession (U := U) (I := I)) (sv : Server (U := U) (I := I)).
Implicit Types (l : list (ContenderSession (U := U) (I := I))) (t : Task (U := U) (I := I)).

Lemma get_session_cons s l id :
  get_session (s :: l) id = if se_id s =? id then Some s else get_session l id.
Proof.
  unfold get_session. cbn [list_find]. destruct (decide (se_id s = id)) as [He|He].
  - by rewrite (proj2 (Z.eqb_eq _ _) He).
  - rewrite (proj2 (Z.eqb_neq _ _) He). by destruct (list_find _ l) as [[]|].
Qed.

Lemma get_session_id l id s : get_session l id = Some s -> se_id s = id.
Proof.
  induction l as [|x l IH]; [done|]. rewrite get_session_cons.
  destruct (Z.eqb_spec (se_id x) id); [by intros [= <-]|done].
Qed.

Lemma get_session_none l id : get_session l id = None <-> id ∉ se_id <$> l.
Proof.
  induction l as [|x l IH]; [split; [set_solver|done]|].
  rewrite get_session_cons, fmap_cons, not_elem_of_cons.
  destruct (Z.eqb_spec (se_id x) id); [naive_solver|]. rewrite IH. naive_solver.
Qed.

Lemma get_session_app l l' id :
  get_session (l ++ l') id =
  match get_session l id with Some s => Some s | None => get_session l' id end.
Proof.
  induction l as [|x l IH]; [done|]. cbn [app]. rewrite !get_session_cons.
  by destruct (se_id x =? id).
Qed.

Lemma get_session_filter l id i :
  get_session (filter (fun s => se_id s <> i) l) id =
  if id =? i then None else get_session l id.
Proof.
  induction l as [|x l IH]; [by destruct (id =? i)|].
  rewrite filter_cons, get_session_cons. destruct (decide (se_id x <> i)) as [Hn|He].
  - rewrite get_session_cons, IH.
    destruct (Z.eqb_spec (se_id x) id), (Z.eqb_spec id i); congruence.
  - rewrite IH. destruct (Z.eqb_spec (se_id x) id), (Z.eqb_spec id i); [done|exfalso|done|done].
    apply He. congruence.
Qed.

Section update.
Context (f : ContenderSession (U := U) (I := I) -> ContenderSession (U := U) (I := I)).
Hypothesis f_id : forall s, se_id (f s) = se_id s.

Lemma update_ids id l : se_id <$> update_session id f l = se_id <$> l.
Proof.
  induction l as [|x l IH]; [done|]. cbn [update_session].
  destruct (se_id x =? id); csimpl; by rewrite ?f_id, ?IH.
Qed.

Lemma get_update id i l :
  get_session (update_session id f l) i =
  if i =? id then f <$> get_session l i else get_session l i.
Proof.
  induction l as [|x l IH]; [by destruct (i =? id)|]. cbn [update_session].
  destruct (Z.eqb_spec (se_id x) id) as [He|He]; rewrite !get_session_cons, ?f_id, ?IH;
    destruct (Z.eqb_spec (se_id x) i), (Z.eqb_spec i id); first [done|congruence].
Qed.

Lemma update_update (g : ContenderSession -> ContenderSession) id l :
  update_session id g (update_session id f l) = update_session id (fun s => g (f s)) l.
Proof.
  induction l as [|x l IH]; [done|]. cbn [update_session].
  destruct (se_id x =? id) eqn:He; cbn [update_session]; rewrite ?f_id, He; [done|by rewrite IH].
Qed.

Lemma update_none id l : get_session l id = None -> update_session id f l = l.
Proof.
  induction l as [|x l IH]; [done|]. rewrite get_session_cons. cbn [update_session].
  destruct (se_id x =? id); [done|]. intros H. by rewrite IH.
Qed.

Lemma update_sum (w : ContenderSession (U := U) (I := I) -> nat) id l s :
  get_session l id = Some s ->
  (sum_list_with w (update_session id f l) + w s = sum_list_with w l + w (f s))%nat.
Proof.
  induction l as [|x l IH]; [done|]. rewrite get_session_cons. cbn [update_session].
  destruct (se_id x =? id); [intros [= ->]; cbn; lia|]. intros H. cbn. specialize (IH H). lia.
Qed.
End update.

Lemma delete_sum {X} (w : X -> nat) (l : list X) k x :
  l !! k = Some x -> (sum_list_with w (delete k l) + w x = sum_list_with w l)%nat.
Proof.
  intros H. rewrite (delete_take_drop l k). rewrite <- (take_drop_middle l k x H) at 3.
  rewrite !sum_list_with_app. cbn. lia.
Qed.

Lemma insert_sum {X} (w : X -> nat) (l : list X) k x y :
  l !! k = Some x -> (sum_list_with w (<[k := y]> l) + w x = sum_list_with w l + w y)%nat.
Proof.
  intros H. rewrite (insert_take_drop l k) by by eapply lookup_lt_Some.
  rewrite <- (take_drop_middle l k x H) at 3. rewrite !sum_list_with_app. cbn. lia.
Qed.

(** ** Requests that are refused *)

Definition code_of (r : Reply) : option Z :=
  match r with Err e => Some (eo_code (error_object e)) | _ => None end.

(** The code a request gets by the status of its session. *)
Definition refusal (st : SessionStatus) : Z :=
  match st with Initializing => 6 | Spamming _ => 7 | Failed _ => 8 | Ready => 0 end.

(** The answers by the state of the session: a request for a session that
    does not exist is refused with code 5; [spam] is accepted only when the
    session is ready, and refused with 6, 7 or 8 when it is initializing,
    spamming or failed; [fundAccounts] also while it is spamming; [stop] is
    accepted when there is a run to stop and refused with 9 otherwise.  A
    refused request changes nothing. *)
Theorem refused_requests sv id (p : SpamParams) (f : FundAccountsParams)
    (Hp : sp_session_id p = id) (Hf : fa_session_id f = id) :
  (forall a sv' r, a ∈ [SpamCheck p; StopSession id; FundCheck f] ->
     handle sv a = Some (sv', r) -> is_ok r = false -> sv' = sv) /\
  match get_session (sv_sessions sv) id with
  | None => code_of (spam_check p sv).2 = Some 5 /\ code_of (stop id sv).2 = Some 5 /\
            code_of (fund_check f sv).2 = Some 5
  | Some s =>
      code_of (spam_check p sv).2 =
        match se_status s with Ready => None | st => Some (refusal st) end /\
      code_of (stop id sv).2 =
        match se_spam_cancel s with Some _ => None | None => Some 9 end /\
      (is_Some (se_funder s) -> is_Some (se_agent_store s) -> is_Some (se_rpc_client s) ->
       code_of (fund_check f sv).2 =
         match se_status s with Ready | Spamming _ => None | st => Some (refusal st) end)
  end.
Proof.
  split.
  - intros a sv' r Ha H Hr. rewrite !elem_of_cons in Ha.
    destruct Ha as [->|[->|[->|[]%elem_of_nil]]]; injection H as H; revert H;
      unfold spam_check, stop, fund_check; destruct (get_session _ _) as [s|].
    2, 4, 6: by intros [= <- <-].
    + destruct (error_if_session_not_ready s); intros [= <- <-]; done.
    + destruct (se_spam_cancel s); intros [= <- <-]; done.
    + destruct (fund_ready s); intros [= <- <-]; done.
  - unfold spam_check, stop, fund_check. rewrite Hp, Hf.
    destruct (get_session _ _) as [s|]; [|done].
    unfold error_if_session_not_ready, fund_ready. split_and!.
    + by destruct (se_status s).
    + by destruct (se_spam_cancel s).
    + intros [x ->] [y ->] [z ->]. by destruct (se_status s).
Qed.

(** A session whose run begins. *)
Definition begun (p : SpamParams) (tok : nat) s := set_spam_cancel (Some tok) (set_status (Spamming p) s).

(** ** Removal *)

Lemma remove_fields id locked sv :
  sv_sessions (remove_session id locked sv) = filter (fun s => se_id s <> id) (sv_sessions sv) /\
  sv_tasks (remove_session id locked sv) = sv_tasks sv /\
  sv_tokens (remove_session id locked sv) = sv_tokens sv.
Proof. unfold remove_session. by destruct (get_session _ _), locked. Qed.

Definition adds (a : Action (U := U) (I := I)) : Prop :=
  match a with AddSession _ _ _ _ _ => True | _ => False end.

Lemma update_absent (f : ContenderSession -> ContenderSession) id i l :
  (forall s, se_id (f s) = se_id s) -> get_session l i = None ->
  get_session (update_session id f l) i = None.
Proof. intros Hf H. rewrite get_update by done. rewrite H. by destruct (i =? id). Qed.

(** Through any number of updates. *)
Ltac absent := repeat (apply update_absent; [done|]); done.

Lemma handle_absent sv a sv' r i :
  ~ adds a -> handle sv a = Some (sv', r) -> get_session (sv_sessions sv) i = None ->
  get_session (sv_sessions sv') i = None /\ sv_cancelled sv ⊆ sv_cancelled sv'.
Proof.
  intros Ha H Hi. destruct a; cbn [handle] in H; [by destruct Ha|..].
  - unfold init_take, take_uninitialized in H.
    destruct (sv_tasks sv !! task) as [[id [c|]| | |]|]; try done.
    destruct (get_session (sv_sessions sv) id) as [s|]; [destruct (se_contender s) as [[]|]|];
      injection H as <- <-; cbn [sv_sessions sv_cancelled set_tasks set_sessions]; split; try done.
    absent.
  - unfold init_end in H. destruct (sv_tasks sv !! task) as [[id [c|]| | |]|]; try done.
    destruct result; injection H as <- <-; (split; [|done]); [absent|absent|done].
  - by injection H as <- <-.
  - by injection H as <- <-.
  - by injection H as <- <-.
  - unfold spam_check in H. destruct (get_session _ (sp_session_id params)) as [s|];
      [destruct (error_if_session_not_ready s)|]; by injection H as <- <-.
  - unfold spam_start, take_initialized in H. cbn zeta in H.
    destruct (sv_tasks sv !! call) as [[|p| |]|]; try done.
    change (sv_sessions (update _ _ _)) with
      (update_session (sp_session_id p) (begun p (sv_tokens sv)) (sv_sessions sv)) in H.
    destruct (get_session (update_session _ _ _) _) as [s|]; [destruct (se_contender s) as [[]|]|];
      injection H as <- <-; (split; [|done]); [|absent|..]; absent.
  - unfold spam_finish in H. destruct (sv_tasks sv !! task) as [[| |id c tk|]|]; try done.
    destruct result; injection H as <- <-; (split; [|done]); [absent|absent].
  - unfold stop in H. destruct (get_session _ id) as [s|]; [destruct (se_spam_cancel s)|];
      injection H as <- <-; cbn; (split; [done|]); [apply union_subseteq_r|done..].
  - unfold fund_check in H. destruct (get_session _ (fa_session_id params)) as [s|];
      [destruct (fund_ready s)|]; by injection H as <- <-.
  - unfold fund_finish in H. destruct (sv_tasks sv !! task) as [[| | |id]|]; try done.
    destruct result; injection H as <- <-; (split; [|done]); [done|absent|done].
  - injection H as <- <-. destruct (remove_fields id sinks_locked sv) as (-> & _ & _).
    rewrite get_session_filter. split; [by rewrite Hi; destruct (i =? id)|].
    unfold remove_session. destruct (get_session _ id) as [s|], sinks_locked; cbn;
      [apply union_subseteq_r..|done|done].
Qed.

(** C21: a removed session is gone for good: its run's token and its own are
    cancelled, and whatever its tasks still do, and whatever is asked, no
    session with its id appears until one is added. *)
Theorem removed_for_good sv id locked (acts : list Action) sv' rs
    (Ha : Forall (fun a => ~ adds a) acts)
    (H : run (remove_session id locked sv) acts = Some (sv', rs)) :
  get_session (sv_sessions sv') id = None /\
  forall s, get_session (sv_sessions sv) id = Some s -> session_tokens s ⊆ sv_cancelled sv'.
Proof.
  assert (H0 : get_session (sv_sessions (remove_session id locked sv)) id = None).
  { destruct (remove_fields id locked sv) as (-> & _ & _).
    by rewrite get_session_filter, Z.eqb_refl. }
  assert (Hc : forall s, get_session (sv_sessions sv) id = Some s ->
    session_tokens s ⊆ sv_cancelled (remove_session id locked sv)).
  { intros s Hs. unfold remove_session. rewrite Hs. destruct locked; cbn; set_solver. }
  revert H H0 Hc. generalize (remove_session id locked sv) as w. revert rs.
  induction Ha as [|a acts Hna _ IH]; intros rs w H H0 Hc; cbn [run] in H.
  { injection H as <- <-. done. }
  destruct (handle w a) as [[w1 r]|] eqn:Hh; [|done]. cbn in H.
  destruct (run w1 acts) as [[w2 rs']|] eqn:Hr; [|done]. injection H as <- <-.
  destruct (handle_absent _ _ _ _ id Hna Hh H0) as [H1 Hsub].
  apply (IH rs' w1); [done|done|]. intros s Hs. etrans; [by apply Hc|done].
Qed.
End props.

(** The background funding: a batch leads to a funding exactly when the
    node gave a balance below a quarter above the minimum for some spammer
    account, balances it could not read notwithstanding. *)
Theorem needs_funding_spec (min_balance : Z) (balances : list (outcome string Z))
    (Hm : 0 <= min_balance) (Hb : 5 * min_balance < 2 ^ 258) :
  needs_funding (funding_threshold min_balance) balances = true <->
  exists b, Ok b ∈ balances /\ b < min_balance + min_balance / 4.
Proof.
  assert (Ht : funding_threshold min_balance = min_balance + min_balance / 4).
  { unfold funding_threshold, wrap. apply Z.mod_small. pose proof (Z.div_pos min_balance 4).
    pose proof (Z.div_mod min_balance 4). pose proof (Z.mod_pos_bound min_balance 4).
    change (2 ^ 258) with (4 * 2 ^ 256) in Hb. lia. }
  rewrite Ht. generalize (min_balance + min_balance / 4) as t. clear. intros t.
  induction balances as [|[b|e|] l IH]; cbn [needs_funding].
  - split; [done|]. by intros (b & ?%elem_of_nil & _).
  - rewrite orb_true_iff, Z.ltb_lt, IH. setoid_rewrite elem_of_cons. naive_solver.
  - rewrite IH. setoid_rewrite elem_of_cons. naive_solver.
  - rewrite IH. setoid_rewrite elem_of_cons. naive_solver.
Qed.

(** ** Witnesses *)

Module SessionsWitness.
Export OrchestratorWitness.

(** Contenders are numbers. *)
#[export] Instance toy_ops : ContenderOps nat nat := {|
  ic_funder c := Some (signer_of 200); ic_agent_store c := {| agents := ∅ |};
  ic_rpc_client c := "http"%string; ic_min_balance c := 5 |}.
Definition call (id : Z) : SpamParams := {|
  sp_session_id := id; sp_txs_per_period := Some 5; sp_duration := None; sp_spammer := None;
  sp_name := None; sp_save_receipts := None; sp_run_forever := None; sp_report_interval_secs := None |}.
Definition add (draws : list Z) : Action (U := nat) (I := nat) :=
  AddSession "a" "http" draws (fun id => Ok 1%nat) false.
Definition fund (id : Z) : FundAccountsParams :=
  {| fa_session_id := id; fa_agent_class := None; fa_amount := 3 |}.

(** Two sessions, of which the first is ready. *)
Definition setup : list (Action (U := nat) (I := nat)) :=
  [add [7]; InitTake 0; InitEnd 0 (Ok 10%nat); add [7; 7 + 2 ^ 32; 8]].
Definition after_from (sv : Server) (l : list (Action (U := nat) (I := nat))) : Server :=
  match run sv l with Some (sv, _) => sv | None => sv end.
Definition after : list (Action (U := nat) (I := nat)) -> Server := after_from Server_new.

Definition second : ContenderSession (U := nat) (I := nat) :=
  default (ContenderSession_new {| si_id := 0; si_name := ""; si_rpc_url := ""; si_status := Initializing |} 0%nat 0)
    (get_session (sv_sessions (after setup)) 7).

Lemma second_ready : get_session (sv_sessions (after setup)) 7 = Some second.
Proof. reflexivity. Qed.

Ltac no_adds :=
  let a := fresh in let Ha := fresh in
  apply Forall_forall; intros a Ha Hadd;
  repeat (apply elem_of_cons in Ha as [->|Ha]; [exact Hadd|]); by apply elem_of_nil in Ha.

Lemma refused_requests_witness :
  code_of (spam_check (call 8) (after setup)).2 = Some 6 /\
  code_of (spam_check (call 9) (after setup)).2 = Some 5 /\
  code_of (stop 7 (after setup)).2 = Some 9.
Proof.
  destruct (refused_requests (after setup) 8 (call 8) (fund 8) eq_refl eq_refl) as [_ H8].
  destruct (refused_requests (after setup) 9 (call 9) (fund 9) eq_refl eq_refl) as [_ H9].
  destruct (refused_requests (after setup) 7 (call 7) (fund 7) eq_refl eq_refl) as [_ H7].
  assert (E8 : se_status <$> get_session (sv_sessions (after setup)) 8 = Some Initializing)
    by (vm_compute; reflexivity).
  assert (E9 : se_status <$> get_session (sv_sessions (after setup)) 9 = None)
    by (vm_compute; reflexivity).
  assert (E7 : se_spam_cancel <$> get_session (sv_sessions (after setup)) 7 = Some None)
    by (vm_compute; reflexivity).
  destruct (get_session (sv_sessions (after setup)) 9) as [s9|]; [discriminate E9|].
  destruct (get_session (sv_sessions (after setup)) 8) as [s8|]; [|discriminate E8].
  destruct (get_session (sv_sessions (after setup)) 7) as [s7|]; [|discriminate E7].
  injection E8 as E8. injection E7 as E7. destruct H8 as [-> _]. destruct H9 as [-> _].
  destruct H7 as (_ & -> & _). rewrite E8, E7. split; [reflexivity|split; reflexivity].
Defined.

Lemma removed_for_good_witness :
  exists sv' rs, run (remove_session 7 false (after (setup ++ [SpamCheck (call 7); SpamStart 1])))
      [SpamFinish 1 (SpamDone 11%nat None); GetSession 7] = Some (sv', rs) /\
    get_session (sv_sessions sv') 7 = None.
Proof.
  destruct (run (remove_session 7 false (after (setup ++ [SpamCheck (call 7); SpamStart 1])))
      [SpamFinish 1 (SpamDone 11%nat None); GetSession 7]) as [[sv' rs]|] eqn:H; [|discriminate H].
  exists sv', rs. split; [reflexivity|].
  apply (removed_for_good (after (setup ++ [SpamCheck (call 7); SpamStart 1])) 7 false
    [SpamFinish 1 (SpamDone 11%nat None); GetSession 7] sv' rs); [no_adds|exact H].
Defined.

(** A balance at 120% of the minimum is topped up. *)
Lemma needs_funding_spec_witness :
  needs_funding (funding_threshold 100) [Err "down"%string; Ok 120] = true.
Proof.
  apply needs_funding_spec; [lia|lia|]. exists 120. split; [right; left|]. reflexivity.
Defined.
End SessionsWitness.
