(* ===== verification/LogStream.v ===== *)
(** * Session logs ([cli/src/server/log_layer.rs], [sse.rs], the [status],
      [getSession] and [subscribeLogs] of [rpc_server/server.rs],
      [spawn_with_session] of [core/src/lib.rs], [log_client.rs])

    A tracing layer finds the session an event belongs to, and sends the event
    formatted on the broadcast channel of that session; a subscriber, over SSE
    or over a websocket, is a task that forwards what it receives from the
    channel to its client.  [log_step] is one step of the server of [Sessions]
    with its channels, sinks and subscribers.  tokio's broadcast channel is the
    class [Broadcast], whose laws are what its documentation says. *)

From Stdlib Require Import Strings.String.
From S2P Require Import Prelude Text Alloy CoreError ServerTypes Sessions.

(** ** The broadcast channel *)

(** What a receiver gets: a message, how many it has missed, or that every
    sender is gone. *)
Inductive Recv := Message (m : string) | Lagged (n : nat) | Closed.

(** [recv] is [None] when the receiver waits.  [sent], [next] and [capacity]
    are what the documentation talks of: all messages sent so far, the number of
    the message a receiver gets next, how many the channel retains. *)
Class Broadcast := {
  Chan : Type;
  Rx : Type;
  channel : nat -> Chan;
  send : string -> Chan -> Chan;
  subscribe : Chan -> Rx;
  recv : Chan -> Rx -> option (Recv * Rx);
  sent : Chan -> list string;
  capacity : Chan -> nat;
  next : Rx -> nat;
}.

(** A receiver sees the messages sent after it subscribed, in order; one that is
    further behind than the capacity is told how many it has missed and goes on
    with the oldest retained. *)
Class BroadcastLaws (B : Broadcast) : Prop := {
  sent_channel n : sent (channel n) = [] /\ capacity (channel n) = n;
  sent_send m c : sent (send m c) = sent c ++ [m] /\ capacity (send m c) = capacity c;
  next_subscribe c : next (subscribe c) = length (sent c);
  recv_spec c rx : (next rx <= length (sent c))%nat ->
    match recv c rx with
    | None => next rx = length (sent c)
    | Some (Message m, rx') =>
        (length (sent c) <= next rx + capacity c)%nat /\ sent c !! next rx = Some m /\
        next rx' = S (next rx)
    | Some (Lagged n, rx') =>
        (next rx + capacity c < length (sent c))%nat /\
        (n + next rx + capacity c = length (sent c))%nat /\ next rx' = (next rx + n)%nat
    | Some (Closed, _) => next rx = length (sent c)
    end;
}.

(** ** Which session an event belongs to *)

(** The value of a field, as a visitor is given it: an integer, or anything else
    in its debug form. *)
Inductive FieldValue := U64 (v : Z) | I64 (v : Z) | Other (debug : string).
Definition debug (v : FieldValue) : string :=
  match v with U64 v | I64 v => dec v | Other s => s end.

(** [SessionSpanFields]'s visitor. *)
Definition record_id (id : Z) (f : string * FieldValue) : Z :=
  match f.2 with
  | U64 v | I64 v => if String.eqb f.1 "id" then wrap 64 v else id
  | Other _ => id
  end.

(** A span, with the session fields kept in its extensions. *)
Record Span := { sp_name : string; sp_session : option Z }.

Definition on_new_span (name : string) (fields : list (string * FieldValue)) : Span := {|
  sp_name := name;
  sp_session := if starts_with "session" name then Some (fold_left record_id fields 0) else None |}.

(** What a task logs in: its spans, innermost first, and its task-local session. *)
Record TaskContext := { tc_scope : list Span; tc_session : option Z }.

Fixpoint scope_session (scope : list Span) : option Z :=
  match scope with
  | [] => None
  | span :: scope =>
      if starts_with "session" (sp_name span)
      then match sp_session span with Some id => Some id | None => scope_session scope end
      else scope_session scope
  end.

Definition event_session (tc : TaskContext) : option Z :=
  match scope_session (tc_scope tc) with
  | Some id => Some id
  | None => tc_session tc
  end.

(** [MessageVisitor]. *)
Definition visit (message : string) (f : string * FieldValue) : string :=
  if String.eqb f.1 "message" then debug f.2
  else if negb (String.eqb message "") then (message +:+ " " +:+ f.1 +:+ "=" +:+ debug f.2)%string
  else (f.1 +:+ "=" +:+ debug f.2)%string.

Definition format_event (timestamp level : string) (fields : list (string * FieldValue)) (id : Z)
  : string :=
  (timestamp +:+ " " +:+ level +:+ " session[" +:+ dec id +:+ "]: " +:+
   fold_left visit fields "")%string.

(** [spawn_with_session]: the context of the spawned task. *)
Definition spawn_with_session (tc : TaskContext) : TaskContext :=
  match tc_session tc with
  | Some id =>
      let has_session_span :=
        match tc_scope tc with
        | current :: _ => starts_with "session" (sp_name current)
        | [] => false
        end in
      if has_session_span then tc
      else {| tc_scope := on_new_span "session" [("id", U64 id)] :: tc_scope tc;
              tc_session := Some id |}
  | None => {| tc_scope := []; tc_session := None |}
  end.

(** ** Subscribers *)

Inductive StreamKind := Sse | Ws.

(** A subscriber to the channel of the session with token [sm_token]:
    [sm_queue] is what waits for the client, [sm_blocked] a message for which
    there is no room, [sm_delivered] what the client has taken.  [sm_opened]
    (the messages sent before it) and [sm_skipped] (those it was told it missed)
    are for the accounts only. *)
Record Stream `{Broadcast} := {
  sm_kind : StreamKind;
  sm_token : nat;
  sm_rx : Rx;
  sm_queue : list string;
  sm_blocked : option string;
  sm_delivered : list string;
  sm_gone : bool;
  sm_done : bool;
  sm_opened : nat;
  sm_skipped : nat;
}.

Section streams.
Context `{B : Broadcast}.

Definition stream_new (kind : StreamKind) (token : nat) (ch : Chan) : Stream := {|
  sm_kind := kind; sm_token := token; sm_rx := subscribe ch; sm_queue := [];
  sm_blocked := None; sm_delivered := []; sm_gone := false; sm_done := false;
  sm_opened := length (sent ch); sm_skipped := 0 |}.

Definition set_done (s : Stream) : Stream := {|
  sm_kind := sm_kind s; sm_token := sm_token s; sm_rx := sm_rx s; sm_queue := sm_queue s;
  sm_blocked := sm_blocked s; sm_delivered := sm_delivered s; sm_gone := sm_gone s;
  sm_done := true; sm_opened := sm_opened s; sm_skipped := sm_skipped s |}.

(** A message is sent towards the client, waiting for room when the queue
    holds [cap]; the send fails when the client is gone. *)
Definition stream_send (cap : nat) (m : string) (rx : Rx) (s : Stream) : Stream :=
  if sm_gone s then set_done s
  else
    let room := (length (sm_queue s) <? cap)%nat in
    {| sm_kind := sm_kind s; sm_token := sm_token s; sm_rx := rx;
       sm_queue := if room then sm_queue s ++ [m] else sm_queue s;
       sm_blocked := if room then None else Some m;
       sm_delivered := sm_delivered s; sm_gone := false; sm_done := sm_done s;
       sm_opened := sm_opened s; sm_skipped := sm_skipped s |}.

Definition stream_skip (n : nat) (rx : Rx) (s : Stream) : Stream := {|
  sm_kind := sm_kind s; sm_token := sm_token s; sm_rx := rx; sm_queue := sm_queue s;
  sm_blocked := sm_blocked s; sm_delivered := sm_delivered s; sm_gone := sm_gone s;
  sm_done := sm_done s; sm_opened := sm_opened s; sm_skipped := sm_skipped s + n |}.

(** Whether the task is at its [select!]. *)
Definition selecting (s : Stream) : bool :=
  negb (sm_done s) && match sm_blocked s with None => true | Some _ => false end.

(** The [select!] takes what the channel has: the SSE task goes on after a lag
    ([cancel_on_remove]), the websocket's ends ([subscribe_logs]). *)
Definition stream_recv (cap : nat) (ch : Chan) (s : Stream) : option Stream :=
  if selecting s then
    match recv ch (sm_rx s) with
    | Some (Message m, rx) => Some (stream_send cap m rx s)
    | Some (Lagged n, rx) =>
        Some match sm_kind s with Sse => stream_skip n rx s | Ws => set_done s end
    | Some (Closed, _) => Some (set_done s)
    | None => None
    end
  else None.

(** The [select!] takes the cancellation. *)
Definition stream_cancel (cancelled : bool) (s : Stream) : option Stream :=
  if selecting s && cancelled then Some (set_done s) else None.

(** The client takes the next message, and a blocked one moves up. *)
Definition stream_take (s : Stream) : option Stream :=
  if sm_gone s then None else
  match sm_queue s ++ option_list (sm_blocked s) with
  | [] => None
  | m :: queue => Some {|
      sm_kind := sm_kind s; sm_token := sm_token s; sm_rx := sm_rx s; sm_queue := queue;
      sm_blocked := None; sm_delivered := sm_delivered s ++ [m]; sm_gone := false;
      sm_done := sm_done s; sm_opened := sm_opened s; sm_skipped := sm_skipped s |}
  end.

(** The client goes: a send that waits fails. *)
Definition stream_gone (s : Stream) : Stream := {|
  sm_kind := sm_kind s; sm_token := sm_token s; sm_rx := sm_rx s; sm_queue := sm_queue s;
  sm_blocked := sm_blocked s; sm_delivered := sm_delivered s; sm_gone := true;
  sm_done := sm_done s || match sm_blocked s with Some _ => true | None => false end;
  sm_opened := sm_opened s; sm_skipped := sm_skipped s |}.

(** What the subscriber has accepted from the channel. *)
Definition accepted (s : Stream) : list string :=
  sm_delivered s ++ sm_queue s ++ option_list (sm_blocked s).
End streams.

(** ** The server with its logs *)

(** The methods of [ContenderRpc], with its subscription. *)
Definition ContenderRpc : list string :=
  ["status"; "addSession"; "getSession"; "getAllSessions"; "removeSession"; "spam"; "stop";
   "fundAccounts"; "subscribeLogs"]%string.

(** What the websocket client of [log_client.rs] subscribes with. *)
Definition log_client_method : string := "subscribe_logs".

Section server.
Context `{A : Alloy} {U I : Type} `{CO : !ContenderOps U I} `{B : Broadcast}.
Context (ws_buffer : nat).

(** A broadcast channel is named by the token of its session, and kept with the
    session's id; a sink is the channel an id's events go to. *)
Record LogServer := {
  lg_server : Server (U := U) (I := I);
  lg_sinks : gmap Z nat;
  lg_chans : gmap nat (Z * Chan);
  lg_streams : list Stream;
}.
Definition LogServer_new : LogServer := {|
  lg_server := Server_new; lg_sinks := ∅; lg_chans := ∅; lg_streams := [] |}.

Inductive LogAction :=
| Call (a : Action (U := U) (I := I))
| LogEvent (sinks_locked : bool) (tc : TaskContext) (timestamp level : string)
    (fields : list (string * FieldValue))
| Open (kind : StreamKind) (id : Z)
| Receive (k : nat)
| Cancelled (k : nat)
| Take (k : nat)
| Gone (k : nat).

Inductive LogReply :=
| Replied (r : Reply)
| Opened
| Rejected (code : Z) (message : string)
| Quiet.

(** A step of [Sessions]; [add_session] makes the session's channel, of 4096
    messages, and puts it among the sinks, and [remove_session] takes the id off
    them, each unless the sinks are locked. *)
Definition log_call (a : Action) (st : LogServer) : option (LogServer * LogReply) :=
  '(sv, r) ← handle (lg_server st) a;
  let token := sv_tokens (lg_server st) in
  Some (match a, r with
        | AddSession _ _ _ _ sinks_locked, Ok (Session info) => {|
            lg_server := sv;
            lg_sinks := if sinks_locked then lg_sinks st
                        else <[si_id info := token]> (lg_sinks st);
            lg_chans := <[token := (si_id info, channel 4096)]> (lg_chans st);
            lg_streams := lg_streams st |}
        | RemoveSession id sinks_locked, _ => {|
            lg_server := sv;
            lg_sinks := if sinks_locked then lg_sinks st else delete id (lg_sinks st);
            lg_chans := lg_chans st; lg_streams := lg_streams st |}
        | _, _ => {|
            lg_server := sv; lg_sinks := lg_sinks st; lg_chans := lg_chans st;
            lg_streams := lg_streams st |}
        end, Replied r).

(** [on_event]: nothing is sent for an event of no session, for a session that
    has no sink, or while the sinks are being written. *)
Definition on_event (sinks_locked : bool) (tc : TaskContext) (timestamp level : string)
    (fields : list (string * FieldValue)) (st : LogServer) : LogServer :=
  match event_session tc with
  | None => st
  | Some id =>
      let formatted := format_event timestamp level fields id in
      if sinks_locked then st
      else match lg_sinks st !! id with
           | None => st
           | Some token => {|
               lg_server := lg_server st; lg_sinks := lg_sinks st;
               lg_chans := alter (fun c => (c.1, send formatted c.2)) token (lg_chans st);
               lg_streams := lg_streams st |}
           end
  end.

Definition not_found (kind : StreamKind) (id : Z) : LogReply :=
  Rejected (match kind with Sse => 404 | Ws => 5 end)
    ("Session " +:+ dec id +:+ " not found").

(** [logs_handler] and [subscribe_logs]. *)
Definition open_stream (kind : StreamKind) (id : Z) (st : LogServer)
  : option (LogServer * LogReply) :=
  match get_session (sv_sessions (lg_server st)) id with
  | None => Some (st, not_found kind id)
  | Some session =>
      c ← lg_chans st !! se_cancel session;
      Some ({| lg_server := lg_server st; lg_sinks := lg_sinks st; lg_chans := lg_chans st;
               lg_streams := lg_streams st ++ [stream_new kind (se_cancel session) c.2] |},
            Opened)
  end.

Definition stream_step (k : nat) (f : Stream -> option Stream) (st : LogServer)
  : option (LogServer * LogReply) :=
  s ← lg_streams st !! k;
  s ← f s;
  Some ({| lg_server := lg_server st; lg_sinks := lg_sinks st; lg_chans := lg_chans st;
           lg_streams := <[k := s]> (lg_streams st) |}, Quiet).

(** How many messages wait for the client: the SSE stream's channel holds 256. *)
Definition buffer (kind : StreamKind) : nat :=
  match kind with Sse => 256 | Ws => ws_buffer end.

Definition log_step (st : LogServer) (a : LogAction) : option (LogServer * LogReply) :=
  match a with
  | Call a => log_call a st
  | LogEvent locked tc timestamp level fields =>
      Some (on_event locked tc timestamp level fields st, Quiet)
  | Open kind id => open_stream kind id st
  | Receive k =>
      stream_step k (fun s =>
        c ← lg_chans st !! sm_token s;
        stream_recv (buffer (sm_kind s)) c.2 s) st
  | Cancelled k =>
      stream_step k (fun s =>
        stream_cancel (bool_decide (sm_token s ∈ sv_cancelled (lg_server st))) s) st
  | Take k => stream_step k stream_take st
  | Gone k => stream_step k (fun s => Some (stream_gone s)) st
  end.

Fixpoint log_run (st : LogServer) (l : list LogAction) : option LogServer :=
  match l with
  | [] => Some st
  | a :: l => '(st, _) ← log_step st a; log_run st l
  end.

Inductive log_reachable : LogServer -> Prop :=
| log_new : log_reachable LogServer_new
| log_steps st a st' r : log_reachable st -> log_step st a = Some (st', r) -> log_reachable st'.
End server.

(** ** The channels of the sessions *)

Section keys.
Context `{A : Alloy} {U I : Type} `{CO : !ContenderOps U I}.
Implicit Types (sv : Server (U := U) (I := I)) (a : Action (U := U) (I := I)).

(** A session's id and token, which no step changes. *)
Definition key (s : ContenderSession (U := U) (I := I)) : Z * nat := (se_id s, se_cancel s).

Lemma update_keys id f (l : list (ContenderSession (U := U) (I := I))) :
  (forall s, key (f s) = key s) -> key <$> update_session id f l = key <$> l.
Proof.
  intros Hf. induction l as [|s l IH]; [done|]. cbn [update_session].
  destruct (se_id s =? id); cbn; [by rewrite Hf|by rewrite IH].
Qed.

(** A key that is new after a step, and the token it takes. *)
Definition added sv a (r : Reply) (k : Z * nat) : Prop :=
  match a, r with
  | AddSession _ _ _ _ _, Ok (Session info) => k = (si_id info, sv_tokens sv)
  | _, _ => False
  end.

Definition keys_step sv a (r : Reply) sv' : Prop :=
  (sv_tokens sv <= sv_tokens sv')%nat /\
  (forall k, added sv a r k -> sv_tokens sv' = S (sv_tokens sv)) /\
  forall k, k ∈ key <$> sv_sessions sv' ->
    k ∈ key <$> sv_sessions sv \/ added sv a r k.

Lemma keys_same sv a r sv' :
  key <$> sv_sessions sv' = key <$> sv_sessions sv -> (sv_tokens sv <= sv_tokens sv')%nat ->
  (forall k, ~ added sv a r k) -> keys_step sv a r sv'.
Proof.
  intros Hk Ht Hn. split; [done|]. split; [by intros k []%Hn|]. intros k H. left. by rewrite <- Hk.
Qed.

(** Through any number of updates. *)
Ltac same_keys := apply keys_same; [repeat (etrans; [by apply update_keys|]); done|cbn; lia|by intros k []].

Lemma handle_keys sv a sv' r : handle sv a = Some (sv', r) -> keys_step sv a r sv'.
Proof.
  intros H. destruct a; cbn [handle] in H.
  - unfold add_session in H. destruct (gen_id _ draws) as [id|]; [|done]. cbn in H.
    destruct (made id); injection H as <- <-; [|same_keys..].
    split; [cbn; destruct sinks_locked; cbn; lia|].
    split; [by intros k _; destruct sinks_locked|]. intros k Hk. cbn in Hk. destruct sinks_locked; cbn in Hk; rewrite fmap_app, elem_of_app in Hk;
      (destruct Hk as [|Hk%list_elem_of_singleton]; [by left|right; by subst k]).
  - unfold init_take, take_uninitialized in H.
    destruct (sv_tasks sv !! task) as [[id [c|]| | |]|]; try done.
    destruct (get_session (sv_sessions sv) id) as [s|]; [destruct (se_contender s) as [[]|]|];
      injection H as <- <-; same_keys.
  - unfold init_end in H. destruct (sv_tasks sv !! task) as [[id [c|]| | |]|]; try done.
    destruct result; injection H as <- <-; same_keys.
  - injection H as <- <-. same_keys.
  - injection H as <- <-. same_keys.
  - injection H as <- <-. same_keys.
  - unfold spam_check in H. destruct (get_session _ (sp_session_id params)) as [s|];
      [destruct (error_if_session_not_ready s)|]; injection H as <- <-; same_keys.
  - unfold spam_start, take_initialized in H. cbn zeta in H.
    destruct (sv_tasks sv !! call) as [[|p| |]|]; try done.
    destruct (get_session _ _) as [s|]; [destruct (se_contender s) as [[]|]|];
      injection H as <- <-; same_keys.
  - unfold spam_finish in H. destruct (sv_tasks sv !! task) as [[| |id c tk|]|]; try done.
    destruct result; [destruct error|]; injection H as <- <-; same_keys.
  - unfold stop in H. destruct (get_session _ id) as [s|]; [destruct (se_spam_cancel s)|];
      injection H as <- <-; same_keys.
  - unfold fund_check in H. destruct (get_session _ (fa_session_id params)) as [s|];
      [destruct (fund_ready s)|]; injection H as <- <-; same_keys.
  - unfold fund_finish in H. destruct (sv_tasks sv !! task) as [[| | |id]|]; try done.
    destruct result; injection H as <- <-; same_keys.
  - injection H as <- <-. destruct (remove_fields id sinks_locked sv) as (Hs & _ & Ht).
    split; [by rewrite Ht|]. split; [by intros k []|]. intros k Hk. left. rewrite Hs in Hk.
    apply list_elem_of_fmap in Hk as (s & -> & [_ Hin]%list_elem_of_filter).
    by apply list_elem_of_fmap_2.
Qed.
End keys.

(** ** The accounts of a subscriber *)

Section accounts.
Context `{BL : !BroadcastLaws B}.
Implicit Types (s : Stream) (ch : Chan) (log : list string).

(** What a subscriber has accepted are messages sent since it subscribed, in
    order; every message up to the one it gets next is accepted or one it was
    told it missed, and a websocket's never missed one. *)
Definition stream_in log s : Prop :=
  (next (sm_rx s) <= length log)%nat /\
  next (sm_rx s) = (sm_opened s + length (accepted s) + sm_skipped s)%nat /\
  accepted s `sublist_of` drop (sm_opened s) (take (next (sm_rx s)) log) /\
  (sm_kind s = Ws -> sm_skipped s = 0%nat).

Lemma stream_in_app log l s : stream_in log s -> stream_in (log ++ l) s.
Proof.
  intros (H1 & H2 & H3 & H4). split_and!; [rewrite length_app; lia|done| |done].
  by rewrite take_app_le.
Qed.

Lemma stream_in_new kind token ch : stream_in (sent ch) (stream_new kind token ch).
Proof.
  unfold stream_in, accepted. cbn. rewrite next_subscribe.
  split; [done|]. split; [lia|]. split; [apply sublist_nil_l|done].
Qed.

Lemma sublist_all {X} (l k : list X) : l `sublist_of` k -> (length k <= length l)%nat -> l = k.
Proof.
  induction 1 as [|x l k H IH|x l k H IH]; cbn; intros Hl; [done|f_equal; apply IH; lia|].
  apply sublist_length in H. lia.
Qed.

Lemma sublist_take_le {X} (l : list X) i j : (i <= j)%nat -> take i l `sublist_of` take j l.
Proof. intros H. replace i with (i `min` j)%nat by lia. rewrite <- take_take. apply sublist_take. Qed.

Lemma drop_take_S log m i j :
  (i <= j)%nat -> log !! j = Some m -> drop i (take (S j) log) = drop i (take j log) ++ [m].
Proof.
  intros Hij Hm. rewrite (take_S_r _ _ _ Hm). apply drop_app_le.
  rewrite length_take. apply lookup_lt_Some in Hm. lia.
Qed.

Lemma accepted_send cap m rx s :
  sm_blocked s = None -> sm_gone s = false ->
  accepted (stream_send cap m rx s) = accepted s ++ [m].
Proof.
  intros Hb Hg. unfold stream_send, accepted. rewrite Hg, Hb. cbn [sm_delivered sm_queue sm_blocked].
  destruct (length (sm_queue s) <? cap)%nat; cbn; by rewrite ?app_nil_r, <- ?app_assoc.
Qed.

Lemma stream_send_fields cap m rx s :
  sm_gone s = false -> let s' := stream_send cap m rx s in
  sm_rx s' = rx /\ sm_opened s' = sm_opened s /\ sm_skipped s' = sm_skipped s /\
  sm_kind s' = sm_kind s /\ sm_token s' = sm_token s.
Proof. intros Hg. unfold stream_send. rewrite Hg. done. Qed.

Lemma selecting_unblocked s : selecting s = true -> sm_blocked s = None /\ sm_done s = false.
Proof. unfold selecting. by destruct (sm_done s), (sm_blocked s). Qed.

Lemma stream_recv_in cap ch s s' :
  stream_in (sent ch) s -> stream_recv cap ch s = Some s' ->
  stream_in (sent ch) s' /\ sm_token s' = sm_token s.
Proof.
  intros (H1 & H2 & H3 & H4) H. unfold stream_recv in H.
  destruct (selecting s) eqn:Hs; [|done]. apply selecting_unblocked in Hs as [Hb Hd].
  pose proof (recv_spec ch (sm_rx s) H1) as Hr.
  destruct (recv ch (sm_rx s)) as [[[m|n|] rx]|]; [| |by injection H as <-|done].
  - injection H as <-. destruct Hr as (_ & Hm & Hn). destruct (sm_gone s) eqn:Hg.
    { unfold stream_send. rewrite Hg. done. }
    destruct (stream_send_fields cap m rx s Hg) as (E1 & E2 & E3 & E4 & E5).
    split; [|done]. unfold stream_in. rewrite E1, E2, E3, E4, accepted_send, Hn, length_app by done.
    split; [apply lookup_lt_Some in Hm; lia|]. split; [cbn; lia|]. split; [|done].
    rewrite (drop_take_S _ m) by (done || lia). by apply sublist_app.
  - destruct Hr as (Hlag & Hlen & Hn). destruct (sm_kind s) eqn:Hk; injection H as <-.
    2: { split; [|done]. split; [done|]. split; [done|]. split; [done|]. intros _. by apply H4. }
    split; [|done]. unfold stream_in, stream_skip. cbn. fold (accepted s).
    split; [lia|]. split; [lia|]. split; [|by rewrite Hk].
    etrans; [exact H3|]. rewrite Hn, H2, <- !Nat.add_assoc, <- !take_drop_commute.
    by apply sublist_take_le; lia.
Qed.

Lemma stream_take_in log s s' :
  stream_in log s -> stream_take s = Some s' -> stream_in log s' /\ sm_token s' = sm_token s.
Proof.
  intros (H1 & H2 & H3 & H4) H. unfold stream_take in H. destruct (sm_gone s); [done|].
  destruct (sm_queue s ++ _) as [|m q] eqn:Hq; [done|]. injection H as <-. split; [|done].
  assert (E : forall d, d = sm_delivered s ++ [m] -> d ++ q ++ [] = accepted s).
  { intros d ->. unfold accepted. by rewrite Hq, app_nil_r, <- app_assoc. }
  unfold stream_in, accepted. cbn. by rewrite (E _ eq_refl).
Qed.

Lemma stream_cancel_in log b s s' :
  stream_in log s -> stream_cancel b s = Some s' -> stream_in log s' /\ sm_token s' = sm_token s.
Proof.
  intros H. unfold stream_cancel. destruct (_ && _); [|done]. by intros [= <-].
Qed.

(** With nothing missed, it has accepted exactly the messages up to the next. *)
Lemma accepted_all log s :
  stream_in log s -> sm_skipped s = 0%nat ->
  accepted s = drop (sm_opened s) (take (next (sm_rx s)) log).
Proof.
  intros (H1 & H2 & H3 & _) Hk. apply (sublist_all _ _ H3). rewrite length_drop, length_take. lia.
Qed.
End accounts.

(** ** The invariant *)

Section logs.
Context `{A : Alloy} {U I : Type} `{CO : !ContenderOps U I} `{BL : !BroadcastLaws B}.
Context (ws_buffer : nat).
#[local] Notation LogServer := (LogServer (U := U) (I := I)).
#[local] Notation step := (log_step ws_buffer).
#[local] Notation run := (log_run ws_buffer).
#[local] Notation reachable := (log_reachable ws_buffer).
Implicit Types (st : LogServer) (ch : Chan).

(** A line as the layer writes it for the session. *)
Definition line_of (id : Z) (m : string) : Prop :=
  exists timestamp level fields, m = format_event timestamp level fields id.

Definition stream_ok (chans : gmap nat (Z * Chan)) (s : Stream) : Prop :=
  exists id ch, chans !! sm_token s = Some (id, ch) /\ stream_in (sent ch) s.

Record log_ok st : Prop := {
  lo_keys id t : (id, t) ∈ key <$> sv_sessions (lg_server st) ->
    exists ch, lg_chans st !! t = Some (id, ch);
  lo_fresh t c : lg_chans st !! t = Some c -> (t < sv_tokens (lg_server st))%nat;
  lo_sinks id t : lg_sinks st !! id = Some t -> exists ch, lg_chans st !! t = Some (id, ch);
  lo_chans t id ch : lg_chans st !! t = Some (id, ch) ->
    capacity ch = 4096%nat /\ Forall (line_of id) (sent ch);
  lo_streams : Forall (stream_ok (lg_chans st)) (lg_streams st);
}.

(** The channels only grow. *)
Definition grows (chans chans' : gmap nat (Z * Chan)) : Prop :=
  forall t id ch, chans !! t = Some (id, ch) ->
    exists ch', chans' !! t = Some (id, ch') /\ exists l, sent ch' = sent ch ++ l.

Lemma channels_grow_refl chans : grows chans chans.
Proof. intros t id ch H. exists ch. split; [done|]. exists []. by rewrite app_nil_r. Qed.

Lemma channels_grow_fresh chans t c : chans !! t = None -> grows chans (<[t := c]> chans).
Proof.
  intros Hn t' id ch H. rewrite lookup_insert_ne by congruence. exact (channels_grow_refl _ _ _ _ H).
Qed.

Lemma channels_grow_send chans t m : grows chans (alter (fun c => (c.1, send m c.2)) t chans).
Proof.
  intros t' id ch H. destruct (decide (t = t')) as [->|Hne].
  - rewrite lookup_alter_eq, H. cbn. exists (send m ch). split; [done|].
    exists [m]. apply sent_send.
  - rewrite lookup_alter_ne by done. exact (channels_grow_refl _ _ _ _ H).
Qed.

Lemma streams_grow chans chans' l :
  grows chans chans' -> Forall (stream_ok chans) l -> Forall (stream_ok chans') l.
Proof.
  intros Hg Hf. apply (Forall_impl _ _ _ Hf). intros s (id & ch & H & Hin).
  destruct (Hg _ _ _ H) as (ch' & H' & k & E). exists id, ch'. split; [done|].
  rewrite E. by apply stream_in_app.
Qed.

(** A step of the sessions that touches neither channels nor sinks, except to
    take a sink off. *)
Lemma ok_handle st sv sinks (a : Action) r :
  log_ok st -> keys_step (lg_server st) a r sv -> (forall k, ~ added (lg_server st) a r k) ->
  sinks ⊆ lg_sinks st ->
  log_ok {| lg_server := sv; lg_sinks := sinks; lg_chans := lg_chans st;
            lg_streams := lg_streams st |}.
Proof.
  intros [H1 H2 H3 H4 H5] (Ht & _ & Hk) Hn Hs. constructor; cbn.
  - intros id t H. apply H1. destruct (Hk _ H) as [|Hadd]; [done|]. by destruct (Hn _ Hadd).
  - intros t c H. specialize (H2 t c H). lia.
  - intros id t H. apply H3. exact (lookup_weaken _ _ _ _ H Hs).
  - exact H4.
  - exact H5.
Qed.

Lemma ok_add st sv sinks (a : Action) info :
  log_ok st -> keys_step (lg_server st) a (Ok (Session info)) sv ->
  (forall k, added (lg_server st) a (Ok (Session info)) k <->
     k = (si_id info, sv_tokens (lg_server st))) ->
  (forall id t, sinks !! id = Some t ->
     lg_sinks st !! id = Some t \/ id = si_id info /\ t = sv_tokens (lg_server st)) ->
  log_ok {| lg_server := sv; lg_sinks := sinks;
            lg_chans := <[sv_tokens (lg_server st) := (si_id info, channel 4096)]> (lg_chans st);
            lg_streams := lg_streams st |}.
Proof.
  intros [H1 H2 H3 H4 H5] (_ & Ht & Hk) Hadd Hs. specialize (Ht _ (proj2 (Hadd _) eq_refl)).
  assert (Hfresh : lg_chans st !! sv_tokens (lg_server st) = None).
  { destruct (lg_chans st !! _) as [c|] eqn:Hc; [|done]. specialize (H2 _ _ Hc). lia. }
  pose proof (channels_grow_fresh _ _ (si_id info, channel 4096) Hfresh) as Hg.
  assert (Hold : forall id t, (exists ch, lg_chans st !! t = Some (id, ch)) ->
    exists ch, <[sv_tokens (lg_server st) := (si_id info, channel 4096)]> (lg_chans st) !! t
               = Some (id, ch)).
  { intros id t (ch & H). destruct (Hg _ _ _ H) as (ch' & H' & _). by exists ch'. }
  constructor; cbn.
  - intros id t H. destruct (Hk _ H) as [H'|Ha]; [by apply Hold, H1|].
    apply Hadd in Ha as [= -> ->]. rewrite lookup_insert_eq. by eexists.
  - intros t c. rewrite lookup_insert_Some. intros [[<- _]|[_ H]]; [lia|].
    specialize (H2 _ _ H). lia.
  - intros id t [H| [-> ->]]%Hs; [by apply Hold, H3|]. rewrite lookup_insert_eq. by eexists.
  - intros t id ch. rewrite lookup_insert_Some. intros [[_ [= <- <-]]|[_ H]]; [|by eapply H4].
    destruct (sent_channel 4096) as [-> ->]. by split.
  - by apply (streams_grow _ _ _ Hg).
Qed.

Lemma ok_call st a st' r : log_ok st -> log_call a st = Some (st', r) -> log_ok st'.
Proof.
  intros Hok H. unfold log_call in H. destruct (handle _ a) as [[sv r']|] eqn:Hh; [|done].
  cbn in H. injection H as <- <-. pose proof (handle_keys _ _ _ _ Hh) as Hk. destruct a.
  1: { destruct r' as [[info| | | | |]|e|]; try (apply (ok_handle _ _ _ _ _ Hok Hk); [by intros k []|done]).
       apply (ok_add _ _ _ _ _ Hok Hk); [by intros k|]. intros id t.
       destruct sinks_locked; [by left|]. rewrite lookup_insert_Some. intuition. }
  all: apply (ok_handle _ _ _ _ _ Hok Hk); [by intros k []|]; try done.
  destruct sinks_locked; [done|apply delete_subseteq].
Qed.

Lemma ok_event st locked tc timestamp level fields :
  log_ok st -> log_ok (on_event locked tc timestamp level fields st).
Proof.
  intros Hok. unfold on_event. destruct (event_session tc) as [id|]; [|done].
  destruct locked; [done|]. destruct (lg_sinks st !! id) as [t|] eqn:Ht; [|done].
  destruct Hok as [H1 H2 H3 H4 H5]. destruct (H3 _ _ Ht) as (ch & Hch).
  set (m := format_event _ _ _ _). pose proof (channels_grow_send (lg_chans st) t m) as Hg.
  assert (Hold : forall i u, (exists c, lg_chans st !! u = Some (i, c)) ->
    exists c, alter (fun c => (c.1, send m c.2)) t (lg_chans st) !! u = Some (i, c)).
  { intros i u (c & H). destruct (Hg _ _ _ H) as (c' & H' & _). by exists c'. }
  constructor; cbn [lg_server lg_sinks lg_chans lg_streams].
  - intros i u H. by apply Hold, H1.
  - intros u c. rewrite lookup_alter_Some. intros [(_ & d & H & _)|[_ H]]; by eapply H2.
  - intros i u H. by apply Hold, H3.
  - intros u i c. rewrite lookup_alter_Some. intros [(<- & d & Hd & E)|[_ H]]; [|by eapply H4].
    rewrite Hch in Hd. injection Hd as <-. injection E as -> ->. destruct (H4 _ _ _ Hch) as [Hc Hf].
    destruct (sent_send m ch) as [-> ->]. split; [done|]. apply Forall_app. split; [done|].
    apply Forall_singleton. by exists timestamp, level, fields.
  - by apply (streams_grow _ _ _ Hg).
Qed.

Lemma ok_streams st l :
  log_ok st -> Forall (stream_ok (lg_chans st)) l ->
  log_ok {| lg_server := lg_server st; lg_sinks := lg_sinks st; lg_chans := lg_chans st;
            lg_streams := l |}.
Proof. intros [] Hl. by constructor. Qed.

Lemma ok_open st kind id st' r :
  log_ok st -> open_stream kind id st = Some (st', r) -> log_ok st'.
Proof.
  intros Hok H. unfold open_stream in H.
  destruct (get_session _ id) as [s|]; [|by injection H as <- <-].
  destruct (lg_chans st !! se_cancel s) as [[i ch]|] eqn:Hc; [|done]. injection H as <- <-.
  apply ok_streams; [done|]. apply Forall_app. split; [apply Hok|]. apply Forall_singleton.
  exists i, ch. split; [done|apply stream_in_new].
Qed.

(** A step of a subscriber: what it does keeps its accounts with its channel. *)
Lemma ok_stream_step st k f st' r :
  log_ok st -> stream_step k f st = Some (st', r) ->
  (forall s s' id ch, lg_chans st !! sm_token s = Some (id, ch) -> stream_in (sent ch) s ->
     f s = Some s' -> stream_in (sent ch) s' /\ sm_token s' = sm_token s) ->
  log_ok st'.
Proof.
  intros Hok H Hf. unfold stream_step in H.
  destruct (lg_streams st !! k) as [s|] eqn:Hs; [|done]. cbn in H.
  destruct (f s) as [s'|] eqn:E; [|done]. injection H as <- <-. apply ok_streams; [done|].
  apply Forall_insert; [apply Hok|].
  destruct (proj1 (Forall_lookup _ _) (lo_streams _ Hok) _ _ Hs) as (id & ch & Hc & Hin).
  destruct (Hf _ _ _ _ Hc Hin E) as [Hin' Ht]. exists id, ch. by rewrite Ht.
Qed.

Lemma ok_step st a st' r : log_ok st -> step st a = Some (st', r) -> log_ok st'.
Proof.
  intros Hok H. destruct a; cbn [log_step] in H.
  - by apply (ok_call _ _ _ _ Hok H).
  - injection H as <- <-. by apply ok_event.
  - by apply (ok_open _ _ _ _ _ Hok H).
  - apply (ok_stream_step _ _ _ _ _ Hok H). intros s s' i ch Hc Hin E. rewrite Hc in E.
    by apply (stream_recv_in _ _ _ _ Hin E).
  - apply (ok_stream_step _ _ _ _ _ Hok H). intros s s' i ch _ Hin E.
    by apply (stream_cancel_in _ _ _ _ Hin E).
  - apply (ok_stream_step _ _ _ _ _ Hok H). intros s s' i ch _ Hin E.
    by apply (stream_take_in _ _ _ Hin E).
  - apply (ok_stream_step _ _ _ _ _ Hok H). intros s s' i ch _ Hin [= <-]. by split.
Qed.

Lemma ok_new : log_ok LogServer_new.
Proof.
  constructor; cbn; [by intros i t H%elem_of_nil| | | |constructor];
    intros *; by rewrite lookup_empty.
Qed.

Lemma reachable_ok st : reachable st -> log_ok st.
Proof. induction 1; [apply ok_new|by eapply ok_step]. Qed.

(** C23: a subscriber's client is only given lines of its session, in the
    order in which they were logged, each at most once, and none logged before
    it subscribed; the subscriber knows how many lines it has missed, a
    websocket's client never misses one in between, and a client that has missed
    none has, with what waits for it, the lines up to the next one to come. *)
Theorem stream_delivers st k s (Hr : reachable st) (Hs : lg_streams st !! k = Some s) :
  exists id ch, lg_chans st !! sm_token s = Some (id, ch) /\
    Forall (line_of id) (accepted s) /\
    accepted s `sublist_of` drop (sm_opened s) (sent ch) /\
    next (sm_rx s) = (sm_opened s + length (accepted s) + sm_skipped s)%nat /\
    (sm_kind s = Ws -> sm_skipped s = 0%nat) /\
    (sm_skipped s = 0%nat ->
       accepted s = take (length (accepted s)) (drop (sm_opened s) (sent ch))).
Proof.
  apply reachable_ok in Hr as Hok.
  destruct (proj1 (Forall_lookup _ _) (lo_streams _ Hok) _ _ Hs) as (id & ch & Hc & Hin).
  destruct (lo_chans _ Hok _ _ _ Hc) as [_ Hlines]. exists id, ch. split; [done|].
  pose proof Hin as (H1 & H2 & H3 & H4).
  assert (Hsub : accepted s `sublist_of` drop (sm_opened s) (sent ch)).
  { etrans; [exact H3|]. rewrite H2, <- Nat.add_assoc, <- take_drop_commute. apply sublist_take. }
  split_and!; [|done..|].
  - apply Forall_forall. intros m Hm. apply (proj1 (Forall_forall _ _) Hlines).
    pose proof (elem_of_sublist _ _ _ Hm Hsub). eapply elem_of_sublist; [done|apply sublist_drop].
  - intros H0. rewrite (accepted_all _ _ Hin H0) at 1. rewrite H2, H0, Nat.add_0_r.
    by rewrite <- take_drop_commute.
Qed.

(** ** Routing *)

(** A line goes to the channel of its session only; and nothing is sent for an
    event of no session, or of one without a sink, or while the sinks are being
    written. *)
Lemma event_routed st locked tc timestamp level fields :
  log_ok st ->
  let st' := on_event locked tc timestamp level fields st in
  match event_session tc ≫= fun id => if locked then None else pair id <$> lg_sinks st !! id with
  | Some (id, t) => exists ch,
      lg_chans st !! t = Some (id, ch) /\
      lg_chans st' =
        <[t := (id, send (format_event timestamp level fields id) ch)]> (lg_chans st)
  | None => st' = st
  end.
Proof.
  intros Hok. unfold on_event. destruct (event_session tc) as [id|]; cbn; [|done].
  destruct locked; [done|]. destruct (lg_sinks st !! id) as [t|] eqn:Ht; cbn; [|done].
  destruct (lo_sinks _ Hok _ _ Ht) as (ch & Hch). exists ch. split; [done|].
  apply map_eq. intros u. destruct (decide (t = u)) as [<-|Hne].
  - by rewrite lookup_alter_eq, lookup_insert_eq, Hch.
  - by rewrite lookup_alter_ne, lookup_insert_ne.
Qed.

(** A channel that is no sink. *)
Definition off_sinks t st : Prop := forall id, lg_sinks st !! id <> Some t.

Lemma off_sinks_streams st k f st' r t c :
  lg_chans st !! t = Some c -> off_sinks t st -> stream_step k f st = Some (st', r) ->
  lg_chans st' !! t = Some c /\ off_sinks t st'.
Proof.
  intros Hc Ht H. unfold stream_step in H. destruct (lg_streams st !! k) as [s|]; [|done].
  cbn in H. destruct (f s); [|done]. by injection H as <- <-.
Qed.

Lemma off_sinks_step st a st' r t c :
  log_ok st -> lg_chans st !! t = Some c -> off_sinks t st -> step st a = Some (st', r) ->
  lg_chans st' !! t = Some c /\ off_sinks t st'.
Proof.
  intros Hok Hc Ht H. pose proof (lo_fresh _ Hok _ _ Hc) as Hlt. destruct a; cbn [log_step] in H.
  - unfold log_call in H. destruct (handle _ a) as [[sv r']|]; [|done]. cbn in H.
    injection H as <- <-. destruct a; try done.
    + destruct r' as [[info| | | | |]|e|]; try done.
      split; cbn; [by rewrite lookup_insert_ne by lia|]. intros i. cbn.
      destruct sinks_locked; [apply Ht|]. rewrite lookup_insert_Some.
      intros [[_ [= E]]|[_ E]]; [lia|by apply Ht in E].
    + split; [done|]. intros i. cbn. destruct sinks_locked; [apply Ht|].
      rewrite lookup_delete_Some. intros [_ E]. by apply Ht in E.
  - injection H as <- <-. unfold on_event. destruct (event_session tc) as [id|]; [|done].
    destruct sinks_locked; [done|]. destruct (lg_sinks st !! id) as [u|] eqn:Hu; [|done].
    split; cbn; [|done]. rewrite lookup_alter_ne; [done|]. intros ->. by apply Ht in Hu.
  - unfold open_stream in H. destruct (get_session _ id); [|by injection H as <- <-].
    destruct (lg_chans st !! se_cancel _); [|done]. by injection H as <- <-.
  - exact (off_sinks_streams _ _ _ _ _ _ _ Hc Ht H).
  - exact (off_sinks_streams _ _ _ _ _ _ _ Hc Ht H).
  - exact (off_sinks_streams _ _ _ _ _ _ _ Hc Ht H).
  - exact (off_sinks_streams _ _ _ _ _ _ _ Hc Ht H).
Qed.

(** C39: a session that is added while the sinks are locked never has a log:
    whatever is logged and done afterwards, nothing is sent on its channel. *)
Theorem unrouted_session_silent st name url draws made st0 info acts st'
    (Hr : log_reachable ws_buffer st)
    (Ha : log_step ws_buffer st (Call (AddSession name url draws made true)) =
          Some (st0, Replied (Ok (Session info))))
    (H : log_run ws_buffer st0 acts = Some st') :
  exists ch, lg_chans st' !! sv_tokens (lg_server st) = Some (si_id info, ch) /\ sent ch = [].
Proof.
  apply reachable_ok in Hr as Hok. pose proof (ok_step _ _ _ _ Hok Ha) as Hok0.
  cbn [log_step] in Ha. unfold log_call in Ha.
  destruct (handle _ _) as [[sv r]|]; [|done]. cbn in Ha. injection Ha as <- ->.
  exists (channel 4096). split; [|apply sent_channel].
  set (t := sv_tokens (lg_server st)) in *. revert H Hok0.
  set (w := {| lg_server := sv |}).
  assert (Hc : lg_chans w !! t = Some (si_id info, channel 4096)) by apply lookup_insert_eq.
  assert (Ht : off_sinks t w).
  { intros id E. destruct (lo_sinks _ Hok _ _ E) as (ch & E').
    apply (lo_fresh _ Hok) in E'. unfold t in E'. lia. }
  revert Hc Ht. clearbody w t. clear -BL. revert w.
  induction acts as [|a acts IH]; intros w Hc Ht H Hok; cbn [log_run] in H; [by injection H as <-|].
  destruct (log_step _ w a) as [[w' r]|] eqn:Hs; [|done].
  destruct (off_sinks_step _ _ _ _ _ _ Hok Hc Ht Hs) as [Hc' Ht'].
  apply (IH w'); [done|done|done|by eapply ok_step].
Qed.

(** ** Delivery *)

(** The subscriber alone: it receives, or its client takes. *)
Inductive pump (cap : nat) ch : Stream -> Stream -> Prop :=
| pump_recv s s' : stream_recv cap ch s = Some s' -> pump cap ch s s'
| pump_take s s' : stream_take s = Some s' -> pump cap ch s s'.

Definition alive (s : Stream) : Prop := sm_done s = false /\ sm_gone s = false.

(** The client takes all that waits. *)
Lemma pump_empty cap ch s :
  alive s -> exists s', rtc (pump cap ch) s s' /\ alive s' /\ sm_delivered s' = accepted s /\
    accepted s' = accepted s /\ sm_queue s' = [] /\ sm_blocked s' = None /\ sm_rx s' = sm_rx s.
Proof.
  remember (length (sm_queue s ++ option_list (sm_blocked s))) as n eqn:Hn. revert s Hn.
  induction n as [|n IH]; intros s Hn [Hd Hg].
  - symmetry in Hn. apply length_zero_iff_nil, app_nil in Hn as [Hq Hb]. exists s.
    unfold accepted. rewrite Hq, Hb. destruct (sm_blocked s); [done|]. rewrite !app_nil_r.
    by split_and!; [apply rtc_refl|..].
  - destruct (stream_take s) as [s1|] eqn:Ht.
    2: { unfold stream_take in Ht. rewrite Hg in Ht. by destruct (sm_queue s ++ _). }
    assert (E : (sm_queue s1 ++ option_list (sm_blocked s1)) =
                tail (sm_queue s ++ option_list (sm_blocked s)) /\ alive s1 /\
                accepted s1 = accepted s /\ sm_rx s1 = sm_rx s).
    { unfold stream_take in Ht. rewrite Hg in Ht. unfold accepted.
      destruct (sm_queue s ++ _) as [|m q]; [done|]. injection Ht as <-. cbn.
      by rewrite app_nil_r, <- app_assoc. }
    destruct E as (E1 & E2 & E3 & E4). destruct (IH s1) as (s' & Hp & Ha & D & Ac & Q & Bk & R).
    + rewrite E1. destruct (sm_queue s ++ _); [done|]. by injection Hn.
    + done.
    + exists s'. rewrite D, Ac, R, E3, E4. split; [|done]. eapply rtc_l; [by apply pump_take|done].
Qed.

Lemma pump_all cap ch n s :
  alive s -> length (sent ch) = (next (sm_rx s) + n)%nat ->
  (length (sent ch) <= next (sm_rx s) + capacity ch)%nat ->
  exists s', rtc (pump cap ch) s s' /\
    sm_delivered s' = accepted s ++ drop (next (sm_rx s)) (sent ch).
Proof.
  revert s. induction n as [|n IH]; intros s Ha Hn Hcap;
    destruct (pump_empty cap ch s Ha) as (s1 & H1 & Ha1 & D1 & A1 & Q1 & B1 & R1).
  { exists s1. split; [done|]. rewrite D1, drop_ge, app_nil_r; [done|lia]. }
  pose proof (recv_spec ch (sm_rx s) ltac:(lia)) as Hr. rewrite <- R1 in Hr.
  destruct (recv ch (sm_rx s1)) as [[[m|k|] rx]|] eqn:E; rewrite R1 in Hr; [|lia..].
  destruct Hr as (_ & Hm & Hx). destruct Ha1 as [Hd Hg].
  assert (Hs2 : stream_recv cap ch s1 = Some (stream_send cap m rx s1)).
  { unfold stream_recv, selecting. by rewrite Hd, B1, E. }
  destruct (stream_send_fields cap m rx s1 Hg) as (X1 & _).
  destruct (IH (stream_send cap m rx s1)) as (s' & Hp & D).
  - unfold alive, stream_send. by rewrite Hg.
  - rewrite X1, Hx. lia.
  - rewrite X1, Hx. lia.
  - exists s'. split; [etrans; [exact H1|]; eapply rtc_l; [by apply pump_recv|done]|].
    rewrite D, X1, Hx, accepted_send, A1, <- app_assoc, (drop_S _ m _ Hm) by done. done.
Qed.

Lemma pump_run st k s s' id ch :
  lg_streams st !! k = Some s -> lg_chans st !! sm_token s = Some (id, ch) ->
  rtc (pump (buffer ws_buffer (sm_kind s)) ch) s s' ->
  exists acts st', Forall (fun a => a = Receive k \/ a = Take k) acts /\
    run st acts = Some st' /\ lg_streams st' !! k = Some s'.
Proof.
  intros Hs Hc Hp. revert st Hs Hc. remember (buffer ws_buffer (sm_kind s)) as cap eqn:Hcap.
  revert Hcap. induction Hp as [s|s s1 s2 Hp _ IH]; intros -> st Hs Hc.
  { exists [], st. by split_and!; [constructor|..]. }
  assert (Hsame : sm_kind s1 = sm_kind s /\ sm_token s1 = sm_token s).
  { clear -Hp. destruct Hp as [u u' H|u u' H].
    - unfold stream_recv in H. destruct (selecting u); [|done].
      destruct (recv ch _) as [[[m|n|] rx]|]; [..|done].
      + injection H as <-. unfold stream_send. by destruct (sm_gone u).
      + injection H as <-. by destruct (sm_kind u) eqn:E; cbn; rewrite ?E.
      + by injection H as <-.
    - unfold stream_take in H. destruct (sm_gone u); [done|].
      destruct (sm_queue u ++ _); [done|]. by injection H as <-. }
  destruct Hsame as [Hk Ht].
  set (w := {| lg_server := lg_server st; lg_sinks := lg_sinks st; lg_chans := lg_chans st;
               lg_streams := <[k := s1]> (lg_streams st) |}).
  destruct (IH ltac:(by rewrite Hk) w) as (acts & st' & Hf & Hr & Hl).
  - cbn. rewrite list_lookup_insert_eq; [done|]. by eapply lookup_lt_Some.
  - cbn. by rewrite Ht.
  - assert (E : exists a, (a = Receive k \/ a = Take k) /\ step st a = Some (w, Quiet)).
    { inversion Hp as [u u' H|u u' H]; subst u u'; [exists (Receive k)|exists (Take k)]; (split; [tauto|]);
        cbn [log_step]; unfold stream_step; rewrite Hs; cbn; rewrite ?Hc; cbn; by rewrite H. }
    destruct E as (a & Ha & E). exists (a :: acts), st'. split; [by constructor|].
    cbn [log_run]. by rewrite E.
Qed.

(** C24: as long as a subscriber goes on and its client takes what it is given,
    the client gets everything: unless it has fallen behind by more than the
    channel retains, there is a run of its own steps after which it has what
    it had accepted followed by every line since. *)
Theorem stream_drains st k s (Hr : reachable st) (Hs : lg_streams st !! k = Some s)
    (Hd : sm_done s = false) (Hg : sm_gone s = false)
    (Hlag : forall id ch, lg_chans st !! sm_token s = Some (id, ch) ->
       (length (sent ch) <= next (sm_rx s) + 4096)%nat) :
  exists acts st' s' id ch, Forall (fun a => a = Receive k \/ a = Take k) acts /\
    run st acts = Some st' /\ lg_streams st' !! k = Some s' /\
    lg_chans st !! sm_token s = Some (id, ch) /\
    sm_delivered s' = accepted s ++ drop (next (sm_rx s)) (sent ch).
Proof.
  apply reachable_ok in Hr as Hok.
  destruct (proj1 (Forall_lookup _ _) (lo_streams _ Hok) _ _ Hs) as (id & ch & Hc & Hin & _).
  destruct (lo_chans _ Hok _ _ _ Hc) as [Hcap _].
  destruct (pump_all (buffer ws_buffer (sm_kind s)) ch (length (sent ch) - next (sm_rx s)) s)
    as (s' & Hp & D); [done|lia|rewrite Hcap; by apply (Hlag id)|].
  destruct (pump_run _ _ _ _ _ _ Hs Hc Hp) as (acts & st' & Hf & Hrun & Hl).
  by exists acts, st', s', id, ch.
Qed.

(** ** Removal *)

(** The subscribers of a removed session: one at its [select!] can end; one that
    waits for room for its client, without regard for the removal, can do
    nothing until the client takes a line or goes. *)
Theorem removal_ends_stream st id locked session st' r k s
    (Hses : get_session (sv_sessions (lg_server st)) id = Some session)
    (Hstep : step st (Call (RemoveSession id locked)) = Some (st', r))
    (Hs : lg_streams st !! k = Some s) (Ht : sm_token s = se_cancel session)
    (Hd : sm_done s = false) :
  match sm_blocked s with
  | None => exists st'', step st' (Cancelled k) = Some (st'', Quiet) /\
      lg_streams st'' !! k = Some (set_done s)
  | Some _ => step st' (Cancelled k) = None /\ step st' (Receive k) = None
  end.
Proof.
  cbn [log_step] in Hstep. unfold log_call in Hstep. cbn in Hstep. injection Hstep as <- <-.
  set (w := remove_session id locked (lg_server st)).
  assert (Hc : se_cancel session ∈ sv_cancelled w).
  { unfold w, remove_session. rewrite Hses. unfold session_tokens.
    destruct locked, (se_spam_cancel session); cbn; set_solver. }
  destruct (sm_blocked s) eqn:Hb.
  - split; cbn [log_step]; unfold stream_step; cbn; rewrite Hs; cbn;
      unfold stream_cancel, stream_recv, selecting; rewrite Hb, andb_false_r; [done|].
    by destruct (lg_chans st !! _).
  - cbn [log_step]. unfold stream_step. cbn. rewrite Hs. cbn.
    unfold stream_cancel, selecting. rewrite Hb, Hd, Ht, bool_decide_true by done. cbn.
    eexists. split; [done|]. cbn. apply list_lookup_insert_eq. by eapply lookup_lt_Some.
Qed.
End logs.

(** ** Tasks *)

(** What a spawned task logs goes to the session it was spawned for. *)
Lemma spawn_keeps_session tc id :
  tc_session tc = Some id -> 0 <= id < 2 ^ 64 ->
  (forall span, span ∈ tc_scope tc -> starts_with "session" (sp_name span) = true ->
     sp_session span = Some id) ->
  event_session (spawn_with_session tc) = Some id.
Proof.
  intros Hs Hid Hspans. unfold spawn_with_session. rewrite Hs.
  destruct (match tc_scope tc with [] => _ | _ => _ end) eqn:Hb.
  - destruct (tc_scope tc) as [|span scope] eqn:E; [done|]. unfold event_session. rewrite E. cbn.
    rewrite Hb, (Hspans span (list_elem_of_here _ _) Hb). done.
  - unfold event_session. cbn. unfold wrap. by rewrite Z.mod_small.
Qed.

(** The websocket client asks for a method the server does not have. *)
Lemma log_client_unknown : ~ In log_client_method ContenderRpc.
Proof. cbn. intuition discriminate. Qed.

(** ** Witnesses *)

Module LogStreamWitness.
Export SessionsWitness.

(** The messages sent, and the capacity; a receiver is the number of the
    message it gets next. *)
Definition toy_recv (c : list string * nat) (rx : nat) : option (Recv * nat) :=
  if (rx + c.2 <? length c.1)%nat
  then Some (Lagged (length c.1 - c.2 - rx), (length c.1 - c.2)%nat)
  else match c.1 !! rx with Some m => Some (Message m, S rx) | None => None end.
#[export] Instance toy_broadcast : Broadcast := {|
  Chan := list string * nat; Rx := nat; channel n := ([], n); send m c := (c.1 ++ [m], c.2);
  subscribe c := length c.1; recv := toy_recv; sent c := c.1; capacity c := c.2; next rx := rx |}.

Lemma toy_recv_spec (c : list string * nat) (rx : nat) : (rx <= length c.1)%nat ->
  match toy_recv c rx with
  | None => rx = length c.1
  | Some (Message m, rx') => (length c.1 <= rx + c.2)%nat /\ c.1 !! rx = Some m /\ rx' = S rx
  | Some (Lagged n, rx') =>
      (rx + c.2 < length c.1)%nat /\ (n + rx + c.2)%nat = length c.1 /\ rx' = (rx + n)%nat
  | Some (Closed, _) => rx = length c.1
  end.
Proof.
  intros H. unfold toy_recv. destruct (Nat.ltb_spec (rx + c.2) (length c.1)); [lia|].
  destruct (c.1 !! rx) as [m|] eqn:Hm; [done|]. apply lookup_ge_None in Hm. lia.
Qed.
#[export] Instance toy_broadcast_laws : BroadcastLaws toy_broadcast.
Proof. constructor; [done|done|done|exact toy_recv_spec]. Qed.

Definition in_session (id : Z) : TaskContext :=
  {| tc_scope := [on_new_span "session_spam" [("id", U64 id)]]; tc_session := Some id |}.
Definition say (id : Z) (m : string) : LogAction (U := nat) (I := nat) :=
  LogEvent false (in_session id) "12:00" "INFO" [("message", Other m)].

(** A websocket without a buffer. *)
Notation steps := (log_run (U := nat) (I := nat) 0).
Definition logs_after (acts : list (LogAction (U := nat) (I := nat))) : LogServer (U := nat) (I := nat) :=
  default LogServer_new (steps LogServer_new acts).

Lemma log_run_reachable st acts st' :
  log_reachable 0 st -> steps st acts = Some st' -> log_reachable 0 st'.
Proof.
  revert st. induction acts as [|a acts IH]; intros st Hs H; cbn [log_run] in H.
  { by injection H as <-. }
  destruct (log_step 0 st a) as [[w r]|] eqn:Hw; [|done].
  apply (IH w); [|done]. by eapply log_steps.
Qed.

Lemma logs_after_reachable acts : log_reachable 0 (logs_after acts).
Proof.
  unfold logs_after. destruct (steps LogServer_new acts) as [st|] eqn:H; [|apply log_new].
  eapply log_run_reachable; [apply log_new|exact H].
Qed.

Definition is_Some_b {X} (o : option X) : bool := match o with Some _ => true | None => false end.

(** Two sessions, and a subscriber to the first after its first line. *)
Definition opened (kind : StreamKind) : list (LogAction (U := nat) (I := nat)) :=
  [Call (add [7]); Call (add [8]); say 7 "zero"; Open kind 7; say 7 "one"; say 8 "other"; say 7 "two"].
Definition the_stream (acts : list (LogAction (U := nat) (I := nat))) : Stream :=
  default (stream_new Sse 0 (channel 0)) (lg_streams (logs_after acts) !! 0%nat).

Lemma stream_delivers_witness :
  let s := the_stream (opened Sse ++ [Receive 0; Take 0; Receive 0]) in
  sm_delivered s = ["12:00 INFO session[7]: one"%string] /\
  sm_queue s = ["12:00 INFO session[7]: two"%string] /\
  next (sm_rx s) = 3%nat.
Proof.
  set (acts := opened Sse ++ [Receive 0; Take 0; Receive 0]). intros s.
  destruct (stream_delivers 0 (logs_after acts) 0 s (logs_after_reachable acts)) as
    (id & ch & _ & _ & _ & Hn & _).
  - vm_compute. reflexivity.
  - split; [vm_compute; reflexivity|]. split; [vm_compute; reflexivity|].
    rewrite Hn. vm_compute. reflexivity.
Defined.

Lemma unrouted_session_silent_witness :
  let locked := Call (AddSession "a" "http" [7] (fun _ => Ok 1%nat) true) in
  exists ch, lg_chans (logs_after [locked; say 7 "one"; say 7 "two"]) !! 0%nat = Some (7, ch) /\
    sent ch = [].
Proof.
  intros locked.
  assert (E : snd <$> log_step 0 LogServer_new locked = Some (Replied (Ok (Session
    {| si_id := 7; si_name := "a"; si_rpc_url := "http"; si_status := Initializing |}))))
    by (vm_compute; reflexivity).
  assert (Hrun : is_Some_b (steps LogServer_new [locked; say 7 "one"; say 7 "two"]) = true)
    by (vm_compute; reflexivity).
  unfold logs_after. cbn [log_run] in Hrun |- *.
  destruct (log_step 0 LogServer_new locked) as [[st0 r0]|] eqn:H0; [|discriminate E].
  injection E as ->. cbn [mbind option_bind] in Hrun |- *.
  destruct (steps st0 [say 7 "one"; say 7 "two"]) as [st'|] eqn:H1;
    cbn [log_run] in H1; rewrite H1 in Hrun |- *; [|discriminate Hrun].
  exact (unrouted_session_silent 0 LogServer_new "a" "http" [7] (fun _ => Ok 1%nat) st0 _
    [say 7 "one"; say 7 "two"] st' (log_new 0) H0 H1).
Defined.

Lemma stream_drains_witness :
  exists acts st' s', steps (logs_after (opened Ws)) acts = Some st' /\
    lg_streams st' !! 0%nat = Some s' /\
    sm_delivered s' = ["12:00 INFO session[7]: one"; "12:00 INFO session[7]: two"]%string.
Proof.
  destruct (stream_drains 0 (logs_after (opened Ws)) 0 (the_stream (opened Ws))
    (logs_after_reachable _)) as (acts & st' & s' & id & ch & _ & Hr & Hs & Hc & Hd).
  - vm_compute. reflexivity.
  - vm_compute. reflexivity.
  - vm_compute. reflexivity.
  - intros id ch H. vm_compute in H. injection H as <- <-. cbn. lia.
  - exists acts, st', s'. split; [exact Hr|]. split; [exact Hs|]. rewrite Hd.
    vm_compute in Hc. injection Hc as <- <-. vm_compute. reflexivity.
Defined.

(** A websocket whose client does not read: its subscriber waits for room, and
    the removal of the session does not end it. *)
Definition stalled : LogServer (U := nat) (I := nat) := logs_after (opened Ws ++ [Receive 0]).

Lemma removal_ends_stream_witness :
  exists st' r, log_step 0 stalled (Call (RemoveSession 7 false)) = Some (st', r) /\
    log_step 0 st' (Cancelled 0) = None /\ log_step 0 st' (Receive 0) = None.
Proof.
  destruct (log_step 0 stalled (Call (RemoveSession 7 false))) as [[st' r]|] eqn:H; [|discriminate H].
  exists st', r. split; [reflexivity|].
  destruct (lg_streams stalled !! 0%nat) as [s|] eqn:Hs; [|vm_compute in Hs; discriminate Hs].
  assert (Es : (fun s => (sm_token s, sm_done s, sm_blocked s)) <$> lg_streams stalled !! 0%nat =
    Some (0%nat, false, Some "12:00 INFO session[7]: one"%string)) by (vm_compute; reflexivity).
  rewrite Hs in Es. injection Es as Et Ed Eb.
  assert (Ek : se_cancel <$> get_session (sv_sessions (lg_server stalled)) 7 = Some 0%nat)
    by (vm_compute; reflexivity).
  destruct (get_session (sv_sessions (lg_server stalled)) 7) as [session|] eqn:Hses;
    [|discriminate Ek].
  injection Ek as Ek.
  pose proof (removal_ends_stream 0 stalled 7 false session st' r 0 s Hses H Hs) as Hend.
  rewrite Eb, Et, Ek in Hend. exact (Hend eq_refl Ed).
Defined.

(** A reader that falls behind: the websocket's subscriber ends, the SSE one
    counts what it missed. *)
Definition behind : list string * nat := (["a"; "b"; "c"]%string, 2%nat).
Example ws_ends_on_lag :
  sm_done <$> stream_recv 8 behind (stream_new Ws 0 ([], 2%nat)) = Some true.
Proof. reflexivity. Qed.
Example sse_goes_on :
  (fun s => (sm_skipped s, sm_done s)) <$> stream_recv 8 behind (stream_new Sse 0 ([], 2%nat)) =
  Some (1%nat, false).
Proof. reflexivity. Qed.

(** A session span whose id is not recorded as an integer stands for session 0. *)
Example id_not_integer :
  event_session {| tc_scope := [on_new_span "session_x" [("id", Other "7"%string)]];
                   tc_session := Some 7 |} = Some 0.
Proof. reflexivity. Qed.
End LogStreamWitness.
