(* ===== verification/SessionRuns.v ===== *)
(** * The runs of the sessions, however requests interleave

    What holds of the server of [Sessions] in every state it gets into
    ([reachable]): a contender is held by one session or one task.  What goes
    wrong when two calls of [spam] overlap, and what holds as long as they do
    not ([serial]): the token of a session is its run's, so that [stop] reaches
    it, and a session that is ready can spam. *)

From Stdlib Require Import Strings.Byte Strings.String.
From S2P Require Import Prelude Text Seeder Alloy Agents F64 Db GenTypes GenUtil CoreError Templater TestFile Generator TxActor Scenario Spam SpamRun Orchestrator ServerTypes Sessions.

Section props.
Context `{A : Alloy} {U I : Type} `{CO : !ContenderOps U I}.
Implicit Types (s : ContenderSession (U := U) (I := I)) (sv : Server (U := U) (I := I)).
Implicit Types (l : list (ContenderSession (U := U) (I := I))) (t : Task (U := U) (I := I)).

(** ** Who holds a contender *)

Definition session_owns (id : Z) s : nat :=
  if se_id s =? id then match se_contender s with Some _ => 1 | None => 0 end else 0.
Definition task_owns (id : Z) t : nat :=
  match t with
  | InitTask i (Some _) | SpamTask i _ _ => if i =? id then 1 else 0
  | _ => 0
  end.
Definition owners sv (id : Z) : nat :=
  sum_list_with (session_owns id) (sv_sessions sv) + sum_list_with (task_owns id) (sv_tasks sv).

Definition task_id t : Z :=
  match t with
  | InitTask id _ | SpamTask id _ _ | FundTask id => id
  | SpamCall params => sp_session_id params
  end.

(** A new session gets an id that no task of a removed session still has. *)
Definition fresh_id sv (a : Action (U := U) (I := I)) : Prop :=
  match a with
  | AddSession _ _ draws _ _ =>
      forall id, gen_id (sv_sessions sv) draws = Some id ->
        Forall (fun t => task_id t <> id) (sv_tasks sv)
  | _ => True
  end.

Inductive reachable : Server (U := U) (I := I) -> Prop :=
| reach_new : reachable Server_new
| reach_step sv a sv' r :
    reachable sv -> fresh_id sv a -> handle sv a = Some (sv', r) -> reachable sv'.

Lemma set_status_id st s : se_id (set_status st s) = se_id s. Proof. done. Qed.
Lemma set_contender_id c s : se_id (set_contender c s) = se_id s. Proof. done. Qed.
Lemma set_spam_cancel_id c s : se_id (set_spam_cancel c s) = se_id s. Proof. done. Qed.
Lemma put_contender_id c s : se_id (put_contender c s) = se_id s. Proof. done. Qed.

Lemma gen_id_fresh l draws id : gen_id l draws = Some id -> id ∉ se_id <$> l.
Proof.
  unfold gen_id. intros H. apply fmap_Some in H as ([k x] & Hf & ->).
  apply list_find_Some in Hf as (_ & Hf & _). rewrite forallb_forall in Hf.
  intros (s & Heq & Hin)%list_elem_of_fmap. specialize (Hf s). cbn in Heq.
  rewrite <- Heq, Z.eqb_refl in Hf. by apply list_elem_of_In, Hf in Hin.
Qed.

(** An update that keeps the id and whether there is a contender. *)
Lemma update_owners_same (f : ContenderSession -> ContenderSession) id i l :
  (forall s, se_id (f s) = se_id s) -> (forall s, se_contender (f s) = se_contender s) ->
  sum_list_with (session_owns i) (update_session id f l) = sum_list_with (session_owns i) l.
Proof.
  intros Hid Hc. destruct (get_session l id) as [s|] eqn:Hs.
  - pose proof (update_sum f (session_owns i) id l s Hs) as H.
    unfold session_owns in H at 2 4. rewrite Hid, Hc in H. lia.
  - by rewrite update_none.
Qed.

Lemma take_owners (f : ContenderSession -> ContenderSession) id i l s c :
  (forall s, se_id (f s) = se_id s) -> (forall s, se_contender (f s) = None) ->
  get_session l id = Some s -> se_contender s = Some c ->
  (sum_list_with (session_owns i) (update_session id f l) + Nat.b2n (Z.eqb id i) =
   sum_list_with (session_owns i) l)%nat.
Proof.
  intros Hid Hf Hs Hc. pose proof (update_sum f (session_owns i) id l s Hs) as H.
  unfold session_owns in H at 2 4. rewrite Hid, Hf, Hc, (get_session_id _ _ _ Hs) in H.
  destruct (id =? i); cbn in *; lia.
Qed.

(** Putting a contender back into a session that has none; nothing happens when
    the session is gone. *)
Lemma put_owners (f : ContenderSession -> ContenderSession) id i l :
  (forall s, se_id (f s) = se_id s) ->
  (sum_list_with (session_owns i) (update_session id f l) <=
   sum_list_with (session_owns i) l +
   (if Z.eqb id i then match get_session l id with
                       | Some s => match se_contender s with Some _ => 0 | None => 1 end
                       | None => 0 end
    else 0))%nat.
Proof.
  intros Hid. destruct (get_session l id) as [s|] eqn:Hs.
  - pose proof (update_sum f (session_owns i) id l s Hs) as H.
    unfold session_owns in H at 2 4. rewrite Hid, (get_session_id _ _ _ Hs) in H.
    destruct (id =? i); [|lia]. destruct (se_contender s), (se_contender (f s)); lia.
  - rewrite update_none by done. lia.
Qed.

Lemma session_owned l id s c :
  get_session l id = Some s -> se_contender s = Some c ->
  (1 <= sum_list_with (session_owns id) l)%nat.
Proof.
  intros Hs Hc. pose proof (get_session_id _ _ _ Hs) as Hid. revert Hs.
  induction l as [|x l IH]; [done|]. rewrite get_session_cons. cbn.
  destruct (Z.eqb_spec (se_id x) id) as [He|He]; [|intros Hl; specialize (IH Hl); lia].
  intros [= ->]. unfold session_owns at 1. rewrite Hc. destruct (Z.eqb_spec (se_id s) id); [lia|done].
Qed.

(** The task that held the contender gives it back. *)
Lemma put_back sv k t id (f : ContenderSession -> ContenderSession) i :
  (forall s, se_id (f s) = se_id s) -> sv_tasks sv !! k = Some t ->
  (forall j, task_owns j t = Nat.b2n (Z.eqb id j)) -> (owners sv id <= 1)%nat ->
  (sum_list_with (session_owns i) (update_session id f (sv_sessions sv)) +
   sum_list_with (task_owns i) (delete k (sv_tasks sv)) <= owners sv i)%nat.
Proof.
  intros Hf Hk Ht Ho. unfold owners in *.
  pose proof (delete_sum (task_owns i) _ _ _ Hk) as Hd. rewrite Ht in Hd.
  pose proof (delete_sum (task_owns id) _ _ _ Hk) as Hd'. rewrite Ht, Z.eqb_refl in Hd'. cbn in Hd'.
  pose proof (put_owners f id i (sv_sessions sv) Hf) as Hp.
  destruct (Z.eqb id i); cbn in *; [|lia].
  destruct (get_session (sv_sessions sv) id) as [s|] eqn:Hs; [|lia].
  destruct (se_contender s) as [c|] eqn:Hc; [|lia].
  pose proof (session_owned _ _ _ _ Hs Hc). lia.
Qed.

Lemma delete_owners sv k t i :
  sv_tasks sv !! k = Some t ->
  (sum_list_with (task_owns i) (delete k (sv_tasks sv)) <= sum_list_with (task_owns i) (sv_tasks sv))%nat.
Proof. intros H. pose proof (delete_sum (task_owns i) _ _ _ H). lia. Qed.

Lemma init_take_owners sv k sv' r i :
  init_take k sv = Some (sv', r) ->
  (owners sv' i <= owners sv i)%nat /\
  se_id <$> sv_sessions sv' = se_id <$> sv_sessions sv.
Proof.
  unfold init_take, take_uninitialized.
  destruct (sv_tasks sv !! k) as [[id [c|]| | |]|] eqn:Hk; try done.
  pose proof (delete_owners sv k _ i Hk) as Hd. unfold owners.
  destruct (get_session (sv_sessions sv) id) as [s|] eqn:Hs.
  2: { intros [= <- <-]. cbn. split; [lia|done]. }
  destruct (se_contender s) as [[c|c]|] eqn:Hc; intros [= <- <-]; cbn; [|split; [lia|done]..].
  split; [|by apply update_ids].
  pose proof (take_owners (set_contender None) id i _ s _ ltac:(done) ltac:(done) Hs Hc).
  pose proof (insert_sum (task_owns i) _ _ _ (InitTask id (Some c)) Hk) as Hi. cbn in Hi.
  destruct (Z.eqb id i); cbn in *; lia.
Qed.

Lemma init_end_owners sv k res sv' r i :
  (forall j, owners sv j <= 1)%nat -> init_end k res sv = Some (sv', r) ->
  (owners sv' i <= owners sv i)%nat /\
  se_id <$> sv_sessions sv' = se_id <$> sv_sessions sv.
Proof.
  intros Ho. unfold init_end.
  destruct (sv_tasks sv !! k) as [[id [c|]| | |]|] eqn:Hk; try done.
  pose proof (delete_owners sv k _ i Hk) as Hd.
  destruct res as [c'|e|]; intros [= <- <-]; unfold owners at 1; cbn.
  - rewrite update_owners_same by done. unfold put_initialized. split.
    + eapply (put_back sv k _ id (put_contender c') i); [done|exact Hk|done|apply Ho].
    + by rewrite !update_ids.
  - rewrite update_owners_same by done. unfold owners. split; [lia|by rewrite update_ids].
  - unfold owners. split; [lia|done].
Qed.

Lemma spam_start_owners sv k sv' r i :
  spam_start k sv = Some (sv', r) ->
  (owners sv' i <= owners sv i)%nat /\
  se_id <$> sv_sessions sv' = se_id <$> sv_sessions sv.
Proof.
  unfold spam_start. destruct (sv_tasks sv !! k) as [[|p| |]|] eqn:Hk; try done.
  pose proof (delete_owners sv k _ i Hk) as Hd. cbn zeta. set (id := sp_session_id p).
  set (f := fun s => set_spam_cancel _ _).
  assert (Hu : forall s, se_id (f s) = se_id s) by done.
  assert (Hl : sum_list_with (session_owns i) (update_session id f (sv_sessions sv)) =
    sum_list_with (session_owns i) (sv_sessions sv)) by by apply update_owners_same.
  unfold take_initialized, owners.
  change (sv_sessions (update id f _)) with (update_session id f (sv_sessions sv)).
  destruct (get_session (update_session id f (sv_sessions sv)) id) as [s|] eqn:Hs.
  2: { intros [= <- <-]. cbn. rewrite Hl. split; [lia|by apply update_ids]. }
  destruct (se_contender s) as [[c|c]|] eqn:Hc; intros [= <- <-]; cbn.
  1, 3: rewrite Hl; split; [lia|by apply update_ids].
  split; [|by rewrite !update_ids].
  pose proof (take_owners (set_contender None) id i _ s _ ltac:(done) ltac:(done) Hs Hc).
  rewrite sum_list_with_app. cbn. change (Z.eqb id i) with (id =? i)%Z in *.
  destruct (Z.eqb id i); cbn in *; lia.
Qed.

Lemma spam_finish_owners sv k res sv' r i :
  (forall j, owners sv j <= 1)%nat -> spam_finish k res sv = Some (sv', r) ->
  (owners sv' i <= owners sv i)%nat /\
  se_id <$> sv_sessions sv' = se_id <$> sv_sessions sv.
Proof.
  intros Ho. unfold spam_finish.
  destruct (sv_tasks sv !! k) as [[| |id c tok|]|] eqn:Hk; try done.
  pose proof (delete_owners sv k _ i Hk) as Hd.
  destruct res as [c' err|msg]; intros [= <- <-]; unfold owners at 1; cbn.
  - rewrite !update_owners_same by done. unfold put_initialized. split.
    + eapply (put_back sv k _ id (put_contender c') i); [done|exact Hk|done|apply Ho].
    + by rewrite !update_ids.
  - rewrite update_owners_same by done. unfold owners. split; [lia|by rewrite update_ids].
Qed.

Lemma sum_zero {X} (w : X -> nat) (l : list X) :
  (forall x, x ∈ l -> w x = 0%nat) -> sum_list_with w l = 0%nat.
Proof.
  induction l as [|x l IH]; intros H; [done|]. cbn. rewrite (H x) by left. apply IH.
  intros y Hy. apply H. by right.
Qed.

Lemma add_session_owners name url draws made locked sv sv' r :
  (forall i, owners sv i <= 1)%nat -> NoDup (se_id <$> sv_sessions sv) ->
  fresh_id sv (AddSession name url draws made locked) ->
  add_session name url draws made locked sv = Some (sv', r) ->
  NoDup (se_id <$> sv_sessions sv') /\ forall i, (owners sv' i <= 1)%nat.
Proof.
  intros Ho Hnd Hf. unfold add_session, fresh_id in *.
  destruct (gen_id (sv_sessions sv) draws) as [id|] eqn:Hg; [|done].
  specialize (Hf id eq_refl). pose proof (gen_id_fresh _ _ _ Hg) as Hn. cbn [mbind option_bind].
  destruct (made id) as [c|e|]; [|by intros [= <- <-]..].
  cbn zeta. set (sv1 := if locked then _ else _). intros [= <- <-].
  assert (sv_sessions sv1 = sv_sessions sv /\ sv_tasks sv1 = sv_tasks sv) as [Hs Ht]
    by by destruct locked.
  cbn [sv_sessions sv_tasks set_tasks set_sessions]. rewrite Hs. split.
  { rewrite fmap_app. apply NoDup_app. split_and!; [done| |apply NoDup_singleton].
    intros x Hx Hx'%list_elem_of_singleton. cbn in Hx'. by subst. }
  intros i. unfold owners. cbn [sv_sessions sv_tasks set_tasks set_sessions].
  rewrite Ht, !sum_list_with_app. cbn. unfold session_owns at 2. cbn.
  specialize (Ho i). unfold owners in Ho.
  destruct (Z.eqb_spec id i) as [->|]; cbn; [|unfold se_id; cbn; lia].
  rewrite (sum_zero _ (sv_sessions sv)), (sum_zero _ (sv_tasks sv)); [lia| |].
  - intros t Hin. rewrite Forall_forall in Hf. specialize (Hf t Hin).
    destruct t as [j [c'|]|p|j c' tok|j]; cbn in *; try done; by rewrite (proj2 (Z.eqb_neq _ _) Hf).
  - intros s Hin. unfold session_owns. destruct (Z.eqb_spec (se_id s) i); [|done].
    exfalso. apply Hn, list_elem_of_fmap. by exists s.
Qed.

Lemma remove_owners id locked sv i :
  NoDup (se_id <$> sv_sessions sv) ->
  NoDup (se_id <$> sv_sessions (remove_session id locked sv)) /\
  (owners (remove_session id locked sv) i <= owners sv i)%nat.
Proof.
  intros Hnd. unfold owners. destruct (remove_fields id locked sv) as (-> & -> & _). split.
  - eapply sublist_NoDup; [exact Hnd|]. apply fmap_sublist, sublist_filter.
  - enough (sum_list_with (session_owns i) (filter (fun s => se_id s <> id) (sv_sessions sv)) <=
      sum_list_with (session_owns i) (sv_sessions sv))%nat by lia.
    generalize (sv_sessions sv) as l. clear. induction l as [|x l IH]; [done|].
    rewrite filter_cons. destruct (decide _); cbn; lia.
Qed.

Lemma spawn_owners sv t i :
  task_owns i t = 0%nat -> owners (set_tasks (sv_tasks sv ++ [t]) sv) i = owners sv i.
Proof. intros Ht. unfold owners. cbn. rewrite sum_list_with_app. cbn. rewrite Ht. lia. Qed.

Lemma handle_owners sv a sv' r :
  (forall i, owners sv i <= 1)%nat -> NoDup (se_id <$> sv_sessions sv) -> fresh_id sv a ->
  handle sv a = Some (sv', r) ->
  NoDup (se_id <$> sv_sessions sv') /\ forall i, (owners sv' i <= 1)%nat.
Proof.
  intros Ho Hnd Hf H.
  assert (Hsame : forall sv', (forall i, (owners sv' i <= owners sv i)%nat /\
    se_id <$> sv_sessions sv' = se_id <$> sv_sessions sv) ->
    NoDup (se_id <$> sv_sessions sv') /\ forall i, (owners sv' i <= 1)%nat).
  { intros w Hw. split; [by rewrite (proj2 (Hw 0))|]. intros i. specialize (Ho i).
    destruct (Hw i). lia. }
  destruct a; cbn [handle] in H.
  - by eapply add_session_owners.
  - apply Hsame. intros i. by eapply init_take_owners.
  - apply Hsame. intros i. by eapply init_end_owners.
  - injection H as <- <-. by apply Hsame.
  - injection H as <- <-. by apply Hsame.
  - injection H as <- <-. by apply Hsame.
  - unfold spam_check in H. apply Hsame. intros i.
    destruct (get_session _ _) as [s|]; [destruct (error_if_session_not_ready s)|];
      injection H as <- <-; try done. by rewrite spawn_owners.
  - apply Hsame. intros i. by eapply spam_start_owners.
  - apply Hsame. intros i. by eapply spam_finish_owners.
  - unfold stop in H. apply Hsame. intros i.
    destruct (get_session _ _) as [s|]; [destruct (se_spam_cancel s)|]; by injection H as <- <-.
  - unfold fund_check in H. apply Hsame. intros i.
    destruct (get_session _ _) as [s|]; [destruct (fund_ready s)|]; injection H as <- <-; try done.
    by rewrite spawn_owners.
  - unfold fund_finish in H. apply Hsame. intros i.
    destruct (sv_tasks sv !! task) as [[| | |id]|] eqn:Hk; try done.
    pose proof (delete_owners sv task _ i Hk).
    destruct result as [|e|]; injection H as <- <-; unfold owners; cbn;
      rewrite ?update_owners_same, ?update_ids by done; split; (lia || done).
  - injection H as <- <-. split; [by apply remove_owners|]. intros i.
    destruct (remove_owners id sinks_locked sv i Hnd). specialize (Ho i). lia.
Qed.

Lemma reachable_owners sv :
  reachable sv -> NoDup (se_id <$> sv_sessions sv) /\ forall i, (owners sv i <= 1)%nat.
Proof.
  induction 1 as [|sv a sv' r _ [Hnd Ho] Hf H]; [split; [constructor|cbn; lia]|].
  by eapply handle_owners.
Qed.

Lemma elem_of_delete {X} (l : list X) j k y : l !! k = Some y -> j <> k -> y ∈ delete j l.
Proof.
  intros Hk Hne. destruct (decide (k < j)%nat) as [Hl|Hl].
  - apply (list_elem_of_lookup_2 _ k). by rewrite list_lookup_delete_lt.
  - apply (list_elem_of_lookup_2 _ (k - 1)). rewrite list_lookup_delete_ge by lia.
    by replace (S (k - 1)) with k by lia.
Qed.

Lemma delete_elem_of {X} (l : list X) j y : y ∈ delete j l -> y ∈ l.
Proof.
  intros H. eapply elem_of_submseteq; [exact H|]. apply sublist_submseteq, sublist_delete.
Qed.

(** Two tasks do not hold the contender of one session. *)
Lemma one_holder sv id j x y :
  (owners sv id <= 1)%nat -> sv_tasks sv !! j = Some x -> task_owns id x = 1%nat ->
  y ∈ delete j (sv_tasks sv) -> task_owns id y = 1%nat -> False.
Proof.
  unfold owners. intros Ho Hj Hx Hy Hw. pose proof (delete_sum (task_owns id) _ _ _ Hj) as Hd.
  pose proof (sum_list_with_in _ (task_owns id) _ Hy). lia.
Qed.

Lemma spam_task_owns id c tok : task_owns id (SpamTask id c tok) = 1%nat.
Proof. cbn. by rewrite Z.eqb_refl. Qed.
Lemma init_task_owns id c : task_owns id (InitTask id (Some c)) = 1%nat.
Proof. cbn. by rewrite Z.eqb_refl. Qed.

(** C3: in every state the server gets into, however requests and tasks
    interleave, the sessions have different ids, a contender is never in two
    places: a session has at most one run, and while it runs nothing else can
    take its contender, so that a removed or stopped session is never run
    twice.  (A new session must not be given the id of a removed one whose
    tasks still go on.) *)
Theorem contender_single_owner sv (Hr : reachable sv) :
  NoDup (se_id <$> sv_sessions sv) /\
  (forall j k id c1 c2 (t1 t2 : nat), sv_tasks sv !! j = Some (SpamTask id c1 t1) ->
     sv_tasks sv !! k = Some (SpamTask id c2 t2) -> j = k) /\
  (forall k id c (t : nat) s, sv_tasks sv !! k = Some (SpamTask id c t) ->
     get_session (sv_sessions sv) id = Some s -> se_contender s = None) /\
  (forall j k id c u (t : nat), sv_tasks sv !! j = Some (InitTask id (Some u)) ->
     sv_tasks sv !! k <> Some (SpamTask id c t)).
Proof.
  destruct (reachable_owners sv Hr) as [Hnd Ho]. split_and!; [done|..].
  - intros j k id c1 c2 t1 t2 Hj Hk. destruct (decide (j = k)) as [|Hne]; [done|exfalso].
    eapply (one_holder sv id j); [done|exact Hj|apply spam_task_owns|by eapply elem_of_delete|].
    apply spam_task_owns.
  - intros k id c t s Hk Hs. destruct (se_contender s) as [x|] eqn:Hc; [exfalso|done].
    pose proof (session_owned _ _ _ _ Hs Hc) as H1.
    apply list_elem_of_lookup_2 in Hk.
    pose proof (sum_list_with_in _ (task_owns id) _ Hk) as H2.
    rewrite spam_task_owns in H2. specialize (Ho id). unfold owners in Ho. lia.
  - intros j k id c u t Hj Hk.
    eapply (one_holder sv id j); [done|exact Hj|apply init_task_owns| |apply (spam_task_owns id c t)].
    eapply elem_of_delete; [exact Hk|]. intros ->. congruence.
Qed.

(** ** Two calls of [spam] at once *)

Lemma spam_check_ready sv p s :
  get_session (sv_sessions sv) (sp_session_id p) = Some s -> se_status s = Ready ->
  handle sv (SpamCheck p) = Some (set_tasks (sv_tasks sv ++ [SpamCall p]) sv, Ok Nothing).
Proof.
  intros Hs Hst. cbn [handle]. unfold spam_check. rewrite Hs.
  unfold error_if_session_not_ready. by rewrite Hst.
Qed.

Lemma spam_start_ready sv k p s c :
  sv_tasks sv !! k = Some (SpamCall p) ->
  get_session (sv_sessions sv) (sp_session_id p) = Some s -> se_contender s = Some (Init c) ->
  handle sv (SpamStart k) = Some ({|
    sv_sessions := update_session (sp_session_id p) (set_contender None)
                     (update_session (sp_session_id p) (begun p (sv_tokens sv)) (sv_sessions sv));
    sv_tasks := delete k (sv_tasks sv) ++ [SpamTask (sp_session_id p) c (sv_tokens sv)];
    sv_tokens := S (sv_tokens sv); sv_cancelled := sv_cancelled sv; sv_sinks := sv_sinks sv |},
    Ok (Text ("Spamming session " +:+ dec (sp_session_id p)))).
Proof.
  intros Hk Hs Hc. cbn [handle]. unfold spam_start. rewrite Hk. cbn zeta.
  unfold take_initialized.
  change (sv_sessions (update _ _ _)) with
    (update_session (sp_session_id p) (begun p (sv_tokens sv)) (sv_sessions sv)).
  rewrite get_update, Z.eqb_refl, Hs by done. cbn [fmap option_fmap option_map].
  change (se_contender (begun _ _ s)) with (se_contender s). by rewrite Hc.
Qed.

Lemma spam_start_lost sv k p :
  sv_tasks sv !! k = Some (SpamCall p) ->
  (forall s c, get_session (sv_sessions sv) (sp_session_id p) = Some s -> se_contender s <> Some (Init c)) ->
  handle sv (SpamStart k) = Some ({|
    sv_sessions := update_session (sp_session_id p) (begun p (sv_tokens sv)) (sv_sessions sv);
    sv_tasks := delete k (sv_tasks sv); sv_tokens := S (sv_tokens sv);
    sv_cancelled := sv_cancelled sv; sv_sinks := sv_sinks sv |},
    Err (SessionNotFound (sp_session_id p))).
Proof.
  intros Hk Hs. cbn [handle]. unfold spam_start. rewrite Hk. cbn zeta.
  unfold take_initialized.
  change (sv_sessions (update _ _ _)) with
    (update_session (sp_session_id p) (begun p (sv_tokens sv)) (sv_sessions sv)).
  rewrite get_update, Z.eqb_refl by done.
  destruct (get_session (sv_sessions sv) (sp_session_id p)) as [s|]; [|done].
  cbn [fmap option_fmap option_map]. change (se_contender (begun _ _ s)) with (se_contender s).
  destruct (se_contender s) as [[c|c]|] eqn:Hc; [done| |done]. by destruct (Hs s c).
Qed.

Lemma run_cons sv a acts sv' r :
  handle sv a = Some (sv', r) ->
  run sv (a :: acts) =
  match run sv' acts with Some (w, rs) => Some (w, r :: rs) | None => None end.
Proof. intros H. cbn [run]. rewrite H. cbn. by destruct (run sv' acts) as [[]|]. Qed.

(** When two calls of [spam] have both found the session ready before one
    of them starts, the second is told that the session does not exist, and has
    replaced the token: a later [stop] is accepted, but the run goes on with a
    token nothing has cancelled. *)
Theorem racing_spam_unstoppable sv id s c (p q : SpamParams)
    (Hs : get_session (sv_sessions sv) id = Some s) (Hst : se_status s = Ready)
    (Hc : se_contender s = Some (Init c)) (Hp : sp_session_id p = id) (Hq : sp_session_id q = id)
    (Ht : forall tok, tok ∈ sv_cancelled sv -> (tok < sv_tokens sv)%nat) :
  let n := length (sv_tasks sv) in
  exists sv' ok1 ok2,
    run sv [SpamCheck p; SpamCheck q; SpamStart n; SpamStart n; StopSession id] =
      Some (sv', [Ok Nothing; Ok Nothing; Ok ok1; Err (SessionNotFound id); Ok ok2]) /\
    is_Some (get_session (sv_sessions sv') id) /\
    sv_tasks sv' = sv_tasks sv ++ [SpamTask id c (sv_tokens sv)] /\
    sv_tokens sv ∉ sv_cancelled sv'.
Proof.
  cbn zeta. set (n := length (sv_tasks sv)). rewrite <- Hp in Hs.
  rewrite (run_cons _ _ _ _ _ (spam_check_ready sv p s Hs Hst)).
  set (sv1 := set_tasks _ sv).
  rewrite (run_cons _ _ _ _ _ (spam_check_ready sv1 q s ltac:(cbn; rewrite Hq, <- Hp; exact Hs) Hst)).
  set (sv2 := set_tasks _ sv1).
  assert (Ht2 : sv_tasks sv2 = sv_tasks sv ++ [SpamCall p; SpamCall q]) by by cbn; rewrite <- app_assoc.
  assert (Hk2 : sv_tasks sv2 !! n = Some (SpamCall p)) by by rewrite Ht2, list_lookup_middle.
  rewrite (run_cons _ _ _ _ _ (spam_start_ready sv2 n p s c Hk2 Hs Hc)).
  rewrite Ht2. replace (delete n (sv_tasks sv ++ [SpamCall p; SpamCall q]))
    with (sv_tasks sv ++ [SpamCall q])
    by by unfold n; rewrite delete_middle.
  match goal with |- context [run ?w [SpamStart n; _]] => set (sv3 := w) end.
  assert (Hg3 : get_session (sv_sessions sv3) (sp_session_id q) =
    Some (set_contender None (begun p (sv_tokens sv) s))).
  { rewrite Hq, <- Hp. unfold sv3. cbn [sv_sessions].
    rewrite !get_update, Z.eqb_refl by done. change (sv_sessions sv2) with (sv_sessions sv).
    by rewrite Hs. }
  assert (Ht3 : sv_tasks sv3 = sv_tasks sv ++ [SpamCall q; SpamTask id c (sv_tokens sv)]).
  { unfold sv3. cbn [sv_tasks]. by rewrite <- app_assoc, Hp. }
  assert (Hk3 : sv_tasks sv3 !! n = Some (SpamCall q)) by by rewrite Ht3, list_lookup_middle.
  rewrite (run_cons _ _ _ _ _ (spam_start_lost sv3 n q Hk3
    ltac:(intros s' c'; rewrite Hg3; by intros [= <-]))).
  match goal with |- context [run ?w [StopSession id]] => set (sv4 := w) end.
  assert (Hg4 : get_session (sv_sessions sv4) id =
    Some (begun q (sv_tokens sv3) (set_contender None (begun p (sv_tokens sv) s)))).
  { rewrite <- Hq. unfold sv4. cbn [sv_sessions]. by rewrite get_update, Z.eqb_refl, Hg3. }
  cbn [run handle]. unfold stop. rewrite Hg4. cbn [se_spam_cancel begun set_spam_cancel].
  eexists _, _, _. rewrite Hq. split; [reflexivity|]. split_and!.
  - change (sv_sessions (cancel_tokens _ sv4)) with (sv_sessions sv4). by rewrite Hg4.
  - cbn [sv_tasks cancel_tokens sv4]. rewrite Ht3. unfold n. by rewrite delete_middle.
  - cbn [sv_cancelled cancel_tokens]. rewrite elem_of_union, elem_of_singleton.
    intros [H|H]; [unfold sv3 in H; cbn in H; lia|]. specialize (Ht _ H). lia.
Qed.

(** ** One call of [spam] at a time *)

(** The two locks of [spam], one after the other. *)
Definition spam_call (p : SpamParams) sv : list (Action (U := U) (I := I)) := [SpamCheck p; SpamStart (length (sv_tasks sv))].

Definition no_spam_step (a : Action (U := U) (I := I)) : Prop :=
  match a with SpamCheck _ | SpamStart _ => False | _ => True end.

Inductive serial : Server (U := U) (I := I) -> Prop :=
| serial_new : serial Server_new
| serial_step sv a sv' r :
    serial sv -> fresh_id sv a -> no_spam_step a -> handle sv a = Some (sv', r) -> serial sv'
| serial_spam sv p sv' rs : serial sv -> run sv (spam_call p sv) = Some (sv', rs) -> serial sv'.

Definition running sv (id : Z) (tok : nat) : Prop := exists c, SpamTask id c tok ∈ sv_tasks sv.

(** The token of a session is that of its run; a session that is ready has its
    contender, no run, and the data to fund it. *)
Record session_ok sv s : Prop := {
  ok_token : forall tok, se_spam_cancel s = Some tok <-> running sv (se_id s) tok;
  ok_ready : se_status s = Ready -> exists c, se_contender s = Some (Init c);
  ok_cached : se_status s = Ready \/ is_Some (se_spam_cancel s) ->
    is_Some (se_rpc_client s) /\ is_Some (se_agent_store s);
}.

Record serial_inv sv : Prop := {
  si_ids : NoDup (se_id <$> sv_sessions sv);
  si_owners : forall i, (owners sv i <= 1)%nat;
  si_calls : forall p, SpamCall p ∉ sv_tasks sv;
  si_sessions : forall id s, get_session (sv_sessions sv) id = Some s -> session_ok sv s;
  si_tokens : forall tok, tok ∈ sv_cancelled sv -> (tok < sv_tokens sv)%nat;
  si_used : forall id s, get_session (sv_sessions sv) id = Some s -> (se_cancel s < sv_tokens sv)%nat;
  si_runs : forall id tok, running sv id tok -> (tok < sv_tokens sv)%nat;
}.

(** The run of a session is the only one that holds its contender. *)
Lemma running_owns sv id tok : running sv id tok -> (1 <= sum_list_with (task_owns id) (sv_tasks sv))%nat.
Proof.
  intros [c Hc]. pose proof (sum_list_with_in _ (task_owns id) _ Hc) as H.
  by rewrite spam_task_owns in H.
Qed.

(** Tasks other than runs come and go. *)
Lemma running_same sv sv' :
  (forall id c tok, SpamTask id c tok ∈ sv_tasks sv <-> SpamTask id c tok ∈ sv_tasks sv') ->
  forall id tok, running sv id tok <-> running sv' id tok.
Proof. intros H id tok. unfold running. by setoid_rewrite H. Qed.

Lemma delete_other sv k x id c tok :
  sv_tasks sv !! k = Some x -> x <> SpamTask id c tok ->
  (SpamTask id c tok ∈ delete k (sv_tasks sv) <-> SpamTask id c tok ∈ sv_tasks sv).
Proof.
  intros Hk Hx. split; [apply delete_elem_of|]. intros (j & Hj)%list_elem_of_lookup.
  eapply elem_of_delete; [exact Hj|]. intros ->. congruence.
Qed.

(** A session is as good with the same runs. *)
Lemma session_ok_ext sv sv' s s' :
  (forall tok, running sv (se_id s) tok <-> running sv' (se_id s) tok) ->
  se_id s' = se_id s -> se_spam_cancel s' = se_spam_cancel s ->
  (se_status s' = Ready -> (exists c, se_contender s' = Some (Init c)) /\
     is_Some (se_rpc_client s') /\ is_Some (se_agent_store s')) ->
  (is_Some (se_rpc_client s) /\ is_Some (se_agent_store s) ->
   is_Some (se_rpc_client s') /\ is_Some (se_agent_store s')) ->
  session_ok sv s -> session_ok sv' s'.
Proof.
  intros Hr Hid Ht Hst Hk [H1 H2 H3]. split.
  - intros tok. rewrite Ht, Hid, H1. apply Hr.
  - intros H. by apply Hst.
  - intros [H|H]; [by apply Hst|]. apply Hk, H3. right. by rewrite <- Ht.
Qed.

(** What the cases share: the sessions of the new state are those of the old
    one, each as good as before, under runs that are the same. *)
Lemma serial_inv_step sv sv' :
  serial_inv sv ->
  NoDup (se_id <$> sv_sessions sv') /\ (forall i, (owners sv' i <= 1)%nat) ->
  (forall p, SpamCall p ∉ sv_tasks sv') ->
  (forall id tok, running sv' id tok -> running sv id tok) ->
  (sv_tokens sv <= sv_tokens sv')%nat ->
  (forall tok, tok ∈ sv_cancelled sv' -> (tok < sv_tokens sv')%nat) ->
  (forall id s', get_session (sv_sessions sv') id = Some s' ->
     session_ok sv' s' /\ exists s, get_session (sv_sessions sv) id = Some s /\ se_cancel s' = se_cancel s) ->
  serial_inv sv'.
Proof.
  intros Hi [Hnd Ho] Hc Hr Htk Hcan Hs. split; [done|done|done| |done| |].
  - intros id s' H. by apply (Hs id).
  - intros id s' H. destruct (Hs id s' H) as (_ & s & Hg & ->). pose proof (si_used _ Hi _ _ Hg). lia.
  - intros id tok H. pose proof (si_runs _ Hi _ _ (Hr _ _ H)). lia.
Qed.

(** The tasks change, the runs and the sessions do not. *)
Lemma serial_inv_tasks sv tasks :
  serial_inv sv ->
  NoDup (se_id <$> sv_sessions sv) /\ (forall i, (owners (set_tasks tasks sv) i <= 1)%nat) ->
  (forall p, SpamCall p ∉ tasks) ->
  (forall id c tok, SpamTask id c tok ∈ tasks <-> SpamTask id c tok ∈ sv_tasks sv) ->
  serial_inv (set_tasks tasks sv).
Proof.
  intros Hi Ho Hc Hr.
  assert (Hrun : forall id tok, running (set_tasks tasks sv) id tok <-> running sv id tok).
  { apply running_same. exact Hr. }
  apply (serial_inv_step sv); try done.
  - intros id tok. by apply Hrun.
  - apply Hi.
  - intros id s Hs. split; [|by exists s]. destruct (si_sessions _ Hi _ _ Hs) as [H1 H2 H3].
    split; [|done|done]. intros tok. rewrite H1. symmetry. apply Hrun.
Qed.

(** One session is updated. *)
Lemma serial_inv_update sv id (f : ContenderSession -> ContenderSession) :
  serial_inv sv -> (forall s, se_id (f s) = se_id s) -> (forall s, se_cancel (f s) = se_cancel s) ->
  (forall i, (owners (update id f sv) i <= 1)%nat) ->
  (forall s, get_session (sv_sessions sv) id = Some s -> session_ok sv (f s)) ->
  serial_inv (update id f sv).
Proof.
  intros Hi Hid Hcan Ho Hs. apply (serial_inv_step sv); try done.
  - split; [|done]. cbn. rewrite update_ids by done. apply Hi.
  - apply Hi.
  - apply Hi.
  - intros i s'. change (sv_sessions (update id f sv)) with (update_session id f (sv_sessions sv)).
    rewrite get_update by done. destruct (Z.eqb_spec i id) as [->|].
    + intros (s & Hg & ->)%fmap_Some. split; [by destruct (Hs s Hg)|]. exists s. by rewrite Hcan.
    + intros Hg. destruct (si_sessions _ Hi _ _ Hg). split; [done|by exists s'].
Qed.

Lemma insert_other {X} (l : list X) k x x' y :
  l !! k = Some x -> y <> x -> y <> x' -> (y ∈ <[k := x']> l <-> y ∈ l).
Proof.
  intros Hk Hx Hx'. rewrite !list_elem_of_lookup. split; intros [j Hj].
  - apply list_lookup_insert_Some in Hj as [(-> & <- & _)|[_ Hj]]; [done|by exists j].
  - exists j. rewrite list_lookup_insert_ne; [done|]. intros ->. congruence.
Qed.

Lemma serial_init_take sv k sv' r :
  serial_inv sv -> init_take k sv = Some (sv', r) -> serial_inv sv'.
Proof.
  intros Hi H.
  assert (Ho : forall i, (owners sv' i <= 1)%nat).
  { intros i. pose proof (si_owners _ Hi i). destruct (init_take_owners _ _ _ _ i H). lia. }
  unfold init_take, take_uninitialized in H.
  destruct (sv_tasks sv !! k) as [[id [c|]| | |]|] eqn:Hk; try done.
  assert (Hgone : forall l', l' = sv_sessions sv ->
    (forall i, (owners (set_tasks (delete k (sv_tasks sv)) sv) i <= 1)%nat) ->
    serial_inv (set_tasks (delete k (sv_tasks sv)) (set_sessions l' sv))).
  { intros l' -> Ho'. replace (set_sessions (sv_sessions sv) sv) with sv by by destruct sv.
    apply serial_inv_tasks; [done|split; [apply Hi|done]| |].
    - intros p Hp. by apply (si_calls _ Hi p), (delete_elem_of _ k).
    - intros i c tok. by apply (delete_other _ _ _ _ _ _ Hk). }
  destruct (get_session (sv_sessions sv) id) as [s|] eqn:Hs; [|injection H as <- <-; by apply Hgone].
  destruct (se_contender s) as [[c|c]|] eqn:Hc; injection H as <- <-; [|by apply Hgone..].
  set (sv2 := set_tasks _ _) in *.
  assert (Hr : forall i tok, running sv2 i tok <-> running sv i tok).
  { apply running_same. intros i c' tok. unfold sv2. cbn [sv_tasks set_tasks].
    by apply (insert_other _ _ _ _ _ Hk). }
  apply (serial_inv_step sv); try done.
  - split; [|done]. unfold sv2. cbn. rewrite update_ids by done. apply Hi.
  - intros p. unfold sv2. cbn [sv_tasks set_tasks]. rewrite (insert_other _ _ _ _ _ Hk) by done.
    apply Hi.
  - intros i tok. apply Hr.
  - apply Hi.
  - intros i s'. change (sv_sessions sv2) with (update_session id (set_contender None) (sv_sessions sv)).
    rewrite get_update by done. destruct (Z.eqb_spec i id) as [->|].
    + rewrite Hs. intros [= <-]. split; [|by exists s]. pose proof (si_sessions _ Hi _ _ Hs) as Hok.
      apply (session_ok_ext sv sv2 s); [intros tok; symmetry; apply Hr|done|done| |done|done].
      intros Hst. destruct (ok_ready _ _ Hok Hst) as [x Hx]. congruence.
    + intros Hg. split; [|by exists s']. destruct (si_sessions _ Hi _ _ Hg) as [H1 H2 H3].
      split; [|done|done]. intros tok. rewrite H1. symmetry. apply Hr.
Qed.

Lemma not_running sv k id c :
  serial_inv sv -> sv_tasks sv !! k = Some (InitTask id (Some c)) -> forall tok, ~ running sv id tok.
Proof.
  intros Hi Hk tok [c' (j & Hj)%list_elem_of_lookup].
  eapply (one_holder sv id k); [apply Hi|exact Hk|apply init_task_owns| |apply (spam_task_owns id c' tok)].
  eapply elem_of_delete; [exact Hj|]. intros ->. congruence.
Qed.

Lemma serial_init_end sv k res sv' r :
  serial_inv sv -> init_end k res sv = Some (sv', r) -> serial_inv sv'.
Proof.
  intros Hi H.
  assert (Ho : forall i, (owners sv' i <= 1)%nat).
  { intros i. pose proof (si_owners _ Hi i).
    destruct (init_end_owners _ _ _ _ _ i (si_owners _ Hi) H). lia. }
  unfold init_end in H.
  destruct (sv_tasks sv !! k) as [[id [c|]| | |]|] eqn:Hk; try done.
  pose proof (not_running _ _ _ _ Hi Hk) as Hnr.
  assert (Hi1 : serial_inv (set_tasks (delete k (sv_tasks sv)) sv)).
  { apply serial_inv_tasks; [done|split; [apply Hi|]| |].
    - intros i. pose proof (si_owners _ Hi i). pose proof (delete_owners sv k _ i Hk).
      unfold owners in *. cbn. lia.
    - intros p Hp. by apply (si_calls _ Hi p), (delete_elem_of _ k).
    - intros i c' tok. by apply (delete_other _ _ _ _ _ _ Hk). }
  set (sv1 := set_tasks _ sv) in *.
  assert (Hnr1 : forall tok, ~ running sv1 id tok).
  { intros tok [c' Hc']. apply (Hnr tok). exists c'. by apply (delete_elem_of _ k). }
  destruct res as [c'|e|]; injection H as <- <-; [| |done].
  - set (f := fun s => set_status Ready (put_contender c' s)).
    assert (Hu : update id (set_status Ready)
      (set_sessions (put_initialized id c' (sv_sessions sv)) sv1) = update id f sv1).
    { unfold update, set_sessions, put_initialized. cbn. by rewrite update_update. }
    rewrite Hu in Ho |- *. apply serial_inv_update; try done. intros s Hs.
    destruct (si_sessions _ Hi1 _ _ Hs) as [H1 _ _].
    split; [exact H1|by exists c'|done].
  - apply serial_inv_update; try done. intros s Hs.
    destruct (si_sessions _ Hi1 _ _ Hs) as [H1 H2 H3]. split; [exact H1|done|].
    intros [|Hx]; [done|apply H3; by right].
Qed.

Lemma serial_spam_finish sv k res sv' r :
  serial_inv sv -> spam_finish k res sv = Some (sv', r) -> serial_inv sv'.
Proof.
  intros Hi H.
  assert (Ho : forall i, (owners sv' i <= 1)%nat).
  { intros i. pose proof (si_owners _ Hi i).
    destruct (spam_finish_owners _ _ _ _ _ i (si_owners _ Hi) H). lia. }
  unfold spam_finish in H.
  destruct (sv_tasks sv !! k) as [[| |id c tk|]|] eqn:Hk; try done.
  set (sv1 := set_tasks (delete k (sv_tasks sv)) sv) in *.
  (* the run is gone, the others stay *)
  assert (Hgone : forall tok, ~ running sv1 id tok).
  { intros tok [c' Hc']. eapply (one_holder sv id k); [apply Hi|exact Hk|apply spam_task_owns|exact Hc'|].
    apply spam_task_owns. }
  assert (Hkeep : forall i tok, i <> id -> running sv1 i tok <-> running sv i tok).
  { intros i tok Hne. unfold running. cbn [sv_tasks sv1 set_tasks]. split; intros [c' Hc'].
    - exists c'. by apply (delete_elem_of _ k).
    - exists c'. apply (delete_other _ _ _ _ _ _ Hk); [|done]. by intros [= ->]. }
  assert (Hstep : forall f, (forall s, se_id (f s) = se_id s) -> (forall s, se_cancel (f s) = se_cancel s) ->
    (forall s, se_spam_cancel (f s) = None) ->
    (forall s, se_status (f s) = Ready -> (exists c, se_contender (f s) = Some (Init c)) /\
       is_Some (se_rpc_client (f s)) /\ is_Some (se_agent_store (f s))) ->
    (forall i, (owners (update id f sv1) i <= 1)%nat) -> serial_inv (update id f sv1)).
  { intros f Hid Hcan Htok Hst Hof. apply (serial_inv_step sv); try done.
    - split; [|done]. cbn. rewrite update_ids by done. apply Hi.
    - intros p Hp. by apply (si_calls _ Hi p), (delete_elem_of _ k).
    - intros i tok [c' Hc']. exists c'. by apply (delete_elem_of _ k).
    - apply Hi.
    - intros i s'. change (sv_sessions (update id f sv1)) with (update_session id f (sv_sessions sv)).
      rewrite get_update by done. destruct (Z.eqb_spec i id) as [->|Hne].
      + intros (s & Hg & ->)%fmap_Some. pose proof (get_session_id _ _ _ Hg) as Hsid.
        split; [|exists s; by rewrite Hcan]. split.
        * intros tok. rewrite Htok, Hid, Hsid. split; [done|]. intros Hr. by destruct (Hgone tok).
        * intros H1. by apply Hst.
        * intros [H1|H1]; [by apply Hst|]. rewrite Htok in H1. by destruct H1.
      + intros Hg. split; [|by exists s']. destruct (si_sessions _ Hi _ _ Hg) as [H1 H2 H3].
        split; [|done|done]. intros tok. rewrite H1. pose proof (get_session_id _ _ _ Hg) as Hsid.
        rewrite Hsid. by rewrite <- (Hkeep i tok Hne). }
  destruct res as [c' err|msg]; injection H as <- <-; [|by apply Hstep].
  set (st := match err with Some e => _ | None => _ end) in *.
  set (f := fun s => set_status st (set_spam_cancel None (put_contender c' s))).
  assert (Hu : update id (set_status st) (update id (set_spam_cancel None)
    (set_sessions (put_initialized id c' (sv_sessions sv)) sv1)) = update id f sv1).
  { unfold update, set_sessions, put_initialized. cbn. by rewrite !update_update. }
  rewrite Hu in Ho |- *. apply Hstep; try done. intros s _. split; [by exists c'|done].
Qed.

Lemma serial_spam_call sv p sv' rs :
  serial_inv sv -> run sv (spam_call p sv) = Some (sv', rs) ->
  serial_inv sv' /\ exists s c,
    get_session (sv_sessions sv) (sp_session_id p) = Some s /\ se_contender s = Some (Init c) /\
    rs = [Ok Nothing; Ok (Text ("Spamming session " +:+ dec (sp_session_id p)))] /\
    sv_tasks sv' = sv_tasks sv ++ [SpamTask (sp_session_id p) c (sv_tokens sv)] /\
    get_session (sv_sessions sv') (sp_session_id p) =
      Some (set_contender None (begun p (sv_tokens sv) s)) /\
    sv_cancelled sv' = sv_cancelled sv.
Proof.
  intros Hi H. unfold spam_call in H.
  assert (Hs : exists s, get_session (sv_sessions sv) (sp_session_id p) = Some s /\ se_status s = Ready).
  { cbn [run handle] in H. unfold spam_check in H.
    destruct (get_session _ _) as [s|] eqn:Hg.
    2: { cbn in H. unfold spam_start in H. by rewrite lookup_ge_None_2 in H. }
    exists s. split; [done|]. unfold error_if_session_not_ready in H.
    destruct (se_status s) eqn:Hst; [|done|..]; cbn in H; unfold spam_start in H;
      by rewrite lookup_ge_None_2 in H. }
  destruct Hs as (s & Hg & Hst). destruct (si_sessions _ Hi _ _ Hg) as [Hok1 Hok2 Hok3].
  destruct (Hok2 Hst) as [c Hc]. pose proof (get_session_id _ _ _ Hg) as Hid.
  pose proof (spam_check_ready sv p s Hg Hst) as Hcheck. set (sv1 := set_tasks _ sv) in *.
  rewrite (run_cons _ _ _ _ _ Hcheck) in H.
  assert (Hk : sv_tasks sv1 !! length (sv_tasks sv) = Some (SpamCall p))
    by (cbn; by rewrite list_lookup_middle).
  pose proof (spam_start_ready sv1 _ p s c Hk Hg Hc) as Hstart.
  rewrite (run_cons _ _ _ _ _ Hstart) in H. cbn [run] in H.
  match type of Hstart with _ = Some (?w, _) => set (sv2 := w) in * end.
  injection H as <- <-.
  assert (Ht : sv_tasks sv2 = sv_tasks sv ++ [SpamTask (sp_session_id p) c (sv_tokens sv)]).
  { unfold sv2, sv1. cbn [sv_tasks set_tasks sv_tokens]. by rewrite delete_middle, app_nil_r. }
  assert (Hg2 : forall i, get_session (sv_sessions sv2) i =
    if i =? sp_session_id p then Some (set_contender None (begun p (sv_tokens sv) s))
    else get_session (sv_sessions sv) i).
  { intros i. unfold sv2. cbn [sv_sessions]. rewrite !get_update by done.
    change (sv_sessions sv1) with (sv_sessions sv).
    destruct (Z.eqb_spec i (sp_session_id p)) as [->|]; [by rewrite Hg|done]. }
  assert (Hrun : forall i tok, running sv2 i tok <->
    running sv i tok \/ (i = sp_session_id p /\ tok = sv_tokens sv)).
  { intros i tok. unfold running. rewrite Ht. setoid_rewrite elem_of_app.
    setoid_rewrite list_elem_of_singleton. split.
    - intros (c' & [Hin|[= -> -> ->]]); [left; by exists c'|by right].
    - intros [[c' Hin]|[-> ->]]; [exists c'; by left|exists c; by right]. }
  assert (Hidle : forall tok, ~ running sv (sp_session_id p) tok).
  { intros tok Hr. pose proof (running_owns _ _ _ Hr). pose proof (session_owned _ _ _ _ Hg Hc).
    pose proof (si_owners _ Hi (sp_session_id p)) as Ho. unfold owners in Ho. lia. }
  destruct (handle_owners sv (SpamCheck p) _ _ (si_owners _ Hi) (si_ids _ Hi) Logic.I Hcheck) as [Hn1 Ho1].
  destruct (handle_owners sv1 (SpamStart _) _ _ Ho1 Hn1 Logic.I Hstart) as [Hn2 Ho2].
  split.
  - split; [done|done| | | | |].
    + intros q. rewrite Ht. intros [Hq|Hq%list_elem_of_singleton]%elem_of_app; [|done].
      by apply (si_calls _ Hi q).
    + intros i s'. rewrite Hg2. destruct (Z.eqb_spec i (sp_session_id p)) as [->|Hne].
      * intros [= <-]. split; [|done|].
        { intros tok. cbn [se_spam_cancel set_contender begun set_spam_cancel].
          change (se_id (set_contender None (begun p (sv_tokens sv) s))) with (se_id s).
          rewrite Hid, Hrun. split; [intros [= <-]; by right|].
          intros [Hr|[_ ->]]; [by destruct (Hidle tok)|done]. }
        { intros _. apply Hok3. by left. }
      * intros Hgi. destruct (si_sessions _ Hi _ _ Hgi) as [H1 H2 H3]. split; [|done|done].
        intros tok. rewrite H1, Hrun, (get_session_id _ _ _ Hgi). naive_solver.
    + intros tok Hin. cbn. pose proof (si_tokens _ Hi tok Hin). lia.
    + intros i s'. rewrite Hg2. cbn [sv_tokens sv2 sv1 set_tasks]. destruct (Z.eqb_spec i (sp_session_id p)).
      * intros [= <-]. pose proof (si_used _ Hi _ _ Hg). cbn. lia.
      * intros Hgi. pose proof (si_used _ Hi _ _ Hgi). lia.
    + intros i tok. rewrite Hrun. cbn [sv_tokens sv2 sv1 set_tasks].
      intros [Hr|[_ ->]]; [|lia]. pose proof (si_runs _ Hi _ _ Hr). lia.
  - exists s, c. split_and!; try done. by rewrite Hg2, Z.eqb_refl.
Qed.

Lemma serial_add name url draws made locked sv sv' r :
  serial_inv sv -> fresh_id sv (AddSession name url draws made locked) ->
  add_session name url draws made locked sv = Some (sv', r) -> serial_inv sv'.
Proof.
  intros Hi Hf H. pose proof (add_session_owners _ _ _ _ _ _ _ _ (si_owners _ Hi) (si_ids _ Hi) Hf H)
    as Ho.
  unfold add_session, fresh_id in *.
  destruct (gen_id (sv_sessions sv) draws) as [id|] eqn:Hgen; [|done].
  specialize (Hf id eq_refl). pose proof (gen_id_fresh _ _ _ Hgen) as Hn. cbn [mbind option_bind] in H.
  destruct (made id) as [c|e|]; [|by injection H as <- <-..].
  cbn zeta in H. set (sv1 := if locked then _ else _) in *.
  assert (Hs1 : sv_sessions sv1 = sv_sessions sv /\ sv_tasks sv1 = sv_tasks sv /\
    sv_tokens sv1 = S (sv_tokens sv) /\ sv_cancelled sv1 = sv_cancelled sv)
    by by unfold sv1; destruct locked.
  destruct Hs1 as (Hs & Ht & Hk & Hcn). injection H as <- <-.
  match goal with |- serial_inv ?w => set (sv2 := w) in * end.
  assert (Ht2 : sv_tasks sv2 = sv_tasks sv ++ [InitTask id None]) by (unfold sv2; cbn; by rewrite Ht).
  assert (Hr : forall i tok, running sv2 i tok <-> running sv i tok).
  { apply running_same. intros i c' tok. rewrite Ht2, elem_of_app, list_elem_of_singleton.
    split; [by intros [|]|by left]. }
  destruct Ho as [Hnd2 Ho2]. split; [done|done| | | | |].
  - intros p. rewrite Ht2. intros [Hp|Hp%list_elem_of_singleton]%elem_of_app; [|done].
    by apply (si_calls _ Hi p).
  - intros i s'. unfold sv2. cbn [sv_sessions set_tasks set_sessions]. rewrite Hs, get_session_app.
    destruct (get_session (sv_sessions sv) i) as [s|] eqn:Hg.
    + intros [= <-]. destruct (si_sessions _ Hi _ _ Hg) as [H1 H2 H3]. split; [|done|done].
      intros tok. rewrite H1. symmetry. apply Hr.
    + rewrite get_session_cons. case_bool; [|done]. intros [= <-]. split; [|done|by intros [|[]]].
      intros tok. cbn [se_spam_cancel ContenderSession_new]. split; [done|].
      intros Hrun%Hr. exfalso. destruct Hrun as [c' Hin]. rewrite Forall_forall in Hf.
      by apply (Hf _ Hin).
  - intros tok. unfold sv2. cbn [sv_cancelled sv_tokens set_tasks set_sessions]. rewrite Hcn, Hk.
    intros Hin. pose proof (si_tokens _ Hi tok Hin). lia.
  - intros i s'. unfold sv2. cbn [sv_sessions sv_tokens set_tasks set_sessions].
    rewrite Hs, Hk, get_session_app. destruct (get_session (sv_sessions sv) i) as [s|] eqn:Hg.
    + intros [= <-]. pose proof (si_used _ Hi _ _ Hg). lia.
    + rewrite get_session_cons. case_bool; [|done]. intros [= <-]. cbn. lia.
  - intros i tok Hrun%Hr. unfold sv2. cbn [sv_tokens set_tasks set_sessions]. rewrite Hk.
    pose proof (si_runs _ Hi _ _ Hrun). lia.
Qed.

Lemma serial_spawn sv t :
  serial_inv sv -> (forall i, task_owns i t = 0%nat) -> (forall p, t <> SpamCall p) ->
  (forall id c tok, t <> SpamTask id c tok) -> serial_inv (set_tasks (sv_tasks sv ++ [t]) sv).
Proof.
  intros Hi Ho Hc Hr. apply serial_inv_tasks; [done|split; [apply Hi|]| |].
  - intros i. rewrite spawn_owners by done. apply Hi.
  - intros p [Hp|Hp%list_elem_of_singleton]%elem_of_app; [by apply (si_calls _ Hi p)|].
    by destruct (Hc p).
  - intros id c tok. rewrite elem_of_app, list_elem_of_singleton. split; [|by left].
    intros [|Heq]; [done|]. by destruct (Hr id c tok).
Qed.

Lemma serial_fund_finish sv k res sv' r :
  serial_inv sv -> fund_finish k res sv = Some (sv', r) -> serial_inv sv'.
Proof.
  intros Hi. unfold fund_finish. destruct (sv_tasks sv !! k) as [[| | |id]|] eqn:Hk; try done.
  assert (Hi1 : serial_inv (set_tasks (delete k (sv_tasks sv)) sv)).
  { apply serial_inv_tasks; [done|split; [apply Hi|]| |].
    - intros i. pose proof (si_owners _ Hi i). pose proof (delete_owners sv k _ i Hk).
      unfold owners in *. cbn. lia.
    - intros p Hp. by apply (si_calls _ Hi p), (delete_elem_of _ k).
    - intros i c' tok. by apply (delete_other _ _ _ _ _ _ Hk). }
  destruct res as [|e|]; intros [= <- <-]; [done| |done].
  apply serial_inv_update; try done.
  - intros i. pose proof (si_owners _ Hi1 i). unfold owners in *. cbn.
    by rewrite update_owners_same.
  - intros s Hs. destruct (si_sessions _ Hi1 _ _ Hs) as [H1 H2 H3]. split; [exact H1|done|].
    intros [|Hx]; [done|apply H3; by right].
Qed.

Lemma serial_remove sv id locked : serial_inv sv -> serial_inv (remove_session id locked sv).
Proof.
  intros Hi. destruct (remove_fields id locked sv) as (Hs & Ht & Hk).
  assert (Hr : forall i tok, running (remove_session id locked sv) i tok <-> running sv i tok)
    by (intros i tok; unfold running; by rewrite Ht).
  apply (serial_inv_step sv); try done.
  - split; [apply (remove_owners id locked sv 0), Hi|]. intros i.
    destruct (remove_owners id locked sv i (si_ids _ Hi)). pose proof (si_owners _ Hi i). lia.
  - rewrite Ht. apply Hi.
  - intros i tok. apply Hr.
  - by rewrite Hk.
  - intros tok Hin. rewrite Hk. unfold remove_session in Hin.
    destruct (get_session (sv_sessions sv) id) as [s|] eqn:Hg.
    2: { apply (si_tokens _ Hi). by destruct locked. }
    assert (Hin' : tok ∈ session_tokens s ∪ sv_cancelled sv) by by destruct locked.
    apply elem_of_union in Hin' as [Hin'|Hin']; [|by apply (si_tokens _ Hi)].
    pose proof (si_used _ Hi _ _ Hg) as Hu. destruct (si_sessions _ Hi _ _ Hg) as [H1 _ _].
    unfold session_tokens in Hin'. destruct (se_spam_cancel s) as [t|].
    + apply elem_of_union in Hin' as [->%elem_of_singleton | ->%elem_of_singleton]; [|done].
      by apply (si_runs _ Hi (se_id s)), H1.
    + by apply elem_of_singleton in Hin' as ->.
  - intros i s'. rewrite Hs, get_session_filter. destruct (i =? id); [done|]. intros Hg.
    split; [|by exists s']. destruct (si_sessions _ Hi _ _ Hg) as [H1 H2 H3].
    split; [|done|done]. intros tok. rewrite H1. symmetry. apply Hr.
Qed.

Lemma serial_stop sv id : serial_inv sv -> serial_inv (stop id sv).1.
Proof.
  intros Hi. unfold stop. destruct (get_session (sv_sessions sv) id) as [s|] eqn:Hg; [|done].
  destruct (se_spam_cancel s) as [t|] eqn:Ht; [|done]. cbn [fst].
  destruct (si_sessions _ Hi _ _ Hg) as [H1 _ _].
  split; [apply Hi|apply Hi|apply Hi| | |apply Hi|apply Hi].
  - intros i s' Hg'. destruct (si_sessions _ Hi _ _ Hg'). by split.
  - intros tok. cbn. intros [->%elem_of_singleton|Hin]%elem_of_union; [|by apply (si_tokens _ Hi)].
    by apply (si_runs _ Hi (se_id s)), H1.
Qed.

Lemma serial_invariant sv : serial sv -> serial_inv sv.
Proof.
  induction 1 as [|sv a sv' r _ Hi Hf Hn H|sv p sv' rs _ Hi H].
  - split; [constructor|cbn; lia|by intros p ?%elem_of_nil|done|done|done|].
    by intros id tok [c ?%elem_of_nil].
  - destruct a; cbn [handle] in H; try done.
    + by eapply serial_add.
    + by eapply serial_init_take.
    + by eapply serial_init_end.
    + by injection H as <- <-.
    + by injection H as <- <-.
    + by injection H as <- <-.
    + by eapply serial_spam_finish.
    + injection H as H. replace sv' with (stop id sv).1 by by rewrite H. by apply serial_stop.
    + unfold fund_check in H. destruct (get_session _ _) as [s|]; [|by injection H as <- <-].
      destruct (fund_ready s); injection H as <- <-; try done. by apply serial_spawn.
    + by eapply serial_fund_finish.
    + injection H as <- <-. by apply serial_remove.
  - by eapply serial_spam_call.
Qed.

(** C6: as long as the two halves of a call of [spam] are not separated by
    another one, [stop] reaches the run: when the session is spamming, [stop]
    is accepted and cancels the token its run holds; when there is no run it is
    refused as not busy. *)
Theorem stop_reaches_run sv id s (Hr : serial sv) (Hs : get_session (sv_sessions sv) id = Some s) :
  (forall tok, running sv id tok ->
     exists sv' text, handle sv (StopSession id) = Some (sv', Ok (Text text)) /\ tok ∈ sv_cancelled sv') /\
  ((forall tok, ~ running sv id tok) ->
     handle sv (StopSession id) = Some (sv, Err (SessionNotBusy id))).
Proof.
  pose proof (serial_invariant sv Hr) as Hi. destruct (si_sessions _ Hi _ _ Hs) as [H1 _ _].
  rewrite (get_session_id _ _ _ Hs) in H1. cbn [handle]. unfold stop. rewrite Hs. split.
  - intros tok Hrun. apply H1 in Hrun as ->. eexists _, _. split; [done|]. cbn. set_solver.
  - intros Hno. destruct (se_spam_cancel s) as [t|]; [|done]. exfalso. by apply (Hno t), H1.
Qed.

(** C19: in every history in which no other request or task comes between the
    two locks of a call of [spam], a session that is ready accepts [spam]: the
    call's two halves leave a run with a token nobody has cancelled.  Whatever
    steps of such a history come between, when the run ends without an error and
    the session has not been removed, the session is ready again, has the run's
    contender and no token, so that it can spam again.  (With a request between
    the two locks this fails: see the findings and [racing_spam_unstoppable].) *)
Theorem ready_session_spams sv id s (p : SpamParams) (Hr : serial sv)
    (Hs : get_session (sv_sessions sv) id = Some s) (Hst : se_status s = Ready)
    (Hp : sp_session_id p = id) :
  (exists sv1 text c tok s1, run sv (spam_call p sv) = Some (sv1, [Ok Nothing; Ok (Text text)]) /\
     serial sv1 /\ se_contender s = Some (Init c) /\
     sv_tasks sv1 = sv_tasks sv ++ [SpamTask id c tok] /\ tok ∉ sv_cancelled sv1 /\
     get_session (sv_sessions sv1) id = Some s1 /\ se_status s1 = Spamming p) /\
  forall sv2 k c tok s2 c', serial sv2 -> sv_tasks sv2 !! k = Some (SpamTask id c tok) ->
    get_session (sv_sessions sv2) id = Some s2 ->
    exists sv3 s3, handle sv2 (SpamFinish k (SpamDone c' None)) = Some (sv3, Ok Nothing) /\
      get_session (sv_sessions sv3) id = Some s3 /\ se_status s3 = Ready /\
      se_contender s3 = Some (Init c') /\ se_spam_cancel s3 = None /\ serial sv3.
Proof.
  pose proof (serial_invariant sv Hr) as Hi. destruct (si_sessions _ Hi _ _ Hs) as [_ Hc _].
  destruct (Hc Hst) as [c Hcc]. split.
  - assert (Hrun : exists sv1 rs, run sv (spam_call p sv) = Some (sv1, rs)).
    { unfold spam_call. rewrite (run_cons _ _ _ _ _ (spam_check_ready sv p s ltac:(by rewrite Hp) Hst)).
      erewrite run_cons.
      2: { eapply (spam_start_ready _ _ p s c); [cbn; by rewrite list_lookup_middle|cbn; by rewrite Hp|done]. }
      cbn [run]. by eexists _, _. }
    destruct Hrun as (sv1 & rs & Hrun).
    destruct (serial_spam_call _ _ _ _ Hi Hrun) as (_ & s' & c0 & Hg' & Hc0 & -> & Ht & Hg1 & Hcan).
    rewrite Hp, Hs in *. injection Hg' as <-. exists sv1. eexists _, c0, (sv_tokens sv), _.
    split; [exact Hrun|]. split_and!; [by eapply serial_spam|done|done| |exact Hg1|done].
    rewrite Hcan. intros Hin. pose proof (si_tokens _ Hi _ Hin). lia.
  - intros sv2 k c1 tok s2 c' Hser Hk Hg.
    assert (Hf : exists sv3, handle sv2 (SpamFinish k (SpamDone c' None)) = Some (sv3, Ok Nothing))
      by (cbn [handle]; unfold spam_finish; rewrite Hk; by eexists).
    destruct Hf as [sv3 Hf]. assert (Hser3 : serial sv3) by by eapply (serial_step sv2 (SpamFinish _ _)).
    exists sv3. cbn [handle] in Hf. unfold spam_finish in Hf. rewrite Hk in Hf. injection Hf as <-.
    eexists. split; [cbn [handle]; unfold spam_finish; by rewrite Hk|].
    split; [|split_and!; [..|exact Hser3]].
    + cbn [sv_sessions update set_sessions set_tasks]. unfold put_initialized.
      rewrite !update_update, get_update, Z.eqb_refl, Hg by done. done.
    + done.
    + done.
    + done.
Qed.
End props.

(** ** Witnesses *)

Module SessionRunsWitness.
Export SessionsWitness.

Lemma serial_add_step sv draws sv' r :
  serial sv -> sv_tasks sv = [] \/ Forall (fun t => task_id t <> 8) (sv_tasks sv) ->
  handle sv (add draws) = Some (sv', r) -> gen_id (sv_sessions sv) draws = Some 8 \/ sv_tasks sv = [] ->
  serial sv'.
Proof.
  intros Hs Ht H Hg. eapply (serial_step sv (add draws)); [done| |done|done].
  cbn [fresh_id add]. intros id Hid. destruct Hg as [Hg|Hg]; [|rewrite Hg; constructor].
  rewrite Hg in Hid. injection Hid as <-. destruct Ht as [->|Ht]; [constructor|done].
Qed.

Lemma ready_serial : serial (after setup).
Proof.
  assert (H1 : serial (after [add [7]])).
  { eapply (serial_add_step Server_new [7]); [apply serial_new|by left|reflexivity|by right]. }
  assert (H2 : serial (after [add [7]; InitTake 0])).
  { eapply (serial_step _ (InitTake 0)); [exact H1|done|done|reflexivity]. }
  assert (H3 : serial (after [add [7]; InitTake 0; InitEnd 0 (Ok 10%nat)])).
  { eapply (serial_step _ (InitEnd 0 (Ok 10%nat))); [exact H2|done|done|reflexivity]. }
  eapply (serial_add_step _ [7; 7 + 2 ^ 32; 8]); [exact H3|by left|reflexivity|by right].
Qed.

Lemma reachable_after l sv :
  Forall (fun a => ~ adds a) l -> reachable sv -> reachable (after_from sv l).
Proof.
  unfold after_from. revert sv. induction l as [|a l IH]; intros sv Hl Hs; [done|]. cbn [run].
  apply Forall_cons in Hl as [Ha Hl]. destruct (handle sv a) as [[w r]|] eqn:Hh; [|done].
  assert (Hw : reachable w).
  { eapply (reach_step sv a); [exact Hs| |exact Hh]. by destruct a. }
  specialize (IH w Hl Hw). cbn. destruct (run w l) as [[w' rs]|]; [exact IH|exact Hs].
Qed.

Lemma ready_reachable : reachable (after setup).
Proof.
  assert (H1 : reachable (after [add [7]])).
  { eapply (reach_step Server_new (add [7])); [apply reach_new| |reflexivity].
    intros id _. constructor. }
  assert (H2 : reachable (after_from (after [add [7]]) [InitTake 0; InitEnd 0 (Ok 10%nat)])).
  { apply reachable_after; [no_adds|exact H1]. }
  eapply (reach_step _ (add [7; 7 + 2 ^ 32; 8])); [exact H2| |reflexivity].
  intros id _. constructor.
Qed.

Lemma contender_single_owner_witness :
  NoDup (se_id <$> sv_sessions (after_from (after setup)
    [SpamCheck (call 7); SpamCheck (call 7); SpamStart 1; RemoveSession 7 false])).
Proof.
  apply contender_single_owner, reachable_after; [no_adds|exact ready_reachable].
Defined.

Lemma racing_spam_unstoppable_witness :
  exists sv' : Server (U := nat) (I := nat), is_Some (get_session (sv_sessions sv') 7) /\
    sv_tasks sv' = [InitTask 8 None; SpamTask 7 10%nat 2] /\ 2%nat ∉ sv_cancelled sv'.
Proof.
  destruct (racing_spam_unstoppable (after setup) 7 second 10%nat (call 7) (call 7) second_ready)
    as (sv' & ok1 & ok2 & _ & Hs & Ht & Hc).
  - reflexivity.
  - reflexivity.
  - reflexivity.
  - reflexivity.
  - intros tok Htok. exfalso. exact (not_elem_of_empty tok Htok).
  - exists sv'. split; [exact Hs|]. split; [exact Ht|exact Hc].
Defined.

Lemma ready_session_spams_witness :
  exists sv1 text, run (after setup) (spam_call (call 7) (after setup)) =
    Some (sv1, [Ok Nothing; Ok (Text text)]).
Proof.
  destruct (ready_session_spams (after setup) 7 second (call 7) ready_serial second_ready eq_refl eq_refl)
    as [(sv1 & text & c & tok & s1 & H & _) _]. exists sv1, text. exact H.
Defined.

(** While the first session spams. *)
Lemma stop_reaches_run_witness :
  exists sv1 rs sv2 text, run (after setup) (spam_call (call 7) (after setup)) = Some (sv1, rs) /\
    handle sv1 (StopSession 7) = Some (sv2, Ok (Text text)) /\
    sv_tokens (after setup) ∈ sv_cancelled sv2.
Proof.
  destruct (run (after setup) (spam_call (call 7) (after setup))) as [[sv1 rs]|] eqn:H;
    [|discriminate H].
  assert (Hser : serial sv1) by (eapply serial_spam; [apply ready_serial|exact H]).
  destruct (serial_spam_call _ _ _ _ (serial_invariant _ ready_serial) H)
    as (_ & s & c & _ & _ & _ & Ht & Hg & _).
  destruct (stop_reaches_run sv1 7 _ Hser Hg) as [Hstop _].
  destruct (Hstop (sv_tokens (after setup))) as (sv2 & text & H2 & Hc).
  { exists c. rewrite Ht. apply elem_of_app. right. left. }
  exists sv1, rs, sv2, text. split; [reflexivity|]. split; [exact H2|exact Hc].
Defined.
End SessionRunsWitness.
